(* ===== verification/_CoqProject ===== *)
-Q . S2P
Prelude.v
GoStrings.v
Shared.v
GoErrors.v
GoValue.v
AsyncStatus.v
Reconciler.v
ReconcilerSafety.v
Secrets.v
JsonValues.v
Semantics.v
SpecResolution.v
MutationPolicy.v
RequestBuilder.v
Runtime.v
RuntimeStatus.v
RuntimeRead.v
RuntimeReconcile.v
RuntimeTrace.v
RuntimeDelete.v
RuntimeTracking.v
RuntimeManager.v
ServiceClients.v
EndpointSecrets.v
EndpointSafety.v
GuardClients.v
AuthConfig.v
ManagerConfig.v
GeneratorNames.v
GeneratorSemantics.v
RuntimeTypes.v
Sorting.v
ResourceTags.v
QueueRuntime.v
QueueSafety.v
QueueOverlay.v
QueueParity.v
NetworkClients.v
RouteTableClient.v
SecurityListClient.v
SubnetClient.v
NatGatewayClient.v
ServiceGatewayClient.v
InternetGatewayClient.v
NetworkSecurityGroupClient.v
VcnClient.v
DrgClient.v
NetworkSafety.v
ListPages.v
NotFoundGuards.v
GuardHooks.v
Sha256.v
CreateOnlyFingerprint.v
AiDataPlatformClient.v
MutabilityJoin.v
MutabilityDocs.v
MutabilityPolicy.v
ValidatorReports.v
ValidatorCoverage.v
ValidatorMetrics.v
