(* ===== verification/Prelude.v ===== *)
(** * Verification of the OCI Service Operator (OSOK) runtime: overview and prelude

    The operator manages Oracle Cloud (OCI) resources as Kubernetes custom
    resources.  Its own logic is one stack, generic in the resource:

    - [src/pkg/core]: [BaseReconciler.Reconcile] reads an object, keeps a finalizer
      on it, and calls a service manager to create, update or delete the OCI
      resource behind it;
    - [src/pkg/servicemanager/generatedruntime]: [ServiceClient], the service
      manager's engine: it builds requests from the spec by reflection, finds
      existing resources, decides between create, update and observe, follows work
      requests, confirms deletes and projects responses into the status;
    - [src/pkg/servicemanager] (async status, request ids, owned secrets),
      [src/pkg/errorutil] (error normalisation, delete classification),
      [src/pkg/credhelper] (secrets), [src/pkg/shared] and [src/pkg/util] (the
      status block and its condition list): what the two layers share.

    Around this stack stand clients that wrap the generated client of one service
    (endpoint secrets, delete guards, the hooks and the overlay of queues, the nine
    clients of the core networking resources, and about a hundred hook sets that repeat
    the same guards, shown on AI Data Platforms), the code generator that derives the
    runtime's semantics and the update policies from a formal catalogue, the schema validator that guards the
    coverage of the SDK, and the start-up code (authentication, manager options).  The
    generic stack is modelled as a whole; of its surroundings, the parts named below.

    ** Files

    - [Prelude], [GoStrings]: results, panics, the state monad and its notations,
      tactics and hints; the parts of [strings], [strconv] and [fmt] in use.
    - [Shared]: [common_types.go], [helpers.go]: status block, conditions, requeues.
    - [GoErrors]: error values, [errors.go], [errors_helper.go],
      [delete_classification.go].
    - [GoValue]: dynamic values and [reflect]; the accessors of
      [response_reflection.go].
    - [AsyncStatus]: [async_status.go], [request_id.go], [lifecycle_helpers.go].
    - [Reconciler], [ReconcilerSafety]: [reconciler.go], [finalizers.go],
      [predicate.go]; theorems on one run and on all reachable cluster states.
    - [Secrets]: [kubesecret_client.go], [managed_secret_helpers.go].
    - [JsonValues], [RequestBuilder]: [request_builder.go],
      [response_reflection.go]: JSON encoding and decoding, lookup paths, requests.
    - [Semantics]: [types.go] and the validation of formal semantics.
    - [SpecResolution]: [secrets.go].
    - [MutationPolicy]: [mutation_policy.go].
    - [Runtime], [RuntimeStatus]: configuration, hooks, [status_async.go].
    - [RuntimeRead]: [read_resolver.go], [hooks.go].
    - [RuntimeReconcile]: [workrequest_async.go], [delete.go], [reconcile.go].
    - [RuntimeTrace], [RuntimeDelete]: what OCI calls a run makes, and what a
      reported delete rests on.
    - [RuntimeTracking]: how the identifier of a resource is kept, given up and lost.
    - [RuntimeManager]: a generated service manager
      ([queue_servicemanager.go] and its likes) under the reconciler.
    - [RuntimeTypes]: what types values have, and that reflection keeps them; the
      range of requeue delays.
    - [ServiceClients]: clients that wrap a service client, and the manager over one
      ([queue_serviceclient.go], [queue_runtimehooks_generated.go]).
    - [EndpointSecrets], [EndpointSafety]: the endpoint secrets of queues, streams and
      MySQL DB systems ([*_endpoint_secret_client.go]) over the secret client.
    - [GuardClients]: [compartment_orphan_delete_client.go],
      [rediscluster_delete_guard_client.go], [bucket_namespace_client.go].
    - [QueueRuntime], [QueueSafety], [QueueParity]: [queue_runtime.go], its update
      decision, its work-request hooks and its capabilities.
    - [QueueOverlay]: [queue_generated_runtime_overlay_client.go].
    - [Sorting], [ResourceTags]: sorting by a key, joined keys; tag maps and what a
      service stores of an update.
    - [NetworkClients]: what the clients of [src/pkg/servicemanager/core] have copies
      of: comparisons, lifecycle conditions, the read of the tracked resource, the
      delegated reconcile, the update; the class [UpdateProtocol] that states what the
      update logic of a kind promises.
    - [RouteTableClient], [SecurityListClient], [SubnetClient], [NatGatewayClient],
      [ServiceGatewayClient], [InternetGatewayClient], [NetworkSecurityGroupClient],
      [VcnClient], [DrgClient]: one [core/<kind>/<kind>_runtime.go] each, with the
      spec and the status of [api/core/v1beta1/<kind>_types.go], and
      [drg_create_fallback_client.go]; each has its [UpdateProtocol] instance, and
      [SubnetClient] runs whole reconciles against a service.
    - [NetworkSafety]: theorems on all of them.
    - [ListPages]: the loops that read every page of a list, with and without a check
      for repeated tokens ([aidataplatform_runtime_client.go],
      [subscription_runtime_client.go]).
    - [NotFoundGuards], [GuardHooks]: clients that do not take 404
      NotAuthorizedOrNotFound for a delete: the class [RefusesAmbiguous] states what the
      generated runtime needs of their hooks, and the hooks and the confirming client of
      [aidataplatform_runtime_client.go] meet it.
    - [Sha256], [CreateOnlyFingerprint]: [crypto/sha256] and [encoding/hex] as executable
      definitions; the fingerprint of a create-only field in the status message.
    - [AiDataPlatformClient]: the rest of [aidataplatform_runtime_client.go] with the
      types of [aidataplatform_types.go].
    - [MutabilityJoin], [MutabilityDocs], [MutabilityPolicy]:
      [mutability_overlay_join.go], [mutability_overlay_docs_parser.go],
      [mutability_overlay.go], [mutability_overlay_integration.go],
      [vap_update_policy.go] and [vap_update_policy_integration.go] of the generator:
      which spec paths a ValidatingAdmissionPolicy lets change in place.
    - [ValidatorReports]: [internal/validator/diff], the baseline and the gate of
      [report/render.go], the comparison of SDK versions of [upgrade/analyzer.go].
    - [ValidatorCoverage]: [internal/validator/apispec] without its registry.
    - [ValidatorMetrics]: [internal/validator/metrics].
    - [AuthConfig]: [pkg/config], [pkg/authhelper].
    - [ManagerConfig]: [main_manager_config.go].
    - [GeneratorNames], [GeneratorSemantics]: [internal/generator/names.go],
      [runtime_semantics.go] and the async configuration of [config.go].

    ** How the code is modelled

    A Go function is a Rocq function of the same name; a method [c.f(x)] is [f c x].
    [(T, error)] is [result T GoError] (or a pair where the code returns both), a
    nil pointer is [None], and a panic is an outcome of its own.  Code that mutates
    the resource runs in the state monad [M] over the resource, a parameter world
    [W], a clock and an event trace; the trace is a ghost: it records the calls to
    OCI and their answers, and no definition reads it.  A status pointer points
    into the resource, so writes through it are writes to the current resource.

    What is not under [src] is a parameter: the Kubernetes client
    ([Reconciler.Client], [Secrets.KubeAPI]), the OCI operations and service hooks
    ([Runtime.Config], any functions on [W]), SDK decoders ([RequestBuilder.JsonCodec]),
    the clock and hashing ([Runtime.Env]).  What theorems rely on of them is stated
    as classes: [ReconcilerSafety.ClusterLaws], [Secrets.KubeLaws],
    [Secrets.KubeSequential], [Secrets.CredentialLaws], [EndpointSafety.KubeStore],
    [EndpointSafety.KubeErrors], [SubnetClient.SubnetService], [RuntimeTypes.CodecTyped], [QueueParity.JsonTextLaws], each with an instance.
    JSON text is a parameter as well ([QueueRuntime.JsonText]): only that what is
    printed can be read back is used of it.  A log of secret writes that the theorems
    speak of is added to the Kubernetes client by [EndpointSafety.logged_api]; it
    changes no answer.

    The three endpoint secret files differ in names only, so their shared steps are
    defined once over an [EndpointKind]; a wrapping client is a [SvcClient] over a
    [SvcClient].  Their resource pointers are not nil: the reconciler never passes
    one.  [sort.Slice] and [sort.Strings] are sorts by a key ([Sorting.sort_by]; the
    generator and the queues have insertion sorts of their own); times of the SDK are texts.  The nine networking files
    repeat most of their helpers; these are defined once, over a [NetworkKind], a
    [StatusBlock] and the calls of the SDK, and the context flag of
    [WithSkipExistingBeforeCreate] is an argument of the wrapped client ([CtxClient]).  A nil
    delegate or SDK client is [None] where the code tests for it.  What a service may
    report after an update is the relation [up_stored] of the kind: a field that was
    sent holds what was sent, up to the order and the additions that OCI documents,
    and a field that was not sent is unchanged.

    Conventions: strings are ASCII; JSON numbers are decimals that [float64] holds
    exactly; durations are 64-bit with their wrap-around; a Go map is an association
    list in one iteration order, and what does not depend on the order is proved so;
    a nil map is told from an empty one only where the code does (a map whose order
    no code can see is a [gmap]); percentages are exact quotients; promoted fields
    are unambiguous; [reflect.DeepEqual] is equality of values; structs with their
    own marshaler expose no fields and are zero iff they print null; the verb [%T]
    and the texts of [encoding/json] errors are abbreviated; [errors.Join] of one
    error is that error; loops over map literals run in the order create, update,
    delete.  Logging and metrics are left out.  Extra readings of the clock may be
    made where the code reads it once less; nothing depends on their number.

    Fuel: [comparableDiffPaths] recurses on pruned copies of the spec;
    [MutationPolicy.diffPaths] runs it with the nesting depth of the spec, and
    [diff_paths_terminate] shows that more changes nothing.  [JsonValues.strip_zeros]
    runs on the bit length of the mantissa, at least its number of digits.
    [GeneratorNames.singularize] runs on the length of the name, and every rule that
    recurses shortens it; [MutabilityJoin.underlyingTypeName] likewise.
    [MutabilityJoin.buildMutabilityOverlayFieldNodes] runs on the number of helper types,
    which is enough ([spec_tree_terminates]).  The page loops of [ListPages] run on any
    fuel: [list_pages_terminate] gives a bound for the guarded one, and the other one
    has none.  Everything else is structural.

    ** What the theorems show

    - Deletion is safe: the finalizer is released only after a confirmed delete
      ([finalizer_release_safe]), which under confirming semantics rests on an
      observation of the same run ([deleted_needs_evidence],
      [finalizer_release_evidenced]); a reachable state has an OCI resource whose
      object lost its finalizer only after the service manager confirmed a delete that
      had not happened ([no_orphan_reachable]); an unconfirmed delete is retried, a
      confirmed one ends; the manager's delete is called exactly for deleting objects
      with the finalizer ([single_manager_call]).
    - Writes are not repeated: at most one write per reconcile, none while a work
      request is tracked, no create of a tracked resource before a read said that it
      is gone ([tracked_resource_not_recreated]), one service-manager call per
      reconcile.
    - Reads select what they should: list selection, agreement of the two formal
      classifiers, order independence of lookups and comparisons.
    - Mutation policy: drift is reported exactly, an unchanged spec has none, and
      accepted semantics can be honoured.
    - Status: conditions are append-only, in-flight work requests are kept, legacy
      fields mirror the tracker, projections keep the tracker, successes and failures
      are recorded ([success_recorded], [failure_recorded]).
    - Secrets: guarded mutations are exact under concurrency, owned secrets are
      never overwritten or removed for others, ownership data round trips.
    - Wrapping clients: endpoint secrets respect owners under concurrency, but for one
      gap in the comparison of labels ([endpoint_sync_respects_owners]), and are let go
      before the finalizer is, as far as the cluster shows them
      ([endpoint_secret_released_last]); a busy Redis cluster and a queue that is still
      there keep it; the overlay reports no delete without an observation.
    - Queues: updates and consumer-group capabilities settle.
    - Networking: a failed read of the tracked resource ends the reconcile with the
      identity kept ([network_reads_guarded]); under the reconciler the finalizer of
      every kind is released only after its client's evidence, which for route tables and
      subnets includes an ambiguous 404 ([network_finalizer_evidenced]); a request to
      update that the service stored is not asked for again
      ([network_update_requests_settle]), and whole reconciles of a subnet converge
      ([subnet_reconciles_converge]), while a route table can lose its rules and need a
      second update ([route_rules_wiped]); a VCN is created
      again only when it is gone; rules are compared as multisets, spec and status of
      security rules round trip, and the rewriting of specs into the form of the live resource changes
      no decision ([subnet_normalisation_transparent], [vcn_lists_follow_live_order]);
      update-only settings follow a create, and the intent behind a public address is
      kept.
    - Ambiguous answers: where the hooks refuse 404 NotAuthorizedOrNotFound, it never
      releases a finalizer ([guarded_release_unambiguous],
      [confirm_read_guards_delete]).
    - Pages: both list loops return the pages of the service, joined
      ([list_pages_exact]); the guarded one always ends ([list_pages_terminate]).
    - AI Data Platforms: a changed create-only name is refused for as long as the
      platform is tracked ([create_only_drift_detected]), the marker in the message
      round trips ([fingerprint_round_trip]), an identifier is taken from a work request
      only when it is the only one ([recovered_id_unambiguous]), updates settle.
    - Update policies: a path is allowed in place exactly when the formal model and one
      unambiguous row of the documentation agree, as far as a search for phrases can tell
      ([allowed_paths_documented]); every
      mutation path is allowed or denied, and none both ([policy_partitions_paths]);
      generated documents pass their own validation ([overlay_documents_valid]); canonical
      keys resolve to themselves ([canonical_key_round_trip]).
    - Validator: the gates fail exactly on new gaps ([validator_gate_exact]) and on
      uncovered payloads ([api_gate_exact]), the coverage report is exact against what
      the API types declare ([api_coverage_exact]), the upgrade report lists exactly the differences, metrics
      by service and by scope add up to the aggregate and account for every payload
      field ([metrics_conserved], [coverage_metrics_account]), and
      the metric gate fails exactly on a changed scope or a worse metric.
    - Types and bounds: requests and projected resources keep their Go types,
      requeue delays are positive 64-bit numbers.
    - Generator: the runtime accepts exactly the generated semantics whose formal
      model is ready; both copies of the name functions agree; plurals round trip.
    - Configuration: only validated providers of supported types are handed out;
      manager options come from one source.
    - Errors: normalisation and classification tables, and the cases in which the
      code deviates from its intent ([classify_panics_on_wrapped],
      [missing_work_request_confirms_delete], [runtime_failure_not_retried],
      [created_identifier_lost],
      [gerund_states_read_as_active], [status_member_breaks_projection],
      [queue_in_progress_poll_fails], [queue_empty_tags_never_settle],
      [dbsystem_secret_never_settles], [related_not_found_taken_as_deleted],
      [route_rules_wiped], [icmp_restriction_lost],
      [security_list_omitted_never_settle], [subnet_ipv4_blocks_ignored],
      [drg_recovery_unreachable], [recreated_platform_refused],
      [ex_circle_unguarded], [negated_phrase_consents]).

    ** Not modelled, and what could follow

    [UnzipWallet], the vault client (unused), the wiring of controllers, API types
    other than those of queues, AI Data Platforms and core networking, the reflective checks of SDK types
    ([validateRouteTableSDKContract] and the one of security lists are parameters), the
    generator's SDK parser and templates, the fetching of documentation pages and the
    artifact files of the overlays, the checks of the formal catalogue, the source
    analysis and the rendering of the validator, site tooling.  Natural extensions: the
    hook sets of further hand-written services (the work-request clients of Data Safe,
    Operations Insights and DevOps among them), the package planning of the generator,
    and the checks of the formal catalogue. *)

From stdpp Require Export base sets list strings.
From Stdlib Require Export ZArith Lia Bool.

(** ** Results of Go functions *)

(** [sum]-style results: [Ok v] is [(v, nil)], [Err e] is [(zero, err)]. *)
Inductive result (A E : Type) : Type :=
| Ok (a : A)
| Err (e : E).
Arguments Ok {A E} a.
Arguments Err {A E} e.

Definition result_bind {A B E} (r : result A E) (f : A -> result B E) : result B E :=
  match r with Ok a => f a | Err e => Err e end.

Definition is_ok {A E} (r : result A E) : bool :=
  match r with Ok _ => true | Err _ => false end.

(** A run-time panic is an outcome of its own: Go code that performs a failed
    type assertion or calls a reflect method on the wrong kind does not return. *)
Inductive outcome (A : Type) : Type :=
| Ret (a : A)
| Panic.
Arguments Ret {A} a.
Arguments Panic {A}.

Definition outcome_bind {A B} (o : outcome A) (f : A -> outcome B) : outcome B :=
  match o with Ret a => f a | Panic => Panic end.

Definition outcome_map {A B} (f : A -> B) (o : outcome A) : outcome B :=
  outcome_bind o (fun a => Ret (f a)).

(** ** State passing with panics *)

Definition ST (S A : Type) : Type := S -> outcome A * S.

Definition st_ret {S A} (a : A) : ST S A := fun s => (Ret a, s).
Definition st_panic {S A} : ST S A := fun s => (Panic, s).
Definition st_bind {S A B} (m : ST S A) (f : A -> ST S B) : ST S B :=
  fun s => match m s with
           | (Ret a, s') => f a s'
           | (Panic, s') => (Panic, s')
           end.
Definition st_get {S} : ST S S := fun s => (Ret s, s).
Definition st_gets {S A} (f : S -> A) : ST S A := fun s => (Ret (f s), s).
Definition st_modify {S} (f : S -> S) : ST S unit := fun s => (Ret tt, f s).
Definition st_lift {S A} (o : outcome A) : ST S A := fun s => (o, s).

Declare Scope go_scope.
Delimit Scope go_scope with go.

Notation "'let*' x ':=' c 'in' k" := (st_bind c (fun x => k))
  (at level 200, x pattern, c at level 100, k at level 200, right associativity) : go_scope.
Notation "c ';;;' k" := (st_bind c (fun _ => k))
  (at level 199, k at level 200, right associativity) : go_scope.
Notation "'let?' x ':=' c 'in' k" := (outcome_bind c (fun x => k))
  (at level 200, x pattern, c at level 100, k at level 200, right associativity) : go_scope.

(** Running the first step of a sequence. *)
Lemma bind_step {S A B} (m : ST S A) (f : A -> ST S B) s a s1 : m s = (Ret a, s1) -> st_bind m f s = f a s1.
Proof. unfold st_bind. by intros ->. Qed.

(** Partial correctness of a computation: every normal return satisfies [Q],
    every panic satisfies [P]. *)
Definition wp {S A} (m : ST S A) (s : S) (Q : A -> S -> Prop) (P : S -> Prop) : Prop :=
  match m s with
  | (Ret a, s') => Q a s'
  | (Panic, s') => P s'
  end.

Section WpRules.
Context {S : Type}.

Lemma wp_ret {A} (a : A) (s : S) Q P : Q a s -> wp (st_ret a) s Q P.
Proof. done. Qed.

Lemma wp_bind {A B} (m : ST S A) (f : A -> ST S B) s Q P :
  wp m s (fun a s' => wp (f a) s' Q P) P -> wp (st_bind m f) s Q P.
Proof. unfold wp, st_bind. by destruct (m s) as [[a|] s']. Qed.

Lemma wp_bind_inv {A B} (m : ST S A) (f : A -> ST S B) s Q P :
  wp (st_bind m f) s Q P -> wp m s (fun a s' => wp (f a) s' Q P) P.
Proof. unfold wp, st_bind. by destruct (m s) as [[a|] s']. Qed.

Lemma wp_mono {A} (m : ST S A) s (Q Q' : A -> S -> Prop) (P P' : S -> Prop) :
  wp m s Q P -> (forall a s', Q a s' -> Q' a s') -> (forall s', P s' -> P' s') ->
  wp m s Q' P'.
Proof. unfold wp. destruct (m s) as [[a|] s']; auto. Qed.

Lemma wp_get (s : S) Q P : Q s s -> wp st_get s Q P.
Proof. done. Qed.

Lemma wp_gets {A} (f : S -> A) (s : S) Q P : Q (f s) s -> wp (st_gets f) s Q P.
Proof. done. Qed.

Lemma wp_modify (f : S -> S) (s : S) Q P : Q tt (f s) -> wp (st_modify f) s Q P.
Proof. done. Qed.
End WpRules.

(** Total correctness: the computation returns, and the result and final state satisfy [Q]. *)
Definition runs {S A} (m : ST S A) (s : S) (Q : A -> S -> Prop) : Prop := exists a s', m s = (Ret a, s') /\ Q a s'.

Lemma runs_bind {S A B} (m : ST S A) (f : A -> ST S B) s Q :
  runs m s (fun a s1 => runs (f a) s1 Q) -> runs (st_bind m f) s Q.
Proof. intros (a & s1 & Hm & b & s2 & Hf & HQ). exists b, s2. split; [|done]. by rewrite (bind_step _ _ _ _ _ Hm). Qed.

Lemma runs_ret {S A} (a : A) (s : S) Q : Q a s -> runs (st_ret a) s Q.
Proof. by exists a, s. Qed.

(** ** Automation *)

Create HintDb osok discriminated.

(** Case analysis on the scrutinee of a match in the goal or in a hypothesis. *)
Ltac case_goal :=
  match goal with
  | |- context [match ?x with _ => _ end] =>
      lazymatch x with
      | context [match _ with _ => _ end] => fail
      | _ => destruct x eqn:?
      end
  end.

Ltac case_hyp H :=
  match type of H with
  | context [match ?x with _ => _ end] =>
      lazymatch x with
      | context [match _ with _ => _ end] => fail
      | _ => destruct x eqn:?
      end
  end.

(** Case analysis on the [decide]s of the goal only. *)
Ltac decide_goal :=
  repeat match goal with |- context [decide ?P] => destruct (decide P) end.

(** Turn boolean tests in the context into propositions. *)
Ltac bool_prop :=
  repeat match goal with
  | H : _ && _ = true |- _ => apply andb_true_iff in H as [? ?]
  | H : _ || _ = false |- _ => apply orb_false_iff in H as [? ?]
  | H : negb _ = true |- _ => apply negb_true_iff in H
  | H : negb _ = false |- _ => apply negb_false_iff in H
  | H : String.eqb _ _ = true |- _ => apply String.eqb_eq in H
  | H : String.eqb _ _ = false |- _ => apply String.eqb_neq in H
  | H : (_ =? _)%Z = true |- _ => apply Z.eqb_eq in H
  | H : (_ =? _)%Z = false |- _ => apply Z.eqb_neq in H
  | H : (_ <=? _)%Z = true |- _ => apply Z.leb_le in H
  | H : (_ <=? _)%Z = false |- _ => apply Z.leb_gt in H
  | H : (_ <? _)%Z = true |- _ => apply Z.ltb_lt in H
  | H : (_ <? _)%Z = false |- _ => apply Z.ltb_ge in H
  end.

(** ** Generic lemmas on lists *)

(** [append] loops of Go: the first element that satisfies a test. *)
Fixpoint find_first {A} (p : A -> bool) (l : list A) : option A :=
  match l with
  | [] => None
  | x :: r => if p x then Some x else find_first p r
  end.

Lemma find_first_Some {A} (p : A -> bool) l x :
  find_first p l = Some x -> x ∈ l /\ p x = true.
Proof.
  induction l as [|y l IH]; simpl; [done|].
  destruct (p y) eqn:E; intros H; simplify_eq; [set_solver|].
  destruct (IH H). set_solver.
Qed.

Lemma find_first_None {A} (p : A -> bool) l :
  find_first p l = None <-> forall x, x ∈ l -> p x = false.
Proof.
  induction l as [|y l IH]; simpl; [split; [set_solver|done]|].
  destruct (p y) eqn:E; split; intros H.
  - done.
  - specialize (H y). rewrite H in E; [done|set_solver].
  - intros x [->|Hx]%elem_of_cons; [done|]. by apply IH.
  - apply IH. intros x Hx. apply H. set_solver.
Qed.

Lemma find_first_app {A} (p : A -> bool) l k :
  find_first p (l ++ k) = match find_first p l with Some x => Some x | None => find_first p k end.
Proof. induction l as [|y l IH]; simpl; [done|]. by destruct (p y). Qed.

Lemma existsb_In {A} (p : A -> bool) (l : list A) :
  existsb p l = true <-> exists x, x ∈ l /\ p x = true.
Proof.
  rewrite existsb_exists. split; intros (x & Hx & Hp); exists x; split; try done;
  by apply list_elem_of_In.
Qed.

Lemma filter_all {A} (p : A -> bool) (l : list A) :
  (forall x, x ∈ l -> p x = true) -> List.filter p l = l.
Proof.
  induction l as [|x l IH]; intros H; simpl; [done|].
  rewrite H by set_solver. f_equal. apply IH. set_solver.
Qed.

Lemma filter_nothing {A} (p : A -> bool) (l : list A) :
  (forall x, x ∈ l -> p x = false) -> List.filter p l = [].
Proof.
  induction l as [|x l IH]; intros H; simpl; [done|].
  rewrite H by set_solver. apply IH. set_solver.
Qed.

Lemma forallb_impl {A} (p q : A -> bool) (l : list A) :
  (forall x, p x = true -> q x = true) -> forallb p l = true -> forallb q l = true.
Proof. rewrite !forallb_forall. auto. Qed.

(** Two elements of a list whose images under [f] are distinct are equal when the images are. *)
Lemma NoDup_fmap_inv_elem {A B} (f : A -> B) (l : list A) x y :
  NoDup (map f l) -> x ∈ l -> y ∈ l -> f x = f y -> x = y.
Proof.
  induction l as [|z l IH]; simpl; [set_solver|].
  intros [Hz Hnd]%NoDup_cons Hx Hy Hf.
  apply elem_of_cons in Hx as [->|Hx]; apply elem_of_cons in Hy as [->|Hy]; [done| | |by apply IH].
  - exfalso. apply Hz. apply list_elem_of_fmap. by exists y.
  - exfalso. apply Hz. apply list_elem_of_fmap. by exists x.
Qed.

(** A search that at most one element satisfies does not depend on the order. *)
Lemma find_first_perm {A} (p : A -> bool) (l k : list A) :
  (forall x y, x ∈ l -> y ∈ l -> p x = true -> p y = true -> x = y) -> l ≡ₚ k ->
  find_first p l = find_first p k.
Proof.
  intros Huniq Hp. destruct (find_first p l) as [x|] eqn:E1, (find_first p k) as [y|] eqn:E2; try done.
  - apply find_first_Some in E1 as [Hx Px], E2 as [Hy Py]. f_equal. apply Huniq; try done. by rewrite Hp.
  - apply find_first_Some in E1 as [Hx Px]. rewrite find_first_None in E2. rewrite E2 in Px; [done|by rewrite <-Hp].
  - apply find_first_Some in E2 as [Hy Py]. rewrite find_first_None in E1. rewrite E1 in Py; [done|by rewrite Hp].
Qed.

Lemma flat_map_nil {A B} (f : A -> list B) (l : list A) :
  (forall x, x ∈ l -> f x = []) -> flat_map f l = [].
Proof.
  induction l as [|x l IH]; intros H; simpl; [done|].
  rewrite H by set_solver. apply IH. set_solver.
Qed.
