(* ===== verification/GoStrings.v ===== *)
(** * The parts of Go's [strings], [strconv] and [fmt] that the operator uses

    Go strings are byte sequences; the operator's tokens, lifecycle states and
    path segments are ASCII, and the case mappings and white-space tests below
    are those of Go on ASCII bytes. *)

From S2P Require Import Prelude.
From stdpp Require Import pretty.
From Stdlib Require Import Ascii String.
Local Open Scope string_scope.
Local Open Scope list_scope.

(** [unicode.IsSpace] on ASCII: tab, newline, vertical tab, form feed, carriage return, space. *)
Definition is_space (c : ascii) : bool :=
  let n := nat_of_ascii c in ((9 <=? n)%nat && (n <=? 13)%nat) || (n =? 32)%nat.

Definition is_upper (c : ascii) : bool :=
  let n := nat_of_ascii c in (65 <=? n)%nat && (n <=? 90)%nat.
Definition is_lower (c : ascii) : bool :=
  let n := nat_of_ascii c in (97 <=? n)%nat && (n <=? 122)%nat.
Definition is_digit (c : ascii) : bool :=
  let n := nat_of_ascii c in (48 <=? n)%nat && (n <=? 57)%nat.

Definition upper_char (c : ascii) : ascii :=
  if is_lower c then ascii_of_nat (nat_of_ascii c - 32) else c.
Definition lower_char (c : ascii) : ascii :=
  if is_upper c then ascii_of_nat (nat_of_ascii c + 32) else c.

Fixpoint string_map (f : ascii -> ascii) (s : string) : string :=
  match s with
  | EmptyString => EmptyString
  | String c s' => String (f c) (string_map f s')
  end.

Definition ToUpper : string -> string := string_map upper_char.
Definition ToLower : string -> string := string_map lower_char.

Fixpoint trim_left (s : string) : string :=
  match s with
  | EmptyString => EmptyString
  | String c s' => if is_space c then trim_left s' else s
  end.

Fixpoint trim_right (s : string) : string :=
  match s with
  | EmptyString => EmptyString
  | String c s' =>
      match trim_right s' with
      | EmptyString => if is_space c then EmptyString else String c EmptyString
      | t => String c t
      end
  end.

Definition TrimSpace (s : string) : string := trim_right (trim_left s).

Definition HasPrefix (s p : string) : bool := String.prefix p s.

(** [strings.Contains]. *)
Fixpoint Contains (s sub : string) : bool :=
  String.prefix sub s ||
  match s with
  | EmptyString => false
  | String _ s' => Contains s' sub
  end.

Fixpoint HasSuffix (s suf : string) : bool :=
  (s =? suf)%string ||
  match s with
  | EmptyString => false
  | String _ s' => HasSuffix s' suf
  end.

(** [strings.TrimSuffix]. *)
Fixpoint TrimSuffix (s suf : string) : string :=
  if (s =? suf)%string then EmptyString
  else match s with
       | EmptyString => EmptyString
       | String c s' => String c (TrimSuffix s' suf)
       end.

(** [strings.Split] with a one-byte separator. *)
Fixpoint Split (s : string) (sep : ascii) : list string :=
  match s with
  | EmptyString => [EmptyString]
  | String c s' =>
      if Ascii.eqb c sep then EmptyString :: Split s' sep
      else match Split s' sep with
           | [] => [String c EmptyString]
           | h :: t => String c h :: t
           end
  end.

(** [strings.Join]. *)
Fixpoint Join (l : list string) (sep : string) : string :=
  match l with
  | [] => EmptyString
  | [x] => x
  | x :: r => String.append x (String.append sep (Join r sep))
  end.

(** [strings.EqualFold] on ASCII. *)
Definition EqualFold (s t : string) : bool := (ToLower s =? ToLower t)%string.

(** [strconv.Itoa] and the [%d] verb. *)
Definition Itoa (z : Z) : string := pretty z.

Definition dquote : ascii := ascii_of_nat 34.
Definition backslash : ascii := ascii_of_nat 92.

Definition hex_digit (n : nat) : ascii :=
  if (n <? 10)%nat then ascii_of_nat (48 + n) else ascii_of_nat (87 + n).

(** One byte of [strconv.Quote] (the [%q] verb) on ASCII input. *)
Definition quote_char (c : ascii) : string :=
  let n := nat_of_ascii c in
  if (n =? 34)%nat || (n =? 92)%nat then String backslash (String c EmptyString)
  else if (n =? 7)%nat then String backslash "a"
  else if (n =? 8)%nat then String backslash "b"
  else if (n =? 12)%nat then String backslash "f"
  else if (n =? 10)%nat then String backslash "n"
  else if (n =? 13)%nat then String backslash "r"
  else if (n =? 9)%nat then String backslash "t"
  else if (n =? 11)%nat then String backslash "v"
  else if (n <? 32)%nat || (127 <=? n)%nat then
    String backslash (String "x" (String (hex_digit (n / 16)) (String (hex_digit (n mod 16)) EmptyString)))
  else String c EmptyString.

Fixpoint quote_body (s : string) : string :=
  match s with
  | EmptyString => EmptyString
  | String c s' => String.append (quote_char c) (quote_body s')
  end.

Definition Quote (s : string) : string :=
  String dquote (String.append (quote_body s) (String dquote EmptyString)).

Infix "+++" := String.append (at level 60, right associativity) : string_scope.

(** ** Lemmas *)

Lemma string_app_nil_r s : String.append s EmptyString = s.
Proof. induction s as [|c s IH]; [done|]. change (String c (String.append s "") = String c s). by rewrite IH. Qed.

Lemma string_app_cons c s t : String.append (String c s) t = String c (String.append s t).
Proof. done. Qed.

Lemma string_app_assoc s t u :
  String.append (String.append s t) u = String.append s (String.append t u).
Proof. induction s as [|c s IH]; [done|]. rewrite !string_app_cons. by rewrite IH. Qed.

Lemma string_map_comp f g s : string_map f (string_map g s) = string_map (fun c => f (g c)) s.
Proof. induction s as [|c s IH]; simpl; [done|]. by rewrite IH. Qed.

Lemma string_map_ext f g s : (forall c, f c = g c) -> string_map f s = string_map g s.
Proof. intros H. induction s as [|c s IH]; simpl; [done|]. by rewrite IH, H. Qed.

Lemma upper_char_idem c : upper_char (upper_char c) = upper_char c.
Proof. destruct c as [[] [] [] [] [] [] [] []]; reflexivity. Qed.
Lemma lower_char_idem c : lower_char (lower_char c) = lower_char c.
Proof. destruct c as [[] [] [] [] [] [] [] []]; reflexivity. Qed.
Lemma is_space_upper c : is_space (upper_char c) = is_space c.
Proof. destruct c as [[] [] [] [] [] [] [] []]; reflexivity. Qed.
Lemma is_space_lower c : is_space (lower_char c) = is_space c.
Proof. destruct c as [[] [] [] [] [] [] [] []]; reflexivity. Qed.

Lemma ToUpper_idem s : ToUpper (ToUpper s) = ToUpper s.
Proof. unfold ToUpper. rewrite string_map_comp. apply string_map_ext, upper_char_idem. Qed.
Lemma ToLower_idem s : ToLower (ToLower s) = ToLower s.
Proof. unfold ToLower. rewrite string_map_comp. apply string_map_ext, lower_char_idem. Qed.

Section TrimMap.
Context (f : ascii -> ascii) (Hf : forall c, is_space (f c) = is_space c).

Lemma trim_left_map s : trim_left (string_map f s) = string_map f (trim_left s).
Proof. induction s as [|c s IH]; simpl; [done|]. rewrite Hf. by destruct (is_space c). Qed.

Lemma trim_right_map s : trim_right (string_map f s) = string_map f (trim_right s).
Proof.
  induction s as [|c s IH]; simpl; [done|]. rewrite IH.
  destruct (trim_right s); simpl; [|done]. rewrite Hf. by destruct (is_space c).
Qed.

Lemma TrimSpace_map s : TrimSpace (string_map f s) = string_map f (TrimSpace s).
Proof. unfold TrimSpace. by rewrite trim_left_map, trim_right_map. Qed.
End TrimMap.

Lemma TrimSpace_ToUpper s : TrimSpace (ToUpper s) = ToUpper (TrimSpace s).
Proof. apply TrimSpace_map, is_space_upper. Qed.
Lemma TrimSpace_ToLower s : TrimSpace (ToLower s) = ToLower (TrimSpace s).
Proof. apply TrimSpace_map, is_space_lower. Qed.

Lemma trim_right_idem s : trim_right (trim_right s) = trim_right s.
Proof.
  induction s as [|c s IH]; simpl; [done|].
  destruct (trim_right s) as [|d t] eqn:E.
  - destruct (is_space c) eqn:Ec; simpl; [done|]. by rewrite Ec.
  - cbn [trim_right]. cbn [trim_right] in IH. by rewrite IH.
Qed.

Lemma trim_left_trim_right s : trim_left (trim_right (trim_left s)) = trim_right (trim_left s).
Proof.
  induction s as [|c s IH]; simpl; [done|].
  destruct (is_space c) eqn:E; [done|]. simpl.
  destruct (trim_right s); simpl; by rewrite E; simpl; rewrite ?E.
Qed.

Lemma TrimSpace_idem s : TrimSpace (TrimSpace s) = TrimSpace s.
Proof. unfold TrimSpace. by rewrite trim_left_trim_right, trim_right_idem. Qed.

Lemma TrimSpace_empty : TrimSpace "" = "".
Proof. reflexivity. Qed.

Lemma prefix_app_l p q s : String.prefix (p +++ q) s = true -> String.prefix p s = true.
Proof.
  revert s. induction p as [|c p IH]; intros s; [by destruct s|].
  rewrite string_app_cons. destruct s as [|d s]; simpl; [done|].
  destruct (ascii_dec c d); [apply IH|done].
Qed.

Lemma prefix_app_self p s : String.prefix p (p +++ s) = true.
Proof.
  induction p as [|c p IH]; [by destruct s|].
  rewrite string_app_cons. simpl. by destruct (ascii_dec c c).
Qed.

(** A longer pattern contained in [s] makes each of its prefixes contained in [s]. *)
Lemma Contains_prefix_mono s p q : Contains s (p +++ q) = true -> Contains s p = true.
Proof.
  induction s as [|c s IH]; cbn [Contains].
  - rewrite !orb_false_r. apply prefix_app_l.
  - rewrite !orb_true_iff. intros [H|H]; [left; by eapply prefix_app_l|right; auto].
Qed.

Lemma prefix_Contains s p : String.prefix p s = true -> Contains s p = true.
Proof. destruct s; cbn [Contains]; intros ->; done. Qed.

(** ... and each of its suffixes. *)
Lemma Contains_suffix_mono s p q : Contains s (p +++ q) = true -> Contains s q = true.
Proof.
  induction p as [|c p IH]; [done|]. rewrite string_app_cons. intros H. apply IH. clear IH. revert H.
  induction s as [|d s IH]; cbn [Contains]; [done|].
  rewrite !orb_true_iff. intros [H|H]; right; [|by apply IH].
  simpl in H. destruct (ascii_dec c d); [|done]. by apply prefix_Contains.
Qed.

Lemma Split_not_nil s sep : Split s sep <> [].
Proof.
  destruct s as [|c s]; simpl; [done|].
  destruct (Ascii.eqb c sep); [done|]. by destruct (Split s sep).
Qed.

(** [Join] undoes [Split]. *)
Lemma Join_Split s sep : Join (Split s sep) (String sep EmptyString) = s.
Proof.
  induction s as [|c s IH]; [done|].
  cbn [Split]. destruct (Ascii.eqb_spec c sep) as [->|Hne].
  - destruct (Split s sep) as [|h t] eqn:E; [by apply Split_not_nil in E|].
    change (String sep (Join (h :: t) (String sep "")) = String sep s). by rewrite IH.
  - destruct (Split s sep) as [|h t] eqn:E; [by apply Split_not_nil in E|].
    destruct t as [|h' t]; cbn [Join] in *.
    + by rewrite <- IH.
    + rewrite string_app_cons. by rewrite IH.
Qed.

#[export] Hint Rewrite TrimSpace_idem ToUpper_idem ToLower_idem : go_strings.
