(* ===== verification/Shared.v ===== *)
(** * Shared status types and condition bookkeeping

    [pkg/shared/common_types.go]: the status block that every custom resource of
    the operator carries, and [pkg/util/helpers.go]: the requeue results of the
    controllers and the condition list of that block.  Times are instants in
    nanoseconds, [None] is the nil pointer. *)

From S2P Require Import Prelude GoStrings.
Local Open Scope string_scope.

(** ** Types *)

Definition Time := Z.
Definition Duration := Z.

(** A decimal [mant * 10^exp]: the numbers of status and response bodies. *)
Record Dec := mkDec { dec_mant : Z; dec_exp : Z }.

#[export] Instance Dec_eq_dec : EqDecision Dec.
Proof. solve_decision. Defined.

Definition OSOKConditionType := string.
Definition ConditionStatus := string.
Definition OSOKAsyncSource := string.
Definition OSOKAsyncPhase := string.
Definition OSOKAsyncNormalizedClass := string.

Definition Provisioning : OSOKConditionType := "Provisioning".
Definition Active : OSOKConditionType := "Active".
Definition Failed : OSOKConditionType := "Failed".
Definition Terminating : OSOKConditionType := "Terminating".
Definition Updating : OSOKConditionType := "Updating".

Definition ConditionTrue : ConditionStatus := "True".
Definition ConditionFalse : ConditionStatus := "False".

Definition OSOKAsyncSourceNone : OSOKAsyncSource := "none".
Definition OSOKAsyncSourceLifecycle : OSOKAsyncSource := "lifecycle".
Definition OSOKAsyncSourceWorkRequest : OSOKAsyncSource := "workrequest".

Definition OSOKAsyncPhaseCreate : OSOKAsyncPhase := "create".
Definition OSOKAsyncPhaseUpdate : OSOKAsyncPhase := "update".
Definition OSOKAsyncPhaseDelete : OSOKAsyncPhase := "delete".

Definition OSOKAsyncClassPending : OSOKAsyncNormalizedClass := "pending".
Definition OSOKAsyncClassSucceeded : OSOKAsyncNormalizedClass := "succeeded".
Definition OSOKAsyncClassFailed : OSOKAsyncNormalizedClass := "failed".
Definition OSOKAsyncClassCanceled : OSOKAsyncNormalizedClass := "canceled".
Definition OSOKAsyncClassAttention : OSOKAsyncNormalizedClass := "attention".
Definition OSOKAsyncClassUnknown : OSOKAsyncNormalizedClass := "unknown".

Record OSOKCondition := mkCondition {
  cond_Type : OSOKConditionType;
  cond_Status : ConditionStatus;
  cond_LastTransitionTime : option Time;
  cond_Message : string;
  cond_Reason : string
}.

Record OSOKAsyncOperation := mkAsyncOp {
  op_Source : OSOKAsyncSource;
  op_Phase : OSOKAsyncPhase;
  op_WorkRequestID : string;
  op_RawStatus : string;
  op_RawOperationType : string;
  op_NormalizedClass : OSOKAsyncNormalizedClass;
  op_PercentComplete : option Dec;
  op_Message : string;
  op_UpdatedAt : option Time
}.

Record OSOKAsyncTracker := mkTracker { Current : option OSOKAsyncOperation }.

Record OSOKStatus := mkStatus {
  Conditions : list OSOKCondition;
  Async : OSOKAsyncTracker;
  OpcRequestID : string;
  Ocid : string;
  Message : string;
  Reason : string;
  CreatedAt : option Time;
  UpdatedAt : option Time;
  RequestedAt : option Time;
  DeletedAt : option Time
}.

#[export] Instance OSOKCondition_eq_dec : EqDecision OSOKCondition.
Proof. solve_decision. Defined.
#[export] Instance OSOKAsyncOperation_eq_dec : EqDecision OSOKAsyncOperation.
Proof. solve_decision. Defined.
#[export] Instance OSOKAsyncTracker_eq_dec : EqDecision OSOKAsyncTracker.
Proof. solve_decision. Defined.
#[export] Instance OSOKStatus_eq_dec : EqDecision OSOKStatus.
Proof. solve_decision. Defined.

(** The zero value [shared.OSOKStatus{}]. *)
Definition emptyStatus : OSOKStatus :=
  mkStatus [] (mkTracker None) "" "" "" "" None None None None.

(** Field assignments [status.F = v]. *)
Definition set_Conditions v s := mkStatus v (Async s) (OpcRequestID s) (Ocid s) (Message s) (Reason s) (CreatedAt s) (UpdatedAt s) (RequestedAt s) (DeletedAt s).
Definition set_Current v s := mkStatus (Conditions s) (mkTracker v) (OpcRequestID s) (Ocid s) (Message s) (Reason s) (CreatedAt s) (UpdatedAt s) (RequestedAt s) (DeletedAt s).
Definition set_OpcRequestID v s := mkStatus (Conditions s) (Async s) v (Ocid s) (Message s) (Reason s) (CreatedAt s) (UpdatedAt s) (RequestedAt s) (DeletedAt s).
Definition set_Ocid v s := mkStatus (Conditions s) (Async s) (OpcRequestID s) v (Message s) (Reason s) (CreatedAt s) (UpdatedAt s) (RequestedAt s) (DeletedAt s).
Definition set_Message v s := mkStatus (Conditions s) (Async s) (OpcRequestID s) (Ocid s) v (Reason s) (CreatedAt s) (UpdatedAt s) (RequestedAt s) (DeletedAt s).
Definition set_Reason v s := mkStatus (Conditions s) (Async s) (OpcRequestID s) (Ocid s) (Message s) v (CreatedAt s) (UpdatedAt s) (RequestedAt s) (DeletedAt s).
Definition set_CreatedAt v s := mkStatus (Conditions s) (Async s) (OpcRequestID s) (Ocid s) (Message s) (Reason s) v (UpdatedAt s) (RequestedAt s) (DeletedAt s).
Definition set_UpdatedAt v s := mkStatus (Conditions s) (Async s) (OpcRequestID s) (Ocid s) (Message s) (Reason s) (CreatedAt s) v (RequestedAt s) (DeletedAt s).
Definition set_RequestedAt v s := mkStatus (Conditions s) (Async s) (OpcRequestID s) (Ocid s) (Message s) (Reason s) (CreatedAt s) (UpdatedAt s) v (DeletedAt s).
Definition set_DeletedAt v s := mkStatus (Conditions s) (Async s) (OpcRequestID s) (Ocid s) (Message s) (Reason s) (CreatedAt s) (UpdatedAt s) (RequestedAt s) v.

(** ** Controller results ([pkg/util/helpers.go]) *)

(** [time.Second] and [time.Minute]; a [time.Duration] is an int64. *)
Definition Second : Duration := 1000000000%Z.
Definition Minute : Duration := (60 * Second)%Z.

Definition wrap64 (z : Z) : Z := ((z + 2 ^ 63) mod 2 ^ 64 - 2 ^ 63)%Z.

Lemma wrap64_range z : (- 2 ^ 63 <= wrap64 z < 2 ^ 63)%Z.
Proof. unfold wrap64. pose proof (Z.mod_pos_bound (z + 2 ^ 63) (2 ^ 64)). lia. Qed.

Lemma wrap64_id z : (- 2 ^ 63 <= z < 2 ^ 63)%Z -> wrap64 z = z.
Proof. intros H. unfold wrap64. rewrite Z.mod_small; lia. Qed.

Record Result := mkResult { Requeue : bool; RequeueAfter : Duration }.

Definition RequeueWithError {E} (err : E) (duration : Duration) : Result * option E :=
  (mkResult false duration, None).

Definition RequeueWithoutError {E} (duration : Duration) : Result * option E :=
  (mkResult false duration, None).

Definition DoNotRequeue {E} : Result * option E := (mkResult false 0%Z, None).

(** [GetOSOKStatusCondition] returns a pointer to the first condition of the type. *)
Definition GetOSOKStatusCondition (status : OSOKStatus) (conditionType : OSOKConditionType)
  : option OSOKCondition :=
  find_first (fun c => (cond_Type c =? conditionType)%string) (Conditions status).

(** [UpdateOSOKStatusCondition]; [now] is the value of [metav1.Now()] at its first line. *)
Definition UpdateOSOKStatusCondition (now : Time) (osokStatus : OSOKStatus)
    (conditionType : OSOKConditionType) (status : ConditionStatus)
    (reason message : string) : OSOKStatus :=
  match GetOSOKStatusCondition osokStatus conditionType with
  | None =>
      set_Conditions (Conditions osokStatus ++
        [mkCondition conditionType status (Some now) message reason]) osokStatus
  | Some existing =>
      let newCondition := mkCondition "" "" None "" "" in
      let next := mkCondition conditionType status (Some now) message "" in
      let '(newCondition, updated) :=
        if negb (cond_Type existing =? conditionType)%string then (next, true)
        else (newCondition, false) in
      let '(newCondition, updated) :=
        if negb (cond_Status existing =? status)%string then (next, true)
        else (newCondition, updated) in
      let '(newCondition, updated) :=
        if negb (cond_Message existing =? message)%string then (next, true)
        else (newCondition, updated) in
      if updated
      then set_Conditions (Conditions osokStatus ++ [newCondition]) osokStatus
      else osokStatus
  end.

(** ** The condition list is append-only *)

Lemma GetOSOKStatusCondition_type s t c :
  GetOSOKStatusCondition s t = Some c -> cond_Type c = t.
Proof. intros H. apply find_first_Some in H as [_ H]. by bool_prop. Qed.

(** What the update appends: nothing when the first condition of the type already has
    the status and message, one condition otherwise. *)
Definition appended_conditions (now : Time) (s : OSOKStatus) (t : OSOKConditionType)
    (st : ConditionStatus) (reason message : string) : list OSOKCondition :=
  match GetOSOKStatusCondition s t with
  | None => [mkCondition t st (Some now) message reason]
  | Some c =>
      if (cond_Status c =? st)%string && (cond_Message c =? message)%string then []
      else [mkCondition t st (Some now) message ""]
  end.

Lemma UpdateOSOKStatusCondition_spec now s t st reason msg :
  UpdateOSOKStatusCondition now s t st reason msg =
  set_Conditions (Conditions s ++ appended_conditions now s t st reason msg) s.
Proof.
  unfold UpdateOSOKStatusCondition, appended_conditions.
  destruct (GetOSOKStatusCondition s t) as [c|] eqn:E; [|done].
  apply GetOSOKStatusCondition_type in E. rewrite E, String.eqb_refl. simpl.
  destruct (cond_Status c =? st)%string, (cond_Message c =? msg)%string; simpl; try done.
  rewrite app_nil_r. by destruct s.
Qed.

Lemma appended_conditions_length now s t st reason msg :
  length (appended_conditions now s t st reason msg) <= 1.
Proof. unfold appended_conditions. repeat case_goal; simpl; lia. Qed.

(** Fields other than the condition list survive. *)
Lemma UpdateOSOKStatusCondition_frame now s t st reason msg :
  set_Conditions (Conditions s) (UpdateOSOKStatusCondition now s t st reason msg) = s.
Proof. rewrite UpdateOSOKStatusCondition_spec. by destruct s. Qed.

(** Once a condition of a type exists, appending never changes which one is found first. *)
Lemma first_condition_stable now s t st reason msg t' c :
  GetOSOKStatusCondition s t' = Some c ->
  GetOSOKStatusCondition (UpdateOSOKStatusCondition now s t st reason msg) t' = Some c.
Proof.
  intros H. rewrite UpdateOSOKStatusCondition_spec.
  unfold GetOSOKStatusCondition in *. simpl. by rewrite find_first_app, H.
Qed.

(** Repeating one update [n] times. *)
Fixpoint repeat_update (n : nat) (now : Time) (s : OSOKStatus) (t : OSOKConditionType)
    (st : ConditionStatus) (reason message : string) : OSOKStatus :=
  match n with
  | 0 => s
  | Datatypes.S m => UpdateOSOKStatusCondition now (repeat_update m now s t st reason message) t st reason message
  end.

Lemma repeat_update_first n now s t st reason msg c :
  GetOSOKStatusCondition s t = Some c ->
  GetOSOKStatusCondition (repeat_update n now s t st reason msg) t = Some c.
Proof. intros H. induction n as [|n IH]; simpl; [done|]. by apply first_condition_stable. Qed.

Lemma repeat_update_stale n now s t st reason msg c :
  GetOSOKStatusCondition s t = Some c ->
  cond_Status c <> st \/ cond_Message c <> msg ->
  Conditions (repeat_update n now s t st reason msg) =
  (Conditions s ++ repeat (mkCondition t st (Some now) msg "") n)%list.
Proof.
  intros Hc Hne. induction n as [|n IH]; [simpl; by rewrite app_nil_r|].
  cbn [repeat_update]. rewrite UpdateOSOKStatusCondition_spec. cbn [Conditions set_Conditions].
  rewrite IH, <- app_assoc. f_equal. cbn [repeat]. rewrite repeat_cons. f_equal.
  unfold appended_conditions. rewrite (repeat_update_first n now s t st reason msg c Hc).
  destruct (cond_Status c =? st)%string eqn:E1, (cond_Message c =? msg)%string eqn:E2; try done.
  bool_prop. naive_solver.
Qed.

Lemma repeat_update_fresh n now s t st reason msg :
  GetOSOKStatusCondition s t = None ->
  repeat_update (Datatypes.S n) now s t st reason msg = repeat_update 1 now s t st reason msg.
Proof.
  intros Hc. induction n as [|n IH]; [done|].
  change (UpdateOSOKStatusCondition now (repeat_update (Datatypes.S n) now s t st reason msg) t st reason msg
          = repeat_update 1 now s t st reason msg).
  rewrite IH. cbn [repeat_update]. rewrite (UpdateOSOKStatusCondition_spec now _ t st reason msg).
  set (s1 := UpdateOSOKStatusCondition now s t st reason msg).
  replace (appended_conditions now s1 t st reason msg) with (@nil OSOKCondition).
  { rewrite app_nil_r. by destruct s1. }
  unfold appended_conditions, s1. rewrite UpdateOSOKStatusCondition_spec.
  unfold GetOSOKStatusCondition in *. cbn [Conditions set_Conditions].
  rewrite find_first_app, Hc. unfold appended_conditions, GetOSOKStatusCondition. rewrite Hc.
  simpl. by rewrite !String.eqb_refl.
Qed.

(** ** Properties *)

(** [UpdateOSOKStatusCondition] only ever appends to the condition list, at most one entry per
    call, never removes or rewrites an existing entry, and leaves every other field of the status as
    it was; it appends nothing exactly when the first condition of that type already carries the
    requested status and message. *)
Theorem condition_list_append_only now s t st reason msg :
  exists added,
    Conditions (UpdateOSOKStatusCondition now s t st reason msg) = (Conditions s ++ added)%list /\
    length added <= 1 /\
    (added = [] <-> exists c, GetOSOKStatusCondition s t = Some c /\ cond_Status c = st /\ cond_Message c = msg) /\
    set_Conditions (Conditions s) (UpdateOSOKStatusCondition now s t st reason msg) = s.
Proof.
  exists (appended_conditions now s t st reason msg).
  split; [by rewrite UpdateOSOKStatusCondition_spec|].
  split; [apply appended_conditions_length|].
  split; [|apply UpdateOSOKStatusCondition_frame].
  unfold appended_conditions. destruct (GetOSOKStatusCondition s t) as [c|]; [|naive_solver].
  destruct (cond_Status c =? st)%string eqn:E1, (cond_Message c =? msg)%string eqn:E2;
    bool_prop; naive_solver.
Qed.

(** The condition list grows without bound: when the first condition of a type differs from the
    requested status or message, repeating one and the same update [n] times appends [n] equal
    entries, because the comparison is always made with the first condition of the type. *)
Theorem stale_condition_grows n now s t st reason msg c :
  GetOSOKStatusCondition s t = Some c ->
  cond_Status c <> st \/ cond_Message c <> msg ->
  length (Conditions (repeat_update n now s t st reason msg)) = length (Conditions s) + n.
Proof.
  intros Hc Hne. rewrite (repeat_update_stale n now s t st reason msg c) by done.
  by rewrite length_app, repeat_length.
Qed.

Lemma stale_condition_grows_witness :
  length (Conditions (repeat_update 5 7%Z
    (UpdateOSOKStatusCondition 1%Z emptyStatus Active ConditionTrue "" "first") Active ConditionTrue "" "second"))
  = 1 + 5.
Proof.
  apply (stale_condition_grows 5 7%Z
    (UpdateOSOKStatusCondition 1%Z emptyStatus Active ConditionTrue "" "first") Active ConditionTrue "" "second"
    (mkCondition Active ConditionTrue (Some 1%Z) "first" "")); [reflexivity|right; discriminate].
Defined.
