(* ===== verification/GoErrors.v ===== *)
(** * Error values and OCI error classification

    Go error values as the operator builds and inspects them, and
    [pkg/errorutil]: normalisation of OCI SDK service errors into typed errors
    ([errors.go], [errors_helper.go]) and the classification that decides how a
    failed delete is treated ([delete_classification.go]). *)

From S2P Require Import Prelude GoStrings Shared.
Local Open Scope string_scope.
Local Open Scope go_scope.

(** ** Error values *)

(** The field set shared by [ocierrors], [OciErrors] and the typed errors. *)
Record OciErrors := mkOciErrors {
  HTTPStatusCode : Z;
  ErrorCode : string;
  oe_OpcRequestID : string;
  Description : string
}.

(** The struct type of an [errorutil] error. *)
Inductive OciErrorType :=
| ocierrors
| OciErrors_t
| BadRequestOciError
| NotAuthenticatedOciError
| SignUpRequiredOciError
| UnauthorizedAndNotFoundOciError
| NotFoundOciError
| MethodNotAllowedOciError
| ConflictOciError
| NoEtagMatchOciError
| TooManyRequestsOciError
| InternalServerErrorOciError
| MethodNotImplementedOciError
| ServiceUnavailableOciError.

#[export] Instance OciErrors_eq_dec : EqDecision OciErrors.
Proof. solve_decision. Defined.
#[export] Instance OciErrorType_eq_dec : EqDecision OciErrorType.
Proof. solve_decision. Defined.

(** An error value of the OCI SDK that implements [common.ServiceError]: the four getters,
    its text and type name, and the fields [HTTPStatusCode] (an int) and [ErrorCode] (a string)
    when its struct happens to have both. *)
Record ServiceError := mkServiceError {
  GetHTTPStatusCode : Z;
  GetCode : string;
  GetOpcRequestID : string;
  GetMessage : string;
  svc_text : string;
  svc_type : string;
  svc_fields : option (Z * string)
}.

(** Any other error type: text, type name, the exported fields reflection looks for, for a
    Kubernetes API status error whether [IsNotFound] and [IsAlreadyExists] accept its reason, and the
    result of the method [GetOpcRequestID] when the type has one. *)
Record ForeignError := mkForeignError {
  fe_text : string;
  fe_type : string;
  fe_fields : option (Z * string);
  fe_opc : option string;
  fe_k8s : option (bool * bool);
  fe_getter : option string
}.

Inductive GoError :=
| ErrText (msg : string)                       (* errors.New, fmt.Errorf without %w *)
| ErrResourceNotFound                          (* the sentinel errResourceNotFound *)
| ErrWrap (msg : string) (inner : GoError)     (* fmt.Errorf with %w; msg is the whole text *)
| ErrJoin (e1 e2 : GoError)                    (* errors.Join of two non-nil errors *)
| ErrService (se : ServiceError)
| ErrOci (t : OciErrorType) (f : OciErrors)
| ErrForeign (f : ForeignError).

(** [reflect.TypeOf(err).String()] of the [errorutil] types. *)
Definition oci_type_name (t : OciErrorType) : string :=
  match t with
  | ocierrors => "errorutil.ocierrors"
  | OciErrors_t => "errorutil.OciErrors"
  | BadRequestOciError => "errorutil.BadRequestOciError"
  | NotAuthenticatedOciError => "errorutil.NotAuthenticatedOciError"
  | SignUpRequiredOciError => "errorutil.SignUpRequiredOciError"
  | UnauthorizedAndNotFoundOciError => "errorutil.UnauthorizedAndNotFoundOciError"
  | NotFoundOciError => "errorutil.NotFoundOciError"
  | MethodNotAllowedOciError => "errorutil.MethodNotAllowedOciError"
  | ConflictOciError => "errorutil.ConflictOciError"
  | NoEtagMatchOciError => "errorutil.NoEtagMatchOciError"
  | TooManyRequestsOciError => "errorutil.TooManyRequestsOciError"
  | InternalServerErrorOciError => "errorutil.InternalServerErrorOciError"
  | MethodNotImplementedOciError => "errorutil.MethodNotImplementedOciError"
  | ServiceUnavailableOciError => "errorutil.ServiceUnavailableOciError"
  end.

(** [ocierrors.Error]. *)
Definition ocierrors_Error (o : OciErrors) : string :=
  "Service error:" +++ ErrorCode o +++ ". " +++ Description o +++ ". http status code: " +++
  Itoa (HTTPStatusCode o) +++ ". Opc request id: " +++ oe_OpcRequestID o.

(** [OciErrors.Error] and the same method of every typed error. *)
Definition OciErrors_Error (bd : OciErrors) : string :=
  "Service error:" +++ Description bd +++ ". http status code: " +++
  Itoa (HTTPStatusCode bd) +++ ". Opc request id: " +++ oe_OpcRequestID bd.

(** [err.Error()]. *)
Fixpoint ErrorString (e : GoError) : string :=
  match e with
  | ErrText m => m
  | ErrResourceNotFound => "generated runtime resource not found"
  | ErrWrap m _ => m
  | ErrJoin e1 e2 => ErrorString e1 +++ String (Ascii.ascii_of_nat 10) (ErrorString e2)
  | ErrService se => svc_text se
  | ErrOci ocierrors f => ocierrors_Error f
  | ErrOci _ f => OciErrors_Error f
  | ErrForeign f => fe_text f
  end.

(** [errors.As(err, &serviceErr)] with a target of type [common.ServiceError]. *)
Fixpoint as_service (e : GoError) : option ServiceError :=
  match e with
  | ErrService se => Some se
  | ErrWrap _ inner => as_service inner
  | ErrJoin e1 e2 => match as_service e1 with Some se => Some se | None => as_service e2 end
  | _ => None
  end.

(** [errors.As(err, &getter)] with a target of the interface that asks for [GetOpcRequestID]: the
    identifier that the first such error of the chain returns. *)
Fixpoint as_getter (e : GoError) : option string :=
  match e with
  | ErrService se => Some (GetOpcRequestID se)
  | ErrForeign f => fe_getter f
  | ErrWrap _ inner => as_getter inner
  | ErrJoin e1 e2 => match as_getter e1 with Some id => Some id | None => as_getter e2 end
  | _ => None
  end.

(** [errors.Is(err, errResourceNotFound)]. *)
Fixpoint is_resource_not_found (e : GoError) : bool :=
  match e with
  | ErrResourceNotFound => true
  | ErrWrap _ inner => is_resource_not_found inner
  | ErrJoin e1 e2 => is_resource_not_found e1 || is_resource_not_found e2
  | _ => false
  end.

(** The API status a Kubernetes error predicate looks at: the first one in the chain. *)
Fixpoint as_k8s (e : GoError) : option (bool * bool) :=
  match e with
  | ErrForeign f => fe_k8s f
  | ErrWrap _ inner => as_k8s inner
  | ErrJoin e1 e2 => match as_k8s e1 with Some r => Some r | None => as_k8s e2 end
  | _ => None
  end.

(** [apierrors.IsNotFound] and [apierrors.IsAlreadyExists]. *)
Definition k8s_IsNotFound (e : GoError) : bool :=
  match as_k8s e with Some (nf, _) => nf | None => false end.
Definition k8s_IsAlreadyExists (e : GoError) : bool :=
  match as_k8s e with Some (_, ae) => ae | None => false end.

(** [errors.Join(e1, e2)]: nil arguments are dropped. *)
Definition errors_Join (e1 e2 : option GoError) : option GoError :=
  match e1, e2 with
  | Some a, Some b => Some (ErrJoin a b)
  | Some a, None => Some a
  | None, r => r
  end.

(** ** Normalisation ([errors.go], [errors_helper.go]) *)

Definition CannotParseRequest := "CannotParseRequest".
Definition InvalidParameters := "InvalidParameters".
Definition InvalidParameter := "InvalidParameter".
Definition LimitExceeded := "LimitExceeded".
Definition MissingParameters := "MissingParameters".
Definition MissingParameter := "MissingParameter".
Definition QuotaExceeded := "QuotaExceeded".
Definition RelatedResourceNotAuthorizedOrNotFound := "RelatedResourceNotAuthorizedOrNotFound".
Definition NotAuthenticated := "NotAuthenticated".
Definition SignUpRequired := "SignUpRequired".
Definition NotAuthorizedOrNotFound := "NotAuthorizedOrNotFound".
Definition NotFound := "NotFound".
Definition MethodNotAllowed := "MethodNotAllowed".
Definition IncorrectState := "IncorrectState".
Definition InvalidatedRetryToken := "InvalidatedRetryToken".
Definition NotAuthorizedOrResourceAlreadyExists := "NotAuthorizedOrResourceAlreadyExists".
Definition NotAuthorized := "NotAuthorized".
Definition NoEtagMatch := "NoEtagMatch".
Definition TooManyRequests := "TooManyRequests".
Definition InternalServerError := "InternalServerError".
Definition MethodNotImplemented := "MethodNotImplemented".
Definition ServiceUnavailable := "ServiceUnavailable".

(** The [...Response] constructors copy code, status and request id and replace the description. *)
Definition typed_response (t : OciErrorType) (se : OciErrors) (description : string) : GoError :=
  ErrOci t (mkOciErrors (HTTPStatusCode se) (ErrorCode se) (oe_OpcRequestID se) description).

Definition BadRequestResponse := typed_response BadRequestOciError.
Definition NotAuthenticatedResponse := typed_response NotAuthenticatedOciError.
Definition SignUpRequiredResponse := typed_response SignUpRequiredOciError.
Definition UnauthorizedAndNotFoundResponse := typed_response UnauthorizedAndNotFoundOciError.
Definition NotFoundResponse := typed_response NotFoundOciError.
Definition MethodNotAllowedResponse := typed_response MethodNotAllowedOciError.
Definition ConflictResponse := typed_response ConflictOciError.
Definition NoEtagMatchResponse := typed_response NoEtagMatchOciError.
Definition TooManyRequestsResponse := typed_response TooManyRequestsOciError.
Definition InternalServerErrorResponse := typed_response InternalServerErrorOciError.
Definition MethodNotImplementedResponse := typed_response MethodNotImplementedOciError.
Definition ServiceUnavailableResponse := typed_response ServiceUnavailableOciError.

Definition specific400Error (se : OciErrors) : bool * option GoError :=
  let errorCode := ErrorCode se in
  if (errorCode =? CannotParseRequest)%string then
    (false, Some (BadRequestResponse se "The request is incorrectly formatted"))
  else if (errorCode =? InvalidParameter)%string || (errorCode =? InvalidParameters)%string then
    (false, Some (BadRequestResponse se "Parameter is invalid or incorrectly formatted"))
  else if (errorCode =? MissingParameter)%string || (errorCode =? MissingParameters)%string then
    (false, Some (BadRequestResponse se "Required parameter is missing"))
  else if (errorCode =? LimitExceeded)%string then
    (false, Some (BadRequestResponse se "Fulfilling this request exceeds the Oracle-defined limit for this tenancy for this resource type"))
  else if (errorCode =? QuotaExceeded)%string then
    (false, Some (BadRequestResponse se "Fulfilling this request exceeds the administrator-defined quota for this compartment for this resource"))
  else if (errorCode =? RelatedResourceNotAuthorizedOrNotFound)%string then
    (false, Some (BadRequestResponse se "A resource specified in the body of the request was not found, or you do not have authorization to access that resource"))
  else (false, Some (BadRequestResponse se "Bad Request")).

Definition specific401Error (se : OciErrors) : bool * option GoError :=
  if (ErrorCode se =? NotAuthenticated)%string then
    (false, Some (NotAuthenticatedResponse se "The required authentication information was not provided or was incorrect"))
  else (false, Some (ErrOci ocierrors se)).

Definition specific402Error (se : OciErrors) : bool * option GoError :=
  if (ErrorCode se =? SignUpRequired)%string then
    (false, Some (SignUpRequiredResponse se "This operation requires opt-in before it may be called"))
  else (false, Some (ErrOci ocierrors se)).

Definition specific403Error (se : OciErrors) : bool * option GoError :=
  if (ErrorCode se =? NotAuthorized)%string then
    (false, Some (UnauthorizedAndNotFoundResponse se "You do not have authorization to update one or more of the fields included in this request"))
  else (false, Some (ErrOci ocierrors se)).

Definition specific404Error (se : OciErrors) : bool * option GoError :=
  if (ErrorCode se =? NotFound)%string then
    (false, Some (NotFoundResponse se "There is no operation supported at the URI path and HTTP method you specified in the request"))
  else if (ErrorCode se =? NotAuthorizedOrNotFound)%string then
    (false, Some (UnauthorizedAndNotFoundResponse se "A resource specified via the URI (path or query parameters) of the request was not found, or you do not have authorization to access that resource"))
  else (false, Some (ErrOci ocierrors se)).

Definition specific405Error (se : OciErrors) : bool * option GoError :=
  if (ErrorCode se =? MethodNotAllowed)%string then
    (false, Some (MethodNotAllowedResponse se "The target resource does not support the HTTP method"))
  else (false, Some (ErrOci ocierrors se)).

Definition specific409Error (se : OciErrors) : bool * option GoError :=
  let errorCode := ErrorCode se in
  if (errorCode =? IncorrectState)%string then
    (false, Some (ConflictResponse se "The requested state for the resource conflicts with its current state"))
  else if (errorCode =? InvalidatedRetryToken)%string then
    (false, Some (ConflictResponse se "The provided retry token was used in an earlier request that resulted in a system update, but a subsequent operation invalidated the token"))
  else if (errorCode =? NotAuthorizedOrResourceAlreadyExists)%string then
    (false, Some (ConflictResponse se "You do not have authorization to perform this request, or the resource you are attempting to create already exists"))
  else (false, Some (ErrOci ocierrors se)).

Definition specific412Error (se : OciErrors) : bool * option GoError :=
  if (ErrorCode se =? NoEtagMatch)%string then
    (false, Some (NoEtagMatchResponse se "The ETag specified in the request does not match the ETag for the resource"))
  else (false, Some (ErrOci ocierrors se)).

Definition specific429Error (se : OciErrors) : bool * option GoError :=
  if (ErrorCode se =? TooManyRequests)%string then
    (false, Some (TooManyRequestsResponse se "You have issued too many requests to the Oracle Cloud Infrastructure APIs in too short of an amount of time"))
  else (false, Some (ErrOci ocierrors se)).

Definition specific500Error (se : OciErrors) : bool * option GoError :=
  if (ErrorCode se =? InternalServerError)%string then
    (false, Some (InternalServerErrorResponse se "An internal server error occurred"))
  else (false, Some (ErrOci ocierrors se)).

Definition specific501Error (se : OciErrors) : bool * option GoError :=
  if (ErrorCode se =? MethodNotImplemented)%string then
    (false, Some (MethodNotImplementedResponse se "The HTTP request target does not recognize the HTTP method"))
  else (false, Some (ErrOci ocierrors se)).

Definition specific503Error (se : OciErrors) : bool * option GoError :=
  if (ErrorCode se =? ServiceUnavailable)%string then
    (false, Some (ServiceUnavailableResponse se "The service is currently unavailable"))
  else (false, Some (ErrOci ocierrors se)).

Definition check4xxFailures (se : OciErrors) : bool * option GoError :=
  let statusCode := HTTPStatusCode se in
  if (statusCode =? 400)%Z then specific400Error se
  else if (statusCode =? 401)%Z then specific401Error se
  else if (statusCode =? 402)%Z then specific402Error se
  else if (statusCode =? 403)%Z then specific403Error se
  else if (statusCode =? 404)%Z then specific404Error se
  else if (statusCode =? 405)%Z then specific405Error se
  else if (statusCode =? 409)%Z then specific409Error se
  else if (statusCode =? 412)%Z then specific412Error se
  else if (statusCode =? 429)%Z then specific429Error se
  else (false, Some (ErrOci ocierrors se)).

Definition check5xxFailures (se : OciErrors) : bool * option GoError :=
  let statusCode := HTTPStatusCode se in
  if (statusCode =? 500)%Z then specific500Error se
  else if (statusCode =? 501)%Z then specific501Error se
  else if (statusCode =? 503)%Z then specific503Error se
  else (false, Some (ErrOci ocierrors se)).

Definition NewServiceFailureFromResponse (code : string) (statusCode : Z) (opcRequestId message : string)
  : bool * option GoError :=
  let se := mkOciErrors statusCode code opcRequestId message in
  let status := HTTPStatusCode se in
  if (400 <=? status)%Z && (status <=? 499)%Z then check4xxFailures se
  else if (500 <=? status)%Z && (status <=? 599)%Z then check5xxFailures se
  else (true, None).

(** [OciErrorTypeResponse] asserts [err.(common.ServiceError)] on the error itself: any other
    error, a wrapper of a service error included, panics. *)
Definition OciErrorTypeResponse (err : GoError) : outcome (bool * option GoError) :=
  match err with
  | ErrService se =>
      Ret (NewServiceFailureFromResponse (GetCode se) (GetHTTPStatusCode se) (GetOpcRequestID se) (GetMessage se))
  | _ => Panic
  end.

(** [errorutil.OpcRequestID]. *)
Definition error_opc_field (err : GoError) : option string :=
  match err with
  | ErrOci _ f => Some (oe_OpcRequestID f)
  | ErrForeign f => fe_opc f
  | _ => None
  end.

Definition errorutil_OpcRequestID (err : option GoError) : string :=
  match err with
  | None => ""
  | Some e =>
      match as_service e with
      | Some se => TrimSpace (GetOpcRequestID se)
      | None => match error_opc_field e with Some s => TrimSpace s | None => "" end
      end
  end.

(** ** Classification of delete errors ([delete_classification.go]) *)

Record DeleteErrorClassification := mkClassification {
  cls_HTTPStatusCode : Z;
  cls_ErrorCode : string;
  cls_NormalizedType : string
}.

(** [structuredOCIErrorFields]: the two fields, found by reflection. *)
Definition structuredOCIErrorFields (err : GoError) : option (Z * string) :=
  match err with
  | ErrOci _ f => Some (HTTPStatusCode f, ErrorCode f)
  | ErrService se => svc_fields se
  | ErrForeign f => fe_fields f
  | _ => None
  end.

Definition typeName (err : GoError) : string :=
  match err with
  | ErrText _ | ErrResourceNotFound => "*errors.errorString"
  | ErrWrap _ _ => "*fmt.wrapError"
  | ErrJoin _ _ => "*errors.joinError"
  | ErrService se => svc_type se
  | ErrOci t _ => oci_type_name t
  | ErrForeign f => fe_type f
  end.

Definition ClassifyDeleteError (err : option GoError) : outcome DeleteErrorClassification :=
  match err with
  | None => Ret (mkClassification 0 "" "")
  | Some err =>
      let? (status, code, normalized) :=
        match as_service err with
        | Some serviceErr =>
            let? (_, normalizedErr) := OciErrorTypeResponse err in
            Ret (GetHTTPStatusCode serviceErr, GetCode serviceErr,
                 match normalizedErr with Some n => n | None => err end)
        | None => Ret (0%Z, "", err)
        end in
      let '(status, code) :=
        match structuredOCIErrorFields normalized with
        | Some (statusCode, errorCode) =>
            (if (status =? 0)%Z then statusCode else status,
             if (code =? "")%string then errorCode else code)
        | None => (status, code)
        end in
      Ret (mkClassification status code (typeName normalized))
  end.

Definition HTTPStatusCodeString (c : DeleteErrorClassification) : string :=
  if (cls_HTTPStatusCode c =? 0)%Z then "unknown" else Itoa (cls_HTTPStatusCode c).
Definition ErrorCodeString (c : DeleteErrorClassification) : string :=
  if (cls_ErrorCode c =? "")%string then "unknown" else cls_ErrorCode c.
Definition NormalizedTypeString (c : DeleteErrorClassification) : string :=
  if (cls_NormalizedType c =? "")%string then "unknown" else cls_NormalizedType c.

Definition IsUnambiguousNotFound (c : DeleteErrorClassification) : bool :=
  (cls_HTTPStatusCode c =? 404)%Z && (cls_ErrorCode c =? NotFound)%string.
Definition IsAuthShapedNotFound (c : DeleteErrorClassification) : bool :=
  (cls_HTTPStatusCode c =? 404)%Z && (cls_ErrorCode c =? NotAuthorizedOrNotFound)%string.
Definition IsConflict (c : DeleteErrorClassification) : bool :=
  if negb (cls_HTTPStatusCode c =? 409)%Z then false
  else (cls_ErrorCode c =? IncorrectState)%string || (cls_ErrorCode c =? "ExternalServerIncorrectState")%string.

(** ** Error predicates of the generated runtime ([response_reflection.go]) *)

Definition normalizeOCIError (err : GoError) : outcome GoError :=
  match as_service err with
  | None => Ret err
  | Some _ =>
      let? (_, normalized) := OciErrorTypeResponse err in
      Ret (match normalized with Some n => n | None => err end)
  end.

Definition isReadNotFound (err : GoError) : outcome bool :=
  if is_resource_not_found err then Ret true
  else let? c := ClassifyDeleteError (Some err) in Ret (IsUnambiguousNotFound c).

Definition isDeleteNotFound (err : GoError) : outcome bool :=
  if is_resource_not_found err then Ret true
  else let? c := ClassifyDeleteError (Some err) in
       Ret (IsUnambiguousNotFound c || IsAuthShapedNotFound c).

Definition isRetryableDeleteConflict (err : GoError) : outcome bool :=
  let? c := ClassifyDeleteError (Some err) in
  Ret (if negb (cls_HTTPStatusCode c =? 409)%Z then false
       else (cls_ErrorCode c =? IncorrectState)%string ||
            (cls_ErrorCode c =? "ExternalServerIncorrectState")%string).

(** ** Lemmas *)

(** The fields every normalised error keeps. *)
Definition keeps_fields (se : OciErrors) (e : GoError) : Prop :=
  exists t d, e = ErrOci t (mkOciErrors (HTTPStatusCode se) (ErrorCode se) (oe_OpcRequestID se) d).

Lemma keeps_typed t se d : keeps_fields se (typed_response t se d).
Proof. by exists t, d. Qed.
Lemma keeps_raw se : keeps_fields se (ErrOci ocierrors se).
Proof. exists ocierrors, (Description se). by destruct se. Qed.
#[export] Hint Resolve keeps_typed keeps_raw : osok.

Ltac solve_keeps :=
  repeat case_goal; eexists; (split; [reflexivity|]);
  first [apply keeps_typed | apply keeps_raw].

Lemma check4xx_keeps se : exists e, check4xxFailures se = (false, Some e) /\ keeps_fields se e.
Proof.
  unfold check4xxFailures, specific400Error, specific401Error, specific402Error, specific403Error,
    specific404Error, specific405Error, specific409Error, specific412Error, specific429Error.
  solve_keeps.
Qed.

Lemma check5xx_keeps se : exists e, check5xxFailures se = (false, Some e) /\ keeps_fields se e.
Proof.
  unfold check5xxFailures, specific500Error, specific501Error, specific503Error. solve_keeps.
Qed.

Lemma NewServiceFailure_keeps code status opc msg :
  (400 <= status <= 599)%Z ->
  exists e, NewServiceFailureFromResponse code status opc msg = (false, Some e) /\
            keeps_fields (mkOciErrors status code opc msg) e.
Proof.
  intros H. unfold NewServiceFailureFromResponse. simpl.
  destruct ((400 <=? status)%Z && (status <=? 499)%Z) eqn:E1; [apply check4xx_keeps|].
  destruct ((500 <=? status)%Z && (status <=? 599)%Z) eqn:E2; [apply check5xx_keeps|].
  apply andb_false_iff in E1, E2. exfalso.
  destruct E1, E2; bool_prop; lia.
Qed.

Lemma NewServiceFailure_none code status opc msg :
  ~ (400 <= status <= 599)%Z ->
  NewServiceFailureFromResponse code status opc msg = (true, None).
Proof.
  intros H. unfold NewServiceFailureFromResponse. simpl.
  destruct ((400 <=? status)%Z && (status <=? 499)%Z) eqn:E1; [bool_prop; lia|].
  destruct ((500 <=? status)%Z && (status <=? 599)%Z) eqn:E2; [bool_prop; lia|done].
Qed.

(** Normalisation of an unwrapped service error. *)
Lemma normalize_service se :
  exists n, normalizeOCIError (ErrService se) = Ret n /\
    (n = ErrService se \/
     keeps_fields (mkOciErrors (GetHTTPStatusCode se) (GetCode se) (GetOpcRequestID se) (GetMessage se)) n).
Proof.
  unfold normalizeOCIError. simpl.
  destruct (decide (400 <= GetHTTPStatusCode se <= 599)%Z) as [H|H].
  - destruct (NewServiceFailure_keeps (GetCode se) _ (GetOpcRequestID se) (GetMessage se) H) as (e & -> & He).
    simpl. eauto.
  - rewrite NewServiceFailure_none by done. simpl. eauto.
Qed.

Lemma classify_oci t f :
  ClassifyDeleteError (Some (ErrOci t f)) = Ret (mkClassification (HTTPStatusCode f) (ErrorCode f) (oci_type_name t)).
Proof. reflexivity. Qed.

Lemma classify_service se : exists c, ClassifyDeleteError (Some (ErrService se)) = Ret c.
Proof.
  unfold ClassifyDeleteError. cbn [as_service OciErrorTypeResponse outcome_bind].
  destruct (NewServiceFailureFromResponse _ _ _ _) as [? n]. cbn [outcome_bind].
  destruct (structuredOCIErrorFields _) as [[? ?]|]; eauto.
Qed.

Lemma normalize_service_out se :
  ~ (400 <= GetHTTPStatusCode se <= 599)%Z -> normalizeOCIError (ErrService se) = Ret (ErrService se).
Proof.
  intros H. unfold normalizeOCIError. cbn [as_service OciErrorTypeResponse outcome_bind].
  by rewrite NewServiceFailure_none.
Qed.

(** ** Properties *)

(** For every unwrapped OCI service error the normalisation is total; it yields a typed error
    exactly for statuses 400 to 599, and that error keeps the HTTP status, the error code and the
    request id of the service error. *)
Theorem oci_error_response_spec se :
  exists r, OciErrorTypeResponse (ErrService se) = Ret r /\
    match r with
    | (ok, None) => ok = true /\ ~ (400 <= GetHTTPStatusCode se <= 599)%Z
    | (ok, Some e) =>
        ok = false /\ (400 <= GetHTTPStatusCode se <= 599)%Z /\
        exists t f, e = ErrOci t f /\ HTTPStatusCode f = GetHTTPStatusCode se /\
                    ErrorCode f = GetCode se /\ oe_OpcRequestID f = GetOpcRequestID se
    end.
Proof.
  eexists. split; [reflexivity|].
  destruct (decide (400 <= GetHTTPStatusCode se <= 599)%Z) as [H|H].
  - destruct (NewServiceFailure_keeps (GetCode se) _ (GetOpcRequestID se) (GetMessage se) H)
      as (e & -> & t & d & ->). simpl. eauto 10.
  - by rewrite NewServiceFailure_none.
Qed.

(** Classification does not depend on whether the error was normalised first: a service error
    and its normalised form have the same HTTP status and code, so the runtime (which classifies
    normalised errors) and the reconciler (which may see the raw one) reach the same verdict. *)
Theorem delete_classification_stable se :
  exists n c c', normalizeOCIError (ErrService se) = Ret n /\
    ClassifyDeleteError (Some (ErrService se)) = Ret c /\ ClassifyDeleteError (Some n) = Ret c' /\
    cls_HTTPStatusCode c' = cls_HTTPStatusCode c /\ cls_ErrorCode c' = cls_ErrorCode c.
Proof.
  destruct (decide (400 <= GetHTTPStatusCode se <= 599)%Z) as [H|H].
  - unfold normalizeOCIError, ClassifyDeleteError at 1. cbn [as_service OciErrorTypeResponse outcome_bind].
    destruct (NewServiceFailure_keeps (GetCode se) _ (GetOpcRequestID se) (GetMessage se) H)
      as (e & -> & t & d & ->).
    eexists _, _, _. split; [reflexivity|]. split; [reflexivity|]. split; [apply classify_oci|]. simpl.
    destruct (GetHTTPStatusCode se =? 0)%Z eqn:E0; [bool_prop; lia|].
    destruct (GetCode se =? "")%string eqn:E1; by bool_prop.
  - destruct (classify_service se) as [c Hc]. exists (ErrService se), c, c.
    by rewrite normalize_service_out, Hc.
Qed.

(** Classifying a delete error panics exactly for errors that wrap or join a service error
    without being one: [errors.As] finds the wrapped error but [OciErrorTypeResponse] asserts the
    type of the wrapper itself. *)
Theorem classify_panics_on_wrapped e :
  ClassifyDeleteError (Some e) = Panic <->
  (exists se, as_service e = Some se) /\ (forall se, e <> ErrService se).
Proof.
  unfold ClassifyDeleteError. destruct (as_service e) as [se|] eqn:E.
  - destruct e; cbn [OciErrorTypeResponse outcome_bind]; try (split; [naive_solver|done]).
    split; [|intros [_ H]; by destruct (H se0)].
    destruct (NewServiceFailureFromResponse _ _ _ _) as [? ?]. cbn [outcome_bind].
    by repeat case_goal.
  - cbn [outcome_bind]. split; [by repeat case_goal|]. intros [[? H] _]. congruence.
Qed.

(** Normalising an error that can be classified keeps its HTTP status and code. *)
Lemma normalized_classification err n c c' :
  ClassifyDeleteError (Some err) = Ret c -> normalizeOCIError err = Ret n -> ClassifyDeleteError (Some n) = Ret c' ->
  cls_HTTPStatusCode c' = cls_HTTPStatusCode c /\ cls_ErrorCode c' = cls_ErrorCode c.
Proof.
  intros Hc Hn Hc'. destruct (as_service err) as [se|] eqn:E.
  - assert (err = ErrService se \/ forall se', err <> ErrService se') as [->|Hne] by (destruct err; cbn in E; naive_solver congruence).
    + destruct (delete_classification_stable se) as (n' & d & d' & Hn' & Hd & Hd' & Hs & He).
      rewrite Hn in Hn'. injection Hn' as <-. rewrite Hc in Hd. rewrite Hc' in Hd'. injection Hd as <-. by injection Hd' as <-.
    + assert (ClassifyDeleteError (Some err) = Panic) as Hp; [|congruence].
      apply classify_panics_on_wrapped. eauto.
  - unfold normalizeOCIError in Hn. rewrite E in Hn. injection Hn as <-. rewrite Hc in Hc'. by injection Hc' as <-.
Qed.

(** An error whose classification is not a clear not-found stays so when it is normalised. *)
Lemma normalized_not_found err n c c' :
  ClassifyDeleteError (Some err) = Ret c -> normalizeOCIError err = Ret n -> ClassifyDeleteError (Some n) = Ret c' ->
  IsUnambiguousNotFound c' = IsUnambiguousNotFound c.
Proof.
  intros Hc Hn Hc'. destruct (normalized_classification _ _ _ _ Hc Hn Hc') as [Hs He].
  unfold IsUnambiguousNotFound. by rewrite Hs, He.
Qed.

(** A 404 that may also mean that the caller is not authorised. *)
Definition auth_shaped (err : GoError) : bool :=
  match ClassifyDeleteError (Some err) with Ret c => IsAuthShapedNotFound c | Panic => false end.

Lemma auth_shaped_normalized err n : normalizeOCIError err = Ret n -> auth_shaped n = true -> auth_shaped err = true.
Proof.
  unfold auth_shaped. intros Hn. destruct (ClassifyDeleteError (Some n)) as [c'|] eqn:Hc'; [|done].
  destruct (ClassifyDeleteError (Some err)) as [c|] eqn:Hc.
  - destruct (normalized_classification _ _ _ _ Hc Hn Hc') as [Hs He]. unfold IsAuthShapedNotFound. by rewrite Hs, He.
  - apply classify_panics_on_wrapped in Hc as [[se Hse] Hne]. unfold normalizeOCIError in Hn. rewrite Hse in Hn.
    destruct err; try done. by destruct (Hne se0).
Qed.

(** Errors made of text, wrapped errors and joined ones are never taken for it. *)
Lemma auth_shaped_wrapped msg e : auth_shaped (ErrWrap msg e) = false.
Proof. unfold auth_shaped, ClassifyDeleteError. cbn. by destruct (as_service e). Qed.

(** The three delete verdicts are mutually exclusive, and each one pins the HTTP status and
    code: an error is never both a confirmed not-found and a retryable conflict. *)
Theorem delete_verdicts_exclusive c :
  (IsUnambiguousNotFound c = true <-> cls_HTTPStatusCode c = 404%Z /\ cls_ErrorCode c = "NotFound") /\
  (IsAuthShapedNotFound c = true <-> cls_HTTPStatusCode c = 404%Z /\ cls_ErrorCode c = "NotAuthorizedOrNotFound") /\
  (IsConflict c = true <-> cls_HTTPStatusCode c = 409%Z /\
     (cls_ErrorCode c = "IncorrectState" \/ cls_ErrorCode c = "ExternalServerIncorrectState")) /\
  ~ (IsUnambiguousNotFound c = true /\ IsAuthShapedNotFound c = true) /\
  ~ (IsUnambiguousNotFound c = true /\ IsConflict c = true) /\
  ~ (IsAuthShapedNotFound c = true /\ IsConflict c = true).
Proof.
  unfold IsUnambiguousNotFound, IsAuthShapedNotFound, IsConflict, NotFound, NotAuthorizedOrNotFound, IncorrectState.
  destruct c as [st code ty]; simpl. rewrite !andb_true_iff, !Z.eqb_eq, !String.eqb_eq.
  destruct (st =? 409)%Z eqn:E; simpl; bool_prop; rewrite ?orb_true_iff, ?String.eqb_eq; naive_solver lia.
Qed.

(** The struct type of a normalised error. *)
Definition res_type (r : bool * option GoError) : option OciErrorType :=
  match r with (_, Some (ErrOci t _)) => Some t | _ => None end.

(** The type the normalisation picks for a status and code. *)
Definition normalized_type (status : Z) (code : string) : option OciErrorType :=
  res_type (NewServiceFailureFromResponse code status "" "").

(** No status other than 403, 404 and 409 gives one of the three delete-relevant types. *)
Definition delete_relevant (t : option OciErrorType) : Prop :=
  t = Some NotFoundOciError \/ t = Some UnauthorizedAndNotFoundOciError \/ t = Some ConflictOciError.

Lemma specific_irrelevant se :
  ~ delete_relevant (res_type (specific400Error se)) /\ ~ delete_relevant (res_type (specific401Error se)) /\
  ~ delete_relevant (res_type (specific402Error se)) /\ ~ delete_relevant (res_type (specific405Error se)) /\
  ~ delete_relevant (res_type (specific412Error se)) /\ ~ delete_relevant (res_type (specific429Error se)) /\
  ~ delete_relevant (res_type (check5xxFailures se)).
Proof.
  unfold delete_relevant, check5xxFailures, specific400Error, specific401Error, specific402Error, specific405Error,
    specific412Error, specific429Error, specific500Error, specific501Error, specific503Error.
  repeat split; repeat case_goal; cbn; intros [|[|]]; discriminate.
Qed.

Lemma normalized_type_irrelevant status code :
  status <> 403%Z -> status <> 404%Z -> status <> 409%Z -> ~ delete_relevant (normalized_type status code).
Proof.
  intros H3 H4 H9. unfold normalized_type, NewServiceFailureFromResponse, check4xxFailures. cbn [HTTPStatusCode].
  destruct (specific_irrelevant (mkOciErrors status code "" "")) as (? & ? & ? & ? & ? & ? & ?).
  repeat (case_goal; bool_prop; try done); unfold delete_relevant; cbn; intros [|[|]]; discriminate.
Qed.

(** The typed not-found error is produced for status 404 with code NotFound and for nothing
    else; the ambiguous one for 404 NotAuthorizedOrNotFound and 403 NotAuthorized; the conflict one
    for status 409 with one of the three documented codes. *)
Theorem normalized_kind_table status code :
  (normalized_type status code = Some NotFoundOciError <-> status = 404%Z /\ code = "NotFound") /\
  (normalized_type status code = Some UnauthorizedAndNotFoundOciError <->
     (status = 404%Z /\ code = "NotAuthorizedOrNotFound") \/ (status = 403%Z /\ code = "NotAuthorized")) /\
  (normalized_type status code = Some ConflictOciError <->
     status = 409%Z /\ (code = "IncorrectState" \/ code = "InvalidatedRetryToken" \/
                        code = "NotAuthorizedOrResourceAlreadyExists")).
Proof.
  destruct (decide (status = 404%Z)) as [->|H4]; [|destruct (decide (status = 403%Z)) as [->|H3];
    [|destruct (decide (status = 409%Z)) as [->|H9]]].
  - unfold normalized_type. cbn. unfold specific404Error, NotFound, NotAuthorizedOrNotFound. cbn.
    repeat (case_goal; bool_prop; subst); cbn; intuition congruence.
  - unfold normalized_type. cbn. unfold specific403Error, NotAuthorized. cbn.
    repeat (case_goal; bool_prop; subst); cbn; intuition congruence.
  - unfold normalized_type. cbn.
    unfold specific409Error, IncorrectState, InvalidatedRetryToken, NotAuthorizedOrResourceAlreadyExists. cbn.
    repeat (case_goal; bool_prop; subst); cbn; intuition congruence.
  - pose proof (normalized_type_irrelevant status code H3 H4 H9) as Hn. unfold delete_relevant in Hn.
    intuition congruence.
Qed.
