(* ===== verification/GoValue.v ===== *)
(** * Dynamic Go values and the reflection the runtime performs on them

    The generated runtime is generic in the resource type and reads resources,
    requests and responses through [reflect].  This file gives the universe of
    values, the reflect operations the code uses, and the accessors of
    [pkg/servicemanager/generatedruntime/response_reflection.go],
    [status_async.go] and [secrets.go] that are built on them. *)

From S2P Require Import Prelude GoStrings Shared GoErrors.
Local Open Scope string_scope.
Local Open Scope go_scope.

(** ** Values and types *)

(** JSON documents as decoded into [any]: an object is a Go map, its entries in one iteration order. *)
Inductive Json :=
| JNull
| JBool (b : bool)
| JNum (n : Dec)
| JStr (s : string)
| JArr (l : list Json)
| JObj (m : list (string * Json)).

(** [reflect.StructField]: name, whether it is exported or embedded, [Tag.Get] of the keys the code
    asks for (the empty string when the key is absent), and the name of the field's type. *)
Record StructField := mkField {
  sf_Name : string;
  sf_Exported : bool;
  sf_Anonymous : bool;
  sf_json : string;
  sf_presentIn : string;
  sf_name : string;
  sf_contributesTo : string;
  sf_TypeName : string
}.

Inductive GoType :=
| TBool | TInt | TFloat | TString
| TPtr (t : GoType)
| TIface
| TStruct (name : string) (fields : list (StructField * GoType))
| TSlice (t : GoType)
| TMap (t : GoType)
| TOsok
| TMarshaler (name : string).

(** [VNil] is the untyped nil of an [any]; a nil pointer, slice or map keeps its type.
    [VOsok] is a struct of type [shared.OSOKStatus]; [VMarshaler] is a struct whose type
    implements [json.Marshaler], with what that method returns. *)
Inductive GoValue :=
| VNil
| VBool (b : bool)
| VInt (z : Z)
| VFloat (n : Dec)
| VString (s : string)
| VPtr (t : GoType) (p : option GoValue)
| VIface (v : option GoValue)
| VStruct (name : string) (fields : list (StructField * GoValue))
| VSlice (t : GoType) (l : option (list GoValue))
| VMap (t : GoType) (m : option (list (string * GoValue)))
| VOsok (s : OSOKStatus)
| VMarshaler (name : string) (j : result Json string).

(** Induction over values that reaches struct fields, elements and entries. *)
Section GoValueInd.
Context (P : GoValue -> Prop).
Context (HNil : P VNil) (HBool : forall b, P (VBool b)) (HInt : forall z, P (VInt z))
  (HFloat : forall n, P (VFloat n)) (HString : forall s, P (VString s))
  (HPtrN : forall t, P (VPtr t None)) (HPtr : forall t v, P v -> P (VPtr t (Some v)))
  (HIfaceN : P (VIface None)) (HIface : forall v, P v -> P (VIface (Some v)))
  (HStruct : forall n fs, Forall (fun fv => P (snd fv)) fs -> P (VStruct n fs))
  (HSliceN : forall t, P (VSlice t None)) (HSlice : forall t l, Forall P l -> P (VSlice t (Some l)))
  (HMapN : forall t, P (VMap t None)) (HMap : forall t m, Forall (fun kv => P (snd kv)) m -> P (VMap t (Some m)))
  (HOsok : forall s, P (VOsok s)) (HMarsh : forall n j, P (VMarshaler n j)).

Fixpoint GoValue_ind' (v : GoValue) : P v :=
  match v with
  | VNil => HNil | VBool b => HBool b | VInt z => HInt z | VFloat n => HFloat n
  | VString s => HString s
  | VPtr t None => HPtrN t
  | VPtr t (Some x) => HPtr t x (GoValue_ind' x)
  | VIface None => HIfaceN
  | VIface (Some x) => HIface x (GoValue_ind' x)
  | VStruct n fs =>
      HStruct n fs ((fix go (l : list (StructField * GoValue)) : Forall (fun fv => P (snd fv)) l :=
        match l with
        | [] => List.Forall_nil _
        | fv :: r => List.Forall_cons _ _ _ (GoValue_ind' (snd fv)) (go r)
        end) fs)
  | VSlice t None => HSliceN t
  | VSlice t (Some l) =>
      HSlice t l ((fix go (l : list GoValue) : Forall P l :=
        match l with
        | [] => List.Forall_nil _
        | x :: r => List.Forall_cons _ _ _ (GoValue_ind' x) (go r)
        end) l)
  | VMap t None => HMapN t
  | VMap t (Some m) =>
      HMap t m ((fix go (l : list (string * GoValue)) : Forall (fun kv => P (snd kv)) l :=
        match l with
        | [] => List.Forall_nil _
        | kv :: r => List.Forall_cons _ _ _ (GoValue_ind' (snd kv)) (go r)
        end) m)
  | VOsok s => HOsok s
  | VMarshaler n j => HMarsh n j
  end.
End GoValueInd.

(** ** Decidable equality *)

#[export] Instance StructField_eq_dec : EqDecision StructField.
Proof. solve_decision. Defined.

Fixpoint Json_eq (x y : Json) {struct x} : Decision (x = y).
Proof.
  refine (match x, y with
  | JNull, JNull => left eq_refl
  | JBool a, JBool b => cast_if (decide (a = b))
  | JNum a, JNum b => cast_if (decide (a = b))
  | JStr a, JStr b => cast_if (decide (a = b))
  | JArr a, JArr b => cast_if (@list_eq_dec _ Json_eq a b)
  | JObj a, JObj b => cast_if (@list_eq_dec _ (fun p q => @prod_eq_dec string _ Json Json_eq p q) a b)
  | _, _ => right _
  end); congruence.
Defined.
#[export] Instance Json_eq_dec : EqDecision Json := Json_eq.

Fixpoint GoType_eq (x y : GoType) {struct x} : Decision (x = y).
Proof.
  refine (match x, y with
  | TBool, TBool | TInt, TInt | TFloat, TFloat | TString, TString | TIface, TIface | TOsok, TOsok => left eq_refl
  | TPtr a, TPtr b | TSlice a, TSlice b | TMap a, TMap b => cast_if (GoType_eq a b)
  | TStruct n a, TStruct m b =>
      cast_if_and (decide (n = m)) (@list_eq_dec _ (fun p q => @prod_eq_dec StructField _ GoType GoType_eq p q) a b)
  | TMarshaler n, TMarshaler m => cast_if (decide (n = m))
  | _, _ => right _
  end); congruence.
Defined.
#[export] Instance GoType_eq_dec : EqDecision GoType := GoType_eq.

#[export] Instance result_eq_dec {A E} `{EqDecision A, EqDecision E} : EqDecision (result A E).
Proof. solve_decision. Defined.

Fixpoint GoValue_eq (x y : GoValue) {struct x} : Decision (x = y).
Proof.
  refine (match x, y with
  | VNil, VNil => left eq_refl
  | VBool a, VBool b => cast_if (decide (a = b))
  | VInt a, VInt b => cast_if (decide (a = b))
  | VFloat a, VFloat b => cast_if (decide (a = b))
  | VString a, VString b => cast_if (decide (a = b))
  | VPtr t a, VPtr u b => cast_if_and (decide (t = u)) (@option_eq_dec _ GoValue_eq a b)
  | VIface a, VIface b => cast_if (@option_eq_dec _ GoValue_eq a b)
  | VStruct n a, VStruct m b =>
      cast_if_and (decide (n = m)) (@list_eq_dec _ (fun p q => @prod_eq_dec StructField _ GoValue GoValue_eq p q) a b)
  | VSlice t a, VSlice u b =>
      cast_if_and (decide (t = u)) (@option_eq_dec _ (fun p q => @list_eq_dec _ GoValue_eq p q) a b)
  | VMap t a, VMap u b =>
      cast_if_and (decide (t = u))
        (@option_eq_dec _ (fun p q => @list_eq_dec _ (fun p q => @prod_eq_dec string _ GoValue GoValue_eq p q) p q) a b)
  | VOsok a, VOsok b => cast_if (decide (a = b))
  | VMarshaler n a, VMarshaler m b => cast_if_and (decide (n = m)) (decide (a = b))
  | _, _ => right _
  end); congruence.
Defined.
#[export] Instance GoValue_eq_dec : EqDecision GoValue := GoValue_eq.

(** ** reflect *)

(** [indirectValue] of [secrets.go]: follow pointers and interfaces; [None] at nil. *)
Fixpoint indirectValue (v : GoValue) : option GoValue :=
  match v with
  | VNil => None
  | VPtr _ p => match p with Some x => indirectValue x | None => None end
  | VIface p => match p with Some x => indirectValue x | None => None end
  | _ => Some v
  end.

(** [indirectResponseValue] of [request_id.go]: follow pointers only. *)
Fixpoint indirectResponseValue (v : GoValue) : option GoValue :=
  match v with
  | VNil => None
  | VPtr _ p => match p with Some x => indirectResponseValue x | None => None end
  | _ => Some v
  end.

(** [Value.FieldByName]: a field of the struct, else one promoted from an embedded struct. *)
Fixpoint fieldByName (name : string) (v : GoValue) : option GoValue :=
  match v with
  | VPtr _ (Some x) => fieldByName name x
  | VStruct _ fs =>
      match find_first (fun fv => (sf_Name (fst fv) =? name)%string) fs with
      | Some (_, x) => Some x
      | None =>
          (fix promoted (l : list (StructField * GoValue)) : option GoValue :=
             match l with
             | [] => None
             | (sf, x) :: r =>
                 if sf_Anonymous sf
                 then match fieldByName name x with Some y => Some y | None => promoted r end
                 else promoted r
             end) fs
      end
  | _ => None
  end.

(** Assignment through the reflect value of a field of the struct itself. *)
Fixpoint set_field (name : string) (x : GoValue) (fs : list (StructField * GoValue))
  : list (StructField * GoValue) :=
  match fs with
  | [] => []
  | (sf, y) :: r =>
      if (sf_Name sf =? name)%string then (sf, x) :: r else (sf, y) :: set_field name x r
  end.

Definition struct_field (name : string) (fs : list (StructField * GoValue)) : option GoValue :=
  match find_first (fun fv => (sf_Name (fst fv) =? name)%string) fs with
  | Some (_, x) => Some x
  | None => None
  end.

Lemma struct_field_set_eq name x fs :
  is_Some (struct_field name fs) -> struct_field name (set_field name x fs) = Some x.
Proof.
  unfold struct_field. induction fs as [|[sf y] fs IH]; simpl; [by intros []|].
  destruct (sf_Name sf =? name)%string eqn:E; simpl; rewrite E; [done|apply IH].
Qed.

Lemma struct_field_set_ne name name' x fs :
  name <> name' -> struct_field name' (set_field name x fs) = struct_field name' fs.
Proof.
  intros Hne. unfold struct_field. induction fs as [|[sf y] fs IH]; simpl; [done|].
  destruct (sf_Name sf =? name)%string eqn:E; simpl.
  - bool_prop. destruct (sf_Name sf =? name')%string eqn:E'; [bool_prop; congruence|done].
  - destruct (sf_Name sf =? name')%string; [done|apply IH].
Qed.

Lemma fieldByName_struct_field name n fs x :
  struct_field name fs = Some x -> fieldByName name (VStruct n fs) = Some x.
Proof.
  unfold struct_field. simpl. destruct (find_first _ fs) as [[? ?]|]; [|done]. naive_solver.
Qed.

(** ** Resources *)

(** [resourceStruct]: the struct behind a non-nil resource pointer.  The error texts of this file
    leave out the dynamic type that the code prints with %T. *)
Definition resourceStruct (resource : GoValue) : result (string * list (StructField * GoValue)) GoError :=
  match resource with
  | VNil => Err (ErrText "resource is nil")
  | VPtr _ (Some (VStruct n fs)) => Ok (n, fs)
  | VPtr _ (Some _) => Err (ErrText "expected pointer to struct resource")
  | _ => Err (ErrText "expected pointer resource")
  end.

(** [statusStruct]: the [Status] field. *)
Definition statusStruct (resource : GoValue) : result GoValue GoError :=
  match resourceStruct resource with
  | Err e => Err e
  | Ok (n, fs) =>
      match fieldByName "Status" (VStruct n fs) with
      | Some v => Ok v
      | None => Err (ErrText "resource does not expose Status")
      end
  end.

(** [osokStatus]: the address of [Status.OsokStatus]; here its current value. *)
Definition osokStatus (resource : GoValue) : result OSOKStatus GoError :=
  match statusStruct resource with
  | Err e => Err e
  | Ok status =>
      match fieldByName "OsokStatus" status with
      | None => Err (ErrText "resource does not expose Status.OsokStatus")
      | Some (VOsok s) => Ok s
      | Some _ => Err (ErrText "resource Status.OsokStatus has unexpected type")
      end
  end.

(** Writing through a field of [Status] of a resource whose [Status] is a struct field. *)
Definition update_status_field (name : string) (x : GoValue) (resource : GoValue) : GoValue :=
  match resource with
  | VPtr t (Some (VStruct n fs)) =>
      match struct_field "Status" fs with
      | Some (VStruct sn sfs) =>
          VPtr t (Some (VStruct n (set_field "Status" (VStruct sn (set_field name x sfs)) fs)))
      | _ => resource
      end
  | _ => resource
  end.

(** Writing [*status = s] through the pointer [osokStatus] returns. *)
Definition set_osokStatus (s : OSOKStatus) (resource : GoValue) : GoValue :=
  update_status_field "OsokStatus" (VOsok s) resource.

(** Custom resources of the operator: a pointer to a struct with a [Status] struct that has an
    [OsokStatus] field. *)
Definition is_custom_resource (resource : GoValue) : Prop :=
  exists t n fs sn sfs s,
    resource = VPtr t (Some (VStruct n fs)) /\
    struct_field "Status" fs = Some (VStruct sn sfs) /\
    struct_field "OsokStatus" sfs = Some (VOsok s).

Lemma custom_resource_osokStatus r :
  is_custom_resource r -> exists s, osokStatus r = Ok s.
Proof.
  intros (t & n & fs & sn & sfs & s & -> & Hs & Ho). exists s.
  unfold osokStatus, statusStruct. cbn [resourceStruct].
  rewrite (fieldByName_struct_field _ _ _ _ Hs). by rewrite (fieldByName_struct_field _ _ _ _ Ho).
Qed.

Lemma update_status_field_custom name x r :
  is_custom_resource r -> name <> "OsokStatus" -> is_custom_resource (update_status_field name x r).
Proof.
  intros (t & n & fs & sn & sfs & s & -> & Hs & Ho) Hne. cbn [update_status_field]. rewrite Hs.
  eexists t, n, _, sn, _, s. split; [done|]. split.
  - apply struct_field_set_eq. by rewrite Hs.
  - by rewrite struct_field_set_ne.
Qed.

Lemma set_osokStatus_custom s r : is_custom_resource r -> is_custom_resource (set_osokStatus s r).
Proof.
  intros (t & n & fs & sn & sfs & s' & -> & Hs & Ho). unfold set_osokStatus. cbn [update_status_field]. rewrite Hs.
  eexists t, n, _, sn, _, s. split; [done|]. split.
  - apply struct_field_set_eq. by rewrite Hs.
  - apply struct_field_set_eq. by rewrite Ho.
Qed.

Lemma osokStatus_set s r : is_custom_resource r -> osokStatus (set_osokStatus s r) = Ok s.
Proof.
  intros (t & n & fs & sn & sfs & s' & -> & Hs & Ho).
  unfold osokStatus, statusStruct, set_osokStatus. cbn [update_status_field]. rewrite Hs. cbn [resourceStruct].
  erewrite (fieldByName_struct_field "Status") by (apply struct_field_set_eq; by rewrite Hs).
  by erewrite (fieldByName_struct_field "OsokStatus") by (apply struct_field_set_eq; by rewrite Ho).
Qed.

Lemma osokStatus_update_other name x r :
  is_custom_resource r -> name <> "OsokStatus" -> osokStatus (update_status_field name x r) = osokStatus r.
Proof.
  intros (t & n & fs & sn & sfs & s' & -> & Hs & Ho) Hne.
  unfold osokStatus, statusStruct. cbn [update_status_field]. rewrite Hs. cbn [resourceStruct].
  erewrite (fieldByName_struct_field "Status") by (apply struct_field_set_eq; by rewrite Hs).
  rewrite (fieldByName_struct_field _ _ _ _ Hs).
  erewrite (fieldByName_struct_field "OsokStatus") by (rewrite struct_field_set_ne by done; exact Ho).
  by rewrite (fieldByName_struct_field _ _ _ _ Ho).
Qed.

#[export] Hint Resolve set_osokStatus_custom : osok.

(** [lookupMetadataString]: a string field of the resource, promoted from [ObjectMeta]. *)
Definition lookupMetadataString (resource : GoValue) (fieldName : string) : string :=
  match fieldByName fieldName resource with
  | Some (VString s) => s
  | _ => ""
  end.

(** ** Responses *)

(** [stringFieldValue]. *)
Definition stringFieldValue (v : GoValue) : string :=
  match indirectValue v with
  | Some (VString s) => TrimSpace s
  | _ => ""
  end.

(** [responseStringFieldValue] of [request_id.go]. *)
Definition responseStringFieldValue (v : GoValue) : string :=
  match indirectResponseValue v with
  | Some (VString s) => TrimSpace s
  | _ => ""
  end.

(** [intFieldValue]; [int] is 64 bits wide. *)
Definition intFieldValue (v : GoValue) : option Z :=
  match indirectValue v with
  | Some (VInt z) => Some z
  | _ => None
  end.

Definition isRequestIDHeaderField (f : StructField) : bool :=
  (sf_Name f =? "OpcRequestId")%string || (sf_Name f =? "OpcRequestID")%string ||
  ((sf_presentIn f =? "header")%string && (sf_name f =? "opc-request-id")%string).

Definition isWorkRequestHeaderField (f : StructField) : bool :=
  (sf_Name f =? "OpcWorkRequestId")%string ||
  ((sf_presentIn f =? "header")%string && (sf_name f =? "opc-work-request-id")%string).

Definition isRetryAfterHeaderField (f : StructField) : bool :=
  (sf_Name f =? "RetryAfter")%string ||
  ((sf_presentIn f =? "header")%string && (sf_name f =? "retry-after")%string).

(** The loops of [ResponseOpcRequestID] and [responseWorkRequestID]: the first exported header field
    that holds a non-blank string. *)
Fixpoint first_header_string (sel : StructField -> bool) (get : GoValue -> string)
    (fs : list (StructField * GoValue)) : string :=
  match fs with
  | [] => ""
  | (f, v) :: r =>
      if negb (sf_Exported f) || negb (sel f) then first_header_string sel get r
      else if (get v =? "")%string then first_header_string sel get r
      else get v
  end.

Definition ResponseOpcRequestID (response : GoValue) : string :=
  match indirectResponseValue response with
  | Some (VStruct _ fs) => first_header_string isRequestIDHeaderField responseStringFieldValue fs
  | _ => ""
  end.

Definition responseWorkRequestID (response : GoValue) : string :=
  match indirectValue response with
  | Some (VStruct _ fs) => first_header_string isWorkRequestHeaderField stringFieldValue fs
  | _ => ""
  end.

(** The loop of [responseRetryAfterDuration]; the product is an int64. *)
Fixpoint first_retry_after (fs : list (StructField * GoValue)) : Duration :=
  match fs with
  | [] => 0%Z
  | (f, v) :: r =>
      if negb (sf_Exported f) || negb (isRetryAfterHeaderField f) then first_retry_after r
      else match intFieldValue v with
           | Some seconds => if (0 <? seconds)%Z then wrap64 (seconds * Second) else first_retry_after r
           | None => first_retry_after r
           end
  end.

Definition responseRetryAfterDuration (response : GoValue) : Duration :=
  match indirectValue response with
  | Some (VStruct _ fs) => first_retry_after fs
  | _ => 0%Z
  end.

(** [taggedResponseBody]: [Some b] when the field is the tagged body; [b] is [None] when the
    body is nil (a nil pointer, or a nil interface, whose [Interface()] is nil), which
    [responseStructBody] reports as no body. *)
Definition taggedResponseBody (f : StructField) (v : GoValue) : option (option GoValue) :=
  if negb (sf_Exported f) || negb (sf_presentIn f =? "body")%string then None
  else match v with
       | VPtr _ None | VIface None => Some None
       | _ => Some (Some v)
       end.

Definition shouldSkipResponseFallback (f : StructField) : bool :=
  if negb (sf_Exported f) then true
  else (sf_Name f =? "RawResponse")%string || HasPrefix (sf_Name f) "Opc" || (sf_Name f =? "Etag")%string.

(** [responseStructBody]; [fallback] is the first field that may stand in for the body. *)
Fixpoint responseStructBody (fs : list (StructField * GoValue)) (fallback : option GoValue) : option GoValue :=
  match fs with
  | [] => fallback
  | (f, v) :: r =>
      match taggedResponseBody f v with
      | Some body => body
      | None =>
          responseStructBody r
            (if shouldSkipResponseFallback f then fallback
             else match fallback with Some _ => fallback | None => Some v end)
      end
  end.

(** [Value.Interface] of an interface-typed field is the value it holds. *)
Definition iface_value (v : GoValue) : GoValue :=
  match v with VIface (Some x) => x | VIface None => VNil | _ => v end.

(** [responseBody]: [None] is [(nil, false)]; a fallback field that is a nil interface gives
    [Some VNil], the [(nil, true)] result. *)
Definition responseBody (response : GoValue) : option GoValue :=
  match response with
  | VNil => None
  | _ =>
      match indirectValue response with
      | None => None
      | Some (VStruct name fs) =>
          if negb (HasSuffix name "Response") then Some (VStruct name fs)
          else option_map iface_value (responseStructBody fs None)
      | Some (VOsok s) => Some (VOsok s)
      | Some (VMarshaler n j) => Some (VMarshaler n j)
      | Some _ => Some response
      end
  end.

(** ** Work request payloads ([workrequest_async.go]) *)

Definition workRequestFieldValue (workRequest : GoValue) (fieldName : string) : option GoValue :=
  if (TrimSpace fieldName =? "")%string then None
  else match indirectValue workRequest with
       | Some (VStruct n fs) => fieldByName fieldName (VStruct n fs)
       | _ => None
       end.

Definition workRequestStringField (workRequest : GoValue) (fieldName : string) : string :=
  match workRequestFieldValue workRequest fieldName with
  | Some v => stringFieldValue v
  | None => ""
  end.

Definition workRequestFloat32Field (workRequest : GoValue) (fieldName : string) : option Dec :=
  match workRequestFieldValue workRequest fieldName with
  | Some v => match indirectValue v with Some (VFloat n) => Some n | _ => None end
  | None => None
  end.

(** ** Lemmas on response headers *)

Lemma first_header_string_trimmed sel get fs :
  (forall v, TrimSpace (get v) = get v) ->
  TrimSpace (first_header_string sel get fs) = first_header_string sel get fs.
Proof.
  intros H. induction fs as [|[f v] fs IH]; simpl; [done|]. by repeat case_goal.
Qed.

Lemma stringFieldValue_trimmed v : TrimSpace (stringFieldValue v) = stringFieldValue v.
Proof. unfold stringFieldValue. repeat case_goal; try done. apply TrimSpace_idem. Qed.
Lemma responseStringFieldValue_trimmed v : TrimSpace (responseStringFieldValue v) = responseStringFieldValue v.
Proof. unfold responseStringFieldValue. repeat case_goal; try done. apply TrimSpace_idem. Qed.

Lemma responseWorkRequestID_trimmed r : TrimSpace (responseWorkRequestID r) = responseWorkRequestID r.
Proof.
  unfold responseWorkRequestID. repeat case_goal; try done.
  apply first_header_string_trimmed, stringFieldValue_trimmed.
Qed.

Lemma ResponseOpcRequestID_trimmed r : TrimSpace (ResponseOpcRequestID r) = ResponseOpcRequestID r.
Proof.
  unfold ResponseOpcRequestID. repeat case_goal; try done.
  apply first_header_string_trimmed, responseStringFieldValue_trimmed.
Qed.

Lemma first_retry_after_range fs : (- 2 ^ 63 <= first_retry_after fs < 2 ^ 63)%Z.
Proof.
  induction fs as [|[f v] fs IH]; simpl; [lia|]. repeat case_goal; auto. apply wrap64_range.
Qed.

Lemma responseRetryAfterDuration_range r :
  (- 2 ^ 63 <= responseRetryAfterDuration r < 2 ^ 63)%Z.
Proof.
  unfold responseRetryAfterDuration. repeat case_goal; try lia. apply first_retry_after_range.
Qed.
