(* ===== verification/AsyncStatus.v ===== *)
(** * Async status projection ([pkg/servicemanager])

    [async_status.go]: the shared contract between OCI work requests or lifecycle
    states and the status block; [request_id.go]: request-id breadcrumbs;
    [lifecycle_helpers.go]: small status helpers.  A function that reads the clock
    takes the instants it reads as arguments. *)

From S2P Require Import Prelude GoStrings Shared GoErrors GoValue.
Local Open Scope string_scope.

Record AsyncProjection := mkProjection {
  Condition : OSOKConditionType;
  ProjStatus : ConditionStatus;
  ShouldRequeue : bool;
  DefaultMessage : string
}.

Record WorkRequestAsyncAdapter := mkAdapter {
  PendingStatusTokens : list string;
  SucceededStatusTokens : list string;
  FailedStatusTokens : list string;
  CanceledStatusTokens : list string;
  AttentionStatusTokens : list string;
  UnknownStatusTokens : list string;
  CreateActionTokens : list string;
  UpdateActionTokens : list string;
  DeleteActionTokens : list string
}.

Record WorkRequestAsyncInput := mkAsyncInput {
  in_RawStatus : string;
  in_RawAction : string;
  in_RawOperationType : string;
  in_WorkRequestID : string;
  in_PercentComplete : option Dec;
  in_Message : string;
  in_FallbackPhase : OSOKAsyncPhase
}.

Record WorkRequestLegacyBridge := mkBridge {
  bridge_Create : string;
  bridge_Update : string;
  bridge_Delete : string
}.

(** ** Tokens *)

Definition normalizeAsyncToken (value : string) : string := ToUpper (TrimSpace value).

Definition asyncTokenIn (token : string) (candidates : list string) : bool :=
  existsb (fun candidate => (normalizeAsyncToken candidate =? token)%string) candidates.

Definition Normalize (a : WorkRequestAsyncAdapter) (rawStatus : string)
  : result OSOKAsyncNormalizedClass GoError :=
  let statusToken := normalizeAsyncToken rawStatus in
  if (statusToken =? "")%string then Err (ErrText "async status is empty")
  else if asyncTokenIn statusToken (PendingStatusTokens a) then Ok OSOKAsyncClassPending
  else if asyncTokenIn statusToken (SucceededStatusTokens a) then Ok OSOKAsyncClassSucceeded
  else if asyncTokenIn statusToken (FailedStatusTokens a) then Ok OSOKAsyncClassFailed
  else if asyncTokenIn statusToken (CanceledStatusTokens a) then Ok OSOKAsyncClassCanceled
  else if asyncTokenIn statusToken (AttentionStatusTokens a) then Ok OSOKAsyncClassAttention
  else if asyncTokenIn statusToken (UnknownStatusTokens a) then Ok OSOKAsyncClassUnknown
  else Err (ErrText ("unmodeled async status " +++ Quote rawStatus)).

Definition phaseForAction (a : WorkRequestAsyncAdapter) (actionToken : string) : option OSOKAsyncPhase :=
  if asyncTokenIn actionToken (CreateActionTokens a) then Some OSOKAsyncPhaseCreate
  else if asyncTokenIn actionToken (UpdateActionTokens a) then Some OSOKAsyncPhaseUpdate
  else if asyncTokenIn actionToken (DeleteActionTokens a) then Some OSOKAsyncPhaseDelete
  else None.

(** [ResolveAsyncPhase]: the explicit phase, else the tracked one, else empty. *)
Definition ResolveAsyncPhase (status : option OSOKStatus) (explicit : OSOKAsyncPhase) : OSOKAsyncPhase :=
  if negb (explicit =? "")%string then explicit
  else match status with
       | Some s => match Current (Async s) with
                   | Some c => if negb (op_Phase c =? "")%string then op_Phase c else ""
                   | None => ""
                   end
       | None => ""
       end.

Definition ResolvePhase (a : WorkRequestAsyncAdapter) (status : option OSOKStatus) (rawAction : string)
    (fallback : OSOKAsyncPhase) : result OSOKAsyncPhase GoError :=
  let expectedPhase := ResolveAsyncPhase status fallback in
  let actionToken := normalizeAsyncToken rawAction in
  if (actionToken =? "")%string then
    if (expectedPhase =? "")%string
    then Err (ErrText "async phase is unknown: no raw action or fallback phase is available")
    else Ok expectedPhase
  else match phaseForAction a actionToken with
       | None => Err (ErrText ("unmodeled async action " +++ Quote rawAction))
       | Some resolvedPhase =>
           if negb (expectedPhase =? "")%string && negb (expectedPhase =? resolvedPhase)%string
           then Err (ErrText ("async phase " +++ Quote resolvedPhase +++ " derived from action " +++
                              Quote rawAction +++ " conflicts with expected phase " +++ Quote expectedPhase))
           else Ok resolvedPhase
       end.

(** ** Projection *)

Definition conditionForAsyncPhase (phase : OSOKAsyncPhase) : OSOKConditionType :=
  if (phase =? OSOKAsyncPhaseUpdate)%string then Updating
  else if (phase =? OSOKAsyncPhaseDelete)%string then Terminating
  else Provisioning.

Definition asyncActionLabel (phase : OSOKAsyncPhase) : string :=
  if (phase =? OSOKAsyncPhaseUpdate)%string then "update"
  else if (phase =? OSOKAsyncPhaseDelete)%string then "delete"
  else if (phase =? OSOKAsyncPhaseCreate)%string then "create"
  else "reconcile".

Definition ProjectAsyncCondition (class : OSOKAsyncNormalizedClass) (phase : OSOKAsyncPhase) : AsyncProjection :=
  let action := asyncActionLabel phase in
  let condition := conditionForAsyncPhase phase in
  if (class =? OSOKAsyncClassPending)%string then
    mkProjection condition ConditionTrue true ("OCI " +++ action +++ " is in progress")
  else if (class =? OSOKAsyncClassSucceeded)%string then
    if (phase =? OSOKAsyncPhaseDelete)%string then
      mkProjection Terminating ConditionTrue true "OCI delete completed; waiting for final confirmation"
    else mkProjection Active ConditionTrue false ("OCI " +++ action +++ " completed")
  else if (class =? OSOKAsyncClassCanceled)%string then
    mkProjection Failed ConditionFalse false ("OCI " +++ action +++ " was canceled")
  else if (class =? OSOKAsyncClassAttention)%string then
    mkProjection Failed ConditionFalse false ("OCI " +++ action +++ " requires attention")
  else if (class =? OSOKAsyncClassUnknown)%string then
    mkProjection Failed ConditionFalse false ("OCI " +++ action +++ " status is unknown")
  else mkProjection Failed ConditionFalse false ("OCI " +++ action +++ " failed").

Definition BuildWorkRequestAsyncOperation (status : option OSOKStatus) (adapter : WorkRequestAsyncAdapter)
    (input : WorkRequestAsyncInput) : result OSOKAsyncOperation GoError :=
  match Normalize adapter (in_RawStatus input) with
  | Err e => Err e
  | Ok class =>
      match ResolvePhase adapter status (in_RawAction input) (in_FallbackPhase input) with
      | Err e => Err e
      | Ok phase =>
          let message := TrimSpace (in_Message input) in
          let message := if (message =? "")%string then DefaultMessage (ProjectAsyncCondition class phase) else message in
          Ok (mkAsyncOp OSOKAsyncSourceWorkRequest phase (TrimSpace (in_WorkRequestID input))
                (TrimSpace (in_RawStatus input)) (TrimSpace (in_RawOperationType input)) class
                (in_PercentComplete input) message None)
      end
  end.

Definition preservedInFlightWorkRequestID (previous : option OSOKAsyncOperation) (current : OSOKAsyncOperation)
    (projection : AsyncProjection) : string :=
  match previous with
  | None => ""
  | Some prev =>
      if negb (ShouldRequeue projection) then ""
      else let workRequestID := TrimSpace (op_WorkRequestID prev) in
           if (workRequestID =? "")%string || (op_Phase prev =? "")%string ||
              negb (op_Phase prev =? op_Phase current)%string
           then "" else workRequestID
  end.

(** The zero [AsyncProjection{}]. *)
Definition emptyProjection := mkProjection "" "" false "".

(** [ApplyAsyncOperation]; [now] is read when the operation has no timestamp, [condNow] inside the
    condition update. *)
Definition ApplyAsyncOperation (now condNow : Time) (status : option OSOKStatus)
    (current : option OSOKAsyncOperation) : option OSOKStatus * AsyncProjection :=
  match status, current with
  | Some status, Some current =>
      let projection := ProjectAsyncCondition (op_NormalizedClass current) (op_Phase current) in
      let message := TrimSpace (op_Message current) in
      let message := if (message =? "")%string then DefaultMessage projection else message in
      let workRequestID := TrimSpace (op_WorkRequestID current) in
      let workRequestID :=
        if (workRequestID =? "")%string
        then preservedInFlightWorkRequestID (Current (Async status)) current projection
        else workRequestID in
      let updatedAt := match op_UpdatedAt current with Some t => t | None => now end in
      let status := set_Current (Some (mkAsyncOp (op_Source current) (op_Phase current) workRequestID
          (TrimSpace (op_RawStatus current)) (TrimSpace (op_RawOperationType current))
          (op_NormalizedClass current) (op_PercentComplete current) message (Some updatedAt))) status in
      let status := set_UpdatedAt (Some updatedAt) status in
      let status := set_Message message status in
      let status := set_Reason (Condition projection) status in
      (Some (UpdateOSOKStatusCondition condNow status (Condition projection) (ProjStatus projection) "" message),
       projection)
  | _, _ => (status, emptyProjection)
  end.

Definition ClearAsyncOperation (status : option OSOKStatus) : option OSOKStatus :=
  option_map (set_Current None) status.

(** ** Legacy work-request fields of a resource's status struct *)

(** [resourceStatusFieldByName]. *)
Definition resourceStatusFieldByName (resource : GoValue) (fieldName : string) : option GoValue :=
  if (TrimSpace fieldName =? "")%string then None
  else match indirectValue resource with
       | Some (VStruct n fs) =>
           match fieldByName "Status" (VStruct n fs) with
           | None => None
           | Some status =>
               match indirectValue status with
               | Some (VStruct sn sfs) => fieldByName fieldName (VStruct sn sfs)
               | _ => None
               end
           end
       | _ => None
       end.

(** [legacyWorkRequestFieldString]. *)
Definition legacyWorkRequestFieldString (field : GoValue) : string :=
  match indirectValue field with
  | Some (VString s) => TrimSpace s
  | _ => ""
  end.

Definition legacyWorkRequestIDForField (resource : GoValue) (fieldName : string) : string :=
  match resourceStatusFieldByName resource fieldName with
  | None => ""
  | Some field => legacyWorkRequestFieldString field
  end.

(** A field is settable when it is exported: its name starts with an upper-case letter. *)
Definition exported_name (name : string) : bool :=
  match name with EmptyString => false | String c _ => is_upper c end.

Definition setLegacyWorkRequestField (resource : GoValue) (fieldName value : string) : GoValue :=
  match resourceStatusFieldByName resource fieldName with
  | None => resource
  | Some field =>
      if negb (exported_name fieldName) then resource
      else let value := TrimSpace value in
           match field with
           | VString _ => update_status_field fieldName (VString value) resource
           | VPtr TString _ =>
               update_status_field fieldName
                 (VPtr TString (if (value =? "")%string then None else Some (VString value))) resource
           | _ => resource
           end
  end.

Definition legacyBridgeFieldForPhase (bridge : WorkRequestLegacyBridge) (phase : OSOKAsyncPhase) : string :=
  if (phase =? OSOKAsyncPhaseCreate)%string then bridge_Create bridge
  else if (phase =? OSOKAsyncPhaseUpdate)%string then bridge_Update bridge
  else if (phase =? OSOKAsyncPhaseDelete)%string then bridge_Delete bridge
  else "".

Definition clearLegacyWorkRequestBridge (resource : GoValue) (bridge : WorkRequestLegacyBridge) : GoValue :=
  fold_left (fun r fieldName => setLegacyWorkRequestField r fieldName "")
    [bridge_Create bridge; bridge_Update bridge; bridge_Delete bridge] resource.

Definition syncLegacyWorkRequestBridge (resource : GoValue) (bridge : WorkRequestLegacyBridge)
    (phase : OSOKAsyncPhase) (workRequestID : string) : GoValue :=
  let resource := clearLegacyWorkRequestBridge resource bridge in
  if (phase =? "")%string || (TrimSpace workRequestID =? "")%string then resource
  else setLegacyWorkRequestField resource (legacyBridgeFieldForPhase bridge phase) workRequestID.

Fixpoint first_legacy (resource : GoValue) (candidates : list (OSOKAsyncPhase * string)) : string * OSOKAsyncPhase :=
  match candidates with
  | [] => ("", "")
  | (phase, field) :: r =>
      let workRequestID := legacyWorkRequestIDForField resource field in
      if negb (workRequestID =? "")%string then (workRequestID, phase) else first_legacy resource r
  end.

(** [firstLegacyWorkRequest]: delete before update before create. *)
Definition firstLegacyWorkRequest (resource : GoValue) (bridge : WorkRequestLegacyBridge) : string * OSOKAsyncPhase :=
  first_legacy resource [(OSOKAsyncPhaseDelete, bridge_Delete bridge);
                         (OSOKAsyncPhaseUpdate, bridge_Update bridge);
                         (OSOKAsyncPhaseCreate, bridge_Create bridge)].

Definition legacyWorkRequestIDForPhase (resource : GoValue) (bridge : WorkRequestLegacyBridge) (phase : OSOKAsyncPhase) : string :=
  legacyWorkRequestIDForField resource (legacyBridgeFieldForPhase bridge phase).

Definition currentWorkRequestTracking (status : option OSOKStatus) : OSOKAsyncPhase * string :=
  match status with
  | Some s => match Current (Async s) with
              | Some c => (op_Phase c, TrimSpace (op_WorkRequestID c))
              | None => ("", "")
              end
  | None => ("", "")
  end.

(** The status pointer and the resource are the same object in the code: the result lists the new
    value behind the pointer and the resource with its other status fields updated. *)
Definition ApplyAsyncOperationWithLegacyBridge (now condNow : Time) (status : option OSOKStatus)
    (resource : GoValue) (bridge : WorkRequestLegacyBridge) (current : option OSOKAsyncOperation)
  : option OSOKStatus * GoValue * AsyncProjection :=
  let '(status, projection) := ApplyAsyncOperation now condNow status current in
  let '(phase, workRequestID) := currentWorkRequestTracking status in
  (status, syncLegacyWorkRequestBridge resource bridge phase workRequestID, projection).

Definition ClearAsyncOperationWithLegacyBridge (status : option OSOKStatus) (resource : GoValue)
    (bridge : WorkRequestLegacyBridge) : option OSOKStatus * GoValue :=
  (ClearAsyncOperation status, clearLegacyWorkRequestBridge resource bridge).

Definition ResolveTrackedWorkRequest (status : option OSOKStatus) (resource : GoValue)
    (bridge : WorkRequestLegacyBridge) (fallback : OSOKAsyncPhase) : string * OSOKAsyncPhase :=
  match status with
  | Some s =>
      match Current (Async s) with
      | Some current =>
          if negb (op_Source current =? "")%string && negb (op_Source current =? OSOKAsyncSourceWorkRequest)%string
          then ("", "")
          else if (op_Source current =? OSOKAsyncSourceWorkRequest)%string then
            let phase := ResolveAsyncPhase status fallback in
            let workRequestID := TrimSpace (op_WorkRequestID current) in
            if negb (workRequestID =? "")%string then (workRequestID, phase)
            else if negb (phase =? "")%string then
              let legacy := legacyWorkRequestIDForPhase resource bridge phase in
              if negb (legacy =? "")%string then (legacy, phase) else firstLegacyWorkRequest resource bridge
            else firstLegacyWorkRequest resource bridge
          else firstLegacyWorkRequest resource bridge
      | None => firstLegacyWorkRequest resource bridge
      end
  | None => firstLegacyWorkRequest resource bridge
  end.

(** ** Lifecycle states *)

Definition newLifecycleAsyncOperation (status : option OSOKStatus) (lifecycleState message : string)
    (phase : OSOKAsyncPhase) (class : OSOKAsyncNormalizedClass) : option OSOKAsyncOperation :=
  let resolvedPhase := ResolveAsyncPhase status phase in
  if (resolvedPhase =? "")%string then None
  else Some (mkAsyncOp OSOKAsyncSourceLifecycle resolvedPhase "" lifecycleState "" class None (TrimSpace message) None).

Definition NewLifecycleAsyncOperation (status : option OSOKStatus) (lifecycleState message : string)
    (fallbackPhase : OSOKAsyncPhase) : option OSOKAsyncOperation :=
  let state := ToUpper (TrimSpace lifecycleState) in
  if (state =? "")%string then None
  else if Contains state "FAIL" || Contains state "ERROR" || Contains state "INOPERABLE" then
    newLifecycleAsyncOperation status state message fallbackPhase OSOKAsyncClassFailed
  else if Contains state "NEEDS_ATTENTION" then
    newLifecycleAsyncOperation status state message fallbackPhase OSOKAsyncClassAttention
  else if Contains state "DELETED" || Contains state "TERMINATED" then
    newLifecycleAsyncOperation status state message OSOKAsyncPhaseDelete OSOKAsyncClassSucceeded
  else if Contains state "DELET" || Contains state "TERMINAT" then
    newLifecycleAsyncOperation status state message OSOKAsyncPhaseDelete OSOKAsyncClassPending
  else if Contains state "UPDAT" || Contains state "MODIFY" || Contains state "PATCH" then
    newLifecycleAsyncOperation status state message OSOKAsyncPhaseUpdate OSOKAsyncClassPending
  else if Contains state "CREAT" || Contains state "PROVISION" || Contains state "PENDING" ||
          Contains state "IN_PROGRESS" || Contains state "ACCEPT" || Contains state "START" then
    newLifecycleAsyncOperation status state message OSOKAsyncPhaseCreate OSOKAsyncClassPending
  else None.

(** ** Request ids and small helpers *)

Definition SetOpcRequestID (status : option OSOKStatus) (requestID : string) : option OSOKStatus :=
  match status with
  | None => None
  | Some s =>
      let requestID := TrimSpace requestID in
      if negb (requestID =? "")%string then Some (set_OpcRequestID requestID s) else Some s
  end.

Definition ErrorOpcRequestID (err : option GoError) : string :=
  match err with
  | None => ""
  | Some e =>
      match as_getter e with
      | Some id => TrimSpace id
      | None => match error_opc_field e with Some s => TrimSpace s | None => "" end
      end
  end.

Definition RecordResponseOpcRequestID (status : option OSOKStatus) (response : GoValue) : option OSOKStatus :=
  SetOpcRequestID status (ResponseOpcRequestID response).

Definition RecordErrorOpcRequestID (status : option OSOKStatus) (err : option GoError) : option OSOKStatus :=
  SetOpcRequestID status (ErrorOpcRequestID err).

Definition ResolveResourceID (statusID specID : string) : result string GoError :=
  if negb (statusID =? "")%string then Ok statusID
  else if negb (specID =? "")%string then Ok specID
  else Err (ErrText "resource ocid is empty").

Definition SetCreatedAtIfUnset (now : Time) (status : option OSOKStatus) : option OSOKStatus :=
  match status with
  | None => None
  | Some s => match CreatedAt s with Some _ => Some s | None => Some (set_CreatedAt (Some now) s) end
  end.

Definition IsNotFoundServiceError (err : option GoError) : bool :=
  match err with
  | Some (ErrService se) => (GetHTTPStatusCode se =? 404)%Z
  | _ => false
  end.

Definition IsNotFoundErrorString (err : option GoError) : bool :=
  match err with
  | None => false
  | Some e =>
      let msg := ToLower (ErrorString e) in
      Contains msg "404" || Contains msg "notfound" || Contains msg "not found"
  end.

Definition IsSecretNotFoundError (err : option GoError) : bool :=
  match err with Some e => k8s_IsNotFound e | None => false end || IsNotFoundErrorString err.

(** ** The tracked operation *)

(** What [ApplyAsyncOperation] leaves in the status. *)
Lemma ApplyAsyncOperation_Some now condNow s op :
  exists s', ApplyAsyncOperation now condNow (Some s) (Some op) =
    (Some s', ProjectAsyncCondition (op_NormalizedClass op) (op_Phase op)) /\
    exists c, Current (Async s') = Some c /\ op_Phase c = op_Phase op /\ op_Source c = op_Source op /\
      op_NormalizedClass c = op_NormalizedClass op /\ op_Message c = Message s' /\
      op_WorkRequestID c =
        (if (TrimSpace (op_WorkRequestID op) =? "")%string
         then preservedInFlightWorkRequestID (Current (Async s)) op
                (ProjectAsyncCondition (op_NormalizedClass op) (op_Phase op))
         else TrimSpace (op_WorkRequestID op)) /\
      Reason s' = Condition (ProjectAsyncCondition (op_NormalizedClass op) (op_Phase op)) /\
      Ocid s' = Ocid s /\ OpcRequestID s' = OpcRequestID s /\ CreatedAt s' = CreatedAt s /\
      DeletedAt s' = DeletedAt s /\ UpdatedAt s' = op_UpdatedAt c.
Proof.
  unfold ApplyAsyncOperation. rewrite UpdateOSOKStatusCondition_spec.
  eexists. split; [reflexivity|]. eexists. split; [reflexivity|]. simpl. by repeat split.
Qed.

Lemma preserved_trimmed prev op pr :
  TrimSpace (preservedInFlightWorkRequestID prev op pr) = preservedInFlightWorkRequestID prev op pr.
Proof.
  unfold preservedInFlightWorkRequestID. repeat case_goal; try done. apply TrimSpace_idem.
Qed.

Lemma applied_id_trimmed op prev pr :
  let id := if (TrimSpace (op_WorkRequestID op) =? "")%string
            then preservedInFlightWorkRequestID prev op pr else TrimSpace (op_WorkRequestID op) in
  TrimSpace id = id.
Proof. simpl. case_goal; [apply preserved_trimmed|apply TrimSpace_idem]. Qed.

(** ** Legacy fields *)

(** The status struct of a resource. *)
Definition status_fields (r : GoValue) (sn : string) (sfs : list (StructField * GoValue)) : Prop :=
  exists t n fs, r = VPtr t (Some (VStruct n fs)) /\ struct_field "Status" fs = Some (VStruct sn sfs).

(** The shapes of a legacy work-request field: a string or a pointer to one. *)
Definition legacy_shape (v : GoValue) : Prop :=
  match v with
  | VString _ | VPtr TString None | VPtr TString (Some (VString _)) => True
  | _ => False
  end.

(** A bridge entry is blank (no such field) or names an exported legacy field. *)
Definition legacy_entry (sfs : list (StructField * GoValue)) (name : string) : Prop :=
  TrimSpace name = "" \/
  (exported_name name = true /\ TrimSpace name <> "" /\ name <> "OsokStatus" /\
   exists v, struct_field name sfs = Some v /\ legacy_shape v).

Definition bridge_names (b : WorkRequestLegacyBridge) : list string :=
  [bridge_Create b; bridge_Update b; bridge_Delete b].

Definition legacy_ok (r : GoValue) (names : list string) : Prop :=
  exists sn sfs, status_fields r sn sfs /\ Forall (legacy_entry sfs) names.

Lemma resourceStatusFieldByName_at r sn sfs name v :
  status_fields r sn sfs -> TrimSpace name <> "" -> struct_field name sfs = Some v ->
  resourceStatusFieldByName r name = Some v.
Proof.
  intros (t & n & fs & -> & Hs) Hb Hv. unfold resourceStatusFieldByName.
  destruct (TrimSpace name =? "")%string eqn:E; [by bool_prop|].
  cbn [indirectValue]. rewrite (fieldByName_struct_field _ _ _ _ Hs). cbn [indirectValue].
  by apply fieldByName_struct_field.
Qed.

Lemma resourceStatusFieldByName_blank r name :
  TrimSpace name = "" -> resourceStatusFieldByName r name = None.
Proof. intros H. unfold resourceStatusFieldByName. by rewrite H. Qed.

Lemma update_status_fields r sn sfs name x :
  status_fields r sn sfs -> status_fields (update_status_field name x r) sn (set_field name x sfs).
Proof.
  intros (t & n & fs & -> & Hs). cbn [update_status_field]. rewrite Hs.
  eexists t, n, _. split; [done|]. apply struct_field_set_eq. by rewrite Hs.
Qed.

Lemma legacy_entry_set sfs a b x :
  legacy_entry sfs b -> legacy_shape x -> legacy_entry (set_field a x sfs) b.
Proof.
  intros [H|(He & Hb & Ho & v & Hv & Hs)] Hx; [by left|right]. split; [done|]. split; [done|]. split; [done|].
  destruct (decide (a = b)) as [->|Hne].
  - exists x. split; [|done]. apply struct_field_set_eq. by rewrite Hv.
  - exists v. split; [|done]. by rewrite struct_field_set_ne.
Qed.

(** One assignment: the named field holds the trimmed value, every other entry is as before. *)
Lemma setLegacy_spec r names a value :
  legacy_ok r names -> a ∈ names ->
  legacy_ok (setLegacyWorkRequestField r a value) names /\
  (forall b, b ∈ names ->
    legacyWorkRequestIDForField (setLegacyWorkRequestField r a value) b =
    if decide (TrimSpace a <> "" /\ a = b) then TrimSpace value else legacyWorkRequestIDForField r b).
Proof.
  intros (sn & sfs & Hr & Hok) Ha.
  pose proof (proj1 (Forall_forall _ _) Hok _ Ha) as [Hblank|(He & Hb & Ho & v & Hv & Hs)].
  { unfold setLegacyWorkRequestField. rewrite resourceStatusFieldByName_blank by done.
    split; [by exists sn, sfs|]. intros b _. by case_decide as Hd; [destruct Hd|]. }
  assert (exists x, setLegacyWorkRequestField r a value = update_status_field a x r /\
            legacy_shape x /\ legacyWorkRequestFieldString x = TrimSpace value) as (x & -> & Hx & Hval).
  { unfold setLegacyWorkRequestField. rewrite (resourceStatusFieldByName_at r sn sfs a v) by done.
    rewrite He. cbn [negb].
    assert (legacyWorkRequestFieldString (VString (TrimSpace value)) = TrimSpace value)
      by (unfold legacyWorkRequestFieldString; simpl; apply TrimSpace_idem).
    destruct v as [| | | |s|[] p| | | | | |]; try done; [by eexists|].
    destruct (TrimSpace value =? "")%string eqn:E; eexists; (split; [done|]); split; try done.
    bool_prop. by rewrite E. }
  split.
  { exists sn, (set_field a x sfs). split; [by apply update_status_fields|].
    eapply Forall_impl; [exact Hok|]. intros b Hb'. by apply legacy_entry_set. }
  intros b Hbin. pose proof (update_status_fields r sn sfs a x Hr) as Hr'.
  pose proof (proj1 (Forall_forall _ _) Hok _ Hbin) as [Hbl|(_ & Hbb & _ & w & Hw & _)].
  { unfold legacyWorkRequestIDForField. rewrite !resourceStatusFieldByName_blank by done.
    case_decide as Hd; [|done]. destruct Hd as [? ->]. congruence. }
  unfold legacyWorkRequestIDForField. rewrite (resourceStatusFieldByName_at r sn sfs b w) by done.
  destruct (decide (a = b)) as [->|Hne].
  - rewrite (resourceStatusFieldByName_at _ _ _ b x Hr') by (done || (apply struct_field_set_eq; by rewrite Hw)).
    by rewrite decide_True.
  - rewrite (resourceStatusFieldByName_at _ _ _ b w Hr') by (done || by rewrite struct_field_set_ne).
    rewrite decide_False; naive_solver.
Qed.

Lemma legacy_blank r names b :
  legacy_ok r names -> b ∈ names -> TrimSpace b = "" -> legacyWorkRequestIDForField r b = "".
Proof. intros _ _ H. unfold legacyWorkRequestIDForField. by rewrite resourceStatusFieldByName_blank. Qed.

Lemma clearLegacy_spec r b :
  legacy_ok r (bridge_names b) ->
  legacy_ok (clearLegacyWorkRequestBridge r b) (bridge_names b) /\
  forall f, f ∈ bridge_names b -> legacyWorkRequestIDForField (clearLegacyWorkRequestBridge r b) f = "".
Proof.
  intros H0. unfold clearLegacyWorkRequestBridge. cbn [fold_left].
  destruct (setLegacy_spec r _ (bridge_Create b) "" H0) as [H1 E1]; [set_solver|].
  destruct (setLegacy_spec _ _ (bridge_Update b) "" H1) as [H2 E2]; [set_solver|].
  destruct (setLegacy_spec _ _ (bridge_Delete b) "" H2) as [H3 E3]; [set_solver|].
  split; [done|]. intros f Hf. destruct (decide (TrimSpace f = "")); [by eapply legacy_blank|].
  rewrite E3, E2, E1 by done. unfold bridge_names in Hf.
  decide_goal; try done. exfalso. set_solver.
Qed.

Definition distinct_bridge (b : WorkRequestLegacyBridge) : Prop :=
  bridge_Create b <> bridge_Update b /\ bridge_Create b <> bridge_Delete b /\ bridge_Update b <> bridge_Delete b.

Definition modelled_phase (p : OSOKAsyncPhase) : Prop :=
  p = OSOKAsyncPhaseCreate \/ p = OSOKAsyncPhaseUpdate \/ p = OSOKAsyncPhaseDelete.

Lemma syncLegacy_spec r b phase id :
  legacy_ok r (bridge_names b) -> distinct_bridge b -> modelled_phase phase ->
  TrimSpace (legacyBridgeFieldForPhase b phase) <> "" -> TrimSpace id = id ->
  firstLegacyWorkRequest (syncLegacyWorkRequestBridge r b phase id) b =
  if (id =? "")%string then ("", "") else (id, phase).
Proof.
  intros Hok (D1 & D2 & D3) Hp Hf Hid. unfold syncLegacyWorkRequestBridge.
  destruct (clearLegacy_spec r b Hok) as [Hok' Hc].
  assert (forall f, f ∈ bridge_names b -> legacyWorkRequestIDForField (clearLegacyWorkRequestBridge r b) f = "") as Hc' by done.
  rewrite Hid. destruct (id =? "")%string eqn:E.
  { rewrite orb_true_r. unfold firstLegacyWorkRequest. cbn [first_legacy]. rewrite !Hc' by set_solver. done. }
  destruct (phase =? "")%string eqn:Ep; [destruct Hp as [->|[->| ->]]; done|]. cbn [orb].
  destruct (setLegacy_spec _ _ (legacyBridgeFieldForPhase b phase) id Hok') as [_ Hset].
  { destruct Hp as [->|[->| ->]]; cbn; set_solver. }
  unfold firstLegacyWorkRequest. cbn [first_legacy]. rewrite !Hset, !Hc' by set_solver. rewrite Hid.
  destruct Hp as [->|[->| ->]]; cbn in Hf |- *;
    repeat first [rewrite decide_True by done | rewrite decide_False by (intros [_ ?]; congruence)];
    cbn; rewrite ?E; done.
Qed.

(** ** Lemmas on tokens and projection *)

Lemma normalizeAsyncToken_idem s : normalizeAsyncToken (normalizeAsyncToken s) = normalizeAsyncToken s.
Proof. unfold normalizeAsyncToken. by rewrite TrimSpace_ToUpper, TrimSpace_idem, ToUpper_idem. Qed.

Lemma ResolvePhase_expected a status act fallback p :
  ResolvePhase a status act fallback = Ok p ->
  p <> "" /\ (ResolveAsyncPhase status fallback <> "" -> p = ResolveAsyncPhase status fallback).
Proof.
  unfold ResolvePhase, phaseForAction. intros H.
  repeat (case_hyp H; try discriminate); simplify_eq; bool_prop; split; try done; intros Hne;
    match goal with H : _ && _ = false |- _ => apply andb_false_iff in H as [?|?] end; bool_prop; congruence.
Qed.

(** The projection of a class, written as the table of the contract. *)
Definition in_flight (class : OSOKAsyncNormalizedClass) (phase : OSOKAsyncPhase) : Prop :=
  class = OSOKAsyncClassPending \/ (class = OSOKAsyncClassSucceeded /\ phase = OSOKAsyncPhaseDelete).

#[export] Instance in_flight_dec class phase : Decision (in_flight class phase).
Proof. unfold in_flight. apply _. Defined.

Lemma requeue_iff_in_flight class phase :
  ShouldRequeue (ProjectAsyncCondition class phase) = true <-> in_flight class phase.
Proof.
  unfold ProjectAsyncCondition, in_flight.
  repeat (case_goal; bool_prop; subst); simpl; intuition (congruence || discriminate).
Qed.

(** The id a headerless observation inherits. *)
Lemma preserved_spec prev op :
  preservedInFlightWorkRequestID prev op (ProjectAsyncCondition (op_NormalizedClass op) (op_Phase op)) =
  match prev with
  | Some p => if decide (in_flight (op_NormalizedClass op) (op_Phase op) /\ op_Phase p = op_Phase op /\ op_Phase op <> "")
              then TrimSpace (op_WorkRequestID p) else ""
  | None => ""
  end.
Proof.
  destruct prev as [p|]; [|done]. simpl.
  pose proof (requeue_iff_in_flight (op_NormalizedClass op) (op_Phase op)) as Hr.
  destruct (ShouldRequeue _) eqn:E; simpl.
  - destruct (TrimSpace (op_WorkRequestID p) =? "")%string eqn:E1,
      (op_Phase p =? "")%string eqn:E2, (op_Phase p =? op_Phase op)%string eqn:E3; simpl;
      bool_prop; decide_goal; intuition congruence.
  - decide_goal; intuition congruence.
Qed.

(** ** Properties *)

(** The projection requeues exactly the operations that are in flight (pending, or a succeeded
    delete that still needs final confirmation), reports the Failed condition exactly for classes
    other than pending and succeeded, sets the condition status to False exactly with Failed, and a
    failed operation is never requeued. *)
Theorem async_projection_table class phase :
  let p := ProjectAsyncCondition class phase in
  (ShouldRequeue p = true <-> in_flight class phase) /\
  (Condition p = Failed <-> class <> OSOKAsyncClassPending /\ class <> OSOKAsyncClassSucceeded) /\
  (ProjStatus p = ConditionFalse <-> Condition p = Failed) /\
  (Condition p = Active <-> class = OSOKAsyncClassSucceeded /\ phase <> OSOKAsyncPhaseDelete) /\
  (Condition p = Failed -> ShouldRequeue p = false).
Proof.
  unfold ProjectAsyncCondition, conditionForAsyncPhase, in_flight.
  repeat (case_goal; bool_prop; subst); simpl; intuition (congruence || discriminate).
Qed.

(** Applying an operation keeps the work request that is in flight: the recorded id is the
    operation's own id when it has one; a headerless observation inherits the tracked id only while
    the operation is in flight in the same phase, and drops it otherwise. *)
Theorem inflight_work_request_kept now condNow s op :
  exists s' c, fst (ApplyAsyncOperation now condNow (Some s) (Some op)) = Some s' /\
    Current (Async s') = Some c /\
    (TrimSpace (op_WorkRequestID op) <> "" -> op_WorkRequestID c = TrimSpace (op_WorkRequestID op)) /\
    (TrimSpace (op_WorkRequestID op) = "" ->
       op_WorkRequestID c = "" \/
       exists prev, Current (Async s) = Some prev /\ op_WorkRequestID c = TrimSpace (op_WorkRequestID prev) /\
         op_Phase prev = op_Phase op /\ in_flight (op_NormalizedClass op) (op_Phase op)) /\
    (forall prev, TrimSpace (op_WorkRequestID op) = "" -> Current (Async s) = Some prev ->
       in_flight (op_NormalizedClass op) (op_Phase op) -> op_Phase prev = op_Phase op -> op_Phase op <> "" ->
       op_WorkRequestID c = TrimSpace (op_WorkRequestID prev)).
Proof.
  destruct (ApplyAsyncOperation_Some now condNow s op) as (s' & Heq & c & Hc & _ & _ & _ & _ & Hid & _).
  exists s', c. rewrite Heq. split; [done|]. split; [done|]. rewrite Hid, preserved_spec. split; [|split].
  - intros Hne. by destruct (TrimSpace (op_WorkRequestID op) =? "")%string eqn:E; bool_prop.
  - intros ->. simpl. destruct (Current (Async s)) as [prev|]; [|by left].
    decide_goal; [right; exists prev; naive_solver|by left].
  - intros prev -> -> Hf Hp Hne. simpl. by rewrite decide_True.
Qed.

(** When a work request is turned into an async operation, its phase is non-empty and agrees
    with the phase the reconcile expected (the explicit one, else the tracked one): an action that
    belongs to another phase is an error, never a silent switch. *)
Theorem work_request_phase_agrees status adapter input op :
  BuildWorkRequestAsyncOperation status adapter input = Ok op ->
  op_Phase op <> "" /\ op_Source op = OSOKAsyncSourceWorkRequest /\
  Normalize adapter (in_RawStatus input) = Ok (op_NormalizedClass op) /\
  (ResolveAsyncPhase status (in_FallbackPhase input) <> "" ->
   op_Phase op = ResolveAsyncPhase status (in_FallbackPhase input)).
Proof.
  unfold BuildWorkRequestAsyncOperation. intros H.
  destruct (Normalize adapter (in_RawStatus input)) eqn:E1; [|done].
  destruct (ResolvePhase _ _ _ _) eqn:E2; [|done]. injection H as <-. simpl.
  apply ResolvePhase_expected in E2. naive_solver.
Qed.

Lemma work_request_phase_agrees_witness :
  op_Phase (mkAsyncOp OSOKAsyncSourceWorkRequest "create" "wr1" "IN_PROGRESS" "" "pending" None "OCI create is in progress" None) = "create".
Proof.
  apply (work_request_phase_agrees None
    (mkAdapter ["IN_PROGRESS"] [] [] [] [] [] ["CREATED"] [] [])
    (mkAsyncInput " IN_PROGRESS" "created" "" "wr1 " None "" "create")); [reflexivity|discriminate].
Defined.

(** The compatibility fields mirror the tracked work request: after an operation is applied,
    reading only the legacy fields resolves to the tracked id and phase, or to nothing when no id is
    tracked. *)
Theorem legacy_bridge_mirrors_tracking now condNow s r bridge op s' r' p :
  legacy_ok r (bridge_names bridge) -> distinct_bridge bridge -> modelled_phase (op_Phase op) ->
  TrimSpace (legacyBridgeFieldForPhase bridge (op_Phase op)) <> "" ->
  ApplyAsyncOperationWithLegacyBridge now condNow (Some s) r bridge (Some op) = (Some s', r', p) ->
  exists c, Current (Async s') = Some c /\
    firstLegacyWorkRequest r' bridge =
    (if (op_WorkRequestID c =? "")%string then ("", "") else (op_WorkRequestID c, op_Phase c)).
Proof.
  intros Hok Hd Hp Hf. unfold ApplyAsyncOperationWithLegacyBridge.
  destruct (ApplyAsyncOperation_Some now condNow s op) as (s1 & -> & c & Hc & Hph & _ & _ & _ & Hid & _).
  unfold currentWorkRequestTracking. rewrite Hc. intros [= <- <- <-]. exists c. split; [done|].
  assert (TrimSpace (op_WorkRequestID c) = op_WorkRequestID c) as Ht.
  { rewrite Hid. apply (applied_id_trimmed op). }
  rewrite Ht. apply syncLegacy_spec; rewrite ?Hph; done.
Qed.

(** A custom resource with two legacy fields, a string and a string pointer. *)
Definition legacy_demo : GoValue :=
  let f n := mkField n true false "" "" "" "" "" in
  VPtr (TStruct "v1beta1.Queue" []) (Some (VStruct "v1beta1.Queue"
    [(f "Spec", VStruct "v1beta1.QueueSpec" []);
     (f "Status", VStruct "v1beta1.QueueStatus"
        [(f "OsokStatus", VOsok emptyStatus);
         (f "CreateWorkRequestId", VString "stale");
         (f "DeleteWorkRequestId", VPtr TString None)])])).

Definition legacy_demo_bridge := mkBridge "CreateWorkRequestId" "" "DeleteWorkRequestId".

Lemma legacy_demo_ok : legacy_ok legacy_demo (bridge_names legacy_demo_bridge).
Proof.
  eexists _, _. split; [by eexists _, _, _|].
  apply Forall_cons; split; [right|apply Forall_cons; split; [left; done|apply Forall_cons; split; [right|apply Forall_nil; done]]];
    repeat split; try done; eexists; split; done.
Defined.

Lemma legacy_bridge_mirrors_tracking_witness :
  exists c, Current (Async (match fst (fst (ApplyAsyncOperationWithLegacyBridge 1%Z 2%Z (Some emptyStatus) legacy_demo
    legacy_demo_bridge (Some (mkAsyncOp "workrequest" "delete" "wr9" "" "" "pending" None "" None)))) with
    Some s => s | None => emptyStatus end)) = Some c /\
  firstLegacyWorkRequest (snd (fst (ApplyAsyncOperationWithLegacyBridge 1%Z 2%Z (Some emptyStatus) legacy_demo
    legacy_demo_bridge (Some (mkAsyncOp "workrequest" "delete" "wr9" "" "" "pending" None "" None))))) legacy_demo_bridge
  = (if (op_WorkRequestID c =? "")%string then ("", "") else (op_WorkRequestID c, op_Phase c)).
Proof.
  eapply (legacy_bridge_mirrors_tracking 1%Z 2%Z emptyStatus legacy_demo legacy_demo_bridge
    (mkAsyncOp "workrequest" "delete" "wr9" "" "" "pending" None "" None)).
  - apply legacy_demo_ok.
  - done.
  - right; right; reflexivity.
  - discriminate.
  - vm_compute. reflexivity.
Defined.

(** Clearing the tracked operation clears every mirror: afterwards no work request can be
    resolved from the status or from the legacy fields, and applying it to the shared status block
    removes the current operation and nothing else. *)
Theorem legacy_bridge_clear s r bridge fallback :
  legacy_ok r (bridge_names bridge) ->
  match ClearAsyncOperationWithLegacyBridge (Some s) r bridge with
  | (status, r') =>
      status = Some (set_Current None s) /\
      ResolveTrackedWorkRequest status r' bridge fallback = ("", "") /\
      (forall f, f ∈ bridge_names bridge -> legacyWorkRequestIDForField r' f = "")
  end.
Proof.
  intros Hok. unfold ClearAsyncOperationWithLegacyBridge. split; [done|].
  destruct (clearLegacy_spec r bridge Hok) as [_ Hc]. split; [|done].
  simpl. unfold firstLegacyWorkRequest. cbn [first_legacy]. by rewrite !Hc by (unfold bridge_names; set_solver).
Qed.

Lemma legacy_bridge_clear_witness :
  match ClearAsyncOperationWithLegacyBridge (Some emptyStatus) legacy_demo legacy_demo_bridge with
  | (status, r') =>
      status = Some (set_Current None emptyStatus) /\
      ResolveTrackedWorkRequest status r' legacy_demo_bridge "create" = ("", "") /\
      (forall f, f ∈ bridge_names legacy_demo_bridge -> legacyWorkRequestIDForField r' f = "")
  end.
Proof. apply (legacy_bridge_clear emptyStatus legacy_demo legacy_demo_bridge "create" legacy_demo_ok). Defined.

(** Work-request tokens are compared case-insensitively and without surrounding white space:
    two raw statuses with the same normalised token get the same class, and two raw actions the
    same phase. *)
Theorem async_tokens_normalised a status fallback s1 s2 :
  normalizeAsyncToken s1 = normalizeAsyncToken s2 ->
  (forall c, Normalize a s1 = Ok c <-> Normalize a s2 = Ok c) /\
  (forall p, ResolvePhase a status s1 fallback = Ok p <-> ResolvePhase a status s2 fallback = Ok p).
Proof.
  intros H. unfold Normalize, ResolvePhase. rewrite H.
  split; intros; repeat case_goal; try done.
Qed.

Lemma async_tokens_normalised_witness :
  forall c, Normalize (mkAdapter ["IN_PROGRESS"] [] [] [] [] [] [] [] []) " in_progress " = Ok c <->
            Normalize (mkAdapter ["IN_PROGRESS"] [] [] [] [] [] [] [] []) "IN_PROGRESS" = Ok c.
Proof.
  apply (async_tokens_normalised (mkAdapter ["IN_PROGRESS"] [] [] [] [] [] [] [] []) None "" " in_progress " "IN_PROGRESS").
  reflexivity.
Defined.
