(* ===== verification/Reconciler.v ===== *)
(** * The base reconciler ([pkg/core])

    [reconciler.go]: one reconcile of a custom resource, parametric in the
    Kubernetes client and in the service manager; [finalizers.go] and
    [predicate.go]: finalizer helpers and the watch predicate.  Log and metric
    calls are left out; Kubernetes events, API calls and service-manager calls
    are recorded in a trace. *)

From S2P Require Import Prelude GoStrings Shared GoErrors GoValue AsyncStatus.
Local Open Scope string_scope.
Local Open Scope go_scope.

(** ** Interfaces ([pkg/servicemanager/interfaces.go]) *)

Record OSOKResponse := mkResponse {
  IsSuccessful : bool;
  resp_ShouldRequeue : bool;
  RequeueDuration : Duration
}.

Record OSOKDeleteResult := mkDeleteResult {
  Deleted : bool;
  del_RequeueDuration : Duration
}.

(** [client.Object]: the metadata the reconciler touches and the rest of the object. *)
Record Object (Body : Type) := mkObject {
  o_finalizers : list string;
  o_deletionTimestamp : option Time;
  o_generation : Z;
  o_body : Body
}.
Arguments mkObject {Body}.
Arguments o_finalizers {Body}.
Arguments o_deletionTimestamp {Body}.
Arguments o_generation {Body}.
Arguments o_body {Body}.

#[export] Instance Object_eq_dec {Body} `{EqDecision Body} : EqDecision (Object Body).
Proof. solve_decision. Defined.

Definition SetFinalizers {Body} (f : list string) (o : Object Body) : Object Body :=
  mkObject f (o_deletionTimestamp o) (o_generation o) (o_body o).

(** ** Finalizers ([finalizers.go] and controller-runtime's [controllerutil]) *)

Definition OSOKFinalizerName := "finalizers.oci.oracle.com/oci-resources".
Definition defaultRequeueTime : Duration := (Minute * 2)%Z.
Definition deleteEventReasonBlocked := "DeleteBlocked".
Definition deleteEventReasonInProgress := "DeleteInProgress".

Section Finalizers.
Context {Body : Type}.
Implicit Types o : Object Body.

Definition ContainsFinalizer o (finalizer : string) : bool :=
  existsb (fun e => (e =? finalizer)%string) (o_finalizers o).

Definition HasFinalizer o (finalizer : string) : bool :=
  existsb (fun e => (e =? finalizer)%string) (o_finalizers o).

Definition AddFinalizer o (finalizer : string) : Object Body :=
  if ContainsFinalizer o finalizer then o
  else SetFinalizers (o_finalizers o ++ [finalizer]) o.

Definition RemoveFinalizer o (finalizer : string) : Object Body :=
  SetFinalizers (List.filter (fun e => negb (e =? finalizer)%string) (o_finalizers o)) o.

(** [baseFinalizer.AddFinalizers] and [baseFinalizer.RemoveFinalizer]. *)
Definition baseFinalizer_AddFinalizers o (finalizers : list string) : Object Body :=
  fold_left (fun o f => if negb (HasFinalizer o f) then AddFinalizer o f else o) finalizers o.
Definition baseFinalizer_RemoveFinalizer o (finalizers : list string) : Object Body :=
  fold_left (fun o f => if HasFinalizer o f then RemoveFinalizer o f else o) finalizers o.

(** The loops of [addFinalizer] and [removeFinalizer]: the object and whether it needs an update. *)
Fixpoint add_finalizers o (finalizers : list string) (needsUpdate : bool) : Object Body * bool :=
  match finalizers with
  | [] => (o, needsUpdate)
  | f :: r =>
      if negb (f =? "")%string && negb (ContainsFinalizer o f)
      then add_finalizers (AddFinalizer o f) r true
      else add_finalizers o r needsUpdate
  end.

Fixpoint remove_finalizers o (finalizers : list string) (needsUpdate : bool) : Object Body * bool :=
  match finalizers with
  | [] => (o, needsUpdate)
  | f :: r =>
      if negb (f =? "")%string && ContainsFinalizer o f
      then remove_finalizers (RemoveFinalizer o f) r true
      else remove_finalizers o r needsUpdate
  end.
End Finalizers.

(** ** The watch predicate ([predicate.go]) *)

Record UpdateEvent (Body : Type) := mkUpdateEvent {
  ObjectOld : option (Object Body);
  ObjectNew : option (Object Body)
}.
Arguments mkUpdateEvent {Body}.
Arguments ObjectOld {Body}.
Arguments ObjectNew {Body}.

(** [predicate.GenerationChangedPredicate.Update] of controller-runtime. *)
Definition GenerationChanged_Update {Body} (e : UpdateEvent Body) : bool :=
  match ObjectOld e, ObjectNew e with
  | Some o, Some n => negb (o_generation n =? o_generation o)%Z
  | _, _ => false
  end.

(** The [UpdateFunc] of [ReconcilePredicate]. *)
Definition deleteIntent_Update {Body} (e : UpdateEvent Body) : bool :=
  match ObjectOld e, ObjectNew e with
  | Some o, Some n =>
      match o_deletionTimestamp o, o_deletionTimestamp n with
      | None, Some _ => true
      | _, _ => false
      end
  | _, _ => false
  end.

(** [ReconcilePredicate().Update]: [predicate.Or] of the two. *)
Definition ReconcilePredicate_Update {Body} (e : UpdateEvent Body) : bool :=
  GenerationChanged_Update e || deleteIntent_Update e.

(** ** The reconciler *)

(** The Kubernetes client of the manager; [W] is everything outside the reconciler. *)
Record Client (Body W : Type) := mkClient {
  c_Get : W -> result (Object Body) GoError * W;
  c_Update : Object Body -> W -> Object Body * option GoError * W;
  c_StatusPatch : Object Body -> Object Body -> W -> Object Body * option GoError * W
}.
Arguments mkClient {Body W}.
Arguments c_Get {Body W}.
Arguments c_Update {Body W}.
Arguments c_StatusPatch {Body W}.

(** [OSOKServiceManager], with [OSOKDeleteResultProvider] when the manager implements it. *)
Record ServiceManager (Body W : Type) := mkServiceManager {
  sm_CreateOrUpdate : Object Body -> W -> outcome (OSOKResponse * option GoError) * Object Body * W;
  sm_Delete : Object Body -> W -> outcome (bool * option GoError) * Object Body * W;
  sm_DeleteWithResult : option (Object Body -> W -> outcome (OSOKDeleteResult * option GoError) * Object Body * W);
  sm_GetCrdStatus : Object Body -> result OSOKStatus GoError
}.
Arguments mkServiceManager {Body W}.
Arguments sm_CreateOrUpdate {Body W}.
Arguments sm_Delete {Body W}.
Arguments sm_DeleteWithResult {Body W}.
Arguments sm_GetCrdStatus {Body W}.

Inductive Effect (Body : Type) :=
| EffUpdate (o : Object Body)
| EffPatch (old new : Object Body)
| EffCreateOrUpdate (o : Object Body)
| EffDelete (o : Object Body)
| EffEvent (eventType reason message : string).
Arguments EffUpdate {Body}.
Arguments EffPatch {Body}.
Arguments EffCreateOrUpdate {Body}.
Arguments EffDelete {Body}.
Arguments EffEvent {Body}.

(** The reconciler's working copy of the object, the world and the effects so far, oldest first. *)
Record RS (Body W : Type) := mkRS {
  rs_obj : Object Body;
  rs_world : W;
  rs_trace : list (Effect Body)
}.
Arguments mkRS {Body W}.
Arguments rs_obj {Body W}.
Arguments rs_world {Body W}.
Arguments rs_trace {Body W}.

Section BaseReconciler.
Context {Body W : Type} `{EqDecision Body}.
Context (client : Client Body W) (manager : ServiceManager Body W) (AdditionalFinalizers : list string).

Definition RM (A : Type) := ST (RS Body W) A.

Definition emit (e : Effect Body) : RM unit :=
  st_modify (fun s => mkRS (rs_obj s) (rs_world s) (rs_trace s ++ [e])%list).
Definition get_obj : RM (Object Body) := st_gets rs_obj.
Definition put_obj (o : Object Body) : RM unit :=
  st_modify (fun s => mkRS o (rs_world s) (rs_trace s)).

(** [r.Recorder.Event]. *)
Definition Event (eventType reason message : string) : RM unit := emit (EffEvent eventType reason message).

(** [r.Update(ctx, obj)]. *)
Definition Update : RM (option GoError) := fun s =>
  let '(o, err, w) := c_Update client (rs_obj s) (rs_world s) in
  (Ret err, mkRS o w (rs_trace s ++ [EffUpdate (rs_obj s)])%list).

(** [r.Status().Patch(ctx, obj, client.MergeFrom(oldObj))]. *)
Definition StatusPatch (oldObj : Object Body) : RM (option GoError) := fun s =>
  let '(o, err, w) := c_StatusPatch client oldObj (rs_obj s) (rs_world s) in
  (Ret err, mkRS o w (rs_trace s ++ [EffPatch oldObj (rs_obj s)])%list).

Definition call_CreateOrUpdate : RM (OSOKResponse * option GoError) := fun s =>
  let '(r, o, w) := sm_CreateOrUpdate manager (rs_obj s) (rs_world s) in
  (r, mkRS o w (rs_trace s ++ [EffCreateOrUpdate (rs_obj s)])%list).

(** [DeleteWithResult] when the manager provides it, else [Delete]. *)
Definition delete_call (obj : Object Body) (w : W) : outcome (OSOKDeleteResult * option GoError) * Object Body * W :=
  match sm_DeleteWithResult manager with
  | Some f => f obj w
  | None =>
      let '(r, o, w) := sm_Delete manager obj w in
      (outcome_map (fun '(d, err) => (mkDeleteResult d 0%Z, err)) r, o, w)
  end.

Definition call_Delete : RM (OSOKDeleteResult * option GoError) := fun s =>
  let '(r, o, w) := delete_call (rs_obj s) (rs_world s) in
  (r, mkRS o w (rs_trace s ++ [EffDelete (rs_obj s)])%list).

Definition messageWithAsyncBreadcrumb (obj : Object Body) (message : string) : string :=
  match sm_GetCrdStatus manager obj with
  | Err _ => message
  | Ok status =>
      match Current (Async status) with
      | None => message
      | Some c =>
          let phase := TrimSpace (op_Phase c) in
          let workRequestID := TrimSpace (op_WorkRequestID c) in
          let breadcrumb := if negb (phase =? "")%string then ["async phase=" +++ phase] else [] in
          let breadcrumb :=
            if negb (workRequestID =? "")%string
            then (breadcrumb ++ ["workRequestId=" +++ workRequestID])%list else breadcrumb in
          match breadcrumb with
          | [] => message
          | _ => message +++ " (" +++ Join breadcrumb ", " +++ ")"
          end
      end
  end.

(** [GetStatus]: the status with [RequestedAt] set; [now] is the instant read when it was nil. *)
Definition GetStatus (now : Time) (obj : Object Body) : result OSOKStatus GoError :=
  match sm_GetCrdStatus manager obj with
  | Err e => Err e
  | Ok status =>
      match RequestedAt status with
      | None => Ok (set_RequestedAt (Some now) status)
      | Some _ => Ok status
      end
  end.

(** [addFinalizer] and [removeFinalizer]. *)
Definition addFinalizer (finalizers : list string) : RM (option GoError) :=
  let* obj := get_obj in
  let (obj, needsUpdate) := add_finalizers obj finalizers false in
  put_obj obj ;;;
  if negb needsUpdate then st_ret None
  else (Event "Normal" "Success" "Finalizer is added to the object" ;;; Update).

Definition removeFinalizer (finalizers : list string) : RM (option GoError) :=
  let* obj := get_obj in
  let (obj, needsUpdate) := remove_finalizers obj finalizers false in
  put_obj obj ;;;
  if negb needsUpdate then st_ret None
  else (Event "Normal" "Success" "Finalizer is removed from the object" ;;; Update).

Definition deleteResourceResult : RM (OSOKDeleteResult * option GoError) :=
  let* (delResult, err) := call_Delete in
  let* obj := get_obj in
  match err with
  | Some e =>
      let* classification := st_lift (ClassifyDeleteError (Some e)) in
      if IsUnambiguousNotFound classification then st_ret (mkDeleteResult true 0%Z, None)
      else if IsConflict classification then
        (Event "Normal" deleteEventReasonBlocked
           (messageWithAsyncBreadcrumb obj ("Delete blocked and will be retried: " +++ ErrorString e)) ;;;
         st_ret (mkDeleteResult false 0%Z, None))
      else
        (Event "Warning" "Failed"
           (messageWithAsyncBreadcrumb obj ("Failed to delete resource: " +++ ErrorString e)) ;;;
         st_ret (mkDeleteResult false 0%Z, Some e))
  | None =>
      if Deleted delResult then st_ret (delResult, None)
      else
        (Event "Normal" deleteEventReasonInProgress (messageWithAsyncBreadcrumb obj "Delete is in progress") ;;;
         st_ret (delResult, None))
  end.

Definition DeleteResource : RM (bool * option GoError) :=
  let* (result, err) := deleteResourceResult in st_ret (Deleted result, err).

Definition patchDeleteStatusIfChanged (oldObj : Object Body) : RM (option GoError) :=
  let* obj := get_obj in
  if decide (oldObj = obj) then st_ret None
  else
    let* err := StatusPatch oldObj in
    match err with
    | Some e =>
        (Event "Warning" "Failed" ("Failed to persist delete status: " +++ ErrorString e) ;;; st_ret (Some e))
    | None => st_ret None
    end.

Definition ReconcileResource : RM (Result * option GoError) :=
  let* oldObj := get_obj in
  let* (response, err) := call_CreateOrUpdate in
  (match err with
   | Some e =>
       let* obj := get_obj in
       Event "Warning" "Failed"
         (messageWithAsyncBreadcrumb obj ("Failed to create or update resource: " +++ ErrorString e))
   | None => st_ret tt
   end) ;;;
  let* patchErr := StatusPatch oldObj in
  let* obj := get_obj in
  match patchErr with
  | Some e =>
      (Event "Warning" "Failed"
         (messageWithAsyncBreadcrumb obj ("Failed to create or update resource: " +++ ErrorString e)) ;;;
       st_ret (RequeueWithError e defaultRequeueTime))
  | None =>
      if IsSuccessful response then
        (Event "Normal" "Success" (messageWithAsyncBreadcrumb obj "Create or Update of resource succeeded") ;;;
         st_ret (if resp_ShouldRequeue response then RequeueWithoutError (RequeueDuration response) else DoNotRequeue))
      else
        (Event "Warning" "Failed" (messageWithAsyncBreadcrumb obj "Failed to create or update resource") ;;;
         st_ret (if resp_ShouldRequeue response then (mkResult true 0%Z, err) else DoNotRequeue))
  end.

(** The delete branch of [Reconcile]: deletion timestamp set and our finalizer present. *)
Definition reconcileDelete : RM (Result * option GoError) :=
  let* oldObj := get_obj in
  let* (deleteResult, err) := deleteResourceResult in
  let* err :=
    if match err with Some _ => true | None => false end || negb (Deleted deleteResult) then
      let* patchErr := patchDeleteStatusIfChanged oldObj in
      st_ret (match patchErr with Some _ => errors_Join err patchErr | None => err end)
    else st_ret err in
  match err with
  | Some e => st_ret (RequeueWithError e defaultRequeueTime)
  | None =>
      if Deleted deleteResult then
        let* ferr := removeFinalizer [Join AdditionalFinalizers " "; OSOKFinalizerName] in
        match ferr with
        | Some e =>
            (Event "Warning" "Failed" ("Failed to remove the finalizer: " +++ ErrorString e) ;;;
             st_ret (RequeueWithError e defaultRequeueTime))
        | None => (Event "Normal" "Success" "Removed finalizer" ;;; st_ret DoNotRequeue)
        end
      else
        let requeueDuration := del_RequeueDuration deleteResult in
        st_ret (RequeueWithoutError
                  (if (requeueDuration <=? 0)%Z then defaultRequeueTime else requeueDuration))
  end.

(** [Reconcile]; the working copy is filled by the Get. *)
Definition Reconcile : RM (Result * option GoError) := fun s =>
  let '(got, w) := c_Get client (rs_world s) in
  match got with
  | Err err =>
      (Ret (mkResult false 0%Z, if k8s_IsNotFound err then None else Some err), mkRS (rs_obj s) w (rs_trace s))
  | Ok obj =>
      (if match o_deletionTimestamp obj with Some _ => true | None => false end &&
          ContainsFinalizer obj OSOKFinalizerName
       then reconcileDelete
       else
         let* ferr := addFinalizer [Join AdditionalFinalizers " "; OSOKFinalizerName] in
         match ferr with
         | Some e =>
             (Event "Warning" "Failed" "Failed to add finalizer" ;;;
              st_ret (RequeueWithError e defaultRequeueTime))
         | None => ReconcileResource
         end) (mkRS obj w (rs_trace s))
  end.
End BaseReconciler.

(** ** Finalizer lemmas *)

Section FinalizerLemmas.
Context {Body : Type}.
Implicit Types o : Object Body.

Lemma ContainsFinalizer_spec o f : ContainsFinalizer o f = true <-> f ∈ o_finalizers o.
Proof.
  unfold ContainsFinalizer. rewrite existsb_In. split.
  - intros (x & Hx & ->%String.eqb_eq). done.
  - intros H. exists f. by rewrite String.eqb_refl.
Qed.

Lemma ContainsFinalizer_false o f : ContainsFinalizer o f = false <-> f ∉ o_finalizers o.
Proof. rewrite <-ContainsFinalizer_spec. by destruct (ContainsFinalizer o f). Qed.

Lemma SetFinalizers_id o : SetFinalizers (o_finalizers o) o = o.
Proof. by destruct o. Qed.

Lemma AddFinalizer_elem o f g : g ∈ o_finalizers (AddFinalizer o f) <-> g = f \/ g ∈ o_finalizers o.
Proof.
  unfold AddFinalizer. destruct (ContainsFinalizer o f) eqn:E; simpl; [|set_solver].
  apply ContainsFinalizer_spec in E. set_solver.
Qed.

Lemma RemoveFinalizer_elem o f g : g ∈ o_finalizers (RemoveFinalizer o f) <-> g <> f /\ g ∈ o_finalizers o.
Proof.
  unfold RemoveFinalizer. simpl. rewrite !list_elem_of_In, filter_In, negb_true_iff, String.eqb_neq.
  tauto.
Qed.

Lemma add_finalizers_elem fs : forall o b g,
  g ∈ o_finalizers (fst (add_finalizers o fs b)) <-> (g ∈ fs /\ g <> "") \/ g ∈ o_finalizers o.
Proof.
  induction fs as [|f fs IH]; intros o b g; simpl; [set_solver|].
  destruct (negb (f =? "") && negb (ContainsFinalizer o f)) eqn:E.
  - bool_prop. rewrite IH, AddFinalizer_elem. set_solver.
  - rewrite IH. apply andb_false_iff in E as [E|E]; bool_prop.
    + set_solver.
    + apply ContainsFinalizer_spec in E. set_solver.
Qed.

Lemma remove_finalizers_elem fs : forall o b g,
  g ∈ o_finalizers (fst (remove_finalizers o fs b)) <-> ~ (g ∈ fs /\ g <> "") /\ g ∈ o_finalizers o.
Proof.
  induction fs as [|f fs IH]; intros o b g; simpl; [set_solver|].
  destruct (negb (f =? "") && ContainsFinalizer o f) eqn:E.
  - bool_prop. rewrite IH, RemoveFinalizer_elem. set_solver.
  - rewrite IH. apply andb_false_iff in E as [E|E]; bool_prop; [set_solver|].
    apply ContainsFinalizer_false in E. set_solver.
Qed.

Lemma add_finalizers_flag fs : forall o b, snd (add_finalizers o fs b) = false -> b = false /\ fst (add_finalizers o fs b) = o.
Proof.
  induction fs as [|f fs IH]; intros o b; simpl; [done|].
  destruct (negb (f =? "") && negb (ContainsFinalizer o f)); intros H; apply IH in H as [? ?]; done.
Qed.

Lemma remove_finalizers_flag fs : forall o b,
  snd (remove_finalizers o fs b) = false -> b = false /\ fst (remove_finalizers o fs b) = o.
Proof.
  induction fs as [|f fs IH]; intros o b; simpl; [done|].
  destruct (negb (f =? "") && ContainsFinalizer o f); intros H; apply IH in H as [? ?]; done.
Qed.

Lemma add_finalizers_true fs : forall o b, snd (add_finalizers o fs b) = true ->
  b = true \/ exists f, f ∈ fs /\ f <> "" /\ f ∉ o_finalizers o.
Proof.
  induction fs as [|f fs IH]; intros o b; simpl; [auto|].
  destruct (_ && _) eqn:E; intros H.
  - bool_prop. right. exists f. rewrite <-ContainsFinalizer_false. set_solver.
  - apply IH in H as [?|(g & ? & ?)]; [auto|]. right. exists g. set_solver.
Qed.

Lemma Object_ext o o' :
  SetFinalizers [] o = SetFinalizers [] o' -> o_finalizers o = o_finalizers o' -> o = o'.
Proof. destruct o, o'. unfold SetFinalizers. simpl. congruence. Qed.

Lemma add_finalizers_rest fs : forall o b,
  SetFinalizers [] (fst (add_finalizers o fs b)) = SetFinalizers [] o.
Proof.
  induction fs as [|f fs IH]; intros o b; simpl; [done|].
  destruct (_ && _); rewrite IH; [|done]. unfold AddFinalizer. by destruct (ContainsFinalizer o f).
Qed.

Lemma remove_finalizers_rest fs : forall o b,
  SetFinalizers [] (fst (remove_finalizers o fs b)) = SetFinalizers [] o.
Proof.
  induction fs as [|f fs IH]; intros o b; simpl; [done|].
  destruct (_ && _); rewrite IH; [|done]. done.
Qed.

(** Adding finalizers appends names of the list; removing filters. *)
Lemma add_finalizers_prefix fs : forall o b, exists added,
  o_finalizers (fst (add_finalizers o fs b)) = (o_finalizers o ++ added)%list /\
  forall g, g ∈ added -> g ∈ fs /\ g <> "".
Proof.
  induction fs as [|f fs IH]; intros o b; simpl; [exists []; split; [by rewrite app_nil_r|set_solver]|].
  destruct (_ && _) eqn:E.
  - bool_prop. destruct (IH (AddFinalizer o f) true) as (k & -> & Hk). unfold AddFinalizer.
    rewrite H0. exists (f :: k). simpl. rewrite <-app_assoc. set_solver.
  - destruct (IH o b) as (k & -> & Hk). exists k. set_solver.
Qed.

Lemma remove_finalizers_filter fs : forall o b,
  o_finalizers (fst (remove_finalizers o fs b)) =
  List.filter (fun g => negb (existsb (String.eqb g) fs && negb (g =? ""))) (o_finalizers o).
Proof.
  induction fs as [|f fs IH]; intros o b; simpl.
  - induction (o_finalizers o) as [|g l IHl]; simpl; [done|]. by rewrite <-IHl.
  - destruct (_ && _) eqn:E; rewrite IH.
    + bool_prop. simpl. clear IH.
      induction (o_finalizers o) as [|g l IHl]; simpl; [done|].
      destruct (g =? f)%string eqn:Eg; simpl.
      * apply String.eqb_eq in Eg as ->. apply String.eqb_neq in H. rewrite H. simpl. done.
      * rewrite IHl. done.
    + apply List.filter_ext_in. intros g Hg%list_elem_of_In. f_equal.
      destruct (g =? f)%string eqn:Eg; simpl; [|done].
      apply String.eqb_eq in Eg as ->. apply andb_false_iff in E as [E|E]; bool_prop.
      * subst. simpl. by rewrite andb_false_r.
      * by apply ContainsFinalizer_false in E.
Qed.
End FinalizerLemmas.

(** Round trip of the finalizer loops: on an object that carries none of
    them, [removeFinalizer]'s loop undoes [addFinalizer]'s exactly (order of the
    other finalizers and every other field included), and the add asks for an
    API update iff the list has a non-empty name. *)
Theorem finalizers_round_trip {Body} (o : Object Body) (fs : list string)
  (fresh : Forall (fun f => ContainsFinalizer o f = false) fs) :
  fst (remove_finalizers (fst (add_finalizers o fs false)) fs false) = o /\
  (snd (add_finalizers o fs false) = true <-> exists f, f ∈ fs /\ f <> "").
Proof.
  rewrite Forall_forall in fresh. split.
  - apply Object_ext.
    + rewrite remove_finalizers_rest. apply add_finalizers_rest.
    + rewrite remove_finalizers_filter.
      destruct (add_finalizers_prefix fs o false) as (added & -> & Ha).
      rewrite List.filter_app, (filter_all _ (o_finalizers o)), (filter_nothing _ added), app_nil_r; [done| |].
      * intros g [Hg Hne]%Ha. apply negb_false_iff, andb_true_iff.
        rewrite existsb_In, negb_true_iff, String.eqb_neq. split; [|done].
        exists g. by rewrite String.eqb_refl.
      * intros g Hg. apply negb_true_iff, andb_false_iff. left. apply not_true_iff_false.
        rewrite existsb_In. intros (x & Hx & <-%String.eqb_eq).
        by apply fresh, ContainsFinalizer_false in Hx.
  - split.
    + intros H. destruct (add_finalizers_true fs o false H) as [?|(f & ? & ? & ?)]; [done|by exists f].
    + intros (f & Hf & Hne). apply not_false_iff_true. intros H%add_finalizers_flag.
      destruct H as [_ H]. pose proof (add_finalizers_elem fs o false f) as He. rewrite H in He.
      assert (Hn : f ∉ o_finalizers o) by (apply ContainsFinalizer_false; by apply fresh).
      apply Hn, He. by left.
Qed.

Lemma finalizers_round_trip_witness :
  fst (remove_finalizers (fst (add_finalizers (mkObject ["other"] None 1%Z tt) ["x"; OSOKFinalizerName] false))
         ["x"; OSOKFinalizerName] false) = mkObject ["other"] None 1%Z tt.
Proof.
  apply (finalizers_round_trip (mkObject ["other"] None 1%Z tt) ["x"; OSOKFinalizerName]).
  repeat constructor.
Defined.

(** ** One reconcile *)

#[local] Arguments ClassifyDeleteError : simpl never.
#[local] Arguments messageWithAsyncBreadcrumb : simpl never.
#[local] Arguments remove_finalizers : simpl never.
#[local] Arguments add_finalizers : simpl never.

(** Delete is confirmed: the manager reports it, or its error says that the OCI
    resource unambiguously no longer exists. *)
Definition delete_confirmed (p : OSOKDeleteResult * option GoError) : bool :=
  match snd p with
  | None => Deleted (fst p)
  | Some e =>
      match ClassifyDeleteError (Some e) with
      | Ret c => IsUnambiguousNotFound c
      | Panic => false
      end
  end.

Definition is_deleting {Body} (o : Object Body) : bool :=
  match o_deletionTimestamp o with Some _ => true | None => false end.

(** The delete branch of [Reconcile] is taken. *)
Definition delete_branch {Body} (o : Object Body) : bool :=
  is_deleting o && ContainsFinalizer o OSOKFinalizerName.

Definition is_event {Body} (e : Effect Body) : bool :=
  match e with EffEvent _ _ _ => true | _ => false end.

Definition is_update {Body} (e : Effect Body) : bool :=
  match e with EffUpdate _ => true | _ => false end.

(** Calls to the service manager. *)
Definition is_manager_call {Body} (e : Effect Body) : bool :=
  match e with EffCreateOrUpdate _ | EffDelete _ => true | _ => false end.

Section ReconcilerLemmas.
Context {Body W : Type} `{EqDecision Body}.
Context (client : Client Body W) (manager : ServiceManager Body W) (extra : list string).
Local Abbreviation reconcile := (Reconcile client manager extra).
Local Abbreviation names := [Join extra " "; OSOKFinalizerName].

Lemma deleteResourceResult_spec (s : RS Body W) :
  let '(r, o, w) := delete_call manager (rs_obj s) (rs_world s) in
  match deleteResourceResult manager s with
  | (out, s') =>
      rs_obj s' = o /\ rs_world s' = w /\
      (exists evs, rs_trace s' = (rs_trace s ++ EffDelete (rs_obj s) :: evs)%list /\ forallb is_event evs = true) /\
      match out with
      | Panic => forall p, r = Ret p -> delete_confirmed p = false
      | Ret (res, err) =>
          exists p, r = Ret p /\ (err = None -> Deleted res = delete_confirmed p) /\
                    (delete_confirmed p = true -> err = None)
      end
  end.
Proof.
  unfold deleteResourceResult, st_bind, call_Delete.
  destruct (delete_call manager _ _) as [[[[res [e|]]|] o] w]; simpl.
  - unfold st_lift.
    destruct (ClassifyDeleteError (Some e)) as [c|] eqn:Ec; simpl; 
      [|split_and!; [done|done|by exists []|intros ? [= <-]; unfold delete_confirmed; simpl; by rewrite Ec]].
    destruct (IsUnambiguousNotFound c) eqn:E1; [|destruct (IsConflict c) eqn:E2]; simpl;
      rewrite <-?app_assoc; (split_and!; [done|done|eexists; split; [reflexivity|done]|]);
      (eexists; split; [reflexivity|]); unfold delete_confirmed; simpl; rewrite Ec, E1; done.
  - destruct (Deleted res) eqn:E; simpl; rewrite <-?app_assoc; (split_and!; [done|done|eexists; split; [reflexivity|done]|]);
      (eexists; split; [reflexivity|]); unfold delete_confirmed; simpl; rewrite E; done.
  - split_and!; [done|done|by exists []|done].
Qed.

Lemma patchDeleteStatusIfChanged_spec oldObj (s : RS Body W) :
  exists perr o' w' rest,
    patchDeleteStatusIfChanged client oldObj s = (Ret perr, mkRS o' w' (rs_trace s ++ rest)%list) /\
    (w' = rs_world s \/ w' = snd (c_StatusPatch client oldObj (rs_obj s) (rs_world s))) /\
    forallb (fun e => negb (is_update e) && negb (is_manager_call e)) rest = true.
Proof.
  unfold patchDeleteStatusIfChanged, st_bind, get_obj, st_gets. simpl.
  destruct (decide (oldObj = rs_obj s)).
  - exists None, (rs_obj s), (rs_world s), []. rewrite app_nil_r. destruct s. auto.
  - unfold StatusPatch. destruct (c_StatusPatch client _ _ _) as [[o' [e|]] w']; simpl;
      rewrite <-?app_assoc; do 4 eexists; (split; [reflexivity|]); auto.
Qed.

Lemma removeFinalizer_spec fs (s : RS Body W) :
  removeFinalizer client fs s =
  let o2 := fst (remove_finalizers (rs_obj s) fs false) in
  if snd (remove_finalizers (rs_obj s) fs false) then
    let '(o', err, w') := c_Update client o2 (rs_world s) in
    (Ret err, mkRS o' w' (rs_trace s ++
       [EffEvent "Normal" "Success" "Finalizer is removed from the object"; EffUpdate o2])%list)
  else (Ret None, s).
Proof.
  unfold removeFinalizer, st_bind, get_obj, st_gets. simpl.
  pose proof (remove_finalizers_flag fs (rs_obj s) false) as Hflag.
  destruct (remove_finalizers (rs_obj s) fs false) as [o2 [|]]; simpl.
  - unfold Update. simpl. destruct (c_Update client _ _) as [[? ?] ?]. by rewrite <-app_assoc.
  - destruct s. simpl in *. unfold st_ret. by rewrite (proj2 (Hflag eq_refl)).
Qed.

(** What a run of the delete branch can do, by the answer of the manager's delete. *)
Inductive delete_run (s : RS Body W) : outcome (Result * option GoError) -> RS Body W -> Prop :=
| delete_run_panic r o w evs :
    delete_call manager (rs_obj s) (rs_world s) = (r, o, w) ->
    forallb is_event evs = true ->
    (forall p, r = Ret p -> delete_confirmed p = false) ->
    delete_run s Panic (mkRS o w (rs_trace s ++ EffDelete (rs_obj s) :: evs)%list)
| delete_run_retry p o w o' w' rest d :
    delete_call manager (rs_obj s) (rs_world s) = (Ret p, o, w) ->
    delete_confirmed p = false ->
    (0 < d)%Z ->
    w' = w \/ w' = snd (c_StatusPatch client (rs_obj s) o w) ->
    forallb (fun e => negb (is_update e) && negb (is_manager_call e)) rest = true ->
    delete_run s (Ret (mkResult false d, None)) (mkRS o' w' (rs_trace s ++ EffDelete (rs_obj s) :: rest)%list)
| delete_run_no_update p o w evs :
    delete_call manager (rs_obj s) (rs_world s) = (Ret p, o, w) ->
    delete_confirmed p = true ->
    snd (remove_finalizers o names false) = false ->
    forallb is_event evs = true ->
    delete_run s (Ret DoNotRequeue) (mkRS o w (rs_trace s ++ EffDelete (rs_obj s) :: evs)%list)
| delete_run_release p o w evs evs' o' err w' :
    delete_call manager (rs_obj s) (rs_world s) = (Ret p, o, w) ->
    delete_confirmed p = true ->
    snd (remove_finalizers o names false) = true ->
    c_Update client (fst (remove_finalizers o names false)) w = (o', err, w') ->
    forallb is_event evs = true -> forallb is_event evs' = true ->
    delete_run s
      (Ret (match err with Some e => RequeueWithError e defaultRequeueTime | None => DoNotRequeue end))
      (mkRS o' w' (rs_trace s ++ EffDelete (rs_obj s) :: evs
                   ++ EffUpdate (fst (remove_finalizers o names false)) :: evs')%list).

Lemma reconcileDelete_run s out s' :
  reconcileDelete client manager extra s = (out, s') -> delete_run s out s'.
Proof.
  pose proof (deleteResourceResult_spec s) as Hspec.
  unfold reconcileDelete, st_bind at 1. unfold get_obj, st_gets. simpl.
  unfold st_bind at 1.
  destruct (delete_call manager (rs_obj s) (rs_world s)) as [[r o] w] eqn:Ecall.
  destruct (deleteResourceResult manager s) as [out1 s1].
  destruct Hspec as (Ho & Hw & (evs & Htr & Hevs) & Hout).
  destruct s1 as [o1 w1 t1]. simpl in *. subst o1 w1 t1.
  destruct out1 as [[res err]|]; [|intros [= <- <-]; by econstructor].
  destruct Hout as (p & -> & Hdel & Hconf).
  destruct (match err with Some _ => true | None => false end || negb (Deleted res)) eqn:Econd.
  - destruct (patchDeleteStatusIfChanged_spec (rs_obj s)
                (mkRS o w (rs_trace s ++ EffDelete (rs_obj s) :: evs)%list))
      as (perr & o' & w' & rest & Epatch & Hw' & Hrest).
    simpl in *. unfold st_bind. rewrite Epatch. simpl. rewrite <-app_assoc. simpl.
    assert (Hquiet : forallb (fun e => negb (is_update e) && negb (is_manager_call e)) (evs ++ rest) = true).
    { rewrite forallb_app, Hrest. apply andb_true_iff; split; [|done].
      eapply forallb_impl; [|exact Hevs]. by intros []. }
    assert (Hno : delete_confirmed p = false).
    { destruct err; simpl in Econd; [|by rewrite <-Hdel by done; bool_prop].
      apply not_true_iff_false. by intros ?%Hconf. }
    destruct (match perr with Some _ => errors_Join err perr | None => err end) as [e|] eqn:Eerr.
    + intros [= <- <-]. by eapply delete_run_retry.
    + assert (err = None) as -> by (destruct perr, err; try done; by apply errors_Join_None in Eerr).
      simpl in Econd. bool_prop. rewrite Econd. intros [= <- <-].
      eapply delete_run_retry; try done. by destruct (_ <=? 0)%Z eqn:E; bool_prop.
  - unfold st_bind, st_ret at 1. destruct err; [done|]. simpl in Econd. bool_prop. rewrite Econd.
    specialize (Hdel eq_refl). rewrite Econd in Hdel. rewrite removeFinalizer_spec. simpl.
    destruct (snd (remove_finalizers o names false)) eqn:Erem.
    + destruct (c_Update client _ w) as [[o' err] w'] eqn:Eup. intros Hrun.
      assert (Hrel : forall evs', forallb is_event evs' = true ->
        delete_run s (Ret (match err with Some e => RequeueWithError e defaultRequeueTime | None => DoNotRequeue end))
          (mkRS o' w' (rs_trace s ++ EffDelete (rs_obj s) ::
             evs ++ EffEvent "Normal" "Success" "Finalizer is removed from the object"
             :: EffUpdate (fst (remove_finalizers o names false)) :: evs')%list)).
      { intros evs' He. rewrite (cons_middle (EffEvent _ _ _) evs), app_assoc.
        eapply delete_run_release; try done. by rewrite forallb_app, Hevs. }
      destruct err; injection Hrun as <- <-; rewrite <-!app_assoc; by apply (Hrel [_]).
    + intros [= <- <-]. rewrite <-app_assoc.
      eapply delete_run_no_update; try done. by rewrite forallb_app, Hevs.
Qed.

Lemma addFinalizer_spec fs (s : RS Body W) :
  addFinalizer client fs s =
  let o2 := fst (add_finalizers (rs_obj s) fs false) in
  if snd (add_finalizers (rs_obj s) fs false) then
    let '(o', err, w') := c_Update client o2 (rs_world s) in
    (Ret err, mkRS o' w' (rs_trace s ++
       [EffEvent "Normal" "Success" "Finalizer is added to the object"; EffUpdate o2])%list)
  else (Ret None, s).
Proof.
  unfold addFinalizer, st_bind, get_obj, st_gets. simpl.
  pose proof (add_finalizers_flag fs (rs_obj s) false) as Hflag.
  destruct (add_finalizers (rs_obj s) fs false) as [o2 [|]]; simpl.
  - unfold Update. simpl. destruct (c_Update client _ _) as [[? ?] ?]. by rewrite <-app_assoc.
  - destruct s. simpl in *. unfold st_ret. by rewrite (proj2 (Hflag eq_refl)).
Qed.

(** The answer of [ReconcileResource] from the manager's answer and the status patch. *)
Definition reconcile_answer (response : OSOKResponse) (err perr : option GoError) : Result * option GoError :=
  match perr with
  | Some e => RequeueWithError e defaultRequeueTime
  | None =>
      match IsSuccessful response, resp_ShouldRequeue response with
      | true, true => RequeueWithoutError (RequeueDuration response)
      | false, true => (mkResult true 0%Z, err)
      | _, false => DoNotRequeue
      end
  end.

Inductive apply_run (s : RS Body W) : outcome (Result * option GoError) -> RS Body W -> Prop :=
| apply_run_panic o w :
    sm_CreateOrUpdate manager (rs_obj s) (rs_world s) = (Panic, o, w) ->
    apply_run s Panic (mkRS o w (rs_trace s ++ [EffCreateOrUpdate (rs_obj s)])%list)
| apply_run_ret response err o w o' perr w' rest answer :
    sm_CreateOrUpdate manager (rs_obj s) (rs_world s) = (Ret (response, err), o, w) ->
    c_StatusPatch client (rs_obj s) o w = (o', perr, w') ->
    forallb (fun e => negb (is_update e) && negb (is_manager_call e)) rest = true ->
    answer = reconcile_answer response err perr ->
    apply_run s (Ret answer)
      (mkRS o' w' (rs_trace s ++ EffCreateOrUpdate (rs_obj s) :: rest)%list).

Lemma ReconcileResource_run s out s' :
  ReconcileResource client manager s = (out, s') -> apply_run s out s'.
Proof.
  unfold ReconcileResource, st_bind at 1. unfold get_obj at 1, st_gets at 1. simpl.
  unfold st_bind at 1, call_CreateOrUpdate.
  destruct (sm_CreateOrUpdate manager _ _) as [[[[response err]|] o] w] eqn:Ecall;
    [|intros [= <- <-]; by econstructor].
  destruct err as [e|]; unfold st_bind, StatusPatch; simpl;
    (destruct (c_StatusPatch client _ _ _) as [[o' [pe|]] w'] eqn:Epatch; simpl;
     [|destruct (IsSuccessful response) eqn:Es; destruct (resp_ShouldRequeue response) eqn:Er; simpl]);
    intros [= <- <-]; rewrite <-!app_assoc;
    (eapply apply_run_ret; [done|done|done|unfold reconcile_answer; by rewrite ?Es, ?Er]).
Qed.

(** Every run of [Reconcile]: the Get failed, the delete branch ran, adding the
    finalizers failed, or the resource was reconciled after they were in place. *)
Inductive reconcile_run (s : RS Body W) : outcome (Result * option GoError) -> RS Body W -> Prop :=
| run_get_failed err w :
    c_Get client (rs_world s) = (Err err, w) ->
    reconcile_run s (Ret (mkResult false 0%Z, if k8s_IsNotFound err then None else Some err))
      (mkRS (rs_obj s) w (rs_trace s))
| run_delete obj w out s' :
    c_Get client (rs_world s) = (Ok obj, w) -> delete_branch obj = true ->
    delete_run (mkRS obj w (rs_trace s)) out s' -> reconcile_run s out s'
| run_no_finalizer obj w o' e w' :
    c_Get client (rs_world s) = (Ok obj, w) -> delete_branch obj = false ->
    c_Update client (fst (add_finalizers obj names false)) w = (o', Some e, w') ->
    reconcile_run s (Ret (RequeueWithError e defaultRequeueTime))
      (mkRS o' w' (rs_trace s ++
         [EffEvent "Normal" "Success" "Finalizer is added to the object";
          EffUpdate (fst (add_finalizers obj names false));
          EffEvent "Warning" "Failed" "Failed to add finalizer"])%list)
| run_apply_kept obj w out s' :
    c_Get client (rs_world s) = (Ok obj, w) -> delete_branch obj = false ->
    snd (add_finalizers obj names false) = false ->
    apply_run (mkRS obj w (rs_trace s)) out s' -> reconcile_run s out s'
| run_apply_added obj w o' w' out s' :
    c_Get client (rs_world s) = (Ok obj, w) -> delete_branch obj = false ->
    c_Update client (fst (add_finalizers obj names false)) w = (o', None, w') ->
    apply_run (mkRS o' w' (rs_trace s ++
         [EffEvent "Normal" "Success" "Finalizer is added to the object";
          EffUpdate (fst (add_finalizers obj names false))])%list) out s' ->
    reconcile_run s out s'.

Lemma Reconcile_run s out s' : reconcile s = (out, s') -> reconcile_run s out s'.
Proof.
  unfold Reconcile. destruct (c_Get client (rs_world s)) as [[obj|err] w] eqn:Eget;
    [|intros [= <- <-]; by econstructor].
  fold (is_deleting obj). fold (delete_branch obj).
  destruct (delete_branch obj) eqn:Ebr.
  - intros H%reconcileDelete_run. by eapply run_delete.
  - unfold st_bind at 1. rewrite addFinalizer_spec. simpl.
    destruct (snd (add_finalizers obj names false)) eqn:Eflag.
    + destruct (c_Update client _ _) as [[o' [e|]] w'] eqn:Eup.
      * intros [= <- <-]. rewrite <-app_assoc. by eapply run_no_finalizer.
      * intros H%ReconcileResource_run. by eapply run_apply_added.
    + intros H%ReconcileResource_run. by eapply run_apply_kept.
Qed.
End ReconcilerLemmas.
