(* ===== verification/ReconcilerSafety.v ===== *)
(** * Safety and retry behaviour of the base reconciler ([pkg/core/reconciler.go])

    Theorems on one run of [Reconcile] for any client and service manager, the
    laws a cluster obeys as a class, the invariant that no OCI resource is
    orphaned over any interleaving of reconciles and user edits, and a concrete
    cluster that satisfies the laws. *)

From stdpp Require Import relations.
From S2P Require Import Prelude GoStrings Shared GoErrors GoValue AsyncStatus Reconciler.
Local Open Scope string_scope.
Local Open Scope go_scope.

#[local] Arguments remove_finalizers : simpl never.
#[local] Arguments add_finalizers : simpl never.

(** ** A concrete cluster *)

(** One stored object, one OCI resource, and the answer the next delete gives. *)
Record Cluster := mkCluster {
  cl_stored : option (Object unit);
  cl_oci : bool;
  cl_delete : OSOKDeleteResult * option GoError
}.

Definition errNotFoundK8s : GoError := ErrForeign (mkForeignError "not found" "*errors.StatusError" None None (Some (true, false)) None).

Definition cluster_client : Client unit Cluster := {|
  c_Get w := (match cl_stored w with Some o => Ok o | None => Err errNotFoundK8s end, w);
  c_Update o w :=
    (o, None,
     mkCluster (if is_deleting o && bool_decide (o_finalizers o = []) then None else Some o)
       (cl_oci w) (cl_delete w));
  c_StatusPatch old new w := (new, None, w)
|}.

Definition cluster_manager : ServiceManager unit Cluster := {|
  sm_CreateOrUpdate o w := (Ret (mkResponse true false 0%Z, None), o, mkCluster (cl_stored w) true (cl_delete w));
  sm_Delete o w := (Ret (Deleted (fst (cl_delete w)), snd (cl_delete w)), o, w);
  sm_DeleteWithResult := Some (fun o w =>
    (Ret (cl_delete w), o,
     mkCluster (cl_stored w) (cl_oci w && negb (delete_confirmed (cl_delete w))) (cl_delete w)));
  sm_GetCrdStatus o := Ok emptyStatus
|}.

(** ** One reconcile *)

Section OneReconcile.
Context {Body W : Type} `{EqDecision Body}.
Context (client : Client Body W) (manager : ServiceManager Body W) (extra : list string).

Lemma quiet_no_update (l : list (Effect Body)) o :
  forallb (fun e => negb (is_update e) && negb (is_manager_call e)) l = true -> EffUpdate o ∉ l.
Proof.
  intros H Hin. rewrite forallb_forall in H. apply list_elem_of_In, H in Hin. done.
Qed.

Lemma events_no_update (l : list (Effect Body)) o : forallb is_event l = true -> EffUpdate o ∉ l.
Proof.
  intros H Hin. rewrite forallb_forall in H. apply list_elem_of_In, H in Hin. done.
Qed.

Lemma added_has_finalizer (o : Object Body) :
  OSOKFinalizerName ∈ o_finalizers (fst (add_finalizers o [Join extra " "; OSOKFinalizerName] false)).
Proof. apply add_finalizers_elem. left. set_solver. Qed.

Lemma stripped_lacks_finalizer (o : Object Body) :
  OSOKFinalizerName ∉ o_finalizers (fst (remove_finalizers o [Join extra " "; OSOKFinalizerName] false)).
Proof. rewrite remove_finalizers_elem. set_solver. Qed.

Lemma apply_run_updates s out s' o :
  apply_run client manager s out s' -> EffUpdate o ∈ rs_trace s' -> EffUpdate o ∈ rs_trace s.
Proof.
  intros Hr. inversion Hr as [? ? Hc|? ? ? ? ? ? ? ? ? Hc Hp Hq]; subst; simpl;
    rewrite elem_of_app, ?elem_of_cons; intros [?|Hin]; try done.
  - set_solver.
  - destruct Hin as [?|Hin]; [done|]. by eapply quiet_no_update in Hin.
Qed.

Lemma quiet_no_call (l : list (Effect Body)) :
  forallb (fun e => negb (is_update e) && negb (is_manager_call e)) l = true -> List.filter is_manager_call l = [].
Proof.
  intros H. apply filter_nothing. intros x Hx. rewrite forallb_forall in H.
  apply list_elem_of_In, H in Hx. by destruct x.
Qed.

Lemma events_quiet (l : list (Effect Body)) :
  forallb is_event l = true -> forallb (fun e => negb (is_update e) && negb (is_manager_call e)) l = true.
Proof. apply forallb_impl. by intros []. Qed.

Lemma delete_run_calls s out s' :
  delete_run client manager extra s out s' ->
  List.filter is_manager_call (rs_trace s') = (List.filter is_manager_call (rs_trace s) ++ [EffDelete (rs_obj s)])%list.
Proof.
  intros Hd. inversion Hd; subst; simpl; rewrite List.filter_app; simpl; f_equal; f_equal.
  4: rewrite List.filter_app; simpl.
  all: rewrite ?quiet_no_call; auto using events_quiet.
Qed.

Lemma apply_run_calls s out s' :
  apply_run client manager s out s' ->
  List.filter is_manager_call (rs_trace s') =
    (List.filter is_manager_call (rs_trace s) ++ [EffCreateOrUpdate (rs_obj s)])%list /\
  (forall e, e ∈ rs_trace s -> e ∈ rs_trace s').
Proof.
  intros Ha. inversion Ha; subst; simpl; rewrite List.filter_app; simpl;
    (split; [f_equal; f_equal; rewrite ?quiet_no_call; auto|]);
    intros e He; apply elem_of_app; by left.
Qed.

Lemma apply_run_error s answer e s' :
  apply_run client manager s (Ret (answer, Some e)) s' ->
  answer = mkResult true 0%Z /\
  exists o w response o' w',
    EffCreateOrUpdate o ∈ rs_trace s' /\ sm_CreateOrUpdate manager o w = (Ret (response, Some e), o', w') /\
    IsSuccessful response = false /\ resp_ShouldRequeue response = true.
Proof.
  intros Ha. inversion Ha as [|response err o w o' perr w' rest ans Hc Hp Hq Hans]; subst.
  unfold reconcile_answer in Hans. destruct perr; [done|].
  destruct (IsSuccessful response) eqn:Es, (resp_ShouldRequeue response) eqn:Er; try done.
  injection Hans as -> <-. split; [done|].
  exists (rs_obj s), (rs_world s), response, o, w. split_and!; try done. simpl. set_solver.
Qed.
End OneReconcile.

(** A write without the OSOK finalizer follows a confirmed delete. *)
Lemma release_confirmed {Body W} `{EqDecision Body} (client : Client Body W)
  (manager : ServiceManager Body W) (extra : list string) obj0 w0 out s' o
  (run : Reconcile client manager extra (mkRS obj0 w0 []) = (out, s'))
  (written : EffUpdate o ∈ rs_trace s') (lacks : ContainsFinalizer o OSOKFinalizerName = false) :
  exists obj w p o' w',
    c_Get client w0 = (Ok obj, w) /\ delete_branch obj = true /\
    delete_call manager obj w = (Ret p, o', w') /\ delete_confirmed p = true.
Proof.
  apply ContainsFinalizer_false in lacks. apply Reconcile_run in run.
  inversion run as [err w Hg|obj w out1 s1 Hg Hb Hd|obj w o' e w' Hg Hb Hu
                   |obj w out1 s1 Hg Hb Hf Ha|obj w o' w' out1 s1 Hg Hb Hu Ha]; subst; simpl in *.
  - set_solver.
  - inversion Hd as [r o1 w1 evs Hc He|p o1 w1 o2 w2 rest d Hc Hn Hpos Hw Hq
                    |p o1 w1 evs Hc Hconf Hflag He|p o1 w1 evs evs' o2 err w2 Hc Hconf]; subst; simpl in *.
    + apply elem_of_cons in written as [?|Hin]; [done|]. by eapply events_no_update in Hin.
    + apply elem_of_cons in written as [?|Hin]; [done|]. by eapply quiet_no_update in Hin.
    + by exists obj, w, p, o1, w1.
    + by exists obj, w, p, o1, w1.
  - exfalso. rewrite !elem_of_cons in written. destruct written as [?|[[= ->]|[?|?]]]; try set_solver.
    apply lacks, added_has_finalizer.
  - apply apply_run_updates with (o := o) in Ha; [set_solver|done].
  - apply apply_run_updates with (o := o) in Ha; [|done]. exfalso. simpl in Ha.
    rewrite !elem_of_cons in Ha. destruct Ha as [?|[[= ->]|?]]; try set_solver.
    apply lacks, added_has_finalizer.
Qed.

(** Whatever the client and the service manager do, an object that a
    reconcile writes without the OSOK finalizer was read as deleting and
    carrying it, and the manager's delete was called on it and confirmed: it
    reported [Deleted], or its error is an unambiguous not-found. *)
Theorem finalizer_release_safe {Body W} `{EqDecision Body} (client : Client Body W)
  (manager : ServiceManager Body W) (extra : list string) obj0 w0 out s' o
  (run : Reconcile client manager extra (mkRS obj0 w0 []) = (out, s'))
  (written : EffUpdate o ∈ rs_trace s') (lacks : ContainsFinalizer o OSOKFinalizerName = false) :
  exists obj w p o' w',
    c_Get client w0 = (Ok obj, w) /\ delete_branch obj = true /\
    delete_call manager obj w = (Ret p, o', w') /\ delete_confirmed p = true.
Proof. by eapply release_confirmed. Qed.

Definition deleting_object : Object unit := mkObject [OSOKFinalizerName] (Some 5%Z) 2%Z tt.
Definition confirmed_cluster : Cluster := mkCluster (Some deleting_object) true (mkDeleteResult true 0%Z, None).
Definition pending_cluster : Cluster := mkCluster (Some deleting_object) true (mkDeleteResult false 0%Z, None).

Lemma finalizer_release_safe_witness :
  exists obj w p o' w',
    c_Get cluster_client confirmed_cluster = (Ok obj, w) /\ delete_branch obj = true /\
    delete_call cluster_manager obj w = (Ret p, o', w') /\ delete_confirmed p = true.
Proof.
  eapply (finalizer_release_safe cluster_client cluster_manager [] (mkObject [] None 0%Z tt) confirmed_cluster
           _ _ (mkObject [] (Some 5%Z) 2%Z tt)).
  - vm_compute. reflexivity.
  - vm_compute. right. right. left.
  - vm_compute. reflexivity.
Defined.

(** C17. A delete that is not confirmed is retried: when the object is deleting
    and carries the finalizer and the manager's delete returns without
    confirmation, a reconcile that does not panic returns no error and a
    positive [RequeueAfter], writes no object, and calls the manager once. *)
Theorem unconfirmed_delete_retried {Body W} `{EqDecision Body} (client : Client Body W)
  (manager : ServiceManager Body W) (extra : list string) obj0 w0 obj w p o' w' answer s'
  (got : c_Get client w0 = (Ok obj, w)) (branch : delete_branch obj = true)
  (called : delete_call manager obj w = (Ret p, o', w')) (unconfirmed : delete_confirmed p = false)
  (run : Reconcile client manager extra (mkRS obj0 w0 []) = (Ret answer, s')) :
  snd answer = None /\ Requeue (fst answer) = false /\ (0 < RequeueAfter (fst answer))%Z /\
  (forall o, EffUpdate o ∉ rs_trace s') /\
  List.filter is_manager_call (rs_trace s') = [EffDelete obj].
Proof.
  apply Reconcile_run in run.
  inversion run as [err w1 Hg|obj1 w1 out1 s1 Hg Hb Hd|obj1 w1 ? e ? Hg Hb Hu
                   |obj1 w1 out1 s1 Hg Hb Hf Ha|obj1 w1 ? ? out1 s1 Hg Hb Hu Ha]; subst;
    simpl in *; rewrite got in Hg; simplify_eq; try congruence.
  inversion Hd as [|p1 o1 w2 o2 w3 rest d Hc Hn Hpos Hw Hq
                  |p1 o1 w2 evs Hc Hconf|p1 o1 w2 evs evs' o2 err w3 Hc Hconf]; subst;
    simpl in *; rewrite called in Hc; simplify_eq; try congruence.
  split_and!; [done|done|done| |].
  - intros o [?|Hin]%elem_of_cons; [done|]. by eapply quiet_no_update in Hin.
  - by apply delete_run_calls in Hd.
Qed.

Lemma unconfirmed_delete_retried_witness :
  let run := Reconcile cluster_client cluster_manager [] (mkRS (mkObject [] None 0%Z tt) pending_cluster []) in
  List.filter is_manager_call (rs_trace (snd run)) = [EffDelete deleting_object].
Proof.
  eapply (unconfirmed_delete_retried cluster_client cluster_manager [] (mkObject [] None 0%Z tt) pending_cluster
            deleting_object); vm_compute; reflexivity.
Defined.

(** C18. A confirmed delete releases the object: the manager is called once,
    the one object written is the manager's copy of it without the OSOK
    finalizer (and without the joined additional name), everything else in it
    unchanged; a successful write ends the reconcile with no requeue, a failed
    one is retried after two minutes. *)
Theorem confirmed_delete_releases {Body W} `{EqDecision Body} (client : Client Body W)
  (manager : ServiceManager Body W) (extra : list string) obj0 w0 obj w p o' w'
  (got : c_Get client w0 = (Ok obj, w)) (branch : delete_branch obj = true)
  (called : delete_call manager obj w = (Ret p, o', w')) (confirmed : delete_confirmed p = true)
  (kept : ContainsFinalizer o' OSOKFinalizerName = true) :
  exists o2 s',
    (Reconcile client manager extra (mkRS obj0 w0 []) =
     (Ret (match snd (fst (c_Update client o2 w')) with
           | None => (mkResult false 0%Z, None)
           | Some _ => (mkResult false (2 * Minute)%Z, None)
           end), s')) /\
    List.filter (fun e => is_update e || is_manager_call e) (rs_trace s') = [EffDelete obj; EffUpdate o2] /\
    rs_world s' = snd (c_Update client o2 w') /\
    SetFinalizers [] o2 = SetFinalizers [] o' /\
    (forall f, f ∈ o_finalizers o2 <->
      f ∈ o_finalizers o' /\ f <> OSOKFinalizerName /\ (f = Join extra " " -> f = "")).
Proof.
  destruct (Reconcile client manager extra (mkRS obj0 w0 [])) as [out s'] eqn:run.
  pose proof run as run'.
  apply Reconcile_run in run.
  exists (fst (remove_finalizers o' [Join extra " "; OSOKFinalizerName] false)), s'.
  inversion run as [err w1 Hg|obj1 w1 out1 s1 Hg Hb Hd|obj1 w1 ? e ? Hg Hb Hu
                   |obj1 w1 out1 s1 Hg Hb Hf Ha|obj1 w1 ? ? out1 s1 Hg Hb Hu Ha]; subst;
    simpl in *; rewrite got in Hg; simplify_eq; try congruence.
  assert (Hflag : snd (remove_finalizers o' [Join extra " "; OSOKFinalizerName] false) = true).
  { apply not_false_iff_true. intros [_ Hsame]%remove_finalizers_flag.
    apply (stripped_lacks_finalizer extra o'). rewrite Hsame. by apply ContainsFinalizer_spec. }
  inversion Hd as [r1 o1 w2 evs Hc He Hp|p1 o1 w2 o2 w3 rest d Hc Hn Hpos Hw Hq
                  |p1 o1 w2 evs Hc Hconf Hfl|p1 o1 w2 evs evs' o2 err w3 Hc Hconf Hfl Hup He He']; subst;
    simpl in *; rewrite called in Hc; simplify_eq; try congruence.
  { rewrite (Hp _ eq_refl) in confirmed. done. }
  rewrite Hup. split_and!.
  - by destruct err.
  - f_equal. rewrite List.filter_app. simpl. rewrite !filter_nothing; [done| |];
      intros x Hx; [rewrite forallb_forall in He'; apply list_elem_of_In, He' in Hx
                   |rewrite forallb_forall in He; apply list_elem_of_In, He in Hx]; by destruct x.
  - done.
  - apply remove_finalizers_rest.
  - intros f. rewrite remove_finalizers_elem. rewrite !elem_of_cons.
    destruct (decide (f = "")) as [->|Hne]; [set_solver|]. set_solver.
Qed.

Lemma confirmed_delete_releases_witness :
  exists o2 s',
    (Reconcile cluster_client cluster_manager [] (mkRS (mkObject [] None 0%Z tt) confirmed_cluster []) =
     (Ret (mkResult false 0%Z, None), s')) /\
    List.filter (fun e => is_update e || is_manager_call e) (rs_trace s')
      = [EffDelete deleting_object; EffUpdate o2] /\
    o2 = SetFinalizers [] deleting_object.
Proof.
  edestruct (confirmed_delete_releases cluster_client cluster_manager [] (mkObject [] None 0%Z tt) confirmed_cluster
            deleting_object) as (o2 & s' & Hrun & Htr & Hw & Hrest & Hfin); [vm_compute; reflexivity..|].
  exists o2, s'. split_and!; [|exact Htr|].
  - rewrite Hrun. reflexivity.
  - apply Object_ext; [exact Hrest|].
    destruct (o_finalizers o2) as [|f l] eqn:E; [done|]. exfalso.
    destruct (proj1 (Hfin f)) as (Hin & Hne & _); [left|]. vm_compute in Hin. set_solver.
Defined.

(** C21. What a reconcile asks of the service manager is decided by what it read, and is asked at most once.  If the read
    failed, the manager is not called.  If the object read is deleting and carries the OSOK finalizer, the manager is called
    exactly once, with [Delete] of that object.  Any other object is never deleted: either it carries the OSOK finalizer and the
    manager is called exactly once, with [CreateOrUpdate] of it, or an object with the finalizer is written first, and
    the manager is called, once and with [CreateOrUpdate] of what the write answered, exactly when that write succeeds. *)
Theorem single_manager_call {Body W} `{EqDecision Body} (client : Client Body W)
  (manager : ServiceManager Body W) (extra : list string) obj0 w0 out s'
  (run : Reconcile client manager extra (mkRS obj0 w0 []) = (out, s')) :
  let calls := List.filter is_manager_call (rs_trace s') in
  match c_Get client w0 with
  | (Err _, _) => calls = []
  | (Ok obj, w) =>
      if is_deleting obj && ContainsFinalizer obj OSOKFinalizerName then calls = [EffDelete obj]
      else
        (ContainsFinalizer obj OSOKFinalizerName = true /\ calls = [EffCreateOrUpdate obj]) \/
        (exists o1 o err w1, ContainsFinalizer o1 OSOKFinalizerName = true /\ EffUpdate o1 ∈ rs_trace s' /\
           c_Update client o1 w = (o, err, w1) /\
           calls = match err with None => [EffCreateOrUpdate o] | Some _ => [] end)
  end.
Proof.
  apply Reconcile_run in run. cbv zeta.
  inversion run as [err w Hg|obj w out1 s1 Hg Hb Hd|obj w o' e w' Hg Hb Hu
                   |obj w out1 s1 Hg Hb Hf Ha|obj w o' w' out1 s1 Hg Hb Hu Ha]; subst; simpl in *; rewrite Hg;
    try (unfold delete_branch in Hb; rewrite Hb).
  - done.
  - by apply delete_run_calls in Hd.
  - right. eexists _, o', (Some e), w'. split_and!; [|right; left|exact Hu|done].
    apply ContainsFinalizer_spec, added_has_finalizer.
  - left. apply apply_run_calls in Ha as [Hcalls _]. split; [|exact Hcalls].
    apply ContainsFinalizer_spec. apply add_finalizers_flag in Hf as [_ <-]. apply added_has_finalizer.
  - right. apply apply_run_calls in Ha as [Hcalls Hup]. simpl in Hcalls, Hup.
    eexists _, o', None, w'. split_and!; [|apply Hup; right; left|exact Hu|exact Hcalls].
    apply ContainsFinalizer_spec, added_has_finalizer.
Qed.

Definition fresh_cluster : Cluster := mkCluster (Some (mkObject [] None 1%Z tt)) false (mkDeleteResult false 0%Z, None).

(** A deleting object is deleted, whatever else it carries. *)
Lemma single_manager_call_witness :
  List.filter is_manager_call
    (rs_trace (snd (Reconcile cluster_client cluster_manager [] (mkRS (mkObject [] None 0%Z tt) pending_cluster []))))
  = [EffDelete deleting_object].
Proof.
  exact (single_manager_call cluster_client cluster_manager [] (mkObject [] None 0%Z tt) pending_cluster
                _ _ (surjective_pairing _)).
Defined.

(** A reconcile hands an error to controller-runtime in two cases only:
    the Get failed with something other than not-found, or [CreateOrUpdate]
    reported an unsuccessful response that asks for a requeue together with that
    error.  Every other failure (delete, status patch, finalizer update) is
    turned into a timed requeue. *)
Theorem reconcile_error_surface {Body W} `{EqDecision Body} (client : Client Body W)
  (manager : ServiceManager Body W) (extra : list string) obj0 w0 answer e s'
  (run : Reconcile client manager extra (mkRS obj0 w0 []) = (Ret (answer, Some e), s')) :
  (fst (c_Get client w0) = Err e /\ k8s_IsNotFound e = false /\ rs_trace s' = []) \/
  (answer = mkResult true 0%Z /\
   exists o w response o' w',
     EffCreateOrUpdate o ∈ rs_trace s' /\
     sm_CreateOrUpdate manager o w = (Ret (response, Some e), o', w') /\
     IsSuccessful response = false /\ resp_ShouldRequeue response = true).
Proof.
  apply Reconcile_run in run.
  inversion run as [err w Hg|obj w out1 s1 Hg Hb Hd|obj w o' e1 w' Hg Hb Hu
                   |obj w out1 s1 Hg Hb Hf Ha|obj w o' w' out1 s1 Hg Hb Hu Ha]; subst; simpl in *.
  - left. destruct (k8s_IsNotFound err) eqn:E; simplify_eq. by rewrite Hg.
  - inversion Hd as [|p o1 w1 o2 w2 rest d|p o1 w1 evs|p o1 w1 evs evs' o2 err w2]; subst; simpl in *; try done.
    by destruct err.
  - right. by apply apply_run_error in Ha.
  - right. by apply apply_run_error in Ha.
Qed.

(** ** The cluster invariant *)

Section NoOrphan.
Context {Body W : Type} `{EqDecision Body}.
Context (client : Client Body W) (manager : ServiceManager Body W) (extra : list string).
(** The stored object and whether the OCI resource of the object exists. *)
Context (stored : W -> option (Object Body)) (oci : W -> bool).

Definition stored_finalizers (w : W) : option (list string) := option_map o_finalizers (stored w).

Definition guarded (w : W) : Prop :=
  exists fs, stored_finalizers w = Some fs /\ OSOKFinalizerName ∈ fs.

(** Writing [o] stores its finalizers, or removes the object when none is left. *)
Definition written (o : Object Body) (w : W) : Prop :=
  stored_finalizers w = Some (o_finalizers o) \/ (o_finalizers o = [] /\ stored w = None).

(** What the API server and the service manager promise the reconciler.  A read may be stale, but an object read as live and
    with the finalizer still carries it in the store; a write stores what it was given or fails without an effect (it may also
    store and report a failure); status patches and the manager leave the stored finalizers alone, and a delete does not create
    the resource.  Nothing is asked of what a delete answers: it may confirm a delete that did not happen. *)
Class ClusterLaws : Prop := {
  law_get w o w' : c_Get client w = (Ok o, w') ->
    (is_deleting o = false -> OSOKFinalizerName ∈ o_finalizers o -> guarded w') /\
    stored_finalizers w' = stored_finalizers w /\ oci w' = oci w;
  law_get_failed w e w' : c_Get client w = (Err e, w') ->
    stored_finalizers w' = stored_finalizers w /\ oci w' = oci w;
  law_update o w o' err w' : c_Update client o w = (o', err, w') ->
    oci w' = oci w /\
    (written o w' \/ (err <> None /\ stored_finalizers w' = stored_finalizers w));
  law_patch old new w : let w' := snd (c_StatusPatch client old new w) in
    stored_finalizers w' = stored_finalizers w /\ oci w' = oci w;
  law_apply o w r o' w' : sm_CreateOrUpdate manager o w = (r, o', w') ->
    stored_finalizers w' = stored_finalizers w;
  law_delete o w r o' w' : delete_call manager o w = (r, o', w') ->
    stored_finalizers w' = stored_finalizers w /\ (oci w' = true -> oci w = true)
}.

(** Steps of the system: a reconcile (also one that panics), or the environment,
    which never creates the resource and never takes the finalizer away. *)
Inductive step : W -> W -> Prop :=
| step_reconcile w obj0 out s' :
    Reconcile client manager extra (mkRS obj0 w []) = (out, s') -> step w (rs_world s')
| step_environment w w' :
    (oci w' = true -> oci w = true) -> (guarded w -> guarded w') -> step w w'.

Definition no_orphan (w : W) : Prop := oci w = true -> guarded w.

(** A reconcile in which the manager confirmed the delete of the object it was handed, deleting and with the finalizer, and
    that left the resource in place: the manager's answer was wrong. *)
Definition false_confirmation (w w' : W) : Prop :=
  exists obj0 out s' obj w1 p o2 w2,
    Reconcile client manager extra (mkRS obj0 w []) = (out, s') /\ w' = rs_world s' /\
    c_Get client w = (Ok obj, w1) /\ delete_branch obj = true /\
    delete_call manager obj w1 = (Ret p, o2, w2) /\ delete_confirmed p = true /\ oci w' = true.

Context `{!ClusterLaws}.

Lemma guarded_same w w' : stored_finalizers w' = stored_finalizers w -> guarded w -> guarded w'.
Proof. unfold guarded. by intros ->. Qed.

Lemma written_guarded o w : OSOKFinalizerName ∈ o_finalizers o -> written o w -> guarded w.
Proof.
  intros Ho [Hs|[Hn _]]; [by exists (o_finalizers o)|]. rewrite Hn in Ho. set_solver.
Qed.

Lemma apply_run_guarded s out s' : apply_run client manager s out s' -> guarded (rs_world s) -> guarded (rs_world s').
Proof.
  intros Ha Hg. inversion Ha as [o w Hc|response err o w o' perr w' rest answer Hc Hp Hq]; subst; simpl.
  - apply law_apply in Hc. by eapply guarded_same.
  - apply law_apply in Hc. pose proof (law_patch (rs_obj s) o w) as [Hs _]. rewrite Hp in Hs. simpl in Hs.
    eapply guarded_same; [|exact Hg]. congruence.
Qed.

Lemma delete_run_no_orphan s out s' :
  delete_run client manager extra s out s' -> no_orphan (rs_world s) -> oci (rs_world s') = true ->
  guarded (rs_world s') \/
  exists p o w, delete_call manager (rs_obj s) (rs_world s) = (Ret p, o, w) /\ delete_confirmed p = true.
Proof.
  intros Hd Hinv.
  inversion Hd as [r o w evs Hc|p o w o' w' rest d Hc _ _ Hw|p o w evs Hc Hp|p o w evs evs' o' err w' Hc Hp _ Hu];
    subst; simpl; intros Hoci; [| |right; by eauto..]; apply law_delete in Hc as (Hs & Ho); left.
  - eapply guarded_same; [exact Hs|]. auto.
  - assert (stored_finalizers w' = stored_finalizers w /\ oci w' = oci w) as [Hs' Ho'].
    { destruct Hw as [->| ->]; [done|apply law_patch]. }
    eapply guarded_same; [rewrite Hs'; exact Hs|]. apply Hinv, Ho. congruence.
Qed.

Lemma reconcile_no_orphan obj0 w out s' :
  Reconcile client manager extra (mkRS obj0 w []) = (out, s') -> no_orphan w ->
  no_orphan (rs_world s') \/ false_confirmation w (rs_world s').
Proof.
  intros run Hinv. pose proof run as Hrun. apply Reconcile_run in run.
  destruct (oci (rs_world s')) eqn:Hoci; [|left; intros ?; congruence].
  inversion run as [err w1 Hg|obj w1 out1 s1 Hg Hb Hd|obj w1 o' e w' Hg Hb Hu
                   |obj w1 out1 s1 Hg Hb Hf Ha|obj w1 o' w' out1 s1 Hg Hb Hu Ha]; subst; simpl in *.
  - left. apply law_get_failed in Hg as [Hs Ho]. intros _. eapply guarded_same; [exact Hs|].
    apply Hinv. congruence.
  - pose proof Hg as (_ & Hs & Ho)%law_get. destruct (delete_run_no_orphan _ _ _ Hd) as [Hok|(p & o2 & w2 & Hc & Hp)]; [|done|..].
    + simpl. intros Hoci'. eapply guarded_same; [exact Hs|]. apply Hinv. congruence.
    + left. by intros _.
    + right. eexists _, _, _, obj, w1, p, o2, w2. by split_and!.
  - left. apply law_get in Hg as (_ & Hs & Ho). apply law_update in Hu as [Ho' Hw]. intros _.
    destruct Hw as [Hw|[_ Hw]]; [eapply written_guarded; [apply added_has_finalizer|exact Hw]|].
    eapply guarded_same; [rewrite Hw; exact Hs|]. apply Hinv. congruence.
  - left. intros _. eapply apply_run_guarded; [exact Ha|]. simpl. apply law_get in Hg as (Hfresh & _ & _).
    assert (Hfin : OSOKFinalizerName ∈ o_finalizers obj)
      by (apply add_finalizers_flag in Hf as [_ <-]; apply added_has_finalizer).
    apply Hfresh; [|done]. unfold delete_branch in Hb. apply ContainsFinalizer_spec in Hfin. rewrite Hfin in Hb.
    by rewrite andb_true_r in Hb.
  - left. intros _. eapply apply_run_guarded; [exact Ha|]. simpl. apply law_update in Hu as [_ [Hw|[? _]]]; [|done].
    eapply written_guarded; [apply added_has_finalizer|exact Hw].
Qed.
End NoOrphan.

Definition failing_manager : ServiceManager unit Cluster :=
  mkServiceManager (fun o w => (Ret (mkResponse false true 0%Z, Some (ErrText "boom")), o, w))
    (sm_Delete cluster_manager) (sm_DeleteWithResult cluster_manager) (sm_GetCrdStatus cluster_manager).

Lemma reconcile_error_surface_witness :
  (fst (c_Get cluster_client fresh_cluster) = Err (ErrText "boom") \/
   exists o, EffCreateOrUpdate o ∈
     rs_trace (snd (Reconcile cluster_client failing_manager [] (mkRS (mkObject [] None 0%Z tt) fresh_cluster [])))).
Proof.
  edestruct (reconcile_error_surface cluster_client failing_manager [] (mkObject [] None 0%Z tt) fresh_cluster)
    as [(H & _)|(_ & o & w & r & o' & w' & H & _)].
  - vm_compute. reflexivity.
  - left. exact H.
  - right. exists o. exact H.
Defined.

(** C3. No orphans except by a wrong answer: in every state reachable from one where each existing OCI resource has a stored
    object that carries the OSOK finalizer, through any interleaving of reconciles (panics included) and environment steps, this
    still holds, or on the way a reconcile of a deleting object with the finalizer was told by the service manager that the
    resource is deleted while the resource was still there afterwards.  So the reconciler itself never lets Kubernetes drop an
    object before its resource, and an orphan is always the service manager's false confirmation (best-effort deletes and a lost
    work request can give one).  The cluster is assumed to obey [ClusterLaws]: reads may be stale, but an object read as live and
    with the finalizer still carries it in the store; writes store the object or fail; status patches and the manager do not
    change the stored finalizers; a delete does not create the resource.  Other clients act between reconciles, not
    during one, and neither create the resource nor take the finalizer away. *)
Theorem no_orphan_reachable {Body W} `{EqDecision Body} (client : Client Body W) (manager : ServiceManager Body W)
  (extra : list string) (stored : W -> option (Object Body)) (oci : W -> bool)
  (laws : ClusterLaws client manager stored oci) (w w' : W)
  (steps : rtc (step client manager extra stored oci) w w') (initial : no_orphan stored oci w) :
  no_orphan stored oci w' \/
  exists u u', rtc (step client manager extra stored oci) w u /\
    false_confirmation client manager extra oci u u' /\ rtc (step client manager extra stored oci) u' w'.
Proof.
  induction steps as [|w1 w2 w3 Hstep Hrest IH]; [by left|].
  assert (Hone : no_orphan stored oci w2 \/ false_confirmation client manager extra oci w1 w2).
  { destruct Hstep as [w1 obj0 out s' Hrun|w1 w2 Ho Hg]; [by eapply reconcile_no_orphan|].
    left. intros Hoci. by apply Hg, initial, Ho. }
  destruct Hone as [Hok|Hfalse]; [|right; by exists w1, w2].
  destruct (IH Hok) as [?|(u & u' & Hu & Hf & Hu')]; [by left|]. right. exists u, u'. split_and!; [|done..].
  by eapply rtc_l.
Qed.

Lemma cluster_laws_of (manager : ServiceManager unit Cluster) :
  (forall o w r o' w', sm_CreateOrUpdate manager o w = (r, o', w') -> cl_stored w' = cl_stored w) ->
  (forall o w r o' w', delete_call manager o w = (r, o', w') ->
     cl_stored w' = cl_stored w /\ (cl_oci w' = true -> cl_oci w = true)) ->
  ClusterLaws cluster_client manager cl_stored cl_oci.
Proof.
  intros Happly Hdelete. split; simpl; unfold guarded, stored_finalizers, written, stored_finalizers.
  - intros w o w'. destruct (cl_stored w) eqn:E; intros [= <- <-]. rewrite E. by eauto.
  - intros w e w'. destruct (cl_stored w) eqn:E; intros [= <- <-]. by rewrite E.
  - intros o w o' err w' [= <- <- <-]. split; [done|]. left. simpl.
    destruct (is_deleting o && bool_decide (o_finalizers o = [])) eqn:E; [|by left].
    apply andb_true_iff in E as [_ E%bool_decide_eq_true]. by right.
  - done.
  - intros o w r o' w' Hc. by rewrite (Happly _ _ _ _ _ Hc).
  - intros o w r o' w' Hc. by destruct (Hdelete _ _ _ _ _ Hc) as [-> ?].
Defined.

(** A manager that says what [cl_delete] tells it to and deletes nothing. *)
Definition idle_manager : ServiceManager unit Cluster :=
  mkServiceManager (sm_CreateOrUpdate cluster_manager) (sm_Delete cluster_manager)
    (Some (fun o w => (Ret (cl_delete w), o, w))) (sm_GetCrdStatus cluster_manager).

(** The honest manager never orphans; with the idle one, a confirmed delete leaves the resource without an object, and the
    theorem traces this to the false confirmation. *)
Lemma no_orphan_reachable_witness :
  (exists w', rtc (step cluster_client cluster_manager [] cl_stored cl_oci) fresh_cluster w' /\
    cl_oci w' = true /\
    (no_orphan cl_stored cl_oci w' \/
     exists u u', rtc (step cluster_client cluster_manager [] cl_stored cl_oci) fresh_cluster u /\
       false_confirmation cluster_client cluster_manager [] cl_oci u u' /\
       rtc (step cluster_client cluster_manager [] cl_stored cl_oci) u' w')) /\
  (exists w' u u', cl_stored w' = None /\ cl_oci w' = true /\
     rtc (step cluster_client idle_manager [] cl_stored cl_oci) confirmed_cluster w' /\
     false_confirmation cluster_client idle_manager [] cl_oci u u').
Proof.
  split.
  - exists (rs_world (snd (Reconcile cluster_client cluster_manager [] (mkRS (mkObject [] None 0%Z tt) fresh_cluster [])))).
    assert (Hstep : rtc (step cluster_client cluster_manager [] cl_stored cl_oci) fresh_cluster
      (rs_world (snd (Reconcile cluster_client cluster_manager [] (mkRS (mkObject [] None 0%Z tt) fresh_cluster []))))).
    { eapply rtc_once, step_reconcile. apply surjective_pairing. }
    split; [exact Hstep|]. split; [reflexivity|].
    eapply (no_orphan_reachable cluster_client cluster_manager [] cl_stored cl_oci); [|exact Hstep|intros H; discriminate H].
    apply cluster_laws_of.
    + intros o w r o' w' [= <- <- <-]. done.
    + intros o w r o' w' [= <- <- <-]. simpl. split; [done|by destruct (cl_oci w)].
  - set (w' := rs_world (snd (Reconcile cluster_client idle_manager [] (mkRS (mkObject [] None 0%Z tt) confirmed_cluster [])))).
    assert (Hstep : rtc (step cluster_client idle_manager [] cl_stored cl_oci) confirmed_cluster w').
    { eapply rtc_once, step_reconcile. apply surjective_pairing. }
    destruct (no_orphan_reachable cluster_client idle_manager [] cl_stored cl_oci) with (w := confirmed_cluster) (w' := w')
      as [Hno|(u & u' & _ & Hf & _)].
    + apply cluster_laws_of; intros o w r o' w2 [= <- <- <-]; done.
    + exact Hstep.
    + intros _. exists [OSOKFinalizerName]. split; [reflexivity|left].
    + destruct (Hno eq_refl) as (fs & Hfs & _). discriminate Hfs.
    + exists w', u, u'. split_and!; [reflexivity|reflexivity|exact Hstep|exact Hf].
Defined.

(** [ReconcilePredicate] lets an update event through exactly when the
    generation changed or the deletion timestamp went from unset to set; an
    update that only removes finalizers of a deleting object or edits its
    status passes nothing on. *)
Theorem predicate_update_spec {Body} (old new : Object Body) :
  ReconcilePredicate_Update (mkUpdateEvent (Some old) (Some new)) = true <->
  o_generation new <> o_generation old \/
  (o_deletionTimestamp old = None /\ o_deletionTimestamp new <> None).
Proof.
  unfold ReconcilePredicate_Update, GenerationChanged_Update, deleteIntent_Update. simpl.
  rewrite orb_true_iff, negb_true_iff, Z.eqb_neq.
  destruct (o_deletionTimestamp old), (o_deletionTimestamp new); naive_solver.
Qed.

(** [AdditionalFinalizers] are joined with a space before they are handed
    to [addFinalizer]: with two of them configured, an object without finalizers
    is written with one finalizer named "a b" instead of "a" and "b". *)
Theorem additional_finalizers_joined {Body W} `{EqDecision Body} (client : Client Body W)
  (manager : ServiceManager Body W) (a b : string) obj0 w0 obj w
  (got : c_Get client w0 = (Ok obj, w)) (bare : o_finalizers obj = []) (live : is_deleting obj = false)
  (ne : a +++ " " +++ b <> OSOKFinalizerName) :
  EffUpdate (SetFinalizers [a +++ " " +++ b; OSOKFinalizerName] obj) ∈
  rs_trace (snd (Reconcile client manager [a; b] (mkRS obj0 w0 []))).
Proof.
  assert (Hadd : add_finalizers obj [Join [a; b] " "; OSOKFinalizerName] false =
                 (SetFinalizers [a +++ " " +++ b; OSOKFinalizerName] obj, true)).
  { unfold add_finalizers, AddFinalizer, ContainsFinalizer. simpl. rewrite bare. simpl.
    assert ((a +++ " " +++ b =? "")%string = false) as -> by by destruct a.
    simpl. apply String.eqb_neq in ne. by rewrite ne. }
  destruct (Reconcile client manager [a; b] (mkRS obj0 w0 [])) as [out s'] eqn:run.
  apply Reconcile_run in run. assert (Hnb : delete_branch obj = false) by (unfold delete_branch; by rewrite live).
  inversion run as [err w1 Hg|obj1 w1 out1 s1 Hg Hb Hd|obj1 w1 o' e w' Hg Hb Hu
                   |obj1 w1 out1 s1 Hg Hb Hf Ha|obj1 w1 o' w' out1 s1 Hg Hb Hu Ha]; subst; simpl in *;
    rewrite got in Hg; simplify_eq; try congruence.
  - rewrite Hadd. right. left.
  - by rewrite Hadd in Hf.
  - apply apply_run_calls in Ha as [_ Hup]. rewrite Hadd in Hup. apply Hup. right. left.
Qed.

Lemma additional_finalizers_joined_witness :
  EffUpdate (mkObject ["a b"; OSOKFinalizerName] None 1%Z tt) ∈
  rs_trace (snd (Reconcile cluster_client cluster_manager ["a"; "b"] (mkRS (mkObject [] None 0%Z tt) fresh_cluster []))).
Proof.
  eapply (additional_finalizers_joined cluster_client cluster_manager "a" "b" _ fresh_cluster (mkObject [] None 1%Z tt) _); [vm_compute; reflexivity..|].
  intros H. discriminate H.
Defined.
