(* ===== verification/Secrets.v ===== *)
(** * Secrets: the Kubernetes secret client and owned secrets

    [pkg/credhelper/interfaces.go] (the [CredentialClient] interface),
    [pkg/credhelper/kubesecret/kubesecret_client.go] (its implementation over the
    Kubernetes API, guarded mutations included) and
    [pkg/servicemanager/managed_secret_helpers.go] (secrets owned by a custom
    resource).  Labels and data are finite maps; a nil map is the empty map except
    where the code tests for nil.  The Kubernetes API is a parameter. *)

From stdpp Require Import gmap.
From S2P Require Import Prelude GoStrings Shared GoErrors GoValue AsyncStatus.
Local Open Scope string_scope.
Local Open Scope go_scope.

Abbreviation Labels := (gmap string string).
Abbreviation Data := (gmap string string).

(** ** Interfaces *)

Record SecretRecord := mkSecretRecord {
  sr_UID : string;
  sr_Labels : Labels;
  sr_Data : Data
}.

(** The arguments of the operations are the secret's name and namespace. *)
Record CredentialClient (W : Type) := mkCredentialClient {
  cc_CreateSecret : string -> string -> Labels -> Data -> ST W (bool * option GoError);
  cc_DeleteSecret : string -> string -> ST W (bool * option GoError);
  cc_GetSecret : string -> string -> ST W (Data * option GoError);
  cc_UpdateSecret : string -> string -> option Labels -> Data -> ST W (bool * option GoError)
}.
Arguments mkCredentialClient {W}.
Arguments cc_CreateSecret {W}.
Arguments cc_DeleteSecret {W}.
Arguments cc_GetSecret {W}.
Arguments cc_UpdateSecret {W}.

(** ** The Kubernetes API *)

Record Secret := mkSecret {
  s_Name : string;
  s_Namespace : string;
  s_UID : string;
  s_ResourceVersion : string;
  s_Labels : Labels;
  s_Data : Data
}.

#[export] Instance Secret_eq_dec : EqDecision Secret.
Proof. solve_decision. Defined.

Record Preconditions := mkPreconditions {
  pre_UID : option string;
  pre_ResourceVersion : option string
}.

#[export] Instance Preconditions_eq_dec : EqDecision Preconditions.
Proof. solve_decision. Defined.

(** [client.Client] on secrets: Get by name and namespace, Create, Update, Delete. *)
Record KubeAPI (W : Type) := mkKubeAPI {
  k_Get : string -> string -> W -> result Secret GoError * W;
  k_Create : Secret -> W -> option GoError * W;
  k_Update : Secret -> W -> option GoError * W;
  k_Delete : Secret -> Preconditions -> W -> option GoError * W
}.
Arguments mkKubeAPI {W}.
Arguments k_Get {W}.
Arguments k_Create {W}.
Arguments k_Update {W}.
Arguments k_Delete {W}.

(** ** [KubeSecretClient] *)

(** [errors.NewConflict(v1.Resource("secret"), name, err)]. *)
Definition NewConflict (name message : string) : GoError :=
  ErrForeign (mkForeignError ("Operation cannot be fulfilled on secret " +++ Quote name +++ ": " +++ message)
                "*errors.StatusError" None None (Some (false, false)) None).

Definition secretLabelsEqual (left right : Labels) : bool :=
  if negb (size left =? size right)%nat then false
  else forallb (fun '(key, value) => negb (negb (default "" (right !! key) =? value)%string)) (map_to_list left).

Definition secretDataEqual (left right : Data) : bool :=
  if negb (size left =? size right)%nat then false
  else forallb (fun '(key, value) => (value =? default "" (right !! key))%string) (map_to_list left).

Definition cloneLabels (labels : Labels) : Labels :=
  map_fold (fun key value cloned => <[key := value]> cloned) ∅ labels.

Definition cloneSecretData (data : Data) : Data :=
  map_fold (fun key value cloned => <[key := value]> cloned) ∅ data.

Definition validateSecretIdentity (secretName secretNamespace : string) (current : SecretRecord)
  (existingSecret : option Secret) : option GoError :=
  let expectedUID := TrimSpace (sr_UID current) in
  if (expectedUID =? "")%string then
    Some (ErrText ("guarded secret mutation requires the previously read Secret UID for "
                   +++ secretNamespace +++ "/" +++ secretName))
  else
    match existingSecret with
    | None =>
        Some (ErrText ("guarded secret mutation requires the current Kubernetes Secret for "
                       +++ secretNamespace +++ "/" +++ secretName))
    | Some existingSecret =>
        let actualUID := TrimSpace (s_UID existingSecret) in
        if negb (actualUID =? expectedUID)%string then
          Some (NewConflict secretName ("secret " +++ secretNamespace +++ "/" +++ secretName +++ " changed UID from "
                                        +++ Quote expectedUID +++ " to " +++ Quote actualUID))
        else if negb (secretLabelsEqual (sr_Labels current) (s_Labels existingSecret)) then
          Some (NewConflict secretName ("secret " +++ secretNamespace +++ "/" +++ secretName
                                        +++ " labels changed since the guarded read"))
        else if negb (secretDataEqual (sr_Data current) (s_Data existingSecret)) then
          Some (NewConflict secretName ("secret " +++ secretNamespace +++ "/" +++ secretName
                                        +++ " data changed since the guarded read"))
        else None
    end.

Section KubeSecretClient.
Context {W : Type}.
(** [c.Client], and [c.Reader] when it is not nil. *)
Context (Client : KubeAPI W) (Reader : option (KubeAPI W)).

Definition reader : KubeAPI W := match Reader with Some r => r | None => Client end.

Definition getSecretObject (secretName secretNamespace : string) : ST W (result Secret GoError) :=
  fun w => let (r, w') := k_Get reader secretName secretNamespace w in (Ret r, w').

Definition api_Create (s : Secret) : ST W (option GoError) :=
  fun w => let (r, w') := k_Create Client s w in (Ret r, w').
Definition api_Update (s : Secret) : ST W (option GoError) :=
  fun w => let (r, w') := k_Update Client s w in (Ret r, w').
Definition api_Delete (s : Secret) (pre : Preconditions) : ST W (option GoError) :=
  fun w => let (r, w') := k_Delete Client s pre w in (Ret r, w').

(** The preconditions [deleteSecretObject] sends. *)
Definition delete_preconditions (existingSecret : Secret) : Preconditions :=
  let resourceVersion := TrimSpace (s_ResourceVersion existingSecret) in
  mkPreconditions (Some (s_UID existingSecret))
    (if negb (resourceVersion =? "")%string then Some resourceVersion else None).

Definition deleteSecretObject (existingSecret : Secret) : ST W (option GoError) :=
  api_Delete existingSecret (delete_preconditions existingSecret).

Definition updateSecretObject (existingSecret : Secret) (labels : option Labels) (updatedData : Data)
  : ST W (option GoError) :=
  api_Update (mkSecret (s_Name existingSecret) (s_Namespace existingSecret) (s_UID existingSecret)
                (s_ResourceVersion existingSecret)
                (match labels with Some l => l | None => s_Labels existingSecret end) updatedData).

Definition CreateSecret (secretName secretNamespace : string) (labels : Labels) (data : Data)
  : ST W (bool * option GoError) :=
  let* err := api_Create (mkSecret secretName secretNamespace "" "" labels data) in
  match err with
  | Some e => st_ret (false, Some e)
  | None => st_ret (true, None)
  end.

Definition DeleteSecret (secretName secretNamespace : string) : ST W (bool * option GoError) :=
  let* got := getSecretObject secretName secretNamespace in
  match got with
  | Err e => st_ret (false, Some e)
  | Ok existingSecret =>
      let* err := deleteSecretObject existingSecret in
      match err with
      | Some e => st_ret (false, Some e)
      | None => st_ret (true, None)
      end
  end.

Definition DeleteSecretIfCurrent (secretName secretNamespace : string) (current : SecretRecord)
  : ST W (bool * option GoError) :=
  let* got := getSecretObject secretName secretNamespace in
  match got with
  | Err e => st_ret (false, Some e)
  | Ok existingSecret =>
      match validateSecretIdentity secretName secretNamespace current (Some existingSecret) with
      | Some e => st_ret (false, Some e)
      | None =>
          let* err := deleteSecretObject existingSecret in
          match err with
          | Some e => st_ret (false, Some e)
          | None => st_ret (true, None)
          end
      end
  end.

Definition GetSecretRecord (secretName secretNamespace : string) : ST W (SecretRecord * option GoError) :=
  let* got := getSecretObject secretName secretNamespace in
  match got with
  | Err e => st_ret (mkSecretRecord "" ∅ ∅, Some e)
  | Ok s => st_ret (mkSecretRecord (s_UID s) (cloneLabels (s_Labels s)) (cloneSecretData (s_Data s)), None)
  end.

Definition GetSecret (secretName secretNamespace : string) : ST W (Data * option GoError) :=
  let* (record, err) := GetSecretRecord secretName secretNamespace in
  match err with
  | Some e => st_ret (∅, Some e)
  | None => st_ret (sr_Data record, None)
  end.

Definition UpdateSecret (secretName secretNamespace : string) (labels : option Labels) (updatedData : Data)
  : ST W (bool * option GoError) :=
  let* got := getSecretObject secretName secretNamespace in
  match got with
  | Err e => st_ret (false, Some e)
  | Ok existingSecret =>
      let* err := updateSecretObject existingSecret labels updatedData in
      match err with
      | Some e => st_ret (false, Some e)
      | None => st_ret (true, None)
      end
  end.

Definition UpdateSecretIfCurrent (secretName secretNamespace : string) (current : SecretRecord)
  (labels : option Labels) (updatedData : Data) : ST W (bool * option GoError) :=
  let* got := getSecretObject secretName secretNamespace in
  match got with
  | Err e => st_ret (false, Some e)
  | Ok existingSecret =>
      match validateSecretIdentity secretName secretNamespace current (Some existingSecret) with
      | Some e => st_ret (false, Some e)
      | None =>
          let* err := updateSecretObject existingSecret labels updatedData in
          match err with
          | Some e => st_ret (false, Some e)
          | None => st_ret (true, None)
          end
      end
  end.

(** [KubeSecretClient] as a [CredentialClient]. *)
Definition kubeSecretClient : CredentialClient W :=
  mkCredentialClient CreateSecret DeleteSecret GetSecret UpdateSecret.
End KubeSecretClient.

(** ** Owned secrets ([managed_secret_helpers.go]) *)

Definition ManagedSecretLabelKey := "oci.oracle.com/osok-managed".
Definition ManagedSecretLabelValue := "true".
Definition ManagedSecretOwnerKindKey := "oci.oracle.com/osok-owner-kind".
Definition ManagedSecretOwnerNameKey := "oci.oracle.com/osok-owner-name".
Definition managedSecretDataKey := "_osok_managed".
Definition managedSecretOwnerKind := "_osok_owner_kind".
Definition managedSecretOwnerName := "_osok_owner_name".

Definition ManagedSecretLabels (ownerKind ownerName : string) : Labels :=
  <[ManagedSecretOwnerNameKey := ownerName]>
    (<[ManagedSecretOwnerKindKey := ownerKind]> {[ManagedSecretLabelKey := ManagedSecretLabelValue]}).

(** The copy loop of [AddManagedSecretData], then the three ownership keys. *)
Definition AddManagedSecretData (data : Data) (ownerKind ownerName : string) : Data :=
  let managed := map_fold (fun key value managed => <[key := value]> managed) ∅ data in
  let managed := <[managedSecretDataKey := ManagedSecretLabelValue]> managed in
  let managed := <[managedSecretOwnerKind := ownerKind]> managed in
  <[managedSecretOwnerName := ownerName]> managed.

Definition SecretOwnedBy (data : Data) (ownerKind ownerName : string) : bool :=
  (default "" (data !! managedSecretDataKey) =? ManagedSecretLabelValue)%string &&
  (default "" (data !! managedSecretOwnerKind) =? ownerKind)%string &&
  (default "" (data !! managedSecretOwnerName) =? ownerName)%string.

Definition is_managed_key (key : string) : bool :=
  (key =? managedSecretDataKey)%string || (key =? managedSecretOwnerKind)%string
  || (key =? managedSecretOwnerName)%string.

Definition stripManagedSecretData (data : Data) : Data :=
  map_fold (fun key value stripped => if is_managed_key key then stripped else <[key := value]> stripped) ∅ data.

Definition SecretMatchesExpectedData (existing expected : Data) : bool :=
  bool_decide (stripManagedSecretData existing = stripManagedSecretData expected).

Section OwnedSecrets.
Context {W : Type} (client : CredentialClient W).

Definition EnsureOwnedSecret (secretName secretNamespace ownerKind ownerName : string) (data : Data)
  : ST W (bool * option GoError) :=
  let managedData := AddManagedSecretData data ownerKind ownerName in
  let labels := ManagedSecretLabels ownerKind ownerName in
  let* (ok, err) := cc_CreateSecret client secretName secretNamespace labels managedData in
  match err with
  | None => st_ret (ok, None)
  | Some e =>
      if negb (k8s_IsAlreadyExists e) then st_ret (false, Some e)
      else
        let* (existing, getErr) := cc_GetSecret client secretName secretNamespace in
        match getErr with
        | Some e => st_ret (false, Some e)
        | None =>
            if SecretOwnedBy existing ownerKind ownerName then st_ret (true, None)
            else st_ret (false, Some (ErrText ("secret " +++ secretNamespace +++ "/" +++ secretName
                   +++ " already exists and is not owned by " +++ ownerKind +++ " " +++ ownerName)))
        end
  end.

Definition DeleteOwnedSecretIfPresent (secretName secretNamespace ownerKind ownerName : string)
  : ST W (bool * option GoError) :=
  let* (existing, err) := cc_GetSecret client secretName secretNamespace in
  match err with
  | Some e => if IsSecretNotFoundError (Some e) then st_ret (true, None) else st_ret (false, Some e)
  | None =>
      if negb (SecretOwnedBy existing ownerKind ownerName) then st_ret (true, None)
      else
        let* (_, err) := cc_DeleteSecret client secretName secretNamespace in
        match err with
        | Some e => if negb (IsSecretNotFoundError (Some e)) then st_ret (false, Some e) else st_ret (true, None)
        | None => st_ret (true, None)
        end
  end.
End OwnedSecrets.

(** ** Map lemmas *)

Lemma map_fold_copy (m : gmap string string) :
  map_fold (fun key value cloned => <[key := value]> cloned) ∅ m = m.
Proof.
  apply (map_fold_weak_ind (fun r m => r = m)); [done|]. intros i x m' r _ ->. done.
Qed.

Lemma stripManaged_lookup (data : Data) key :
  stripManagedSecretData data !! key = if is_managed_key key then None else data !! key.
Proof.
  unfold stripManagedSecretData.
  apply (map_fold_weak_ind (fun r m => r !! key = if is_managed_key key then None else m !! key)).
  - destruct (is_managed_key key); by rewrite ?lookup_empty.
  - intros i x m r Hi IH. destruct (decide (i = key)) as [->|Hne].
    + destruct (is_managed_key key) eqn:E; [done|]. by rewrite !lookup_insert_eq.
    + rewrite (lookup_insert_ne m) by done. destruct (is_managed_key i); [done|].
      by rewrite lookup_insert_ne.
Qed.

Lemma AddManaged_lookup (data : Data) k n key :
  AddManagedSecretData data k n !! key =
    if decide (key = managedSecretOwnerName) then Some n
    else if decide (key = managedSecretOwnerKind) then Some k
    else if decide (key = managedSecretDataKey) then Some ManagedSecretLabelValue
    else data !! key.
Proof.
  unfold AddManagedSecretData. rewrite map_fold_copy. rewrite !lookup_insert.
  decide_goal; congruence.
Qed.

Lemma owned_by_self data k n : SecretOwnedBy (AddManagedSecretData data k n) k n = true.
Proof. unfold SecretOwnedBy. rewrite !AddManaged_lookup. simpl. by rewrite !String.eqb_refl. Qed.

(** Ownership data round trips: marking data as owned and stripping gives
    the same payload, so the marked secret matches the expected data; the marked
    data is owned by exactly the owner it was marked for. *)
Theorem owned_data_round_trip (data : Data) (ownerKind ownerName kind name : string) :
  SecretMatchesExpectedData (AddManagedSecretData data ownerKind ownerName) data = true /\
  (SecretOwnedBy (AddManagedSecretData data ownerKind ownerName) kind name = true <->
   kind = ownerKind /\ name = ownerName).
Proof.
  split.
  - apply bool_decide_eq_true. apply map_eq. intros key.
    rewrite !stripManaged_lookup, AddManaged_lookup. unfold is_managed_key.
    destruct (key =? managedSecretDataKey)%string eqn:E1, (key =? managedSecretOwnerKind)%string eqn:E2,
      (key =? managedSecretOwnerName)%string eqn:E3; simpl; try done. bool_prop. decide_goal; congruence.
  - unfold SecretOwnedBy. rewrite !AddManaged_lookup. simpl.
    rewrite !andb_true_iff, !String.eqb_eq. naive_solver.
Qed.

(** ** The guarded comparison *)

Lemma secretLabelsEqual_DataEqual l r : secretLabelsEqual l r = secretDataEqual l r.
Proof.
  unfold secretLabelsEqual, secretDataEqual. destruct (negb _); [done|].
  induction (map_to_list l) as [|[k v] m IH]; simpl; [done|].
  by rewrite IH, negb_involutive, String.eqb_sym.
Qed.

Lemma secretDataEqual_refl m : secretDataEqual m m = true.
Proof.
  unfold secretDataEqual. rewrite Nat.eqb_refl. simpl. apply forallb_forall.
  intros [k v] H%list_elem_of_In%elem_of_map_to_list. rewrite H. apply String.eqb_refl.
Qed.

Lemma secretDataEqual_eq l r :
  (forall k v, l !! k = Some v -> v <> "") -> secretDataEqual l r = true -> l = r.
Proof.
  unfold secretDataEqual. intros Hne. destruct (size l =? size r)%nat eqn:Es; simpl; [|done].
  apply Nat.eqb_eq in Es. rewrite forallb_forall. intros H.
  apply map_subseteq_size_eq; [|lia]. apply map_subseteq_spec. intros k v Hk.
  specialize (H (k, v)). specialize (Hne k v Hk).
  assert (Hv : (v =? default "" (r !! k))%string = true) by by apply H, list_elem_of_In, elem_of_map_to_list.
  apply String.eqb_eq in Hv. destruct (r !! k); simpl in *; congruence.
Qed.

(** The map comparisons of the guarded mutations treat a missing key as an
    empty value: a recorded label (or data entry) with an empty value equals any
    map of the same size that lacks the key, so a guarded update or delete
    accepts a secret whose labels changed. *)
Theorem guarded_comparison_ignores_keys (a b x : string) (distinct : a <> b) :
  secretLabelsEqual {[a := ""]} {[b := x]} = true /\
  secretDataEqual {[a := ""]} {[b := x]} = true /\
  ({[a := ""]} : gmap string string) <> {[b := x]}.
Proof.
  rewrite secretLabelsEqual_DataEqual.
  assert (H : secretDataEqual {[a := ""]} {[b := x]} = true).
  { unfold secretDataEqual. rewrite !map_size_singleton. simpl. rewrite map_to_list_singleton. simpl.
    by rewrite lookup_singleton_ne. }
  split_and!; [done|done|]. intros Heq. assert (Ha : ({[a := ""]} : gmap string string) !! a = Some "")
    by apply lookup_singleton_eq.
  rewrite Heq, lookup_singleton_ne in Ha; done.
Qed.

Lemma guarded_comparison_ignores_keys_witness :
  secretLabelsEqual {["team" := ""]} {["owner" := "someone"]} = true.
Proof. apply (guarded_comparison_ignores_keys "team" "owner" "someone"). intros H. discriminate H. Defined.

(** ** Guarded mutations against a concurrent API server *)

Section Guarded.
Context {W : Type} (api : KubeAPI W) (reader_api : option (KubeAPI W)).
(** The secret stored under a name and namespace, and the versions the server
    has ever stored.  Other clients may write between any two calls. *)
Context (lookup : W -> string -> string -> option Secret) (version : W -> Secret -> Prop).

Definition pre_matches (pre : Preconditions) (s : Secret) : Prop :=
  (forall u, pre_UID pre = Some u -> s_UID s = u) /\
  (forall v, pre_ResourceVersion pre = Some v -> s_ResourceVersion s = v).

(** What the API server documents: a read returns a stored version; a version is
    identified by UID and resource version, which are not blank; a delete that
    succeeds found a secret that meets its preconditions; an update that
    succeeds found the resource version of the object it was given. *)
Class KubeLaws : Prop := {
  kl_get n ns w s w' : k_Get (reader api reader_api) n ns w = (Ok s, w') ->
    s_Name s = n /\ s_Namespace s = ns /\ version w' s;
  kl_stored w n ns s : lookup w n ns = Some s -> version w s;
  kl_unique w s1 s2 : version w s1 -> version w s2 ->
    s_UID s1 = s_UID s2 -> s_ResourceVersion s1 = s_ResourceVersion s2 -> s1 = s2;
  kl_version w s : version w s ->
    TrimSpace (s_ResourceVersion s) = s_ResourceVersion s /\ s_ResourceVersion s <> "";
  kl_delete s pre w w' : k_Delete api s pre w = (None, w') ->
    exists s0, lookup w (s_Name s) (s_Namespace s) = Some s0 /\ pre_matches pre s0;
  kl_update s w w' : k_Update api s w = (None, w') ->
    exists s0, lookup w (s_Name s) (s_Namespace s) = Some s0 /\
      s_UID s0 = s_UID s /\ (s_ResourceVersion s <> "" -> s_ResourceVersion s0 = s_ResourceVersion s)
}.

Context `{!KubeLaws}.

Definition record_of (s : Secret) (current : SecretRecord) : Prop :=
  TrimSpace (s_UID s) = TrimSpace (sr_UID current) /\ TrimSpace (sr_UID current) <> "" /\
  secretLabelsEqual (sr_Labels current) (s_Labels s) = true /\
  secretDataEqual (sr_Data current) (s_Data s) = true.

Lemma validateSecretIdentity_ok n ns current s :
  validateSecretIdentity n ns current (Some s) = None -> record_of s current.
Proof.
  unfold validateSecretIdentity, record_of. destruct (TrimSpace (sr_UID current) =? "")%string eqn:E1; [done|].
  repeat case_goal; try done; intros _; bool_prop; auto.
Qed.

(** A successful delete with the preconditions of a read version removed that version. *)
Lemma deleteSecretObject_exact w s w' :
  version w s -> deleteSecretObject api s w = (Ret None, w') ->
  lookup w (s_Name s) (s_Namespace s) = Some s.
Proof.
  intros Hv. unfold deleteSecretObject, api_Delete.
  destruct (k_Delete api s (delete_preconditions s) w) as [r w1] eqn:Ed. intros [= -> ->].
  apply kl_delete in Ed as (s0 & Hl & Hu & Hr). destruct (kl_version w s Hv) as [Ht Hne].
  unfold delete_preconditions in *. simpl in *. rewrite Ht in Hr.
  apply String.eqb_neq in Hne. rewrite Hne in Hr. simpl in Hr.
  rewrite Hl. f_equal. apply (kl_unique w); auto using (kl_stored w).
  eapply kl_stored; exact Hl.
Qed.

Lemma updateSecretObject_exact w s labels data w' :
  version w s -> updateSecretObject api s labels data w = (Ret None, w') ->
  lookup w (s_Name s) (s_Namespace s) = Some s.
Proof.
  intros Hv. unfold updateSecretObject, api_Update.
  destruct (k_Update api _ w) as [r w1] eqn:Ed. intros [= -> ->].
  apply kl_update in Ed as (s0 & Hl & Hu & Hr). destruct (kl_version w s Hv) as [_ Hne]. simpl in *.
  rewrite Hl. f_equal. apply (kl_unique w); auto. eapply kl_stored; exact Hl.
Qed.
End Guarded.

(** A guarded delete is exact under concurrency: when
    [DeleteSecretIfCurrent] reports success, the secret stored at the moment of
    the delete call, whatever other clients did since the caller's read, still
    has the recorded UID, labels and data (by the client's comparison). *)
Theorem guarded_delete_exact {W} (api : KubeAPI W) (reader_api : option (KubeAPI W))
  (lookup : W -> string -> string -> option Secret) (version : W -> Secret -> Prop)
  (laws : KubeLaws api reader_api lookup version) n ns current w w'
  (success : DeleteSecretIfCurrent api reader_api n ns current w = (Ret (true, None), w')) :
  exists w1 s, k_Get (reader api reader_api) n ns w = (Ok s, w1) /\
    lookup w1 n ns = Some s /\ record_of s current.
Proof.
  unfold DeleteSecretIfCurrent, st_bind, getSecretObject in success.
  destruct (k_Get _ n ns w) as [[s|e] w1] eqn:Eg; [|done].
  destruct (validateSecretIdentity _ _ _ _) eqn:Ev; [done|].
  destruct (deleteSecretObject api s w1) as [[[e|]|] w2] eqn:Ed; try done.
  exists w1, s. destruct (kl_get _ _ _ _ n ns w s w1 Eg) as (<- & <- & Hv).
  split_and!; [done| |by eapply validateSecretIdentity_ok].
  by eapply deleteSecretObject_exact.
Qed.

(** A guarded update is exact in the same sense: success means that the
    secret it overwrote still had the recorded UID, labels and data. *)
Theorem guarded_update_exact {W} (api : KubeAPI W) (reader_api : option (KubeAPI W))
  (lookup : W -> string -> string -> option Secret) (version : W -> Secret -> Prop)
  (laws : KubeLaws api reader_api lookup version) n ns current labels data w w'
  (success : UpdateSecretIfCurrent api reader_api n ns current labels data w = (Ret (true, None), w')) :
  exists w1 s, k_Get (reader api reader_api) n ns w = (Ok s, w1) /\
    lookup w1 n ns = Some s /\ record_of s current.
Proof.
  unfold UpdateSecretIfCurrent, st_bind, getSecretObject in success.
  destruct (k_Get _ n ns w) as [[s|e] w1] eqn:Eg; [|done].
  destruct (validateSecretIdentity _ _ _ _) eqn:Ev; [done|].
  destruct (updateSecretObject api s labels data w1) as [[[e|]|] w2] eqn:Ed; try done.
  exists w1, s. destruct (kl_get _ _ _ _ n ns w s w1 Eg) as (<- & <- & Hv).
  split_and!; [done| |by eapply validateSecretIdentity_ok].
  by eapply updateSecretObject_exact.
Qed.

(** A server with one secret; the state says whether it is still there. *)
Definition lone_secret : Secret := mkSecret "s" "ns" "uid-1" "7" {["app" := "db"]} {["password" := "x"]}.
Definition lone_api : KubeAPI bool := {|
  k_Get n ns w := (if w && (n =? "s")%string && (ns =? "ns")%string then Ok lone_secret else Err (ErrText "no"), w);
  k_Create s w := (Some (ErrText "exists"), w);
  k_Update s w := (if w && bool_decide (s_Name s = "s" /\ s_Namespace s = "ns" /\ s_UID s = "uid-1" /\ s_ResourceVersion s = "7")
                   then None else Some (ErrText "conflict"), w);
  k_Delete s pre w :=
    if w && bool_decide (s_Name s = "s" /\ s_Namespace s = "ns" /\ pre = delete_preconditions lone_secret)
    then (None, false) else (Some (ErrText "conflict"), w)
|}.
Definition lone_lookup (w : bool) (n ns : string) : option Secret :=
  if w && (n =? "s")%string && (ns =? "ns")%string then Some lone_secret else None.

#[local] Instance lone_laws : KubeLaws lone_api None lone_lookup (fun _ s => s = lone_secret).
Proof.
  split; simpl; unfold lone_lookup.
  - intros n ns w s w'. destruct (w && _ && _) eqn:E; intros [= <- <-]. bool_prop. by subst.
  - intros w n ns s. by destruct (w && _ && _); intros [= <-].
  - by intros w s1 s2 -> ->.
  - by intros w s ->.
  - intros s pre w w'. destruct (w && bool_decide _) eqn:E; intros [= <-].
    apply andb_true_iff in E as [-> (-> & -> & ->)%bool_decide_eq_true]. exists lone_secret. split; [done|].
    by split; intros ? [= <-].
  - intros s w w' [= H <-]. destruct (w && bool_decide _) eqn:E; [|done].
    apply andb_true_iff in E as [-> (-> & -> & -> & ->)%bool_decide_eq_true]. by exists lone_secret.
Qed.

Lemma guarded_delete_exact_witness :
  exists w1 s, k_Get lone_api "s" "ns" true = (Ok s, w1) /\
    record_of s (mkSecretRecord "uid-1" {["app" := "db"]} {["password" := "x"]}).
Proof.
  edestruct (guarded_delete_exact lone_api None lone_lookup _ lone_laws "s" "ns"
    (mkSecretRecord "uid-1" {["app" := "db"]} {["password" := "x"]}) true) as (w1 & s & Hg & _ & Hr).
  - vm_compute. reflexivity.
  - exists w1, s. split; [exact Hg|exact Hr].
Defined.

Lemma guarded_update_exact_witness :
  exists w1 s, k_Get lone_api "s" "ns" true = (Ok s, w1) /\
    record_of s (mkSecretRecord "uid-1" {["app" := "db"]} {["password" := "x"]}).
Proof.
  edestruct (guarded_update_exact lone_api None lone_lookup _ lone_laws "s" "ns"
    (mkSecretRecord "uid-1" {["app" := "db"]} {["password" := "x"]}) None {["password" := "y"]} true)
    as (w1 & s & Hg & _ & Hr).
  - vm_compute. reflexivity.
  - exists w1, s. split; [exact Hg|exact Hr].
Defined.

(** ** Owned secrets over the credential client *)

Section CredentialLaws.
Context {W : Type} (client : CredentialClient W) (stored : W -> string * string -> option Data).

Definition unchanged (w w' : W) : Prop := forall k, stored w' k = stored w k.
Definition changed_at (k0 : string * string) (v : option Data) (w w' : W) : Prop :=
  forall k, stored w' k = if decide (k = k0) then v else stored w k.

(** What a credential client promises to its users when nobody interferes. *)
Class CredentialLaws : Prop := {
  cl_create n ns labels data w : exists ok err w',
    cc_CreateSecret client n ns labels data w = (Ret (ok, err), w') /\
    match err with
    | None => ok = true /\ stored w (n, ns) = None /\ changed_at (n, ns) (Some data) w w'
    | Some e => unchanged w w' /\ (k8s_IsAlreadyExists e = true -> stored w (n, ns) <> None)
    end;
  cl_get n ns w : exists data err w',
    cc_GetSecret client n ns w = (Ret (data, err), w') /\ unchanged w w' /\
    match err with
    | None => stored w (n, ns) = Some data
    | Some e => IsSecretNotFoundError (Some e) = true -> stored w (n, ns) = None
    end;
  cl_remove n ns w : exists ok err w',
    cc_DeleteSecret client n ns w = (Ret (ok, err), w') /\
    match err with
    | None => changed_at (n, ns) None w w'
    | Some e => unchanged w w' /\ (IsSecretNotFoundError (Some e) = true -> stored w (n, ns) = None)
    end
}.
End CredentialLaws.

Section KubeSequential.
Context {W : Type} (api : KubeAPI W) (lookup : W -> string * string -> option Secret).

(** The API server without interference. *)
Class KubeSequential : Prop := {
  ks_get n ns w r w' : k_Get api n ns w = (r, w') ->
    (forall k, lookup w' k = lookup w k) /\
    match r with
    | Ok s => lookup w (n, ns) = Some s /\ s_Name s = n /\ s_Namespace s = ns
    | Err e => IsSecretNotFoundError (Some e) = true -> lookup w (n, ns) = None
    end;
  ks_create s w r w' : k_Create api s w = (r, w') ->
    match r with
    | None => lookup w (s_Name s, s_Namespace s) = None /\
        exists s', s_Data s' = s_Data s /\
          forall k, lookup w' k = if decide (k = (s_Name s, s_Namespace s)) then Some s' else lookup w k
    | Some e => (forall k, lookup w' k = lookup w k) /\
        (k8s_IsAlreadyExists e = true -> lookup w (s_Name s, s_Namespace s) <> None)
    end;
  ks_delete s pre w r w' : k_Delete api s pre w = (r, w') ->
    match r with
    | None => forall k, lookup w' k = if decide (k = (s_Name s, s_Namespace s)) then None else lookup w k
    | Some e => (forall k, lookup w' k = lookup w k) /\
        (IsSecretNotFoundError (Some e) = true -> lookup w (s_Name s, s_Namespace s) = None)
    end
}.

Definition stored_data (w : W) (k : string * string) : option Data := s_Data <$> lookup w k.

(** [KubeSecretClient] keeps the promises of the interface. *)
Lemma kubeSecretClient_laws `{!KubeSequential} : CredentialLaws (kubeSecretClient api None) stored_data.
Proof.
  split; simpl.
  - intros n ns labels data w. unfold CreateSecret, st_bind, api_Create.
    destruct (k_Create api _ w) as [r w'] eqn:E. apply ks_create in E. simpl in E.
    destruct r as [e|]; do 3 eexists; (split; [reflexivity|]); unfold unchanged, changed_at, stored_data; simpl.
    + destruct E as [Hs Ha]. split; [intros k; by rewrite Hs|]. intros He. apply Ha in He.
      by destruct (lookup w (n, ns)).
    + destruct E as (Hn & s' & Hd & Hs). rewrite Hn. split_and!; [done|done|]. intros k. rewrite Hs.
      decide_goal; [|done]. simpl. by rewrite Hd.
  - intros n ns w. unfold GetSecret, GetSecretRecord, st_bind, getSecretObject, reader.
    destruct (k_Get api n ns w) as [[s|e] w'] eqn:E; apply ks_get in E as [Hs Hr];
      do 3 eexists; (split; [reflexivity|]); unfold unchanged, stored_data; simpl;
      (split; [intros k; by rewrite Hs|]).
    + destruct Hr as (Hl & _). rewrite Hl. simpl. unfold cloneSecretData. by rewrite map_fold_copy.
    + intros He. by rewrite Hr.
  - intros n ns w. unfold DeleteSecret, st_bind, getSecretObject, reader.
    destruct (k_Get api n ns w) as [[s|e] w1] eqn:E; apply ks_get in E as [Hs Hr].
    + destruct Hr as (Hl & <- & <-). unfold deleteSecretObject, api_Delete.
      destruct (k_Delete api s _ w1) as [r w'] eqn:Ed. apply ks_delete in Ed.
      destruct r as [e|]; do 3 eexists; (split; [reflexivity|]); unfold unchanged, changed_at, stored_data; simpl.
      * destruct Ed as [Hd Hn]. split; [intros k; by rewrite Hd, Hs|]. intros He. rewrite <-Hs, Hn; done.
      * intros k. rewrite Ed, Hs. by decide_goal.
    + do 3 eexists. split; [reflexivity|]. unfold unchanged, stored_data. simpl.
      split; [intros k; by rewrite Hs|]. intros He. by rewrite Hr.
Qed.
End KubeSequential.

(** C38. [EnsureOwnedSecret] never overwrites: for every client that keeps the
    interface's promises it returns, other secrets and an existing secret of that
    name are untouched, success means a secret owned by the caller is stored,
    and a secret of that name owned by someone else gives an error. *)
Theorem ensure_owned_secret_safe {W} (client : CredentialClient W) (stored : W -> string * string -> option Data)
  (laws : CredentialLaws client stored) n ns kind name data w :
  exists ok err w', EnsureOwnedSecret client n ns kind name data w = (Ret (ok, err), w') /\
    (forall k, stored w k <> None \/ k <> (n, ns) -> stored w' k = stored w k) /\
    (err = None -> exists d, stored w' (n, ns) = Some d /\ SecretOwnedBy d kind name = true) /\
    (forall d, stored w (n, ns) = Some d -> SecretOwnedBy d kind name = false -> err <> None).
Proof.
  unfold EnsureOwnedSecret, st_bind.
  destruct (cl_create client stored n ns (ManagedSecretLabels kind name)
              (AddManagedSecretData data kind name) w) as (ok & err & w1 & -> & H).
  destruct err as [e|].
  - destruct H as [Hsame Hexists]. destruct (k8s_IsAlreadyExists e) eqn:Ee; simpl.
    + destruct (cl_get client stored n ns w1) as (d & gerr & w2 & -> & Hsame2 & Hg).
      destruct gerr as [ge|]; [|destruct (SecretOwnedBy d kind name) eqn:Eo]; do 3 eexists;
        (split; [reflexivity|]); (split; [intros k _; by rewrite Hsame2, Hsame|]).
      * done.
      * split; [intros _; exists d; by rewrite Hsame2|]. intros d' Hd. rewrite <-Hsame, Hg in Hd. congruence.
      * done.
    + do 3 eexists. split; [reflexivity|]. split; [by intros k _|done].
  - destruct H as (-> & Hnone & Hch). do 3 eexists. split; [reflexivity|]. split_and!.
    + intros k Hk. rewrite Hch. decide_goal; [|done]. subst. by destruct Hk.
    + intros _. exists (AddManagedSecretData data kind name). rewrite Hch. decide_goal; [|done].
      split; [done|]. by apply owned_by_self.
    + intros d Hd. congruence.
Qed.

(** [DeleteOwnedSecretIfPresent] removes only what is owned: when nobody
    interferes it returns, touches at most the named secret, removes it only if
    it is owned by the caller, and success means no secret owned by the caller
    is left under the name. *)
Theorem delete_owned_secret_safe {W} (client : CredentialClient W) (stored : W -> string * string -> option Data)
  (laws : CredentialLaws client stored) n ns kind name w :
  exists ok err w', DeleteOwnedSecretIfPresent client n ns kind name w = (Ret (ok, err), w') /\
    (forall k, stored w' k = stored w k \/
       (k = (n, ns) /\ stored w' k = None /\ exists d, stored w k = Some d /\ SecretOwnedBy d kind name = true)) /\
    (ok = true <-> err = None) /\
    (ok = true -> forall d, stored w' (n, ns) = Some d -> SecretOwnedBy d kind name = false).
Proof.
  unfold DeleteOwnedSecretIfPresent, st_bind.
  destruct (cl_get client stored n ns w) as (d & gerr & w1 & -> & Hsame & Hg).
  destruct gerr as [ge|].
  - destruct (IsSecretNotFoundError (Some ge)) eqn:En; do 3 eexists; (split; [reflexivity|]);
      (split; [intros k; left; apply Hsame|]); (split; [done|]); [|done].
    intros _ d'. rewrite Hsame, Hg by done. done.
  - destruct (SecretOwnedBy d kind name) eqn:Eo; simpl.
    + destruct (cl_remove client stored n ns w1) as (ok & err & w2 & -> & Hr).
      destruct err as [e|].
      * destruct Hr as [Hsame2 Hn].
        destruct (IsSecretNotFoundError (Some e)) eqn:En; do 3 eexists; (split; [reflexivity|]);
          (split; [intros k; left; by rewrite Hsame2, Hsame|]); (split; [done|]); [|done].
        intros _ d'. rewrite Hsame2, Hn by done. done.
      * do 3 eexists. split; [reflexivity|]. split; [|split; [done|]].
        -- intros k. rewrite Hr. decide_goal; [|left; apply Hsame].
           right. subst. split_and!; [done|done|]. exists d. by split.
        -- intros _ d'. rewrite Hr. by decide_goal.
    + do 3 eexists. split; [reflexivity|]. split; [intros k; left; apply Hsame|]. split; [done|].
      intros _ d'. rewrite Hsame, Hg. by intros [= <-].
Qed.

Definition errSecretMissing : GoError := ErrForeign (mkForeignError "secret gone" "*errors.StatusError" None None (Some (true, false)) None).
Definition errSecretExists : GoError := ErrForeign (mkForeignError "secret exists" "*errors.StatusError" None None (Some (false, true)) None).

(** A server without interference: a map of secrets. *)
Definition map_api : KubeAPI (gmap (string * string) Secret) := {|
  k_Get n ns w := (match w !! (n, ns) with
                   | Some s => Ok (mkSecret n ns (s_UID s) (s_ResourceVersion s) (s_Labels s) (s_Data s))
                   | None => Err errSecretMissing
                   end, w);
  k_Create s w := match w !! (s_Name s, s_Namespace s) with
                  | Some _ => (Some errSecretExists, w)
                  | None => (None, <[(s_Name s, s_Namespace s) := s]> w)
                  end;
  k_Update s w := (None, <[(s_Name s, s_Namespace s) := s]> w);
  k_Delete s pre w := (None, delete (s_Name s, s_Namespace s) w)
|}.

Definition map_lookup (w : gmap (string * string) Secret) (k : string * string) : option Secret :=
  (fun s => mkSecret (fst k) (snd k) (s_UID s) (s_ResourceVersion s) (s_Labels s) (s_Data s)) <$> w !! k.

#[local] Instance map_api_laws : KubeSequential map_api map_lookup.
Proof.
  split; simpl; unfold map_lookup.
  - intros n ns w r w' [= <- <-]. split; [done|]. by destruct (w !! (n, ns)).
  - intros s w r w'. destruct (w !! (s_Name s, s_Namespace s)) eqn:E; intros [= <- <-].
    + done.
    + split; [done|]. exists (mkSecret (s_Name s) (s_Namespace s) (s_UID s) (s_ResourceVersion s) (s_Labels s) (s_Data s)).
      split; [done|]. intros k. destruct (decide (k = _)) as [->|]; [by rewrite lookup_insert_eq|by rewrite lookup_insert_ne].
  - intros s pre w r w' [= <- <-]. intros k.
    destruct (decide (k = _)) as [->|]; [by rewrite lookup_delete_eq|by rewrite lookup_delete_ne].
Qed.

Lemma ensure_owned_secret_safe_witness :
  exists ok err w', EnsureOwnedSecret (kubeSecretClient map_api None) "s" "ns" "Queue" "q" ∅ ∅ = (Ret (ok, err), w').
Proof.
  destruct (ensure_owned_secret_safe (kubeSecretClient map_api None) (stored_data map_lookup)
              (kubeSecretClient_laws map_api map_lookup) "s" "ns" "Queue" "q" ∅ ∅) as (ok & err & w' & H & _).
  exists ok, err, w'. exact H.
Defined.

Lemma delete_owned_secret_safe_witness :
  exists ok err w', DeleteOwnedSecretIfPresent (kubeSecretClient map_api None) "s" "ns" "Queue" "q" ∅ = (Ret (ok, err), w').
Proof.
  destruct (delete_owned_secret_safe (kubeSecretClient map_api None) (stored_data map_lookup)
              (kubeSecretClient_laws map_api map_lookup) "s" "ns" "Queue" "q" ∅) as (ok & err & w' & H & _).
  exists ok, err, w'. exact H.
Defined.
