(* ===== verification/JsonValues.v ===== *)
(** * JSON values: encoding of Go values and path lookups

    The part of [pkg/servicemanager/generatedruntime/request_builder.go] that
    reads the resource: [encoding/json] on the value universe, the lookup map of a
    resource, dotted and case-insensitive path lookups, meaningful values, value
    equality, camel-case names and the values of request fields.

    A [map[string]any] is an association list without duplicate keys, in one
    iteration order; writing a key keeps its position or appends. *)

From Stdlib Require Import Ascii.
From S2P Require Import Prelude GoStrings Shared GoErrors GoValue AsyncStatus.
Local Open Scope string_scope.
Local Open Scope go_scope.

(** ** Go maps *)

Definition GoMap (A : Type) := list (string * A).

Definition map_get {A} (key : string) (m : GoMap A) : option A :=
  option_map snd (find_first (fun kv => (fst kv =? key)%string) m).

Fixpoint map_set {A} (key : string) (v : A) (m : GoMap A) : GoMap A :=
  match m with
  | [] => [(key, v)]
  | (k, w) :: r => if (k =? key)%string then (k, v) :: r else (k, w) :: map_set key v r
  end.

Definition map_del {A} (key : string) (m : GoMap A) : GoMap A :=
  List.filter (fun kv => negb (fst kv =? key)%string) m.

Definition keys {A} (m : GoMap A) : list string := map fst m.

Section MapLemmas.
Context {A : Type}.
Implicit Types m : GoMap A.

Lemma map_get_set_eq key v m : map_get key (map_set key v m) = Some v.
Proof.
  unfold map_get. induction m as [|[k w] m IH]; simpl; [by rewrite String.eqb_refl|].
  destruct (k =? key)%string eqn:E; simpl; by rewrite E.
Qed.

Lemma map_get_set_ne key key' v m : key <> key' -> map_get key' (map_set key v m) = map_get key' m.
Proof.
  intros Hne. unfold map_get. induction m as [|[k w] m IH]; simpl.
  - apply String.eqb_neq in Hne. by rewrite Hne.
  - destruct (k =? key)%string eqn:E; simpl.
    + bool_prop. subst. apply String.eqb_neq in Hne. by rewrite Hne.
    + destruct (k =? key')%string; [done|exact IH].
Qed.

Lemma map_get_None key m : map_get key m = None <-> key ∉ keys m.
Proof.
  unfold map_get, keys. induction m as [|[k w] m IH]; simpl; [set_solver|].
  destruct (k =? key)%string eqn:E; bool_prop; simpl; set_solver.
Qed.

Lemma map_get_Some_elem key v m : map_get key m = Some v -> (key, v) ∈ m.
Proof.
  unfold map_get. destruct (find_first _ m) as [[k w]|] eqn:E; [|done]. simpl. intros [= <-].
  apply find_first_Some in E as [Hin Hk]. simpl in Hk. bool_prop. by subst.
Qed.

Lemma map_get_elem key v m : NoDup (keys m) -> (key, v) ∈ m -> map_get key m = Some v.
Proof.
  unfold map_get, keys. induction m as [|[k w] m IH]; simpl; [set_solver|].
  intros [Hk Hnd]%NoDup_cons Hin. apply elem_of_cons in Hin as [[= -> ->]|Hin].
  - by rewrite String.eqb_refl.
  - destruct (k =? key)%string eqn:E; [|by apply IH].
    bool_prop. subst. exfalso. apply Hk. apply list_elem_of_fmap. by exists (key, v).
Qed.

Lemma map_get_perm key m m' : NoDup (keys m) -> m ≡ₚ m' -> map_get key m = map_get key m'.
Proof.
  intros Hnd Hp. assert (Hnd' : NoDup (keys m')) by (unfold keys in *; by rewrite <-Hp).
  destruct (map_get key m) as [v|] eqn:E.
  - symmetry. apply map_get_elem; [done|]. rewrite <-Hp. by apply map_get_Some_elem.
  - apply map_get_None in E. symmetry. apply map_get_None. unfold keys in *. by rewrite <-Hp.
Qed.
End MapLemmas.

(** ** Numbers and times as text *)

Fixpoint repeat_char (c : ascii) (n : nat) : string :=
  match n with O => "" | S n => String c (repeat_char c n) end.

(** A decimal without trailing zeros in the mantissa; [fuel] bounds the zeros. *)
Fixpoint strip_zeros (fuel : nat) (m e : Z) : Dec :=
  match fuel with
  | O => mkDec m e
  | S fuel =>
      if (m =? 0)%Z then mkDec 0 0
      else if (m mod 10 =? 0)%Z then strip_zeros fuel (m / 10)%Z (e + 1)%Z else mkDec m e
  end.

Definition dec_norm (d : Dec) : Dec := strip_zeros (Z.to_nat (Z.log2 (Z.abs (dec_mant d)) + 1)) (dec_mant d) (dec_exp d).

(** [strconv.FormatFloat(f, 'g', -1, 64)] with the exponent bounds of [fmt]'s [%v]. *)
Definition sprint_float (d : Dec) : string :=
  let n := dec_norm d in
  let sign := if (dec_mant n <? 0)%Z then "-" else "" in
  let digits := Itoa (Z.abs (dec_mant n)) in
  let len := Z.of_nat (String.length digits) in
  let x := (len + dec_exp n - 1)%Z in
  sign +++
  (if (dec_mant n =? 0)%Z then "0"
   else if (x <? -4)%Z || (21 <=? x)%Z then
     String.substring 0 1 digits
     +++ (if (1 <? len)%Z then "." +++ String.substring 1 (String.length digits - 1) digits else "")
     +++ "e" +++ (if (x <? 0)%Z then "-" else "+")
     +++ (if (Z.abs x <? 10)%Z then "0" else "") +++ Itoa (Z.abs x)
   else if (0 <=? dec_exp n)%Z then digits +++ repeat_char "0" (Z.to_nat (dec_exp n))
   else if (x <? 0)%Z then "0." +++ repeat_char "0" (Z.to_nat (- x - 1)) +++ digits
   else String.substring 0 (Z.to_nat (x + 1)) digits +++ "."
        +++ String.substring (Z.to_nat (x + 1)) (String.length digits) digits).

Definition pad (width : nat) (z : Z) : string :=
  let s := Itoa z in repeat_char "0" (width - String.length s) +++ s.

(** [metav1.Time.MarshalJSON]: RFC 3339 in UTC with seconds; the date of a day number. *)
Definition civil_from_days (days : Z) : Z * Z * Z :=
  let z := (days + 719468)%Z in
  let era := (z / 146097)%Z in
  let doe := (z - era * 146097)%Z in
  let yoe := ((doe - doe / 1460 + doe / 36524 - doe / 146096) / 365)%Z in
  let doy := (doe - (365 * yoe + yoe / 4 - yoe / 100))%Z in
  let mp := ((5 * doy + 2) / 153)%Z in
  let d := (doy - (153 * mp + 2) / 5 + 1)%Z in
  let m := (if mp <? 10 then mp + 3 else mp - 9)%Z in
  (((yoe + era * 400) + (if m <=? 2 then 1 else 0))%Z, m, d).

Definition rfc3339 (t : Time) : string :=
  let secs := (t / Second)%Z in
  let '(y, m, d) := civil_from_days (secs / 86400)%Z in
  let s := (secs mod 86400)%Z in
  pad 4 y +++ "-" +++ pad 2 m +++ "-" +++ pad 2 d +++ "T" +++
  pad 2 (s / 3600)%Z +++ ":" +++ pad 2 ((s / 60) mod 60)%Z +++ ":" +++ pad 2 (s mod 60)%Z +++ "Z".

(** ** Encoding *)

Definition omit_empty_str (name v : string) : GoMap Json :=
  if (v =? "")%string then [] else [(name, JStr v)].
Definition omit_empty_time (name : string) (t : option Time) : GoMap Json :=
  match t with None => [] | Some t => [(name, JStr (rfc3339 t))] end.

Definition condition_json (c : OSOKCondition) : Json :=
  JObj ([("type", JStr (cond_Type c)); ("status", JStr (cond_Status c))]
        ++ omit_empty_time "lastTransitionTime" (cond_LastTransitionTime c)
        ++ omit_empty_str "message" (cond_Message c) ++ omit_empty_str "reason" (cond_Reason c)).

Definition async_operation_json (o : OSOKAsyncOperation) : Json :=
  JObj ([("source", JStr (op_Source o)); ("phase", JStr (op_Phase o))]
        ++ omit_empty_str "workRequestId" (op_WorkRequestID o)
        ++ omit_empty_str "rawStatus" (op_RawStatus o)
        ++ omit_empty_str "rawOperationType" (op_RawOperationType o)
        ++ [("normalizedClass", JStr (op_NormalizedClass o))]
        ++ match op_PercentComplete o with None => [] | Some p => [("percentComplete", JNum p)] end
        ++ omit_empty_str "message" (op_Message o)
        ++ [("updatedAt", match op_UpdatedAt o with None => JNull | Some t => JStr (rfc3339 t) end)]).

(** [json:"async,omitempty"] on a struct never omits it. *)
Definition osok_status_json (s : OSOKStatus) : Json :=
  JObj ((match Conditions s with [] => [] | cs => [("conditions", JArr (map condition_json cs))] end)
        ++ [("async", JObj (match Current (Async s) with None => [] | Some o => [("current", async_operation_json o)] end))]
        ++ omit_empty_str "opcRequestId" (OpcRequestID s) ++ omit_empty_str "ocid" (Ocid s)
        ++ omit_empty_str "message" (Message s) ++ omit_empty_str "reason" (Reason s)
        ++ omit_empty_time "createdAt" (CreatedAt s) ++ omit_empty_time "updatedAt" (UpdatedAt s)
        ++ omit_empty_time "requestedAt" (RequestedAt s) ++ omit_empty_time "deletedAt" (DeletedAt s)).

(** The [json] tag: its name and whether it has the [omitempty] option. *)
Definition tag_name (f : StructField) : string := hd "" (Split (sf_json f) ",").
Definition tag_omitempty (f : StructField) : bool :=
  existsb (fun o => (o =? "omitempty")%string) (tl (Split (sf_json f) ",")).

(** [isEmptyValue] of [encoding/json]. *)
Definition is_empty_value (v : GoValue) : bool :=
  match v with
  | VBool b => negb b
  | VInt z => (z =? 0)%Z
  | VFloat n => (dec_mant n =? 0)%Z
  | VString s => (s =? "")%string
  | VPtr _ None | VIface None | VSlice _ None | VMap _ None | VNil => true
  | VSlice _ (Some l) => match l with [] => true | _ => false end
  | VMap _ (Some m) => match m with [] => true | _ => false end
  | _ => false
  end.

(** An embedded struct without a tag name is encoded in place. *)
Definition inlined (f : StructField) (v : GoValue) : bool :=
  sf_Anonymous f && (tag_name f =? "")%string &&
  match v with VStruct _ _ | VPtr _ (Some (VStruct _ _)) | VPtr (TStruct _ _) None => true | _ => false end.

Definition encoded_name (f : StructField) : string :=
  if (tag_name f =? "")%string then sf_Name f else tag_name f.

(** Names of the fields a struct encodes itself; they hide inlined ones. *)
Definition own_names (fs : list (StructField * GoValue)) : list string :=
  flat_map (fun '(f, v) =>
    if negb (sf_Exported f) || (sf_json f =? "-")%string || inlined f v then [] else [encoded_name f]) fs.

Definition string_in (s : string) (l : list string) : bool := existsb (fun x => (x =? s)%string) l.

Definition err_bind {A B} (r : result A string) (f : A -> result B string) : result B string := result_bind r f.

(** [json.Marshal] followed by [json.Unmarshal] into [any]; errors come from custom marshalers. *)
Fixpoint to_json (v : GoValue) : result Json string :=
  match v with
  | VNil => Ok JNull
  | VBool b => Ok (JBool b)
  | VInt z => Ok (JNum (mkDec z 0))
  | VFloat n => Ok (JNum n)
  | VString s => Ok (JStr s)
  | VPtr _ None | VIface None | VSlice _ None | VMap _ None => Ok JNull
  | VPtr _ (Some x) => to_json x
  | VIface (Some x) => to_json x
  | VSlice _ (Some l) =>
      result_bind ((fix go (l : list GoValue) : result (list Json) string :=
        match l with
        | [] => Ok []
        | x :: r => result_bind (to_json x) (fun j => result_bind (go r) (fun js => Ok (j :: js)))
        end) l) (fun js => Ok (JArr js))
  | VMap _ (Some m) =>
      result_bind ((fix go (l : list (string * GoValue)) : result (GoMap Json) string :=
        match l with
        | [] => Ok []
        | (k, x) :: r => result_bind (to_json x) (fun j => result_bind (go r) (fun js => Ok ((k, j) :: js)))
        end) m) (fun js => Ok (JObj js))
  | VStruct _ fs =>
      let own := own_names fs in
      result_bind ((fix go (l : list (StructField * GoValue)) : result (GoMap Json) string :=
        match l with
        | [] => Ok []
        | (f, x) :: r =>
            if inlined f x then
              result_bind (to_json x) (fun j =>
                result_bind (go r) (fun js =>
                  Ok (match j with
                      | JObj m => (List.filter (fun kv => negb (string_in (fst kv) own)) m ++ js)%list
                      | _ => js
                      end)))
            else if negb (sf_Exported f) || (sf_json f =? "-")%string then go r
            else if tag_omitempty f && is_empty_value x then go r
            else result_bind (to_json x) (fun j => result_bind (go r) (fun js => Ok ((encoded_name f, j) :: js)))
        end) fs) (fun js => Ok (JObj js))
  | VOsok s => Ok (osok_status_json s)
  | VMarshaler _ j => j
  end.

(** ** [fmt.Sprint] and canonical form of decoded JSON *)

Fixpoint insert_key {A} (kv : string * A) (m : GoMap A) : GoMap A :=
  match m with
  | [] => [kv]
  | kv' :: r => if String.leb (fst kv) (fst kv') then kv :: m else kv' :: insert_key kv r
  end.

(** Entries in the key order of [json.Marshal] and [fmt]. *)
Fixpoint sort_keys {A} (m : GoMap A) : GoMap A :=
  match m with [] => [] | kv :: r => insert_key kv (sort_keys r) end.

(** [fmt.Sprint] of a decoded value. *)
Fixpoint sprint (j : Json) : string :=
  match j with
  | JNull => "<nil>"
  | JBool b => if b then "true" else "false"
  | JNum n => sprint_float n
  | JStr s => s
  | JArr l => "[" +++ Join (map sprint l) " " +++ "]"
  | JObj m => "map[" +++ Join (map (fun kv => fst kv +++ ":" +++ snd kv)
                                 (sort_keys (map (fun kv => (fst kv, sprint (snd kv))) m))) " " +++ "]"
  end.

(** What [json.Marshal] prints determines, and is determined by, this form: objects with sorted
    keys and numbers without trailing zeros. *)
Fixpoint canonical (j : Json) : Json :=
  match j with
  | JNum n => JNum (dec_norm n)
  | JArr l => JArr (map canonical l)
  | JObj m => JObj (sort_keys (map (fun kv => (fst kv, canonical (snd kv))) m))
  | _ => j
  end.

Fixpoint json_eqb (a b : Json) : bool :=
  match a, b with
  | JNull, JNull => true
  | JBool x, JBool y => Bool.eqb x y
  | JNum x, JNum y => bool_decide (x = y)
  | JStr x, JStr y => (x =? y)%string
  | JArr l, JArr k =>
      (fix go (l k : list Json) : bool :=
         match l, k with
         | [], [] => true
         | x :: l, y :: k => json_eqb x y && go l k
         | _, _ => false
         end) l k
  | JObj m, JObj n =>
      (fix go (m n : GoMap Json) : bool :=
         match m, n with
         | [], [] => true
         | (k, x) :: m, (k', y) :: n => (k =? k')%string && json_eqb x y && go m n
         | _, _ => false
         end) m n
  | _, _ => false
  end.

(** [valuesEqual] on decoded values. *)
Definition valuesEqual (left right : Json) : bool := json_eqb (canonical left) (canonical right).

(** ** Reading the resource *)

Definition lookupSpecRootKey := "__generatedruntime_lookup_spec_root__".
Definition lookupStatusRootKey := "__generatedruntime_lookup_status_root__".

(** [json.Unmarshal] into a [map[string]any]: [None] is the nil map or an error. *)
Definition json_object (j : Json) : option (GoMap Json) :=
  match j with JObj m => Some m | _ => None end.

Definition jsonMap (value : GoValue) : option (GoMap Json) :=
  match value with
  | VNil => None
  | _ => match to_json value with Err _ => None | Ok j => json_object j end
  end.

Definition decodedJSONValue (value : GoValue) : result Json GoError :=
  match value with
  | VNil => Ok JNull
  | _ => match to_json value with Err e => Err (ErrWrap ("marshal value: " +++ e) (ErrText e)) | Ok j => Ok j end
  end.

(** The loops of [mergeJSONMap] and [mergeJSONMapOverwrite]. *)
Definition mergeJSONMap (dst : GoMap Json) (source : GoValue) : GoMap Json :=
  match jsonMap source with
  | None => dst
  | Some decoded =>
      fold_left (fun dst kv => match map_get (fst kv) dst with
                               | Some _ => dst
                               | None => map_set (fst kv) (snd kv) dst
                               end) decoded dst
  end.

Definition mergeJSONMapOverwrite (dst : GoMap Json) (source : GoValue) : GoMap Json :=
  match jsonMap source with
  | None => dst
  | Some decoded => fold_left (fun dst kv => map_set (fst kv) (snd kv) dst) decoded dst
  end.

(** [fieldInterface]: the field's value as an [any]; nil when there is no such field. *)
Definition fieldInterface (v : GoValue) (name : string) : GoValue :=
  match fieldByName name v with Some x => iface_value x | None => VNil end.

Definition set_if_absent (key : string) (v : Json) (m : GoMap Json) : GoMap Json :=
  match map_get key m with Some _ => m | None => map_set key v m end.

Definition lookupValues (resource : GoValue) : result (GoMap Json) GoError :=
  match resourceStruct resource with
  | Err e => Err e
  | Ok (n, fs) =>
      let resourceValue := VStruct n fs in
      let values := [] in
      let specValue := fieldInterface resourceValue "Spec" in
      let values := match jsonMap specValue with
                    | Some specRoot => map_set lookupSpecRootKey (JObj specRoot) values
                    | None => values
                    end in
      let values := mergeJSONMap values specValue in
      let statusValue := fieldInterface resourceValue "Status" in
      let values := match jsonMap statusValue with
                    | Some statusRoot => map_set lookupStatusRootKey (JObj statusRoot) values
                    | None => values
                    end in
      let values := mergeJSONMap values statusValue in
      let values := match fieldByName "Status" resourceValue with
                    | Some statusField => mergeJSONMap values (fieldInterface statusField "OsokStatus")
                    | None => values
                    end in
      let metadataName := lookupMetadataString resourceValue "Name" in
      let values := if (metadataName =? "")%string then values
                    else map_set "metadataName" (JStr metadataName) (set_if_absent "name" (JStr metadataName) values) in
      let namespaceName := lookupMetadataString resourceValue "Namespace" in
      let values := if (namespaceName =? "")%string then values
                    else set_if_absent "namespace" (JStr namespaceName)
                           (set_if_absent "namespaceName" (JStr namespaceName) values) in
      Ok values
  end.

Definition specValue (resource : GoValue) : GoValue :=
  match resourceStruct resource with
  | Err _ => VNil
  | Ok (n, fs) => fieldInterface (VStruct n fs) "Spec"
  end.

(** ** Paths *)

(** [normalizePathSegment] and [normalizePath] of [mutation_policy.go]. *)
Definition normalizePathSegment (segment : string) : string :=
  let segment := ToLower (TrimSpace segment) in
  if HasSuffix segment "gbs" then TrimSuffix segment "gbs" +++ "gb" else segment.

Definition normalizePath (path : string) : string :=
  if (TrimSpace path =? "")%string then "" else Join (map normalizePathSegment (Split path ".")) ".".

Definition lookupMapKey (values : GoMap Json) (segment : string) : option Json :=
  match map_get segment values with
  | Some value => Some value
  | None =>
      let normalized := normalizePathSegment segment in
      option_map snd (find_first (fun kv => (normalizePathSegment (fst kv) =? normalized)%string) values)
  end.

Fixpoint lookup_segments (current : Json) (segments : list string) : option Json :=
  match segments with
  | [] => Some current
  | segment :: r =>
      let segment := TrimSpace segment in
      if (segment =? "")%string then None
      else match current with
           | JObj mapValue =>
               match lookupMapKey mapValue segment with
               | Some next => lookup_segments next r
               | None => None
               end
           | _ => None
           end
  end.

Definition lookupValueBySegments (root : GoMap Json) (segments : list string) : option Json :=
  lookup_segments (JObj root) segments.

Definition lookupNamedRootValue (values : GoMap Json) (rootKey : string) (segments : list string) : option Json :=
  match map_get rootKey values with
  | Some (JObj root) =>
      match segments with [] => Some (JObj root) | _ => lookupValueBySegments root segments end
  | _ => None
  end.

Definition lookupRootScopedValue (values : GoMap Json) (segments : list string) : option Json :=
  match segments with
  | [] => None
  | first :: rest =>
      if (normalizePathSegment first =? "spec")%string then lookupNamedRootValue values lookupSpecRootKey rest
      else if (normalizePathSegment first =? "status")%string then lookupNamedRootValue values lookupStatusRootKey rest
      else None
  end.

(** [None] for [values] is the nil map. *)
Definition lookupValueByPath (values : option (GoMap Json)) (path : string) : option Json :=
  match values with
  | None => None
  | Some values =>
      let path := TrimSpace path in
      if (path =? "")%string then None
      else
        let segments := Split path "." in
        match lookupRootScopedValue values segments with
        | Some current => Some current
        | None => lookupValueBySegments values segments
        end
  end.

Fixpoint lookupValueByPaths (values : option (GoMap Json)) (paths : list string) : option Json :=
  match paths with
  | [] => None
  | path :: r => match lookupValueByPath values path with Some v => Some v | None => lookupValueByPaths values r end
  end.

Fixpoint meaningfulValue (value : Json) : bool :=
  match value with
  | JNull => false
  | JStr s => negb (TrimSpace s =? "")%string
  | JArr l => existsb meaningfulValue l
  | JObj m => existsb (fun kv => meaningfulValue (snd kv)) m
  | JBool _ => true
  | JNum n => negb (dec_mant n =? 0)%Z
  end.

Definition lookupMeaningfulValue (values : option (GoMap Json)) (path : string) : option Json :=
  match lookupValueByPath values path with
  | Some value => if meaningfulValue value then Some value else None
  | None => None
  end.

Definition lookupString (values : option (GoMap Json)) (key : string) : string :=
  match lookupValueByPath values key with
  | None | Some JNull => ""
  | Some (JStr s) => s
  | Some j => sprint j
  end.

Fixpoint firstNonEmpty (values : option (GoMap Json)) (ks : list string) : string :=
  match ks with
  | [] => ""
  | key :: r => if (lookupString values key =? "")%string then firstNonEmpty values r else lookupString values key
  end.

Definition containsString (values : list string) (candidate : string) : bool :=
  existsb (fun value => (value =? candidate)%string) values.

(** [seen] is the set of values of [existing]. *)
Fixpoint appendUniqueStrings (existing extras : list string) : list string :=
  match extras with
  | [] => existing
  | value :: r =>
      if (value =? "")%string || containsString existing value then appendUniqueStrings existing r
      else appendUniqueStrings (existing ++ [value]) r
  end.

(** [canonicalMapKey] and [canonicalValuePath]; [None] is the nil map. *)
Definition canonicalMapKey (values : option (GoMap Json)) (segment : string) : string :=
  match values with
  | None => segment
  | Some values =>
      let normalized := normalizePathSegment segment in
      match find_first (fun kv => (normalizePathSegment (fst kv) =? normalized)%string) values with
      | Some (key, _) => key
      | None => segment
      end
  end.

Fixpoint canonical_segments (current : option (GoMap Json)) (segments : list string) : list string :=
  match segments with
  | [] => []
  | segment :: r =>
      let segment := TrimSpace segment in
      if (segment =? "")%string then []
      else
        let key := canonicalMapKey current segment in
        let next := match current with
                    | Some m => match map_get key m with Some (JObj n) => Some n | _ => None end
                    | None => None
                    end in
        key :: canonical_segments next r
  end.

Definition canonicalValuePath (values : option (GoMap Json)) (path : string) : string :=
  let path := TrimSpace path in
  if (path =? "")%string then "" else Join (canonical_segments values (Split path ".")) ".".

(** [setValueByPath]: the map after the write; a write that stops at a blank segment keeps the
    intermediate maps it created. *)
Fixpoint set_segments (current : GoMap Json) (segments : list string) (value : Json) : GoMap Json :=
  match segments with
  | [] => current
  | segment :: r =>
      let segment := TrimSpace segment in
      if (segment =? "")%string then current
      else match r with
           | [] => map_set segment value current
           | _ =>
               let next := match map_get segment current with Some (JObj n) => n | _ => [] end in
               map_set segment (JObj (set_segments next r value)) current
           end
  end.

Definition setValueByPath (values : GoMap Json) (path : string) (value : Json) : GoMap Json :=
  let path := TrimSpace path in
  if (path =? "")%string then values else set_segments values (Split path ".") value.

(** ** Names *)

(** [splitBeforeCamelRune] at a character with the given neighbours. *)
Definition splitBeforeCamelRune (prev current : ascii) (next : option ascii) : bool :=
  let nextIsLower := match next with Some c => is_lower c | None => false end in
  is_upper current && (is_lower prev || is_digit prev || (is_upper prev && nextIsLower)).

(** The loop of [splitCamel]: [current] is the token read so far, [prev] the last character. *)
Fixpoint split_camel (prev : option ascii) (current : string) (s : string) : list string :=
  match s with
  | EmptyString => if (current =? "")%string then [] else [ToLower current]
  | String c r =>
      let next := match r with String d _ => Some d | EmptyString => None end in
      if match prev with Some p => splitBeforeCamelRune p c next | None => false end
      then ToLower current :: split_camel (Some c) (String c "") r
      else split_camel (Some c) (current +++ String c "") r
  end.

Definition splitCamel (name : string) : list string :=
  if (TrimSpace name =? "")%string then [] else split_camel None "" name.

Definition lowerCamel (name : string) : string :=
  match splitCamel name with
  | [] => ""
  | first :: rest =>
      first +++ String.concat "" (map (fun token =>
        ToUpper (String.substring 0 1 token) +++ String.substring 1 (String.length token) token) rest)
  end.

(** [fieldJSONName] and [requestLookupKey]. *)
Definition fieldJSONName (f : StructField) : string :=
  let tag := sf_json f in
  if (tag =? "")%string || (tag =? "-")%string then "" else hd "" (Split tag ",").

Definition requestLookupKey (f : StructField) : string :=
  let lookupKey := sf_name f in
  let lookupKey := if (lookupKey =? "")%string then fieldJSONName f else lookupKey in
  if (lookupKey =? "")%string then lowerCamel (sf_Name f) else lookupKey.

Definition embeddedJSONField (f : StructField) : bool :=
  sf_Anonymous f && (hd "" (Split (sf_json f) ",") =? "")%string.

(** ** Values of request fields *)

Record RequestField := mkRequestField {
  FieldName : string;
  RequestName : string;
  Contribution : string;
  PreferResourceID : bool;
  LookupPaths : list string
}.

Definition namespace_value (values : option (GoMap Json)) : option Json :=
  match lookupValueByPaths values ["namespace"] with
  | Some value => Some value
  | None => lookupValueByPaths values ["namespaceName"]
  end.

Definition heuristicRequestValue (values : option (GoMap Json)) (f : StructField) (preferredID : string)
  (idAliases : list string) : option Json :=
  let lookupKey := requestLookupKey f in
  if (lookupKey =? "namespaceName")%string then namespace_value values
  else match lookupValueByPaths values [lookupKey] with
       | Some rawValue => Some rawValue
       | None =>
           if negb (preferredID =? "")%string && containsString idAliases lookupKey then Some (JStr preferredID)
           else if (lookupKey =? "name")%string then lookupValueByPaths values ["metadataName"]
           else None
       end.

Definition request_field_key (field : RequestField) : string :=
  let lookupKey := TrimSpace (RequestName field) in
  if (lookupKey =? "")%string then lowerCamel (FieldName field) else lookupKey.

Definition explicitRequestValue (values : option (GoMap Json)) (field : RequestField) (preferredID : string)
  : option Json :=
  if PreferResourceID field then
    if negb (preferredID =? "")%string then Some (JStr preferredID)
    else match lookupValueByPaths values ["id"; "ocid"] with
         | Some currentID => Some currentID
         | None => lookupValueByPaths values (LookupPaths field)
         end
  else
    let lookupKey := request_field_key field in
    match lookupValueByPaths values (LookupPaths field) with
    | Some rawValue => Some rawValue
    | None =>
        if (lookupKey =? "namespaceName")%string then namespace_value values
        else match lookupValueByPaths values [lookupKey] with
             | Some rawValue => Some rawValue
             | None => if (lookupKey =? "name")%string then lookupValueByPaths values ["metadataName"] else None
             end
    end.

Definition requestFieldRequiresResourceID (field : RequestField) (idAliases : list string) : bool :=
  if PreferResourceID field then true else containsString idAliases (request_field_key field).

(** [resourceNamespace]. *)
Definition resourceNamespace (resource : GoValue) (fallback : string) : string :=
  match resourceStruct resource with
  | Err _ => TrimSpace fallback
  | Ok (n, fs) =>
      let namespace := lookupMetadataString (VStruct n fs) "Namespace" in
      if negb (TrimSpace namespace =? "")%string then namespace else TrimSpace fallback
  end.

(** [resourceRetryToken]; [digest] is the hexadecimal text of the first 16 bytes of the SHA-256 sum. *)
Definition resourceRetryToken (digest : string -> string) (resource : GoValue) : string :=
  match resourceStruct resource with
  | Err _ => ""
  | Ok (n, fs) =>
      let uid := TrimSpace (lookupMetadataString (VStruct n fs) "UID") in
      if negb (uid =? "")%string then uid
      else
        let namespace := TrimSpace (lookupMetadataString (VStruct n fs) "Namespace") in
        let name := TrimSpace (lookupMetadataString (VStruct n fs) "Name") in
        if (namespace =? "")%string && (name =? "")%string then "" else digest (namespace +++ "/" +++ name)
  end.

(** ** Booleans that [omitempty] dropped *)

(** [overlayBoolFields]: the decoded value (nil is [JNull]) with the bool fields of the Go value
    put back.  A struct with its own marshaler has no exported bool field. *)
Fixpoint overlayBoolFields (value : GoValue) (decoded : Json) : Json * bool :=
  let keep := (decoded, match decoded with JNull => false | _ => true end) in
  match value with
  | VNil | VPtr _ None | VIface None => keep
  | VPtr _ (Some x) => overlayBoolFields x decoded
  | VIface (Some x) => overlayBoolFields x decoded
  | VStruct _ fs =>
      let decodedMap := match decoded with JObj m => m | _ => [] end in
      let '(decodedMap, hasAny) :=
        (fix go (l : list (StructField * GoValue)) (decodedMap : GoMap Json) (hasAny : bool) : GoMap Json * bool :=
           match l with
           | [] => (decodedMap, hasAny)
           | (f, x) :: r =>
               if negb (sf_Exported f) then go r decodedMap hasAny
               else if sf_Anonymous f && embeddedJSONField f then
                 match overlayBoolFields x (JObj decodedMap) with
                 | (JObj embeddedMap, embeddedHasAny) =>
                     go r embeddedMap (match embeddedMap with [] => embeddedHasAny | _ => true end)
                 | _ => go r decodedMap hasAny
                 end
               else
                 let jsonName := fieldJSONName f in
                 if (jsonName =? "")%string then go r decodedMap hasAny
                 else match indirectValue x with
                      | Some (VBool b) => go r (map_set jsonName (JBool b) decodedMap) true
                      | Some (VStruct _ _) | Some (VOsok _) | Some (VMarshaler _ _) =>
                          let childDecoded := default JNull (map_get jsonName decodedMap) in
                          match overlayBoolFields x childDecoded with
                          | (child, true) => go r (map_set jsonName child decodedMap) true
                          | (_, false) => go r decodedMap hasAny
                          end
                      | _ => go r decodedMap hasAny
                      end
           end) fs decodedMap (match decodedMap with [] => false | _ => true end) in
      if hasAny then (JObj decodedMap, true) else (JNull, false)
  | VOsok _ | VMarshaler _ _ =>
      match decoded with
      | JObj (kv :: m) => (decoded, true)
      | _ => (JNull, false)
      end
  | _ => keep
  end.

Definition decodedJSONValueWithBoolFields (value : GoValue) : result Json GoError :=
  match decodedJSONValue value with
  | Err e => Err e
  | Ok decoded => Ok (fst (overlayBoolFields value decoded))
  end.

Definition mutationJSONMap (value : GoValue) : result (option (GoMap Json)) GoError :=
  match decodedJSONValueWithBoolFields value with
  | Err e => Err e
  | Ok (JObj m) => Ok (Some m)
  | Ok _ => Ok None
  end.

Definition meaningfulMutationValueByPath (value : GoValue) (path : string) : result (option Json) GoError :=
  match mutationJSONMap value with
  | Err e => Err e
  | Ok values => Ok (lookupMeaningfulValue values path)
  end.

(** ** Order of map entries *)

Lemma ascii_compare_spec a b : Ascii.compare a b = N.compare (N_of_ascii a) (N_of_ascii b).
Proof. done. Qed.

Lemma leb_trans s : forall t u, String.leb s t = true -> String.leb t u = true -> String.leb s u = true.
Proof.
  unfold String.leb. induction s as [|a s IH]; intros [|b t] [|c u]; simpl; try done.
  rewrite !ascii_compare_spec.
  destruct (N.compare_spec (N_of_ascii a) (N_of_ascii b)) as [E1|E1|E1]; [|..|done];
  destruct (N.compare_spec (N_of_ascii b) (N_of_ascii c)) as [E2|E2|E2]; try done;
  destruct (N.compare_spec (N_of_ascii a) (N_of_ascii c)) as [E3|E3|E3]; try done; try lia.
  apply IH.
Qed.

Section SortKeys.
Context {A : Type}.
Implicit Types (m : GoMap A) (kv : string * A).

Lemma leb_false_flip s t : String.leb s t = false -> String.leb t s = true.
Proof. intros H. destruct (String.leb_total s t) as [H'|]; [congruence|done]. Qed.

Lemma insert_key_comm kv kv' m :
  fst kv <> fst kv' -> insert_key kv (insert_key kv' m) = insert_key kv' (insert_key kv m).
Proof.
  intros Hne.
  assert (Hxor : String.leb (fst kv) (fst kv') = negb (String.leb (fst kv') (fst kv))).
  { destruct (String.leb (fst kv) (fst kv')) eqn:E1, (String.leb (fst kv') (fst kv)) eqn:E2; simpl; try done.
    - exfalso. apply Hne. by apply String.leb_antisym.
    - apply leb_false_flip in E1. congruence. }
  induction m as [|x m IH]; simpl.
  - rewrite Hxor. by destruct (String.leb (fst kv') (fst kv)).
  - destruct (String.leb (fst kv') (fst x)) eqn:E', (String.leb (fst kv) (fst x)) eqn:E; simpl; rewrite ?E, ?E'.
    + rewrite Hxor. by destruct (String.leb (fst kv') (fst kv)).
    + apply leb_false_flip in E. rewrite Hxor. by rewrite (leb_trans _ _ _ E' E).
    + apply leb_false_flip in E'. pose proof (leb_trans _ _ _ E E') as Ht. rewrite Hxor in Ht.
      apply negb_true_iff in Ht. by rewrite Ht.
    + by rewrite IH.
Qed.

Lemma sort_keys_perm m m' : NoDup (keys m) -> m ≡ₚ m' -> sort_keys m = sort_keys m'.
Proof.
  intros Hnd Hp. induction Hp as [|x m m' Hp IH|x y m|m m' m'' Hp IH Hp' IH']; simpl in *.
  - done.
  - apply NoDup_cons in Hnd as [_ Hnd]. by rewrite IH.
  - apply NoDup_cons in Hnd as [Hx _]. apply insert_key_comm. set_solver.
  - rewrite IH by done. apply IH'. unfold keys in *. by rewrite <-Hp.
Qed.
End SortKeys.

(** Two documents that differ only in the order of object entries. *)
Inductive reorder : Json -> Json -> Prop :=
| reorder_same j : reorder j j
| reorder_arr l l' : Forall2 reorder l l' -> reorder (JArr l) (JArr l')
| reorder_obj m m' m'' :
    Forall2 (fun a b => fst a = fst b /\ reorder (snd a) (snd b)) m m' -> m' ≡ₚ m'' ->
    reorder (JObj m) (JObj m'').

(** Keys are unique at every level: what a Go map guarantees ([unique_keys]), and unique after
    [normalizePathSegment] ([distinct_segments]). *)
Fixpoint keys_ok (p : list string -> bool) (j : Json) : bool :=
  match j with
  | JArr l => forallb (keys_ok p) l
  | JObj m => p (map fst m) && forallb (fun kv => keys_ok p (snd kv)) m
  | _ => true
  end.

Definition unique_keys : Json -> bool := keys_ok (fun ks => bool_decide (NoDup ks)).
Definition distinct_segments : Json -> bool :=
  keys_ok (fun ks => bool_decide (NoDup (map normalizePathSegment ks))).

Section JsonInd.
Context (P : Json -> Prop).
Context (HNull : P JNull) (HBool : forall b, P (JBool b)) (HNum : forall n, P (JNum n)) (HStr : forall s, P (JStr s))
  (HArr : forall l, Forall P l -> P (JArr l)) (HObj : forall m, Forall (fun kv => P (snd kv)) m -> P (JObj m)).

Fixpoint Json_ind' (j : Json) : P j :=
  match j with
  | JNull => HNull | JBool b => HBool b | JNum n => HNum n | JStr s => HStr s
  | JArr l => HArr l ((fix go (l : list Json) : Forall P l :=
      match l with [] => List.Forall_nil _ | x :: r => List.Forall_cons _ _ _ (Json_ind' x) (go r) end) l)
  | JObj m => HObj m ((fix go (m : GoMap Json) : Forall (fun kv => P (snd kv)) m :=
      match m with [] => List.Forall_nil _ | kv :: r => List.Forall_cons _ _ _ (Json_ind' (snd kv)) (go r) end) m)
  end.
End JsonInd.

Lemma json_eqb_eq a : forall b, json_eqb a b = true <-> a = b.
Proof.
  induction a as [|x|n|s|l IH|m IH] using Json_ind'; intros [|y|n'|s'|l'|m']; simpl; try (split; [done|congruence]).
  - rewrite Bool.eqb_true_iff. split; congruence.
  - rewrite bool_decide_eq_true. split; congruence.
  - rewrite String.eqb_eq. split; congruence.
  - transitivity (l = l'); [|split; congruence]. revert l'.
    induction IH as [|x l Hx _ IHl]; intros [|y l']; simpl; try (split; done).
    rewrite andb_true_iff, Hx, IHl. split; [by intros [-> ->]|by intros [= -> ->]].
  - transitivity (m = m'); [|split; congruence]. revert m'.
    induction IH as [|[k x] m Hx _ IHm]; intros [|[k' y] m']; simpl; try (split; done).
    rewrite !andb_true_iff, String.eqb_eq, Hx, IHm. simpl. split; [by intros [[-> ->] ->]|by intros [= -> -> ->]].
Qed.

(** [valuesEqual] is equality of canonical forms, hence an equivalence. *)
Lemma valuesEqual_spec a b : valuesEqual a b = true <-> canonical a = canonical b.
Proof. apply json_eqb_eq. Qed.

Lemma valuesEqual_refl a : valuesEqual a a = true.
Proof. by apply valuesEqual_spec. Qed.
#[export] Hint Resolve valuesEqual_refl : osok.

Lemma canonical_reorder a : forall b, unique_keys a = true -> reorder a b -> canonical a = canonical b.
Proof.
  unfold unique_keys.
  induction a as [|x|n|s|l IH|m IH] using Json_ind'; intros b Hu Hr; inversion Hr as [|l1 l' Hl|m1 m' m'' Hm Hp];
    subst; try done; simpl in *.
  - f_equal. clear Hr. revert Hu IH. induction Hl as [|x y l l' Hxy _ IHl]; intros Hu IH; simpl in *; [done|].
    apply andb_true_iff in Hu as [Hux Hul]. apply Forall_cons in IH as [Hx IH].
    f_equal; [by apply Hx|by apply IHl].
  - f_equal. apply andb_true_iff in Hu as [Hnd Hu]. apply bool_decide_eq_true in Hnd.
    assert (Hmap : map (fun kv => (fst kv, canonical (snd kv))) m = map (fun kv => (fst kv, canonical (snd kv))) m').
    { clear Hp Hr Hnd. revert Hu IH. induction Hm as [|[k x] [k' y] m m' [Hk Hxy] _ IHm]; intros Hu IH; simpl in *; [done|].
      apply andb_true_iff in Hu as [Hux Hul]. apply Forall_cons in IH as [Hx IH]. simpl in *. subst k'.
      f_equal; [by rewrite (Hx y)|by apply IHm]. }
    rewrite Hmap. apply sort_keys_perm; [|by apply fmap_Permutation].
    unfold keys. rewrite <-Hmap, map_map. simpl. exact Hnd.
Qed.

(** [valuesEqual] compares what [json.Marshal] prints, so it does not
    depend on the iteration order of Go maps: reordering entries at any depth of
    either value never changes the verdict, and the relation is an equivalence. *)
Theorem valuesEqual_order_independent (a a' b b' : Json)
  (ua : unique_keys a = true) (ub : unique_keys b = true) (ra : reorder a a') (rb : reorder b b') :
  valuesEqual a b = valuesEqual a' b' /\ valuesEqual a a' = true /\ valuesEqual a b = valuesEqual b a.
Proof.
  apply canonical_reorder in ra; [|done]. apply canonical_reorder in rb; [|done].
  unfold valuesEqual. rewrite <-ra, <-rb. split_and!; [done|by apply json_eqb_eq|].
  apply eq_true_iff_eq. rewrite !json_eqb_eq. split; congruence.
Qed.

Lemma valuesEqual_order_independent_witness :
  valuesEqual (JObj [("a", JNull); ("b", JBool true)]) (JObj [("b", JBool true); ("a", JNull)]) = true.
Proof.
  apply (valuesEqual_order_independent (JObj [("a", JNull); ("b", JBool true)]) _ JNull JNull);
    [vm_compute; reflexivity..| |apply reorder_same].
  eapply reorder_obj; [|apply Permutation_swap].
  repeat constructor.
Defined.

(** ** Lookups *)

(** [lookupMapKey] after reordering, with distinct normalised keys. *)
Lemma lookupMapKey_reorder m m' m'' s :
  NoDup (map normalizePathSegment (map fst m)) ->
  Forall2 (fun a b => fst a = fst b /\ reorder (snd a) (snd b)) m m' -> m' ≡ₚ m'' ->
  match lookupMapKey m s, lookupMapKey m'' s with
  | Some x, Some y => reorder x y
  | None, None => True
  | _, _ => False
  end.
Proof.
  intros Hnd Hm Hp.
  assert (Hfind : forall p : string -> bool, (forall a b, p a = true -> p b = true -> normalizePathSegment a = normalizePathSegment b) ->
    match find_first (fun kv => p (fst kv)) m, find_first (fun kv => p (fst kv)) m'' with
    | Some (k, x), Some (k', y) => k = k' /\ reorder x y
    | None, None => True
    | _, _ => False
    end).
  { intros p Hpk.
    assert (Hperm : find_first (fun kv : string * Json => p (fst kv)) m' = find_first (fun kv => p (fst kv)) m'').
    { apply find_first_perm; [|done]. intros [k x] [k' y] Hx Hy Px Py. simpl in *.
      assert (Hk : map fst m = map fst m') by (clear -Hm; induction Hm as [|a b ? ? [? ?]]; simpl; congruence).
      rewrite Hk in Hnd. eapply (NoDup_fmap_inv_elem (fun kv => normalizePathSegment (fst kv)) m'); eauto.
      by rewrite <-map_map. }
    rewrite <-Hperm. clear -Hm. induction Hm as [|[k x] [k' y] m m' [Hk Hr] _ IH]; simpl in *; [done|].
    subst k'. by destruct (p k). }
  unfold lookupMapKey, map_get.
  pose proof (Hfind (fun k => (k =? s)%string)) as H1.
  pose proof (Hfind (fun k => (normalizePathSegment k =? normalizePathSegment s)%string)) as H2.
  assert (E1 : forall a b, (a =? s)%string = true -> (b =? s)%string = true ->
    normalizePathSegment a = normalizePathSegment b) by (intros ? ? ?%String.eqb_eq ?%String.eqb_eq; congruence).
  assert (E2 : forall a b, (normalizePathSegment a =? normalizePathSegment s)%string = true ->
    (normalizePathSegment b =? normalizePathSegment s)%string = true ->
    normalizePathSegment a = normalizePathSegment b) by (intros ? ? ?%String.eqb_eq ?%String.eqb_eq; congruence).
  specialize (H1 E1). specialize (H2 E2). clear E1 E2.
  destruct (find_first (fun kv => (fst kv =? s)%string) m) as [[? ?]|],
    (find_first (fun kv => (fst kv =? s)%string) m'') as [[? ?]|]; simpl in *; try done; [by destruct H1|].
  destruct (find_first _ m) as [[? ?]|], (find_first _ m'') as [[? ?]|]; simpl in *; try done. by destruct H2.
Qed.

Lemma keys_ok_obj p m : keys_ok p (JObj m) = true ->
  p (map fst m) = true /\ forall k x, (k, x) ∈ m -> keys_ok p x = true.
Proof.
  simpl. rewrite andb_true_iff, forallb_forall. intros [Hp Hm]. split; [done|].
  intros k x Hin%list_elem_of_In. apply (Hm _ Hin).
Qed.

Lemma lookupMapKey_elem m s x : lookupMapKey m s = Some x -> exists k, (k, x) ∈ m.
Proof.
  unfold lookupMapKey. destruct (map_get s m) as [y|] eqn:E.
  - intros [= <-]. exists s. by apply map_get_Some_elem.
  - destruct (find_first _ m) as [[k y]|] eqn:E'; simpl; [|done]. intros [= <-].
    apply find_first_Some in E' as [? _]. by exists k.
Qed.

Lemma lookup_segments_reorder segs : forall a b,
  distinct_segments a = true -> reorder a b ->
  match lookup_segments a segs, lookup_segments b segs with
  | Some x, Some y => reorder x y
  | None, None => True
  | _, _ => False
  end.
Proof.
  induction segs as [|s segs IH]; intros a b Hd Hr; simpl; [done|].
  destruct (TrimSpace s =? "")%string; [done|].
  inversion Hr as [j|l l' Hl|m m' m'' Hm Hp]; subst; [|done|].
  - destruct b as [| | | | |m]; try done.
    destruct (lookupMapKey m (TrimSpace s)) as [x|] eqn:E; [|done].
    apply lookupMapKey_elem in E as [k Hin]. apply keys_ok_obj in Hd as [_ Hd].
    apply IH; [by eapply Hd|apply reorder_same].
  - apply keys_ok_obj in Hd as [Hnd Hd]. apply bool_decide_eq_true in Hnd.
    pose proof (lookupMapKey_reorder m m' m'' (TrimSpace s) Hnd Hm Hp) as Hk.
    destruct (lookupMapKey m (TrimSpace s)) as [x|] eqn:E, (lookupMapKey m'' (TrimSpace s)) as [y|]; try done.
    apply lookupMapKey_elem in E as [k Hin]. apply IH; [by eapply Hd|done].
Qed.

(** Path lookups do not depend on map iteration order: when no two keys of
    one object are equal after normalisation (case, blanks and the gbs suffix
    folded), looking up any list of segments in a document and in a reordering of
    it finds values that again differ only in order, or fails in both. *)
Theorem lookup_order_independent (values values' : GoMap Json) (segments : list string)
  (distinct : distinct_segments (JObj values) = true) (same : reorder (JObj values) (JObj values')) :
  match lookupValueBySegments values segments, lookupValueBySegments values' segments with
  | Some x, Some y => reorder x y
  | None, None => True
  | _, _ => False
  end.
Proof. by apply lookup_segments_reorder. Qed.

Lemma lookup_order_independent_witness :
  match lookupValueBySegments [("Size", JNull); ("displayName", JStr "n")] ["DISPLAYNAME"],
        lookupValueBySegments [("displayName", JStr "n"); ("Size", JNull)] ["DISPLAYNAME"] with
  | Some x, Some y => reorder x y
  | None, None => True
  | _, _ => False
  end.
Proof.
  apply (lookup_order_independent [("Size", JNull); ("displayName", JStr "n")]
           [("displayName", JStr "n"); ("Size", JNull)] ["DISPLAYNAME"]); [reflexivity|].
  eapply reorder_obj; [|apply Permutation_swap]. repeat constructor.
Defined.

(** Two keys that only differ in case make the lookup depend on the
    iteration order of the Go map: both values are possible. *)
Theorem colliding_keys_nondeterministic (x y : Json) (distinct : x <> y) :
  exists m m', m ≡ₚ m' /\ NoDup (keys m) /\
    lookupValueBySegments m ["sizeInGBs"] = Some x /\ lookupValueBySegments m' ["sizeInGBs"] = Some y.
Proof.
  exists [("SizeInGB", x); ("SIZEINGB", y)], [("SIZEINGB", y); ("SizeInGB", x)].
  split_and!; [apply Permutation_swap| |reflexivity|reflexivity].
  repeat constructor; set_solver.
Qed.

Lemma colliding_keys_nondeterministic_witness :
  exists m m', m ≡ₚ m' /\ NoDup (keys m) /\
    lookupValueBySegments m ["sizeInGBs"] = Some (JBool true) /\
    lookupValueBySegments m' ["sizeInGBs"] = Some (JBool false).
Proof. apply (colliding_keys_nondeterministic (JBool true) (JBool false)). intros H. discriminate H. Defined.

(** ** Writes *)

Lemma lookupMapKey_set_eq m s v : lookupMapKey (map_set s v m) s = Some v.
Proof. unfold lookupMapKey. by rewrite map_get_set_eq. Qed.

Lemma lookup_set_segments segs : forall m v, segs <> [] ->
  forallb (fun s => negb (TrimSpace s =? "")%string) segs = true ->
  lookup_segments (JObj (set_segments m segs v)) segs = Some v.
Proof.
  induction segs as [|s segs IH]; intros m v Hne Hb; [done|]. cbn [forallb] in Hb. apply andb_true_iff in Hb as [Hs Hb].
  apply negb_true_iff in Hs. cbn [set_segments lookup_segments]. rewrite Hs.
  destruct segs as [|s' segs].
  - by rewrite lookupMapKey_set_eq.
  - rewrite lookupMapKey_set_eq. by apply IH.
Qed.

(** Write then read: after [setValueByPath] with a path whose segments are
    all non-blank and whose first segment is not a root prefix (spec, status),
    [lookupValueByPath] of the same path returns the written value, whatever was
    there before (objects on the way are kept, other values replaced). *)
Theorem set_lookup_round_trip (values : GoMap Json) (path : string) (v : Json)
  (segments_ok : forallb (fun s => negb (TrimSpace s =? "")%string) (Split (TrimSpace path) ".") = true)
  (not_root : (normalizePathSegment (hd "" (Split (TrimSpace path) ".")) =? "spec")%string = false /\
              (normalizePathSegment (hd "" (Split (TrimSpace path) ".")) =? "status")%string = false) :
  lookupValueByPath (Some (setValueByPath values path v)) path = Some v.
Proof.
  unfold lookupValueByPath, setValueByPath.
  destruct (TrimSpace path =? "")%string eqn:E.
  { apply String.eqb_eq in E. rewrite E in segments_ok. done. }
  pose proof (Split_not_nil (TrimSpace path) ".") as Hne.
  destruct (Split (TrimSpace path) ".") as [|s segs]; [done|]. unfold lookupRootScopedValue.
  simpl in not_root. destruct not_root as [-> ->]. by apply lookup_set_segments.
Qed.

Lemma set_lookup_round_trip_witness :
  lookupValueByPath (Some (setValueByPath [("a", JNull)] "a.b" (JBool true))) "a.b" = Some (JBool true).
Proof. apply (set_lookup_round_trip [("a", JNull)] "a.b" (JBool true)); vm_compute; auto. Defined.
