(* ===== verification/Semantics.v ===== *)
(** * Formal semantics of a generated resource and their validation

    The configuration records of [pkg/servicemanager/generatedruntime/types.go],
    [validateFormalSemantics] with its problem lists, and the checks of
    [workrequest_async.go] on the work-request hooks.  The two loops of the source
    that range over a map literal (follow-ups, legacy bridge fields) run here in
    the order create, update, delete. *)

From S2P Require Import Prelude GoStrings Shared GoErrors GoValue AsyncStatus JsonValues.
Local Open Scope string_scope.
Local Open Scope list_scope.
Local Open Scope go_scope.

(** ** Constants and records *)

Definition defaultRequeueDuration : Duration := Minute.
Definition asyncStrategyLifecycle := "lifecycle".
Definition asyncStrategyNone := "none".
Definition asyncStrategyWorkRequest := "workrequest".
Definition asyncRuntimeGeneratedRuntime := "generatedruntime".
Definition asyncRuntimeHandwritten := "handwritten".
Definition asyncWorkRequestSourceServiceSDK := "service-sdk".
Definition asyncWorkRequestSourceWorkRequestsAPI := "workrequests-service".
Definition asyncWorkRequestSourceProviderHelper := "provider-helper".
Definition asyncPhaseCreate := "create".
Definition asyncPhaseUpdate := "update".
Definition asyncPhaseDelete := "delete".

Record Hook := mkHook { Helper : string; EntityType : string; hook_Action : string }.

Record WorkRequestLegacyFieldBridge := mkFieldBridge { fb_Create : string; fb_Update : string; fb_Delete : string }.

Record WorkRequestSemantics := mkWorkRequestSemantics {
  wr_Source : string;
  wr_Phases : list string;
  LegacyFieldBridge : option WorkRequestLegacyFieldBridge
}.

Record AsyncSemantics := mkAsyncSemantics {
  Strategy : string;
  Runtime : string;
  FormalClassification : string;
  WorkRequest : option WorkRequestSemantics
}.

Record FollowUpSemantics := mkFollowUp { fu_Strategy : string; fu_Hooks : list Hook }.
Record HookSet := mkHookSet { hs_Create : list Hook; hs_Update : list Hook; hs_Delete : list Hook }.
Record LifecycleSemantics := mkLifecycle {
  ProvisioningStates : list string; UpdatingStates : list string; ActiveStates : list string
}.
Record DeleteSemantics := mkDeleteSemantics {
  Policy : string; PendingStates : list string; TerminalStates : list string
}.
Record ListSemantics := mkListSemantics { ResponseItemsField : string; MatchFields : list string }.
Record MutationSemantics := mkMutation {
  UpdateCandidate : list string;
  Mutable : list string;
  ForceNew : list string;
  ConflictsWith : GoMap (list string)
}.
Record AuxiliaryOperation := mkAuxiliary {
  aux_Phase : string; MethodName : string; RequestTypeName : string; ResponseTypeName : string
}.
Record UnsupportedSemantic := mkUnsupported { Category : string; StopCondition : string }.

Record Semantics := mkSemantics {
  FormalService : string;
  FormalSlug : string;
  sem_Async : option AsyncSemantics;
  StatusProjection : string;
  SecretSideEffects : string;
  FinalizerPolicy : string;
  Lifecycle : LifecycleSemantics;
  sem_Delete : DeleteSemantics;
  sem_List : option ListSemantics;
  Mutation : MutationSemantics;
  Hooks : HookSet;
  CreateFollowUp : FollowUpSemantics;
  UpdateFollowUp : FollowUpSemantics;
  DeleteFollowUp : FollowUpSemantics;
  AuxiliaryOperations : list AuxiliaryOperation;
  Unsupported : list UnsupportedSemantic
}.

(** ** Validation *)

Definition unsupportedFormalProblems (s : Semantics) : list string :=
  map (fun gap => "open formal gap " +++ Category gap +++ ": " +++ StopCondition gap) (Unsupported s).

Definition unsupportedAuxiliaryProblems (s : Semantics) : list string :=
  map (fun operation => "unsupported " +++ aux_Phase operation +++ " auxiliary operation " +++ MethodName operation)
    (AuxiliaryOperations s).

Definition supportedFormalHelper (helper : string) : bool :=
  containsString ["" ; "tfresource.CreateResource"; "tfresource.UpdateResource"; "tfresource.DeleteResource";
                  "tfresource.WaitForUpdatedState"; "tfresource.WaitForWorkRequestWithErrorHandling"]
    (TrimSpace helper).

Definition unsupportedFollowUpHelpers (s : Semantics) : list string :=
  flat_map (fun '(phase, followUp) =>
    flat_map (fun hook =>
      if negb (supportedFormalHelper (Helper hook))
      then [phase +++ " helper " +++ Quote (Helper hook) +++ " is not supported"] else [])
      (fu_Hooks followUp))
    [("create", CreateFollowUp s); ("update", UpdateFollowUp s); ("delete", DeleteFollowUp s)].

Definition hasWorkRequestHelper (s : Semantics) : bool :=
  existsb (existsb (fun hook => (TrimSpace (Helper hook) =? "tfresource.WaitForWorkRequestWithErrorHandling")%string))
    [hs_Create (Hooks s); hs_Update (Hooks s); hs_Delete (Hooks s);
     fu_Hooks (CreateFollowUp s); fu_Hooks (UpdateFollowUp s); fu_Hooks (DeleteFollowUp s)].

Definition hasWorkRequestSemantics (workRequest : option WorkRequestSemantics) : bool :=
  match workRequest with
  | None => false
  | Some w =>
      if negb (TrimSpace (wr_Source w) =? "")%string || negb (length (wr_Phases w) =? 0)%nat then true
      else match LegacyFieldBridge w with
           | None => false
           | Some b => negb (TrimSpace (fb_Create b) =? "")%string || negb (TrimSpace (fb_Update b) =? "")%string
                       || negb (TrimSpace (fb_Delete b) =? "")%string
           end
  end.

Definition hasExplicitAsyncContract (async : option AsyncSemantics) : bool :=
  match async with
  | None => false
  | Some a =>
      negb (TrimSpace (Strategy a) =? "")%string || negb (TrimSpace (Runtime a) =? "")%string
      || negb (TrimSpace (FormalClassification a) =? "")%string || hasWorkRequestSemantics (WorkRequest a)
  end.

Definition invalidAsyncStrategyProblems (field strategy : string) : list string :=
  if containsString [""; asyncStrategyLifecycle; asyncStrategyWorkRequest; asyncStrategyNone] strategy then []
  else [field +++ " " +++ Quote strategy +++ " must be one of " +++ Quote asyncStrategyLifecycle +++ ", "
        +++ Quote asyncStrategyWorkRequest +++ ", or " +++ Quote asyncStrategyNone].

Definition invalidAsyncRuntimeProblems (field runtime : string) : list string :=
  if containsString [""; asyncRuntimeGeneratedRuntime; asyncRuntimeHandwritten] runtime then []
  else [field +++ " " +++ Quote runtime +++ " must be one of " +++ Quote asyncRuntimeGeneratedRuntime +++ " or "
        +++ Quote asyncRuntimeHandwritten].

(** The loop over [workRequest.Phases]; [seen] are the valid phases met so far. *)
Fixpoint phase_problems (index : nat) (seen : list string) (phases : list string) : list string :=
  match phases with
  | [] => []
  | rawPhase :: r =>
      let phase := TrimSpace rawPhase in
      if (phase =? "")%string then
        ("async.workRequest.phases[" +++ Itoa (Z.of_nat index) +++ "] must not be blank") :: phase_problems (S index) seen r
      else if negb (containsString [asyncPhaseCreate; asyncPhaseUpdate; asyncPhaseDelete] phase) then
        ("async.workRequest.phases[" +++ Itoa (Z.of_nat index) +++ "] " +++ Quote rawPhase +++ " must be one of "
         +++ Quote asyncPhaseCreate +++ ", " +++ Quote asyncPhaseUpdate +++ ", or " +++ Quote asyncPhaseDelete)
        :: phase_problems (S index) seen r
      else if containsString seen phase then
        ("async.workRequest.phases contains duplicate phase " +++ Quote phase) :: phase_problems (S index) seen r
      else phase_problems (S index) (phase :: seen) r
  end.

Definition invalidAsyncWorkRequestProblems (workRequest : option WorkRequestSemantics) : list string :=
  match workRequest with
  | None => []
  | Some w =>
      let source := TrimSpace (wr_Source w) in
      (if negb (source =? "")%string &&
          negb (containsString [asyncWorkRequestSourceServiceSDK; asyncWorkRequestSourceWorkRequestsAPI;
                                asyncWorkRequestSourceProviderHelper] source)
       then ["async.workRequest.source " +++ Quote (wr_Source w) +++ " must be one of "
             +++ Quote asyncWorkRequestSourceServiceSDK +++ ", " +++ Quote asyncWorkRequestSourceWorkRequestsAPI
             +++ ", or " +++ Quote asyncWorkRequestSourceProviderHelper]
       else [])
      ++ phase_problems 0 [] (wr_Phases w)
      ++ match LegacyFieldBridge w with
         | None => []
         | Some b =>
             flat_map (fun '(subfield, value) =>
               if (value =? "")%string then []
               else if (TrimSpace value =? "")%string
               then ["async.workRequest.legacyFieldBridge." +++ subfield +++ " must not be blank"] else [])
               [("create", fb_Create b); ("update", fb_Update b); ("delete", fb_Delete b)]
         end
  end.

Definition helper_problem : string :=
  "workrequest helper requires explicit async strategy " +++ Quote asyncStrategyWorkRequest.
Definition metadata_problem : string :=
  "workRequest metadata requires strategy " +++ Quote asyncStrategyWorkRequest.

Definition invalidAsyncSemanticsProblems (s : Semantics) : list string :=
  match sem_Async s with
  | None => if hasWorkRequestHelper s then [helper_problem] else []
  | Some async =>
      let strategy := TrimSpace (Strategy async) in
      let runtime := TrimSpace (Runtime async) in
      let formalClassification := TrimSpace (FormalClassification async) in
      let problems :=
        invalidAsyncStrategyProblems "async.strategy" strategy
        ++ invalidAsyncRuntimeProblems "async.runtime" runtime
        ++ invalidAsyncStrategyProblems "async.formalClassification" formalClassification
        ++ invalidAsyncWorkRequestProblems (WorkRequest async) in
      if negb (hasExplicitAsyncContract (Some async)) then
        problems ++ (if hasWorkRequestHelper s then [helper_problem] else [])
      else
        let problems := problems
          ++ (if (strategy =? "")%string then ["explicit async semantics require strategy"] else [])
          ++ (if (runtime =? "")%string then ["explicit async semantics require runtime"] else [])
          ++ (if (runtime =? asyncRuntimeHandwritten)%string
              then ["generatedruntime cannot honor explicit async runtime " +++ Quote runtime] else []) in
        let workRequestConfigured := hasWorkRequestSemantics (WorkRequest async) in
        let problems := problems ++
          (if (strategy =? asyncStrategyWorkRequest)%string then
             match WorkRequest async with
             | Some w =>
                 if negb workRequestConfigured then ["workrequest async semantics require workRequest metadata"]
                 else (if (TrimSpace (wr_Source w) =? "")%string
                       then ["workrequest async semantics require workRequest.source"] else [])
                      ++ (if (length (wr_Phases w) =? 0)%nat
                          then ["workrequest async semantics require workRequest.phases"] else [])
             | None => ["workrequest async semantics require workRequest metadata"]
             end
           else if workRequestConfigured then [metadata_problem] else []) in
        problems ++ (if negb (strategy =? asyncStrategyWorkRequest)%string && hasWorkRequestHelper s
                     then [helper_problem] else [])
  end.

Definition invalidListSemanticsProblems (s : Semantics) : list string :=
  match sem_List s with
  | None => []
  | Some l => if negb (TrimSpace (ResponseItemsField l) =? "")%string then []
              else ["list semantics require responseItemsField"]
  end.

Definition invalidDeleteSemanticsProblems (s : Semantics) : list string :=
  if negb (Policy (sem_Delete s) =? "required")%string || negb (length (TerminalStates (sem_Delete s)) =? 0)%nat
  then [] else ["required delete semantics need terminal states"].

Definition formal_problems (s : Semantics) : list string :=
  unsupportedFormalProblems s ++ unsupportedAuxiliaryProblems s ++ unsupportedFollowUpHelpers s
  ++ invalidAsyncSemanticsProblems s ++ invalidListSemanticsProblems s ++ invalidDeleteSemanticsProblems s.

Definition validateFormalSemantics (kind : string) (semantics : option Semantics) : option GoError :=
  match semantics with
  | None => None
  | Some s =>
      match formal_problems s with
      | [] => None
      | problems => Some (ErrText (kind +++ " formal semantics blocked: " +++ Join problems "; "))
      end
  end.

(** ** Work-request configuration ([workrequest_async.go]) *)

Definition generatedWorkRequestSemantics (semantics : option Semantics) : option WorkRequestSemantics :=
  match semantics with
  | None => None
  | Some s =>
      match sem_Async s with
      | None => None
      | Some async =>
          if negb (TrimSpace (Strategy async) =? asyncStrategyWorkRequest)%string
             || negb (TrimSpace (Runtime async) =? asyncRuntimeGeneratedRuntime)%string
          then None else WorkRequest async
      end
  end.

Definition generatedWorkRequestAsyncEnabled (semantics : option Semantics) : bool :=
  match generatedWorkRequestSemantics semantics with Some _ => true | None => false end.

Definition workRequestLegacyBridge (semantics : option Semantics) : WorkRequestLegacyBridge :=
  match generatedWorkRequestSemantics semantics with
  | Some w =>
      match LegacyFieldBridge w with
      | Some b => mkBridge (fb_Create b) (fb_Update b) (fb_Delete b)
      | None => mkBridge "" "" ""
      end
  | None => mkBridge "" "" ""
  end.

Definition generatedWorkRequestPhaseEnabled (semantics : option Semantics) (phase : OSOKAsyncPhase) : bool :=
  match generatedWorkRequestSemantics semantics with
  | None => false
  | Some w => if (phase =? "")%string then false
              else existsb (fun rawPhase => (TrimSpace rawPhase =? phase)%string) (wr_Phases w)
  end.

Definition defaultConfiguredWorkRequestPhase (semantics : option Semantics) : OSOKAsyncPhase :=
  match generatedWorkRequestSemantics semantics with
  | Some w => match wr_Phases w with [p] => TrimSpace p | _ => "" end
  | None => ""
  end.

(** [validateGeneratedWorkRequestAsyncHooks]; [hasGetWorkRequest] is [cfg.Async.GetWorkRequest != nil]. *)
Definition validateGeneratedWorkRequestAsyncHooks (kind : string) (semantics : option Semantics)
  (hasGetWorkRequest : bool) : option GoError :=
  match semantics with
  | None => None
  | Some s =>
      match sem_Async s with
      | None => None
      | Some async =>
          if negb (TrimSpace (Strategy async) =? asyncStrategyWorkRequest)%string
             || negb (TrimSpace (Runtime async) =? asyncRuntimeGeneratedRuntime)%string
          then None
          else if hasGetWorkRequest then None
          else Some (ErrText (kind +++ " workrequest async hooks blocked: "
                              +++ "workrequest async semantics require Async.GetWorkRequest"))
      end
  end.

(** The [InitError] of [NewServiceClient]. *)
Definition NewServiceClient_InitError (kind : string) (initError : option GoError) (semantics : option Semantics)
  (hasGetWorkRequest : bool) : option GoError :=
  let initError := match validateFormalSemantics kind semantics with
                   | Some e => errors_Join initError (Some e)
                   | None => initError
                   end in
  match validateGeneratedWorkRequestAsyncHooks kind semantics hasGetWorkRequest with
  | Some e => errors_Join initError (Some e)
  | None => initError
  end.

(** ** What validation guarantees *)

Lemma validate_None kind s : validateFormalSemantics kind (Some s) = None <-> formal_problems s = [].
Proof. simpl. by destruct (formal_problems s). Qed.

Lemma if_nil {A} (b : bool) (x : A) (l : list A) : (if b then [] else x :: l) = [] <-> b = true.
Proof. by destruct b. Qed.
Lemma if_nil' {A} (b : bool) (x : A) (l : list A) : (if b then x :: l else []) = [] <-> b = false.
Proof. by destruct b. Qed.

Lemma containsString_In l s : containsString l s = true <-> s ∈ l.
Proof.
  unfold containsString. rewrite existsb_In. split; [by intros (x & Hx & ->%String.eqb_eq)|].
  intros H. exists s. by rewrite String.eqb_refl.
Qed.

Lemma phase_problems_nil phases : forall index seen, phase_problems index seen phases = [] ->
  Forall (fun p => TrimSpace p ∈ [asyncPhaseCreate; asyncPhaseUpdate; asyncPhaseDelete]) phases /\
  NoDup (map TrimSpace phases) /\ Forall (fun p => TrimSpace p ∉ seen) phases.
Proof.
  induction phases as [|p phases IH]; intros index seen; cbn [phase_problems]; [intros _; repeat constructor|].
  destruct (TrimSpace p =? "")%string; [done|].
  destruct (containsString [asyncPhaseCreate; asyncPhaseUpdate; asyncPhaseDelete] (TrimSpace p)) eqn:Ek; [|done].
  cbn [negb]. cbn iota.
  destruct (containsString seen (TrimSpace p)) eqn:Es; [done|].
  intros (H1 & H2 & H3)%IH. apply containsString_In in Ek.
  assert (Hs : TrimSpace p ∉ seen) by (rewrite <-containsString_In; congruence).
  split_and!.
  - by constructor.
  - constructor; [|done]. intros (q & Hq & Hin)%list_elem_of_fmap.
    rewrite Forall_forall in H3. apply (H3 q Hin). rewrite Hq. set_solver.
  - constructor; [done|]. eapply Forall_impl; [exact H3|]. simpl. set_solver.
Qed.

Lemma followUp_supported s : unsupportedFollowUpHelpers s = [] ->
  forall f h, f ∈ [CreateFollowUp s; UpdateFollowUp s; DeleteFollowUp s] -> h ∈ fu_Hooks f ->
    supportedFormalHelper (Helper h) = true.
Proof.
  intros H f h Hf Hh. apply not_false_iff_true. intros Hn.
  assert (Hin : forall phase, (phase, f) ∈ [("create", CreateFollowUp s); ("update", UpdateFollowUp s); ("delete", DeleteFollowUp s)] -> False).
  { intros phase Hp. unfold unsupportedFollowUpHelpers in H.
    assert (Hx : In (phase +++ " helper " +++ Quote (Helper h) +++ " is not supported") []); [|done].
    rewrite <-H. apply in_flat_map. exists (phase, f). split; [by apply list_elem_of_In|].
    apply in_flat_map. exists h. split; [by apply list_elem_of_In|]. rewrite Hn. by left. }
  rewrite !elem_of_cons in Hf. destruct Hf as [->|[->|[->|?]]].
  - apply (Hin "create"). set_solver.
  - apply (Hin "update"). set_solver.
  - apply (Hin "delete"). set_solver.
  - set_solver.
Qed.

Lemma async_problems_work_request s async :
  sem_Async s = Some async -> invalidAsyncSemanticsProblems s = [] ->
  (hasWorkRequestHelper s = true -> TrimSpace (Strategy async) = asyncStrategyWorkRequest) /\
  (TrimSpace (Strategy async) = asyncStrategyWorkRequest ->
     TrimSpace (Runtime async) = asyncRuntimeGeneratedRuntime /\
     exists w, WorkRequest async = Some w /\ wr_Phases w <> [] /\ TrimSpace (wr_Source w) <> "" /\
       invalidAsyncWorkRequestProblems (Some w) = []).
Proof.
  intros Ha. unfold invalidAsyncSemanticsProblems. rewrite Ha.
  destruct (hasExplicitAsyncContract (Some async)) eqn:Ex; simpl negb; cbn iota.
  - intros H. apply app_eq_nil in H as [H Hhelper]. apply app_eq_nil in H as [H Hswitch].
    apply app_eq_nil in H as [Hbase H]. apply app_eq_nil in H as [_ H]. apply app_eq_nil in H as [Hrt Hhand].
    apply app_eq_nil in Hbase as [_ Hbase]. apply app_eq_nil in Hbase as [Hrp Hbase].
    apply app_eq_nil in Hbase as [_ Hwr].
    apply if_nil' in Hrt, Hhand, Hhelper. split.
    + intros Hh. rewrite Hh, andb_true_r in Hhelper. by bool_prop.
    + intros Hs. rewrite Hs in Hswitch. simpl in Hswitch. split.
      * unfold invalidAsyncRuntimeProblems in Hrp. apply if_nil, containsString_In in Hrp. bool_prop. set_solver.
      * destruct (WorkRequest async) as [w|]; [|done]. destruct (hasWorkRequestSemantics (Some w)); [|done].
        cbn [negb] in Hswitch. cbn iota in Hswitch. apply app_eq_nil in Hswitch as [H1 H2].
        apply if_nil' in H1, H2. exists w. split_and!; try done.
        -- intros E. by rewrite E in H2.
        -- by apply String.eqb_neq.
  - intros H. apply app_eq_nil in H as [_ Hhelper]. apply if_nil' in Hhelper. split; [congruence|].
    intros Hs. exfalso. unfold hasExplicitAsyncContract in Ex. rewrite Hs in Ex. done.
Qed.

(** Semantics that [validateFormalSemantics] accepts can be honoured: there
    is no open gap and no auxiliary operation, every follow-up helper is known, a
    required delete has terminal states, and wherever a work-request helper or
    the work-request strategy occurs, the generated work-request runtime is
    enabled with a non-empty, duplicate-free list of create, update, delete
    phases. *)
Theorem accepted_semantics_honoured (kind : string) (s : Semantics)
  (accepted : validateFormalSemantics kind (Some s) = None) :
  Unsupported s = [] /\ AuxiliaryOperations s = [] /\
  (forall f h, f ∈ [CreateFollowUp s; UpdateFollowUp s; DeleteFollowUp s] -> h ∈ fu_Hooks f ->
     supportedFormalHelper (Helper h) = true) /\
  (Policy (sem_Delete s) = "required" -> TerminalStates (sem_Delete s) <> []) /\
  (hasWorkRequestHelper s = true -> generatedWorkRequestAsyncEnabled (Some s) = true) /\
  (forall w, generatedWorkRequestSemantics (Some s) = Some w ->
     wr_Phases w <> [] /\ NoDup (map TrimSpace (wr_Phases w)) /\
     Forall (fun p => TrimSpace p ∈ [asyncPhaseCreate; asyncPhaseUpdate; asyncPhaseDelete]) (wr_Phases w)).
Proof.
  apply validate_None in accepted. unfold formal_problems in accepted.
  apply app_eq_nil in accepted as [Hun accepted]. apply app_eq_nil in accepted as [Haux accepted].
  apply app_eq_nil in accepted as [Hfu accepted]. apply app_eq_nil in accepted as [Has accepted].
  apply app_eq_nil in accepted as [_ Hdel]. split_and!.
  - by apply map_eq_nil in Hun.
  - by apply map_eq_nil in Haux.
  - by apply followUp_supported.
  - unfold invalidDeleteSemanticsProblems in Hdel. intros Hp Ht. by rewrite Hp, Ht in Hdel.
  - intros Hh. unfold generatedWorkRequestAsyncEnabled, generatedWorkRequestSemantics.
    destruct (sem_Async s) as [a|] eqn:Ea.
    + destruct (async_problems_work_request s a Ea Has) as [H1 H2]. destruct (H2 (H1 Hh)) as (Hr & w & Hw & _).
      rewrite (H1 Hh), Hr, Hw. done.
    + unfold invalidAsyncSemanticsProblems in Has. by rewrite Ea, Hh in Has.
  - intros w. unfold generatedWorkRequestSemantics. destruct (sem_Async s) as [a|] eqn:Ea; [|done].
    destruct (negb _ || negb _) eqn:E; [done|]. bool_prop. intros Hw.
    destruct (async_problems_work_request s a Ea Has) as [_ H2]. destruct (H2 H) as (_ & w' & Hw' & Hne & _ & Hp).
    simplify_eq. apply app_eq_nil in Hp as [_ Hp]. apply app_eq_nil in Hp as [Hp _].
    apply phase_problems_nil in Hp as (H3 & H4 & _). done.
Qed.

Definition sample_semantics : Semantics :=
  mkSemantics "queue" "queue"
    (Some (mkAsyncSemantics "workrequest" "generatedruntime" "workrequest"
             (Some (mkWorkRequestSemantics "service-sdk" ["create"; "update"; "delete"] None))))
    "" "" "" (mkLifecycle ["CREATING"] ["UPDATING"] ["ACTIVE"]) (mkDeleteSemantics "required" ["DELETING"] ["DELETED"])
    None (mkMutation [] ["displayName"] ["compartmentId"] []) (mkHookSet [] [] [])
    (mkFollowUp "" [mkHook "tfresource.WaitForWorkRequestWithErrorHandling" "" ""])
    (mkFollowUp "" []) (mkFollowUp "" []) [] [].

Lemma accepted_semantics_honoured_witness :
  hasWorkRequestHelper sample_semantics = true /\ generatedWorkRequestAsyncEnabled (Some sample_semantics) = true.
Proof.
  split; [reflexivity|]. apply (accepted_semantics_honoured "Queue" sample_semantics); vm_compute; reflexivity.
Defined.
