(* ===== verification/SpecResolution.v ===== *)
(** * Secret-backed specs ([pkg/servicemanager/generatedruntime/secrets.go])

    [rewriteSecretSources] walks the spec of a resource next to its decoded JSON,
    replaces username and password sources by the data of the secrets they name,
    drops zero structs, and [stampSecretSourceStatus] copies the sources into the
    status.  The credential client is the interface of [Secrets]. *)

From stdpp Require Import gmap.
From Stdlib Require Import Ascii.
From S2P Require Import Prelude GoStrings Shared GoErrors GoValue AsyncStatus Secrets JsonValues.
Local Open Scope string_scope.
Local Open Scope go_scope.

(** [reflect.Value.IsZero].  A struct with its own marshaler counts as zero when it prints null. *)
Fixpoint is_zero (v : GoValue) : bool :=
  match v with
  | VNil => true
  | VBool b => negb b
  | VInt z => (z =? 0)%Z
  | VFloat n => (dec_mant n =? 0)%Z
  | VString s => (s =? "")%string
  | VPtr _ None | VIface None | VSlice _ None | VMap _ None => true
  | VPtr _ (Some _) | VIface (Some _) | VSlice _ (Some _) | VMap _ (Some _) => false
  | VStruct _ fs =>
      (fix go (l : list (StructField * GoValue)) : bool :=
         match l with [] => true | (_, x) :: r => is_zero x && go r end) fs
  | VOsok s => bool_decide (s = emptyStatus)
  | VMarshaler _ j => match j with Ok JNull => true | _ => false end
  end.

(** [passwordSourceType] and [usernameSourceType]: the shared types, by name. *)
Definition passwordSourceName := "PasswordSource".
Definition usernameSourceName := "UsernameSource".

Definition fieldJSONTagName (f : StructField) : string * bool :=
  let name := sf_json f in
  if (name =? "-")%string then ("", true)
  else if (TrimSpace name =? "")%string then (lowerCamel (sf_Name f), false)
  else
    let first := hd "" (Split name ",") in
    if (first =? "")%string then (lowerCamel (sf_Name f), false) else (first, false).

Definition decodedMapValue (decoded : Json) : GoMap Json :=
  match decoded with JObj m => m | _ => [] end.

Section Rewrite.
Context {W : Type}.
(** [options.CredentialClient], nil when [None], and [options.Namespace]. *)
Context (credentialClient : option (CredentialClient W)) (namespace : string).

Definition RW (A : Type) := ST W (result A GoError).
Definition rw_bind {A B} (m : RW A) (f : A -> RW B) : RW B :=
  st_bind m (fun r => match r with Ok a => f a | Err e => st_ret (Err e) end).

(** [resolveSecretSourceValue]: the value and whether it is included. *)
Definition resolveSecretSourceValue (secretField : option GoValue) (nameField dataKey : string) : RW (Json * bool) :=
  match secretField with
  | None => st_ret (Ok (JNull, false))
  | Some field =>
      match fieldByName nameField field with
      | Some (VString raw) =>
          let secretName := TrimSpace raw in
          if (secretName =? "")%string then st_ret (Ok (JNull, false))
          else match credentialClient with
               | None => st_ret (Err (ErrText ("resolve " +++ dataKey +++ " secret " +++ Quote secretName
                                               +++ ": credential client is nil")))
               | Some client =>
                   if (TrimSpace namespace =? "")%string then
                     st_ret (Err (ErrText ("resolve " +++ dataKey +++ " secret " +++ Quote secretName
                                           +++ ": namespace is empty")))
                   else
                     let* (secretData, err) := cc_GetSecret client secretName namespace in
                     match err with
                     | Some e => st_ret (Err (ErrWrap ("get " +++ dataKey +++ " secret " +++ Quote secretName
                                                       +++ ": " +++ ErrorString e) e))
                     | None =>
                         match secretData !! dataKey with
                         | None => st_ret (Err (ErrText (dataKey +++ " key in secret " +++ Quote secretName
                                                         +++ " is not found")))
                         | Some rawValue => st_ret (Ok (JStr rawValue, true))
                         end
                     end
               end
      | _ => st_ret (Ok (JNull, false))
      end
  end.

(** [rewriteSecretSources] with [rewriteSecretStruct], [rewriteSecretSlice] and [rewriteSecretMap];
    the result is the rewritten value and whether it is included.  A struct with its own marshaler
    has no field that [rewriteSecretStruct] would visit. *)
Fixpoint rewriteSecretSources (preserveZeroStructDecoded : bool) (value : GoValue) (decoded : Json)
  : RW (Json * bool) :=
  match value with
  | VNil | VPtr _ None | VIface None => st_ret (Ok (JNull, false))
  | VPtr _ (Some x) => rewriteSecretSources preserveZeroStructDecoded x decoded
  | VIface (Some x) => rewriteSecretSources preserveZeroStructDecoded x decoded
  | VStruct name fs =>
      if (name =? passwordSourceName)%string then
        resolveSecretSourceValue (fieldByName "Secret" value) "SecretName" "password"
      else if (name =? usernameSourceName)%string then
        resolveSecretSourceValue (fieldByName "Secret" value) "SecretName" "username"
      else if is_zero value &&
              (negb preserveZeroStructDecoded
               || match decoded with JObj m => negb (meaningfulValue (JObj m)) | _ => true end)
      then st_ret (Ok (JNull, false))
      else
        (fix fields (l : list (StructField * GoValue)) (decodedMap : GoMap Json) : RW (Json * bool) :=
           match l with
           | [] => st_ret (Ok (JObj decodedMap, true))
           | (f, x) :: r =>
               if negb (sf_Exported f) then fields r decodedMap
               else if sf_Anonymous f && embeddedJSONField f then
                 rw_bind (rewriteSecretSources preserveZeroStructDecoded x (JObj decodedMap))
                   (fun '(rewritten, _) =>
                      fields r (match rewritten with JObj nestedMap => nestedMap | _ => decodedMap end))
               else
                 let (jsonName, skip) := fieldJSONTagName f in
                 if skip then fields r decodedMap
                 else
                   let childDecoded := default JNull (map_get jsonName decodedMap) in
                   rw_bind (rewriteSecretSources preserveZeroStructDecoded x childDecoded)
                     (fun '(rewritten, include) =>
                        fields r (if include then map_set jsonName rewritten decodedMap
                                  else map_del jsonName decodedMap))
           end) fs (decodedMapValue decoded)
  | VOsok _ | VMarshaler _ _ =>
      if is_zero value &&
         (negb preserveZeroStructDecoded
          || match decoded with JObj m => negb (meaningfulValue (JObj m)) | _ => true end)
      then st_ret (Ok (JNull, false))
      else st_ret (Ok (JObj (decodedMapValue decoded), true))
  | VSlice _ None => st_ret (Ok (decoded, true))
  | VSlice _ (Some l) =>
      match decoded with
      | JArr decodedSlice =>
          rw_bind
            ((fix items (l : list GoValue) (ds : list Json) : RW (list Json) :=
                match l, ds with
                | x :: l, d :: ds =>
                    rw_bind (rewriteSecretSources preserveZeroStructDecoded x d)
                      (fun '(rewritten, include) =>
                         rw_bind (items l ds) (fun rest =>
                           st_ret (Ok ((if include then rewritten else d) :: rest))))
                | _, _ => st_ret (Ok ds)
                end) l decodedSlice)
            (fun ds => st_ret (Ok (JArr ds, true)))
      | _ => st_ret (Ok (decoded, true))
      end
  | VMap _ None => st_ret (Ok (decoded, true))
  | VMap _ (Some m) =>
      match decoded with
      | JObj decodedMap =>
          (fix entries (l : list (string * GoValue)) (decodedMap : GoMap Json) : RW (Json * bool) :=
             match l with
             | [] => st_ret (Ok (JObj decodedMap, true))
             | (key, x) :: r =>
                 rw_bind (rewriteSecretSources preserveZeroStructDecoded x (default JNull (map_get key decodedMap)))
                   (fun '(rewritten, include) =>
                      entries r (if include then map_set key rewritten decodedMap else map_del key decodedMap))
             end) m decodedMap
      | _ => st_ret (Ok (decoded, true))
      end
  | _ => st_ret (Ok (decoded, true))
  end.

Definition resolvedSpecValueWithDecoder (resource : GoValue) (decoder : GoValue -> result Json GoError)
  (preserveZeroStructDecoded : bool) : RW Json :=
  match specValue resource with
  | VNil => st_ret (Ok JNull)
  | raw =>
      match decoder raw with
      | Err e => st_ret (Err (ErrWrap ("decode spec value: " +++ ErrorString e) e))
      | Ok decoded =>
          match resourceStruct resource with
          | Err e => st_ret (Err e)
          | Ok (n, fs) =>
              match fieldByName "Spec" (VStruct n fs) with
              | None => st_ret (Err (ErrText "resource does not expose Spec"))
              | Some specField =>
                  rw_bind (rewriteSecretSources preserveZeroStructDecoded specField decoded)
                    (fun '(resolved, _) => st_ret (Ok resolved))
              end
          end
      end
  end.

Definition resolvedSpecValue (resource : GoValue) : RW Json :=
  resolvedSpecValueWithDecoder resource decodedJSONValue false.

Definition ResolveSpecValue (resource : GoValue) : RW Json := resolvedSpecValue resource.
Definition ResolveSpecValueWithBoolFields (resource : GoValue) : RW Json :=
  resolvedSpecValueWithDecoder resource decodedJSONValueWithBoolFields true.
End Rewrite.

(** ** Copying secret sources into the status *)

(** [isSecretSourceType] of the value's type: pointer depth and type name. *)
Fixpoint type_source (t : GoType) : option (nat * string) :=
  match t with
  | TPtr t => option_map (fun '(d, n) => (S d, n)) (type_source t)
  | TStruct n _ => if (n =? passwordSourceName)%string || (n =? usernameSourceName)%string then Some (0%nat, n) else None
  | _ => None
  end.

Definition secret_source_type (v : GoValue) : option (nat * string) :=
  match v with
  | VPtr t _ => option_map (fun '(d, n) => (S d, n)) (type_source t)
  | VStruct n _ => if (n =? passwordSourceName)%string || (n =? usernameSourceName)%string then Some (0%nat, n) else None
  | _ => None
  end.

Definition secretSourceValueIsEmpty (value : GoValue) : bool :=
  match indirectValue value with
  | Some (VStruct n fs) =>
      match fieldByName "Secret" (VStruct n fs) with
      | Some secretField =>
          match indirectValue secretField with
          | Some (VStruct n' fs') =>
              match fieldByName "SecretName" (VStruct n' fs') with
              | Some (VString s) => (TrimSpace s =? "")%string
              | _ => true
              end
          | _ => true
          end
      | None => true
      end
  | _ => true
  end.

(** [reflect.Zero] of the value's type. *)
Fixpoint zero_like (v : GoValue) : GoValue :=
  match v with
  | VBool _ => VBool false
  | VInt _ => VInt 0
  | VFloat _ => VFloat (mkDec 0 0)
  | VString _ => VString ""
  | VPtr t _ => VPtr t None
  | VIface _ => VIface None
  | VSlice t _ => VSlice t None
  | VMap t _ => VMap t None
  | VStruct n fs =>
      VStruct n ((fix go (l : list (StructField * GoValue)) : list (StructField * GoValue) :=
        match l with [] => [] | (f, x) :: r => (f, zero_like x) :: go r end) fs)
  | VOsok _ => VOsok emptyStatus
  | VMarshaler n _ => VMarshaler n (Ok JNull)
  | VNil => VNil
  end.

(** Apply [f] to the fields of the struct a destination points to. *)
Fixpoint at_struct (f : list (StructField * GoValue) -> list (StructField * GoValue)) (v : GoValue) : GoValue :=
  match v with
  | VPtr t (Some x) => VPtr t (Some (at_struct f x))
  | VStruct n fs => VStruct n (f fs)
  | _ => v
  end.

Definition settable_field (name : string) (fs : list (StructField * GoValue)) : option GoValue :=
  match find_first (fun fv => (sf_Name (fst fv) =? name)%string) fs with
  | Some (f, x) => if sf_Exported f then Some x else None
  | None => None
  end.

(** [copySecretSourceFields]: the destination after the copy. *)
Fixpoint copySecretSourceFields (source destination : GoValue) : GoValue :=
  match source with
  | VPtr _ (Some x) => copySecretSourceFields x destination
  | VIface (Some x) => copySecretSourceFields x destination
  | VStruct _ sfs =>
      at_struct
        ((fix go (l : list (StructField * GoValue)) (dfs : list (StructField * GoValue))
            : list (StructField * GoValue) :=
            match l with
            | [] => dfs
            | (f, x) :: r =>
                if negb (sf_Exported f) then go r dfs
                else match settable_field (sf_Name f) dfs with
                     | None => go r dfs
                     | Some y =>
                         go r
                           (if bool_decide (is_Some (secret_source_type x)) &&
                               bool_decide (secret_source_type y = secret_source_type x)
                            then set_field (sf_Name f) (if secretSourceValueIsEmpty x then zero_like y else x) dfs
                            else set_field (sf_Name f) (copySecretSourceFields x y) dfs)
                     end
            end) sfs) destination
  | _ => destination
  end.

Definition stampSecretSourceStatus (resource : GoValue) : GoValue :=
  match resource with
  | VPtr t (Some (VStruct n fs)) =>
      match struct_field "Spec" fs, struct_field "Status" fs with
      | Some specField, Some statusField =>
          VPtr t (Some (VStruct n (set_field "Status" (copySecretSourceFields specField statusField) fs)))
      | _, _ => resource
      end
  | _ => resource
  end.

(** ** Lemmas *)

(** No username or password source anywhere in the value. *)
Fixpoint no_sources (v : GoValue) : bool :=
  match v with
  | VPtr _ (Some x) => no_sources x
  | VIface (Some x) => no_sources x
  | VStruct n fs =>
      negb (n =? passwordSourceName)%string && negb (n =? usernameSourceName)%string &&
      (fix go (l : list (StructField * GoValue)) : bool :=
         match l with [] => true | (_, x) :: r => no_sources x && go r end) fs
  | VSlice _ (Some l) =>
      (fix go (l : list GoValue) : bool := match l with [] => true | x :: r => no_sources x && go r end) l
  | VMap _ (Some m) =>
      (fix go (l : list (string * GoValue)) : bool := match l with [] => true | (_, x) :: r => no_sources x && go r end) m
  | _ => true
  end.

Section NoSources.
Context {W : Type} (client : option (CredentialClient W)) (namespace : string).

(** The rewrite returns without touching the world. *)
Definition quiet {A} (m : RW (W := W) A) : Prop := forall w, exists a, m w = (Ret (Ok a), w).

Lemma quiet_ret {A} (a : A) : quiet (st_ret (Ok a)).
Proof. intros w. by exists a. Qed.

Lemma quiet_bind {A B} (m : RW A) (f : A -> RW B) : quiet m -> (forall a, quiet (f a)) -> quiet (rw_bind m f).
Proof.
  intros Hm Hf w. unfold rw_bind, st_bind. destruct (Hm w) as [a ->]. apply Hf.
Qed.
#[local] Hint Resolve quiet_ret quiet_bind : core.

Lemma rewrite_quiet preserve v : no_sources v = true ->
  forall decoded, quiet (rewriteSecretSources client namespace preserve v decoded).
Proof.
  induction v as [| | | | | |t v IH| |v IH|n fs IH| |t l IH| |t m IH| |] using GoValue_ind';
    intros Hn decoded; cbn [rewriteSecretSources]; auto.
  - cbn [no_sources] in Hn. apply andb_true_iff in Hn as [Hn Hfs]. apply andb_true_iff in Hn as [H1 H2].
    apply negb_true_iff in H1, H2. rewrite H1, H2. destruct (is_zero _ && _); [auto|].
    generalize (decodedMapValue decoded). clear H1 H2. induction IH as [|[f x] fs Hx _ IHfs]; intros dm; [auto|].
    apply andb_true_iff in Hfs as [Hx' Hfs]. specialize (IHfs Hfs). simpl in Hx. specialize (Hx Hx').
    destruct (negb (sf_Exported f)); [apply IHfs|].
    destruct (sf_Anonymous f && embeddedJSONField f).
    + apply quiet_bind; [apply Hx|]. intros [rewritten ?]. apply IHfs.
    + destruct (fieldJSONTagName f) as [jsonName [|]]; [apply IHfs|].
      apply quiet_bind; [apply Hx|]. intros [rewritten include]. apply IHfs.
  - destruct decoded as [| | | |ds|]; auto. apply quiet_bind; [|auto]. revert ds.
    induction IH as [|x l Hx _ IHl]; intros [|d ds]; auto.
    cbn [no_sources] in Hn. apply andb_true_iff in Hn as [Hx' Hl].
    apply quiet_bind; [by apply Hx|]. intros [rewritten include]. apply quiet_bind; [by apply IHl|auto].
  - destruct decoded as [| | | | |dm]; auto. revert dm.
    induction IH as [|[k x] m Hx _ IHm]; intros dm; auto.
    cbn [no_sources] in Hn. apply andb_true_iff in Hn as [Hx' Hm]. simpl in Hx.
    apply quiet_bind; [by apply Hx|]. intros [rewritten include]. by apply IHm.
  - destruct (is_zero _ && _); auto.
  - destruct (is_zero _ && _); auto.
Qed.
End NoSources.

(** A spec without username or password sources is resolved without the
    credential client: whenever the spec can be encoded, resolution succeeds (in
    both modes), whatever client and namespace are configured, and no secret is
    read or changed. *)
Theorem resolve_without_sources {W} (client : option (CredentialClient W)) (namespace : string)
  (resource : GoValue) (n : string) (fs : list (StructField * GoValue)) (spec : GoValue) (j : Json) (w : W)
  (is_resource : resourceStruct resource = Ok (n, fs)) (has_spec : fieldByName "Spec" (VStruct n fs) = Some spec)
  (plain : no_sources spec = true) (encodes : to_json spec = Ok j) :
  (exists r, resolvedSpecValue client namespace resource w = (Ret (Ok r), w)) /\
  (exists r, ResolveSpecValueWithBoolFields client namespace resource w = (Ret (Ok r), w)).
Proof.
  assert (Hsv : specValue resource = iface_value spec).
  { unfold specValue, fieldInterface. by rewrite is_resource, has_spec. }
  assert (Henc : iface_value spec <> VNil -> decodedJSONValue (iface_value spec) = Ok j).
  { intros Hne. unfold decodedJSONValue.
    assert (to_json (iface_value spec) = Ok j) as -> by by destruct spec as [| | | | | |[v|]| | | | |].
    by destruct (iface_value spec). }
  unfold ResolveSpecValueWithBoolFields, resolvedSpecValue, resolvedSpecValueWithDecoder, decodedJSONValueWithBoolFields.
  rewrite Hsv. assert (iface_value spec = VNil \/ iface_value spec <> VNil) as [E|E]
    by (destruct (iface_value spec); first [by left|by right]).
  { rewrite E. split; eexists; reflexivity. }
  rewrite is_resource, has_spec. specialize (Henc E).
  assert (Hq : forall preserve decoded, exists r, rw_bind (rewriteSecretSources client namespace preserve spec decoded)
    (fun '(resolved, _) => st_ret (Ok resolved)) w = (Ret (Ok r), w)).
  { intros preserve decoded. apply quiet_bind; [by apply rewrite_quiet|]. intros [? ?]. apply quiet_ret. }
  split; destruct (iface_value spec); try done; rewrite Henc; apply Hq.
Qed.

(** A spec field of type [shared.JSONValue] (or any struct with its own
    marshaler) loses its value when it holds anything but a JSON object: the
    encoded spec has the number, string or array, the resolved spec that goes
    into the request has an empty object in its place. *)
Theorem json_value_scalar_lost {W} (client : option (CredentialClient W)) (namespace : string)
  (t : GoType) (rn sn mn : string) (fs : list (StructField * GoValue)) (f : StructField) (j : Json) (w : W)
  (exported : sf_Exported f = true) (named : sf_Anonymous f = false)
  (tag : sf_json f = "metadata,omitempty") (not_source : no_sources (VStruct sn [(f, VMarshaler mn (Ok j))]) = true)
  (has_spec : struct_field "Spec" fs = Some (VStruct sn [(f, VMarshaler mn (Ok j))]))
  (scalar : match j with JObj _ | JNull => false | _ => true end = true) :
  let resource := VPtr t (Some (VStruct rn fs)) in
  decodedJSONValue (specValue resource) = Ok (JObj [("metadata", j)]) /\
  resolvedSpecValue client namespace resource w = (Ret (Ok (JObj [("metadata", JObj [])])), w).
Proof.
  intros resource. assert (Hf : fieldByName "Spec" (VStruct rn fs) = Some (VStruct sn [(f, VMarshaler mn (Ok j))]))
    by by apply fieldByName_struct_field.
  assert (Hsv : specValue resource = VStruct sn [(f, VMarshaler mn (Ok j))]).
  { unfold specValue, fieldInterface, resource. cbn [resourceStruct]. by rewrite Hf. }
  assert (Hj : to_json (VStruct sn [(f, VMarshaler mn (Ok j))]) = Ok (JObj [("metadata", j)])).
  { cbn. unfold inlined, tag_omitempty, encoded_name, tag_name. rewrite exported, named, tag. done. }
  assert (Hd : decodedJSONValue (specValue resource) = Ok (JObj [("metadata", j)])).
  { rewrite Hsv. unfold decodedJSONValue. by rewrite Hj. }
  split; [exact Hd|].
  unfold resolvedSpecValue, resolvedSpecValueWithDecoder. rewrite Hsv in *. cbn iota. rewrite Hd. unfold resource. cbn [resourceStruct].
  rewrite Hf. cbn [no_sources] in not_source. apply andb_true_iff in not_source as [Hn _].
  apply andb_true_iff in Hn as [H1 H2]. apply negb_true_iff in H1, H2.
  cbn [rewriteSecretSources]. rewrite H1, H2.
  assert (Hz : match j with JNull => true | _ => false end = false) by by destruct j.
  assert (is_zero (VStruct sn [(f, VMarshaler mn (Ok j))]) = false) as -> by (cbn; by destruct j).
  cbn [andb]. rewrite exported, named. cbn [negb andb]. unfold fieldJSONTagName. rewrite tag. cbn.
  assert (is_zero (VMarshaler mn (Ok j)) = false) as Hzm by by destruct j.
  cbn in Hzm. rewrite Hzm. cbn. by destruct j.
Qed.

Definition json_spec_field : StructField := mkField "Metadata" true false "metadata,omitempty" "" "" "" "shared.JSONValue".
Definition spec_field : StructField := mkField "Spec" true false "spec,omitempty" "" "" "" "AgentSpec".

Definition sample_agent (v : GoValue) : GoValue :=
  VPtr TIface (Some (VStruct "Agent" [(spec_field, VStruct "AgentSpec" [(json_spec_field, v)])])).

Lemma resolve_without_sources_witness :
  exists r, resolvedSpecValue (W := unit) None "" (sample_agent (VString "m")) tt = (Ret (Ok r), tt).
Proof.
  destruct (resolve_without_sources (W := unit) None "" (sample_agent (VString "m")) "Agent"
    [(spec_field, VStruct "AgentSpec" [(json_spec_field, VString "m")])]
    (VStruct "AgentSpec" [(json_spec_field, VString "m")]) (JObj [("metadata", JStr "m")]) tt
    eq_refl eq_refl eq_refl eq_refl) as [H _].
  exact H.
Defined.

Lemma json_value_scalar_lost_witness :
  resolvedSpecValue (W := unit) None "" (sample_agent (VMarshaler "JSONValue" (Ok (JNum (mkDec 7 (-1)))))) tt
  = (Ret (Ok (JObj [("metadata", JObj [])])), tt).
Proof.
  exact (proj2 (json_value_scalar_lost (W := unit) None "" TIface "Agent" "AgentSpec" "JSONValue"
    [(spec_field, VStruct "AgentSpec" [(json_spec_field, VMarshaler "JSONValue" (Ok (JNum (mkDec 7 (-1)))))])]
    json_spec_field (JNum (mkDec 7 (-1))) tt eq_refl eq_refl eq_refl eq_refl eq_refl eq_refl)).
Defined.
