(* ===== verification/MutationPolicy.v ===== *)
(** * Drift and mutation policy ([pkg/servicemanager/generatedruntime/mutation_policy.go])

    Which spec fields differ from the live resource, which of the differences may
    be sent as an update, which need a replacement, and the update body that is
    built from them.  [comparableDiffPaths] recurses into pruned copies of the
    spec, so it carries fuel; the nesting depth of the spec is enough. *)

From stdpp Require Import gmap.
From Stdlib Require Import Ascii.
From S2P Require Import Prelude GoStrings Shared GoErrors GoValue AsyncStatus Secrets JsonValues Semantics SpecResolution.
Local Open Scope string_scope.
Local Open Scope list_scope.
Local Open Scope go_scope.

(** ** Pruning and differences *)

(** [pruneComparableValue]: [None] is [(nil, false)]. *)
Fixpoint pruneComparableValue (value : Json) : option Json :=
  match value with
  | JObj m =>
      match flat_map (fun kv => match pruneComparableValue (snd kv) with
                                | Some prunedChild => [(fst kv, prunedChild)]
                                | None => []
                                end) m with
      | [] => None
      | pruned => Some (JObj pruned)
      end
  | JArr l =>
      match flat_map (fun child => match pruneComparableValue child with
                                   | Some prunedChild => [prunedChild]
                                   | None => []
                                   end) l with
      | [] => None
      | pruned => Some (JArr pruned)
      end
  | _ => if meaningfulValue value then Some value else None
  end.

(** [sort.Strings]. *)
Definition sort_strings (l : list string) : list string := map fst (sort_keys (map (fun s => (s, tt)) l)).

Definition meaningfulSortedKeys (values : GoMap Json) : list string :=
  sort_strings (flat_map (fun '(key, value) => match pruneComparableValue value with Some _ => [key] | None => [] end) values).

(** [comparableDiffPathsForKey], with the recursive call as an argument. *)
Definition comparableDiffPathsForKey (rec : GoMap Json -> GoMap Json -> string -> list string)
  (specValues currentValues : GoMap Json) (prefix key : string) : list string :=
  match pruneComparableValue (default JNull (map_get key specValues)) with
  | None => []
  | Some specValue =>
      match lookupMapKey currentValues key with
      | None => []
      | Some currentValue =>
          let currentValue := default JNull (pruneComparableValue currentValue) in
          let path := if negb (prefix =? "")%string then prefix +++ "." +++ key else key in
          match specValue, currentValue with
          | JObj specMap, JObj currentMap => rec specMap currentMap path
          | _, _ => if negb (valuesEqual specValue currentValue) then [path] else []
          end
      end
  end.

Fixpoint comparableDiffPaths (fuel : nat) (specValues currentValues : GoMap Json) (prefix : string) : list string :=
  match fuel with
  | O => []
  | S fuel =>
      flat_map (comparableDiffPathsForKey (comparableDiffPaths fuel) specValues currentValues prefix)
        (meaningfulSortedKeys specValues)
  end.

Fixpoint json_depth (j : Json) : nat :=
  match j with
  | JArr l => S (fold_right Nat.max 0%nat (map json_depth l))
  | JObj m => S (fold_right Nat.max 0%nat (map (fun kv => json_depth (snd kv)) m))
  | _ => 0%nat
  end.

Definition diffPaths (specValues currentValues : GoMap Json) (prefix : string) : list string :=
  comparableDiffPaths (S (json_depth (JObj specValues))) specValues currentValues prefix.

Definition forceNewValuesEqual (specValue currentValue : Json) : bool :=
  match pruneComparableValue specValue, pruneComparableValue currentValue with
  | None, None => true
  | None, Some _ | Some _, None => false
  | Some (JObj specMap), Some (JObj currentMap) => (length (diffPaths specMap currentMap "") =? 0)%nat
  | Some s, Some c => valuesEqual s c
  end.

(** ** Paths covered by the semantics *)

Definition pathCoveredBy (path semanticPath : string) : bool :=
  let path := normalizePath path in
  let semanticPath := normalizePath semanticPath in
  if (path =? "")%string || (semanticPath =? "")%string then false
  else (path =? semanticPath)%string || HasPrefix path (semanticPath +++ ".") || HasPrefix semanticPath (path +++ ".").

Definition pathCoveredByAny (path : string) (semanticPaths : list string) : bool :=
  existsb (pathCoveredBy path) semanticPaths.

Definition unsupportedUpdateDriftPaths (specValues currentValues : GoMap Json) (semantics : MutationSemantics)
  : list string :=
  sort_strings (fold_left (fun unsupported path =>
    if pathCoveredByAny path (Mutable semantics) then unsupported
    else if pathCoveredByAny path (ForceNew semantics) then unsupported
    else appendUniqueStrings unsupported [path]) (diffPaths specValues currentValues "") []).

(** ** Types of response bodies *)

(** [reflect.TypeOf]. *)
Fixpoint type_of (v : GoValue) : GoType :=
  match v with
  | VBool _ => TBool | VInt _ => TInt | VFloat _ => TFloat | VString _ => TString
  | VPtr t _ => TPtr t
  | VNil | VIface _ => TIface
  | VStruct n fs => TStruct n (map (fun fv => (fst fv, type_of (snd fv))) fs)
  | VSlice t _ => TSlice t
  | VMap t _ => TMap t
  | VOsok _ => TOsok
  | VMarshaler n _ => TMarshaler n
  end.

Definition structFieldTypeByPathSegment (fields : list (StructField * GoType)) (segment : string) : option GoType :=
  let normalized := normalizePathSegment segment in
  option_map snd (find_first (fun ft =>
    sf_Exported (fst ft) &&
    ((normalizePathSegment (sf_Name (fst ft)) =? normalized)%string ||
     (normalizePathSegment (fieldJSONName (fst ft)) =? normalized)%string)) fields).

(** [typeExposesFieldPath] after [indirectType]: [Elem] of an interface type panics.  A struct with
    its own marshaler has no field that the path can name. *)
Fixpoint typeExposesFieldPath (fuel : nat) (t : GoType) (segments : list string) : outcome bool :=
  match fuel with
  | O => Ret false
  | S fuel =>
      match t with
      | TPtr t => typeExposesFieldPath fuel t segments
      | TIface => Panic
      | _ =>
          match segments with
          | [] => Ret false
          | first :: rest =>
              let segment := TrimSpace first in
              if (segment =? "")%string then Ret false
              else match t with
                   | TStruct _ fields =>
                       match structFieldTypeByPathSegment fields segment with
                       | None => Ret false
                       | Some fieldType =>
                           match rest with [] => Ret true | _ => typeExposesFieldPath fuel fieldType rest end
                       end
                   | TOsok | TMarshaler _ => Ret false
                   | TMap t => match rest with [] => Ret true | _ => typeExposesFieldPath fuel t rest end
                   | TSlice t => typeExposesFieldPath fuel t segments
                   | _ => match rest with [] => Ret true | _ => Ret false end
                   end
          end
      end
  end.

Fixpoint type_size (t : GoType) : nat :=
  match t with
  | TPtr t | TSlice t | TMap t => S (type_size t)
  | TStruct _ fs =>
      S ((fix go (l : list (StructField * GoType)) : nat :=
            match l with [] => 0%nat | (_, t) :: r => (type_size t + go r)%nat end) fs)
  | _ => 1%nat
  end.

Definition responseExposesFieldPath (response : GoValue) (path : string) : outcome bool :=
  match responseBody response with
  | None | Some VNil => Ret false
  | Some body => typeExposesFieldPath (type_size (type_of body)) (type_of body) (Split (TrimSpace path) ".")
  end.

(** ** The policy *)

Definition responseLifecycleState (response : GoValue) : string :=
  match responseBody response with
  | None | Some VNil => ""
  | Some body => firstNonEmpty (jsonMap body) ["lifecycleState"; "status"]
  end.

Definition shouldObserveCurrentLifecycle (semantics : option Semantics) (currentResponse : GoValue) : bool :=
  match semantics, currentResponse with
  | None, _ | _, VNil => false
  | Some s, _ =>
      let lifecycleState := ToUpper (responseLifecycleState currentResponse) in
      if (lifecycleState =? "")%string then false
      else containsString (ProvisioningStates (Lifecycle s)) lifecycleState
           || containsString (UpdatingStates (Lifecycle s)) lifecycleState
           || containsString (PendingStates (sem_Delete s)) lifecycleState
  end.

(** [mutationValues]: spec and current values, the live body over the recorded status. *)
Definition mutationValues (resource currentResponse : GoValue) : result (GoMap Json * GoMap Json) GoError :=
  match resourceStruct resource with
  | Err e => Err e
  | Ok (n, fs) =>
      let specValues := default [] (jsonMap (fieldInterface (VStruct n fs) "Spec")) in
      let currentValues := default [] (jsonMap (fieldInterface (VStruct n fs) "Status")) in
      let currentValues := match responseBody currentResponse with
                           | None | Some VNil => currentValues
                           | Some body => mergeJSONMapOverwrite currentValues body
                           end in
      Ok (specValues, currentValues)
  end.

(** The loops over [ConflictsWith]: the first conflict met. *)
Definition validateMutationConflicts (kind : string) (mutation : MutationSemantics) (specValues : GoMap Json)
  : option GoError :=
  let conflicting conflict := match lookupMeaningfulValue (Some specValues) conflict with Some _ => true | None => false end in
  match find_first (fun fc =>
          match lookupMeaningfulValue (Some specValues) (fst fc) with
          | Some _ => existsb conflicting (snd fc)
          | None => false
          end) (ConflictsWith mutation) with
  | None => None
  | Some (field, conflicts) =>
      Some (ErrText (kind +++ " formal semantics forbid setting " +++ field +++ " with "
                     +++ default "" (find_first conflicting conflicts)))
  end.

Fixpoint validateForceNewFields (kind : string) (fields : list string) (resource : GoValue)
  (specValues currentValues : GoMap Json) : option GoError :=
  match fields with
  | [] => None
  | field :: r =>
      let wanted := match lookupMeaningfulValue (Some specValues) field with
                    | Some v => Ok (Some v)
                    | None => meaningfulMutationValueByPath (specValue resource) field
                    end in
      match wanted with
      | Err e => Some e
      | Ok wanted =>
          match wanted, lookupValueByPath (Some currentValues) field with
          | Some wantedValue, Some statusValue =>
              if negb (forceNewValuesEqual wantedValue statusValue) then
                Some (ErrText (kind +++ " formal semantics require replacement when " +++ field +++ " changes"))
              else validateForceNewFields kind r resource specValues currentValues
          | _, _ => validateForceNewFields kind r resource specValues currentValues
          end
      end
  end.

(** [hasMutableDrift]. *)
Fixpoint mutable_drift (fields : list string) (spec currentResponse : GoValue)
  (specValues currentValues : option (GoMap Json)) : outcome (result bool GoError) :=
  match fields with
  | [] => Ret (Ok false)
  | field :: r =>
      let wanted := match lookupMeaningfulValue specValues field with
                    | Some v => Ok (Some v)
                    | None => meaningfulMutationValueByPath spec field
                    end in
      match wanted with
      | Err e => Ret (Err e)
      | Ok None => mutable_drift r spec currentResponse specValues currentValues
      | Ok (Some wantedValue) =>
          match lookupMeaningfulValue currentValues field with
          | None =>
              let? exposes := responseExposesFieldPath currentResponse field in
              if exposes then Ret (Ok true) else mutable_drift r spec currentResponse specValues currentValues
          | Some currentValue =>
              if negb (forceNewValuesEqual wantedValue currentValue) then Ret (Ok true)
              else mutable_drift r spec currentResponse specValues currentValues
          end
      end
  end.

Definition hasMutableDrift (semantics : option Semantics) (resource currentResponse : GoValue)
  : outcome (result bool GoError) :=
  match semantics with
  | None => Ret (Ok false)
  | Some s =>
      match Mutable (Mutation s) with
      | [] => Ret (Ok false)
      | fields =>
          match resourceStruct resource with
          | Err e => Ret (Err e)
          | Ok (n, fs) =>
              let spec := fieldInterface (VStruct n fs) "Spec" in
              let specValues := jsonMap spec in
              let currentValues := match responseBody currentResponse with
                                   | None | Some VNil => jsonMap (fieldInterface (VStruct n fs) "Status")
                                   | Some body => jsonMap body
                                   end in
              mutable_drift fields spec currentResponse specValues currentValues
          end
      end
  end.

(** The body loop of [filteredUpdateBody]: mutable fields whose wanted value differs. *)
Fixpoint update_body (mutable : list string) (specValues : GoMap Json) (currentValues : option (GoMap Json))
  (body : GoMap Json) : GoMap Json :=
  match mutable with
  | [] => body
  | path :: r =>
      match lookupMeaningfulValue (Some specValues) path with
      | None => update_body r specValues currentValues body
      | Some specValue =>
          if match lookupValueByPath currentValues path with
             | Some currentValue => valuesEqual specValue currentValue
             | None => false
             end
          then update_body r specValues currentValues body
          else update_body r specValues currentValues
                 (setValueByPath body (canonicalValuePath (Some specValues) path) specValue)
      end
  end.

(** [filteredUpdateBody] of a client that defines Update: [Ok None] is [(nil, false, nil)]. *)
Definition filteredUpdateBody {W} (credentialClient : option (CredentialClient W)) (namespace : string)
  (semantics : option Semantics) (resource currentResponse : GoValue) : ST W (result (option Json) GoError) :=
  match semantics with
  | None => st_ret (Ok None)
  | Some s =>
      match Mutable (Mutation s) with
      | [] => st_ret (Ok None)
      | mutable =>
          let* resolved := resolvedSpecValueWithDecoder credentialClient namespace resource
                             decodedJSONValueWithBoolFields true in
          match resolved with
          | Err e => st_ret (Err e)
          | Ok resolvedSpec =>
              match json_object resolvedSpec with
              | None | Some [] => st_ret (Ok None)
              | Some specValues =>
                  let current :=
                    match responseBody currentResponse with
                    | None | Some VNil => Ok (Some [])
                    | Some body => mutationJSONMap body
                    end in
                  match current with
                  | Err e => st_ret (Err e)
                  | Ok currentValues =>
                      let currentValues :=
                        match currentValues with
                        | None | Some [] =>
                            match statusStruct resource with
                            | Err e => Err e
                            | Ok statusValue => mutationJSONMap (iface_value statusValue)
                            end
                        | Some m => Ok (Some m)
                        end in
                      match currentValues with
                      | Err e => st_ret (Err e)
                      | Ok currentValues =>
                          match update_body mutable specValues currentValues [] with
                          | [] => st_ret (Ok None)
                          | body => st_ret (Ok (Some (JObj body)))
                          end
                      end
                  end
              end
          end
      end
  end.

(** ** Lemmas on pruning *)

Definition prune_entries (m : GoMap Json) : GoMap Json :=
  flat_map (fun kv => match pruneComparableValue (snd kv) with Some p => [(fst kv, p)] | None => [] end) m.
Definition prune_items (l : list Json) : list Json :=
  flat_map (fun child => match pruneComparableValue child with Some p => [p] | None => [] end) l.

Lemma prune_obj m : pruneComparableValue (JObj m) = match prune_entries m with [] => None | p => Some (JObj p) end.
Proof. done. Qed.
Lemma prune_arr l : pruneComparableValue (JArr l) = match prune_items l with [] => None | p => Some (JArr p) end.
Proof. done. Qed.

Lemma prune_items_cons x l :
  prune_items (x :: l) = match pruneComparableValue x with Some p => p :: prune_items l | None => prune_items l end.
Proof. cbn. by destruct (pruneComparableValue x). Qed.
Lemma prune_entries_cons k x m :
  prune_entries ((k, x) :: m) =
  match pruneComparableValue x with Some p => (k, p) :: prune_entries m | None => prune_entries m end.
Proof. cbn. by destruct (pruneComparableValue x). Qed.

Lemma prune_obj_Some m p : pruneComparableValue (JObj m) = Some p -> p = JObj (prune_entries m) /\ prune_entries m <> [].
Proof. rewrite prune_obj. destruct (prune_entries m); [done|]. by intros [= <-]. Qed.

Lemma prune_idem v : forall p, pruneComparableValue v = Some p -> pruneComparableValue p = Some p.
Proof.
  induction v as [|b|n|s|l IH|m IH] using Json_ind'; intros p.
  1-4: cbn [pruneComparableValue]; destruct (meaningfulValue _) eqn:E; [|done]; intros [= <-];
    cbn [pruneComparableValue]; by rewrite E.
  - rewrite prune_arr. assert (Hi : prune_items (prune_items l) = prune_items l).
    { induction IH as [|x l Hx _ IHl]; [done|]. rewrite prune_items_cons.
      destruct (pruneComparableValue x) as [q|] eqn:E; [|done]. by rewrite prune_items_cons, (Hx q eq_refl), IHl. }
    destruct (prune_items l) eqn:E; [done|]. intros [= <-]. by rewrite prune_arr, Hi.
  - rewrite prune_obj. assert (Hi : prune_entries (prune_entries m) = prune_entries m).
    { induction IH as [|[k x] m Hx _ IHm]; [done|]. rewrite prune_entries_cons. simpl in Hx.
      destruct (pruneComparableValue x) as [q|] eqn:E; [|done]. by rewrite prune_entries_cons, (Hx q eq_refl), IHm. }
    destruct (prune_entries m) eqn:E; [done|]. intros [= <-]. by rewrite prune_obj, Hi.
Qed.

Lemma prune_entries_keys k m : k ∈ keys (prune_entries m) -> k ∈ keys m.
Proof.
  unfold keys. induction m as [|[k' x] m IH]; [done|]. rewrite prune_entries_cons.
  destruct (pruneComparableValue x); cbn; set_solver.
Qed.

Lemma prune_entries_NoDup m : NoDup (keys m) -> NoDup (keys (prune_entries m)).
Proof.
  induction m as [|[k x] m IH]; [done|]. intros [Hk Hnd]%NoDup_cons. rewrite prune_entries_cons.
  destruct (pruneComparableValue x); cbn; [|by apply IH].
  apply NoDup_cons. split; [|by apply IH]. intros Hin. by apply Hk, prune_entries_keys.
Qed.

Lemma map_get_prune k m : NoDup (keys m) ->
  map_get k (prune_entries m) = match map_get k m with Some x => pruneComparableValue x | None => None end.
Proof.
  unfold map_get. induction m as [|[k' x] m IH]; [done|]. intros [Hk Hnd]%NoDup_cons.
  rewrite prune_entries_cons. cbn. destruct (k' =? k)%string eqn:E.
  - apply String.eqb_eq in E as ->. cbn. destruct (pruneComparableValue x) as [p|]; cbn; [by rewrite String.eqb_refl|].
    rewrite IH by done. destruct (find_first _ m) as [[k2 y]|] eqn:Ef; [|done]. exfalso.
    apply find_first_Some in Ef as [Hin Heq]. simpl in Heq. apply String.eqb_eq in Heq as ->. apply Hk. apply list_elem_of_fmap. by exists (k, y).
  - destruct (pruneComparableValue x) as [p|]; cbn; rewrite ?E; by apply IH.
Qed.

(** Unique keys survive pruning. *)
Lemma prune_unique v : forall p, unique_keys v = true -> pruneComparableValue v = Some p -> unique_keys p = true.
Proof.
  unfold unique_keys. induction v as [|b|n|s|l IH|m IH] using Json_ind'; intros p.
  1-4: intros _; cbn [pruneComparableValue]; destruct (meaningfulValue _); [|done]; by intros [= <-].
  - rewrite prune_arr. intros Hu. assert (Hi : forallb (keys_ok (fun ks => bool_decide (NoDup ks))) (prune_items l) = true).
    { cbn in Hu. induction IH as [|x l Hx _ IHl]; [done|]. cbn in Hu. apply andb_true_iff in Hu as [Hux Hul].
      rewrite prune_items_cons. destruct (pruneComparableValue x) as [q|]; [|by apply IHl]. cbn.
      rewrite IHl by done. by rewrite Hx. }
    destruct (prune_items l) eqn:E; [done|]. by intros [= <-].
  - intros Hu Hp. apply prune_obj_Some in Hp as [-> _].
    apply andb_true_iff in Hu as [Hnd Hu]. apply bool_decide_eq_true in Hnd.
    cbn [keys_ok]. apply andb_true_iff. split; [apply bool_decide_eq_true; by apply prune_entries_NoDup|].
    clear Hnd. induction IH as [|[k x] m Hx _ IHm]; [done|]. cbn in Hu, Hx. apply andb_true_iff in Hu as [Hux Hul].
    rewrite prune_entries_cons. destruct (pruneComparableValue x) as [q|]; [|by apply IHm]. cbn. rewrite IHm by done. by rewrite Hx.
Qed.

Lemma lookupMapKey_get k m x : map_get k m = Some x -> lookupMapKey m k = Some x.
Proof. unfold lookupMapKey. by intros ->. Qed.

(** A value compared with itself has no difference, at any fuel. *)
Lemma comparableDiffPaths_same fuel : forall m prefix,
  unique_keys (JObj m) = true -> comparableDiffPaths fuel m m prefix = [].
Proof.
  induction fuel as [|fuel IH]; intros m prefix Hu; [done|]. cbn [comparableDiffPaths].
  apply flat_map_nil. intros key _. unfold comparableDiffPathsForKey.
  destruct (map_get key m) as [x|] eqn:E; [|done]. cbn [default from_option id].
  destruct (pruneComparableValue x) as [p|] eqn:Ep; [|done].
  rewrite (lookupMapKey_get _ _ _ E), Ep. cbn [default from_option id].
  assert (Hx : unique_keys x = true).
  { apply map_get_Some_elem in E. by apply keys_ok_obj in Hu as [_ Hu]; eapply Hu. }
  pose proof (prune_unique x p Hx Ep) as Hup.
  destruct p; rewrite ?valuesEqual_refl; try done. by apply IH.
Qed.

(** ** Fuel *)

Lemma fold_max_elem {A} (f : A -> nat) (l : list A) x :
  x ∈ l -> (f x <= fold_right Nat.max 0 (map f l))%nat.
Proof. induction l as [|y l IH]; simpl; [set_solver|]. intros [->|H]%elem_of_cons; [lia|]. specialize (IH H). lia. Qed.

Lemma fold_max_le {A} (f : A -> nat) (l : list A) n :
  (forall x, x ∈ l -> f x <= n)%nat -> (fold_right Nat.max 0 (map f l) <= n)%nat.
Proof.
  induction l as [|y l IH]; simpl; intros H; [lia|]. apply Nat.max_lub; [apply H; set_solver|].
  apply IH. intros x Hx. apply H. set_solver.
Qed.

Lemma prune_depth v : forall p, pruneComparableValue v = Some p -> (json_depth p <= json_depth v)%nat.
Proof.
  induction v as [|b|n|s|l IH|m IH] using Json_ind'; intros p.
  1-4: cbn [pruneComparableValue]; destruct (meaningfulValue _); [|done]; by intros [= <-].
  - rewrite prune_arr. intros Hp. assert (p = JArr (prune_items l)) as -> by (destruct (prune_items l); congruence).
    cbn [json_depth]. apply le_n_S, fold_max_le. intros x Hx. rewrite Forall_forall in IH.
    unfold prune_items in Hx. apply list_elem_of_In, in_flat_map in Hx as (y & Hy & Hx).
    apply list_elem_of_In in Hy. destruct (pruneComparableValue y) as [q|] eqn:E; [|done].
    destruct Hx as [->|[]]. etrans; [by apply (IH y Hy)|]. by apply (fold_max_elem json_depth).
  - intros Hp. apply prune_obj_Some in Hp as [-> _].
    cbn [json_depth]. apply le_n_S, (fold_max_le (fun kv => json_depth (snd kv))). intros [k x] Hx.
    rewrite Forall_forall in IH. unfold prune_entries in Hx.
    apply list_elem_of_In, in_flat_map in Hx as ([k' y] & Hy & Hx). apply list_elem_of_In in Hy. simpl in Hx.
    destruct (pruneComparableValue y) as [q|] eqn:E; [|done]. destruct Hx as [[= -> ->]|[]].
    etrans; [by apply (IH _ Hy)|]. by apply (fold_max_elem (fun kv => json_depth (snd kv)) m (k, y)).
Qed.

Lemma comparableDiffPaths_fuel f1 : forall f2 m c prefix,
  (json_depth (JObj m) <= f1)%nat -> (json_depth (JObj m) <= f2)%nat ->
  comparableDiffPaths f1 m c prefix = comparableDiffPaths f2 m c prefix.
Proof.
  induction f1 as [|f1 IH]; intros [|f2] m c prefix H1 H2; cbn [json_depth] in *; try lia.
  cbn [comparableDiffPaths]. apply flat_map_ext. intros key. unfold comparableDiffPathsForKey.
  destruct (map_get key m) as [x|] eqn:E; [|done]. cbn [default from_option id].
  destruct (pruneComparableValue x) as [p|] eqn:Ep; [|done].
  destruct (lookupMapKey c key) as [y|]; [|done].
  destruct p as [| | | | |pm], (default JNull (pruneComparableValue y)); try done.
  apply prune_depth in Ep. apply map_get_Some_elem in E.
  apply (fold_max_elem (fun kv => json_depth (snd kv))) in E. cbn [snd] in E.
  apply IH; cbn [json_depth] in *; lia.
Qed.

(** The recursion of [comparableDiffPaths] ends: any fuel of at least the
    nesting depth of the spec gives the same paths, so the fuel of the model
    never cuts a comparison short. *)
Theorem diff_paths_terminate (fuel : nat) (specValues currentValues : GoMap Json) (prefix : string)
  (enough : (json_depth (JObj specValues) <= fuel)%nat) :
  comparableDiffPaths fuel specValues currentValues prefix = diffPaths specValues currentValues prefix.
Proof. apply comparableDiffPaths_fuel; [done|]. unfold diffPaths. lia. Qed.

Lemma diff_paths_terminate_witness :
  comparableDiffPaths 1 [("a", JStr "x")] [("a", JStr "y")] "" = diffPaths [("a", JStr "x")] [("a", JStr "y")] "".
Proof. apply (diff_paths_terminate 1). vm_compute. repeat constructor. Defined.

(** ** Drift *)

Lemma insert_key_perm {A} (kv : string * A) m : insert_key kv m ≡ₚ kv :: m.
Proof.
  induction m as [|kv' m IH]; simpl; [done|]. destruct (String.leb _ _); [done|].
  rewrite IH. apply Permutation_swap.
Qed.

Lemma sort_keys_permutation {A} (m : GoMap A) : sort_keys m ≡ₚ m.
Proof. induction m as [|kv m IH]; simpl; [done|]. by rewrite insert_key_perm, IH. Qed.

Lemma sort_strings_perm l : sort_strings l ≡ₚ l.
Proof.
  unfold sort_strings. rewrite sort_keys_permutation, map_map. simpl. by rewrite map_id.
Qed.

Lemma appendUnique_one l p : appendUniqueStrings l [p] = if (p =? "")%string || containsString l p then l else l ++ [p].
Proof. simpl. by destruct ((p =? "")%string || containsString l p). Qed.

Lemma drift_fold_elem sem paths : forall acc q,
  q ∈ fold_left (fun unsupported path =>
    if pathCoveredByAny path (Mutable sem) then unsupported
    else if pathCoveredByAny path (ForceNew sem) then unsupported
    else appendUniqueStrings unsupported [path]) paths acc <->
  q ∈ acc \/ (q ∈ paths /\ q <> "" /\ pathCoveredByAny q (Mutable sem) = false /\ pathCoveredByAny q (ForceNew sem) = false).
Proof.
  induction paths as [|p paths IH]; intros acc q; cbn [fold_left]; [set_solver|].
  rewrite IH, appendUnique_one. clear IH.
  rewrite elem_of_cons.
  destruct (pathCoveredByAny p (Mutable sem)) eqn:E1.
  { split; [tauto|]. intros [?|([->|?] & ? & ? & ?)]; [tauto|congruence|tauto]. }
  destruct (pathCoveredByAny p (ForceNew sem)) eqn:E2.
  { split; [tauto|]. intros [?|([->|?] & ? & ? & ?)]; [tauto|congruence|tauto]. }
  destruct (p =? "")%string eqn:E3.
  { apply String.eqb_eq in E3. simpl. split; [tauto|].
    intros [?|([->|?] & ? & ? & ?)]; [tauto|congruence|tauto]. }
  apply String.eqb_neq in E3. simpl.
  destruct (containsString acc p) eqn:E4.
  - apply containsString_In in E4. split; [tauto|]. intros [?|([->|?] & ?)]; tauto.
  - rewrite elem_of_app, list_elem_of_singleton. split.
    + intros [[?| ->]|?]; tauto.
    + intros [?|([->|?] & ?)]; tauto.
Qed.

(** Drift is reported exactly: a path is rejected as unsupported update
    drift iff it is a differing path that neither a mutable nor a force-new path
    of the semantics covers. *)
Theorem unsupported_drift_exact (specValues currentValues : GoMap Json) (sem : MutationSemantics) (path : string) :
  path ∈ unsupportedUpdateDriftPaths specValues currentValues sem <->
  path ∈ diffPaths specValues currentValues "" /\ path <> "" /\
  pathCoveredByAny path (Mutable sem) = false /\ pathCoveredByAny path (ForceNew sem) = false.
Proof. unfold unsupportedUpdateDriftPaths. rewrite sort_strings_perm, drift_fold_elem. set_solver. Qed.

(** No spurious drift: a value compared with itself needs no replacement,
    whatever blanks and empty members it has, and a spec equal to the current
    values has no unsupported drift under any mutation semantics. *)
Theorem unchanged_spec_no_drift (v : Json) (m : GoMap Json) (sem : MutationSemantics)
  (uv : unique_keys v = true) (um : unique_keys (JObj m) = true) :
  forceNewValuesEqual v v = true /\ unsupportedUpdateDriftPaths m m sem = [].
Proof.
  split.
  - unfold forceNewValuesEqual. destruct (pruneComparableValue v) as [p|] eqn:E; [|done].
    pose proof (prune_unique v p uv E) as Hp. destruct p; try apply valuesEqual_refl.
    unfold diffPaths. by rewrite comparableDiffPaths_same.
  - unfold unsupportedUpdateDriftPaths, diffPaths. by rewrite comparableDiffPaths_same.
Qed.

Lemma unchanged_spec_no_drift_witness :
  forceNewValuesEqual (JObj [("a", JStr ""); ("b", JArr [JNull; JNum (mkDec 1 0)])])
    (JObj [("a", JStr ""); ("b", JArr [JNull; JNum (mkDec 1 0)])]) = true.
Proof.
  apply (unchanged_spec_no_drift (JObj [("a", JStr ""); ("b", JArr [JNull; JNum (mkDec 1 0)])]) []
           (mkMutation [] [] [] [])); vm_compute; reflexivity.
Defined.
