(* ===== verification/RequestBuilder.v ===== *)
(** * Building OCI requests and projecting responses

    Typed JSON decoding, and what [request_builder.go] and
    [response_reflection.go] build on it: conversion of lookup values into request
    fields (polymorphic SDK bodies included), explicit and heuristic requests, the
    deterministic retry token, and the projection of a response body into the
    resource status.

    [encoding/json] decodes into an existing value: it keeps what the document
    does not mention, and after a type mismatch goes on with the rest and reports
    the first mismatch.  Types with their own [UnmarshalJSON], the SDK's body
    types and [OSOKStatus] (whose times have one) decode through [JsonCodec]. *)

From stdpp Require Import gmap.
From Stdlib Require Import Ascii.
From S2P Require Import Prelude GoStrings Shared GoErrors GoValue AsyncStatus Secrets JsonValues Semantics SpecResolution MutationPolicy.
Local Open Scope string_scope.
Local Open Scope list_scope.
Local Open Scope go_scope.

(** ** Typed decoding *)

(** Decoders that are not in the operator's sources: of a type with its own [UnmarshalJSON] (by
    type name, into the old value), of an SDK body type, and of an object into an [OSOKStatus]. *)
Class JsonCodec := {
  codec_custom : string -> Json -> GoValue -> GoValue * option string;
  codec_sdk : string -> Json -> result GoValue string;
  codec_osok : GoMap Json -> OSOKStatus -> OSOKStatus * option string
}.

(** A decoded value as an [any]. *)
Fixpoint json_to_value (j : Json) : GoValue :=
  match j with
  | JNull => VNil
  | JBool b => VBool b
  | JNum n => VFloat n
  | JStr s => VString s
  | JArr l => VSlice TIface (Some (map (fun x => VIface (Some (json_to_value x))) l))
  | JObj m => VMap TIface (Some (map (fun kv => (fst kv, VIface (Some (json_to_value (snd kv))))) m))
  end.

(** [reflect.Zero]. *)
Fixpoint zero_of (t : GoType) : GoValue :=
  match t with
  | TBool => VBool false
  | TInt => VInt 0
  | TFloat => VFloat (mkDec 0 0)
  | TString => VString ""
  | TPtr t => VPtr t None
  | TIface => VIface None
  | TStruct n fs => VStruct n (map (fun ft => (fst ft, zero_of (snd ft))) fs)
  | TSlice t => VSlice t None
  | TMap t => VMap t None
  | TOsok => VOsok emptyStatus
  | TMarshaler n => VMarshaler n (Ok JNull)
  end.

(** Decode through pointers, allocating nil ones. *)
Fixpoint at_type (f : GoValue -> GoValue * option string) (t : GoType) : GoValue * option string :=
  match t with
  | TPtr t => let (x, e) := at_type f t in (VPtr t (Some x), e)
  | _ => f (zero_of t)
  end.
Fixpoint at_target (f : GoValue -> GoValue * option string) (v : GoValue) : GoValue * option string :=
  match v with
  | VPtr t None => let (x, e) := at_type f t in (VPtr t (Some x), e)
  | VPtr t (Some x) => let (x, e) := at_target f x in (VPtr t (Some x), e)
  | _ => f v
  end.

(** The field of a struct that a key names: its own fields first, then those of inlined structs;
    [p] is the match on encoded names. *)
Fixpoint update_named (p : string -> bool) (f : GoValue -> GoValue * option string) (v : GoValue)
  : option (GoValue * option string) :=
  match v with
  | VPtr t (Some x) => option_map (fun '(x, e) => (VPtr t (Some x), e)) (update_named p f x)
  | VStruct n fs =>
      match (fix own (l : list (StructField * GoValue)) : option (list (StructField * GoValue) * option string) :=
               match l with
               | [] => None
               | (sf, x) :: r =>
                   if sf_Exported sf && negb (sf_json sf =? "-")%string && negb (inlined sf x) && p (encoded_name sf)
                   then let (x, e) := f x in Some ((sf, x) :: r, e)
                   else option_map (fun '(r, e) => ((sf, x) :: r, e)) (own r)
               end) fs with
      | Some (fs, e) => Some (VStruct n fs, e)
      | None =>
          option_map (fun '(fs, e) => (VStruct n fs, e))
            ((fix embedded (l : list (StructField * GoValue)) : option (list (StructField * GoValue) * option string) :=
                match l with
                | [] => None
                | (sf, x) :: r =>
                    match (if inlined sf x then update_named p f x else None) with
                    | Some (x, e) => Some ((sf, x) :: r, e)
                    | None => option_map (fun '(r, e) => ((sf, x) :: r, e)) (embedded r)
                    end
                end) fs)
      end
  | _ => None
  end.

Definition json_kind (j : Json) : string :=
  match j with
  | JNull => "null" | JBool _ => "bool" | JNum _ => "number" | JStr _ => "string" | JArr _ => "array" | JObj _ => "object"
  end.
Definition mismatch (j : Json) (v : GoValue) : GoValue * option string := (v, Some ("json: cannot unmarshal " +++ json_kind j)).

Definition first_error (a b : option string) : option string := match a with Some e => Some e | None => b end.

(** The value of an integral decimal. *)
Definition dec_int (d : Dec) : option Z :=
  let n := dec_norm d in if (0 <=? dec_exp n)%Z then Some (dec_mant n * 10 ^ dec_exp n)%Z else None.

(** The keys of an object, each into the struct field it names: exactly, else up to case. *)
Section DecodeKeys.
Context (decode : Json -> GoValue -> GoValue * option string).

Definition decode_key (k : string) (x : Json) (acc : GoValue) : GoValue * option string :=
  match update_named (String.eqb k) (decode x) acc with
  | Some r => r
  | None => default (acc, None) (update_named (EqualFold k) (decode x) acc)
  end.

Fixpoint decode_keys (m : GoMap Json) (acc : GoValue) (err : option string) : GoValue * option string :=
  match m with
  | [] => (acc, err)
  | (k, x) :: r => let (acc, e) := decode_key k x acc in decode_keys r acc (first_error err e)
  end.
End DecodeKeys.

Section Decode.
Context `{JsonCodec}.

(** [json.Unmarshal] of a document into a value: the value afterwards and the error. *)
Fixpoint decode_into (j : Json) (v : GoValue) : GoValue * option string :=
  match j, v with
  | JNull, VPtr t _ => (VPtr t None, None)
  | JNull, VIface _ => (VIface None, None)
  | JNull, VSlice t _ => (VSlice t None, None)
  | JNull, VMap t _ => (VMap t None, None)
  | _, _ =>
      at_target (fun target =>
        match target with
        | VMarshaler n _ => codec_custom n j target
        | VIface _ => (VIface (Some (json_to_value j)), None)
        | _ =>
            match j, target with
            | JNull, _ => (target, None)
            | JBool b, VBool _ => (VBool b, None)
            | JNum d, VFloat _ => (VFloat d, None)
            | JNum d, VInt _ => match dec_int d with Some z => (VInt z, None) | None => mismatch j target end
            | JStr s, VString _ => (VString s, None)
            | JObj m, VOsok s => let (s, e) := codec_osok m s in (VOsok s, e)
            | JObj m, VStruct _ _ =>
                decode_keys decode_into m target None
            | JObj m, VMap t old =>
                (fix entries (m : GoMap Json) (acc : GoMap GoValue) (err : option string) : GoValue * option string :=
                   match m with
                   | [] => (VMap t (Some acc), err)
                   | (k, x) :: r =>
                       let (x, e) := decode_into x (zero_of t) in entries r (map_set k x acc) (first_error err e)
                   end) m (default [] old) None
            | JArr l, VSlice t _ =>
                (fix items (l : list Json) (acc : list GoValue) (err : option string) : GoValue * option string :=
                   match l with
                   | [] => (VSlice t (Some acc), err)
                   | x :: r =>
                       let (x, e) := decode_into x (zero_of t) in items r (acc ++ [x]) (first_error err e)
                   end) l [] None
            | _, _ => mismatch j target
            end
        end) v
  end.

(** ** Conversion of lookup values *)

Definition jsonFieldString (payload : Json) (field : string) : result string GoError :=
  match payload with
  | JObj values =>
      match map_get field values with
      | None | Some JNull => Ok ""
      | Some (JStr s) => Ok s
      | Some j => Err (ErrText ("json: cannot unmarshal " +++ json_kind j +++ " into Go value of type string"))
      end
  | JNull => Ok ""
  | j => Err (ErrText ("json: cannot unmarshal " +++ json_kind j +++ " into Go value of type map[string]json.RawMessage"))
  end.

(** A discriminator switch: the concrete type of the trimmed, upper-cased token. *)
Definition discriminate (table : list (string * string)) (unsupported token : string) : result string GoError :=
  match map_get (ToUpper (TrimSpace token)) table with
  | Some concrete => Ok concrete
  | None => Err (ErrText (unsupported +++ " " +++ Quote token))
  end.

Definition concrete_by (field decodeText unsupported : string) (table : list (string * string)) (payload : Json)
  : result string GoError :=
  match jsonFieldString payload field with
  | Err e => Err (ErrWrap (decodeText +++ ": " +++ ErrorString e) e)
  | Ok token => discriminate table unsupported token
  end.

Definition autonomousDatabaseBaseConcreteType (source : string) : result string GoError :=
  discriminate
    [("", "CreateAutonomousDatabaseDetails"); ("NONE", "CreateAutonomousDatabaseDetails");
     ("DATABASE", "CreateAutonomousDatabaseCloneDetails");
     ("CLONE_TO_REFRESHABLE", "CreateRefreshableAutonomousDatabaseCloneDetails");
     ("BACKUP_FROM_ID", "CreateAutonomousDatabaseFromBackupDetails");
     ("BACKUP_FROM_TIMESTAMP", "CreateAutonomousDatabaseFromBackupTimestampDetails");
     ("CROSS_REGION_DISASTER_RECOVERY", "CreateCrossRegionDisasterRecoveryDetails");
     ("CROSS_REGION_DATAGUARD", "CreateCrossRegionAutonomousDatabaseDataGuardDetails")]
    "unsupported CreateAutonomousDatabaseBase source" source.

Definition databaseToolsConnectionCreateConcreteType : Json -> result string GoError :=
  concrete_by "type" "decode DatabaseToolsConnection create type" "unsupported CreateDatabaseToolsConnectionDetails type"
    [("GENERIC_JDBC", "CreateDatabaseToolsConnectionGenericJdbcDetails");
     ("POSTGRESQL", "CreateDatabaseToolsConnectionPostgresqlDetails");
     ("MYSQL", "CreateDatabaseToolsConnectionMySqlDetails");
     ("ORACLE_DATABASE", "CreateDatabaseToolsConnectionOracleDatabaseDetails")].

Definition databaseToolsConnectionUpdateConcreteType : Json -> result string GoError :=
  concrete_by "type" "decode DatabaseToolsConnection update type" "unsupported UpdateDatabaseToolsConnectionDetails type"
    [("GENERIC_JDBC", "UpdateDatabaseToolsConnectionGenericJdbcDetails");
     ("POSTGRESQL", "UpdateDatabaseToolsConnectionPostgresqlDetails");
     ("MYSQL", "UpdateDatabaseToolsConnectionMySqlDetails");
     ("ORACLE_DATABASE", "UpdateDatabaseToolsConnectionOracleDatabaseDetails")].

Definition connectionCreateConcreteType : Json -> result string GoError :=
  concrete_by "connectionType" "decode Connection create type" "unsupported CreateConnectionDetails type"
    [("MYSQL", "CreateMysqlConnectionDetails"); ("ORACLE", "CreateOracleConnectionDetails")].

Definition connectionUpdateConcreteType : Json -> result string GoError :=
  concrete_by "connectionType" "decode Connection update type" "unsupported UpdateConnectionDetails type"
    [("MYSQL", "UpdateMysqlConnectionDetails"); ("ORACLE", "UpdateOracleConnectionDetails")].

Definition configCreateConcreteType : Json -> result string GoError :=
  concrete_by "configType" "decode Config create type" "unsupported CreateConfigDetails type"
    [("AGENT", "CreateAgentConfigDetails"); ("APDEX", "CreateApdexRulesDetails");
     ("MACS_APM_EXTENSION", "CreateMacsApmExtensionDetails"); ("METRIC_GROUP", "CreateMetricGroupDetails");
     ("OPTIONS", "CreateOptionsDetails"); ("SPAN_FILTER", "CreateSpanFilterDetails")].

Definition configUpdateConcreteType : Json -> result string GoError :=
  concrete_by "configType" "decode Config update type" "unsupported UpdateConfigDetails type"
    [("AGENT", "UpdateAgentConfigDetails"); ("APDEX", "UpdateApdexRulesDetails");
     ("MACS_APM_EXTENSION", "UpdateMacsApmExtensionDetails"); ("METRIC_GROUP", "UpdateMetricGroupDetails");
     ("OPTIONS", "UpdateOptionsDetails"); ("SPAN_FILTER", "UpdateSpanFilterDetails")].

Definition dashboardCreateConcreteType : Json -> result string GoError :=
  concrete_by "schemaVersion" "decode Dashboard create schemaVersion" "unsupported CreateDashboardDetails schemaVersion"
    [("", "CreateV1DashboardDetails"); ("V1", "CreateV1DashboardDetails")].

Definition dashboardUpdateConcreteType : Json -> result string GoError :=
  concrete_by "schemaVersion" "decode Dashboard update schemaVersion" "unsupported UpdateDashboardDetails schemaVersion"
    [("", "UpdateV1DashboardDetails"); ("V1", "UpdateV1DashboardDetails")].

(** The [convert...] functions: decode into the concrete SDK type, which implements the interface. *)
Definition convert_concrete (concrete : result string GoError) (payload : Json) : result GoValue GoError :=
  match concrete with
  | Err e => Err e
  | Ok concreteType =>
      match codec_sdk concreteType payload with
      | Err text => Err (ErrWrap ("unmarshal into " +++ concreteType +++ ": " +++ text) (ErrText text))
      | Ok body => Ok body
      end
  end.

Definition convertAutonomousDatabaseBase (payload : Json) : result GoValue GoError :=
  match jsonFieldString payload "source" with
  | Err e => Err (ErrWrap ("decode autonomous database source: " +++ ErrorString e) e)
  | Ok source => convert_concrete (autonomousDatabaseBaseConcreteType source) payload
  end.
Definition convertConnectionCreateDetails (payload : Json) := convert_concrete (connectionCreateConcreteType payload) payload.
Definition convertConnectionUpdateDetails (payload : Json) := convert_concrete (connectionUpdateConcreteType payload) payload.
Definition convertDatabaseToolsConnectionCreateDetails (payload : Json) :=
  convert_concrete (databaseToolsConnectionCreateConcreteType payload) payload.
Definition convertDatabaseToolsConnectionUpdateDetails (payload : Json) :=
  convert_concrete (databaseToolsConnectionUpdateConcreteType payload) payload.
Definition convertConfigCreateDetails (payload : Json) := convert_concrete (configCreateConcreteType payload) payload.
Definition convertConfigUpdateDetails (payload : Json) := convert_concrete (configUpdateConcreteType payload) payload.
Definition convertDashboardCreateDetails (payload : Json) := convert_concrete (dashboardCreateConcreteType payload) payload.
Definition convertDashboardUpdateDetails (payload : Json) := convert_concrete (dashboardUpdateConcreteType payload) payload.

(** [convertPolymorphicInterfaceValue]: [None] when the type is not one of the known interfaces. *)
Definition convertPolymorphicInterfaceValue (payload : Json) (typeName : string) : option (result GoValue GoError) :=
  option_map (fun convert => convert payload)
    (map_get typeName
       [("database.CreateAutonomousDatabaseBase", convertAutonomousDatabaseBase);
        ("databasemigration.CreateConnectionDetails", convertConnectionCreateDetails);
        ("databasemigration.UpdateConnectionDetails", convertConnectionUpdateDetails);
        ("apmconfig.CreateConfigDetails", convertConfigCreateDetails);
        ("apmconfig.UpdateConfigDetails", convertConfigUpdateDetails);
        ("databasetools.CreateDatabaseToolsConnectionDetails", convertDatabaseToolsConnectionCreateDetails);
        ("databasetools.UpdateDatabaseToolsConnectionDetails", convertDatabaseToolsConnectionUpdateDetails);
        ("dashboardservice.CreateDashboardDetails", convertDashboardCreateDetails);
        ("dashboardservice.UpdateDashboardDetails", convertDashboardUpdateDetails)]).

(** [convertValue] for a field: the target type is the field's. *)
Definition convertValue (raw : GoValue) (sf : StructField) (old : GoValue) : result GoValue GoError :=
  let target := zero_of (type_of old) in
  match raw with
  | VNil => Ok target
  | _ =>
      match to_json raw with
      | Err e => Err (ErrWrap ("marshal source value: " +++ e) (ErrText e))
      | Ok payload =>
          let decode :=
            match decode_into payload target with
            | (_, Some e) => Err (ErrWrap ("unmarshal into " +++ sf_TypeName sf +++ ": " +++ e) (ErrText e))
            | (v, None) => Ok v
            end in
          match target with
          | VIface _ =>
              match convertPolymorphicInterfaceValue payload (sf_TypeName sf) with
              | Some (Ok body) => Ok (VIface (Some body))
              | Some (Err e) => Err e
              | None =>
                  if (sf_TypeName sf =? "interface {}")%string then decode
                  else match payload with
                       | JNull => Ok target
                       | _ => Err (ErrWrap ("unmarshal into " +++ sf_TypeName sf +++ ": json: cannot unmarshal "
                                            +++ json_kind payload)
                                     (ErrText ("json: cannot unmarshal " +++ json_kind payload)))
                       end
              end
          | _ => decode
          end
      end
  end.

(** [assignField] on a field of the request struct. *)
Definition assignField (fs : list (StructField * GoValue)) (sf : StructField) (old raw : GoValue)
  : result (list (StructField * GoValue)) GoError :=
  match convertValue raw sf old with
  | Err e => Err e
  | Ok v => Ok (set_field (sf_Name sf) v fs)
  end.
End Decode.

(** ** Requests *)

(** [requestBuildOptions]; the context only carries cancellation. *)
Record requestBuildOptions (W : Type) := mkOptions {
  opt_CredentialClient : option (CredentialClient W);
  opt_Namespace : string;
  opt_CurrentResponse : GoValue
}.
Arguments mkOptions {W}.
Arguments opt_CredentialClient {W}.
Arguments opt_Namespace {W}.
Arguments opt_CurrentResponse {W}.

Definition emptyOptions {W} : requestBuildOptions W := mkOptions None "" VNil.

Definition requestNeedsResolvedSpec (fields : list RequestField) (requestFields : list (StructField * GoValue)) : bool :=
  match fields with
  | [] => existsb (fun fv => (sf_contributesTo (fst fv) =? "body")%string) requestFields
  | _ => existsb (fun field => (Contribution field =? "body")%string) fields
  end.

(** [operationRequestStruct]: the struct behind the request pointer; [None] is [(_, false)]. *)
Definition operationRequestStruct (newRequest : option GoValue) : option (string * list (StructField * GoValue)) :=
  match newRequest with
  | Some (VPtr _ (Some (VStruct n fs))) => Some (n, fs)
  | _ => None
  end.

Section Build.
Context `{JsonCodec}.

Fixpoint buildExplicitRequest (requestFields : list (StructField * GoValue)) (values : option (GoMap Json))
  (preferredID : string) (fields : list RequestField) (resolvedSpec : GoValue)
  : result (list (StructField * GoValue)) GoError :=
  match fields with
  | [] => Ok requestFields
  | field :: r =>
      match find_first (fun fv => (sf_Name (fst fv) =? FieldName field)%string) requestFields with
      | None => buildExplicitRequest requestFields values preferredID r resolvedSpec
      | Some (sf, old) =>
          if negb (sf_Exported sf) then buildExplicitRequest requestFields values preferredID r resolvedSpec
          else if (Contribution field =? "header")%string || (Contribution field =? "binary")%string then
            buildExplicitRequest requestFields values preferredID r resolvedSpec
          else if (Contribution field =? "body")%string then
            match assignField requestFields sf old resolvedSpec with
            | Err e => Err (ErrWrap ("set body field " +++ FieldName field +++ ": " +++ ErrorString e) e)
            | Ok requestFields => buildExplicitRequest requestFields values preferredID r resolvedSpec
            end
          else
            match explicitRequestValue values field preferredID with
            | None => buildExplicitRequest requestFields values preferredID r resolvedSpec
            | Some rawValue =>
                match assignField requestFields sf old (json_to_value rawValue) with
                | Err e => Err (ErrWrap ("set request field " +++ FieldName field +++ ": " +++ ErrorString e) e)
                | Ok requestFields => buildExplicitRequest requestFields values preferredID r resolvedSpec
                end
            end
      end
  end.

(** [populateHeuristicRequestField]: the new value of the field. *)
Definition populateHeuristicRequestField (sf : StructField) (old : GoValue) (values : option (GoMap Json))
  (preferredID : string) (idAliases : list string) (resolvedSpec : GoValue) : result GoValue GoError :=
  if negb (sf_Exported sf) || (sf_Name sf =? "RequestMetadata")%string then Ok old
  else if (sf_contributesTo sf =? "header")%string || (sf_contributesTo sf =? "binary")%string then Ok old
  else if (sf_contributesTo sf =? "body")%string then
    match convertValue resolvedSpec sf old with
    | Err e => Err (ErrWrap ("set body field " +++ sf_Name sf +++ ": " +++ ErrorString e) e)
    | Ok v => Ok v
    end
  else
    match heuristicRequestValue values sf preferredID idAliases with
    | None => Ok old
    | Some rawValue =>
        match convertValue (json_to_value rawValue) sf old with
        | Err e => Err (ErrWrap ("set request field " +++ sf_Name sf +++ ": " +++ ErrorString e) e)
        | Ok v => Ok v
        end
    end.

Fixpoint buildHeuristicRequest (requestFields : list (StructField * GoValue)) (values : option (GoMap Json))
  (preferredID : string) (idAliases : list string) (resolvedSpec : GoValue)
  : result (list (StructField * GoValue)) GoError :=
  match requestFields with
  | [] => Ok []
  | (sf, old) :: r =>
      match populateHeuristicRequestField sf old values preferredID idAliases resolvedSpec with
      | Err e => Err e
      | Ok v =>
          match buildHeuristicRequest r values preferredID idAliases resolvedSpec with
          | Err e => Err e
          | Ok r => Ok ((sf, v) :: r)
          end
      end
  end.

(** [assignDeterministicRetryToken]: only an unset token is filled; a conversion error is ignored. *)
Definition assignDeterministicRetryToken (digest : string -> string) (requestFields : list (StructField * GoValue))
  (resource : GoValue) : list (StructField * GoValue) :=
  match find_first (fun fv => (sf_Name (fst fv) =? "OpcRetryToken")%string) requestFields with
  | None => requestFields
  | Some (sf, old) =>
      if negb (sf_Exported sf) then requestFields
      else
        let unset := match old with
                     | VPtr _ None => true
                     | VString s => (TrimSpace s =? "")%string
                     | _ => false
                     end in
        if negb unset then requestFields
        else
          let token := resourceRetryToken digest resource in
          if (token =? "")%string then requestFields
          else match assignField requestFields sf old (VString token) with
               | Ok requestFields => requestFields
               | Err _ => requestFields
               end
  end.

(** [buildRequest]: the filled request; [bodyOverride] is [Some] when the caller built the body. *)
Definition buildRequest {W} (digest : string -> string) (request resource : GoValue) (values : option (GoMap Json))
  (preferredID : string) (fields : list RequestField) (idAliases : list string) (options : requestBuildOptions W)
  (bodyOverride : option GoValue) : ST W (result GoValue GoError) :=
  match request with
  | VPtr t (Some (VStruct n requestFields)) =>
      let* resolved :=
        match bodyOverride with
        | Some body => st_ret (Ok body)
        | None =>
            if requestNeedsResolvedSpec fields requestFields then
              let* r := resolvedSpecValue (opt_CredentialClient options) (opt_Namespace options) resource in
              st_ret (match r with Ok j => Ok (json_to_value j) | Err e => Err e end)
            else st_ret (Ok VNil)
        end in
      match resolved with
      | Err e => st_ret (Err e)
      | Ok resolvedSpec =>
          let built :=
            match fields with
            | [] => buildHeuristicRequest requestFields values preferredID idAliases resolvedSpec
            | _ => buildExplicitRequest requestFields values preferredID fields resolvedSpec
            end in
          st_ret (match built with
                  | Err e => Err e
                  | Ok fs => Ok (VPtr t (Some (VStruct n (assignDeterministicRetryToken digest fs resource))))
                  end)
      end
  | VPtr _ (Some _) => st_ret (Err (ErrText "expected pointer to OCI request struct"))
  | _ => st_ret (Err (ErrText "expected pointer OCI request"))
  end.

(** ** Projection of a response body into the status *)

(** [mergeResponseIntoStatus]: the resource afterwards and the error; a mismatch keeps what was
    decoded. *)
Definition mergeResponseIntoStatus (resource response : GoValue) : GoValue * option GoError :=
  match responseBody response with
  | None | Some VNil => (resource, None)
  | Some body =>
      match statusStruct resource with
      | Err e => (resource, Some e)
      | Ok statusValue =>
          match to_json body with
          | Err e => (resource, Some (ErrWrap ("marshal OCI response body: " +++ e) (ErrText e)))
          | Ok payload =>
              let (status, err) := decode_into payload statusValue in
              let resource := match resource with
                              | VPtr t (Some (VStruct n fs)) => VPtr t (Some (VStruct n (set_field "Status" status fs)))
                              | _ => resource
                              end in
              (resource, match err with
                         | Some e => Some (ErrWrap ("project OCI response body into status: " +++ e) (ErrText e))
                         | None => None
                         end)
          end
      end
  end.
End Build.

(** ** Theorems *)

(** Decoding into [any] and encoding again gives the document. *)
Lemma to_json_json_to_value (j : Json) : to_json (json_to_value j) = Ok j.
Proof.
  induction j as [| | | |l IH|m IH] using Json_ind'; try done; cbn [json_to_value to_json].
  - induction IH as [|x l Hx _ IHl]; [done|]. cbn [map to_json]. rewrite Hx. cbn [result_bind] in *.
    match goal with |- context [result_bind (?g (map _ l))] => destruct (g (map (fun x => VIface (Some (json_to_value x))) l)) end;
      simpl in *; congruence.
  - induction IH as [|[k x] m Hx _ IHm]; [done|]. cbn [map to_json fst snd] in *. rewrite Hx. cbn [result_bind] in *.
    match goal with |- context [result_bind (?g (map ?h m))] => destruct (g (map h m)) end; simpl in *; congruence.
Qed.
#[export] Hint Rewrite to_json_json_to_value : osok.

Section Projection.
Context `{JsonCodec}.

(** The [OsokStatus] field as the generated status types declare it. *)
Definition osok_field (sf : StructField) : Prop :=
  sf_Name sf = "OsokStatus" /\ sf_Exported sf = true /\ sf_json sf = "status".

Definition has_osok (s : OSOKStatus) (v : GoValue) : Prop :=
  exists n fs sf, v = VStruct n fs /\ osok_field sf /\
    find_first (fun fv => (sf_Name (fst fv) =? "OsokStatus")%string) fs = Some (sf, VOsok s).

Lemma osok_field_encoded sf : osok_field sf -> encoded_name sf = "status".
Proof. intros (Hn & He & Hj). unfold encoded_name, tag_name. by rewrite Hj. Qed.

(** Decoding a key that does not name it keeps the [OsokStatus] field. *)
Lemma update_named_keeps_osok p f s v v' e :
  p "status" = false -> has_osok s v -> update_named p f v = Some (v', e) -> has_osok s v'.
Proof.
  intros Hp (n & fs & sf & -> & Hsf & Hf) Hu. pose proof (osok_field_encoded sf Hsf) as Hen.
  cbn [update_named] in Hu.
  match type of Hu with match ?o with _ => _ end = _ => destruct o as [[fs' e']|] eqn:Eown end.
  - injection Hu as <- <-. exists n, fs', sf. split; [done|]. split; [done|].
    clear -Hf Eown Hp Hen. revert fs' Eown.
    induction fs as [|[g x] fs IH]; [done|]; intros fs' Eown; cbn [find_first fst] in *.
    destruct (sf_Name g =? "OsokStatus")%string eqn:En.
    + injection Hf as -> ->. rewrite Hen, Hp, !andb_false_r in Eown.
      match type of Eown with option_map _ ?o = _ => destruct o as [[r e2]|] end; [|done].
      injection Eown as <- <-. cbn [find_first fst]. by rewrite En.
    + case_hyp Eown.
      * destruct (f x) as [y e2]. injection Eown as <- <-. cbn [find_first fst]. by rewrite En.
      * match type of Eown with option_map _ ?o = _ => destruct o as [[r e2]|] eqn:Er end; [|done].
        injection Eown as <- <-. cbn [find_first fst]. rewrite En. by apply IH.
  - clear Eown.
    match type of Hu with option_map _ ?o = _ => destruct o as [[fs' e']|] eqn:Eemb end; [|done].
    injection Hu as <- <-. exists n, fs', sf. split; [done|]. split; [done|].
    clear -Hf Eemb Hp Hen. revert fs' Eemb.
    induction fs as [|[g x] fs IH]; [done|]; intros fs' Eemb; cbn [find_first fst] in *.
    destruct (sf_Name g =? "OsokStatus")%string eqn:En.
    + injection Hf as -> ->. unfold inlined in Eemb. rewrite andb_false_r in Eemb.
      match type of Eemb with option_map _ ?o = _ => destruct o as [[r e2]|] end; [|done].
      injection Eemb as <- <-. cbn [find_first fst]. by rewrite En.
    + destruct (if inlined g x then update_named p f x else None) as [[y e2]|].
      * injection Eemb as <- <-. cbn [find_first fst]. by rewrite En.
      * match type of Eemb with option_map _ ?o = _ => destruct o as [[r e2]|] eqn:Er end; [|done].
        injection Eemb as <- <-. cbn [find_first fst]. rewrite En. by apply IH.
Qed.

Lemma decode_key_keeps_osok dec k x s v :
  EqualFold k "status" = false -> has_osok s v -> has_osok s (fst (decode_key dec k x v)).
Proof.
  intros Hk Hv. unfold decode_key.
  assert (Heq : (k =? "status")%string = false).
  { apply String.eqb_neq. intros ->. by vm_compute in Hk. }
  destruct (update_named (String.eqb k) _ v) as [[v' e]|] eqn:E;
    [exact (update_named_keeps_osok _ _ _ _ _ _ Heq Hv E)|].
  destruct (update_named (EqualFold k) _ v) as [[v' e]|] eqn:E'; [|done].
  exact (update_named_keeps_osok _ _ _ _ _ _ Hk Hv E').
Qed.

Lemma decode_keys_keeps_osok dec m s v err :
  Forall (fun kv => EqualFold (fst kv) "status" = false) m -> has_osok s v -> has_osok s (fst (decode_keys dec m v err)).
Proof.
  intros Hm. revert v err. induction Hm as [|[k x] m Hk _ IH]; intros v err Hv; [done|].
  cbn [decode_keys]. pose proof (decode_key_keeps_osok dec k x s v Hk Hv) as Hv'.
  destruct (decode_key dec k x v) as [v' e]. by apply IH.
Qed.

(** Once a mismatch was reported, decoding the other keys still reports it. *)
Lemma decode_keys_error dec m v e : snd (decode_keys dec m v (Some e)) = Some e.
Proof. revert v. induction m as [|[k x] m IH]; intros v; [done|]. cbn [decode_keys]. destruct (decode_key _ _ _ _). apply IH. Qed.

(** A resource whose status struct declares [OsokStatus] first, as the generated types do. *)
Definition generated_resource (s : OSOKStatus) (resource : GoValue) : Prop :=
  exists t n fs sn sf sfs,
    resource = VPtr t (Some (VStruct n fs)) /\
    struct_field "Status" fs = Some (VStruct sn ((sf, VOsok s) :: sfs)) /\ osok_field sf.

Lemma generated_resource_parts s r :
  generated_resource s r -> exists v, statusStruct r = Ok v /\ has_osok s v /\ osokStatus r = Ok s.
Proof.
  intros (t & n & fs & sn & sf & sfs & -> & Hs & Hsf). eexists. unfold osokStatus, statusStruct. cbn [resourceStruct].
  rewrite (fieldByName_struct_field _ _ _ _ Hs). split; [done|]. split.
  - exists sn, ((sf, VOsok s) :: sfs), sf. split; [done|]. split; [done|]. cbn [find_first fst].
    destruct Hsf as (-> & _). done.
  - assert (struct_field "OsokStatus" ((sf, VOsok s) :: sfs) = Some (VOsok s)) as Hf.
    { unfold struct_field. cbn [find_first fst]. by destruct Hsf as (-> & _). }
    by rewrite (fieldByName_struct_field _ _ _ _ Hf).
Qed.

(** Writing a struct that has the field as the [Status] of the resource. *)
Lemma osokStatus_write s s' r v :
  generated_resource s r -> has_osok s' v ->
  osokStatus (match r with
              | VPtr t (Some (VStruct n fs)) => VPtr t (Some (VStruct n (set_field "Status" v fs)))
              | _ => r
              end) = Ok s'.
Proof.
  intros (t & n & fs & sn & sf & sfs & -> & Hs & _) (n' & fs' & sf' & -> & _ & Hf).
  unfold osokStatus, statusStruct. cbn [resourceStruct].
  erewrite (fieldByName_struct_field "Status") by (apply struct_field_set_eq; by rewrite Hs).
  rewrite (fieldByName_struct_field "OsokStatus" n' fs' (VOsok s')); [done|]. unfold struct_field. by rewrite Hf.
Qed.

(** Projecting a response body into the status leaves the operator's own tracking block
    ([Status.OsokStatus], JSON name "status") untouched, whatever else the body sets and whether or
    not some of its values mismatch, as long as the body has no "status" key (in any case). *)
Theorem projection_keeps_tracking (resource response body : GoValue) (m : GoMap Json) (s : OSOKStatus) :
  generated_resource s resource ->
  responseBody response = Some body -> to_json body = Ok (JObj m) ->
  Forall (fun kv => EqualFold (fst kv) "status" = false) m ->
  osokStatus (fst (mergeResponseIntoStatus resource response)) = Ok s.
Proof.
  intros Hr Hb Hj Hm. unfold mergeResponseIntoStatus. rewrite Hb.
  destruct (generated_resource_parts _ _ Hr) as (v & Hv & Ho & Hold). rewrite Hv, Hj.
  assert (Ho' : has_osok s (fst (decode_into (JObj m) v))).
  { destruct Ho as (n & fs & sf & -> & Hsf & Hf). cbn [decode_into at_target].
    apply decode_keys_keeps_osok; [done|]. by exists n, fs, sf. }
  destruct (decode_into (JObj m) v) as [v' e]. cbn [fst] in Ho'.
  pose proof (osokStatus_write _ _ _ _ Hr Ho') as Hw. by destruct body.
Qed.

(** Decoding into a struct headed by the tracking block keeps that shape. *)
Definition osok_headed (n : string) (sf : StructField) (v : GoValue) : Prop :=
  exists s fs, v = VStruct n ((sf, VOsok s) :: fs).

Lemma decode_into_osok y s : exists s', fst (decode_into y (VOsok s)) = VOsok s'.
Proof. destruct y; simpl; eauto. destruct (codec_osok m s); simpl; eauto. Qed.

Lemma update_named_headed p f n sf v r :
  (forall s, exists s', fst (f (VOsok s)) = VOsok s') -> osok_headed n sf v ->
  update_named p f v = Some r -> osok_headed n sf (fst r).
Proof.
  intros Hf (s & fs & ->). cbn [update_named]. unfold osok_headed.
  assert (inlined sf (VOsok s) = false) as -> by (unfold inlined; by rewrite andb_false_r).
  destruct (sf_Exported sf && _ && _ && p _).
  - destruct (Hf s) as [s' Hs']. destruct (f (VOsok s)) as [x e]. simpl in Hs'. subst x. intros [= <-]. simpl. eauto.
  - match goal with |- context [match option_map _ ?o with _ => _ end] => destruct o as [[r1 e1]|] end; simpl.
    + intros [= <-]. simpl. eauto.
    + match goal with |- context [option_map _ (option_map _ ?o)] => destruct o as [[r2 e2]|] end; simpl; [|done].
      intros [= <-]. simpl. eauto.
Qed.

Lemma decode_key_headed k y n sf v : osok_headed n sf v -> osok_headed n sf (fst (decode_key decode_into k y v)).
Proof.
  intros Hv. unfold decode_key.
  destruct (update_named (String.eqb k) _ v) as [r|] eqn:E;
    [exact (update_named_headed _ _ _ _ _ _ (decode_into_osok y) Hv E)|].
  destruct (update_named (EqualFold k) _ v) as [r|] eqn:E'; [|done].
  exact (update_named_headed _ _ _ _ _ _ (decode_into_osok y) Hv E').
Qed.

(** A textual status member never decodes into the tracking block. *)
Lemma decode_keys_status m x sf n v err :
  osok_field sf -> osok_headed n sf v -> ("status", JStr x) ∈ m -> is_Some (snd (decode_keys decode_into m v err)).
Proof.
  intros Hsf. revert v err. induction m as [|[k y] m IH]; intros v err Hv Hin; [by apply elem_of_nil in Hin|].
  cbn [decode_keys]. apply elem_of_cons in Hin as [[= <- <-]|Hin].
  - destruct Hv as (s & fs & ->). pose proof (osok_field_encoded sf Hsf) as Hen. destruct Hsf as (Hn & He & Hj).
    unfold decode_key. cbn [update_named]. rewrite He, Hj, Hen.
    assert (inlined sf (VOsok s) = false) as -> by (unfold inlined; by rewrite andb_false_r). cbn.
    unfold mismatch. destruct err; cbn [first_error]; rewrite decode_keys_error; eauto.
  - pose proof (decode_key_headed k y n sf v Hv) as Hv'. destruct (decode_key decode_into k y v) as [v' e].
    by apply IH.
Qed.

(** A response body with a textual "status" member, which [responseLifecycleState] reads as a
    lifecycle state, cannot be projected: its name is the JSON name of the tracking block, and the
    projection reports an error. *)
Theorem status_member_breaks_projection (resource response body : GoValue) (m : GoMap Json) (x : string) (s : OSOKStatus) :
  generated_resource s resource ->
  responseBody response = Some body -> to_json body = Ok (JObj m) -> ("status", JStr x) ∈ m ->
  is_Some (snd (mergeResponseIntoStatus resource response)).
Proof.
  intros Hr Hb Hj Hm. unfold mergeResponseIntoStatus. rewrite Hb.
  destruct Hr as (t & n & fs & sn & sf & sfs & -> & Hs & Hsf). unfold statusStruct. cbn [resourceStruct].
  rewrite (fieldByName_struct_field _ _ _ _ Hs), Hj.
  assert (Hd : is_Some (snd (decode_into (JObj m) (VStruct sn ((sf, VOsok s) :: sfs))))).
  { cbn [decode_into at_target]. eapply decode_keys_status; [done| |done]. by exists s, sfs. }
  destruct (decode_into (JObj m) _) as [v' [e|]]; [|by destruct Hd].
  by destruct body; simpl; eauto.
Qed.
End Projection.

(** ** Witnesses *)

(** A codec for the samples: types with their own decoder keep the document, SDK bodies are plain
    values, and an object leaves an [OSOKStatus] as it is. *)
Definition plainCodec : JsonCodec := {|
  codec_custom := fun n j _ => (VMarshaler n (Ok j), None);
  codec_sdk := fun _ j => Ok (json_to_value j);
  codec_osok := fun _ s => (s, None)
|}.

Definition exported (name json typeName : string) : StructField := mkField name true false json "" "" "" typeName.

Definition sampleResource (s : OSOKStatus) : GoValue :=
  VPtr (TStruct "Widget" [])
    (Some (VStruct "Widget"
       [(exported "Spec" "spec" "WidgetSpec", VStruct "WidgetSpec" [(exported "Name" "name" "string", VString "w")]);
        (exported "Status" "status" "WidgetStatus",
         VStruct "WidgetStatus"
           [(exported "OsokStatus" "status" "shared.OSOKStatus", VOsok s);
            (exported "Id" "id" "string", VString "");
            (exported "LifecycleState" "lifecycleState" "string", VString "")])])).

Definition trackedStatus : OSOKStatus := set_Ocid "ocid1.widget.1" emptyStatus.

Definition sampleBody (m : GoMap Json) : GoValue := json_to_value (JObj m).

Lemma projection_keeps_tracking_witness :
  osokStatus (fst (@mergeResponseIntoStatus plainCodec (sampleResource trackedStatus)
                     (sampleBody [("id", JStr "ocid1.widget.1"); ("lifecycleState", JNum (mkDec 3 0))])))
  = Ok trackedStatus.
Proof.
  apply (@projection_keeps_tracking plainCodec) with
    (body := sampleBody [("id", JStr "ocid1.widget.1"); ("lifecycleState", JNum (mkDec 3 0))])
    (m := [("id", JStr "ocid1.widget.1"); ("lifecycleState", JNum (mkDec 3 0))]).
  - do 6 eexists. split; [reflexivity|]. split; [reflexivity|]. repeat split.
  - reflexivity.
  - reflexivity.
  - repeat constructor.
Defined.

Lemma status_member_breaks_projection_witness :
  is_Some (snd (@mergeResponseIntoStatus plainCodec (sampleResource trackedStatus)
                  (sampleBody [("id", JStr "ocid1.widget.1"); ("status", JStr "ACTIVE")]))).
Proof.
  apply (@status_member_breaks_projection plainCodec) with
    (body := sampleBody [("id", JStr "ocid1.widget.1"); ("status", JStr "ACTIVE")])
    (m := [("id", JStr "ocid1.widget.1"); ("status", JStr "ACTIVE")]) (x := "ACTIVE") (s := trackedStatus).
  - do 6 eexists. split; [reflexivity|]. split; [reflexivity|]. repeat split.
  - reflexivity.
  - reflexivity.
  - right. left.
Defined.
