(* ===== verification/Runtime.v ===== *)
(** * The generated runtime: configuration, state and status

    [types.go] (operations, hooks, [Config]), [status_async.go] and the parts of
    [hooks.go], [mutation_policy.go] and [workrequest_async.go] that only touch the
    resource's status.  [ServiceClient[T]] is generic in the resource; here a resource is
    the value behind the pointer, the methods run in a state monad over it, and a
    method [c.f(args)] is [f c args].

    A status pointer obtained from [osokStatus] points into the resource, so the
    model reads and writes the status block of the current resource. *)

From S2P Require Import Prelude GoStrings Shared GoErrors GoValue AsyncStatus Reconciler Secrets JsonValues Semantics SpecResolution MutationPolicy RequestBuilder.
Local Open Scope string_scope.
Local Open Scope list_scope.
Local Open Scope go_scope.

(** ** State *)

(** What the runtime depends on outside the sources: the decoders, the SHA-256 digest (in hex) and
    the clock, as the instants successive readings return. *)
Class Env := {
  env_codec :: JsonCodec;
  digest : string -> string;
  clock : nat -> Time
}.

(** One call of an OCI operation (by the operation's address) with its request and raw result, one
    work-request poll, the result of a delete request or of a delete confirmation read as the delete
    path sees it, a decision of a delete outcome hook, or a completed delete work request for which
    no identifier is known.  The trace is instrumentation: no operation reads it. *)
Inductive Event :=
| EvCall (address : nat) (request : GoValue) (response : result GoValue GoError)
| EvPoll (workRequestID : string) (response : result GoValue GoError)
| EvDelete (response : result GoValue GoError)
| EvConfirm (response : result GoValue GoError)
| EvOutcome (deleted : bool)
| EvNoIdentifier (workRequest : GoValue).

(** [rt_world] is everything else: OCI, the credential store, what hooks keep. *)
Record RT (W : Type) := mkRT {
  rt_resource : GoValue;
  rt_world : W;
  rt_tick : nat;
  rt_trace : list Event
}.
Arguments mkRT {W}.
Arguments rt_resource {W}.
Arguments rt_world {W}.
Arguments rt_tick {W}.
Arguments rt_trace {W}.

Definition M (W A : Type) := ST (RT W) A.

(** A callback that gets the resource pointer: it may change the resource and the world. *)
Definition Callback (W A : Type) := GoValue -> W -> outcome A * GoValue * W.

Notation "'attempt' x ':=' c 'otherwise' e '=>' h 'in' k" :=
  (st_bind c (fun r => match r with Ok x => k | Err e => h end))
  (at level 200, x pattern, c at level 100, e name, h at level 100, k at level 200, right associativity) : go_scope.

Section Primitives.
Context {W : Type}.

Definition get_resource : M W GoValue := st_gets rt_resource.
Definition put_resource (r : GoValue) : M W unit :=
  st_modify (fun s => mkRT r (rt_world s) (rt_tick s) (rt_trace s)).
Definition log (e : Event) : M W unit :=
  st_modify (fun s => mkRT (rt_resource s) (rt_world s) (rt_tick s) (rt_trace s ++ [e])).

(** A computation on the world alone. *)
Definition on_world {A} (m : ST W A) : M W A :=
  fun s => let '(o, w) := m (rt_world s) in (o, mkRT (rt_resource s) w (rt_tick s) (rt_trace s)).

Definition callback {A} (h : Callback W A) : M W A :=
  fun s => let '(o, r, w) := h (rt_resource s) (rt_world s) in (o, mkRT r w (rt_tick s) (rt_trace s)).

(** [metav1.Now]. *)
Definition now `{Env} : M W Time :=
  fun s => (Ret (clock (rt_tick s)), mkRT (rt_resource s) (rt_world s) (S (rt_tick s)) (rt_trace s)).

Definition error_or {A} (r : result A GoError) : M W (result A GoError) := st_ret r.
End Primitives.

(** ** Configuration *)

(** [Operation], behind a pointer: [op_address] is the pointer, [NewRequest] the request the
    constructor returns. *)
Record Operation (W : Type) := mkOperation {
  op_address : nat;
  NewRequest : option GoValue;
  Call : option (GoValue -> ST W (result GoValue GoError));
  Fields : list RequestField
}.
Arguments mkOperation {W}.
Arguments op_address {W}.
Arguments NewRequest {W}.
Arguments Call {W}.
Arguments Fields {W}.

Record IdentityHooks (W : Type) := mkIdentityHooks {
  Resolve : option (Callback W (result GoValue GoError));
  RecordPath : option (GoValue -> Callback W unit);
  RecordTracked : option (GoValue -> string -> Callback W unit);
  GuardExistingBeforeCreate : option (Callback W (string * option GoError));
  LookupExisting : option (GoValue -> Callback W (result GoValue GoError));
  SeedSyntheticTrackedID : option (GoValue -> Callback W (option (Callback W unit)))
}.
Arguments mkIdentityHooks {W}.
Arguments Resolve {W}.
Arguments RecordPath {W}.
Arguments RecordTracked {W}.
Arguments GuardExistingBeforeCreate {W}.
Arguments LookupExisting {W}.
Arguments SeedSyntheticTrackedID {W}.

Record StatusHooks (W : Type) := mkStatusHooks {
  ClearProjectedStatus : option (Callback W GoValue);
  ShouldRestoreOnFailure : option (GoValue -> Callback W bool);
  RestoreStatus : option (GoValue -> Callback W unit);
  ProjectStatus : option (GoValue -> Callback W (option GoError));
  ApplyLifecycle : option (GoValue -> Callback W (OSOKResponse * option GoError));
  MarkDeleted : option (string -> Callback W unit);
  MarkTerminating : option (GoValue -> Callback W unit)
}.
Arguments mkStatusHooks {W}.
Arguments ClearProjectedStatus {W}.
Arguments ShouldRestoreOnFailure {W}.
Arguments RestoreStatus {W}.
Arguments ProjectStatus {W}.
Arguments ApplyLifecycle {W}.
Arguments MarkDeleted {W}.
Arguments MarkTerminating {W}.

Record ParityHooks (W : Type) := mkParityHooks {
  NormalizeDesiredState : option (GoValue -> Callback W unit);
  ValidateCreateOnlyDrift : option (GoValue -> Callback W (option GoError));
  RequiresParityHandling : option (GoValue -> Callback W bool);
  ApplyParityUpdate : option (GoValue -> Callback W (OSOKResponse * option GoError))
}.
Arguments mkParityHooks {W}.
Arguments NormalizeDesiredState {W}.
Arguments ValidateCreateOnlyDrift {W}.
Arguments RequiresParityHandling {W}.
Arguments ApplyParityUpdate {W}.

Record AsyncHooks (W : Type) := mkAsyncHooks {
  Adapter : WorkRequestAsyncAdapter;
  GetWorkRequest : option (string -> ST W (result GoValue GoError));
  ResolveAction : option (GoValue -> ST W (result string GoError));
  hook_ResolvePhase : option (GoValue -> ST W (result (OSOKAsyncPhase * bool) GoError));
  RecoverResourceID : option (GoValue -> OSOKAsyncPhase -> Callback W (result string GoError));
  hook_Message : option (OSOKAsyncPhase -> GoValue -> ST W string)
}.
Arguments mkAsyncHooks {W}.
Arguments Adapter {W}.
Arguments GetWorkRequest {W}.
Arguments ResolveAction {W}.
Arguments hook_ResolvePhase {W}.
Arguments RecoverResourceID {W}.
Arguments hook_Message {W}.

Record DeleteOutcome := mkOutcome { out_Handled : bool; out_Deleted : bool }.
Definition DeleteConfirmStageAlreadyPending := "already-pending".
Definition DeleteConfirmStageAfterRequest := "after-request".

Record DeleteHooks (W : Type) := mkDeleteHooks {
  ConfirmRead : option (string -> Callback W (result GoValue GoError));
  HandleError : option (GoError -> Callback W (option GoError));
  ApplyOutcome : option (GoValue -> string -> Callback W (DeleteOutcome * option GoError))
}.
Arguments mkDeleteHooks {W}.
Arguments ConfirmRead {W}.
Arguments HandleError {W}.
Arguments ApplyOutcome {W}.

(** [Config]; [ReadHooks] are [Read_Get] and [Read_List], [TrackedRecreateHooks] is
    [ClearTrackedIdentity]; the logger is left out. *)
Record Config (W : Type) := mkConfig {
  Kind : string;
  SDKName : string;
  Credentials : option (CredentialClient W);
  InitError : option GoError;
  cfg_Semantics : option Semantics;
  BuildCreateBody : option (string -> Callback W (result GoValue GoError));
  BuildUpdateBody : option (string -> GoValue -> Callback W (result (GoValue * bool) GoError));
  Identity : IdentityHooks W;
  Read_Get : option (Operation W);
  Read_List : option (Operation W);
  ClearTrackedIdentity : option (Callback W unit);
  cfg_StatusHooks : StatusHooks W;
  cfg_ParityHooks : ParityHooks W;
  cfg_Async : AsyncHooks W;
  cfg_DeleteHooks : DeleteHooks W;
  Create : option (Operation W);
  Get : option (Operation W);
  List : option (Operation W);
  cfg_Update : option (Operation W);
  Delete : option (Operation W)
}.
Arguments mkConfig {W}.
Arguments Kind {W}.
Arguments SDKName {W}.
Arguments Credentials {W}.
Arguments InitError {W}.
Arguments cfg_Semantics {W}.
Arguments BuildCreateBody {W}.
Arguments BuildUpdateBody {W}.
Arguments Identity {W}.
Arguments Read_Get {W}.
Arguments Read_List {W}.
Arguments ClearTrackedIdentity {W}.
Arguments cfg_StatusHooks {W}.
Arguments cfg_ParityHooks {W}.
Arguments cfg_Async {W}.
Arguments cfg_DeleteHooks {W}.
Arguments Create {W}.
Arguments Get {W}.
Arguments List {W}.
Arguments cfg_Update {W}.
Arguments Delete {W}.

(** [NewServiceClient]: the configuration with the validation errors joined to [InitError]. *)
Definition NewServiceClient {W} (cfg : Config W) : Config W :=
  mkConfig (Kind cfg) (SDKName cfg) (Credentials cfg)
    (NewServiceClient_InitError (Kind cfg) (InitError cfg) (cfg_Semantics cfg)
       (match GetWorkRequest (cfg_Async cfg) with Some _ => true | None => false end))
    (cfg_Semantics cfg) (BuildCreateBody cfg) (BuildUpdateBody cfg) (Identity cfg) (Read_Get cfg) (Read_List cfg)
    (ClearTrackedIdentity cfg) (cfg_StatusHooks cfg) (cfg_ParityHooks cfg) (cfg_Async cfg) (cfg_DeleteHooks cfg)
    (Create cfg) (Get cfg) (List cfg) (cfg_Update cfg) (Delete cfg).

(** ** Identifiers *)

Definition responseRequestID (response : GoValue) : string := ResponseOpcRequestID response.

(** A response body that is present and not nil. *)
Definition present_body (response : GoValue) : option GoValue :=
  match responseBody response with Some VNil | None => None | Some body => Some body end.

Definition responseID (response : GoValue) : string :=
  match present_body response with
  | None => ""
  | Some body => firstNonEmpty (jsonMap body) ["id"; "ocid"]
  end.

Section Identifiers.
Context {W : Type}.
Implicit Type c : Config W.

Definition idFieldAliases c : list string :=
  fold_left (fun aliases name =>
    if (TrimSpace name =? "")%string then aliases else appendUniqueStrings aliases [lowerCamel name +++ "Id"])
    [Kind c; SDKName c] ["id"; "ocid"].

Definition statusID c (resource : GoValue) : string :=
  let projected :=
    match statusStruct resource with
    | Err _ => ""
    | Ok statusValue => firstNonEmpty (jsonMap (iface_value statusValue)) (idFieldAliases c)
    end in
  match osokStatus resource with
  | Ok status => if negb (Ocid status =? "")%string then Ocid status else projected
  | Err _ => projected
  end.

Definition specID c (resource : GoValue) : string := firstNonEmpty (jsonMap (specValue resource)) (idFieldAliases c).

Definition currentID c (resource : GoValue) : string := statusID c resource.

Definition usesStatusOnlyCurrentID c (resource : GoValue) (current : string) : bool :=
  if (current =? "")%string then false
  else (current =? statusID c resource)%string && (specID c resource =? "")%string.
End Identifiers.

(** ** Lifecycle classification *)

Definition fallbackAsyncPhase (condition : OSOKConditionType) : OSOKAsyncPhase :=
  if (condition =? Provisioning)%string then OSOKAsyncPhaseCreate
  else if (condition =? Updating)%string then OSOKAsyncPhaseUpdate
  else if (condition =? Terminating)%string then OSOKAsyncPhaseDelete
  else "".

Definition fallbackConditionForAsyncPhase (phase : OSOKAsyncPhase) : OSOKConditionType :=
  if (phase =? OSOKAsyncPhaseCreate)%string then Provisioning
  else if (phase =? OSOKAsyncPhaseUpdate)%string then Updating
  else if (phase =? OSOKAsyncPhaseDelete)%string then Terminating
  else Active.

Definition shouldRequeueForCondition (condition : OSOKConditionType) : bool :=
  (condition =? Provisioning)%string || (condition =? Updating)%string || (condition =? Terminating)%string.

Definition conditionStatusForCondition (condition : OSOKConditionType) : ConditionStatus :=
  if (condition =? Failed)%string then ConditionFalse else ConditionTrue.

Definition defaultConditionMessage (condition : OSOKConditionType) : string :=
  if (condition =? Provisioning)%string then "OCI resource provisioning is in progress"
  else if (condition =? Updating)%string then "OCI resource update is in progress"
  else if (condition =? Terminating)%string then "OCI resource delete is in progress"
  else if (condition =? Failed)%string then "OCI resource reconcile failed"
  else "OCI resource is active".

Record lifecycleAsyncEvaluation := mkEvaluation {
  ev_current : option OSOKAsyncOperation;
  ev_condition : OSOKConditionType;
  ev_shouldRequeue : bool;
  ev_message : string
}.

(** The status argument is a pointer; nil is [None]. *)
Definition newLifecycleAsyncEvaluation (status : option OSOKStatus) (message lifecycleState : string)
  (phase : OSOKAsyncPhase) (class : OSOKAsyncNormalizedClass) : lifecycleAsyncEvaluation :=
  if (phase =? "")%string then mkEvaluation None Failed false message
  else
    let resolved := ResolveAsyncPhase status phase in
    let projection := ProjectAsyncCondition class resolved in
    let message := if (TrimSpace message =? "")%string then DefaultMessage projection else message in
    mkEvaluation (Some (mkAsyncOp OSOKAsyncSourceLifecycle resolved "" lifecycleState "" class None message None))
      (Condition projection) (ShouldRequeue projection) message.

Definition lifecycleFailureEvaluation (status : option OSOKStatus) (fallback : OSOKConditionType)
  (lifecycleState message : string) (class : OSOKAsyncNormalizedClass) : lifecycleAsyncEvaluation :=
  let phase := ResolveAsyncPhase status (fallbackAsyncPhase fallback) in
  if (phase =? "")%string then mkEvaluation None Failed false message
  else newLifecycleAsyncEvaluation status message lifecycleState phase class.

(** The part both classifiers share: the fallback without a body, else a decision on the upper-cased
    lifecycle state and the message. *)
Definition classify_with (decide : string -> string -> lifecycleAsyncEvaluation) (response : GoValue)
  (fallback : OSOKConditionType) : lifecycleAsyncEvaluation :=
  match present_body response with
  | None => mkEvaluation None fallback (shouldRequeueForCondition fallback) (defaultConditionMessage fallback)
  | Some body =>
      let values := jsonMap body in
      let lifecycleState := ToUpper (firstNonEmpty values ["lifecycleState"; "status"]) in
      let message := firstNonEmpty values ["lifecycleDetails"; "message"; "displayName"; "name"] in
      let message := if (message =? "")%string then defaultConditionMessage fallback else message in
      if (lifecycleState =? "")%string then mkEvaluation None fallback (shouldRequeueForCondition fallback) message
      else decide lifecycleState message
  end.

Definition classifyLifecycleAsyncSemantics (response : GoValue) (status : option OSOKStatus)
  (fallback : OSOKConditionType) (semantics : Semantics) : lifecycleAsyncEvaluation :=
  classify_with (fun lifecycleState message =>
    let evaluate := newLifecycleAsyncEvaluation status message lifecycleState in
    if containsString (ProvisioningStates (Lifecycle semantics)) lifecycleState then
      evaluate OSOKAsyncPhaseCreate OSOKAsyncClassPending
    else if containsString (UpdatingStates (Lifecycle semantics)) lifecycleState then
      evaluate OSOKAsyncPhaseUpdate OSOKAsyncClassPending
    else if containsString (PendingStates (sem_Delete semantics)) lifecycleState then
      evaluate OSOKAsyncPhaseDelete OSOKAsyncClassPending
    else if containsString (TerminalStates (sem_Delete semantics)) lifecycleState then
      evaluate OSOKAsyncPhaseDelete OSOKAsyncClassSucceeded
    else if containsString (ActiveStates (Lifecycle semantics)) lifecycleState then mkEvaluation None Active false message
    else lifecycleFailureEvaluation status fallback lifecycleState
           ("formal lifecycle state " +++ Quote lifecycleState +++ " is not modeled: " +++ message) OSOKAsyncClassUnknown)
    response fallback.

Definition contains_any (state : string) (tokens : list string) : bool := existsb (Contains state) tokens.

Definition classifyLifecycleAsyncHeuristics (response : GoValue) (status : option OSOKStatus)
  (fallback : OSOKConditionType) : lifecycleAsyncEvaluation :=
  classify_with (fun lifecycleState message =>
    let evaluate := newLifecycleAsyncEvaluation status message lifecycleState in
    if contains_any lifecycleState ["FAIL"; "ERROR"; "INOPERABLE"] then
      lifecycleFailureEvaluation status fallback lifecycleState message OSOKAsyncClassFailed
    else if Contains lifecycleState "NEEDS_ATTENTION" then
      lifecycleFailureEvaluation status fallback lifecycleState message OSOKAsyncClassAttention
    else if contains_any lifecycleState ["DELETED"; "TERMINATED"] then evaluate OSOKAsyncPhaseDelete OSOKAsyncClassSucceeded
    else if contains_any lifecycleState ["DELETE"; "TERMINAT"] then evaluate OSOKAsyncPhaseDelete OSOKAsyncClassPending
    else if contains_any lifecycleState ["UPDAT"; "MODIFY"; "PATCH"] then evaluate OSOKAsyncPhaseUpdate OSOKAsyncClassPending
    else if contains_any lifecycleState ["CREATE"; "PROVISION"; "PENDING"; "IN_PROGRESS"; "ACCEPT"; "START"] then
      evaluate OSOKAsyncPhaseCreate OSOKAsyncClassPending
    else mkEvaluation None Active false message)
    response fallback.

Definition evaluation_triple (e : lifecycleAsyncEvaluation) : OSOKConditionType * bool * string :=
  (ev_condition e, ev_shouldRequeue e, ev_message e).
Definition classifyLifecycleSemantics (response : GoValue) (fallback : OSOKConditionType) (semantics : Semantics) :=
  evaluation_triple (classifyLifecycleAsyncSemantics response None fallback semantics).
Definition classifyLifecycleHeuristics (response : GoValue) (fallback : OSOKConditionType) :=
  evaluation_triple (classifyLifecycleAsyncHeuristics response None fallback).

Definition resolveRequeueDuration (response : GoValue) (shouldRequeue : bool) (preferred : Duration) : Duration :=
  if negb shouldRequeue then 0%Z
  else if (0 <? preferred)%Z then preferred
  else let retryAfter := responseRetryAfterDuration response in
       if (0 <? retryAfter)%Z then retryAfter else defaultRequeueDuration.

(** ** Status updates *)

Section StatusUpdates.
Context {W : Type} `{Env}.
Implicit Type c : Config W.

Definition classifyLifecycleAsync c (response : GoValue) (status : option OSOKStatus) (fallback : OSOKConditionType)
  : lifecycleAsyncEvaluation :=
  match cfg_Semantics c with
  | None => classifyLifecycleAsyncHeuristics response status fallback
  | Some semantics => classifyLifecycleAsyncSemantics response status fallback semantics
  end.

(** Writing through the pointer [osokStatus] returned. *)
Definition write_status (f : OSOKStatus -> OSOKStatus) : M W unit :=
  let* resource := get_resource in
  match osokStatus resource with
  | Ok status => put_resource (set_osokStatus (f status) resource)
  | Err _ => st_ret tt
  end.

(** [util.UpdateOSOKStatusCondition] on the status, reading the clock. *)
Definition update_condition (condition : OSOKConditionType) (st : ConditionStatus) (message : string) : M W unit :=
  let* t := now in
  write_status (fun s => UpdateOSOKStatusCondition t s condition st "" message).

(** [applyAsyncOperation]; its callers hold a status pointer, and the operation is never nil. *)
Definition applyAsyncOperation c (current : OSOKAsyncOperation) : M W AsyncProjection :=
  let* t := now in
  let* condNow := now in
  let* resource := get_resource in
  match osokStatus resource with
  | Err _ => st_ret emptyProjection
  | Ok status =>
      if generatedWorkRequestAsyncEnabled (cfg_Semantics c) then
        let '(status', resource, projection) :=
          ApplyAsyncOperationWithLegacyBridge t condNow (Some status) resource
            (workRequestLegacyBridge (cfg_Semantics c)) (Some current) in
        put_resource (set_osokStatus (default status status') resource) ;;; st_ret projection
      else
        let '(status', projection) := ApplyAsyncOperation t condNow (Some status) (Some current) in
        put_resource (set_osokStatus (default status status') resource) ;;; st_ret projection
  end.

Definition clearAsyncOperation c : M W unit :=
  let* resource := get_resource in
  match osokStatus resource with
  | Err _ => st_ret tt
  | Ok status =>
      if generatedWorkRequestAsyncEnabled (cfg_Semantics c) then
        let '(status', resource) :=
          ClearAsyncOperationWithLegacyBridge (Some status) resource (workRequestLegacyBridge (cfg_Semantics c)) in
        put_resource (set_osokStatus (default status status') resource)
      else put_resource (set_osokStatus (default status (ClearAsyncOperation (Some status))) resource)
  end.

Definition currentGeneratedWorkRequest c (resource : GoValue) : string * OSOKAsyncPhase :=
  if negb (generatedWorkRequestAsyncEnabled (cfg_Semantics c)) then ("", "")
  else match osokStatus resource with
       | Err _ => ("", "")
       | Ok status =>
           let '(workRequestID, phase) :=
             ResolveTrackedWorkRequest (Some status) resource (workRequestLegacyBridge (cfg_Semantics c))
               (defaultConfiguredWorkRequestPhase (cfg_Semantics c)) in
           if (workRequestID =? "")%string || (phase =? "")%string then ("", "") else (workRequestID, phase)
       end.

(** Does the resource have a status block?  The early returns of the status methods. *)
Definition if_status {A} (missing : GoError -> M W A) (k : OSOKStatus -> M W A) : M W A :=
  let* resource := get_resource in
  match osokStatus resource with Err e => missing e | Ok status => k status end.

Definition markFailure c (err : GoError) : M W GoError :=
  if_status (fun _ => st_ret err) (fun _ =>
    write_status (fun s => default s (RecordErrorOpcRequestID (Some s) (Some err))) ;;;
    write_status (set_Message (ErrorString err)) ;;;
    write_status (set_Reason Failed) ;;;
    let* t := now in
    write_status (set_UpdatedAt (Some t)) ;;;
    if_status (fun _ => st_ret err) (fun status =>
      match Current (Async status) with
      | Some current =>
          let current := mkAsyncOp (op_Source current) (op_Phase current) (op_WorkRequestID current) (op_RawStatus current)
                           (op_RawOperationType current) OSOKAsyncClassFailed (op_PercentComplete current)
                           (ErrorString err) (Some t) in
          applyAsyncOperation c current ;;; st_ret err
      | None => update_condition Failed ConditionFalse (ErrorString err) ;;; st_ret err
      end)).

Definition markDeleted c (message : string) : M W unit :=
  if_status (fun _ => st_ret tt) (fun _ =>
    let* t := now in
    write_status (set_DeletedAt (Some t)) ;;;
    write_status (set_UpdatedAt (Some t)) ;;;
    (if negb (message =? "")%string then write_status (set_Message message) else st_ret tt) ;;;
    write_status (set_Reason Terminating) ;;;
    clearAsyncOperation c ;;;
    let* t' := now in
    write_status (fun s => UpdateOSOKStatusCondition t' s Terminating ConditionTrue "" (Message s))).

Definition markCondition c (condition : OSOKConditionType) (message : string) : M W unit :=
  if_status (fun _ => st_ret tt) (fun _ =>
    let* t := now in
    write_status (set_UpdatedAt (Some t)) ;;;
    write_status (set_Message message) ;;;
    write_status (set_Reason condition) ;;;
    if (condition =? Terminating)%string then
      applyAsyncOperation c (mkAsyncOp OSOKAsyncSourceLifecycle OSOKAsyncPhaseDelete "" "" "" OSOKAsyncClassPending None
                               message (Some t)) ;;; st_ret tt
    else update_condition condition ConditionTrue message).

Definition seedOpeningWorkRequestID c (response : GoValue) (phase : OSOKAsyncPhase) : M W unit :=
  let workRequestID := responseWorkRequestID response in
  if (workRequestID =? "")%string || (phase =? "")%string then st_ret tt
  else if_status (fun _ => st_ret tt) (fun _ =>
    let* t := now in
    applyAsyncOperation c (mkAsyncOp OSOKAsyncSourceWorkRequest phase workRequestID "" "" OSOKAsyncClassPending None ""
                             (Some t)) ;;; st_ret tt).

Definition seedOpeningRequestID (response : GoValue) : M W unit :=
  write_status (fun s => default s (RecordResponseOpcRequestID (Some s) response)).

Definition recordErrorRequestID (err : GoError) : M W unit :=
  write_status (fun s => default s (RecordErrorOpcRequestID (Some s) (Some err))).

(** ** Hooks *)

Definition recordTrackedIdentity c (identity : GoValue) (resourceID : string) : M W unit :=
  match RecordTracked (Identity c) with
  | None => st_ret tt
  | Some f => callback (f identity resourceID)
  end.

Definition clearTrackedIdentity c : M W unit :=
  match ClearTrackedIdentity c with None => st_ret tt | Some f => callback f end.

Definition normalizeDesiredState c (currentResponse : GoValue) : M W unit :=
  match NormalizeDesiredState (cfg_ParityHooks c) with None => st_ret tt | Some f => callback (f currentResponse) end.

(** The second result of [clearProjectedStatus] is whether there is a baseline. *)
Definition clearProjectedStatus c : M W (option GoValue) :=
  match ClearProjectedStatus (cfg_StatusHooks c) with
  | None => st_ret None
  | Some f => let* baseline := callback f in st_ret (Some baseline)
  end.

Definition restoreStatusAfterFailure c (baseline : GoValue) : M W unit :=
  match RestoreStatus (cfg_StatusHooks c) with
  | None => st_ret tt
  | Some restore =>
      match ShouldRestoreOnFailure (cfg_StatusHooks c) with
      | Some should =>
          let* b := callback (should baseline) in if negb b then st_ret tt else callback (restore baseline)
      | None => callback (restore baseline)
      end
  end.

Definition projectStatusWithHooks c (response : GoValue) : M W (option GoError) :=
  match ProjectStatus (cfg_StatusHooks c) with
  | Some f => callback (f response)
  | None =>
      let* resource := get_resource in
      let '(resource, err) := mergeResponseIntoStatus resource response in
      put_resource resource ;;; st_ret err
  end.

Definition markDeletedWithHooks c (message : string) : M W unit :=
  match MarkDeleted (cfg_StatusHooks c) with
  | Some f => callback (f message) ;;; clearAsyncOperation c
  | None => markDeleted c message
  end.

Definition markTerminatingWithHooks c (response : GoValue) : M W (option GoError) :=
  match MarkTerminating (cfg_StatusHooks c) with
  | Some f =>
      callback (f response) ;;;
      if generatedWorkRequestAsyncEnabled (cfg_Semantics c) then
        if_status (fun e => st_ret (Some e)) (fun status =>
          let work_request := match Current (Async status) with
                              | None => true
                              | Some current => (op_Source current =? OSOKAsyncSourceWorkRequest)%string
                              end in
          if work_request then
            let message := TrimSpace (Message status) in
            let message := if (message =? "")%string then "OCI resource delete is in progress" else message in
            let* t := now in
            applyAsyncOperation c (mkAsyncOp OSOKAsyncSourceLifecycle OSOKAsyncPhaseDelete "" "" "" OSOKAsyncClassPending None
                                     message (Some t)) ;;;
            st_ret None
          else st_ret None)
      else st_ret None
  | None => markCondition c Terminating "OCI resource delete is in progress" ;;; st_ret None
  end.

Definition failed_response : OSOKResponse := mkResponse false false 0%Z.

(** The error and the OSOK response of a failed create or update. *)
Definition failCreateOrUpdate c (err : GoError) : M W (OSOKResponse * option GoError) :=
  let* err := markFailure c err in st_ret (failed_response, Some err).

Definition applySuccessWithIdentityAndRequeue c (response : GoValue) (fallback : OSOKConditionType) (identity : GoValue)
  (preferred : Duration) : M W (OSOKResponse * option GoError) :=
  let fail e := st_ret (failed_response, Some e) in
  if_status fail (fun status =>
    let previousRequestID := OpcRequestID status in
    let preserveRequestID :=
      negb (previousRequestID =? "")%string &&
      match Current (Async status) with
      | Some current => (op_Source current =? OSOKAsyncSourceWorkRequest)%string
      | None => false
      end && (responseWorkRequestID response =? "")%string in
    let* err := projectStatusWithHooks c response in
    match err with
    | Some e => fail e
    | None =>
        let* err :=
          if preserveRequestID then
            if_status (fun e => st_ret (Some e)) (fun _ => write_status (set_OpcRequestID previousRequestID) ;;; st_ret None)
          else st_ret None in
        match err with
        | Some e => fail e
        | None =>
            let* resource := get_resource in
            put_resource (stampSecretSourceStatus resource) ;;;
            if_status fail (fun _ =>
              let* resource := get_resource in
              let resourceID := responseID response in
              let resourceID := if (resourceID =? "")%string then currentID c resource else resourceID in
              (match RecordTracked (Identity c) with
               | Some _ => recordTrackedIdentity c identity resourceID
               | None => if negb (resourceID =? "")%string then write_status (set_Ocid resourceID) else st_ret tt
               end) ;;;
              let* t := now in
              write_status (fun s => if negb (resourceID =? "")%string && bool_decide (CreatedAt s = None)
                                     then set_CreatedAt (Some t) s else s) ;;;
              if_status fail (fun status =>
                let evaluation := classifyLifecycleAsync c response (Some status) fallback in
                match ev_current evaluation with
                | Some current =>
                    let current := mkAsyncOp (op_Source current) (op_Phase current) (op_WorkRequestID current)
                                     (op_RawStatus current) (op_RawOperationType current) (op_NormalizedClass current)
                                     (op_PercentComplete current) (op_Message current) (Some t) in
                    let* projection := applyAsyncOperation c current in
                    st_ret (mkResponse (negb (Condition projection =? Failed)%string) (ShouldRequeue projection)
                              (resolveRequeueDuration response (ShouldRequeue projection) preferred), None)
                | None =>
                    clearAsyncOperation c ;;;
                    write_status (set_Message (ev_message evaluation)) ;;;
                    write_status (set_Reason (ev_condition evaluation)) ;;;
                    write_status (set_UpdatedAt (Some t)) ;;;
                    update_condition (ev_condition evaluation) (conditionStatusForCondition (ev_condition evaluation))
                      (ev_message evaluation) ;;;
                    st_ret (mkResponse (negb (ev_condition evaluation =? Failed)%string) (ev_shouldRequeue evaluation)
                              (resolveRequeueDuration response (ev_shouldRequeue evaluation) preferred), None)
                end))
        end
    end).

Definition applySuccessWithIdentity c (response : GoValue) (fallback : OSOKConditionType) (identity : GoValue) :=
  applySuccessWithIdentityAndRequeue c response fallback identity 0%Z.
Definition applySuccess c (response : GoValue) (fallback : OSOKConditionType) :=
  applySuccessWithIdentityAndRequeue c response fallback VNil 0%Z.
End StatusUpdates.

(** ** Samples the witnesses run on *)

Definition plainEnv : Env := {| env_codec := plainCodec; digest := fun s => s; clock := Z.of_nat |}.

Definition no_identity_hooks : IdentityHooks unit := mkIdentityHooks None None None None None None.
Definition no_status_hooks : StatusHooks unit := mkStatusHooks None None None None None None None.
Definition no_parity_hooks : ParityHooks unit := mkParityHooks None None None None.
Definition no_delete_hooks : DeleteHooks unit := mkDeleteHooks None None None.
Definition sample_adapter : WorkRequestAsyncAdapter := mkAdapter ["IN_PROGRESS"] ["SUCCEEDED"] ["FAILED"] [] [] [] [] [] [].

Definition sample_request (name : string) : GoValue :=
  VPtr (TStruct name [])
    (Some (VStruct name [(mkField "WidgetId" true false "" "" "widgetId" "path" "*string", VPtr TString None)])).

(** An operation that always gives the same answer. *)
Definition sample_operation (address : nat) (name : string) (answer : result GoValue GoError) : Operation unit :=
  mkOperation address (Some (sample_request name)) (Some (fun _ => st_ret answer)) [].

Definition not_found_error : GoError :=
  ErrService (mkServiceError 404 "NotFound" "req1" "no such widget" "404 NotFound" "common.servicefailure" None).

Definition sample_config (semantics : Semantics) (workRequest get_answer delete_answer : result GoValue GoError) : Config unit :=
  mkConfig "Widget" "Widget" None None (Some semantics) None None no_identity_hooks None None None no_status_hooks
    no_parity_hooks (mkAsyncHooks sample_adapter (Some (fun _ => st_ret workRequest)) None None None None) no_delete_hooks
    (Some (sample_operation 1 "CreateWidgetRequest" (Ok VNil))) (Some (sample_operation 2 "GetWidgetRequest" get_answer)) None
    (Some (sample_operation 3 "UpdateWidgetRequest" (Ok VNil)))
    (Some (sample_operation 4 "DeleteWidgetRequest" delete_answer)).

Definition sample_state (resource : GoValue) : RT unit := mkRT resource tt 0 [].

Definition tracking (phase : OSOKAsyncPhase) (s : OSOKStatus) : OSOKStatus :=
  set_Current (Some (mkAsyncOp OSOKAsyncSourceWorkRequest phase "wr1" "" "" OSOKAsyncClassPending None "" None)) s.

Definition work_request_body (status : string) : GoValue :=
  VStruct "WorkRequest" [(exported "Id" "id" "*string", VString "wr1"); (exported "Status" "status" "string", VString status)].
