(* ===== verification/RuntimeStatus.v ===== *)
(** * What the status methods of the generated runtime record

    Functional specifications of the status writers of [Runtime.v] on custom
    resources: a failure and a success leave the status block in a definite shape. *)

From S2P Require Import Prelude GoStrings Shared GoErrors GoValue AsyncStatus Reconciler Secrets JsonValues Semantics SpecResolution MutationPolicy RequestBuilder Runtime.
Local Open Scope string_scope.
Local Open Scope list_scope.
Local Open Scope go_scope.

(** ** Status blocks of custom resources *)

Lemma setLegacy_custom r f v : is_custom_resource r -> is_custom_resource (setLegacyWorkRequestField r f v).
Proof.
  intros Hr. unfold setLegacyWorkRequestField. destruct (resourceStatusFieldByName r f) as [field|] eqn:E; [|done].
  destruct (exported_name f); [|done]. cbn [negb].
  destruct (decide (f = "OsokStatus")) as [->|Hne].
  - pose proof Hr as (t & n & fs & sn & sfs & s & -> & Hs & Ho).
    assert (field = VOsok s) as ->; [|done]. unfold resourceStatusFieldByName in E. cbn [TrimSpace] in E.
    change ((TrimSpace "OsokStatus" =? "")%string) with false in E. cbn [indirectValue] in E.
    rewrite (fieldByName_struct_field _ _ _ _ Hs) in E. cbn [indirectValue] in E.
    rewrite (fieldByName_struct_field _ _ _ _ Ho) in E. congruence.
  - destruct field; try done; [by apply update_status_field_custom|].
    destruct t; try done. by apply update_status_field_custom.
Qed.

Lemma sync_custom r b p id : is_custom_resource r -> is_custom_resource (syncLegacyWorkRequestBridge r b p id).
Proof.
  intros Hr. unfold syncLegacyWorkRequestBridge, clearLegacyWorkRequestBridge. cbn [fold_left].
  assert (Hc : is_custom_resource (setLegacyWorkRequestField (setLegacyWorkRequestField
            (setLegacyWorkRequestField r (bridge_Create b) "") (bridge_Update b) "") (bridge_Delete b) ""))
    by (by repeat apply setLegacy_custom).
  destruct (_ || _); [done|by apply setLegacy_custom].
Qed.

Section Status.
Context {W : Type} `{Env} (c : Config W).

(** The resource of the state is a custom resource with this status block. *)
Definition has_status (s : RT W) (st : OSOKStatus) : Prop :=
  is_custom_resource (rt_resource s) /\ osokStatus (rt_resource s) = Ok st.

Lemma write_status_has f s st :
  has_status s st -> exists s', write_status f s = (Ret tt, s') /\ has_status s' (f st).
Proof.
  intros [Hc Ho]. unfold write_status. erewrite bind_step by reflexivity. rewrite Ho. eexists. split; [reflexivity|].
  split; simpl; [by apply set_osokStatus_custom|by apply osokStatus_set].
Qed.

Lemma applyAsync_has o s st :
  has_status s st -> exists t t' s' p,
    applyAsyncOperation c o s = (Ret p, s') /\
    exists st', ApplyAsyncOperation t t' (Some st) (Some o) = (Some st', p) /\ has_status s' st'.
Proof.
  intros [Hc Ho].
  destruct (ApplyAsyncOperation_Some (clock (rt_tick s)) (clock (S (rt_tick s))) st o) as (st' & Hap & _).
  destruct (generatedWorkRequestAsyncEnabled (cfg_Semantics c)) eqn:Ew;
    eexists (clock (rt_tick s)), (clock (S (rt_tick s))), _, _; (split;
    [ unfold applyAsyncOperation; do 3 (erewrite bind_step by reflexivity); cbn [rt_resource rt_tick]; rewrite Ho, Ew;
      unfold ApplyAsyncOperationWithLegacyBridge; rewrite Hap;
      try rewrite (surjective_pairing (currentWorkRequestTracking (Some st'))); reflexivity
    | exists st'; split; [exact Hap|] ]).
  - split; cbn; [by apply set_osokStatus_custom, sync_custom|by apply osokStatus_set, sync_custom].
  - split; cbn; [by apply set_osokStatus_custom|by apply osokStatus_set].
Qed.

(** ** Failures *)

(** The status after a failure. *)
Definition failed_status (err : GoError) (st st' : OSOKStatus) : Prop :=
  Reason st' = Failed /\ Ocid st' = Ocid st /\ CreatedAt st' = CreatedAt st /\ DeletedAt st' = DeletedAt st /\
  match Current (Async st) with
  | None => Current (Async st') = None /\ Message st' = ErrorString err
  | Some current => exists current', Current (Async st') = Some current' /\
      op_Phase current' = op_Phase current /\ op_Source current' = op_Source current /\
      op_NormalizedClass current' = OSOKAsyncClassFailed
  end.

Lemma runs_if_status {A} missing (k : OSOKStatus -> M W A) s st Q :
  has_status s st -> runs (k st) s Q -> runs (if_status missing k) s Q.
Proof. intros [_ Ho] Hk. unfold if_status. apply runs_bind. eexists _, _. split; [reflexivity|]. by rewrite Ho. Qed.

Lemma runs_write {A} f (k : M W A) s st Q :
  has_status s st -> (forall s', has_status s' (f st) -> runs k s' Q) -> runs (st_bind (write_status f) (fun _ => k)) s Q.
Proof.
  intros Hs Hk. apply runs_bind. destruct (write_status_has f s st Hs) as (s' & Hw & Hs'). eexists _, _. split; [exact Hw|].
  by apply Hk.
Qed.

Lemma runs_now {A} (k : Time -> M W A) s st Q :
  has_status s st -> (forall t s', has_status s' st -> runs (k t) s' Q) -> runs (st_bind now k) s Q.
Proof. intros Hs Hk. apply runs_bind. eexists _, _. split; [reflexivity|]. by apply Hk. Qed.

(** A failed create or update is recorded on the resource and handed back unchanged: on a custom
    resource [failCreateOrUpdate] returns the error itself with an unsuccessful response, the status
    reads failed, the tracked identifier and timestamps of creation and deletion are kept, and a
    tracked operation stays tracked under its phase and source, marked failed. *)
Theorem failure_recorded (err : GoError) (s : RT W) (st : OSOKStatus) :
  has_status s st -> exists s' st',
    failCreateOrUpdate c err s = (Ret (failed_response, Some err), s') /\ has_status s' st' /\ failed_status err st st'.
Proof.
  intros Hst. assert (Hrun : runs (markFailure c err) s (fun e s' => e = err /\ exists st', has_status s' st' /\
    failed_status err st st')).
  { unfold markFailure. eapply runs_if_status; [exact Hst|]. do 3 (eapply runs_write; [eassumption|intros ? ?]).
    eapply runs_now; [eassumption|intros t ? ?]. eapply runs_write; [eassumption|intros s4 H4].
    eapply runs_if_status; [exact H4|]. unfold failed_status, RecordErrorOpcRequestID, SetOpcRequestID in *.
    set (st4 := set_UpdatedAt _ _) in *.
    assert (Current (Async st4) = Current (Async st) /\ Ocid st4 = Ocid st /\ CreatedAt st4 = CreatedAt st /\
            DeletedAt st4 = DeletedAt st /\ Message st4 = ErrorString err /\ Reason st4 = Failed) as (Hc & Ho & Hcr & Hd & Hm & Hre)
      by (subst st4; by destruct (_ =? "")%string).
    clearbody st4. rewrite <-Hc. destruct (Current (Async st4)) as [current|] eqn:Ecur.
    - apply runs_bind. match goal with |- runs (applyAsyncOperation _ ?o) _ _ =>
        destruct (applyAsync_has o s4 st4 H4) as (t1 & t2 & s5 & p & Hrun & st5 & Hap & Hs5);
        destruct (ApplyAsyncOperation_Some t1 t2 st4 o) as (st5' & Hap' & cur & Hcur & Hph & Hsrc & Hcl & _ & _ & Hrs & Hoc & _ & Hcc & Hdd & _) end.
      rewrite Hap in Hap'. injection Hap' as <- ->. eexists _, _. split; [exact Hrun|]. apply runs_ret. split; [done|].
      exists st5. split; [done|]. rewrite Hrs, Hoc, Hcc, Hdd. split_and!; try done. by exists cur.
    - unfold update_condition. apply runs_bind. eapply runs_now; [exact H4|intros t1 s5 H5].
      destruct (write_status_has (fun s => UpdateOSOKStatusCondition t1 s Failed ConditionFalse "" (ErrorString err)) s5 st4 H5)
        as (s6 & Hw & Hs6). eexists _, _. split; [exact Hw|]. apply runs_ret. split; [done|]. eexists. split; [exact Hs6|].
      rewrite UpdateOSOKStatusCondition_spec. cbn. split_and!; congruence. }
  destruct Hrun as (e & s' & Hm & -> & st' & Hst' & Hf). exists s', st'. split; [|done].
  unfold failCreateOrUpdate. by erewrite bind_step by exact Hm.
Qed.
(** ** Successes *)

Lemma clearAsync_has s st :
  has_status s st -> exists s', clearAsyncOperation c s = (Ret tt, s') /\ has_status s' (set_Current None st).
Proof.
  intros [Hc Ho]. unfold clearAsyncOperation. erewrite bind_step by reflexivity. rewrite Ho.
  destruct (generatedWorkRequestAsyncEnabled (cfg_Semantics c)).
  - unfold ClearAsyncOperationWithLegacyBridge, clearLegacyWorkRequestBridge. cbn [fold_left ClearAsyncOperation option_map default].
    eexists. split; [reflexivity|]. split; cbn; [apply set_osokStatus_custom|apply osokStatus_set]; by repeat apply setLegacy_custom.
  - eexists. split; [reflexivity|]. split; cbn; [by apply set_osokStatus_custom|by apply osokStatus_set].
Qed.

(** The classification reads the tracker of the status only. *)
Lemma classify_async response fallback st1 st2 :
  Async st1 = Async st2 ->
  classifyLifecycleAsync c response (Some st1) fallback = classifyLifecycleAsync c response (Some st2) fallback.
Proof.
  intros Ha. assert (Hr : forall p, ResolveAsyncPhase (Some st1) p = ResolveAsyncPhase (Some st2) p).
  { intros p. unfold ResolveAsyncPhase. by rewrite Ha. }
  assert (Hn : forall m l p k, newLifecycleAsyncEvaluation (Some st1) m l p k = newLifecycleAsyncEvaluation (Some st2) m l p k).
  { intros. unfold newLifecycleAsyncEvaluation. by rewrite Hr. }
  assert (Hf : forall f l m k, lifecycleFailureEvaluation (Some st1) f l m k = lifecycleFailureEvaluation (Some st2) f l m k).
  { intros. unfold lifecycleFailureEvaluation. by rewrite Hr, Hn. }
  unfold classifyLifecycleAsync, classifyLifecycleAsyncSemantics, classifyLifecycleAsyncHeuristics, classify_with.
  destruct (cfg_Semantics c); destruct (present_body response); try done; cbn zeta; by rewrite !Hn, !Hf.
Qed.

(** An evaluation and the operation it tracks say the same. *)
Definition consistent (e : lifecycleAsyncEvaluation) : Prop :=
  forall op, ev_current e = Some op ->
    let projection := ProjectAsyncCondition (op_NormalizedClass op) (op_Phase op) in
    Condition projection = ev_condition e /\ ShouldRequeue projection = ev_shouldRequeue e.

Lemma evaluation_consistent response status fallback : consistent (classifyLifecycleAsync c response status fallback).
Proof.
  assert (Hn : forall m l p k, consistent (newLifecycleAsyncEvaluation status m l p k)).
  { intros. unfold newLifecycleAsyncEvaluation. destruct (_ =? "")%string; by intros op [= <-]. }
  assert (Hf : forall f l m k, consistent (lifecycleFailureEvaluation status f l m k)).
  { intros. unfold lifecycleFailureEvaluation. destruct (_ =? "")%string; [by intros op [=]|apply Hn]. }
  unfold classifyLifecycleAsync, classifyLifecycleAsyncSemantics, classifyLifecycleAsyncHeuristics, classify_with.
  destruct (cfg_Semantics c); (destruct (present_body response); [|by intros op [=]]); cbn zeta;
    (destruct (_ =? "")%string; [by intros op [=]|]);
    repeat match goal with |- consistent (if ?b then _ else _) => destruct b; [first [apply Hn|apply Hf|by intros op [=]]|] end;
    first [apply Hf|by intros op [=]].
Qed.

(** The fields of a spec, behind pointers. *)
Fixpoint spec_names (v : GoValue) : list string :=
  match v with
  | VPtr _ (Some x) | VIface (Some x) => spec_names x
  | VStruct _ fs => map (fun fv => sf_Name (fst fv)) fs
  | _ => []
  end.

Lemma copy_keeps_osok source : "OsokStatus" ∉ spec_names source -> forall n fs x,
  struct_field "OsokStatus" fs = Some x ->
  exists fs', copySecretSourceFields source (VStruct n fs) = VStruct n fs' /\ struct_field "OsokStatus" fs' = Some x.
Proof.
  induction source as [| | | | | |t v IH| |v IH|sn sfs IH| |t l IH| |t m IH| |] using GoValue_ind';
    intros Hn dn fs x Hx; cbn [copySecretSourceFields spec_names] in *; try (exists fs; by split); [by apply IH..|].
  cbn [at_struct]. eexists. split; [reflexivity|]. clear IH. revert fs Hx.
  induction sfs as [|[f y] sfs IHs]; intros fs Hx; [done|]. cbn [map fst] in Hn.
  apply not_elem_of_cons in Hn as [Hne Hn]. specialize (IHs Hn). destruct (negb (sf_Exported f)); [by apply IHs|].
  destruct (settable_field (sf_Name f) fs) as [z|]; [|by apply IHs].
  destruct (_ && _); apply IHs; by rewrite struct_field_set_ne.
Qed.

(** A resource whose spec has no field of the tracking block's name. *)
Definition spec_apart (r : GoValue) : Prop :=
  forall t n fs spec, r = VPtr t (Some (VStruct n fs)) -> struct_field "Spec" fs = Some spec -> "OsokStatus" ∉ spec_names spec.

Lemma stamp_keeps r st : is_custom_resource r -> osokStatus r = Ok st -> spec_apart r ->
  is_custom_resource (stampSecretSourceStatus r) /\ osokStatus (stampSecretSourceStatus r) = Ok st.
Proof.
  intros (t & n & fs & sn & sfs & x & -> & Hs & Ho) Hst Hap. cbn [stampSecretSourceStatus].
  destruct (struct_field "Spec" fs) as [spec|] eqn:Esp; [|split; [by do 6 eexists|done]]. rewrite Hs.
  destruct (copy_keeps_osok spec (Hap _ _ _ _ eq_refl Esp) sn sfs _ Ho) as (sfs' & -> & Ho').
  assert (x = st) as ->.
  { unfold osokStatus, statusStruct in Hst. cbn [resourceStruct] in Hst. rewrite (fieldByName_struct_field _ _ _ _ Hs) in Hst.
    rewrite (fieldByName_struct_field _ _ _ _ Ho) in Hst. congruence. }
  assert (Hs' : struct_field "Status" (set_field "Status" (VStruct sn sfs') fs) = Some (VStruct sn sfs'))
    by (apply struct_field_set_eq; by rewrite Hs).
  split; [by do 6 eexists|]. unfold osokStatus, statusStruct. cbn [resourceStruct].
  rewrite (fieldByName_struct_field _ _ _ _ Hs'). by rewrite (fieldByName_struct_field _ _ _ _ Ho').
Qed.
Lemma spec_apart_set x r : spec_apart r -> spec_apart (set_osokStatus x r).
Proof.
  intros Hap t n fs spec. unfold set_osokStatus, update_status_field.
  destruct r as [| | | | |t' [v|]| | | | | |]; try done; destruct v as [| | | | | | |n' fs'| | | |]; try done.
  destruct (struct_field "Status" fs') as [y|] eqn:Es; [|exact (Hap t n fs spec)].
  destruct y; try exact (Hap t n fs spec). intros [= <- <- <-]. rewrite struct_field_set_ne by done. exact (Hap _ _ _ spec eq_refl).
Qed.

(** Two status blocks that track the same. *)
Definition same_tracking (st st' : OSOKStatus) : Prop :=
  Ocid st' = Ocid st /\ CreatedAt st' = CreatedAt st /\ Async st' = Async st.

(** The status after a success: what the classification of the response says. *)
Definition succeeded_status (response : GoValue) (evaluation : lifecycleAsyncEvaluation) (st st' : OSOKStatus) : Prop :=
  (responseID response <> "" -> Ocid st' = responseID response) /\
  (responseID response = "" -> Ocid st <> "" -> Ocid st' = Ocid st) /\
  (Ocid st' <> "" -> is_Some (CreatedAt st')) /\
  Reason st' = ev_condition evaluation /\
  match ev_current evaluation with
  | None => Current (Async st') = None /\ Message st' = ev_message evaluation
  | Some op => exists current, Current (Async st') = Some current /\ op_Phase current = op_Phase op /\
      op_Source current = op_Source op /\ op_NormalizedClass current = op_NormalizedClass op
  end.

(** The last part of the method: the classification is applied to the status. *)
Lemma classification_recorded response evaluation preferred t s st (Q : OSOKResponse * option GoError -> RT W -> Prop) :
  has_status s st -> consistent evaluation ->
  (forall s' st', has_status s' st' -> Ocid st' = Ocid st -> CreatedAt st' = CreatedAt st ->
     Reason st' = ev_condition evaluation ->
     match ev_current evaluation with
     | None => Current (Async st') = None /\ Message st' = ev_message evaluation
     | Some op => exists current, Current (Async st') = Some current /\ op_Phase current = op_Phase op /\
         op_Source current = op_Source op /\ op_NormalizedClass current = op_NormalizedClass op
     end ->
     Q (mkResponse (negb (ev_condition evaluation =? Failed)%string) (ev_shouldRequeue evaluation)
          (resolveRequeueDuration response (ev_shouldRequeue evaluation) preferred), None) s') ->
  runs (match ev_current evaluation with
        | Some current =>
            let current := mkAsyncOp (op_Source current) (op_Phase current) (op_WorkRequestID current)
                             (op_RawStatus current) (op_RawOperationType current) (op_NormalizedClass current)
                             (op_PercentComplete current) (op_Message current) (Some t) in
            let* projection := applyAsyncOperation c current in
            st_ret (mkResponse (negb (Condition projection =? Failed)%string) (ShouldRequeue projection)
                      (resolveRequeueDuration response (ShouldRequeue projection) preferred), None)
        | None =>
            clearAsyncOperation c ;;;
            write_status (set_Message (ev_message evaluation)) ;;;
            write_status (set_Reason (ev_condition evaluation)) ;;;
            write_status (set_UpdatedAt (Some t)) ;;;
            update_condition (ev_condition evaluation) (conditionStatusForCondition (ev_condition evaluation))
              (ev_message evaluation) ;;;
            st_ret (mkResponse (negb (ev_condition evaluation =? Failed)%string) (ev_shouldRequeue evaluation)
                      (resolveRequeueDuration response (ev_shouldRequeue evaluation) preferred), None)
        end) s Q.
Proof.
  intros Hs Hcons HQ. destruct (ev_current evaluation) as [op|] eqn:Ecur.
  - destruct (Hcons op Ecur) as [Hcond Hreq]. cbn zeta. set (o := mkAsyncOp _ _ _ _ _ _ _ _ _).
    destruct (applyAsync_has o s st Hs) as (t1 & t2 & s5 & p & Hrun & st5 & Hap & Hs5).
    destruct (ApplyAsyncOperation_Some t1 t2 st o) as (st5' & Hap' & cur & Hcur & Hph & Hsrc & Hcl & _ & _ & Hrs & Hoc & _ & Hcr & _).
    rewrite Hap in Hap'. injection Hap' as <- ->. apply runs_bind. eexists _, _. split; [exact Hrun|]. apply runs_ret.
    subst o. cbn [op_NormalizedClass op_Phase] in *. rewrite Hcond, Hreq in *. apply (HQ s5 st5); eauto 6.
  - apply runs_bind. destruct (clearAsync_has s st Hs) as (s1 & Hrun & Hs1). eexists _, _. split; [exact Hrun|].
    do 3 (eapply runs_write; [eassumption|intros ? ?]). unfold update_condition. apply runs_bind.
    eapply runs_now; [eassumption|intros t1 s5 H5]. destruct (write_status_has
      (fun s => UpdateOSOKStatusCondition t1 s (ev_condition evaluation) (conditionStatusForCondition (ev_condition evaluation)) ""
        (ev_message evaluation)) s5 _ H5) as (s6 & Hw & Hs6).
    eexists _, _. split; [exact Hw|]. apply runs_ret. rewrite UpdateOSOKStatusCondition_spec in Hs6.
    by eapply HQ; [exact Hs6|..].
Qed.
(** Restoring the request id, writing the identifier and stamping the creation: the steps between
    the projection and the classification. *)
Lemma request_id_kept (preserve : bool) (id : string) s st :
  has_status s st -> spec_apart (rt_resource s) ->
  exists s' st', (if preserve then if_status (fun e => st_ret (Some e)) (fun _ =>
      write_status (set_OpcRequestID id) ;;; st_ret None) else st_ret None) s = (Ret None, s') /\
    has_status s' st' /\ spec_apart (rt_resource s') /\ same_tracking st st'.
Proof.
  intros [Hc Ho] Hap. destruct preserve; [|by exists s, st]. unfold if_status. erewrite bind_step by reflexivity. rewrite Ho.
  exists (mkRT (set_osokStatus (set_OpcRequestID id st) (rt_resource s)) (rt_world s) (rt_tick s) (rt_trace s)).
  exists (set_OpcRequestID id st). split; [unfold write_status, st_bind; cbn; by rewrite Ho|].
  split; [|split; [by apply spec_apart_set|done]]. split; cbn; [by apply set_osokStatus_custom|by apply osokStatus_set].
Qed.

Lemma identifier_written (resourceID : string) s st : has_status s st ->
  exists s' st', (if negb (resourceID =? "")%string then write_status (set_Ocid resourceID) else st_ret tt) s = (Ret tt, s') /\
    has_status s' st' /\ Ocid st' = (if (resourceID =? "")%string then Ocid st else resourceID) /\
    CreatedAt st' = CreatedAt st /\ Async st' = Async st.
Proof.
  intros Hs. destruct (resourceID =? "")%string; cbn [negb]; [by exists s, st|].
  destruct (write_status_has (set_Ocid resourceID) s st Hs) as (s' & Hw & H'). by exists s', (set_Ocid resourceID st).
Qed.

Lemma created_stamped (resourceID : string) (t : Time) st :
  let st' := if negb (resourceID =? "")%string && bool_decide (CreatedAt st = None) then set_CreatedAt (Some t) st else st in
  Ocid st' = Ocid st /\ Async st' = Async st /\ (resourceID <> "" -> is_Some (CreatedAt st')).
Proof.
  intros st'. subst st'. destruct (_ && _) eqn:Eb; [split_and!; [done|done|by eexists]|]. split_and!; [done|done|]. intros Hne.
  apply String.eqb_neq in Hne. rewrite Hne in Eb. cbn [negb andb] in Eb. apply bool_decide_eq_false in Eb.
  destruct (CreatedAt st); [by eexists|done].
Qed.

(** Projecting a body without a status member keeps the resource custom and its tracking block. *)
Lemma merge_keeps r response body m st :
  generated_resource st r -> responseBody response = Some body -> to_json body = Ok (JObj m) ->
  Forall (fun kv => EqualFold (fst kv) "status" = false) m -> spec_apart r ->
  let r1 := fst (mergeResponseIntoStatus r response) in
  is_custom_resource r1 /\ osokStatus r1 = Ok st /\ spec_apart r1.
Proof.
  intros Hr Hb Hj Hm Hap. unfold mergeResponseIntoStatus. rewrite Hb.
  destruct (generated_resource_parts _ _ Hr) as (v & Hv & Ho & Hold). rewrite Hv, Hj.
  assert (Ho' : has_osok st (fst (decode_into (JObj m) v))).
  { destruct Ho as (n & fs & sf & -> & Hsf & Hf). cbn [decode_into at_target].
    apply decode_keys_keeps_osok; [done|]. by exists n, fs, sf. }
  destruct (decode_into (JObj m) v) as [v' e]. cbn [fst] in Ho'.
  pose proof (osokStatus_write _ _ _ _ Hr Ho') as Hw. clear Hv Ho Hold.
  destruct Hr as (t & n & fs & sn & sf & sfs & -> & Hs & Hsf). destruct Ho' as (n' & fs' & sf' & -> & _ & Hf).
  destruct body; try done; cbn [fst].
  all: split; [|split; [exact Hw|]];
    [do 6 eexists; split; [reflexivity|]; split; [apply struct_field_set_eq; by rewrite Hs|]; unfold struct_field; by rewrite Hf|].
  all: intros t2 n2 fs2 spec [= <- <- <-]; rewrite struct_field_set_ne by done; exact (Hap _ _ _ spec eq_refl).
Qed.
(** A success is recorded on the resource: without hooks of the service, when the response body
    has no "status" member and projects into the status, [applySuccessWithIdentityAndRequeue]
    returns no error and the answer of the lifecycle classification (success unless failed, its
    requeue verdict, the requeue delay); the status tracks the identifier of the response, or keeps
    the tracked one, has a time of creation once there is an identifier, and gives the classified
    condition as its reason; the tracker holds the classified operation, or nothing when the
    resource is at rest. *)
Theorem success_recorded (response body : GoValue) (m : GoMap Json) (fallback : OSOKConditionType) (identity : GoValue)
  (preferred : Duration) (s : RT W) (st : OSOKStatus) :
  ProjectStatus (cfg_StatusHooks c) = None -> RecordTracked (Identity c) = None ->
  generated_resource st (rt_resource s) -> spec_apart (rt_resource s) ->
  responseBody response = Some body -> to_json body = Ok (JObj m) ->
  Forall (fun kv => EqualFold (fst kv) "status" = false) m ->
  snd (mergeResponseIntoStatus (rt_resource s) response) = None ->
  let evaluation := classifyLifecycleAsync c response (Some st) fallback in
  exists s' st',
    applySuccessWithIdentityAndRequeue c response fallback identity preferred s =
      (Ret (mkResponse (negb (ev_condition evaluation =? Failed)%string) (ev_shouldRequeue evaluation)
              (resolveRequeueDuration response (ev_shouldRequeue evaluation) preferred), None), s') /\
    has_status s' st' /\ succeeded_status response evaluation st st'.
Proof.
  intros Hps Hrt Hgen Hap Hb Hj Hm Hproj evaluation.
  destruct (merge_keeps _ _ _ _ _ Hgen Hb Hj Hm Hap) as (Hc1 & Ho1 & Hap1).
  destruct (mergeResponseIntoStatus (rt_resource s) response) as [r1 err] eqn:Emerge. cbn [fst snd] in *. subst err.
  cut (runs (applySuccessWithIdentityAndRequeue c response fallback identity preferred) s (fun a s' =>
    a = (mkResponse (negb (ev_condition evaluation =? Failed)%string) (ev_shouldRequeue evaluation)
           (resolveRequeueDuration response (ev_shouldRequeue evaluation) preferred), None) /\
    exists st', has_status s' st' /\ succeeded_status response evaluation st st')).
  { intros (x & s' & Hrun & -> & st' & H1 & H2). by exists s', st'. }
  assert (Hst : osokStatus (rt_resource s) = Ok st) by by destruct (generated_resource_parts _ _ Hgen) as (? & _ & _ & ?).
  unfold applySuccessWithIdentityAndRequeue. unfold if_status at 1. apply runs_bind. eexists _, _. split; [reflexivity|].
  rewrite Hst. cbn zeta. set (preserve := _ && _). clearbody preserve.
  apply runs_bind. unfold projectStatusWithHooks. rewrite Hps. eexists _, _. split.
  { erewrite bind_step by reflexivity. rewrite Emerge. reflexivity. }
  cbn iota. set (s1 := mkRT _ _ _ _).
  destruct (request_id_kept preserve (OpcRequestID st) s1 st) as (s2 & st2 & Hrun2 & [Hc2 Ho2] & Hap2 & Hsame2); [by split|done|].
  apply runs_bind. eexists _, _. split; [exact Hrun2|]. cbn iota.
  do 2 (apply runs_bind; eexists _, _; split; [reflexivity|]). destruct (stamp_keeps _ _ Hc2 Ho2 Hap2) as [Hc3 Ho3].
  set (s3 := mkRT _ _ _ _). assert (H3 : has_status s3 st2) by by split. eapply runs_if_status; [exact H3|].
  apply runs_bind. eexists _, _. split; [reflexivity|]. rewrite Hrt. cbn [s3 rt_resource].
  set (resourceID := if (responseID response =? "")%string then _ else _).
  assert (Hid : (responseID response <> "" -> resourceID = responseID response) /\
                (responseID response = "" -> Ocid st <> "" -> resourceID = Ocid st)).
  { subst resourceID. split.
    - intros Hne. apply String.eqb_neq in Hne. by rewrite Hne.
    - intros -> Hne. cbn. unfold currentID, statusID. rewrite Ho3. destruct Hsame2 as (-> & _). apply String.eqb_neq in Hne.
      by rewrite Hne. }
  clearbody resourceID. clearbody s3.
  destruct (identifier_written resourceID s3 st2 H3) as (s4 & st4 & Hw4 & H4 & Ho4 & Hcr4 & Has4).
  destruct Hsame2 as (He1 & He2 & He3). rewrite He1, He2, He3 in *. apply runs_bind. eexists _, _. split; [exact Hw4|].
  eapply runs_now; [exact H4|intros t s5 H5]. eapply runs_write; [exact H5|intros s6 H6]. set (st6 := if _ && _ then _ else _) in H6.
  destruct (created_stamped resourceID t st4) as (Ho6 & Has6 & Hcr6). fold st6 in Ho6, Has6, Hcr6. rewrite Has4 in Has6.
  clearbody st6. eapply runs_if_status; [exact H6|].
  rewrite (classify_async response fallback st6 st Has6). fold evaluation.
  eapply classification_recorded; [exact H6|apply evaluation_consistent|].
  intros s' st' Hs' Hoc Hcr Hre Hcur. split; [done|]. exists st'. split; [done|]. destruct Hid as [Hid1 Hid2].
  unfold succeeded_status. rewrite Hoc, Hcr, Ho6, Ho4. split_and!; try done.
  - intros Hne. rewrite (Hid1 Hne). apply String.eqb_neq in Hne. by rewrite Hne.
  - intros He Hne. rewrite (Hid2 He Hne). by destruct (Ocid st =? "")%string.
  - intros Hne. apply Hcr6. intros ->. cbn in Hne. destruct (decide (responseID response = "")) as [He|He].
    + specialize (Hid2 He Hne). congruence.
    + specialize (Hid1 He). congruence.
Qed.
End Status.

Lemma failure_recorded_witness :
  let c := sample_config sample_semantics (Ok VNil) (Ok VNil) (Ok VNil) in
  exists s' st', @failCreateOrUpdate unit plainEnv c not_found_error (sample_state (sampleResource (tracking "create" trackedStatus)))
      = (Ret (failed_response, Some not_found_error), s') /\
    has_status s' st' /\ failed_status not_found_error (tracking "create" trackedStatus) st'.
Proof.
  apply (@failure_recorded unit plainEnv (sample_config sample_semantics (Ok VNil) (Ok VNil) (Ok VNil)) not_found_error
    (sample_state (sampleResource (tracking "create" trackedStatus)))).
  split; [|reflexivity]. do 6 eexists. split; [reflexivity|]. split; reflexivity.
Defined.

Definition active_body : GoMap Json := [("id", JStr "ocid1.widget.2"); ("lifecycleState", JStr "ACTIVE")].

Lemma success_recorded_witness :
  let c := sample_config sample_semantics (Ok VNil) (Ok VNil) (Ok VNil) in
  let response := sampleBody active_body in
  let evaluation := @classifyLifecycleAsync unit c response (Some emptyStatus) Provisioning in
  exists s' st',
    @applySuccessWithIdentityAndRequeue unit plainEnv c response Provisioning VNil 0%Z (sample_state (sampleResource emptyStatus)) =
      (Ret (mkResponse (negb (ev_condition evaluation =? Failed)%string) (ev_shouldRequeue evaluation)
              (resolveRequeueDuration response (ev_shouldRequeue evaluation) 0%Z), None), s') /\
    has_status s' st' /\ succeeded_status response evaluation emptyStatus st'.
Proof.
  apply (@success_recorded unit plainEnv (sample_config sample_semantics (Ok VNil) (Ok VNil) (Ok VNil)) (sampleBody active_body)
    (sampleBody active_body) active_body Provisioning VNil 0%Z (sample_state (sampleResource emptyStatus)) emptyStatus).
  - reflexivity.
  - reflexivity.
  - do 6 eexists. split; [reflexivity|]. split; [reflexivity|]. repeat split.
  - intros t n fs spec [= <- <- <-] [= <-]. cbn. apply not_elem_of_cons. split; [discriminate|apply not_elem_of_nil].
  - reflexivity.
  - reflexivity.
  - repeat constructor.
  - reflexivity.
Defined.
