(* ===== verification/RuntimeRead.v ===== *)
(** * The generated runtime: invoking OCI operations and finding the resource

    [invoke] and its helpers of [request_builder.go]; [read_resolver.go]: reading by
    Get, falling back to List, selecting a list item, and resolving the existing
    resource before a create; the list readers of [response_reflection.go]. *)

From S2P Require Import Prelude GoStrings Shared GoErrors GoValue AsyncStatus Reconciler Secrets JsonValues Semantics SpecResolution MutationPolicy RequestBuilder Runtime.
Local Open Scope string_scope.
Local Open Scope list_scope.
Local Open Scope go_scope.

(** ** List items *)

(** Bodies that are structs or slices; SDK bodies are never an [OSOKStatus], and a struct with its
    own marshaler exposes no field. *)
Definition listBodyStruct (body : GoValue) : result GoValue GoError :=
  match indirectValue body with
  | None => Err ErrResourceNotFound
  | Some (VStruct n fs) => Ok (VStruct n fs)
  | Some (VOsok _ | VMarshaler _ _) => Ok (VStruct "" [])
  | Some (VSlice t l) => Ok (VSlice t l)
  | Some _ => Err (ErrText "OCI list body must be a struct or slice")
  end.

Definition sliceValues (l : option (list GoValue)) : list GoValue := map iface_value (default [] l).

(** [Interface] panics on the elements of an unexported field. *)
Definition exported_items (exported : bool) (l : option (list GoValue)) : outcome (list GoValue) :=
  if exported then Ret (sliceValues l) else match l with Some (_ :: _) => Panic | _ => Ret [] end.

Definition configuredListItems (value : GoValue) (fieldName : string) : outcome (option (result (list GoValue) GoError)) :=
  let fieldName := TrimSpace fieldName in
  if (fieldName =? "")%string then Ret None
  else match fieldByName fieldName value with
       | None => Ret (Some (Err (ErrText ("OCI list body does not expose " +++ fieldName))))
       | Some (VSlice _ l) => let? items := exported_items (exported_name fieldName) l in Ret (Some (Ok items))
       | Some _ => Ret (Some (Err (ErrText ("OCI list body " +++ fieldName +++ " is not a slice"))))
       end.

Definition structSliceField (value : GoValue) (fieldName : string) : option (list GoValue) :=
  match fieldByName fieldName value with
  | Some (VSlice _ l) => Some (sliceValues l)
  | _ => None
  end.

Definition firstSliceListItems (fs : list (StructField * GoValue)) : outcome (option (list GoValue)) :=
  match find_first (fun fv => match snd fv with VSlice _ _ => true | _ => false end) fs with
  | Some (sf, VSlice _ l) => outcome_map Some (exported_items (sf_Exported sf) l)
  | _ => Ret None
  end.

Definition listItems (body : GoValue) (responseItemsField : string) : outcome (result (list GoValue) GoError) :=
  match listBodyStruct body with
  | Err e => Ret (Err e)
  | Ok (VSlice _ l) => Ret (Ok (sliceValues l))
  | Ok value =>
      let? configured := configuredListItems value responseItemsField in
      match configured with
      | Some r => Ret r
      | None =>
          match structSliceField value "Items" with
          | Some items => Ret (Ok items)
          | None =>
              let? found := firstSliceListItems (match value with VStruct _ fs => fs | _ => [] end) in
              Ret (match found with
                   | Some items => Ok items
                   | None => Err (ErrText "OCI list body does not expose an items slice")
                   end)
          end
      end
  end.

(** ** Lifecycle categories of list items *)

Inductive readPhase := readPhaseObserve | readPhaseCreate | readPhaseUpdate | readPhaseDelete.

Inductive lifecycleCategory :=
| lifecycleCategoryEmpty
| lifecycleCategoryProvisioning
| lifecycleCategoryUpdating
| lifecycleCategoryActive
| lifecycleCategoryDeleting
| lifecycleCategoryDeleted
| lifecycleCategoryFailed
| lifecycleCategoryUnknown.

#[export] Instance lifecycleCategory_eq_dec : EqDecision lifecycleCategory.
Proof. solve_decision. Defined.
#[export] Instance readPhase_eq_dec : EqDecision readPhase.
Proof. solve_decision. Defined.

Definition heuristicLifecycleCategory (state : string) : lifecycleCategory :=
  if contains_any state ["FAIL"; "ERROR"; "NEEDS_ATTENTION"; "INOPERABLE"] then lifecycleCategoryFailed
  else if contains_any state ["DELETED"; "TERMINATED"] then lifecycleCategoryDeleted
  else if contains_any state ["DELETE"; "TERMINAT"] then lifecycleCategoryDeleting
  else if contains_any state ["UPDAT"; "MODIFY"; "PATCH"] then lifecycleCategoryUpdating
  else if contains_any state ["CREATE"; "PROVISION"; "PENDING"; "IN_PROGRESS"; "ACCEPT"; "START"] then
    lifecycleCategoryProvisioning
  else lifecycleCategoryUnknown.

Definition formalLifecycleCategory (semantics : option Semantics) (state : string) : option lifecycleCategory :=
  match semantics with
  | None => None
  | Some s =>
      if containsString (ProvisioningStates (Lifecycle s)) state then Some lifecycleCategoryProvisioning
      else if containsString (UpdatingStates (Lifecycle s)) state then Some lifecycleCategoryUpdating
      else if containsString (ActiveStates (Lifecycle s)) state then Some lifecycleCategoryActive
      else if containsString (PendingStates (sem_Delete s)) state then Some lifecycleCategoryDeleting
      else if containsString (TerminalStates (sem_Delete s)) state then Some lifecycleCategoryDeleted
      else None
  end.

Definition listItemLifecycleCategory (semantics : option Semantics) (item : GoValue) : lifecycleCategory :=
  let state := ToUpper (firstNonEmpty (jsonMap item) ["lifecycleState"; "status"; "state"]) in
  if (state =? "")%string then lifecycleCategoryEmpty
  else match formalLifecycleCategory semantics state with
       | Some category => category
       | None => heuristicLifecycleCategory state
       end.

Definition allowListItemForReadPhase (semantics : option Semantics) (phase : readPhase) (item : GoValue) : bool :=
  match listItemLifecycleCategory semantics item with
  | lifecycleCategoryProvisioning | lifecycleCategoryUpdating | lifecycleCategoryActive | lifecycleCategoryEmpty => true
  | lifecycleCategoryUnknown => bool_decide (phase = readPhaseObserve)
  | _ => false
  end.

Definition deleteListItemPriority (semantics : option Semantics) (item : GoValue) : nat :=
  match listItemLifecycleCategory semantics item with
  | lifecycleCategoryProvisioning | lifecycleCategoryUpdating | lifecycleCategoryActive => 4
  | lifecycleCategoryDeleting | lifecycleCategoryDeleted => 3
  | lifecycleCategoryFailed => 2
  | _ => 1
  end.

(** The delete branch of [filterPhaseMatches]: one pass that restarts at a better priority. *)
Fixpoint best_matches {A} (priority : A -> nat) (matches : list A) (bestPriority : nat) (filtered : list A) : list A :=
  match matches with
  | [] => filtered
  | item :: r =>
      let p := priority item in
      let '(bestPriority, filtered) := if (bestPriority <? p)%nat then (p, []) else (bestPriority, filtered) in
      let filtered := if (p =? bestPriority)%nat then filtered ++ [item] else filtered in
      best_matches priority r bestPriority filtered
  end.

Definition filterPhaseMatches (semantics : option Semantics) (matches : list GoValue) (phase : readPhase) : list GoValue :=
  match phase with
  | readPhaseDelete => best_matches (deleteListItemPriority semantics) matches 0 []
  | _ => List.filter (allowListItemForReadPhase semantics phase) matches
  end.

(** ** Selection *)

Definition criteriaWithPreferredID (criteria : GoMap Json) (preferredID : string) : GoMap Json :=
  if (preferredID =? "")%string then criteria
  else map_set "ocid" (JStr preferredID) (map_set "id" (JStr preferredID) criteria).

Definition heuristicListMatch (targetID targetName targetDisplayName : string) (item : GoValue) : bool :=
  let values := jsonMap item in
  (negb (targetID =? "")%string && (targetID =? firstNonEmpty values ["id"; "ocid"])%string) ||
  (negb (targetDisplayName =? "")%string && (targetDisplayName =? firstNonEmpty values ["displayName"])%string) ||
  (negb (targetName =? "")%string && (targetName =? firstNonEmpty values ["name"])%string).

Definition heuristicListMatches (items : list GoValue) (targetID targetName targetDisplayName : string) : list GoValue :=
  List.filter (heuristicListMatch targetID targetName targetDisplayName) items.

Definition selectHeuristicListItem (kind : string) (items : list GoValue) (criteria : GoMap Json) : result GoValue GoError :=
  let targetID := firstNonEmpty (Some criteria) ["ocid"; "id"] in
  let targetName := firstNonEmpty (Some criteria) ["name"; "metadataName"] in
  let targetDisplayName := firstNonEmpty (Some criteria) ["displayName"] in
  match heuristicListMatches items targetID targetName targetDisplayName with
  | [item] => Ok item
  | _ :: _ :: _ => Err (ErrText (kind +++ " list response returned multiple matching resources"))
  | [] => match items with [item] => Ok item | _ => Err ErrResourceNotFound end
  end.

(** The field loop of [formalListItemMatch]; the results are (matched, compared). *)
Fixpoint formal_fields (values : option (GoMap Json)) (criteria : GoMap Json) (matchFields : list string) (compared : bool)
  : bool * bool :=
  match matchFields with
  | [] => (compared, compared)
  | field :: r =>
      match lookupMeaningfulValue (Some criteria) field with
      | None => formal_fields values criteria r compared
      | Some expected =>
          match lookupMeaningfulValue values field with
          | Some actual => if valuesEqual expected actual then formal_fields values criteria r true else (false, true)
          | None => (false, true)
          end
      end
  end.

Definition formalListItemMatch (item : GoValue) (criteria : GoMap Json) (preferredID : string) (matchFields : list string)
  : bool * bool :=
  let values := jsonMap item in
  if negb (preferredID =? "")%string && (preferredID =? firstNonEmpty values ["id"; "ocid"])%string then (true, false)
  else formal_fields values criteria matchFields false.

Definition formalListMatches (matchFields : list string) (items : list GoValue) (criteria : GoMap Json) (preferredID : string)
  : list GoValue * bool :=
  (List.filter (fun item => fst (formalListItemMatch item criteria preferredID matchFields)) items,
   existsb (fun item => snd (formalListItemMatch item criteria preferredID matchFields)) items).

Definition resolveFormalListMatch (kind : string) (matches : list GoValue) (comparedAny : bool) (preferredID : string)
  : result GoValue GoError :=
  match matches with
  | [item] => Ok item
  | _ :: _ :: _ => Err (ErrText (kind +++ " formal list semantics returned multiple matching resources"))
  | [] => if comparedAny || negb (preferredID =? "")%string then Err ErrResourceNotFound
          else Err (ErrText (kind +++ " formal list semantics did not yield any match criteria"))
  end.

Definition selectFormalListItem (kind : string) (s : Semantics) (l : ListSemantics) (items : list GoValue)
  (criteria : GoMap Json) (preferredID : string) (phase : readPhase) : result GoValue GoError :=
  let '(matches, comparedAny) := formalListMatches (MatchFields l) items criteria preferredID in
  resolveFormalListMatch kind (filterPhaseMatches (Some s) matches phase) comparedAny preferredID.

Definition matchesAnyAlias (key : string) (aliases : list string) : bool :=
  existsb (fun alias => EqualFold key alias || (lowerCamel key =? lowerCamel alias)%string) aliases.

Definition valuesWithoutAliases (values : GoMap Json) (aliases : list string) : GoMap Json :=
  List.filter (fun kv => negb (matchesAnyAlias (fst kv) aliases)) values.

(** ** Invoking an operation *)

Section Read.
Context {W : Type} `{Env}.
Implicit Type c : Config W.

(** [requestBuildOptions] of the client. *)
Definition client_options c (namespace : string) (currentResponse : GoValue) : requestBuildOptions W :=
  mkOptions (Credentials c) namespace currentResponse.

Definition same_operation (op : Operation W) (o : option (Operation W)) : bool :=
  match o with Some p => (op_address op =? op_address p)%nat | None => false end.

Definition requestBodyOverride c (op : Operation W) (options : requestBuildOptions W) : M W (result (option GoValue) GoError) :=
  let wrap what e := Err (ErrWrap ("build " +++ Kind c +++ what +++ ErrorString e) e) in
  let update :=
    if same_operation op (cfg_Update c) then
      match BuildUpdateBody c with
      | Some build =>
          let* r := callback (build (opt_Namespace options) (opt_CurrentResponse options)) in
          st_ret (match r with
                  | Err e => wrap " update body: " e
                  | Ok (body, true) => Ok (Some body)
                  | Ok (_, false) => Ok None
                  end)
      | None =>
          let* resource := get_resource in
          let* r := on_world (filteredUpdateBody (opt_CredentialClient options) (opt_Namespace options) (cfg_Semantics c)
                                resource (opt_CurrentResponse options)) in
          st_ret (match r with
                  | Err e => wrap " update body: " e
                  | Ok body => Ok (option_map json_to_value body)
                  end)
      end
    else st_ret (Ok None) in
  match BuildCreateBody c with
  | Some build =>
      if same_operation op (Create c) then
        let* r := callback (build (opt_Namespace options)) in
        st_ret (match r with Err e => wrap " create body: " e | Ok body => Ok (Some body) end)
      else update
  | None => update
  end.

Definition invokeWithValues c (op : option (Operation W)) (values : GoMap Json) (preferredID : string)
  (options : requestBuildOptions W) : M W (result GoValue GoError) :=
  match op with
  | None => st_ret (Err (ErrText (Kind c +++ " generated runtime does not define this OCI operation")))
  | Some op =>
      match NewRequest op, Call op with
      | Some request, Some call =>
          match request with
          | VNil => st_ret (Err (ErrText (Kind c +++ " generated runtime did not create an OCI request value")))
          | _ =>
              attempt bodyOverride := requestBodyOverride c op options otherwise e => st_ret (Err e) in
              let* resource := get_resource in
              attempt request := on_world (buildRequest digest request resource (Some values) preferredID (Fields op)
                                             (idFieldAliases c) options bodyOverride)
                otherwise e => st_ret (Err (ErrWrap ("build " +++ Kind c +++ " OCI request: " +++ ErrorString e) e)) in
              let* response := on_world (call request) in
              log (EvCall (op_address op) request response) ;;;
              match response with
              | Err e => let* e := st_lift (normalizeOCIError e) in st_ret (Err e)
              | Ok response => st_ret (Ok response)
              end
          end
      | _, _ => st_ret (Err (ErrText (Kind c +++ " generated runtime OCI operation is incomplete")))
      end
  end.

Definition invoke c (op : option (Operation W)) (preferredID : string) (options : requestBuildOptions W)
  : M W (result GoValue GoError) :=
  let* resource := get_resource in
  match lookupValues resource with
  | Err e => st_ret (Err e)
  | Ok values => invokeWithValues c op values preferredID options
  end.

(** ** Read operations *)

Definition or_else {A} (a b : option A) : option A := match a with Some x => Some x | None => b end.

Definition getReadOperation c : option (Operation W) := or_else (Read_Get c) (Get c).
Definition listReadOperation c : option (Operation W) := or_else (Read_List c) (List c).
Definition defined {A} (o : option A) : bool := match o with Some _ => true | None => false end.
Definition hasReadableOperation c : bool := defined (getReadOperation c) || defined (listReadOperation c).
Definition hasDeleteConfirmRead c : bool := defined (ConfirmRead (cfg_DeleteHooks c)) || hasReadableOperation c.

Definition heuristicGetField (sf : StructField) : bool :=
  sf_Exported sf && negb (sf_Name sf =? "RequestMetadata")%string &&
  negb ((sf_contributesTo sf =? "header")%string || (sf_contributesTo sf =? "binary")%string ||
        (sf_contributesTo sf =? "body")%string).

Definition canPopulateHeuristicGetField c (values : GoMap Json) (preferredID : string) (sf : StructField) : bool :=
  let lookupKey := requestLookupKey sf in
  if negb (containsString (idFieldAliases c) lookupKey) || negb (preferredID =? "")%string then true
  else defined (lookupValueByPaths (Some values) [lookupKey]).

Definition canInvokeExplicitGet c (values : GoMap Json) (preferredID : string) : bool :=
  match getReadOperation c with
  | None => false
  | Some getOp =>
      forallb (fun field => negb (requestFieldRequiresResourceID field (idFieldAliases c)) ||
                            defined (explicitRequestValue (Some values) field preferredID)) (Fields getOp)
  end.

Definition canInvokeHeuristicGet c (values : GoMap Json) (preferredID : string) : bool :=
  match getReadOperation c with
  | None => false
  | Some getOp =>
      match operationRequestStruct (NewRequest getOp) with
      | None => true
      | Some (_, fs) =>
          forallb (fun fv => negb (heuristicGetField (fst fv)) ||
                             canPopulateHeuristicGetField c values preferredID (fst fv)) fs
      end
  end.

Definition canInvokeGet c (resource : GoValue) (preferredID : string) : bool :=
  match getReadOperation c with
  | None => false
  | Some getOp =>
      match lookupValues resource with
      | Err _ => true
      | Ok values => match Fields getOp with
                     | [] => canInvokeHeuristicGet c values preferredID
                     | _ => canInvokeExplicitGet c values preferredID
                     end
      end
  end.

Record readResourceState := mkReadState {
  rs_values : GoMap Json;
  rs_readID : string;
  rs_listValues : GoMap Json;
  rs_listID : string
}.

Definition prepareReadResourceState c (resource : GoValue) (preferredID : string) : result readResourceState GoError :=
  let readID := if (preferredID =? "")%string then currentID c resource else preferredID in
  match lookupValues resource with
  | Err e => Err e
  | Ok values => Ok (mkReadState values readID values readID)
  end.

Definition fallbackReadResourceState c (resource : GoValue) (state : readResourceState) (phase : readPhase) : readResourceState :=
  if negb (bool_decide (phase = readPhaseDelete)) && usesStatusOnlyCurrentID c resource (rs_readID state) then
    mkReadState (rs_values state) (rs_readID state) (valuesWithoutAliases (rs_values state) (idFieldAliases c)) ""
  else state.

Definition listResponseItemsField c : string :=
  match cfg_Semantics c with
  | Some s => match sem_List s with Some l => ResponseItemsField l | None => "" end
  | None => ""
  end.

Definition selectListItem c (body : GoValue) (criteria : GoMap Json) (preferredID : string) (phase : readPhase)
  : outcome (result GoValue GoError) :=
  let? items := listItems body (listResponseItemsField c) in
  Ret (match items with
       | Err e => Err e
       | Ok [] => Err ErrResourceNotFound
       | Ok items =>
           let criteria := criteriaWithPreferredID criteria preferredID in
           match cfg_Semantics c with
           | Some s => match sem_List s with
                       | Some l => selectFormalListItem (Kind c) s l items criteria preferredID phase
                       | None => selectHeuristicListItem (Kind c) items criteria
                       end
           | None => selectHeuristicListItem (Kind c) items criteria
           end
       end).

Definition readResourceWithList c (state : readResourceState) (phase : readPhase) : M W (result GoValue GoError) :=
  match listReadOperation c with
  | None => st_ret (Err (ErrText (Kind c +++ " generated runtime has no readable OCI operation")))
  | Some listOp =>
      attempt response := invokeWithValues c (Some listOp) (rs_listValues state) (rs_listID state) emptyOptions
        otherwise e => st_ret (Err e) in
      match responseBody response with
      | None => st_ret (Err (ErrText (Kind c +++ " list response did not expose a body payload")))
      | Some body => st_lift (selectListItem c body (rs_listValues state) (rs_listID state) phase)
      end
  end.

(** What a Get attempt yields: a final answer, or a state to list with.  The boolean of
    [GetFallback] is the stale-tracking verdict of the existing-before-create variant. *)
Inductive get_attempt :=
| GetDone (r : result GoValue GoError)
| GetFallback (state : readResourceState) (trackedIDStale : bool).

(** The body that [readResourceWithGet] and its existing-before-create variant share. *)
Definition get_or_fallback c (state : readResourceState) (phase : readPhase) (stale : GoValue -> bool) : M W get_attempt :=
  let* resource := get_resource in
  match getReadOperation c with
  | None => st_ret (GetFallback state false)
  | Some getOp =>
      if negb (canInvokeGet c resource (rs_readID state)) then st_ret (GetFallback state false)
      else
        let trackedIDStale := stale resource in
        attempt response := invoke c (Some getOp) (rs_readID state) emptyOptions
          otherwise e =>
            (let* notFound := st_lift (isReadNotFound e) in
             if negb notFound || negb (defined (listReadOperation c)) then st_ret (GetDone (Err e))
             else let* resource := get_resource in
                  st_ret (GetFallback (fallbackReadResourceState c resource state phase) trackedIDStale)) in
        st_ret (GetDone (Ok response))
  end.

Definition readResourceWithGet c (state : readResourceState) (phase : readPhase) : M W get_attempt :=
  get_or_fallback c state phase (fun _ => false).

Definition readResource c (preferredID : string) (phase : readPhase) : M W (result GoValue GoError) :=
  let* resource := get_resource in
  match prepareReadResourceState c resource preferredID with
  | Err e => st_ret (Err e)
  | Ok state =>
      let* got := readResourceWithGet c state phase in
      match got with
      | GetDone r => st_ret r
      | GetFallback state _ => readResourceWithList c state phase
      end
  end.

(** ** The existing resource before a create *)

Definition ExistingBeforeCreateDecisionAllow := "allow".
Definition ExistingBeforeCreateDecisionSkip := "skip".
Definition ExistingBeforeCreateDecisionFail := "fail".

Definition prepareIdentity c : M W (result GoValue GoError) :=
  match Resolve (Identity c) with
  | None => st_ret (Ok VNil)
  | Some resolve =>
      attempt identity := callback resolve otherwise e => st_ret (Err e) in
      (match RecordPath (Identity c) with Some record => callback (record identity) | None => st_ret tt end) ;;;
      st_ret (Ok identity)
  end.

(** [VNil] is the nil response. *)
Definition lookupExistingByIdentity c (identity : GoValue) : M W (result GoValue GoError) :=
  match LookupExisting (Identity c), identity with
  | None, _ | _, VNil => st_ret (Ok VNil)
  | Some lookup, _ =>
      attempt response := callback (lookup identity)
        otherwise e =>
          (if is_resource_not_found e then st_ret (Ok VNil)
           else let* notFound := st_lift (isReadNotFound e) in
                st_ret (if notFound then Ok VNil else Err e)) in
      st_ret (Ok response)
  end.

Definition guardExistingBeforeCreate c : M W (result string GoError) :=
  match GuardExistingBeforeCreate (Identity c) with
  | None => st_ret (Ok ExistingBeforeCreateDecisionAllow)
  | Some guard =>
      let* r := callback guard in
      match r with
      | (_, Some e) => st_ret (Err e)
      | (decision, None) =>
          let decision := if (decision =? "")%string then ExistingBeforeCreateDecisionAllow else decision in
          st_ret (if (decision =? ExistingBeforeCreateDecisionAllow)%string || (decision =? ExistingBeforeCreateDecisionSkip)%string
                  then Ok decision
                  else if (decision =? ExistingBeforeCreateDecisionFail)%string
                  then Err (ErrText (Kind c +++ " identity guard rejected pre-create reuse"))
                  else Err (ErrText (Kind c +++ " identity guard returned unsupported pre-create decision " +++ Quote decision)))
      end
  end.

Definition shouldResolveExistingBeforeCreate c : bool :=
  defined (Create c) && defined (listReadOperation c) &&
  match cfg_Semantics c with Some s => defined (sem_List s) | None => false end.

Definition requiresLiveMutationAssessment c : bool :=
  match cfg_Semantics c with
  | Some s => (negb (Nat.eqb (length (ForceNew (Mutation s))) 0) || negb (Nat.eqb (length (Mutable (Mutation s))) 0)) &&
              hasReadableOperation c
  | None => false
  end.

Definition trackedStatusIDCanBeClearedAfterGetNotFound c (preferredID : string) (resource : GoValue) : bool :=
  match getReadOperation c with
  | None => false
  | Some getOp =>
      if (preferredID =? "")%string || negb (usesStatusOnlyCurrentID c resource preferredID) then false
      else match lookupValues resource with
           | Err _ => false
           | Ok values =>
               match Fields getOp with
               | [] =>
                   match operationRequestStruct (NewRequest getOp) with
                   | None => false
                   | Some (_, fs) =>
                       existsb (fun fv => heuristicGetField (fst fv) &&
                                          containsString (idFieldAliases c) (requestLookupKey (fst fv))) fs
                   end
               | fields =>
                   existsb (fun field => requestFieldRequiresResourceID field (idFieldAliases c) &&
                                         defined (explicitRequestValue (Some values) field preferredID)) fields
               end
           end
  end.

Definition readResourceWithGetForExistingBeforeCreate c (state : readResourceState) : M W get_attempt :=
  get_or_fallback c state readPhaseCreate (trackedStatusIDCanBeClearedAfterGetNotFound c (rs_readID state)).

Definition readResourceForExistingBeforeCreate c : M W (result GoValue GoError * bool) :=
  let* resource := get_resource in
  match prepareReadResourceState c resource "" with
  | Err e => st_ret (Err e, false)
  | Ok state =>
      let* got := readResourceWithGetForExistingBeforeCreate c state in
      match got with
      | GetDone r => st_ret (r, false)
      | GetFallback state stale => let* r := readResourceWithList c state readPhaseCreate in st_ret (r, stale)
      end
  end.

(** The second half of [resolveExistingBeforeCreate], after a tracked id did not answer. *)
Definition resolve_untracked c (identity : GoValue) (prepared : option readResourceState) (trackedIDStale : bool)
  : M W (result GoValue GoError * bool) :=
  let answer r := st_ret (r, trackedIDStale) in
  attempt decision := guardExistingBeforeCreate c
    otherwise e => ((if trackedIDStale then clearTrackedIdentity c else st_ret tt) ;;; answer (Err e)) in
  if (decision =? ExistingBeforeCreateDecisionSkip)%string then answer (Ok VNil)
  else
    attempt response := lookupExistingByIdentity c identity otherwise e => answer (Err e) in
    match response with
    | VNil =>
        if negb (shouldResolveExistingBeforeCreate c) then answer (Ok VNil)
        else
          let* resource := get_resource in
          match (match prepared with Some state => Ok state | None => prepareReadResourceState c resource "" end) with
          | Err e => answer (Err e)
          | Ok state =>
              attempt response := readResourceWithList c state readPhaseCreate
                otherwise e => (if is_resource_not_found e then answer (Ok VNil) else answer (Err e)) in
              answer (Ok response)
          end
    | _ => answer (Ok response)
    end.

(** [resolveExistingBeforeCreate]: the response ([VNil] for nil) and whether the tracked id is stale;
    [skip] is the context flag. *)
Definition resolveExistingBeforeCreate c (skip : bool) (identity : GoValue) : M W (result GoValue GoError * bool) :=
  if skip then st_ret (Ok VNil, false)
  else if negb (defined (Create c)) then st_ret (Ok VNil, false)
  else
    let* resource := get_resource in
    if (currentID c resource =? "")%string then resolve_untracked c identity None false
    else match getReadOperation c with
         | None => st_ret (Ok VNil, false)
         | Some _ =>
             match prepareReadResourceState c resource "" with
             | Err e => st_ret (Err e, false)
             | Ok state =>
                 if negb (canInvokeGet c resource (rs_readID state)) then st_ret (Ok VNil, false)
                 else
                   let* got := readResourceWithGetForExistingBeforeCreate c state in
                   match got with
                   | GetDone (Ok response) => st_ret (Ok response, false)
                   | GetDone (Err e) => if is_resource_not_found e then resolve_untracked c identity None false
                                        else st_ret (Err e, false)
                   | GetFallback state stale => resolve_untracked c identity (Some state) stale
                   end
             end
         end.

Definition resolveTrackedCurrentID c (current : string) (existingResponse : GoValue) (trackedIDStale : bool)
  : M W (string * bool) :=
  (if trackedIDStale then clearTrackedIdentity c else st_ret tt) ;;;
  let fallback := if trackedIDStale then ("", false) else (current, false) in
  st_ret (match existingResponse with
          | VNil => fallback
          | _ =>
              let resolvedID := responseID existingResponse in
              if (current =? "")%string && negb (resolvedID =? "")%string then (resolvedID, true)
              else if trackedIDStale && negb (resolvedID =? "")%string && negb (resolvedID =? current)%string
              then (resolvedID, true)
              else fallback
          end).

Record currentResource := mkCurrent {
  cur_ID : string;
  cur_Response : GoValue;
  cur_ResolvedBeforeCreate : bool;
  cur_Restore : option (Callback W unit)
}.

Definition resolveCurrentResource c (skip : bool) (identity : GoValue) : M W (result currentResource GoError) :=
  let* resource := get_resource in
  let current := currentID c resource in
  let* resolved := resolveExistingBeforeCreate c skip identity in
  match resolved with
  | (Err e, _) => st_ret (Err e)
  | (Ok existingResponse, trackedIDStale) =>
      let* seeded :=
        match existingResponse, SeedSyntheticTrackedID (Identity c) with
        | VNil, _ | _, None => st_ret (None, current)
        | _, Some seed =>
            if (current =? "")%string then
              let* restore := callback (seed identity) in
              let* resource := get_resource in
              st_ret (restore, currentID c resource)
            else st_ret (None, current)
        end in
      let '(restore, current) := seeded in
      let* tracked := resolveTrackedCurrentID c current existingResponse trackedIDStale in
      st_ret (Ok (mkCurrent (fst tracked) existingResponse (snd tracked) restore))
  end.

(** ** The live response a mutation is checked against *)

Definition mergeLiveResponseIntoStatus (current : string) (liveResponse : GoValue) : M W unit :=
  match liveResponse with
  | VNil => st_ret tt
  | _ => if (current =? "")%string then st_ret tt
         else let* resource := get_resource in put_resource (fst (mergeResponseIntoStatus resource liveResponse))
  end.

Definition readResourceForMutationValidation c (current : string) (forceLiveGet : bool) : M W (result GoValue GoError) :=
  if negb forceLiveGet then readResource c current readPhaseUpdate
  else match getReadOperation c with
       | None => st_ret (Err (ErrText (Kind c +++ " generated runtime has no OCI Get operation for live mutation validation")))
       | Some getOp =>
           attempt response := invoke c (Some getOp) current emptyOptions
             otherwise e =>
               (let* notFound := st_lift (isReadNotFound e) in
                st_ret (if notFound then Err ErrResourceNotFound else Err e)) in
           st_ret (Ok response)
       end.

Definition readMutationAssessmentResponse c (current : string) (forceLiveGet : bool) : M W (result (string * GoValue) GoError) :=
  attempt response := readResourceForMutationValidation c current forceLiveGet
    otherwise e =>
      st_ret (if negb (is_resource_not_found e) then Err e
              else if forceLiveGet then Ok ("", VNil) else Ok (current, VNil)) in
  st_ret (Ok (current, response)).

Definition loadLiveMutationResponse c (current : string) (existingResponse : GoValue) (resolvedBeforeCreate : bool)
  : M W (result (string * GoValue) GoError) :=
  if (current =? "")%string || negb (requiresLiveMutationAssessment c) then
    mergeLiveResponseIntoStatus current existingResponse ;;; st_ret (Ok (current, existingResponse))
  else
    let forceLiveGet := resolvedBeforeCreate && defined (getReadOperation c) in
    let absent := match existingResponse with VNil => true | _ => false end in
    attempt live := (if absent || forceLiveGet then readMutationAssessmentResponse c current forceLiveGet
                     else st_ret (Ok (current, existingResponse)))
      otherwise e => st_ret (Err e) in
    mergeLiveResponseIntoStatus (fst live) (snd live) ;;; st_ret (Ok live).

Record createOrUpdateState := mkCOUState {
  cou_identity : GoValue;
  cou_currentID : string;
  cou_liveResponse : GoValue;
  cou_restore : option (Callback W unit)
}.

Definition run_restore (restore : option (Callback W unit)) : M W unit :=
  match restore with Some f => callback f | None => st_ret tt end.

Definition prepareCreateOrUpdateState c (skip : bool) (identity : GoValue) : M W (result createOrUpdateState GoError) :=
  attempt cur := resolveCurrentResource c skip identity otherwise e => st_ret (Err e) in
  attempt live := loadLiveMutationResponse c (cur_ID cur) (cur_Response cur) (cur_ResolvedBeforeCreate cur)
    otherwise e => (run_restore (cur_Restore cur) ;;; st_ret (Err e)) in
  normalizeDesiredState c (snd live) ;;;
  st_ret (Ok (mkCOUState identity (fst live) (snd live) (cur_Restore cur))).
End Read.

(** ** Theorems: list selection *)

(** The one-pass search for the best priority, against its specification. *)
Definition max_priority {A} (priority : A -> nat) (l : list A) : nat := fold_right Nat.max 0 (map priority l).

Lemma best_matches_spec {A} (priority : A -> nat) (l : list A) : forall best filtered,
  best_matches priority l best filtered =
  (if (best <? max_priority priority l)%nat then [] else filtered) ++
  List.filter (fun x => (priority x =? Nat.max best (max_priority priority l))%nat) l.
Proof.
  induction l as [|x l IH]; intros best filtered; cbn [best_matches max_priority map fold_right List.filter].
  - rewrite app_nil_r. destruct (best <? 0)%nat eqn:E; [apply Nat.ltb_lt in E; lia|done].
  - fold (max_priority priority l). set (m := max_priority priority l) in *. cbn zeta.
    destruct (best <? priority x)%nat eqn:E1.
    + apply Nat.ltb_lt in E1. rewrite Nat.eqb_refl, IH. fold m. simpl app.
      rewrite (Nat.max_r best (Nat.max (priority x) m)) by lia.
      replace (best <? Nat.max (priority x) m)%nat with true by (symmetry; apply Nat.ltb_lt; lia).
      destruct (priority x <? m)%nat eqn:E2.
      * apply Nat.ltb_lt in E2. rewrite (Nat.max_r (priority x) m) by lia.
        destruct (priority x =? m)%nat eqn:E3; [apply Nat.eqb_eq in E3; lia|done].
      * apply Nat.ltb_ge in E2. rewrite (Nat.max_l (priority x) m) by lia. by rewrite Nat.eqb_refl.
    + apply Nat.ltb_ge in E1. rewrite IH. fold m. rewrite (Nat.max_comm (priority x) m), Nat.max_assoc.
      replace (Nat.max (Nat.max best m) (priority x)) with (Nat.max best m) by lia.
      destruct (priority x =? best)%nat eqn:E3.
      * apply Nat.eqb_eq in E3. destruct (best <? m)%nat eqn:E4.
        -- apply Nat.ltb_lt in E4. replace (best <? Nat.max m (priority x))%nat with true by (symmetry; apply Nat.ltb_lt; lia).
           destruct (priority x =? Nat.max best m)%nat eqn:E5; [apply Nat.eqb_eq in E5; lia|done].
        -- apply Nat.ltb_ge in E4. replace (best <? Nat.max m (priority x))%nat with false by (symmetry; apply Nat.ltb_ge; lia).
           replace (priority x =? Nat.max best m)%nat with true by (symmetry; apply Nat.eqb_eq; lia). by rewrite <-app_assoc.
      * apply Nat.eqb_neq in E3.
        replace (best <? Nat.max m (priority x))%nat with (best <? m)%nat
          by (destruct (best <? m)%nat eqn:E6; symmetry; [apply Nat.ltb_lt in E6; apply Nat.ltb_lt|
              apply Nat.ltb_ge in E6; apply Nat.ltb_ge]; lia).
        destruct (priority x =? Nat.max best m)%nat eqn:E5; [apply Nat.eqb_eq in E5; lia|done].
Qed.

Lemma max_priority_ge {A} (priority : A -> nat) (l : list A) x : x ∈ l -> (priority x <= max_priority priority l)%nat.
Proof.
  unfold max_priority. induction l as [|y l IH]; simpl; [by intros ?%elem_of_nil|].
  intros [->|Hx]%elem_of_cons; [lia|]. specialize (IH Hx). lia.
Qed.

(** Why an item matches: by identifier, or by every match field the criteria know, of which there is
    at least one. *)
Definition justified_match (criteria : GoMap Json) (preferredID : string) (matchFields : list string) (item : GoValue) : Prop :=
  (preferredID <> "" /\ preferredID = firstNonEmpty (jsonMap item) ["id"; "ocid"]) \/
  ((exists f, f ∈ matchFields /\ is_Some (lookupMeaningfulValue (Some criteria) f)) /\
   forall f expected, f ∈ matchFields -> lookupMeaningfulValue (Some criteria) f = Some expected ->
     exists actual, lookupMeaningfulValue (jsonMap item) f = Some actual /\ valuesEqual expected actual = true).

Lemma formal_fields_matched values criteria fs compared :
  fst (formal_fields values criteria fs compared) = true ->
  (compared = true \/ exists f, f ∈ fs /\ is_Some (lookupMeaningfulValue (Some criteria) f)) /\
  forall f expected, f ∈ fs -> lookupMeaningfulValue (Some criteria) f = Some expected ->
    exists actual, lookupMeaningfulValue values f = Some actual /\ valuesEqual expected actual = true.
Proof.
  revert compared. induction fs as [|f fs IH]; intros compared; simpl.
  - intros ->. split; [by left|]. by intros ? ? ?%elem_of_nil.
  - destruct (lookupMeaningfulValue (Some criteria) f) as [x|] eqn:Ec.
    + destruct (lookupMeaningfulValue values f) as [a|] eqn:Ev; [|done]. destruct (valuesEqual x a) eqn:Eq; [|done].
      intros Hf. apply IH in Hf as [_ Hf]. split; [right; exists f; split; [left|by rewrite Ec]|].
      intros g e [->|Hg]%elem_of_cons He; [|by eapply Hf]. rewrite Ec in He. simplify_eq. by exists a.
    + intros Hf. apply IH in Hf as [[->|(g & Hg & Hs)] Hf]; split; [by left| |right; exists g; split; [by right|done]|];
        (intros h e [->|Hh]%elem_of_cons He; [by rewrite Ec in He|by eapply Hf]).
Qed.

Lemma formalListItemMatch_justified item criteria pid fs :
  fst (formalListItemMatch item criteria pid fs) = true -> justified_match criteria pid fs item.
Proof.
  unfold formalListItemMatch, justified_match. destruct (_ && _) eqn:E.
  - intros _. left. bool_prop. done.
  - intros Hf. apply formal_fields_matched in Hf as [[[=]|Hx] Hf]. by right.
Qed.

Lemma filter_filter_and {A} (f g : A -> bool) (l : list A) :
  List.filter f (List.filter g l) = List.filter (fun x => g x && f x) l.
Proof.
  induction l as [|x l IH]; simpl; [done|]. destruct (g x); simpl; [destruct (f x)|]; by rewrite IH.
Qed.

Lemma best_matches_all {A} (priority : A -> nat) (l : list A) :
  best_matches priority l 0 [] = List.filter (fun x => (priority x =? max_priority priority l)%nat) l.
Proof. rewrite best_matches_spec, Nat.max_0_l. by destruct (0 <? _)%nat. Qed.

Lemma resolveFormalListMatch_Ok kind matches cmp pid item :
  resolveFormalListMatch kind matches cmp pid = Ok item -> matches = [item].
Proof. destruct matches as [|x [|y r]]; simpl; [by destruct (_ || _)| |done]. by intros [= ->]. Qed.

(** C26. A formal list read returns an item only if it matches for a stated reason (its identifier,
    or all of the known match fields, at least one) and is the single eligible one: for create,
    update and observe the only match in an allowed lifecycle state, for delete the only match of
    the best priority, where no match has a better one. *)
Theorem list_selection_sound (kind : string) (s : Semantics) (l : ListSemantics) (items : list GoValue)
  (criteria : GoMap Json) (preferredID : string) (phase : readPhase) (item : GoValue) :
  selectFormalListItem kind s l items criteria preferredID phase = Ok item ->
  let matched x := fst (formalListItemMatch x criteria preferredID (MatchFields l)) in
  let priority := deleteListItemPriority (Some s) in
  item ∈ items /\ justified_match criteria preferredID (MatchFields l) item /\
  match phase with
  | readPhaseDelete =>
      (forall x, x ∈ items -> matched x = true -> (priority x <= priority item)%nat) /\
      List.filter (fun x => matched x && (priority x =? priority item)%nat) items = [item]
  | _ =>
      allowListItemForReadPhase (Some s) phase item = true /\
      List.filter (fun x => matched x && allowListItemForReadPhase (Some s) phase x) items = [item]
  end.
Proof.
  unfold selectFormalListItem. cbn [formalListMatches]. intros Hsel%resolveFormalListMatch_Ok.
  set (matched x := fst (formalListItemMatch x criteria preferredID (MatchFields l))) in *. cbn zeta.
  assert (Hin : forall g, List.filter g (List.filter matched items) = [item] -> item ∈ items /\ matched item = true /\ g item = true).
  { intros g Hg. assert (Hi : In item (List.filter g (List.filter matched items))) by (rewrite Hg; by left).
    apply filter_In in Hi as [[Hi Hm]%filter_In Hgi]. split_and!; [by apply list_elem_of_In|done|done]. }
  destruct phase; cbn [filterPhaseMatches] in Hsel.
  4: {
    rewrite best_matches_all in Hsel. destruct (Hin _ Hsel) as (Hi & Hm & Hp). apply Nat.eqb_eq in Hp.
    split; [done|]. split; [by apply formalListItemMatch_justified|]. split.
    - intros x Hx Hmx. rewrite Hp. apply max_priority_ge, list_elem_of_In, filter_In. split; [by apply list_elem_of_In|done].
    - rewrite <-Hsel, filter_filter_and, Hp. done. }
  all: destruct (Hin _ Hsel) as (Hi & Hm & Hp); split; [done|]; split; [by apply formalListItemMatch_justified|];
    split; [done|]; by rewrite <-filter_filter_and.
Qed.

Definition list_item (id name state : string) : GoValue :=
  VMap TIface (Some [("id", VString id); ("displayName", VString name); ("lifecycleState", VString state)]).

Lemma list_selection_sound_witness :
  list_item "a" "queue" "ACTIVE" ∈ [list_item "b" "queue" "DELETED"; list_item "a" "queue" "ACTIVE"; list_item "d" "other" "ACTIVE"].
Proof.
  apply (list_selection_sound "Queue" sample_semantics (mkListSemantics "" ["displayName"])
    [list_item "b" "queue" "DELETED"; list_item "a" "queue" "ACTIVE"; list_item "d" "other" "ACTIVE"]
    [("displayName", JStr "queue")] "" readPhaseCreate (list_item "a" "queue" "ACTIVE")).
  vm_compute. reflexivity.
Defined.

(** ** Theorems: lifecycle states *)

(** The condition a lifecycle category stands for. *)
Definition category_condition (category : lifecycleCategory) : OSOKConditionType :=
  match category with
  | lifecycleCategoryProvisioning => Provisioning
  | lifecycleCategoryUpdating => Updating
  | lifecycleCategoryActive => Active
  | lifecycleCategoryDeleting | lifecycleCategoryDeleted => Terminating
  | _ => Failed
  end.

(** The upper-cased state both classifiers read. *)
Definition body_state (body : GoValue) : string := ToUpper (firstNonEmpty (jsonMap body) ["lifecycleState"; "status"]).

Lemma body_state_list body :
  body_state body <> "" -> ToUpper (firstNonEmpty (jsonMap body) ["lifecycleState"; "status"; "state"]) = body_state body.
Proof.
  unfold body_state, firstNonEmpty. simpl. intros Hne. by repeat case_goal.
Qed.

(** The semantics keep deleting and active states apart. *)
Definition active_apart (s : Semantics) : Prop :=
  forall state, containsString (ActiveStates (Lifecycle s)) state = true ->
    containsString (PendingStates (sem_Delete s)) state = false /\ containsString (TerminalStates (sem_Delete s)) state = false.

(** The two formal classifiers agree: a response whose lifecycle state the semantics model
    projects to the condition of the category that list reads give to the same body, and a state
    that they do not model is a failure, whatever the fallback. *)
Theorem formal_classifiers_agree (s : Semantics) (response body : GoValue) (status : option OSOKStatus)
  (fallback : OSOKConditionType) :
  active_apart s -> present_body response = Some body -> body_state body <> "" ->
  ev_condition (classifyLifecycleAsyncSemantics response status fallback s) =
    match formalLifecycleCategory (Some s) (body_state body) with
    | Some category => category_condition category
    | None => Failed
    end /\
  (forall category, formalLifecycleCategory (Some s) (body_state body) = Some category ->
     listItemLifecycleCategory (Some s) body = category).
Proof.
  intros Hap Hb Hne. split.
  - unfold classifyLifecycleAsyncSemantics, classify_with. rewrite Hb. cbn zeta.
    change (ToUpper (firstNonEmpty (jsonMap body) ["lifecycleState"; "status"])) with (body_state body).
    pose proof Hne as Hne'. apply String.eqb_neq in Hne'. rewrite Hne'. unfold formalLifecycleCategory.
    destruct (containsString (ProvisioningStates _) _); [done|]. destruct (containsString (UpdatingStates _) _); [done|].
    destruct (containsString (ActiveStates (Lifecycle s)) (body_state body)) eqn:Ea.
    + destruct (Hap _ Ea) as [-> ->]. done.
    + destruct (containsString (PendingStates _) _); [done|]. destruct (containsString (TerminalStates _) _); [done|].
      unfold lifecycleFailureEvaluation.
      destruct (ResolveAsyncPhase status (fallbackAsyncPhase fallback) =? "")%string eqn:Ep; [done|].
      unfold newLifecycleAsyncEvaluation. by rewrite Ep.
  - intros category Hc. unfold listItemLifecycleCategory. rewrite body_state_list by done. rewrite Hc.
    apply String.eqb_neq in Hne. by rewrite Hne.
Qed.

Lemma formal_classifiers_agree_witness :
  ev_condition (classifyLifecycleAsyncSemantics (list_item "a" "queue" "deleting") None Active sample_semantics) = Terminating.
Proof.
  destruct (formal_classifiers_agree sample_semantics (list_item "a" "queue" "deleting") (list_item "a" "queue" "deleting")
    None Active) as [Hc _]; [| | |exact Hc].
  - intros state Hs. apply containsString_In in Hs. apply elem_of_cons in Hs as [->|Hs%elem_of_nil]; [split; reflexivity|done].
  - reflexivity.
  - vm_compute. discriminate.
Defined.

(** The heuristics look for DELETE and CREATE, which DELETING and CREATING do not contain. *)
Lemma gerunds state : state ∈ ["CREATING"; "DELETING"] ->
  Forall (fun tokens => contains_any state tokens = false)
    [["FAIL"; "ERROR"; "INOPERABLE"]; ["NEEDS_ATTENTION"]; ["DELETED"; "TERMINATED"]; ["DELETE"; "TERMINAT"];
     ["UPDAT"; "MODIFY"; "PATCH"]; ["CREATE"; "PROVISION"; "PENDING"; "IN_PROGRESS"; "ACCEPT"; "START"]] /\
  heuristicLifecycleCategory state = lifecycleCategoryUnknown.
Proof. intros [->|[->|Hn%elem_of_nil]%elem_of_cons]%elem_of_cons; [| |done]; split; try reflexivity; repeat constructor. Qed.

(** Without formal semantics a resource that reports CREATING or DELETING is published as
    active and not polled again, and its list items get no lifecycle category; the shared async
    helper, given the same state, reports a pending create or delete. *)
Theorem gerund_states_read_as_active (response body : GoValue) (state message : string) (status : option OSOKStatus)
  (fallback : OSOKConditionType) :
  state ∈ ["CREATING"; "DELETING"] -> present_body response = Some body -> body_state body = state ->
  (exists m, classifyLifecycleAsyncHeuristics response status fallback = mkEvaluation None Active false m) /\
  heuristicLifecycleCategory state = lifecycleCategoryUnknown /\
  (exists op, NewLifecycleAsyncOperation None state message "" = Some op /\ op_NormalizedClass op = OSOKAsyncClassPending /\
     op_Phase op ∈ [OSOKAsyncPhaseCreate; OSOKAsyncPhaseDelete]).
Proof.
  intros Hs Hb Hbs. destruct (gerunds state Hs) as [Hg Hh]. split_and!; [|done|].
  - unfold classifyLifecycleAsyncHeuristics, classify_with. rewrite Hb. cbn zeta.
    change (ToUpper (firstNonEmpty (jsonMap body) ["lifecycleState"; "status"])) with (body_state body). rewrite Hbs.
    rewrite !Forall_cons in Hg. destruct Hg as (H1 & H2 & H3 & H4 & H5 & H6 & _).
    assert (Contains state "NEEDS_ATTENTION" = false) as H2' by (unfold contains_any in H2; simpl in H2; by rewrite orb_false_r in H2).
    rewrite H1, H2', H3, H4, H5, H6.
    assert ((state =? "")%string = false) as -> by (apply String.eqb_neq; intros ->; set_solver). by eexists.
  - apply elem_of_cons in Hs as [->|[->|Hn%elem_of_nil]%elem_of_cons]; [| |done]; eexists; split; [reflexivity| |reflexivity|];
      (split; [reflexivity|]); simpl; set_solver.
Qed.

Lemma gerund_states_read_as_active_witness :
  exists m, classifyLifecycleAsyncHeuristics (list_item "a" "queue" "Deleting") None Terminating = mkEvaluation None Active false m.
Proof.
  apply (gerund_states_read_as_active (list_item "a" "queue" "Deleting") (list_item "a" "queue" "Deleting") "DELETING" "" None Terminating).
  - right. left.
  - reflexivity.
  - vm_compute. reflexivity.
Defined.
