(* ===== verification/RuntimeReconcile.v ===== *)
(** * The generated runtime: work requests, delete, create or update

    The write paths of [ServiceClient]: [workrequest_async.go], [delete.go],
    [reconcile.go], and the existing-resource hooks of [hooks.go]. *)

From S2P Require Import Prelude GoStrings Shared GoErrors GoValue AsyncStatus Reconciler Secrets JsonValues Semantics SpecResolution MutationPolicy RequestBuilder Runtime RuntimeRead.
Local Open Scope string_scope.
Local Open Scope list_scope.
Local Open Scope go_scope.

Section Reconcile.
Context {W : Type} `{Env}.
Implicit Type c : Config W.

(** ** Work requests *)

Definition startGeneratedWorkRequest c (response : GoValue) (phase : OSOKAsyncPhase) (identity : GoValue)
  : M W (result string GoError) :=
  let* err := projectStatusWithHooks c response in
  match err with
  | Some e => st_ret (Err e)
  | None =>
      let resourceID := responseID response in
      (if (resourceID =? "")%string then st_ret tt
       else match RecordTracked (Identity c) with
            | Some _ => recordTrackedIdentity c identity resourceID
            | None => write_status (set_Ocid resourceID)
            end) ;;;
      seedOpeningWorkRequestID c response phase ;;;
      let* resource := get_resource in
      let '(workRequestID, resolvedPhase) := currentGeneratedWorkRequest c resource in
      st_ret (if negb (workRequestID =? "")%string && (resolvedPhase =? phase)%string then Ok workRequestID
              else if (workRequestID =? "")%string
              then Err (ErrText (Kind c +++ " " +++ phase +++ " did not return an opc-work-request-id"))
              else Err (ErrText (Kind c +++ " " +++ phase +++ " returned work request " +++ workRequestID +++
                                 " for unexpected phase " +++ Quote resolvedPhase)))
  end.

Definition fetchGeneratedWorkRequest c (workRequestID : string) : M W (result GoValue GoError) :=
  match GetWorkRequest (cfg_Async c) with
  | None => st_ret (Err (ErrText (Kind c +++ " workrequest async hooks require GetWorkRequest")))
  | Some get =>
      let* r := on_world (get (TrimSpace workRequestID)) in
      log (EvPoll (TrimSpace workRequestID) r) ;;;
      match r with
      | Err e => let* e := st_lift (normalizeOCIError e) in st_ret (Err e)
      | Ok VNil => st_ret (Err (ErrText (Kind c +++ " work request " +++ workRequestID +++ " did not return a body payload")))
      | Ok workRequest => st_ret (Ok workRequest)
      end
  end.

Definition generatedWorkRequestMessage c (phase : OSOKAsyncPhase) (workRequest : GoValue) : M W string :=
  let* custom := match hook_Message (cfg_Async c) with
                 | Some message => on_world (message phase workRequest)
                 | None => st_ret ""
                 end in
  let custom := TrimSpace custom in
  if negb (custom =? "")%string then st_ret custom
  else
    let workRequestID := workRequestStringField workRequest "Id" in
    let rawStatus := workRequestStringField workRequest "Status" in
    st_ret (if negb (phase =? "")%string && negb (workRequestID =? "")%string && negb (rawStatus =? "")%string then
              Kind c +++ " " +++ phase +++ " work request " +++ workRequestID +++ " is " +++ rawStatus
            else if negb (phase =? "")%string && negb (rawStatus =? "")%string then
              Kind c +++ " " +++ phase +++ " work request is " +++ rawStatus
            else "").

(** The phase a work request is expected to have: explicit, tracked, or the only configured one. *)
Definition expected_phase c (resource : GoValue) (explicitPhase : OSOKAsyncPhase) : OSOKAsyncPhase :=
  let phase := if (explicitPhase =? "")%string then snd (currentGeneratedWorkRequest c resource) else explicitPhase in
  if (phase =? "")%string then defaultConfiguredWorkRequestPhase (cfg_Semantics c) else phase.

Definition buildGeneratedWorkRequestAsyncOperation c (workRequest : GoValue) (explicitPhase : OSOKAsyncPhase)
  : M W (result OSOKAsyncOperation GoError) :=
  if_status (fun e => st_ret (Err e)) (fun _ =>
    attempt rawAction := match ResolveAction (cfg_Async c) with
                         | Some resolve => on_world (resolve workRequest)
                         | None => st_ret (Ok "")
                         end
      otherwise e => st_ret (Err e) in
    let* resource := get_resource in
    let fallbackPhase := expected_phase c resource explicitPhase in
    attempt fallbackPhase :=
      match hook_ResolvePhase (cfg_Async c) with
      | None => st_ret (Ok fallbackPhase)
      | Some resolve =>
          attempt derived := on_world (resolve workRequest) otherwise e => st_ret (Err e) in
          let '(derivedPhase, ok) := derived in
          st_ret (if negb ok then Ok fallbackPhase
                  else if negb (fallbackPhase =? "")%string && negb (fallbackPhase =? derivedPhase)%string
                  then Err (ErrText (Kind c +++ " work request " +++ workRequestStringField workRequest "Id" +++
                                     " exposes phase " +++ Quote derivedPhase +++ " while reconcile expected " +++
                                     Quote fallbackPhase))
                  else Ok derivedPhase)
      end
      otherwise e => st_ret (Err e) in
    if_status (fun e => st_ret (Err e)) (fun status =>
      match BuildWorkRequestAsyncOperation (Some status) (Adapter (cfg_Async c))
              (mkAsyncInput (workRequestStringField workRequest "Status") rawAction
                 (workRequestStringField workRequest "OperationType") (workRequestStringField workRequest "Id")
                 (workRequestFloat32Field workRequest "PercentComplete") "" fallbackPhase) with
      | Err e => st_ret (Err e)
      | Ok current =>
          let* message := generatedWorkRequestMessage c (op_Phase current) workRequest in
          let message := TrimSpace message in
          st_ret (Ok (if (message =? "")%string then current
                      else mkAsyncOp (op_Source current) (op_Phase current) (op_WorkRequestID current) (op_RawStatus current)
                             (op_RawOperationType current) (op_NormalizedClass current) (op_PercentComplete current)
                             message (op_UpdatedAt current)))
      end)).

Definition markWorkRequestOperation c (current : OSOKAsyncOperation) : M W OSOKResponse :=
  if_status (fun _ => st_ret failed_response) (fun _ =>
    let* t := now in
    let* resource := get_resource in
    let id := currentID c resource in
    (if negb (id =? "")%string then write_status (set_Ocid id) else st_ret tt) ;;;
    write_status (fun s => if negb (Ocid s =? "")%string && bool_decide (CreatedAt s = None)
                           then set_CreatedAt (Some t) s else s) ;;;
    let current := mkAsyncOp (op_Source current) (op_Phase current) (op_WorkRequestID current) (op_RawStatus current)
                     (op_RawOperationType current) (op_NormalizedClass current) (op_PercentComplete current)
                     (op_Message current) (Some (default t (op_UpdatedAt current))) in
    let* projection := applyAsyncOperation c current in
    st_ret (mkResponse (negb (Condition projection =? Failed)%string) (ShouldRequeue projection) defaultRequeueDuration)).

Definition setWorkRequestOperation c (current : OSOKAsyncOperation) (class : OSOKAsyncNormalizedClass) (message : string)
  : M W OSOKResponse :=
  markWorkRequestOperation c (mkAsyncOp (op_Source current) (op_Phase current) (op_WorkRequestID current)
    (op_RawStatus current) (op_RawOperationType current) class (op_PercentComplete current) (TrimSpace message) None).

(** Failure classes that are kept; every other one becomes failed.  The operation is never nil. *)
Definition failure_class (class : OSOKAsyncNormalizedClass) : OSOKAsyncNormalizedClass :=
  if (class =? OSOKAsyncClassCanceled)%string || (class =? OSOKAsyncClassAttention)%string ||
     (class =? OSOKAsyncClassUnknown)%string then class else OSOKAsyncClassFailed.

Definition failWorkRequestOperation c (current : OSOKAsyncOperation) (err : GoError) : M W (OSOKResponse * option GoError) :=
  recordErrorRequestID err ;;;
  let* response := setWorkRequestOperation c current (failure_class (op_NormalizedClass current)) (ErrorString err) in
  st_ret (response, Some err).

Definition resolveGeneratedWorkRequestResourceID c (workRequest : GoValue) (phase : OSOKAsyncPhase)
  : M W (result string GoError) :=
  let* resource := get_resource in
  let id := TrimSpace (currentID c resource) in
  if negb (id =? "")%string then st_ret (Ok id)
  else
    let missing := Err (ErrText (Kind c +++ " " +++ phase +++ " work request " +++ workRequestStringField workRequest "Id" +++
                                 " did not expose a " +++ Kind c +++ " identifier")) in
    match RecoverResourceID (cfg_Async c) with
    | None => st_ret missing
    | Some recover =>
        attempt recovered := callback (recover workRequest phase) otherwise e => st_ret (Err e) in
        let id := TrimSpace recovered in
        st_ret (if (id =? "")%string then missing else Ok id)
    end.

Definition generatedWorkRequestReadError c (current : OSOKAsyncOperation) (resourceID : string) (err : GoError) : GoError :=
  if negb (is_resource_not_found err) then err
  else if (op_Phase current =? OSOKAsyncPhaseUpdate)%string then
    ErrText (Kind c +++ " update work request " +++ op_WorkRequestID current +++ " succeeded but " +++ Kind c +++ " " +++
             resourceID +++ " is no longer readable")
  else if (op_Phase current =? OSOKAsyncPhaseDelete)%string then
    ErrText (Kind c +++ " delete work request " +++ op_WorkRequestID current +++ " succeeded but " +++ Kind c +++ " " +++
             resourceID +++ " is still unresolved")
  else err.

Definition phaseReadPhase (phase : string) : readPhase :=
  if (phase =? "create")%string then readPhaseCreate
  else if (phase =? "update")%string then readPhaseUpdate
  else if (phase =? "delete")%string then readPhaseDelete
  else readPhaseObserve.

Definition completeGeneratedWorkRequestWrite c (identity workRequest : GoValue) (current : OSOKAsyncOperation)
  : M W (OSOKResponse * option GoError) :=
  attempt resourceID := resolveGeneratedWorkRequestResourceID c workRequest (op_Phase current)
    otherwise e => failWorkRequestOperation c current e in
  attempt response := readResource c resourceID (phaseReadPhase (op_Phase current))
    otherwise e =>
      (if (op_Phase current =? OSOKAsyncPhaseCreate)%string && is_resource_not_found e then
         let* response := setWorkRequestOperation c current OSOKAsyncClassPending
           (Kind c +++ " create work request " +++ op_WorkRequestID current +++ " succeeded; waiting for " +++ Kind c +++ " " +++
            resourceID +++ " to become readable") in
         st_ret (response, None)
       else failWorkRequestOperation c current (generatedWorkRequestReadError c current resourceID e)) in
  applySuccessWithIdentity c response (fallbackConditionForAsyncPhase (op_Phase current)) identity.

(** What the final or pending status of a work request leads to. *)
Inductive work_request_verdict := WRPending | WRFinished | WRSucceeded | WRUnsupported.

Definition work_request_class (class : OSOKAsyncNormalizedClass) : work_request_verdict :=
  if (class =? OSOKAsyncClassPending)%string then WRPending
  else if (class =? OSOKAsyncClassFailed)%string || (class =? OSOKAsyncClassCanceled)%string ||
          (class =? OSOKAsyncClassAttention)%string || (class =? OSOKAsyncClassUnknown)%string then WRFinished
  else if (class =? OSOKAsyncClassSucceeded)%string then WRSucceeded
  else WRUnsupported.

Definition finished_error c (current : OSOKAsyncOperation) (workRequestID : string) : GoError :=
  ErrText (Kind c +++ " " +++ op_Phase current +++ " work request " +++ workRequestID +++ " finished with status " +++
           op_RawStatus current).
Definition unsupported_error c (current : OSOKAsyncOperation) (workRequestID : string) : GoError :=
  ErrText (Kind c +++ " " +++ op_Phase current +++ " work request " +++ workRequestID +++
           " projected unsupported async class " +++ op_NormalizedClass current).

Definition resumeGeneratedWorkRequestCreateOrUpdate c (identity : GoValue) (workRequestID : string) (phase : OSOKAsyncPhase)
  : M W (OSOKResponse * option GoError) :=
  attempt workRequest := fetchGeneratedWorkRequest c workRequestID otherwise e => failCreateOrUpdate c e in
  attempt currentAsync := buildGeneratedWorkRequestAsyncOperation c workRequest phase
    otherwise e => failCreateOrUpdate c e in
  match work_request_class (op_NormalizedClass currentAsync) with
  | WRPending =>
      let* message := generatedWorkRequestMessage c (op_Phase currentAsync) workRequest in
      let* response := setWorkRequestOperation c currentAsync OSOKAsyncClassPending message in
      st_ret (response, None)
  | WRFinished => failWorkRequestOperation c currentAsync (finished_error c currentAsync workRequestID)
  | WRSucceeded => completeGeneratedWorkRequestWrite c identity workRequest currentAsync
  | WRUnsupported => failWorkRequestOperation c currentAsync (unsupported_error c currentAsync workRequestID)
  end.

(** ** Delete *)

Definition no_delete : OSOKDeleteResult := mkDeleteResult false 0%Z.
Definition deleted_result : OSOKDeleteResult := mkDeleteResult true 0%Z.

(** The [(OSOKDeleteResult, error)] results of the delete methods. *)
Definition DeleteAnswer := (OSOKDeleteResult * option GoError)%type.
Definition delete_error (e : GoError) : M W DeleteAnswer := st_ret (no_delete, Some e).
Definition report_deleted c (message : string) : M W DeleteAnswer :=
  markDeletedWithHooks c message ;;; st_ret (deleted_result, None).

Definition validateDeleteRequest c (resource : GoValue) : option GoError :=
  match InitError c with
  | Some e => Some e
  | None => match resourceStruct resource with Err e => Some e | Ok _ => None end
  end.

Definition handleDeleteError c (err : GoError) : M W GoError :=
  match HandleError (cfg_DeleteHooks c) with
  | None => st_ret err
  | Some handle => let* handled := callback (handle err) in st_ret (default err handled)
  end.

Definition confirmDeleteRead c (id : string) : M W (result GoValue GoError) :=
  let* r := match ConfirmRead (cfg_DeleteHooks c) with
            | Some confirm => callback (confirm id)
            | None => readResource c id readPhaseDelete
            end in
  let* r := match r with
            | Err e => let* e := handleDeleteError c e in st_ret (Err e)
            | Ok response => st_ret (Ok response)
            end in
  log (EvConfirm r) ;;; st_ret r.

Definition applyDeleteOutcomeHooks c (response : GoValue) (stage : string) : M W (result DeleteOutcome GoError) :=
  match ApplyOutcome (cfg_DeleteHooks c) with
  | None => st_ret (Ok (mkOutcome false false))
  | Some apply =>
      let* r := callback (apply response stage) in
      match r with
      | (_, Some e) => st_ret (Err e)
      | (outcome, None) =>
          (if out_Handled outcome then log (EvOutcome (out_Deleted outcome)) else st_ret tt) ;;; st_ret (Ok outcome)
      end
  end.

(** [isDeleteNotFound(err) || errors.Is(err, errResourceNotFound)]. *)
Definition delete_gone (e : GoError) : M W bool :=
  let* b := st_lift (isDeleteNotFound e) in st_ret (b || is_resource_not_found e).

Definition terminating c (response : GoValue) (requeueDuration : Duration) : M W DeleteAnswer :=
  let* err := markTerminatingWithHooks c response in
  match err with
  | Some e => delete_error e
  | None => st_ret (mkDeleteResult false requeueDuration, None)
  end.

Definition bestEffortDeleteOutcome c (response : GoValue) (lifecycleState : string) (semantics : Semantics)
  (requeueDuration : Duration) : M W DeleteAnswer :=
  if (lifecycleState =? "")%string || containsString (PendingStates (sem_Delete semantics)) lifecycleState ||
     containsString (TerminalStates (sem_Delete semantics)) lifecycleState
  then report_deleted c "OCI delete request accepted"
  else terminating c response requeueDuration.

Definition requiredDeleteOutcome c (response : GoValue) (lifecycleState : string) (semantics : Semantics)
  (requeueDuration : Duration) : M W DeleteAnswer :=
  if containsString (TerminalStates (sem_Delete semantics)) lifecycleState then report_deleted c "OCI resource deleted"
  else if (lifecycleState =? "")%string || containsString (PendingStates (sem_Delete semantics)) lifecycleState
  then terminating c response requeueDuration
  else delete_error (ErrText (Kind c +++ " delete confirmation returned unexpected lifecycle state " +++ Quote lifecycleState)).

Definition applyDeletePolicy c (response : GoValue) (semantics : Semantics) (requeueDuration : Duration) : M W DeleteAnswer :=
  let lifecycleState := ToUpper (responseLifecycleState response) in
  let policy := Policy (sem_Delete semantics) in
  if (policy =? "best-effort")%string then bestEffortDeleteOutcome c response lifecycleState semantics requeueDuration
  else if (policy =? "required")%string then requiredDeleteOutcome c response lifecycleState semantics requeueDuration
  else delete_error (ErrText (Kind c +++ " formal delete confirmation policy " +++ Quote policy +++ " is not supported")).

Definition completeGeneratedWorkRequestDelete c (workRequest : GoValue) (current : OSOKAsyncOperation) : M W (bool * option GoError) :=
  let* resource := get_resource in
  let id := TrimSpace (currentID c resource) in
  let* id :=
    match RecoverResourceID (cfg_Async c) with
    | Some recover =>
        if (id =? "")%string then
          let* r := callback (recover workRequest OSOKAsyncPhaseDelete) in
          st_ret (match r with Ok recovered => TrimSpace recovered | Err _ => id end)
        else st_ret id
    | None => st_ret id
    end in
  if (id =? "")%string then
    log (EvNoIdentifier workRequest) ;;;
    markDeletedWithHooks c ("OCI " +++ Kind c +++ " delete work request completed") ;;; st_ret (true, None)
  else
    let* r := readResource c id readPhaseDelete in
    log (EvConfirm r) ;;;
    match r with
    | Err e =>
        let* gone := delete_gone e in
        if gone then
          recordErrorRequestID e ;;; markDeletedWithHooks c "OCI resource deleted" ;;; st_ret (true, None)
        else let* failed := failWorkRequestOperation c current e in st_ret (false, snd failed)
    | Ok response =>
        let* err := projectStatusWithHooks c response in
        match err with
        | Some e => st_ret (false, Some e)
        | None =>
            match cfg_Semantics c with
            | Some semantics =>
                let* answer := applyDeletePolicy c response semantics 0%Z in st_ret (Deleted (fst answer), snd answer)
            | None => let* err := markTerminatingWithHooks c response in st_ret (false, err)
            end
        end
    end.

Definition resumeGeneratedWorkRequestDelete c (workRequestID : string) : M W (bool * option GoError) :=
  attempt workRequest := fetchGeneratedWorkRequest c workRequestID
    otherwise e => (recordErrorRequestID e ;;; st_ret (false, Some e)) in
  attempt currentAsync := buildGeneratedWorkRequestAsyncOperation c workRequest OSOKAsyncPhaseDelete
    otherwise e => st_ret (false, Some e) in
  match work_request_class (op_NormalizedClass currentAsync) with
  | WRPending =>
      let* message := generatedWorkRequestMessage c (op_Phase currentAsync) workRequest in
      setWorkRequestOperation c currentAsync OSOKAsyncClassPending message ;;; st_ret (false, None)
  | WRFinished =>
      let* failed := failWorkRequestOperation c currentAsync (finished_error c currentAsync workRequestID) in
      st_ret (false, snd failed)
  | WRSucceeded => completeGeneratedWorkRequestDelete c workRequest currentAsync
  | WRUnsupported =>
      let* failed := failWorkRequestOperation c currentAsync (unsupported_error c currentAsync workRequestID) in
      st_ret (false, snd failed)
  end.

(** The deleted flag and error of a resumed delete as a delete answer. *)
Definition resume_answer (r : bool * option GoError) : DeleteAnswer := (mkDeleteResult (fst r) 0%Z, snd r).

(** [invokeDeleteOperation]: the response ([VNil] for nil), the deleted flag and the error. *)
Definition invokeDeleteOperation c (id : string) : M W (GoValue * bool * option GoError) :=
  let* r := invoke c (Delete c) id emptyOptions in
  match r with
  | Err e =>
      let* e := handleDeleteError c e in
      log (EvDelete (Err e)) ;;;
      let* notFound := st_lift (isDeleteNotFound e) in
      if notFound then
        recordErrorRequestID e ;;; markDeletedWithHooks c "OCI resource no longer exists" ;;; st_ret (VNil, true, None)
      else st_ret (VNil, false, Some e)
  | Ok response =>
      log (EvDelete (Ok response)) ;;;
      seedOpeningRequestID response ;;;
      if generatedWorkRequestPhaseEnabled (cfg_Semantics c) OSOKAsyncPhaseDelete then
        let* started := startGeneratedWorkRequest c response OSOKAsyncPhaseDelete VNil in
        st_ret (response, false, match started with Err e => Some e | Ok _ => None end)
      else seedOpeningWorkRequestID c response OSOKAsyncPhaseDelete ;;; st_ret (response, false, None)
  end.

(** The part of the confirmation after the read that both variants share. *)
Definition after_confirm_read c (response : GoValue) (k : M W DeleteAnswer) : M W DeleteAnswer :=
  let* err := projectStatusWithHooks c response in
  match err with
  | Some e => delete_error e
  | None =>
      attempt outcome := applyDeleteOutcomeHooks c response DeleteConfirmStageAfterRequest otherwise e => delete_error e in
      if out_Handled outcome then st_ret (mkDeleteResult (out_Deleted outcome) 0%Z, None) else k
  end.

Definition gone_or_error c (e : GoError) : M W DeleteAnswer :=
  let* gone := delete_gone e in
  if gone then recordErrorRequestID e ;;; report_deleted c "OCI resource deleted" else delete_error e.

Definition confirmDeleteWithoutSemantics c (id : string) (requeueDuration : Duration) : M W DeleteAnswer :=
  if negb (hasDeleteConfirmRead c) then report_deleted c "OCI delete request accepted"
  else
    attempt response := confirmDeleteRead c id otherwise e => gone_or_error c e in
    after_confirm_read c response (terminating c response requeueDuration).

Definition confirmDeleteWithSemantics c (id : string) (semantics : Semantics) (requeueDuration : Duration) : M W DeleteAnswer :=
  if negb (fu_Strategy (DeleteFollowUp semantics) =? "confirm-delete")%string then
    report_deleted c "OCI delete request accepted"
  else if negb (hasDeleteConfirmRead c) then
    delete_error (ErrText (Kind c +++ " formal delete confirmation requires a readable OCI operation"))
  else
    attempt response := confirmDeleteRead c id otherwise e => gone_or_error c e in
    after_confirm_read c response (applyDeletePolicy c response semantics requeueDuration).

Definition is_delete_tracked (tracked : string * OSOKAsyncPhase) : bool :=
  negb (fst tracked =? "")%string && (snd tracked =? OSOKAsyncPhaseDelete)%string.

Definition deleteWithoutSemantics c : M W DeleteAnswer :=
  match Delete c with
  | None => report_deleted c "OCI delete is not supported for this generated resource"
  | Some _ =>
      let* resource := get_resource in
      let id := currentID c resource in
      if (id =? "")%string then report_deleted c "OCI resource identifier is not recorded"
      else
        let* r := invokeDeleteOperation c id in
        let '(response, deleted, err) := r in
        if deleted || defined err then st_ret (mkDeleteResult deleted 0%Z, err)
        else
          let* resource := get_resource in
          let tracked := currentGeneratedWorkRequest c resource in
          if is_delete_tracked tracked then
            let* resumed := resumeGeneratedWorkRequestDelete c (fst tracked) in st_ret (resume_answer resumed)
          else confirmDeleteWithoutSemantics c id (responseRetryAfterDuration response)
  end.

Definition semanticDeleteConfig c : result Semantics GoError :=
  match cfg_Semantics c with
  | None => Err (ErrText (Kind c +++ " formal semantics are not configured"))
  | Some semantics =>
      if negb (defined (Delete c)) || (Policy (sem_Delete semantics) =? "not-supported")%string
      then Err (ErrText (Kind c +++ " formal semantics mark delete confirmation as " +++ Quote (Policy (sem_Delete semantics))))
      else Ok semantics
  end.

Definition resolveDeleteID c : M W (result string GoError) :=
  let* resource := get_resource in
  let id := currentID c resource in
  if negb (id =? "")%string then st_ret (Ok id)
  else if negb (hasDeleteConfirmRead c) then st_ret (Err ErrResourceNotFound)
  else
    attempt response := confirmDeleteRead c "" otherwise e => st_ret (Err e) in
    let id := responseID response in
    if (id =? "")%string then
      st_ret (Err (ErrText (Kind c +++ " delete confirmation could not resolve a resource OCID")))
    else
      let* err := projectStatusWithHooks c response in
      st_ret (match err with Some e => Err e | None => Ok id end).

Definition shouldConfirmDeleteAfterError c (err : GoError) : M W bool :=
  let* retryable := st_lift (isRetryableDeleteConflict err) in
  st_ret (retryable &&
          match cfg_Semantics c with
          | Some s => (fu_Strategy (DeleteFollowUp s) =? "confirm-delete")%string
          | None => false
          end && hasDeleteConfirmRead c).

(** [confirmDeleteIfAlreadyPending]: [None] when it is not handled. *)
Definition confirmDeleteIfAlreadyPending c (id : string) (semantics : Semantics) : M W (option (bool * option GoError)) :=
  if negb (fu_Strategy (DeleteFollowUp semantics) =? "confirm-delete")%string || negb (hasDeleteConfirmRead c) then st_ret None
  else
    attempt response := confirmDeleteRead c id
      otherwise e =>
        (let* gone := delete_gone e in
         if gone then markDeletedWithHooks c "OCI resource deleted" ;;; st_ret (Some (true, None)) else st_ret None) in
    let decide (projected : bool) : M W (option (bool * option GoError)) :=
      let lifecycleState := ToUpper (responseLifecycleState response) in
      if negb (containsString (PendingStates (sem_Delete semantics)) lifecycleState) &&
         negb (containsString (TerminalStates (sem_Delete semantics)) lifecycleState) then st_ret None
      else
        let* err := if projected then st_ret None else projectStatusWithHooks c response in
        match err with
        | Some e => st_ret (Some (false, Some e))
        | None => let* answer := applyDeletePolicy c response semantics 0%Z in
                  st_ret (Some (Deleted (fst answer), snd answer))
        end in
    match ApplyOutcome (cfg_DeleteHooks c) with
    | None => decide false
    | Some _ =>
        let* err := projectStatusWithHooks c response in
        match err with
        | Some e => st_ret (Some (false, Some e))
        | None =>
            attempt outcome := applyDeleteOutcomeHooks c response DeleteConfirmStageAlreadyPending
              otherwise e => st_ret (Some (false, Some e)) in
            if out_Handled outcome then st_ret (Some (out_Deleted outcome, None)) else decide true
        end
    end.

Definition deleteWithSemantics c : M W DeleteAnswer :=
  match semanticDeleteConfig c with
  | Err e => delete_error e
  | Ok semantics =>
      attempt id := resolveDeleteID c
        otherwise e =>
          (if is_resource_not_found e then report_deleted c "OCI resource no longer exists" else delete_error e) in
      let* pending := confirmDeleteIfAlreadyPending c id semantics in
      match pending with
      | Some handled => st_ret (resume_answer handled)
      | None =>
          let* r := invokeDeleteOperation c id in
          let '(response, deleted, err) := r in
          if deleted then st_ret (deleted_result, None)
          else
            let* proceed := match err with None => st_ret true | Some e => shouldConfirmDeleteAfterError c e end in
            if negb proceed then st_ret (no_delete, err)
            else
              let* resource := get_resource in
              let tracked := currentGeneratedWorkRequest c resource in
              if is_delete_tracked tracked then
                let* resumed := resumeGeneratedWorkRequestDelete c (fst tracked) in st_ret (resume_answer resumed)
              else confirmDeleteWithSemantics c id semantics (responseRetryAfterDuration response)
      end
  end.

(** The bookkeeping that ends both branches of [DeleteWithResult]. *)
Definition finish_delete c (identity : GoValue) (restore : option (Callback W unit)) (answer : DeleteAnswer) : M W DeleteAnswer :=
  match snd answer with
  | Some e => run_restore restore ;;; delete_error e
  | None =>
      let* resource := get_resource in
      recordTrackedIdentity c identity (currentID c resource) ;;;
      (if defined (RecordTracked (Identity c)) then st_ret tt else run_restore restore) ;;;
      st_ret (fst answer, None)
  end.

Definition DeleteWithResult c : M W DeleteAnswer :=
  let* resource := get_resource in
  match validateDeleteRequest c resource with
  | Some e => delete_error e
  | None =>
      attempt identity := prepareIdentity c otherwise e => delete_error e in
      let* resource := get_resource in
      let* restore :=
        match SeedSyntheticTrackedID (Identity c) with
        | Some seed => if (currentID c resource =? "")%string then callback (seed identity) else st_ret None
        | None => st_ret None
        end in
      let* resource := get_resource in
      let tracked := currentGeneratedWorkRequest c resource in
      let* answer :=
        if is_delete_tracked tracked then
          let* resumed := resumeGeneratedWorkRequestDelete c (fst tracked) in st_ret (resume_answer resumed)
        else match cfg_Semantics c with
             | Some _ => deleteWithSemantics c
             | None => deleteWithoutSemantics c
             end in
      finish_delete c identity restore answer
  end.

(** [Delete] of the [OSOKServiceManager] interface. *)
Definition client_Delete c : M W (bool * option GoError) :=
  let* answer := DeleteWithResult c in st_ret (Deleted (fst answer), snd answer).

(** ** Mutation policy *)

Definition validateCreateOnlyDrift c (currentResponse : GoValue) : M W (option GoError) :=
  match currentResponse, ValidateCreateOnlyDrift (cfg_ParityHooks c) with
  | VNil, _ | _, None => st_ret None
  | _, Some validate => callback (validate currentResponse)
  end.

Definition validateMutationPolicy c (existing : bool) (currentResponse : GoValue) : M W (option GoError) :=
  match cfg_Semantics c with
  | None => st_ret None
  | Some semantics =>
      let* resource := get_resource in
      match mutationValues resource currentResponse with
      | Err e => st_ret (Some e)
      | Ok (specValues, currentValues) =>
          match validateMutationConflicts (Kind c) (Mutation semantics) specValues with
          | Some e => st_ret (Some e)
          | None =>
              if negb existing then st_ret None
              else match validateForceNewFields (Kind c) (ForceNew (Mutation semantics)) resource specValues currentValues with
                   | Some e => st_ret (Some e)
                   | None =>
                       let* drift := validateCreateOnlyDrift c currentResponse in
                       match drift with
                       | Some e => st_ret (Some e)
                       | None =>
                           if negb (defined (cfg_Update c)) then st_ret None
                           else match unsupportedUpdateDriftPaths specValues currentValues (Mutation semantics) with
                                | [] => st_ret None
                                | paths => st_ret (Some (ErrText (Kind c +++ " formal semantics reject unsupported update drift for "
                                                                  +++ Join paths ", ")))
                                end
                       end
                   end
          end
      end
  end.

Definition shouldInvokeUpdate c (namespace : string) (currentResponse : GoValue) : M W (result bool GoError) :=
  if negb (defined (cfg_Update c)) then st_ret (Ok false)
  else if shouldObserveCurrentLifecycle (cfg_Semantics c) currentResponse then st_ret (Ok false)
  else match BuildUpdateBody c with
       | Some build =>
           let* r := callback (build namespace currentResponse) in
           st_ret (match r with Ok (_, updateNeeded) => Ok updateNeeded | Err e => Err e end)
       | None =>
           match cfg_Semantics c with
           | None => st_ret (Ok true)
           | Some _ => let* resource := get_resource in st_lift (hasMutableDrift (cfg_Semantics c) resource currentResponse)
           end
       end.

(** ** Create or update *)

Definition requiresWriteFollowUp c (phase : string) : bool :=
  match cfg_Semantics c with
  | None => hasReadableOperation c
  | Some s =>
      if (phase =? "create")%string then (fu_Strategy (CreateFollowUp s) =? "read-after-write")%string
      else if (phase =? "update")%string then (fu_Strategy (UpdateFollowUp s) =? "read-after-write")%string
      else false
  end.

Definition followUpAfterWrite c (preferredID : string) (response : GoValue) (phase : string) : M W (result GoValue GoError) :=
  if negb (requiresWriteFollowUp c phase) then st_ret (Ok response)
  else if negb (hasReadableOperation c) then
    st_ret (match cfg_Semantics c with
            | Some _ => Err (ErrText (Kind c +++ " formal semantics require " +++ phase +++
                                      " follow-up without a readable OCI operation"))
            | None => Ok response
            end)
  else
    attempt refreshed := readResource c preferredID (phaseReadPhase phase)
      otherwise e => st_ret (if (phase =? "create")%string && is_resource_not_found e then Ok response else Err e) in
    st_ret (Ok refreshed).

(** [validateCreateOrUpdateRequest]: [Some] when handled. *)
Definition validateCreateOrUpdateRequest c : M W (option (OSOKResponse * option GoError)) :=
  match InitError c with
  | Some e => let* r := failCreateOrUpdate c e in st_ret (Some r)
  | None =>
      let* resource := get_resource in
      st_ret (match resourceStruct resource with Err e => Some (failed_response, Some e) | Ok _ => None end)
  end.

(** What follows a successful write call in [updateExistingResource] and [createOrReadResource]. *)
Definition after_write c (response : GoValue) (phase : OSOKAsyncPhase) (readID : string) (fallback : OSOKConditionType)
  (identity : GoValue) : M W (OSOKResponse * option GoError) :=
  let requeueDuration := responseRetryAfterDuration response in
  seedOpeningRequestID response ;;;
  if generatedWorkRequestPhaseEnabled (cfg_Semantics c) phase then
    attempt workRequestID := startGeneratedWorkRequest c response phase identity otherwise e => failCreateOrUpdate c e in
    resumeGeneratedWorkRequestCreateOrUpdate c identity workRequestID phase
  else
    seedOpeningWorkRequestID c response phase ;;;
    attempt followUp := followUpAfterWrite c readID response phase otherwise e => failCreateOrUpdate c e in
    applySuccessWithIdentityAndRequeue c followUp fallback identity requeueDuration.

Definition updateExistingResource c (id namespace : string) (currentResponse identity : GoValue)
  : M W (OSOKResponse * option GoError) :=
  attempt response := invoke c (cfg_Update c) id (client_options c namespace currentResponse)
    otherwise e => failCreateOrUpdate c e in
  after_write c response OSOKAsyncPhaseUpdate id Updating identity.

Definition observeExistingResource c (id : string) (liveResponse identity : GoValue) : M W (OSOKResponse * option GoError) :=
  attempt response := (match liveResponse with
                       | VNil => if hasReadableOperation c then readResource c id readPhaseObserve else st_ret (Ok VNil)
                       | _ => st_ret (Ok liveResponse)
                       end)
    otherwise e => failCreateOrUpdate c e in
  applySuccessWithIdentity c response Active identity.

Definition reconcileExistingResource c (state : @createOrUpdateState W) (namespace : string) : M W (OSOKResponse * option GoError) :=
  attempt shouldUpdate := shouldInvokeUpdate c namespace (cou_liveResponse state) otherwise e => failCreateOrUpdate c e in
  if (shouldUpdate : bool) then
    updateExistingResource c (cou_currentID state) namespace (cou_liveResponse state) (cou_identity state)
  else observeExistingResource c (cou_currentID state) (cou_liveResponse state) (cou_identity state).

Definition createOrReadResource c (namespace : string) (identity : GoValue) : M W (OSOKResponse * option GoError) :=
  match Create c with
  | Some op =>
      attempt response := invoke c (Some op) "" (client_options c namespace VNil) otherwise e => failCreateOrUpdate c e in
      after_write c response OSOKAsyncPhaseCreate (responseID response) Provisioning identity
  | None =>
      attempt response := readResource c "" readPhaseObserve otherwise e => failCreateOrUpdate c e in
      applySuccessWithIdentity c response Active identity
  end.

(** [applyStatusHooksObservation]: [None] when it is not handled. *)
Definition applyStatusHooksObservation c (response identity : GoValue) : M W (option (OSOKResponse * option GoError)) :=
  let zero := mkResponse false false 0%Z in
  if negb (defined (ProjectStatus (cfg_StatusHooks c))) && negb (defined (ApplyLifecycle (cfg_StatusHooks c))) then st_ret None
  else
    let* err := projectStatusWithHooks c response in
    match err with
    | Some e => st_ret (Some (zero, Some e))
    | None =>
        (if negb (responseID response =? "")%string && defined (RecordTracked (Identity c))
         then recordTrackedIdentity c identity (responseID response) else st_ret tt) ;;;
        let* projected := match ApplyLifecycle (cfg_StatusHooks c) with
                          | Some apply => callback (apply response)
                          | None => applySuccessWithIdentity c response Active identity
                          end in
        st_ret (Some projected)
    end.

Definition handleParityHooks c (state : @createOrUpdateState W) (namespace : string) : M W (option (OSOKResponse * option GoError)) :=
  let zero := mkResponse false false 0%Z in
  let* required := match RequiresParityHandling (cfg_ParityHooks c) with
                   | Some f => callback (f (cou_liveResponse state))
                   | None => st_ret false
                   end in
  if negb required then st_ret None
  else
    attempt shouldUpdate := shouldInvokeUpdate c namespace (cou_liveResponse state)
      otherwise e => st_ret (Some (zero, Some e)) in
    if (shouldUpdate : bool) then
      match ApplyParityUpdate (cfg_ParityHooks c) with
      | None => st_ret (Some (zero, Some (ErrText (Kind c +++
                  " parity hooks require ApplyParityUpdate when RequiresParityHandling returns true"))))
      | Some apply => let* r := callback (apply (cou_liveResponse state)) in st_ret (Some r)
      end
    else
      let* observed := applyStatusHooksObservation c (cou_liveResponse state) (cou_identity state) in
      match observed with
      | Some r => st_ret (Some r)
      | None => let* r := observeExistingResource c (cou_currentID state) (cou_liveResponse state) (cou_identity state) in
                st_ret (Some r)
      end.

Definition applyExistingResourceHooks c (state : @createOrUpdateState W) (namespace : string)
  : M W (option (OSOKResponse * option GoError)) :=
  let absent := match cou_liveResponse state with VNil => true | _ => false end in
  if (cou_currentID state =? "")%string || absent then st_ret None
  else
    let* observed := if shouldObserveCurrentLifecycle (cfg_Semantics c) (cou_liveResponse state)
                     then applyStatusHooksObservation c (cou_liveResponse state) (cou_identity state)
                     else st_ret None in
    match observed with
    | Some r => st_ret (Some r)
    | None => handleParityHooks c state namespace
    end.

(** The [restoreSyntheticTrackedID] calls that end [CreateOrUpdate]: always on an error, else only when
    no hook records the identity. *)
Definition finish_create_or_update c (restore : option (Callback W unit)) (answer : OSOKResponse * option GoError)
  : M W (OSOKResponse * option GoError) :=
  (if defined (snd answer) || negb (defined (RecordTracked (Identity c))) then run_restore restore else st_ret tt) ;;;
  st_ret answer.

(** The last part of [CreateOrUpdate]: no hook handled the existing resource. *)
Definition reconcile_or_create c (state : @createOrUpdateState W) (namespace : string) : M W (OSOKResponse * option GoError) :=
  let* baseline := clearProjectedStatus c in
  let* answer := if negb (cou_currentID state =? "")%string then reconcileExistingResource c state namespace
                 else createOrReadResource c namespace (cou_identity state) in
  (match snd answer, baseline with
   | Some _, Some baseline => restoreStatusAfterFailure c baseline
   | _, _ => st_ret tt
   end) ;;;
  finish_create_or_update c (cou_restore state) answer.

(** [CreateOrUpdate]; [requestNamespace] is the namespace of the reconcile request, [skip] the context
    flag set by [WithSkipExistingBeforeCreate]. *)
Definition CreateOrUpdate c (skip : bool) (requestNamespace : string) : M W (OSOKResponse * option GoError) :=
  let* handled := validateCreateOrUpdateRequest c in
  match handled with
  | Some answer => st_ret answer
  | None =>
      attempt identity := prepareIdentity c otherwise e => failCreateOrUpdate c e in
      let* resource := get_resource in
      let '(workRequestID, phase) := currentGeneratedWorkRequest c resource in
      if negb (workRequestID =? "")%string &&
         ((phase =? OSOKAsyncPhaseCreate)%string || (phase =? OSOKAsyncPhaseUpdate)%string) then
        resumeGeneratedWorkRequestCreateOrUpdate c identity workRequestID phase
      else if negb (workRequestID =? "")%string && (phase =? OSOKAsyncPhaseDelete)%string then
        failCreateOrUpdate c (ErrText (Kind c +++ " delete work request " +++ workRequestID +++
                                       " is still active during CreateOrUpdate"))
      else
        let namespace := resourceNamespace resource requestNamespace in
        attempt state := prepareCreateOrUpdateState c skip identity otherwise e => failCreateOrUpdate c e in
        let* invalid := validateMutationPolicy c (negb (cou_currentID state =? "")%string) (cou_liveResponse state) in
        match invalid with
        | Some e => run_restore (cou_restore state) ;;; failCreateOrUpdate c e
        | None =>
            let* observed := applyExistingResourceHooks c state namespace in
            match observed with
            | Some answer => finish_create_or_update c (cou_restore state) answer
            | None => reconcile_or_create c state namespace
            end
        end
  end.
End Reconcile.
