(* ===== verification/RuntimeTrace.v ===== *)
(** * Event traces of the generated runtime

    Which OCI calls a method can make: every method only appends to the trace, and
    the number of counted calls it makes is bounded. *)

From S2P Require Import Prelude GoStrings Shared GoErrors GoValue AsyncStatus Reconciler Secrets JsonValues Semantics SpecResolution MutationPolicy RequestBuilder Runtime RuntimeRead RuntimeReconcile.
Local Open Scope string_scope.
Local Open Scope list_scope.
Local Open Scope go_scope.

(** ** Counting calls *)

Definition counted (w : nat -> bool) (e : Event) : bool :=
  match e with EvCall address _ _ => w address | _ => false end.

Definition calls (w : nat -> bool) (l : list Event) : nat := length (List.filter (counted w) l).

(** The method appends events with at most [n] counted calls, whether it returns or panics. *)
Definition bounded {W A} (w : nat -> bool) (n : nat) (m : M W A) : Prop :=
  forall s, exists l, rt_trace (snd (m s)) = rt_trace s ++ l /\ (calls w l <= n)%nat.

Section Bounds.
Context {W : Type} (w : nat -> bool).

Lemma calls_app l1 l2 : calls w (l1 ++ l2) = (calls w l1 + calls w l2)%nat.
Proof. unfold calls. by rewrite List.filter_app, length_app. Qed.

(** Methods that leave the trace alone. *)
Lemma bounded_same {A} (m : M W A) n : (forall s, rt_trace (snd (m s)) = rt_trace s) -> bounded w n m.
Proof. intros Hm s. exists []. split; [by rewrite Hm, app_nil_r|]. apply Nat.le_0_l. Qed.

Lemma bounded_weaken {A} (m : M W A) n k : (n <= k)%nat -> bounded w n m -> bounded w k m.
Proof. intros Hn Hm s. destruct (Hm s) as (l & Hl & Hc). exists l. split; [done|lia]. Qed.

Lemma bounded_bind {A B} (m : M W A) (f : A -> M W B) n k :
  bounded w n m -> (forall a, bounded w k (f a)) -> bounded w (n + k) (st_bind m f).
Proof.
  intros Hm Hf s. unfold st_bind. destruct (Hm s) as (l & Hl & Hc). destruct (m s) as [[a|] s1]; simpl in Hl.
  - destruct (Hf a s1) as (l2 & Hl2 & Hc2). exists (l ++ l2).
    rewrite Hl2, Hl, app_assoc, calls_app. split; [done|lia].
  - exists l. split; [done|lia].
Qed.

Lemma bounded_ret {A} (a : A) n : bounded w n (st_ret a : M W A).
Proof. by apply bounded_same. Qed.
Lemma bounded_lift {A} (o : outcome A) n : bounded w n (st_lift o : M W A).
Proof. by apply bounded_same. Qed.
Lemma bounded_callback {A} (h : Callback W A) n : bounded w n (callback h).
Proof. apply bounded_same. intros s. unfold callback. by destruct (h (rt_resource s) (rt_world s)) as [[o r] w']. Qed.
Lemma bounded_on_world {A} (m : ST W A) n : bounded w n (on_world m).
Proof. apply bounded_same. intros s. unfold on_world. by destruct (m (rt_world s)). Qed.
Lemma bounded_get n : bounded w n (get_resource : M W GoValue).
Proof. by apply bounded_same. Qed.
Lemma bounded_put r n : bounded w n (put_resource r : M W unit).
Proof. by apply bounded_same. Qed.
Lemma bounded_now `{Env} n : bounded w n (now : M W Time).
Proof. by apply bounded_same. Qed.

Lemma bounded_log e : bounded w (if counted w e then 1 else 0) (log e : M W unit).
Proof. intros s. exists [e]. split; [done|]. unfold calls. simpl. by destruct (counted w e). Qed.
Lemma bounded_log_quiet e n : counted w e = false -> bounded w n (log e : M W unit).
Proof. intros He. eapply bounded_weaken; [|apply bounded_log]. rewrite He. apply Nat.le_0_l. Qed.
End Bounds.

(** Sequencing with the counted calls on one side. *)
Lemma bounded_seq {W A B} w n (m : M W A) (f : A -> M W B) :
  bounded w 0 m -> (forall a, bounded w n (f a)) -> bounded w n (st_bind m f).
Proof. intros Hm Hf. by apply (bounded_bind w m f 0 n). Qed.
Lemma bounded_first {W A B} w n (m : M W A) (f : A -> M W B) :
  bounded w n m -> (forall a, bounded w 0 (f a)) -> bounded w n (st_bind m f).
Proof. intros Hm Hf. rewrite <-(Nat.add_0_r n). by apply bounded_bind. Qed.

Create HintDb trace discriminated.
#[export] Hint Resolve bounded_ret bounded_lift bounded_callback bounded_on_world bounded_get bounded_put bounded_now : trace.

(** Follow the structure of a method: known pieces, sequences whose head is quiet, case analyses. *)
Ltac trace_step :=
  first
  [ solve [auto with trace nocore]
  | match goal with
    | |- bounded _ _ (st_bind _ _) => apply bounded_seq; [|intros ?]
    | |- bounded _ _ (if_status _ _) => unfold if_status
    | |- bounded _ _ (match ?x with _ => _ end) => case x; intros
    | |- bounded _ _ (log _) => apply bounded_log_quiet; reflexivity
    end
  | progress cbn zeta beta ].
Ltac trace_solve := cbn zeta beta; repeat trace_step.

Section Methods.
Context {W : Type} `{Env} (w : nat -> bool) (c : Config W).

(** ** Status methods make no call *)

Lemma write_status_quiet f n : bounded w n (write_status f : M W unit).
Proof. unfold write_status. trace_solve. Qed.
Hint Resolve write_status_quiet : trace.
Lemma update_condition_quiet a b m n : bounded w n (update_condition a b m : M W unit).
Proof. unfold update_condition. trace_solve. Qed.
Lemma applyAsyncOperation_quiet o n : bounded w n (applyAsyncOperation c o).
Proof. unfold applyAsyncOperation. trace_solve. Qed.
Lemma clearAsyncOperation_quiet n : bounded w n (clearAsyncOperation c).
Proof. unfold clearAsyncOperation. trace_solve. Qed.
Hint Resolve update_condition_quiet applyAsyncOperation_quiet clearAsyncOperation_quiet : trace.
Lemma markFailure_quiet e n : bounded w n (markFailure c e).
Proof. unfold markFailure. trace_solve. Qed.
Lemma markDeleted_quiet m n : bounded w n (markDeleted c m).
Proof. unfold markDeleted. trace_solve. Qed.
Lemma markCondition_quiet a m n : bounded w n (markCondition c a m).
Proof. unfold markCondition. trace_solve. Qed.
Lemma seedOpeningWorkRequestID_quiet r p n : bounded w n (seedOpeningWorkRequestID c r p).
Proof. unfold seedOpeningWorkRequestID. trace_solve. Qed.
Lemma seedOpeningRequestID_quiet r n : bounded w n (seedOpeningRequestID r : M W unit).
Proof. unfold seedOpeningRequestID. trace_solve. Qed.
Lemma recordErrorRequestID_quiet e n : bounded w n (recordErrorRequestID e : M W unit).
Proof. unfold recordErrorRequestID. trace_solve. Qed.
Lemma recordTrackedIdentity_quiet i r n : bounded w n (recordTrackedIdentity c i r).
Proof. unfold recordTrackedIdentity. trace_solve. Qed.
Lemma projectStatusWithHooks_quiet r n : bounded w n (projectStatusWithHooks c r).
Proof. unfold projectStatusWithHooks. trace_solve. Qed.
Hint Resolve markFailure_quiet markDeleted_quiet markCondition_quiet seedOpeningWorkRequestID_quiet
  seedOpeningRequestID_quiet recordErrorRequestID_quiet recordTrackedIdentity_quiet projectStatusWithHooks_quiet : trace.
Lemma markDeletedWithHooks_quiet m n : bounded w n (markDeletedWithHooks c m).
Proof. unfold markDeletedWithHooks. trace_solve. Qed.
Lemma markTerminatingWithHooks_quiet r n : bounded w n (markTerminatingWithHooks c r).
Proof. unfold markTerminatingWithHooks. trace_solve. Qed.
Lemma failCreateOrUpdate_quiet e n : bounded w n (failCreateOrUpdate c e).
Proof. unfold failCreateOrUpdate. trace_solve. Qed.
Lemma applySuccess_quiet r f i d n : bounded w n (applySuccessWithIdentityAndRequeue c r f i d).
Proof. unfold applySuccessWithIdentityAndRequeue. trace_solve. Qed.
Lemma applySuccessWithIdentity_quiet r f i n : bounded w n (applySuccessWithIdentity c r f i).
Proof. apply applySuccess_quiet. Qed.
Lemma clearTrackedIdentity_quiet n : bounded w n (clearTrackedIdentity c).
Proof. unfold clearTrackedIdentity. trace_solve. Qed.
Lemma normalizeDesiredState_quiet r n : bounded w n (normalizeDesiredState c r).
Proof. unfold normalizeDesiredState. trace_solve. Qed.
Lemma clearProjectedStatus_quiet n : bounded w n (clearProjectedStatus c).
Proof. unfold clearProjectedStatus. trace_solve. Qed.
Lemma restoreStatusAfterFailure_quiet b n : bounded w n (restoreStatusAfterFailure c b).
Proof. unfold restoreStatusAfterFailure. trace_solve. Qed.
Lemma run_restore_quiet (r : option (Callback W unit)) n : bounded w n (run_restore r).
Proof. unfold run_restore. trace_solve. Qed.
Lemma prepareIdentity_quiet n : bounded w n (prepareIdentity c).
Proof. unfold prepareIdentity. trace_solve. Qed.
Lemma lookupExistingByIdentity_quiet i n : bounded w n (lookupExistingByIdentity c i).
Proof. unfold lookupExistingByIdentity. trace_solve. Qed.
Lemma guardExistingBeforeCreate_quiet n : bounded w n (guardExistingBeforeCreate c).
Proof. unfold guardExistingBeforeCreate. trace_solve. Qed.
Lemma requestBodyOverride_quiet op o n : bounded w n (requestBodyOverride c op o).
Proof. unfold requestBodyOverride. trace_solve. Qed.
Hint Resolve markDeletedWithHooks_quiet markTerminatingWithHooks_quiet failCreateOrUpdate_quiet applySuccess_quiet
  applySuccessWithIdentity_quiet clearTrackedIdentity_quiet normalizeDesiredState_quiet clearProjectedStatus_quiet
  restoreStatusAfterFailure_quiet run_restore_quiet prepareIdentity_quiet lookupExistingByIdentity_quiet
  guardExistingBeforeCreate_quiet requestBodyOverride_quiet : trace.

(** ** Invoking makes one call *)

Definition weight (op : option (Operation W)) : nat :=
  match op with Some op => if w (op_address op) then 1 else 0 | None => 0 end.

Lemma invokeWithValues_bounded op v id o : bounded w (weight op) (invokeWithValues c op v id o).
Proof.
  unfold invokeWithValues. destruct op as [op|]; [|trace_solve]. simpl weight.
  destruct (NewRequest op) as [request|], (Call op) as [call|]; try (destruct request); try by trace_solve.
  all: repeat match goal with
    | |- bounded _ _ (st_bind (log _) _) => fail 1
    | |- bounded _ _ (st_bind _ _) => apply bounded_seq; [solve [auto with trace nocore]|intros ?]
    | |- bounded _ _ (match ?x with _ => _ end) => destruct x; try solve [auto with trace nocore]
    end.
  all: apply bounded_first; [apply (bounded_log w (EvCall _ _ _))|intros ?]; trace_solve.
Qed.

Lemma invoke_bounded op id o : bounded w (weight op) (invoke c op id o).
Proof. unfold invoke. pose proof invokeWithValues_bounded. trace_solve. Qed.

(** ** Reading *)

Section Reading.
Context (reads : forall op, getReadOperation c = Some op \/ listReadOperation c = Some op -> w (op_address op) = false).

Lemma get_weight : weight (getReadOperation c) = 0.
Proof using reads. clear -reads. destruct (getReadOperation c) as [op|]; [|done]. simpl. by rewrite reads by auto. Qed.
Lemma list_weight : weight (listReadOperation c) = 0.
Proof using reads. clear -reads. destruct (listReadOperation c) as [op|]; [|done]. simpl. by rewrite reads by auto. Qed.

Lemma readResourceWithList_quiet st p n : bounded w n (readResourceWithList c st p).
Proof.
  unfold readResourceWithList. pose proof list_weight as Hw.
  destruct (listReadOperation c) as [op|]; [|trace_solve].
  apply bounded_seq; [|intros ?; trace_solve]. rewrite <-Hw. apply invokeWithValues_bounded.
Qed.

Lemma get_or_fallback_quiet st p f n : bounded w n (get_or_fallback c st p f).
Proof.
  unfold get_or_fallback. apply bounded_seq; [trace_solve|intros r]. pose proof get_weight as Hw.
  destruct (getReadOperation c) as [op|]; [|trace_solve]. destruct (negb _); [trace_solve|]. cbn zeta.
  apply bounded_seq; [|intros ?; trace_solve]. rewrite <-Hw. apply invoke_bounded.
Qed.
Hint Resolve readResourceWithList_quiet get_or_fallback_quiet : trace.

Lemma readResource_quiet id p n : bounded w n (readResource c id p).
Proof. unfold readResource, readResourceWithGet. trace_solve. Qed.
Lemma readExisting_quiet st n : bounded w n (readResourceWithGetForExistingBeforeCreate c st).
Proof. apply get_or_fallback_quiet. Qed.
Hint Resolve readResource_quiet readExisting_quiet : trace.
Lemma resolve_untracked_quiet i st b n : bounded w n (resolve_untracked c i st b).
Proof. unfold resolve_untracked. trace_solve. Qed.
Hint Resolve resolve_untracked_quiet : trace.
Lemma resolveExistingBeforeCreate_quiet skip i n : bounded w n (resolveExistingBeforeCreate c skip i).
Proof. unfold resolveExistingBeforeCreate. trace_solve. Qed.
Lemma resolveTrackedCurrentID_quiet a b d n : bounded w n (resolveTrackedCurrentID c a b d).
Proof. unfold resolveTrackedCurrentID. trace_solve. Qed.
Hint Resolve resolveExistingBeforeCreate_quiet resolveTrackedCurrentID_quiet : trace.
Lemma resolveCurrentResource_quiet skip i n : bounded w n (resolveCurrentResource c skip i).
Proof. unfold resolveCurrentResource. trace_solve. Qed.
Lemma mergeLive_quiet a b n : bounded w n (mergeLiveResponseIntoStatus a b : M W unit).
Proof. unfold mergeLiveResponseIntoStatus. trace_solve. Qed.
Lemma readMutation_quiet a b n : bounded w n (readResourceForMutationValidation c a b).
Proof.
  unfold readResourceForMutationValidation. destruct (negb b); [trace_solve|]. pose proof get_weight as Hw.
  destruct (getReadOperation c) as [op|]; [|trace_solve].
  apply bounded_seq; [|intros ?; trace_solve]. rewrite <-Hw. apply invoke_bounded.
Qed.
Hint Resolve resolveCurrentResource_quiet mergeLive_quiet readMutation_quiet : trace.
Lemma loadLive_quiet a b d n : bounded w n (loadLiveMutationResponse c a b d).
Proof. unfold loadLiveMutationResponse, readMutationAssessmentResponse. trace_solve. Qed.
Hint Resolve loadLive_quiet : trace.
Lemma prepareCreateOrUpdateState_quiet skip i n : bounded w n (prepareCreateOrUpdateState c skip i).
Proof. unfold prepareCreateOrUpdateState. trace_solve. Qed.
Hint Resolve prepareCreateOrUpdateState_quiet : trace.

(** ** Work requests are polled, never written *)

Lemma fetch_quiet i n : bounded w n (fetchGeneratedWorkRequest c i).
Proof. unfold fetchGeneratedWorkRequest. trace_solve. Qed.
Lemma message_quiet p r n : bounded w n (generatedWorkRequestMessage c p r).
Proof. unfold generatedWorkRequestMessage. trace_solve. Qed.
Lemma start_quiet r p i n : bounded w n (startGeneratedWorkRequest c r p i).
Proof. unfold startGeneratedWorkRequest. trace_solve. Qed.
Lemma markWorkRequest_quiet o n : bounded w n (markWorkRequestOperation c o).
Proof. unfold markWorkRequestOperation. trace_solve. Qed.
Hint Resolve fetch_quiet message_quiet start_quiet markWorkRequest_quiet : trace.
Lemma build_quiet r p n : bounded w n (buildGeneratedWorkRequestAsyncOperation c r p).
Proof. unfold buildGeneratedWorkRequestAsyncOperation. trace_solve. Qed.
Lemma setWorkRequest_quiet o cl m n : bounded w n (setWorkRequestOperation c o cl m).
Proof. unfold setWorkRequestOperation. trace_solve. Qed.
Hint Resolve build_quiet setWorkRequest_quiet : trace.
Lemma failWorkRequest_quiet o e n : bounded w n (failWorkRequestOperation c o e).
Proof. unfold failWorkRequestOperation. trace_solve. Qed.
Lemma resolveWorkRequestID_quiet r p n : bounded w n (resolveGeneratedWorkRequestResourceID c r p).
Proof. unfold resolveGeneratedWorkRequestResourceID. trace_solve. Qed.
Hint Resolve failWorkRequest_quiet resolveWorkRequestID_quiet : trace.
Lemma completeWrite_quiet i r o n : bounded w n (completeGeneratedWorkRequestWrite c i r o).
Proof. unfold completeGeneratedWorkRequestWrite. trace_solve. Qed.
Hint Resolve completeWrite_quiet : trace.
Lemma resumeWrite_quiet i r p n : bounded w n (resumeGeneratedWorkRequestCreateOrUpdate c i r p).
Proof. unfold resumeGeneratedWorkRequestCreateOrUpdate. trace_solve. Qed.
Hint Resolve resumeWrite_quiet : trace.

(** ** Delete *)

Lemma delete_error_quiet e n : bounded w n (delete_error e : M W DeleteAnswer).
Proof. unfold delete_error. trace_solve. Qed.
Lemma report_deleted_quiet m n : bounded w n (report_deleted c m).
Proof. unfold report_deleted. trace_solve. Qed.
Lemma handleDeleteError_quiet e n : bounded w n (handleDeleteError c e).
Proof. unfold handleDeleteError. trace_solve. Qed.
Lemma delete_gone_quiet e n : bounded w n (delete_gone e : M W bool).
Proof. unfold delete_gone. trace_solve. Qed.
Lemma applyDeleteOutcomeHooks_quiet r st n : bounded w n (applyDeleteOutcomeHooks c r st).
Proof. unfold applyDeleteOutcomeHooks. trace_solve. Qed.
Hint Resolve delete_error_quiet report_deleted_quiet handleDeleteError_quiet delete_gone_quiet
  applyDeleteOutcomeHooks_quiet : trace.
Lemma confirmDeleteRead_quiet i n : bounded w n (confirmDeleteRead c i).
Proof. unfold confirmDeleteRead. trace_solve. Qed.
Lemma terminating_quiet r d n : bounded w n (terminating c r d).
Proof. unfold terminating. trace_solve. Qed.
Hint Resolve confirmDeleteRead_quiet terminating_quiet : trace.
Lemma applyDeletePolicy_quiet r se d n : bounded w n (applyDeletePolicy c r se d).
Proof. unfold applyDeletePolicy, bestEffortDeleteOutcome, requiredDeleteOutcome. trace_solve. Qed.
Hint Resolve applyDeletePolicy_quiet : trace.
Lemma completeDelete_quiet r o n : bounded w n (completeGeneratedWorkRequestDelete c r o).
Proof. unfold completeGeneratedWorkRequestDelete. trace_solve. Qed.
Hint Resolve completeDelete_quiet : trace.
Lemma resumeDelete_quiet i n : bounded w n (resumeGeneratedWorkRequestDelete c i).
Proof. unfold resumeGeneratedWorkRequestDelete. trace_solve. Qed.
Lemma gone_or_error_quiet e n : bounded w n (gone_or_error c e).
Proof. unfold gone_or_error. trace_solve. Qed.
Hint Resolve resumeDelete_quiet gone_or_error_quiet : trace.
Lemma confirmWithout_quiet i d n : bounded w n (confirmDeleteWithoutSemantics c i d).
Proof. unfold confirmDeleteWithoutSemantics, after_confirm_read. trace_solve. Qed.
Lemma confirmWith_quiet i se d n : bounded w n (confirmDeleteWithSemantics c i se d).
Proof. unfold confirmDeleteWithSemantics, after_confirm_read. trace_solve. Qed.
Lemma resolveDeleteID_quiet n : bounded w n (resolveDeleteID c).
Proof. unfold resolveDeleteID. trace_solve. Qed.
Lemma shouldConfirm_quiet e n : bounded w n (shouldConfirmDeleteAfterError c e).
Proof. unfold shouldConfirmDeleteAfterError. trace_solve. Qed.
Lemma alreadyPending_quiet i se n : bounded w n (confirmDeleteIfAlreadyPending c i se).
Proof. unfold confirmDeleteIfAlreadyPending. trace_solve. Qed.
Lemma finish_delete_quiet i r a n : bounded w n (finish_delete c i r a).
Proof. unfold finish_delete. trace_solve. Qed.
Hint Resolve confirmWithout_quiet confirmWith_quiet resolveDeleteID_quiet shouldConfirm_quiet alreadyPending_quiet
  finish_delete_quiet : trace.

Lemma invokeDelete_bounded i : bounded w (weight (Delete c)) (invokeDeleteOperation c i).
Proof. unfold invokeDeleteOperation. apply bounded_first; [apply invoke_bounded|intros ?; trace_solve]. Qed.
Lemma deleteWithSemantics_bounded : bounded w (weight (Delete c)) (deleteWithSemantics c).
Proof.
  unfold deleteWithSemantics. case (semanticDeleteConfig c); [intros se|trace_solve].
  apply bounded_seq; [trace_solve|]. intros [i|e]; [|trace_solve].
  apply bounded_seq; [trace_solve|]. intros [h|]; [trace_solve|].
  apply bounded_first; [apply invokeDelete_bounded|intros ?; trace_solve].
Qed.
Lemma deleteWithoutSemantics_bounded : bounded w (weight (Delete c)) (deleteWithoutSemantics c).
Proof.
  unfold deleteWithoutSemantics. destruct (Delete c) as [op|] eqn:E; [|trace_solve]. rewrite <-E.
  apply bounded_seq; [trace_solve|intros r]. cbn zeta. destruct (_ =? _)%string; [trace_solve|].
  apply bounded_first; [apply invokeDelete_bounded|intros ?; trace_solve].
Qed.
Lemma DeleteWithResult_bounded : bounded w (weight (Delete c)) (DeleteWithResult c).
Proof.
  unfold DeleteWithResult.
  pose proof deleteWithSemantics_bounded. pose proof deleteWithoutSemantics_bounded.
  apply bounded_seq; [trace_solve|intros r]. case (validateDeleteRequest c r); [trace_solve|].
  apply bounded_seq; [trace_solve|]. intros [i|e]; [|trace_solve]. do 3 (apply bounded_seq; [trace_solve|intros ?]).
  apply bounded_first; [|intros ?; trace_solve]. cbn zeta. destruct (is_delete_tracked _); [trace_solve|].
  by destruct (cfg_Semantics c).
Qed.

(** ** Create or update *)

Lemma validateMutationPolicy_quiet b r n : bounded w n (validateMutationPolicy c b r).
Proof. unfold validateMutationPolicy, validateCreateOnlyDrift. trace_solve. Qed.
Lemma shouldInvokeUpdate_quiet ns r n : bounded w n (shouldInvokeUpdate c ns r).
Proof. unfold shouldInvokeUpdate. trace_solve. Qed.
Lemma followUp_quiet i r p n : bounded w n (followUpAfterWrite c i r p).
Proof. unfold followUpAfterWrite. trace_solve. Qed.
Lemma validateRequest_quiet n : bounded w n (validateCreateOrUpdateRequest c).
Proof. unfold validateCreateOrUpdateRequest. trace_solve. Qed.
Hint Resolve validateMutationPolicy_quiet shouldInvokeUpdate_quiet followUp_quiet validateRequest_quiet : trace.
Lemma after_write_quiet r p i f id n : bounded w n (after_write c r p i f id).
Proof. unfold after_write. trace_solve. Qed.
Lemma observe_quiet i r id n : bounded w n (observeExistingResource c i r id).
Proof. unfold observeExistingResource. trace_solve. Qed.
Lemma statusObservation_quiet r id n : bounded w n (applyStatusHooksObservation c r id).
Proof. unfold applyStatusHooksObservation. trace_solve. Qed.
Lemma finish_write_quiet r a n : bounded w n (finish_create_or_update c r a).
Proof. unfold finish_create_or_update. trace_solve. Qed.
Hint Resolve after_write_quiet observe_quiet statusObservation_quiet finish_write_quiet : trace.
Lemma existingHooks_quiet st ns n : bounded w n (applyExistingResourceHooks c st ns).
Proof. unfold applyExistingResourceHooks, handleParityHooks. trace_solve. Qed.
Hint Resolve existingHooks_quiet : trace.

Definition write_weight : nat := Nat.max (weight (Create c)) (weight (cfg_Update c)).

Lemma reconcileExisting_bounded st ns : bounded w write_weight (reconcileExistingResource c st ns).
Proof.
  unfold reconcileExistingResource. apply bounded_seq; [trace_solve|]. intros [[|]|e]; [|trace_solve..].
  eapply bounded_weaken; [apply Nat.le_max_r|]. unfold updateExistingResource.
  apply bounded_first; [apply invoke_bounded|intros ?; trace_solve].
Qed.
Lemma createOrRead_bounded ns i : bounded w write_weight (createOrReadResource c ns i).
Proof.
  unfold createOrReadResource. eapply bounded_weaken; [apply Nat.le_max_l|].
  destruct (Create c) as [op|] eqn:E; [|trace_solve].
  apply bounded_first; [apply invoke_bounded|intros ?; trace_solve].
Qed.
Lemma CreateOrUpdate_bounded skip ns : bounded w write_weight (CreateOrUpdate c skip ns).
Proof.
  unfold CreateOrUpdate. apply bounded_seq; [trace_solve|]. intros [a|]; [trace_solve|].
  apply bounded_seq; [trace_solve|]. intros [i|e]; [|trace_solve]. apply bounded_seq; [trace_solve|intros r].
  destruct (currentGeneratedWorkRequest c r) as [wr ph]. repeat (destruct (negb _ && _); [trace_solve|]). cbn zeta.
  apply bounded_seq; [trace_solve|]. intros [st|e]; [|trace_solve]. apply bounded_seq; [trace_solve|].
  intros [e|]; [trace_solve|]. apply bounded_seq; [trace_solve|]. intros [a|]; [trace_solve|].
  unfold reconcile_or_create. apply bounded_seq; [trace_solve|intros b].
  apply bounded_first; [|intros ?; trace_solve].
  pose proof reconcileExisting_bounded. pose proof createOrRead_bounded. destruct (negb _); auto.
Qed.
End Reading.
End Methods.

(** Without a counted address every operation is a quiet read. *)
#[export] Hint Extern 1 (_ = false) => reflexivity : trace.
#[export] Hint Resolve write_status_quiet update_condition_quiet applyAsyncOperation_quiet clearAsyncOperation_quiet
  markFailure_quiet markDeleted_quiet markCondition_quiet seedOpeningWorkRequestID_quiet seedOpeningRequestID_quiet
  recordErrorRequestID_quiet recordTrackedIdentity_quiet projectStatusWithHooks_quiet markDeletedWithHooks_quiet
  markTerminatingWithHooks_quiet failCreateOrUpdate_quiet applySuccess_quiet applySuccessWithIdentity_quiet
  clearTrackedIdentity_quiet normalizeDesiredState_quiet clearProjectedStatus_quiet restoreStatusAfterFailure_quiet
  run_restore_quiet prepareIdentity_quiet lookupExistingByIdentity_quiet guardExistingBeforeCreate_quiet
  requestBodyOverride_quiet readResourceWithList_quiet get_or_fallback_quiet readResource_quiet readExisting_quiet
  resolve_untracked_quiet resolveExistingBeforeCreate_quiet resolveTrackedCurrentID_quiet resolveCurrentResource_quiet
  mergeLive_quiet readMutation_quiet loadLive_quiet prepareCreateOrUpdateState_quiet fetch_quiet message_quiet
  start_quiet markWorkRequest_quiet build_quiet setWorkRequest_quiet failWorkRequest_quiet resolveWorkRequestID_quiet
  completeWrite_quiet resumeWrite_quiet delete_error_quiet report_deleted_quiet handleDeleteError_quiet
  delete_gone_quiet applyDeleteOutcomeHooks_quiet confirmDeleteRead_quiet terminating_quiet applyDeletePolicy_quiet
  completeDelete_quiet resumeDelete_quiet gone_or_error_quiet confirmWithout_quiet confirmWith_quiet
  resolveDeleteID_quiet shouldConfirm_quiet alreadyPending_quiet finish_delete_quiet validateMutationPolicy_quiet
  shouldInvokeUpdate_quiet followUp_quiet validateRequest_quiet after_write_quiet observe_quiet statusObservation_quiet
  finish_write_quiet existingHooks_quiet : trace.

(** ** At most one write per reconcile *)

Section SingleWrite.
Context {W : Type} `{Env} (c : Config W).

Definition at_address (o : option (Operation W)) (a : nat) : bool :=
  match o with Some op => (op_address op =? a)%nat | None => false end.

Definition is_write (a : nat) : bool := at_address (Create c) a || at_address (cfg_Update c) a || at_address (Delete c) a.

(** The operations are separate objects: a read operation is not a write operation, and the delete
    operation is neither the create nor the update operation. *)
Definition separate_operations : Prop :=
  (forall op, getReadOperation c = Some op \/ listReadOperation c = Some op -> is_write (op_address op) = false) /\
  (forall op, Delete c = Some op -> at_address (Create c) (op_address op) = false /\
                                   at_address (cfg_Update c) (op_address op) = false).

Lemma weight_le w (o : option (Operation W)) : (weight w o <= 1)%nat.
Proof. destruct o as [op|]; simpl; [destruct (w (op_address op))|]; lia. Qed.

Lemma at_address_sym o op : at_address o (op_address op) = same_operation op o.
Proof. destruct o; simpl; [apply Nat.eqb_sym|done]. Qed.

(** Two bounds on the same run speak about the same events. *)
Lemma bounded_both {A} (m : M W A) w1 w2 n1 n2 :
  bounded w1 n1 m -> bounded w2 n2 m -> forall s, exists l,
    rt_trace (snd (m s)) = rt_trace s ++ l /\ (calls w1 l <= n1)%nat /\ (calls w2 l <= n2)%nat.
Proof.
  intros H1 H2 s. destruct (H1 s) as (l1 & E1 & C1). destruct (H2 s) as (l2 & E2 & C2).
  rewrite E1 in E2. apply app_inv_head in E2 as ->. by exists l2.
Qed.

Lemma create_update_no_delete :
  separate_operations -> write_weight (at_address (Delete c)) c = 0.
Proof.
  intros [_ Hd]. unfold write_weight, weight.
  assert (Hz : forall o, o = Create c \/ o = cfg_Update c ->
            match o with Some op => if at_address (Delete c) (op_address op) then 1 else 0 | None => 0 end = 0).
  { intros [op|] Ho; [|done]. destruct (Delete c) as [d|] eqn:Ed; [|done]. simpl.
    destruct (Hd d eq_refl) as [Hc Hu]. destruct Ho as [Ho|Ho]; rewrite <-Ho in *; simpl in Hc, Hu; rewrite Nat.eqb_sym;
      [by rewrite Hc|by rewrite Hu]. }
  rewrite (Hz (Create c)) by auto. by rewrite (Hz (cfg_Update c)) by auto.
Qed.

Lemma delete_no_create_update :
  separate_operations -> weight (fun a => at_address (Create c) a || at_address (cfg_Update c) a) (Delete c) = 0.
Proof. intros [_ Hd]. destruct (Delete c) as [d|] eqn:E; [|done]. simpl. by destruct (Hd d eq_refl) as [-> ->]. Qed.

(** C4. One [CreateOrUpdate] makes at most one write call to OCI and never calls the delete
    operation; one [Delete] makes at most one write call and never calls create or update.  This
    holds for every configuration whose operations are separate, on every path, errors and panics
    included; hooks make their own calls outside the operations. *)
Theorem single_write_per_reconcile (skip : bool) (ns : string) (s : RT W) :
  separate_operations ->
  (exists l, rt_trace (snd (CreateOrUpdate c skip ns s)) = rt_trace s ++ l /\
     (calls is_write l <= 1)%nat /\ calls (at_address (Delete c)) l = 0) /\
  (exists l, rt_trace (snd (DeleteWithResult c s)) = rt_trace s ++ l /\
     (calls is_write l <= 1)%nat /\ calls (fun a => at_address (Create c) a || at_address (cfg_Update c) a) l = 0).
Proof.
  intros Hsep. pose proof Hsep as [Hr _].
  assert (Hr1 : forall op, getReadOperation c = Some op \/ listReadOperation c = Some op ->
            at_address (Delete c) (op_address op) = false).
  { intros op Hop. apply Hr in Hop. unfold is_write in Hop. by apply orb_false_iff in Hop as [_ ?]. }
  assert (Hr2 : forall op, getReadOperation c = Some op \/ listReadOperation c = Some op ->
            at_address (Create c) (op_address op) || at_address (cfg_Update c) (op_address op) = false).
  { intros op Hop. apply Hr in Hop. unfold is_write in Hop. by apply orb_false_iff in Hop as [? _]. }
  split.
  - destruct (bounded_both _ _ _ _ _ (CreateOrUpdate_bounded is_write c Hr skip ns)
                (CreateOrUpdate_bounded _ c Hr1 skip ns) s) as (l & Hl & H1 & H2).
    exists l. split; [done|]. split.
    + unfold write_weight in H1. pose proof (weight_le is_write (Create c)). pose proof (weight_le is_write (cfg_Update c)). lia.
    + rewrite create_update_no_delete in H2 by done. lia.
  - destruct (bounded_both _ _ _ _ _ (DeleteWithResult_bounded is_write c Hr)
                (DeleteWithResult_bounded (fun a => at_address (Create c) a || at_address (cfg_Update c) a) c Hr2) s) as (l & Hl & H1 & H2).
    exists l. split; [done|]. split; [pose proof (weight_le is_write (Delete c)); lia|].
    rewrite delete_no_create_update in H2 by done. lia.
Qed.

(** The identity hooks run first and leave the trace alone; what follows them decides. *)
Lemma prepareIdentity_trace (s : RT W) : rt_trace (snd (prepareIdentity c s)) = rt_trace s.
Proof.
  unfold prepareIdentity. destruct (Resolve (Identity c)) as [resolve|]; [|done]. unfold st_bind, callback.
  destruct (resolve (rt_resource s) (rt_world s)) as [[[[i|e]|] r1] w1]; [|done..].
  destruct (RecordPath (Identity c)) as [record|]; [|done]. cbn [rt_resource rt_world].
  by destruct (record i r1 w1) as [[[[]|] r2] w2].
Qed.

End SingleWrite.

(** ** Witnesses *)

Lemma sample_separate semantics a b d : separate_operations (sample_config semantics a b d).
Proof.
  split; [intros op [[= <-]|[=]]; reflexivity|]. intros op [= <-]. split; reflexivity.
Defined.

Lemma single_write_per_reconcile_witness :
  let c := sample_config sample_semantics (Ok (work_request_body "IN_PROGRESS")) (Err not_found_error) (Ok VNil) in
  exists l, rt_trace (snd (@DeleteWithResult unit plainEnv c (sample_state (sampleResource trackedStatus)))) = [] ++ l /\
    (calls (is_write c) l <= 1)%nat /\ calls (fun a => at_address (Create c) a || at_address (cfg_Update c) a) l = 0.
Proof.
  apply (@single_write_per_reconcile unit plainEnv
    (sample_config sample_semantics (Ok (work_request_body "IN_PROGRESS")) (Err not_found_error) (Ok VNil)) false "default"
    (sample_state (sampleResource trackedStatus))).
  apply sample_separate.
Defined.

