(* ===== verification/RuntimeDelete.v ===== *)
(** * What a reported delete rests on

    The delete path of the generated runtime releases the finalizer, so a wrong
    "deleted" orphans or leaks the OCI resource.  Here: under formal semantics that
    ask for confirmation, every reported delete is backed by an observation of the
    same run. *)

From S2P Require Import Prelude GoStrings Shared GoErrors GoValue AsyncStatus Reconciler Secrets JsonValues Semantics SpecResolution MutationPolicy RequestBuilder Runtime RuntimeRead RuntimeReconcile RuntimeTrace.
Local Open Scope string_scope.
Local Open Scope list_scope.
Local Open Scope go_scope.

(** ** Evidence *)

(** The lifecycle states a delete policy accepts as deleted. *)
Definition policy_accepts (semantics : Semantics) (state : string) : bool :=
  let d := sem_Delete semantics in
  if (Policy d =? "best-effort")%string then
    (state =? "")%string || containsString (PendingStates d) state || containsString (TerminalStates d) state
  else if (Policy d =? "required")%string then containsString (TerminalStates d) state
  else false.

(** An error that says the resource is gone. *)
Definition result_gone (e : GoError) : bool :=
  match isDeleteNotFound e with Ret b => b || is_resource_not_found e | Panic => false end.

Definition confirms (semantics : Semantics) (r : result GoValue GoError) : bool :=
  match r with
  | Err e => result_gone e
  | Ok response => policy_accepts semantics (ToUpper (responseLifecycleState response))
  end.

Definition work_request_succeeded (adapter : WorkRequestAsyncAdapter) (workRequest : GoValue) : bool :=
  match Normalize adapter (workRequestStringField workRequest "Status") with
  | Ok class => (class =? OSOKAsyncClassSucceeded)%string
  | Err _ => false
  end.

(** Events that justify reporting the resource as deleted: a delete request or a confirmation read
    that answered "not found", a confirmation read that shows an accepted lifecycle state, a positive
    decision of the service's own outcome hook, or a succeeded delete work request when no
    identifier is known. *)
Definition delete_evidence {W} (c : Config W) (semantics : Semantics) (e : Event) : bool :=
  match e with
  | EvDelete (Err e) => match isDeleteNotFound e with Ret b => b | Panic => false end
  | EvConfirm r => confirms semantics r
  | EvOutcome deleted => deleted
  | EvNoIdentifier workRequest => work_request_succeeded (Adapter (cfg_Async c)) workRequest
  | _ => false
  end.

(** ** A logic of traces *)

(** [m] only appends to the trace, and [Q] relates what it returns to what it appended. *)
Definition logs {W A} (m : M W A) (Q : A -> list Event -> Prop) : Prop :=
  forall s, exists l, rt_trace (snd (m s)) = rt_trace s ++ l /\ forall a, fst (m s) = Ret a -> Q a l.

Abbreviation appends := (bounded (fun _ => false) 0).

Lemma logs_appends {W A} (m : M W A) : appends m -> logs m (fun _ _ => True).
Proof. intros Hm s. destruct (Hm s) as (l & Hl & _). by exists l. Qed.

Lemma logs_weaken {W A} (m : M W A) (Q R : A -> list Event -> Prop) :
  (forall a l, Q a l -> R a l) -> logs m Q -> logs m R.
Proof. intros HQR Hm s. destruct (Hm s) as (l & Hl & HQ). exists l. split; [done|]. intros a Ha. by apply HQR, HQ. Qed.

Lemma logs_bind {W A B} (m : M W A) (f : A -> M W B) Q R :
  logs m Q -> (forall a, logs (f a) (fun b l2 => forall l1, Q a l1 -> R b (l1 ++ l2))) -> logs (st_bind m f) R.
Proof.
  intros Hm Hf s. unfold st_bind. destruct (Hm s) as (l1 & Hl & HQ). destruct (m s) as [[a|] s1]; simpl in *.
  - destruct (Hf a s1) as (l2 & Hl2 & HR). exists (l1 ++ l2). rewrite Hl2, Hl, app_assoc. split; [done|].
    intros b Hb. by apply HR; [|apply HQ].
  - exists l1. split; [done|]. intros ? [=].
Qed.

Lemma logs_ret {W A} (a : A) (Q : A -> list Event -> Prop) : Q a [] -> logs (st_ret a : M W A) Q.
Proof. intros HQ s. exists []. rewrite app_nil_r. split; [done|]. intros b [= <-]. done. Qed.
Lemma logs_log {W} e (Q : unit -> list Event -> Prop) : Q tt [e] -> logs (log e : M W unit) Q.
Proof. intros HQ s. exists [e]. split; [done|]. by intros [] _. Qed.
Lemma logs_lift {W A} (o : outcome A) (Q : A -> list Event -> Prop) : (forall a, o = Ret a -> Q a []) -> logs (st_lift o : M W A) Q.
Proof. intros HQ s. exists []. rewrite app_nil_r. split; [done|]. simpl. auto. Qed.

(** Facts about the result alone. *)
Lemma logs_then {W A B} (m : M W A) (f : A -> M W B) (P : B -> Prop) :
  appends m -> (forall a, logs (f a) (fun b _ => P b)) -> logs (st_bind m f) (fun b _ => P b).
Proof.
  intros Hm Hf. eapply logs_bind; [by apply logs_appends|]. intros a. eapply logs_weaken; [|apply Hf]. auto.
Qed.

(** What the delete path asks of a notion of evidence [E]: it holds of the events that the path
    goes by when it reports a delete.  [handleDeleteError] has the service's error hook in it, so a
    service with a stricter hook has a stricter notion of evidence. *)
Class EvidenceLaws {W} `{Env} (c : Config W) (semantics : Semantics) (E : Event -> bool) : Prop := {
  evidence_outcome : E (EvOutcome true) = true;
  evidence_no_identifier : forall workRequest,
    work_request_succeeded (Adapter (cfg_Async c)) workRequest = true -> E (EvNoIdentifier workRequest) = true;
  evidence_shown : forall response,
    policy_accepts semantics (ToUpper (responseLifecycleState response)) = true -> E (EvConfirm (Ok response)) = true;
  evidence_handled : forall e, logs (handleDeleteError c e) (fun e' _ =>
    (isDeleteNotFound e' = Ret true -> E (EvDelete (Err e')) = true) /\
    (result_gone e' = true -> E (EvConfirm (Err e')) = true));
  evidence_read : forall id, id <> "" -> logs (readResource c id readPhaseDelete) (fun r l =>
    confirms semantics r = true -> E (EvConfirm r) = true \/ List.existsb E l = true)
}.

Section Evidence.
Context {W : Type} `{Env} (c : Config W) (semantics : Semantics) (E : Event -> bool) (laws : EvidenceLaws c semantics E).
Definition has_evidence (l : list Event) : Prop := List.existsb E l = true.
Abbreviation ev := has_evidence.

(** Whenever the result claims a delete, the appended events hold evidence. *)
Definition evidenced {A} (claim : A -> bool) (m : M W A) : Prop := logs m (fun a l => claim a = true -> ev l).

Lemma ev_app l1 l2 : ev l1 \/ ev l2 -> ev (l1 ++ l2).
Proof. unfold has_evidence. rewrite existsb_app. intros [-> | ->]; [done|apply orb_true_r]. Qed.

Lemma ev_bind {A B} (R : A -> Prop) claim (m : M W A) (f : A -> M W B) :
  logs m (fun a l => R a \/ ev l) -> (forall a, appends (f a)) -> (forall a, R a -> evidenced claim (f a)) ->
  evidenced claim (st_bind m f).
Proof.
  intros Hm Ha Hf s. unfold st_bind. destruct (Hm s) as (l1 & Hl & HQ). destruct (m s) as [[a|] s1]; simpl in *.
  - destruct (HQ a eq_refl) as [HR|He].
    + destruct (Hf a HR s1) as (l2 & Hl2 & Hev). exists (l1 ++ l2). rewrite Hl2, Hl, app_assoc. split; [done|].
      intros b Hb Hc. apply ev_app. right. by eapply Hev.
    + destruct (Ha a s1) as (l2 & Hl2 & _). exists (l1 ++ l2). rewrite Hl2, Hl, app_assoc. split; [done|].
      intros b _ _. apply ev_app. by left.
  - exists l1. split; [done|]. intros ? [=].
Qed.

Lemma ev_seq {A B} claim (m : M W A) (f : A -> M W B) :
  appends m -> (forall a, evidenced claim (f a)) -> evidenced claim (st_bind m f).
Proof.
  intros Hm Hf. eapply logs_bind; [by apply logs_appends|]. intros a. eapply logs_weaken; [|apply Hf].
  intros b l Hl l1 _ Hc. apply ev_app. right. auto.
Qed.

Lemma ev_ret {A} (claim : A -> bool) (a : A) : claim a = false -> evidenced claim (st_ret a : M W A).
Proof. intros Ha. apply logs_ret. by rewrite Ha. Qed.

Lemma ev_claim {A} (claim : A -> bool) (m : M W A) : evidenced claim m -> logs m (fun a l => claim a = false \/ ev l).
Proof. apply logs_weaken. intros a l Ha. destruct (claim a) eqn:E0; [right; by apply Ha|by left]. Qed.

Lemma ev_none {A} (claim : A -> bool) (m : M W A) : appends m -> (forall a, claim a = false) -> evidenced claim m.
Proof. intros Hm Ha. eapply logs_weaken; [|by apply logs_appends]. intros a l _. by rewrite Ha. Qed.

(** ** Reads and reports *)

Lemma appends_weight {A} (op : option (Operation W)) (m : M W A) : bounded (fun _ => false) (weight (fun _ => false) op) m -> appends m.
Proof. intros Hm. eapply bounded_weaken; [|exact Hm]. by destruct op. Qed.

Lemma confirmDeleteRead_logs id : logs (confirmDeleteRead c id) (fun r l => confirms semantics r = false \/ ev l).
Proof.
  unfold confirmDeleteRead. eapply logs_bind; [apply logs_appends; by trace_solve|intros r0].
  eapply logs_bind with (Q := fun r _ => confirms semantics r = true -> E (EvConfirm r) = true).
  - destruct r0 as [response|e]; [apply logs_ret; apply evidence_shown|].
    eapply logs_bind; [apply evidence_handled|intros e']. apply logs_ret. by intros l1 [_ He].
  - intros r. eapply logs_bind; [apply logs_log with (Q := fun _ l => l = [EvConfirm r]); done|intros []].
    apply logs_ret. intros l1 -> l2 Hr l3 _. destruct (confirms semantics r) eqn:Ec; [right|by left].
    apply ev_app. right. apply ev_app. right. unfold has_evidence. simpl. by rewrite Hr.
Qed.

Lemma delete_gone_logs e : logs (delete_gone e : M W bool) (fun b _ => b = result_gone e).
Proof.
  unfold delete_gone. eapply logs_bind with (Q := fun b l => isDeleteNotFound e = Ret b).
  - apply logs_lift. by intros a ->.
  - intros b. apply logs_ret. intros l1 Hb. unfold result_gone. by rewrite Hb.
Qed.

(** Claims of the delete methods. *)
Definition says_deleted (a : DeleteAnswer) : bool := Deleted (fst a).

Lemma ev_delete_error e : evidenced says_deleted (delete_error e).
Proof. by apply ev_ret. Qed.

Lemma ev_gone_or_error e : result_gone e = false -> evidenced says_deleted (gone_or_error c e).
Proof.
  intros He. unfold gone_or_error. eapply ev_bind with (R := fun b => b = false).
  - eapply logs_weaken; [|apply delete_gone_logs]. intros b l ->. by left.
  - intros b. by trace_solve.
  - intros b ->. apply ev_delete_error.
Qed.

Lemma ev_terminating r d : evidenced says_deleted (terminating c r d).
Proof. unfold terminating. apply ev_seq; [by trace_solve|]. intros [e|]; by apply ev_ret. Qed.

Lemma ev_policy r d :
  policy_accepts semantics (ToUpper (responseLifecycleState r)) = false ->
  evidenced says_deleted (applyDeletePolicy c r semantics d).
Proof.
  unfold policy_accepts, applyDeletePolicy. intros Hp.
  destruct (_ =? "best-effort")%string.
  - unfold bestEffortDeleteOutcome. rewrite Hp. apply ev_terminating.
  - destruct (_ =? "required")%string; [|apply ev_delete_error].
    unfold requiredDeleteOutcome. rewrite Hp. destruct (_ || _); [apply ev_terminating|apply ev_delete_error].
Qed.

Lemma outcome_logs r st :
  logs (applyDeleteOutcomeHooks c r st)
    (fun o l => match o with Ok o => out_Handled o && out_Deleted o = false | Err _ => True end \/ ev l).
Proof.
  unfold applyDeleteOutcomeHooks. destruct (ApplyOutcome (cfg_DeleteHooks c)) as [f|]; [|apply logs_ret; by left].
  eapply logs_bind; [apply logs_appends; by trace_solve|]. intros [o [e|]]; [apply logs_ret; by left|].
  destruct (out_Handled o) eqn:Eh.
  - eapply logs_bind; [apply logs_log with (Q := fun _ l => l = [EvOutcome (out_Deleted o)]); done|intros []].
    apply logs_ret. intros l1 -> l2 _. destruct (out_Deleted o); [right|left; by rewrite andb_false_r].
    apply ev_app. right. unfold has_evidence. simpl. by rewrite evidence_outcome.
  - eapply logs_bind; [apply logs_ret with (Q := fun _ _ => True); done|intros []]. apply logs_ret. left. by rewrite Eh.
Qed.

Lemma ev_after_confirm r k :
  appends k -> evidenced says_deleted k -> evidenced says_deleted (after_confirm_read c r k).
Proof.
  intros Hk Hev. unfold after_confirm_read. apply ev_seq; [by trace_solve|]. intros [e|]; [apply ev_delete_error|].
  eapply ev_bind; [apply outcome_logs|..].
  - intros [o|e]; by trace_solve.
  - intros [o|e] Ho; [|apply ev_delete_error]. destruct (out_Handled o) eqn:Eh; [|done]. by apply ev_ret.
Qed.

(** ** Work requests *)

Lemma build_class wr ph : logs (buildGeneratedWorkRequestAsyncOperation c wr ph) (fun r _ =>
  match r with
  | Ok o => Normalize (Adapter (cfg_Async c)) (workRequestStringField wr "Status") = Ok (op_NormalizedClass o)
  | Err _ => True
  end).
Proof.
  unfold buildGeneratedWorkRequestAsyncOperation, if_status. apply logs_then; [by trace_solve|intros r].
  destruct (osokStatus r); [|by apply logs_ret]. apply logs_then; [by trace_solve|]. intros [act|]; [|by apply logs_ret].
  apply logs_then; [by trace_solve|intros r2]. apply logs_then; [by trace_solve|]. intros [fp|]; [|by apply logs_ret].
  apply logs_then; [by trace_solve|intros r3]. destruct (osokStatus r3) as [st|]; [|by apply logs_ret].
  destruct (BuildWorkRequestAsyncOperation _ _ _) as [o|] eqn:Eb; [|by apply logs_ret].
  assert (Hn : Normalize (Adapter (cfg_Async c)) (workRequestStringField wr "Status") = Ok (op_NormalizedClass o)).
  { unfold BuildWorkRequestAsyncOperation in Eb. cbn [in_RawStatus] in Eb. destruct (Normalize _ _); [|done].
    destruct (ResolvePhase _ _ _ _); [|done]. by simplify_eq. }
  apply logs_then; [by trace_solve|intros msg]. apply logs_ret. by destruct (_ =? _)%string.
Qed.

Definition says_true (a : bool * option GoError) : bool := fst a.

Lemma work_request_class_succeeded class :
  work_request_class class = WRSucceeded -> class = OSOKAsyncClassSucceeded.
Proof. unfold work_request_class. repeat case_goal; try done. by bool_prop. Qed.

Context (policy : cfg_Semantics c = Some semantics).

Lemma ev_complete wr o :
  Normalize (Adapter (cfg_Async c)) (workRequestStringField wr "Status") = Ok OSOKAsyncClassSucceeded ->
  evidenced says_true (completeGeneratedWorkRequestDelete c wr o).
Proof.
  intros Hn. unfold completeGeneratedWorkRequestDelete. apply ev_seq; [by trace_solve|intros r]. cbn zeta.
  apply ev_seq; [by trace_solve|intros id]. destruct (id =? "")%string eqn:Eid.
  - eapply ev_bind with (R := fun _ => False); [|intros ?; by trace_solve|done].
    apply logs_log. right. unfold has_evidence. simpl. rewrite evidence_no_identifier; [done|].
    unfold work_request_succeeded. by rewrite Hn.
  - eapply ev_bind with (R := fun got => confirms semantics got = true -> E (EvConfirm got) = true).
    { eapply logs_weaken; [|apply evidence_read; by apply String.eqb_neq]. intros got l Hl. cbn in Hl.
      destruct (confirms semantics got); [destruct (Hl eq_refl); [by left|by right]|by left]. }
    { intros got. by trace_solve. }
    intros got Hgot. eapply ev_bind with (R := fun _ => confirms semantics got = false).
    + apply logs_log. destruct (confirms semantics got) eqn:Ec; [right|by left]. unfold has_evidence. simpl. by rewrite Hgot.
    + intros ?. by trace_solve.
    + intros _ Hc. destruct got as [resp|e]; simpl in Hc.
      * apply ev_seq; [by trace_solve|]. intros [e|]; [by apply ev_ret|]. rewrite policy.
        eapply ev_bind with (R := fun a => says_deleted a = false).
        -- by apply ev_claim, ev_policy.
        -- intros a. by apply bounded_ret.
        -- intros a Ha. by apply ev_ret.
      * eapply ev_bind with (R := fun b => b = false); [|intros ?; by trace_solve|].
        -- eapply logs_weaken; [|apply delete_gone_logs]. intros b l ->. by left.
        -- intros b ->. apply ev_seq; [by trace_solve|intros a]. by apply ev_ret.
Qed.

Lemma ev_resume id : evidenced says_true (resumeGeneratedWorkRequestDelete c id).
Proof.
  unfold resumeGeneratedWorkRequestDelete. apply ev_seq; [by trace_solve|]. intros [wr|e].
  2: { apply ev_seq; [by trace_solve|intros ?]. by apply ev_ret. }
  eapply ev_bind; [eapply logs_weaken; [|apply (build_class wr)]; intros r l Hr; left; exact Hr|intros ?; by trace_solve|].
  intros [o|e] Ho; [|by apply ev_ret]. destruct (work_request_class _) eqn:Ec.
  - apply ev_seq; [by trace_solve|intros ?]. apply ev_seq; [by trace_solve|intros ?]. by apply ev_ret.
  - apply ev_seq; [by trace_solve|intros ?]. by apply ev_ret.
  - apply work_request_class_succeeded in Ec. rewrite Ec in Ho. by apply ev_complete.
  - apply ev_seq; [by trace_solve|intros ?]. by apply ev_ret.
Qed.

(** A resumed delete as an answer. *)
Lemma ev_resume_answer id :
  evidenced says_deleted (let* resumed := resumeGeneratedWorkRequestDelete c id in st_ret (resume_answer resumed)).
Proof.
  eapply ev_bind with (R := fun a => says_true a = false).
  - by apply ev_claim, ev_resume.
  - intros a. by apply bounded_ret.
  - intros a Ha. by apply ev_ret.
Qed.

(** ** The delete request *)

Lemma ev_invokeDelete id : evidenced (fun a => snd (fst a)) (invokeDeleteOperation c id).
Proof.
  unfold invokeDeleteOperation. apply ev_seq; [eapply appends_weight, invoke_bounded|]. intros [resp|e].
  - apply ev_seq; [by trace_solve|intros ?]. apply ev_seq; [by trace_solve|intros ?].
    destruct (generatedWorkRequestPhaseEnabled _ _); (apply ev_seq; [by trace_solve|intros ?]); by apply ev_ret.
  - eapply ev_bind; [eapply logs_weaken; [|apply evidence_handled]; intros e2 l He2; left; exact (proj1 He2)|
      intros ?; by trace_solve|intros e2 He2].
    eapply ev_bind with (R := fun _ => isDeleteNotFound e2 <> Ret true); [|intros ?; by trace_solve|].
    + apply logs_log. destruct (isDeleteNotFound e2) as [[]|] eqn:Ee; [right|by left..].
      unfold has_evidence. simpl. by rewrite He2.
    + intros _ Hne. eapply ev_bind with (R := fun b => b = false); [|intros ?; by trace_solve|].
      * apply logs_lift. intros [] Hb; [by rewrite Hb in Hne|by left].
      * intros b ->. by apply ev_ret.
Qed.

Lemma invokeDelete_appends id : appends (invokeDeleteOperation c id).
Proof. eapply appends_weight, invokeDelete_bounded. Qed.
Hint Resolve invokeDelete_appends : trace.

Lemma result_gone_not_found e : is_resource_not_found e = true -> result_gone e = true.
Proof. unfold result_gone, isDeleteNotFound. by intros ->. Qed.

(** Projection errors are not the not-found sentinel: the built-in projection never returns it, and
    a service's own projection is assumed not to. *)
Definition ordinary_projection_errors : Prop :=
  forall f response r w e r' w', ProjectStatus (cfg_StatusHooks c) = Some f ->
    f response r w = (Ret (Some e), r', w') -> is_resource_not_found e = false.

Lemma statusStruct_ordinary r e : statusStruct r = Err e -> is_resource_not_found e = false.
Proof.
  unfold statusStruct, resourceStruct. intros Hr. repeat (case_hyp Hr; simplify_eq; try done).
Qed.

Lemma merge_ordinary r response e :
  snd (mergeResponseIntoStatus r response) = Some e -> is_resource_not_found e = false.
Proof.
  unfold mergeResponseIntoStatus. destruct (responseBody response) as [body|]; [|done].
  destruct (statusStruct r) as [v|e'] eqn:Es.
  2: { apply statusStruct_ordinary in Es. destruct body; cbn [snd]; congruence. }
  destruct (to_json body) as [j|t]; [destruct (decode_into j v) as [v' [err|]]|];
    destruct body; cbn [snd]; intros [= <-]; done.
Qed.

Lemma project_logs response :
  ordinary_projection_errors ->
  logs (projectStatusWithHooks c response) (fun err _ => forall e, err = Some e -> is_resource_not_found e = false).
Proof.
  intros Hord. unfold projectStatusWithHooks. destruct (ProjectStatus (cfg_StatusHooks c)) as [f|] eqn:Ef.
  - intros s. exists []. rewrite app_nil_r. unfold callback.
    destruct (f response (rt_resource s) (rt_world s)) as [[o r'] w'] eqn:E0. split; [done|]. simpl. intros a -> e ->.
    by eapply Hord.
  - apply logs_then; [by trace_solve|intros r].
    destruct (mergeResponseIntoStatus r response) as [r' err] eqn:Em. apply logs_then; [by trace_solve|intros ?].
    apply logs_ret. intros e ->. apply (merge_ordinary r response). by rewrite Em.
Qed.

(** ** The confirmation steps *)

Lemma resolveDeleteID_logs :
  ordinary_projection_errors -> hasDeleteConfirmRead c = true ->
  logs (resolveDeleteID c) (fun r l => (forall e, r = Err e -> is_resource_not_found e = false) \/ ev l).
Proof.
  intros Hord Hread. unfold resolveDeleteID. eapply logs_bind; [apply logs_appends; by trace_solve|intros r]. cbn zeta.
  destruct (negb _); [apply logs_ret; intros; left; congruence|]. rewrite Hread. cbn [negb].
  eapply logs_bind; [apply confirmDeleteRead_logs|]. intros [resp|e].
  - destruct (_ =? "")%string; [apply logs_ret; intros l1 _ l2 _; left; by intros e [= <-]|].
    eapply logs_bind; [by apply project_logs|]. intros [e|]; apply logs_ret; intros l1 He l2 _ l3 _; left; [|done].
    intros e' [= <-]. by apply He.
  - apply logs_ret. intros l1 [Hc|Hev] l2 _; [left|right].
    + intros e' [= <-]. simpl in Hc. destruct (is_resource_not_found e) eqn:E0; [|done].
      by rewrite (result_gone_not_found e E0) in Hc.
    + apply ev_app. right. apply ev_app. by left.
Qed.

Definition says_handled (a : option (bool * option GoError)) : bool := match a with Some (b, _) => b | None => false end.

Lemma ev_alreadyPending id : evidenced says_handled (confirmDeleteIfAlreadyPending c id semantics).
Proof.
  unfold confirmDeleteIfAlreadyPending. destruct (_ || _); [by apply ev_ret|].
  eapply ev_bind; [apply confirmDeleteRead_logs|intros ?; by trace_solve|]. intros [resp|e] Hc; cbn [confirms] in Hc.
  2: { eapply ev_bind with (R := fun b => b = false); [|intros ?; by trace_solve|intros b ->; by apply ev_ret].
       eapply logs_weaken; [|apply delete_gone_logs]. intros b l ->. by left. }
  assert (Hdecide : forall m : M W (option GoError), appends m -> evidenced says_handled
    (let* err := m in
     match err with
     | Some e => st_ret (Some (false, Some e))
     | None => let* answer := applyDeletePolicy c resp semantics 0%Z in st_ret (Some (Deleted (fst answer), snd answer))
     end)).
  { intros m Hm. apply ev_seq; [done|]. intros [e|]; [by apply ev_ret|].
    eapply ev_bind; [by apply ev_claim, ev_policy|intros ?; by trace_solve|]. intros a Ha. by apply ev_ret. }
  destruct (ApplyOutcome (cfg_DeleteHooks c)); cbn zeta.
  - apply ev_seq; [by trace_solve|]. intros [e|]; [by apply ev_ret|].
    eapply ev_bind; [apply outcome_logs|intros ?; by trace_solve|].
    intros [o|e] Ho; [|by apply ev_ret]. destruct (out_Handled o) eqn:Eh; [by apply ev_ret|].
    destruct (negb _ && negb _); [by apply ev_ret|]. apply Hdecide. by apply bounded_ret.
  - destruct (negb _ && negb _); [by apply ev_ret|]. apply Hdecide. by trace_solve.
Qed.

Context (confirmed : fu_Strategy (DeleteFollowUp semantics) = "confirm-delete").

Lemma ev_confirmWithSemantics id d : evidenced says_deleted (confirmDeleteWithSemantics c id semantics d).
Proof.
  unfold confirmDeleteWithSemantics. rewrite confirmed. cbn [negb String.eqb]. simpl negb. cbn iota.
  destruct (negb _); [apply ev_delete_error|].
  eapply ev_bind; [apply confirmDeleteRead_logs|intros ?; unfold after_confirm_read; by trace_solve|].
  intros [resp|e] Hc; cbn [confirms] in Hc; [|by apply ev_gone_or_error].
  apply ev_after_confirm; [by trace_solve|by apply ev_policy].
Qed.

Lemma ev_deleteWithSemantics :
  ordinary_projection_errors -> hasDeleteConfirmRead c = true -> evidenced says_deleted (deleteWithSemantics c).
Proof.
  intros Hord Hread. unfold deleteWithSemantics, semanticDeleteConfig. rewrite policy.
  destruct (_ || _); [apply ev_delete_error|].
  eapply ev_bind; [by apply resolveDeleteID_logs|intros ?; by trace_solve|]. intros [id|e] Hid.
  2: { rewrite (Hid e eq_refl). apply ev_delete_error. }
  eapply ev_bind; [apply ev_claim, ev_alreadyPending|intros ?; by trace_solve|]. intros [[b e]|] Hb; [by apply ev_ret|].
  eapply ev_bind; [apply ev_claim, ev_invokeDelete|intros ?; by trace_solve|]. intros [[resp del] err] Hd. simpl in Hd. subst del.
  apply ev_seq; [by trace_solve|]. intros []; [|by apply ev_ret].
  apply ev_seq; [by trace_solve|intros r]. cbn zeta. destruct (is_delete_tracked _); [apply ev_resume_answer|].
  apply ev_confirmWithSemantics.
Qed.

Lemma ev_DeleteWithResult :
  ordinary_projection_errors -> hasDeleteConfirmRead c = true -> evidenced says_deleted (DeleteWithResult c).
Proof.
  intros Hord Hread. unfold DeleteWithResult. apply ev_seq; [by trace_solve|intros r].
  destruct (validateDeleteRequest c r); [apply ev_delete_error|].
  apply ev_seq; [by trace_solve|]. intros [i|e]; [|apply ev_delete_error].
  do 3 (apply ev_seq; [by trace_solve|intros ?]). cbn zeta.
  eapply ev_bind with (R := fun a => says_deleted a = false).
  - apply ev_claim. destruct (is_delete_tracked _); [apply ev_resume_answer|]. rewrite policy.
    by apply ev_deleteWithSemantics.
  - intros ?. by trace_solve.
  - intros ans Ha. unfold finish_delete. destruct (snd ans).
    + apply ev_seq; [by trace_solve|intros ?]. apply ev_delete_error.
    + do 3 (apply ev_seq; [by trace_solve|intros ?]). by apply ev_ret.
Qed.
End Evidence.

(** ** Theorem *)

(** Without looking at the error hook, [delete_evidence] is such a notion. *)
Lemma plain_evidence {W} `{Env} (c : Config W) (semantics : Semantics) : EvidenceLaws c semantics (delete_evidence c semantics).
Proof.
  split; [done|by intros wr|by intros response|..].
  - intros e. eapply logs_weaken; [|apply logs_appends; by trace_solve]. intros e' l _. cbn. by split; [intros ->|].
  - intros id _. eapply logs_weaken; [|apply logs_appends; by trace_solve]. intros r l _ Hr. by left.
Qed.

(** C2. Under formal semantics that ask for delete confirmation (and with a read to confirm with),
    [DeleteWithResult] reports the resource as deleted only on evidence obtained in the same run: a
    not-found answer of the delete request or of a confirmation read, a confirmation read whose
    lifecycle state the delete policy accepts (terminal states for the required policy), the
    service's own outcome hook, or a succeeded delete work request when no identifier is known. *)
Theorem deleted_needs_evidence {W} `{Env} (c : Config W) (semantics : Semantics) (s s' : RT W) (answer : DeleteAnswer) :
  cfg_Semantics c = Some semantics ->
  fu_Strategy (DeleteFollowUp semantics) = "confirm-delete" ->
  hasDeleteConfirmRead c = true -> ordinary_projection_errors c ->
  DeleteWithResult c s = (Ret answer, s') -> Deleted (fst answer) = true ->
  exists l e, rt_trace s' = rt_trace s ++ l /\ e ∈ l /\ delete_evidence c semantics e = true.
Proof.
  intros Hsem Hst Hread Hord Hrun Hdel.
  destruct (ev_DeleteWithResult c semantics _ (plain_evidence c semantics) Hsem Hst Hord Hread s) as (l & Hl & Hev). rewrite Hrun in *. cbn [fst snd] in *.
  specialize (Hev answer eq_refl Hdel). unfold has_evidence in Hev. apply List.existsb_exists in Hev as (e & Hin & He).
  exists l, e. split; [done|]. split; [by apply list_elem_of_In|done].
Qed.

Definition confirming_semantics : Semantics :=
  mkSemantics "widget" "widget" None "" "" "" (mkLifecycle ["CREATING"] ["UPDATING"] ["ACTIVE"])
    (mkDeleteSemantics "required" ["DELETING"] ["DELETED"]) None (mkMutation [] [] [] []) (mkHookSet [] [] [])
    (mkFollowUp "" []) (mkFollowUp "" []) (mkFollowUp "confirm-delete" []) [] [].

Lemma deleted_needs_evidence_witness :
  let c := sample_config confirming_semantics (Ok VNil) (Err not_found_error) (Ok VNil) in
  exists l e, rt_trace (snd (@DeleteWithResult unit plainEnv c (sample_state (sampleResource trackedStatus)))) = [] ++ l /\
    e ∈ l /\ delete_evidence c confirming_semantics e = true.
Proof.
  apply (@deleted_needs_evidence unit plainEnv
    (sample_config confirming_semantics (Ok VNil) (Err not_found_error) (Ok VNil)) confirming_semantics
    (sample_state (sampleResource trackedStatus)) _ (deleted_result, None)).
  - reflexivity.
  - reflexivity.
  - reflexivity.
  - intros f response r w e r' w' Hf. discriminate Hf.
  - vm_compute. reflexivity.
  - reflexivity.
Defined.
