(* ===== verification/RuntimeTracking.v ===== *)
(** * Tracked resources are not created again

    [CreateOrUpdate] creates when it knows no identifier.  Here: a resource that is
    tracked stays tracked, unless a read of the same run answers that it is gone,
    and what a successful write records.  The argument follows the identifier
    through [read_resolver.go]; every other way in which a run can fail is an error
    that no test takes for a not-found. *)

From S2P Require Import Prelude GoStrings Shared GoErrors GoValue AsyncStatus Reconciler Secrets JsonValues Semantics SpecResolution MutationPolicy RequestBuilder Runtime RuntimeStatus RuntimeRead RuntimeReconcile RuntimeTrace RuntimeDelete.
Local Open Scope string_scope.
Local Open Scope list_scope.
Local Open Scope go_scope.

(** ** Errors of a request that was not sent *)

(** A result whose error is not the sentinel of a missing resource. *)
Definition plain_result {A} (r : result A GoError) : Prop :=
  match r with Err e => is_resource_not_found e = false | Ok _ => True end.

(** A wrapped error is read as not-found through the sentinel only. *)
Lemma wrapped_not_found msg e : isReadNotFound (ErrWrap msg e) = Ret true -> is_resource_not_found e = true.
Proof.
  unfold isReadNotFound, ClassifyDeleteError. cbn [is_resource_not_found as_service].
  destruct (is_resource_not_found e); [done|]. by destruct (as_service e).
Qed.

Section RequestErrors.
Context `{JsonCodec} {W : Type}.

Lemma convert_concrete_plain r payload : plain_result r -> plain_result (convert_concrete r payload).
Proof. destruct r; cbn; [|done]. intros _. by destruct (codec_sdk _ _). Qed.

Lemma concrete_by_plain field text unsupported table payload :
  plain_result (concrete_by field text unsupported table payload).
Proof.
  unfold concrete_by, jsonFieldString, discriminate.
  repeat (case_goal; cbn; try done).
Qed.

Lemma polymorphic_plain payload name r : convertPolymorphicInterfaceValue payload name = Some r -> plain_result r.
Proof.
  unfold convertPolymorphicInterfaceValue. intros E. destruct (map_get name _) as [convert|] eqn:Em; [|done]. injection E as <-.
  apply map_get_Some_elem in Em. repeat (apply elem_of_cons in Em as [[= _ ->]|Em]); [..|by apply elem_of_nil in Em].
  all: try (apply convert_concrete_plain, concrete_by_plain).
  unfold convertAutonomousDatabaseBase, jsonFieldString, autonomousDatabaseBaseConcreteType, discriminate.
  repeat (case_goal; cbn; try done; try apply convert_concrete_plain).
Qed.

Lemma decoded_plain payload target name :
  plain_result (match decode_into payload target with
                | (_, Some e) => Err (ErrWrap ("unmarshal into " +++ name +++ ": " +++ e) (ErrText e))
                | (v, None) => Ok v
                end).
Proof. by destruct (decode_into payload target) as [? [|]]. Qed.

Lemma convertValue_plain raw sf old : plain_result (convertValue raw sf old).
Proof.
  unfold convertValue. cbn zeta.
  assert (Hp : forall payload target, plain_result
    match convertPolymorphicInterfaceValue payload (sf_TypeName sf) with
    | Some (Ok body) => Ok (VIface (Some body))
    | Some (Err e) => Err e
    | None => if (sf_TypeName sf =? "interface {}")%string
        then match decode_into payload target with
             | (_, Some e) => Err (ErrWrap ("unmarshal into " +++ sf_TypeName sf +++ ": " +++ e) (ErrText e))
             | (v, None) => Ok v end
        else match payload with JNull => Ok target
             | _ => Err (ErrWrap ("unmarshal into " +++ sf_TypeName sf +++ ": json: cannot unmarshal " +++ json_kind payload)
                       (ErrText ("json: cannot unmarshal " +++ json_kind payload))) end
    end).
  { intros payload target.
    destruct (convertPolymorphicInterfaceValue payload (sf_TypeName sf)) as [[body|e]|] eqn:E; [done|exact (polymorphic_plain _ _ _ E)|].
    destruct (_ =? _)%string; [apply decoded_plain|by destruct payload]. }
  destruct raw; try done; (destruct (to_json _) as [payload|?]; [|done]);
    destruct (zero_of (type_of old)); first [apply decoded_plain|apply Hp].
Qed.

Lemma explicit_plain fields values id spec : forall fs, plain_result (buildExplicitRequest fs values id fields spec).
Proof.
  induction fields as [|field fields IH]; intros fs; cbn [buildExplicitRequest]; [done|].
  destruct (find_first _ _) as [[sf old]|]; [|apply IH]. destruct (negb _); [apply IH|]. destruct (_ || _); [apply IH|].
  unfold assignField. destruct (_ =? "body")%string.
  - pose proof (convertValue_plain spec sf old) as Hp. destruct (convertValue spec sf old); [apply IH|exact Hp].
  - destruct (explicitRequestValue _ _ _) as [raw|]; [|apply IH].
    pose proof (convertValue_plain (json_to_value raw) sf old) as Hp.
    destruct (convertValue (json_to_value raw) sf old); [apply IH|exact Hp].
Qed.

Lemma heuristic_plain values id aliases spec fs : plain_result (buildHeuristicRequest fs values id aliases spec).
Proof.
  induction fs as [|[sf old] fs IH]; cbn [buildHeuristicRequest]; [done|].
  assert (Hf : plain_result (populateHeuristicRequestField sf old values id aliases spec)).
  { unfold populateHeuristicRequestField. repeat (destruct (_ || _); [done|]). destruct (_ =? "body")%string.
    - pose proof (convertValue_plain spec sf old) as Hp. by destruct (convertValue spec sf old).
    - destruct (heuristicRequestValue _ _ _ _) as [raw|]; [|done].
      pose proof (convertValue_plain (json_to_value raw) sf old) as Hp. by destruct (convertValue (json_to_value raw) sf old). }
  destruct (populateHeuristicRequestField _ _ _ _ _ _); [|exact Hf].
  by destruct (buildHeuristicRequest fs values id aliases spec).
Qed.

(** Without a credential client no foreign error can enter a resolved spec. *)
Definition plain_rewrite {A} (m : RW (W := W) A) : Prop := forall w r, fst (m w) = Ret r -> plain_result r.

Lemma plain_ret {A} (r : result A GoError) : plain_result r -> plain_rewrite (st_ret r).
Proof. by intros Hr w ? [= <-]. Qed.
Lemma plain_bind {A B} (m : RW A) (f : A -> RW B) :
  plain_rewrite m -> (forall a, plain_rewrite (f a)) -> plain_rewrite (rw_bind m f).
Proof.
  intros Hm Hf w r. unfold rw_bind, st_bind. specialize (Hm w). destruct (m w) as [[[a|e]|] w1]; cbn in *; [apply Hf| |done].
  intros [= <-]. exact (Hm _ eq_refl).
Qed.
Lemma plain_ok {A} (a : A) : plain_rewrite (st_ret (Ok a)).
Proof. by apply plain_ret. Qed.
#[local] Hint Resolve plain_ok plain_bind : core.

Lemma secret_value_plain field name key : plain_rewrite (resolveSecretSourceValue (W := W) None "" field name key).
Proof. unfold resolveSecretSourceValue. repeat (case_goal; try by apply plain_ret). Qed.

Lemma rewrite_plain preserve v : forall decoded, plain_rewrite (rewriteSecretSources (W := W) None "" preserve v decoded).
Proof.
  induction v as [| | | | | |t v IH| |v IH|n fs IH| |t l IH| |t m IH| |] using GoValue_ind';
    intros decoded; cbn [rewriteSecretSources]; auto.
  - destruct (_ =? _)%string; [apply secret_value_plain|]. destruct (_ =? _)%string; [apply secret_value_plain|].
    destruct (is_zero _ && _); [auto|]. generalize (decodedMapValue decoded).
    induction IH as [|[f x] fs Hx _ IHfs]; intros dm; [auto|]. simpl in Hx.
    destruct (negb (sf_Exported f)); [apply IHfs|]. destruct (sf_Anonymous f && embeddedJSONField f).
    + apply plain_bind; [apply Hx|]. intros [rewritten ?]. apply IHfs.
    + destruct (fieldJSONTagName f) as [jsonName [|]]; [apply IHfs|].
      apply plain_bind; [apply Hx|]. intros [rewritten include]. apply IHfs.
  - destruct decoded as [| | | |ds|]; auto. apply plain_bind; [|auto]. revert ds.
    induction IH as [|x l Hx _ IHl]; intros [|d ds]; auto.
    apply plain_bind; [by apply Hx|]. intros [rewritten include]. apply plain_bind; [by apply IHl|auto].
  - destruct decoded as [| | | | |dm]; auto. revert dm.
    induction IH as [|[k x] m Hx _ IHm]; intros dm; auto. simpl in Hx.
    apply plain_bind; [by apply Hx|]. intros [rewritten include]. by apply IHm.
  - destruct (is_zero _ && _); auto.
  - destruct (is_zero _ && _); auto.
Qed.

Lemma resourceStruct_plain r : plain_result (resourceStruct r).
Proof. destruct r as [| | | | |t [v|]| | | | | |]; try done. by destruct v. Qed.

Lemma resolvedSpec_plain r : plain_rewrite (resolvedSpecValue (W := W) None "" r).
Proof.
  unfold resolvedSpecValue, resolvedSpecValueWithDecoder.
  assert (Hd : plain_result (decodedJSONValue (specValue r))).
  { unfold decodedJSONValue. destruct (specValue r); try done; by destruct (to_json _). }
  assert (Hk : plain_rewrite (match decodedJSONValue (specValue r) with
    | Err e => st_ret (Err (ErrWrap ("decode spec value: " +++ ErrorString e) e))
    | Ok decoded => match resourceStruct r with
        | Err e => st_ret (Err e)
        | Ok (n, fs) => match fieldByName "Spec" (VStruct n fs) with
            | None => st_ret (Err (ErrText "resource does not expose Spec"))
            | Some specField => rw_bind (rewriteSecretSources None "" false specField decoded)
                                  (fun '(resolved, _) => st_ret (Ok resolved))
            end
        end
    end)).
  { destruct (decodedJSONValue (specValue r)); [|by apply plain_ret]. pose proof (resourceStruct_plain r) as Hr.
    destruct (resourceStruct r) as [[n fs]|]; [|by apply plain_ret].
    destruct (fieldByName "Spec" _); [|by apply plain_ret]. apply plain_bind; [apply rewrite_plain|]. intros [? ?]. auto. }
  destruct (specValue r); [auto|..]; exact Hk.
Qed.

Lemma buildRequest_plain digest request resource values id fields aliases (w : W) r :
  fst (buildRequest digest request resource values id fields aliases emptyOptions None w) = Ret r -> plain_result r.
Proof.
  unfold buildRequest. destruct request as [| | | | |t [v|]| | | | | |]; try (by intros [= <-]).
  destruct v as [| | | | | | |n fs| | | |]; try (by intros [= <-]).
  assert (Hb : forall spec, plain_result
    (match (match fields with [] => buildHeuristicRequest fs values id aliases spec
            | _ :: _ => buildExplicitRequest fs values id fields spec end) with
     | Ok fs => Ok (VPtr t (Some (VStruct n (assignDeterministicRetryToken digest fs resource)))) | Err e => Err e end)).
  { intros spec. pose proof (heuristic_plain values id aliases spec fs) as H1.
    pose proof (explicit_plain fields values id spec fs) as H2. destruct fields.
    - by destruct (buildHeuristicRequest _ _ _ _ _).
    - by destruct (buildExplicitRequest _ _ _ _ _). }
  unfold st_bind. cbn [opt_CredentialClient opt_Namespace emptyOptions]. destruct (requestNeedsResolvedSpec fields fs).
  - pose proof (resolvedSpec_plain resource w) as Hs. destruct (resolvedSpecValue None "" resource w) as [[[j|e]|] w1]; cbn in *.
    + intros [= <-]. apply Hb.
    + intros [= <-]. exact (Hs _ eq_refl).
    + done.
  - cbn. intros [= <-]. apply Hb.
Qed.
End RequestErrors.

(** ** Reads that refute a tracked identifier *)

Section Tracking.
Context {W : Type} `{Env} (c : Config W).

(** A call of the Get operation that was answered with a not-found. *)
Definition refutes (e : Event) : bool :=
  match e with
  | EvCall address _ (Err answer) =>
      at_address (getReadOperation c) address &&
      match normalizeOCIError answer with
      | Ret err => match isReadNotFound err with Ret b => b | Panic => false end
      | Panic => false
      end
  | _ => false
  end.

Definition refuted (l : list Event) : Prop := List.existsb refutes l = true.

Lemma refuted_app l1 l2 : refuted l1 \/ refuted l2 -> refuted (l1 ++ l2).
Proof. unfold refuted. rewrite existsb_app. intros [-> | ->]; [done|apply orb_true_r]. Qed.

Lemma logs_on_world {A} (m : ST W A) (P : A -> Prop) :
  (forall w a, fst (m w) = Ret a -> P a) -> logs (on_world m) (fun a _ => P a).
Proof.
  intros HP s. exists []. unfold on_world. specialize (HP (rt_world s)). destruct (m (rt_world s)) as [o w']. cbn in *.
  rewrite app_nil_r. split; [done|]. apply HP.
Qed.

Lemma logs_step {A B} (a : A) (f : A -> M W B) Q : logs (f a) Q -> logs (st_bind (st_ret a) f) Q.
Proof. done. Qed.

(** [Q] of what [m] returns from this state and of what it appends. *)
Definition logs_at {A} (m : M W A) (s : RT W) (Q : A -> list Event -> Prop) : Prop :=
  exists l, rt_trace (snd (m s)) = rt_trace s ++ l /\ forall a, fst (m s) = Ret a -> Q a l.

Lemma logs_at_bind {A B} (m : M W A) (f : A -> M W B) s Q R :
  logs_at m s Q -> (forall a, logs (f a) (fun b l2 => forall l1, Q a l1 -> R b (l1 ++ l2))) -> logs_at (st_bind m f) s R.
Proof.
  intros (l1 & Hl & HQ) Hf. unfold logs_at, st_bind. destruct (m s) as [[a|] s1]; simpl in *.
  - destruct (Hf a s1) as (l2 & Hl2 & HR). exists (l1 ++ l2). rewrite Hl2, Hl, app_assoc. split; [done|].
    intros b Hb. by apply HR; [|apply HQ].
  - exists l1. split; [done|]. intros ? [=].
Qed.

Lemma logs_at_get {A} (f : GoValue -> M W A) s Q : logs (f (rt_resource s)) Q -> logs_at (st_bind get_resource f) s Q.
Proof. intros Hf. exact (Hf s). Qed.

Context (separate : forall op, getReadOperation c = Some op ->
           same_operation op (Create c) = false /\ same_operation op (cfg_Update c) = false).

(** An invocation of Get that reads as not-found made the call. *)
Lemma get_not_found op id :
  getReadOperation c = Some op ->
  logs (invoke c (Some op) id emptyOptions)
    (fun r l => match r with Err e => isReadNotFound e = Ret true -> refuted l | Ok _ => True end).
Proof.
  intros Hop. destruct (separate op Hop) as [Hc Hu]. unfold invoke.
  eapply logs_bind; [apply logs_appends; by trace_solve|intros r]. pose proof (resourceStruct_plain r) as Hr.
  unfold lookupValues. destruct (resourceStruct r) as [[n fs]|e] eqn:Er.
  2:{ destruct r as [| | | | |t [v|]| | | | | |]; try destruct v; simplify_eq/=; by apply logs_ret. }
  unfold invokeWithValues. destruct (NewRequest op) as [request|]; [|by apply logs_ret].
  destruct (Call op) as [call|]; [|by destruct request; apply logs_ret].
  assert (Ho : requestBodyOverride c op emptyOptions = st_ret (Ok None)).
  { unfold requestBodyOverride. rewrite Hc, Hu. by destruct (BuildCreateBody c). }
  rewrite Ho.
  destruct request; [by apply logs_ret|..]; apply logs_step.
  all: eapply logs_bind; [apply logs_appends; by trace_solve|intros resource].
  all: eapply logs_bind; [apply logs_on_world, buildRequest_plain|intros [sent|e]];
    [|apply logs_ret; intros l1 Hp l2 _ l3 _ Hn; apply wrapped_not_found in Hn; unfold plain_result in Hp; congruence].
  all: eapply logs_bind; [apply logs_appends; by trace_solve|intros answer].
  all: eapply logs_bind; [apply logs_log with (Q := fun _ l => l = [EvCall (op_address op) sent answer]); done|intros []].
  all: destruct answer as [response|answer]; [by apply logs_ret|].
  all: eapply logs_bind; [apply logs_lift with (Q := fun e l => normalizeOCIError answer = Ret e); done|intros e].
  all: apply logs_ret; intros l1 Hnorm l2 -> l3 _ l4 _ l5 _ l6 _ Hn; do 4 (apply refuted_app; right); apply refuted_app; left.
  all: unfold refuted; cbn; rewrite Hop; cbn; by rewrite Nat.eqb_refl, Hnorm, Hn.
Qed.

(** A fallback that declares the tracked identifier stale comes after such a read. *)
Lemma fallback_refuted st phase stale :
  logs (get_or_fallback c st phase stale) (fun r l => match r with GetFallback _ true => refuted l | _ => True end).
Proof.
  pose proof get_not_found as Hget. clear separate.
  unfold get_or_fallback. eapply logs_bind; [apply logs_appends; by trace_solve|intros r].
  destruct (getReadOperation c) as [op|] eqn:Hop; [|by apply logs_ret]. destruct (negb _); [by apply logs_ret|]. cbn zeta.
  eapply logs_bind; [by apply Hget|]. intros [response|e]; [by apply logs_ret|].
  eapply logs_bind; [apply logs_lift with (Q := fun b l => isReadNotFound e = Ret b); done|intros notFound].
  destruct notFound; cbn [negb orb]; [|by apply logs_ret]. destruct (defined (listReadOperation c)); cbn [negb]; [|by apply logs_ret].
  eapply logs_bind; [apply logs_appends; by trace_solve|intros r2]. apply logs_ret.
  intros l1 _ l2 Hn l3 H3 l4 _. destruct (stale r); [|done]. apply refuted_app. right. apply refuted_app. left. auto.
Qed.

Lemma untracked_stale identity prepared stale :
  logs (resolve_untracked c identity prepared stale) (fun r _ => snd r = stale).
Proof.
  unfold resolve_untracked. cbn zeta.
  repeat first
    [ apply logs_ret; done
    | apply logs_then; [by trace_solve|intros ?]
    | match goal with |- logs (match ?x with _ => _ end) _ => destruct x end ].
Qed.

Lemma existing_refuted skip identity :
  logs (resolveExistingBeforeCreate c skip identity) (fun r l => snd r = true -> refuted l).
Proof.
  pose proof fallback_refuted as Hfallback. clear separate.
  assert (Hquiet : forall prepared, logs (resolve_untracked c identity prepared false) (fun r l => snd r = true -> refuted l)).
  { intros prepared. eapply logs_weaken; [|apply untracked_stale]. by intros r l ->. }
  unfold resolveExistingBeforeCreate. destruct skip; [by apply logs_ret|]. destruct (negb _); [by apply logs_ret|].
  eapply logs_bind; [apply logs_appends; by trace_solve|intros r].
  assert (Hlift : forall (m : M W (result GoValue GoError * bool)), logs m (fun r l => snd r = true -> refuted l) ->
            logs m (fun r l2 => forall l1 : list Event, True -> snd r = true -> refuted (l1 ++ l2))).
  { intros m. apply logs_weaken. intros a l Ha l1 _ Hs. apply refuted_app. auto. }
  apply Hlift. destruct (_ =? "")%string; [apply Hquiet|]. destruct (getReadOperation c) as [op|]; [|by apply logs_ret].
  destruct (prepareReadResourceState c r "") as [st|e]; [|by apply logs_ret]. destruct (negb _); [by apply logs_ret|].
  eapply logs_bind; [apply Hfallback|]. intros [[response|e]|st' stale].
  - by apply logs_ret.
  - destruct (is_resource_not_found e); [|by apply logs_ret]. eapply logs_weaken; [|apply Hquiet].
    intros a l Ha l1 _ Hs. apply refuted_app. auto.
  - eapply logs_weaken; [|apply untracked_stale]. intros a l -> l1 H1 ->. apply refuted_app. auto.
Qed.

(** The current identifier is given up only after such a read. *)
Lemma resolved_tracked skip identity s :
  currentID c (rt_resource s) <> "" ->
  logs_at (resolveCurrentResource c skip identity) s
    (fun r l => match r with Ok cur => (cur_ID cur <> "" /\ cur_ResolvedBeforeCreate cur = false) \/ refuted l | Err _ => True end).
Proof.
  pose proof existing_refuted as Hexisting. clear separate.
  intros Hid. apply logs_at_get. cbn zeta. generalize dependent (currentID c (rt_resource s)). intros current Hid.
  apply String.eqb_neq in Hid as Hidb.
  eapply logs_bind; [apply Hexisting|]. intros [[existing|e] stale]; [|by apply logs_ret].
  assert (Hseed : forall k : option (Callback W unit) * string -> M W (result (@currentResource W) GoError),
    st_bind (match existing, SeedSyntheticTrackedID (Identity c) with
             | VNil, _ | _, None => st_ret (None, current)
             | _, Some seed => if (current =? "")%string then
                 let* restore := callback (seed identity) in let* resource := get_resource in st_ret (restore, currentID c resource)
               else st_ret (None, current)
             end) k = st_bind (st_ret (None, current)) k).
  { intros k. rewrite Hidb. destruct existing, (SeedSyntheticTrackedID (Identity c)); reflexivity. }
  rewrite Hseed. apply logs_step. unfold resolveTrackedCurrentID.
  eapply logs_bind with (Q := fun t l => stale = false -> t = (current, false)).
  - eapply logs_bind; [apply logs_appends; by trace_solve|intros []]. cbn zeta. apply logs_ret. intros l1 _ ->. rewrite Hidb.
    by destruct existing.
  - intros tracked. apply logs_ret. intros l1 Ht l2 H2. cbn [cur_ID cur_ResolvedBeforeCreate]. destruct stale.
    + right. apply refuted_app. left. auto.
    + left. by rewrite Ht.
Qed.

Lemma loaded_tracked current existing :
  logs (loadLiveMutationResponse c current existing false)
    (fun r _ => match r with Ok live => fst live = current | Err _ => True end).
Proof.
  unfold loadLiveMutationResponse. cbn [andb]. destruct (_ || _).
  - apply logs_then; [by trace_solve|intros []]. by apply logs_ret.
  - cbn zeta. eapply logs_bind with (Q := fun r _ => match r with Ok live => fst live = current | Err _ => True end).
    + destruct (_ || _); [|by apply logs_ret]. unfold readMutationAssessmentResponse. cbn [negb].
      apply logs_then; [by trace_solve|]. intros [response|e]; [by apply logs_ret|]. apply logs_ret.
      by destruct (negb (is_resource_not_found e)).
    + intros [live|e]; [|by apply logs_ret]. eapply logs_bind; [apply logs_appends; by trace_solve|intros []].
      apply logs_ret. auto.
Qed.

Lemma prepared_tracked skip identity s :
  currentID c (rt_resource s) <> "" ->
  logs_at (prepareCreateOrUpdateState c skip identity) s
    (fun r l => match r with Ok st => cou_currentID st <> "" \/ refuted l | Err _ => True end).
Proof.
  intros Hid. pose proof (resolved_tracked skip identity s Hid) as Hres. clear separate.
  eapply logs_at_bind; [exact Hres|]. intros [cur|e]; [|by apply logs_ret].
  eapply logs_bind with (Q := fun r _ => cur_ResolvedBeforeCreate cur = false ->
    match r with Ok live => fst live = cur_ID cur | Err _ => True end).
  - destruct (cur_ResolvedBeforeCreate cur); [|eapply logs_weaken; [|apply loaded_tracked]; auto].
    eapply logs_weaken; [|apply logs_appends; by trace_solve]. done.
  - intros [live|e].
    + eapply logs_bind; [apply logs_appends; by trace_solve|intros []]. apply logs_ret. cbn [cou_currentID].
      intros l1 _ l2 H2 l3 [[H3 H4]|H3]; [left; by rewrite H2|right; apply refuted_app; by left].
    + eapply logs_bind; [apply logs_appends; by trace_solve|intros []]. by apply logs_ret.
Qed.
End Tracking.

(** ** No second create *)

Section NoSecondCreate.
Context {W : Type} `{Env} (c : Config W).
Abbreviation creates := (at_address (Create c)).

(** The operations are separate objects, Create and Update too. *)
Definition create_separate : Prop :=
  separate_operations c /\ (forall op, cfg_Update c = Some op -> at_address (Create c) (op_address op) = false).

Lemma reads_no_create : create_separate ->
  forall op, getReadOperation c = Some op \/ listReadOperation c = Some op -> creates (op_address op) = false.
Proof. intros [[Hr _] _] op Hop. apply Hr in Hop. unfold is_write in Hop. by bool_prop. Qed.

Lemma get_separate : create_separate -> forall op, getReadOperation c = Some op ->
  same_operation op (Create c) = false /\ same_operation op (cfg_Update c) = false.
Proof.
  intros [[Hr _] _] op Hop. specialize (Hr op (or_introl Hop)). unfold is_write in Hr. bool_prop. by rewrite <-!at_address_sym.
Qed.

Lemma existing_no_create st ns : create_separate -> cou_currentID st <> "" ->
  bounded creates 0 (reconcile_or_create c st ns).
Proof.
  intros Hsep Hid. pose proof (reads_no_create Hsep) as Hr. destruct Hsep as [_ Hu]. apply String.eqb_neq in Hid.
  unfold reconcile_or_create. apply bounded_seq; [trace_solve|intros b]. rewrite Hid. cbn [negb].
  apply bounded_first; [|intros ?; trace_solve]. unfold reconcileExistingResource.
  apply bounded_seq; [trace_solve|]. intros [[|]|e]; [|trace_solve..]. unfold updateExistingResource.
  apply bounded_first; [|intros ?; trace_solve].
  assert (Hw : weight creates (cfg_Update c) = 0) by (destruct (cfg_Update c); [|done]; simpl; by rewrite Hu).
  rewrite <-Hw. apply invoke_bounded.
Qed.

(** The run sends no create, except after a refuting read. *)
Definition late {A} (m : M W A) (s : RT W) : Prop :=
  exists l1 l2, rt_trace (snd (m s)) = rt_trace s ++ l1 ++ l2 /\
    calls creates l1 = 0 /\ (calls creates l2 = 0 \/ refuted c l1).

Lemma late_quiet {A} (m : M W A) s : bounded creates 0 m -> late m s.
Proof.
  intros Hm. destruct (Hm s) as (l & Hl & Hc). exists l, []. rewrite app_nil_r. split; [done|]. split; [lia|by left].
Qed.

Lemma late_step {A B} (m : M W A) (f : A -> M W B) a s : m s = (Ret a, s) -> late (f a) s -> late (st_bind m f) s.
Proof. intros Hm Hf. unfold late, st_bind. by rewrite Hm. Qed.

(** The prefix of a run decides. *)
Lemma late_bind {A B} (m : M W A) (f : A -> M W B) s (Q : A -> Prop) :
  bounded creates 0 m -> logs_at m s (fun a l => Q a \/ refuted c l) ->
  (forall a, appends (f a)) -> (forall a, Q a -> bounded creates 0 (f a)) -> late (st_bind m f) s.
Proof.
  intros Hm (l & Hl & HQ) Hf Hb. unfold late, st_bind. destruct (Hm s) as (l' & Hl' & Hc). rewrite Hl in Hl'.
  apply app_inv_head in Hl' as <-. destruct (m s) as [[a|] s1]; simpl in *.
  - destruct (HQ a eq_refl) as [Ha|Hr].
    + destruct (Hb a Ha s1) as (l2 & Hl2 & Hc2). exists l, l2. rewrite Hl2, Hl, <-app_assoc. split; [done|]. split; [lia|left; lia].
    + destruct (Hf a s1) as (l2 & Hl2 & _). exists l, l2. rewrite Hl2, Hl, <-app_assoc. split; [done|]. split; [lia|by right].
  - exists l, []. rewrite app_nil_r, Hl. split; [done|]. split; [lia|by left].
Qed.

(** The identity hooks send nothing. *)
Lemma late_identity {A} (f : result GoValue GoError -> M W A) s :
  (forall e, bounded creates 0 (f (Err e))) ->
  (forall identity s1, prepareIdentity c s = (Ret (Ok identity), s1) -> late (f (Ok identity)) s1) ->
  late (st_bind (prepareIdentity c) f) s.
Proof.
  intros He Hf. pose proof (prepareIdentity_trace c s) as Htr. unfold late, st_bind.
  destruct (prepareIdentity c s) as [[[i|e]|] s1] eqn:Ep; cbn [fst snd] in *; rewrite <-Htr.
  - by apply Hf.
  - apply (late_quiet (f (Err e)) s1), He.
  - exists [], []. rewrite app_nil_r. split; [done|]. split; [done|by left].
Qed.

(** C7. A tracked resource is not created again: when the status names an identifier, [CreateOrUpdate]
    sends a create request only after the Get operation of the same run was answered with a
    not-found; before that, and otherwise in the whole run, errors and panics included, no create is
    sent.  What counts is the status as the service's identity hooks ([Identity.Resolve] and [RecordPath], which run first and
    may change the resource) leave it; without such hooks this is the status the client was called with.  The operations of the
    configuration are separate objects (no read operation is a write operation, and create, update and delete are three
    operations); calls that other hooks make on their own are outside the operations. *)
Theorem tracked_resource_not_recreated (skip : bool) (ns : string) (s : RT W) :
  create_separate -> currentID c (rt_resource (snd (prepareIdentity c s))) <> "" ->
  exists l1 l2, rt_trace (snd (CreateOrUpdate c skip ns s)) = rt_trace s ++ l1 ++ l2 /\
    calls creates l1 = 0 /\ (calls creates l2 = 0 \/ refuted c l1).
Proof.
  intros Hsep Hid. pose proof (reads_no_create Hsep) as Hr. fold (late (CreateOrUpdate c skip ns) s).
  unfold CreateOrUpdate, validateCreateOrUpdateRequest. destruct (InitError c) as [e|].
  - destruct (late_quiet (failCreateOrUpdate c e) s) as (l1 & l2 & Hl & Hc); [trace_solve|]. exists l1, l2.
    split; [|done]. rewrite <-Hl. unfold st_bind. by destruct (failCreateOrUpdate c e s) as [[r|] s'].
  - eapply late_step; [reflexivity|]. destruct (resourceStruct (rt_resource s)); [|apply late_quiet; trace_solve].
    cbn iota. apply late_identity; [intros e; trace_solve|]. intros identity s1 Hprep. rewrite Hprep in Hid. cbn [snd] in Hid.
    eapply late_step; [reflexivity|].
    destruct (currentGeneratedWorkRequest c (rt_resource s1)) as [id phase].
    do 2 (destruct (negb _ && _); [apply late_quiet; trace_solve|]). cbn zeta.
    apply late_bind with (Q := fun r => match r with Ok st => cou_currentID st <> "" | Err _ => True end).
    + trace_solve.
    + destruct (prepared_tracked c (get_separate Hsep) skip identity s1 Hid) as (l & Hl & HQ). exists l. split; [done|].
      intros [st|e] Hst; [exact (HQ _ Hst)|by left].
    + intros [st|e]; [|by trace_solve]. apply bounded_seq; [by trace_solve|]. intros [e|]; [by trace_solve|].
      apply bounded_seq; [by trace_solve|]. intros [?|]; [by trace_solve|].
      unfold reconcile_or_create. apply bounded_seq; [by trace_solve|intros b]. apply bounded_seq; [|intros ?; by trace_solve].
      assert (Hw : write_weight (fun _ => false) c = 0) by (unfold write_weight, weight; by destruct (Create c), (cfg_Update c)).
      rewrite <-Hw. destruct (negb _); [by apply reconcileExisting_bounded|by apply createOrRead_bounded].
    + intros [st|e] Hst; [|trace_solve]. apply bounded_seq; [trace_solve|]. intros [e|]; [trace_solve|].
      apply bounded_seq; [trace_solve|]. intros [?|]; [trace_solve|]. by apply existing_no_create.
Qed.
End NoSecondCreate.

(** ** A created resource that is not tracked *)

Section Lost.
Context {W : Type} `{Env} (c : Config W).

Lemma seedRequest_has response (s : RT W) st : has_status s st -> exists s' st',
  seedOpeningRequestID response s = (Ret tt, s') /\ has_status s' st' /\ Ocid st' = Ocid st.
Proof.
  intros Hs. destruct (write_status_has (fun s => default s (RecordResponseOpcRequestID (Some s) response)) s st Hs) as (s' & Hw & H').
  eexists _, _. split; [exact Hw|]. split; [exact H'|]. unfold RecordResponseOpcRequestID, SetOpcRequestID. by repeat case_goal.
Qed.

Lemma seedWorkRequest_has response phase (s : RT W) st : has_status s st -> exists s' st',
  seedOpeningWorkRequestID c response phase s = (Ret tt, s') /\ has_status s' st' /\ Ocid st' = Ocid st.
Proof.
  intros Hs. unfold seedOpeningWorkRequestID. cbn zeta. destruct (_ || _); [by exists s, st|].
  unfold if_status. erewrite bind_step by reflexivity. rewrite (proj2 Hs). erewrite bind_step by reflexivity.
  set (s1 := mkRT _ _ _ _). set (o := mkAsyncOp _ _ _ _ _ _ _ _ _).
  destruct (applyAsync_has c o s1 st) as (t1 & t2 & s2 & p & Hrun & st2 & Hap & H2); [exact Hs|].
  destruct (ApplyAsyncOperation_Some t1 t2 st o) as (st2' & Hap' & cur & _ & _ & _ & _ & _ & _ & _ & Ho & _).
  rewrite Hap in Hap'. injection Hap' as <- ->. exists s2, st2. split; [|done]. by erewrite bind_step by exact Hrun.
Qed.

(** The identifier of a created resource can be lost: when OCI answered the create with an
    identifier and the read that follows fails with an error other than the runtime's own
    resource-not-found (a 404 of a Get without a List fallback included), the reconcile answers a
    failure and the status is left with the identifier it had before, none for a new resource,
    whatever the answer to the create said. *)
Theorem created_identifier_lost (ns : string) (identity : GoValue) (s s1 s2 s3 : RT W) (st : OSOKStatus) (op : Operation W)
  (response : GoValue) (e : GoError) :
  Create c = Some op -> generatedWorkRequestPhaseEnabled (cfg_Semantics c) OSOKAsyncPhaseCreate = false ->
  requiresWriteFollowUp c "create" = true -> hasReadableOperation c = true ->
  invoke c (Some op) "" (client_options c ns VNil) s = (Ret (Ok response), s1) -> has_status s1 st ->
  is_resource_not_found e = false ->
  (seedOpeningRequestID response ;;; seedOpeningWorkRequestID c response OSOKAsyncPhaseCreate) s1 = (Ret tt, s2) ->
  readResource c (responseID response) readPhaseCreate s2 = (Ret (Err e), s3) -> rt_resource s3 = rt_resource s2 ->
  exists s' st', createOrReadResource c ns identity s = (Ret (failed_response, Some e), s') /\
    has_status s' st' /\ Ocid st' = Ocid st /\ Reason st' = Failed.
Proof.
  intros Hc Hwr Hfu Hread Hinv Hst He Hseed Hfail Hres. unfold createOrReadResource. rewrite Hc.
  erewrite bind_step by exact Hinv. unfold after_write. cbn zeta. rewrite Hwr.
  destruct (seedRequest_has response s1 st Hst) as (s1' & st1 & Hr1 & H1 & Ho1). erewrite bind_step in Hseed by exact Hr1.
  destruct (seedWorkRequest_has response OSOKAsyncPhaseCreate s1' st1 H1) as (s2' & st2 & Hr2 & H2 & Ho2).
  rewrite Hr2 in Hseed. injection Hseed as ->. erewrite bind_step by exact Hr1. erewrite bind_step by exact Hr2.
  assert (Hf : followUpAfterWrite c (responseID response) response "create" s2 = (Ret (Err e), s3)).
  { unfold followUpAfterWrite. rewrite Hfu, Hread. cbn [negb]. change (phaseReadPhase "create") with readPhaseCreate.
    erewrite bind_step by exact Hfail. cbn. by rewrite He. }
  erewrite bind_step by exact Hf. assert (H3 : has_status s3 st2) by (unfold has_status; by rewrite Hres).
  destruct (failure_recorded c e s3 st2 H3) as (s5 & st5 & Hr5 & H5 & Hre & Ho5 & _). exists s5, st5.
  rewrite Hr5, Ho5, Ho2, Ho1. by split_and!.
Qed.
End Lost.

(** ** Witnesses *)

(** The sample client with a List operation that answers with no items. *)
Definition empty_list : GoValue :=
  VStruct "ListWidgetsResponse" [(exported "Items" "items" "[]Widget", VSlice (TStruct "Widget" []) (Some []))].

Definition listing_config (create_answer get_answer : result GoValue GoError) : Config unit :=
  mkConfig "Widget" "Widget" None None None None None no_identity_hooks None None None no_status_hooks
    no_parity_hooks (mkAsyncHooks sample_adapter None None None None None) no_delete_hooks
    (Some (sample_operation 1 "CreateWidgetRequest" create_answer)) (Some (sample_operation 2 "GetWidgetRequest" get_answer))
    (Some (sample_operation 5 "ListWidgetsRequest" (Ok empty_list))) None None.

Lemma listing_separate a b : create_separate (listing_config a b).
Proof.
  split; [split; [intros op [[= <-]|[= <-]]; reflexivity|]|]; intros op [=].
Defined.

(** A tracked widget that OCI no longer knows is created once, after the Get that refuted it. *)
Lemma tracked_resource_not_recreated_witness :
  let c := listing_config (Ok VNil) (Err not_found_error) in
  let s' := snd (@CreateOrUpdate unit plainEnv c false "default" (sample_state (sampleResource trackedStatus))) in
  calls (at_address (Create c)) (rt_trace s') = 1 /\
  exists l1 l2, rt_trace s' = [] ++ l1 ++ l2 /\
    calls (at_address (Create c)) l1 = 0 /\ (calls (at_address (Create c)) l2 = 0 \/ refuted c l1).
Proof.
  split; [vm_compute; reflexivity|].
  apply (@tracked_resource_not_recreated unit plainEnv (listing_config (Ok VNil) (Err not_found_error)) false "default"
    (sample_state (sampleResource trackedStatus)) (listing_separate _ _)).
  vm_compute. discriminate.
Defined.

(** A Get that is answered with a 500, and no List to fall back on. *)
Definition server_error : GoError :=
  ErrService (mkServiceError 500 "InternalServerError" "req1" "try again" "500" "common.servicefailure" None).

Definition unread_config : Config unit :=
  mkConfig "Widget" "Widget" None None None None None no_identity_hooks None None None no_status_hooks
    no_parity_hooks (mkAsyncHooks sample_adapter None None None None None) no_delete_hooks
    (Some (sample_operation 1 "CreateWidgetRequest" (Ok (sampleBody active_body))))
    (Some (sample_operation 2 "GetWidgetRequest" (Err server_error))) None None None.

Lemma created_identifier_lost_witness :
  let s := sample_state (sampleResource emptyStatus) in
  responseID (sampleBody active_body) = "ocid1.widget.2" /\
  exists s' st', @createOrReadResource unit plainEnv unread_config "default" VNil s =
      (Ret (failed_response, Some (ErrOci InternalServerErrorOciError (mkOciErrors 500 "InternalServerError" "req1" "An internal server error occurred"))), s') /\
    has_status s' st' /\ Ocid st' = "" /\ Reason st' = Failed.
Proof.
  split; [reflexivity|].
  eapply (@created_identifier_lost unit plainEnv unread_config "default" VNil (sample_state (sampleResource emptyStatus)) _ _ _ emptyStatus).
  - reflexivity.
  - reflexivity.
  - reflexivity.
  - reflexivity.
  - vm_compute. reflexivity.
  - split; [|reflexivity]. do 6 eexists. split; [reflexivity|]. split; reflexivity.
  - reflexivity.
  - vm_compute. reflexivity.
  - vm_compute. reflexivity.
  - reflexivity.
Defined.
