(* ===== verification/RuntimeManager.v ===== *)
(** * The generated runtime under the reconciler

    A generated service manager (for instance [pkg/servicemanager/queue/queue/queue_servicemanager.go])
    passes a reconcile on to its [ServiceClient].  Here: what the answers of the
    client look like, the manager built from it, and how [BaseReconciler] treats
    its answers end to end. *)

From S2P Require Import Prelude GoStrings Shared GoErrors GoValue AsyncStatus Reconciler ReconcilerSafety Secrets JsonValues Semantics SpecResolution MutationPolicy RequestBuilder Runtime RuntimeRead RuntimeReconcile RuntimeTrace RuntimeDelete.
Local Open Scope string_scope.
Local Open Scope list_scope.
Local Open Scope go_scope.

(** ** Results of a method *)

Definition returns {W A} (m : M W A) (P : A -> Prop) : Prop := forall s a, fst (m s) = Ret a -> P a.

Lemma returns_ret {W A} (a : A) (P : A -> Prop) : P a -> returns (st_ret a : M W A) P.
Proof. intros Ha s b [= <-]. done. Qed.

Lemma returns_bind {W A B} (m : M W A) (f : A -> M W B) (Q : A -> Prop) P :
  returns m Q -> (forall a, Q a -> returns (f a) P) -> returns (st_bind m f) P.
Proof.
  intros Hm Hf s b. unfold st_bind. specialize (Hm s). destruct (m s) as [[a|] s1]; [|done]. simpl in *.
  apply (Hf a). by apply Hm.
Qed.

Lemma returns_then {W A B} (m : M W A) (f : A -> M W B) P : (forall a, returns (f a) P) -> returns (st_bind m f) P.
Proof. intros Hf. by apply (returns_bind m f (fun _ => True)); [|intros a _]. Qed.

Lemma returns_weaken {W A} (m : M W A) (P Q : A -> Prop) : (forall a, P a -> Q a) -> returns m P -> returns m Q.
Proof. intros HPQ Hm s a Ha. by apply HPQ, (Hm s). Qed.

(** ** Status blocks survive writes *)

Lemma set_field_absent name x fs : struct_field name fs = None -> set_field name x fs = fs.
Proof.
  unfold struct_field. induction fs as [|[sf y] fs IH]; simpl; [done|].
  destruct (sf_Name sf =? name)%string; [done|]. intros Hf. by rewrite IH.
Qed.

Lemma set_field_same name x fs : struct_field name fs = Some x -> set_field name x fs = fs.
Proof.
  unfold struct_field. induction fs as [|[sf y] fs IH]; simpl; [done|].
  destruct (sf_Name sf =? name)%string; [by intros [= ->]|]. intros Hf. by rewrite IH.
Qed.

Lemma osokStatus_survives x r s : osokStatus r = Ok s -> exists s', osokStatus (set_osokStatus x r) = Ok s'.
Proof.
  intros Hs. unfold set_osokStatus, update_status_field.
  destruct r as [| | | | |t [v|]| | | | | |]; eauto. destruct v as [| | | | | | |n fs| | | |]; eauto.
  destruct (struct_field "Status" fs) as [st|] eqn:Est; [|eauto]. destruct st as [| | | | | | |sn sfs| | | |]; eauto.
  destruct (struct_field "OsokStatus" sfs) as [o|] eqn:Eo.
  - exists x. unfold osokStatus, statusStruct. cbn [resourceStruct].
    erewrite (fieldByName_struct_field "Status") by (apply struct_field_set_eq; by rewrite Est).
    by erewrite (fieldByName_struct_field "OsokStatus") by (apply struct_field_set_eq; by rewrite Eo).
  - rewrite (set_field_absent "OsokStatus") by done. rewrite set_field_same by done. eauto.
Qed.

Section Answers.
Context {W : Type} `{Env} (c : Config W).

(** A step that keeps the status block, with a fact about its result. *)
Definition keeps_status {A} (m : M W A) : Prop :=
  forall s st, osokStatus (rt_resource s) = Ok st -> exists st', osokStatus (rt_resource (snd (m s))) = Ok st'.

Definition returns_on_status {A} (m : M W A) (P : A -> Prop) : Prop :=
  forall s st a, osokStatus (rt_resource s) = Ok st -> fst (m s) = Ret a -> P a.

Lemma on_status_bind {A B} (m : M W A) (f : A -> M W B) P :
  keeps_status m -> (forall a, returns_on_status (f a) P) -> returns_on_status (st_bind m f) P.
Proof.
  intros Hk Hf s st b Hs. unfold st_bind. destruct (Hk s st Hs) as [st' Hs'].
  destruct (m s) as [[a|] s1]; [|done]. simpl in *. by eapply Hf.
Qed.

Lemma keeps_write f : keeps_status (write_status f).
Proof.
  intros s st Hs. unfold write_status, st_bind. cbn [get_resource st_gets]. rewrite Hs. cbn.
  by eapply osokStatus_survives.
Qed.
Lemma keeps_ret {A} (a : A) : keeps_status (st_ret a).
Proof. intros s st Hs. eauto. Qed.
Lemma keeps_get : keeps_status get_resource.
Proof. intros s st Hs. eauto. Qed.
Lemma keeps_now : keeps_status now.
Proof. intros s st Hs. eauto. Qed.

Lemma applyAsync_projection o :
  returns_on_status (applyAsyncOperation c o) (fun p => p = ProjectAsyncCondition (op_NormalizedClass o) (op_Phase o)).
Proof.
  unfold applyAsyncOperation. do 2 (apply on_status_bind; [apply keeps_now|intros ?]).
  intros s st p Hs. unfold st_bind at 1. cbn [get_resource st_gets]. rewrite Hs.
  destruct (generatedWorkRequestAsyncEnabled _); cbn; repeat case_goal; simplify_eq/=; by intros [= <-].
Qed.

(** ** Answers *)

(** An error comes with an unsuccessful response that asks for no requeue, and a requeue has a
    positive delay. *)
Definition answer_ok (a : OSOKResponse * option GoError) : Prop :=
  (snd a <> None -> IsSuccessful (fst a) = false /\ resp_ShouldRequeue (fst a) = false) /\
  (resp_ShouldRequeue (fst a) = true -> (0 < RequeueDuration (fst a))%Z).

(** Hooks that answer for the client are held to the same contract. *)
Definition hooks_answer_ok : Prop :=
  (forall f response, ApplyLifecycle (cfg_StatusHooks c) = Some f -> returns (callback (f response)) answer_ok) /\
  (forall f response, ApplyParityUpdate (cfg_ParityHooks c) = Some f -> returns (callback (f response)) answer_ok).

Lemma failed_ok e : answer_ok (failed_response, e).
Proof. split; [done|]. by intros [=]. Qed.

Lemma resolveRequeueDuration_ok response b preferred ok :
  answer_ok (mkResponse ok b (resolveRequeueDuration response b preferred), None).
Proof.
  split; [done|]. simpl. intros ->. unfold resolveRequeueDuration. cbn [negb].
  destruct (0 <? preferred)%Z eqn:E1; [by bool_prop|].
  destruct (0 <? responseRetryAfterDuration response)%Z eqn:E2; [by bool_prop|]. done.
Qed.

(** Follow the structure of a method to its answers. *)
Ltac answer_step :=
  first
  [ solve [auto with answer nocore]
  | match goal with
    | |- returns (st_bind _ _) _ => apply returns_then; intros ?
    | |- returns (if_status _ _) _ => unfold if_status
    | |- returns (st_ret (failed_response, _)) _ => apply returns_ret, failed_ok
    | |- returns (match ?x with _ => _ end) _ => case x; intros
    end
  | progress cbn zeta beta ].
Ltac answer_solve := cbn zeta beta; repeat answer_step.
Create HintDb answer discriminated.

Lemma failCreateOrUpdate_ok e : returns (failCreateOrUpdate c e) answer_ok.
Proof. unfold failCreateOrUpdate. answer_solve. Qed.
Hint Resolve failCreateOrUpdate_ok : answer.

Lemma applySuccess_ok r f i d : returns (applySuccessWithIdentityAndRequeue c r f i d) answer_ok.
Proof.
  unfold applySuccessWithIdentityAndRequeue. answer_solve; apply returns_ret, resolveRequeueDuration_ok.
Qed.
Lemma applySuccessWithIdentity_ok r f i : returns (applySuccessWithIdentity c r f i) answer_ok.
Proof. apply applySuccess_ok. Qed.
Hint Resolve applySuccess_ok applySuccessWithIdentity_ok : answer.

(** The response of a work-request update follows the projection of its class and phase. *)
Definition projected (class : OSOKAsyncNormalizedClass) (phase : OSOKAsyncPhase) (r : OSOKResponse) : Prop :=
  r = failed_response \/
  let p := ProjectAsyncCondition class phase in
  r = mkResponse (negb (Condition p =? Failed)%string) (ShouldRequeue p) defaultRequeueDuration.

Lemma setWorkRequest_projected o class m : returns (setWorkRequestOperation c o class m) (projected class (op_Phase o)).
Proof.
  unfold setWorkRequestOperation, markWorkRequestOperation, if_status. intros s r. unfold st_bind at 1. cbn [get_resource st_gets].
  destruct (osokStatus (rt_resource s)) as [st|e] eqn:Es; [|intros [= <-]; by left]. revert r.
  assert (Hr : forall m' : M W OSOKResponse, returns_on_status m' (projected class (op_Phase o)) ->
            forall r, fst (m' s) = Ret r -> projected class (op_Phase o) r) by (intros m' Hm r; by eapply Hm).
  apply Hr. apply on_status_bind; [apply keeps_now|intros t]. apply on_status_bind; [apply keeps_get|intros res]. cbn zeta.
  apply on_status_bind; [case_goal; [apply keeps_write|apply keeps_ret]|intros ?].
  apply on_status_bind; [apply keeps_write|intros ?]. cbn zeta.
  intros s1 st1 r Hs1. unfold st_bind.
  pose proof (applyAsync_projection (mkAsyncOp (op_Source o) (op_Phase o) (op_WorkRequestID o) (op_RawStatus o)
    (op_RawOperationType o) class (op_PercentComplete o) (TrimSpace m) (Some t)) s1 st1) as Hp.
  cbn [op_Source op_Phase op_WorkRequestID op_RawStatus op_RawOperationType op_NormalizedClass op_PercentComplete op_Message
       op_UpdatedAt default from_option id] in *.
  destruct (applyAsyncOperation c _ s1) as [[p|] s2]; [|done]. cbn [fst] in *. specialize (Hp p Hs1 eq_refl). subst p.
  intros [= <-]. by right.
Qed.

Lemma failure_projection class phase :
  ProjectAsyncCondition (failure_class class) phase =
  mkProjection Failed ConditionFalse false (DefaultMessage (ProjectAsyncCondition (failure_class class) phase)).
Proof.
  unfold failure_class.
  destruct (class =? OSOKAsyncClassCanceled)%string eqn:E1; [by apply String.eqb_eq in E1 as ->|].
  destruct (class =? OSOKAsyncClassAttention)%string eqn:E2; [by apply String.eqb_eq in E2 as ->|].
  destruct (class =? OSOKAsyncClassUnknown)%string eqn:E3; [by apply String.eqb_eq in E3 as ->|]. done.
Qed.

Lemma failWorkRequest_ok o e : returns (failWorkRequestOperation c o e) answer_ok.
Proof.
  unfold failWorkRequestOperation. apply returns_then; intros ?.
  eapply returns_bind; [apply setWorkRequest_projected|]. intros r [-> | ->]; apply returns_ret; [apply failed_ok|].
  rewrite failure_projection. by split.
Qed.

Lemma pending_ok o m :
  returns (let* r := setWorkRequestOperation c o OSOKAsyncClassPending m in st_ret (r, None)) answer_ok.
Proof.
  eapply returns_bind; [apply setWorkRequest_projected|]. intros r [-> | ->]; apply returns_ret; [apply failed_ok|by split].
Qed.
Hint Resolve failWorkRequest_ok pending_ok : answer.

Lemma completeWrite_ok i wr o : returns (completeGeneratedWorkRequestWrite c i wr o) answer_ok.
Proof. unfold completeGeneratedWorkRequestWrite. answer_solve. Qed.
Hint Resolve completeWrite_ok : answer.

Lemma resumeWrite_ok i id p : returns (resumeGeneratedWorkRequestCreateOrUpdate c i id p) answer_ok.
Proof. unfold resumeGeneratedWorkRequestCreateOrUpdate. answer_solve. Qed.
Hint Resolve resumeWrite_ok : answer.
Lemma after_write_ok r p i f id : returns (after_write c r p i f id) answer_ok.
Proof. unfold after_write. answer_solve. Qed.
Lemma observe_ok i r id : returns (observeExistingResource c i r id) answer_ok.
Proof. unfold observeExistingResource. answer_solve. Qed.
Hint Resolve after_write_ok observe_ok : answer.
Lemma finish_ok r a : answer_ok a -> returns (finish_create_or_update c r a) answer_ok.
Proof. intros Ha. unfold finish_create_or_update. apply returns_then; intros ?. by apply returns_ret. Qed.
Lemma reconcileExisting_ok st ns : returns (reconcileExistingResource c st ns) answer_ok.
Proof. unfold reconcileExistingResource, updateExistingResource. answer_solve. Qed.
Lemma createOrRead_ok ns i : returns (createOrReadResource c ns i) answer_ok.
Proof. unfold createOrReadResource. answer_solve. Qed.
Lemma reconcile_or_create_ok st ns : returns (reconcile_or_create c st ns) answer_ok.
Proof.
  unfold reconcile_or_create. apply returns_then; intros b. eapply returns_bind with (Q := answer_ok).
  - destruct (negb _); [apply reconcileExisting_ok|apply createOrRead_ok].
  - intros a Ha. apply returns_then; intros ?. by apply finish_ok.
Qed.

(** The optional answers of the existing-resource hooks. *)
Definition optional_ok (a : option (OSOKResponse * option GoError)) : Prop := match a with Some a => answer_ok a | None => True end.

Section Hooks.
Context (hooks : hooks_answer_ok).

Lemma observation_ok r i : returns (applyStatusHooksObservation c r i) optional_ok.
Proof using hooks.
  destruct hooks as [Hl _]. unfold applyStatusHooksObservation. destruct (_ && _); [by apply returns_ret|].
  apply returns_then. intros [e|]; [apply returns_ret, failed_ok|]. apply returns_then; intros ?.
  eapply returns_bind with (Q := answer_ok); [|intros ans Ha; by apply returns_ret].
  destruct (ApplyLifecycle _); [by eapply Hl|apply applySuccessWithIdentity_ok].
Qed.

Lemma parity_ok st ns : returns (handleParityHooks c st ns) optional_ok.
Proof using hooks.
  pose proof observation_ok as Ho. destruct hooks as [_ Hp]. unfold handleParityHooks. apply returns_then; intros b.
  destruct (negb b); [by apply returns_ret|]. apply returns_then. intros [[|]|e]; [..|apply returns_ret, failed_ok].
  - destruct (ApplyParityUpdate _); [|apply returns_ret, failed_ok].
    eapply returns_bind with (Q := answer_ok); [by eapply Hp|intros a Ha; by apply returns_ret].
  - eapply returns_bind; [apply Ho|]. intros [a|] Ha; [by apply returns_ret|].
    eapply returns_bind; [apply observe_ok|intros a Ha'; by apply returns_ret].
Qed.

Lemma existingHooks_ok st ns : returns (applyExistingResourceHooks c st ns) optional_ok.
Proof using hooks.
  unfold applyExistingResourceHooks. cbn zeta. destruct (_ || _); [by apply returns_ret|].
  eapply returns_bind with (Q := optional_ok); [destruct (shouldObserveCurrentLifecycle _ _); [apply observation_ok|by apply returns_ret]|].
  intros [a|] Ha; [by apply returns_ret|apply parity_ok].
Qed.

Lemma CreateOrUpdate_ok skip ns : returns (CreateOrUpdate c skip ns) answer_ok.
Proof using hooks.
  unfold CreateOrUpdate. eapply returns_bind with (Q := optional_ok).
  { unfold validateCreateOrUpdateRequest. destruct (InitError c).
    - eapply returns_bind; [apply failCreateOrUpdate_ok|intros a Ha; by apply returns_ret].
    - apply returns_then; intros r. apply returns_ret. destruct (resourceStruct r); [done|apply failed_ok]. }
  intros [a|] Ha; [by apply returns_ret|]. apply returns_then. intros [i|e]; [|apply failCreateOrUpdate_ok].
  apply returns_then; intros r. destruct (currentGeneratedWorkRequest c r) as [wr ph].
  destruct (negb _ && _); [apply resumeWrite_ok|]. destruct (negb _ && _); [apply failCreateOrUpdate_ok|]. cbn zeta.
  apply returns_then. intros [st|e]; [|apply failCreateOrUpdate_ok]. apply returns_then. intros [e|].
  - apply returns_then; intros ?. apply failCreateOrUpdate_ok.
  - eapply returns_bind; [apply existingHooks_ok|]. intros [a|] Ha'; [by apply finish_ok|apply reconcile_or_create_ok].
Qed.
End Hooks.
End Answers.

(** ** The generated service manager *)

(** What the manager's world holds: the world of the client, the clock position and the trace. *)
Record MWorld (W : Type) := mkMWorld { mw_world : W; mw_tick : nat; mw_trace : list Event }.
Arguments mkMWorld {W}.
Arguments mw_world {W}.
Arguments mw_tick {W}.
Arguments mw_trace {W}.

Section Manager.
Context {W : Type} `{Env} (c : Config W) (namespace : string).

Definition client_state (obj : Object GoValue) (w : MWorld W) : RT W := mkRT (o_body obj) (mw_world w) (mw_tick w) (mw_trace w).

(** Run a client method on the object: the resource behind the pointer is the object's body. *)
Definition run_client {A} (m : M W A) (obj : Object GoValue) (w : MWorld W) : outcome A * Object GoValue * MWorld W :=
  let '(r, s) := m (client_state obj w) in
  (r, mkObject (o_finalizers obj) (o_deletionTimestamp obj) (o_generation obj) (rt_resource s),
   mkMWorld (rt_world s) (rt_tick s) (rt_trace s)).

(** A generated manager implements [OSOKServiceManager] but not [OSOKDeleteResultProvider]; the
    conversion of the object to the resource type always succeeds for its own kind. *)
Definition runtime_manager : ServiceManager GoValue (MWorld W) :=
  mkServiceManager (run_client (CreateOrUpdate c false namespace)) (run_client (client_Delete c)) None
    (fun obj => osokStatus (o_body obj)).

Lemma runtime_answer obj w response err o' w' :
  hooks_answer_ok c -> sm_CreateOrUpdate runtime_manager obj w = (Ret (response, err), o', w') -> answer_ok (response, err).
Proof.
  intros Hh. simpl. unfold run_client. pose proof (CreateOrUpdate_ok c Hh false namespace (client_state obj w)) as Ha.
  destruct (CreateOrUpdate c false namespace _) as [r s]. intros [= -> <- <-]. by apply Ha.
Qed.

(** The manager's delete is [DeleteWithResult] of the client. *)
Lemma runtime_delete obj w p o' w' :
  delete_call runtime_manager obj w = (Ret p, o', w') ->
  exists answer s', DeleteWithResult c (client_state obj w) = (Ret answer, s') /\
    Deleted (fst p) = Deleted (fst answer) /\ snd p = snd answer /\ mw_trace w' = rt_trace s'.
Proof.
  unfold delete_call. simpl. unfold run_client, client_Delete, st_bind.
  destruct (DeleteWithResult c _) as [[answer|] s1]; simpl; intros [= <- <- <-]. by exists answer, s1.
Qed.
End Manager.

(** End to end, an error of the generated runtime is final: whatever [CreateOrUpdate] of the
    client fails with, its answer asks for no requeue, so the reconcile that records it in the status
    returns neither an error nor a requeue to controller-runtime. *)
Theorem runtime_failure_not_retried {W} `{Env} (c : Config W) (namespace : string)
  (client : Client GoValue (MWorld W)) (s : RS GoValue (MWorld W)) response e o' w' o2 w2 :
  hooks_answer_ok c ->
  sm_CreateOrUpdate (runtime_manager c namespace) (rs_obj s) (rs_world s) = (Ret (response, Some e), o', w') ->
  c_StatusPatch client (rs_obj s) o' w' = (o2, None, w2) ->
  fst (ReconcileResource client (runtime_manager c namespace) s) = Ret DoNotRequeue.
Proof.
  intros Hh Hc Hp. pose proof (runtime_answer _ _ _ _ _ _ _ _ Hh Hc) as [Hf _].
  destruct Hf as [Hs Hr]; [done|]. simpl in Hs, Hr.
  destruct (ReconcileResource _ _ s) as [out s'] eqn:Hrun. apply ReconcileResource_run in Hrun.
  inversion Hrun as [o w Hx|resp err o w o3 perr w3 rest ans Hx Hy Hz Ha]; subst; rewrite Hc in Hx; simplify_eq.
  rewrite Hp in Hy. simplify_eq. unfold reconcile_answer. by rewrite Hs, Hr.
Qed.

(** What a released finalizer rests on, for any notion of evidence. *)
Lemma released_on_evidence {W} `{Env} (c : Config W) (namespace : string) (semantics : Semantics) E
  (client : Client GoValue (MWorld W)) (extra : list string) obj0 w0 out s' o :
  EvidenceLaws c semantics E -> cfg_Semantics c = Some semantics -> fu_Strategy (DeleteFollowUp semantics) = "confirm-delete" ->
  hasDeleteConfirmRead c = true -> ordinary_projection_errors c ->
  Reconcile client (runtime_manager c namespace) extra (mkRS obj0 w0 []) = (out, s') ->
  EffUpdate o ∈ rs_trace s' -> ContainsFinalizer o OSOKFinalizerName = false ->
  exists obj w answer st,
    c_Get client w0 = (Ok obj, w) /\ delete_branch obj = true /\
    DeleteWithResult c (client_state obj w) = (Ret answer, st) /\
    ((snd answer = None /\ exists l e, rt_trace st = mw_trace w ++ l /\ e ∈ l /\ E e = true) \/
     (exists e k, snd answer = Some e /\ ClassifyDeleteError (Some e) = Ret k /\ IsUnambiguousNotFound k = true)).
Proof.
  intros laws Hsem Hst Hread Hord Hrun Hw Hf.
  destruct (release_confirmed _ _ _ _ _ _ _ _ Hrun Hw Hf) as (obj & w & p & o' & w' & Hg & Hb & Hc & Hd).
  apply runtime_delete in Hc as (answer & st & Ha & Hdel & Herr & _). exists obj, w, answer, st. split_and!; try done.
  unfold delete_confirmed in Hd. rewrite Herr, Hdel in Hd. destruct (snd answer) as [e|] eqn:Ee; [right|left].
  - destruct (ClassifyDeleteError (Some e)) as [k|] eqn:Ek; [|done]. by exists e, k.
  - split; [done|]. destruct (ev_DeleteWithResult c semantics E laws Hsem Hst Hord Hread (client_state obj w)) as (l & Hl & Hev).
    rewrite Ha in *. specialize (Hev answer eq_refl Hd). apply List.existsb_exists in Hev as (e & Hin & He).
    exists l, e. split_and!; [done|by apply list_elem_of_In|done].
Qed.

(** C1. End to end, for a generated client whose configuration has formal semantics with the delete follow-up strategy
    "confirm-delete", a read to confirm with (a Get, a List or a confirm-read hook), and a status projection hook, if any, that
    does not answer with the runtime's own not-found sentinel: the reconciler writes an object without the OSOK finalizer only
    when the object it read is deleting and the client's delete of that object either was backed by evidence found in the same
    run (a not-found answer of the delete request or of a confirmation read, a confirmation read in a lifecycle state the delete
    policy accepts, a positive decision of the service's outcome hook, or a succeeded delete work request of a resource with
    no identifier), or failed with an error that is classified as an unambiguous not-found.  Nothing is said of clients without
    semantics or with another follow-up strategy, which report an accepted delete request as a delete. *)
Theorem finalizer_release_evidenced {W} `{Env} (c : Config W) (namespace : string) (semantics : Semantics)
  (client : Client GoValue (MWorld W)) (extra : list string) obj0 w0 out s' o :
  cfg_Semantics c = Some semantics -> fu_Strategy (DeleteFollowUp semantics) = "confirm-delete" ->
  hasDeleteConfirmRead c = true -> ordinary_projection_errors c ->
  Reconcile client (runtime_manager c namespace) extra (mkRS obj0 w0 []) = (out, s') ->
  EffUpdate o ∈ rs_trace s' -> ContainsFinalizer o OSOKFinalizerName = false ->
  exists obj w answer st,
    c_Get client w0 = (Ok obj, w) /\ delete_branch obj = true /\
    DeleteWithResult c (client_state obj w) = (Ret answer, st) /\
    ((snd answer = None /\ exists l e, rt_trace st = mw_trace w ++ l /\ e ∈ l /\ delete_evidence c semantics e = true) \/
     (exists e k, snd answer = Some e /\ ClassifyDeleteError (Some e) = Ret k /\ IsUnambiguousNotFound k = true)).
Proof. apply released_on_evidence, plain_evidence. Qed.

(** ** Running the steps of a method *)

Lemma write_status_run {W} f (s : RT W) :
  exists r, write_status f s = (Ret tt, mkRT r (rt_world s) (rt_tick s) (rt_trace s)).
Proof.
  unfold write_status. erewrite bind_step by reflexivity. destruct (osokStatus (rt_resource s)); [by eexists|].
  exists (rt_resource s). by destruct s.
Qed.

Lemma fetch_failed {W} (c : Config W) id get e e' w1 s :
  GetWorkRequest (cfg_Async c) = Some get -> get (TrimSpace id) (rt_world s) = (Ret (Err e), w1) ->
  normalizeOCIError e = Ret e' ->
  fetchGeneratedWorkRequest c id s =
    (Ret (Err e'), mkRT (rt_resource s) w1 (rt_tick s) (rt_trace s ++ [EvPoll (TrimSpace id) (Err e)])).
Proof.
  intros Hget Hcall Hn. unfold fetchGeneratedWorkRequest. rewrite Hget. unfold st_bind, on_world. rewrite Hcall. simpl.
  by rewrite Hn.
Qed.

(** A delete whose work request cannot be fetched returns that error and does nothing else. *)
Lemma resume_failed {W} `{Env} (c : Config W) id get e e' w1 s :
  GetWorkRequest (cfg_Async c) = Some get -> get (TrimSpace id) (rt_world s) = (Ret (Err e), w1) ->
  normalizeOCIError e = Ret e' ->
  exists r, resumeGeneratedWorkRequestDelete c id s =
    (Ret (false, Some e'), mkRT r w1 (rt_tick s) (rt_trace s ++ [EvPoll (TrimSpace id) (Err e)])).
Proof.
  intros Hget Hcall Hn. unfold resumeGeneratedWorkRequestDelete, recordErrorRequestID.
  erewrite bind_step by (by apply (fetch_failed c id get e e' w1)).
  edestruct (write_status_run (W := W)) as [r Hw]. erewrite bind_step by exact Hw. by eexists.
Qed.


(** ** Witnesses *)

(** A client with one stored object: writes and patches succeed and return the object written. *)
Definition single_client (obj : Object GoValue) : Client GoValue (MWorld unit) :=
  mkClient (fun w => (Ok obj, w)) (fun o w => (o, None, w)) (fun _ o w => (o, None, w)).

Definition widget_object (deleting : option Time) (s : OSOKStatus) : Object GoValue :=
  mkObject [OSOKFinalizerName] deleting 1%Z (sampleResource s).

Definition idle_world : MWorld unit := mkMWorld tt 0 [].

Lemma sample_hooks_answer_ok semantics a b d : hooks_answer_ok (sample_config semantics a b d).
Proof. split; intros f response Hf; discriminate Hf. Defined.

Lemma runtime_failure_not_retried_witness :
  let c := sample_config confirming_semantics (Ok VNil) (Err (ErrText "429 TooManyRequests")) (Ok VNil) in
  fst (ReconcileResource (single_client (widget_object None trackedStatus)) (@runtime_manager unit plainEnv c "default")
         (mkRS (widget_object None trackedStatus) idle_world [])) = Ret DoNotRequeue.
Proof.
  eapply (@runtime_failure_not_retried unit plainEnv
    (sample_config confirming_semantics (Ok VNil) (Err (ErrText "429 TooManyRequests")) (Ok VNil)) "default").
  - apply sample_hooks_answer_ok.
  - vm_compute. reflexivity.
  - reflexivity.
Defined.

Lemma finalizer_release_evidenced_witness :
  let c := sample_config confirming_semantics (Ok VNil) (Err not_found_error) (Ok VNil) in
  exists obj w answer st,
    c_Get (single_client (widget_object (Some 5%Z) trackedStatus)) idle_world = (Ok obj, w) /\ delete_branch obj = true /\
    @DeleteWithResult unit plainEnv c (client_state obj w) = (Ret answer, st) /\
    ((snd answer = None /\ exists l e, rt_trace st = mw_trace w ++ l /\ e ∈ l /\ delete_evidence c confirming_semantics e = true) \/
     (exists e k, snd answer = Some e /\ ClassifyDeleteError (Some e) = Ret k /\ IsUnambiguousNotFound k = true)).
Proof.
  eapply (@finalizer_release_evidenced unit plainEnv
    (sample_config confirming_semantics (Ok VNil) (Err not_found_error) (Ok VNil)) "default" confirming_semantics
    (single_client (widget_object (Some 5%Z) trackedStatus)) []
    (widget_object (Some 5%Z) trackedStatus) idle_world).
  - reflexivity.
  - reflexivity.
  - reflexivity.
  - intros f response r w e r' w' Hf. discriminate Hf.
  - apply surjective_pairing.
  - vm_compute. right. right. left.
  - vm_compute. reflexivity.
Defined.

