(* ===== verification/ServiceClients.v ===== *)
(** * Service clients and the managers built from them

    Every generated package has the same three pieces: a client interface
    ([QueueServiceClient] in [queue_serviceclient.go] and its likes), the client built
    from the generated runtime and the registered wrappers
    ([wrapQueueGeneratedClient] in [queue_runtimehooks_generated.go]), and the manager
    that hands a reconcile to the client ([queue_servicemanager.go]).  They are modelled
    once, generic in the resource type [R]; hand-written clients are functions from
    clients to clients.  The resource a client gets is never nil: a manager converts
    the object it is given, and the reconciler never passes a nil object. *)

From S2P Require Import Prelude GoStrings Shared GoErrors GoValue AsyncStatus Reconciler ReconcilerSafety Runtime RuntimeReconcile RuntimeManager.
Local Open Scope string_scope.
Local Open Scope go_scope.

(** ** Clients *)

(** A client works on the resource behind the pointer and on the world; the argument of
    [CreateOrUpdate] is the namespace of the request. *)
Record SvcClient (R W : Type) := mkSvcClient {
  sc_CreateOrUpdate : string -> ST (R * W) (OSOKResponse * option GoError);
  sc_Delete : ST (R * W) (bool * option GoError)
}.
Arguments mkSvcClient {R W}.
Arguments sc_CreateOrUpdate {R W}.
Arguments sc_Delete {R W}.

(** [servicemanager.OSOKResponse{IsSuccessful: false}]. *)
Definition unsuccessful : OSOKResponse := mkResponse false false 0%Z.

(** Steps that only touch the world, or only the resource. *)
Definition on_world {R W A} (m : ST W A) : ST (R * W) A :=
  fun '(r, w) => let (a, w') := m w in (a, (r, w')).
Definition on_resource {R W} (f : R -> R) : ST (R * W) unit := fun '(r, w) => (Ret tt, (f r, w)).
Definition the_resource {R W} : ST (R * W) R := fun '(r, w) => (Ret r, (r, w)).

Lemma on_world_run {R W A} (m : ST W A) (r : R) w a w' : m w = (a, w') -> on_world m (r, w) = (a, (r, w')).
Proof. intros H. unfold on_world. by rewrite H. Qed.

(** [wrapQueueGeneratedClient]: nil wrappers are skipped, later ones are outermost. *)
Definition wrapGeneratedClient {R W} (wraps : list (option (SvcClient R W -> SvcClient R W)))
  (delegate : SvcClient R W) : SvcClient R W :=
  fold_left (fun wrapped wrap => match wrap with None => wrapped | Some f => f wrapped end) wraps delegate.

(** ** Managers *)

Section Manager.
Context {R W : Type}.

Definition run_svc {A} (m : ST (R * W) A) (obj : Object R) (w : W) : outcome A * Object R * W :=
  let '(a, (r, w')) := m (o_body obj, w) in
  (a, mkObject (o_finalizers obj) (o_deletionTimestamp obj) (o_generation obj) r, w').

(** A manager of its own kind: [convert] always succeeds, [Delete] is the only delete. *)
Definition client_manager (client : SvcClient R W) (namespace : string) (status : R -> OSOKStatus)
  : ServiceManager R W :=
  mkServiceManager (run_svc (sc_CreateOrUpdate client namespace)) (run_svc (sc_Delete client)) None
    (fun obj => Ok (status (o_body obj))).

(** The delete the reconciler calls is the client's. *)
Lemma client_manager_delete client namespace status obj w p o' w' :
  delete_call (client_manager client namespace status) obj w = (Ret p, o', w') ->
  exists d err r', sc_Delete client (o_body obj, w) = (Ret (d, err), (r', w')) /\ p = (mkDeleteResult d 0%Z, err).
Proof.
  unfold delete_call. simpl. unfold run_svc. destruct (sc_Delete client _) as [[[d err]|] [r' w1]]; simpl;
    intros [= <- <- <-]. by exists d, err, r'.
Qed.
End Manager.

(** ** The generated client *)

Section GeneratedClient.
Context {W : Type} `{Env} (c : Config W).

(** A method of the generated runtime on the resource and the manager's world. *)
Definition svc_of_runtime {A} (m : M W A) : ST (GoValue * MWorld W) A :=
  fun '(r, w) =>
    let '(a, s) := m (mkRT r (mw_world w) (mw_tick w) (mw_trace w)) in
    (a, (rt_resource s, mkMWorld (rt_world s) (rt_tick s) (rt_trace s))).

(** [defaultQueueServiceClient]: [generatedruntime.ServiceClient] as a client. *)
Definition defaultServiceClient : SvcClient GoValue (MWorld W) :=
  mkSvcClient (fun namespace => svc_of_runtime (CreateOrUpdate c false namespace)) (svc_of_runtime (client_Delete c)).

(** The manager over the unwrapped client does what [runtime_manager] does. *)
Lemma defaultServiceClient_manager namespace status obj w :
  sm_CreateOrUpdate (client_manager defaultServiceClient namespace status) obj w =
    sm_CreateOrUpdate (runtime_manager c namespace) obj w /\
  delete_call (client_manager defaultServiceClient namespace status) obj w =
    delete_call (runtime_manager c namespace) obj w.
Proof.
  unfold delete_call. simpl. unfold run_svc, run_client, svc_of_runtime, client_state. simpl.
  split; [by destruct (CreateOrUpdate c false namespace _)|by destruct (client_Delete c _)].
Qed.
End GeneratedClient.

(** ** Decorators *)

(** A wrapper that leaves a failed or unfinished delete of its delegate alone. *)
Definition respects_unfinished {R W} (wrap : SvcClient R W -> SvcClient R W) : Prop :=
  forall delegate s a s', sc_Delete delegate s = (Ret a, s') -> fst a = false -> snd a = None ->
    sc_Delete (wrap delegate) s = (Ret a, s').

(** However many such wrappers are registered, an unfinished delete of the generated client
    stays unfinished. *)
Lemma wrapped_unfinished {R W} (wraps : list (option (SvcClient R W -> SvcClient R W))) delegate s a s' :
  Forall (fun o => forall f, o = Some f -> respects_unfinished f) wraps ->
  sc_Delete delegate s = (Ret a, s') -> fst a = false -> snd a = None ->
  sc_Delete (wrapGeneratedClient wraps delegate) s = (Ret a, s').
Proof.
  intros Hw. revert delegate. induction Hw as [|o wraps Ho _ IH]; intros delegate Hd Ha He; simpl; [done|].
  apply IH; [|done|done]. destruct o as [f|]; [|done]. by apply (Ho f).
Qed.
