(* ===== verification/EndpointSecrets.v ===== *)
(** * Endpoint secrets of queues, streams and MySQL DB systems

    [queue_endpoint_secret_client.go], [stream_endpoint_secret_client.go] and
    [dbsystem_endpoint_secret_client.go]: clients that wrap the generated client of their
    resource and keep a secret with its connection data next to it.  The three files
    have the same body up to names, so the steps are defined once, for an
    [EndpointKind] (the label and the words of the messages), and the parts that
    differ (when a resource is ready, what its secret holds) per service.  The resource
    is a parameter seen through its accessors. *)

From stdpp Require Import gmap.
From Stdlib Require Import Ascii.
From S2P Require Import Prelude GoStrings Shared GoErrors GoValue AsyncStatus Reconciler ReconcilerSafety Secrets ServiceClients.
Local Open Scope string_scope.
Local Open Scope go_scope.

(** ** Interfaces ([pkg/credhelper/interfaces.go]) *)

Record SecretRecordReader (W : Type) := mkSecretRecordReader {
  rr_GetSecretRecord : string -> string -> ST W (SecretRecord * option GoError)
}.
Arguments mkSecretRecordReader {W}.
Arguments rr_GetSecretRecord {W}.

Record GuardedSecretMutator (W : Type) := mkGuardedSecretMutator {
  gm_DeleteSecretIfCurrent : string -> string -> SecretRecord -> ST W (bool * option GoError);
  gm_UpdateSecretIfCurrent : string -> string -> SecretRecord -> option Labels -> Data -> ST W (bool * option GoError)
}.
Arguments mkGuardedSecretMutator {W}.
Arguments gm_DeleteSecretIfCurrent {W}.
Arguments gm_UpdateSecretIfCurrent {W}.

(** A value of type [credhelper.CredentialClient]: its methods, and the further interfaces its
    dynamic type implements. *)
Record CredentialValue (W : Type) := mkCredentialValue {
  cv_client : CredentialClient W;
  cv_recordReader : option (SecretRecordReader W);
  cv_guardedMutator : option (GuardedSecretMutator W)
}.
Arguments mkCredentialValue {W}.
Arguments cv_client {W}.
Arguments cv_recordReader {W}.
Arguments cv_guardedMutator {W}.

(** [*kubesecret.KubeSecretClient] as such a value. *)
Definition kubeSecretValue {W} (Client : KubeAPI W) (Reader : option (KubeAPI W)) : CredentialValue W :=
  mkCredentialValue (kubeSecretClient Client Reader)
    (Some (mkSecretRecordReader (GetSecretRecord Client Reader)))
    (Some (mkGuardedSecretMutator (DeleteSecretIfCurrent Client Reader) (UpdateSecretIfCurrent Client Reader))).

(** ** Resources *)

(** The metadata and the status block the clients read. *)
Class EndpointResource (R : Type) := {
  res_Name : R -> string;
  res_Namespace : R -> string;
  res_UID : R -> string;
  res_OsokStatus : R -> OSOKStatus
}.

(** What tells the three files apart besides their ready tests and data: the owner label, the
    subject of the messages and the kind. *)
Record EndpointKind := mkEndpointKind {
  ek_label : string;
  ek_subject : string;
  ek_kind : string
}.

Definition queueEndpointSecretOwnerUIDLabel := "queue.oracle.com/queue-uid".
Definition streamEndpointSecretOwnerUIDLabel := "streaming.oracle.com/stream-uid".
Definition dbSystemEndpointSecretOwnerUIDLabel := "mysql.oracle.com/dbsystem-uid".

Definition queueKind := mkEndpointKind queueEndpointSecretOwnerUIDLabel "queue endpoint secret" "Queue".
Definition streamKind := mkEndpointKind streamEndpointSecretOwnerUIDLabel "stream endpoint secret" "Stream".
Definition dbSystemKind := mkEndpointKind dbSystemEndpointSecretOwnerUIDLabel "mysql dbsystem endpoint secret" "DbSystem".

(** [reflect.DeepEqual(currentRecord.Data, desiredData)].  The values of a record are clones,
    [append([]byte(nil), value...)], so an empty one is a nil slice; desired values are
    conversions [[]byte(s)] (or the text of a JSON value), never nil; desired data has entries. *)
Definition cloned_bytes (value : string) : option string := if (value =? "")%string then None else Some value.
Definition recordDataDeepEqual (recordData desiredData : Data) : bool :=
  bool_decide (cloned_bytes <$> recordData = Some <$> desiredData).

(** ** Ownership *)

Section Ownership.
Context {R : Type} `{!EndpointResource R} (kind : EndpointKind).

Definition endpointSecretOwnerUID (resource : R) : result string GoError :=
  let ownerUID := TrimSpace (res_UID resource) in
  if (ownerUID =? "")%string
  then Err (ErrText (ek_subject kind +++ " ownership requires a " +++ ek_kind kind +++ " UID"))
  else Ok ownerUID.

Definition endpointSecretLabels (resource : R) : result Labels GoError :=
  match endpointSecretOwnerUID resource with
  | Err e => Err e
  | Ok ownerUID => Ok {[ek_label kind := ownerUID]}
  end.

Definition ownsEndpointSecret (resource : R) (labels : Labels) : result bool GoError :=
  match endpointSecretOwnerUID resource with
  | Err e => Err e
  | Ok ownerUID => Ok (default "" (labels !! ek_label kind) =? ownerUID)%string
  end.

(** Two copy loops into a fresh map. *)
Definition mergeEndpointSecretLabels (existing updates : Labels) : Labels :=
  let merged := map_fold (fun key value merged => <[key := value]> merged) ∅ existing in
  map_fold (fun key value merged => <[key := value]> merged) merged updates.

(** [None] is a secret that cannot be adopted. *)
Definition legacyEndpointSecretAdoptionLabels (resource : R) (currentRecord : SecretRecord) (desiredData : Data)
  : result (option Labels) GoError :=
  if negb (TrimSpace (default "" (sr_Labels currentRecord !! ek_label kind)) =? "")%string then Ok None
  else if negb (recordDataDeepEqual (sr_Data currentRecord) desiredData) then Ok None
  else
    match endpointSecretLabels resource with
    | Err e => Err e
    | Ok ownerLabels => Ok (Some (mergeEndpointSecretLabels (sr_Labels currentRecord) ownerLabels))
    end.
End Ownership.

(** ** The client *)

Record EndpointSecretClient (R W : Type) := mkEndpointSecretClient {
  esc_delegate : SvcClient R W;
  esc_credentialClient : option (CredentialClient W);
  esc_secretRecordReader : option (SecretRecordReader W);
  esc_guardedSecretMutator : option (GuardedSecretMutator W)
}.
Arguments mkEndpointSecretClient {R W}.
Arguments esc_delegate {R W}.
Arguments esc_credentialClient {R W}.
Arguments esc_secretRecordReader {R W}.
Arguments esc_guardedSecretMutator {R W}.

(** [new*EndpointSecretClient]: the interfaces come from type assertions on
    [manager.CredentialClient], which is [None] when it is nil. *)
Definition newEndpointSecretClient {R W} (CredentialClient : option (CredentialValue W)) (delegate : SvcClient R W)
  : EndpointSecretClient R W :=
  match CredentialClient with
  | None => mkEndpointSecretClient delegate None None None
  | Some v => mkEndpointSecretClient delegate (Some (cv_client v)) (cv_recordReader v) (cv_guardedMutator v)
  end.

Section Client.
Context {R W : Type} `{!EndpointResource R} (kind : EndpointKind) (c : EndpointSecretClient R W).

(** The error of a call whose boolean is dropped. *)
Definition error_of {A} (m : ST W (A * option GoError)) : ST W (option GoError) :=
  let* (_, err) := m in st_ret err.

Definition syncExistingEndpointSecret (mutator : GuardedSecretMutator W) (resource : R)
  (currentRecord : SecretRecord) (desiredData : Data) : ST W (option GoError) :=
  match ownsEndpointSecret kind resource (sr_Labels currentRecord) with
  | Err e => st_ret (Some e)
  | Ok true =>
      if recordDataDeepEqual (sr_Data currentRecord) desiredData then st_ret None
      else error_of (gm_UpdateSecretIfCurrent mutator (res_Name resource) (res_Namespace resource)
                       currentRecord None desiredData)
  | Ok false =>
      match legacyEndpointSecretAdoptionLabels kind resource currentRecord desiredData with
      | Err e => st_ret (Some e)
      | Ok None =>
          st_ret (Some (ErrText (ek_subject kind +++ " " +++ res_Namespace resource +++ "/" +++ res_Name resource
                   +++ " is not owned by " +++ ek_kind kind +++ " UID " +++ Quote (res_UID resource))))
      | Ok (Some adoptionLabels) =>
          error_of (gm_UpdateSecretIfCurrent mutator (res_Name resource) (res_Namespace resource)
                      currentRecord (Some adoptionLabels) desiredData)
      end
  end.

Definition createEndpointSecret (credentials : CredentialClient W) (reader : SecretRecordReader W)
  (mutator : GuardedSecretMutator W) (resource : R) (ownerLabels : Labels) (data : Data) : ST W (option GoError) :=
  let* (_, err) := cc_CreateSecret credentials (res_Name resource) (res_Namespace resource) ownerLabels data in
  match err with
  | None => st_ret None
  | Some e =>
      if k8s_IsAlreadyExists e then
        let* (currentRecord, rereadErr) := rr_GetSecretRecord reader (res_Name resource) (res_Namespace resource) in
        match rereadErr with
        | Some e => st_ret (Some e)
        | None => syncExistingEndpointSecret mutator resource currentRecord data
        end
      else st_ret (Some e)
  end.

(** The end of [syncEndpointSecret], from the first read on. *)
Definition syncDesiredEndpointSecret (credentials : CredentialClient W) (reader : SecretRecordReader W)
  (mutator : GuardedSecretMutator W) (resource : R) (ownerLabels : Labels) (data : Data) : ST W (option GoError) :=
  let* (currentRecord, err) := rr_GetSecretRecord reader (res_Name resource) (res_Namespace resource) in
  match err with
  | None => syncExistingEndpointSecret mutator resource currentRecord data
  | Some e =>
      if negb (k8s_IsNotFound e) then st_ret (Some e)
      else createEndpointSecret credentials reader mutator resource ownerLabels data
  end.

(** The nil tests that open [syncEndpointSecret]. *)
Definition with_secret_clients
  (k : CredentialClient W -> SecretRecordReader W -> GuardedSecretMutator W -> ST W (option GoError)) : ST W (option GoError) :=
  match esc_credentialClient c with
  | None => st_ret (Some (ErrText (ek_subject kind +++ " credential client is not configured")))
  | Some credentials =>
      match esc_secretRecordReader c with
      | None => st_ret (Some (ErrText (ek_subject kind +++ " ownership checks require secret metadata reads")))
      | Some reader =>
          match esc_guardedSecretMutator c with
          | None => st_ret (Some (ErrText (ek_subject kind +++ " ownership checks require guarded secret mutations")))
          | Some mutator => k credentials reader mutator
          end
      end
  end.

Definition deleteEndpointSecret (resource : R) : ST W (option GoError) :=
  match esc_credentialClient c with
  | None => st_ret (Some (ErrText (ek_subject kind +++ " credential client is not configured")))
  | Some _ =>
      match esc_secretRecordReader c with
      | None => st_ret None
      | Some reader =>
          match esc_guardedSecretMutator c with
          | None => st_ret (Some (ErrText (ek_subject kind +++ " ownership checks require guarded secret mutations")))
          | Some mutator =>
              let* (record, err) := rr_GetSecretRecord reader (res_Name resource) (res_Namespace resource) in
              match err with
              | Some e => if k8s_IsNotFound e then st_ret None else st_ret (Some e)
              | None =>
                  match ownsEndpointSecret kind resource (sr_Labels record) with
                  | Err e => st_ret (Some e)
                  | Ok false => st_ret None
                  | Ok true =>
                      let* (_, err) := gm_DeleteSecretIfCurrent mutator (res_Name resource) (res_Namespace resource) record in
                      match err with
                      | Some e => if k8s_IsNotFound e then st_ret None else st_ret (Some e)
                      | None => st_ret None
                      end
                  end
              end
          end
      end
  end.

(** The client's methods, over the service's ready test and [syncEndpointSecret]. *)
Context (readyForEndpointSecret : R -> bool) (syncEndpointSecret : R -> ST W (option GoError)).

Definition endpoint_CreateOrUpdate (req : string) : ST (R * W) (OSOKResponse * option GoError) :=
  let* (response, err) := sc_CreateOrUpdate (esc_delegate c) req in
  let* resource := the_resource in
  match err with
  | Some _ => st_ret (response, err)
  | None =>
      if negb (IsSuccessful response) || negb (readyForEndpointSecret resource) then st_ret (response, err)
      else
        let* err := on_world (syncEndpointSecret resource) in
        match err with
        | Some e => st_ret (unsuccessful, Some e)
        | None => st_ret (response, None)
        end
  end.

Definition endpoint_Delete : ST (R * W) (bool * option GoError) :=
  let* (deleted, err) := sc_Delete (esc_delegate c) in
  match err with
  | Some _ => st_ret (deleted, err)
  | None =>
      if negb deleted then st_ret (deleted, err)
      else
        let* resource := the_resource in
        let* err := on_world (deleteEndpointSecret resource) in
        match err with
        | Some e => st_ret (deleted, Some e)
        | None => st_ret (deleted, None)
        end
  end.
End Client.

(** ** JSON text of the endpoints ([json.Marshal]) *)

Definition unicode_escape (n : nat) : string :=
  String backslash ("u00" +++ String (hex_digit (n / 16)) (String (hex_digit (n mod 16)) EmptyString)).

(** One byte of a JSON string, with the escaping of [encoding/json] (HTML characters included). *)
Definition json_char (c : ascii) : string :=
  let n := nat_of_ascii c in
  if (n =? 34)%nat || (n =? 92)%nat then String backslash (String c EmptyString)
  else if (n =? 8)%nat then String backslash "b"
  else if (n =? 12)%nat then String backslash "f"
  else if (n =? 10)%nat then String backslash "n"
  else if (n =? 13)%nat then String backslash "r"
  else if (n =? 9)%nat then String backslash "t"
  else if (n <? 32)%nat || (n =? 38)%nat || (n =? 60)%nat || (n =? 62)%nat then unicode_escape n
  else String c EmptyString.

Fixpoint json_body (s : string) : string :=
  match s with
  | EmptyString => EmptyString
  | String c s' => json_char c +++ json_body s'
  end.

Definition json_string (s : string) : string := String dquote (json_body s +++ String dquote EmptyString).

(** Members [name: text] of an object; those omitted for being empty are [None]. *)
Definition json_object_text (members : list (string * option string)) : string :=
  "{" +++ Join (omap (fun '(name, text) => (fun t => json_string name +++ ":" +++ t) <$> text) members) "," +++ "}".

Definition json_array_text (items : list string) : string := "[" +++ Join items "," +++ "]".

Definition omit_string (s : string) : option string := if (s =? "")%string then None else Some (json_string s).
Definition omit_int (n : Z) : option string := if (n =? 0)%Z then None else Some (Itoa n).
Definition omit_strings (l : list string) : option string :=
  match l with [] => None | _ => Some (json_array_text (map json_string l)) end.

Record DbSystemEndpoint := mkDbSystemEndpoint {
  ep_IpAddress : string;
  ep_Port : Z;
  ep_PortX : Z;
  ep_Hostname : string;
  ep_Modes : list string;
  ep_Status : string;
  ep_StatusDetails : string;
  ep_ResourceType : string;
  ep_ResourceId : string
}.

Definition marshal_endpoint (e : DbSystemEndpoint) : string :=
  json_object_text
    [("ipAddress", omit_string (ep_IpAddress e)); ("port", omit_int (ep_Port e)); ("portX", omit_int (ep_PortX e));
     ("hostname", omit_string (ep_Hostname e)); ("modes", omit_strings (ep_Modes e));
     ("status", omit_string (ep_Status e)); ("statusDetails", omit_string (ep_StatusDetails e));
     ("resourceType", omit_string (ep_ResourceType e)); ("resourceId", omit_string (ep_ResourceId e))].

(** [json.Marshal(resource.Status.Endpoints)] cannot fail; a nil slice prints null. *)
Definition marshal_endpoints (endpoints : option (list DbSystemEndpoint)) : string :=
  match endpoints with
  | None => "null"
  | Some l => json_array_text (map marshal_endpoint l)
  end.

(** ** The three services *)

(** [conditions[len(conditions)-1].Type == shared.Active], after the test for the reason. *)
Definition last_condition_active (status : OSOKStatus) : bool :=
  match last (Conditions status) with
  | None => false
  | Some condition => (cond_Type condition =? Active)%string
  end.

Section Queue.
Context {R W : Type} `{!EndpointResource R} (MessagesEndpoint : R -> string) (c : EndpointSecretClient R W).

Definition queueReadyForEndpointSecret (resource : R) : bool :=
  if (TrimSpace (MessagesEndpoint resource) =? "")%string then false
  else if (Reason (res_OsokStatus resource) =? Active)%string then true
  else last_condition_active (res_OsokStatus resource).

Definition queueEndpointSecretData (resource : R) : result Data GoError :=
  if (TrimSpace (MessagesEndpoint resource) =? "")%string then Err (ErrText "queue messagesEndpoint is not available")
  else Ok {["endpoint" := MessagesEndpoint resource]}.

Definition queue_syncEndpointSecret (resource : R) : ST W (option GoError) :=
  with_secret_clients queueKind c (fun credentials reader mutator =>
    match endpointSecretLabels queueKind resource with
    | Err e => st_ret (Some e)
    | Ok ownerLabels =>
        match queueEndpointSecretData resource with
        | Err e => st_ret (Some e)
        | Ok data => syncDesiredEndpointSecret queueKind credentials reader mutator resource ownerLabels data
        end
    end).

Definition queueEndpointSecretClient : SvcClient R W :=
  mkSvcClient (endpoint_CreateOrUpdate c queueReadyForEndpointSecret queue_syncEndpointSecret)
    (endpoint_Delete queueKind c).
End Queue.

(** The fields of [streamingsdk.Stream] in use. *)
Record SdkStream := mkSdkStream { sdk_MessagesEndpoint : option string }.

Section Stream.
Context {R W : Type} `{!EndpointResource R}.
(** [loadStream]: a GetStream call of the SDK by OCID. *)
Context (loadStream : string -> ST W (result SdkStream GoError)) (c : EndpointSecretClient R W).

Definition streamReadyForEndpointSecret (resource : R) : bool :=
  if (Reason (res_OsokStatus resource) =? Active)%string then true
  else last_condition_active (res_OsokStatus resource).

Definition streamEndpointSecretData (stream : SdkStream) : result Data GoError :=
  match sdk_MessagesEndpoint stream with
  | None => Err (ErrText "stream messagesEndpoint is not available")
  | Some endpoint =>
      if (TrimSpace endpoint =? "")%string then Err (ErrText "stream messagesEndpoint is not available")
      else Ok {["endpoint" := endpoint]}
  end.

Definition stream_syncEndpointSecret (resource : R) : ST W (option GoError) :=
  with_secret_clients streamKind c (fun credentials reader mutator =>
    let streamID := Ocid (res_OsokStatus resource) in
    if (TrimSpace streamID =? "")%string
    then st_ret (Some (ErrText "stream endpoint secret sync requires a tracked stream OCID"))
    else
      match endpointSecretLabels streamKind resource with
      | Err e => st_ret (Some e)
      | Ok ownerLabels =>
          let* stream := loadStream streamID in
          match stream with
          | Err e => st_ret (Some e)
          | Ok stream =>
              match streamEndpointSecretData stream with
              | Err e => st_ret (Some e)
              | Ok data => syncDesiredEndpointSecret streamKind credentials reader mutator resource ownerLabels data
              end
          end
      end).

Definition streamEndpointSecretClient : SvcClient R W :=
  mkSvcClient (endpoint_CreateOrUpdate c streamReadyForEndpointSecret stream_syncEndpointSecret)
    (endpoint_Delete streamKind c).
End Stream.

(** The fields of [DbSystemStatus] in use. *)
Record DbSystemStatus := mkDbSystemStatus {
  ds_LifecycleState : string;
  ds_IpAddress : string;
  ds_AvailabilityDomain : string;
  ds_FaultDomain : string;
  ds_CurrentPlacement_AvailabilityDomain : string;
  ds_CurrentPlacement_FaultDomain : string;
  ds_HostnameLabel : string;
  ds_Port : Z;
  ds_PortX : Z;
  ds_Endpoints : option (list DbSystemEndpoint)
}.

Section DbSystem.
Context {R W : Type} `{!EndpointResource R} (dbStatus : R -> DbSystemStatus) (c : EndpointSecretClient R W).

Definition dbSystemReadyForEndpointSecret (resource : R) : bool :=
  if EqualFold (ds_LifecycleState (dbStatus resource)) "ACTIVE" then true
  else if (Reason (res_OsokStatus resource) =? Active)%string then true
  else last_condition_active (res_OsokStatus resource).

(** The first of two trimmed values that is not empty. *)
Definition trimmed_or (value fallback : string) : string :=
  let v := TrimSpace value in if (v =? "")%string then TrimSpace fallback else v.

Definition dbSystemEndpointSecretData (resource : R) : result Data GoError :=
  let status := dbStatus resource in
  let privateIP := TrimSpace (ds_IpAddress status) in
  if (privateIP =? "")%string then Err (ErrText "mysql dbsystem endpoint secret requires status.ipAddress")
  else
    let availabilityDomain := trimmed_or (ds_AvailabilityDomain status) (ds_CurrentPlacement_AvailabilityDomain status) in
    if (availabilityDomain =? "")%string
    then Err (ErrText "mysql dbsystem endpoint secret requires status.availabilityDomain")
    else if (ds_Port status <=? 0)%Z then Err (ErrText "mysql dbsystem endpoint secret requires status.port")
    else if (ds_PortX status <=? 0)%Z then Err (ErrText "mysql dbsystem endpoint secret requires status.portX")
    else
      let faultDomain := trimmed_or (ds_FaultDomain status) (ds_CurrentPlacement_FaultDomain status) in
      Ok (list_to_map [("PrivateIPAddress", privateIP); ("InternalFQDN", TrimSpace (ds_HostnameLabel status));
                       ("AvailabilityDomain", availabilityDomain); ("FaultDomain", faultDomain);
                       ("MySQLPort", Itoa (ds_Port status)); ("MySQLXProtocolPort", Itoa (ds_PortX status));
                       ("Endpoints", marshal_endpoints (ds_Endpoints status))]).

Definition dbSystem_syncEndpointSecret (resource : R) : ST W (option GoError) :=
  with_secret_clients dbSystemKind c (fun credentials reader mutator =>
    match endpointSecretLabels dbSystemKind resource with
    | Err e => st_ret (Some e)
    | Ok ownerLabels =>
        match dbSystemEndpointSecretData resource with
        | Err e => st_ret (Some e)
        | Ok desiredData => syncDesiredEndpointSecret dbSystemKind credentials reader mutator resource ownerLabels desiredData
        end
    end).

Definition dbSystemEndpointSecretClient : SvcClient R W :=
  mkSvcClient (endpoint_CreateOrUpdate c dbSystemReadyForEndpointSecret dbSystem_syncEndpointSecret)
    (endpoint_Delete dbSystemKind c).
End DbSystem.
