(* ===== verification/EndpointSafety.v ===== *)
(** * What the endpoint secret clients do to secrets

    Which secrets a sync or a delete may touch while other clients write to the
    cluster, what a successful sync leaves behind, when a second one is a no-op, and
    how the clients behave under the reconciler. *)

From stdpp Require Import gmap.
From S2P Require Import Prelude GoStrings Shared GoErrors GoValue AsyncStatus Reconciler ReconcilerSafety Secrets ServiceClients EndpointSecrets.
Local Open Scope string_scope.
Local Open Scope list_scope.
Local Open Scope go_scope.

(** ** A log of writes *)

(** A successful write with the secret it found: a ghost log around any API. *)
Inductive SecretWrite :=
| WroteCreate (after : Secret)
| WroteUpdate (before : option Secret) (after : Secret)
| WroteDelete (before : option Secret).

Section Logged.
Context {W : Type} (lookup : W -> string -> string -> option Secret).

Definition log_if (r : option GoError) (e : SecretWrite) (l : list SecretWrite) : list SecretWrite :=
  match r with None => l ++ [e] | Some _ => l end.

Definition logged_api (api : KubeAPI W) : KubeAPI (W * list SecretWrite) := {|
  k_Get n ns '(w, l) := let (r, w') := k_Get api n ns w in (r, (w', l));
  k_Create s '(w, l) := let (r, w') := k_Create api s w in (r, (w', log_if r (WroteCreate s) l));
  k_Update s '(w, l) := let (r, w') := k_Update api s w in
    (r, (w', log_if r (WroteUpdate (lookup w (s_Name s) (s_Namespace s)) s) l));
  k_Delete s pre '(w, l) := let (r, w') := k_Delete api s pre w in
    (r, (w', log_if r (WroteDelete (lookup w (s_Name s) (s_Namespace s))) l))
|}.

(** The credential value a manager gets, over the logged API. *)
Definition logged_value (api : KubeAPI W) (reader_api : option (KubeAPI W)) : CredentialValue (W * list SecretWrite) :=
  kubeSecretValue (logged_api api) (logged_api <$> reader_api).

Lemma logged_reader api reader_api : reader (logged_api api) (logged_api <$> reader_api) = logged_api (reader api reader_api).
Proof. by destruct reader_api. Qed.
End Logged.

(** ** Labels seen through the guarded comparison *)

Lemma secretLabelsEqual_lookup l r k v :
  secretLabelsEqual l r = true -> l !! k = Some v -> v <> "" -> r !! k = Some v.
Proof.
  rewrite secretLabelsEqual_DataEqual. unfold secretDataEqual. destruct (negb _); [done|].
  rewrite forallb_forall. intros H Hk Hv. specialize (H (k, v)).
  assert (Hd : (v =? default "" (r !! k))%string = true) by by apply H, list_elem_of_In, elem_of_map_to_list.
  apply String.eqb_eq in Hd. destruct (r !! k); simpl in *; congruence.
Qed.

(** What the comparison knows of the labels it accepts. *)
Lemma secretLabelsEqual_default l r : secretLabelsEqual l r = true ->
  size l = size r /\ forall k v, l !! k = Some v -> default "" (r !! k) = v.
Proof.
  unfold secretLabelsEqual. destruct (size l =? size r)%nat eqn:Es; cbn [negb]; [|done]. apply Nat.eqb_eq in Es.
  rewrite forallb_forall. intros H. split; [done|]. intros k v Hk.
  assert (Hd : negb (negb (default "" (r !! k) =? v)%string) = true).
  { apply (H (k, v)), list_elem_of_In, elem_of_map_to_list, Hk. }
  rewrite negb_involutive in Hd. by apply String.eqb_eq.
Qed.

(** Labels of the same number where the second has a key that the first lacks: the first has a key that the second lacks. *)
Lemma size_swap (l r : Labels) k : size l = size r -> l !! k = None -> is_Some (r !! k) -> exists k', is_Some (l !! k') /\ r !! k' = None.
Proof.
  intros Hs Hl Hr. destruct (set_choose_or_empty (dom l ∖ dom r)) as [[k' Hk]|He].
  - exists k'. rewrite elem_of_difference, elem_of_dom, not_elem_of_dom in Hk. done.
  - exfalso. assert (Hsub : dom l ∪ {[k]} ⊆ dom r).
    { apply union_subseteq. split; [|apply singleton_subseteq_l; by apply elem_of_dom].
      intros x Hx. destruct (decide (x ∈ dom r)); [done|]. set_solver. }
    apply subseteq_size in Hsub. rewrite size_union in Hsub; [|apply not_elem_of_dom in Hl; set_solver].
    rewrite size_singleton, !size_dom in Hsub. lia.
Qed.

(** A changed key among accepted labels hides behind a label with an empty value. *)
Lemma accepted_swap l r k : secretLabelsEqual l r = true -> l !! k = None -> is_Some (r !! k) ->
  exists k', l !! k' = Some "" /\ r !! k' = None.
Proof.
  intros [Hs Hd]%secretLabelsEqual_default Hl Hr. destruct (size_swap l r k Hs Hl Hr) as (k' & [v Hv] & Hn).
  exists k'. split; [|done]. pose proof (Hd k' v Hv) as E. rewrite Hn in E. simpl in E. by subst.
Qed.

Lemma default_label (l : Labels) k v : default "" (l !! k) = v -> v <> "" -> l !! k = Some v.
Proof. destruct (l !! k); simpl; congruence. Qed.

(** Equality with desired data means the same data, none of it empty. *)
Lemma recordDataDeepEqual_spec recordData desired :
  recordDataDeepEqual recordData desired = true <-> recordData = desired /\ forall k v, desired !! k = Some v -> v <> "".
Proof.
  unfold recordDataDeepEqual. rewrite bool_decide_eq_true. split.
  - intros H.
    assert (Hk : forall k, cloned_bytes <$> recordData !! k = Some <$> desired !! k)
      by (intros k; by rewrite <-!lookup_fmap, H).
    split.
    + apply map_eq. intros k. specialize (Hk k). unfold cloned_bytes in Hk.
      destruct (recordData !! k) as [v|], (desired !! k) as [v'|]; simpl in Hk; try done.
      destruct (v =? "")%string; congruence.
    + intros k v Hd ->. specialize (Hk k). rewrite Hd in Hk. unfold cloned_bytes in Hk.
      destruct (recordData !! k) as [v|]; simpl in Hk; [|done]. destruct (v =? "")%string eqn:E; [done|].
      injection Hk as ->. done.
  - intros [-> Hne]. apply map_eq. intros k. rewrite !lookup_fmap. destruct (desired !! k) as [v|] eqn:E; [|done].
    simpl. apply Hne in E. apply String.eqb_neq in E. unfold cloned_bytes. by rewrite E.
Qed.

Lemma mergeEndpointSecretLabels_one existing k v :
  mergeEndpointSecretLabels existing {[k := v]} = <[k := v]> existing.
Proof. unfold mergeEndpointSecretLabels. rewrite map_fold_singleton. by rewrite map_fold_copy. Qed.

Lemma endpointSecretOwnerUID_ok {R} `{!EndpointResource R} kind (resource : R) uid :
  endpointSecretOwnerUID kind resource = Ok uid -> uid = TrimSpace (res_UID resource) /\ uid <> "".
Proof. unfold endpointSecretOwnerUID. destruct (_ =? "")%string eqn:E; [done|]. bool_prop. by intros [= <-]. Qed.

(** ** Writes under interference *)

Section Interference.
Context {W : Type} (api : KubeAPI W) (reader_api : option (KubeAPI W)).
Context (lookup : W -> string -> string -> option Secret) (version : W -> Secret -> Prop).
Context `{!KubeLaws api reader_api lookup version}.
Local Abbreviation lapi := (logged_api lookup api).
Local Abbreviation lreader := (logged_api lookup <$> reader_api).

(** A guarded update logs at most one write, of the recorded secret. *)
Lemma guarded_update_logged n ns current labels data w l a w' l' :
  UpdateSecretIfCurrent lapi lreader n ns current labels data (w, l) = (a, (w', l')) ->
  l' = l \/ exists s, l' = l ++ [WroteUpdate (Some s) (mkSecret n ns (s_UID s) (s_ResourceVersion s)
                                   (default (s_Labels s) labels) data)] /\ record_of s current.
Proof.
  unfold UpdateSecretIfCurrent, st_bind, getSecretObject. rewrite logged_reader. cbn [k_Get logged_api].
  destruct (k_Get (reader api reader_api) n ns w) as [[s|e] w1] eqn:Eg; [|intros [= <- <- <-]; by left].
  destruct (validateSecretIdentity n ns current (Some s)) as [e|] eqn:Ev; [intros [= <- <- <-]; by left|].
  unfold updateSecretObject, api_Update. cbn [k_Update logged_api].
  destruct (k_Update api _ w1) as [r w2] eqn:Eu. destruct r as [e|]; intros [= <- <- <-]; [by left|right].
  destruct (kl_get _ _ _ _ n ns w s w1 Eg) as (<- & <- & Hv). exists s.
  assert (Hl : lookup w1 (s_Name s) (s_Namespace s) = Some s).
  { eapply (updateSecretObject_exact api reader_api lookup version w1 s labels data w2 Hv).
    unfold updateSecretObject, api_Update. by rewrite Eu. }
  cbn [s_Name s_Namespace]. rewrite Hl. split; [by destruct labels|]. by eapply validateSecretIdentity_ok.
Qed.

Lemma guarded_delete_logged n ns current w l a w' l' :
  DeleteSecretIfCurrent lapi lreader n ns current (w, l) = (a, (w', l')) ->
  l' = l \/ exists s, l' = l ++ [WroteDelete (Some s)] /\ record_of s current /\ s_Name s = n /\ s_Namespace s = ns.
Proof.
  unfold DeleteSecretIfCurrent, st_bind, getSecretObject. rewrite logged_reader. cbn [k_Get logged_api].
  destruct (k_Get (reader api reader_api) n ns w) as [[s|e] w1] eqn:Eg; [|intros [= <- <- <-]; by left].
  destruct (validateSecretIdentity n ns current (Some s)) as [e|] eqn:Ev; [intros [= <- <- <-]; by left|].
  unfold deleteSecretObject, api_Delete. cbn [k_Delete logged_api].
  destruct (k_Delete api _ _ w1) as [r w2] eqn:Eu. destruct r as [e|]; intros [= <- <- <-]; [by left|right].
  destruct (kl_get _ _ _ _ n ns w s w1 Eg) as (<- & <- & Hv). exists s.
  assert (Hl : lookup w1 (s_Name s) (s_Namespace s) = Some s).
  { eapply (deleteSecretObject_exact api reader_api lookup version w1 s w2 Hv).
    unfold deleteSecretObject, api_Delete. by rewrite Eu. }
  rewrite Hl. split_and!; [done| |done|done]. by eapply validateSecretIdentity_ok.
Qed.

(** A read logs nothing and records a version. *)
Lemma record_read n ns w l rec err w' l' :
  GetSecretRecord lapi lreader n ns (w, l) = (Ret (rec, err), (w', l')) ->
  l' = l /\ (err = None -> exists s, version w' s /\ rec = mkSecretRecord (s_UID s) (s_Labels s) (s_Data s)).
Proof.
  unfold GetSecretRecord, st_bind, getSecretObject. rewrite logged_reader. cbn [k_Get logged_api].
  destruct (k_Get (reader api reader_api) n ns w) as [[s|e] w1] eqn:Eg; intros [= <- <- <- <-]; (split; [done|]); [|done].
  intros _. destruct (kl_get _ _ _ _ n ns w s w1 Eg) as (_ & _ & Hv). exists s. split; [done|].
  unfold cloneLabels, cloneSecretData. by rewrite !map_fold_copy.
Qed.

Context {R : Type} `{!EndpointResource R} (kind : EndpointKind).

(** A version of the secret that was read before the write, named no owner, and had a label with an empty value that the secret
    has lost since: the comparison of labels takes a missing label for an empty one. *)
Definition lost_empty_label (s : Secret) : Prop :=
  exists w read k, version w read /\ TrimSpace (s_UID read) = TrimSpace (s_UID s) /\
    TrimSpace (default "" (s_Labels read !! ek_label kind)) = "" /\ s_Labels read !! k = Some "" /\ s_Labels s !! k = None.

(** The writes a sync of a resource may make: it creates the secret with the owner label, overwrites
    a secret that carries the owner's UID, or adopts one that already holds the data and names no owner (or
    lost an empty label since it was read without one); every write leaves the owner's UID on it. *)
Definition write_allowed (resource : R) (write : SecretWrite) : Prop :=
  let uid := TrimSpace (res_UID resource) in
  let here s := s_Name s = res_Name resource /\ s_Namespace s = res_Namespace resource /\
                s_Labels s !! ek_label kind = Some uid in
  match write with
  | WroteCreate after => here after
  | WroteUpdate before after =>
      here after /\ exists s, before = Some s /\ s_UID after = s_UID s /\
        (s_Labels s !! ek_label kind = Some uid \/
         (s_Data after = s_Data s /\
          (TrimSpace (default "" (s_Labels s !! ek_label kind)) = "" \/ lost_empty_label s)))
  | WroteDelete _ => False
  end.

Local Abbreviation mutator := (mkGuardedSecretMutator (DeleteSecretIfCurrent lapi lreader) (UpdateSecretIfCurrent lapi lreader)).
Local Abbreviation record_reader := (mkSecretRecordReader (GetSecretRecord lapi lreader)).
Local Abbreviation allowed resource l l' := (exists l1, l' = l ++ l1 /\ Forall (write_allowed resource) l1).

Lemma allowed_refl resource l : allowed resource l l.
Proof. exists []. by rewrite app_nil_r. Qed.
Lemma allowed_trans resource l l1 l2 : allowed resource l l1 -> allowed resource l1 l2 -> allowed resource l l2.
Proof. intros (k1 & -> & H1) (k2 & -> & H2). exists (k1 ++ k2). rewrite app_assoc. by split; [|apply Forall_app]. Qed.

Lemma error_of_run {X} (m : ST X (bool * option GoError)) s a s' :
  error_of m s = (a, s') -> exists b, m s = (b, s').
Proof. unfold error_of, st_bind. destruct (m s) as [[[b e]|] s1]; intros [= <- <-]; eauto. Qed.

Lemma syncExisting_allowed resource s w0 data w l a w' l' :
  version w0 s ->
  syncExistingEndpointSecret kind mutator resource (mkSecretRecord (s_UID s) (s_Labels s) (s_Data s)) data (w, l) = (a, (w', l')) ->
  allowed resource l l'.
Proof.
  intros Hv. unfold syncExistingEndpointSecret, ownsEndpointSecret, legacyEndpointSecretAdoptionLabels, endpointSecretLabels.
  cbn [sr_Labels sr_Data]. destruct (endpointSecretOwnerUID kind resource) as [uid|e] eqn:Eu;
    [|intros [= <- <- <-]; apply allowed_refl].
  apply endpointSecretOwnerUID_ok in Eu as [-> Hne]. destruct (_ =? TrimSpace _)%string eqn:Eo.
  - bool_prop. apply default_label in Eo; [|done]. destruct (recordDataDeepEqual _ _); [intros [= <- <- <-]; apply allowed_refl|].
    intros (b & Hup)%error_of_run. apply guarded_update_logged in Hup as [->|(s1 & -> & Hr)]; [apply allowed_refl|].
    eexists. split; [done|]. apply Forall_singleton. destruct Hr as (_ & _ & Hl & _). cbn [sr_Labels] in Hl.
    pose proof (secretLabelsEqual_lookup _ _ _ _ Hl Eo Hne) as Hs1. repeat split; simpl; try done.
    exists s1. auto.
  - destruct (TrimSpace (default "" _) =? "")%string eqn:Et; cbn [negb]; [|intros [= <- <- <-]; apply allowed_refl].
    destruct (recordDataDeepEqual _ _) eqn:Ed; cbn [negb]; [|intros [= <- <- <-]; apply allowed_refl].
    intros (b & Hup)%error_of_run. apply guarded_update_logged in Hup as [->|(s1 & -> & Hr)]; [apply allowed_refl|].
    eexists. split; [done|]. apply Forall_singleton. destruct Hr as (Huid & _ & Hl & Hd). cbn [sr_UID sr_Labels sr_Data] in Huid, Hl, Hd.
    apply recordDataDeepEqual_spec in Ed as [Ed Hset]. apply secretDataEqual_eq in Hd; [|by rewrite Ed].
    bool_prop. rewrite mergeEndpointSecretLabels_one. repeat split; simpl; try done; [by rewrite lookup_insert_eq|].
    exists s1. split_and!; [done|done|]. right. split; [congruence|].
    destruct (s_Labels s !! ek_label kind) as [v|] eqn:Ev.
    + left. apply secretLabelsEqual_default in Hl as [_ Hl]. by rewrite (Hl _ _ Ev).
    + destruct (s_Labels s1 !! ek_label kind) as [v|] eqn:E1; [right|by left].
      destruct (accepted_swap _ _ _ Hl Ev) as (k & Hk & Hk'); [by rewrite E1|].
      exists w0, s, k. rewrite Ev. by split_and!.
Qed.

Lemma syncDesired_allowed resource data labels w l a w' l' :
  endpointSecretLabels kind resource = Ok labels ->
  syncDesiredEndpointSecret kind (kubeSecretClient lapi lreader) record_reader mutator resource labels data (w, l) = (a, (w', l')) ->
  allowed resource l l'.
Proof.
  intros Hlab. unfold syncDesiredEndpointSecret, createEndpointSecret, st_bind. cbn [rr_GetSecretRecord].
  destruct (GetSecretRecord _ _ _ _ (w, l)) as [[[rec err]|] [w1 l1]] eqn:Eg;
    [|unfold GetSecretRecord, st_bind, getSecretObject in Eg; repeat case_hyp Eg; simplify_eq].
  apply record_read in Eg as [-> Hrec]. destruct err as [e|].
  - destruct (k8s_IsNotFound e); cbn [negb]; [|intros [= <- <- <-]; apply allowed_refl].
    cbn [cc_CreateSecret kubeSecretClient]. unfold CreateSecret, st_bind, api_Create. cbn [k_Create logged_api].
    destruct (k_Create api _ w1) as [[e'|] w2] eqn:Ec; cbn [st_ret log_if].
    + destruct (k8s_IsAlreadyExists e'); [|intros [= <- <- <-]; apply allowed_refl].
      destruct (GetSecretRecord _ _ _ _ (w2, l)) as [[[rec2 err2]|] [w3 l3]] eqn:Eg;
        [|unfold GetSecretRecord, st_bind, getSecretObject in Eg; repeat case_hyp Eg; simplify_eq].
      apply record_read in Eg as [-> Hrec2].
      destruct err2 as [e2|]; [intros [= <- <- <-]; apply allowed_refl|].
      destruct Hrec2 as (s & Hv & ->); [done|]. by apply (syncExisting_allowed resource s w3).
    + intros [= <- <- <-]. eexists. split; [done|]. apply Forall_singleton. unfold endpointSecretLabels in Hlab.
      destruct (endpointSecretOwnerUID kind resource) as [uid|] eqn:Eu; [|done]. injection Hlab as <-.
      apply endpointSecretOwnerUID_ok in Eu as [-> _]. simpl. by rewrite lookup_singleton_eq.
  - destruct Hrec as (s & Hv & ->); [done|]. by apply (syncExisting_allowed resource s w1).
Qed.
End Interference.

(** A step on the world that leaves the log alone. *)
Definition unlogged {W A} (m : ST W A) : ST (W * list SecretWrite) A :=
  fun '(w, l) => let (a, w') := m w in (a, (w', l)).

Ltac no_writes := try (by apply Forall_nil_2).

(** C12. Endpoint secrets respect ownership under concurrency: whatever other clients write between
    the calls, every secret that a sync of a queue, stream or DB system creates or overwrites carries
    the resource's UID afterwards, and what it overwrites carried that UID before or, when a legacy
    secret is adopted, held exactly the data written and named no owner; nothing is deleted.  The one gap is the comparison of
    labels before an adoption, which takes a missing label for an empty one: a secret that was read with an empty-valued label and
    without an owner, and then lost that label, may be adopted although it has been given an owner in between.  Assumed of the API
    server ([KubeLaws]): a read (fresh or cached) returns some version it has stored, a version is determined by its UID
    and resource version, and a write with a resource version succeeds only on that version. *)
Theorem endpoint_sync_respects_owners {W} (api : KubeAPI W) (reader_api : option (KubeAPI W))
  (lookup : W -> string -> string -> option Secret) (version : W -> Secret -> Prop)
  (laws : KubeLaws api reader_api lookup version)
  {R} `{!EndpointResource R} (delegate : SvcClient R (W * list SecretWrite)) (resource : R) (w : W)
  (MessagesEndpoint : R -> string) (dbStatus : R -> DbSystemStatus) (loadStream : string -> ST W (result SdkStream GoError)) :
  let c := newEndpointSecretClient (Some (logged_value lookup api reader_api)) delegate in
  let writes (sync : ST (W * list SecretWrite) (option GoError)) := snd (snd (sync (w, []))) in
  Forall (write_allowed version queueKind resource) (writes (queue_syncEndpointSecret MessagesEndpoint c resource)) /\
  Forall (write_allowed version streamKind resource) (writes (stream_syncEndpointSecret (fun id => unlogged (loadStream id)) c resource)) /\
  Forall (write_allowed version dbSystemKind resource) (writes (dbSystem_syncEndpointSecret dbStatus c resource)).
Proof.
  intros c writes. unfold writes. split_and!.
  - unfold queue_syncEndpointSecret, with_secret_clients. simpl.
    destruct (endpointSecretLabels queueKind resource) as [labels|] eqn:El; no_writes.
    destruct (queueEndpointSecretData _ _) as [data|]; no_writes.
    destruct (syncDesiredEndpointSecret _ _ _ _ _ _ _ _) as [a [w' l']] eqn:Es.
    by eapply syncDesired_allowed in Es as (l1 & -> & H).
  - unfold stream_syncEndpointSecret, with_secret_clients, st_bind, unlogged. simpl.
    destruct (TrimSpace _ =? "")%string; no_writes.
    destruct (endpointSecretLabels streamKind resource) as [labels|] eqn:El; no_writes.
    destruct (loadStream _ w) as [[[stream|]|] w1]; no_writes.
    destruct (streamEndpointSecretData _) as [data|]; no_writes.
    destruct (syncDesiredEndpointSecret _ _ _ _ _ _ _ _) as [a [w' l']] eqn:Es.
    by eapply syncDesired_allowed in Es as (l1 & -> & H).
  - unfold dbSystem_syncEndpointSecret, with_secret_clients. simpl.
    destruct (endpointSecretLabels dbSystemKind resource) as [labels|] eqn:El; no_writes.
    destruct (dbSystemEndpointSecretData _ _) as [data|]; no_writes.
    destruct (syncDesiredEndpointSecret _ _ _ _ _ _ _ _) as [a [w' l']] eqn:Es.
    by eapply syncDesired_allowed in Es as (l1 & -> & H).
Qed.

(** ** Reads without interference *)

(** The error of a read, and nothing else. *)
Definition read_error {A} (r : result A GoError) : option GoError := match r with Ok _ => None | Err e => Some e end.

Section Reads.
Context {W : Type} (api : KubeAPI W) (lookup : W -> string * string -> option Secret).

Lemma record_sequential `{!KubeSequential api lookup} n ns w rec err w' :
  GetSecretRecord api None n ns w = (Ret (rec, err), w') ->
  (forall k, lookup w' k = lookup w k) /\ exists r, k_Get api n ns w = (r, w') /\ read_error r = err /\
  match err with
  | None => exists s, lookup w (n, ns) = Some s /\ rec = mkSecretRecord (s_UID s) (s_Labels s) (s_Data s)
  | Some e => k8s_IsNotFound e = true -> lookup w (n, ns) = None
  end.
Proof.
  unfold GetSecretRecord, st_bind, getSecretObject, reader.
  destruct (k_Get api n ns w) as [r w1] eqn:Eg. pose proof (ks_get api lookup _ _ _ _ _ Eg) as [Hsame Hr].
  destruct r as [s|e]; intros [= <- <- <-]; (split; [done|]); (eexists; split_and!; [done|done|]).
  - exists s. destruct Hr as (Hl & _). split; [done|]. unfold cloneLabels, cloneSecretData. by rewrite !map_fold_copy.
  - intros He. apply Hr. unfold IsSecretNotFoundError. by rewrite He.
Qed.

Lemma GetSecretRecord_returns n ns w : exists rec err w', GetSecretRecord api None n ns w = (Ret (rec, err), w').
Proof. unfold GetSecretRecord, st_bind, getSecretObject. destruct (k_Get _ n ns w) as [[s|e] w1]; do 3 eexists; reflexivity. Qed.
End Reads.

(** ** What a sync leaves behind *)

Section Store.
Context {W : Type} (api : KubeAPI W) (lookup : W -> string * string -> option Secret).

(** The API server without interference, labels and identities included. *)
Class KubeStore : Prop := {
  st_sequential :: KubeSequential api lookup;
  st_create s w w' : k_Create api s w = (None, w') ->
    exists s', lookup w' (s_Name s, s_Namespace s) = Some s' /\ s_Labels s' = s_Labels s /\ s_Data s' = s_Data s;
  st_update s w r w' : k_Update api s w = (r, w') ->
    match r with
    | None => exists s', s_Labels s' = s_Labels s /\ s_Data s' = s_Data s /\
        forall k, lookup w' k = if decide (k = (s_Name s, s_Namespace s)) then Some s' else lookup w k
    | Some e => forall k, lookup w' k = lookup w k
    end
}.
Context `{!KubeStore}.

Context {R : Type} `{!EndpointResource R} (kind : EndpointKind) (resource : R).
Local Abbreviation key := (res_Name resource, res_Namespace resource).
Local Abbreviation mutator := (mkGuardedSecretMutator (DeleteSecretIfCurrent api None) (UpdateSecretIfCurrent api None)).
Local Abbreviation record_reader := (mkSecretRecordReader (GetSecretRecord api None)).

(** The secret of the resource is stored, owned by it, with the given data. *)
Definition secret_synced (data : Data) (w : W) : Prop :=
  exists s, lookup w key = Some s /\ s_Labels s !! ek_label kind = Some (TrimSpace (res_UID resource)) /\ s_Data s = data.

Definition others_kept (w w' : W) : Prop := forall k, k <> key -> lookup w' k = lookup w k.

Lemma update_sequential current labels data w b w' :
  UpdateSecretIfCurrent api None (res_Name resource) (res_Namespace resource) current labels data w = (Ret (b, None), w') ->
  exists s0 s', lookup w key = Some s0 /\ lookup w' key = Some s' /\ s_Labels s' = default (s_Labels s0) labels /\
    s_Data s' = data /\ others_kept w w'.
Proof.
  unfold UpdateSecretIfCurrent, st_bind, getSecretObject, reader.
  destruct (k_Get api _ _ w) as [[s|e] w1] eqn:Eg; [|done]. apply (ks_get api lookup) in Eg as (Hsame & Hl & Hn & Hns).
  destruct (validateSecretIdentity _ _ _ _); [done|]. unfold updateSecretObject, api_Update.
  destruct (k_Update api _ w1) as [[e|] w2] eqn:Eu; [done|]. intros [= _ <-]. apply st_update in Eu as (s' & Hs & Hd & Hch).
  cbn [s_Name s_Namespace s_Labels s_Data] in *. rewrite Hn, Hns in Hch. exists s, s'. split_and!; try done.
  - rewrite Hch. by decide_goal.
  - intros k Hk. rewrite Hch. decide_goal; [done|]. apply Hsame.
Qed.

Lemma error_of_none {X} (m : ST X (bool * option GoError)) s s' :
  error_of m s = (Ret None, s') -> exists b, m s = (Ret (b, None), s').
Proof. unfold error_of, st_bind. destruct (m s) as [[[b e]|] s1]; intros [= -> ->]; eauto. Qed.

Lemma syncExisting_sequential data w w' s :
  lookup w key = Some s ->
  syncExistingEndpointSecret kind mutator resource (mkSecretRecord (s_UID s) (s_Labels s) (s_Data s)) data w = (Ret None, w') ->
  secret_synced data w' /\ others_kept w w'.
Proof.
  intros Hs. unfold syncExistingEndpointSecret, ownsEndpointSecret, legacyEndpointSecretAdoptionLabels, endpointSecretLabels.
  cbn [sr_Labels sr_Data]. destruct (endpointSecretOwnerUID kind resource) as [uid|e] eqn:Eu; [|done].
  apply endpointSecretOwnerUID_ok in Eu as [-> Hne]. destruct (_ =? TrimSpace _)%string eqn:Eo.
  - bool_prop. apply default_label in Eo; [|done]. destruct (recordDataDeepEqual _ _) eqn:Ed.
    + intros [= <-]. apply recordDataDeepEqual_spec in Ed as [Ed _]. by split; [exists s|].
    + intros (b & (s0 & s' & H0 & H' & Hl & Hd & Hk)%update_sequential)%error_of_none.
      split; [|done]. exists s'. split_and!; [done| |done]. rewrite Hl. simpl. congruence.
  - destruct (negb _); [done|]. destruct (recordDataDeepEqual _ _) eqn:Ed; [|done]. cbn [negb].
    intros (b & (s0 & s' & H0 & H' & Hl & Hd & Hk)%update_sequential)%error_of_none.
    split; [|done]. exists s'. split_and!; [done| |done]. rewrite Hl. simpl.
    by rewrite mergeEndpointSecretLabels_one, lookup_insert_eq.
Qed.

Lemma syncDesired_sequential labels data w w' :
  endpointSecretLabels kind resource = Ok labels ->
  syncDesiredEndpointSecret kind (kubeSecretClient api None) record_reader mutator resource labels data w = (Ret None, w') ->
  secret_synced data w' /\ others_kept w w'.
Proof.
  intros Hlab. unfold syncDesiredEndpointSecret, createEndpointSecret, st_bind. cbn [rr_GetSecretRecord].
  destruct (GetSecretRecord_returns api (res_Name resource) (res_Namespace resource) w) as (rec & err & w1 & Hg).
  rewrite Hg. apply (record_sequential api lookup) in Hg as (Hsame & r & _ & _ & Hrec). destruct err as [e|].
  - destruct (k8s_IsNotFound e); [|done]. cbn [negb cc_CreateSecret kubeSecretClient].
    unfold CreateSecret, st_bind, api_Create. destruct (k_Create api _ w1) as [[e'|] w2] eqn:Ec; cbn [st_ret].
    + pose proof (ks_create api lookup _ _ _ _ Ec) as [Hsame2 _]. destruct (k8s_IsAlreadyExists e'); [|done].
      destruct (GetSecretRecord_returns api (res_Name resource) (res_Namespace resource) w2) as (rec2 & err2 & w3 & Hg).
      rewrite Hg. apply (record_sequential api lookup) in Hg as (Hsame3 & _ & _ & _ & Hrec2). destruct err2 as [e2|]; [done|].
      destruct Hrec2 as (s & Hl & ->). intros [Hsy Hk]%syncExisting_sequential; [|by rewrite Hsame3].
      split; [done|]. intros k Hne. by rewrite Hk, Hsame3, Hsame2, Hsame.
    + intros [= <-]. pose proof (st_create _ _ _ Ec) as (s' & Hl & Hs & Hd).
      pose proof (ks_create api lookup _ _ _ _ Ec) as (_ & s2 & _ & Hch). cbn [s_Name s_Namespace s_Labels s_Data] in *.
      unfold endpointSecretLabels in Hlab. destruct (endpointSecretOwnerUID kind resource) as [uid|] eqn:Eu; [|done].
      injection Hlab as <-. apply endpointSecretOwnerUID_ok in Eu as [-> _]. split.
      * exists s'. split_and!; [done| |done]. by rewrite Hs, lookup_singleton_eq.
      * intros k Hne. rewrite Hch. decide_goal; [done|]. apply Hsame.
  - destruct Hrec as (s & Hl & ->). intros [Hsy Hk]%syncExisting_sequential; [|by rewrite Hsame].
    split; [done|]. intros k Hne. by rewrite Hk, Hsame.
Qed.

(** On a synced secret without empty values a sync is one read. *)
Lemma syncDesired_settled uid data w r w' :
  endpointSecretOwnerUID kind resource = Ok uid -> (forall k v, data !! k = Some v -> v <> "") ->
  secret_synced data w -> k_Get api (res_Name resource) (res_Namespace resource) w = (r, w') ->
  syncDesiredEndpointSecret kind (kubeSecretClient api None) record_reader mutator resource {[ek_label kind := uid]} data w =
    (Ret (read_error r), w').
Proof.
  intros Hu Hne (s & Hl & Hlab & Hd) Hget. unfold syncDesiredEndpointSecret, st_bind. cbn [rr_GetSecretRecord].
  destruct (GetSecretRecord_returns api (res_Name resource) (res_Namespace resource) w) as (rec & err & w1 & Hg).
  rewrite Hg. apply (record_sequential api lookup) in Hg as (_ & r1 & Hg & Her & Hrec). rewrite Hget in Hg. injection Hg as <- <-.
  rewrite Her. destruct err as [e|].
  - destruct (k8s_IsNotFound e) eqn:En; [|done]. rewrite Hrec in Hl; done.
  - destruct Hrec as (s1 & Hl1 & ->). rewrite Hl in Hl1. injection Hl1 as <-.
    unfold syncExistingEndpointSecret, ownsEndpointSecret. rewrite Hu. cbn [sr_Labels sr_Data]. rewrite Hlab. cbn [default].
    apply endpointSecretOwnerUID_ok in Hu as [-> _]. rewrite String.eqb_refl.
    assert (Hde : recordDataDeepEqual (s_Data s) data = true) by by apply recordDataDeepEqual_spec. by rewrite Hde.
Qed.
End Store.

Lemma endpointSecretLabels_ok {R} `{!EndpointResource R} kind (resource : R) labels :
  endpointSecretLabels kind resource = Ok labels ->
  exists uid, endpointSecretOwnerUID kind resource = Ok uid /\ labels = {[ek_label kind := uid]}.
Proof. unfold endpointSecretLabels. destruct (endpointSecretOwnerUID kind resource); [intros [= <-]; eauto|done]. Qed.

(** A queue's endpoint secret settles: when a sync succeeds against a server without interference,
    the secret of the queue is stored with the queue's UID and the endpoint as its only data, no other secret
    has changed, and the next sync is a single read: it writes nothing. *)
Theorem queue_endpoint_secret_settles {W} (api : KubeAPI W) (lookup : W -> string * string -> option Secret)
  (store : KubeStore api lookup) {R} `{!EndpointResource R} (delegate : SvcClient R W) (MessagesEndpoint : R -> string)
  (resource : R) w w' r w'' :
  let c := newEndpointSecretClient (Some (kubeSecretValue api None)) delegate in
  queue_syncEndpointSecret MessagesEndpoint c resource w = (Ret None, w') ->
  k_Get api (res_Name resource) (res_Namespace resource) w' = (r, w'') ->
  secret_synced lookup queueKind resource {["endpoint" := MessagesEndpoint resource]} w' /\
  others_kept lookup resource w w' /\
  queue_syncEndpointSecret MessagesEndpoint c resource w' = (Ret (read_error r), w'').
Proof.
  intros c. unfold queue_syncEndpointSecret, with_secret_clients, queueEndpointSecretData. simpl.
  destruct (endpointSecretLabels queueKind resource) as [labels|e] eqn:El; [|done].
  destruct (TrimSpace (MessagesEndpoint resource) =? "")%string eqn:Ee; [done|]. intros Hrun Hget.
  pose proof (syncDesired_sequential api lookup queueKind resource labels _ w w' El Hrun) as [Hsy Hk].
  split_and!; [done|done|]. apply endpointSecretLabels_ok in El as (uid & Hu & ->).
  apply (syncDesired_settled api lookup queueKind); try done.
  intros k v Hkv ->. apply lookup_singleton_Some in Hkv as [_ Hv]. by rewrite Hv in Ee.
Qed.

(** A DB system without a hostname label or a fault domain never settles: its data has an empty value,
    which no record equals, so every sync of the secret it owns writes it again, and a secret
    without an owner is refused even when it holds exactly that data. *)
Theorem dbsystem_secret_never_settles {R W} `{!EndpointResource R} (dbStatus : R -> DbSystemStatus) (resource : R)
  (mutator : GuardedSecretMutator W) (record : SecretRecord) (data : Data) (w : W) :
  dbSystemEndpointSecretData dbStatus resource = Ok data -> TrimSpace (res_UID resource) <> "" ->
  TrimSpace (ds_HostnameLabel (dbStatus resource)) = "" \/
  trimmed_or (ds_FaultDomain (dbStatus resource)) (ds_CurrentPlacement_FaultDomain (dbStatus resource)) = "" ->
  (default "" (sr_Labels record !! dbSystemEndpointSecretOwnerUIDLabel) = TrimSpace (res_UID resource) ->
   syncExistingEndpointSecret dbSystemKind mutator resource record data w =
     error_of (gm_UpdateSecretIfCurrent mutator (res_Name resource) (res_Namespace resource) record None data) w) /\
  (default "" (sr_Labels record !! dbSystemEndpointSecretOwnerUIDLabel) <> TrimSpace (res_UID resource) ->
   exists e, syncExistingEndpointSecret dbSystemKind mutator resource record data w = (Ret (Some e), w)).
Proof.
  intros Hdata Huid Hempty.
  assert (Hd : recordDataDeepEqual (sr_Data record) data = false).
  { apply not_true_iff_false. rewrite recordDataDeepEqual_spec. intros [_ Hne].
    unfold dbSystemEndpointSecretData in Hdata. repeat case_hyp Hdata; try done. injection Hdata as <-.
    destruct Hempty as [He|He]; rewrite He in Hne.
    - by apply (Hne "InternalFQDN" "").
    - by apply (Hne "FaultDomain" ""). }
  unfold syncExistingEndpointSecret, ownsEndpointSecret, endpointSecretOwnerUID, legacyEndpointSecretAdoptionLabels.
  pose proof Huid as Hu. apply String.eqb_neq in Huid. rewrite Huid, Hd. cbn [negb ek_label dbSystemKind]. split.
  - intros ->. by rewrite String.eqb_refl.
  - intros Hno%String.eqb_neq. rewrite Hno. destruct (negb _); eauto.
Qed.

(** ** Deletes *)

(** An error that carries no OCI code: it never confirms a delete. *)
Definition not_oci (e : GoError) : Prop := as_service e = None /\ structuredOCIErrorFields e = None.

Lemma not_oci_unconfirmed d e : not_oci e -> delete_confirmed (d, Some e) = false.
Proof. intros [Hs Hf]. unfold delete_confirmed. simpl. rewrite Hs. simpl. by rewrite Hf. Qed.

Lemma validateSecretIdentity_not_oci n ns current s e : validateSecretIdentity n ns current s = Some e -> not_oci e.
Proof. unfold validateSecretIdentity. repeat case_goal; intros [= <-]; done. Qed.

(** Errors of the Kubernetes API carry no OCI code. *)
Class KubeErrors {W} (api : KubeAPI W) (reader_api : option (KubeAPI W)) : Prop := {
  ke_get n ns w e w' : k_Get (reader api reader_api) n ns w = (Err e, w') -> not_oci e;
  ke_delete s pre w e w' : k_Delete api s pre w = (Some e, w') -> not_oci e
}.

(** What a finished delete of an endpoint secret was answered, whatever the server holds: the read reported no secret, or one of
    another owner, or one of this owner that the guarded delete then removed or was told is missing. *)
Section Answers.
Context {W : Type} (api : KubeAPI W) (reader_api : option (KubeAPI W)).
Context {R : Type} `{!EndpointResource R} (kind : EndpointKind) (resource : R) (delegate : SvcClient R W).
Local Abbreviation owned s := (s_Labels s !! ek_label kind = Some (TrimSpace (res_UID resource))).
Local Abbreviation read w := (k_Get (reader api reader_api) (res_Name resource) (res_Namespace resource) w).

Definition missing (err : option GoError) : Prop := match err with None => True | Some e => k8s_IsNotFound e = true end.

Definition secret_let_go (w : W) : Prop :=
  match read w with
  | (Err e, _) => k8s_IsNotFound e = true
  | (Ok s, w1) =>
      ~ owned s \/
      match read w1 with
      | (Err e, _) => k8s_IsNotFound e = true
      | (Ok s2, w2) => record_of s2 (mkSecretRecord (s_UID s) (s_Labels s) (s_Data s)) /\
          missing (fst (k_Delete api s2 (delete_preconditions s2) w2))
      end
  end.

Lemma deleteEndpointSecret_answers `{!KubeErrors api reader_api} w err w' :
  deleteEndpointSecret kind (newEndpointSecretClient (Some (kubeSecretValue api reader_api)) delegate) resource w = (Ret err, w') ->
  (err = None -> secret_let_go w) /\ (forall e, err = Some e -> not_oci e).
Proof.
  unfold deleteEndpointSecret, st_bind, secret_let_go. simpl. unfold GetSecretRecord, st_bind, getSecretObject.
  destruct (read w) as [[s|e] w1] eqn:Eg.
  2: { cbn. destruct (k8s_IsNotFound e) eqn:En; intros [= <- <-]; (split; [done|]); [done|]. intros e' [= <-]. by eapply ke_get. }
  cbn. unfold ownsEndpointSecret, cloneLabels, cloneSecretData. rewrite !map_fold_copy.
  destruct (endpointSecretOwnerUID kind resource) as [uid|e] eqn:Eu.
  2: { intros [= <- <-]. split; [done|]. intros e' [= <-]. unfold endpointSecretOwnerUID in Eu. case_match; simplify_eq. done. }
  apply endpointSecretOwnerUID_ok in Eu as [-> Hne]. destruct (default "" _ =? _)%string eqn:Eo; bool_prop.
  2: { intros [= <- <-]. split; [|done]. intros _. left. intros Ho. rewrite Ho in Eo. by destruct Eo. }
  unfold DeleteSecretIfCurrent, st_bind, getSecretObject. destruct (read w1) as [[s2|e] w2] eqn:Eg2.
  2: { cbn. destruct (k8s_IsNotFound e) eqn:En; intros [= <- <-]; (split; [try done; by right|]); [done|]. intros e' [= <-]. by eapply ke_get. }
  destruct (validateSecretIdentity _ _ _ _) as [e|] eqn:Ev.
  { pose proof (validateSecretIdentity_not_oci _ _ _ _ _ Ev) as Hno. assert (Hnf : k8s_IsNotFound e = false).
    { unfold validateSecretIdentity in Ev. by repeat case_hyp Ev; simplify_eq. }
    cbn. rewrite Hnf. intros [= <- <-]. split; [done|]. by intros e' [= <-]. }
  apply validateSecretIdentity_ok in Ev. unfold deleteSecretObject, api_Delete.
  destruct (k_Delete api s2 _ w2) as [[e|] w3] eqn:Ed; cbn.
  - destruct (k8s_IsNotFound e) eqn:En; intros [= <- <-]; (split; [try done; by right|]); [done|]. intros e' [= <-]. by eapply ke_delete.
  - intros [= <- <-]. split; [|done]. by right.
Qed.
End Answers.

Section Deletes.
Context {W : Type} (api : KubeAPI W) (lookup : W -> string * string -> option Secret) `{!KubeSequential api lookup}.
Context `{!KubeErrors api None}.
Context {R : Type} `{!EndpointResource R} (kind : EndpointKind) (resource : R) (delegate : SvcClient R W).
Local Abbreviation key := (res_Name resource, res_Namespace resource).
Local Abbreviation owned s := (s_Labels s !! ek_label kind = Some (TrimSpace (res_UID resource))).
Local Abbreviation client := (newEndpointSecretClient (Some (kubeSecretValue api None)) delegate).

(** The secrets afterwards: at most the resource's own secret is gone, and it was owned. *)
Definition only_own_removed (w w' : W) : Prop := forall k, lookup w' k = lookup w k \/
  (k = key /\ lookup w' k = None /\ exists s, lookup w k = Some s /\ owned s).

Lemma removed_refl w w' : (forall k, lookup w' k = lookup w k) -> only_own_removed w w'.
Proof. intros Hsame k. by left. Qed.

Lemma guarded_delete_sequential current w : exists b err w',
  DeleteSecretIfCurrent api None (res_Name resource) (res_Namespace resource) current w = (Ret (b, err), w') /\
  match err with
  | None => forall k, lookup w' k = if decide (k = key) then None else lookup w k
  | Some e => (forall k, lookup w' k = lookup w k) /\ not_oci e /\ (k8s_IsNotFound e = true -> lookup w key = None)
  end.
Proof.
  unfold DeleteSecretIfCurrent, st_bind, getSecretObject, reader.
  assert (Hnf : forall e, k8s_IsNotFound e = true -> IsSecretNotFoundError (Some e) = true)
    by (intros e He; unfold IsSecretNotFoundError; by rewrite He).
  destruct (k_Get api _ _ w) as [[s|e] w1] eqn:Eg; pose proof (ks_get api lookup _ _ _ _ _ Eg) as [Hsame Hr].
  - destruct Hr as (Hl & Hn & Hns). destruct (validateSecretIdentity _ _ _ _) as [e|] eqn:Ev.
    + do 3 eexists. split; [reflexivity|]. split_and!; [done|by eapply validateSecretIdentity_not_oci|].
      unfold validateSecretIdentity in Ev. intros He. exfalso. by repeat case_hyp Ev; simplify_eq.
    + unfold deleteSecretObject, api_Delete. destruct (k_Delete api s _ w1) as [[e|] w2] eqn:Ed;
        pose proof (ks_delete api lookup _ _ _ _ _ Ed) as Hd; rewrite Hn, Hns in Hd; do 3 eexists; (split; [reflexivity|]).
      * destruct Hd as [Hsame2 Hd]. split_and!; [intros k; by rewrite Hsame2|by eapply (ke_delete (reader_api := None))|].
        intros He. rewrite <-Hsame. by apply Hd, Hnf.
      * intros k. rewrite Hd. decide_goal; [done|apply Hsame].
  - do 3 eexists. split; [reflexivity|]. split_and!; [done|by eapply ke_get|]. intros He. by apply Hr, Hnf.
Qed.

Lemma deleteEndpointSecret_sequential w : exists err w',
  deleteEndpointSecret kind client resource w = (Ret err, w') /\ only_own_removed w w' /\
  (err = None -> forall s, lookup w' key = Some s -> ~ owned s) /\ (forall e, err = Some e -> not_oci e).
Proof.
  unfold deleteEndpointSecret, st_bind. simpl.
  destruct (GetSecretRecord_returns api (res_Name resource) (res_Namespace resource) w) as (rec & err & w1 & Hg).
  rewrite Hg. pose proof (record_sequential api lookup _ _ _ _ _ _ Hg) as (Hsame & r & Hget & Her & Hrec).
  destruct err as [e|].
  - destruct (k8s_IsNotFound e) eqn:En; do 2 eexists; (split_and!; [reflexivity|by apply removed_refl| |]); try done.
    + intros _ s Hs. rewrite Hsame, Hrec in Hs; done.
    + intros e' [= <-]. destruct r as [|e']; [done|]. injection Her as ->. by eapply ke_get.
  - destruct Hrec as (s & Hl & ->). unfold ownsEndpointSecret, endpointSecretOwnerUID. cbn [sr_Labels].
    destruct (TrimSpace (res_UID resource) =? "")%string eqn:Eu;
      [|destruct (default "" (s_Labels s !! ek_label kind) =? TrimSpace (res_UID resource))%string eqn:Eo]; simpl.
    + do 2 eexists. split_and!; [reflexivity|by apply removed_refl|done|]. by intros e [= <-].
    + bool_prop. apply default_label in Eo; [|done].
      destruct (guarded_delete_sequential (mkSecretRecord (s_UID s) (s_Labels s) (s_Data s)) w1) as (b & err & w2 & -> & Hd).
      destruct err as [e|].
      * destruct Hd as (Hsame2 & Hno & Hd).
        assert (Hrem : only_own_removed w w2) by (apply removed_refl; intros k; by rewrite Hsame2).
        destruct (k8s_IsNotFound e) eqn:En; do 2 eexists; (split_and!; [reflexivity|done| |]); try done.
        -- intros _ s' Hs'. rewrite Hsame2, Hd in Hs'; done.
        -- by intros e' [= <-].
      * do 2 eexists. split_and!; [reflexivity| | |done].
        -- intros k. rewrite Hd. decide_goal; [|left; apply Hsame]. right. subst. split_and!; [done|done|by exists s].
        -- intros _ s'. rewrite Hd. by decide_goal.
    + do 2 eexists. split_and!; [reflexivity|by apply removed_refl| |done].
      intros _ s' Hs' Ho. rewrite Hsame, Hl in Hs'. injection Hs' as <-. rewrite Ho in Eo. simpl in Eo.
      by rewrite String.eqb_refl in Eo.
Qed.
End Deletes.

(** The delete of a wrapped client: its delegate's answer, or, after a finished delete, that of the secret. *)
Lemma endpoint_Delete_answer {R W} `{!EndpointResource R} kind (c : EndpointSecretClient R W) s a s' :
  endpoint_Delete kind c s = (Ret a, s') ->
  exists d err s1, sc_Delete (esc_delegate c) s = (Ret (d, err), s1) /\
    ((a = (d, err) /\ s' = s1 /\ (d = false \/ err <> None)) \/
     (d = true /\ err = None /\ fst a = true /\
      deleteEndpointSecret kind c (fst s1) (snd s1) = (Ret (snd a), snd s') /\ fst s' = fst s1)).
Proof.
  unfold endpoint_Delete, st_bind. destruct (sc_Delete _ s) as [[[d err]|] [r1 w1]] eqn:Ed; [|done].
  destruct err as [e|]; [intros [= <- <-]; exists d, (Some e), (r1, w1); split; [done|]; left; by split_and!; [..|right]|].
  destruct d; cbn [negb]; [|intros [= <- <-]; exists false, None, (r1, w1); split; [done|]; left; by split_and!; [..|left]].
  cbn [the_resource]. unfold on_world. destruct (deleteEndpointSecret kind c r1 w1) as [[err|] w2] eqn:Ee; [|done].
  intros Ha. exists true, None, (r1, w1). split; [done|]. right. cbn [fst snd]. rewrite Ee.
  destruct err; injection Ha as <- <-; done.
Qed.

(** The wrapper is one of those that keep an unfinished delete unfinished. *)
Lemma endpoint_respects_unfinished {R W} `{!EndpointResource R} kind (credentials : option (CredentialValue W)) ready sync :
  respects_unfinished (fun delegate : SvcClient R W =>
    let c := newEndpointSecretClient credentials delegate in
    mkSvcClient (endpoint_CreateOrUpdate c ready sync) (endpoint_Delete kind c)).
Proof.
  intros delegate s [d err] s' Hd Hf He. simpl in *. subst. unfold endpoint_Delete, st_bind.
  destruct credentials; simpl; by rewrite Hd.
Qed.

(** C13. Under the reconciler, the finalizer outlives the endpoint secret as far as the cluster shows it: when an object of a
    queue, stream or DB system is written without the OSOK finalizer, then either the wrapped client had deleted the OCI resource
    and the delete of the secret was answered (the read reported no secret of that name, or one that does not carry the
    resource's UID, or one that does and that a delete guarded by its identity then removed or was told is missing), or the
    wrapped client failed with an unambiguous not-found, in which case the secret was not looked at.  This holds for any client
    and reader, cached or not, under interference.  A cached reader may report a secret as missing that is still there; when
    reads go to the same API as writes, are up to date, and no one else writes during the delete ([KubeSequential]), the answers
    are the truth: no secret with the resource's UID is left under its name and no other secret is touched.  Errors of the
    Kubernetes API carry no OCI code ([KubeErrors]). *)
Theorem endpoint_secret_released_last {R W} `{EqDecision R} `{!EndpointResource R} (api : KubeAPI W) (reader_api : option (KubeAPI W))
  (errors : KubeErrors api reader_api)
  (kind : EndpointKind) (ready : R -> bool) (sync : R -> ST W (option GoError)) (delegate : SvcClient R W)
  (client : Client R W) (namespace : string) (extra : list string) obj0 w0 out s' o :
  let c := newEndpointSecretClient (Some (kubeSecretValue api reader_api)) delegate in
  let wrapped := mkSvcClient (endpoint_CreateOrUpdate c ready sync) (endpoint_Delete kind c) in
  Reconcile client (client_manager wrapped namespace res_OsokStatus) extra (mkRS obj0 w0 []) = (out, s') ->
  EffUpdate o ∈ rs_trace s' -> ContainsFinalizer o OSOKFinalizerName = false ->
  exists obj w d err r1 w1 w2,
    c_Get client w0 = (Ok obj, w) /\ delete_branch obj = true /\
    sc_Delete delegate (o_body obj, w) = (Ret (d, err), (r1, w1)) /\
    ((d = true /\ err = None /\ snd (sc_Delete wrapped (o_body obj, w)) = (r1, w2) /\
      secret_let_go api reader_api kind r1 w1 /\
      forall lookup, reader_api = None -> KubeSequential api lookup ->
        only_own_removed lookup kind r1 w1 w2 /\
        forall s, lookup w2 (res_Name r1, res_Namespace r1) = Some s ->
          s_Labels s !! ek_label kind <> Some (TrimSpace (res_UID r1))) \/
     (err <> None /\ delete_confirmed (mkDeleteResult d 0%Z, err) = true)).
Proof.
  intros c wrapped Hrun Hw Hf.
  destruct (release_confirmed _ _ _ _ _ _ _ _ Hrun Hw Hf) as (obj & w & p & o' & w' & Hg & Hb & Hc & Hd).
  apply client_manager_delete in Hc as (d & err & r' & Hdel & ->). simpl in Hdel.
  pose proof (endpoint_Delete_answer _ _ _ _ _ Hdel) as (d1 & err1 & [r1 w1] & H1 & Hcase). simpl in H1.
  exists obj, w, d1, err1, r1, w1, w'. split_and!; try done.
  destruct Hcase as [([= -> ->] & _ & Hor)|(-> & -> & _ & Hsec & Hr)].
  - right. split; [|done]. destruct err1; [done|]. destruct Hor as [->|?]; [|done]. by unfold delete_confirmed in Hd.
  - left. cbn [fst snd] in Hsec. pose proof (deleteEndpointSecret_answers api reader_api kind r1 delegate w1 err w' Hsec) as [Hgo Herr].
    assert (err = None) as ->.
    { destruct err as [e|]; [|done]. rewrite not_oci_unconfirmed in Hd; [done|by apply Herr]. }
    split_and!; [done|done|simpl; rewrite Hdel; simpl in Hr; by rewrite Hr|by apply Hgo|].
    intros lookup -> Hseq. destruct (deleteEndpointSecret_sequential api lookup kind r1 delegate w1) as (err2 & w2 & Hrun2 & Hown & Hnone & _).
    unfold c in Hsec. rewrite Hsec in Hrun2. injection Hrun2 as <- <-. split; [done|]. by apply Hnone.
Qed.

(** ** Witnesses *)

(** A resource with what the clients read. *)
Record SampleResource := mkSampleResource {
  sample_name : string; sample_uid : string; sample_endpoint : string; sample_status : OSOKStatus
}.
#[local] Instance SampleResource_eq_dec : EqDecision SampleResource.
Proof. solve_decision. Defined.
#[local] Instance SampleResource_endpoint : EndpointResource SampleResource := {
  res_Name := sample_name; res_Namespace _ := "ns"; res_UID := sample_uid; res_OsokStatus := sample_status
}.
Definition sample_queue : SampleResource := mkSampleResource "q" "uid-q" "https://cell-1" emptyStatus.

(** A delegate that has nothing to do. *)
Definition idle_client {R W} : SvcClient R W :=
  mkSvcClient (fun _ => st_ret (mkResponse true false 0%Z, None)) (st_ret (true, None)).

(** A server that holds an outdated secret of the sample queue. *)
Definition outdated_secret : Secret :=
  mkSecret "q" "ns" "uid-s" "7" {[queueEndpointSecretOwnerUIDLabel := "uid-q"]} {["endpoint" := "https://cell-0"]}.
Definition outdated_api : KubeAPI unit := {|
  k_Get n ns w := (if (n =? "q")%string && (ns =? "ns")%string then Ok outdated_secret else Err errSecretMissing, w);
  k_Create s w := (Some errSecretExists, w);
  k_Update s w := (if bool_decide (s_Name s = "q" /\ s_Namespace s = "ns" /\ s_UID s = "uid-s" /\ s_ResourceVersion s = "7")
                   then None else Some errSecretMissing, w);
  k_Delete s pre w := (Some errSecretMissing, w)
|}.
Definition outdated_lookup (w : unit) (n ns : string) : option Secret :=
  if (n =? "q")%string && (ns =? "ns")%string then Some outdated_secret else None.

Lemma outdated_laws : KubeLaws outdated_api None outdated_lookup (fun _ s => s = outdated_secret).
Proof.
  split; simpl; unfold outdated_lookup.
  - intros n ns w s w'. destruct (_ && _) eqn:E; intros [= <- <-]. bool_prop. by subst.
  - intros w n ns s. by destruct (_ && _); intros [= <-].
  - by intros w s1 s2 -> ->.
  - by intros w s ->.
  - done.
  - intros s w w' [= Hu <-]. destruct (bool_decide _) eqn:E; [|done].
    apply bool_decide_eq_true in E as (-> & -> & -> & ->). by exists outdated_secret.
Qed.

Lemma endpoint_sync_respects_owners_witness :
  exists after, snd (snd (queue_syncEndpointSecret sample_endpoint
      (newEndpointSecretClient (Some (logged_value outdated_lookup outdated_api None)) idle_client) sample_queue (tt, [])))
    = [WroteUpdate (Some outdated_secret) after] /\
    write_allowed (fun (_ : unit) s => s = outdated_secret) queueKind sample_queue (WroteUpdate (Some outdated_secret) after).
Proof.
  eexists. split; [vm_compute; reflexivity|].
  destruct (endpoint_sync_respects_owners outdated_api None outdated_lookup _ outdated_laws
    idle_client sample_queue tt sample_endpoint
    (fun _ => mkDbSystemStatus "" "" "" "" "" "" "" 0%Z 0%Z None) (fun _ => st_ret (Err ErrResourceNotFound))) as [Hq _].
  exact (Forall_inv Hq).
Defined.

Lemma map_store : KubeStore map_api map_lookup.
Proof.
  split; [apply map_api_laws|simpl; unfold map_lookup..].
  - intros s w w'. destruct (w !! _); intros [= <-]. eexists. rewrite lookup_insert_eq. simpl. split_and!; reflexivity.
  - intros s w r w' [= <- <-]. eexists (mkSecret (s_Name s) (s_Namespace s) (s_UID s) (s_ResourceVersion s) (s_Labels s) (s_Data s)).
    split_and!; [done|done|]. intros k. destruct (decide (k = _)) as [->|]; [by rewrite lookup_insert_eq|by rewrite lookup_insert_ne].
Qed.

Lemma map_errors : KubeErrors map_api None.
Proof. split; simpl; [|done]. intros n ns w e w'. destruct (w !! (n, ns)); intros [= <- <-]. done. Qed.

Definition first_queue_sync : (outcome (option GoError) * gmap (string * string) Secret)%type :=
  queue_syncEndpointSecret sample_endpoint
    (newEndpointSecretClient (Some (kubeSecretValue map_api None)) idle_client) sample_queue ∅.

Lemma queue_endpoint_secret_settles_witness :
  fst first_queue_sync = Ret None /\
  secret_synced map_lookup queueKind sample_queue {["endpoint" := "https://cell-1"]} (snd first_queue_sync).
Proof.
  assert (Hok : fst first_queue_sync = Ret None) by (vm_compute; reflexivity). split; [exact Hok|].
  eapply (queue_endpoint_secret_settles map_api map_lookup map_store idle_client sample_endpoint sample_queue ∅).
  - rewrite <-Hok. apply surjective_pairing.
  - apply surjective_pairing.
Defined.

Definition unnamed_status : DbSystemStatus :=
  mkDbSystemStatus "ACTIVE" "10.0.0.1" "AD-1" "FD-1" "" "" "" 3306%Z 33060%Z None.
Definition unnamed_data : result Data GoError := dbSystemEndpointSecretData (fun _ : SampleResource => unnamed_status) sample_queue.
Definition accepting_mutator : GuardedSecretMutator unit :=
  mkGuardedSecretMutator (fun _ _ _ => st_ret (true, None)) (fun _ _ _ _ _ => st_ret (true, None)).

Lemma dbsystem_secret_never_settles_witness :
  match unnamed_data with
  | Err _ => False
  | Ok data => exists e, syncExistingEndpointSecret dbSystemKind accepting_mutator sample_queue
                           (mkSecretRecord "u" ∅ data) data tt = (Ret (Some e), tt)
  end.
Proof.
  destruct unnamed_data as [data|e] eqn:E.
  - apply (dbsystem_secret_never_settles (fun _ => unnamed_status) sample_queue accepting_mutator
             (mkSecretRecord "u" ∅ data) data tt); [exact E|intros [=]|left; reflexivity|].
    cbn [sr_Labels]. rewrite lookup_empty. intros [=].
  - assert (Hok : is_ok unnamed_data = true) by (vm_compute; reflexivity). rewrite E in Hok. discriminate Hok.
Defined.

Definition deleting_queue : Object SampleResource := mkObject [OSOKFinalizerName] (Some 5%Z) 2%Z sample_queue.
Definition object_client {R W} (obj : Object R) : Client R W :=
  mkClient (fun w => (Ok obj, w)) (fun o w => (o, None, w)) (fun _ o w => (o, None, w)).
Definition queue_secrets : gmap (string * string) Secret := {[("q", "ns") := outdated_secret]}.

Lemma endpoint_secret_released_last_witness :
  exists obj w d err r1 w1 w2, c_Get (object_client deleting_queue) queue_secrets = (Ok obj, w) /\
    sc_Delete (idle_client : SvcClient SampleResource _) (o_body obj, w) = (Ret (d, err), (r1, w1)) /\
    secret_let_go map_api None queueKind r1 w1 /\ only_own_removed map_lookup queueKind r1 w1 w2.
Proof.
  edestruct (endpoint_secret_released_last map_api None map_errors queueKind
    (queueReadyForEndpointSecret sample_endpoint)
    (queue_syncEndpointSecret sample_endpoint (newEndpointSecretClient (Some (kubeSecretValue map_api None)) idle_client))
    idle_client (object_client deleting_queue) "ns" [] deleting_queue queue_secrets)
    as (obj & w & d & err & r1 & w1 & w2 & Hg & _ & Hd & Hcase).
  - vm_compute. reflexivity.
  - simpl. do 2 right. left.
  - reflexivity.
  - exists obj, w, d, err, r1, w1, w2. split; [exact Hg|]. split; [exact Hd|].
    destruct Hcase as [(_ & _ & _ & Hgo & Hseq)|[Hne _]].
    + split; [exact Hgo|]. exact (proj1 (Hseq map_lookup eq_refl map_api_laws)).
    + injection Hd as _ <- _ _. by destruct Hne.
Defined.
