(* ===== verification/GuardClients.v ===== *)
(** * Clients that guard a delete or prepare a resource

    [compartment_orphan_delete_client.go], [rediscluster_delete_guard_client.go] and
    [bucket_namespace_client.go]: hand-written wrappers around the generated client of
    their resource.  The SDK calls they make are parameters; a live resource is
    represented by its lifecycle state, the only field they read. *)

From Stdlib Require Import Ascii.
From S2P Require Import Prelude GoStrings Shared GoErrors GoValue AsyncStatus Reconciler ReconcilerSafety JsonValues ServiceClients.
Local Open Scope string_scope.
Local Open Scope go_scope.

(** ** Error tests *)

(** [errors.As(err, &conflictErr)] with a target of type [errorutil.ConflictOciError]. *)
Fixpoint as_conflict (e : GoError) : bool :=
  match e with
  | ErrOci ConflictOciError _ => true
  | ErrWrap _ inner => as_conflict inner
  | ErrJoin e1 e2 => as_conflict e1 || as_conflict e2
  | _ => false
  end.

Definition message_not_found (message : string) : bool :=
  Contains message "http status code: 404" || Contains message "NotFound" || Contains message "NotAuthorizedOrNotFound".

Definition compartmentDeleteIsNotFound (err : GoError) : bool :=
  match as_service err with
  | Some serviceErr =>
      if (GetHTTPStatusCode serviceErr =? 404)%Z then true
      else if (GetCode serviceErr =? "NotFound")%string || (GetCode serviceErr =? "NotAuthorizedOrNotFound")%string then true
      else message_not_found (ErrorString err)
  | None => message_not_found (ErrorString err)
  end.

Definition compartmentDeleteIsConflict (err : GoError) : bool :=
  match as_service err with
  | Some serviceErr => (GetHTTPStatusCode serviceErr =? 409)%Z
  | None => if as_conflict err then true else Contains (ErrorString err) "http status code: 409"
  end.

(** The Redis package has its own copies of the two tests. *)
Definition redisClusterDeleteGuardIsNotFound (err : GoError) : bool :=
  match as_service err with
  | Some serviceErr =>
      if (GetHTTPStatusCode serviceErr =? 404)%Z then true
      else if (GetCode serviceErr =? "NotFound")%string || (GetCode serviceErr =? "NotAuthorizedOrNotFound")%string then true
      else message_not_found (ErrorString err)
  | None => message_not_found (ErrorString err)
  end.

Definition redisClusterDeleteGuardIsConflict (err : GoError) : bool :=
  match as_service err with
  | Some serviceErr => (GetHTTPStatusCode serviceErr =? 409)%Z
  | None => if as_conflict err then true else Contains (ErrorString err) "http status code: 409"
  end.

(** ** Tracked identities *)

(** The trimmed OCID of the status block, or the trimmed [status.id]. *)
Definition status_or_id (status : OSOKStatus) (id : string) : string :=
  let ocid := TrimSpace (Ocid status) in
  if negb (ocid =? "")%string then ocid else TrimSpace id.

(** ** Compartments *)

Section Compartment.
Context {R W : Type} (OsokStatus : R -> OSOKStatus) (StatusId : R -> string).

Record CompartmentOrphanDeleteClient := mkCompartmentClient {
  comp_delegate : option (SvcClient R W);
  comp_deleteCompartment : option (string -> ST W (option GoError));
  comp_loadCompartment : option (string -> ST W (result string GoError))
}.

Definition compartmentDeleteCurrentID (resource : R) : string := status_or_id (OsokStatus resource) (StatusId resource).

Definition shouldOrphanCompartmentDelete (state : string) : bool :=
  (state =? "DELETING")%string || (state =? "DELETED")%string.

Context (c : CompartmentOrphanDeleteClient).

Definition compartment_CreateOrUpdate (req : string) : ST (R * W) (OSOKResponse * option GoError) :=
  match comp_delegate c with
  | None => st_ret (unsuccessful, Some (ErrText "compartment orphan delete delegate is not configured"))
  | Some delegate => sc_CreateOrUpdate delegate req
  end.

(** One look at the live compartment: is it going or gone? *)
Definition compartment_gone (compartmentID : string) : ST (R * W) bool :=
  match comp_loadCompartment c with
  | None => st_ret false
  | Some load =>
      let* live := on_world (load compartmentID) in
      match live with
      | Ok state => st_ret (shouldOrphanCompartmentDelete state)
      | Err err => st_ret (compartmentDeleteIsNotFound err)
      end
  end.

Definition compartment_Delete : ST (R * W) (bool * option GoError) :=
  match comp_delegate c with
  | None => st_ret (false, Some (ErrText "compartment orphan delete delegate is not configured"))
  | Some delegate =>
      let* resource := the_resource in
      let compartmentID := compartmentDeleteCurrentID resource in
      match comp_deleteCompartment c with
      | None => sc_Delete delegate
      | Some deleteCompartment =>
          if (compartmentID =? "")%string then sc_Delete delegate
          else
            let* gone := compartment_gone compartmentID in
            if gone then st_ret (true, None)
            else
              let* err := on_world (deleteCompartment compartmentID) in
              match err with
              | None => st_ret (true, None)
              | Some e =>
                  if compartmentDeleteIsNotFound e then st_ret (true, None)
                  else
                    let* gone := compartment_gone compartmentID in
                    if gone then st_ret (true, None)
                    else if compartmentDeleteIsConflict e then st_ret (false, None)
                    else st_ret (false, Some e)
              end
      end
  end.

Definition compartmentOrphanDeleteClient : SvcClient R W := mkSvcClient compartment_CreateOrUpdate compartment_Delete.
End Compartment.
Arguments mkCompartmentClient {R W}.
Arguments comp_delegate {R W}.
Arguments comp_deleteCompartment {R W}.
Arguments comp_loadCompartment {R W}.

(** ** Redis clusters *)

Section Redis.
Context {R W : Type} (OsokStatus : R -> OSOKStatus) (StatusId : R -> string).

Record RedisDeleteGuardClient := mkRedisClient {
  redis_delegate : option (SvcClient R W);
  redis_loadRedisCluster : option (string -> ST W (result string GoError))
}.

Definition redisClusterDeleteGuardCurrentID (resource : R) : string := status_or_id (OsokStatus resource) (StatusId resource).

Definition redisClusterDeleteGuardHasTrackedDeleteWorkRequest (resource : R) : bool :=
  match Current (Async (OsokStatus resource)) with
  | None => false
  | Some current =>
      (op_Source current =? OSOKAsyncSourceWorkRequest)%string &&
      (op_Phase current =? OSOKAsyncPhaseDelete)%string &&
      negb (TrimSpace (op_WorkRequestID current) =? "")%string
  end.

Definition shouldDelayRedisDelete (state : string) : bool :=
  (state =? "CREATING")%string || (state =? "UPDATING")%string || (state =? "DELETING")%string.

Context (c : RedisDeleteGuardClient).

(** A nil delegate makes [CreateOrUpdate] dereference nil. *)
Definition redis_CreateOrUpdate (req : string) : ST (R * W) (OSOKResponse * option GoError) :=
  match redis_delegate c with None => st_panic | Some delegate => sc_CreateOrUpdate delegate req end.

Definition redis_Delete : ST (R * W) (bool * option GoError) :=
  match redis_delegate c with
  | None => st_ret (false, Some (ErrText "redis delete guard delegate is not configured"))
  | Some delegate =>
      let* resource := the_resource in
      if redisClusterDeleteGuardHasTrackedDeleteWorkRequest resource then sc_Delete delegate
      else
        let clusterID := redisClusterDeleteGuardCurrentID resource in
        match redis_loadRedisCluster c with
        | None => sc_Delete delegate
        | Some loadRedisCluster =>
            if (clusterID =? "")%string then sc_Delete delegate
            else
              let* liveCluster := on_world (loadRedisCluster clusterID) in
              match liveCluster with
              | Err err => if redisClusterDeleteGuardIsNotFound err then st_ret (true, None) else st_ret (false, Some err)
              | Ok state =>
                  if shouldDelayRedisDelete state then st_ret (false, None)
                  else if (state =? "DELETED")%string then st_ret (true, None)
                  else
                    let* (deleted, err) := sc_Delete delegate in
                    match err with
                    | None => st_ret (deleted, err)
                    | Some e =>
                        if deleted || negb (redisClusterDeleteGuardIsConflict e) then st_ret (deleted, err)
                        else
                          let* liveCluster := on_world (loadRedisCluster clusterID) in
                          match liveCluster with
                          | Err liveErr =>
                              if redisClusterDeleteGuardIsNotFound liveErr then st_ret (true, None) else st_ret (deleted, err)
                          | Ok state =>
                              if shouldDelayRedisDelete state then st_ret (false, None)
                              else if (state =? "DELETED")%string then st_ret (true, None)
                              else st_ret (deleted, err)
                          end
                    end
              end
        end
  end.

Definition redisDeleteGuardClient : SvcClient R W := mkSvcClient redis_CreateOrUpdate redis_Delete.
End Redis.
Arguments mkRedisClient {R W}.
Arguments redis_delegate {R W}.
Arguments redis_loadRedisCluster {R W}.

(** ** Buckets *)

Definition bucketNamespaceField : RequestField :=
  mkRequestField "NamespaceName" "namespaceName" "path" false ["status.namespace"; "spec.namespace"; "namespace"].
Definition bucketNameField : RequestField :=
  mkRequestField "BucketName" "bucketName" "path" false ["status.name"; "spec.name"; "name"].
Definition bucketCreateFields : list RequestField :=
  [bucketNamespaceField; mkRequestField "CreateBucketDetails" "" "body" false []].
Definition bucketGetFields : list RequestField := [bucketNamespaceField; bucketNameField].
Definition bucketListFields : list RequestField :=
  [bucketNamespaceField; mkRequestField "CompartmentId" "compartmentId" "query" false []].
Definition bucketUpdateFields : list RequestField :=
  [bucketNamespaceField; bucketNameField; mkRequestField "UpdateBucketDetails" "" "body" false []].
Definition bucketDeleteFields : list RequestField := [bucketNamespaceField; bucketNameField].

Section Bucket.
Context {R W : Type}.
(** [spec.namespace], [spec.compartmentId], [status.namespace] and the assignment to the last. *)
Context (SpecNamespace SpecCompartmentId StatusNamespace : R -> string) (set_StatusNamespace : string -> R -> R).

Record NamespaceResolvingBucketServiceClient := mkBucketClient {
  bucket_delegate : SvcClient R W;
  (** [GetNamespace] of the SDK, by the optional compartment; the answer is a string pointer. *)
  bucket_namespaceGetter : option (option string -> ST W (result (option string) GoError))
}.
Context (c : NamespaceResolvingBucketServiceClient).

Definition ensureNamespace : ST (R * W) (option GoError) :=
  let* resource := the_resource in
  if negb (TrimSpace (SpecNamespace resource) =? "")%string || negb (TrimSpace (StatusNamespace resource) =? "")%string
  then st_ret None
  else
    match bucket_namespaceGetter c with
    | None => st_ret None
    | Some GetNamespace =>
        let compartmentID := TrimSpace (SpecCompartmentId resource) in
        let request := if negb (compartmentID =? "")%string then Some compartmentID else None in
        let* response := on_world (GetNamespace request) in
        match response with
        | Err err => st_ret (Some (ErrWrap ("lookup Bucket namespace: " +++ ErrorString err) err))
        | Ok value =>
            let namespace := match value with Some v => TrimSpace v | None => "" end in
            if (namespace =? "")%string then st_ret (Some (ErrText "lookup Bucket namespace: OCI returned empty namespace"))
            else on_resource (set_StatusNamespace namespace) ;;; st_ret None
        end
    end.

Definition bucket_CreateOrUpdate (req : string) : ST (R * W) (OSOKResponse * option GoError) :=
  let* err := ensureNamespace in
  match err with
  | Some e => st_ret (unsuccessful, Some e)
  | None => sc_CreateOrUpdate (bucket_delegate c) req
  end.

Definition bucket_Delete : ST (R * W) (bool * option GoError) :=
  let* err := ensureNamespace in
  match err with
  | Some e => st_ret (false, Some e)
  | None => sc_Delete (bucket_delegate c)
  end.

Definition namespaceResolvingBucketServiceClient : SvcClient R W := mkSvcClient bucket_CreateOrUpdate bucket_Delete.
End Bucket.
Arguments mkBucketClient {R W}.
Arguments bucket_delegate {R W}.
Arguments bucket_namespaceGetter {R W}.

(** ** Theorems *)

(** The Redis guard holds back: when the tracked cluster is being created, updated or deleted and no
    delete work request is tracked, a delete neither reaches the wrapped client (nothing but the read has
    happened) nor is reported as done, so the reconcile that asked for it keeps the finalizer. *)
Theorem redis_busy_keeps_finalizer {R W} `{EqDecision R} (OsokStatus : R -> OSOKStatus) (StatusId : R -> string)
  (delegate : SvcClient R W) (load : string -> ST W (result string GoError))
  (client : Client R W) (namespace : string) (extra : list string) obj0 w0 out s' obj w state w1 :
  let guard := redisDeleteGuardClient OsokStatus StatusId (mkRedisClient (Some delegate) (Some load)) in
  Reconcile client (client_manager guard namespace OsokStatus) extra (mkRS obj0 w0 []) = (out, s') ->
  c_Get client w0 = (Ok obj, w) ->
  redisClusterDeleteGuardHasTrackedDeleteWorkRequest OsokStatus (o_body obj) = false ->
  redisClusterDeleteGuardCurrentID OsokStatus StatusId (o_body obj) <> "" ->
  load (redisClusterDeleteGuardCurrentID OsokStatus StatusId (o_body obj)) w = (Ret (Ok state), w1) ->
  shouldDelayRedisDelete state = true ->
  sc_Delete guard (o_body obj, w) = (Ret (false, None), (o_body obj, w1)) /\
  forall o, EffUpdate o ∈ rs_trace s' -> ContainsFinalizer o OSOKFinalizerName = true.
Proof.
  intros guard Hrun Hget Hwr Hid Hload Hbusy.
  assert (Hdel : sc_Delete guard (o_body obj, w) = (Ret (false, None), (o_body obj, w1))).
  { simpl. unfold redis_Delete, st_bind. simpl. rewrite Hwr. apply String.eqb_neq in Hid. rewrite Hid.
    unfold on_world. by rewrite Hload, Hbusy. }
  split; [done|]. intros o Ho. destruct (ContainsFinalizer o OSOKFinalizerName) eqn:E; [done|exfalso].
  destruct (release_confirmed _ _ _ _ _ _ _ _ Hrun Ho E) as (obj' & w' & p & o' & w2 & Hg & _ & Hc & Hconf).
  rewrite Hget in Hg. injection Hg as <- <-. apply client_manager_delete in Hc as (d & err & r' & Hd & ->).
  rewrite Hdel in Hd. by simplify_eq.
Qed.

(** Any error whose text mentions NotFound counts as a deleted compartment or Redis cluster: a 400 answer
    with the code RelatedResourceNotAuthorizedOrNotFound to the guards' first read makes both report the
    delete as done without asking OCI to delete anything, although that error does not confirm a delete. *)
Theorem related_not_found_taken_as_deleted {R W} (OsokStatus : R -> OSOKStatus) (StatusId : R -> string)
  (delegate : SvcClient R W) (deleteCompartment : string -> ST W (option GoError))
  (load : string -> ST W (result string GoError)) (r : R) (w w1 : W) (se : ServiceError) :
  GetHTTPStatusCode se = 400%Z -> GetCode se = RelatedResourceNotAuthorizedOrNotFound ->
  Contains (svc_text se) RelatedResourceNotAuthorizedOrNotFound = true ->
  redisClusterDeleteGuardHasTrackedDeleteWorkRequest OsokStatus r = false ->
  status_or_id (OsokStatus r) (StatusId r) <> "" ->
  load (status_or_id (OsokStatus r) (StatusId r)) w = (Ret (Err (ErrService se)), w1) ->
  sc_Delete (compartmentOrphanDeleteClient OsokStatus StatusId
    (mkCompartmentClient (Some delegate) (Some deleteCompartment) (Some load))) (r, w) = (Ret (true, None), (r, w1)) /\
  sc_Delete (redisDeleteGuardClient OsokStatus StatusId (mkRedisClient (Some delegate) (Some load))) (r, w) =
    (Ret (true, None), (r, w1)) /\
  delete_confirmed (mkDeleteResult false 0%Z, Some (ErrService se)) = false.
Proof.
  intros Hst Hcode Htext Hwr Hid Hload. apply String.eqb_neq in Hid.
  assert (Hnf : message_not_found (svc_text se) = true).
  { unfold message_not_found. assert (Hc : Contains (svc_text se) "NotAuthorizedOrNotFound" = true); [|by rewrite Hc, orb_true_r].
    apply (Contains_suffix_mono _ "RelatedResource"). exact Htext. }
  split_and!.
  - simpl. unfold compartment_Delete, st_bind. simpl. unfold compartmentDeleteCurrentID. rewrite Hid.
    unfold compartment_gone, st_bind, on_world. simpl. rewrite Hload. unfold compartmentDeleteIsNotFound. simpl.
    rewrite Hst, Hcode. simpl. by rewrite Hnf.
  - simpl. unfold redis_Delete, st_bind. simpl. rewrite Hwr. unfold redisClusterDeleteGuardCurrentID. rewrite Hid.
    unfold on_world. rewrite Hload. unfold redisClusterDeleteGuardIsNotFound. simpl. rewrite Hst, Hcode. simpl. by rewrite Hnf.
  - unfold delete_confirmed, ClassifyDeleteError. cbn [snd as_service].
    destruct (OciErrorTypeResponse (ErrService se)) as [[b n]|]; [|done]. cbn [outcome_bind].
    destruct (structuredOCIErrorFields _) as [[c code]|]; unfold IsUnambiguousNotFound; rewrite Hst, Hcode; done.
Qed.

(** Bucket namespaces are resolved once and never replaced: a namespace in the spec or the status is kept,
    otherwise the one OCI reports is stored, trimmed and not empty; when that fails the wrapped client is not
    called; once resolved, the bucket keeps its namespace without another request. *)
Theorem bucket_namespace_resolved {R W} (SpecNamespace SpecCompartmentId StatusNamespace : R -> string)
  (set_StatusNamespace : string -> R -> R)
  (set_get : forall n r, StatusNamespace (set_StatusNamespace n r) = n)
  (c : NamespaceResolvingBucketServiceClient (R := R) (W := W)) (r r' : R) (w w' : W) err req :
  let ensure := ensureNamespace SpecNamespace SpecCompartmentId StatusNamespace set_StatusNamespace c in
  let client := namespaceResolvingBucketServiceClient SpecNamespace SpecCompartmentId StatusNamespace set_StatusNamespace c in
  let named r := TrimSpace (SpecNamespace r) <> "" \/ TrimSpace (StatusNamespace r) <> "" in
  ensure (r, w) = (Ret err, (r', w')) ->
  (r' = r \/ (~ named r /\ exists n, r' = set_StatusNamespace n r /\ n <> "" /\ TrimSpace n = n)) /\
  match err with
  | Some e => r' = r /\ sc_CreateOrUpdate client req (r, w) = (Ret (unsuccessful, Some e), (r, w')) /\
              sc_Delete client (r, w) = (Ret (false, Some e), (r, w'))
  | None => sc_CreateOrUpdate client req (r, w) = sc_CreateOrUpdate (bucket_delegate c) req (r', w') /\
            sc_Delete client (r, w) = sc_Delete (bucket_delegate c) (r', w') /\
            ensure (r', w') = (Ret None, (r', w')) /\ (bucket_namespaceGetter c <> None -> named r')
  end.
Proof.
  intros ensure client named Hrun.
  assert (Hcalls : forall req, sc_CreateOrUpdate client req (r, w) =
            match err with Some e => (Ret (unsuccessful, Some e), (r', w')) | None => sc_CreateOrUpdate (bucket_delegate c) req (r', w') end /\
            sc_Delete client (r, w) =
            match err with Some e => (Ret (false, Some e), (r', w')) | None => sc_Delete (bucket_delegate c) (r', w') end).
  { intros req'. simpl. unfold bucket_CreateOrUpdate, bucket_Delete. unfold ensure in Hrun.
    split; erewrite bind_step by apply Hrun; by destruct err. }
  destruct (Hcalls req) as [-> ->]. clear Hcalls client.
  assert (Hnamed : forall r w, named r -> ensure (r, w) = (Ret None, (r, w))).
  { intros r0 w0 Hn. unfold ensure, ensureNamespace, st_bind. simpl.
    destruct Hn as [Hn|Hn]; apply String.eqb_neq in Hn; rewrite Hn; simpl; rewrite ?orb_true_r; done. }
  unfold ensure, ensureNamespace, st_bind in Hrun. simpl in Hrun.
  destruct (TrimSpace (SpecNamespace r) =? "")%string eqn:Es; simpl in Hrun;
    [|injection Hrun as <- <- <-; bool_prop; split; [by left|]; split_and!; try done; [apply Hnamed|]; by left].
  destruct (TrimSpace (StatusNamespace r) =? "")%string eqn:Et; simpl in Hrun;
    [|injection Hrun as <- <- <-; bool_prop; split; [by left|]; split_and!; try done; [apply Hnamed|]; by right].
  bool_prop. destruct (bucket_namespaceGetter c) as [get|] eqn:Eg.
  - unfold on_world in Hrun. destruct (get _ w) as [[[v|e]|] w1] eqn:Ew; [|by injection Hrun as <- <- <-; split; [left|]|done].
    destruct (_ =? "")%string eqn:En in Hrun; [by injection Hrun as <- <- <-; split; [left|]|].
    simpl in Hrun. injection Hrun as <- <- <-. bool_prop.
    assert (Hid : TrimSpace (match v with Some v => TrimSpace v | None => "" end) = match v with Some v => TrimSpace v | None => "" end)
      by (destruct v; [apply TrimSpace_idem|done]).
    assert (Hn : named (set_StatusNamespace (match v with Some v => TrimSpace v | None => "" end) r))
      by (right; by rewrite set_get, Hid).
    split; [right; split; [by intros [?|?]|by eexists]|]. split_and!; try done. by apply Hnamed.
  - injection Hrun as <- <- <-. split; [by left|]. split_and!; try done.
    unfold ensure, ensureNamespace, st_bind. simpl. by rewrite Es, Et, Eg.
Qed.

(** ** Witnesses *)

(** A resource that is its status block; the cluster is tracked and has a finalizer. *)
Definition tracked_cluster : OSOKStatus := set_Ocid "ocid1.rediscluster" emptyStatus.
Definition deleting_cluster : Object OSOKStatus := mkObject [OSOKFinalizerName] (Some 5%Z) 2%Z tracked_cluster.
Definition cluster_client_of : Client OSOKStatus nat :=
  mkClient (fun w => (Ok deleting_cluster, w)) (fun o w => (o, None, w)) (fun _ o w => (o, None, w)).
Definition load_state (answer : result string GoError) : string -> ST nat (result string GoError) :=
  fun _ w => (Ret answer, S w).
Definition quiet_delegate : SvcClient OSOKStatus nat :=
  mkSvcClient (fun _ => st_ret (unsuccessful, None)) (st_ret (true, None)).

Lemma redis_busy_keeps_finalizer_witness :
  sc_Delete (redisDeleteGuardClient (fun s => s) (fun _ => "") (mkRedisClient (Some quiet_delegate) (Some (load_state (Ok "UPDATING")))))
    (tracked_cluster, 0) = (Ret (false, None), (tracked_cluster, 1)).
Proof.
  edestruct (redis_busy_keeps_finalizer (fun s => s) (fun _ => "") quiet_delegate (load_state (Ok "UPDATING"))
    cluster_client_of "ns" [] deleting_cluster 0) as [Hd _].
  - apply surjective_pairing.
  - reflexivity.
  - reflexivity.
  - intros [=].
  - reflexivity.
  - reflexivity.
  - exact Hd.
Defined.

Definition related_error : ServiceError :=
  mkServiceError 400 RelatedResourceNotAuthorizedOrNotFound "req" "related resource"
    "Error returned by Identity Service. Http Status Code: 400. Error Code: RelatedResourceNotAuthorizedOrNotFound."
    "common.servicefailure" None.

Lemma related_not_found_taken_as_deleted_witness :
  sc_Delete (compartmentOrphanDeleteClient (fun s => s) (fun _ => "")
    (mkCompartmentClient (Some quiet_delegate) (Some (fun _ => st_ret None)) (Some (load_state (Err (ErrService related_error))))))
    (tracked_cluster, 0) = (Ret (true, None), (tracked_cluster, 1)).
Proof.
  edestruct (related_not_found_taken_as_deleted (fun s => s) (fun _ => "") quiet_delegate (fun _ => st_ret None)
    (load_state (Err (ErrService related_error))) tracked_cluster 0 1 related_error) as [Hd _].
  - reflexivity.
  - reflexivity.
  - vm_compute. reflexivity.
  - reflexivity.
  - intros [=].
  - reflexivity.
  - exact Hd.
Defined.

Lemma bucket_namespace_resolved_witness :
  let c := mkBucketClient (mkSvcClient (fun _ => st_ret (unsuccessful, None)) (st_ret (true, None)))
             (Some (fun _ => st_ret (Ok (Some " tenancy ")))) in
  ensureNamespace (fun _ : string => "") (fun _ => "") (fun s => s) (fun n _ => n) c ("", tt) = (Ret None, ("tenancy", tt)).
Proof.
  edestruct (bucket_namespace_resolved (fun _ : string => "") (fun _ => "") (fun s => s) (fun n _ => n)
    (fun n r => eq_refl)
    (mkBucketClient (mkSvcClient (fun _ => st_ret (unsuccessful, None)) (st_ret (true, None)))
       (Some (fun _ => st_ret (Ok (Some " tenancy ")))))
    "" "tenancy" tt tt None "ns") as [_ (_ & _ & Hagain & _)].
  - reflexivity.
  - rewrite <-Hagain. reflexivity.
Defined.
