(* ===== verification/AuthConfig.v ===== *)
(** * Configuration and authentication

    [pkg/config/config.go], [osok_config.go], [user_auth_config.go]: the operator's
    configuration from its environment, and [pkg/authhelper/auth_config_provider.go]:
    the choice and validation of an OCI configuration provider.  The environment, the
    file system and the constructors of the SDK are parameters; a provider is a value
    of a parameter type. *)

From Stdlib Require Import Ascii.
From S2P Require Import Prelude GoStrings Shared GoErrors.
Local Open Scope string_scope.
Local Open Scope list_scope.

(** ** [user_auth_config.go] *)

Definition AuthTypeUserPrincipal := "user_principal".
Definition AuthTypeInstancePrincipal := "instance_principal".
Definition AuthTypeInstancePrincipalWithCerts := "instance_principal_with_certs".
Definition AuthTypeInstancePrincipalDelegationToken := "instance_principal_delegation_token".
Definition AuthTypeResourcePrincipal := "resource_principal".
Definition AuthTypeResourcePrincipalDelegationToken := "resource_principal_delegation_token".
Definition AuthTypeOKEWorkloadIdentity := "oke_workload_identity".
Definition AuthTypeSecurityToken := "security_token".
Definition AuthTypeWorkloadIdentityFederation := "workload_identity_federation".
Definition AuthTypeOAuthDelegationToken := "oauth_delegation_token".
Definition sdkAuthTypeInstancePrincipalDelegationToken := "instance_principle_delegation_token".
Definition sdkAuthTypeResourcePrincipalDelegationToken := "resource_principle_delegation_token".
Definition DefaultOCIConfigFilePath := "/etc/oci/config".
Definition DefaultOCIConfigProfile := "DEFAULT".

Record UserAuthConfig := mkUserAuthConfig {
  AuthType : string;
  Region : string;
  Tenancy : string;
  User : string;
  PrivateKey : string;
  Fingerprint : string;
  Passphrase : string;
  ConfigFilePath : string;
  ConfigFileProfile : string;
  InstancePrincipalDelegationToken : string;
  ResourcePrincipalDelegationToken : string;
  InstancePrincipalLeafCertificatePath : string;
  InstancePrincipalLeafPrivateKeyPath : string;
  InstancePrincipalLeafPrivateKeyPassphrase : string;
  InstancePrincipalIntermediateCertPathList : string
}.

(** [strings.TrimSpace(s) != ""]. *)
Definition filled (s : string) : bool := negb (TrimSpace s =? "")%string.

Definition HasAnyUserPrincipalField (u : UserAuthConfig) : bool :=
  filled (Tenancy u) || filled (User u) || filled (Region u) || filled (Fingerprint u) || filled (PrivateKey u).

Definition HasConfigFileReference (u : UserAuthConfig) : bool :=
  filled (ConfigFilePath u) || filled (ConfigFileProfile u).

Definition HasAnyUserPrincipalInput (u : UserAuthConfig) : bool :=
  HasAnyUserPrincipalField u || HasConfigFileReference u.

Definition HasCompleteUserPrincipal (u : UserAuthConfig) : bool :=
  filled (Tenancy u) && filled (User u) && filled (Region u) && filled (Fingerprint u) && filled (PrivateKey u).

Definition EffectiveConfigFilePath (u : UserAuthConfig) : string :=
  let configFilePath := TrimSpace (ConfigFilePath u) in
  if (configFilePath =? "")%string then DefaultOCIConfigFilePath else configFilePath.

Definition EffectiveConfigFileProfile (u : UserAuthConfig) : string :=
  let profile := TrimSpace (ConfigFileProfile u) in
  if (profile =? "")%string then DefaultOCIConfigProfile else profile.

Definition HasInstancePrincipalWithCertsInputs (u : UserAuthConfig) : bool :=
  filled (InstancePrincipalLeafCertificatePath u) || filled (InstancePrincipalLeafPrivateKeyPath u)
  || filled (InstancePrincipalIntermediateCertPathList u).

(** [strings.FieldsFunc]: the maximal runs of characters that are not separators. *)
Fixpoint FieldsFunc (s : string) (sep : ascii -> bool) : list string :=
  match s with
  | EmptyString => []
  | String c s' =>
      if sep c then FieldsFunc s' sep
      else match s' with
           | EmptyString => [String c EmptyString]
           | String d _ =>
               if sep d then String c EmptyString :: FieldsFunc s' sep
               else match FieldsFunc s' sep with
                    | [] => [String c EmptyString]
                    | h :: t => String c h :: t
                    end
           end
  end.

Definition newline : ascii := ascii_of_nat 10.
Definition path_separator (c : ascii) : bool := Ascii.eqb c "," || Ascii.eqb c newline.

Definition IntermediateCertificatePaths (u : UserAuthConfig) : list string :=
  let raw := TrimSpace (InstancePrincipalIntermediateCertPathList u) in
  if (raw =? "")%string then []
  else
    let fields := FieldsFunc raw path_separator in
    List.filter (fun field => negb (field =? "")%string) (map TrimSpace fields).

Definition NormalizedAuthType (u : UserAuthConfig) : string :=
  let t := ToLower (TrimSpace (AuthType u)) in
  if (t =? sdkAuthTypeInstancePrincipalDelegationToken)%string then AuthTypeInstancePrincipalDelegationToken
  else if (t =? sdkAuthTypeResourcePrincipalDelegationToken)%string then AuthTypeResourcePrincipalDelegationToken
  else t.

Definition EffectiveAuthType (u : UserAuthConfig) : string :=
  let authType := NormalizedAuthType u in
  if negb (authType =? "")%string then authType
  else if HasAnyUserPrincipalInput u then AuthTypeUserPrincipal
  else AuthTypeInstancePrincipal.

Definition WantsSecurityToken (u : UserAuthConfig) : bool := (EffectiveAuthType u =? AuthTypeSecurityToken)%string.

(** ** [osok_config.go] and [config.go] *)

Record osokConfig := mkOsokConfig {
  auth : UserAuthConfig;
  useInstancePrincipals : bool;
  vaultDetails : string
}.

Definition emptyAuth : UserAuthConfig := mkUserAuthConfig "" "" "" "" "" "" "" "" "" "" "" "" "" "" "".

(** [strconv.ParseBool]; [None] is an error. *)
Definition ParseBool (s : string) : option bool :=
  if existsb (fun x => (x =? s)%string) ["1"; "t"; "T"; "TRUE"; "true"; "True"] then Some true
  else if existsb (fun x => (x =? s)%string) ["0"; "f"; "F"; "FALSE"; "false"; "False"] then Some false
  else None.

Section Environment.
(** [os.Getenv]. *)
Context (Getenv : string -> string).

(** An assignment guarded by [v != ""]. *)
Definition unless_empty (v old : string) : string := if (v =? "")%string then old else v.

(** [SetUserConfigDetails] on the package variable [configDetails]. *)
Definition SetUserConfigDetails (configDetails : osokConfig) : osokConfig :=
  let a := auth configDetails in
  mkOsokConfig
    (mkUserAuthConfig
       (unless_empty (Getenv "AUTH_TYPE") (AuthType a))
       (unless_empty (Getenv "REGION") (Region a))
       (unless_empty (Getenv "TENANCY") (Tenancy a))
       (unless_empty (Getenv "USER") (User a))
       (unless_empty (Getenv "PRIVATEKEY") (PrivateKey a))
       (unless_empty (Getenv "FINGERPRINT") (Fingerprint a))
       (unless_empty (Getenv "PASSPHRASE") (Passphrase a))
       (unless_empty (Getenv "OCI_CONFIG_FILE_PATH") (ConfigFilePath a))
       (unless_empty (Getenv "OCI_CONFIG_PROFILE") (ConfigFileProfile a))
       (unless_empty (Getenv "INSTANCE_PRINCIPAL_DELEGATION_TOKEN") (InstancePrincipalDelegationToken a))
       (unless_empty (Getenv "RESOURCE_PRINCIPAL_DELEGATION_TOKEN") (ResourcePrincipalDelegationToken a))
       (unless_empty (Getenv "INSTANCE_PRINCIPAL_LEAF_CERTIFICATE_PATH") (InstancePrincipalLeafCertificatePath a))
       (unless_empty (Getenv "INSTANCE_PRINCIPAL_LEAF_PRIVATE_KEY_PATH") (InstancePrincipalLeafPrivateKeyPath a))
       (unless_empty (Getenv "INSTANCE_PRINCIPAL_LEAF_PRIVATE_KEY_PASSPHRASE") (InstancePrincipalLeafPrivateKeyPassphrase a))
       (unless_empty (Getenv "INSTANCE_PRINCIPAL_INTERMEDIATE_CERTIFICATE_PATHS") (InstancePrincipalIntermediateCertPathList a)))
    (useInstancePrincipals configDetails) (vaultDetails configDetails).

Definition resolveConfiguredAuthType (config : osokConfig) : string :=
  let authCfg := auth config in
  let authType := NormalizedAuthType authCfg in
  if negb (authType =? "")%string then authType
  else if useInstancePrincipals config && negb (HasAnyUserPrincipalInput authCfg) then AuthTypeInstancePrincipal
  else EffectiveAuthType authCfg.

Definition set_AuthType (t : string) (a : UserAuthConfig) : UserAuthConfig :=
  mkUserAuthConfig t (Region a) (Tenancy a) (User a) (PrivateKey a) (Fingerprint a) (Passphrase a) (ConfigFilePath a)
    (ConfigFileProfile a) (InstancePrincipalDelegationToken a) (ResourcePrincipalDelegationToken a)
    (InstancePrincipalLeafCertificatePath a) (InstancePrincipalLeafPrivateKeyPath a)
    (InstancePrincipalLeafPrivateKeyPassphrase a) (InstancePrincipalIntermediateCertPathList a).

(** A value that does not parse leaves the flag false. *)
Definition GetConfigDetails : osokConfig :=
  let ip := Getenv "USEINSTANCEPRINCIPAL" in
  let useIP := if negb (ip =? "")%string then default false (ParseBool ip) else false in
  let vault := Getenv "VAULTDETAILS" in
  let configDetails := SetUserConfigDetails (mkOsokConfig emptyAuth useIP (unless_empty vault "")) in
  mkOsokConfig (set_AuthType (resolveConfiguredAuthType configDetails) (auth configDetails))
    (useInstancePrincipals configDetails) (vaultDetails configDetails).
End Environment.

(** ** [auth_config_provider.go] *)

Section Provider.
Context {P : Type}.

Definition authProviderFactory : Type := UserAuthConfig -> result P GoError.

(** The SDK and the file system: constructors of providers, [os.ReadFile], [provider.TenancyOCID]
    and the call that lists the availability domains of a tenancy. *)
Record AuthSDK := mkAuthSDK {
  DefaultConfigProvider : P;
  NewRawConfigurationProvider : string -> string -> string -> string -> string -> string -> P;
  ConfigurationProviderFromFileWithProfile : string -> string -> string -> result P GoError;
  ConfigurationProviderForSessionTokenWithProfile : string -> string -> string -> result P GoError;
  InstancePrincipalConfigurationProvider : result P GoError;
  InstancePrincipalConfigurationProviderForRegion : string -> result P GoError;
  InstancePrincipalConfigurationWithCerts : string -> string -> string -> string -> list string -> result P GoError;
  ResourcePrincipalConfigurationProvider : result P GoError;
  OkeWorkloadIdentityConfigurationProvider : result P GoError;
  InstancePrincipalDelegationTokenConfigurationProvider : string -> result P GoError;
  InstancePrincipalDelegationTokenConfigurationProviderForRegion : string -> string -> result P GoError;
  ResourcePrincipalDelegationTokenConfigurationProvider : string -> result P GoError;
  ResourcePrincipalDelegationTokenConfigurationProviderForRegion : string -> string -> result P GoError;
  ReadFile : string -> result string GoError;
  TenancyOCID : P -> result string GoError;
  NewIdentityClient : P -> option GoError;
  ListAvailabilityDomains : P -> string -> option GoError
}.

Record AuthConfigProvider := mkAuthConfigProvider {
  Validator : option (P -> osokConfig -> bool);
  SecurityTokenProviderFactory : option authProviderFactory;
  UserPrincipalRawProviderFactory : option authProviderFactory;
  UserPrincipalFileProviderFactory : option authProviderFactory;
  InstancePrincipalProviderFactory : option authProviderFactory;
  InstancePrincipalWithCertsProviderFactory : option authProviderFactory;
  ResourcePrincipalProviderFactory : option authProviderFactory;
  OKEWorkloadIdentityProviderFactory : option authProviderFactory;
  InstancePrincipalDelegationTokenProviderFactory : option authProviderFactory;
  ResourcePrincipalDelegationTokenProviderFactory : option authProviderFactory
}.

Context (sdk : AuthSDK) (configProvider : AuthConfigProvider).

(** [fmt.Errorf(prefix+": %w", err)]. *)
Definition wrap_error (prefix : string) (err : GoError) : GoError := ErrWrap (prefix +++ ": " +++ ErrorString err) err.
Definition wrapped (prefix : string) (r : result P GoError) : result P GoError :=
  match r with Ok p => Ok p | Err err => Err (wrap_error prefix err) end.

Definition userPrincipalRawProvider : authProviderFactory := fun authCfg =>
  Ok (NewRawConfigurationProvider sdk (Tenancy authCfg) (User authCfg) (Region authCfg) (Fingerprint authCfg)
        (PrivateKey authCfg) (Passphrase authCfg)).

Definition userPrincipalFileProvider : authProviderFactory := fun authCfg =>
  wrapped "create file-backed user principal configuration provider"
    (ConfigurationProviderFromFileWithProfile sdk (EffectiveConfigFilePath authCfg) (EffectiveConfigFileProfile authCfg)
       (Passphrase authCfg)).

Definition instancePrincipalProvider : authProviderFactory := fun authCfg =>
  let region := TrimSpace (Region authCfg) in
  if (region =? "")%string then InstancePrincipalConfigurationProvider sdk
  else InstancePrincipalConfigurationProviderForRegion sdk region.

(** The loop over the intermediate certificates: the first unreadable one ends it. *)
Fixpoint read_intermediates (paths : list string) : result (list string) GoError :=
  match paths with
  | [] => Ok []
  | intermediatePath :: rest =>
      match ReadFile sdk intermediatePath with
      | Err err => Err (wrap_error ("read instance principal intermediate certificate " +++ Quote intermediatePath) err)
      | Ok intermediate =>
          match read_intermediates rest with Err e => Err e | Ok l => Ok (intermediate :: l) end
      end
  end.

Definition instancePrincipalWithCertsProvider : authProviderFactory := fun authCfg =>
  let region := TrimSpace (Region authCfg) in
  if (region =? "")%string then Err (ErrText "instance principal with certs requires REGION")
  else
    let leafCertificatePath := TrimSpace (InstancePrincipalLeafCertificatePath authCfg) in
    if (leafCertificatePath =? "")%string
    then Err (ErrText "instance principal with certs requires INSTANCE_PRINCIPAL_LEAF_CERTIFICATE_PATH")
    else
      let leafPrivateKeyPath := TrimSpace (InstancePrincipalLeafPrivateKeyPath authCfg) in
      if (leafPrivateKeyPath =? "")%string
      then Err (ErrText "instance principal with certs requires INSTANCE_PRINCIPAL_LEAF_PRIVATE_KEY_PATH")
      else
        match ReadFile sdk leafCertificatePath with
        | Err err => Err (wrap_error ("read instance principal leaf certificate " +++ Quote leafCertificatePath) err)
        | Ok leafCertificate =>
            match ReadFile sdk leafPrivateKeyPath with
            | Err err => Err (wrap_error ("read instance principal leaf private key " +++ Quote leafPrivateKeyPath) err)
            | Ok leafPrivateKey =>
                match read_intermediates (IntermediateCertificatePaths authCfg) with
                | Err err => Err err
                | Ok intermediateCertificates =>
                    wrapped "create instance principal with certs configuration provider"
                      (InstancePrincipalConfigurationWithCerts sdk region leafCertificate
                         (InstancePrincipalLeafPrivateKeyPassphrase authCfg) leafPrivateKey intermediateCertificates)
                end
            end
        end.

Definition resourcePrincipalProvider : authProviderFactory := fun _ => ResourcePrincipalConfigurationProvider sdk.
Definition okeWorkloadIdentityProvider : authProviderFactory := fun _ => OkeWorkloadIdentityConfigurationProvider sdk.

Definition instancePrincipalDelegationTokenProvider : authProviderFactory := fun authCfg =>
  let token := TrimSpace (InstancePrincipalDelegationToken authCfg) in
  if (token =? "")%string
  then Err (ErrText "instance principal delegation token auth requires INSTANCE_PRINCIPAL_DELEGATION_TOKEN")
  else
    let region := TrimSpace (Region authCfg) in
    if (region =? "")%string then InstancePrincipalDelegationTokenConfigurationProvider sdk token
    else InstancePrincipalDelegationTokenConfigurationProviderForRegion sdk token region.

Definition resourcePrincipalDelegationTokenProvider : authProviderFactory := fun authCfg =>
  let token := TrimSpace (ResourcePrincipalDelegationToken authCfg) in
  if (token =? "")%string
  then Err (ErrText "resource principal delegation token auth requires RESOURCE_PRINCIPAL_DELEGATION_TOKEN")
  else
    let region := TrimSpace (Region authCfg) in
    if (region =? "")%string then ResourcePrincipalDelegationTokenConfigurationProvider sdk token
    else ResourcePrincipalDelegationTokenConfigurationProviderForRegion sdk token region.

Definition securityTokenProvider : authProviderFactory := fun authCfg =>
  wrapped "create security token configuration provider"
    (ConfigurationProviderForSessionTokenWithProfile sdk (EffectiveConfigFilePath authCfg)
       (EffectiveConfigFileProfile authCfg) (Passphrase authCfg)).

Definition shouldValidate (authType : string) : bool :=
  negb ((authType =? AuthTypeResourcePrincipal)%string || (authType =? AuthTypeOKEWorkloadIdentity)%string
        || (authType =? AuthTypeInstancePrincipalDelegationToken)%string
        || (authType =? AuthTypeResourcePrincipalDelegationToken)%string).

Definition resolveValidationTenancy (provider : P) (config : osokConfig) : result string GoError :=
  let tenancy := TrimSpace (Tenancy (auth config)) in
  if negb (tenancy =? "")%string then Ok tenancy
  else match TenancyOCID sdk provider with
       | Err err => Err (wrap_error "resolve tenancy from provider" err)
       | Ok tenancy => Ok tenancy
       end.

Definition authValidate (provider : P) (config : osokConfig) : bool :=
  match resolveValidationTenancy provider config with
  | Err _ => false
  | Ok tenancy =>
      match NewIdentityClient sdk provider with
      | Some _ => false
      | None => match ListAvailabilityDomains sdk provider tenancy with Some _ => false | None => true end
      end
  end.

Definition validateProvider (provider : P) (config : osokConfig) : bool :=
  match Validator configProvider with
  | Some validator => validator provider config
  | None => authValidate provider config
  end.

Definition providerFactoryOr (factory : option authProviderFactory) (fallback : authProviderFactory) : authProviderFactory :=
  match factory with Some f => f | None => fallback end.

(** A provider that fails its validation is returned together with the error. *)
Definition newValidatedProvider (authType : string) (config : osokConfig) (authCfg : UserAuthConfig)
  (factory : authProviderFactory) : option P * option GoError :=
  match factory authCfg with
  | Err err => (None, Some err)
  | Ok provider =>
      if negb (shouldValidate authType) then (Some provider, None)
      else if negb (validateProvider provider config)
      then (Some provider, Some (ErrText ("failed to validate auth type " +++ Quote authType)))
      else (Some provider, None)
  end.

Definition userPrincipalAuthProvider (config : osokConfig) (authCfg : UserAuthConfig) : option P * option GoError :=
  if HasAnyUserPrincipalField authCfg then
    if negb (HasCompleteUserPrincipal authCfg) then (None, Some (ErrText "incomplete user principal configuration"))
    else newValidatedProvider AuthTypeUserPrincipal config authCfg
           (providerFactoryOr (UserPrincipalRawProviderFactory configProvider) userPrincipalRawProvider)
  else if HasConfigFileReference authCfg then
    newValidatedProvider AuthTypeUserPrincipal config authCfg
      (providerFactoryOr (UserPrincipalFileProviderFactory configProvider) userPrincipalFileProvider)
  else (None, Some (ErrText "user principal auth requires raw OCI user fields or OCI config file inputs")).

(** [None] for the configuration is a nil [OsokConfig]. *)
Definition GetAuthProvider (config : option osokConfig) : option P * option GoError :=
  match config with
  | None => (Some (DefaultConfigProvider sdk), None)
  | Some config =>
      let authCfg := auth config in
      let authType := EffectiveAuthType authCfg in
      let validated factory fallback := newValidatedProvider authType config authCfg (providerFactoryOr factory fallback) in
      if (authType =? AuthTypeSecurityToken)%string
      then validated (SecurityTokenProviderFactory configProvider) securityTokenProvider
      else if (authType =? AuthTypeUserPrincipal)%string then userPrincipalAuthProvider config authCfg
      else if (authType =? AuthTypeInstancePrincipal)%string
      then validated (InstancePrincipalProviderFactory configProvider) instancePrincipalProvider
      else if (authType =? AuthTypeInstancePrincipalWithCerts)%string
      then validated (InstancePrincipalWithCertsProviderFactory configProvider) instancePrincipalWithCertsProvider
      else if (authType =? AuthTypeResourcePrincipal)%string
      then validated (ResourcePrincipalProviderFactory configProvider) resourcePrincipalProvider
      else if (authType =? AuthTypeOKEWorkloadIdentity)%string
      then validated (OKEWorkloadIdentityProviderFactory configProvider) okeWorkloadIdentityProvider
      else if (authType =? AuthTypeInstancePrincipalDelegationToken)%string
      then validated (InstancePrincipalDelegationTokenProviderFactory configProvider) instancePrincipalDelegationTokenProvider
      else if (authType =? AuthTypeResourcePrincipalDelegationToken)%string
      then validated (ResourcePrincipalDelegationTokenProviderFactory configProvider) resourcePrincipalDelegationTokenProvider
      else if (authType =? AuthTypeWorkloadIdentityFederation)%string || (authType =? AuthTypeOAuthDelegationToken)%string
      then (None, Some (ErrText ("auth type " +++ Quote authType +++
                   " is not supported by the OCI Go SDK version pinned in this checkout")))
      else (None, Some (ErrText ("unsupported auth type " +++ Quote authType)))
  end.
End Provider.
Arguments AuthSDK : clear implicits.
Arguments AuthConfigProvider : clear implicits.

(** ** Resolution of the authentication type *)

Lemma ToLower_trim_stable s : ToLower (TrimSpace (ToLower (TrimSpace s))) = ToLower (TrimSpace s).
Proof. by rewrite TrimSpace_ToLower, ToLower_idem, TrimSpace_idem. Qed.

(** Normalising twice changes nothing. *)
Lemma NormalizedAuthType_idem u a : NormalizedAuthType (set_AuthType (NormalizedAuthType u) a) = NormalizedAuthType u.
Proof.
  unfold NormalizedAuthType. cbn [AuthType set_AuthType].
  destruct (ToLower (TrimSpace (AuthType u)) =? sdkAuthTypeInstancePrincipalDelegationToken)%string eqn:E1; [done|].
  destruct (ToLower (TrimSpace (AuthType u)) =? sdkAuthTypeResourcePrincipalDelegationToken)%string eqn:E2; [done|].
  rewrite ToLower_trim_stable. by rewrite E1, E2.
Qed.

Lemma EffectiveAuthType_set t a : NormalizedAuthType (set_AuthType t a) = t -> t <> "" -> EffectiveAuthType (set_AuthType t a) = t.
Proof. intros Hn Ht. unfold EffectiveAuthType. rewrite Hn. apply String.eqb_neq in Ht. by rewrite Ht. Qed.

(** The flag for instance principals does not matter: without user inputs the default is the same. *)
Lemma resolve_is_effective c : resolveConfiguredAuthType c = EffectiveAuthType (auth c).
Proof.
  unfold resolveConfiguredAuthType, EffectiveAuthType. destruct (negb _); [done|].
  destruct (useInstancePrincipals c), (HasAnyUserPrincipalInput (auth c)); done.
Qed.

Lemma EffectiveAuthType_stable u a : EffectiveAuthType (set_AuthType (EffectiveAuthType u) a) = EffectiveAuthType u.
Proof.
  apply EffectiveAuthType_set; unfold EffectiveAuthType.
  - destruct (NormalizedAuthType u =? "")%string; [|apply NormalizedAuthType_idem]. by destruct (HasAnyUserPrincipalInput u).
  - destruct (NormalizedAuthType u =? "")%string eqn:E; [by destruct (HasAnyUserPrincipalInput u)|]. by bool_prop.
Qed.

Lemma NormalizedAuthType_ext u v : AuthType u = AuthType v -> NormalizedAuthType u = NormalizedAuthType v.
Proof. unfold NormalizedAuthType. by intros ->. Qed.

(** An explicit type wins over the inputs. *)
Lemma explicit_type u : filled (AuthType u) = true -> EffectiveAuthType u = NormalizedAuthType u.
Proof.
  unfold EffectiveAuthType. destruct (NormalizedAuthType u =? "")%string eqn:E; [|done].
  unfold filled, NormalizedAuthType in *. intros Hf. apply negb_true_iff, String.eqb_neq in Hf. bool_prop. exfalso.
  revert E. destruct (_ =? sdkAuthTypeInstancePrincipalDelegationToken)%string; [done|].
  destruct (_ =? sdkAuthTypeResourcePrincipalDelegationToken)%string; [done|]. by destruct (TrimSpace (AuthType u)).
Qed.

(** The resolved authentication type is stable and ignores USEINSTANCEPRINCIPAL: in every environment the
    stored type is the one [GetAuthProvider] will act on, an explicit AUTH_TYPE wins, and changing only
    USEINSTANCEPRINCIPAL changes neither the type nor any other authentication input, so setting it to
    false does not turn instance principals off and setting it to true does not turn them on. *)
Theorem auth_type_resolution (Getenv Getenv' : string -> string)
  (same : forall name, name <> "USEINSTANCEPRINCIPAL" -> Getenv' name = Getenv name) :
  let config := GetConfigDetails Getenv in
  EffectiveAuthType (auth config) = AuthType (auth config) /\
  (filled (Getenv "AUTH_TYPE") = true ->
     AuthType (auth config) = NormalizedAuthType (set_AuthType (Getenv "AUTH_TYPE") emptyAuth)) /\
  auth (GetConfigDetails Getenv') = auth config.
Proof.
  intros config. unfold config, GetConfigDetails. cbn [auth]. rewrite !resolve_is_effective. split_and!.
  - rewrite EffectiveAuthType_stable. done.
  - intros Hf. cbn [AuthType set_AuthType].
    assert (Ha : AuthType (auth (SetUserConfigDetails Getenv (mkOsokConfig emptyAuth
      (if negb (Getenv "USEINSTANCEPRINCIPAL" =? "")%string then default false (ParseBool (Getenv "USEINSTANCEPRINCIPAL")) else false)
      (unless_empty (Getenv "VAULTDETAILS") "")))) = Getenv "AUTH_TYPE").
    { cbn [auth SetUserConfigDetails AuthType emptyAuth]. unfold unless_empty.
      destruct (Getenv "AUTH_TYPE" =? "")%string eqn:E; [by bool_prop|done]. }
    rewrite explicit_type by by rewrite Ha. by apply NormalizedAuthType_ext.
  - unfold SetUserConfigDetails. cbn [auth AuthType]. by rewrite !same by done.
Qed.

Lemma auth_type_resolution_witness :
  let env (flag : string) (name : string) := if (name =? "USEINSTANCEPRINCIPAL")%string then flag
                                    else if (name =? "REGION")%string then "us-ashburn-1" else "" in
  AuthType (auth (GetConfigDetails (env "true"))) = AuthTypeUserPrincipal /\
  auth (GetConfigDetails (env "false")) = auth (GetConfigDetails (env "true")).
Proof.
  intros env. split; [reflexivity|].
  apply (auth_type_resolution (env "true") (env "false")). intros name Hne. unfold env.
  apply String.eqb_neq in Hne. rewrite Hne. reflexivity.
Defined.

(** ** Providers *)

Section ProviderLemmas.
Context {P : Type} (sdk : AuthSDK P) (configProvider : AuthConfigProvider P).

Lemma newValidatedProvider_ok t config a f p :
  newValidatedProvider sdk configProvider t config a f = (p, None) ->
  exists provider, p = Some provider /\ f a = Ok provider /\
    (shouldValidate t = true -> validateProvider sdk configProvider provider config = true).
Proof.
  unfold newValidatedProvider. destruct (f a) as [provider|]; [|done]. exists provider.
  destruct (shouldValidate t); simpl in *; [|by simplify_eq].
  destruct (validateProvider _ _ _ _); simpl in *; by simplify_eq.
Qed.
End ProviderLemmas.

Definition supported_auth_types : list string :=
  [AuthTypeSecurityToken; AuthTypeUserPrincipal; AuthTypeInstancePrincipal; AuthTypeInstancePrincipalWithCerts;
   AuthTypeResourcePrincipal; AuthTypeOKEWorkloadIdentity; AuthTypeInstancePrincipalDelegationToken;
   AuthTypeResourcePrincipalDelegationToken].

(** A provider handed out without an error is of a supported type and was validated, unless its type is one of
    the four that are not; for a user principal the raw fields were complete, or there were none and a
    configuration file was named. *)
Theorem auth_provider_validated {P} (sdk : AuthSDK P) (configProvider : AuthConfigProvider P) (config : osokConfig) p :
  let authType := EffectiveAuthType (auth config) in
  GetAuthProvider sdk configProvider (Some config) = (p, None) ->
  exists provider, p = Some provider /\ authType ∈ supported_auth_types /\
    (shouldValidate authType = true -> validateProvider sdk configProvider provider config = true) /\
    (authType = AuthTypeUserPrincipal ->
       if HasAnyUserPrincipalField (auth config) then HasCompleteUserPrincipal (auth config) = true
       else HasConfigFileReference (auth config) = true).
Proof.
  intros authType. unfold GetAuthProvider, userPrincipalAuthProvider. fold authType. cbn zeta.
  repeat match goal with |- context [(authType =? ?t)%string] =>
    let E := fresh "E" in destruct (authType =? t)%string eqn:E; [apply String.eqb_eq in E; rewrite E|] end;
    try by (intros (provider & -> & _ & Hv)%newValidatedProvider_ok; exists provider; split_and!; [done|repeat constructor|done|done]).
  - destruct (HasAnyUserPrincipalField (auth config)); [destruct (HasCompleteUserPrincipal (auth config)); [|done]
                                                       |destruct (HasConfigFileReference (auth config)); [|done]];
      simpl; intros (provider & -> & _ & Hv)%newValidatedProvider_ok; exists provider; split_and!; try done; repeat constructor.
  - done.
  - done.
  - done.
Qed.

Definition no_factories (validator : option (unit -> osokConfig -> bool)) : AuthConfigProvider unit :=
  mkAuthConfigProvider validator None None None None None None None None None.
Definition sample_sdk : AuthSDK unit :=
  let ok := Ok tt in
  mkAuthSDK tt (fun _ _ _ _ _ _ => tt) (fun _ _ _ => ok) (fun _ _ _ => ok) ok (fun _ => ok) (fun _ _ _ _ _ => ok) ok ok
    (fun _ => ok) (fun _ _ => ok) (fun _ => ok) (fun _ _ => ok) (fun _ => Ok "pem") (fun _ => Ok "ocid1.tenancy")
    (fun _ => None) (fun _ _ => None).
Definition user_config : osokConfig :=
  mkOsokConfig (mkUserAuthConfig "" "us-ashburn-1" "t" "u" "key" "aa:bb" "" "" "" "" "" "" "" "" "") false "".

Lemma auth_provider_validated_witness :
  GetAuthProvider sample_sdk (no_factories None) (Some user_config) = (Some tt, None) /\
  validateProvider sample_sdk (no_factories None) tt user_config = true.
Proof.
  split; [reflexivity|].
  destruct (auth_provider_validated sample_sdk (no_factories None) user_config (Some tt) eq_refl) as ([] & _ & _ & Hv & _).
  apply Hv. reflexivity.
Defined.

(** ** Certificate paths *)

Fixpoint all_chars (p : ascii -> bool) (s : string) : bool :=
  match s with EmptyString => true | String c s' => p c && all_chars p s' end.

Definition no_separator (s : string) : bool := all_chars (fun c => negb (path_separator c)) s.

Lemma all_chars_trim_left p s : all_chars p s = true -> all_chars p (trim_left s) = true.
Proof. induction s as [|c s IH]; simpl; [done|]. intros [Hc Hs]%andb_true_iff. destruct (is_space c); [auto|]. simpl. by rewrite Hc. Qed.

Lemma all_chars_trim_right p s : all_chars p s = true -> all_chars p (trim_right s) = true.
Proof.
  induction s as [|c s IH]; simpl; [done|]. intros [Hc Hs]%andb_true_iff. specialize (IH Hs).
  destruct (trim_right s); [destruct (is_space c)|]; simpl in *; by rewrite ?Hc.
Qed.

Lemma all_chars_TrimSpace p s : all_chars p s = true -> all_chars p (TrimSpace s) = true.
Proof. intros H. by apply all_chars_trim_right, all_chars_trim_left. Qed.

(** A field is not empty and has no separator. *)
Lemma FieldsFunc_fields sep s : Forall (fun f => f <> "" /\ all_chars (fun c => negb (sep c)) f = true) (FieldsFunc s sep).
Proof.
  induction s as [|c s IH]; cbn [FieldsFunc]; [done|]. destruct (sep c) eqn:Ec; [done|].
  assert (Hone : String c "" <> "" /\ all_chars (fun c => negb (sep c)) (String c "") = true) by (simpl; by rewrite Ec).
  destruct s as [|d s']; [by constructor|]. destruct (sep d); [by constructor|].
  destruct (FieldsFunc (String d s') sep) as [|h t]; [by constructor|].
  apply Forall_cons in IH as [[_ Hh] Ht]. constructor; [|done]. split; [done|]. simpl. by rewrite Ec.
Qed.

(** A field followed by a separator, or by nothing, is split off. *)
Lemma FieldsFunc_app sep f c s :
  f <> "" -> all_chars (fun c => negb (sep c)) f = true -> sep c = true ->
  FieldsFunc (f +++ String c s) sep = f :: FieldsFunc s sep.
Proof.
  intros Hf Ha Hc. induction f as [|a f IH]; [done|]. cbn [all_chars] in Ha. apply andb_true_iff in Ha as [Ha1 Ha2].
  apply negb_true_iff in Ha1. rewrite string_app_cons. cbn [FieldsFunc]. rewrite Ha1. destruct f as [|b f].
  - simpl. rewrite Hc. done.
  - rewrite (IH ltac:(done) Ha2). rewrite string_app_cons. cbn [all_chars] in Ha2. apply andb_true_iff in Ha2 as [Hb _].
    apply negb_true_iff in Hb. by rewrite Hb.
Qed.

Lemma FieldsFunc_one sep f : f <> "" -> all_chars (fun c => negb (sep c)) f = true -> FieldsFunc f sep = [f].
Proof.
  intros Hf Ha. induction f as [|a f IH]; [done|]. cbn [all_chars] in Ha. apply andb_true_iff in Ha as [Ha1 Ha2].
  apply negb_true_iff in Ha1. cbn [FieldsFunc]. rewrite Ha1. destruct f as [|b f]; [done|].
  rewrite (IH ltac:(done) Ha2). cbn [all_chars] in Ha2. apply andb_true_iff in Ha2 as [Hb _].
  apply negb_true_iff in Hb. by rewrite Hb.
Qed.

(** A path as the list holds it: not empty, without white space around it, without separators. *)
Definition clean_path (p : string) : Prop := p <> "" /\ TrimSpace p = p /\ no_separator p = true.

Lemma FieldsFunc_Join ps : Forall clean_path ps -> FieldsFunc (Join ps ",") path_separator = ps.
Proof.
  intros H. induction H as [|p ps (Hne & _ & Hs) Hps IH]; [done|]. destruct ps as [|q ps].
  - by apply FieldsFunc_one.
  - change (Join (p :: q :: ps) ",") with (p +++ String "," (Join (q :: ps) ",")). rewrite FieldsFunc_app by done. by rewrite IH.
Qed.

Lemma trim_left_clean p : TrimSpace p = p -> trim_left p = p.
Proof. intros H. rewrite <-H at 1. unfold TrimSpace. rewrite trim_left_trim_right. exact H. Qed.
Lemma trim_right_clean p : TrimSpace p = p -> trim_right p = p.
Proof. intros H. rewrite <-H at 1. unfold TrimSpace. rewrite trim_right_idem. exact H. Qed.

Lemma trim_left_app p s : p <> "" -> trim_left p = p -> trim_left (p +++ s) = p +++ s.
Proof.
  destruct p as [|c p]; [done|]. intros _. rewrite string_app_cons. cbn [trim_left]. destruct (is_space c) eqn:E; [|done].
  intros H. exfalso. assert (Hlen : String.length (trim_left p) <= String.length p).
  { clear. induction p as [|d p IH]; simpl; [done|]. destruct (is_space d); simpl; lia. }
  rewrite H in Hlen. simpl in Hlen. lia.
Qed.

Lemma trim_right_nonempty s t : trim_right t = t -> t <> "" -> trim_right (s +++ t) = s +++ t.
Proof.
  intros Ht Hne. induction s as [|c s IH]; [done|]. rewrite string_app_cons. cbn [trim_right]. rewrite IH.
  destruct (s +++ t) as [|d u] eqn:E; [|done]. exfalso. destruct s; [by simpl in E; subst|by rewrite string_app_cons in E].
Qed.

Lemma Join_clean_right ps : ps <> [] -> Forall clean_path ps -> trim_right (Join ps ",") = Join ps "," /\ Join ps "," <> "".
Proof.
  intros Hne H. induction H as [|p ps (Hp & Ht & _) Hps IH]; [done|]. destruct ps as [|q ps].
  - split; [by apply trim_right_clean|done].
  - destruct (IH ltac:(done)) as [IH1 IH2]. change (Join (p :: q :: ps) ",") with (p +++ ("," +++ Join (q :: ps) ",")).
    split; [|by destruct p]. apply trim_right_nonempty; [|done]. by apply trim_right_nonempty.
Qed.

Lemma Join_clean ps : ps <> [] -> Forall clean_path ps -> TrimSpace (Join ps ",") = Join ps "," /\ Join ps "," <> "".
Proof.
  intros Hne H. destruct (Join_clean_right ps Hne H) as [Hr Hn]. split; [|done]. unfold TrimSpace.
  assert (Hl : trim_left (Join ps ",") = Join ps ","); [|by rewrite Hl].
  destruct ps as [|p ps]; [done|]. apply Forall_cons in H as [(Hp & Ht & _) _]. apply trim_left_clean in Ht.
  destruct ps as [|q ps]; [done|]. change (Join (p :: q :: ps) ",") with (p +++ ("," +++ Join (q :: ps) ",")).
  by apply trim_left_app.
Qed.

(** Certificate paths survive the trip through the environment: the list read from a setting holds only clean
    paths, and a non-empty list of clean paths joined with commas is read back as it was. *)
Theorem certificate_paths_round_trip (u : UserAuthConfig) (ps : list string) :
  Forall clean_path (IntermediateCertificatePaths u) /\
  (ps <> [] -> Forall clean_path ps -> InstancePrincipalIntermediateCertPathList u = Join ps "," ->
   IntermediateCertificatePaths u = ps).
Proof.
  unfold IntermediateCertificatePaths. split.
  - destruct (_ =? "")%string; [done|]. apply List.Forall_forall. intros p [Hin Hne]%filter_In.
    apply in_map_iff in Hin as (f & <- & Hf). apply negb_true_iff, String.eqb_neq in Hne.
    pose proof (FieldsFunc_fields path_separator (TrimSpace (InstancePrincipalIntermediateCertPathList u))) as Hall.
    rewrite List.Forall_forall in Hall. destruct (Hall f Hf) as [_ Hs].
    split_and!; [done|apply TrimSpace_idem|by apply all_chars_TrimSpace].
  - intros Hne Hps ->. destruct (Join_clean ps Hne Hps) as [-> Hn]. apply String.eqb_neq in Hn. rewrite Hn.
    rewrite FieldsFunc_Join by done. clear Hne Hn. induction Hps as [|p ps (Hp & Ht & _) _ IH]; simpl; [done|].
    rewrite Ht. apply String.eqb_neq in Hp. rewrite Hp. simpl. by rewrite IH.
Qed.

Lemma certificate_paths_round_trip_witness :
  IntermediateCertificatePaths (mkUserAuthConfig "" "" "" "" "" "" "" "" "" "" "" "" "" "" "/a.pem,/b.pem") = ["/a.pem"; "/b.pem"].
Proof.
  apply (certificate_paths_round_trip (mkUserAuthConfig "" "" "" "" "" "" "" "" "" "" "" "" "" "" "/a.pem,/b.pem") ["/a.pem"; "/b.pem"]).
  - intros [=].
  - repeat (apply Forall_cons_2; [split; [intros [=]|split; reflexivity]|]). apply Forall_nil_2.
  - reflexivity.
Defined.
