(* ===== verification/ManagerConfig.v ===== *)
(** * Options of the controller manager

    [src/main_manager_config.go]: the options of the manager, from the command line or
    from a configuration file.  Reading the file and strict YAML decoding are
    parameters; [ctrl.Options] has the fields the code sets (the scheme is a constant). *)

From stdpp Require Import gmap.
From S2P Require Import Prelude GoStrings Shared GoErrors.
Local Open Scope string_scope.
Local Open Scope list_scope.

Definition defaultLeaderElectionID := "40558063.oci".
Definition expectedControllerManagerConfigAPIVersion := "controller-runtime.sigs.k8s.io/v1alpha1".
Definition expectedControllerManagerConfigKind := "ControllerManagerConfiguration".

Record startupFlags := mkStartupFlags {
  configFile : string;
  metricsAddr : string;
  probeAddr : string;
  enableLeaderElection : bool;
  initOSOKResources : bool
}.

(** The values of the flags that are not given. *)
Definition defaultFlags : startupFlags := mkStartupFlags "" ":8080" ":8081" true false.

Record leaderElectionConfigFile := mkLeaderElectionConfigFile {
  LeaderElect : option bool;
  le_LeaseDuration : option Duration;
  le_RenewDeadline : option Duration;
  le_RetryPeriod : option Duration;
  ResourceLock : string;
  ResourceName : string;
  ResourceNamespace : string
}.

Record controllerConfigFile := mkControllerConfigFile {
  ccf_GroupKindConcurrency : gmap string Z;
  ccf_CacheSyncTimeout : option Duration;
  ccf_RecoverPanic : option bool
}.

Record controllerManagerConfigFile := mkControllerManagerConfigFile {
  APIVersion : string;
  Kind : string;
  cfg_SyncPeriod : option Duration;
  CacheNamespace : string;
  cfg_GracefulShutdownTimeout : option Duration;
  cfg_LeaderElection : option leaderElectionConfigFile;
  cfg_Controller : option controllerConfigFile;
  cfg_MetricsBindAddress : string;
  cfg_HealthProbeBindAddress : string;
  cfg_ReadinessEndpointName : string;
  cfg_LivenessEndpointName : string;
  cfg_WebhookPort : option Z;
  cfg_WebhookHost : string;
  cfg_WebhookCertDir : string
}.

Record WebhookOptions := mkWebhookOptions { wh_Port : Z; wh_Host : string; wh_CertDir : string }.

Record ControllerOptions := mkControllerOptions {
  GroupKindConcurrency : gmap string Z;
  RecoverPanic : option bool;
  CacheSyncTimeout : Duration
}.

(** [ctrl.Options]; the zero value of each field is what the code leaves alone. *)
Record Options := mkOptions {
  MetricsBindAddress : string;
  WebhookServer : option WebhookOptions;
  CacheSyncPeriod : option Duration;
  CacheDefaultNamespaces : list string;
  GracefulShutdownTimeout : option Duration;
  HealthProbeBindAddress : string;
  ReadinessEndpointName : string;
  LivenessEndpointName : string;
  Controller : ControllerOptions;
  LeaderElection : bool;
  LeaderElectionResourceLock : string;
  LeaderElectionNamespace : string;
  LeaderElectionID : string;
  LeaseDuration : option Duration;
  RenewDeadline : option Duration;
  RetryPeriod : option Duration
}.

Definition intValue (value : option Z) : Z := default 0%Z value.

(** An assignment guarded by [v != ""], and one guarded by [p != nil]. *)
Definition assign_string (v old : string) : string := if (v =? "")%string then old else v.
Definition assign_some {A} (p old : option A) : option A := match p with Some v => Some v | None => old end.

Definition defaultManagerOptions (flags : startupFlags) : Options :=
  mkOptions (metricsAddr flags) None None [] None (probeAddr flags) "" "" (mkControllerOptions ∅ None 0%Z)
    (enableLeaderElection flags) "" "" defaultLeaderElectionID None None None.

Definition validateControllerManagerConfigTypeMeta (cfg : controllerManagerConfigFile) : option GoError :=
  if negb (APIVersion cfg =? expectedControllerManagerConfigAPIVersion)%string then
    Some (ErrText ("controller manager config apiVersion = " +++ Quote (APIVersion cfg) +++ ", want "
                   +++ Quote expectedControllerManagerConfigAPIVersion))
  else if negb (Kind cfg =? expectedControllerManagerConfigKind)%string then
    Some (ErrText ("controller manager config kind = " +++ Quote (Kind cfg) +++ ", want "
                   +++ Quote expectedControllerManagerConfigKind))
  else None.

Definition applyLeaderElectionConfig (o : Options) (cfg : leaderElectionConfigFile) : Options :=
  mkOptions (MetricsBindAddress o) (WebhookServer o) (CacheSyncPeriod o) (CacheDefaultNamespaces o)
    (GracefulShutdownTimeout o) (HealthProbeBindAddress o) (ReadinessEndpointName o) (LivenessEndpointName o) (Controller o)
    (match LeaderElect cfg with Some b => b | None => LeaderElection o end)
    (assign_string (ResourceLock cfg) (LeaderElectionResourceLock o))
    (assign_string (ResourceNamespace cfg) (LeaderElectionNamespace o))
    (assign_string (ResourceName cfg) (LeaderElectionID o))
    (assign_some (le_LeaseDuration cfg) (LeaseDuration o))
    (assign_some (le_RenewDeadline cfg) (RenewDeadline o))
    (assign_some (le_RetryPeriod cfg) (RetryPeriod o)).

Definition toOptions (cfg : controllerManagerConfigFile) : Options :=
  let options :=
    mkOptions (cfg_MetricsBindAddress cfg)
      (Some (mkWebhookOptions (intValue (cfg_WebhookPort cfg)) (cfg_WebhookHost cfg) (cfg_WebhookCertDir cfg)))
      (assign_some (cfg_SyncPeriod cfg) None)
      (if negb (CacheNamespace cfg =? "")%string then [CacheNamespace cfg] else [])
      (assign_some (cfg_GracefulShutdownTimeout cfg) None)
      (assign_string (cfg_HealthProbeBindAddress cfg) "")
      (assign_string (cfg_ReadinessEndpointName cfg) "")
      (assign_string (cfg_LivenessEndpointName cfg) "")
      (match cfg_Controller cfg with
       | None => mkControllerOptions ∅ None 0%Z
       | Some c => mkControllerOptions (ccf_GroupKindConcurrency c) (ccf_RecoverPanic c)
                     (match ccf_CacheSyncTimeout c with Some d => d | None => 0%Z end)
       end)
      false "" "" "" None None None in
  match cfg_LeaderElection cfg with
  | None => options
  | Some leaderElection => applyLeaderElectionConfig options leaderElection
  end.

Section Files.
(** [os.ReadFile] and [yaml.UnmarshalStrict] into a configuration. *)
Context (ReadFile : string -> result string GoError) (UnmarshalStrict : string -> result controllerManagerConfigFile GoError).

Definition loadManagerOptionsFromFile (path : string) : result Options GoError :=
  match ReadFile path with
  | Err err => Err err
  | Ok content =>
      match UnmarshalStrict content with
      | Err err => Err err
      | Ok cfg =>
          match validateControllerManagerConfigTypeMeta cfg with
          | Some err => Err err
          | None => Ok (toOptions cfg)
          end
      end
  end.

Definition resolveManagerOptions (flags : startupFlags) : result Options GoError :=
  if (configFile flags =? "")%string then Ok (defaultManagerOptions flags)
  else
    match loadManagerOptionsFromFile (configFile flags) with
    | Err err => Err (ErrWrap ("unable to load the config file: " +++ ErrorString err) err)
    | Ok options => Ok options
    end.
End Files.

(** A configuration file replaces the flags: with a file the options come from it alone, and only from a file
    that can be read, decodes and has the expected version and kind; leader election is then on exactly when the
    file says so, under the name the file gives, whereas without a file it follows the flag, on by default,
    under the operator's own name. *)
Theorem manager_options_source (ReadFile : string -> result string GoError)
  (UnmarshalStrict : string -> result controllerManagerConfigFile GoError) (flags : startupFlags) (options : Options) :
  resolveManagerOptions ReadFile UnmarshalStrict flags = Ok options ->
  if (configFile flags =? "")%string then
    LeaderElection options = enableLeaderElection flags /\ LeaderElectionID options = defaultLeaderElectionID /\
    MetricsBindAddress options = metricsAddr flags /\ HealthProbeBindAddress options = probeAddr flags
  else
    (forall flags', configFile flags' = configFile flags -> resolveManagerOptions ReadFile UnmarshalStrict flags' = Ok options) /\
    exists content cfg, ReadFile (configFile flags) = Ok content /\ UnmarshalStrict content = Ok cfg /\
      APIVersion cfg = expectedControllerManagerConfigAPIVersion /\ Kind cfg = expectedControllerManagerConfigKind /\
      LeaderElection options = default false (cfg_LeaderElection cfg ≫= LeaderElect) /\
      LeaderElectionID options = default "" (ResourceName <$> cfg_LeaderElection cfg) /\
      MetricsBindAddress options = cfg_MetricsBindAddress cfg /\
      HealthProbeBindAddress options = cfg_HealthProbeBindAddress cfg.
Proof.
  unfold resolveManagerOptions. intros Hrun. destruct (configFile flags =? "")%string eqn:Ef; [by simplify_eq/=|].
  split; [intros flags' ->; by rewrite Ef|]. unfold loadManagerOptionsFromFile in Hrun.
  destruct (ReadFile (configFile flags)) as [content|]; [|done]. destruct (UnmarshalStrict content) as [cfg|] eqn:Ec; [|done].
  unfold validateControllerManagerConfigTypeMeta in Hrun.
  destruct (APIVersion cfg =? _)%string eqn:Ea; [|done]. destruct (Kind cfg =? _)%string eqn:Ek; [|done].
  simpl in Hrun. injection Hrun as <-. bool_prop. exists content, cfg. split_and!; try done; unfold toOptions.
  - destruct (cfg_LeaderElection cfg) as [le|]; [|done]. simpl. by destruct (LeaderElect le).
  - destruct (cfg_LeaderElection cfg) as [le|]; [|done]. simpl. unfold assign_string. by destruct (ResourceName le).
  - by destruct (cfg_LeaderElection cfg).
  - assert (Hs : forall v, assign_string v "" = v) by by intros [].
    destruct (cfg_LeaderElection cfg); simpl; by rewrite Hs.
Qed.

Definition plain_config : controllerManagerConfigFile :=
  mkControllerManagerConfigFile expectedControllerManagerConfigAPIVersion expectedControllerManagerConfigKind
    None "" None None None ":8443" ":8081" "" "" (Some 9443%Z) "" "".

Lemma manager_options_source_witness :
  resolveManagerOptions (fun _ => Ok "yaml") (fun _ => Ok plain_config) (mkStartupFlags "/config.yaml" "" "" true false)
    = Ok (toOptions plain_config) /\ LeaderElection (toOptions plain_config) = false.
Proof.
  split; [reflexivity|].
  destruct (manager_options_source (fun _ => Ok "yaml") (fun _ => Ok plain_config)
    (mkStartupFlags "/config.yaml" "" "" true false) (toOptions plain_config) eq_refl)
    as (_ & content & cfg & _ & [= <-] & _ & _ & Hle & _).
  exact Hle.
Defined.
