(* ===== verification/GeneratorNames.v ===== *)
(** * Names in the code generator ([internal/generator/names.go])

    Singular and plural forms, camel-case tokens and lower camel case.  The camel-case
    splitter is a second copy of the runtime's ([request_builder.go]); the two are
    proved to agree, so that the names the generator writes are the names the runtime
    looks up. *)

From Stdlib Require Import Ascii String.
From S2P Require Import Prelude GoStrings JsonValues.
Local Open Scope string_scope.
Local Open Scope list_scope.

(** ** Singular and plural *)

Record singularRule := mkSingularRule {
  suffix : string;
  replacement : string;
  recursive : bool;
  preserveExact : bool
}.

Definition specialSingularRules : list singularRule :=
  [mkSingularRule "Indices" "Index" false false;
   mkSingularRule "indices" "index" false false;
   mkSingularRule "Statuses" "Status" false false;
   mkSingularRule "statuses" "status" false false;
   mkSingularRule "Status" "Status" true true;
   mkSingularRule "status" "status" true true;
   mkSingularRule "Stats" "Stats" true true;
   mkSingularRule "stats" "stats" true true].

Definition esPluralSuffixes : list string := ["sses"; "shes"; "ches"; "xes"; "zes"].
Definition unpluralizedSuffixes : list string :=
  ["Analysis"; "analysis"; "Metadata"; "metadata"; "Information"; "information"].

Definition hasPluralESSuffix (name : string) : bool := existsb (HasSuffix name) esPluralSuffixes.
Definition hasUnpluralizedSuffix (name : string) : bool := existsb (HasSuffix name) unpluralizedSuffixes.

Definition singularizeStandardSuffix (name : string) : option string :=
  if hasUnpluralizedSuffix name then Some name
  else if HasSuffix name "ies" && (3 <? String.length name)%nat then Some (TrimSuffix name "ies" +++ "y")
  else if hasPluralESSuffix name then Some (TrimSuffix name "es")
  else if HasSuffix name "s" && negb (HasSuffix name "ss") then Some (TrimSuffix name "s")
  else None.

(** [applySpecialSingularRule], with [singularize] for the recursive rules. *)
Definition applySpecialSingularRule (singularize : string -> string) (name : string) (rule : singularRule) : option string :=
  if negb (HasSuffix name (suffix rule)) then None
  else
    let stem := TrimSuffix name (suffix rule) in
    if (stem =? "")%string && preserveExact rule then Some name
    else if recursive rule then Some (singularize stem +++ replacement rule)
    else Some (stem +++ replacement rule).

Fixpoint first_rule (singularize : string -> string) (name : string) (rules : list singularRule) : option string :=
  match rules with
  | [] => None
  | rule :: rest =>
      match applySpecialSingularRule singularize name rule with
      | Some singular => Some singular
      | None => first_rule singularize name rest
      end
  end.

Definition applySpecialSingularRules (singularize : string -> string) (name : string) : option string :=
  first_rule singularize name specialSingularRules.

(** The recursion is on a proper prefix of the name: its length is enough fuel. *)
Fixpoint singularize_fuel (fuel : nat) (name : string) : string :=
  match fuel with
  | O => name
  | S fuel =>
      match applySpecialSingularRules (singularize_fuel fuel) name with
      | Some singular => singular
      | None => match singularizeStandardSuffix name with Some singular => singular | None => name end
      end
  end.

Definition singularize (name : string) : string := singularize_fuel (S (String.length name)) name.

Definition isVowel (b : ascii) : bool := existsb (Ascii.eqb b) ["a"; "e"; "i"; "o"; "u"; "A"; "E"; "I"; "O"; "U"]%char.

(** [name[len(name)-1]] and [name[len(name)-2]]. *)
Definition char_from_end (n : nat) (name : string) : option ascii := String.get (String.length name - n) name.

Definition hasVowelBeforeSuffix (name : string) (suf : ascii) : bool :=
  if (String.length name <? 2)%nat then false
  else match char_from_end 1 name, char_from_end 2 name with
       | Some l, Some p =>
           if negb (Ascii.eqb l suf) then false
           else existsb (Ascii.eqb (lower_char p)) ["a"; "e"; "i"; "o"; "u"]%char
       | _, _ => false
       end.

Definition pluralize (name : string) : string :=
  if HasSuffix name "Index" then TrimSuffix name "Index" +++ "Indices"
  else if HasSuffix name "index" then TrimSuffix name "index" +++ "indices"
  else if hasUnpluralizedSuffix name then name
  else if HasSuffix name "Status" || HasSuffix name "status" then name +++ "es"
  else if HasSuffix name "Stats" || HasSuffix name "stats" then name
  else if HasSuffix name "s" && negb (HasSuffix name "ss") then name
  else if HasSuffix name "y" && (1 <? String.length name)%nat then
    if hasVowelBeforeSuffix name "y" then name +++ "s" else TrimSuffix name "y" +++ "ies"
  else if HasSuffix name "ss" then name +++ "es"
  else if HasSuffix name "x" || HasSuffix name "z" || HasSuffix name "ss" || HasSuffix name "ch" || HasSuffix name "sh"
  then name +++ "es"
  else name +++ "s".

Definition fileStem (name : string) : string := ToLower name.

(** ** Camel case *)

Definition endsUpperRunBeforeLower (runes : list ascii) (index : nat) (prev : ascii) : bool :=
  is_upper prev && (index + 1 <? length runes)%nat && match runes !! (index + 1) with Some c => is_lower c | None => false end.

Definition shouldSplitCamelToken (runes : list ascii) (index : nat) : bool :=
  if (index =? 0)%nat then false
  else match runes !! index, runes !! (index - 1) with
       | Some current, Some prev =>
           if negb (is_upper current) then false
           else is_lower prev || is_digit prev || endsUpperRunBeforeLower runes index prev
       | _, _ => false
       end.

Definition appendLowerToken (tokens : list string) (current : list ascii) : list string :=
  match current with [] => tokens | _ => tokens ++ [ToLower (string_of_list_ascii current)] end.

(** The loop of [splitCamel]: the state is the tokens and the current token. *)
Definition split_step (runes : list ascii) (st : list string * list ascii) (i : nat) : list string * list ascii :=
  let '(tokens, current) := st in
  let '(tokens, current) :=
    if shouldSplitCamelToken runes i then (appendLowerToken tokens current, []) else (tokens, current) in
  (tokens, current ++ match runes !! i with Some r => [r] | None => [] end).

Definition gen_splitCamel (name : string) : list string :=
  if (TrimSpace name =? "")%string then []
  else
    let runes := list_ascii_of_string name in
    let '(tokens, current) := fold_left (split_step runes) (seq 0 (length runes)) ([], []) in
    appendLowerToken tokens current.

(** [strings.ToUpper(token[:1]) + token[1:]]. *)
Definition upper_first (token : string) : string :=
  ToUpper (String.substring 0 1 token) +++ String.substring 1 (String.length token) token.

Definition gen_lowerCamel (name : string) : string :=
  match gen_splitCamel name with
  | [] => ""
  | first :: rest => fold_left (fun builder token => builder +++ upper_first token) rest first
  end.

Definition normalizedTokens (name : string) : list string := map singularize (gen_splitCamel name).

(** [token.Lookup(name).IsKeyword()]: the keywords of Go. *)
Definition go_keywords : list string :=
  ["break"; "case"; "chan"; "const"; "continue"; "default"; "defer"; "else"; "fallthrough"; "for"; "func"; "go"; "goto";
   "if"; "import"; "interface"; "map"; "package"; "range"; "return"; "select"; "struct"; "switch"; "type"; "var"].

Definition safeGoIdentifier (name : string) : string :=
  let name := TrimSpace name in
  if (name =? "")%string then ""
  else if containsString go_keywords name then name +++ "_"
  else name.

(** ** The two splitters agree *)

Lemma string_of_list_app a b : string_of_list_ascii (a ++ b) = string_of_list_ascii a +++ string_of_list_ascii b.
Proof. induction a as [|c a IH]; simpl; [done|]. by rewrite IH. Qed.

Lemma shouldSplit_at l1 c l2 :
  shouldSplitCamelToken (l1 ++ c :: l2) (length l1) =
    match last l1 with Some p => splitBeforeCamelRune p c (head l2) | None => false end.
Proof.
  unfold shouldSplitCamelToken, endsUpperRunBeforeLower, splitBeforeCamelRune.
  destruct l1 as [|a l1 _] using rev_ind; [done|]. rewrite last_snoc, length_app, <-app_assoc. cbn [length app].
  replace (length l1 + 1 =? 0)%nat with false by (symmetry; apply Nat.eqb_neq; lia).
  rewrite lookup_app_r by lia. replace (length l1 + 1 - length l1)%nat with 1%nat by lia. cbn [lookup list_lookup].
  rewrite lookup_app_r by lia. replace (length l1 + 1 - 1 - length l1)%nat with 0%nat by lia. cbn [lookup list_lookup].
  rewrite lookup_app_r by lia. replace (length l1 + 1 + 1 - length l1)%nat with 2%nat by lia. cbn [lookup list_lookup].
  rewrite length_app. cbn [length]. destruct (is_upper c); [|done]. cbn [negb andb]. destruct l2 as [|d l2]; cbn [head lookup list_lookup length].
  - by rewrite !andb_false_r.
  - replace (length l1 + 1 + 1 <? length l1 + S (S (S (length l2))))%nat with true by (symmetry; apply Nat.ltb_lt; lia).
    by rewrite andb_true_r.
Qed.

Lemma split_loop l2 : forall l1 tokens cur, (l1 = [] <-> cur = []) ->
  (let '(t, c) := fold_left (split_step (l1 ++ l2)) (seq (length l1) (length l2)) (tokens, cur) in appendLowerToken t c)
  = tokens ++ split_camel (last l1) (string_of_list_ascii cur) (string_of_list_ascii l2).
Proof.
  induction l2 as [|c l2 IH]; intros l1 tokens cur Hcur.
  - simpl. destruct cur as [|a cur]; simpl; [by rewrite app_nil_r|done].
  - cbn [length seq fold_left]. cbn [split_camel string_of_list_ascii].
    assert (Hstep : split_step (l1 ++ c :: l2) (tokens, cur) (length l1) =
      (if match last l1 with Some p => splitBeforeCamelRune p c (head l2) | None => false end
       then (appendLowerToken tokens cur, [c]) else (tokens, cur ++ [c]))).
    { unfold split_step. rewrite shouldSplit_at. rewrite lookup_app_r, Nat.sub_diag by lia. cbn [lookup list_lookup].
      by destruct (match last l1 with Some p => _ | None => _ end). }
    rewrite Hstep. replace (l1 ++ c :: l2) with ((l1 ++ [c]) ++ l2) by by rewrite <-app_assoc.
    replace (S (length l1)) with (length (l1 ++ [c])) by (rewrite length_app; simpl; lia).
    assert (Hnext : match string_of_list_ascii l2 with String d _ => Some d | EmptyString => None end = head l2) by by destruct l2.
    rewrite Hnext. destruct (match last l1 with Some p => _ | None => _ end) eqn:Esp.
    + rewrite IH by by destruct l1. rewrite last_snoc. destruct cur as [|a cur].
      * assert (l1 = []) as -> by by apply Hcur. done.
      * cbn [appendLowerToken]. rewrite <-app_assoc. done.
    + rewrite IH by (split; by destruct l1, cur). rewrite last_snoc, string_of_list_app. done.
Qed.

Lemma splitCamel_agree name : gen_splitCamel name = splitCamel name.
Proof.
  unfold gen_splitCamel, splitCamel. destruct (TrimSpace name =? "")%string; [done|].
  etransitivity; [by apply (split_loop (list_ascii_of_string name) [] [] [])|].
  simpl. by rewrite string_of_list_ascii_of_string.
Qed.

Lemma concat_fold (f : string -> string) l : forall b,
  fold_left (fun builder token => builder +++ f token) l b = b +++ String.concat "" (map f l).
Proof.
  induction l as [|x l IH]; intros b; simpl; [by rewrite string_app_nil_r|]. rewrite IH, string_app_assoc. f_equal.
  destruct l as [|y l]; simpl; [by rewrite string_app_nil_r|done].
Qed.

(** The generator and the runtime agree on names: the two independent copies of the camel-case splitter
    produce the same tokens, and the two lower-camel-case functions the same name, for every input. *)
Theorem generator_runtime_names_agree (name : string) :
  gen_splitCamel name = splitCamel name /\ gen_lowerCamel name = lowerCamel name.
Proof.
  split; [apply splitCamel_agree|]. unfold gen_lowerCamel, lowerCamel. rewrite splitCamel_agree.
  destruct (splitCamel name) as [|x l]; [done|]. apply (concat_fold upper_first).
Qed.

(** ** Suffixes *)

Fixpoint rev_onto (s acc : string) : string :=
  match s with EmptyString => acc | String c s' => rev_onto s' (String c acc) end.
Definition rev_string (s : string) : string := rev_onto s "".

Lemma rev_onto_app a b acc : rev_onto (a +++ b) acc = rev_onto b (rev_onto a acc).
Proof. revert acc. induction a as [|c a IH]; intros acc; [done|]. rewrite string_app_cons. simpl. apply IH. Qed.

Lemma rev_onto_spec s : forall acc, rev_onto s acc = rev_string s +++ acc.
Proof.
  unfold rev_string. induction s as [|c s IH]; intros acc; [done|]. simpl. rewrite (IH (String c acc)), (IH (String c "")).
  by rewrite string_app_assoc.
Qed.

Lemma rev_string_app a b : rev_string (a +++ b) = rev_string b +++ rev_string a.
Proof. unfold rev_string at 1. by rewrite rev_onto_app, rev_onto_spec. Qed.

Lemma rev_string_involutive s : rev_string (rev_string s) = s.
Proof.
  induction s as [|c s IH]; [done|]. change (rev_string (String c s)) with (rev_onto s (String c "")).
  rewrite rev_onto_spec, rev_string_app, IH. done.
Qed.

Lemma string_length_app a b : String.length (a +++ b) = String.length a + String.length b.
Proof. induction a as [|c a IH]; simpl; [done|]. by rewrite IH. Qed.

Lemma rev_string_length s : String.length (rev_string s) = String.length s.
Proof.
  induction s as [|c s IH]; [done|]. change (rev_string (String c s)) with (rev_onto s (String c "")).
  rewrite rev_onto_spec, string_length_app, IH. simpl. lia.
Qed.

Lemma prefix_spec p s : String.prefix p s = true <-> exists t, s = p +++ t.
Proof.
  split.
  - revert s. induction p as [|c p IH]; intros s H; [by exists s|]. destruct s as [|d s]; simpl in H; [done|].
    destruct (ascii_dec c d) as [->|]; [|done]. destruct (IH s H) as [t ->]. by exists t.
  - intros [t ->]. apply prefix_app_self.
Qed.

Lemma HasSuffix_spec s suf : HasSuffix s suf = true <-> exists t, s = t +++ suf.
Proof.
  split.
  - induction s as [|c s IH]; cbn [HasSuffix]; rewrite orb_true_iff.
    + intros [H%String.eqb_eq|]; [|done]. by exists "".
    + intros [H%String.eqb_eq|H]; [by exists ""|]. destruct (IH H) as [t ->]. by exists (String c t).
  - intros [t ->]. induction t as [|c t IH]; [|by rewrite string_app_cons; cbn [HasSuffix]; rewrite IH, orb_true_r].
    change ("" +++ suf) with suf. destruct suf; cbn [HasSuffix]; [done|]. by rewrite String.eqb_refl.
Qed.

(** Suffixes are prefixes of the reversed string, which computes on known endings. *)
Lemma HasSuffix_rev s suf : HasSuffix s suf = String.prefix (rev_string suf) (rev_string s).
Proof.
  apply eq_true_iff_eq. rewrite HasSuffix_spec, prefix_spec. split; intros [t Ht].
  - exists (rev_string t). by rewrite Ht, rev_string_app.
  - exists (rev_string t). rewrite <-(rev_string_involutive s), Ht, rev_string_app, rev_string_involutive. done.
Qed.

Lemma TrimSuffix_app a suf : TrimSuffix (a +++ suf) suf = a.
Proof.
  assert (Hlen : forall c x, String c x +++ suf <> suf).
  { intros c x H. apply (f_equal String.length) in H. rewrite string_length_app in H. simpl in H. lia. }
  induction a as [|c a IH].
  - change ("" +++ suf) with suf. destruct suf; cbn [TrimSuffix]; [done|]. by rewrite String.eqb_refl.
  - specialize (Hlen c a). rewrite string_app_cons in *. cbn [TrimSuffix]. apply String.eqb_neq in Hlen. rewrite Hlen. by rewrite IH.
Qed.

(** ** Fuel *)

Lemma TrimSuffix_shorter s suf : HasSuffix s suf = true -> String.length (TrimSuffix s suf) + String.length suf = String.length s.
Proof. intros [t ->]%HasSuffix_spec. by rewrite TrimSuffix_app, string_length_app. Qed.

Lemma first_rule_ext f g name rules :
  Forall (fun r => suffix r <> "") rules ->
  (forall s, (String.length s < String.length name)%nat -> f s = g s) -> first_rule f name rules = first_rule g name rules.
Proof.
  intros Hne Hfg. induction Hne as [|r rules Hr _ IH]; simpl; [done|].
  assert (Heq : applySpecialSingularRule f name r = applySpecialSingularRule g name r); [|by rewrite Heq, IH].
  unfold applySpecialSingularRule. destruct (HasSuffix name (suffix r)) eqn:E; [|done]. cbn [negb].
  apply TrimSuffix_shorter in E. rewrite (Hfg (TrimSuffix name (suffix r))); [done|].
  destruct (suffix r); [done|]. simpl in E. lia.
Qed.

(** More fuel than the length of the name changes nothing. *)
Lemma singularize_fuel_enough fuel : forall name, (String.length name < fuel)%nat -> singularize_fuel fuel name = singularize name.
Proof.
  unfold singularize. induction fuel as [fuel IH] using lt_wf_ind. intros name Hlen. destruct fuel as [|fuel]; [lia|].
  cbn [singularize_fuel]. unfold applySpecialSingularRules.
  rewrite (first_rule_ext (singularize_fuel fuel) (singularize_fuel (String.length name))); [done|by repeat constructor|].
  intros s Hs. rewrite (IH fuel) by lia. destruct (decide (String.length name < S fuel)%nat); [|lia].
  symmetry. destruct (decide (String.length name = fuel)) as [->|]; [apply IH; lia|]. apply IH; lia.
Qed.

(** ** Plural and back *)

(** Singular names whose plural is read back as another name: those with a single final s that is not part of
    a known word, and those whose ending becomes a plural ending when an s is added. *)
Definition irregular_endings : list string :=
  ["Indice"; "indice"; "Statuse"; "statuse"; "Statu"; "statu"; "Stat"; "stat"; "Analysi"; "analysi";
   "ie"; "sse"; "she"; "che"; "xe"; "ze"].
Definition regular (name : string) : bool :=
  negb (existsb (HasSuffix name) irregular_endings) &&
  (negb (HasSuffix name "s") || existsb (HasSuffix name) ["ss"; "Status"; "status"; "Analysis"; "analysis"]).

Lemma prefix_same c p s : String.prefix (String c p) (String c s) = String.prefix p s.
Proof. simpl. by destruct (ascii_dec c c). Qed.
Lemma prefix_other c d p s : Ascii.eqb c d = false -> String.prefix (String c p) (String d s) = false.
Proof. simpl. intros H%Ascii.eqb_neq. by destruct (ascii_dec c d). Qed.

Lemma prefix_nil s : String.prefix "" s = true.
Proof. by destruct s. Qed.

(** Evaluate suffix tests against a known ending. *)
Ltac peel_step :=
  first [ rewrite prefix_nil | rewrite prefix_same | rewrite prefix_other by reflexivity
        | match goal with H : String.prefix ?p ?s = _ |- context [String.prefix ?p ?s] => rewrite H end ].
Lemma singularize_standard name :
  existsb (HasSuffix name) (map suffix specialSingularRules) = false ->
  singularize name = default name (singularizeStandardSuffix name).
Proof.
  intros H. unfold singularize. cbn [singularize_fuel].
  assert (Hn : forall f rules, existsb (HasSuffix name) (map suffix rules) = false -> first_rule f name rules = None).
  { clear. intros f rules. induction rules as [|r rules IH]; simpl; [done|]. intros [Hr Hs]%orb_false_iff.
    unfold applySpecialSingularRule. rewrite Hr. by apply IH. }
  unfold applySpecialSingularRules. rewrite Hn by done. by destruct (singularizeStandardSuffix name).
Qed.

(** The tests on a name with a known ending, one by one. *)
Ltac decide_endings :=
  unfold hasUnpluralizedSuffix, hasPluralESSuffix, unpluralizedSuffixes, esPluralSuffixes, specialSingularRules in *;
  cbn [existsb map suffix] in *; rewrite ?HasSuffix_rev in *; unfold rev_string in *;
  rewrite ?rev_onto_app in *; cbn [rev_onto] in *; repeat peel_step.

Lemma plural_es name :
  HasSuffix name "ss" || HasSuffix name "x" || HasSuffix name "z" || HasSuffix name "ch" || HasSuffix name "sh" = true ->
  HasSuffix name "Status" = false -> HasSuffix name "status" = false ->
  singularize (name +++ "es") = name.
Proof.
  intros Hend H1 H2.
  assert (Hstem : exists stem e, name = stem +++ e /\ e ∈ ["ss"; "x"; "z"; "ch"; "sh"]).
  { rewrite !orb_true_iff in Hend. destruct Hend as [[[[H|H]|H]|H]|H]; apply HasSuffix_spec in H as [t ->]; eexists t, _;
      (split; [reflexivity|set_solver]). }
  destruct Hstem as (stem & e & -> & He). apply list_elem_of_In in He.
  assert (Hfacts : existsb (HasSuffix ((stem +++ e) +++ "es")) (map suffix specialSingularRules) = false /\
    hasUnpluralizedSuffix ((stem +++ e) +++ "es") = false /\ HasSuffix ((stem +++ e) +++ "es") "ies" = false /\
    hasPluralESSuffix ((stem +++ e) +++ "es") = true).
  { destruct He as [<-|[<-|[<-|[<-|[<-|[]]]]]]; split_and!; decide_endings; rewrite ?orb_true_r; done. }
  destruct Hfacts as (Hsp & Hu & Hi & Hp). rewrite singularize_standard by done.
  unfold singularizeStandardSuffix. rewrite Hu, Hi, Hp. apply TrimSuffix_app.
Qed.

Lemma plural_s name :
  existsb (HasSuffix name) irregular_endings = false -> HasSuffix name "s" = false -> singularize (name +++ "s") = name.
Proof.
  intros Hreg Hs. unfold irregular_endings in Hreg. cbn [existsb] in Hreg. rewrite !orb_false_iff in Hreg.
  destruct Hreg as (? & ? & ? & ? & ? & ? & ? & ? & ? & ? & ? & ? & ? & ? & ? & ? & _).
  assert (Hfacts : existsb (HasSuffix (name +++ "s")) (map suffix specialSingularRules) = false /\
    hasUnpluralizedSuffix (name +++ "s") = false /\ HasSuffix (name +++ "s") "ies" = false /\
    hasPluralESSuffix (name +++ "s") = false /\ HasSuffix (name +++ "s") "ss" = false /\ HasSuffix (name +++ "s") "s" = true).
  { split_and!; by decide_endings. }
  destruct Hfacts as (Hsp & Hu & Hi & Hp & Hss & Hone). rewrite singularize_standard by done.
  unfold singularizeStandardSuffix. rewrite Hu, Hi, Hp, Hss, Hone. apply TrimSuffix_app.
Qed.

Lemma plural_ies stem : stem <> "" -> singularize (stem +++ "ies") = stem +++ "y".
Proof.
  intros Hne.
  assert (Hfacts : existsb (HasSuffix (stem +++ "ies")) (map suffix specialSingularRules) = false /\
    hasUnpluralizedSuffix (stem +++ "ies") = false /\ HasSuffix (stem +++ "ies") "ies" = true).
  { split_and!; by decide_endings. }
  destruct Hfacts as (Hsp & Hu & Hi). rewrite singularize_standard by done. unfold singularizeStandardSuffix.
  rewrite Hu, Hi. assert (Hlen : (3 <? String.length (stem +++ "ies"))%nat = true).
  { apply Nat.ltb_lt. rewrite string_length_app. destruct stem; [done|]. simpl. lia. }
  rewrite Hlen. cbn [andb default]. by rewrite TrimSuffix_app.
Qed.

(** A plural form that a fixed rule maps back, whatever the stem. *)
Lemma plural_fixed stem plural singular :
  (plural, singular) ∈ [("Indices", "Index"); ("indices", "index"); ("Statuses", "Status"); ("statuses", "status")] ->
  singularize (stem +++ plural) = stem +++ singular.
Proof.
  intros He%list_elem_of_In. unfold singularize. cbn [singularize_fuel].
  unfold applySpecialSingularRules, specialSingularRules. cbn [first_rule]. unfold applySpecialSingularRule.
  cbn [suffix replacement recursive preserveExact].
  destruct He as [[= <- <-]|[[= <- <-]|[[= <- <-]|[[= <- <-]|[]]]]];
    rewrite !HasSuffix_rev; unfold rev_string; rewrite !rev_onto_app; cbn [rev_onto]; repeat peel_step; cbn [negb];
    rewrite TrimSuffix_app, andb_false_r; done.
Qed.

(** A word without a plural form is its own singular. *)
Lemma unpluralized_kept name : hasUnpluralizedSuffix name = true -> singularize name = name.
Proof.
  intros Hu. rewrite singularize_standard; [unfold singularizeStandardSuffix; by rewrite Hu|].
  assert (Hstem : exists stem e, name = stem +++ e /\ e ∈ unpluralizedSuffixes).
  { unfold hasUnpluralizedSuffix in Hu. apply existsb_In in Hu as (e & He & [t ->]%HasSuffix_spec). eauto. }
  destruct Hstem as (stem & e & -> & He%list_elem_of_In). clear Hu.
  destruct He as [<-|[<-|[<-|[<-|[<-|[<-|[]]]]]]]; by decide_endings.
Qed.

(** Plurals are read back: for every regular name, the singular of its plural is the name again; the endings that
    are excluded do break the round trip, as Cache, Size, Movie and Stat show. *)
Theorem plural_round_trip (name : string) :
  (regular name = true -> singularize (pluralize name) = name) /\
  Forall (fun n => regular n = false /\ singularize (pluralize n) <> n) ["Cache"; "Size"; "Movie"; "Stat"].
Proof.
  split; [|by repeat constructor]. unfold regular. intros [Hreg Hs]%andb_true_iff. apply negb_true_iff in Hreg.
  unfold pluralize. destruct (HasSuffix name "Index") eqn:E1.
  { apply HasSuffix_spec in E1 as [t ->]. rewrite TrimSuffix_app. apply plural_fixed. set_solver. }
  destruct (HasSuffix name "index") eqn:E2.
  { apply HasSuffix_spec in E2 as [t ->]. rewrite TrimSuffix_app. apply plural_fixed. set_solver. }
  destruct (hasUnpluralizedSuffix name) eqn:E3; [by apply unpluralized_kept|].
  destruct (HasSuffix name "Status") eqn:E4; [|destruct (HasSuffix name "status") eqn:E5]; cbn [orb].
  { apply HasSuffix_spec in E4 as [t ->]. rewrite string_app_assoc. apply plural_fixed. set_solver. }
  { apply HasSuffix_spec in E5 as [t ->]. rewrite string_app_assoc. apply plural_fixed. set_solver. }
  assert (Hss : HasSuffix name "s" = true -> HasSuffix name "ss" = true).
  { intros H. rewrite H in Hs. cbn [negb orb existsb] in Hs. rewrite E4, E5 in Hs.
    unfold hasUnpluralizedSuffix, unpluralizedSuffixes in E3. cbn [existsb] in E3. rewrite !orb_false_iff in E3.
    destruct E3 as (Ha & Hb & _). rewrite Ha, Hb in Hs. by destruct (HasSuffix name "ss"). }
  assert (Hstats : HasSuffix name "Stats" || HasSuffix name "stats" = false).
  { apply orb_false_iff. split; apply not_true_iff_false; intros [t ->]%HasSuffix_spec;
      discriminate (Hss ltac:(by decide_endings)) || (assert (Hx := Hss ltac:(by decide_endings)); revert Hx; by decide_endings). }
  rewrite Hstats. destruct (HasSuffix name "s") eqn:E6.
  { specialize (Hss eq_refl). rewrite Hss. cbn [negb andb].
    assert (Hy : HasSuffix name "y" = false).
    { apply not_true_iff_false. intros [t ->]%HasSuffix_spec. revert E6. by decide_endings. }
    rewrite Hy. cbn [andb]. apply plural_es; [by rewrite Hss|done|done]. }
  cbn [andb]. destruct (HasSuffix name "y") eqn:E7.
  { cbn [andb]. destruct (1 <? String.length name)%nat eqn:El; [destruct (hasVowelBeforeSuffix name "y")|].
    - by apply plural_s.
    - apply HasSuffix_spec in E7 as [t ->]. rewrite TrimSuffix_app. apply plural_ies. intros ->. discriminate El.
    - apply HasSuffix_spec in E7 as [t ->]. rewrite string_length_app in El. apply Nat.ltb_ge in El. simpl in El.
      destruct t; [reflexivity|simpl in El; lia]. }
  cbn [andb]. destruct (HasSuffix name "ss") eqn:E8; [apply plural_es; [by rewrite E8|done|done]|].
  destruct (_ || _) eqn:E9 in |- *; [|by apply plural_s].
  apply plural_es; [|done|done]. rewrite E8. rewrite !orb_false_r in E9. exact E9.
Qed.

Lemma plural_round_trip_witness : singularize (pluralize "NetworkSecurityPolicy") = "NetworkSecurityPolicy".
Proof. apply (plural_round_trip "NetworkSecurityPolicy"). reflexivity. Defined.
