(* ===== verification/GeneratorSemantics.v ===== *)
(** * From formal models to runtime semantics ([internal/generator/runtime_semantics.go])

    The generator turns the formal facts of a resource (imported provider facts and
    repository-authored overrides, [internal/formal]) and its async configuration
    ([internal/generator/config.go]) into the [Semantics] that the generated runtime
    validates when it starts.  [RuntimeSemanticsModel] and its parts have the fields of
    [generatedruntime.Semantics], into which the templates print them one to one, so
    the records of [Semantics] stand for both.  [sort.Slice] is insertion sort, as it
    is in Go on lists of up to twelve elements. *)

From stdpp Require Import sorting.
From Stdlib Require Import Ascii String.
From S2P Require Import Prelude GoStrings Shared GoErrors GoValue AsyncStatus JsonValues Semantics GeneratorNames.
Local Open Scope string_scope.
Local Open Scope list_scope.

(** ** Async configuration ([config.go]) *)

Record AsyncLegacyFieldBridge := mkAsyncBridge { ab_Create : string; ab_Update : string; ab_Delete : string }.

Record AsyncWorkRequestConfig := mkAsyncWorkRequest {
  aw_Source : string;
  aw_Phases : list string;
  aw_LegacyFieldBridge : AsyncLegacyFieldBridge
}.

Record AsyncConfig := mkAsyncConfig {
  ac_Strategy : string;
  ac_Runtime : string;
  ac_FormalClassification : string;
  ac_WorkRequest : AsyncWorkRequestConfig
}.

Definition blank (s : string) : bool := (TrimSpace s =? "")%string.

Definition bridge_hasOverride (b : AsyncLegacyFieldBridge) : bool :=
  negb (blank (ab_Create b)) || negb (blank (ab_Update b)) || negb (blank (ab_Delete b)).
Definition bridge_withDefaults (b : AsyncLegacyFieldBridge) : AsyncLegacyFieldBridge :=
  mkAsyncBridge (TrimSpace (ab_Create b)) (TrimSpace (ab_Update b)) (TrimSpace (ab_Delete b)).

Definition workRequest_hasOverride (w : AsyncWorkRequestConfig) : bool :=
  negb (blank (aw_Source w)) || (0 <? length (aw_Phases w))%nat || bridge_hasOverride (aw_LegacyFieldBridge w).
Definition workRequest_withDefaults (w : AsyncWorkRequestConfig) : AsyncWorkRequestConfig :=
  mkAsyncWorkRequest (TrimSpace (aw_Source w))
    (List.filter (fun phase => negb (phase =? "")%string) (map TrimSpace (aw_Phases w)))
    (bridge_withDefaults (aw_LegacyFieldBridge w)).

Definition async_hasOverride (a : AsyncConfig) : bool :=
  negb (blank (ac_Strategy a)) || negb (blank (ac_Runtime a)) || negb (blank (ac_FormalClassification a))
  || workRequest_hasOverride (ac_WorkRequest a).
Definition async_withDefaults (a : AsyncConfig) : AsyncConfig :=
  let strategy := TrimSpace (ac_Strategy a) in
  let classification := TrimSpace (ac_FormalClassification a) in
  mkAsyncConfig strategy (TrimSpace (ac_Runtime a))
    (if (classification =? "")%string && negb (strategy =? "")%string then strategy else classification)
    (workRequest_withDefaults (ac_WorkRequest a)).

(** [AsyncConfig.merge]: a resource's configuration over its service's. *)
Definition async_merge (a override : AsyncConfig) : AsyncConfig :=
  let merged := async_withDefaults a in
  let override := async_withDefaults override in
  let strategy := TrimSpace (ac_Strategy override) in
  let merged :=
    if negb (strategy =? "")%string then
      mkAsyncConfig strategy (ac_Runtime merged)
        (if blank (ac_FormalClassification override) then "" else ac_FormalClassification merged)
        (if negb (strategy =? asyncStrategyWorkRequest)%string
         then mkAsyncWorkRequest "" [] (mkAsyncBridge "" "" "") else ac_WorkRequest merged)
    else merged in
  let runtime := TrimSpace (ac_Runtime override) in
  let merged := if negb (runtime =? "")%string
                then mkAsyncConfig (ac_Strategy merged) runtime (ac_FormalClassification merged) (ac_WorkRequest merged)
                else merged in
  let classification := TrimSpace (ac_FormalClassification override) in
  let merged := if negb (classification =? "")%string
                then mkAsyncConfig (ac_Strategy merged) (ac_Runtime merged) classification (ac_WorkRequest merged)
                else merged in
  let merged := if workRequest_hasOverride (ac_WorkRequest override)
                then mkAsyncConfig (ac_Strategy merged) (ac_Runtime merged) (ac_FormalClassification merged) (ac_WorkRequest override)
                else merged in
  async_withDefaults merged.

Definition validateAsyncStrategyField (field strategy : string) : option GoError :=
  if containsString [""; asyncStrategyLifecycle; asyncStrategyWorkRequest; asyncStrategyNone] (TrimSpace strategy) then None
  else Some (ErrText (field +++ " " +++ Quote strategy +++ " must be one of " +++ Quote asyncStrategyLifecycle +++ ", "
                      +++ Quote asyncStrategyWorkRequest +++ ", or " +++ Quote asyncStrategyNone)).

Definition validateAsyncRuntimeField (field runtime : string) : option GoError :=
  if containsString [""; asyncRuntimeGeneratedRuntime; asyncRuntimeHandwritten] (TrimSpace runtime) then None
  else Some (ErrText (field +++ " " +++ Quote runtime +++ " must be one of " +++ Quote asyncRuntimeGeneratedRuntime
                      +++ " or " +++ Quote asyncRuntimeHandwritten)).

(** The loop over the phases; [seen] are the phases met so far. *)
Fixpoint validate_phases (field : string) (index : nat) (seen phases : list string) : option GoError :=
  match phases with
  | [] => None
  | rawPhase :: rest =>
      let phase := TrimSpace rawPhase in
      if containsString [asyncPhaseCreate; asyncPhaseUpdate; asyncPhaseDelete] phase then
        if containsString seen phase
        then Some (ErrText (field +++ ".phases contains duplicate phase " +++ Quote phase))
        else validate_phases field (S index) (phase :: seen) rest
      else if (phase =? "")%string
      then Some (ErrText (field +++ ".phases[" +++ Itoa (Z.of_nat index) +++ "] must not be blank"))
      else Some (ErrText (field +++ ".phases[" +++ Itoa (Z.of_nat index) +++ "] " +++ Quote rawPhase +++ " must be one of "
                          +++ Quote asyncPhaseCreate +++ ", " +++ Quote asyncPhaseUpdate +++ ", or " +++ Quote asyncPhaseDelete))
  end.

(** The first error of a list of checks. *)
Fixpoint first_error (checks : list (option GoError)) : option GoError :=
  match checks with [] => None | Some e :: _ => Some e | None :: rest => first_error rest end.

Definition validateAsyncWorkRequestConfig (field : string) (workRequest : AsyncWorkRequestConfig) : option GoError :=
  let source := TrimSpace (aw_Source workRequest) in
  let bridge := aw_LegacyFieldBridge workRequest in
  first_error
    [(if negb (source =? "")%string &&
         negb (containsString [asyncWorkRequestSourceServiceSDK; asyncWorkRequestSourceWorkRequestsAPI;
                               asyncWorkRequestSourceProviderHelper] source)
      then Some (ErrText (field +++ ".source " +++ Quote (aw_Source workRequest) +++ " must be one of "
                 +++ Quote asyncWorkRequestSourceServiceSDK +++ ", " +++ Quote asyncWorkRequestSourceWorkRequestsAPI
                 +++ ", or " +++ Quote asyncWorkRequestSourceProviderHelper))
      else None);
     validate_phases field 0 [] (aw_Phases workRequest);
     first_error (map (fun '(subfield, value) =>
       if (value =? "")%string then None
       else if blank value then Some (ErrText (field +++ ".legacyFieldBridge." +++ subfield +++ " must not be blank"))
       else None)
       [("create", ab_Create bridge); ("update", ab_Update bridge); ("delete", ab_Delete bridge)])].

Definition validateAsyncConfig (field : string) (async : AsyncConfig) : option GoError :=
  first_error
    [validateAsyncStrategyField (field +++ ".strategy") (ac_Strategy async);
     validateAsyncRuntimeField (field +++ ".runtime") (ac_Runtime async);
     validateAsyncStrategyField (field +++ ".formalClassification") (ac_FormalClassification async);
     validateAsyncWorkRequestConfig (field +++ ".workRequest") (ac_WorkRequest async)].

Definition validateEffectiveAsyncConfig (field : string) (async : AsyncConfig) : option GoError :=
  let async := async_withDefaults async in
  if blank (ac_Strategy async) then Some (ErrText (field +++ ".strategy is required"))
  else if blank (ac_Runtime async) then Some (ErrText (field +++ ".runtime is required"))
  else if (ac_Strategy async =? asyncStrategyWorkRequest)%string then
    if negb (workRequest_hasOverride (ac_WorkRequest async))
    then Some (ErrText (field +++ ".workRequest metadata is required for strategy " +++ Quote (ac_Strategy async)))
    else if blank (aw_Source (ac_WorkRequest async))
    then Some (ErrText (field +++ ".workRequest.source is required for strategy " +++ Quote (ac_Strategy async)))
    else if (length (aw_Phases (ac_WorkRequest async)) =? 0)%nat
    then Some (ErrText (field +++ ".workRequest.phases must list at least one phase for strategy " +++ Quote (ac_Strategy async)))
    else None
  else if workRequest_hasOverride (ac_WorkRequest async)
  then Some (ErrText (field +++ ".workRequest metadata requires strategy " +++ Quote asyncStrategyWorkRequest))
  else None.

(** ** Formal models ([internal/formal]) *)

Record formal_Hook := mkFormalHook { fh_Helper : string; fh_EntityType : string; fh_Action : string }.
Record OperationBinding := mkOperationBinding { ob_Operation : string; ob_RequestType : string; ob_ResponseType : string }.
Record Operations := mkOperations {
  ops_Create : list OperationBinding; ops_Get : list OperationBinding; ops_List : list OperationBinding;
  ops_Update : list OperationBinding; ops_Delete : list OperationBinding
}.
Record LifecyclePhase := mkLifecyclePhase { lp_Pending : list string; lp_Target : list string }.
Record LogicGap := mkLogicGap { lg_Category : string; lg_Status : string; lg_StopCondition : string }.
Record ListLookup := mkListLookup { ll_ResponseItemsField : string; ll_FilterFields : list string }.
Record formal_Hooks := mkFormalHooks { fhs_Create : list formal_Hook; fhs_Update : list formal_Hook; fhs_Delete : list formal_Hook }.

(** [RuntimeLifecycle.RepoAuthored]: overrides; a nil list of hooks is no override. *)
Record RepoAuthored := mkRepoAuthored {
  ra_Mutation : option (list string * list string);
  ra_Hooks : option (option (list formal_Hook) * option (list formal_Hook) * option (list formal_Hook));
  ra_FollowUp : option (string * string * string)
}.

(** The parts of [FormalModel] the generator reads; [None] for the overrides when
    [RuntimeLifecycle] or its [RepoAuthored] is nil. *)
Record FormalModel := mkFormalModel {
  fm_Service : string;
  fm_Slug : string;
  spec_StatusProjection : string;
  spec_SecretSideEffects : string;
  spec_FinalizerPolicy : string;
  spec_DeleteConfirmation : string;
  fm_LogicGaps : list LogicGap;
  imp_Operations : Operations;
  imp_Create : LifecyclePhase;
  imp_Update : LifecyclePhase;
  imp_Mutable : list string;
  imp_ForceNew : list string;
  imp_ConflictsWith : GoMap (list string);
  imp_Hooks : formal_Hooks;
  imp_DeleteConfirmation : LifecyclePhase;
  imp_ListLookup : option ListLookup;
  fm_RepoAuthored : option RepoAuthored
}.

(** [RuntimeModel]: the method names of the primary operations; a nil model has none. *)
Record RuntimeModel := mkRuntimeModel {
  rm_Create : option string; rm_Get : option string; rm_List : option string; rm_Update : option string; rm_Delete : option string
}.

(** ** Normalisation *)

Fixpoint insert_by {A} (leb : A -> A -> bool) (x : A) (l : list A) : list A :=
  match l with
  | [] => [x]
  | y :: r => if leb x y then x :: l else y :: insert_by leb x r
  end.
Fixpoint sort_by {A} (leb : A -> A -> bool) (l : list A) : list A :=
  match l with [] => [] | x :: r => insert_by leb x (sort_by leb r) end.

Definition sort_Strings : list string -> list string := sort_by String.leb.

(** The loops that collect each non-empty value once, in order; [seen] are the values met so far. *)
Fixpoint unique_nonempty (seen : list string) (l : list string) : list string :=
  match l with
  | [] => []
  | x :: r =>
      if (x =? "")%string then unique_nonempty seen r
      else if containsString seen x then unique_nonempty seen r
      else x :: unique_nonempty (x :: seen) r
  end.

Definition normalizeFormalStates (states : list string) : list string :=
  sort_Strings (unique_nonempty [] (map (fun state => ToUpper (TrimSpace state)) states)).

Definition snakeToLowerCamel (value : string) : string :=
  let value := TrimSpace value in
  if (value =? "")%string then ""
  else if negb (Contains value "_") then gen_lowerCamel value
  else
    match map (fun part => ToLower (TrimSpace part)) (Split value "_") with
    | [] => ""
    | first :: rest =>
        first +++ String.concat "" (map (fun part => if (part =? "")%string then "" else upper_first part) rest)
    end.

Definition normalizeFormalPath (path : string) : string :=
  let path := TrimSpace path in
  if (path =? "")%string then "" else Join (map snakeToLowerCamel (Split path ".")) ".".

Definition normalizeFormalPaths (paths : list string) : list string :=
  sort_Strings (unique_nonempty [] (map normalizeFormalPath paths)).

Definition normalizeFormalConflicts (conflicts : GoMap (list string)) : GoMap (list string) :=
  fold_left (fun out '(field, blocked) => map_set (normalizeFormalPath field) (normalizeFormalPaths blocked) out) conflicts [].

(** ** Building the semantics *)

Definition buildRuntimeAsyncModel (async : AsyncConfig) : option AsyncSemantics :=
  let async := async_withDefaults async in
  if negb (async_hasOverride async) then None
  else
    let w := ac_WorkRequest async in
    let bridge := aw_LegacyFieldBridge w in
    Some (mkAsyncSemantics (ac_Strategy async) (ac_Runtime async) (ac_FormalClassification async)
            (if workRequest_hasOverride w
             then Some (mkWorkRequestSemantics (aw_Source w) (aw_Phases w)
                          (if bridge_hasOverride bridge
                           then Some (mkFieldBridge (ab_Create bridge) (ab_Update bridge) (ab_Delete bridge)) else None))
             else None)).

Definition buildRuntimeHookModels (hooks : list formal_Hook) : list Hook :=
  map (fun hook => mkHook (TrimSpace (fh_Helper hook)) (TrimSpace (fh_EntityType hook)) (TrimSpace (fh_Action hook))) hooks.

Definition workRequestHelper := "tfresource.WaitForWorkRequestWithErrorHandling".

Definition filteredRuntimeHooks (hooks : list formal_Hook) (async : option AsyncSemantics) : list Hook :=
  let models := buildRuntimeHookModels hooks in
  if match async with Some a => (Strategy a =? asyncStrategyWorkRequest)%string | None => false end then models
  else List.filter (fun hook => negb (Helper hook =? workRequestHelper)%string) models.

Definition repoAuthoredRuntimeHooks (formalModel : FormalModel) (phase : string) : option (list formal_Hook) :=
  match fm_RepoAuthored formalModel with
  | None => None
  | Some repoAuthored =>
      match ra_Hooks repoAuthored with
      | None => None
      | Some (create, update, delete) =>
          if (phase =? "create")%string then create
          else if (phase =? "update")%string then update
          else if (phase =? "delete")%string then delete
          else None
      end
  end.

Definition effectiveRuntimeHooks (formalModel : FormalModel) (phase : string) (imported : list formal_Hook)
  (async : option AsyncSemantics) : list Hook :=
  filteredRuntimeHooks (match repoAuthoredRuntimeHooks formalModel phase with Some repoAuthored => repoAuthored | None => imported end) async.

Definition runtimeMutationPaths (formalModel : FormalModel) : list string * list string :=
  match fm_RepoAuthored formalModel with
  | Some repoAuthored =>
      match ra_Mutation repoAuthored with
      | Some paths => paths
      | None => (imp_Mutable formalModel, imp_ForceNew formalModel)
      end
  | None => (imp_Mutable formalModel, imp_ForceNew formalModel)
  end.

Definition runtimeHasReadOperation (runtime : RuntimeModel) : bool :=
  match rm_Get runtime, rm_List runtime with None, None => false | _, _ => true end.

Definition followUpStrategyNone := "none".
Definition followUpStrategyReadAfterWrite := "read-after-write".
Definition followUpStrategyConfirmDelete := "confirm-delete".

Definition buildWriteFollowUpModel (hooks : list Hook) (runtime : RuntimeModel) (override : string) : FollowUpSemantics :=
  if negb (override =? "")%string then mkFollowUp override hooks
  else if (0 <? length hooks)%nat && runtimeHasReadOperation runtime then mkFollowUp followUpStrategyReadAfterWrite hooks
  else mkFollowUp followUpStrategyNone hooks.

Definition buildDeleteFollowUpModel (hooks : list Hook) (deleteSemantics : DeleteSemantics) (runtime : RuntimeModel)
  (override : string) : FollowUpSemantics :=
  if negb (override =? "")%string then mkFollowUp override hooks
  else if ((Policy deleteSemantics =? "required")%string || (Policy deleteSemantics =? "best-effort")%string)
          && runtimeHasReadOperation runtime
  then mkFollowUp followUpStrategyConfirmDelete hooks
  else mkFollowUp followUpStrategyNone hooks.

Definition repoAuthoredFollowUpStrategy (formalModel : FormalModel) (phase : string) : string :=
  match fm_RepoAuthored formalModel with
  | None => ""
  | Some repoAuthored =>
      match ra_FollowUp repoAuthored with
      | None => ""
      | Some (create, update, delete) =>
          if (phase =? "create")%string then TrimSpace create
          else if (phase =? "update")%string then TrimSpace update
          else if (phase =? "delete")%string then TrimSpace delete
          else ""
      end
  end.

Definition auxiliary_leb (a b : AuxiliaryOperation) : bool :=
  if negb (aux_Phase a =? aux_Phase b)%string then String.leb (aux_Phase a) (aux_Phase b)
  else String.leb (MethodName a) (MethodName b).

(** [appendPhase]; [primary] is [primary[phase]], empty when there is no entry. *)
Definition auxiliary_phase (phase primary : string) (bindings : list OperationBinding) : list AuxiliaryOperation :=
  flat_map (fun op =>
    if blank (ob_Operation op) || (ob_Operation op =? primary)%string then []
    else [mkAuxiliary phase (TrimSpace (ob_Operation op)) (TrimSpace (ob_RequestType op)) (TrimSpace (ob_ResponseType op))])
    bindings.

Definition buildAuxiliaryOperationModels (formalModel : FormalModel) (runtime : RuntimeModel) : list AuxiliaryOperation :=
  let ops := imp_Operations formalModel in
  sort_by auxiliary_leb
    (auxiliary_phase "create" (default "" (rm_Create runtime)) (ops_Create ops)
     ++ auxiliary_phase "get" (default "" (rm_Get runtime)) (ops_Get ops)
     ++ auxiliary_phase "list" (default "" (rm_List runtime)) (ops_List ops)
     ++ auxiliary_phase "update" (default "" (rm_Update runtime)) (ops_Update ops)
     ++ auxiliary_phase "delete" (default "" (rm_Delete runtime)) (ops_Delete ops)).

Definition buildRuntimeGapModels (gaps : list LogicGap) : list UnsupportedSemantic :=
  sort_by (fun a b => String.leb (Category a) (Category b))
    (flat_map (fun gap =>
       if (TrimSpace (lg_Status gap) =? "resolved")%string then []
       else [mkUnsupported (TrimSpace (lg_Category gap)) (TrimSpace (lg_StopCondition gap))]) gaps).

Definition buildRuntimeSemanticsModelWithAsync (formalModel : FormalModel) (runtime : RuntimeModel) (async : AsyncConfig)
  : Semantics :=
  let mutation := runtimeMutationPaths formalModel in
  let asyncModel := buildRuntimeAsyncModel async in
  let createHooks := effectiveRuntimeHooks formalModel "create" (fhs_Create (imp_Hooks formalModel)) asyncModel in
  let updateHooks := effectiveRuntimeHooks formalModel "update" (fhs_Update (imp_Hooks formalModel)) asyncModel in
  let deleteHooks := effectiveRuntimeHooks formalModel "delete" (fhs_Delete (imp_Hooks formalModel)) asyncModel in
  let deleteSemantics :=
    mkDeleteSemantics (TrimSpace (spec_DeleteConfirmation formalModel))
      (normalizeFormalStates (lp_Pending (imp_DeleteConfirmation formalModel)))
      (normalizeFormalStates (lp_Target (imp_DeleteConfirmation formalModel))) in
  mkSemantics (fm_Service formalModel) (fm_Slug formalModel) asyncModel
    (TrimSpace (spec_StatusProjection formalModel)) (TrimSpace (spec_SecretSideEffects formalModel))
    (TrimSpace (spec_FinalizerPolicy formalModel))
    (mkLifecycle (normalizeFormalStates (lp_Pending (imp_Create formalModel)))
       (normalizeFormalStates (lp_Pending (imp_Update formalModel)))
       (normalizeFormalStates (lp_Target (imp_Create formalModel) ++ lp_Target (imp_Update formalModel))))
    deleteSemantics
    (match imp_ListLookup formalModel with
     | None => None
     | Some lookup => Some (mkListSemantics (TrimSpace (ll_ResponseItemsField lookup)) (normalizeFormalPaths (ll_FilterFields lookup)))
     end)
    (mkMutation [] (normalizeFormalPaths (fst mutation)) (normalizeFormalPaths (snd mutation))
       (normalizeFormalConflicts (imp_ConflictsWith formalModel)))
    (mkHookSet createHooks updateHooks deleteHooks)
    (buildWriteFollowUpModel createHooks runtime (repoAuthoredFollowUpStrategy formalModel "create"))
    (buildWriteFollowUpModel updateHooks runtime (repoAuthoredFollowUpStrategy formalModel "update"))
    (buildDeleteFollowUpModel deleteHooks deleteSemantics runtime (repoAuthoredFollowUpStrategy formalModel "delete"))
    (buildAuxiliaryOperationModels formalModel runtime)
    (buildRuntimeGapModels (fm_LogicGaps formalModel)).

(** ** Sorted, distinct, and independent of the order of the input *)

Definition string_le (s t : string) : Prop := String.leb s t = true.
#[local] Instance string_le_trans : Transitive string_le.
Proof. intros s t u. apply leb_trans. Qed.
#[local] Instance string_le_antisymm : AntiSymm (=) string_le.
Proof. intros s t. unfold string_le. apply String.leb_antisym. Qed.

Lemma insert_by_perm {A} leb (x : A) l : insert_by leb x l ≡ₚ x :: l.
Proof. induction l as [|y l IH]; simpl; [done|]. destruct (leb x y); [done|]. rewrite IH. constructor. Qed.

Lemma helper_sort_perm {A} leb (l : list A) : sort_by leb l ≡ₚ l.
Proof. induction l as [|x l IH]; simpl; [done|]. by rewrite insert_by_perm, IH. Qed.

Lemma sort_by_nil {A} leb (l : list A) : sort_by leb l = [] <-> l = [].
Proof.
  split; [|by intros ->]. intros H. pose proof (helper_sort_perm leb l) as Hp. rewrite H in Hp. by apply Permutation_nil_l in Hp.
Qed.

Lemma insert_sorted x l : Sorted string_le l -> Sorted string_le (insert_by String.leb x l).
Proof.
  induction 1 as [|y l Hs IH Hy]; simpl; [repeat constructor|]. destruct (String.leb x y) eqn:E.
  - constructor; [by constructor|]. by constructor.
  - constructor; [done|]. apply leb_false_flip in E. destruct l as [|z l]; simpl; [by constructor|].
    destruct (String.leb x z); by constructor; [..|inversion Hy].
Qed.

Lemma sort_Strings_sorted l : Sorted string_le (sort_Strings l).
Proof. induction l as [|x l IH]; [constructor|]. by apply insert_sorted. Qed.

Lemma containsString_spec l x : containsString l x = true <-> x ∈ l.
Proof.
  unfold containsString. rewrite existsb_In. split.
  - intros (y & Hy & H%String.eqb_eq). by subst.
  - intros H. exists x. by rewrite String.eqb_refl.
Qed.

Lemma unique_nonempty_elem l : forall seen x, x ∈ unique_nonempty seen l <-> x ∈ l /\ x <> "" /\ x ∉ seen.
Proof.
  induction l as [|y l IH]; intros seen x; simpl; [rewrite elem_of_nil; tauto|]. rewrite elem_of_cons.
  destruct (y =? "")%string eqn:E1; bool_prop; [rewrite IH; split; [tauto|intros ([->|?] & ? & ?); tauto]|].
  destruct (containsString seen y) eqn:E2.
  - apply containsString_spec in E2. rewrite IH. split; [tauto|intros ([->|?] & ? & ?); tauto].
  - apply not_true_iff_false in E2. rewrite containsString_spec in E2. rewrite elem_of_cons, IH, elem_of_cons.
    destruct (decide (x = y)) as [->|]; tauto.
Qed.

Lemma unique_nonempty_nodup l : forall seen, NoDup (unique_nonempty seen l).
Proof.
  induction l as [|y l IH]; intros seen; simpl; [constructor|]. destruct (y =? "")%string; [apply IH|].
  destruct (containsString seen y); [apply IH|]. constructor; [|apply IH]. rewrite unique_nonempty_elem, elem_of_cons. tauto.
Qed.

Definition normal_list (l : list string) : list string := sort_Strings (unique_nonempty [] l).

Lemma normal_list_elem l x : x ∈ normal_list l <-> x ∈ l /\ x <> "".
Proof. unfold normal_list, sort_Strings. rewrite helper_sort_perm, unique_nonempty_elem, elem_of_nil. tauto. Qed.

Lemma normal_list_nodup l : NoDup (normal_list l).
Proof. unfold normal_list, sort_Strings. rewrite helper_sort_perm. apply unique_nonempty_nodup. Qed.

Lemma normal_list_same l k : (forall x, x ∈ l <-> x ∈ k) -> normal_list l = normal_list k.
Proof.
  intros H. apply (Sorted_unique string_le); [apply sort_Strings_sorted..|].
  apply NoDup_Permutation; [apply normal_list_nodup..|]. intros x. by rewrite !normal_list_elem, H.
Qed.

(** Lifecycle states are generated in one canonical form: sorted, without duplicates or blanks, the same for every
    order and repetition of the declared states; and the runtime, which looks up the upper-case state, finds
    exactly the states that were declared up to case and surrounding white space. *)
Theorem formal_states_normalized (states states' : list string) (state : string) :
  let out := normalizeFormalStates states in
  Sorted string_le out /\ NoDup out /\
  ((forall x, x ∈ states <-> x ∈ states') -> normalizeFormalStates states' = out) /\
  (containsString out (ToUpper state) = true <->
   state <> "" /\ exists declared, declared ∈ states /\ ToUpper (TrimSpace declared) = ToUpper state).
Proof.
  intros out. unfold out, normalizeFormalStates. split_and!; [apply sort_Strings_sorted|apply normal_list_nodup| |].
  - intros H. apply (normal_list_same). intros x. rewrite !list_elem_of_fmap. naive_solver.
  - rewrite containsString_spec. fold (normal_list (map (fun state => ToUpper (TrimSpace state)) states)).
    rewrite normal_list_elem, list_elem_of_fmap.
    assert (He : ToUpper state <> "" <-> state <> "") by by destruct state.
    rewrite He. naive_solver.
Qed.

Lemma formal_states_normalized_witness :
  normalizeFormalStates [" active "; "CREATING"; "Active"; ""] = ["ACTIVE"; "CREATING"] /\
  normalizeFormalStates ["CREATING"; "active"; ""; "Active"; " active "; "CREATING"] = normalizeFormalStates [" active "; "CREATING"; "Active"; ""; "active"].
Proof.
  split; [vm_compute; reflexivity|].
  apply (formal_states_normalized [" active "; "CREATING"; "Active"; ""; "active"]
           ["CREATING"; "active"; ""; "Active"; " active "; "CREATING"] "active").
  intros x. rewrite !elem_of_cons, elem_of_nil. tauto.
Defined.

(** ** Generated semantics are accepted by the runtime *)

Lemma first_error_None l : first_error l = None <-> Forall (fun c => c = None) l.
Proof.
  induction l as [|[e|] l IH]; simpl; [by split; [constructor|]|split; [done|by intros [? _]%Forall_cons]|].
  rewrite Forall_cons. tauto.
Qed.

Lemma blank_trim s : blank (TrimSpace s) = blank s.
Proof. unfold blank. by rewrite TrimSpace_idem. Qed.

Lemma validated_phases field index seen phases :
  validate_phases field index seen phases = None ->
  forall j, phase_problems j seen (List.filter (fun phase => negb (phase =? "")%string) (map TrimSpace phases)) = [].
Proof.
  revert index seen. induction phases as [|p phases IH]; intros index seen H j; [done|]. cbn [validate_phases] in H.
  cbn [map List.filter]. destruct (containsString [asyncPhaseCreate; asyncPhaseUpdate; asyncPhaseDelete] (TrimSpace p)) eqn:Ec;
    [|by destruct (TrimSpace p =? "")%string].
  destruct (containsString seen (TrimSpace p)) eqn:Es; [done|].
  destruct (TrimSpace p =? "")%string eqn:Eb; [by bool_prop; rewrite Eb in Ec|]. cbn [negb].
  cbn [phase_problems]. rewrite TrimSpace_idem, Eb, Ec, Es. cbn [negb]. by eapply IH.
Qed.

(** A trimmed bridge has no blank fields. *)
Lemma bridge_fields_ok b :
  flat_map (fun '(subfield, value) =>
    if (value =? "")%string then []
    else if (TrimSpace value =? "")%string
    then ["async.workRequest.legacyFieldBridge." +++ subfield +++ " must not be blank"] else [])
    [("create", TrimSpace (ab_Create b)); ("update", TrimSpace (ab_Update b)); ("delete", TrimSpace (ab_Delete b))] = [].
Proof.
  cbn [flat_map]. rewrite !TrimSpace_idem.
  destruct (TrimSpace (ab_Create b) =? "")%string, (TrimSpace (ab_Update b) =? "")%string, (TrimSpace (ab_Delete b) =? "")%string; done.
Qed.

(** The work-request part of a validated configuration has no problems at run time. *)
Lemma validated_work_request field w (keep_bridge : bool) :
  validateAsyncWorkRequestConfig field w = None ->
  invalidAsyncWorkRequestProblems (Some (mkWorkRequestSemantics (aw_Source (workRequest_withDefaults w))
    (aw_Phases (workRequest_withDefaults w))
    (if keep_bridge
     then Some (mkFieldBridge (ab_Create (aw_LegacyFieldBridge (workRequest_withDefaults w)))
                  (ab_Update (aw_LegacyFieldBridge (workRequest_withDefaults w)))
                  (ab_Delete (aw_LegacyFieldBridge (workRequest_withDefaults w)))) else None))) = [].
Proof.
  unfold validateAsyncWorkRequestConfig. rewrite first_error_None, !Forall_cons. intros (Hs & Hp & _ & _).
  unfold invalidAsyncWorkRequestProblems, workRequest_withDefaults. cbn [aw_Source aw_Phases aw_LegacyFieldBridge wr_Source wr_Phases LegacyFieldBridge].
  rewrite TrimSpace_idem. destruct (negb (TrimSpace (aw_Source w) =? "")%string && _); [done|].
  rewrite (validated_phases _ _ _ _ Hp). destruct keep_bridge; [|done]. apply bridge_fields_ok.
Qed.

(** The hooks of a phase as the generator finds them: authored in the repository, or imported. *)
Definition formal_hooks (fm : FormalModel) (phase : string) : list formal_Hook :=
  match repoAuthoredRuntimeHooks fm phase with
  | Some hooks => hooks
  | None => if (phase =? "create")%string then fhs_Create (imp_Hooks fm)
            else if (phase =? "update")%string then fhs_Update (imp_Hooks fm) else fhs_Delete (imp_Hooks fm)
  end.

(** The helpers of the provider that the runtime can stand in for. *)
Definition known_helpers : list string :=
  ["tfresource.CreateResource"; "tfresource.UpdateResource"; "tfresource.DeleteResource"; "tfresource.WaitForUpdatedState";
   "tfresource.WaitForWorkRequestWithErrorHandling"].

(** The operations of the five phases, each with the one method that the runtime calls in that phase. *)
Definition phase_operations (fm : FormalModel) (runtime : RuntimeModel) : list (list OperationBinding * option string) :=
  let ops := imp_Operations fm in
  [(ops_Create ops, rm_Create runtime); (ops_Get ops, rm_Get runtime); (ops_List ops, rm_List runtime);
   (ops_Update ops, rm_Update runtime); (ops_Delete ops, rm_Delete runtime)].

(** What a formal model must provide: no open gap; in every phase no named operation but the one the runtime calls; known helpers or
    none; a field that holds the listed items; and a terminal state when deletes must be confirmed. *)
Record formal_ready (fm : FormalModel) (runtime : RuntimeModel) : Prop := {
  ready_gaps : forall gap, gap ∈ fm_LogicGaps fm -> TrimSpace (lg_Status gap) = "resolved";
  ready_operations : forall bindings primary op, (bindings, primary) ∈ phase_operations fm runtime -> op ∈ bindings ->
    TrimSpace (ob_Operation op) <> "" -> primary = Some (ob_Operation op);
  ready_helpers : forall phase hook, phase ∈ ["create"; "update"; "delete"] -> hook ∈ formal_hooks fm phase ->
    TrimSpace (fh_Helper hook) = "" \/ TrimSpace (fh_Helper hook) ∈ known_helpers;
  ready_list : forall lookup, imp_ListLookup fm = Some lookup -> TrimSpace (ll_ResponseItemsField lookup) <> "";
  ready_delete : TrimSpace (spec_DeleteConfirmation fm) = "required" ->
    exists state, state ∈ lp_Target (imp_DeleteConfirmation fm) /\ TrimSpace state <> ""
}.

Lemma auxiliary_phase_nil phase primary bindings :
  auxiliary_phase phase (default "" primary) bindings = [] <->
  forall op, op ∈ bindings -> TrimSpace (ob_Operation op) <> "" -> primary = Some (ob_Operation op).
Proof.
  unfold auxiliary_phase. induction bindings as [|op bindings IH].
  - split; [|done]. intros _ op Hop. by apply elem_of_nil in Hop.
  - cbn [flat_map]. rewrite app_nil, IH. unfold blank.
    assert (Hop : (if (TrimSpace (ob_Operation op) =? "")%string || (ob_Operation op =? default "" primary)%string then []
                   else [mkAuxiliary phase (TrimSpace (ob_Operation op)) (TrimSpace (ob_RequestType op)) (TrimSpace (ob_ResponseType op))]) = [] <->
                  (TrimSpace (ob_Operation op) <> "" -> primary = Some (ob_Operation op))).
    { destruct (TrimSpace (ob_Operation op) =? "")%string eqn:E1; bool_prop; [naive_solver|]. cbn [orb].
      destruct (ob_Operation op =? default "" primary)%string eqn:E2; bool_prop.
      - split; [|done]. intros _ _. destruct primary as [m|]; cbn in E2; [by rewrite E2|]. by rewrite E2 in E1.
      - split; [done|]. intros H. rewrite (H E1) in E2. by destruct E2. }
    rewrite Hop. setoid_rewrite elem_of_cons. naive_solver.
Qed.

Lemma operations_ready fm runtime :
  buildAuxiliaryOperationModels fm runtime = [] <->
  forall bindings primary op, (bindings, primary) ∈ phase_operations fm runtime -> op ∈ bindings ->
    TrimSpace (ob_Operation op) <> "" -> primary = Some (ob_Operation op).
Proof.
  unfold buildAuxiliaryOperationModels, phase_operations. rewrite sort_by_nil, !app_nil, !auxiliary_phase_nil.
  split.
  - intros (H1 & H2 & H3 & H4 & H5) bindings primary op Hin. rewrite !elem_of_cons, elem_of_nil in Hin.
    destruct Hin as [[= -> ->]|[[= -> ->]|[[= -> ->]|[[= -> ->]|[[= -> ->]|[]]]]]]; auto.
  - intros H. split_and!; intros op; apply H; rewrite !elem_of_cons; tauto.
Qed.

Lemma helper_known h : supportedFormalHelper h = true <-> TrimSpace h = "" \/ TrimSpace h ∈ known_helpers.
Proof. unfold supportedFormalHelper. rewrite containsString_spec. unfold known_helpers. rewrite !elem_of_cons, elem_of_nil. tauto. Qed.

Lemma supported_trim h : supportedFormalHelper (TrimSpace h) = supportedFormalHelper h.
Proof. unfold supportedFormalHelper. by rewrite TrimSpace_idem. Qed.

(** Dropping the work-request helper, which is supported, keeps the verdict on the helpers. *)
Lemma hook_problems_ready phase hooks async :
  flat_map (fun hook => if negb (supportedFormalHelper (Helper hook))
                        then [phase +++ " helper " +++ Quote (Helper hook) +++ " is not supported"] else [])
    (filteredRuntimeHooks hooks async) = [] <->
  forallb (fun hook => supportedFormalHelper (fh_Helper hook)) hooks = true.
Proof.
  assert (Hmodels : forall keep : Hook -> bool, (forall h, keep h = false -> supportedFormalHelper (Helper h) = true) ->
    flat_map (fun hook => if negb (supportedFormalHelper (Helper hook))
                          then [phase +++ " helper " +++ Quote (Helper hook) +++ " is not supported"] else [])
      (List.filter keep (buildRuntimeHookModels hooks)) = [] <->
    forallb (fun hook => supportedFormalHelper (fh_Helper hook)) hooks = true).
  { intros keep Hkeep. induction hooks as [|h hooks IH]; [done|]. cbn [buildRuntimeHookModels map List.filter forallb].
    set (m := mkHook _ _ _). rewrite <-(supported_trim (fh_Helper h)). change (TrimSpace (fh_Helper h)) with (Helper m).
    destruct (keep m) eqn:Ek.
    - cbn [flat_map]. destruct (supportedFormalHelper (Helper m)); simpl; [apply IH|done].
    - rewrite (Hkeep m Ek). apply IH. }
  unfold filteredRuntimeHooks. destruct (match async with Some a => _ | None => false end).
  - rewrite <-(Hmodels (fun _ => true)) by done. by rewrite filter_all.
  - apply Hmodels. intros h Hh%negb_false_iff%String.eqb_eq. by rewrite Hh.
Qed.

Lemma followUp_hooks_write hooks rt o : fu_Hooks (buildWriteFollowUpModel hooks rt o) = hooks.
Proof. unfold buildWriteFollowUpModel. by repeat case_goal. Qed.
Lemma followUp_hooks_delete hooks d rt o : fu_Hooks (buildDeleteFollowUpModel hooks d rt o) = hooks.
Proof. unfold buildDeleteFollowUpModel. by repeat case_goal. Qed.

(** Without the work-request strategy no work-request helper is left. *)
Lemma filtered_no_helper hooks async :
  match async with Some a => (Strategy a =? asyncStrategyWorkRequest)%string | None => false end = false ->
  existsb (fun hook => (TrimSpace (Helper hook) =? workRequestHelper)%string) (filteredRuntimeHooks hooks async) = false.
Proof.
  intros H. unfold filteredRuntimeHooks. rewrite H. apply not_true_iff_false. rewrite existsb_exists.
  intros (h & [Hin Hh]%filter_In & He). apply in_map_iff in Hin as (f & <- & _). cbn [Helper] in *.
  rewrite TrimSpace_idem in He. by rewrite He in Hh.
Qed.

Lemma build_no_helper fm rt a :
  match buildRuntimeAsyncModel a with Some m => (Strategy m =? asyncStrategyWorkRequest)%string | None => false end = false ->
  hasWorkRequestHelper (buildRuntimeSemanticsModelWithAsync fm rt a) = false.
Proof.
  intros H. unfold hasWorkRequestHelper, buildRuntimeSemanticsModelWithAsync.
  cbn [Hooks hs_Create hs_Update hs_Delete CreateFollowUp UpdateFollowUp DeleteFollowUp].
  rewrite !followUp_hooks_write, followUp_hooks_delete. unfold effectiveRuntimeHooks. cbn [existsb].
  by rewrite !(filtered_no_helper _ _ H).
Qed.

Lemma strategy_field_ok field s : validateAsyncStrategyField field s = None ->
  containsString [""; asyncStrategyLifecycle; asyncStrategyWorkRequest; asyncStrategyNone] (TrimSpace s) = true.
Proof. unfold validateAsyncStrategyField. by destruct (containsString _ _). Qed.
Lemma runtime_field_ok field s : validateAsyncRuntimeField field s = None ->
  containsString [""; asyncRuntimeGeneratedRuntime; asyncRuntimeHandwritten] (TrimSpace s) = true.
Proof. unfold validateAsyncRuntimeField. by destruct (containsString _ _). Qed.

Lemma work_request_configured w :
  hasWorkRequestSemantics (Some (mkWorkRequestSemantics (aw_Source w) (aw_Phases w)
    (if bridge_hasOverride (aw_LegacyFieldBridge w)
     then Some (mkFieldBridge (ab_Create (aw_LegacyFieldBridge w)) (ab_Update (aw_LegacyFieldBridge w)) (ab_Delete (aw_LegacyFieldBridge w)))
     else None))) = workRequest_hasOverride w.
Proof.
  unfold hasWorkRequestSemantics, workRequest_hasOverride. cbn [wr_Source wr_Phases LegacyFieldBridge].
  fold (blank (aw_Source w)). destruct (negb (blank (aw_Source w))); [done|].
  destruct (aw_Phases w) as [|p l]; [|done]. cbn [length Nat.eqb negb orb Nat.ltb Nat.leb].
  destruct (bridge_hasOverride (aw_LegacyFieldBridge w)) eqn:E; [|done]. exact E.
Qed.

(** The work-request metadata of a configuration with its defaults. *)
Definition work_request_model (w : AsyncWorkRequestConfig) : option WorkRequestSemantics :=
  if workRequest_hasOverride w
  then Some (mkWorkRequestSemantics (aw_Source w) (aw_Phases w)
               (if bridge_hasOverride (aw_LegacyFieldBridge w)
                then Some (mkFieldBridge (ab_Create (aw_LegacyFieldBridge w)) (ab_Update (aw_LegacyFieldBridge w))
                             (ab_Delete (aw_LegacyFieldBridge w)))
                else None))
  else None.

Lemma buildRuntimeAsyncModel_some a :
  (TrimSpace (ac_Strategy a) =? "")%string = false ->
  buildRuntimeAsyncModel a =
    Some (mkAsyncSemantics (TrimSpace (ac_Strategy a)) (TrimSpace (ac_Runtime a))
            (ac_FormalClassification (async_withDefaults a)) (work_request_model (ac_WorkRequest (async_withDefaults a)))).
Proof.
  intros Hs. unfold buildRuntimeAsyncModel, async_hasOverride, blank. cbn [ac_Strategy async_withDefaults].
  by rewrite TrimSpace_idem, Hs.
Qed.

Lemma async_problems_none field a fm rt :
  validateAsyncConfig field a = None -> validateEffectiveAsyncConfig field a = None ->
  TrimSpace (ac_Runtime a) <> asyncRuntimeHandwritten ->
  invalidAsyncSemanticsProblems (buildRuntimeSemanticsModelWithAsync fm rt a) = [].
Proof.
  unfold validateAsyncConfig. rewrite first_error_None, !Forall_cons.
  intros (Hst%strategy_field_ok & Hrt%runtime_field_ok & Hcl%strategy_field_ok & Hwr & _) Heff Hhand.
  pose proof (build_no_helper fm rt a) as Hhelper. unfold validateEffectiveAsyncConfig, blank in Heff.
  unfold invalidAsyncSemanticsProblems.
  change (sem_Async (buildRuntimeSemanticsModelWithAsync fm rt a)) with (buildRuntimeAsyncModel a).
  set (s := buildRuntimeSemanticsModelWithAsync fm rt a) in *. set (w := ac_WorkRequest (async_withDefaults a)) in *.
  cbn [async_withDefaults ac_Strategy ac_Runtime] in Heff. rewrite !TrimSpace_idem in Heff.
  destruct (TrimSpace (ac_Strategy a) =? "")%string eqn:Es; [done|]. destruct (TrimSpace (ac_Runtime a) =? "")%string eqn:Er; [done|].
  rewrite buildRuntimeAsyncModel_some in Hhelper |- * by done. fold w in Hhelper |- *.
  set (classification := ac_FormalClassification (async_withDefaults a)) in *.
  assert (Hclass : containsString [""; asyncStrategyLifecycle; asyncStrategyWorkRequest; asyncStrategyNone] (TrimSpace classification) = true).
  { unfold classification. cbn [ac_FormalClassification async_withDefaults]. case_goal; by rewrite TrimSpace_idem. }
  assert (Hw : invalidAsyncWorkRequestProblems (work_request_model w) = []).
  { unfold work_request_model. destruct (workRequest_hasOverride w); [|done]. by eapply validated_work_request. }
  assert (Hconf : hasWorkRequestSemantics (work_request_model w) = workRequest_hasOverride w).
  { unfold work_request_model. destruct (workRequest_hasOverride w) eqn:Eo; [|done]. by rewrite work_request_configured. }
  unfold hasExplicitAsyncContract. cbn [Strategy Runtime FormalClassification WorkRequest] in Hhelper |- *.
  rewrite !TrimSpace_idem, Es, Er. cbn [negb orb].
  unfold invalidAsyncStrategyProblems, invalidAsyncRuntimeProblems. rewrite Hst, Hrt, Hclass, Hw, Hconf.
  apply String.eqb_neq in Hhand. rewrite Hhand. cbn [negb app].
  destruct (TrimSpace (ac_Strategy a) =? asyncStrategyWorkRequest)%string eqn:Ewr.
  - unfold work_request_model. destruct (workRequest_hasOverride w) eqn:Eo; [|done]. cbn [negb andb app wr_Source wr_Phases] in *.
    destruct (TrimSpace (aw_Source w) =? "")%string; [done|]. by destruct (length (aw_Phases w) =? 0)%nat.
  - destruct (workRequest_hasOverride w) eqn:Eo; [done|]. cbn [negb andb app]. by rewrite (Hhelper eq_refl).
Qed.

Lemma gaps_ready gaps : buildRuntimeGapModels gaps = [] <->
  forallb (fun gap => (TrimSpace (lg_Status gap) =? "resolved")%string) gaps = true.
Proof.
  unfold buildRuntimeGapModels. rewrite sort_by_nil. induction gaps as [|g gaps IH]; simpl; [done|].
  destruct (_ =? "resolved")%string; simpl; [apply IH|done].
Qed.

Lemma states_ready states : length (normalizeFormalStates states) = 0 <-> existsb (fun state => negb (blank state)) states = false.
Proof.
  rewrite length_zero_iff_nil. unfold normalizeFormalStates, sort_Strings. rewrite sort_by_nil. split.
  - intros H. apply not_true_iff_false. intros (st & Hin & Hb)%existsb_In. apply negb_true_iff in Hb. unfold blank in Hb. bool_prop.
    assert (Hx : ToUpper (TrimSpace st) ∈ unique_nonempty [] (map (fun s => ToUpper (TrimSpace s)) states)).
    { apply unique_nonempty_elem. split_and!; [apply list_elem_of_fmap; eauto| |set_solver]. by destruct (TrimSpace st). }
    rewrite H in Hx. set_solver.
  - intros H. destruct (unique_nonempty _ _) as [|x l] eqn:E; [done|exfalso].
    assert (Hx : x ∈ unique_nonempty [] (map (fun s => ToUpper (TrimSpace s)) states)) by (rewrite E; apply list_elem_of_here).
    apply unique_nonempty_elem in Hx as ((st & -> & Hin)%list_elem_of_fmap & Hne & _).
    apply not_true_iff_false in H. apply H, existsb_In. exists st. split; [done|]. unfold blank. apply negb_true_iff, String.eqb_neq.
    intros He. by rewrite He in Hne.
Qed.

Lemma map_nil_iff {A B} (f : A -> B) l : map f l = [] <-> l = [].
Proof. by destruct l. Qed.

Lemma helpers_ready fm rt a :
  unsupportedFollowUpHelpers (buildRuntimeSemanticsModelWithAsync fm rt a) = [] <->
  forallb (fun phase => forallb (fun hook => supportedFormalHelper (fh_Helper hook)) (formal_hooks fm phase)) ["create"; "update"; "delete"] = true.
Proof.
  unfold unsupportedFollowUpHelpers. cbn [flat_map]. rewrite !app_nil.
  cbn [CreateFollowUp UpdateFollowUp DeleteFollowUp buildRuntimeSemanticsModelWithAsync].
  rewrite !followUp_hooks_write, followUp_hooks_delete. unfold effectiveRuntimeHooks. rewrite !hook_problems_ready.
  cbn [forallb]. rewrite !andb_true_iff. tauto.
Qed.

Lemma list_ready fm rt a :
  invalidListSemanticsProblems (buildRuntimeSemanticsModelWithAsync fm rt a) = [] <->
  match imp_ListLookup fm with None => true | Some lookup => negb (blank (ll_ResponseItemsField lookup)) end = true.
Proof.
  unfold invalidListSemanticsProblems. cbn [sem_List buildRuntimeSemanticsModelWithAsync].
  destruct (imp_ListLookup fm) as [lookup|]; [|done]. cbn [ResponseItemsField]. rewrite TrimSpace_idem.
  unfold blank. by destruct (_ =? "")%string.
Qed.

Lemma delete_ready fm rt a :
  invalidDeleteSemanticsProblems (buildRuntimeSemanticsModelWithAsync fm rt a) = [] <->
  negb (TrimSpace (spec_DeleteConfirmation fm) =? "required")%string ||
   existsb (fun state => negb (blank state)) (lp_Target (imp_DeleteConfirmation fm)) = true.
Proof.
  unfold invalidDeleteSemanticsProblems. cbn [sem_Delete Policy TerminalStates buildRuntimeSemanticsModelWithAsync].
  destruct (_ =? "required")%string; [|done]. cbn [negb andb orb].
  pose proof (states_ready (lp_Target (imp_DeleteConfirmation fm))) as H.
  destruct (length _ =? 0)%nat eqn:E; [apply Nat.eqb_eq in E|apply Nat.eqb_neq in E]; destruct (existsb _ _);
    cbn [negb andb orb app]; naive_solver.
Qed.

Lemma forallb_elem {A} (p : A -> bool) (l : list A) : forallb p l = true <-> forall x, x ∈ l -> p x = true.
Proof. rewrite forallb_forall. by setoid_rewrite list_elem_of_In. Qed.

(** C32. The generator and the runtime agree on what can be run: for an async configuration that passes the generator's own
    checks and is not hand-written, the runtime accepts the generated semantics exactly when the formal model is ready: it has no
    gap that is not resolved; in each of the phases create, get, list, update and delete every operation with a name is the one
    method that the runtime calls in that phase; every hook of create, update and delete (the repository's own, or else the
    imported ones) names no helper or a known one; a listing, if there is one, names the field with the items; and deletes that
    must be confirmed have a non-blank terminal state. *)
Theorem generated_semantics_accepted (field kind : string) (async : AsyncConfig) (fm : FormalModel) (runtime : RuntimeModel) :
  validateAsyncConfig field async = None -> validateEffectiveAsyncConfig field async = None ->
  TrimSpace (ac_Runtime async) <> asyncRuntimeHandwritten ->
  validateFormalSemantics kind (Some (buildRuntimeSemanticsModelWithAsync fm runtime async)) = None <->
  formal_ready fm runtime.
Proof.
  intros Ha He Hh. rewrite validate_None. unfold formal_problems. rewrite (async_problems_none _ _ _ _ Ha He Hh).
  cbn [app]. rewrite !app_nil, list_ready, delete_ready, helpers_ready.
  unfold unsupportedFormalProblems, unsupportedAuxiliaryProblems.
  cbn [Unsupported AuxiliaryOperations buildRuntimeSemanticsModelWithAsync].
  rewrite !map_nil_iff, gaps_ready, operations_ready, !forallb_elem.
  setoid_rewrite forallb_elem. setoid_rewrite helper_known. setoid_rewrite String.eqb_eq.
  rewrite orb_true_iff, negb_true_iff, String.eqb_neq, existsb_In. unfold blank. setoid_rewrite negb_true_iff. setoid_rewrite String.eqb_neq.
  split.
  - intros (H1 & H2 & H3 & H4 & H5). split; [done|done|by eauto| |naive_solver].
    intros lookup Hl. rewrite Hl in H4. by bool_prop.
  - intros [H1 H2 H3 H4 H5]. split_and!; [done|done|by eauto| |].
    + destruct (imp_ListLookup fm) as [lookup|]; [|done]. apply negb_true_iff, String.eqb_neq. by apply H4.
    + destruct (decide (TrimSpace (spec_DeleteConfirmation fm) = "required")); [right; auto|by left].
Qed.

(** A queue-like resource: work requests reported by the service SDK, a confirmed delete and one resolved gap. *)
Definition sample_async := mkAsyncConfig " workrequest " "generatedruntime" ""
  (mkAsyncWorkRequest "service-sdk" [" create"; "delete"] (mkAsyncBridge "" "" "")).
Definition sample_formal := mkFormalModel "queue" "queue" "required" "none" "retain-until-confirmed-delete" "required"
  [mkLogicGap "mutation" " resolved " ""]
  (mkOperations [mkOperationBinding "CreateQueue" "" ""] [mkOperationBinding "GetQueue" "" ""] [] [] [mkOperationBinding "DeleteQueue" "" ""])
  (mkLifecyclePhase ["creating"] ["active"]) (mkLifecyclePhase [] ["ACTIVE"]) ["display_name"] ["compartment_id"] []
  (mkFormalHooks [mkFormalHook "tfresource.CreateResource" "" ""; mkFormalHook workRequestHelper "queue" "CREATED"] [] [])
  (mkLifecyclePhase ["deleting"] ["deleted"]) (Some (mkListLookup "Items" ["display_name"])) None.
Definition sample_runtime := mkRuntimeModel (Some "CreateQueue") (Some "GetQueue") None None (Some "DeleteQueue").

Lemma sample_ready : formal_ready sample_formal sample_runtime.
Proof.
  split.
  - intros gap. cbn [fm_LogicGaps sample_formal]. rewrite list_elem_of_singleton. by intros ->.
  - intros bindings primary op Hin Hop _. unfold phase_operations, sample_formal, sample_runtime in Hin.
    cbn [imp_Operations ops_Create ops_Get ops_List ops_Update ops_Delete rm_Create rm_Get rm_List rm_Update rm_Delete] in Hin.
    rewrite !elem_of_cons, elem_of_nil in Hin.
    destruct Hin as [[= -> ->]|[[= -> ->]|[[= -> ->]|[[= -> ->]|[[= -> ->]|[]]]]]];
      rewrite ?list_elem_of_singleton, ?elem_of_nil in Hop; by rewrite ?Hop.
  - assert (Hall : forallb (fun phase => forallb (fun hook => supportedFormalHelper (fh_Helper hook)) (formal_hooks sample_formal phase))
                     ["create"; "update"; "delete"] = true) by (vm_compute; reflexivity).
    intros phase hook Hp Hh. rewrite forallb_elem in Hall. specialize (Hall phase Hp). cbn beta in Hall.
    rewrite forallb_elem in Hall. apply helper_known. by apply Hall.
  - intros lookup [= <-]. vm_compute. discriminate.
  - intros _. exists "deleted". split; [left|vm_compute; discriminate].
Defined.

Lemma generated_semantics_accepted_witness :
  formal_ready sample_formal sample_runtime /\
  validateFormalSemantics "Queue" (Some (buildRuntimeSemanticsModelWithAsync sample_formal sample_runtime sample_async)) = None.
Proof.
  split; [exact sample_ready|].
  apply (generated_semantics_accepted "async" "Queue" sample_async sample_formal sample_runtime);
    [vm_compute; reflexivity..|vm_compute; discriminate|exact sample_ready].
Defined.
