(* ===== verification/RuntimeTypes.v ===== *)
(** * Types and machine integers of the generated runtime

    Go checks types at compile time, but the generated runtime moves data by
    reflection and JSON: it fills request structs from untyped values and decodes
    response bodies into the status of the custom resource.  This file shows that these
    paths respect the types ([well_formed] is what the type system and [reflect]
    guarantee of a value), and states how delays behave at 64 bits. *)

From Stdlib Require Import Ascii.
From S2P Require Import Prelude GoStrings Shared GoErrors GoValue AsyncStatus Secrets JsonValues Semantics SpecResolution MutationPolicy.
From S2P Require Import RequestBuilder Runtime.
Local Open Scope string_scope.
Local Open Scope list_scope.
Local Open Scope go_scope.

(** ** Well-formed values *)

(** What a pointer, slice or map of a type holds has that type. *)
Fixpoint well_formed (v : GoValue) : Prop :=
  match v with
  | VPtr t (Some x) => type_of x = t /\ well_formed x
  | VIface (Some x) => well_formed x
  | VStruct _ fs =>
      (fix fields (l : list (StructField * GoValue)) : Prop :=
         match l with [] => True | (_, x) :: r => well_formed x /\ fields r end) fs
  | VSlice t (Some l) =>
      (fix items (l : list GoValue) : Prop :=
         match l with [] => True | x :: r => (type_of x = t /\ well_formed x) /\ items r end) l
  | VMap t (Some m) =>
      (fix entries (m : list (string * GoValue)) : Prop :=
         match m with [] => True | (_, x) :: r => (type_of x = t /\ well_formed x) /\ entries r end) m
  | _ => True
  end.

(** A well-formed value of a type. *)
Definition typed (t : GoType) (v : GoValue) : Prop := type_of v = t /\ well_formed v.

Lemma struct_formed n fs : well_formed (VStruct n fs) <-> Forall (fun fv => well_formed (snd fv)) fs.
Proof. induction fs as [|[sf x] fs IH]; [done|]. rewrite Forall_cons, <-IH. done. Qed.
Lemma slice_formed t l : well_formed (VSlice t (Some l)) <-> Forall (typed t) l.
Proof. induction l as [|x l IH]; [done|]. rewrite Forall_cons, <-IH. done. Qed.
Lemma map_formed t m : well_formed (VMap t (Some m)) <-> Forall (fun kv => typed t (snd kv)) m.
Proof. induction m as [|[k x] m IH]; [done|]. rewrite Forall_cons, <-IH. done. Qed.

(** Struct fields of given types. *)
Definition fields_typed (fts : list (StructField * GoType)) (fs : list (StructField * GoValue)) : Prop :=
  Forall2 (fun ft fv => fst fv = fst ft /\ typed (snd ft) (snd fv)) fts fs.

Lemma struct_typed n fts fs : typed (TStruct n fts) (VStruct n fs) <-> fields_typed fts fs.
Proof.
  unfold typed. rewrite struct_formed. cbn [type_of]. split.
  - intros [[= <-] H]. induction H as [|[sf x] fs Hx _ IH]; constructor; [by repeat split|done].
  - intros H. induction H as [|[sf t] [sf' x] fts fs [[= ->] [Ht Hx]] _ [IHt IHf]]; [by split|].
    cbn [map fst snd] in *. injection IHt as IHt. rewrite Ht, IHt. by split; [|constructor].
Qed.

Lemma own_fields_typed fs : Forall (fun fv => well_formed (snd fv)) fs ->
  fields_typed (map (fun fv => (fst fv, type_of (snd fv))) fs) fs.
Proof. intros H. induction H; constructor; [by repeat split|done]. Qed.

(** Induction over types that reaches struct fields. *)
Section GoTypeInd.
Context (P : GoType -> Prop) (HBool : P TBool) (HInt : P TInt) (HFloat : P TFloat) (HString : P TString)
  (HPtr : forall t, P t -> P (TPtr t)) (HIface : P TIface)
  (HStruct : forall n fs, Forall (fun ft => P (snd ft)) fs -> P (TStruct n fs))
  (HSlice : forall t, P t -> P (TSlice t)) (HMap : forall t, P t -> P (TMap t))
  (HOsok : P TOsok) (HMarsh : forall n, P (TMarshaler n)).

Fixpoint GoType_ind' (t : GoType) : P t :=
  match t with
  | TBool => HBool | TInt => HInt | TFloat => HFloat | TString => HString
  | TPtr t => HPtr t (GoType_ind' t)
  | TIface => HIface
  | TStruct n fs =>
      HStruct n fs ((fix go (l : list (StructField * GoType)) : Forall (fun ft => P (snd ft)) l :=
        match l with [] => List.Forall_nil _ | ft :: r => List.Forall_cons _ _ _ (GoType_ind' (snd ft)) (go r) end) fs)
  | TSlice t => HSlice t (GoType_ind' t)
  | TMap t => HMap t (GoType_ind' t)
  | TOsok => HOsok
  | TMarshaler n => HMarsh n
  end.
End GoTypeInd.

Lemma zero_typed t : typed t (zero_of t).
Proof.
  induction t as [| | | | | |n fs IH| | | |] using GoType_ind'; try by split.
  cbn [zero_of]. apply struct_typed. induction IH as [|[sf t] fs Ht _ IH]; constructor; [by split|done].
Qed.

(** Decoded documents are well-formed. *)
Lemma json_to_value_formed j : well_formed (json_to_value j).
Proof.
  induction j as [| | | |l IH|m IH] using Json_ind'; try done; cbn [json_to_value].
  - apply slice_formed. induction IH; constructor; [by split|done].
  - apply map_formed. induction IH as [|[k x] m Hx _ IH]; constructor; [by split|done].
Qed.

(** ** Decoding keeps types *)

(** A decoder that keeps the type of what it writes to. *)
Definition keeps_types (f : GoValue -> GoValue * option string) : Prop :=
  forall t v, typed t v -> typed t (fst (f v)).

(** What [encoding/json] and Go's type system guarantee of the decoders that are not in the
    operator's sources: [UnmarshalJSON] writes through its receiver, whose type is fixed, and the
    SDK's types are Go types. *)
Class CodecTyped `{JsonCodec} : Prop := {
  custom_typed n j r : exists r', fst (codec_custom n j (VMarshaler n r)) = VMarshaler n r';
  sdk_typed n j v : codec_sdk n j = Ok v -> well_formed v
}.

Lemma at_type_typed f t : keeps_types f -> typed t (fst (at_type f t)).
Proof.
  intros Hf. induction t as [| | | |t IH| | | | | |]; cbn [at_type]; try (apply Hf, zero_typed).
  destruct (at_type f t) as [x e]. destruct IH. by split.
Qed.

Lemma at_target_typed f : keeps_types f -> keeps_types (at_target f).
Proof.
  intros Hf t v. revert t. induction v using GoValue_ind'; intros t' Ht; try (by apply Hf).
  - cbn [at_target]. pose proof (at_type_typed f t Hf) as Hx. destruct (at_type f t) as [x e].
    destruct Ht as [<- _]. by split; [|split; apply Hx].
  - cbn [at_target]. destruct Ht as [<- [Ht Hv]]. pose proof (IHv t (conj Ht Hv)) as Hx.
    destruct (at_target f v) as [x e]. by split; [|split; apply Hx].
Qed.

Lemma typed_struct_inv t n fs : typed t (VStruct n fs) -> exists fts, t = TStruct n fts /\ fields_typed fts fs.
Proof. intros [<- H]. eexists. split; [done|]. by apply own_fields_typed, (struct_formed n). Qed.

Lemma update_named_typed p f v t v' e :
  keeps_types f -> typed t v -> update_named p f v = Some (v', e) -> typed t v'.
Proof.
  intros Hf. revert t v' e. induction v as [| | | | | |t v IH| | |n fs IH| | | | | |] using GoValue_ind'; intros t' v' e Ht; try done.
  - cbn [update_named]. destruct (update_named p f v) as [[x e']|] eqn:E; [|done]. intros [= <- <-].
    destruct Ht as [<- Ht]. split; [done|]. exact (IH _ _ _ Ht eq_refl).
  - apply typed_struct_inv in Ht as (fts & -> & Ht). cbn [update_named].
    match goal with |- match ?o with _ => _ end = _ -> _ => destruct o as [[fs' e']|] eqn:Eown end.
    + intros [= <- <-]. apply struct_typed. clear IH. revert fs' Eown.
      induction Ht as [|[sf t] [sf' x] fts fs [[= ->] Hx] Hr IHr]; [done|]. intros fs' Eown. cbn [fst snd] in Hx. case_hyp Eown.
      * pose proof (Hf _ _ Hx). destruct (f x) as [y e2]. injection Eown as <- <-. by constructor.
      * match type of Eown with option_map _ ?o = _ => destruct o as [[r e2]|] end; [|done].
        injection Eown as <- <-. constructor; [done|by apply IHr].
    + clear Eown. match goal with |- option_map _ ?o = _ -> _ => destruct o as [[fs' e']|] eqn:Eemb end; [|done].
      intros [= <- <-]. apply struct_typed. revert fs' Eemb.
      induction Ht as [|[sf t] [sf' x] fts fs [[= ->] Hx] Hr IHr]; [done|]. intros fs' Eemb.
      apply Forall_cons in IH as [IHx IH].
      destruct (if inlined sf x then update_named p f x else None) as [[y e2]|] eqn:E.
      * injection Eemb as <- <-. constructor; [|done]. split; [done|]. destruct (inlined sf x); [|done]. by eapply IHx.
      * match type of Eemb with option_map _ ?o = _ => destruct o as [[r e2]|] end; [|done].
        injection Eemb as <- <-. constructor; [done|by apply IHr].
Qed.

Lemma decode_key_typed dec k x t v : keeps_types (dec x) -> typed t v -> typed t (fst (decode_key dec k x v)).
Proof.
  intros Hf Hv. unfold decode_key.
  destruct (update_named (String.eqb k) _ v) as [[v' e]|] eqn:E; [by eapply update_named_typed|].
  destruct (update_named (EqualFold k) _ v) as [[v' e]|] eqn:E'; [by eapply update_named_typed|done].
Qed.

Lemma decode_keys_typed dec m t v err :
  Forall (fun kv => keeps_types (dec (snd kv))) m -> typed t v -> typed t (fst (decode_keys dec m v err)).
Proof.
  intros Hm. revert v err. induction Hm as [|[k x] m Hx _ IH]; intros v err Hv; [done|]. cbn [decode_keys].
  pose proof (decode_key_typed dec k x t v Hx Hv). destruct (decode_key dec k x v). by apply IH.
Qed.

Lemma map_set_typed t k x m : typed t x -> Forall (fun kv => typed t (snd kv)) m -> Forall (fun kv => typed t (snd kv)) (map_set k x m).
Proof. intros Hx H. induction H as [|[k' y] m Hy Hm IH]; simpl; [by apply Forall_singleton|]. case_goal; by apply Forall_cons. Qed.

Section Typed.
Context `{CodecTyped}.

Lemma typed_marshaler_inv t n r : typed t (VMarshaler n r) -> t = TMarshaler n.
Proof. by intros [<- _]. Qed.

(** The cases of a decoding target: scalars, mismatches and types with their own decoder. *)
Ltac decode_cases :=
  cbn [decode_into]; eapply at_target_typed; [|eassumption]; match goal with H : typed ?t ?v |- _ => clear t v H end; intros t v Hv; destruct v; destruct Hv as [<- Hv];
  unfold mismatch; cbn [fst]; try (split; [reflexivity|first [exact Hv|exact I]]);
  try (match goal with |- context [codec_custom ?n ?j (VMarshaler _ ?r)] => destruct (custom_typed n j r) as (? & ->) end; by split).

(** Decoding any document into a well-typed value keeps its type, whether or not parts of the document mismatch. *)
Lemma decode_into_typed j : keeps_types (decode_into j).
Proof.
  induction j as [|b|d|s|l IH|m IH] using Json_ind'; intros t v Hv.
  - assert (Hnil : typed t (match v with VPtr t _ => VPtr t None | VIface _ => VIface None | VSlice t _ => VSlice t None
                            | VMap t _ => VMap t None | _ => v end)) by (destruct v; by destruct Hv).
    destruct v; cbn [decode_into at_target fst] in *; try done. destruct Hv as [<- _].
    destruct (custom_typed name JNull j) as (r' & ->). by split.
  - decode_cases.
  - decode_cases. by destruct (dec_int d).
  - decode_cases.
  - decode_cases.
    + split; [done|]. exact (json_to_value_formed (JArr l)).
    + assert (Hitems : forall acc err, Forall (typed t0) acc ->
        typed (TSlice t0) (fst ((fix items (l : list Json) (acc : list GoValue) (err : option string) : GoValue * option string :=
          match l with
          | [] => (VSlice t0 (Some acc), err)
          | x :: r => let (x, e) := decode_into x (zero_of t0) in items r (acc ++ [x]) (RequestBuilder.first_error err e)
          end) l acc err))); [|by apply Hitems].
      induction IH as [|x l Hx _ IHl]; intros acc err Hacc; [by split; [|apply slice_formed]|].
      pose proof (Hx t0 _ (zero_typed t0)) as Hy. destruct (decode_into x (zero_of t0)) as [y e]. apply IHl.
      by apply Forall_app; split; [|apply Forall_singleton].
  - decode_cases.
    + split; [done|]. exact (json_to_value_formed (JObj m)).
    + by apply decode_keys_typed; [|split].
    + assert (Hentries : forall acc err, Forall (fun kv => typed t0 (snd kv)) acc ->
        typed (TMap t0) (fst ((fix entries (m : GoMap Json) (acc : GoMap GoValue) (err : option string) : GoValue * option string :=
          match m with
          | [] => (VMap t0 (Some acc), err)
          | (k, x) :: r => let (x, e) := decode_into x (zero_of t0) in entries r (map_set k x acc) (RequestBuilder.first_error err e)
          end) m acc err))); [|apply Hentries; destruct m0; [by apply (map_formed t0)|constructor]].
      clear m0 Hv. induction IH as [|[k x] m Hx _ IHm]; intros acc err Hacc; [by split; [|apply map_formed]|].
      pose proof (Hx t0 _ (zero_typed t0)) as Hy. cbn [snd] in Hy. destruct (decode_into x (zero_of t0)) as [y e]. apply IHm.
      by apply map_set_typed.
    + cbn. by destruct (codec_osok m s).
Qed.

(** ** Assignments *)

Lemma set_field_typed name x old sf fts fs :
  fields_typed fts fs -> find_first (fun fv => (sf_Name (fst fv) =? name)%string) fs = Some (sf, old) ->
  typed (type_of old) x -> fields_typed fts (set_field name x fs).
Proof.
  intros Hfs Hf Hx. induction Hfs as [|[g t] [g' y] fts fs [[= ->] Hy] Hr IH]; [done|]. cbn [find_first set_field fst] in *.
  destruct (sf_Name g =? name)%string.
  - injection Hf as -> ->. constructor; [|done]. split; [done|]. destruct Hy as [Ht _]. cbn [snd] in *. by rewrite <-Ht.
  - constructor; [done|by apply IH].
Qed.

Lemma find_field_typed fts fs p sf v : fields_typed fts fs -> find_first p fs = Some (sf, v) -> exists t, typed t v.
Proof.
  intros Hfs. induction Hfs as [|[g t] [g' y] fts fs [_ Hy] Hr IH]; [done|]. cbn [find_first].
  destruct (p (g', y)); [intros [= <- <-]; eauto|done].
Qed.

Lemma set_field_missing name x fs :
  find_first (fun fv => (sf_Name (fst fv) =? name)%string) fs = None -> set_field name x fs = fs.
Proof.
  induction fs as [|[g y] fs IH]; [done|]. cbn [find_first set_field fst]. destruct (sf_Name g =? name)%string; [done|].
  intros Hf. by rewrite IH.
Qed.

Lemma map_get_In {A} k (m : GoMap A) v : map_get k m = Some v -> In v (map snd m).
Proof.
  unfold map_get. induction m as [|[k' w] m IH]; [done|]. cbn [find_first fst map]. destruct (k' =? k)%string.
  - intros [= <-]. by left.
  - intros E. right. by apply IH.
Qed.

Lemma convertPolymorphic_typed payload typeName v :
  convertPolymorphicInterfaceValue payload typeName = Some (Ok v) -> well_formed v.
Proof.
  assert (Hconcrete : forall c, convert_concrete c payload = Ok v -> well_formed v).
  { intros [c|]; [|done]. cbn [convert_concrete]. destruct (codec_sdk c payload) eqn:E; [|done]. intros [= ->]. by eapply sdk_typed. }
  unfold convertPolymorphicInterfaceValue. destruct (map_get typeName _) as [convert|] eqn:E; [|done]. intros [= Hc].
  apply map_get_In in E. cbn [map In snd] in E. destruct E as [<-|E].
  - unfold convertAutonomousDatabaseBase in Hc. destruct (jsonFieldString payload "source"); [by eapply Hconcrete|done].
  - repeat (destruct E as [<-|E]; [by eapply Hconcrete|]). done.
Qed.

(** What is assigned to a field has the field's type. *)
Lemma convertValue_typed raw sf old v : convertValue raw sf old = Ok v -> typed (type_of old) v.
Proof.
  unfold convertValue. pose proof (zero_typed (type_of old)) as Hz. set (t := type_of old) in *. set (target := zero_of t) in *.
  assert (Hdecode : forall payload, match decode_into payload target with
      | (_, Some e) => Err (ErrWrap ("unmarshal into " +++ sf_TypeName sf +++ ": " +++ e) (ErrText e))
      | (v, None) => Ok v
      end = Ok v -> typed t v).
  { intros payload. pose proof (decode_into_typed payload _ _ Hz). destruct (decode_into payload target) as [y [e|]]; [done|].
    by intros [= <-]. }
  intros Hr. destruct raw; [by injection Hr as <-|..]; destruct (to_json _) as [payload|]; try done; cbn zeta in Hr;
    (destruct target eqn:Et; try exact (Hdecode payload Hr));
    (destruct (convertPolymorphicInterfaceValue payload (sf_TypeName sf)) as [[body|]|] eqn:Ep; try done;
     [injection Hr as <-; split; [exact (proj1 Hz)|exact (convertPolymorphic_typed _ _ _ Ep)]|]);
    (destruct (sf_TypeName sf =? "interface {}")%string; [exact (Hdecode payload Hr)|]);
    destruct payload; try done; by injection Hr as <-.
Qed.

Lemma assignField_typed fts fs fs' sf old raw p :
  fields_typed fts fs -> find_first p fs = Some (sf, old) -> (forall fv, p fv = (sf_Name (fst fv) =? sf_Name sf)%string) ->
  assignField fs sf old raw = Ok fs' -> fields_typed fts fs'.
Proof.
  intros Hfs Hf Hp. unfold assignField. destruct (convertValue raw sf old) as [v|] eqn:E; [|done]. intros [= <-].
  eapply set_field_typed; [done| |by eapply convertValue_typed].
  rewrite <-Hf. clear -Hp. induction fs as [|fv fs IH]; [done|]. cbn [find_first]. by rewrite <-Hp, IH.
Qed.

(** A field found by name carries that name. *)
Lemma found_name name fs sf (old : GoValue) :
  find_first (fun fv => (sf_Name (fst fv) =? name)%string) fs = Some (sf, old) -> name = sf_Name sf.
Proof.
  induction fs as [|[g y] fs IH]; [done|]. cbn [find_first fst]. destruct (sf_Name g =? name)%string eqn:E; [|done].
  intros [= -> _]. by bool_prop.
Qed.

Lemma explicit_typed fts fs values id fields spec fs' :
  fields_typed fts fs -> buildExplicitRequest fs values id fields spec = Ok fs' -> fields_typed fts fs'.
Proof.
  revert fs. induction fields as [|field fields IH]; intros fs Hfs; [by intros [= <-]|]. cbn [buildExplicitRequest].
  destruct (find_first _ fs) as [[sf old]|] eqn:Ef; [|by apply IH].
  assert (Hassign : forall raw fs'', assignField fs sf old raw = Ok fs'' -> fields_typed fts fs'').
  { intros raw fs''. eapply assignField_typed; [done|exact Ef|]. intros fv. by rewrite (found_name _ _ _ _ Ef). }
  destruct (negb (sf_Exported sf)); [by apply IH|]. destruct (_ || _); [by apply IH|]. destruct (_ =? "body")%string.
  - destruct (assignField fs sf old spec) as [fs''|] eqn:E; [|done]. by apply IH, (Hassign spec).
  - destruct (explicitRequestValue values field id) as [j|]; [|by apply IH].
    destruct (assignField fs sf old (json_to_value j)) as [fs''|] eqn:E; [|done]. by apply IH, (Hassign (json_to_value j)).
Qed.

Lemma heuristic_field_typed sf t old values id aliases spec v :
  typed t old -> populateHeuristicRequestField sf old values id aliases spec = Ok v -> typed t v.
Proof.
  intros Hold. assert (Hconvert : forall raw, convertValue raw sf old = Ok v -> typed t v).
  { intros raw Hc. apply convertValue_typed in Hc. by destruct Hold as [<- _]. }
  unfold populateHeuristicRequestField.
  destruct (_ || _); [by intros [= <-]|]. destruct (_ || _); [by intros [= <-]|]. destruct (_ =? "body")%string.
  - destruct (convertValue spec sf old) eqn:E; [|done]. intros [= ->]. by apply (Hconvert spec).
  - destruct (heuristicRequestValue values sf id aliases) as [j|]; [|by intros [= <-]].
    destruct (convertValue (json_to_value j) sf old) eqn:E; [|done]. intros [= ->]. by apply (Hconvert (json_to_value j)).
Qed.

Lemma heuristic_typed fts fs values id aliases spec fs' :
  fields_typed fts fs -> buildHeuristicRequest fs values id aliases spec = Ok fs' -> fields_typed fts fs'.
Proof.
  intros Hfs. revert fs'. induction Hfs as [|[sf t] [sf' old] fts fs [[= ->] Hold] _ IH]; intros fs'; [intros [= <-]; constructor|].
  cbn [buildHeuristicRequest snd] in *. destruct (populateHeuristicRequestField sf old _ _ _ _) as [v|] eqn:Ev; [|done].
  destruct (buildHeuristicRequest fs _ _ _ _) as [r|]; [|done]. intros [= <-].
  constructor; [split; [done|by eapply heuristic_field_typed]|by apply IH].
Qed.

Lemma retry_token_typed digest fts fs resource :
  fields_typed fts fs -> fields_typed fts (assignDeterministicRetryToken digest fs resource).
Proof.
  intros Hfs. unfold assignDeterministicRetryToken. destruct (find_first _ fs) as [[sf old]|] eqn:Ef; [|done].
  destruct (negb (sf_Exported sf)); [done|]. destruct (negb _); [done|]. destruct (_ =? "")%string; [done|].
  destruct (assignField fs sf old _) as [fs'|] eqn:E; [|done].
  eapply assignField_typed; [done|exact Ef| |exact E]. intros fv. by rewrite (found_name _ _ _ _ Ef).
Qed.

(** Whatever the resource, the looked-up values, the resolved secrets and the request fields, a request that [buildRequest]
    returns has the type of the request it was given, and every pointer target, element and entry in it has its declared type:
    the model sets no field that [reflect] would refuse. *)
Theorem request_well_typed {W} (digest : string -> string) (t : GoType) (request resource : GoValue) (values : option (GoMap Json))
  (preferredID : string) (fields : list RequestField) (idAliases : list string) (options : requestBuildOptions W)
  (bodyOverride : option GoValue) (w : W) (built : GoValue) :
  typed t request ->
  fst (buildRequest digest request resource values preferredID fields idAliases options bodyOverride w) = Ret (Ok built) ->
  typed t built.
Proof.
  intros Ht. unfold buildRequest. destruct request as [| | | | |pt [[| | | | | | |n fs| | | |]|]| | | | | |]; try done.
  destruct Ht as [<- [Hpt Hfs]]. unfold st_bind at 1.
  match goal with |- context [match ?resolve w with _ => _ end] => destruct (resolve w) as [[[spec|]|] w'] end; try done.
  cbn [st_ret fst]. assert (Hfields : fields_typed (map (fun fv => (fst fv, type_of (snd fv))) fs) fs)
    by by apply own_fields_typed, (struct_formed n).
  destruct (match fields with [] => _ | _ => _ end) as [fs'|] eqn:E; [|done]. intros [= <-].
  split; [done|]. rewrite <-Hpt. apply struct_typed, retry_token_typed.
  destruct fields; [by eapply heuristic_typed|by eapply explicit_typed].
Qed.

(** Projecting a response into the status keeps the resource well typed: whatever the body says and however much of it
    mismatches, the resource afterwards has the type it had, and so has everything in it. *)
Theorem projection_well_typed (t : GoType) (resource response : GoValue) :
  typed t resource -> typed t (fst (mergeResponseIntoStatus resource response)).
Proof.
  intros Ht. unfold mergeResponseIntoStatus. destruct (responseBody response) as [body|]; [|done].
  destruct (statusStruct resource) as [v|] eqn:Es; [|by destruct body].
  assert (Hmerge : typed t (fst (match to_json body with
    | Err e => (resource, Some (ErrWrap ("marshal OCI response body: " +++ e) (ErrText e)))
    | Ok payload =>
        let (status, err) := decode_into payload v in
        (match resource with
         | VPtr t (Some (VStruct n fs)) => VPtr t (Some (VStruct n (set_field "Status" status fs)))
         | _ => resource
         end, match err with
              | Some e => Some (ErrWrap ("project OCI response body into status: " +++ e) (ErrText e))
              | None => None
              end)
    end))); [|by destruct body].
  destruct (to_json body) as [payload|]; [|done]. pose proof (decode_into_typed payload) as Hdec.
  destruct resource as [| | | | |pt [[| | | | | | |n fs| | | |]|]| | | | | |]; try (by destruct (decode_into payload v)).
  destruct Ht as [<- [Hpt Hfs]]. apply (struct_formed n) in Hfs as Hown. apply own_fields_typed in Hown as Hf.
  unfold statusStruct in Es. cbn [resourceStruct fieldByName] in Es.
  destruct (find_first (fun fv => (sf_Name (fst fv) =? "Status")%string) fs) as [[sf old]|] eqn:Ef.
  - injection Es as ->. pose proof (find_field_typed _ _ _ _ _ Hf Ef) as (tv & Hv). specialize (Hdec _ _ Hv).
    destruct (decode_into payload v) as [v' e]. cbn [fst] in *. split; [done|]. rewrite <-Hpt. apply struct_typed.
    eapply set_field_typed; [done|exact Ef|]. by destruct Hv as [-> _].
  - destruct (decode_into payload v) as [v' e]. cbn [fst]. rewrite set_field_missing by done. by split.
Qed.
End Typed.

(** ** Delays at 64 bits *)

(** The Retry-After header of a response in seconds: the first exported header field with a positive integer. *)
Fixpoint positive_retry_after (fs : list (StructField * GoValue)) : option Z :=
  match fs with
  | [] => None
  | (f, v) :: r =>
      match (if sf_Exported f && isRetryAfterHeaderField f then intFieldValue v else None) with
      | Some seconds => if (0 <? seconds)%Z then Some seconds else positive_retry_after r
      | None => positive_retry_after r
      end
  end.
Definition retry_after_seconds (response : GoValue) : option Z :=
  match indirectValue response with Some (VStruct _ fs) => positive_retry_after fs | _ => None end.

Lemma retry_after_duration response :
  responseRetryAfterDuration response = match retry_after_seconds response with Some s => wrap64 (s * Second) | None => 0%Z end.
Proof.
  unfold responseRetryAfterDuration, retry_after_seconds. destruct (indirectValue response) as [[| | | | | | |n fs| | | |]|]; try done.
  induction fs as [|[f v] fs IH]; [done|]. cbn [first_retry_after positive_retry_after].
  destruct (sf_Exported f), (isRetryAfterHeaderField f); try done. cbn [negb orb andb].
  destruct (intFieldValue v) as [s|]; [|done]. by destruct (0 <? s)%Z.
Qed.

Lemma retry_after_positive response s : retry_after_seconds response = Some s -> (0 < s)%Z.
Proof.
  unfold retry_after_seconds. destruct (indirectValue response) as [[| | | | | | |n fs| | | |]|]; try done.
  induction fs as [|[f v] fs IH]; [done|]. cbn [positive_retry_after].
  destruct (if sf_Exported f && isRetryAfterHeaderField f then _ else _) as [s'|]; [|done].
  destruct (0 <? s')%Z eqn:E; [|done]. intros [= ->]. by bool_prop.
Qed.

(** The longest Retry-After, in seconds, that an int64 of nanoseconds holds. *)
Definition longest_retry_after : Z := 9223372036.

(** C36. Delays stay in range: when a requeue is wanted its delay is positive and fits an int64 for every response and every
    preferred delay.  Without a preferred delay it is the Retry-After header to the nanosecond as long as the header is
    at most 9223372036 seconds; a longer one overflows and is shortened, and without a header it is one minute. *)
Theorem requeue_delay_bounds (response : GoValue) (preferred : Duration) :
  (- 2 ^ 63 <= preferred < 2 ^ 63)%Z ->
  let delay := resolveRequeueDuration response true preferred in
  (0 < delay < 2 ^ 63)%Z /\
  ((0 < preferred)%Z -> delay = preferred) /\
  ((preferred <= 0)%Z ->
   match retry_after_seconds response with
   | None => delay = defaultRequeueDuration
   | Some seconds =>
       ((seconds <= longest_retry_after)%Z -> delay = seconds * Second)%Z /\
       ((longest_retry_after < seconds)%Z -> delay < seconds * Second)%Z
   end).
Proof.
  intros Hp delay. subst delay. unfold resolveRequeueDuration. cbn [negb]. cbn zeta. rewrite retry_after_duration.
  pose proof (retry_after_positive response) as Hpos. assert (HS : Second = 1000000000%Z) by reflexivity.
  assert (HD : defaultRequeueDuration = 60000000000%Z) by reflexivity. unfold longest_retry_after.
  destruct (retry_after_seconds response) as [s|]; [specialize (Hpos s eq_refl)|clear Hpos].
  - pose proof (wrap64_range (s * Second)). pose proof (wrap64_id (s * Second)).
    destruct (0 <? preferred)%Z eqn:E1; destruct (0 <? wrap64 (s * Second))%Z eqn:E2; bool_prop; repeat split; lia.
  - destruct (0 <? preferred)%Z eqn:E1; cbn [Z.ltb Z.compare]; bool_prop; repeat split; lia.
Qed.

(** ** Witnesses *)

Lemma plainCodec_typed : @CodecTyped plainCodec.
Proof. split; [by eexists|]. intros n j v [= <-]. apply json_to_value_formed. Defined.

Definition typedWidget : GoValue :=
  VStruct "Widget"
    [(exported "Spec" "spec" "WidgetSpec", VStruct "WidgetSpec" [(exported "Name" "name" "string", VString "w")]);
     (exported "Status" "status" "WidgetStatus",
      VStruct "WidgetStatus"
        [(exported "OsokStatus" "status" "shared.OSOKStatus", VOsok trackedStatus);
         (exported "Ids" "ids" "[]*string", VSlice (TPtr TString) None);
         (exported "Size" "size" "*int", VPtr TInt None)])].
Definition typedResource : GoValue := VPtr (type_of typedWidget) (Some typedWidget).
Definition mismatchedBody : GoValue :=
  sampleBody [("ids", JArr [JStr "a"; JNum (mkDec 1 0); JNull]); ("size", JNum (mkDec 15 (-1))); ("status", JStr "ACTIVE")].

Lemma projection_well_typed_witness :
  typed (TPtr (type_of typedWidget)) (fst (@mergeResponseIntoStatus plainCodec typedResource mismatchedBody)) /\
  is_Some (snd (@mergeResponseIntoStatus plainCodec typedResource mismatchedBody)).
Proof.
  split; [|vm_compute; eauto].
  apply (@projection_well_typed plainCodec plainCodec_typed). split; [reflexivity|]. repeat split.
Defined.

Definition typedRequestStruct : GoValue :=
  VStruct "CreateWidgetRequest"
    [(mkField "Details" true false "" "" "" "body" "CreateWidgetDetails",
      VStruct "CreateWidgetDetails" [(exported "Name" "name" "*string", VPtr TString None)]);
     (exported "OpcRetryToken" "" "*string", VPtr TString None)].
Definition typedRequest : GoValue := VPtr (type_of typedRequestStruct) (Some typedRequestStruct).

Lemma request_well_typed_witness :
  exists built,
    fst (@buildRequest plainCodec unit (fun s => s) typedRequest typedResource None "" [] [] emptyOptions
           (Some (json_to_value (JObj [("name", JStr "w")]))) tt) = Ret (Ok built) /\
    typed (TPtr (type_of typedRequestStruct)) built.
Proof.
  eexists. split; [vm_compute; reflexivity|].
  apply (@request_well_typed plainCodec plainCodec_typed unit (fun s => s) _ typedRequest typedResource None "" [] [] emptyOptions
           (Some (json_to_value (JObj [("name", JStr "w")]))) tt).
  - split; [reflexivity|]. repeat split.
  - vm_compute. reflexivity.
Defined.

Definition retryAfterResponse (seconds : Z) : GoValue := VStruct "CreateWidgetResponse" [(exported "RetryAfter" "" "int", VInt seconds)].

(** A header of 584 years asks for a new attempt after 0.29 seconds. *)
Lemma requeue_delay_bounds_witness :
  resolveRequeueDuration (retryAfterResponse 30) true 0%Z = (30 * Second)%Z /\
  resolveRequeueDuration (retryAfterResponse 18446744074) true 0%Z = 290448384%Z /\
  (0 < resolveRequeueDuration (retryAfterResponse 18446744074) true 0%Z < 2 ^ 63)%Z.
Proof.
  split; [vm_compute; reflexivity|]. split; [vm_compute; reflexivity|].
  apply (requeue_delay_bounds (retryAfterResponse 18446744074) 0%Z). lia.
Defined.
