(* ===== verification/Sorting.v ===== *)
(** * Sorted collections

    [sort.Slice] and [sort.Strings] with keys that are strings, and keys that are joined from
    parts; the shape in which the clients and the build tools compare and print collections. *)

From stdpp Require Import sorting strings.
From Stdlib Require Import Ascii.
From S2P Require Import Prelude GoStrings.
Local Open Scope string_scope.
Local Open Scope list_scope.

(** ** Filters *)

Lemma list_filter_all {A} (P : A -> Prop) `{forall x, Decision (P x)} l : Forall P l -> filter P l = l.
Proof. induction 1 as [|x l Hx _ IH]; [done|]. by rewrite filter_cons_True, IH. Qed.

Lemma list_filter_none {A} (P : A -> Prop) `{forall x, Decision (P x)} l : Forall (fun x => ~ P x) l -> filter P l = [].
Proof. induction 1 as [|x l Hx _ IH]; [done|]. by rewrite filter_cons_False. Qed.

(** ** Sorting *)

Section SortBy.
Context {A : Type} (key : A -> string).

(** The order of [sort.Slice(s, func(i, j) bool { return key(s[i]) < key(s[j]) })]. *)
Definition key_le (x y : A) : Prop := String.le (key x) (key y).

#[export] Instance key_le_dec : RelDecision key_le.
Proof. intros x y. unfold key_le. apply _. Defined.
#[export] Instance key_le_trans : Transitive key_le.
Proof. intros x y z. unfold key_le. apply transitivity. Qed.
#[export] Instance key_le_total : Total key_le.
Proof. intros x y. unfold key_le. apply total, _. Qed.

Definition sort_by (l : list A) : list A := merge_sort key_le l.

Lemma sort_by_perm l : sort_by l ≡ₚ l.
Proof. apply merge_sort_Permutation. Qed.

(** [sort.Slice] leaves the order of equal keys open.  Where the key tells the elements apart
    there is one sorted arrangement only, whatever the algorithm. *)
Lemma sort_by_unique l k :
  (forall x y, x ∈ l -> y ∈ l -> key x = key y -> x = y) -> k ≡ₚ l -> Sorted key_le k -> k = sort_by l.
Proof.
  intros Hinj Hk Hs. apply (Sorted_unique_strong key_le); [|done|apply Sorted_merge_sort; apply _|].
  - intros x y Hx Hy Hxy Hyx. apply Hinj; [by rewrite <- Hk|by rewrite <- (sort_by_perm l)|].
    by apply (anti_symm String.le).
  - by rewrite Hk, sort_by_perm.
Qed.

(** Two sorted lists are equal exactly when the lists are permutations of each other. *)
Lemma sort_by_eq l k :
  (forall x y, x ∈ l -> y ∈ l -> key x = key y -> x = y) -> sort_by l = sort_by k <-> l ≡ₚ k.
Proof.
  intros Hinj. split; intros H.
  - by rewrite <- (sort_by_perm l), H, sort_by_perm.
  - symmetry. apply sort_by_unique; [done| |apply Sorted_merge_sort; apply _]. by rewrite sort_by_perm, H.
Qed.
End SortBy.

(** *** Joined keys *)

(** The separator of a joined key. *)
Definition NUL : ascii := "000"%char.

Fixpoint no_char (c : ascii) (s : string) : bool :=
  match s with EmptyString => true | String d s' => negb (Ascii.eqb d c) && no_char c s' end.

Lemma Split_app_sep sep s t : no_char sep s = true -> Split (s +++ String sep t) sep = s :: Split t sep.
Proof.
  induction s as [|d s IH]; cbn [no_char]; intros Hs.
  - change (Split (String sep t) sep = "" :: Split t sep). cbn [Split]. by rewrite Ascii.eqb_refl.
  - apply andb_true_iff in Hs as [Hd Hs]. apply negb_true_iff in Hd. rewrite string_app_cons. cbn [Split].
    by rewrite Hd, (IH Hs).
Qed.

Lemma Split_no_char sep s : no_char sep s = true -> Split s sep = [s].
Proof.
  induction s as [|d s IH]; cbn [no_char]; intros Hs; [done|].
  apply andb_true_iff in Hs as [Hd Hs]. apply negb_true_iff in Hd. cbn [Split]. by rewrite Hd, (IH Hs).
Qed.

(** [Split] undoes [Join] when no part contains the separator. *)
Lemma Split_Join sep l :
  l <> [] -> Forall (fun s => no_char sep s = true) l -> Split (Join l (String sep EmptyString)) sep = l.
Proof.
  intros Hl Hf. induction Hf as [|s l Hs Hf IH]; [done|]. destruct l as [|t l]; [by apply Split_no_char|].
  change (Join (s :: t :: l) (String sep "")) with (s +++ String sep (Join (t :: l) (String sep ""))).
  rewrite Split_app_sep by done. by rewrite IH.
Qed.

Lemma Join_inj sep l k :
  l <> [] -> k <> [] -> Forall (fun s => no_char sep s = true) l -> Forall (fun s => no_char sep s = true) k ->
  Join l (String sep EmptyString) = Join k (String sep EmptyString) -> l = k.
Proof. intros Hl Hk Fl Fk H. by rewrite <- (Split_Join sep l), H, Split_Join. Qed.
