(* ===== verification/ResourceTags.v ===== *)
(** * Tag maps of resources, and what a service stores of an update

    The tags of a custom resource ([map[string]string] and [map[string]shared.MapValue]), the
    SDK's defined tags, and [ConvertToOciDefinedTags] of [pkg/util/helpers.go].  A nil map is
    [None] where the code tells it from an empty one. *)

From stdpp Require Import gmap.
From S2P Require Import Prelude GoStrings Shared GoErrors GoValue.

Notation Tags := (gmap string string).
Notation MapValues := (gmap string (gmap string string)).

(** [map[string]map[string]interface{}]; the values are decoded JSON. *)
Notation SdkTags := (gmap string (option (gmap string Json))).

Definition ConvertToOciDefinedTags (osokDef : MapValues) : SdkTags :=
  (fun inMap : gmap string string => Some (JStr <$> inMap)) <$> osokDef.

(** The conversion forgets nothing. *)
#[export] Instance ConvertToOciDefinedTags_inj : Inj (=) (=) ConvertToOciDefinedTags.
Proof.
  assert (Hin : Inj (=) (=) (fun inMap : gmap string string => Some (JStr <$> inMap))).
  { intros m1 m2 [= H]. apply (map_fmap_inj JStr) in H; [done|]. by intros ?? [= ->]. }
  unfold ConvertToOciDefinedTags. apply map_fmap_inj, Hin.
Qed.

(** ** Updates on the service's side *)

(** The service stores what an update sends and keeps the rest; a cleared string may come back as absent. *)
Definition stored_string (sent current next : option string) : Prop :=
  match sent with Some v => next = Some v \/ (v = "" /\ next = None) | None => next = current end.
Definition stored {A} (sent current next : option A) : Prop :=
  match sent with Some v => next = Some v | None => next = current end.
