(* ===== verification/QueueRuntime.v ===== *)
(** * The queue's runtime hooks ([pkg/servicemanager/queue/queue/queue_runtime.go])

    The hooks that adapt the generated runtime to the Queue service: request bodies,
    status projection, drift and parity checks, and the reading of work requests.
    Go maps of tags are finite maps, with [None] for a nil map; a pointer is an option;
    an SDK time stands for the text that [Format] gives.  A capability is a dynamic
    value, as the SDK's interface [CapabilityDetails] is; JSON text is read and written
    by [JsonText]. *)

From stdpp Require Import gmap.
From Stdlib Require Import Ascii.
From S2P Require Import Prelude GoStrings Shared GoErrors GoValue AsyncStatus Secrets JsonValues Semantics SpecResolution MutationPolicy.
From S2P Require Import RequestBuilder GeneratorSemantics ResourceTags.
Local Open Scope string_scope.
Local Open Scope list_scope.
Local Open Scope go_scope.

Local Notation "'try' x ':=' c 'in' k" := (result_bind c (fun x => k))
  (at level 200, x pattern, c at level 100, k at level 200, right associativity).

(** [fmt.Errorf] with a prefix and the wrapped error. *)
Definition wrap_result {A} (prefix : string) (r : result A GoError) : result A GoError :=
  match r with Ok a => Ok a | Err e => Err (ErrWrap (prefix +++ ": " +++ ErrorString e) e) end.

(** ** The resource ([api/queue/v1beta1/queue_types.go]) *)

Record QueueCapability := mkCapability {
  JsonData : string;
  cap_Type : string;
  IsPrimaryConsumerGroupEnabled : bool;
  PrimaryConsumerGroupDisplayName : string;
  PrimaryConsumerGroupFilter : string;
  PrimaryConsumerGroupDeadLetterQueueDeliveryCount : Z
}.

Record QueueSpec := mkQueueSpec {
  spec_DisplayName : string;
  spec_CompartmentId : string;
  spec_RetentionInSeconds : Z;
  spec_VisibilityInSeconds : Z;
  spec_TimeoutInSeconds : Z;
  spec_ChannelConsumptionLimit : Z;
  spec_DeadLetterQueueDeliveryCount : Z;
  spec_CustomEncryptionKeyId : string;
  spec_Capabilities : list QueueCapability;
  spec_FreeformTags : option Tags;
  spec_DefinedTags : option MapValues
}.

Record QueueStatus := mkQueueStatus {
  qs_OsokStatus : OSOKStatus;
  qs_Id : string;
  qs_CompartmentId : string;
  qs_TimeCreated : string;
  qs_TimeUpdated : string;
  qs_LifecycleState : string;
  qs_MessagesEndpoint : string;
  qs_RetentionInSeconds : Z;
  qs_VisibilityInSeconds : Z;
  qs_TimeoutInSeconds : Z;
  qs_DeadLetterQueueDeliveryCount : Z;
  qs_DisplayName : string;
  qs_LifecycleDetails : string;
  qs_CustomEncryptionKeyId : string;
  qs_FreeformTags : option Tags;
  qs_DefinedTags : option MapValues;
  qs_SystemTags : option MapValues;
  qs_ChannelConsumptionLimit : Z;
  qs_Capabilities : list QueueCapability;
  qs_CreateWorkRequestId : string;
  qs_UpdateWorkRequestId : string;
  qs_DeleteWorkRequestId : string
}.

Record Queue := mkQueue { q_Spec : QueueSpec; q_Status : QueueStatus }.

(** ** The SDK's types *)

Record SdkQueue := mkSdkQueue {
  sdk_Id : option string;
  sdk_CompartmentId : option string;
  sdk_TimeCreated : option string;
  sdk_TimeUpdated : option string;
  sdk_LifecycleState : string;
  sdkq_MessagesEndpoint : option string;
  sdk_RetentionInSeconds : option Z;
  sdk_VisibilityInSeconds : option Z;
  sdk_TimeoutInSeconds : option Z;
  sdk_DeadLetterQueueDeliveryCount : option Z;
  sdk_DisplayName : option string;
  sdk_LifecycleDetails : option string;
  sdk_CustomEncryptionKeyId : option string;
  sdk_FreeformTags : option Tags;
  sdk_DefinedTags : option SdkTags;
  sdk_SystemTags : option SdkTags;
  sdk_ChannelConsumptionLimit : option Z;
  sdk_Capabilities : list GoValue
}.

Record CreateQueueDetails := mkCreateDetails {
  cd_DisplayName : option string;
  cd_CompartmentId : option string;
  cd_RetentionInSeconds : option Z;
  cd_VisibilityInSeconds : option Z;
  cd_TimeoutInSeconds : option Z;
  cd_ChannelConsumptionLimit : option Z;
  cd_DeadLetterQueueDeliveryCount : option Z;
  cd_CustomEncryptionKeyId : option string;
  cd_Capabilities : option (list GoValue);
  cd_FreeformTags : option Tags;
  cd_DefinedTags : option SdkTags
}.

(** A nil field is left out of the request. *)
Record UpdateQueueDetails := mkUpdateDetails {
  ud_DisplayName : option string;
  ud_VisibilityInSeconds : option Z;
  ud_TimeoutInSeconds : option Z;
  ud_ChannelConsumptionLimit : option Z;
  ud_DeadLetterQueueDeliveryCount : option Z;
  ud_CustomEncryptionKeyId : option string;
  ud_Capabilities : option (list GoValue);
  ud_FreeformTags : option Tags;
  ud_DefinedTags : option SdkTags
}.
Definition noUpdateDetails : UpdateQueueDetails := mkUpdateDetails None None None None None None None None None.

Record WorkRequestResource := mkWorkRequestResource {
  wrr_EntityType : option string;
  wrr_ActionType : string;
  wrr_Identifier : option string
}.
Record WorkRequest := mkWorkRequest {
  qwr_OperationType : string;
  qwr_Status : string;
  qwr_Id : option string;
  qwr_Resources : list WorkRequestResource;
  qwr_PercentComplete : option Dec
}.

(** ** Small helpers *)

Definition stringValue (value : option string) : string := default "" value.
Definition intValue (value : option Z) : Z := default 0%Z value.

Definition stringPtrEqual (actual : option string) (expected : string) : bool :=
  match actual with None => (TrimSpace expected =? "")%string | Some a => (a =? expected)%string end.
Definition intPtrEqual (actual : option Z) (expected : Z) : bool :=
  match actual with None => (expected =? 0)%Z | Some a => (a =? expected)%Z end.

(** A nil or empty map is cloned to nil. *)
Definition cloneStringMap (input : option Tags) : option Tags :=
  match input with
  | None => None
  | Some m => if decide (m = ∅) then None else Some m
  end.

(** Namespaces without values are dropped, and a map that is left empty is nil. *)
Definition convertOCIToStatusDefinedTags (input : option SdkTags) : option MapValues :=
  let converted :=
    omap (fun values : option (gmap string Json) =>
            match values with
            | None => None
            | Some values => if decide (values = ∅) then None else Some (sprint <$> values)
            end) (default ∅ input) in
  if decide (converted = ∅) then None else Some converted.

Definition desiredQueueFreeformTagsForUpdate (spec current : option Tags) : option Tags :=
  match spec with
  | Some _ => cloneStringMap spec
  | None => match current with Some _ => Some ∅ | None => None end
  end.

Definition desiredQueueDefinedTagsForUpdate (spec : option MapValues) (current : option SdkTags) : option SdkTags :=
  match spec with
  | Some tags => Some (ConvertToOciDefinedTags tags)
  | None => match current with Some _ => Some ∅ | None => None end
  end.

(** ** Capabilities *)

(** [json.Unmarshal] and [json.Marshal] between text and documents; the text of a document is that of its [canonical]
    form, since the keys of maps are printed in order. *)
Class JsonText := {
  json_parse : string -> result Json string;
  json_print : Json -> string
}.

Definition ConsumerGroups := "CONSUMER_GROUPS".
Definition LargeMessages := "LARGE_MESSAGES".

(** [canonicalQueueCapabilityType]; the SDK maps its enum values case-insensitively. *)
Definition canonicalQueueCapabilityType (value : string) : string :=
  let value := TrimSpace value in
  if (value =? "")%string then ""
  else if (ToLower value =? "consumer_groups")%string then ConsumerGroups
  else if (ToLower value =? "large_messages")%string then LargeMessages
  else ToUpper value.

Definition queueCapabilityUsesTypedProjection (capabilityType : string) : bool :=
  (capabilityType =? ConsumerGroups)%string || (capabilityType =? LargeMessages)%string.
Definition queueCapabilityRequiresControllerOwnedParity (capabilityType : string) : bool :=
  (capabilityType =? ConsumerGroups)%string.

Definition json_field (name json typeName : string) : StructField := mkField name true false json "" "" "" typeName.

(** A capability as the struct that [encoding/json] decodes into, and back. *)
Definition capability_value (c : QueueCapability) : GoValue :=
  VStruct "QueueCapability"
    [(json_field "JsonData" "jsonData,omitempty" "string", VString (JsonData c));
     (json_field "Type" "type,omitempty" "string", VString (cap_Type c));
     (json_field "IsPrimaryConsumerGroupEnabled" "isPrimaryConsumerGroupEnabled,omitempty" "bool", VBool (IsPrimaryConsumerGroupEnabled c));
     (json_field "PrimaryConsumerGroupDisplayName" "primaryConsumerGroupDisplayName,omitempty" "string", VString (PrimaryConsumerGroupDisplayName c));
     (json_field "PrimaryConsumerGroupFilter" "primaryConsumerGroupFilter,omitempty" "string", VString (PrimaryConsumerGroupFilter c));
     (json_field "PrimaryConsumerGroupDeadLetterQueueDeliveryCount" "primaryConsumerGroupDeadLetterQueueDeliveryCount,omitempty" "int",
      VInt (PrimaryConsumerGroupDeadLetterQueueDeliveryCount c))].

Definition field_string (name : string) (fs : list (StructField * GoValue)) : string :=
  match struct_field name fs with Some (VString s) => s | _ => "" end.
Definition field_bool (name : string) (fs : list (StructField * GoValue)) : bool :=
  match struct_field name fs with Some (VBool b) => b | _ => false end.
Definition field_int (name : string) (fs : list (StructField * GoValue)) : Z :=
  match struct_field name fs with Some (VInt z) => z | _ => 0%Z end.

Definition zeroCapability : QueueCapability := mkCapability "" "" false "" "" 0%Z.
Definition capability_of (v : GoValue) : QueueCapability :=
  match v with
  | VStruct _ fs =>
      mkCapability (field_string "JsonData" fs) (field_string "Type" fs) (field_bool "IsPrimaryConsumerGroupEnabled" fs)
        (field_string "PrimaryConsumerGroupDisplayName" fs) (field_string "PrimaryConsumerGroupFilter" fs)
        (field_int "PrimaryConsumerGroupDeadLetterQueueDeliveryCount" fs)
  | _ => zeroCapability
  end.

Definition set_Type (t : string) (c : QueueCapability) : QueueCapability :=
  mkCapability (JsonData c) t (IsPrimaryConsumerGroupEnabled c) (PrimaryConsumerGroupDisplayName c) (PrimaryConsumerGroupFilter c)
    (PrimaryConsumerGroupDeadLetterQueueDeliveryCount c).
Definition set_JsonData (d : string) (c : QueueCapability) : QueueCapability :=
  mkCapability d (cap_Type c) (IsPrimaryConsumerGroupEnabled c) (PrimaryConsumerGroupDisplayName c) (PrimaryConsumerGroupFilter c)
    (PrimaryConsumerGroupDeadLetterQueueDeliveryCount c).

Section Capabilities.
Context `{JsonCodec} `{JsonText}.

(** [json.Unmarshal] of text into a struct. *)
Definition unmarshal_into (rawJSON : string) (v : GoValue) : result GoValue GoError :=
  match json_parse rawJSON with
  | Err text => Err (ErrText text)
  | Ok j => match decode_into j v with (v, None) => Ok v | (_, Some text) => Err (ErrText text) end
  end.

(** [json.Unmarshal] of text into a nil [map[string]any], and the replacement of a nil map. *)
Definition unmarshal_payload (rawJSON : string) : result (GoMap Json) GoError :=
  match json_parse rawJSON with
  | Err text => Err (ErrText text)
  | Ok (JObj m) => Ok (fold_left (fun payload kv => map_set (fst kv) (snd kv) payload) m [])
  | Ok JNull => Ok []
  | Ok j => Err (ErrText ("json: cannot unmarshal " +++ json_kind j +++ " into Go value of type map[string]interface {}"))
  end.

Definition queueCapabilityTypeFromJSON (rawJSON : string) : result string GoError :=
  try v := unmarshal_into rawJSON (VStruct "" [(json_field "Type" "type" "string", VString "")]) in
  Ok (canonicalQueueCapabilityType (match v with VStruct _ fs => field_string "Type" fs | _ => "" end)).

Definition queueCapabilityTypeFromSpec (spec : QueueCapability) : result string GoError :=
  let capabilityType := canonicalQueueCapabilityType (cap_Type spec) in
  let rawJSON := TrimSpace (JsonData spec) in
  if (rawJSON =? "")%string then
    if (capabilityType =? "")%string then Err (ErrText "type is required") else Ok capabilityType
  else
    try rawType := wrap_result "parse jsonData type" (queueCapabilityTypeFromJSON rawJSON) in
    if (capabilityType =? "")%string then
      if (rawType =? "")%string then Err (ErrText "type is required") else Ok rawType
    else if negb (rawType =? "")%string && negb (rawType =? capabilityType)%string
    then Err (ErrText ("type " +++ Quote (cap_Type spec) +++ " does not match jsonData type " +++ Quote rawType))
    else Ok capabilityType.

(** The payload map, as a document. *)
Definition queueCapabilityFromTypedFields (spec : QueueCapability) (capabilityType : string) : GoMap Json :=
  let payload := [("type", JStr capabilityType)] in
  if negb (capabilityType =? ConsumerGroups)%string then payload
  else
    let payload := if IsPrimaryConsumerGroupEnabled spec
                   then map_set "isPrimaryConsumerGroupEnabled" (JBool true) payload else payload in
    let payload := if negb (TrimSpace (PrimaryConsumerGroupDisplayName spec) =? "")%string
                   then map_set "primaryConsumerGroupDisplayName" (JStr (PrimaryConsumerGroupDisplayName spec)) payload else payload in
    let payload := if negb (TrimSpace (PrimaryConsumerGroupFilter spec) =? "")%string
                   then map_set "primaryConsumerGroupFilter" (JStr (PrimaryConsumerGroupFilter spec)) payload else payload in
    if negb (PrimaryConsumerGroupDeadLetterQueueDeliveryCount spec =? 0)%Z
    then map_set "primaryConsumerGroupDeadLetterQueueDeliveryCount"
           (JNum (mkDec (PrimaryConsumerGroupDeadLetterQueueDeliveryCount spec) 0)) payload
    else payload.

Definition queueCapabilityFromJSON (rawJSON fallbackType : string) : result (GoMap Json * string) GoError :=
  try payload := wrap_result "decode jsonData" (unmarshal_payload rawJSON) in
  try rawType := wrap_result "parse jsonData type" (queueCapabilityTypeFromJSON rawJSON) in
  let fallbackType := if (fallbackType =? "")%string then rawType else fallbackType in
  if (fallbackType =? "")%string then Err (ErrText "type is required")
  else if negb (rawType =? "")%string && negb (rawType =? fallbackType)%string
  then Err (ErrText ("type " +++ Quote fallbackType +++ " does not match jsonData type " +++ Quote rawType))
  else Ok (map_set "type" (JStr fallbackType) payload, fallbackType).

Definition buildQueueCapability (spec : QueueCapability) : result (GoMap Json * string) GoError :=
  try capabilityType := queueCapabilityTypeFromSpec spec in
  let rawJSON := TrimSpace (JsonData spec) in
  if negb (rawJSON =? "")%string then queueCapabilityFromJSON rawJSON capabilityType
  else Ok (queueCapabilityFromTypedFields spec capabilityType, capabilityType).

(** The loops over capabilities: [seen] are the types met so far. *)
Fixpoint build_capabilities (index : nat) (seen : list string) (specs : list QueueCapability) : result (list GoValue) GoError :=
  match specs with
  | [] => Ok []
  | spec :: rest =>
      let at_index := "build capabilities[" +++ Itoa (Z.of_nat index) +++ "]" in
      try (payload, capabilityType) := wrap_result at_index (buildQueueCapability spec) in
      if containsString seen capabilityType
      then Err (ErrText (at_index +++ ": duplicate capability type " +++ Quote capabilityType))
      else try capabilities := build_capabilities (S index) (capabilityType :: seen) rest in
           Ok (json_to_value (JObj payload) :: capabilities)
  end.
Definition buildQueueCapabilities (specs : list QueueCapability) : result (list GoValue) GoError := build_capabilities 0 [] specs.

Fixpoint spec_types (index : nat) (seen : list string) (specs : list QueueCapability) : result (list string) GoError :=
  match specs with
  | [] => Ok []
  | spec :: rest =>
      let at_index := "resolve capabilities[" +++ Itoa (Z.of_nat index) +++ "] type" in
      try capabilityType := wrap_result at_index (queueCapabilityTypeFromSpec spec) in
      if containsString seen capabilityType
      then Err (ErrText (at_index +++ ": duplicate capability type " +++ Quote capabilityType))
      else try types := spec_types (S index) (capabilityType :: seen) rest in Ok (capabilityType :: types)
  end.
Definition queueCapabilityTypeSetFromSpec (specs : list QueueCapability) : result (list string) GoError :=
  try types := spec_types 0 [] specs in Ok (sort_Strings types).

(** [json.Marshal] of a capability. *)
Definition marshal_capability (capability : GoValue) : result string GoError :=
  match to_json capability with
  | Err text => Err (ErrWrap ("marshal capability: " +++ text) (ErrText text))
  | Ok j => Ok (json_print j)
  end.

Definition queueCapabilityTypeFromAny (capability : GoValue) : result string GoError :=
  try rawJSON := marshal_capability capability in queueCapabilityTypeFromJSON rawJSON.

Fixpoint sdk_types (index : nat) (seen : list string) (capabilities : list GoValue) : result (list string) GoError :=
  match capabilities with
  | [] => Ok []
  | capability :: rest =>
      let at_index := "read capabilities[" +++ Itoa (Z.of_nat index) +++ "] type" in
      try capabilityType := wrap_result at_index (queueCapabilityTypeFromAny capability) in
      if (capabilityType =? "")%string then Err (ErrText (at_index +++ ": type is empty"))
      else if containsString seen capabilityType then sdk_types (S index) seen rest
      else try types := sdk_types (S index) (capabilityType :: seen) rest in Ok (capabilityType :: types)
  end.
Definition queueCapabilityTypeSetFromSDK (capabilities : list GoValue) : result (list string) GoError :=
  try types := sdk_types 0 [] capabilities in Ok (sort_Strings types).

Definition queueCapabilityCanonicalPayloadJSON (spec : QueueCapability) : result (string * string) GoError :=
  try (payload, capabilityType) := buildQueueCapability spec in
  try rawJSON := marshal_capability (json_to_value (JObj payload)) in
  Ok (rawJSON, capabilityType).

(** The two parity loops; [allowed] is the membership test of the second one.  A nil and an empty snapshot map are
    not told apart: the callers turn an empty one into nil. *)
Fixpoint parity_snapshots (prefix : string) (allowed : string -> bool) (index : nat) (snapshots : gmap string string)
  (capabilities : list QueueCapability) : result (gmap string string) GoError :=
  match capabilities with
  | [] => Ok snapshots
  | capability :: rest =>
      let at_index := prefix +++ Itoa (Z.of_nat index) +++ "] controller-owned parity" in
      try (payloadJSON, capabilityType) := wrap_result at_index (queueCapabilityCanonicalPayloadJSON capability) in
      if negb (queueCapabilityRequiresControllerOwnedParity capabilityType) || negb (allowed capabilityType)
      then parity_snapshots prefix allowed (S index) snapshots rest
      else match snapshots !! capabilityType with
           | Some _ => Err (ErrText (at_index +++ ": duplicate capability type " +++ Quote capabilityType))
           | None => parity_snapshots prefix allowed (S index) (<[capabilityType := payloadJSON]> snapshots) rest
           end
  end.

Definition queueControllerOwnedCapabilityParityFromSpec (specs : list QueueCapability) : result (gmap string string) GoError :=
  parity_snapshots "build desired capabilities[" (fun _ => true) 0 ∅ specs.

Definition queueControllerOwnedCapabilityParityFromStatus (capabilities : list QueueCapability) (allowedTypes : list string)
  : result (gmap string string) GoError :=
  match capabilities, allowedTypes with
  | [], _ | _, [] => Ok ∅
  | _, _ => parity_snapshots "build status capabilities[" (containsString allowedTypes) 0 ∅ capabilities
  end.

(** [desiredQueueCapabilitiesForUpdate]: the desired capabilities and whether they changed. *)
Definition desiredQueueCapabilitiesForUpdate (specs : list QueueCapability) (current : list GoValue)
  (currentStatus : list QueueCapability) : result (option (list GoValue) * bool) GoError :=
  try desiredTypes := queueCapabilityTypeSetFromSpec specs in
  try currentTypes := queueCapabilityTypeSetFromSDK current in
  try same :=
    (if decide (currentTypes = desiredTypes) then
       try desiredParity := queueControllerOwnedCapabilityParityFromSpec specs in
       try statusParity := queueControllerOwnedCapabilityParityFromStatus currentStatus desiredTypes in
       Ok (bool_decide (statusParity = desiredParity))
     else Ok false) in
  if (same : bool) then Ok (None, false)
  else match specs with
       | [] => Ok (Some [], true)
       | _ => try desiredCapabilities := buildQueueCapabilities specs in Ok (Some desiredCapabilities, true)
       end.

(** ** Capabilities in the status *)

Definition projectQueueCapability (capability : GoValue) : result QueueCapability GoError :=
  try rawJSON := marshal_capability capability in
  try v := wrap_result "decode capability" (unmarshal_into rawJSON (capability_value zeroCapability)) in
  let projected := capability_of v in
  let projected := set_Type (canonicalQueueCapabilityType (cap_Type projected)) projected in
  try projected :=
    (if (cap_Type projected =? "")%string then
       try t := wrap_result "decode capability type" (queueCapabilityTypeFromJSON rawJSON) in Ok (set_Type t projected)
     else Ok projected) in
  if (cap_Type projected =? "")%string then Err (ErrText "type is required")
  else Ok (if queueCapabilityUsesTypedProjection (cap_Type projected) then projected else set_JsonData rawJSON projected).

Fixpoint project_capabilities (index : nat) (seen : list string) (capabilities : list GoValue) : result (list QueueCapability) GoError :=
  match capabilities with
  | [] => Ok []
  | capability :: rest =>
      try projected := wrap_result ("project capabilities[" +++ Itoa (Z.of_nat index) +++ "]") (projectQueueCapability capability) in
      if containsString seen (cap_Type projected) then project_capabilities (S index) seen rest
      else try others := project_capabilities (S index) (cap_Type projected :: seen) rest in Ok (projected :: others)
  end.
Definition projectQueueCapabilities (capabilities : list GoValue) : result (list QueueCapability) GoError :=
  project_capabilities 0 [] capabilities.

Definition queueCapabilitySummariesToDetails (capabilities : list string) : list GoValue :=
  flat_map (fun capability =>
    let capabilityType := canonicalQueueCapabilityType capability in
    if (capabilityType =? "")%string then [] else [json_to_value (JObj [("type", JStr capabilityType)])]) capabilities.

(** [QueueSummary]; its capabilities are enum values. *)
Record QueueSummary := mkQueueSummary {
  sum_Id : option string; sum_CompartmentId : option string; sum_TimeCreated : option string; sum_TimeUpdated : option string;
  sum_LifecycleState : string; sum_MessagesEndpoint : option string; sum_DisplayName : option string; sum_LifecycleDetails : option string;
  sum_FreeformTags : option Tags; sum_DefinedTags : option SdkTags; sum_SystemTags : option SdkTags; sum_Capabilities : list string
}.

Definition queueFromSummary (summary : QueueSummary) : SdkQueue :=
  mkSdkQueue (sum_Id summary) (sum_CompartmentId summary) (sum_TimeCreated summary) (sum_TimeUpdated summary)
    (sum_LifecycleState summary) (sum_MessagesEndpoint summary) None None None None (sum_DisplayName summary)
    (sum_LifecycleDetails summary) None (sum_FreeformTags summary) (sum_DefinedTags summary) (sum_SystemTags summary) None
    (queueCapabilitySummariesToDetails (sum_Capabilities summary)).

(** The dynamic types a response can have, by value or behind a pointer; [None] is a nil pointer. *)
Inductive QueueResponse :=
| CreateQueueResponse
| GetQueueResponse (queue : option SdkQueue)
| QueueBody (queue : option SdkQueue)
| QueueSummaryBody (summary : option QueueSummary)
| OtherResponse.

Definition queueFromResponse (response : QueueResponse) : option SdkQueue :=
  match response with
  | CreateQueueResponse | OtherResponse => None
  | GetQueueResponse queue | QueueBody queue => queue
  | QueueSummaryBody summary => option_map queueFromSummary summary
  end.

Definition queueControllerOwnedStatusCapability (spec : QueueCapability) : result (QueueCapability * string) GoError :=
  try (payloadJSON, capabilityType) := queueCapabilityCanonicalPayloadJSON spec in
  try v := wrap_result "decode capability parity payload"
             (unmarshal_into payloadJSON (capability_value (set_Type capabilityType (set_JsonData payloadJSON zeroCapability)))) in
  Ok (set_JsonData payloadJSON (set_Type capabilityType (capability_of v)), capabilityType).

(** The snapshots of the spec's capabilities whose parity the controller owns. *)
Fixpoint controller_owned (index : nat) (owned : gmap string QueueCapability) (specs : list QueueCapability)
  : result (gmap string QueueCapability) GoError :=
  match specs with
  | [] => Ok owned
  | spec :: rest =>
      let at_index := "build controller-owned status capabilities[" +++ Itoa (Z.of_nat index) +++ "]" in
      try (statusCapability, capabilityType) := wrap_result at_index (queueControllerOwnedStatusCapability spec) in
      if negb (queueCapabilityRequiresControllerOwnedParity capabilityType) then controller_owned (S index) owned rest
      else match owned !! capabilityType with
           | Some _ => Err (ErrText (at_index +++ ": duplicate capability type " +++ Quote capabilityType))
           | None => controller_owned (S index) (<[capabilityType := statusCapability]> owned) rest
           end
  end.

Fixpoint remember_capabilities (index : nat) (owned : gmap string QueueCapability) (projected : list QueueCapability)
  : result (list QueueCapability) GoError :=
  match projected with
  | [] => Ok []
  | capability :: rest =>
      try capabilityType := wrap_result ("read projected capabilities[" +++ Itoa (Z.of_nat index) +++ "] type")
                              (queueCapabilityTypeFromSpec capability) in
      try remembered := remember_capabilities (S index) owned rest in
      Ok (default capability (owned !! capabilityType) :: remembered)
  end.

Definition queueStatusCapabilitiesWithControllerOwnedParity (specs projected : list QueueCapability)
  : result (list QueueCapability) GoError :=
  match projected with
  | [] => Ok []
  | _ =>
      try owned := controller_owned 0 ∅ specs in
      if decide (owned = ∅) then Ok projected else remember_capabilities 0 owned projected
  end.

(** ** Request bodies *)

Definition nonzero (z : Z) : option Z := if negb (z =? 0)%Z then Some z else None.

Definition buildCreateQueueDetails (spec : QueueSpec) : result CreateQueueDetails GoError :=
  try capabilities := buildQueueCapabilities (spec_Capabilities spec) in
  Ok (mkCreateDetails (Some (spec_DisplayName spec)) (Some (spec_CompartmentId spec))
        (nonzero (spec_RetentionInSeconds spec)) (nonzero (spec_VisibilityInSeconds spec)) (nonzero (spec_TimeoutInSeconds spec))
        (nonzero (spec_ChannelConsumptionLimit spec)) (nonzero (spec_DeadLetterQueueDeliveryCount spec))
        (if negb (spec_CustomEncryptionKeyId spec =? "")%string then Some (spec_CustomEncryptionKeyId spec) else None)
        (if (0 <? length capabilities)%nat then Some capabilities else None)
        (match spec_FreeformTags spec with Some _ => cloneStringMap (spec_FreeformTags spec) | None => None end)
        (ConvertToOciDefinedTags <$> spec_DefinedTags spec)).

Definition validateQueueCreateOnlyDrift (spec : QueueSpec) (current : SdkQueue) : option GoError :=
  let unsupported :=
    (if negb (stringPtrEqual (sdk_CompartmentId current) (spec_CompartmentId spec)) then ["compartmentId"] else []) ++
    (if negb (spec_RetentionInSeconds spec =? 0)%Z && negb (intPtrEqual (sdk_RetentionInSeconds current) (spec_RetentionInSeconds spec))
     then ["retentionInSeconds"] else []) in
  match unsupported with
  | [] => None
  | _ => Some (ErrText ("Queue create-only field drift is not supported: " +++ Join unsupported ", "))
  end.

(** What [buildQueueUpdateBody] puts in a field: the desired value, or nothing when it is already there. *)
Definition string_update (current : option string) (desired : string) : option string :=
  if negb (stringPtrEqual current desired) then Some desired else None.
Definition int_update (current : option Z) (desired : Z) : option Z :=
  if negb (intPtrEqual current desired) then Some desired else None.

(** [buildQueueUpdateBody]: the details and whether an update is needed. *)
Definition buildQueueUpdateBody (resource : Queue) (currentResponse : QueueResponse) : result (UpdateQueueDetails * bool) GoError :=
  match queueFromResponse currentResponse with
  | None => Err (ErrText "current Queue response does not expose a Queue body")
  | Some current =>
      let spec := q_Spec resource in
      match validateQueueCreateOnlyDrift spec current with
      | Some err => Err err
      | None =>
          try (desiredCapabilities, capabilitiesChanged) :=
            desiredQueueCapabilitiesForUpdate (spec_Capabilities spec) (sdk_Capabilities current) (qs_Capabilities (q_Status resource)) in
          let desiredFreeformTags := desiredQueueFreeformTagsForUpdate (spec_FreeformTags spec) (sdk_FreeformTags current) in
          let freeformChanged := negb (bool_decide (sdk_FreeformTags current = desiredFreeformTags)) in
          let desiredDefinedTags := desiredQueueDefinedTagsForUpdate (spec_DefinedTags spec) (sdk_DefinedTags current) in
          let definedChanged := negb (bool_decide (sdk_DefinedTags current = desiredDefinedTags)) in
          let updateNeeded :=
            negb (stringPtrEqual (sdk_DisplayName current) (spec_DisplayName spec)) ||
            negb (intPtrEqual (sdk_VisibilityInSeconds current) (spec_VisibilityInSeconds spec)) ||
            negb (intPtrEqual (sdk_TimeoutInSeconds current) (spec_TimeoutInSeconds spec)) ||
            negb (intPtrEqual (sdk_ChannelConsumptionLimit current) (spec_ChannelConsumptionLimit spec)) ||
            negb (intPtrEqual (sdk_DeadLetterQueueDeliveryCount current) (spec_DeadLetterQueueDeliveryCount spec)) ||
            negb (stringPtrEqual (sdk_CustomEncryptionKeyId current) (spec_CustomEncryptionKeyId spec)) ||
            capabilitiesChanged || freeformChanged || definedChanged in
          if negb updateNeeded then Ok (noUpdateDetails, false)
          else Ok (mkUpdateDetails (string_update (sdk_DisplayName current) (spec_DisplayName spec))
                     (int_update (sdk_VisibilityInSeconds current) (spec_VisibilityInSeconds spec))
                     (int_update (sdk_TimeoutInSeconds current) (spec_TimeoutInSeconds spec))
                     (int_update (sdk_ChannelConsumptionLimit current) (spec_ChannelConsumptionLimit spec))
                     (int_update (sdk_DeadLetterQueueDeliveryCount current) (spec_DeadLetterQueueDeliveryCount spec))
                     (string_update (sdk_CustomEncryptionKeyId current) (spec_CustomEncryptionKeyId spec))
                     (if (capabilitiesChanged : bool) then desiredCapabilities else None)
                     (if freeformChanged then desiredFreeformTags else None)
                     (if definedChanged then desiredDefinedTags else None), true)
      end
  end.

(** ** Status *)

(** [projectQueueStatus]: the resource afterwards and the error. *)
Definition projectQueueStatus (resource : Queue) (response : QueueResponse) : Queue * option GoError :=
  match queueFromResponse response with
  | None => (resource, None)
  | Some current =>
      match projectQueueCapabilities (sdk_Capabilities current) with
      | Err err => (resource, Some err)
      | Ok projectedCapabilities =>
          let status := q_Status resource in
          (mkQueue (q_Spec resource)
             (mkQueueStatus (qs_OsokStatus status) (stringValue (sdk_Id current)) (stringValue (sdk_CompartmentId current))
                (stringValue (sdk_TimeCreated current)) (stringValue (sdk_TimeUpdated current)) (sdk_LifecycleState current)
                (stringValue (sdkq_MessagesEndpoint current)) (intValue (sdk_RetentionInSeconds current))
                (intValue (sdk_VisibilityInSeconds current)) (intValue (sdk_TimeoutInSeconds current))
                (intValue (sdk_DeadLetterQueueDeliveryCount current)) (stringValue (sdk_DisplayName current))
                (stringValue (sdk_LifecycleDetails current)) (stringValue (sdk_CustomEncryptionKeyId current))
                (cloneStringMap (sdk_FreeformTags current)) (convertOCIToStatusDefinedTags (sdk_DefinedTags current))
                (convertOCIToStatusDefinedTags (sdk_SystemTags current)) (intValue (sdk_ChannelConsumptionLimit current))
                projectedCapabilities (qs_CreateWorkRequestId status) (qs_UpdateWorkRequestId status) (qs_DeleteWorkRequestId status)),
           None)
      end
  end.
End Capabilities.

Definition validateQueueCreateOnlyDriftForResponse (resource : Queue) (currentResponse : QueueResponse) : option GoError :=
  match queueFromResponse currentResponse with
  | None => Some (ErrText "current Queue response does not expose a Queue body")
  | Some current => validateQueueCreateOnlyDrift (q_Spec resource) current
  end.

(** Field assignments of the status. *)
Definition with_Status (f : QueueStatus -> QueueStatus) (q : Queue) : Queue := mkQueue (q_Spec q) (f (q_Status q)).
Definition set_OsokStatus (o : OSOKStatus) (s : QueueStatus) : QueueStatus :=
  mkQueueStatus o (qs_Id s) (qs_CompartmentId s) (qs_TimeCreated s) (qs_TimeUpdated s) (qs_LifecycleState s) (qs_MessagesEndpoint s)
    (qs_RetentionInSeconds s) (qs_VisibilityInSeconds s) (qs_TimeoutInSeconds s) (qs_DeadLetterQueueDeliveryCount s)
    (qs_DisplayName s) (qs_LifecycleDetails s) (qs_CustomEncryptionKeyId s) (qs_FreeformTags s) (qs_DefinedTags s) (qs_SystemTags s)
    (qs_ChannelConsumptionLimit s) (qs_Capabilities s) (qs_CreateWorkRequestId s) (qs_UpdateWorkRequestId s) (qs_DeleteWorkRequestId s).
Definition set_Id (id : string) (s : QueueStatus) : QueueStatus :=
  mkQueueStatus (qs_OsokStatus s) id (qs_CompartmentId s) (qs_TimeCreated s) (qs_TimeUpdated s) (qs_LifecycleState s) (qs_MessagesEndpoint s)
    (qs_RetentionInSeconds s) (qs_VisibilityInSeconds s) (qs_TimeoutInSeconds s) (qs_DeadLetterQueueDeliveryCount s)
    (qs_DisplayName s) (qs_LifecycleDetails s) (qs_CustomEncryptionKeyId s) (qs_FreeformTags s) (qs_DefinedTags s) (qs_SystemTags s)
    (qs_ChannelConsumptionLimit s) (qs_Capabilities s) (qs_CreateWorkRequestId s) (qs_UpdateWorkRequestId s) (qs_DeleteWorkRequestId s).
Definition set_Capabilities (l : list QueueCapability) (s : QueueStatus) : QueueStatus :=
  mkQueueStatus (qs_OsokStatus s) (qs_Id s) (qs_CompartmentId s) (qs_TimeCreated s) (qs_TimeUpdated s) (qs_LifecycleState s) (qs_MessagesEndpoint s)
    (qs_RetentionInSeconds s) (qs_VisibilityInSeconds s) (qs_TimeoutInSeconds s) (qs_DeadLetterQueueDeliveryCount s)
    (qs_DisplayName s) (qs_LifecycleDetails s) (qs_CustomEncryptionKeyId s) (qs_FreeformTags s) (qs_DefinedTags s) (qs_SystemTags s)
    (qs_ChannelConsumptionLimit s) l (qs_CreateWorkRequestId s) (qs_UpdateWorkRequestId s) (qs_DeleteWorkRequestId s).
Definition clear_WorkRequestIds (s : QueueStatus) : QueueStatus :=
  mkQueueStatus (qs_OsokStatus s) (qs_Id s) (qs_CompartmentId s) (qs_TimeCreated s) (qs_TimeUpdated s) (qs_LifecycleState s) (qs_MessagesEndpoint s)
    (qs_RetentionInSeconds s) (qs_VisibilityInSeconds s) (qs_TimeoutInSeconds s) (qs_DeadLetterQueueDeliveryCount s)
    (qs_DisplayName s) (qs_LifecycleDetails s) (qs_CustomEncryptionKeyId s) (qs_FreeformTags s) (qs_DefinedTags s) (qs_SystemTags s)
    (qs_ChannelConsumptionLimit s) (qs_Capabilities s) "" "" "".

Definition clearTrackedQueueIdentity : Queue -> Queue := with_Status (fun s => set_OsokStatus emptyStatus (set_Id "" s)).

(** ** Work requests *)

Definition queueWorkRequestAsyncAdapter : WorkRequestAsyncAdapter :=
  mkAdapter ["ACCEPTED"; "IN_PROGRESS"; "CANCELING"] ["SUCCEEDED"] ["FAILED"] ["CANCELED"] [] [] ["CREATED"] ["UPDATED"] ["DELETED"].

Definition queueWorkRequestActionForPhase (phase : OSOKAsyncPhase) : string :=
  if (phase =? OSOKAsyncPhaseCreate)%string then "CREATED"
  else if (phase =? OSOKAsyncPhaseUpdate)%string then "UPDATED"
  else if (phase =? OSOKAsyncPhaseDelete)%string then "DELETED"
  else "".

Definition queueWorkRequestPhaseFromOperationType (operationType : string) : option OSOKAsyncPhase :=
  if (operationType =? "CREATE_QUEUE")%string then Some OSOKAsyncPhaseCreate
  else if (operationType =? "UPDATE_QUEUE")%string then Some OSOKAsyncPhaseUpdate
  else if (operationType =? "DELETE_QUEUE")%string then Some OSOKAsyncPhaseDelete
  else None.

Definition isQueueWorkRequestResource (resource : WorkRequestResource) : bool :=
  EqualFold (TrimSpace (stringValue (wrr_EntityType resource))) "queue".

(** The first queue resource that passes [keep] and has an identifier. *)
Fixpoint first_queue_id (keep : WorkRequestResource -> bool) (resources : list WorkRequestResource) : option string :=
  match resources with
  | [] => None
  | resource :: rest =>
      if negb (isQueueWorkRequestResource resource) || negb (keep resource) then first_queue_id keep rest
      else let id := TrimSpace (stringValue (wrr_Identifier resource)) in
           if negb (id =? "")%string then Some id else first_queue_id keep rest
  end.

Definition resolveQueueIDFromWorkRequest (workRequest : WorkRequest) (action : string) : result string GoError :=
  match first_queue_id (fun resource => (action =? "")%string || (wrr_ActionType resource =? action)%string) (qwr_Resources workRequest) with
  | Some id => Ok id
  | None =>
      match first_queue_id (fun _ => true) (qwr_Resources workRequest) with
      | Some id => Ok id
      | None => Err (ErrText ("Queue work request " +++ stringValue (qwr_Id workRequest) +++ " does not expose a Queue identifier"))
      end
  end.

Fixpoint resolve_action (workRequestID action : string) (resources : list WorkRequestResource) : result string GoError :=
  match resources with
  | [] => Ok action
  | resource :: rest =>
      let candidate := TrimSpace (wrr_ActionType resource) in
      if negb (isQueueWorkRequestResource resource) then resolve_action workRequestID action rest
      else if (candidate =? "")%string then resolve_action workRequestID action rest
      else if (action =? "")%string then resolve_action workRequestID candidate rest
      else if negb (action =? candidate)%string
      then Err (ErrText ("Queue work request " +++ workRequestID +++ " exposes conflicting Queue action types " +++
                         Quote action +++ " and " +++ Quote candidate))
      else resolve_action workRequestID action rest
  end.
Definition resolveQueueWorkRequestAction (workRequest : WorkRequest) : result string GoError :=
  resolve_action (stringValue (qwr_Id workRequest)) "" (qwr_Resources workRequest).

Definition queueWorkRequestMessage (phase : OSOKAsyncPhase) (workRequest : WorkRequest) : string :=
  "Queue " +++ phase +++ " work request " +++ stringValue (qwr_Id workRequest) +++ " is " +++ qwr_Status workRequest.

Definition queueLegacyWorkRequestPhase (resource : Queue) : OSOKAsyncPhase :=
  let status := q_Status resource in
  if negb (TrimSpace (qs_DeleteWorkRequestId status) =? "")%string then OSOKAsyncPhaseDelete
  else if negb (TrimSpace (qs_UpdateWorkRequestId status) =? "")%string then OSOKAsyncPhaseUpdate
  else if negb (TrimSpace (qs_CreateWorkRequestId status) =? "")%string then OSOKAsyncPhaseCreate
  else "".

Definition currentQueueAsyncPhase (resource : Queue) (fallback : OSOKAsyncPhase) : OSOKAsyncPhase :=
  if negb (fallback =? "")%string then fallback
  else let legacy := queueLegacyWorkRequestPhase resource in
       if negb (legacy =? "")%string then legacy
       else ResolveAsyncPhase (Some (qs_OsokStatus (q_Status resource))) "".

Definition queueWorkRequestAsyncOperation (resource : Queue) (workRequest : WorkRequest) (explicitPhase : OSOKAsyncPhase)
  : result OSOKAsyncOperation GoError :=
  try rawAction := resolveQueueWorkRequestAction workRequest in
  let fallbackPhase := currentQueueAsyncPhase resource explicitPhase in
  try fallbackPhase :=
    (match queueWorkRequestPhaseFromOperationType (qwr_OperationType workRequest) with
     | Some derivedPhase =>
         if negb (fallbackPhase =? "")%string && negb (fallbackPhase =? derivedPhase)%string
         then Err (ErrText ("Queue work request " +++ stringValue (qwr_Id workRequest) +++ " exposes operation type " +++
                            Quote (qwr_OperationType workRequest) +++ " for phase " +++ Quote derivedPhase +++
                            " while reconcile expected phase " +++ Quote fallbackPhase))
         else Ok derivedPhase
     | None => Ok fallbackPhase
     end) in
  try current := BuildWorkRequestAsyncOperation (Some (qs_OsokStatus (q_Status resource))) queueWorkRequestAsyncAdapter
                   (mkAsyncInput (qwr_Status workRequest) rawAction (qwr_OperationType workRequest) (stringValue (qwr_Id workRequest))
                      (qwr_PercentComplete workRequest) "" fallbackPhase) in
  Ok (mkAsyncOp (op_Source current) (op_Phase current) (op_WorkRequestID current) (op_RawStatus current) (op_RawOperationType current)
        (op_NormalizedClass current) (op_PercentComplete current) (queueWorkRequestMessage (op_Phase current) workRequest) (op_UpdatedAt current)).

(** The dynamic types a work request can have; [None] is a nil pointer. *)
Inductive AnyWorkRequest := WorkRequestValue (workRequest : option WorkRequest) | OtherWorkRequest (typeName : string).

Definition queueWorkRequestFromAny (workRequest : AnyWorkRequest) : result WorkRequest GoError :=
  match workRequest with
  | WorkRequestValue (Some current) => Ok current
  | WorkRequestValue None => Err (ErrText "Queue work request is nil")
  | OtherWorkRequest typeName => Err (ErrText ("unexpected Queue work request type " +++ typeName))
  end.

Definition resolveQueueGeneratedWorkRequestAction (workRequest : AnyWorkRequest) : result string GoError :=
  try queueWorkRequest := queueWorkRequestFromAny workRequest in resolveQueueWorkRequestAction queueWorkRequest.
Definition resolveQueueGeneratedWorkRequestPhase (workRequest : AnyWorkRequest) : result (option OSOKAsyncPhase) GoError :=
  try queueWorkRequest := queueWorkRequestFromAny workRequest in
  Ok (queueWorkRequestPhaseFromOperationType (qwr_OperationType queueWorkRequest)).
Definition recoverQueueIDFromGeneratedWorkRequest (workRequest : AnyWorkRequest) (phase : OSOKAsyncPhase) : result string GoError :=
  try queueWorkRequest := queueWorkRequestFromAny workRequest in
  resolveQueueIDFromWorkRequest queueWorkRequest (queueWorkRequestActionForPhase phase).
Definition queueGeneratedWorkRequestMessage (phase : OSOKAsyncPhase) (workRequest : AnyWorkRequest) : string :=
  match queueWorkRequestFromAny workRequest with Ok w => queueWorkRequestMessage phase w | Err _ => "" end.

(** [getQueueWorkRequest]; [client] is the SDK's client, nil when there is none. *)
Definition getQueueWorkRequest {W} (client : option (string -> ST W (result WorkRequest GoError))) (initErr : option GoError)
  (workRequestID : string) : ST W (result WorkRequest GoError) :=
  match initErr, client with
  | Some e, _ => st_ret (Err (ErrWrap ("initialize Queue OCI client: " +++ ErrorString e) e))
  | None, None => st_ret (Err (ErrText "Queue OCI client is not configured"))
  | None, Some get => get (TrimSpace workRequestID)
  end.

Section Remember.
Context `{JsonCodec} `{JsonText}.

Definition shouldRememberQueueControllerOwnedCapabilityParity (resource : Queue) : bool :=
  if negb (currentQueueAsyncPhase resource "" =? "")%string then false
  else EqualFold (TrimSpace (qs_LifecycleState (q_Status resource))) "ACTIVE".

(** The resource afterwards and the error. *)
Definition rememberQueueControllerOwnedCapabilityParityStatus (resource : Queue) : Queue * option GoError :=
  if negb (shouldRememberQueueControllerOwnedCapabilityParity resource) then (resource, None)
  else match queueStatusCapabilitiesWithControllerOwnedParity (spec_Capabilities (q_Spec resource)) (qs_Capabilities (q_Status resource)) with
       | Err err => (resource, Some err)
       | Ok remembered => (with_Status (set_Capabilities remembered) resource, None)
       end.
End Remember.

(** ** The generated semantics ([queue_runtimehooks_generated.go]) *)

Definition queue_hooks (helper action : string) : list Hook :=
  [mkHook helper "" ""; mkHook "tfresource.WaitForWorkRequestWithErrorHandling" "queue" action].

Definition newQueueRuntimeSemantics : Semantics :=
  mkSemantics "queue" "queue"
    (Some (mkAsyncSemantics "workrequest" "generatedruntime" "workrequest"
       (Some (mkWorkRequestSemantics "service-sdk" ["create"; "update"; "delete"]
          (Some (mkFieldBridge "CreateWorkRequestId" "UpdateWorkRequestId" "DeleteWorkRequestId"))))))
    "required" "ready-only" "retain-until-confirmed-delete"
    (mkLifecycle ["CREATING"; "UPDATING"] ["UPDATING"] ["ACTIVE"])
    (mkDeleteSemantics "required" ["DELETING"] ["DELETED"])
    (Some (mkListSemantics "Items" ["compartmentId"; "displayName"; "id"; "lifecycleState"]))
    (mkMutation []
       ["capabilities"; "channelConsumptionLimit"; "customEncryptionKeyId"; "deadLetterQueueDeliveryCount"; "definedTags"; "displayName";
        "freeformTags"; "timeoutInSeconds"; "visibilityInSeconds"]
       ["compartmentId"; "retentionInSeconds"] [])
    (mkHookSet (queue_hooks "tfresource.CreateResource" "CREATED") (queue_hooks "tfresource.UpdateResource" "UPDATED")
       (queue_hooks "tfresource.DeleteResource" "DELETED"))
    (mkFollowUp "read-after-write" (queue_hooks "tfresource.CreateResource" "CREATED"))
    (mkFollowUp "read-after-write" (queue_hooks "tfresource.UpdateResource" "UPDATED"))
    (mkFollowUp "confirm-delete" (queue_hooks "tfresource.DeleteResource" "DELETED"))
    [] [].
