(* ===== verification/QueueSafety.v ===== *)
(** * Properties of the queue's runtime hooks

    Updates settle, except with an empty tag map; omitted settings are reset; work
    requests are read consistently, but not while they are in progress. *)

From stdpp Require Import gmap.
From Stdlib Require Import Ascii.
From S2P Require Import Prelude GoStrings Shared GoErrors GoValue AsyncStatus Reconciler Secrets JsonValues Semantics SpecResolution MutationPolicy.
From S2P Require Import RequestBuilder Runtime RuntimeReconcile RuntimeManager GeneratorSemantics ResourceTags QueueRuntime.
Local Open Scope string_scope.
Local Open Scope list_scope.
Local Open Scope go_scope.

(** ** Updates *)

Record update_stored (details : UpdateQueueDetails) (current next : SdkQueue) : Prop := {
  stored_DisplayName : stored_string (ud_DisplayName details) (sdk_DisplayName current) (sdk_DisplayName next);
  stored_Visibility : stored (ud_VisibilityInSeconds details) (sdk_VisibilityInSeconds current) (sdk_VisibilityInSeconds next);
  stored_Timeout : stored (ud_TimeoutInSeconds details) (sdk_TimeoutInSeconds current) (sdk_TimeoutInSeconds next);
  stored_Limit : stored (ud_ChannelConsumptionLimit details) (sdk_ChannelConsumptionLimit current) (sdk_ChannelConsumptionLimit next);
  stored_Count : stored (ud_DeadLetterQueueDeliveryCount details) (sdk_DeadLetterQueueDeliveryCount current) (sdk_DeadLetterQueueDeliveryCount next);
  stored_Key : stored_string (ud_CustomEncryptionKeyId details) (sdk_CustomEncryptionKeyId current) (sdk_CustomEncryptionKeyId next);
  stored_FreeformTags : stored (ud_FreeformTags details) (sdk_FreeformTags current) (sdk_FreeformTags next);
  stored_DefinedTags : stored (ud_DefinedTags details) (sdk_DefinedTags current) (sdk_DefinedTags next);
  kept_Compartment : sdk_CompartmentId next = sdk_CompartmentId current;
  kept_Retention : sdk_RetentionInSeconds next = sdk_RetentionInSeconds current
}.

Lemma queue_string_settled current desired next :
  stored_string (string_update current desired) current next -> stringPtrEqual next desired = true.
Proof.
  unfold string_update. destruct (stringPtrEqual current desired) eqn:E; cbn [negb stored_string]; [by intros ->|].
  intros [->|[-> ->]]; [apply String.eqb_refl|done].
Qed.

Lemma int_settled current desired next :
  stored (int_update current desired) current next -> intPtrEqual next desired = true.
Proof.
  unfold int_update. destruct (intPtrEqual current desired) eqn:E; cbn [negb stored]; [by intros ->|].
  intros ->. apply Z.eqb_refl.
Qed.

Lemma freeform_settled spec current next :
  spec <> Some ∅ ->
  let desired := desiredQueueFreeformTagsForUpdate spec current in
  stored (if negb (bool_decide (current = desired)) then desired else None) current next ->
  desiredQueueFreeformTagsForUpdate spec next = next.
Proof.
  intros Hspec desired. unfold desired, desiredQueueFreeformTagsForUpdate, cloneStringMap.
  destruct spec as [m|].
  - destruct (decide (m = ∅)) as [->|Hm]; [done|]. case_bool_decide; cbn [negb stored]; naive_solver.
  - destruct current as [c|]; case_bool_decide as Hc; cbn [negb stored]; intros ->; [by rewrite Hc|done..].
Qed.

Lemma defined_settled spec current next :
  let desired := desiredQueueDefinedTagsForUpdate spec current in
  stored (if negb (bool_decide (current = desired)) then desired else None) current next ->
  desiredQueueDefinedTagsForUpdate spec next = next.
Proof.
  intros desired. unfold desired, desiredQueueDefinedTagsForUpdate.
  destruct spec as [m|].
  - case_bool_decide; cbn [negb stored]; naive_solver.
  - destruct current as [c|]; case_bool_decide as Hc; cbn [negb stored]; intros ->; [by rewrite Hc|done..].
Qed.

Section Updates.
Context `{JsonCodec} `{JsonText}.

(** Updates of a queue settle: when an update was needed and the service stored it, the next reconcile of the same spec
    needs no update, provided the capabilities have settled and the spec's free-form tags are not an empty map. *)
Theorem queue_update_settles (resource resource' : Queue) (current next : SdkQueue) (details : UpdateQueueDetails) :
  buildQueueUpdateBody resource (GetQueueResponse (Some current)) = Ok (details, true) ->
  update_stored details current next ->
  q_Spec resource' = q_Spec resource ->
  spec_FreeformTags (q_Spec resource) <> Some ∅ ->
  desiredQueueCapabilitiesForUpdate (spec_Capabilities (q_Spec resource)) (sdk_Capabilities next)
    (qs_Capabilities (q_Status resource')) = Ok (None, false) ->
  buildQueueUpdateBody resource' (GetQueueResponse (Some next)) = Ok (noUpdateDetails, false).
Proof.
  unfold buildQueueUpdateBody. cbn [queueFromResponse]. intros Hb Hs Hspec Htags Hcap. rewrite Hspec.
  unfold validateQueueCreateOnlyDrift in *. rewrite (kept_Compartment _ _ _ Hs), (kept_Retention _ _ _ Hs).
  match goal with |- match (match ?l with [] => None | _ => _ end) with _ => _ end = _ => destruct l; [|done] end.
  rewrite Hcap. cbn [result_bind]. destruct (desiredQueueCapabilitiesForUpdate _ (sdk_Capabilities current) _) as [[dc cc]|]; [|done].
  cbn [result_bind] in Hb. cbn zeta in Hb. match type of Hb with (if negb ?b then _ else _) = _ => destruct b; [|done] end.
  cbn [negb] in Hb. injection Hb as <-. destruct Hs as [H1 H2 H3 H4 H5 H6 H7 H8 _ _].
  cbn [ud_DisplayName ud_VisibilityInSeconds ud_TimeoutInSeconds ud_ChannelConsumptionLimit ud_DeadLetterQueueDeliveryCount
       ud_CustomEncryptionKeyId ud_FreeformTags ud_DefinedTags] in *.
  rewrite (queue_string_settled _ _ _ H1), (int_settled _ _ _ H2), (int_settled _ _ _ H3), (int_settled _ _ _ H4), (int_settled _ _ _ H5),
    (queue_string_settled _ _ _ H6), (freeform_settled _ _ _ Htags H7), (defined_settled _ _ _ H8). cbn zeta.
  by rewrite !bool_decide_eq_true_2.
Qed.

(** An empty tag map never settles: when the spec's free-form tags are an empty map and the queue reports any tag map,
    empty or not, every reconcile asks for an update, and the update does not carry tags, so it changes nothing. *)
Theorem queue_empty_tags_never_settle (resource : Queue) (current : SdkQueue) (tags : gmap string string) (details : UpdateQueueDetails)
  (updateNeeded : bool) :
  spec_FreeformTags (q_Spec resource) = Some ∅ -> sdk_FreeformTags current = Some tags ->
  buildQueueUpdateBody resource (GetQueueResponse (Some current)) = Ok (details, updateNeeded) ->
  updateNeeded = true /\ ud_FreeformTags details = None.
Proof.
  intros Hspec Hcur. unfold buildQueueUpdateBody. cbn [queueFromResponse].
  destruct (validateQueueCreateOnlyDrift _ _); [done|].
  destruct (desiredQueueCapabilitiesForUpdate _ _ _) as [[dc cc]|]; [|done]. cbn [result_bind]. cbn zeta.
  rewrite Hspec, Hcur. cbn [desiredQueueFreeformTagsForUpdate cloneStringMap].
  rewrite decide_True by done. rewrite (bool_decide_eq_false_2 (Some tags = None)) by done. cbn [negb].
  rewrite !orb_true_r. cbn [orb negb]. by intros [= <- <-].
Qed.

(** Settings left out of the spec are reset: a create request leaves them to the service, but when the service has
    chosen a value other than zero, the next reconcile sends an explicit zero, for instance a channel consumption limit
    of 0 percent in place of the documented default of 100. *)
Theorem queue_omitted_settings_reset (resource : Queue) (current : SdkQueue) (limit : Z) (created : CreateQueueDetails)
  (details : UpdateQueueDetails) (updateNeeded : bool) :
  spec_ChannelConsumptionLimit (q_Spec resource) = 0%Z ->
  sdk_ChannelConsumptionLimit current = Some limit -> limit <> 0%Z ->
  buildCreateQueueDetails (q_Spec resource) = Ok created ->
  buildQueueUpdateBody resource (GetQueueResponse (Some current)) = Ok (details, updateNeeded) ->
  cd_ChannelConsumptionLimit created = None /\ updateNeeded = true /\ ud_ChannelConsumptionLimit details = Some 0%Z.
Proof.
  intros Hspec Hcur Hne Hcreate. unfold buildCreateQueueDetails in Hcreate.
  destruct (buildQueueCapabilities _) as [caps|]; [|done]. injection Hcreate as <-. cbn [cd_ChannelConsumptionLimit].
  unfold buildQueueUpdateBody. cbn [queueFromResponse]. destruct (validateQueueCreateOnlyDrift _ _); [done|].
  destruct (desiredQueueCapabilitiesForUpdate _ _ _) as [[dc cc]|]; [|done]. cbn [result_bind]. cbn zeta.
  rewrite Hspec, Hcur. unfold int_update at 3. cbn [intPtrEqual]. apply Z.eqb_neq in Hne. rewrite Hne. cbn [negb].
  rewrite !orb_true_r. cbn [orb negb]. by intros [= <- <-].
Qed.
End Updates.

(** ** Work requests *)

(** A work request that is still running: its queue resources report IN_PROGRESS, as the SDK documents. *)
Definition in_progress (workRequest : WorkRequest) : Prop :=
  Exists (fun resource => isQueueWorkRequestResource resource = true) (qwr_Resources workRequest) /\
  Forall (fun resource => isQueueWorkRequestResource resource = true -> wrr_ActionType resource = "IN_PROGRESS") (qwr_Resources workRequest).

Lemma resolve_action_same id action resources :
  action <> "" -> TrimSpace action = action ->
  Forall (fun resource => isQueueWorkRequestResource resource = true -> wrr_ActionType resource = action) resources ->
  resolve_action id action resources = Ok action.
Proof.
  intros Hne Htrim Hall. induction Hall as [|r resources Hr _ IH]; [done|]. cbn [resolve_action].
  destruct (isQueueWorkRequestResource r); cbn [negb]; [|done]. rewrite Hr, Htrim by done.
  apply String.eqb_neq in Hne. by rewrite Hne, String.eqb_refl.
Qed.

Lemma in_progress_action workRequest : in_progress workRequest -> resolveQueueWorkRequestAction workRequest = Ok "IN_PROGRESS".
Proof.
  intros [Hex Hall]. unfold resolveQueueWorkRequestAction. generalize (stringValue (qwr_Id workRequest)) as id. intros id.
  induction Hall as [|r resources Hr Hall IH]; [by apply Exists_nil in Hex|]. cbn [resolve_action].
  destruct (isQueueWorkRequestResource r) eqn:E; cbn [negb].
  - rewrite Hr by done. cbn. by apply resolve_action_same.
  - apply IH. by apply Exists_cons in Hex as [Hx|Hx]; [rewrite E in Hx|].
Qed.

(** The queue's adapter knows no phase for it. *)
Lemma in_progress_unmodelled status input :
  in_RawAction input = "IN_PROGRESS" -> exists e, BuildWorkRequestAsyncOperation status queueWorkRequestAsyncAdapter input = Err e.
Proof.
  intros Ha. unfold BuildWorkRequestAsyncOperation. destruct (Normalize _ _) as [class|]; [|by eexists].
  rewrite Ha. unfold ResolvePhase. vm_compute (phaseForAction _ _). cbn. by eexists.
Qed.

(** Work requests cannot be followed while they run: with the queue's adapter and action hook, every poll of a work request
    whose queue resource reports IN_PROGRESS (the action type documented until the work is complete) is answered with
    an error, an unsuccessful response and no requeue, whatever its status and phase. *)
Theorem queue_in_progress_poll_fails {W} `{Env} (c : Config W) (resolve : GoValue -> ST W (result string GoError))
  (identity : GoValue) (workRequestID : string) (phase : OSOKAsyncPhase) :
  Adapter (cfg_Async c) = queueWorkRequestAsyncAdapter -> ResolveAction (cfg_Async c) = Some resolve ->
  (forall value, exists workRequest, in_progress workRequest /\
     resolve value = st_ret (resolveQueueGeneratedWorkRequestAction (WorkRequestValue (Some workRequest)))) ->
  returns (resumeGeneratedWorkRequestCreateOrUpdate c identity workRequestID phase)
    (fun answer => IsSuccessful (fst answer) = false /\ resp_ShouldRequeue (fst answer) = false /\ is_Some (snd answer)).
Proof.
  intros Hadapter Hresolve Hrunning. unfold resumeGeneratedWorkRequestCreateOrUpdate.
  assert (Hfail : forall e, returns (failCreateOrUpdate c e)
    (fun answer => IsSuccessful (fst answer) = false /\ resp_ShouldRequeue (fst answer) = false /\ is_Some (snd answer))).
  { intros e. apply returns_then. intros err. by apply returns_ret. }
  apply returns_then. intros [v|e]; [|apply Hfail].
  apply (returns_bind _ _ (fun r => exists e, r = Err e)); [|intros ? [e ->]; apply Hfail].
  unfold buildGeneratedWorkRequestAsyncOperation, if_status. apply returns_then. intros r1.
  destruct (osokStatus r1) as [st|e]; [|apply returns_ret; eauto]. rewrite Hresolve.
  destruct (Hrunning v) as (wr & Hwr & ->). unfold resolveQueueGeneratedWorkRequestAction. cbn [queueWorkRequestFromAny result_bind].
  rewrite (in_progress_action _ Hwr).
  apply (returns_bind _ _ (fun r => r = Ok "IN_PROGRESS")); [by intros s a [= <-]|]. intros ? ->.
  apply returns_then. intros r2. apply returns_then. intros [p|e]; [|apply returns_ret; eauto].
  apply returns_then. intros r3. destruct (osokStatus r3) as [st'|e]; [|apply returns_ret; eauto].
  rewrite Hadapter. edestruct in_progress_unmodelled as (e & ->); [|apply returns_ret; eauto]. done.
Qed.

Lemma first_queue_id_spec keep resources id :
  first_queue_id keep resources = Some id ->
  id <> "" /\ exists resource, resource ∈ resources /\ isQueueWorkRequestResource resource = true /\ keep resource = true /\
    id = TrimSpace (stringValue (wrr_Identifier resource)).
Proof.
  induction resources as [|r resources IH]; [done|]. cbn [first_queue_id].
  destruct (isQueueWorkRequestResource r) eqn:Eq, (keep r) eqn:Ek; cbn [negb orb];
    [|intros (? & x & Hx & ?)%IH; split; [done|]; exists x; split; [by apply list_elem_of_further|done]..].
  destruct (TrimSpace (stringValue (wrr_Identifier r)) =? "")%string eqn:E; cbn [negb].
  - intros (? & x & Hx & ?)%IH. split; [done|]. exists x. split; [by apply list_elem_of_further|done].
  - intros [= <-]. bool_prop. split; [done|]. exists r. split; [apply list_elem_of_here|done].
Qed.

Lemma first_queue_id_none keep resources :
  first_queue_id keep resources = None <->
  forall resource, resource ∈ resources -> isQueueWorkRequestResource resource = true -> keep resource = true ->
    TrimSpace (stringValue (wrr_Identifier resource)) = "".
Proof.
  induction resources as [|r resources IH]; [split; [intros _ x Hx; by apply elem_of_nil in Hx|done]|]. cbn [first_queue_id].
  setoid_rewrite elem_of_cons.
  destruct (isQueueWorkRequestResource r) eqn:Eq, (keep r) eqn:Ek; cbn [negb orb];
    [|rewrite IH; split; [intros Hall x [->|Hx]; [congruence|by apply Hall]|auto]..].
  destruct (TrimSpace (stringValue (wrr_Identifier r)) =? "")%string eqn:E; cbn [negb]; bool_prop.
  - rewrite IH. split; [intros Hall x [->|Hx]; [done|by apply Hall]|auto].
  - split; [done|]. intros Hall. by rewrite (Hall r) in E; auto.
Qed.

(** The queue of a work request is found when it is named, and the phase's action decides: an identifier is returned exactly
    when some queue resource has one, it belongs to a queue resource, and when a queue resource with the action of the
    phase has an identifier the one returned is of such a resource. *)
Theorem queue_id_recovered (workRequest : WorkRequest) (phase : OSOKAsyncPhase) :
  let action := queueWorkRequestActionForPhase phase in
  let named resource := isQueueWorkRequestResource resource = true /\ TrimSpace (stringValue (wrr_Identifier resource)) <> "" in
  match recoverQueueIDFromGeneratedWorkRequest (WorkRequestValue (Some workRequest)) phase with
  | Err _ => forall resource, resource ∈ qwr_Resources workRequest -> ~ named resource
  | Ok id =>
      exists resource, resource ∈ qwr_Resources workRequest /\ named resource /\ id = TrimSpace (stringValue (wrr_Identifier resource)) /\
        ((exists r, r ∈ qwr_Resources workRequest /\ named r /\ (action = "" \/ wrr_ActionType r = action)) ->
         action = "" \/ wrr_ActionType resource = action)
  end.
Proof.
  intros action named. unfold recoverQueueIDFromGeneratedWorkRequest. cbn [queueWorkRequestFromAny result_bind].
  unfold resolveQueueIDFromWorkRequest. fold action.
  destruct (first_queue_id _ _) as [id|] eqn:E1.
  - apply first_queue_id_spec in E1 as (Hid & r & Hin & Hq & Hk & ->). exists r. repeat split; try done.
    intros _. apply orb_true_iff in Hk as [Hk|Hk]; bool_prop; auto.
  - rewrite first_queue_id_none in E1. destruct (first_queue_id (fun _ => true) _) as [id|] eqn:E2.
    + apply first_queue_id_spec in E2 as (Hid & r & Hin & Hq & _ & ->). exists r. repeat split; try done.
      intros (r' & Hin' & [Hq' Hn'] & Ha'). destruct Hn'. apply E1; [done|done|]. apply orb_true_iff. by rewrite !String.eqb_eq.
    + rewrite first_queue_id_none in E2. intros r Hin [Hq Hn]. by apply Hn, E2.
Qed.

(** ** Witnesses *)

(** Text is opaque in the samples, which have no capabilities. *)
Definition opaqueText : JsonText := {| json_parse := fun s => Err s; json_print := fun _ => "{}" |}.

Definition sample_queue_spec (tags : option (gmap string string)) : QueueSpec :=
  mkQueueSpec "orders" "ocid1.compartment" 0 30 0 0 0 "" [] tags None.
Definition sample_queue (tags : option (gmap string string)) : Queue :=
  mkQueue (sample_queue_spec tags) (mkQueueStatus emptyStatus "" "" "" "" "ACTIVE" "" 0 0 0 0 "" "" "" None None None 0 [] "" "" "").
Definition sample_live (name : string) (visibility limit : Z) (tags : option (gmap string string)) : SdkQueue :=
  mkSdkQueue (Some "ocid1.queue") (Some "ocid1.compartment") None None "ACTIVE" None (Some 86400%Z) (Some visibility) (Some 0%Z) (Some 0%Z)
    (Some name) None None tags None None (Some limit) [].
Definition sample_details : UpdateQueueDetails := mkUpdateDetails (Some "orders") (Some 30%Z) None (Some 0%Z) None None None (Some ∅) None.

Lemma queue_update_settles_witness :
  @buildQueueUpdateBody plainCodec opaqueText (sample_queue None) (GetQueueResponse (Some (sample_live "orders" 30 0 (Some ∅))))
  = Ok (noUpdateDetails, false).
Proof.
  apply (@queue_update_settles plainCodec opaqueText (sample_queue None) (sample_queue None)
           (sample_live "old" 20 100 (Some {["a" := "b"]})) (sample_live "orders" 30 0 (Some ∅)) sample_details).
  - vm_compute. reflexivity.
  - split; try reflexivity. left. reflexivity.
  - reflexivity.
  - discriminate.
  - reflexivity.
Defined.

Lemma queue_empty_tags_never_settle_witness :
  exists details updateNeeded,
    @buildQueueUpdateBody plainCodec opaqueText (sample_queue (Some ∅)) (GetQueueResponse (Some (sample_live "orders" 30 0 (Some ∅)))) =
      Ok (details, updateNeeded) /\
    updateNeeded = true /\ ud_FreeformTags details = None.
Proof.
  do 2 eexists. split; [vm_compute; reflexivity|].
  apply (@queue_empty_tags_never_settle plainCodec opaqueText (sample_queue (Some ∅)) (sample_live "orders" 30 0 (Some ∅)) ∅).
  - reflexivity.
  - reflexivity.
  - vm_compute. reflexivity.
Defined.

Lemma queue_omitted_settings_reset_witness :
  exists created details updateNeeded,
    @buildCreateQueueDetails plainCodec opaqueText (sample_queue_spec None) = Ok created /\
    @buildQueueUpdateBody plainCodec opaqueText (sample_queue None) (GetQueueResponse (Some (sample_live "orders" 30 100 None))) =
      Ok (details, updateNeeded) /\
    cd_ChannelConsumptionLimit created = None /\ updateNeeded = true /\ ud_ChannelConsumptionLimit details = Some 0%Z.
Proof.
  do 3 eexists. split; [vm_compute; reflexivity|]. split; [vm_compute; reflexivity|].
  apply (@queue_omitted_settings_reset plainCodec opaqueText (sample_queue None) (sample_live "orders" 30 100 None) 100%Z).
  - reflexivity.
  - reflexivity.
  - discriminate.
  - vm_compute. reflexivity.
  - vm_compute. reflexivity.
Defined.

Definition running_request : WorkRequest :=
  mkWorkRequest "CREATE_QUEUE" "IN_PROGRESS" (Some "wr1") [mkWorkRequestResource (Some "queue") "IN_PROGRESS" (Some "ocid1.queue")] None.
Definition running_resolve (value : GoValue) : ST unit (result string GoError) :=
  st_ret (resolveQueueGeneratedWorkRequestAction (WorkRequestValue (Some running_request))).
Definition running_config : Config unit :=
  mkConfig "Queue" "Queue" None None (Some newQueueRuntimeSemantics) None None no_identity_hooks None None None no_status_hooks
    no_parity_hooks (mkAsyncHooks queueWorkRequestAsyncAdapter (Some (fun _ => st_ret (Ok (work_request_body "IN_PROGRESS"))))
                       (Some running_resolve) None None None) no_delete_hooks None None None None None.

Lemma queue_in_progress_poll_fails_witness :
  exists answer,
    fst (@resumeGeneratedWorkRequestCreateOrUpdate unit plainEnv running_config VNil "wr1" OSOKAsyncPhaseCreate
           (sample_state (sampleResource emptyStatus))) = Ret answer /\
    IsSuccessful (fst answer) = false /\ resp_ShouldRequeue (fst answer) = false /\ is_Some (snd answer).
Proof.
  eexists. split; [vm_compute; reflexivity|].
  refine (@queue_in_progress_poll_fails unit plainEnv running_config running_resolve VNil "wr1" OSOKAsyncPhaseCreate
            eq_refl eq_refl _ (sample_state (sampleResource emptyStatus)) _ _).
  - intros value. exists running_request. split; [|reflexivity]. split; [by left|]. by constructor.
  - vm_compute. reflexivity.
Defined.

(** ** The generated semantics *)

(** The runtime accepts the queue's semantics, so its work-request hooks are in use and its deletes are confirmed. *)
Lemma queue_semantics_accepted :
  validateFormalSemantics "Queue" (Some newQueueRuntimeSemantics) = None /\
  generatedWorkRequestAsyncEnabled (Some newQueueRuntimeSemantics) = true.
Proof. by vm_compute. Qed.
