(* ===== verification/QueueOverlay.v ===== *)
(** * The queue's overlay client ([queue_generated_runtime_overlay_client.go])

    A wrapper around the generated client of the Queue service: it turns a failed
    lifecycle into a terminal status, remembers controller-owned capabilities, and
    settles deletes whose work request can no longer be followed.  The SDK client and
    the clock are parameters. *)

From stdpp Require Import gmap.
From Stdlib Require Import Ascii.
From S2P Require Import Prelude GoStrings Shared GoErrors GoValue AsyncStatus Reconciler ReconcilerSafety Secrets JsonValues Semantics.
From S2P Require Import SpecResolution MutationPolicy RequestBuilder ServiceClients EndpointSecrets GeneratorSemantics ResourceTags QueueRuntime QueueSafety.
Local Open Scope string_scope.
Local Open Scope list_scope.
Local Open Scope go_scope.

Definition queueRequeueDuration : Duration := Minute.

(** ** Errors *)

Definition normalizeQueueOCIError (err : GoError) : outcome GoError :=
  match as_service err with
  | None => Ret err
  | Some _ => let? response := OciErrorTypeResponse err in Ret (default err (snd response))
  end.

Definition isQueueDeleteNotFoundOCI (err : GoError) : outcome bool :=
  let? classification := ClassifyDeleteError (Some err) in
  Ret (IsUnambiguousNotFound classification || IsAuthShapedNotFound classification).

Definition isQueueDeleteConfirmUnexpectedLifecycle (err : GoError) : bool :=
  Contains (ErrorString err) "delete confirmation returned unexpected lifecycle state".

Definition queueDeleteProgressMessage (workRequestID queueID : string) (cause : GoError) : outcome string :=
  let? notFound := isQueueDeleteNotFoundOCI cause in
  Ret (if (notFound : bool)
       then "Queue delete work request " +++ workRequestID +++ " is no longer readable; waiting for Queue " +++ queueID +++ " to disappear"
       else "Queue delete work request " +++ workRequestID +++ " succeeded; waiting for Queue " +++ queueID +++ " to disappear").

(** ** Lifecycle *)

Definition currentQueueID (resource : Queue) : string :=
  let status := q_Status resource in
  if negb (Ocid (qs_OsokStatus status) =? "")%string then TrimSpace (Ocid (qs_OsokStatus status)) else TrimSpace (qs_Id status).

Definition queueObservedLifecycleFailed (resource : Queue) : bool :=
  EqualFold (TrimSpace (qs_LifecycleState (q_Status resource))) "FAILED".

(** [queueFromStatus]: the identifier, the display name and the lifecycle state. *)
Definition queueFromStatus (resource : Queue) : SdkQueue :=
  let trimmed value := if negb (TrimSpace value =? "")%string then Some (TrimSpace value) else None in
  mkSdkQueue (trimmed (currentQueueID resource)) None None None (TrimSpace (qs_LifecycleState (q_Status resource))) None None None None None
    (trimmed (qs_DisplayName (q_Status resource))) None None None None None None [].

Definition classifyQueueLifecycle (state : string) : OSOKConditionType * bool :=
  if (state =? "CREATING")%string then (Provisioning, true)
  else if (state =? "UPDATING")%string then (Updating, true)
  else if (state =? "DELETING")%string then (Terminating, true)
  else if (state =? "FAILED")%string then (Failed, false)
  else (Active, false).

Definition queueLifecycleMessage (current : SdkQueue) : string :=
  let name := TrimSpace (stringValue (sdk_DisplayName current)) in
  let name := if (name =? "")%string then TrimSpace (stringValue (sdk_Id current)) else name in
  let name := if (name =? "")%string then "Queue" else name in
  "Queue " +++ name +++ " is " +++ sdk_LifecycleState current.

Definition lifecycle_operation (phase : OSOKAsyncPhase) (state : string) (class : OSOKAsyncNormalizedClass) (message : string)
  : OSOKAsyncOperation :=
  mkAsyncOp OSOKAsyncSourceLifecycle phase "" state "" class None message None.

Definition queueLifecycleAsyncOperation (resource : Queue) (current : SdkQueue) (message : string) (explicitPhase : OSOKAsyncPhase)
  : option OSOKAsyncOperation :=
  let state := sdk_LifecycleState current in
  if (state =? "CREATING")%string then Some (lifecycle_operation OSOKAsyncPhaseCreate state OSOKAsyncClassPending message)
  else if (state =? "UPDATING")%string then Some (lifecycle_operation OSOKAsyncPhaseUpdate state OSOKAsyncClassPending message)
  else if (state =? "DELETING")%string then Some (lifecycle_operation OSOKAsyncPhaseDelete state OSOKAsyncClassPending message)
  else if (state =? "FAILED")%string then
    let phase := currentQueueAsyncPhase resource explicitPhase in
    if (phase =? "")%string then None else Some (lifecycle_operation phase state OSOKAsyncClassFailed message)
  else None.

(** ** Status updates; [now] and [condNow] are the readings of [metav1.Now] *)

(** The identity part of [queueMarkCondition] and [queueMarkAsyncOperation]. *)
Definition stamp_identity (now : Time) (id : string) (status : OSOKStatus) : OSOKStatus :=
  let status := if negb (id =? "")%string then set_Ocid id status else status in
  if negb (Ocid status =? "")%string && bool_decide (CreatedAt status = None) then set_CreatedAt (Some now) status else status.

Definition write_osok (f : OSOKStatus -> OSOKStatus) : Queue -> Queue :=
  with_Status (fun s => set_OsokStatus (f (qs_OsokStatus s)) s).

Definition queueMarkCondition (now condNow : Time) (resource : Queue) (condition : OSOKConditionType) (message : string)
  (shouldRequeue : bool) : Queue * OSOKResponse :=
  let status := stamp_identity now (currentQueueID resource) (qs_OsokStatus (q_Status resource)) in
  let status := set_Reason condition (set_Message message (set_UpdatedAt (Some now) status)) in
  let stamped := write_osok (fun _ => status) resource in
  let status :=
    if (condition =? Active)%string || ((condition =? Failed)%string && (currentQueueAsyncPhase stamped "" =? "")%string)
    then default status (ClearAsyncOperation (Some status)) else status in
  let conditionStatus := if (condition =? Failed)%string then ConditionFalse else ConditionTrue in
  (write_osok (fun _ => UpdateOSOKStatusCondition condNow status condition conditionStatus "" message) resource,
   mkResponse (negb (condition =? Failed)%string) shouldRequeue queueRequeueDuration).

Definition queueMarkAsyncOperation (now condNow : Time) (resource : Queue) (current : OSOKAsyncOperation) : Queue * OSOKResponse :=
  let status := stamp_identity now (currentQueueID resource) (qs_OsokStatus (q_Status resource)) in
  let current := mkAsyncOp (op_Source current) (op_Phase current) (op_WorkRequestID current) (op_RawStatus current) (op_RawOperationType current)
                   (op_NormalizedClass current) (op_PercentComplete current) (op_Message current)
                   (Some (default now (op_UpdatedAt current))) in
  let (applied, projection) := ApplyAsyncOperation now condNow (Some status) (Some current) in
  (write_osok (fun _ => default status applied) resource,
   mkResponse (negb (Condition projection =? Failed)%string) (ShouldRequeue projection) queueRequeueDuration).

Definition queueMarkDeleteProgress (now condNow : Time) (resource : Queue) (message : string) : Queue :=
  fst (queueMarkAsyncOperation now condNow resource
         (mkAsyncOp OSOKAsyncSourceWorkRequest (currentQueueAsyncPhase resource OSOKAsyncPhaseDelete)
            (TrimSpace (qs_DeleteWorkRequestId (q_Status resource))) "" "" OSOKAsyncClassPending None message None)).

Definition queueRecordErrorRequestID (resource : Queue) (err : GoError) : Queue :=
  write_osok (fun status => default status (RecordErrorOpcRequestID (Some status) (Some err))) resource.

Definition queueMarkDeleted (now condNow : Time) (resource : Queue) (message : string) : Queue :=
  let status := set_Reason Terminating (set_Message message (set_UpdatedAt (Some now) (set_DeletedAt (Some now) (qs_OsokStatus (q_Status resource))))) in
  let status := default status (ClearAsyncOperation (Some status)) in
  with_Status (fun s => set_OsokStatus (UpdateOSOKStatusCondition condNow status Terminating ConditionTrue "" message) (clear_WorkRequestIds s)) resource.

Definition queueFinishWithLifecycle (now condNow : Time) (resource : Queue) (current : SdkQueue) (explicitPhase : OSOKAsyncPhase)
  : Queue * OSOKResponse :=
  let (condition, shouldRequeue) := classifyQueueLifecycle (sdk_LifecycleState current) in
  let message := queueLifecycleMessage current in
  match queueLifecycleAsyncOperation resource current message explicitPhase with
  | Some asyncCurrent => queueMarkAsyncOperation now condNow resource asyncCurrent
  | None => queueMarkCondition now condNow resource condition message shouldRequeue
  end.

(** ** The client *)

Section Overlay.
Context {W : Type} `{JsonCodec} `{JsonText}.
(** [metav1.Now] and [GetQueue] of the SDK's client; [None] when there is no client. *)
Context (clock : ST W Time) (client : option (string -> ST W (result SdkQueue GoError))) (initErr : option GoError).
Context (delegate : SvcClient Queue W).

Definition put_queue (r : Queue) : ST (Queue * W) unit := on_resource (fun _ => r).

Definition overlay_getQueue (queueID : string) : ST W (result SdkQueue GoError) :=
  match initErr, client with
  | Some e, _ => st_ret (Err e)
  | None, None => st_ret (Err (ErrText "Queue OCI client is not configured"))
  | None, Some get => get queueID
  end.

Definition overlay_CreateOrUpdate (req : string) : ST (Queue * W) (OSOKResponse * option GoError) :=
  let* answer := sc_CreateOrUpdate delegate req in
  let* resource := the_resource in
  match snd answer with
  | Some _ => st_ret answer
  | None =>
      if negb (queueObservedLifecycleFailed resource) then
        let (remembered, err) := rememberQueueControllerOwnedCapabilityParityStatus resource in
        put_queue remembered ;;;
        match err with
        | Some e => st_ret (unsuccessful, Some e)
        | None => st_ret (fst answer, None)
        end
      else
        let* now := on_world clock in
        let* condNow := on_world clock in
        let (finished, response) := queueFinishWithLifecycle now condNow resource (queueFromStatus resource) "" in
        put_queue finished ;;; st_ret (response, None)
  end.

Definition mark_deleted : ST (Queue * W) (bool * option GoError) :=
  let* now := on_world clock in
  let* condNow := on_world clock in
  on_resource (fun resource => queueMarkDeleted now condNow resource "OCI Queue deleted") ;;;
  st_ret (true, None).

(** The read that settles a delete whose work request cannot be followed. *)
Definition overlay_confirm (deleteErr : GoError) (trackedID workRequestID : string) : ST (Queue * W) (bool * option GoError) :=
  let* current := on_world (overlay_getQueue trackedID) in
  match current with
  | Err readErr =>
      let* gone := st_lift (isQueueDeleteNotFoundOCI readErr) in
      if (gone : bool) then
        on_resource (fun resource => queueRecordErrorRequestID resource readErr) ;;; mark_deleted
      else
        let* normalized := st_lift (normalizeQueueOCIError readErr) in
        on_resource (fun resource => queueRecordErrorRequestID resource normalized) ;;;
        st_ret (false, Some normalized)
  | Ok current =>
      if (sdk_LifecycleState current =? "DELETED")%string then mark_deleted
      else
        let* resource := the_resource in
        let (projected, err) := projectQueueStatus resource (QueueBody (Some current)) in
        match err with
        | Some e => st_ret (false, Some e)
        | None =>
            put_queue projected ;;;
            let* message := st_lift (queueDeleteProgressMessage workRequestID trackedID deleteErr) in
            let* now := on_world clock in
            let* condNow := on_world clock in
            on_resource (fun resource => queueMarkDeleteProgress now condNow resource message) ;;;
            st_ret (false, None)
        end
  end.

Definition overlay_Delete : ST (Queue * W) (bool * option GoError) :=
  let* answer := sc_Delete delegate in
  let '(deleted, err) := answer in
  let* resource := the_resource in
  match err with
  | None => st_ret (deleted, err)
  | Some deleteErr =>
      if (deleted : bool) then st_ret (deleted, err)
      else
        let trackedID := currentQueueID resource in
        let workRequestID := TrimSpace (qs_DeleteWorkRequestId (q_Status resource)) in
        if (trackedID =? "")%string || (workRequestID =? "")%string || bool_decide (is_Some initErr) || negb (bool_decide (is_Some client))
        then st_ret (deleted, err)
        else
          let* notFound := st_lift (isQueueDeleteNotFoundOCI deleteErr) in
          if negb (notFound : bool) && negb (isQueueDeleteConfirmUnexpectedLifecycle deleteErr) then st_ret (deleted, err)
          else overlay_confirm deleteErr trackedID workRequestID
  end.

Definition queueGeneratedRuntimeOverlayClient : SvcClient Queue W := mkSvcClient overlay_CreateOrUpdate overlay_Delete.
End Overlay.

(** ** Theorems *)

#[export] Instance QueueCapability_eq_dec : EqDecision QueueCapability.
Proof. solve_decision. Defined.
#[export] Instance QueueSpec_eq_dec : EqDecision QueueSpec.
Proof. solve_decision. Defined.
#[export] Instance QueueStatus_eq_dec : EqDecision QueueStatus.
Proof. solve_decision. Defined.
#[export] Instance Queue_eq_dec : EqDecision Queue.
Proof. solve_decision. Defined.

(** The answer of a read that confirms a delete. *)
Definition confirms_delete (answer : result SdkQueue GoError) : Prop :=
  match answer with
  | Err readErr => isQueueDeleteNotFoundOCI readErr = Ret true
  | Ok current => sdk_LifecycleState current = "DELETED"
  end.

(** What [queueMarkDeleted] leaves behind. *)
Definition marked_deleted (resource : Queue) : Prop :=
  is_Some (DeletedAt (qs_OsokStatus (q_Status resource))) /\
  Current (Async (qs_OsokStatus (q_Status resource))) = None /\
  qs_CreateWorkRequestId (q_Status resource) = "" /\ qs_UpdateWorkRequestId (q_Status resource) = "" /\
  qs_DeleteWorkRequestId (q_Status resource) = "".

(** A condition update changes the conditions only. *)
Lemma condition_update_fields now s t st reason message :
  let s' := UpdateOSOKStatusCondition now s t st reason message in DeletedAt s' = DeletedAt s /\ Async s' = Async s /\ Reason s' = Reason s.
Proof. unfold UpdateOSOKStatusCondition. by repeat case_goal. Qed.

Lemma queueMarkDeleted_marked now condNow resource message : marked_deleted (queueMarkDeleted now condNow resource message).
Proof.
  unfold marked_deleted, queueMarkDeleted, with_Status. cbn [q_Status qs_OsokStatus set_OsokStatus qs_CreateWorkRequestId
    qs_UpdateWorkRequestId qs_DeleteWorkRequestId clear_WorkRequestIds].
  edestruct condition_update_fields as (-> & -> & _). by repeat split; try eexists.
Qed.

Section OverlayTheorems.
Context {W : Type} `{JsonCodec} `{JsonText}.
Context (clock : ST W Time) (client : option (string -> ST W (result SdkQueue GoError))) (initErr : option GoError).
Context (delegate : SvcClient Queue W).
Notation overlay := (queueGeneratedRuntimeOverlayClient clock client initErr delegate).

Lemma mark_deleted_inv s a s' : mark_deleted clock s = (Ret a, s') -> a = (true, None) /\ marked_deleted (fst s').
Proof.
  unfold mark_deleted, st_bind, on_world, on_resource, st_ret. destruct s as [r w].
  destruct (clock w) as [[t1|] w1]; [|done]. destruct (clock w1) as [[t2|] w2]; [|done].
  intros [= <- <-]. split; [done|]. apply queueMarkDeleted_marked.
Qed.

Lemma overlay_confirm_inv deleteErr id wr r w err s' :
  overlay_confirm clock client initErr deleteErr id wr (r, w) = (Ret (true, err), s') ->
  err = None /\ marked_deleted (fst s') /\
  exists answer w1, overlay_getQueue client initErr id w = (Ret answer, w1) /\ confirms_delete answer.
Proof.
  unfold overlay_confirm, st_bind at 1, on_world at 1.
  destruct (overlay_getQueue client initErr id w) as [[answer|] w1] eqn:Eg; [|done].
  assert (Hdone : forall s, mark_deleted clock s = (Ret (true, err), s') -> confirms_delete answer ->
    err = None /\ marked_deleted (fst s') /\ exists a w2, (Ret answer, w1) = (Ret a, w2) /\ confirms_delete a).
  { intros s Hs Hc. apply mark_deleted_inv in Hs as [[= ->] Hm]. eauto 6. }
  destruct answer as [q|e].
  - destruct (sdk_LifecycleState q =? "DELETED")%string eqn:E; [intros Hs; apply (Hdone _ Hs); by bool_prop|].
    unfold st_bind, the_resource. destruct (projectQueueStatus r _) as [r' [e|]]; [done|].
    unfold put_queue, on_resource, st_lift, on_world. destruct (queueDeleteProgressMessage _ _ _); [|done].
    destruct (clock w1) as [[t1|] w2]; [|done]. by destruct (clock w2) as [[t2|] w3].
  - unfold st_bind at 1, st_lift at 1. destruct (isQueueDeleteNotFoundOCI e) as [[]|] eqn:E; [|..|done].
    + unfold st_bind, on_resource at 1. intros Hs. by apply (Hdone _ Hs).
    + unfold st_bind, st_lift. by destruct (normalizeQueueOCIError e).
Qed.

(** The overlay never invents a delete: it reports a queue as deleted only when the generated client did, or when the
    generated client failed and a read of the tracked queue answered that it does not exist or is in the DELETED state;
    in the second case the status records the deletion and tracks no work request any more. *)
Theorem queue_delete_confirmed (s s' : Queue * W) (err : option GoError) :
  sc_Delete overlay s = (Ret (true, err), s') ->
  sc_Delete delegate s = (Ret (true, err), s') \/
  exists deleteErr r w answer w',
    sc_Delete delegate s = (Ret (false, Some deleteErr), (r, w)) /\ currentQueueID r <> "" /\
    overlay_getQueue client initErr (currentQueueID r) w = (Ret answer, w') /\ confirms_delete answer /\
    err = None /\ marked_deleted (fst s').
Proof.
  cbn [sc_Delete queueGeneratedRuntimeOverlayClient]. unfold overlay_Delete, st_bind at 1.
  destruct (sc_Delete delegate s) as [[[d e]|] [r w]] eqn:Ed; [|done]. unfold st_bind at 1, the_resource at 1.
  destruct e as [deleteErr|]; [|intros [= -> <- <-]; by left]. destruct d; [intros [= <- <-]; by left|].
  destruct (currentQueueID r =? "")%string eqn:Eid; [done|]. cbn [orb].
  destruct (_ || _); [done|]. unfold st_bind at 1, st_lift at 1. destruct (isQueueDeleteNotFoundOCI deleteErr) as [nf|]; [|done].
  destruct (negb nf && _); [done|]. intros Hc. right. bool_prop.
  apply overlay_confirm_inv in Hc as (-> & Hm & answer & w1 & Hg & Ha). by exists deleteErr, r, w, answer, w1.
Qed.

Lemma progress_tracked now condNow resource message :
  TrimSpace (qs_DeleteWorkRequestId (q_Status resource)) <> "" ->
  exists op, Current (Async (qs_OsokStatus (q_Status (queueMarkDeleteProgress now condNow resource message)))) = Some op /\
    op_Phase op = OSOKAsyncPhaseDelete /\ op_NormalizedClass op = OSOKAsyncClassPending /\
    op_WorkRequestID op = TrimSpace (qs_DeleteWorkRequestId (q_Status resource)).
Proof.
  intros Hne. unfold queueMarkDeleteProgress, queueMarkAsyncOperation. cbn [ApplyAsyncOperation fst default from_option id].
  unfold write_osok, with_Status. cbn [q_Status qs_OsokStatus set_OsokStatus].
  edestruct condition_update_fields as (_ & -> & _). eexists. split; [reflexivity|]. split; [reflexivity|]. split; [reflexivity|].
  cbn [op_WorkRequestID]. rewrite TrimSpace_idem. apply String.eqb_neq in Hne. by rewrite Hne.
Qed.

(** C14. A queue that is still there keeps its finalizer: when the delete of the generated client fails because its work
    request is gone or succeeded too early, and the tracked queue can still be read in a state other than DELETED, with
    capabilities that can be projected, the overlay answers "not deleted, no error", tracks the work request as a pending delete, and the reconcile writes no
    object without the finalizer. *)
Theorem queue_delete_keeps_waiting (k8s : Client Queue W) (namespace : string) (status : Queue -> OSOKStatus) (extra : list string)
  obj0 w0 out rs (obj : Object Queue) (w w1 w2 w3 w4 : W) (deleteErr : GoError) (r : Queue)
  (get : string -> ST W (result SdkQueue GoError)) (current : SdkQueue) (capabilities : list QueueCapability)
  (notFound : bool) (now condNow : Time) :
  client = Some get -> initErr = None ->
  Reconcile k8s (client_manager overlay namespace status) extra (mkRS obj0 w0 []) = (out, rs) ->
  c_Get k8s w0 = (Ok obj, w) ->
  sc_Delete delegate (o_body obj, w) = (Ret (false, Some deleteErr), (r, w1)) ->
  currentQueueID r <> "" -> TrimSpace (qs_DeleteWorkRequestId (q_Status r)) <> "" ->
  isQueueDeleteNotFoundOCI deleteErr = Ret notFound ->
  notFound = true \/ isQueueDeleteConfirmUnexpectedLifecycle deleteErr = true ->
  get (currentQueueID r) w1 = (Ret (Ok current), w2) -> sdk_LifecycleState current <> "DELETED" ->
  projectQueueCapabilities (sdk_Capabilities current) = Ok capabilities ->
  clock w2 = (Ret now, w3) -> clock w3 = (Ret condNow, w4) ->
  (exists r', sc_Delete overlay (o_body obj, w) = (Ret (false, None), (r', w4)) /\
     exists op, Current (Async (qs_OsokStatus (q_Status r'))) = Some op /\ op_Phase op = OSOKAsyncPhaseDelete /\
       op_NormalizedClass op = OSOKAsyncClassPending /\ op_WorkRequestID op = TrimSpace (qs_DeleteWorkRequestId (q_Status r))) /\
  forall o, EffUpdate o ∈ rs_trace rs -> ContainsFinalizer o OSOKFinalizerName = true.
Proof.
  intros Hc Hi Hrun Hget Hdel Hid Hwr Hnf Hcause Hread Hstate Hcap Hnow Hcond.
  assert (Hoverlay : exists r', sc_Delete overlay (o_body obj, w) = (Ret (false, None), (r', w4)) /\
     exists op, Current (Async (qs_OsokStatus (q_Status r'))) = Some op /\ op_Phase op = OSOKAsyncPhaseDelete /\
       op_NormalizedClass op = OSOKAsyncClassPending /\ op_WorkRequestID op = TrimSpace (qs_DeleteWorkRequestId (q_Status r))).
  { cbn [sc_Delete queueGeneratedRuntimeOverlayClient]. unfold overlay_Delete, st_bind at 1. rewrite Hdel.
    unfold st_bind at 1, the_resource at 1. apply String.eqb_neq in Hid as Hid', Hwr as Hwr'. rewrite Hid', Hwr', Hc, Hi.
    rewrite bool_decide_eq_false_2 by (by intros []). rewrite bool_decide_eq_true_2 by eauto. cbn [orb negb].
    unfold st_bind at 1, st_lift at 1. rewrite Hnf. replace (negb notFound && _) with false by (destruct Hcause as [->| ->]; [done|by rewrite andb_false_r]).
    unfold overlay_confirm, st_bind, on_world, the_resource. cbn [overlay_getQueue]. rewrite Hread.
    apply String.eqb_neq in Hstate. rewrite Hstate. unfold projectQueueStatus. cbn [queueFromResponse]. rewrite Hcap.
    unfold put_queue, on_resource, st_lift, queueDeleteProgressMessage. rewrite Hnf. cbn [outcome_bind]. rewrite Hnow, Hcond.
    eexists. split; [reflexivity|]. cbn [fst]. edestruct progress_tracked as (op & Hop); [|exists op; exact Hop]. done. }
  split; [done|]. intros o Ho. destruct (ContainsFinalizer o OSOKFinalizerName) eqn:E; [done|exfalso].
  destruct (release_confirmed _ _ _ _ _ _ _ _ Hrun Ho E) as (obj' & w' & p & o' & w5 & Hg & _ & Hcall & Hconf).
  rewrite Hget in Hg. injection Hg as <- <-. apply client_manager_delete in Hcall as (d & err & r' & Hd & ->).
  destruct Hoverlay as (r2 & Hr2 & _). rewrite Hr2 in Hd. by simplify_eq.
Qed.

(** A failed queue is final: when the generated client reports no error for a queue whose lifecycle state is FAILED, the
    overlay answers with an unsuccessful response that asks for no requeue, and the status carries the reason Failed. *)
Theorem queue_failed_lifecycle_final (req : string) (r0 r : Queue) (w0 w1 w2 w3 : W) (response : OSOKResponse) (now condNow : Time) :
  sc_CreateOrUpdate delegate req (r0, w0) = (Ret (response, None), (r, w1)) ->
  TrimSpace (qs_LifecycleState (q_Status r)) = "FAILED" ->
  clock w1 = (Ret now, w2) -> clock w2 = (Ret condNow, w3) ->
  exists r', sc_CreateOrUpdate overlay req (r0, w0) = (Ret (mkResponse false false queueRequeueDuration, None), (r', w3)) /\
    Reason (qs_OsokStatus (q_Status r')) = Failed.
Proof.
  intros Hd Hstate Hnow Hcond. cbn [sc_CreateOrUpdate queueGeneratedRuntimeOverlayClient].
  unfold overlay_CreateOrUpdate, st_bind, the_resource, on_world, put_queue, on_resource. rewrite Hd. cbn [snd].
  unfold queueObservedLifecycleFailed. rewrite Hstate. cbn [negb]. change (EqualFold "FAILED" "FAILED") with true. cbn [negb].
  rewrite Hnow, Hcond. unfold queueFinishWithLifecycle, queueLifecycleAsyncOperation. cbn [queueFromStatus sdk_LifecycleState].
  rewrite Hstate. cbn [String.eqb Ascii.eqb Bool.eqb classifyQueueLifecycle]. cbn zeta.
  destruct (currentQueueAsyncPhase r "" =? "")%string eqn:Ephase.
  - eexists. split; [reflexivity|]. unfold queueMarkCondition, write_osok, with_Status. cbn [fst q_Status qs_OsokStatus set_OsokStatus].
    edestruct condition_update_fields as (_ & _ & ->). by repeat case_goal.
  - eexists. split; [reflexivity|]. unfold queueMarkAsyncOperation. cbn [ApplyAsyncOperation].
    unfold write_osok, with_Status. cbn [fst q_Status qs_OsokStatus set_OsokStatus default from_option id].
    by edestruct condition_update_fields as (_ & _ & ->).
Qed.
End OverlayTheorems.

(** ** Witnesses *)

Definition tracked_queue : Queue :=
  mkQueue (sample_queue_spec None)
    (mkQueueStatus (set_Ocid "ocid1.queue" emptyStatus) "" "" "" "" "ACTIVE" "" 0 0 0 0 "" "" "" None None None 0 [] "" "" "wr9").
Definition queue_gone : GoError :=
  ErrService (mkServiceError 404 "NotFound" "req1" "no such work request" "404 NotFound" "common.servicefailure" None).
Definition failing_delegate : SvcClient Queue nat :=
  mkSvcClient (fun _ '(r, w) => (Ret (mkResponse true false 0%Z, None), (r, S w)))
    (fun '(r, w) => (Ret (false, Some queue_gone), (r, S w))).
Definition tick_clock : ST nat Time := fun w => (Ret (Z.of_nat w), S w).
Definition read_queue (answer : result SdkQueue GoError) : string -> ST nat (result SdkQueue GoError) := fun _ w => (Ret answer, S w).

Lemma queue_delete_confirmed_witness :
  sc_Delete failing_delegate (tracked_queue, 0) = (Ret (true, None), (tracked_queue, 0)) \/
  exists deleteErr r w answer w',
    sc_Delete failing_delegate (tracked_queue, 0) = (Ret (false, Some deleteErr), (r, w)) /\ currentQueueID r <> "" /\
    overlay_getQueue (Some (read_queue (Err queue_gone))) None (currentQueueID r) w = (Ret answer, w') /\ confirms_delete answer /\
    @None GoError = None /\
    marked_deleted (queueMarkDeleted 2%Z 3%Z (queueRecordErrorRequestID tracked_queue queue_gone) "OCI Queue deleted").
Proof.
  edestruct (@queue_delete_confirmed nat plainCodec opaqueText tick_clock (Some (read_queue (Err queue_gone))) None failing_delegate
               (tracked_queue, 0)) as [Hd|Hd].
  - vm_compute. reflexivity.
  - by vm_compute in Hd.
  - right. destruct Hd as (e & r & w & a & w' & H1 & H2 & H3 & H4 & _ & H6). exists e, r, w, a, w'. exact (conj H1 (conj H2 (conj H3 (conj H4 (conj eq_refl H6))))).
Defined.

Definition deleting_queue : Object Queue := mkObject [OSOKFinalizerName] (Some 5%Z) 2%Z tracked_queue.
Definition queue_k8s : Client Queue nat :=
  mkClient (fun w => (Ok deleting_queue, w)) (fun o w => (o, None, w)) (fun _ o w => (o, None, w)).

Lemma queue_delete_keeps_waiting_witness :
  exists r', sc_Delete (@queueGeneratedRuntimeOverlayClient nat plainCodec opaqueText tick_clock
                          (Some (read_queue (Ok (sample_live "orders" 30 0 None)))) None failing_delegate) (tracked_queue, 0) =
               (Ret (false, None), (r', 4)) /\
    exists op, Current (Async (qs_OsokStatus (q_Status r'))) = Some op /\ op_Phase op = OSOKAsyncPhaseDelete /\
      op_NormalizedClass op = OSOKAsyncClassPending /\ op_WorkRequestID op = "wr9".
Proof.
  edestruct (@queue_delete_keeps_waiting nat plainCodec opaqueText tick_clock (Some (read_queue (Ok (sample_live "orders" 30 0 None)))) None
               failing_delegate queue_k8s "ns" (fun r => qs_OsokStatus (q_Status r)) [] deleting_queue 0) as [Hd _];
    [reflexivity|reflexivity|apply surjective_pairing|reflexivity|reflexivity|by intros [=]|by intros [=]|reflexivity|by left|reflexivity
    |by intros [=]|reflexivity|reflexivity|reflexivity|exact Hd].
Defined.

Lemma queue_failed_lifecycle_final_witness :
  exists r', sc_CreateOrUpdate (@queueGeneratedRuntimeOverlayClient nat plainCodec opaqueText tick_clock None None failing_delegate) "ns"
    (mkQueue (sample_queue_spec None) (mkQueueStatus emptyStatus "" "" "" "" "FAILED" "" 0 0 0 0 "" "" "" None None None 0 [] "" "" ""), 0) =
    (Ret (mkResponse false false queueRequeueDuration, None), (r', 3)) /\
    Reason (qs_OsokStatus (q_Status r')) = Failed.
Proof.
  eapply (@queue_failed_lifecycle_final nat plainCodec opaqueText tick_clock None None failing_delegate).
  - reflexivity.
  - reflexivity.
  - reflexivity.
  - reflexivity.
Defined.
