(* ===== verification/QueueParity.v ===== *)
(** * Controller-owned capabilities of a queue settle

    The service does not report the details of the CONSUMER_GROUPS capability, so the
    overlay remembers in the status what the spec asked for, as JSON text, and the
    update hook compares the spec with what was remembered.  The remembered form
    re-encodes to the same text, so the comparison finds no difference. *)

From stdpp Require Import gmap sorting countable.
From Stdlib Require Import Ascii.
From S2P Require Import Prelude GoStrings Shared GoErrors GoValue AsyncStatus Secrets JsonValues Semantics SpecResolution MutationPolicy.
From S2P Require Import RequestBuilder GeneratorSemantics ResourceTags QueueRuntime.
Local Open Scope string_scope.
Local Open Scope list_scope.
Local Open Scope go_scope.

(** What [encoding/json] documents of [Marshal] and [Unmarshal]: printing and parsing a document gives its canonical form,
    the text depends on that form only, and it is compact. *)
Class JsonTextLaws `{JsonText} : Prop := {
  parse_print j : json_parse (json_print j) = Ok (canonical j);
  print_canonical j : json_print (canonical j) = json_print j;
  print_trimmed j : TrimSpace (json_print j) = json_print j;
  print_not_empty j : json_print j <> ""
}.

(** ** Maps *)

Lemma keys_map_set {A} k (v : A) m : keys (map_set k v m) = if containsString (keys m) k then keys m else keys m ++ [k].
Proof.
  induction m as [|[k' w] m IH]; [done|]. cbn [map_set keys map fst containsString existsb].
  destruct (k' =? k)%string; [done|]. cbn [map fst orb]. unfold keys, containsString in IH. rewrite IH.
  by destruct (existsb _ _).
Qed.

Lemma map_set_nodup {A} k (v : A) m : NoDup (keys m) -> NoDup (keys (map_set k v m)).
Proof.
  intros Hm. rewrite keys_map_set. destruct (containsString (keys m) k) eqn:E; [done|].
  apply NoDup_app. split; [done|]. split; [|apply NoDup_singleton].
  intros x Hx Hk%list_elem_of_singleton. subst x. apply not_true_iff_false in E. apply E, containsString_spec. done.
Qed.

Lemma map_set_absent {A} k (v : A) m : k ∉ keys m -> map_set k v m = m ++ [(k, v)].
Proof.
  induction m as [|[k' w] m IH]; [done|]. cbn [map_set keys map fst]. rewrite not_elem_of_cons. intros [Hne Hm].
  destruct (k' =? k)%string eqn:E; [by bool_prop|]. by rewrite IH.
Qed.

Lemma map_set_same {A} k (v : A) m : map_get k m = Some v -> map_set k v m = m.
Proof.
  unfold map_get. induction m as [|[k' w] m IH]; [done|]. cbn [find_first fst map_set].
  destruct (k' =? k)%string eqn:E; [intros [= ->]; by bool_prop|]. intros H. by rewrite IH.
Qed.

Lemma fold_map_set {A} (m : GoMap A) : forall acc, NoDup (keys (acc ++ m)) ->
  fold_left (fun payload kv => map_set (fst kv) (snd kv) payload) m acc = acc ++ m.
Proof.
  induction m as [|[k v] m IH]; intros acc Hnd; [by rewrite app_nil_r|]. cbn [fold_left fst snd].
  rewrite map_set_absent, IH; rewrite <-?app_assoc; [done..|].
  unfold keys in Hnd |- *. rewrite map_app in Hnd. apply NoDup_app in Hnd as (_ & Hdis & _).
  intros Hk. apply (Hdis k Hk). apply list_elem_of_here.
Qed.

Lemma fold_map_set_nodup {A} (m : GoMap A) : forall acc, NoDup (keys acc) ->
  NoDup (keys (fold_left (fun payload kv => map_set (fst kv) (snd kv) payload) m acc)).
Proof. induction m as [|kv m IH]; intros acc Hacc; [done|]. cbn [fold_left]. by apply IH, map_set_nodup. Qed.

Lemma map_set_here {A} k (v : A) m : (k, v) ∈ map_set k v m.
Proof.
  induction m as [|[k' w] m IH]; [apply list_elem_of_here|]. cbn [map_set]. destruct (k' =? k)%string eqn:E.
  - bool_prop. subst. apply list_elem_of_here.
  - by apply list_elem_of_further.
Qed.

Lemma map_set_other {A} k k' (v w : A) m : k <> k' -> (k, v) ∈ m -> (k, v) ∈ map_set k' w m.
Proof.
  intros Hne. induction m as [|[k2 w2] m IH]; [by rewrite elem_of_nil|]. cbn [map_set]. rewrite elem_of_cons.
  destruct (k2 =? k')%string eqn:E; intros [[= -> ->]|Hin]; bool_prop; subst.
  - done.
  - by apply list_elem_of_further.
  - apply list_elem_of_here.
  - by apply list_elem_of_further, IH.
Qed.

(** The entries of a printed and parsed object. *)
Definition canonical_entries (m : GoMap Json) : GoMap Json := sort_keys (map (fun kv => (fst kv, canonical (snd kv))) m).

Lemma canonical_entries_nodup m : NoDup (keys m) -> NoDup (keys (canonical_entries m)).
Proof.
  intros Hm. unfold keys, canonical_entries. rewrite (sort_keys_permutation (map _ m)). by rewrite map_map.
Qed.

Lemma canonical_entries_elem m kv : kv ∈ canonical_entries m <-> exists v, (fst kv, v) ∈ m /\ snd kv = canonical v.
Proof.
  unfold canonical_entries. rewrite (sort_keys_permutation (map _ m)), list_elem_of_fmap. split.
  - intros ([k v] & -> & Hin). by exists v.
  - intros (v & Hin & Hv). exists (fst kv, v). split; [|done]. destruct kv. simpl in *. by subst.
Qed.

(** ** Reading the type back *)

(** No key but "type" itself is read as the type. *)
Definition single_type_key (m : GoMap Json) : Prop := forall k v, (k, v) ∈ m -> EqualFold k "type" = true -> k = "type".

Section Parity.
Context `{JsonCodec} `{JsonTextLaws}.

Definition discriminator (t : string) : GoValue := VStruct "" [(json_field "Type" "type" "string", VString t)].

Lemma discriminator_keys t m : forall s err,
  (forall k v, (k, v) ∈ m -> EqualFold k "type" = true -> k = "type" /\ v = JStr t) ->
  decode_keys decode_into m (discriminator s) err = (discriminator (if containsString (keys m) "type" then t else s), err).
Proof.
  induction m as [|[k v] m IH]; intros s err Hm; [done|]. cbn [decode_keys].
  assert (Hm' : forall k v, (k, v) ∈ m -> EqualFold k "type" = true -> k = "type" /\ v = JStr t).
  { intros k' v' Hin. apply Hm. by apply list_elem_of_further. }
  destruct (EqualFold k "type") eqn:E.
  - destruct (Hm k v ltac:(apply list_elem_of_here) E) as [-> ->].
    change (decode_key decode_into "type" (JStr t) (discriminator s)) with (discriminator t, @None string). cbv beta iota.
    replace (RequestBuilder.first_error err None) with err by (by destruct err). rewrite IH by done. by destruct (containsString (keys m) "type").
  - assert (Hk : (k =? "type")%string = false) by (apply String.eqb_neq; intros ->; by vm_compute in E).
    assert (Hkey : decode_key decode_into k v (discriminator s) = (discriminator s, None)).
    { unfold decode_key, discriminator. cbn [update_named sf_Exported sf_json json_field]. change (encoded_name _) with "type".
      by rewrite Hk, E. }
    rewrite Hkey. cbv beta iota. replace (RequestBuilder.first_error err None) with err by (by destruct err). rewrite IH by done.
    cbn [keys map fst containsString existsb]. by rewrite Hk.
Qed.

Lemma type_read_back payload t :
  single_type_key payload -> NoDup (keys payload) -> ("type", JStr t) ∈ payload ->
  queueCapabilityTypeFromJSON (json_print (JObj payload)) = Ok (canonicalQueueCapabilityType t).
Proof.
  intros Hs Hnd Hin. unfold queueCapabilityTypeFromJSON, unmarshal_into. rewrite parse_print. cbn [canonical].
  fold (canonical_entries payload). fold (discriminator "").
  change (decode_into (JObj (canonical_entries payload)) (discriminator "")) with
    (decode_keys decode_into (canonical_entries payload) (discriminator "") None).
  rewrite (discriminator_keys t).
  - replace (containsString (keys (canonical_entries payload)) "type") with true; [done|]. symmetry. apply containsString_spec.
    apply list_elem_of_fmap. exists ("type", JStr t). split; [done|]. apply canonical_entries_elem. by exists (JStr t).
  - intros k v (v0 & Hk & Hv)%canonical_entries_elem Hf. cbn [fst snd] in *. pose proof (Hs k v0 Hk Hf) as ->. split; [done|].
    pose proof (map_get_elem _ _ _ Hnd Hk) as Hget. rewrite (map_get_elem _ _ _ Hnd Hin) in Hget. injection Hget as <-. exact Hv.
Qed.

(** ** Built payloads *)

Lemma ToLower_ToUpper s : ToLower (ToUpper s) = ToLower s.
Proof.
  unfold ToLower, ToUpper. rewrite string_map_comp. apply string_map_ext. intros c.
  by destruct c as [[] [] [] [] [] [] [] []].
Qed.

Lemma canonicalType_idem v : canonicalQueueCapabilityType (canonicalQueueCapabilityType v) = canonicalQueueCapabilityType v.
Proof.
  unfold canonicalQueueCapabilityType. destruct (TrimSpace v =? "")%string eqn:E1; [done|].
  destruct (ToLower (TrimSpace v) =? "consumer_groups")%string eqn:E2; [done|].
  destruct (ToLower (TrimSpace v) =? "large_messages")%string eqn:E3; [done|].
  rewrite TrimSpace_ToUpper, TrimSpace_idem.
  replace (ToUpper (TrimSpace v) =? "")%string with false by (by destruct (TrimSpace v)).
  rewrite ToLower_ToUpper, E2, E3. apply ToUpper_idem.
Qed.

(** The type of a capability is canonical and not empty. *)
Lemma type_from_spec_canonical spec t : queueCapabilityTypeFromSpec spec = Ok t -> canonicalQueueCapabilityType t = t /\ t <> "".
Proof.
  unfold queueCapabilityTypeFromSpec. destruct (TrimSpace (JsonData spec) =? "")%string.
  - destruct (canonicalQueueCapabilityType (cap_Type spec) =? "")%string eqn:E; [done|]. intros [= <-]. bool_prop.
    split; [apply canonicalType_idem|done].
  - destruct (queueCapabilityTypeFromJSON _) as [raw|] eqn:Er; [|done]. cbn [wrap_result result_bind].
    assert (Hraw : canonicalQueueCapabilityType raw = raw).
    { revert Er. unfold queueCapabilityTypeFromJSON. destruct (unmarshal_into _ _); [|done]. intros [= <-]. apply canonicalType_idem. }
    destruct (canonicalQueueCapabilityType (cap_Type spec) =? "")%string eqn:E.
    + destruct (raw =? "")%string eqn:E2; [done|]. intros [= <-]. by bool_prop.
    + case_goal; [done|]. intros [= <-]. bool_prop. split; [apply canonicalType_idem|done].
Qed.

Lemma built_type spec payload t : buildQueueCapability spec = Ok (payload, t) -> queueCapabilityTypeFromSpec spec = Ok t.
Proof.
  unfold buildQueueCapability. destruct (queueCapabilityTypeFromSpec spec) as [ct|] eqn:Et; [|done]. cbn [result_bind].
  apply type_from_spec_canonical in Et as [_ Hne]. apply String.eqb_neq in Hne.
  destruct (negb _); [|by intros [= _ <-]]. unfold queueCapabilityFromJSON.
  destruct (unmarshal_payload _); [|done]. destruct (queueCapabilityTypeFromJSON _); [|done]. cbn [wrap_result result_bind].
  cbn zeta. rewrite Hne. cbv iota. rewrite Hne. case_goal; [done|]. intros ?. by simplify_eq.
Qed.

Lemma built_payload spec payload t :
  buildQueueCapability spec = Ok (payload, t) -> NoDup (keys payload) /\ ("type", JStr t) ∈ payload.
Proof.
  unfold buildQueueCapability. destruct (queueCapabilityTypeFromSpec spec) as [ct|]; [|done]. cbn [result_bind]. destruct (negb _).
  - unfold queueCapabilityFromJSON. destruct (unmarshal_payload _) as [p|] eqn:Ep; [|done].
    destruct (queueCapabilityTypeFromJSON _) as [raw|]; [|done]. cbn [wrap_result result_bind].
    assert (Hp : NoDup (keys p)).
    { revert Ep. unfold unmarshal_payload. destruct (json_parse _) as [[]|]; try done; intros [= <-]; [constructor|].
      apply fold_map_set_nodup. constructor. }
    repeat case_goal; try done; intros [= <- <-]; (split; [by apply map_set_nodup|apply map_set_here]).
  - intros [= <- <-]. unfold queueCapabilityFromTypedFields.
    assert (Hstep : forall (b : bool) k (v : Json) p, k <> "type" -> NoDup (keys p) /\ ("type", JStr ct) ∈ p ->
      NoDup (keys (if b then map_set k v p else p)) /\ ("type", JStr ct) ∈ (if b then map_set k v p else p)).
    { intros [] k v p Hk [Hn Hi]; [|done]. split; [by apply map_set_nodup|by apply map_set_other]. }
    destruct (negb _); [split; [apply NoDup_singleton|apply list_elem_of_here]|]. cbn zeta.
    do 4 (apply Hstep; [done|]). split; [apply NoDup_singleton|apply list_elem_of_here].
Qed.

(** What a capability whose text is that of a payload is built to. *)
Lemma rebuilt payload t c :
  canonicalQueueCapabilityType t = t -> t <> "" -> single_type_key payload -> NoDup (keys payload) -> ("type", JStr t) ∈ payload ->
  JsonData c = json_print (JObj payload) -> cap_Type c = t ->
  buildQueueCapability c = Ok (canonical_entries payload, t).
Proof.
  intros Hcan Hne Hs Hnd Hin Hd Ht. apply String.eqb_neq in Hne.
  assert (Hprint : (json_print (JObj payload) =? "")%string = false) by apply String.eqb_neq, print_not_empty.
  pose proof (type_read_back _ _ Hs Hnd Hin) as Hread. rewrite Hcan in Hread.
  unfold buildQueueCapability, queueCapabilityTypeFromSpec. rewrite Hd, Ht, print_trimmed, Hprint, Hread. cbn [wrap_result result_bind].
  rewrite Hcan, Hne, String.eqb_refl, andb_false_r. cbn [result_bind negb]. unfold queueCapabilityFromJSON, unmarshal_payload.
  rewrite parse_print, Hread. cbn [canonical wrap_result result_bind]. rewrite Hne, String.eqb_refl, andb_false_r.
  fold (canonical_entries payload). pose proof (canonical_entries_nodup _ Hnd) as Hnd'.
  rewrite (fold_map_set (canonical_entries payload) []) by done. cbn [app].
  rewrite Hne, map_set_same; [done|]. apply map_get_elem; [done|]. apply canonical_entries_elem. by exists (JStr t).
Qed.

Lemma marshal_object m : marshal_capability (json_to_value (JObj m)) = Ok (json_print (JObj m)).
Proof. unfold marshal_capability. by rewrite to_json_json_to_value. Qed.

(** A remembered capability says the same as the spec it was taken from: encoding it again gives the payload and the type of
    the spec. *)
Lemma snapshot_same_text spec snapshot payload t :
  buildQueueCapability spec = Ok (payload, t) -> single_type_key payload ->
  queueControllerOwnedStatusCapability spec = Ok (snapshot, t) ->
  queueCapabilityCanonicalPayloadJSON spec = Ok (JsonData snapshot, t) /\
  queueCapabilityCanonicalPayloadJSON snapshot = Ok (JsonData snapshot, t).
Proof.
  intros Hb Hs. unfold queueControllerOwnedStatusCapability, queueCapabilityCanonicalPayloadJSON. rewrite Hb. cbn [result_bind].
  rewrite marshal_object. cbn [result_bind]. destruct (unmarshal_into _ _) as [v|]; [|done]. cbn [wrap_result result_bind].
  intros [= <-]. cbn [JsonData set_JsonData]. split; [done|].
  destruct (built_payload _ _ _ Hb) as [Hnd Hin]. destruct (type_from_spec_canonical _ _ (built_type _ _ _ Hb)) as [Hcan Hne].
  erewrite rebuilt; [|done..]. cbn [result_bind]. rewrite marshal_object. cbn [result_bind].
  change (JObj (canonical_entries payload)) with (canonical (JObj payload)). by rewrite print_canonical.
Qed.


(** ** The comparison *)

(** A capability that can be encoded and whose details the service reports. *)
Definition reported (c : QueueCapability) : Prop :=
  exists payload t, buildQueueCapability c = Ok (payload, t) /\ queueCapabilityRequiresControllerOwnedParity t = false.

Lemma canonical_payload c payload t :
  buildQueueCapability c = Ok (payload, t) -> queueCapabilityCanonicalPayloadJSON c = Ok (json_print (JObj payload), t).
Proof. intros Hb. unfold queueCapabilityCanonicalPayloadJSON. rewrite Hb. cbn [result_bind]. by rewrite marshal_object. Qed.

Lemma snapshots_reported prefix allowed l : forall index snapshots,
  Forall reported l -> parity_snapshots prefix allowed index snapshots l = Ok snapshots.
Proof.
  induction l as [|c l IH]; intros index snapshots Hl; [done|]. apply Forall_cons in Hl as [(p & t & Hb & Ht) Hl].
  cbn [parity_snapshots]. rewrite (canonical_payload _ _ _ Hb). cbn [wrap_result result_bind]. rewrite Ht. cbn [negb orb]. by apply IH.
Qed.

Lemma snapshots_one prefix allowed l1 c l2 text : forall index snapshots,
  Forall reported l1 -> Forall reported l2 -> queueCapabilityCanonicalPayloadJSON c = Ok (text, ConsumerGroups) ->
  allowed ConsumerGroups = true -> snapshots !! ConsumerGroups = None ->
  parity_snapshots prefix allowed index snapshots (l1 ++ c :: l2) = Ok (<[ConsumerGroups := text]> snapshots).
Proof.
  induction l1 as [|c1 l1 IH]; intros index snapshots Hl1 Hl2 Hc Ha Hn; cbn [app parity_snapshots].
  - rewrite Hc. cbn [wrap_result result_bind]. rewrite Ha, Hn. cbn. by apply snapshots_reported.
  - apply Forall_cons in Hl1 as [(p & t & Hb & Ht) Hl1]. rewrite (canonical_payload _ _ _ Hb). cbn [wrap_result result_bind].
    rewrite Ht. cbn [negb orb]. by apply IH.
Qed.

Lemma owned_type c payload t snapshot t' :
  buildQueueCapability c = Ok (payload, t) -> queueControllerOwnedStatusCapability c = Ok (snapshot, t') -> t' = t.
Proof.
  intros Hb. unfold queueControllerOwnedStatusCapability. rewrite (canonical_payload _ _ _ Hb). cbn [result_bind].
  destruct (unmarshal_into _ _); [|done]. cbn [wrap_result result_bind]. by intros [= _ <-].
Qed.

Lemma owned_reported l : forall index owned owned',
  Forall reported l -> controller_owned index owned l = Ok owned' -> owned' = owned.
Proof.
  induction l as [|c l IH]; intros index owned owned' Hl; [by intros [= <-]|]. apply Forall_cons in Hl as [(p & t & Hb & Ht) Hl].
  cbn [controller_owned]. destruct (queueControllerOwnedStatusCapability c) as [[snapshot t']|] eqn:E; [|done].
  rewrite (owned_type _ _ _ _ _ Hb E). cbn [wrap_result result_bind]. rewrite Ht. cbn [negb]. by apply IH.
Qed.

Lemma owned_one l1 c l2 payload : forall index owned owned',
  Forall reported l1 -> Forall reported l2 -> buildQueueCapability c = Ok (payload, ConsumerGroups) ->
  controller_owned index owned (l1 ++ c :: l2) = Ok owned' ->
  exists snapshot, queueControllerOwnedStatusCapability c = Ok (snapshot, ConsumerGroups) /\ owned' = <[ConsumerGroups := snapshot]> owned.
Proof.
  induction l1 as [|c1 l1 IH]; intros index owned owned' Hl1 Hl2 Hb; cbn [app controller_owned].
  - destruct (queueControllerOwnedStatusCapability c) as [[snapshot t']|] eqn:E; [|done].
    rewrite (owned_type _ _ _ _ _ Hb E). cbn [wrap_result result_bind].
    change (queueCapabilityRequiresControllerOwnedParity ConsumerGroups) with true. cbn [negb].
    destruct (owned !! ConsumerGroups); [done|]. intros Hrest%owned_reported; [|done]. by exists snapshot.
  - apply Forall_cons in Hl1 as [(p & t & Hb1 & Ht) Hl1].
    destruct (queueControllerOwnedStatusCapability c1) as [[snapshot t']|] eqn:E; [|done].
    rewrite (owned_type _ _ _ _ _ Hb1 E). cbn [wrap_result result_bind]. rewrite Ht. cbn [negb]. by apply IH.
Qed.

Lemma remember_reported snapshot l : forall index r,
  Forall reported l -> remember_capabilities index {[ConsumerGroups := snapshot]} l = Ok r -> r = l.
Proof.
  induction l as [|c l IH]; intros index r Hl; [by intros [= <-]|]. apply Forall_cons in Hl as [(p & t & Hb & Ht) Hl].
  cbn [remember_capabilities]. rewrite (built_type _ _ _ Hb). cbn [wrap_result result_bind].
  destruct (remember_capabilities _ _ l) as [r'|] eqn:E; [|done]. cbn [result_bind]. rewrite lookup_singleton_ne; [|by intros <-].
  apply IH in E as ->; [|done]. by intros [= <-].
Qed.

Lemma remember_one snapshot l1 c l2 : forall index r,
  Forall reported l1 -> Forall reported l2 -> queueCapabilityTypeFromSpec c = Ok ConsumerGroups ->
  remember_capabilities index {[ConsumerGroups := snapshot]} (l1 ++ c :: l2) = Ok r -> r = l1 ++ snapshot :: l2.
Proof.
  induction l1 as [|c1 l1 IH]; intros index r Hl1 Hl2 Hc; cbn [app remember_capabilities].
  - rewrite Hc. cbn [wrap_result result_bind]. destruct (remember_capabilities _ _ l2) as [r'|] eqn:E; [|done]. cbn [result_bind].
    apply remember_reported in E as ->; [|done]. rewrite lookup_singleton_eq. by intros [= <-].
  - apply Forall_cons in Hl1 as [(p & t & Hb & Ht) Hl1]. rewrite (built_type _ _ _ Hb). cbn [wrap_result result_bind].
    destruct (remember_capabilities _ _ (l1 ++ c :: l2)) as [r'|] eqn:E; [|done]. cbn [result_bind].
    rewrite lookup_singleton_ne; [|by intros <-]. apply IH in E as ->; [|done..]. by intros [= <-].
Qed.

(** C33. Consumer-group capabilities settle: once the overlay has remembered the spec's CONSUMER_GROUPS capability in the place of
    the projected one, and the queue has the capability types of the spec, the update hook finds nothing to change,
    although the service never reports the details of the capability. *)
Theorem queue_capabilities_settle (sp1 sp2 pr1 pr2 remembered : list QueueCapability) (spec projected : QueueCapability)
  (payload : GoMap Json) (current : list GoValue) (types : list string) :
  buildQueueCapability spec = Ok (payload, ConsumerGroups) -> single_type_key payload ->
  Forall reported (sp1 ++ sp2) -> Forall reported (pr1 ++ pr2) ->
  queueCapabilityTypeFromSpec projected = Ok ConsumerGroups ->
  queueStatusCapabilitiesWithControllerOwnedParity (sp1 ++ spec :: sp2) (pr1 ++ projected :: pr2) = Ok remembered ->
  queueCapabilityTypeSetFromSpec (sp1 ++ spec :: sp2) = Ok types -> queueCapabilityTypeSetFromSDK current = Ok types ->
  containsString types ConsumerGroups = true ->
  desiredQueueCapabilitiesForUpdate (sp1 ++ spec :: sp2) current remembered = Ok (None, false).
Proof.
  rewrite !Forall_app. intros Hb Hs [Hsp1 Hsp2] [Hpr1 Hpr2] Hproj Hrem Hspec Hsdk Hcg.
  unfold queueStatusCapabilitiesWithControllerOwnedParity in Hrem.
  assert (Hne : forall A (l : list A) x k, exists y r, l ++ x :: k = y :: r) by (intros A [|y l] x k; cbn [app]; eauto).
  destruct (Hne _ pr1 projected pr2) as (y & r & Hyr). rewrite Hyr in Hrem.
  destruct (controller_owned 0 ∅ _) as [owned|] eqn:Eo; [|done]. cbn [result_bind] in Hrem.
  destruct (owned_one _ _ _ _ _ _ _ Hsp1 Hsp2 Hb Eo) as (snapshot & Hsnap & ->). rewrite insert_empty in Hrem.
  rewrite decide_False in Hrem by apply map_non_empty_singleton. rewrite <-Hyr in Hrem.
  apply remember_one in Hrem as ->; [|done..].
  assert (Hcp : queueCapabilityCanonicalPayloadJSON spec = Ok (JsonData snapshot, ConsumerGroups) /\
                queueCapabilityCanonicalPayloadJSON snapshot = Ok (JsonData snapshot, ConsumerGroups)).
  { by eapply snapshot_same_text. }
  destruct Hcp as [Hc1 Hc2]. unfold desiredQueueCapabilitiesForUpdate. rewrite Hspec, Hsdk. cbn [result_bind].
  rewrite decide_True by done. unfold queueControllerOwnedCapabilityParityFromSpec, queueControllerOwnedCapabilityParityFromStatus.
  rewrite (snapshots_one _ _ _ _ _ _ _ _ Hsp1 Hsp2 Hc1) by done. cbn [result_bind].
  destruct (Hne _ pr1 snapshot pr2) as (y2 & r2 & Hyr2). rewrite Hyr2. destruct types as [|t0 types]; [done|]. rewrite <-Hyr2.
  rewrite (snapshots_one _ _ _ _ _ _ _ _ Hpr1 Hpr2 Hc2) by done. cbn [result_bind]. by rewrite bool_decide_eq_true_2.
Qed.
End Parity.

(** ** A text format that obeys the laws *)

Lemma strip_fixed fuel m e : (m mod 10 <> 0)%Z -> strip_zeros fuel m e = mkDec m e.
Proof.
  intros Hm. destruct fuel as [|fuel]; [done|]. cbn [strip_zeros]. destruct (m =? 0)%Z eqn:E0; bool_prop; [by subst|].
  by destruct (m mod 10 =? 0)%Z eqn:E; bool_prop.
Qed.

Lemma strip_done fuel : forall m e, m <> 0%Z -> (Z.abs m < 2 ^ Z.of_nat fuel)%Z -> (dec_mant (strip_zeros fuel m e) mod 10 <> 0)%Z.
Proof.
  induction fuel as [|fuel IH]; intros m e Hm Hb; [change (2 ^ Z.of_nat 0)%Z with 1%Z in Hb; lia|]. cbn [strip_zeros].
  apply Z.eqb_neq in Hm as Hm'. rewrite Hm'. destruct (m mod 10 =? 0)%Z eqn:E; bool_prop; [|done].
  apply Z.div_exact in E as Hd; [|done]. apply IH; [intros Hz; rewrite Hz in Hd; lia|].
  rewrite Nat2Z.inj_succ, Z.pow_succ_r in Hb by lia. lia.
Qed.

Lemma dec_norm_idem d : dec_norm (dec_norm d) = dec_norm d.
Proof.
  unfold dec_norm at 2 3. destruct d as [m e]. cbn [dec_mant dec_exp]. destruct (decide (m = 0%Z)) as [->|Hm]; [reflexivity|].
  set (fuel := Z.to_nat (Z.log2 (Z.abs m) + 1)).
  assert (Hb : (Z.abs m < 2 ^ Z.of_nat fuel)%Z).
  { unfold fuel. pose proof (Z.log2_nonneg (Z.abs m)). rewrite Z2Nat.id by lia. apply Z.log2_spec. lia. }
  pose proof (strip_done fuel m e Hm Hb) as Hn. unfold dec_norm. rewrite strip_fixed by done. by destruct (strip_zeros fuel m e).
Qed.

Definition key_le {A} (a b : string * A) : Prop := String.leb (fst a) (fst b) = true.

Lemma insert_key_sorted {A} (kv : string * A) m : Sorted key_le m -> Sorted key_le (insert_key kv m).
Proof.
  intros Hm. induction Hm as [|x m Hm IH Hx]; [by repeat constructor|]. cbn [insert_key].
  destruct (String.leb (fst kv) (fst x)) eqn:E; [by repeat constructor|]. apply leb_false_flip in E.
  constructor; [done|]. destruct Hx as [|y m Hy]; cbn [insert_key]; [by constructor|]. case_goal; by constructor.
Qed.
Lemma sort_keys_sorted {A} (m : GoMap A) : Sorted key_le (sort_keys m).
Proof. induction m; [constructor|]. by apply insert_key_sorted. Qed.
Lemma sort_keys_id {A} (m : GoMap A) : Sorted key_le m -> sort_keys m = m.
Proof.
  intros Hm. induction Hm as [|x m Hm IH Hx]; [done|]. cbn [sort_keys]. rewrite IH. destruct Hx as [|y m Hy]; [done|].
  cbn [insert_key]. unfold key_le in Hy. by rewrite Hy.
Qed.
Lemma sort_keys_map {A B} (f : A -> B) (m : GoMap A) :
  sort_keys (map (fun kv => (fst kv, f (snd kv))) m) = map (fun kv => (fst kv, f (snd kv))) (sort_keys m).
Proof.
  induction m as [|kv m IH]; [done|]. cbn [map sort_keys]. rewrite IH. clear IH. induction (sort_keys m) as [|x l IHl]; [done|].
  cbn [map insert_key fst snd] in *. case_goal; [done|]. cbn [map]. by rewrite IHl.
Qed.

Lemma canonical_idem j : canonical (canonical j) = canonical j.
Proof.
  induction j as [| | | |l IH|m IH] using Json_ind'; try done; cbn [canonical].
  - by rewrite dec_norm_idem.
  - f_equal. rewrite map_map. induction IH as [|x l Hx _ IHl]; [done|]. cbn [map]. by rewrite Hx, IHl.
  - f_equal. rewrite !sort_keys_map. rewrite (sort_keys_id (sort_keys m)) by apply sort_keys_sorted.
    rewrite map_map. cbn [fst snd]. apply map_ext_in. intros [k v] Hin. cbn [fst snd]. f_equal.
    apply list_elem_of_In in Hin. rewrite (sort_keys_permutation m) in Hin. rewrite Forall_forall in IH. exact (IH (k, v) Hin).
Qed.

Definition leaf : Type := option (bool + (Z * Z) + string).
Fixpoint json_tree (j : Json) : gen_tree leaf :=
  match j with
  | JNull => GenLeaf None
  | JBool b => GenLeaf (Some (inl (inl b)))
  | JNum n => GenLeaf (Some (inl (inr (dec_mant n, dec_exp n))))
  | JStr s => GenLeaf (Some (inr s))
  | JArr l => GenNode 0 (map json_tree l)
  | JObj m => GenNode 1 (map (fun kv => GenNode 2 [GenLeaf (Some (inr (fst kv))); json_tree (snd kv)]) m)
  end.
Fixpoint tree_json (t : gen_tree leaf) : Json :=
  match t with
  | GenLeaf None => JNull
  | GenLeaf (Some (inl (inl b))) => JBool b
  | GenLeaf (Some (inl (inr (m, e)))) => JNum (mkDec m e)
  | GenLeaf (Some (inr s)) => JStr s
  | GenNode O l => JArr (map tree_json l)
  | GenNode _ l => JObj (map (fun t => match t with GenNode _ [GenLeaf (Some (inr k)); v] => (k, tree_json v) | _ => ("", JNull) end) l)
  end.
Lemma tree_json_tree j : tree_json (json_tree j) = j.
Proof.
  induction j as [| |n| |l IH|m IH] using Json_ind'; try done; cbn [json_tree tree_json].
  - by destruct n.
  - f_equal. rewrite map_map. induction IH as [|x l Hx _ IHl]; [done|]. cbn [map]. by rewrite Hx, IHl.
  - f_equal. rewrite map_map. induction IH as [|[k x] m Hx _ IHm]; [done|]. cbn [map fst snd] in *. by rewrite Hx, IHm.
Qed.

Fixpoint pos_text (p : positive) : string :=
  match p with xH => "" | xO p => String "0" (pos_text p) | xI p => String "1" (pos_text p) end.
Fixpoint text_pos (s : string) : positive :=
  match s with EmptyString => xH | String c s => if Ascii.eqb c "0" then xO (text_pos s) else xI (text_pos s) end.
Lemma text_pos_text p : text_pos (pos_text p) = p.
Proof. induction p as [p IH|p IH|]; [..|done]; cbn [pos_text text_pos]; rewrite IH; reflexivity. Qed.
Lemma pos_text_trimmed p : trim_right (pos_text p) = pos_text p.
Proof. induction p as [p IH|p IH|]; [..|done]; cbn [pos_text trim_right]; rewrite IH; by destruct (pos_text p). Qed.

Definition codedText : JsonText := {|
  json_print := fun j => String "J" (pos_text (encode (json_tree (canonical j))));
  json_parse := fun s => match s with
                         | String _ s => match decode (text_pos s) with Some t => Ok (tree_json t) | None => Err s end
                         | EmptyString => Err s
                         end
|}.
Lemma codedText_laws : @JsonTextLaws codedText.
Proof.
  split; intros j; cbn [json_print json_parse codedText].
  - by rewrite text_pos_text, decode_encode, tree_json_tree.
  - by rewrite canonical_idem.
  - unfold TrimSpace. cbn [trim_left]. change (is_space "J") with false. cbn iota. cbn [trim_right]. rewrite pos_text_trimmed.
    by destruct (pos_text _).
  - done.
Defined.

Definition groups_spec : QueueCapability := mkCapability "" "consumer_groups" true "primary" "" 0%Z.
Definition large_spec : QueueCapability := mkCapability "" "LARGE_MESSAGES" false "" "" 0%Z.
Definition live_capabilities : list GoValue :=
  [json_to_value (JObj [("type", JStr "LARGE_MESSAGES")]); json_to_value (JObj [("type", JStr "CONSUMER_GROUPS")])].
Definition projected_groups : QueueCapability := mkCapability "" "CONSUMER_GROUPS" false "" "" 0%Z.

Lemma queue_capabilities_settle_witness :
  exists remembered,
    @queueStatusCapabilitiesWithControllerOwnedParity plainCodec codedText [groups_spec; large_spec] [large_spec; projected_groups] = Ok remembered /\
    @desiredQueueCapabilitiesForUpdate plainCodec codedText [groups_spec; large_spec] live_capabilities remembered = Ok (None, false).
Proof.
  eexists. split; [vm_compute; reflexivity|].
  apply (@queue_capabilities_settle plainCodec codedText codedText_laws [] [large_spec] [large_spec] [] _ groups_spec projected_groups
           [("type", JStr "CONSUMER_GROUPS"); ("isPrimaryConsumerGroupEnabled", JBool true); ("primaryConsumerGroupDisplayName", JStr "primary")]
           live_capabilities ["CONSUMER_GROUPS"; "LARGE_MESSAGES"]).
  - vm_compute. reflexivity.
  - intros k v Hin Hf. rewrite !elem_of_cons, elem_of_nil in Hin. destruct Hin as [[= -> _]|[[= -> _]|[[= -> _]|[]]]]; [reflexivity|discriminate Hf..].
  - constructor; [|constructor]. do 2 eexists. split; vm_compute; reflexivity.
  - constructor; [|constructor]. do 2 eexists. split; vm_compute; reflexivity.
  - vm_compute. reflexivity.
  - vm_compute. reflexivity.
  - vm_compute. reflexivity.
  - vm_compute. reflexivity.
  - vm_compute. reflexivity.
Defined.
