(* ===== verification/NetworkClients.v ===== *)
(** * Clients of the core networking resources: what they share

    The packages [pkg/servicemanager/core/{vcn,subnet,routetable,securitylist,internetgateway,
    natgateway,servicegateway,networksecuritygroup}] wrap the generated client of their
    resource.  Each has its own copy of the same helpers: comparisons of pointers with spec
    fields, sorted comparisons of collections, tag maps, error tests, the condition written
    for a lifecycle state, and the read of the tracked resource before anything else happens.
    They are modelled here once, over the kind of resource; the file of a kind holds what is
    specific to it.  A pointer is an option, a nil map is [None], an SDK time stands for the
    text that [Format] gives, and an enum of the SDK for its text. *)

From stdpp Require Import gmap sorting strings.
From Stdlib Require Import Ascii.
From S2P Require Import Prelude GoStrings Sorting Shared GoErrors GoValue AsyncStatus Reconciler JsonValues ServiceClients ResourceTags.
Local Open Scope string_scope.
Local Open Scope list_scope.
Local Open Scope go_scope.

(** ** Comparisons *)

Lemma ToUpper_empty s : ToUpper s = "" -> s = "".
Proof. by destruct s. Qed.


Definition stringValue (value : option string) : string := default "" value.
Definition boolValue (value : option bool) : bool := default false value.

Definition stringPtrEqual (actual : option string) (expected : string) : bool :=
  match actual with None => (TrimSpace expected =? "")%string | Some a => (a =? expected)%string end.
Definition stringCreateOnlyMatches (actual : option string) (expected : string) : bool :=
  (TrimSpace (stringValue actual) =? TrimSpace expected)%string.
Definition boolPtrEqual (actual : option bool) (expected : bool) : bool :=
  match actual with None => negb expected | Some a => Bool.eqb a expected end.
Definition boolCreateOnlyMatches (actual : option bool) (expected : bool) : bool := Bool.eqb (boolValue actual) expected.

(** The loop keeps the trimmed values that are not empty; the result is never nil. *)
Definition normalizeStringSlice (values : list string) : list string :=
  sort_by id (filter (fun s => s <> "") (TrimSpace <$> values)).
Definition normalizedStringSlicesEqual (left right : list string) : bool :=
  bool_decide (normalizeStringSlice left = normalizeStringSlice right).

Lemma id_sort_eq (l k : list string) : sort_by id l = sort_by id k <-> l ≡ₚ k.
Proof. apply sort_by_eq. done. Qed.

Lemma trimmed_perm values : normalizeStringSlice values ≡ₚ filter (fun s => s <> "") (TrimSpace <$> values).
Proof. apply sort_by_perm. Qed.

Lemma normalizeStringSlice_idem values : normalizeStringSlice (normalizeStringSlice values) = normalizeStringSlice values.
Proof.
  unfold normalizeStringSlice at 1 3. apply id_sort_eq. rewrite (trimmed_perm values).
  rewrite <- (list_filter_all (fun s => s <> "") (filter _ (TrimSpace <$> values))) at 2.
  - f_equiv. induction values as [|v l IH]; [done|]. rewrite fmap_cons, filter_cons. case_decide; [|done].
    rewrite fmap_cons, TrimSpace_idem. by f_equiv.
  - apply Forall_forall. by intros x [Hx _]%list_elem_of_filter.
Qed.

(** The comparison ignores the order, surrounding blanks and blank entries. *)
Lemma slices_equal_iff left right :
  normalizedStringSlicesEqual left right = true <->
  filter (fun s => s <> "") (TrimSpace <$> left) ≡ₚ filter (fun s => s <> "") (TrimSpace <$> right).
Proof. unfold normalizedStringSlicesEqual. rewrite bool_decide_eq_true. apply id_sort_eq. Qed.

Lemma slices_equal_refl l : normalizedStringSlicesEqual l l = true.
Proof. by apply bool_decide_eq_true. Qed.

Lemma slices_equal_perm l k desired : l ≡ₚ k -> normalizedStringSlicesEqual l desired = normalizedStringSlicesEqual k desired.
Proof. intros Hp. apply eq_true_iff_eq. rewrite !slices_equal_iff. by rewrite Hp. Qed.

Lemma slices_equal_normalized current l :
  normalizedStringSlicesEqual current (normalizeStringSlice l) = normalizedStringSlicesEqual current l.
Proof. unfold normalizedStringSlicesEqual. by rewrite normalizeStringSlice_idem. Qed.

(** ** Tags *)

(** [make] and a copying loop: an empty map stays an empty map. *)
Definition cloneStringMap (input : option Tags) : option Tags := input.

Definition convertOCIToStatusDefinedTags (input : option SdkTags) : option MapValues :=
  (fun namespaces : SdkTags => (fun values : option (gmap string Json) => sprint <$> default ∅ values) <$> namespaces) <$> input.

Definition desiredFreeformTagsForUpdate (spec current : option Tags) : option Tags :=
  match spec with
  | Some _ => cloneStringMap spec
  | None => match current with Some _ => Some ∅ | None => None end
  end.
Definition desiredDefinedTagsForUpdate (spec : option MapValues) (current : option SdkTags) : option SdkTags :=
  match spec with
  | Some tags => Some (ConvertToOciDefinedTags tags)
  | None => match current with Some _ => Some ∅ | None => None end
  end.

(** ** Errors ([normalizeOCIError] is the one of [GoErrors]) *)

Definition isReadNotFoundOCI (err : GoError) : outcome bool :=
  let? classification := ClassifyDeleteError (Some err) in Ret (IsUnambiguousNotFound classification).
Definition isDeleteNotFoundOCI (err : GoError) : outcome bool :=
  let? classification := ClassifyDeleteError (Some err) in
  Ret (IsUnambiguousNotFound classification || IsAuthShapedNotFound classification).

(** The collected names of drifted create-only fields and the error made of them. *)
Definition drifted (checks : list (bool * string)) : list string :=
  snd <$> filter (fun check => fst check = false) checks.
Definition create_only_drift (kindName : string) (checks : list (bool * string)) : option GoError :=
  match drifted checks with
  | [] => None
  | unsupported => Some (ErrText (kindName +++ " create-only field drift is not supported: " +++ Join unsupported ", "))
  end.

(** An update field: sent when the comparison failed. *)
Definition update_field {A} (equal : bool) (desired : A) : option A := if equal then None else Some desired.

(** A stored update field compares equal afterwards. *)
Lemma update_field_settled {A} (equal : option A -> bool) (desired : A) current next :
  equal (Some desired) = true -> stored (update_field (equal current) desired) current next -> equal next = true.
Proof. intros Hd. destruct (equal current) eqn:E; cbn; by intros ->. Qed.

Lemma stored_value {A} (desired : A) current next `{Decision (current = Some desired)} :
  stored (update_field (bool_decide (current = Some desired)) desired) current next -> next = Some desired.
Proof. case_bool_decide; cbn; by intros ->. Qed.

Lemma string_settled current desired next :
  stored_string (update_field (stringPtrEqual current desired) desired) current next -> stringPtrEqual next desired = true.
Proof.
  destruct (stringPtrEqual current desired) eqn:E; cbn; [by intros ->|]. intros [->|[-> ->]]; [apply String.eqb_refl|done].
Qed.

Lemma bool_settled current desired next :
  stored (update_field (boolPtrEqual current desired) desired) current next -> boolPtrEqual next desired = true.
Proof. apply (update_field_settled (fun c => boolPtrEqual c desired)). by destruct desired. Qed.

(** A text that is compared only when the spec gives one, and a map that is compared only when it is not nil. *)
Definition text_update (current : option string) (desired : string) : option string :=
  update_field ((desired =? "")%string || stringPtrEqual current desired) desired.
Definition map_update {A} `{EqDecision A} (current desired : option A) : option A :=
  match desired with
  | None => None
  | Some tags => update_field (bool_decide (current = Some tags)) tags
  end.

Lemma text_settled current desired next : stored (text_update current desired) current next -> text_update next desired = None.
Proof.
  intros Hs. unfold text_update in *.
  apply (update_field_settled (fun c => (desired =? "")%string || stringPtrEqual c desired)) in Hs; [by rewrite Hs|].
  cbn. by rewrite String.eqb_refl, orb_true_r.
Qed.

Lemma map_settled {A} `{EqDecision A} (current desired next : option A) :
  stored (map_update current desired) current next -> map_update next desired = None.
Proof.
  unfold map_update. destruct desired as [m|]; [|done]. intros Hs. by rewrite bool_decide_eq_true_2 by exact (stored_value _ _ _ Hs).
Qed.

(** A tag field: the desired map is nil only when the current one is, so that maps that differ are always sent. *)
Definition tags_update {A} `{EqDecision A} (current desired : option A) : option A :=
  if bool_decide (current = desired) then None else desired.

Lemma freeform_tags_settled spec current next :
  stored (tags_update current (desiredFreeformTagsForUpdate spec current)) current next ->
  tags_update next (desiredFreeformTagsForUpdate spec next) = None.
Proof.
  unfold tags_update, desiredFreeformTagsForUpdate, cloneStringMap. destruct spec as [m|], current as [c|]; case_bool_decide as Hc; cbn;
    intros ->; rewrite ?Hc; by rewrite bool_decide_eq_true_2.
Qed.

Lemma defined_tags_settled spec current next :
  stored (tags_update current (desiredDefinedTagsForUpdate spec current)) current next ->
  tags_update next (desiredDefinedTagsForUpdate spec next) = None.
Proof.
  unfold tags_update, desiredDefinedTagsForUpdate. destruct spec as [m|], current as [c|]; case_bool_decide as Hc; cbn;
    intros ->; rewrite ?Hc; by rewrite bool_decide_eq_true_2.
Qed.

(** The identifier an update is addressed to. *)
Definition exposed_id (kindName : string) (id : option string) : result string GoError :=
  match id with
  | Some i => if (TrimSpace i =? "")%string then Err (ErrText ("current " +++ kindName +++ " does not expose an OCI identifier")) else Ok i
  | None => Err (ErrText ("current " +++ kindName +++ " does not expose an OCI identifier"))
  end.

Lemma exposed_id_Some kindName id i : exposed_id kindName id = Ok i -> id = Some i.
Proof. unfold exposed_id. destruct id; [|done]. case_match; by intros [= ->]. Qed.

(** ** Resources *)

(** A status struct embeds the block that the operator keeps for every resource. *)
Class StatusBlock (S : Type) := {
  OsokStatus : S -> OSOKStatus;
  set_OsokStatus : OSOKStatus -> S -> S;
  osok_set : forall s b, OsokStatus (set_OsokStatus b s) = b;
  set_osok : forall s, set_OsokStatus (OsokStatus s) s = s;
  set_set : forall s b b', set_OsokStatus b (set_OsokStatus b' s) = set_OsokStatus b s
}.

Record Resource (Sp St : Type) := mkResource { Spec : Sp; Status : St }.
Arguments mkResource {Sp St}.
Arguments Spec {Sp St}.
Arguments Status {Sp St}.

(** A client whose [CreateOrUpdate] also gets the flag of
    [generatedruntime.WithSkipExistingBeforeCreate], which travels in the context. *)
Record CtxClient (R W : Type) := mkCtxClient {
  cc_CreateOrUpdate : bool -> string -> ST (R * W) (OSOKResponse * option GoError);
  cc_Delete : ST (R * W) (bool * option GoError)
}.
Arguments mkCtxClient {R W}.
Arguments cc_CreateOrUpdate {R W}.
Arguments cc_Delete {R W}.

(** What the status functions read of a live resource. *)
Record Observed := mkObserved {
  ob_Id : option string;
  ob_DisplayName : option string;
  ob_LifecycleState : string
}.

(** A kind: its name, the condition its [switch] over lifecycle states chooses ([None] is the
    default case), and what a settled status drops. *)
Record NetworkKind := mkNetworkKind {
  nk_Name : string;
  nk_Condition : string -> option OSOKConditionType;
  nk_Settle : OSOKStatus -> OSOKStatus
}.

Definition lifecycleMessage (kind : NetworkKind) (current : Observed) : string :=
  let name := default "" (ob_DisplayName current) in
  let name := if (name =? "")%string then default name (ob_Id current) else name in
  let name := if (name =? "")%string then nk_Name kind else name in
  nk_Name kind +++ " " +++ name +++ " is " +++ ob_LifecycleState current.

Section Client.
Context {Sp St W : Type} `{StatusBlock St} (clock : ST W Time).
Notation R := (Resource Sp St).
Notation Answer := (OSOKResponse * option GoError)%type.

Definition with_osok (f : OSOKStatus -> OSOKStatus) (r : R) : R :=
  mkResource (Spec r) (set_OsokStatus (f (OsokStatus (Status r))) (Status r)).
Definition with_status (f : St -> St) (r : R) : R := mkResource (Spec r) (f (Status r)).

Definition fail (err : GoError) : ST (R * W) Answer :=
  let* now := on_world clock in
  let* condNow := on_world clock in
  on_resource (with_osok (fun status =>
    UpdateOSOKStatusCondition condNow (set_UpdatedAt (Some now) (set_Reason Failed (set_Message (ErrorString err) status)))
      Failed ConditionFalse "" (ErrorString err))) ;;;
  st_ret (unsuccessful, Some err).

(** The fields [applyLifecycle] sets before its [switch]. *)
Definition stamp_observed (kind : NetworkKind) (now : Time) (current : Observed) (status : OSOKStatus) : OSOKStatus :=
  let status :=
    match CreatedAt status, ob_Id current with
    | None, Some id => if (TrimSpace id =? "")%string then status else set_CreatedAt (Some now) status
    | _, _ => status
    end in
  let status := set_UpdatedAt (Some now) status in
  let status := match ob_Id current with Some id => set_Ocid id status | None => status end in
  set_Message (lifecycleMessage kind current) status.

Definition applyLifecycle (kind : NetworkKind) (current : Observed) : ST (R * W) Answer :=
  let* now := on_world clock in
  on_resource (with_osok (stamp_observed kind now current)) ;;;
  match nk_Condition kind (ob_LifecycleState current) with
  | None =>
      fail (ErrText (nk_Name kind +++ " lifecycle state " +++ Quote (ob_LifecycleState current) +++
                     " is not modeled for create or update"))
  | Some condition =>
      let settled := (condition =? Active)%string in
      let* condNow := on_world clock in
      on_resource (with_osok (fun status =>
        UpdateOSOKStatusCondition condNow (set_Reason condition (if settled then nk_Settle kind status else status))
          condition ConditionTrue "" (lifecycleMessage kind current))) ;;;
      st_ret (if settled then mkResponse true false 0%Z else mkResponse true true Minute, None)
  end.

Definition markDeleted (message : string) : ST (R * W) unit :=
  let* now := on_world clock in
  let* condNow := on_world clock in
  on_resource (with_osok (fun status =>
    UpdateOSOKStatusCondition condNow
      (set_Reason Terminating (set_Message message (set_UpdatedAt (Some now) (set_DeletedAt (Some now) status))))
      Terminating ConditionTrue "" message)).

Definition markTerminating (kind : NetworkKind) (current : Observed) : ST (R * W) unit :=
  let* now := on_world clock in
  let* condNow := on_world clock in
  on_resource (with_osok (fun status =>
    UpdateOSOKStatusCondition condNow
      (set_Reason Terminating (set_Message (lifecycleMessage kind current) (set_UpdatedAt (Some now) status)))
      Terminating ConditionTrue "" (lifecycleMessage kind current))).

(** The projected fields of [previous] with the block of the failed run. *)
Definition restoreStatus (previous : St) : R -> R :=
  fun r => mkResource (Spec r) (set_OsokStatus (OsokStatus (Status r)) previous).

(** ** The tracked resource *)

Inductive TrackedRead (Sdk : Type) :=
| Untracked
| Found (current : Sdk)
| Recreate
| Answered (answer : Answer).
Arguments Untracked {Sdk}.
Arguments Found {Sdk}.
Arguments Recreate {Sdk}.
Arguments Answered {Sdk}.

(** The first part of [CreateOrUpdate]: the tracked resource is read, and its identity is dropped
    when it is gone; [gone] are the states that count as gone. *)
Definition read_tracked {Sdk} (initErr : option GoError) (get : string -> ST W (result Sdk GoError))
  (clearTrackedIdentity : R -> R) (gone : Sdk -> bool) (trackedID : string) : ST (R * W) (TrackedRead Sdk) :=
  if (trackedID =? "")%string then st_ret Untracked
  else
    match initErr with
    | Some e => let* answer := fail e in st_ret (Answered answer)
    | None =>
        let* current := on_world (get trackedID) in
        match current with
        | Err err =>
            let* notFound := st_lift (isReadNotFoundOCI err) in
            if (notFound : bool) then on_resource clearTrackedIdentity ;;; st_ret Recreate
            else
              let* normalized := st_lift (normalizeOCIError err) in
              let* answer := fail normalized in st_ret (Answered answer)
        | Ok live => if gone live then on_resource clearTrackedIdentity ;;; st_ret Recreate else st_ret (Found live)
        end
    end.

(** The last part: the generated client runs, and a failure gives the projected fields back. *)
Definition delegated (delegate : CtxClient R W) (skip : bool) (namespace : string) (previous : St) : ST (R * W) Answer :=
  let* answer := cc_CreateOrUpdate delegate skip namespace in
  match snd answer with
  | Some _ => on_resource (restoreStatus previous) ;;; st_ret answer
  | None => st_ret answer
  end.

(** The projected fields of two statuses differ. *)
Definition projectedStatusChanged `{EqDecision St} (current baseline : St) : bool :=
  negb (bool_decide (set_OsokStatus emptyStatus current = set_OsokStatus emptyStatus baseline)).

(** The variant that keeps what the generated client observed before it failed. *)
Definition delegated_unless_changed `{EqDecision St} (delegate : CtxClient R W) (skip : bool) (namespace : string) (previous cleared : St)
  : ST (R * W) Answer :=
  let* answer := cc_CreateOrUpdate delegate skip namespace in
  let* resource := the_resource in
  match snd answer with
  | Some _ => if projectedStatusChanged (Status resource) cleared then st_ret answer else on_resource (restoreStatus previous) ;;; st_ret answer
  | None => st_ret answer
  end.

(** What a failed delete call or a failed confirmation means. *)
Definition delete_failed (err : GoError) (message : string) : ST (R * W) (bool * option GoError) :=
  let* notFound := st_lift (isDeleteNotFoundOCI err) in
  if (notFound : bool) then markDeleted message ;;; st_ret (true, None)
  else let* normalized := st_lift (normalizeOCIError err) in st_ret (false, Some normalized).
End Client.
Arguments Untracked {_ }.
Arguments Found {_ }.
Arguments Recreate {_ }.
Arguments Answered {_ }.

(** ** Running the shared steps *)

(** Reading the clock never fails. *)
Definition ticks {W} (clock : ST W Time) : Prop := forall w, exists t w', clock w = (Ret t, w').

Section Steps.
Context {Sp St W : Type} `{StatusBlock St} (clock : ST W Time).
Notation R := (Resource Sp St).

Lemma read_tracked_found {Sdk} (get : string -> ST W (result Sdk GoError)) (clear : R -> R) gone id r w live w1 :
  id <> "" -> get id w = (Ret (Ok live), w1) -> gone live = false ->
  read_tracked clock None get clear gone id (r, w) = (Ret (Found live), (r, w1)).
Proof.
  intros Hid Hget Hgone. unfold read_tracked. apply String.eqb_neq in Hid. rewrite Hid.
  unfold st_bind, on_world. by rewrite Hget, Hgone.
Qed.

(** A resource that counts as gone loses its identity. *)
Lemma read_tracked_gone {Sdk} (get : string -> ST W (result Sdk GoError)) (clear : R -> R) gone id r w live w1 :
  id <> "" -> get id w = (Ret (Ok live), w1) -> gone live = true ->
  read_tracked clock None get clear gone id (r, w) = (Ret Recreate, (clear r, w1)).
Proof.
  intros Hid Hget Hgone. unfold read_tracked. apply String.eqb_neq in Hid. rewrite Hid.
  unfold st_bind, on_world. by rewrite Hget, Hgone.
Qed.

(** Worlds that differ by readings of the clock. *)
Definition tick (w w' : W) : Prop := exists t, clock w = (Ret t, w').

(** The block of a resource whose lifecycle state is settled. *)
Definition active_block (kind : NetworkKind) (now condNow : Time) (current : Observed) (b : OSOKStatus) : OSOKStatus :=
  UpdateOSOKStatusCondition condNow (set_Reason Active (nk_Settle kind (stamp_observed kind now current b)))
    Active ConditionTrue "" (lifecycleMessage kind current).

(** A resource with an active condition answers success without a requeue, and nothing but the clock is read. *)
Lemma applyLifecycle_active kind current (r : R) w :
  ticks clock -> nk_Condition kind (ob_LifecycleState current) = Some Active ->
  exists r' w', applyLifecycle clock kind current (r, w) = (Ret (mkResponse true false 0%Z, None), (r', w')) /\
    rtc tick w w' /\ Spec r' = Spec r /\ Reason (OsokStatus (Status r')) = Active /\
    exists now condNow, Status r' = set_OsokStatus (active_block kind now condNow current (OsokStatus (Status r))) (Status r).
Proof.
  intros Hc Hk. unfold applyLifecycle, st_bind, on_world. destruct (Hc w) as (t & w1 & E1). rewrite E1. cbn. rewrite Hk.
  destruct (Hc w1) as (t' & w2 & E2). rewrite E2. cbn. eexists _, _. split; [done|].
  split; [eapply rtc_l; [by eexists|eapply rtc_once; by eexists]|]. split; [done|]. cbn.
  rewrite !osok_set, set_set. split; [by rewrite UpdateOSOKStatusCondition_spec|]. by exists t, t'.
Qed.

Lemma fail_run err (r : R) w :
  ticks clock -> exists r' w', fail clock err (r, w) = (Ret (unsuccessful, Some err), (r', w')) /\ rtc tick w w' /\
    Spec r' = Spec r /\ Reason (OsokStatus (Status r')) = Failed /\ exists b, Status r' = set_OsokStatus b (Status r).
Proof.
  intros Hc. unfold fail, st_bind, on_world. destruct (Hc w) as (t & w1 & E1). rewrite E1.
  destruct (Hc w1) as (t' & w2 & E2). rewrite E2. cbn. eexists _, _. split; [done|].
  split; [eapply rtc_l; [by eexists|eapply rtc_once; by eexists]|]. split; [done|]. cbn.
  rewrite !osok_set, UpdateOSOKStatusCondition_spec. eauto.
Qed.

Lemma fail_inv err (s : R * W) a s' : fail clock err s = (Ret a, s') -> a = (unsuccessful, Some err).
Proof.
  destruct s as [r w]. unfold fail, st_bind, on_world. destruct (clock w) as [[t|] w1]; [|done].
  destruct (clock w1) as [[t'|] w2]; [|done]. cbn. by intros [= <- _].
Qed.

(** A failed run of the generated client leaves the previous projected fields, or what it observed itself. *)
Lemma delegated_unless_changed_failed `{EqDecision St} delegate skip namespace previous cleared (s : R * W) response err r' w' :
  delegated_unless_changed delegate skip namespace previous cleared s = (Ret (response, Some err), (r', w')) ->
  Status r' = set_OsokStatus (OsokStatus (Status r')) previous \/ projectedStatusChanged (Status r') cleared = true.
Proof.
  unfold delegated_unless_changed, st_bind at 1. destruct (cc_CreateOrUpdate delegate skip namespace s) as [[[resp [e|]]|] [r1 w1]]; [..|done].
  - erewrite bind_step by reflexivity. cbn [snd]. destruct (projectedStatusChanged _ _) eqn:E; cbn.
    + intros [= _ _ <- _]. by right.
    + intros [= _ _ <- _]. left. cbn. by rewrite osok_set.
  - by erewrite bind_step by reflexivity.
Qed.

Lemma delegated_failed (delegate : CtxClient R W) skip namespace previous (s : R * W) response err r' w' :
  delegated delegate skip namespace previous s = (Ret (response, Some err), (r', w')) ->
  Status r' = set_OsokStatus (OsokStatus (Status r')) previous.
Proof.
  unfold delegated, st_bind at 1. destruct (cc_CreateOrUpdate delegate skip namespace s) as [[[resp [e|]]|] [r1 w1]]; [..|done|done].
  cbn. intros [= _ _ <- _]. cbn. by rewrite osok_set.
Qed.

(** An error of the read that is not a clear not-found ends the reconcile. *)
Lemma read_tracked_failed {Sdk} (get : string -> ST W (result Sdk GoError)) (clear : R -> R) gone id r w err normalized w1 :
  id <> "" -> get id w = (Ret (Err err), w1) -> isReadNotFoundOCI err = Ret false -> normalizeOCIError err = Ret normalized ->
  read_tracked clock None get clear gone id (r, w) = (let* answer := fail clock normalized in st_ret (Answered answer)) (r, w1).
Proof.
  intros Hid Hget Hnf Hn. unfold read_tracked. apply String.eqb_neq in Hid. rewrite Hid.
  unfold st_bind at 1, on_world at 1. rewrite Hget. unfold st_bind at 1, st_lift. rewrite Hnf. unfold st_bind at 1. by rewrite Hn.
Qed.

(** A failure is recorded in the block only, and the tracked identity stays. *)
Lemma fail_keeps err (r : R) w a r' w' :
  fail clock err (r, w) = (Ret a, (r', w')) ->
  exists b, r' = with_osok (fun _ => b) r /\ Ocid b = Ocid (OsokStatus (Status r)).
Proof.
  unfold fail, st_bind, on_world. destruct (clock w) as [[t|] w1]; [|done]. destruct (clock w1) as [[t'|] w2]; [|done]. cbn.
  intros [= _ <- _]. eexists. split; [reflexivity|]. by rewrite UpdateOSOKStatusCondition_spec.
Qed.

Lemma markDeleted_inv message (s : R * W) s' :
  markDeleted clock message s = (Ret tt, s') -> is_Some (DeletedAt (OsokStatus (Status (fst s')))).
Proof.
  destruct s as [r w]. unfold markDeleted, st_bind, on_world. destruct (clock w) as [[t|] w1]; [|done].
  destruct (clock w1) as [[t'|] w2]; [|done]. cbn. intros [= <-]. cbn. rewrite osok_set, UpdateOSOKStatusCondition_spec. by eexists.
Qed.

(** A failed call counts as a finished delete only for a not-found answer. *)
Lemma delete_failed_inv err message (s : R * W) answer s' :
  delete_failed clock err message s = (Ret (true, answer), s') ->
  isDeleteNotFoundOCI err = Ret true /\ answer = None /\ is_Some (DeletedAt (OsokStatus (Status (fst s')))).
Proof.
  unfold delete_failed, st_bind at 1, st_lift. destruct (isDeleteNotFoundOCI err) as [[]|]; [|..|done].
  - unfold st_bind. destruct (markDeleted clock message s) as [[[]|] s1] eqn:E; [|done].
    intros [= <- <-]. by apply markDeleted_inv in E.
  - unfold st_bind. by destruct (normalizeOCIError err).
Qed.

(** An answer of a failed call that the reconciler takes for a finished delete rests on a not-found answer to the call: the
    normalised error is no clear not-found when the error was none. *)
Lemma delete_failed_confirmed err message (s : R * W) d answer s' :
  delete_failed clock err message s = (Ret (d, answer), s') -> delete_confirmed (mkDeleteResult d 0%Z, answer) = true ->
  isDeleteNotFoundOCI err = Ret true.
Proof.
  destruct d; [by intros (He & _)%delete_failed_inv|]. unfold delete_failed, st_bind at 1, st_lift at 1.
  unfold isDeleteNotFoundOCI at 1. destruct (ClassifyDeleteError (Some err)) as [c|] eqn:Ec; [|done]. cbn [outcome_bind].
  destruct (_ || _) eqn:Enf.
  - intros _ _. unfold isDeleteNotFoundOCI. rewrite Ec. cbn. by rewrite Enf.
  - unfold st_bind, st_lift. destruct (normalizeOCIError err) as [n|] eqn:En; [|done]. intros [= <- _].
    unfold delete_confirmed. cbn [snd]. destruct (ClassifyDeleteError (Some n)) as [c'|] eqn:Ec'; [|done].
    rewrite (normalized_not_found _ _ _ _ Ec En Ec'). bool_prop. intuition congruence.
Qed.
End Steps.

(** ** What a client does before anything else *)

(** A read of the tracked resource that failed, other than with a clear not-found answer, is all that a reconcile does: the
    generated client is not called, nothing is written, and the tracked identity stays. *)
Definition read_guarded {Sp St Sdk W} `{StatusBlock St} (clock : ST W Time) (trackedID : Resource Sp St -> string) (seed : Resource Sp St -> Resource Sp St)
  (run : (string -> ST W (result Sdk GoError)) -> CtxClient (Resource Sp St) W -> bool -> string ->
         ST (Resource Sp St * W) (OSOKResponse * option GoError)) : Prop :=
  forall get delegate skip namespace resource w err w1 normalized,
    trackedID resource <> "" -> get (trackedID resource) w = (Ret (Err err), w1) ->
    isReadNotFoundOCI err = Ret false -> normalizeOCIError err = Ret normalized ->
    run get delegate skip namespace (resource, w) = fail clock normalized (seed resource, w1) /\
    forall answer resource' w', run get delegate skip namespace (resource, w) = (Ret answer, (resource', w')) ->
      answer = (unsuccessful, Some normalized) /\ trackedID resource' = trackedID resource.

(** ** Identities and updates of the wrapped clients *)

(** The trimmed OCID of the block, or the trimmed [status.id]. *)
Definition currentID (block : OSOKStatus) (id : string) : string :=
  let ocid := TrimSpace (Ocid block) in if negb (ocid =? "")%string then ocid else TrimSpace id.

Lemma currentID_trimmed block id : TrimSpace (currentID block id) = currentID block id.
Proof. unfold currentID. case_match; apply TrimSpace_idem. Qed.

(** [common.String] of a text that is sent when it is not empty. *)
Definition nonempty (value : string) : option string := if (value =? "")%string then None else Some value.

Section Parity.
Context {Sp St Sdk D W : Type} `{StatusBlock St} (clock : ST W Time).
Notation R := (Resource Sp St).
Notation Answer := (OSOKResponse * option GoError)%type.

Definition seedTrackedOCID (trackedID : string) (resource : R) : R :=
  if (TrimSpace trackedID =? "")%string then resource
  else if negb (TrimSpace (Ocid (OsokStatus (Status resource))) =? "")%string then resource
  else with_osok (set_Ocid trackedID) resource.

(** Seeding the identifier keeps the identity. *)
Lemma seedTrackedOCID_id (id : string) (resource : R) :
  let tracked := currentID (OsokStatus (Status resource)) id in
  currentID (OsokStatus (Status (seedTrackedOCID tracked resource))) id = tracked.
Proof.
  cbn. unfold seedTrackedOCID. destruct (TrimSpace (currentID _ _) =? "")%string eqn:E1; [done|].
  destruct (TrimSpace (Ocid _) =? "")%string eqn:E2; cbn [negb]; [|done]. cbn. rewrite osok_set. unfold currentID at 1.
  change (Ocid (set_Ocid ?x _)) with x. by rewrite E1, currentID_trimmed.
Qed.

Context (kind : NetworkKind) (project : Sdk -> R -> R) (observe : Sdk -> Observed).
Context (build : R -> Sdk -> result (option (string * D)) GoError) (send : string -> D -> ST W (result Sdk GoError)).

(** The answer to a create or an update: its resource is projected and its lifecycle state applied. *)
Definition answered (call : ST W (result Sdk GoError)) : ST (R * W) Answer :=
  let* response := on_world call in
  match response with
  | Err err => let* normalized := st_lift (normalizeOCIError err) in fail clock normalized
  | Ok current => on_resource (project current) ;;; applyLifecycle clock kind (observe current)
  end.

Definition updateWithParity (id : string) (details : D) : ST (R * W) Answer := answered (send id details).

Definition parity_update (current : Sdk) : ST (R * W) Answer :=
  on_resource (project current) ;;;
  let* resource := the_resource in
  match build resource current with
  | Err err => fail clock err
  | Ok None => applyLifecycle clock kind (observe current)
  | Ok (Some (id, details)) => updateWithParity id details
  end.
End Parity.

(** ** Updates against a service *)

(** What the update logic of a kind promises: [up_stored] relates an update, the resource before and the resource a service may
    report after storing it, and an update that was stored is not asked for again. *)
Class UpdateProtocol (Sp Sdk D : Type) := {
  up_build : Sp -> Sdk -> result (option (string * D)) GoError;
  up_stored : D -> Sdk -> Sdk -> Prop;
  up_observable : Sdk -> Prop;
  up_settles : forall spec current next id details,
    up_observable current -> up_observable next ->
    up_build spec current = Ok (Some (id, details)) -> up_stored details current next -> up_build spec next = Ok None
}.

(** The requests that [build] makes settle: when one was needed and the service reports a resource that stored it, [build] asks for
    nothing more from the same input. *)
Definition settles {Sp Sdk D : Type} (build : Sp -> Sdk -> result (option (string * D)) GoError) (stored : D -> Sdk -> Sdk -> Prop)
  (observable : Sdk -> Prop) : Prop :=
  forall spec current next id details,
    observable current -> observable next ->
    build spec current = Ok (Some (id, details)) -> stored details current next -> build spec next = Ok None.
