(* ===== verification/RouteTableClient.v ===== *)
(** * Route tables ([pkg/servicemanager/core/routetable/routetable_runtime.go])

    The hooks that adapt the generated runtime to route tables and the client that wraps it:
    request bodies, the comparison of route rules, the projection into the status, the update
    decision, [CreateOrUpdate] and [Delete].  [validateRouteTableSDKContract] reflects over the
    vendored SDK's types; its verdict is the parameter [sdkContractErr]. *)

From stdpp Require Import gmap sorting.
From S2P Require Import Prelude GoStrings Sorting Shared GoErrors GoValue AsyncStatus Reconciler JsonValues ServiceClients ResourceTags NetworkClients.
Local Open Scope string_scope.
Local Open Scope list_scope.
Local Open Scope go_scope.

(** ** Data *)

Record RouteTableRouteRule := mkSpecRule {
  sr_NetworkEntityId : string;
  sr_CidrBlock : string;
  sr_Destination : string;
  sr_DestinationType : string;
  sr_Description : string;
  sr_RouteType : string
}.

Record RouteTableSpec := mkRouteTableSpec {
  spec_CompartmentId : string;
  spec_RouteRules : list RouteTableRouteRule;
  spec_VcnId : string;
  spec_DefinedTags : option MapValues;
  spec_DisplayName : string;
  spec_FreeformTags : option Tags
}.

Record RouteTableStatus := mkRouteTableStatus {
  st_OsokStatus : OSOKStatus;
  st_CompartmentId : string;
  st_Id : string;
  st_LifecycleState : string;
  st_RouteRules : list RouteTableRouteRule;
  st_VcnId : string;
  st_DefinedTags : option MapValues;
  st_DisplayName : string;
  st_FreeformTags : option Tags;
  st_TimeCreated : string
}.

Definition emptyRouteTableStatus : RouteTableStatus := mkRouteTableStatus emptyStatus "" "" "" [] "" None "" None "".

#[export, refine] Instance RouteTableStatus_block : StatusBlock RouteTableStatus := {|
  OsokStatus := st_OsokStatus;
  set_OsokStatus b s := mkRouteTableStatus b (st_CompartmentId s) (st_Id s) (st_LifecycleState s) (st_RouteRules s) (st_VcnId s)
                          (st_DefinedTags s) (st_DisplayName s) (st_FreeformTags s) (st_TimeCreated s);
  osok_set := _; set_osok := _; set_set := _
|}.
Proof. all: by intros []. Defined.

Notation RouteTableResource := (Resource RouteTableSpec RouteTableStatus).

(** The SDK's [RouteRule] and [RouteTable]. *)
Record RouteRule := mkRouteRule {
  NetworkEntityId : option string;
  CidrBlock : option string;
  Destination : option string;
  DestinationType : string;
  Description : option string;
  RouteType : string
}.

Record SdkRouteTable := mkSdkRouteTable {
  sdk_CompartmentId : option string;
  sdk_Id : option string;
  sdk_LifecycleState : string;
  sdk_RouteRules : list RouteRule;
  sdk_VcnId : option string;
  sdk_DefinedTags : option SdkTags;
  sdk_DisplayName : option string;
  sdk_FreeformTags : option Tags;
  sdk_TimeCreated : option string
}.

Record CreateRouteTableDetails := mkCreateRouteTable {
  cd_CompartmentId : option string;
  cd_RouteRules : list RouteRule;
  cd_VcnId : option string;
  cd_DefinedTags : option SdkTags;
  cd_DisplayName : option string;
  cd_FreeformTags : option Tags
}.

(** A nil field is left out of the request; an empty list of rules is sent. *)
Record UpdateRouteTableDetails := mkUpdateRouteTable {
  ud_DefinedTags : option SdkTags;
  ud_DisplayName : option string;
  ud_FreeformTags : option Tags;
  ud_RouteRules : option (list RouteRule)
}.

Record UpdateRouteTableRequest := mkUpdateRouteTableRequest {
  RtId : option string;
  UpdateRouteTableDetails_ : UpdateRouteTableDetails
}.
Definition noUpdateDetails : UpdateRouteTableDetails := mkUpdateRouteTable None None None None.
Definition noUpdateRequest : UpdateRouteTableRequest := mkUpdateRouteTableRequest None noUpdateDetails.

(** The dynamic types a response can have; another one is known by its name. *)
Inductive RouteTableResponse :=
| RouteTableBody (current : SdkRouteTable)
| CreateRouteTableResponse (current : SdkRouteTable)
| GetRouteTableResponse (current : SdkRouteTable)
| UpdateRouteTableResponse (current : SdkRouteTable)
| OtherResponse (typeName : string).

Definition routeTableFromResponse (response : RouteTableResponse) : option SdkRouteTable :=
  match response with
  | RouteTableBody c | CreateRouteTableResponse c | GetRouteTableResponse c | UpdateRouteTableResponse c => Some c
  | OtherResponse _ => None
  end.

Definition response_type (response : RouteTableResponse) : string :=
  match response with
  | RouteTableBody _ => "core.RouteTable"
  | CreateRouteTableResponse _ => "core.CreateRouteTableResponse"
  | GetRouteTableResponse _ => "core.GetRouteTableResponse"
  | UpdateRouteTableResponse _ => "core.UpdateRouteTableResponse"
  | OtherResponse name => name
  end.

(** ** Route rules *)

Definition convertSpecRouteRuleToOCI (rule : RouteTableRouteRule) : RouteRule :=
  mkRouteRule (Some (sr_NetworkEntityId rule)) (nonempty (sr_CidrBlock rule)) (nonempty (sr_Destination rule))
    (if (sr_DestinationType rule =? "")%string then "" else TrimSpace (sr_DestinationType rule))
    (nonempty (sr_Description rule))
    (if (sr_RouteType rule =? "")%string then "" else TrimSpace (sr_RouteType rule)).
Definition convertSpecRouteRulesToOCI (rules : list RouteTableRouteRule) : list RouteRule := convertSpecRouteRuleToOCI <$> rules.

Definition convertOCIRouteRulesToStatus (rules : list RouteRule) : list RouteTableRouteRule :=
  (fun rule => mkSpecRule (stringValue (NetworkEntityId rule)) (stringValue (CidrBlock rule)) (stringValue (Destination rule))
                 (DestinationType rule) (stringValue (Description rule)) (RouteType rule)) <$> rules.

Record normalizedRouteRule := mkNormalized {
  networkEntityID : string;
  destination : string;
  destinationType : string;
  description : string;
  routeType : string
}.
#[export] Instance normalizedRouteRule_eq_dec : EqDecision normalizedRouteRule.
Proof. solve_decision. Defined.

Definition normalizeRouteRule (rule : RouteRule) : normalizedRouteRule :=
  let routeType := ToUpper (TrimSpace (RouteType rule)) in
  let routeType := if (routeType =? "")%string then "STATIC" else routeType in
  let destination := TrimSpace (stringValue (Destination rule)) in
  let destination := if (destination =? "")%string then TrimSpace (stringValue (CidrBlock rule)) else destination in
  let destinationType := ToUpper (TrimSpace (DestinationType rule)) in
  let destinationType :=
    if (destinationType =? "")%string && negb (TrimSpace (stringValue (CidrBlock rule)) =? "")%string
    then "CIDR_BLOCK" else destinationType in
  mkNormalized (TrimSpace (stringValue (NetworkEntityId rule))) destination destinationType
    (TrimSpace (stringValue (Description rule))) routeType.

Definition key_parts (rule : normalizedRouteRule) : list string :=
  [networkEntityID rule; destination rule; destinationType rule; description rule; routeType rule].
Definition normalizedRouteRuleKey (rule : normalizedRouteRule) : string := Join (key_parts rule) (String NUL EmptyString).

Definition normalizeRouteRules (rules : list RouteRule) : list normalizedRouteRule :=
  sort_by normalizedRouteRuleKey (normalizeRouteRule <$> rules).

(** Rules OCI added itself are ignored unless the spec asks for them; [desiredSet] counts the
    desired rules. *)
Definition normalizeObservedRouteRules (current desired : list RouteRule) : list normalizedRouteRule :=
  let desiredNormalized := normalizeRouteRules desired in
  let filtered :=
    filter (fun rule => let normalized := normalizeRouteRule rule in
                        ~ (routeType normalized = "LOCAL" /\ normalized ∉ desiredNormalized)) current in
  normalizeRouteRules filtered.

Definition normalizedRouteRulesEqual (current desired : list RouteRule) : bool :=
  bool_decide (normalizeObservedRouteRules current desired = normalizeRouteRules desired).

(** ** Request bodies *)

Definition buildCreateRouteTableDetails (spec : RouteTableSpec) : CreateRouteTableDetails :=
  mkCreateRouteTable (Some (spec_CompartmentId spec)) (convertSpecRouteRulesToOCI (spec_RouteRules spec)) (Some (spec_VcnId spec))
    (ConvertToOciDefinedTags <$> spec_DefinedTags spec) (nonempty (spec_DisplayName spec)) (spec_FreeformTags spec).

Definition validateRouteTableCreateOnlyDrift (spec : RouteTableSpec) (current : SdkRouteTable) : option GoError :=
  create_only_drift "RouteTable"
    [(stringCreateOnlyMatches (sdk_CompartmentId current) (spec_CompartmentId spec), "compartmentId");
     (stringCreateOnlyMatches (sdk_VcnId current) (spec_VcnId spec), "vcnId")].

(** The rules are compared as multisets. *)
Definition rules_update (spec : RouteTableSpec) (current : SdkRouteTable) : option (list RouteRule) :=
  let desiredRouteRules := convertSpecRouteRulesToOCI (spec_RouteRules spec) in
  update_field (normalizedRouteRulesEqual (sdk_RouteRules current) desiredRouteRules) desiredRouteRules.

Definition update_details (spec : RouteTableSpec) (current : SdkRouteTable) : UpdateRouteTableDetails :=
  mkUpdateRouteTable (map_update (sdk_DefinedTags current) (ConvertToOciDefinedTags <$> spec_DefinedTags spec))
    (text_update (sdk_DisplayName current) (spec_DisplayName spec)) (map_update (sdk_FreeformTags current) (spec_FreeformTags spec))
    (rules_update spec current).

#[export] Instance UpdateRouteTableDetails_eq_dec : EqDecision UpdateRouteTableDetails.
Proof.
  assert (EqDecision RouteRule) by solve_decision. assert (EqDecision Json) by apply _. solve_decision.
Defined.

Definition buildUpdateRequest (resource : RouteTableResource) (current : SdkRouteTable)
  : result (UpdateRouteTableRequest * bool) GoError :=
  match exposed_id "RouteTable" (sdk_Id current) with
  | Err e => Err e
  | Ok id =>
      match validateRouteTableCreateOnlyDrift (Spec resource) current with
      | Some e => Err e
      | None =>
          let updateDetails := update_details (Spec resource) current in
          let updateNeeded := negb (bool_decide (updateDetails = noUpdateDetails)) in
          if negb updateNeeded then Ok (noUpdateRequest, false)
          else Ok (mkUpdateRouteTableRequest (Some id) updateDetails, true)
      end
  end.

(** ** Status *)

Definition routeTableKind : NetworkKind :=
  mkNetworkKind "RouteTable"
    (fun state =>
       if (state =? "AVAILABLE")%string then Some Active
       else if (state =? "PROVISIONING")%string then Some Provisioning
       else if (state =? "UPDATING")%string then Some Updating
       else if (state =? "TERMINATING")%string || (state =? "TERMINATED")%string then Some Terminating
       else None)
    id.

Definition observed (current : SdkRouteTable) : Observed := mkObserved (sdk_Id current) (sdk_DisplayName current) (sdk_LifecycleState current).

Definition routeTableLifecycleIsRetryable (state : string) : bool :=
  (state =? "PROVISIONING")%string || (state =? "UPDATING")%string || (state =? "TERMINATING")%string || (state =? "TERMINATED")%string.

Definition projectStatus (current : SdkRouteTable) (resource : RouteTableResource) : RouteTableResource :=
  with_status (fun status =>
    mkRouteTableStatus (st_OsokStatus status) (stringValue (sdk_CompartmentId current)) (stringValue (sdk_Id current))
      (sdk_LifecycleState current) (convertOCIRouteRulesToStatus (sdk_RouteRules current)) (stringValue (sdk_VcnId current))
      (convertOCIToStatusDefinedTags (sdk_DefinedTags current)) (stringValue (sdk_DisplayName current))
      (cloneStringMap (sdk_FreeformTags current)) (stringValue (sdk_TimeCreated current))) resource.

Definition currentRouteTableOCID (resource : RouteTableResource) : string := TrimSpace (Ocid (st_OsokStatus (Status resource))).

Definition clearTrackedIdentity (resource : RouteTableResource) : RouteTableResource := with_status (fun _ => emptyRouteTableStatus) resource.

Definition clearProjectedStatus (resource : RouteTableResource) : RouteTableResource :=
  let trackedID := currentRouteTableOCID resource in
  let previousID := st_Id (Status resource) in
  mkResource (Spec resource)
    (mkRouteTableStatus (st_OsokStatus (Status resource)) "" (if (trackedID =? "")%string then "" else previousID) "" [] "" None "" None "").

(** ** Hooks *)

Definition hook_BuildUpdateBody (resource : RouteTableResource) (currentResponse : RouteTableResponse)
  : result (UpdateRouteTableDetails * bool) GoError :=
  match routeTableFromResponse currentResponse with
  | None => Err (ErrText ("unexpected RouteTable current response type " +++ response_type currentResponse))
  | Some current =>
      match buildUpdateRequest resource current with
      | Err e => Err e
      | Ok (request, updateNeeded) => Ok (UpdateRouteTableDetails_ request, updateNeeded)
      end
  end.

Definition hook_ProjectStatus (response : RouteTableResponse) (resource : RouteTableResource) : result RouteTableResource GoError :=
  match routeTableFromResponse response with
  | None => Err (ErrText ("unexpected RouteTable status response type " +++ response_type response))
  | Some current => Ok (projectStatus current resource)
  end.

(** ** The client *)

Section RouteTableClient.
Context {W : Type}.
Context (clock : ST W Time) (getRouteTable : string -> ST W (result SdkRouteTable GoError)).
Context (createRouteTable : CreateRouteTableDetails -> ST W (result SdkRouteTable GoError)).
Context (deleteRouteTable : string -> ST W (option GoError)).
Context (initErr sdkContractErr : option GoError) (delegate : option (CtxClient RouteTableResource W)).

Definition hook_ApplyLifecycle (response : RouteTableResponse) : ST (RouteTableResource * W) (OSOKResponse * option GoError) :=
  match routeTableFromResponse response with
  | None => fail clock (ErrText ("unexpected RouteTable lifecycle response type " +++ response_type response))
  | Some current => applyLifecycle clock routeTableKind (observed current)
  end.

(** [resource.Spec.RouteRules = nil]. *)
Definition without_rules (spec : RouteTableSpec) : RouteTableSpec :=
  mkRouteTableSpec (spec_CompartmentId spec) [] (spec_VcnId spec) (spec_DefinedTags spec) (spec_DisplayName spec) (spec_FreeformTags spec).

(** What the client does with a tracked route table it could read: [Some] is an early return. *)
Definition observe_tracked (current : SdkRouteTable) : ST (RouteTableResource * W) (option (OSOKResponse * option GoError)) :=
  let answer m := let* a := m in st_ret (Some a) in
  on_resource (projectStatus current) ;;;
  if routeTableLifecycleIsRetryable (sdk_LifecycleState current) then answer (applyLifecycle clock routeTableKind (observed current))
  else
    let* resource := the_resource in
    let routeRulesEquivalent :=
      normalizedRouteRulesEqual (sdk_RouteRules current) (convertSpecRouteRulesToOCI (spec_RouteRules (Spec resource))) in
    match buildUpdateRequest resource current with
    | Err e => answer (fail clock e)
    | Ok (_, false) => answer (applyLifecycle clock routeTableKind (observed current))
    | Ok (_, true) =>
        (if routeRulesEquivalent then on_resource (fun r => mkResource (without_rules (Spec r)) (Status r))
         else st_ret tt) ;;;
        st_ret None
    end.

(** Clears the projected status and runs the generated client. *)
Definition run_delegate (delegate : CtxClient RouteTableResource W) (skip : bool) (namespace : string)
  : ST (RouteTableResource * W) (OSOKResponse * option GoError) :=
  let* resource := the_resource in
  let previousStatus := Status resource in
  on_resource clearProjectedStatus ;;;
  delegated delegate skip namespace previousStatus.

Definition CreateOrUpdate (skip : bool) (namespace : string) : ST (RouteTableResource * W) (OSOKResponse * option GoError) :=
  match delegate, sdkContractErr with
  | None, _ => fail clock (ErrText "route table parity delegate is not configured")
  | Some _, Some err => fail clock err
  | Some delegate, None =>
      let* resource := the_resource in
      let trackedID := currentRouteTableOCID resource in
      let* tracked := read_tracked clock initErr getRouteTable clearTrackedIdentity (fun _ => false) trackedID in
      match tracked with
      | Answered answer => st_ret answer
      | Untracked | Recreate => run_delegate delegate true namespace
      | Found current =>
          let* early := observe_tracked current in
          match early with
          | Some answer => st_ret answer
          | None => run_delegate delegate skip namespace
          end
      end
  end.

Definition Delete : ST (RouteTableResource * W) (bool * option GoError) :=
  match sdkContractErr, initErr with
  | Some err, _ => st_ret (false, Some err)
  | None, Some err => st_ret (false, Some err)
  | None, None =>
      let* resource := the_resource in
      let trackedID := currentRouteTableOCID resource in
      if (trackedID =? "")%string then
        markDeleted clock "OCI resource identifier is not recorded" ;;; st_ret (true, None)
      else
        let* err := on_world (deleteRouteTable trackedID) in
        match err with
        | Some err => delete_failed clock err "OCI resource no longer exists"
        | None =>
            let* current := on_world (getRouteTable trackedID) in
            match current with
            | Err err => delete_failed clock err "OCI resource deleted"
            | Ok current =>
                on_resource (projectStatus current) ;;;
                markTerminating clock routeTableKind (observed current) ;;;
                st_ret (false, None)
            end
        end
  end.

Definition create : ST (RouteTableResource * W) (OSOKResponse * option GoError) :=
  let* resource := the_resource in
  let* response := on_world (createRouteTable (buildCreateRouteTableDetails (Spec resource))) in
  match response with
  | Err err => let* normalized := st_lift (normalizeOCIError err) in fail clock normalized
  | Ok current => on_resource (projectStatus current) ;;; applyLifecycle clock routeTableKind (observed current)
  end.

Definition routeTableRuntimeClient : CtxClient RouteTableResource W := mkCtxClient CreateOrUpdate Delete.
End RouteTableClient.

(** ** Comparison of route rules *)

(** A rule whose normalised parts contain no NUL byte, so that its sort key determines it. *)
Definition clean_rule (rule : RouteRule) : Prop :=
  Forall (fun part => no_char NUL part = true) (key_parts (normalizeRouteRule rule)).

Lemma normalizedRouteRuleKey_inj r1 r2 :
  Forall (fun part => no_char NUL part = true) (key_parts r1) -> Forall (fun part => no_char NUL part = true) (key_parts r2) ->
  normalizedRouteRuleKey r1 = normalizedRouteRuleKey r2 -> r1 = r2.
Proof.
  intros H1 H2 H. apply (Join_inj NUL) in H; [|done..]. destruct r1, r2. cbn in H. by simplify_eq.
Qed.

Lemma normalizeRouteRules_perm rules : normalizeRouteRules rules ≡ₚ normalizeRouteRule <$> rules.
Proof. apply sort_by_perm. Qed.

Lemma normalizeRouteRules_eq rules rules' :
  Forall clean_rule rules ->
  normalizeRouteRules rules = normalizeRouteRules rules' <-> normalizeRouteRule <$> rules ≡ₚ normalizeRouteRule <$> rules'.
Proof.
  intros Hc. apply sort_by_eq. intros x y Hx Hy. rewrite Forall_forall in Hc.
  apply list_elem_of_fmap in Hx as (x' & -> & Hx), Hy as (y' & -> & Hy).
  apply normalizedRouteRuleKey_inj; by apply Hc.
Qed.

(** What the comparison looks at: the rules of a table but for those OCI added itself. *)
Definition relevant_rules (current desired : list RouteRule) : list normalizedRouteRule :=
  filter (fun n => ~ (routeType n = "LOCAL" /\ n ∉ normalizeRouteRule <$> desired)) (normalizeRouteRule <$> current).

Lemma filter_relevant current desired :
  normalizeRouteRule <$> filter (fun rule => let normalized := normalizeRouteRule rule in
     ~ (routeType normalized = "LOCAL" /\ normalized ∉ normalizeRouteRules desired)) current = relevant_rules current desired.
Proof.
  unfold relevant_rules. induction current as [|r l IH]; [done|]. rewrite fmap_cons, !filter_cons, <- IH. cbn zeta.
  assert (Hiff : normalizeRouteRule r ∉ normalizeRouteRules desired <-> normalizeRouteRule r ∉ normalizeRouteRule <$> desired)
    by (by rewrite (normalizeRouteRules_perm desired)).
  repeat case_decide; tauto || done.
Qed.

Lemma rules_equal_iff current desired :
  Forall clean_rule current ->
  normalizedRouteRulesEqual current desired = true <-> relevant_rules current desired ≡ₚ normalizeRouteRule <$> desired.
Proof.
  intros Hc. unfold normalizedRouteRulesEqual, normalizeObservedRouteRules. rewrite bool_decide_eq_true.
  rewrite normalizeRouteRules_eq; [by rewrite filter_relevant|].
  rewrite Forall_forall in *. intros r [_ Hr]%list_elem_of_filter. by apply Hc.
Qed.

(** C27. The comparison of route rules decides equality of multisets, for a table whose normalised rules contain no NUL byte, which is the
    separator of the sort key: whatever the order of the two lists, the rules of
    the table match the rules of the spec exactly when the normalised rules are a permutation of each other, not counting the
    LOCAL rules of the table that the spec does not ask for; and since the sort key determines such a rule, every sorting
    algorithm arranges the compared rules in the same way.  The rules of the spec are arbitrary. *)
Theorem route_rules_compared_as_multisets current desired :
  Forall clean_rule current ->
  (normalizedRouteRulesEqual current desired = true <-> relevant_rules current desired ≡ₚ normalizeRouteRule <$> desired) /\
  forall sorted, sorted ≡ₚ relevant_rules current desired -> Sorted (key_le normalizedRouteRuleKey) sorted ->
    sorted = normalizeObservedRouteRules current desired.
Proof.
  intros Hc. split; [by apply rules_equal_iff|]. intros sorted Hp Hs. unfold normalizeObservedRouteRules, normalizeRouteRules at 1.
  rewrite filter_relevant. apply sort_by_unique; [|done..]. rewrite Forall_forall in Hc.
  intros x y [_ Hx]%list_elem_of_filter [_ Hy]%list_elem_of_filter.
  apply list_elem_of_fmap in Hx as (x' & -> & Hx), Hy as (y' & -> & Hy). apply normalizedRouteRuleKey_inj; by apply Hc.
Qed.

(** ** Updates settle *)

(** The rules a service reports after an update: those that were sent, or those it had, in any order and with defaults
    filled in, next to LOCAL rules of its own. *)
Definition rules_stored (sent : option (list RouteRule)) (current next : list RouteRule) : Prop :=
  match sent with
  | None => normalizeRouteRule <$> next ≡ₚ normalizeRouteRule <$> current
  | Some rules =>
      exists added, normalizeRouteRule <$> next ≡ₚ (normalizeRouteRule <$> rules) ++ added /\
        Forall (fun n => routeType n = "LOCAL" /\ n ∉ normalizeRouteRule <$> rules) added
  end.

Record update_stored (details : UpdateRouteTableDetails) (current next : SdkRouteTable) : Prop := {
  stored_DefinedTags : stored (ud_DefinedTags details) (sdk_DefinedTags current) (sdk_DefinedTags next);
  stored_DisplayName : stored (ud_DisplayName details) (sdk_DisplayName current) (sdk_DisplayName next);
  stored_FreeformTags : stored (ud_FreeformTags details) (sdk_FreeformTags current) (sdk_FreeformTags next);
  stored_RouteRules : rules_stored (ud_RouteRules details) (sdk_RouteRules current) (sdk_RouteRules next);
  kept_Id : sdk_Id next = sdk_Id current;
  kept_Compartment : sdk_CompartmentId next = sdk_CompartmentId current;
  kept_Vcn : sdk_VcnId next = sdk_VcnId current
}.

Lemma relevant_rules_perm current current' desired :
  normalizeRouteRule <$> current ≡ₚ normalizeRouteRule <$> current' -> relevant_rules current desired ≡ₚ relevant_rules current' desired.
Proof. intros Hp. unfold relevant_rules. by rewrite Hp. Qed.

Lemma relevant_rules_added (desired : list RouteRule) added :
  Forall (fun n => routeType n = "LOCAL" /\ n ∉ normalizeRouteRule <$> desired) added ->
  filter (fun n => ~ (routeType n = "LOCAL" /\ n ∉ normalizeRouteRule <$> desired)) ((normalizeRouteRule <$> desired) ++ added)
  = normalizeRouteRule <$> desired.
Proof.
  intros Ha. rewrite filter_app. rewrite (list_filter_all _ (normalizeRouteRule <$> desired)).
  - rewrite list_filter_none; [by rewrite app_nil_r|]. eapply Forall_impl; [exact Ha|]. by cbn; intros n Hn Hnot; apply Hnot.
  - apply Forall_forall. by intros n Hn [_ []].
Qed.

Lemma rules_settled spec current next :
  Forall clean_rule (sdk_RouteRules current) -> Forall clean_rule (sdk_RouteRules next) ->
  rules_stored (rules_update spec current) (sdk_RouteRules current) (sdk_RouteRules next) -> rules_update spec next = None.
Proof.
  intros Hc Hn Hs. unfold rules_update in *. set (desired := convertSpecRouteRulesToOCI _) in *.
  replace (normalizedRouteRulesEqual (sdk_RouteRules next) desired) with true; [done|]. symmetry. apply rules_equal_iff; [done|].
  destruct (normalizedRouteRulesEqual (sdk_RouteRules current) desired) eqn:E; cbn in Hs.
  - apply rules_equal_iff in E; [|done]. rewrite <- E. by apply relevant_rules_perm.
  - destruct Hs as (added & Hp & Ha). unfold relevant_rules. by rewrite Hp, relevant_rules_added.
Qed.

(** An update that is asked for carries the details, addressed to the table itself. *)
Lemma buildUpdateRequest_inv resource current request :
  buildUpdateRequest resource current = Ok (request, true) ->
  validateRouteTableCreateOnlyDrift (Spec resource) current = None /\
  (exists id, exposed_id "RouteTable" (sdk_Id current) = Ok id /\ RtId request = Some id) /\
  UpdateRouteTableDetails_ request = update_details (Spec resource) current.
Proof.
  unfold buildUpdateRequest. destruct (exposed_id _ _) as [id|]; [|done]. destruct (validateRouteTableCreateOnlyDrift _ _); [done|].
  case_bool_decide; cbn; [done|]. intros [= <-]. eauto.
Qed.

(** No update is asked for exactly when no field differs. *)
Lemma buildUpdateRequest_none resource current id :
  exposed_id "RouteTable" (sdk_Id current) = Ok id -> validateRouteTableCreateOnlyDrift (Spec resource) current = None ->
  update_details (Spec resource) current = noUpdateDetails -> buildUpdateRequest resource current = Ok (noUpdateRequest, false).
Proof. unfold buildUpdateRequest. intros -> -> ->. by rewrite bool_decide_eq_true_2. Qed.

(** Updates of a route table settle: when an update was needed and the service stored it, filling in defaults, reordering
    the rules and keeping or adding LOCAL rules of its own, the next reconcile of the same spec needs no update. *)
Lemma route_table_update_settles (resource resource' : RouteTableResource) current next request :
  buildUpdateRequest resource current = Ok (request, true) ->
  update_stored (UpdateRouteTableDetails_ request) current next ->
  Spec resource' = Spec resource ->
  Forall clean_rule (sdk_RouteRules current) -> Forall clean_rule (sdk_RouteRules next) ->
  RtId request = sdk_Id current /\ buildUpdateRequest resource' next = Ok (noUpdateRequest, false).
Proof.
  intros (Hv & (id & Hid & Hrt) & Hd)%buildUpdateRequest_inv [H1 H2 H3 H4 H5 H6 H7] Hspec Hc Hn. rewrite Hd in *.
  cbn [update_details ud_DefinedTags ud_DisplayName ud_FreeformTags ud_RouteRules] in *. split.
  - unfold exposed_id in Hid. destruct (sdk_Id current); [|done]. case_match; by simplify_eq.
  - apply (buildUpdateRequest_none _ _ id); [by rewrite H5| |].
    + rewrite Hspec. unfold validateRouteTableCreateOnlyDrift in *. by rewrite H6, H7.
    + rewrite Hspec. unfold update_details.
      by rewrite (map_settled _ _ _ H1), (text_settled _ _ _ H2), (map_settled _ _ _ H3), (rules_settled _ _ _ Hc Hn H4).
Qed.

(** The update is addressed to the live table. *)
Definition table_update (resource : RouteTableResource) (current : SdkRouteTable) : result (option (string * UpdateRouteTableDetails)) GoError :=
  match buildUpdateRequest resource current with
  | Err e => Err e
  | Ok (request, updateNeeded) => Ok (if updateNeeded : bool then Some (stringValue (RtId request), UpdateRouteTableDetails_ request) else None)
  end.

#[export, refine] Instance RouteTable_updates : UpdateProtocol RouteTableResource SdkRouteTable UpdateRouteTableDetails := {|
  up_build := table_update; up_stored := update_stored; up_observable table := Forall clean_rule (sdk_RouteRules table); up_settles := _
|}.
Proof.
  intros resource current next id details Hc Hn. unfold table_update. destruct (buildUpdateRequest resource current) as [[request []]|] eqn:E; [|done..].
  intros [= _ <-] Hs. by destruct (route_table_update_settles resource resource current next request E Hs eq_refl Hc Hn) as [_ ->].
Defined.

(** ** The client *)

Section Theorems.
Context {W : Type} (clock : ST W Time) (getRouteTable : string -> ST W (result SdkRouteTable GoError)).
Context (createRouteTable : CreateRouteTableDetails -> ST W (result SdkRouteTable GoError)).
Context (deleteRouteTable : string -> ST W (option GoError)).
Notation client_CreateOrUpdate delegate := (CreateOrUpdate clock getRouteTable None None (Some delegate)).

Lemma empty_rules_differ current :
  Exists (fun rule => routeType (normalizeRouteRule rule) <> "LOCAL") current -> normalizedRouteRulesEqual current [] = false.
Proof.
  intros (rule & Hin & Hr)%Exists_exists. apply not_true_is_false. unfold normalizedRouteRulesEqual. intros E%bool_decide_eq_true.
  assert (Hp : relevant_rules current [] ≡ₚ []).
  { rewrite <- filter_relevant. transitivity (normalizeObservedRouteRules current []); [|by rewrite E].
    symmetry. apply normalizeRouteRules_perm. }
  apply Permutation_nil_r in Hp. apply (not_elem_of_nil (normalizeRouteRule rule)). rewrite <- Hp.
  apply list_elem_of_filter. split; [tauto|]. by apply list_elem_of_fmap_2.
Qed.

(** The body built from a spec without rules asks for an empty list. *)
Lemma body_without_rules (resource handed : RouteTableResource) current request :
  Spec handed = without_rules (Spec resource) ->
  buildUpdateRequest resource current = Ok (request, true) ->
  Exists (fun rule => routeType (normalizeRouteRule rule) <> "LOCAL") (sdk_RouteRules current) ->
  exists details, hook_BuildUpdateBody handed (GetRouteTableResponse current) = Ok (details, true) /\ ud_RouteRules details = Some [].
Proof.
  intros Hs (Hv & (id & Hx & _) & _)%buildUpdateRequest_inv Hex. unfold hook_BuildUpdateBody, buildUpdateRequest.
  cbn [routeTableFromResponse]. rewrite Hx, Hs. replace (validateRouteTableCreateOnlyDrift (without_rules _) _) with (@None GoError) by done.
  assert (Hempty : rules_update (without_rules (Spec resource)) current = Some []).
  { unfold rules_update. cbn [without_rules spec_RouteRules]. change (convertSpecRouteRulesToOCI []) with (@nil RouteRule).
    by rewrite empty_rules_differ. }
  exists (update_details (without_rules (Spec resource)) current). split; [|done].
  rewrite bool_decide_eq_false_2; [done|]. unfold update_details. by rewrite Hempty.
Qed.

(** C29. A change of a route table's name or tags erases its routes for a while: when a tracked table that already has the
    rules of the spec (at least one of them not LOCAL) needs an update of another field, the client empties the rules of the
    spec it hands to the generated client, and the update body that is then built from that spec asks for an empty list of rules. *)
Theorem route_rules_wiped delegate skip namespace (resource : RouteTableResource) w current w1 request :
  currentRouteTableOCID resource <> "" ->
  getRouteTable (currentRouteTableOCID resource) w = (Ret (Ok current), w1) ->
  routeTableLifecycleIsRetryable (sdk_LifecycleState current) = false ->
  buildUpdateRequest resource current = Ok (request, true) ->
  ud_RouteRules (UpdateRouteTableDetails_ request) = None ->
  Exists (fun rule => routeType (normalizeRouteRule rule) <> "LOCAL") (sdk_RouteRules current) ->
  exists handed details,
    client_CreateOrUpdate delegate skip namespace (resource, w) =
      delegated delegate skip namespace (Status (projectStatus current resource)) (handed, w1) /\
    hook_BuildUpdateBody handed (GetRouteTableResponse current) = Ok (details, true) /\
    ud_RouteRules details = Some [].
Proof.
  intros Hid Hget Hstate Hupd Hnone Hex. pose proof Hupd as (Hv & (id & Hx & _) & Hd)%buildUpdateRequest_inv.
  rewrite Hd in Hnone. cbn [update_details ud_RouteRules] in Hnone. unfold rules_update, update_field in Hnone.
  destruct (normalizedRouteRulesEqual (sdk_RouteRules current) (convertSpecRouteRulesToOCI (spec_RouteRules (Spec resource)))) eqn:Heq; [|done].
  unfold CreateOrUpdate. erewrite bind_step by reflexivity. erewrite bind_step by (by apply read_tracked_found).
  unfold observe_tracked. erewrite bind_step by (erewrite bind_step by reflexivity; rewrite Hstate; erewrite bind_step by reflexivity;
    cbn zeta; cbn [projectStatus with_status Spec];
    replace (buildUpdateRequest _ current) with (buildUpdateRequest resource current) by reflexivity; rewrite Hupd, Heq; reflexivity).
  unfold run_delegate. erewrite bind_step by reflexivity. erewrite bind_step by reflexivity.
  edestruct (body_without_rules resource) as (details & Hbody & Hrules); [|exact Hupd|exact Hex|]; last first.
  - eexists _, details. split; [reflexivity|]. split; [exact Hbody|exact Hrules].
  - reflexivity.
Qed.

(** A settled route table is left alone: when the tracked table is AVAILABLE and no field of the spec differs, a reconcile
    reads it once, makes no other call, whatever the generated client would do, and reports success without a requeue, with the
    live table projected into the status. *)
Theorem route_table_settled skip namespace (resource : RouteTableResource) w current w1 id :
  ticks clock ->
  currentRouteTableOCID resource <> "" ->
  getRouteTable (currentRouteTableOCID resource) w = (Ret (Ok current), w1) ->
  sdk_LifecycleState current = "AVAILABLE" ->
  exposed_id "RouteTable" (sdk_Id current) = Ok id ->
  validateRouteTableCreateOnlyDrift (Spec resource) current = None ->
  update_details (Spec resource) current = noUpdateDetails ->
  exists resource' w',
    (forall delegate, client_CreateOrUpdate delegate skip namespace (resource, w) = (Ret (mkResponse true false 0%Z, None), (resource', w'))) /\
    rtc (tick clock) w1 w' /\ Spec resource' = Spec resource /\ Reason (OsokStatus (Status resource')) = Active /\
    exists b, Status resource' = set_OsokStatus b (Status (projectStatus current resource)).
Proof.
  intros Hc Hid Hget Hstate Hx Hv Hd.
  destruct (applyLifecycle_active clock routeTableKind (observed current) (projectStatus current resource) w1 Hc) as (r' & w' & Hrun & Hw & Hs & Hr & now & condNow & Hb).
  { unfold observed. cbn. by rewrite Hstate. }
  exists r', w'. split; [|eauto 6]. intros delegate. unfold CreateOrUpdate. erewrite bind_step by reflexivity.
  erewrite bind_step by (by apply read_tracked_found). unfold observe_tracked. rewrite (bind_step _ _ _ (Some (mkResponse true false 0%Z, None)) (r', w')); [done|].
  erewrite bind_step by reflexivity. rewrite Hstate. change (routeTableLifecycleIsRetryable "AVAILABLE") with false. cbn iota. erewrite bind_step by reflexivity. cbn zeta.
  rewrite (buildUpdateRequest_none _ _ id) by done. by erewrite bind_step by exact Hrun.
Qed.

(** A route table counts as deleted only on evidence: [Delete] answers "deleted" only when no identifier is tracked, when
    the delete call was answered as not found, or when the delete was accepted and the read that confirms it was answered as not
    found; a table that can still be read, in whatever state, keeps the finalizer, and the status then records the deletion time. *)
Theorem route_table_delete_evidenced initErr sdkContractErr (resource : RouteTableResource) w err s' :
  Delete clock getRouteTable deleteRouteTable initErr sdkContractErr (resource, w) = (Ret (true, err), s') ->
  err = None /\ is_Some (DeletedAt (OsokStatus (Status (fst s')))) /\
  let id := currentRouteTableOCID resource in
  (id = "" \/
   (exists e w1, deleteRouteTable id w = (Ret (Some e), w1) /\ isDeleteNotFoundOCI e = Ret true) \/
   (exists e w1 w2, deleteRouteTable id w = (Ret None, w1) /\ getRouteTable id w1 = (Ret (Err e), w2) /\ isDeleteNotFoundOCI e = Ret true)).
Proof.
  unfold Delete. destruct sdkContractErr, initErr; [done..|]. erewrite bind_step by reflexivity. cbn zeta.
  destruct (currentRouteTableOCID resource =? "")%string eqn:Eid.
  - unfold st_bind. destruct (markDeleted clock _ _) as [[[]|] s1] eqn:E; [|done]. intros [= <- <-].
    apply markDeleted_inv in E. bool_prop. eauto.
  - unfold st_bind at 1, on_world. destruct (deleteRouteTable _ w) as [[[e|]|] w1] eqn:Ed; [| |done].
    + intros (He & -> & Hdel)%delete_failed_inv. eauto 8.
    + unfold st_bind at 1, on_world. destruct (getRouteTable _ w1) as [[[current|e]|] w2] eqn:Eg; [| |done].
      * unfold st_bind, on_resource. by destruct (markTerminating clock _ _ _) as [[[]|] s1].
      * intros (He & -> & Hdel)%delete_failed_inv. eauto 12.
Qed.
End Theorems.

(** ** A concrete table *)

Definition ex_clock : ST unit Time := st_ret 7%Z.
Definition ex_spec (name : string) : RouteTableSpec :=
  mkRouteTableSpec "ocid1.compartment" [mkSpecRule "ocid1.igw" "" "0.0.0.0/0" "CIDR_BLOCK" "" ""; mkSpecRule "ocid1.nat" "10.0.0.0/8" "" "" "" ""]
    "ocid1.vcn" None name None.
Definition ex_rules : list RouteRule :=
  [mkRouteRule (Some "ocid1.local") None (Some "10.1.0.0/16") "CIDR_BLOCK" None "LOCAL";
   mkRouteRule (Some "ocid1.nat") None (Some "10.0.0.0/8") "CIDR_BLOCK" None "STATIC";
   mkRouteRule (Some "ocid1.igw") None (Some "0.0.0.0/0") "CIDR_BLOCK" None "STATIC"].
Definition ex_table (name : string) (rules : list RouteRule) : SdkRouteTable :=
  mkSdkRouteTable (Some "ocid1.compartment") (Some "ocid1.routetable") "AVAILABLE" rules (Some "ocid1.vcn") None (Some name) None None.
Definition ex_resource (name : string) : RouteTableResource :=
  mkResource (ex_spec name) (mkRouteTableStatus (set_Ocid "ocid1.routetable" emptyStatus) "" "ocid1.routetable" "" [] "" None "" None "").
Definition ex_get (table : SdkRouteTable) (_ : string) : ST unit (result SdkRouteTable GoError) := st_ret (Ok table).
Definition ex_not_found : GoError := ErrService (mkServiceError 404 "NotFound" "req1" "no such route table" "404 NotFound" "common.servicefailure" None).

Lemma ex_rules_clean : Forall clean_rule ex_rules.
Proof. unfold ex_rules, clean_rule. repeat constructor. Qed.

Lemma route_rules_compared_as_multisets_witness :
  normalizedRouteRulesEqual ex_rules (convertSpecRouteRulesToOCI (spec_RouteRules (ex_spec "a"))) = true /\
  relevant_rules ex_rules (convertSpecRouteRulesToOCI (spec_RouteRules (ex_spec "a"))) ≡ₚ
    normalizeRouteRule <$> convertSpecRouteRulesToOCI (spec_RouteRules (ex_spec "a")).
Proof.
  destruct (route_rules_compared_as_multisets ex_rules (convertSpecRouteRulesToOCI (spec_RouteRules (ex_spec "a"))) ex_rules_clean) as [[H _] _].
  assert (E : normalizedRouteRulesEqual ex_rules (convertSpecRouteRulesToOCI (spec_RouteRules (ex_spec "a"))) = true) by reflexivity.
  split; [exact E|exact (H E)].
Defined.

Definition ex_delegate : CtxClient RouteTableResource unit :=
  mkCtxClient (fun _ _ => st_ret (mkResponse true false 0%Z, None)) (st_ret (true, None)).

Lemma route_rules_wiped_witness :
  exists handed details,
    CreateOrUpdate ex_clock (ex_get (ex_table "a" ex_rules)) None None (Some ex_delegate) false "ns" (ex_resource "b", tt) =
      delegated ex_delegate false "ns" (Status (projectStatus (ex_table "a" ex_rules) (ex_resource "b"))) (handed, tt) /\
    hook_BuildUpdateBody handed (GetRouteTableResponse (ex_table "a" ex_rules)) = Ok (details, true) /\
    ud_RouteRules details = Some [].
Proof.
  apply (route_rules_wiped ex_clock (ex_get (ex_table "a" ex_rules)) ex_delegate false "ns" (ex_resource "b") tt (ex_table "a" ex_rules) tt
    (mkUpdateRouteTableRequest (Some "ocid1.routetable") (mkUpdateRouteTable None (Some "b") None None))).
  - discriminate.
  - reflexivity.
  - reflexivity.
  - vm_compute. reflexivity.
  - reflexivity.
  - apply Exists_cons_tl, Exists_cons_hd. discriminate.
Defined.

Lemma route_table_settled_witness :
  exists resource' w',
    (forall delegate, CreateOrUpdate ex_clock (ex_get (ex_table "a" ex_rules)) None None (Some delegate) false "ns" (ex_resource "a", tt) =
       (Ret (mkResponse true false 0%Z, None), (resource', w'))) /\
    rtc (tick ex_clock) tt w' /\ Spec resource' = Spec (ex_resource "a") /\ Reason (OsokStatus (Status resource')) = Active /\
    exists b, Status resource' = set_OsokStatus b (Status (projectStatus (ex_table "a" ex_rules) (ex_resource "a"))).
Proof.
  apply (route_table_settled ex_clock (ex_get (ex_table "a" ex_rules)) false "ns" (ex_resource "a") tt (ex_table "a" ex_rules) tt "ocid1.routetable").
  - intros w. by exists 7%Z, w.
  - discriminate.
  - reflexivity.
  - reflexivity.
  - reflexivity.
  - reflexivity.
  - vm_compute. reflexivity.
Defined.

Lemma route_table_delete_evidenced_witness :
  exists s', Delete ex_clock (fun _ => st_ret (Err ex_not_found)) (fun _ => st_ret None) None None (ex_resource "a", tt) = (Ret (true, None), s') /\
    is_Some (DeletedAt (OsokStatus (Status (fst s')))).
Proof.
  eexists. split; [vm_compute; reflexivity|].
  refine (proj1 (proj2 (route_table_delete_evidenced ex_clock (fun _ => st_ret (Err ex_not_found)) (fun _ => st_ret None) None None
    (ex_resource "a") tt None _ _))).
  vm_compute. reflexivity.
Defined.
