(* ===== verification/SecurityListClient.v ===== *)
(** * Security lists ([pkg/servicemanager/core/securitylist/securitylist_runtime.go])

    The hooks that adapt the generated runtime to security lists and the client that wraps
    it: conversion of security rules to and from the SDK's types, their comparison, request
    bodies, status and delete hooks.  The API types repeat the port ranges and the options
    under a name per position; they are one record here.  [validateSecurityListSDKContract]
    reflects over the vendored SDK's types; its verdict is the parameter [sdkContractErr]. *)

From stdpp Require Import gmap sorting pretty.
From S2P Require Import Prelude GoStrings Sorting Shared GoErrors GoValue AsyncStatus Reconciler JsonValues Runtime ServiceClients ResourceTags NetworkClients.
Local Open Scope string_scope.
Local Open Scope list_scope.
Local Open Scope go_scope.

(** ** Data *)

Record SpecPortRange := mkSpecPortRange { spr_Min : Z; spr_Max : Z }.
Record SpecIcmpOptions := mkSpecIcmp { sic_Type : Z; sic_Code : Z }.
(** The options of TCP and of UDP. *)
Record SpecPortOptions := mkSpecPorts { spo_DestinationPortRange : SpecPortRange; spo_SourcePortRange : SpecPortRange }.

Record SecurityListEgressSecurityRule := mkSpecEgress {
  se_Destination : string;
  se_Protocol : string;
  se_DestinationType : string;
  se_IcmpOptions : SpecIcmpOptions;
  se_IsStateless : bool;
  se_TcpOptions : SpecPortOptions;
  se_UdpOptions : SpecPortOptions;
  se_Description : string
}.

Record SecurityListIngressSecurityRule := mkSpecIngress {
  si_Protocol : string;
  si_Source : string;
  si_IcmpOptions : SpecIcmpOptions;
  si_IsStateless : bool;
  si_SourceType : string;
  si_TcpOptions : SpecPortOptions;
  si_UdpOptions : SpecPortOptions;
  si_Description : string
}.

Record SecurityListSpec := mkSecurityListSpec {
  spec_CompartmentId : string;
  spec_EgressSecurityRules : list SecurityListEgressSecurityRule;
  spec_IngressSecurityRules : list SecurityListIngressSecurityRule;
  spec_VcnId : string;
  spec_DefinedTags : option MapValues;
  spec_DisplayName : string;
  spec_FreeformTags : option Tags
}.

Record SecurityListStatus := mkSecurityListStatus {
  st_OsokStatus : OSOKStatus;
  st_CompartmentId : string;
  st_DisplayName : string;
  st_EgressSecurityRules : list SecurityListEgressSecurityRule;
  st_Id : string;
  st_IngressSecurityRules : list SecurityListIngressSecurityRule;
  st_LifecycleState : string;
  st_TimeCreated : string;
  st_VcnId : string;
  st_DefinedTags : option MapValues;
  st_FreeformTags : option Tags
}.
Definition emptySecurityListStatus : SecurityListStatus := mkSecurityListStatus emptyStatus "" "" [] "" [] "" "" "" None None.

#[export, refine] Instance SecurityListStatus_block : StatusBlock SecurityListStatus := {|
  OsokStatus := st_OsokStatus;
  set_OsokStatus b s := mkSecurityListStatus b (st_CompartmentId s) (st_DisplayName s) (st_EgressSecurityRules s) (st_Id s)
                          (st_IngressSecurityRules s) (st_LifecycleState s) (st_TimeCreated s) (st_VcnId s) (st_DefinedTags s) (st_FreeformTags s);
  osok_set := _; set_osok := _; set_set := _
|}.
Proof. all: by intros []. Defined.

Notation SecurityListResource := (Resource SecurityListSpec SecurityListStatus).

(** The SDK's types. *)
Record PortRange := mkPortRange { pr_Max : option Z; pr_Min : option Z }.
Record IcmpOptions := mkIcmp { icmp_Type : option Z; icmp_Code : option Z }.
Record PortOptions := mkPorts { DestinationPortRange : option PortRange; SourcePortRange : option PortRange }.

Record EgressSecurityRule := mkEgress {
  eg_Destination : option string;
  eg_Protocol : option string;
  eg_DestinationType : string;
  eg_IcmpOptions : option IcmpOptions;
  eg_IsStateless : option bool;
  eg_TcpOptions : option PortOptions;
  eg_UdpOptions : option PortOptions;
  eg_Description : option string
}.

Record IngressSecurityRule := mkIngress {
  in_Protocol : option string;
  in_Source : option string;
  in_IcmpOptions : option IcmpOptions;
  in_IsStateless : option bool;
  in_SourceType : string;
  in_TcpOptions : option PortOptions;
  in_UdpOptions : option PortOptions;
  in_Description : option string
}.

Record SdkSecurityList := mkSdkSecurityList {
  sdk_CompartmentId : option string;
  sdk_DisplayName : option string;
  sdk_EgressSecurityRules : list EgressSecurityRule;
  sdk_Id : option string;
  sdk_IngressSecurityRules : list IngressSecurityRule;
  sdk_LifecycleState : string;
  sdk_TimeCreated : option string;
  sdk_VcnId : option string;
  sdk_DefinedTags : option SdkTags;
  sdk_FreeformTags : option Tags
}.

Record CreateSecurityListDetails := mkCreateSecurityList {
  cd_CompartmentId : option string;
  cd_EgressSecurityRules : list EgressSecurityRule;
  cd_IngressSecurityRules : list IngressSecurityRule;
  cd_VcnId : option string;
  cd_DefinedTags : option SdkTags;
  cd_DisplayName : option string;
  cd_FreeformTags : option Tags
}.

(** A nil field is left out of the request; an empty list of rules is sent. *)
Record UpdateSecurityListDetails := mkUpdateSecurityList {
  ud_DefinedTags : option SdkTags;
  ud_DisplayName : option string;
  ud_EgressSecurityRules : option (list EgressSecurityRule);
  ud_FreeformTags : option Tags;
  ud_IngressSecurityRules : option (list IngressSecurityRule)
}.
Definition noUpdateDetails : UpdateSecurityListDetails := mkUpdateSecurityList None None None None None.

#[export] Instance PortRange_eq_dec : EqDecision PortRange.
Proof. solve_decision. Defined.
#[export] Instance IcmpOptions_eq_dec : EqDecision IcmpOptions.
Proof. solve_decision. Defined.
#[export] Instance PortOptions_eq_dec : EqDecision PortOptions.
Proof. solve_decision. Defined.
#[export] Instance EgressSecurityRule_eq_dec : EqDecision EgressSecurityRule.
Proof. solve_decision. Defined.
#[export] Instance IngressSecurityRule_eq_dec : EqDecision IngressSecurityRule.
Proof. solve_decision. Defined.
#[export] Instance UpdateSecurityListDetails_eq_dec : EqDecision UpdateSecurityListDetails.
Proof. solve_decision. Defined.

(** The dynamic types a response can have; another one is known by its name. *)
Inductive SecurityListResponse :=
| SecurityListBody (current : SdkSecurityList)
| CreateSecurityListResponse (current : SdkSecurityList)
| GetSecurityListResponse (current : SdkSecurityList)
| UpdateSecurityListResponse (current : SdkSecurityList)
| OtherResponse (typeName : string).

Definition securityListFromResponse (response : SecurityListResponse) : option SdkSecurityList :=
  match response with
  | SecurityListBody c | CreateSecurityListResponse c | GetSecurityListResponse c | UpdateSecurityListResponse c => Some c
  | OtherResponse _ => None
  end.

Definition response_type (response : SecurityListResponse) : string :=
  match response with
  | SecurityListBody _ => "core.SecurityList"
  | CreateSecurityListResponse _ => "core.CreateSecurityListResponse"
  | GetSecurityListResponse _ => "core.GetSecurityListResponse"
  | UpdateSecurityListResponse _ => "core.UpdateSecurityListResponse"
  | OtherResponse name => name
  end.

(** ** Conversion of rules *)

Definition convertSpecIcmpOptions (typ code : Z) : option IcmpOptions :=
  if (typ =? 0)%Z && (code =? 0)%Z then None
  else Some (mkIcmp (Some typ) (if (code =? 0)%Z then None else Some code)).

Definition convertSpecPortRange (min max : Z) : option PortRange :=
  if (min =? 0)%Z && (max =? 0)%Z then None else Some (mkPortRange (Some max) (Some min)).

(** [convertSpecTCPOptions] and [convertSpecUDPOptions] have the same body. *)
Definition convertSpecPortOptions (dstMin dstMax srcMin srcMax : Z) : option PortOptions :=
  match convertSpecPortRange dstMin dstMax, convertSpecPortRange srcMin srcMax with
  | None, None => None
  | destination, source => Some (mkPorts destination source)
  end.
Definition convertSpecTCPOptions := convertSpecPortOptions.
Definition convertSpecUDPOptions := convertSpecPortOptions.

Definition options_of (convert : Z -> Z -> Z -> Z -> option PortOptions) (o : SpecPortOptions) : option PortOptions :=
  convert (spr_Min (spo_DestinationPortRange o)) (spr_Max (spo_DestinationPortRange o))
    (spr_Min (spo_SourcePortRange o)) (spr_Max (spo_SourcePortRange o)).

(** An enum field is set when the spec's text is not empty. *)
Definition enum_text (value : string) : string := if (value =? "")%string then "" else TrimSpace value.

Definition convertSpecEgressRuleToOCI (rule : SecurityListEgressSecurityRule) : EgressSecurityRule :=
  mkEgress (Some (se_Destination rule)) (Some (se_Protocol rule)) (enum_text (se_DestinationType rule))
    (convertSpecIcmpOptions (sic_Type (se_IcmpOptions rule)) (sic_Code (se_IcmpOptions rule)))
    (if se_IsStateless rule then Some true else None)
    (options_of convertSpecTCPOptions (se_TcpOptions rule)) (options_of convertSpecUDPOptions (se_UdpOptions rule))
    (nonempty (se_Description rule)).
Definition convertSpecEgressRulesToOCI (rules : list SecurityListEgressSecurityRule) : list EgressSecurityRule :=
  convertSpecEgressRuleToOCI <$> rules.

Definition convertSpecIngressRuleToOCI (rule : SecurityListIngressSecurityRule) : IngressSecurityRule :=
  mkIngress (Some (si_Protocol rule)) (Some (si_Source rule))
    (convertSpecIcmpOptions (sic_Type (si_IcmpOptions rule)) (sic_Code (si_IcmpOptions rule)))
    (if si_IsStateless rule then Some true else None) (enum_text (si_SourceType rule))
    (options_of convertSpecTCPOptions (si_TcpOptions rule)) (options_of convertSpecUDPOptions (si_UdpOptions rule))
    (nonempty (si_Description rule)).
Definition convertSpecIngressRulesToOCI (rules : list SecurityListIngressSecurityRule) : list IngressSecurityRule :=
  convertSpecIngressRuleToOCI <$> rules.

(** The generic accessors: nil pointers read as zero or as absent. *)
Definition intValue {T} (input : option T) (getter : T -> option Z) : Z :=
  match input with None => 0%Z | Some v => default 0%Z (getter v) end.
Definition nestedIntPresent {T} (input : option T) (getter : T -> option Z) : bool :=
  match input with None => false | Some v => bool_decide (is_Some (getter v)) end.
Definition portRangePresent {T} (input : option T) (getter : T -> option PortRange) : bool :=
  match input with None => false | Some v => bool_decide (is_Some (getter v)) end.
Definition portRangeMin {T} (input : option T) (getter : T -> option PortRange) : Z :=
  match input with
  | None => 0%Z
  | Some v => match getter v with None => 0%Z | Some range => default 0%Z (pr_Min range) end
  end.
Definition portRangeMax {T} (input : option T) (getter : T -> option PortRange) : Z :=
  match input with
  | None => 0%Z
  | Some v => match getter v with None => 0%Z | Some range => default 0%Z (pr_Max range) end
  end.

(** The eight [convertOCIPortRangeTo...Status] functions have this body. *)
Definition convertOCIPortRangeToStatus {T} (input : option T) (getter : T -> option PortRange) : SpecPortRange :=
  mkSpecPortRange (portRangeMin input getter) (portRangeMax input getter).

Definition ports_status (options : option PortOptions) : SpecPortOptions :=
  mkSpecPorts (convertOCIPortRangeToStatus options DestinationPortRange) (convertOCIPortRangeToStatus options SourcePortRange).
Definition icmp_status (options : option IcmpOptions) : SpecIcmpOptions :=
  mkSpecIcmp (intValue options icmp_Type) (intValue options icmp_Code).

Definition convertOCIEgressRulesToStatus (rules : list EgressSecurityRule) : list SecurityListEgressSecurityRule :=
  (fun rule => mkSpecEgress (stringValue (eg_Destination rule)) (stringValue (eg_Protocol rule)) (eg_DestinationType rule)
     (icmp_status (eg_IcmpOptions rule)) (boolValue (eg_IsStateless rule)) (ports_status (eg_TcpOptions rule))
     (ports_status (eg_UdpOptions rule)) (stringValue (eg_Description rule))) <$> rules.

Definition convertOCIIngressRulesToStatus (rules : list IngressSecurityRule) : list SecurityListIngressSecurityRule :=
  (fun rule => mkSpecIngress (stringValue (in_Protocol rule)) (stringValue (in_Source rule)) (icmp_status (in_IcmpOptions rule))
     (boolValue (in_IsStateless rule)) (in_SourceType rule) (ports_status (in_TcpOptions rule))
     (ports_status (in_UdpOptions rule)) (stringValue (in_Description rule))) <$> rules.

(** ** Comparison of rules *)

Record normalizedSecurityRule := mkNormalized {
  endpointType : string;
  endpoint : string;
  protocol : string;
  typeQualifier : string;
  stateless : bool;
  description : string;
  icmpType : Z;
  hasIcmpType : bool;
  icmpCode : Z;
  hasIcmpCode : bool;
  tcpDstMin : Z;
  tcpDstMax : Z;
  hasTCPDst : bool;
  tcpSrcMin : Z;
  tcpSrcMax : Z;
  hasTCPSrc : bool;
  udpDstMin : Z;
  udpDstMax : Z;
  hasUDPDst : bool;
  udpSrcMin : Z;
  udpSrcMax : Z;
  hasUDPSrc : bool
}.
#[export] Instance normalizedSecurityRule_eq_dec : EqDecision normalizedSecurityRule.
Proof. solve_decision. Defined.

(** The part the two normalisations share. *)
Definition normalizeSecurityRule (typeQualifier endpointType : string) (endpoint protocol : option string) (stateless : option bool)
  (description : option string) (icmp : option IcmpOptions) (tcp udp : option PortOptions) : normalizedSecurityRule :=
  mkNormalized (ToUpper (TrimSpace endpointType)) (TrimSpace (stringValue endpoint)) (TrimSpace (stringValue protocol)) typeQualifier
    (boolValue stateless) (TrimSpace (stringValue description))
    (intValue icmp icmp_Type) (nestedIntPresent icmp icmp_Type) (intValue icmp icmp_Code) (nestedIntPresent icmp icmp_Code)
    (portRangeMin tcp DestinationPortRange) (portRangeMax tcp DestinationPortRange) (portRangePresent tcp DestinationPortRange)
    (portRangeMin tcp SourcePortRange) (portRangeMax tcp SourcePortRange) (portRangePresent tcp SourcePortRange)
    (portRangeMin udp DestinationPortRange) (portRangeMax udp DestinationPortRange) (portRangePresent udp DestinationPortRange)
    (portRangeMin udp SourcePortRange) (portRangeMax udp SourcePortRange) (portRangePresent udp SourcePortRange).

Definition normalizeEgressSecurityRule (rule : EgressSecurityRule) : normalizedSecurityRule :=
  normalizeSecurityRule "egress" (eg_DestinationType rule) (eg_Destination rule) (eg_Protocol rule) (eg_IsStateless rule)
    (eg_Description rule) (eg_IcmpOptions rule) (eg_TcpOptions rule) (eg_UdpOptions rule).
Definition normalizeIngressSecurityRule (rule : IngressSecurityRule) : normalizedSecurityRule :=
  normalizeSecurityRule "ingress" (in_SourceType rule) (in_Source rule) (in_Protocol rule) (in_IsStateless rule)
    (in_Description rule) (in_IcmpOptions rule) (in_TcpOptions rule) (in_UdpOptions rule).

Definition strconvBool (value : bool) : string := if value then "1" else "0".
Definition strconvInt (value : Z) : string := Itoa value.

Definition key_parts (rule : normalizedSecurityRule) : list string :=
  [typeQualifier rule; endpointType rule; endpoint rule; protocol rule; strconvBool (stateless rule); description rule;
   strconvBool (hasIcmpType rule); strconvInt (icmpType rule); strconvBool (hasIcmpCode rule); strconvInt (icmpCode rule);
   strconvBool (hasTCPDst rule); strconvInt (tcpDstMin rule); strconvInt (tcpDstMax rule);
   strconvBool (hasTCPSrc rule); strconvInt (tcpSrcMin rule); strconvInt (tcpSrcMax rule);
   strconvBool (hasUDPDst rule); strconvInt (udpDstMin rule); strconvInt (udpDstMax rule);
   strconvBool (hasUDPSrc rule); strconvInt (udpSrcMin rule); strconvInt (udpSrcMax rule)].
Definition normalizedSecurityRuleKey (rule : normalizedSecurityRule) : string := Join (key_parts rule) (String NUL EmptyString).

Definition normalizeEgressSecurityRules (rules : list EgressSecurityRule) : list normalizedSecurityRule :=
  sort_by normalizedSecurityRuleKey (normalizeEgressSecurityRule <$> rules).
Definition normalizeIngressSecurityRules (rules : list IngressSecurityRule) : list normalizedSecurityRule :=
  sort_by normalizedSecurityRuleKey (normalizeIngressSecurityRule <$> rules).

Definition normalizedEgressSecurityRulesEqual (current desired : list EgressSecurityRule) : bool :=
  bool_decide (normalizeEgressSecurityRules current = normalizeEgressSecurityRules desired).
Definition normalizedIngressSecurityRulesEqual (current desired : list IngressSecurityRule) : bool :=
  bool_decide (normalizeIngressSecurityRules current = normalizeIngressSecurityRules desired).

(** ** Request bodies *)

Definition buildCreateSecurityListDetails (spec : SecurityListSpec) : CreateSecurityListDetails :=
  mkCreateSecurityList (Some (spec_CompartmentId spec)) (convertSpecEgressRulesToOCI (spec_EgressSecurityRules spec))
    (convertSpecIngressRulesToOCI (spec_IngressSecurityRules spec)) (Some (spec_VcnId spec))
    (ConvertToOciDefinedTags <$> spec_DefinedTags spec) (nonempty (spec_DisplayName spec)) (spec_FreeformTags spec).

Definition validateSecurityListCreateOnlyDrift (spec : SecurityListSpec) (current : SdkSecurityList) : option GoError :=
  create_only_drift "SecurityList"
    [(stringCreateOnlyMatches (sdk_CompartmentId current) (spec_CompartmentId spec), "compartmentId");
     (stringCreateOnlyMatches (sdk_VcnId current) (spec_VcnId spec), "vcnId")].

Definition update_details (spec : SecurityListSpec) (current : SdkSecurityList) : UpdateSecurityListDetails :=
  let desiredFreeformTags := desiredFreeformTagsForUpdate (spec_FreeformTags spec) (sdk_FreeformTags current) in
  let desiredDefinedTags := desiredDefinedTagsForUpdate (spec_DefinedTags spec) (sdk_DefinedTags current) in
  let desiredEgressRules := convertSpecEgressRulesToOCI (spec_EgressSecurityRules spec) in
  let desiredIngressRules := convertSpecIngressRulesToOCI (spec_IngressSecurityRules spec) in
  mkUpdateSecurityList (tags_update (sdk_DefinedTags current) desiredDefinedTags)
    (update_field (stringPtrEqual (sdk_DisplayName current) (spec_DisplayName spec)) (spec_DisplayName spec))
    (update_field (normalizedEgressSecurityRulesEqual (sdk_EgressSecurityRules current) desiredEgressRules) desiredEgressRules)
    (tags_update (sdk_FreeformTags current) desiredFreeformTags)
    (update_field (normalizedIngressSecurityRulesEqual (sdk_IngressSecurityRules current) desiredIngressRules) desiredIngressRules).

Definition buildUpdateRequest (resource : SecurityListResource) (current : SdkSecurityList)
  : result (option (string * UpdateSecurityListDetails)) GoError :=
  match exposed_id "SecurityList" (sdk_Id current) with
  | Err e => Err e
  | Ok id =>
      match validateSecurityListCreateOnlyDrift (Spec resource) current with
      | Some e => Err e
      | None =>
          let updateDetails := update_details (Spec resource) current in
          if bool_decide (updateDetails = noUpdateDetails) then Ok None else Ok (Some (id, updateDetails))
      end
  end.

(** ** Hooks *)

Definition buildGeneratedUpdateBody (resource : SecurityListResource) (currentResponse : SecurityListResponse)
  : result (option UpdateSecurityListDetails) GoError :=
  match securityListFromResponse currentResponse with
  | None => Err (ErrText ("unexpected SecurityList current response type " +++ response_type currentResponse))
  | Some current =>
      match buildUpdateRequest resource current with
      | Err e => Err e
      | Ok None => Ok None
      | Ok (Some (_, updateDetails)) => Ok (Some updateDetails)
      end
  end.

Definition securityListKind : NetworkKind :=
  mkNetworkKind "SecurityList"
    (fun state =>
       if (state =? "AVAILABLE")%string then Some Active
       else if (state =? "PROVISIONING")%string then Some Provisioning
       else if (state =? "UPDATING")%string then Some Updating
       else if (state =? "TERMINATING")%string || (state =? "TERMINATED")%string then Some Terminating
       else None)
    id.
Definition observed (current : SdkSecurityList) : Observed := mkObserved (sdk_Id current) (sdk_DisplayName current) (sdk_LifecycleState current).

Definition projectStatus (current : SdkSecurityList) (resource : SecurityListResource) : SecurityListResource :=
  with_status (fun status =>
    mkSecurityListStatus (st_OsokStatus status) (stringValue (sdk_CompartmentId current)) (stringValue (sdk_DisplayName current))
      (convertOCIEgressRulesToStatus (sdk_EgressSecurityRules current)) (stringValue (sdk_Id current))
      (convertOCIIngressRulesToStatus (sdk_IngressSecurityRules current)) (sdk_LifecycleState current)
      (stringValue (sdk_TimeCreated current)) (stringValue (sdk_VcnId current))
      (convertOCIToStatusDefinedTags (sdk_DefinedTags current)) (cloneStringMap (sdk_FreeformTags current))) resource.

Definition projectStatusFromResponse (response : SecurityListResponse) (resource : SecurityListResource) : result SecurityListResource GoError :=
  match securityListFromResponse response with
  | None => Err (ErrText ("unexpected SecurityList status response type " +++ response_type response))
  | Some current => Ok (projectStatus current resource)
  end.

Definition currentSecurityListTrackedOCID (resource : SecurityListResource) : string := TrimSpace (Ocid (st_OsokStatus (Status resource))).

Definition clearTrackedIdentity (resource : SecurityListResource) : SecurityListResource := with_status (fun _ => emptySecurityListStatus) resource.

(** The status before, and the resource with the cleared status. *)
Definition clearProjectedStatus (resource : SecurityListResource) : SecurityListStatus * SecurityListResource :=
  let previous := Status resource in
  let trackedID := TrimSpace (Ocid (st_OsokStatus previous)) in
  (previous,
   mkResource (Spec resource)
     (mkSecurityListStatus (st_OsokStatus previous) "" "" [] (if (trackedID =? "")%string then "" else st_Id previous) [] "" "" "" None None)).

(** ** The client *)

Section SecurityListClient.
Context {W : Type} (clock : ST W Time).
Context (sdkContractErr : option GoError) (delegate : option (CtxClient SecurityListResource W)).

Definition applyLifecycleFromResponse (response : SecurityListResponse) : ST (SecurityListResource * W) (OSOKResponse * option GoError) :=
  match securityListFromResponse response with
  | None => fail clock (ErrText ("unexpected SecurityList lifecycle response type " +++ response_type response))
  | Some current => applyLifecycle clock securityListKind (observed current)
  end.

Definition markTerminatingFromResponse (response : SecurityListResponse) : ST (SecurityListResource * W) unit :=
  match securityListFromResponse response with
  | None => st_ret tt
  | Some current => markTerminating clock securityListKind (observed current)
  end.

Definition applyDeleteOutcome (response : SecurityListResponse) (stage : string)
  : ST (SecurityListResource * W) (result DeleteOutcome GoError) :=
  match securityListFromResponse response with
  | None => st_ret (Err (ErrText ("unexpected SecurityList delete response type " +++ response_type response)))
  | Some current =>
      if (stage =? DeleteConfirmStageAlreadyPending)%string then st_ret (Ok (mkOutcome false false))
      else markTerminating clock securityListKind (observed current) ;;; st_ret (Ok (mkOutcome true false))
  end.

Definition CreateOrUpdate (skip : bool) (namespace : string) : ST (SecurityListResource * W) (OSOKResponse * option GoError) :=
  match delegate, sdkContractErr with
  | None, _ => fail clock (ErrText "SecurityList generated runtime delegate is not configured")
  | Some _, Some err => fail clock err
  | Some delegate, None => cc_CreateOrUpdate delegate skip namespace
  end.

Definition Delete : ST (SecurityListResource * W) (bool * option GoError) :=
  match delegate, sdkContractErr with
  | None, _ => st_ret (false, Some (ErrText "SecurityList generated runtime delegate is not configured"))
  | Some _, Some err => st_ret (false, Some err)
  | Some delegate, None =>
      let* resource := the_resource in
      if (TrimSpace (currentSecurityListTrackedOCID resource) =? "")%string then
        markDeleted clock "OCI resource identifier is not recorded" ;;; st_ret (true, None)
      else cc_Delete delegate
  end.
End SecurityListClient.

(** ** Keys *)

Definition no_NUL (s : string) : Prop := no_char NUL s = true.

Lemma pretty_N_go_no_NUL x s : no_NUL s -> no_NUL (pretty_N_go x s).
Proof.
  revert s. induction (N.lt_wf_0 x) as [x _ IH]. intros s Hs. destruct (decide (0 < x)%N) as [Hx|Hx].
  - rewrite pretty_N_go_step by done. apply IH; [by apply N.div_lt|]. unfold no_NUL. cbn [no_char].
    apply andb_true_iff. split; [|done]. unfold pretty_N_char. by repeat case_match.
  - replace x with 0%N by lia. by rewrite pretty_N_go_0.
Qed.

Lemma strconvInt_no_NUL z : no_NUL (strconvInt z).
Proof.
  assert (HN : forall n, no_NUL (pretty (n : N))).
  { intros n. unfold pretty, pretty_N. case_decide; [done|]. by apply pretty_N_go_no_NUL. }
  unfold strconvInt, Itoa. destruct z as [|p|p]; [done|apply HN|]. change (no_NUL ("-" +++ pretty (N.pos p))).
  unfold no_NUL. change (no_char NUL (pretty (N.pos p)) = true). apply HN.
Qed.

Lemma strconvBool_no_NUL b : no_NUL (strconvBool b).
Proof. by destruct b. Qed.

#[export] Instance strconvInt_inj : Inj (=) (=) strconvInt.
Proof. unfold strconvInt, Itoa. apply _. Qed.
#[export] Instance strconvBool_inj : Inj (=) (=) strconvBool.
Proof. by intros [] []. Qed.

(** The texts of a rule contain no NUL byte. *)
Definition clean (rule : normalizedSecurityRule) : Prop :=
  no_NUL (typeQualifier rule) /\ no_NUL (endpointType rule) /\ no_NUL (endpoint rule) /\ no_NUL (protocol rule) /\ no_NUL (description rule).

Lemma key_parts_clean rule : clean rule -> Forall (fun part => no_char NUL part = true) (key_parts rule).
Proof.
  intros (? & ? & ? & ? & ?). unfold key_parts. repeat constructor; try done;
    solve [apply strconvInt_no_NUL | apply strconvBool_no_NUL].
Qed.

Lemma key_parts_inj r1 r2 : key_parts r1 = key_parts r2 -> r1 = r2.
Proof.
  unfold key_parts. intros H. injection H as. destruct r1, r2. cbn in *.
  repeat match goal with
  | H : strconvInt _ = strconvInt _ |- _ => apply (inj strconvInt) in H
  | H : strconvBool _ = strconvBool _ |- _ => apply (inj strconvBool) in H
  end. by subst.
Qed.

Lemma normalizedSecurityRuleKey_inj r1 r2 :
  clean r1 -> clean r2 -> normalizedSecurityRuleKey r1 = normalizedSecurityRuleKey r2 -> r1 = r2.
Proof.
  intros H1 H2 H. apply key_parts_inj. apply (Join_inj NUL) in H; [done..| |]; by apply key_parts_clean.
Qed.

(** Sorting by the key makes the order of rules irrelevant. *)
Lemma sorted_rules_eq rules rules' :
  Forall clean rules -> sort_by normalizedSecurityRuleKey rules = sort_by normalizedSecurityRuleKey rules' <-> rules ≡ₚ rules'.
Proof.
  intros Hc. apply sort_by_eq. rewrite Forall_forall in Hc. intros x y Hx Hy. apply normalizedSecurityRuleKey_inj; auto.
Qed.

(** ** Properties *)

(** The two directions at once. *)
Definition rules_equal (current : SdkSecurityList) (spec : SecurityListSpec) : bool :=
  normalizedEgressSecurityRulesEqual (sdk_EgressSecurityRules current) (convertSpecEgressRulesToOCI (spec_EgressSecurityRules spec)) &&
  normalizedIngressSecurityRulesEqual (sdk_IngressSecurityRules current) (convertSpecIngressRulesToOCI (spec_IngressSecurityRules spec)).

Definition clean_list (current : SdkSecurityList) : Prop :=
  Forall clean (normalizeEgressSecurityRule <$> sdk_EgressSecurityRules current) /\
  Forall clean (normalizeIngressSecurityRule <$> sdk_IngressSecurityRules current).

Lemma egress_equal_iff current desired :
  Forall clean (normalizeEgressSecurityRule <$> current) ->
  normalizedEgressSecurityRulesEqual current desired = true <->
  normalizeEgressSecurityRule <$> current ≡ₚ normalizeEgressSecurityRule <$> desired.
Proof. intros Hc. unfold normalizedEgressSecurityRulesEqual. rewrite bool_decide_eq_true. by apply sorted_rules_eq. Qed.

Lemma ingress_equal_iff current desired :
  Forall clean (normalizeIngressSecurityRule <$> current) ->
  normalizedIngressSecurityRulesEqual current desired = true <->
  normalizeIngressSecurityRule <$> current ≡ₚ normalizeIngressSecurityRule <$> desired.
Proof. intros Hc. unfold normalizedIngressSecurityRulesEqual. rewrite bool_decide_eq_true. by apply sorted_rules_eq. Qed.

(** The comparison of security rules decides equality of multisets: a live list counts as having the rules of the spec exactly
    when its normalised egress rules and its normalised ingress rules are permutations of those of the spec; no two different rules
    share a sort key, although the key is the text of their fields joined together. *)
Theorem security_rules_compared_as_multisets current spec :
  clean_list current ->
  rules_equal current spec = true <->
  (normalizeEgressSecurityRule <$> sdk_EgressSecurityRules current ≡ₚ
     normalizeEgressSecurityRule <$> convertSpecEgressRulesToOCI (spec_EgressSecurityRules spec)) /\
  (normalizeIngressSecurityRule <$> sdk_IngressSecurityRules current ≡ₚ
     normalizeIngressSecurityRule <$> convertSpecIngressRulesToOCI (spec_IngressSecurityRules spec)).
Proof.
  intros [He Hi]. unfold rules_equal. rewrite andb_true_iff. by rewrite egress_equal_iff, ingress_equal_iff.
Qed.

Lemma icmp_round_trip o : icmp_status (convertSpecIcmpOptions (sic_Type o) (sic_Code o)) = o.
Proof.
  destruct o as [t c]. unfold convertSpecIcmpOptions. cbn.
  destruct (t =? 0)%Z eqn:Et, (c =? 0)%Z eqn:Ec; cbn; bool_prop; by subst.
Qed.

Lemma ports_round_trip o : ports_status (options_of convertSpecPortOptions o) = o.
Proof.
  destruct o as [[dmin dmax] [smin smax]]. unfold options_of, convertSpecPortOptions, convertSpecPortRange. cbn.
  destruct (dmin =? 0)%Z eqn:E1, (dmax =? 0)%Z eqn:E2, (smin =? 0)%Z eqn:E3, (smax =? 0)%Z eqn:E4; cbn; bool_prop; by subst.
Qed.

Lemma nonempty_value s : stringValue (nonempty s) = s.
Proof. unfold nonempty. by destruct (String.eqb_spec s ""). Qed.

Lemma enum_text_trimmed s : TrimSpace s = s -> enum_text s = s.
Proof. unfold enum_text. by destruct (String.eqb_spec s ""). Qed.

(** C28. Security rules survive the round trip through the SDK's types: rules sent to the service and projected back into the
    status are the rules of the spec, whatever their options, as long as their type fields carry no surrounding blanks. *)
Theorem security_rules_round_trip egress ingress :
  Forall (fun rule => TrimSpace (se_DestinationType rule) = se_DestinationType rule) egress ->
  Forall (fun rule => TrimSpace (si_SourceType rule) = si_SourceType rule) ingress ->
  convertOCIEgressRulesToStatus (convertSpecEgressRulesToOCI egress) = egress /\
  convertOCIIngressRulesToStatus (convertSpecIngressRulesToOCI ingress) = ingress.
Proof.
  unfold convertOCIEgressRulesToStatus, convertSpecEgressRulesToOCI, convertOCIIngressRulesToStatus, convertSpecIngressRulesToOCI.
  intros He Hi. split; [induction He as [|[] l Hr _ IH]|induction Hi as [|[] l Hr _ IH]]; try done;
    rewrite !fmap_cons, IH; f_equal; cbn in Hr |- *; unfold convertSpecTCPOptions, convertSpecUDPOptions;
    rewrite icmp_round_trip, !ports_round_trip, nonempty_value, (enum_text_trimmed _ Hr); by case_match.
Qed.

(** Some ICMP restrictions cannot be expressed: a rule of the spec that names ICMP type 0 (echo reply) without a code is sent
    without ICMP options, which the service takes as all ICMP types, and a rule that names code 0 is sent without a code, which it
    takes as all codes of the type; no spec at all makes the operator send a rule for echo replies only, or one with code 0. *)
Theorem icmp_restriction_lost (rule : SecurityListEgressSecurityRule) (rule' : SecurityListIngressSecurityRule) :
  (se_IcmpOptions rule = mkSpecIcmp 0 0 -> eg_IcmpOptions (convertSpecEgressRuleToOCI rule) = None) /\
  (forall t, t <> 0%Z -> se_IcmpOptions rule = mkSpecIcmp t 0 ->
     eg_IcmpOptions (convertSpecEgressRuleToOCI rule) = Some (mkIcmp (Some t) None)) /\
  (forall o, eg_IcmpOptions (convertSpecEgressRuleToOCI rule) = Some o \/ in_IcmpOptions (convertSpecIngressRuleToOCI rule') = Some o ->
     icmp_Code o <> Some 0%Z /\ o <> mkIcmp (Some 0%Z) None).
Proof.
  assert (Hgen : forall t c o, convertSpecIcmpOptions t c = Some o -> icmp_Code o <> Some 0%Z /\ o <> mkIcmp (Some 0%Z) None).
  { intros t c o. unfold convertSpecIcmpOptions. destruct (t =? 0)%Z eqn:Et, (c =? 0)%Z eqn:Ec; cbn; intros [= <-]; cbn; bool_prop; split; congruence. }
  split; [|split].
  - intros E. unfold convertSpecEgressRuleToOCI. cbn. by rewrite E.
  - intros t Ht E. unfold convertSpecEgressRuleToOCI. cbn. rewrite E. cbn. unfold convertSpecIcmpOptions. by destruct t.
  - intros o [H|H]; exact (Hgen _ _ _ H).
Qed.

(** ** Updates *)

Record update_stored (details : UpdateSecurityListDetails) (current next : SdkSecurityList) : Prop := {
  stored_DefinedTags : stored (ud_DefinedTags details) (sdk_DefinedTags current) (sdk_DefinedTags next);
  stored_DisplayName : stored_string (ud_DisplayName details) (sdk_DisplayName current) (sdk_DisplayName next);
  stored_Egress : normalizeEgressSecurityRule <$> sdk_EgressSecurityRules next ≡ₚ
    normalizeEgressSecurityRule <$> default (sdk_EgressSecurityRules current) (ud_EgressSecurityRules details);
  stored_FreeformTags : stored (ud_FreeformTags details) (sdk_FreeformTags current) (sdk_FreeformTags next);
  stored_Ingress : normalizeIngressSecurityRule <$> sdk_IngressSecurityRules next ≡ₚ
    normalizeIngressSecurityRule <$> default (sdk_IngressSecurityRules current) (ud_IngressSecurityRules details);
  kept_Id : sdk_Id next = sdk_Id current;
  kept_Compartment : sdk_CompartmentId next = sdk_CompartmentId current;
  kept_Vcn : sdk_VcnId next = sdk_VcnId current
}.

Lemma egress_settled current next desired :
  Forall clean (normalizeEgressSecurityRule <$> current) -> Forall clean (normalizeEgressSecurityRule <$> next) ->
  normalizeEgressSecurityRule <$> next ≡ₚ
    normalizeEgressSecurityRule <$> default current (update_field (normalizedEgressSecurityRulesEqual current desired) desired) ->
  normalizedEgressSecurityRulesEqual next desired = true.
Proof.
  intros Hc Hn Hs. apply egress_equal_iff; [done|]. destruct (normalizedEgressSecurityRulesEqual current desired) eqn:E; cbn in Hs; [|done].
  apply egress_equal_iff in E; [|done]. by rewrite Hs.
Qed.

Lemma ingress_settled current next desired :
  Forall clean (normalizeIngressSecurityRule <$> current) -> Forall clean (normalizeIngressSecurityRule <$> next) ->
  normalizeIngressSecurityRule <$> next ≡ₚ
    normalizeIngressSecurityRule <$> default current (update_field (normalizedIngressSecurityRulesEqual current desired) desired) ->
  normalizedIngressSecurityRulesEqual next desired = true.
Proof.
  intros Hc Hn Hs. apply ingress_equal_iff; [done|]. destruct (normalizedIngressSecurityRulesEqual current desired) eqn:E; cbn in Hs; [|done].
  apply ingress_equal_iff in E; [|done]. by rewrite Hs.
Qed.

(** Updates of a security list settle: when an update was needed and the service stored it, in any order of the rules and with
    the stateless flag filled in, the next reconcile of the same spec needs no update. *)
Lemma security_list_update_settles (resource resource' : SecurityListResource) current next id details :
  buildUpdateRequest resource current = Ok (Some (id, details)) ->
  update_stored details current next ->
  Spec resource' = Spec resource ->
  clean_list current -> clean_list next ->
  sdk_Id current = Some id /\ buildUpdateRequest resource' next = Ok None.
Proof.
  unfold buildUpdateRequest. destruct (exposed_id "SecurityList" (sdk_Id current)) as [i|] eqn:Ei; [|done].
  destruct (validateSecurityListCreateOnlyDrift (Spec resource) current) eqn:Ev; [done|]. case_bool_decide; [done|].
  intros [= <- <-] [H1 H2 H3 H4 H5 H6 H7 H8] Hspec [Hce Hci] [Hne Hni].
  cbn [update_details ud_DefinedTags ud_DisplayName ud_EgressSecurityRules ud_FreeformTags ud_IngressSecurityRules] in *.
  split; [by apply exposed_id_Some in Ei|]. rewrite H6, Ei, Hspec.
  unfold validateSecurityListCreateOnlyDrift in *. rewrite H7, H8, Ev. rewrite bool_decide_eq_true_2; [done|].
  unfold update_details. by rewrite (defined_tags_settled _ _ _ H1), (string_settled _ _ _ H2), (egress_settled _ _ _ Hce Hne H3),
    (freeform_tags_settled _ _ _ H4), (ingress_settled _ _ _ Hci Hni H5).
Qed.

#[export, refine] Instance SecurityList_updates : UpdateProtocol SecurityListResource SdkSecurityList UpdateSecurityListDetails := {|
  up_build := buildUpdateRequest; up_stored := update_stored; up_observable := clean_list; up_settles := _
|}.
Proof. intros resource current next id details Hc Hn Hb Hs. by eapply (security_list_update_settles resource resource). Defined.

(** A rule without a type differs from every rule with one. *)
Lemma untyped_rule_differs specRules current :
  Exists (fun rule => TrimSpace (se_DestinationType rule) = "") specRules ->
  Forall (fun rule => TrimSpace (eg_DestinationType rule) <> "") current ->
  normalizedEgressSecurityRulesEqual current (convertSpecEgressRulesToOCI specRules) = false.
Proof.
  intros (rule & Hin & Ht)%Exists_exists Hall. apply not_true_is_false. intros E%bool_decide_eq_true.
  assert (Hp : normalizeEgressSecurityRule <$> current ≡ₚ normalizeEgressSecurityRule <$> convertSpecEgressRulesToOCI specRules).
  { unfold normalizeEgressSecurityRules in E. by rewrite <- (sort_by_perm normalizedSecurityRuleKey), E, sort_by_perm. }
  assert (Hmem : normalizeEgressSecurityRule (convertSpecEgressRuleToOCI rule) ∈ normalizeEgressSecurityRule <$> current).
  { rewrite Hp. by apply list_elem_of_fmap_2, list_elem_of_fmap_2. }
  apply list_elem_of_fmap in Hmem as (live & Heq & Hlive). rewrite Forall_forall in Hall. apply (Hall live Hlive).
  apply (f_equal endpointType) in Heq. change (ToUpper (TrimSpace (enum_text (se_DestinationType rule))) = ToUpper (TrimSpace (eg_DestinationType live))) in Heq.
  apply ToUpper_empty. rewrite <- Heq.
  unfold enum_text. destruct (se_DestinationType rule =? "")%string; [done|]. by rewrite TrimSpace_idem, Ht.
Qed.

(** Omitted fields of a security list never settle: as long as the service reports a display name for a spec without one, every
    reconcile asks for an update to the empty name, and as long as it reports a type for its egress rules (CIDR_BLOCK is the
    documented default) while the spec leaves the type of one of them open, every reconcile sends the egress rules again. *)
Theorem security_list_omitted_never_settle (resource : SecurityListResource) current id :
  exposed_id "SecurityList" (sdk_Id current) = Ok id ->
  validateSecurityListCreateOnlyDrift (Spec resource) current = None ->
  (forall name, spec_DisplayName (Spec resource) = "" -> sdk_DisplayName current = Some name -> name <> "" ->
     exists details, buildUpdateRequest resource current = Ok (Some (id, details)) /\ ud_DisplayName details = Some "") /\
  (Exists (fun rule => TrimSpace (se_DestinationType rule) = "") (spec_EgressSecurityRules (Spec resource)) ->
   Forall (fun rule => TrimSpace (eg_DestinationType rule) <> "") (sdk_EgressSecurityRules current) ->
     exists details, buildUpdateRequest resource current = Ok (Some (id, details)) /\
       ud_EgressSecurityRules details = Some (convertSpecEgressRulesToOCI (spec_EgressSecurityRules (Spec resource)))).
Proof.
  intros Hx Hv. unfold buildUpdateRequest. rewrite Hx, Hv.
  assert (Hgo : forall P : UpdateSecurityListDetails -> Prop, P (update_details (Spec resource) current) -> ~ P noUpdateDetails ->
    exists details, (if bool_decide (update_details (Spec resource) current = noUpdateDetails) then Ok None
                     else Ok (Some (id, update_details (Spec resource) current))) = Ok (E := GoError) (Some (id, details)) /\ P details).
  { intros P HP HN. rewrite bool_decide_eq_false_2; [eauto|]. intros E. rewrite E in HP. done. }
  split.
  - intros name Hs Hn Hne. apply Hgo; [|done]. unfold update_details. cbn [ud_DisplayName]. rewrite Hs, Hn. cbn [stringPtrEqual].
    destruct (String.eqb_spec name ""); done.
  - intros Hex Hall. apply Hgo; [|done]. unfold update_details. cbn [ud_EgressSecurityRules].
    rewrite untyped_rule_differs; done.
Qed.

(** ** A concrete list *)

Definition no_range : SpecPortRange := mkSpecPortRange 0 0.
Definition no_ports : SpecPortOptions := mkSpecPorts no_range no_range.
Definition ex_spec (name : string) : SecurityListSpec :=
  mkSecurityListSpec "ocid1.compartment"
    [mkSpecEgress "0.0.0.0/0" "6" "CIDR_BLOCK" (mkSpecIcmp 0 0) false (mkSpecPorts (mkSpecPortRange 443 443) no_range) no_ports "https";
     mkSpecEgress "10.0.0.0/8" "1" "" (mkSpecIcmp 3 4) true no_ports no_ports ""]
    [mkSpecIngress "1" "10.0.0.0/8" (mkSpecIcmp 0 0) false "CIDR_BLOCK" no_ports no_ports "ping replies"]
    "ocid1.vcn" None name None.
Definition ex_list (name : string) (egress : list EgressSecurityRule) : SdkSecurityList :=
  mkSdkSecurityList (Some "ocid1.compartment") (Some name) egress (Some "ocid1.securitylist")
    (convertSpecIngressRulesToOCI (spec_IngressSecurityRules (ex_spec name))) "AVAILABLE" None (Some "ocid1.vcn") None None.
Definition ex_egress : list EgressSecurityRule := rev (convertSpecEgressRulesToOCI (spec_EgressSecurityRules (ex_spec ""))).
Definition typed_egress : list EgressSecurityRule :=
  [mkEgress (Some "0.0.0.0/0") (Some "6") "CIDR_BLOCK" None (Some false) None None None].
Definition ex_resource (name : string) : SecurityListResource := mkResource (ex_spec name) emptySecurityListStatus.

Lemma ex_list_clean name : clean_list (ex_list name ex_egress).
Proof. unfold clean_list. cbn [sdk_EgressSecurityRules sdk_IngressSecurityRules ex_list]. split; repeat constructor. Qed.

Lemma security_rules_compared_as_multisets_witness :
  normalizeEgressSecurityRule <$> sdk_EgressSecurityRules (ex_list "a" ex_egress) ≡ₚ
  normalizeEgressSecurityRule <$> convertSpecEgressRulesToOCI (spec_EgressSecurityRules (ex_spec "a")).
Proof.
  apply (security_rules_compared_as_multisets (ex_list "a" ex_egress) (ex_spec "a") (ex_list_clean "a")). vm_compute. reflexivity.
Defined.

Lemma security_rules_round_trip_witness :
  convertOCIEgressRulesToStatus (convertSpecEgressRulesToOCI (spec_EgressSecurityRules (ex_spec "a"))) = spec_EgressSecurityRules (ex_spec "a") /\
  convertOCIIngressRulesToStatus (convertSpecIngressRulesToOCI (spec_IngressSecurityRules (ex_spec "a"))) = spec_IngressSecurityRules (ex_spec "a").
Proof. apply (security_rules_round_trip (spec_EgressSecurityRules (ex_spec "a")) (spec_IngressSecurityRules (ex_spec "a"))); repeat constructor. Defined.

Lemma icmp_restriction_lost_witness :
  eg_IcmpOptions (convertSpecEgressRuleToOCI (mkSpecEgress "0.0.0.0/0" "1" "" (mkSpecIcmp 0 0) false no_ports no_ports "")) = None.
Proof.
  apply (icmp_restriction_lost (mkSpecEgress "0.0.0.0/0" "1" "" (mkSpecIcmp 0 0) false no_ports no_ports "")
    (mkSpecIngress "1" "10.0.0.0/8" (mkSpecIcmp 0 0) false "" no_ports no_ports "")). reflexivity.
Defined.

Lemma security_list_omitted_never_settle_witness :
  (exists details, buildUpdateRequest (ex_resource "") (ex_list "generated" ex_egress) = Ok (Some ("ocid1.securitylist", details)) /\
     ud_DisplayName details = Some "") /\
  (exists details, buildUpdateRequest (ex_resource "a") (ex_list "a" typed_egress) = Ok (Some ("ocid1.securitylist", details)) /\
     ud_EgressSecurityRules details = Some (convertSpecEgressRulesToOCI (spec_EgressSecurityRules (ex_spec "a")))).
Proof.
  split.
  - refine (proj1 (security_list_omitted_never_settle (ex_resource "") (ex_list "generated" ex_egress) "ocid1.securitylist" eq_refl eq_refl)
      "generated" eq_refl eq_refl _). discriminate.
  - refine (proj2 (security_list_omitted_never_settle (ex_resource "a") (ex_list "a" typed_egress) "ocid1.securitylist" eq_refl eq_refl) _ _).
    + apply Exists_cons_tl, Exists_cons_hd. reflexivity.
    + repeat constructor. discriminate.
Defined.
