(* ===== verification/SubnetClient.v ===== *)
(** * Subnets ([pkg/servicemanager/core/subnet/subnet_runtime.go])

    The hooks and the client of subnets.  Unlike the other networking clients it updates a
    tracked subnet itself and leaves only the creation to the generated client.  The last section
    runs whole reconciles against a service ([SubnetService]) and shows that they converge.  A slice of the
    spec that the code compares with nil is an option. *)

From stdpp Require Import gmap sorting.
From S2P Require Import Prelude GoStrings Sorting Shared GoErrors GoValue AsyncStatus Reconciler JsonValues ServiceClients ResourceTags NetworkClients.
Local Open Scope string_scope.
Local Open Scope list_scope.
Local Open Scope go_scope.

(** ** Data *)

Record SubnetSpec := mkSubnetSpec {
  spec_CompartmentId : string;
  spec_VcnId : string;
  spec_AvailabilityDomain : string;
  spec_CidrBlock : string;
  spec_Ipv4CidrBlocks : list string;
  spec_DefinedTags : option MapValues;
  spec_DhcpOptionsId : string;
  spec_DisplayName : string;
  spec_DnsLabel : string;
  spec_FreeformTags : option Tags;
  spec_Ipv6CidrBlock : string;
  spec_Ipv6CidrBlocks : option (list string);
  spec_ProhibitInternetIngress : bool;
  spec_ProhibitPublicIpOnVnic : bool;
  spec_RouteTableId : string;
  spec_SecurityListIds : option (list string)
}.

(** Assignments to the fields the client normalises. *)
Definition set_SecurityListIds v s := mkSubnetSpec (spec_CompartmentId s) (spec_VcnId s) (spec_AvailabilityDomain s) (spec_CidrBlock s) (spec_Ipv4CidrBlocks s)
  (spec_DefinedTags s) (spec_DhcpOptionsId s) (spec_DisplayName s) (spec_DnsLabel s) (spec_FreeformTags s) (spec_Ipv6CidrBlock s)
  (spec_Ipv6CidrBlocks s) (spec_ProhibitInternetIngress s) (spec_ProhibitPublicIpOnVnic s) (spec_RouteTableId s) v.
Definition set_Ipv6CidrBlocks v s := mkSubnetSpec (spec_CompartmentId s) (spec_VcnId s) (spec_AvailabilityDomain s) (spec_CidrBlock s) (spec_Ipv4CidrBlocks s)
  (spec_DefinedTags s) (spec_DhcpOptionsId s) (spec_DisplayName s) (spec_DnsLabel s) (spec_FreeformTags s) (spec_Ipv6CidrBlock s)
  v (spec_ProhibitInternetIngress s) (spec_ProhibitPublicIpOnVnic s) (spec_RouteTableId s) (spec_SecurityListIds s).
Definition set_Prohibit ingress vnic s := mkSubnetSpec (spec_CompartmentId s) (spec_VcnId s) (spec_AvailabilityDomain s) (spec_CidrBlock s)
  (spec_Ipv4CidrBlocks s) (spec_DefinedTags s) (spec_DhcpOptionsId s) (spec_DisplayName s) (spec_DnsLabel s) (spec_FreeformTags s)
  (spec_Ipv6CidrBlock s) (spec_Ipv6CidrBlocks s) ingress vnic (spec_RouteTableId s) (spec_SecurityListIds s).

Record SubnetStatus := mkSubnetStatus {
  st_OsokStatus : OSOKStatus;
  st_CidrBlock : string;
  st_CompartmentId : string;
  st_Id : string;
  st_LifecycleState : string;
  st_RouteTableId : string;
  st_VcnId : string;
  st_VirtualRouterIp : string;
  st_VirtualRouterMac : string;
  st_AvailabilityDomain : string;
  st_Ipv4CidrBlocks : list string;
  st_DefinedTags : option MapValues;
  st_DhcpOptionsId : string;
  st_DisplayName : string;
  st_DnsLabel : string;
  st_FreeformTags : option Tags;
  st_Ipv6CidrBlock : string;
  st_Ipv6CidrBlocks : list string;
  st_Ipv6VirtualRouterIp : string;
  st_ProhibitInternetIngress : bool;
  st_ProhibitPublicIpOnVnic : bool;
  st_SecurityListIds : list string;
  st_SubnetDomainName : string;
  st_TimeCreated : string
}.
(** [SubnetStatus{OsokStatus: b, Id: id}]. *)
Definition status_with (b : OSOKStatus) (id : string) : SubnetStatus :=
  mkSubnetStatus b "" "" id "" "" "" "" "" "" [] None "" "" "" None "" [] "" false false [] "" "".

#[export, refine] Instance SubnetStatus_block : StatusBlock SubnetStatus := {|
  OsokStatus := st_OsokStatus;
  set_OsokStatus b s := mkSubnetStatus b (st_CidrBlock s) (st_CompartmentId s) (st_Id s) (st_LifecycleState s) (st_RouteTableId s) (st_VcnId s)
    (st_VirtualRouterIp s) (st_VirtualRouterMac s) (st_AvailabilityDomain s) (st_Ipv4CidrBlocks s) (st_DefinedTags s) (st_DhcpOptionsId s)
    (st_DisplayName s) (st_DnsLabel s) (st_FreeformTags s) (st_Ipv6CidrBlock s) (st_Ipv6CidrBlocks s) (st_Ipv6VirtualRouterIp s)
    (st_ProhibitInternetIngress s) (st_ProhibitPublicIpOnVnic s) (st_SecurityListIds s) (st_SubnetDomainName s) (st_TimeCreated s);
  osok_set := _; set_osok := _; set_set := _
|}.
Proof. all: by intros []. Defined.

Notation SubnetResource := (Resource SubnetSpec SubnetStatus).

Record SdkSubnet := mkSdkSubnet {
  sdk_CidrBlock : option string;
  sdk_CompartmentId : option string;
  sdk_Id : option string;
  sdk_LifecycleState : string;
  sdk_RouteTableId : option string;
  sdk_VcnId : option string;
  sdk_VirtualRouterIp : option string;
  sdk_VirtualRouterMac : option string;
  sdk_AvailabilityDomain : option string;
  sdk_Ipv4CidrBlocks : list string;
  sdk_DefinedTags : option SdkTags;
  sdk_DhcpOptionsId : option string;
  sdk_DisplayName : option string;
  sdk_DnsLabel : option string;
  sdk_FreeformTags : option Tags;
  sdk_Ipv6CidrBlock : option string;
  sdk_Ipv6CidrBlocks : list string;
  sdk_Ipv6VirtualRouterIp : option string;
  sdk_ProhibitInternetIngress : option bool;
  sdk_ProhibitPublicIpOnVnic : option bool;
  sdk_SecurityListIds : list string;
  sdk_SubnetDomainName : option string;
  sdk_TimeCreated : option string
}.

Record CreateSubnetDetails := mkCreateSubnet {
  cd_CompartmentId : option string;
  cd_VcnId : option string;
  cd_AvailabilityDomain : option string;
  cd_CidrBlock : option string;
  cd_Ipv4CidrBlocks : option (list string);
  cd_DefinedTags : option SdkTags;
  cd_DhcpOptionsId : option string;
  cd_DisplayName : option string;
  cd_DnsLabel : option string;
  cd_FreeformTags : option Tags;
  cd_Ipv6CidrBlock : option string;
  cd_Ipv6CidrBlocks : option (list string);
  cd_ProhibitInternetIngress : option bool;
  cd_ProhibitPublicIpOnVnic : option bool;
  cd_RouteTableId : option string;
  cd_SecurityListIds : option (list string)
}.

(** A nil field is left out of the request. *)
Record UpdateSubnetDetails := mkUpdateSubnet {
  ud_CidrBlock : option string;
  ud_DhcpOptionsId : option string;
  ud_DisplayName : option string;
  ud_FreeformTags : option Tags;
  ud_DefinedTags : option SdkTags;
  ud_RouteTableId : option string;
  ud_SecurityListIds : option (list string);
  ud_Ipv6CidrBlock : option string;
  ud_Ipv6CidrBlocks : option (list string)
}.
Definition noUpdateDetails : UpdateSubnetDetails := mkUpdateSubnet None None None None None None None None None.
#[export] Instance UpdateSubnetDetails_eq_dec : EqDecision UpdateSubnetDetails.
Proof. solve_decision. Defined.

(** ** Request bodies *)

(** [if len(values) > 0 { field = normalizeStringSlice(values) }]. *)
Definition nonempty_slice (values : option (list string)) : option (list string) :=
  match values with None | Some [] => None | Some l => Some (normalizeStringSlice l) end.

Definition buildCreateSubnetDetails (spec : SubnetSpec) : CreateSubnetDetails :=
  mkCreateSubnet (Some (spec_CompartmentId spec)) (Some (spec_VcnId spec)) (nonempty (spec_AvailabilityDomain spec))
    (Some (spec_CidrBlock spec)) None (ConvertToOciDefinedTags <$> spec_DefinedTags spec) (nonempty (spec_DhcpOptionsId spec))
    (nonempty (spec_DisplayName spec)) (nonempty (spec_DnsLabel spec)) (spec_FreeformTags spec) (nonempty (spec_Ipv6CidrBlock spec))
    (nonempty_slice (spec_Ipv6CidrBlocks spec)) (if spec_ProhibitInternetIngress spec then Some true else None)
    (if spec_ProhibitPublicIpOnVnic spec then Some true else None) (nonempty (spec_RouteTableId spec)) (nonempty_slice (spec_SecurityListIds spec)).

Definition subnetEquivalentProhibitFlagsObserved (spec : SubnetSpec) (current : SdkSubnet) : bool :=
  if negb (boolValue (sdk_ProhibitInternetIngress current)) || negb (boolValue (sdk_ProhibitPublicIpOnVnic current)) then false
  else spec_ProhibitInternetIngress spec || spec_ProhibitPublicIpOnVnic spec.

Definition subnetProhibitInternetIngressCreateOnlyMatches (spec : SubnetSpec) (current : SdkSubnet) : bool :=
  if boolCreateOnlyMatches (sdk_ProhibitInternetIngress current) (spec_ProhibitInternetIngress spec) then true
  else subnetEquivalentProhibitFlagsObserved spec current.
Definition subnetProhibitPublicIPOnVNICCreateOnlyMatches (spec : SubnetSpec) (current : SdkSubnet) : bool :=
  if boolCreateOnlyMatches (sdk_ProhibitPublicIpOnVnic current) (spec_ProhibitPublicIpOnVnic spec) then true
  else subnetEquivalentProhibitFlagsObserved spec current.

Definition validateSubnetCreateOnlyDrift (spec : SubnetSpec) (current : SdkSubnet) : option GoError :=
  create_only_drift "Subnet"
    [(stringCreateOnlyMatches (sdk_CompartmentId current) (spec_CompartmentId spec), "compartmentId");
     (stringCreateOnlyMatches (sdk_VcnId current) (spec_VcnId spec), "vcnId");
     (stringCreateOnlyMatches (sdk_AvailabilityDomain current) (spec_AvailabilityDomain spec), "availabilityDomain");
     (stringCreateOnlyMatches (sdk_DnsLabel current) (spec_DnsLabel spec), "dnsLabel");
     (subnetProhibitInternetIngressCreateOnlyMatches spec current, "prohibitInternetIngress");
     (subnetProhibitPublicIPOnVNICCreateOnlyMatches spec current, "prohibitPublicIpOnVnic")].

(** A collection that the spec may leave nil. *)
Definition slice_update (current : list string) (desired : option (list string)) : option (list string) :=
  match desired with
  | None => None
  | Some l => update_field (normalizedStringSlicesEqual current l) (normalizeStringSlice l)
  end.

Definition update_details (spec : SubnetSpec) (current : SdkSubnet) : UpdateSubnetDetails :=
  mkUpdateSubnet (text_update (sdk_CidrBlock current) (spec_CidrBlock spec)) (text_update (sdk_DhcpOptionsId current) (spec_DhcpOptionsId spec))
    (text_update (sdk_DisplayName current) (spec_DisplayName spec)) (map_update (sdk_FreeformTags current) (spec_FreeformTags spec))
    (map_update (sdk_DefinedTags current) (ConvertToOciDefinedTags <$> spec_DefinedTags spec))
    (text_update (sdk_RouteTableId current) (spec_RouteTableId spec)) (slice_update (sdk_SecurityListIds current) (spec_SecurityListIds spec))
    (text_update (sdk_Ipv6CidrBlock current) (spec_Ipv6CidrBlock spec)) (slice_update (sdk_Ipv6CidrBlocks current) (spec_Ipv6CidrBlocks spec)).

(** [None] when no update is needed, the identifier and the details otherwise. *)
Definition buildUpdateRequest (spec : SubnetSpec) (current : SdkSubnet) : result (option (string * UpdateSubnetDetails)) GoError :=
  match exposed_id "Subnet" (sdk_Id current) with
  | Err e => Err e
  | Ok id =>
      match validateSubnetCreateOnlyDrift spec current with
      | Some e => Err e
      | None =>
          let updateDetails := update_details spec current in
          if bool_decide (updateDetails = noUpdateDetails) then Ok None else Ok (Some (id, updateDetails))
      end
  end.

(** ** Normalisation of the spec *)

Definition normalizeMutableCollections (current : option SdkSubnet) (spec : SubnetSpec) : SubnetSpec :=
  let spec := set_SecurityListIds (normalizeStringSlice <$> spec_SecurityListIds spec) spec in
  let spec := set_Ipv6CidrBlocks (normalizeStringSlice <$> spec_Ipv6CidrBlocks spec) spec in
  match current with
  | None => spec
  | Some current =>
      (* append([]string(nil), values...) is nil for no values *)
      let copied (l : list string) := match l with [] => None | _ => Some l end in
      let spec := if normalizedStringSlicesEqual (sdk_SecurityListIds current) (default [] (spec_SecurityListIds spec))
                  then set_SecurityListIds (copied (sdk_SecurityListIds current)) spec else spec in
      if normalizedStringSlicesEqual (sdk_Ipv6CidrBlocks current) (default [] (spec_Ipv6CidrBlocks spec))
      then set_Ipv6CidrBlocks (copied (sdk_Ipv6CidrBlocks current)) spec else spec
  end.

Definition normalizeEquivalentCreateOnlyFields (current : SdkSubnet) (spec : SubnetSpec) : SubnetSpec :=
  if subnetEquivalentProhibitFlagsObserved spec current then set_Prohibit true true spec else spec.

(** ** Status *)

Definition isSubnetTransientCondition (condition : OSOKConditionType) : bool :=
  (condition =? Provisioning)%string || (condition =? Updating)%string || (condition =? Terminating)%string.

Definition dropSubnetStaleConditions (current : OSOKConditionType) (status : OSOKStatus) : OSOKStatus :=
  set_Conditions
    (List.filter (fun condition => negb (cond_Type condition =? Failed)%string &&
                                   negb ((current =? Active)%string && isSubnetTransientCondition (cond_Type condition)))
       (Conditions status)) status.

Definition subnetKind : NetworkKind :=
  mkNetworkKind "Subnet"
    (fun state =>
       if (state =? "AVAILABLE")%string then Some Active
       else if (state =? "PROVISIONING")%string then Some Provisioning
       else if (state =? "UPDATING")%string then Some Updating
       else if (state =? "TERMINATING")%string then Some Terminating
       else None)
    (fun status => dropSubnetStaleConditions Active (set_Current None status)).

Definition observed (current : SdkSubnet) : Observed := mkObserved (sdk_Id current) (sdk_DisplayName current) (sdk_LifecycleState current).

Definition subnetLifecycleIsRetryable (state : string) : bool :=
  (state =? "PROVISIONING")%string || (state =? "UPDATING")%string || (state =? "TERMINATING")%string.

(** [Ipv4CidrBlocks] is not among the projected fields. *)
Definition projectStatus (current : SdkSubnet) (resource : SubnetResource) : SubnetResource :=
  with_status (fun status =>
    mkSubnetStatus (st_OsokStatus status) (stringValue (sdk_CidrBlock current)) (stringValue (sdk_CompartmentId current))
      (stringValue (sdk_Id current)) (sdk_LifecycleState current) (stringValue (sdk_RouteTableId current)) (stringValue (sdk_VcnId current))
      (stringValue (sdk_VirtualRouterIp current)) (stringValue (sdk_VirtualRouterMac current)) (stringValue (sdk_AvailabilityDomain current)) []
      (convertOCIToStatusDefinedTags (sdk_DefinedTags current)) (stringValue (sdk_DhcpOptionsId current)) (stringValue (sdk_DisplayName current))
      (stringValue (sdk_DnsLabel current)) (cloneStringMap (sdk_FreeformTags current)) (stringValue (sdk_Ipv6CidrBlock current))
      (sdk_Ipv6CidrBlocks current) (stringValue (sdk_Ipv6VirtualRouterIp current)) (boolValue (sdk_ProhibitInternetIngress current))
      (boolValue (sdk_ProhibitPublicIpOnVnic current)) (sdk_SecurityListIds current) (stringValue (sdk_SubnetDomainName current))
      (stringValue (sdk_TimeCreated current))) resource.

Definition currentSubnetOCID (resource : SubnetResource) : string := TrimSpace (Ocid (st_OsokStatus (Status resource))).
Definition clearTrackedIdentity (resource : SubnetResource) : SubnetResource := with_status (fun _ => status_with emptyStatus "") resource.
Definition clearProjectedStatus (resource : SubnetResource) : SubnetResource :=
  with_status (fun status => status_with (st_OsokStatus status) (if (currentSubnetOCID resource =? "")%string then "" else st_Id status)) resource.

Definition with_spec (f : SubnetSpec -> SubnetSpec) (resource : SubnetResource) : SubnetResource := mkResource (f (Spec resource)) (Status resource).

(** ** The client *)

Section SubnetClient.
Context {W : Type} (clock : ST W Time).
(** The SDK's calls; the responses of an update and of a delete also carry their headers. *)
Context (getSubnet : string -> ST W (result SdkSubnet GoError)).
Context (createSubnet : CreateSubnetDetails -> ST W (result SdkSubnet GoError)).
Context (updateSubnet : string -> UpdateSubnetDetails -> ST W (result (GoValue * SdkSubnet) GoError)).
Context (deleteSubnet : string -> ST W (result GoValue GoError)).
Context (initErr : option GoError) (delegate : option (CtxClient SubnetResource W)).
Notation Answer := (OSOKResponse * option GoError)%type.

Definition record_request_id (response : GoValue) : SubnetResource -> SubnetResource :=
  with_osok (fun status => default status (RecordResponseOpcRequestID (Some status) response)).

Definition finish (current : SdkSubnet) : ST (SubnetResource * W) Answer :=
  on_resource (projectStatus current) ;;; applyLifecycle clock subnetKind (observed current).

Definition fail_normalized (err : GoError) : ST (SubnetResource * W) Answer :=
  let* normalized := st_lift (normalizeOCIError err) in fail clock normalized.

Definition update (id : string) (details : UpdateSubnetDetails) : ST (SubnetResource * W) Answer :=
  let* response := on_world (updateSubnet id details) in
  match response with
  | Err err => fail_normalized err
  | Ok (response, current) =>
      on_resource (record_request_id response) ;;;
      match exposed_id "Subnet" (sdk_Id current) with
      | Ok _ => finish current
      | Err _ =>
          let currentID := TrimSpace id in
          if (currentID =? "")%string then fail clock (ErrText "Subnet update response did not include an OCI identifier")
          else
            let* current := on_world (getSubnet currentID) in
            match current with
            | Err err => fail_normalized err
            | Ok current => finish current
            end
      end
  end.

Definition create : ST (SubnetResource * W) Answer :=
  let* resource := the_resource in
  let* response := on_world (createSubnet (buildCreateSubnetDetails (Spec resource))) in
  match response with
  | Err err => fail_normalized err
  | Ok current => finish current
  end.

(** What the client does with a tracked subnet it could read. *)
Definition reconcile_tracked (current : SdkSubnet) : ST (SubnetResource * W) Answer :=
  on_resource (projectStatus current) ;;;
  on_resource (with_spec (normalizeMutableCollections (Some current))) ;;;
  on_resource (with_spec (normalizeEquivalentCreateOnlyFields current)) ;;;
  if subnetLifecycleIsRetryable (sdk_LifecycleState current) then applyLifecycle clock subnetKind (observed current)
  else
    let* resource := the_resource in
    match validateSubnetCreateOnlyDrift (Spec resource) current with
    | Some err => fail clock err
    | None =>
        if (sdk_LifecycleState current =? "TERMINATED")%string then
          fail clock (ErrText ("Subnet lifecycle state " +++ Quote (sdk_LifecycleState current) +++ " is not modeled for create or update"))
        else
          match buildUpdateRequest (Spec resource) current with
          | Err err => fail clock err
          | Ok None => applyLifecycle clock subnetKind (observed current)
          | Ok (Some (id, details)) => update id details
          end
    end.

Definition run_delegate (delegate : CtxClient SubnetResource W) (namespace : string) : ST (SubnetResource * W) Answer :=
  let* resource := the_resource in
  let previousStatus := Status resource in
  on_resource clearProjectedStatus ;;;
  delegated delegate true namespace previousStatus.

Definition CreateOrUpdate (skip : bool) (namespace : string) : ST (SubnetResource * W) Answer :=
  match delegate with
  | None => fail clock (ErrText "subnet parity delegate is not configured")
  | Some delegate =>
      on_resource (with_spec (normalizeMutableCollections None)) ;;;
      let* resource := the_resource in
      let* tracked := read_tracked clock initErr getSubnet clearTrackedIdentity (fun _ => false) (currentSubnetOCID resource) in
      match tracked with
      | Answered answer => st_ret answer
      | Found current => reconcile_tracked current
      | Untracked | Recreate => run_delegate delegate namespace
      end
  end.

Definition Delete : ST (SubnetResource * W) (bool * option GoError) :=
  match initErr with
  | Some err => st_ret (false, Some err)
  | None =>
      let* resource := the_resource in
      let trackedID := currentSubnetOCID resource in
      if (trackedID =? "")%string then
        markDeleted clock "OCI resource identifier is not recorded" ;;; st_ret (true, None)
      else
        let* response := on_world (deleteSubnet trackedID) in
        match response with
        | Err err => delete_failed clock err "OCI resource no longer exists"
        | Ok response =>
            on_resource (record_request_id response) ;;;
            let* current := on_world (getSubnet trackedID) in
            match current with
            | Err err => delete_failed clock err "OCI resource deleted"
            | Ok current =>
                on_resource (projectStatus current) ;;;
                markTerminating clock subnetKind (observed current) ;;;
                st_ret (false, None)
            end
        end
  end.
End SubnetClient.

(** ** Normalising the spec *)

Lemma slice_update_normalized current desired : slice_update current (normalizeStringSlice <$> desired) = slice_update current desired.
Proof. destruct desired as [l|]; [|done]. cbn. by rewrite slices_equal_normalized, normalizeStringSlice_idem. Qed.

Lemma slice_update_equal current desired :
  normalizedStringSlicesEqual current (default [] desired) = true ->
  slice_update current (match current with [] => None | _ => Some current end) = slice_update current desired.
Proof.
  intros E. transitivity (@None (list string)).
  - destruct current as [|x l]; [done|]. unfold slice_update. by rewrite slices_equal_refl.
  - destruct desired as [l|]; [|done]. cbn in *. by rewrite E.
Qed.

(** The spec after the normalisations of one reconcile. *)
Definition normalized_spec (current : SdkSubnet) (spec : SubnetSpec) : SubnetSpec :=
  normalizeEquivalentCreateOnlyFields current (normalizeMutableCollections (Some current) (normalizeMutableCollections None spec)).

Lemma collections_details current spec :
  update_details (normalizeMutableCollections (Some current) (normalizeMutableCollections None spec)) current = update_details spec current.
Proof.
  unfold update_details, normalizeMutableCollections. cbn zeta.
  repeat match goal with |- context [if normalizedStringSlicesEqual ?a ?b then _ else _] => destruct (normalizedStringSlicesEqual a b) eqn:? end;
    cbn in *; f_equal; rewrite ?slice_update_normalized; try done.
  all: etransitivity; [apply slice_update_equal; eassumption|]; by rewrite !slice_update_normalized.
Qed.

(** Collections do not take part in the create-only comparison. *)
Lemma collections_drift current spec :
  validateSubnetCreateOnlyDrift (normalizeMutableCollections (Some current) (normalizeMutableCollections None spec)) current =
  validateSubnetCreateOnlyDrift spec current.
Proof. unfold normalizeMutableCollections. cbn zeta. by repeat case_match. Qed.

Lemma flags_drift current spec :
  validateSubnetCreateOnlyDrift (normalizeEquivalentCreateOnlyFields current spec) current = validateSubnetCreateOnlyDrift spec current.
Proof.
  unfold normalizeEquivalentCreateOnlyFields. destruct (subnetEquivalentProhibitFlagsObserved spec current) eqn:E; [|done].
  assert (Hm : subnetProhibitInternetIngressCreateOnlyMatches spec current = true /\ subnetProhibitPublicIPOnVNICCreateOnlyMatches spec current = true).
  { unfold subnetProhibitInternetIngressCreateOnlyMatches, subnetProhibitPublicIPOnVNICCreateOnlyMatches. rewrite E. by split; case_match. }
  unfold subnetEquivalentProhibitFlagsObserved in E. destruct (negb _ || negb _) eqn:En; [done|]. bool_prop.
  assert (Hm' : subnetProhibitInternetIngressCreateOnlyMatches (set_Prohibit true true spec) current = true /\
                subnetProhibitPublicIPOnVNICCreateOnlyMatches (set_Prohibit true true spec) current = true).
  { unfold subnetProhibitInternetIngressCreateOnlyMatches, subnetProhibitPublicIPOnVNICCreateOnlyMatches, boolCreateOnlyMatches.
    cbn [set_Prohibit spec_ProhibitInternetIngress spec_ProhibitPublicIpOnVnic].
    split; by match goal with H : ?x = true |- context [?x] => rewrite H end. }
  unfold validateSubnetCreateOnlyDrift. destruct Hm as [-> ->], Hm' as [-> ->]. done.
Qed.

Lemma subnet_normalized_drift current spec :
  validateSubnetCreateOnlyDrift (normalized_spec current spec) current = validateSubnetCreateOnlyDrift spec current.
Proof. unfold normalized_spec. by rewrite flags_drift, collections_drift. Qed.

Lemma subnet_normalized_build current spec : buildUpdateRequest (normalized_spec current spec) current = buildUpdateRequest spec current.
Proof.
  unfold buildUpdateRequest. rewrite subnet_normalized_drift. replace (update_details (normalized_spec current spec) current)
    with (update_details spec current); [done|].
  rewrite <- (collections_details current spec). unfold normalized_spec, normalizeEquivalentCreateOnlyFields. by case_match.
Qed.

Lemma subnet_none spec current id :
  exposed_id "Subnet" (sdk_Id current) = Ok id -> validateSubnetCreateOnlyDrift spec current = None ->
  update_details spec current = noUpdateDetails -> buildUpdateRequest spec current = Ok None.
Proof. unfold buildUpdateRequest. intros -> -> ->. by rewrite bool_decide_eq_true_2. Qed.

(** Rewriting the spec of a subnet is harmless: the client sorts and trims the collections of the spec, replaces them by the
    live ones when they are equal up to order, and sets both privacy flags when the service reports both for either; none of this
    changes whether the subnet is refused for create-only drift, whether an update is sent, or what it contains. *)
Theorem subnet_normalisation_transparent current spec :
  validateSubnetCreateOnlyDrift (normalized_spec current spec) current = validateSubnetCreateOnlyDrift spec current /\
  buildUpdateRequest (normalized_spec current spec) current = buildUpdateRequest spec current.
Proof. split; [apply subnet_normalized_drift|apply subnet_normalized_build]. Qed.

(** ** Updates *)

Record update_stored (details : UpdateSubnetDetails) (current next : SdkSubnet) : Prop := {
  stored_CidrBlock : stored (ud_CidrBlock details) (sdk_CidrBlock current) (sdk_CidrBlock next);
  stored_Dhcp : stored (ud_DhcpOptionsId details) (sdk_DhcpOptionsId current) (sdk_DhcpOptionsId next);
  stored_DisplayName : stored (ud_DisplayName details) (sdk_DisplayName current) (sdk_DisplayName next);
  stored_FreeformTags : stored (ud_FreeformTags details) (sdk_FreeformTags current) (sdk_FreeformTags next);
  stored_DefinedTags : stored (ud_DefinedTags details) (sdk_DefinedTags current) (sdk_DefinedTags next);
  stored_RouteTable : stored (ud_RouteTableId details) (sdk_RouteTableId current) (sdk_RouteTableId next);
  stored_SecurityLists : sdk_SecurityListIds next ≡ₚ default (sdk_SecurityListIds current) (ud_SecurityListIds details);
  stored_Ipv6Block : stored (ud_Ipv6CidrBlock details) (sdk_Ipv6CidrBlock current) (sdk_Ipv6CidrBlock next);
  stored_Ipv6Blocks : sdk_Ipv6CidrBlocks next ≡ₚ default (sdk_Ipv6CidrBlocks current) (ud_Ipv6CidrBlocks details);
  kept_Id : sdk_Id next = sdk_Id current;
  kept_create_only : forall spec, validateSubnetCreateOnlyDrift spec next = validateSubnetCreateOnlyDrift spec current
}.

Lemma slice_settled current desired next : next ≡ₚ default current (slice_update current desired) -> slice_update next desired = None.
Proof.
  unfold slice_update. destruct desired as [l|]; [|done]. intros Hs. rewrite (slices_equal_perm _ _ _ Hs).
  destruct (normalizedStringSlicesEqual current l) eqn:E; cbn; [by rewrite E|].
  unfold normalizedStringSlicesEqual. by rewrite normalizeStringSlice_idem, bool_decide_eq_true_2.
Qed.

(** Updates of a subnet settle: when an update was needed and the service stored it, in any order of its collections, the next
    reconcile of the same spec needs no update. *)
Lemma subnet_update_settles spec current next id details :
  buildUpdateRequest spec current = Ok (Some (id, details)) ->
  update_stored details current next ->
  sdk_Id current = Some id /\ buildUpdateRequest spec next = Ok None.
Proof.
  unfold buildUpdateRequest. destruct (exposed_id "Subnet" (sdk_Id current)) as [i|] eqn:Ei; [|done].
  destruct (validateSubnetCreateOnlyDrift spec current) eqn:Ev; [done|]. case_bool_decide; [done|].
  intros [= <- <-] [H1 H2 H3 H4 H5 H6 H7 H8 H9 H10 H11].
  cbn [update_details ud_CidrBlock ud_DhcpOptionsId ud_DisplayName ud_FreeformTags ud_DefinedTags ud_RouteTableId ud_SecurityListIds
       ud_Ipv6CidrBlock ud_Ipv6CidrBlocks] in *.
  split; [by apply exposed_id_Some in Ei|]. rewrite H10, Ei, H11, Ev. rewrite bool_decide_eq_true_2; [done|].
  unfold update_details. by rewrite (text_settled _ _ _ H1), (text_settled _ _ _ H2), (text_settled _ _ _ H3), (map_settled _ _ _ H4),
    (map_settled _ _ _ H5), (text_settled _ _ _ H6), (slice_settled _ _ _ H7), (text_settled _ _ _ H8), (slice_settled _ _ _ H9).
Qed.

#[export, refine] Instance Subnet_updates : UpdateProtocol SubnetSpec SdkSubnet UpdateSubnetDetails := {|
  up_build := buildUpdateRequest; up_stored := update_stored; up_observable _ := True; up_settles := _
|}.
Proof. intros spec current next id details _ _ Hb Hs. by eapply subnet_update_settles. Defined.

(** The IPv4 CIDR blocks of a subnet's spec are ignored: two specs that differ in nothing else make the same create request and
    the same update decision, no create request carries the blocks, and a spec that gives only blocks asks for an empty CIDR. *)
Theorem subnet_ipv4_blocks_ignored spec blocks current :
  let spec' := mkSubnetSpec (spec_CompartmentId spec) (spec_VcnId spec) (spec_AvailabilityDomain spec) (spec_CidrBlock spec) blocks
    (spec_DefinedTags spec) (spec_DhcpOptionsId spec) (spec_DisplayName spec) (spec_DnsLabel spec) (spec_FreeformTags spec) (spec_Ipv6CidrBlock spec)
    (spec_Ipv6CidrBlocks spec) (spec_ProhibitInternetIngress spec) (spec_ProhibitPublicIpOnVnic spec) (spec_RouteTableId spec) (spec_SecurityListIds spec) in
  buildCreateSubnetDetails spec' = buildCreateSubnetDetails spec /\
  buildUpdateRequest spec' current = buildUpdateRequest spec current /\
  cd_Ipv4CidrBlocks (buildCreateSubnetDetails spec') = None /\
  cd_CidrBlock (buildCreateSubnetDetails spec') = Some (spec_CidrBlock spec).
Proof. done. Qed.

(** ** The client *)

Section Theorems.
Context {W : Type} (clock : ST W Time) (getSubnet : string -> ST W (result SdkSubnet GoError)).

Lemma active_conditions kind now condNow current b :
  nk_Settle kind = (fun status => dropSubnetStaleConditions Active (set_Current None status)) ->
  Current (Async (active_block kind now condNow current b)) = None /\
  Forall (fun c => cond_Type c <> Failed /\ isSubnetTransientCondition (cond_Type c) = false) (Conditions (active_block kind now condNow current b)).
Proof.
  intros Hk. unfold active_block. rewrite Hk, UpdateOSOKStatusCondition_spec. split; [done|]. cbn [Conditions set_Conditions].
  apply Forall_app. split.
  - unfold dropSubnetStaleConditions, set_Reason. cbn [Conditions set_Conditions]. apply Forall_forall. intros c Hc.
    apply list_elem_of_In, List.filter_In in Hc as [_ Hc]. bool_prop. split; [done|]. by destruct (isSubnetTransientCondition _).
  - unfold appended_conditions. repeat case_match; repeat constructor; done.
Qed.

(** A settled subnet is left alone: when the tracked subnet is AVAILABLE and no field of the spec differs, a reconcile reads it
    once and makes no other call, whatever an update or the generated client would do; it reports success without a requeue, and no
    failed or transitional condition and no pending operation is left in the status. *)
Theorem subnet_settled skip namespace (resource : SubnetResource) w current w1 id :
  ticks clock ->
  currentSubnetOCID resource <> "" ->
  getSubnet (currentSubnetOCID resource) w = (Ret (Ok current), w1) ->
  sdk_LifecycleState current = "AVAILABLE" ->
  exposed_id "Subnet" (sdk_Id current) = Ok id ->
  validateSubnetCreateOnlyDrift (Spec resource) current = None ->
  update_details (Spec resource) current = noUpdateDetails ->
  exists resource' w',
    (forall updateSubnet delegate, CreateOrUpdate clock getSubnet updateSubnet None (Some delegate) skip namespace (resource, w) =
       (Ret (mkResponse true false 0%Z, None), (resource', w'))) /\
    rtc (tick clock) w1 w' /\ Reason (OsokStatus (Status resource')) = Active /\
    Current (Async (OsokStatus (Status resource'))) = None /\
    Forall (fun c => cond_Type c <> Failed /\ isSubnetTransientCondition (cond_Type c) = false) (Conditions (OsokStatus (Status resource'))).
Proof.
  intros Hc Hid Hget Hstate Hx Hv Hd.
  pose proof (subnet_none (Spec resource) current id Hx Hv Hd) as Hnone.
  set (r1 := mkResource (normalized_spec current (Spec resource)) (Status (projectStatus current resource))).
  destruct (applyLifecycle_active clock subnetKind (observed current) r1 w1 Hc) as (r' & w' & Hrun & Hw & _ & Hr & now & condNow & Hb).
  { unfold observed. cbn. by rewrite Hstate. }
  exists r', w'. split; [|rewrite Hb, osok_set in *; repeat split; auto; by apply active_conditions].
  intros updateSubnet delegate. unfold CreateOrUpdate. erewrite bind_step by reflexivity. erewrite bind_step by reflexivity.
  erewrite bind_step by (by apply read_tracked_found). unfold reconcile_tracked. do 3 erewrite bind_step by reflexivity.
  rewrite Hstate. change (subnetLifecycleIsRetryable "AVAILABLE") with false. cbn iota. erewrite bind_step by reflexivity.
  change (Spec _) with (normalized_spec current (Spec resource)) at 1 2. rewrite subnet_normalized_drift, Hv.
  change ("AVAILABLE" =? "TERMINATED")%string with false. cbn iota. rewrite subnet_normalized_build, Hnone. exact Hrun.
Qed.
End Theorems.

(** ** Reconciles against a service *)

Section Reconciles.
Context {W : Type} (clock : ST W Time) (getSubnet : string -> ST W (result SdkSubnet GoError)).
Context (updateSubnet : string -> UpdateSubnetDetails -> ST W (result (GoValue * SdkSubnet) GoError)).
(** The subnet the service holds, and the updates it stored so far. *)
Context (live : W -> SdkSubnet) (applied : W -> list UpdateSubnetDetails).

Definition same_service (w w' : W) : Prop := live w' = live w /\ applied w' = applied w.
Definition stores (details : UpdateSubnetDetails) (w w' : W) : Prop :=
  update_stored details (live w) (live w') /\ applied w' = applied w ++ [details].

(** What the service promises: a read reports the subnet it holds or fails, but not with a clear not-found; an update that
    succeeds was stored, one that fails was stored or not. *)
Class SubnetService : Prop := {
  svc_clock w : same_service w (snd (clock w));
  svc_get id w : same_service w (snd (getSubnet id w)) /\
    match fst (getSubnet id w) with
    | Ret (Ok current) => current = live w
    | Ret (Err err) => isReadNotFoundOCI err <> Ret true
    | Panic => True
    end;
  svc_update id details w : let '(answer, w') := updateSubnet id details w in
    stores details w w' \/ (same_service w w' /\ match answer with Ret (Ok _) => False | _ => True end)
}.
Context `{!SubnetService}.

#[local] Instance same_service_po : PreOrder same_service.
Proof. split; [by intros w|]. intros w1 w2 w3 [] []. split; congruence. Qed.

(** [m] makes no change to what the service holds. *)
Definition keeps {A} (m : ST (SubnetResource * W) A) : Prop := forall s, same_service (snd s) (snd (snd (m s))).

Lemma keeps_bind {A B} (m : ST (SubnetResource * W) A) (f : A -> ST (SubnetResource * W) B) :
  keeps m -> (forall a, keeps (f a)) -> keeps (st_bind m f).
Proof.
  intros Hm Hf s. unfold st_bind. specialize (Hm s). destruct (m s) as [[a|] s1]; [|done]. etransitivity; [exact Hm|apply Hf].
Qed.
Lemma keeps_world {A} (m : ST W A) : (forall w, same_service w (snd (m w))) -> keeps (on_world m).
Proof. intros Hm [r w]. specialize (Hm w). unfold on_world. by destruct (m w). Qed.
Lemma keeps_resource f : keeps (on_resource f).
Proof. by intros [r w]. Qed.
Lemma keeps_the_resource : keeps the_resource.
Proof. by intros [r w]. Qed.
Lemma keeps_pure {A} (o : outcome A) : keeps (st_lift o) .
Proof. by intros s. Qed.
Lemma keeps_return {A} (a : A) : keeps (st_ret a).
Proof. by intros s. Qed.

Create HintDb keeps.
Hint Resolve keeps_resource keeps_the_resource keeps_pure keeps_return svc_clock : keeps.
Ltac keeps_solve :=
  repeat first [apply keeps_bind; [|intros ?]|apply keeps_world; intros ?|case_match|progress (eauto with keeps)].

Lemma keeps_fail err : keeps (fail clock err).
Proof. unfold fail. keeps_solve. Qed.
Hint Resolve keeps_fail : keeps.
Lemma keeps_applyLifecycle current : keeps (applyLifecycle clock subnetKind current).
Proof. unfold applyLifecycle. keeps_solve. Qed.
Hint Resolve keeps_applyLifecycle : keeps.
Lemma keeps_finish current : keeps (finish clock current).
Proof. unfold finish. keeps_solve. Qed.
Lemma keeps_fail_normalized err : keeps (fail_normalized clock err).
Proof. unfold fail_normalized. keeps_solve. Qed.
Hint Resolve keeps_finish keeps_fail_normalized : keeps.

Lemma stores_then details w w1 w' : stores details w w1 -> same_service w1 w' -> stores details w w'.
Proof. intros [H1 H2] [H3 H4]. unfold stores. by rewrite H3, H4. Qed.

(** After the update call the client changes nothing more. *)
Lemma update_called id details r w :
  same_service (snd (updateSubnet id details w)) (snd (snd (update clock getSubnet updateSubnet id details (r, w)))).
Proof.
  destruct (updateSubnet id details w) as [[answer|] w1] eqn:Eu; unfold update, st_bind at 1; rewrite (on_world_run _ r w _ _ Eu); [|done].
  cbn [snd]. match goal with |- context [?m (r, w1)] => assert (Hk : keeps m); [|exact (Hk (r, w1))] end.
  keeps_solve; apply svc_get.
Qed.

(** An update changes the service by that update or not at all. *)
Lemma update_effect id details s :
  let s' := snd (update clock getSubnet updateSubnet id details s) in
  stores details (snd s) (snd s') \/ same_service (snd s) (snd s').
Proof.
  destruct s as [r w]. cbn zeta. pose proof (update_called id details r w) as Hk. pose proof (svc_update id details w) as Hu.
  destruct (updateSubnet id details w) as [answer w1]. destruct Hu as [Hu|[Hu _]]; [left; by eapply stores_then|right; by etransitivity].
Qed.

(** A reconcile of a tracked subnet changes the service only by the update that the spec asks for. *)
Lemma reconcile_effect delegate skip namespace (resource : SubnetResource) w :
  currentSubnetOCID resource <> "" ->
  let w' := snd (snd (CreateOrUpdate clock getSubnet updateSubnet None (Some delegate) skip namespace (resource, w))) in
  same_service w w' \/
  exists id details, buildUpdateRequest (Spec resource) (live w) = Ok (Some (id, details)) /\ stores details w w'.
Proof.
  intros Hid. cbn zeta. unfold CreateOrUpdate. do 2 (erewrite bind_step by reflexivity). change (currentSubnetOCID (with_spec _ resource)) with (currentSubnetOCID resource).
  unfold read_tracked. apply String.eqb_neq in Hid. rewrite Hid. destruct (svc_get (currentSubnetOCID resource) w) as [Hs Hr].
  destruct (getSubnet (currentSubnetOCID resource) w) as [[[current|err]|] w1] eqn:Eg; cbn [fst snd] in Hs, Hr.
  - subst current. erewrite bind_step by (erewrite bind_step by (by apply on_world_run); reflexivity).
    destruct Hs as [Hl Ha]. unfold reconcile_tracked. do 3 (erewrite bind_step by reflexivity).
    set (r1 := with_spec _ _). change (Spec r1) with (normalized_spec (live w) (Spec resource)) in *.
    destruct (subnetLifecycleIsRetryable _).
    { left. etransitivity; [by split|]. exact (keeps_applyLifecycle _ (r1, w1)). }
    erewrite bind_step by reflexivity. change (Spec r1) with (normalized_spec (live w) (Spec resource)).
    rewrite subnet_normalized_build. assert (Hfail : forall e, same_service w (snd (snd (fail clock e (r1, w1))))).
    { intros e. etransitivity; [by split|]. exact (keeps_fail e (r1, w1)). }
    destruct (validateSubnetCreateOnlyDrift _ _); [by left|]. destruct (_ =? "TERMINATED")%string; [by left|].
    destruct (buildUpdateRequest (Spec resource) (live w)) as [[[id details]|]|e] eqn:Eb; [|left|by left].
    + destruct (update_effect id details (r1, w1)) as [Hu|Hu]; cbn [snd] in Hu.
      * right. exists id, details. split; [done|]. destruct Hu as [Hu1 Hu2]. split; [by rewrite Hl in Hu1|by rewrite Ha in Hu2].
      * left. etransitivity; [by split|exact Hu].
    + etransitivity; [by split|]. exact (keeps_applyLifecycle _ (r1, w1)).
  - left. etransitivity; [exact Hs|]. clear Hid.
    unfold st_bind at 1. unfold st_bind at 1. rewrite (on_world_run _ _ _ _ _ Eg).
    unfold st_bind at 1, st_lift at 1. destruct (isReadNotFoundOCI err) as [[]|]; [done| |done].
    unfold st_bind at 1, st_lift at 1. destruct (normalizeOCIError err) as [n|]; [|done].
    unfold st_bind. pose proof (keeps_fail n (with_spec (normalizeMutableCollections None) resource, w1)) as Hk.
    by destruct (fail clock n _) as [[a|] [r2 w2]].
  - left. unfold st_bind at 1. unfold st_bind at 1. by rewrite (on_world_run _ _ _ _ _ Eg).
Qed.

(** A reconcile that finds a steady subnet the spec differs from, and whose update call succeeds, stores that update. *)
Lemma reconcile_progress delegate skip namespace (resource : SubnetResource) w w1 w2 id details answer :
  currentSubnetOCID resource <> "" ->
  getSubnet (currentSubnetOCID resource) w = (Ret (Ok (live w)), w1) ->
  subnetLifecycleIsRetryable (sdk_LifecycleState (live w)) = false -> sdk_LifecycleState (live w) <> "TERMINATED" ->
  buildUpdateRequest (Spec resource) (live w) = Ok (Some (id, details)) ->
  updateSubnet id details w1 = (Ret (Ok answer), w2) ->
  stores details w (snd (snd (CreateOrUpdate clock getSubnet updateSubnet None (Some delegate) skip namespace (resource, w)))).
Proof.
  intros Hid Hg Hretry Hterm Hb Hu. destruct (svc_get (currentSubnetOCID resource) w) as [[Hl Ha] _]. rewrite Hg in Hl, Ha. cbn [snd] in Hl, Ha.
  unfold CreateOrUpdate. do 2 (erewrite bind_step by reflexivity). change (currentSubnetOCID (with_spec _ resource)) with (currentSubnetOCID resource).
  unfold read_tracked. apply String.eqb_neq in Hid, Hterm. rewrite Hid.
  erewrite bind_step by (erewrite bind_step by (by apply on_world_run); reflexivity).
  unfold reconcile_tracked. do 3 (erewrite bind_step by reflexivity). set (r1 := with_spec _ _). rewrite Hretry.
  erewrite bind_step by reflexivity. change (Spec r1) with (normalized_spec (live w) (Spec resource)).
  rewrite subnet_normalized_build, subnet_normalized_drift, Hterm, Hb.
  assert (Hd : validateSubnetCreateOnlyDrift (Spec resource) (live w) = None).
  { unfold buildUpdateRequest in Hb. repeat case_match; done. }
  rewrite Hd. pose proof (svc_update id details w1) as Hs. rewrite Hu in Hs. destruct Hs as [[Hs1 Hs2]|[_ []]].
  pose proof (update_called id details r1 w1) as Hk. rewrite Hu in Hk.
  cbn [snd] in Hk. destruct Hk as [H3 H4]. split; [by rewrite H3, <-Hl|by rewrite H4, Hs2, Ha].
Qed.

(** Reconciles of one spec: each starts from the spec as it is stored in the cluster and from any status that tracks the subnet,
    and may fail or panic; between them the service may change what the comparison does not look at (the lifecycle state). *)
Inductive round (delegate : CtxClient SubnetResource W) (spec : SubnetSpec) : W -> W -> Prop :=
| round_reconcile skip namespace status w :
    currentSubnetOCID (mkResource spec status) <> "" ->
    round delegate spec w
      (snd (snd (CreateOrUpdate clock getSubnet updateSubnet None (Some delegate) skip namespace (mkResource spec status, w))))
| round_service w w' :
    applied w' = applied w -> buildUpdateRequest spec (live w') = buildUpdateRequest spec (live w) -> round delegate spec w w'.

Lemma settled_stays delegate spec w w' :
  rtc (round delegate spec) w w' -> buildUpdateRequest spec (live w) = Ok None ->
  applied w' = applied w /\ buildUpdateRequest spec (live w') = Ok None.
Proof.
  induction 1 as [|w1 w2 w3 [skip ns status w Hid|w2' w3' Ha Hb] _ IH]; [done| |]; intros Hn.
  - destruct (reconcile_effect delegate skip ns (mkResource spec status) w Hid) as [[Hl Ha]|(id & d & Hb & _)].
    + destruct IH as [IH1 IH2]; [by rewrite Hl|]. by rewrite IH1, Ha.
    + cbn [Spec] in Hb. congruence.
  - destruct IH as [IH1 IH2]; [by rewrite Hb|]. by rewrite IH1, Ha.
Qed.
End Reconciles.

(** C35. Reconciles of a tracked subnet converge.  However many runs of the whole [CreateOrUpdate] of an initialised client follow each
    other with an unchanged spec, from whatever statuses that track the subnet, failing or panicking or not, the service ends up with one stored update at
    most, and when there is one, the spec asks for none after it.  And a run gets there: when the spec asks for an update of the
    subnet the service holds, the read answers, the subnet is not in a transitional state nor terminated and the update call
    succeeds, that update is stored and the spec asks for nothing more.  The service holds one subnet ([SubnetService]): reads
    report it or fail with something other than a clear not-found, a successful update was stored ([update_stored]: the sent
    fields as sent, the others as before, lists in any order), a failed one was stored or had no effect; between the runs only
    what the comparison does not look at changes, such as the lifecycle state. *)
Theorem subnet_reconciles_converge {W} (clock : ST W Time) getSubnet updateSubnet (live : W -> SdkSubnet) applied
  (service : SubnetService clock getSubnet updateSubnet live applied) delegate spec :
  (forall w w',
     rtc (round clock getSubnet updateSubnet live applied delegate spec) w w' ->
     applied w' = applied w \/
     exists details, applied w' = applied w ++ [details] /\ buildUpdateRequest spec (live w') = Ok None) /\
  (forall skip namespace status w w1 w2 id details answer,
     let resource := mkResource spec status in
     let w' := snd (snd (CreateOrUpdate clock getSubnet updateSubnet None (Some delegate) skip namespace (resource, w))) in
     currentSubnetOCID resource <> "" ->
     getSubnet (currentSubnetOCID resource) w = (Ret (Ok (live w)), w1) ->
     subnetLifecycleIsRetryable (sdk_LifecycleState (live w)) = false -> sdk_LifecycleState (live w) <> "TERMINATED" ->
     buildUpdateRequest spec (live w) = Ok (Some (id, details)) ->
     updateSubnet id details w1 = (Ret (Ok answer), w2) ->
     applied w' = applied w ++ [details] /\ buildUpdateRequest spec (live w') = Ok None).
Proof.
  split.
  - induction 1 as [|w1 w2 w3 Hr Hrest IH]; [by left|].
    destruct Hr as [skip ns status w Hid|w2 w2' Ha Hb]; [|by rewrite <-Ha].
    destruct (reconcile_effect clock getSubnet updateSubnet live applied delegate skip ns (mkResource spec status) w Hid)
      as [[Hl Ha]|(id & details & Hb & Hu & Ha)]; [by rewrite <-Ha|].
    right. destruct (subnet_update_settles _ _ _ _ _ Hb Hu) as [_ Hn].
    destruct (settled_stays clock getSubnet updateSubnet live applied delegate spec _ _ Hrest Hn) as [H1 H2].
    exists details. by rewrite H1, Ha.
  - intros skip ns status w w1 w2 id details answer resource w' Hid Hg Hr Ht Hb Hu.
    destruct (reconcile_progress clock getSubnet updateSubnet live applied delegate skip ns resource w w1 w2 id details answer)
      as [Hs Ha]; try done.
    split; [exact Ha|]. exact (proj2 (subnet_update_settles _ _ _ _ _ Hb Hs)).
Qed.

(** ** A concrete subnet *)

Definition ex_spec (name : string) : SubnetSpec :=
  mkSubnetSpec "ocid1.compartment" "ocid1.vcn" "" "10.0.1.0/24" [] None "" name "" None "" None true false "" (Some ["ocid1.b"; " ocid1.a "]).
Definition ex_subnet (name : string) : SdkSubnet :=
  mkSdkSubnet (Some "10.0.1.0/24") (Some "ocid1.compartment") (Some "ocid1.subnet") "AVAILABLE" (Some "ocid1.rt") (Some "ocid1.vcn") None None None []
    None None (Some name) None None None [] None (Some true) (Some true) ["ocid1.a"; "ocid1.b"] None None.
Definition ex_resource (name : string) : SubnetResource := mkResource (ex_spec name) (status_with (set_Ocid "ocid1.subnet" emptyStatus) "ocid1.subnet").
Definition ex_clock : ST unit Time := st_ret 7%Z.
Definition ex_get (_ : string) : ST unit (result SdkSubnet GoError) := st_ret (Ok (ex_subnet "a")).

Lemma subnet_settled_witness :
  exists resource' w',
    (forall updateSubnet delegate, CreateOrUpdate ex_clock ex_get updateSubnet None (Some delegate) false "ns" (ex_resource "a", tt) =
       (Ret (mkResponse true false 0%Z, None), (resource', w'))) /\
    rtc (tick ex_clock) tt w' /\ Reason (OsokStatus (Status resource')) = Active /\
    Current (Async (OsokStatus (Status resource'))) = None /\
    Forall (fun c => cond_Type c <> Failed /\ isSubnetTransientCondition (cond_Type c) = false) (Conditions (OsokStatus (Status resource'))).
Proof.
  apply (subnet_settled ex_clock ex_get false "ns" (ex_resource "a") tt (ex_subnet "a") tt "ocid1.subnet").
  - intros w. by exists 7%Z, w.
  - discriminate.
  - reflexivity.
  - reflexivity.
  - reflexivity.
  - vm_compute. reflexivity.
  - vm_compute. reflexivity.
Defined.

(** A service that holds one subnet and a list of what it stored. *)
Definition sent_or {A} (sent current : option A) : option A := match sent with Some v => Some v | None => current end.
Definition ex_apply (d : UpdateSubnetDetails) (s : SdkSubnet) : SdkSubnet :=
  mkSdkSubnet (sent_or (ud_CidrBlock d) (sdk_CidrBlock s)) (sdk_CompartmentId s) (sdk_Id s) (sdk_LifecycleState s)
    (sent_or (ud_RouteTableId d) (sdk_RouteTableId s)) (sdk_VcnId s) (sdk_VirtualRouterIp s) (sdk_VirtualRouterMac s) (sdk_AvailabilityDomain s)
    (sdk_Ipv4CidrBlocks s) (sent_or (ud_DefinedTags d) (sdk_DefinedTags s)) (sent_or (ud_DhcpOptionsId d) (sdk_DhcpOptionsId s))
    (sent_or (ud_DisplayName d) (sdk_DisplayName s)) (sdk_DnsLabel s) (sent_or (ud_FreeformTags d) (sdk_FreeformTags s))
    (sent_or (ud_Ipv6CidrBlock d) (sdk_Ipv6CidrBlock s)) (default (sdk_Ipv6CidrBlocks s) (ud_Ipv6CidrBlocks d)) (sdk_Ipv6VirtualRouterIp s)
    (sdk_ProhibitInternetIngress s) (sdk_ProhibitPublicIpOnVnic s) (default (sdk_SecurityListIds s) (ud_SecurityListIds d))
    (sdk_SubnetDomainName s) (sdk_TimeCreated s).
#[local] Notation ExService := (SdkSubnet * list UpdateSubnetDetails)%type.
Definition ex_time : ST ExService Time := st_ret 7%Z.
Definition ex_read (_ : string) : ST ExService (result SdkSubnet GoError) := fun w => (Ret (Ok (fst w)), w).
Definition ex_update (_ : string) (d : UpdateSubnetDetails) : ST ExService (result (GoValue * SdkSubnet) GoError) :=
  fun '(s, sent) => (Ret (Ok (VNil, ex_apply d s)), (ex_apply d s, sent ++ [d])).
Definition ex_unused : CtxClient SubnetResource ExService := mkCtxClient (fun _ _ => st_panic) st_panic.

Lemma ex_subnet_service : SubnetService ex_time ex_read ex_update fst snd.
Proof.
  split; [by intros w|by intros id w|]. intros id d [s sent]. cbn. left. split; [|done]. cbn.
  split; try (unfold stored; cbn; by case_match); reflexivity.
Defined.

(** A renamed subnet and three reconciles: the service stored one update, and the spec asks for nothing more. *)
Lemma subnet_reconciles_converge_witness :
  let run w := snd (snd (CreateOrUpdate ex_time ex_read ex_update None (Some ex_unused) false "ns" (ex_resource "b", w))) in
  let w' := run (run (run (ex_subnet "a", []))) in
  (snd w' = [] \/ exists details, snd w' = [details] /\ buildUpdateRequest (ex_spec "b") (fst w') = Ok None) /\
  (length (snd (run (ex_subnet "a", []))) = 1 /\ buildUpdateRequest (ex_spec "b") (fst (run (ex_subnet "a", []))) = Ok None).
Proof.
  cbn zeta. destruct (subnet_reconciles_converge ex_time ex_read ex_update fst snd ex_subnet_service ex_unused (ex_spec "b")) as [H1 H2]. split.
  - apply (H1 (ex_subnet "a", [])).
    do 3 (eapply rtc_l; [apply (round_reconcile ex_time ex_read ex_update fst snd ex_unused (ex_spec "b") false "ns" (Status (ex_resource "b"))); discriminate|]).
    apply rtc_refl.
  - destruct (H2 false "ns" (Status (ex_resource "b")) (ex_subnet "a", []) (ex_subnet "a", []) _ "ocid1.subnet"
                (update_details (ex_spec "b") (ex_subnet "a")) _ ltac:(discriminate) eq_refl eq_refl ltac:(discriminate) eq_refl eq_refl) as [Ha Hb].
    split; [|exact Hb]. change (ex_resource "b") with (mkResource (ex_spec "b") (Status (ex_resource "b"))). by rewrite Ha.
Defined.
