(* ===== verification/NatGatewayClient.v ===== *)
(** * NAT gateways ([pkg/servicemanager/core/natgateway/natgateway_runtime.go])

    The hooks and the client of NAT gateways.  The client remembers in the status whether the
    gateway was created with a public IP of the spec, so that a later removal of the field is
    refused instead of ignored. *)

From stdpp Require Import gmap.
From S2P Require Import Prelude GoStrings Sorting Shared GoErrors GoValue AsyncStatus Reconciler JsonValues ServiceClients ResourceTags NetworkClients.
Local Open Scope string_scope.
Local Open Scope list_scope.
Local Open Scope go_scope.

(** ** Data *)

Record NatGatewaySpec := mkNatSpec {
  spec_CompartmentId : string;
  spec_VcnId : string;
  spec_DefinedTags : option MapValues;
  spec_DisplayName : string;
  spec_FreeformTags : option Tags;
  spec_BlockTraffic : bool;
  spec_PublicIpId : string;
  spec_RouteTableId : string
}.

Record NatGatewayStatus := mkNatStatus {
  st_OsokStatus : OSOKStatus;
  st_CompartmentId : string;
  st_Id : string;
  st_BlockTraffic : bool;
  st_LifecycleState : string;
  st_NatIp : string;
  st_TimeCreated : string;
  st_VcnId : string;
  st_DefinedTags : option MapValues;
  st_DisplayName : string;
  st_FreeformTags : option Tags;
  st_PublicIpId : string;
  st_RouteTableId : string;
  st_PublicIpIdCreateIntent : string
}.
(** [NatGatewayStatus{OsokStatus: b, PublicIpIdCreateIntent: intent}]. *)
Definition status_with (b : OSOKStatus) (intent : string) : NatGatewayStatus := mkNatStatus b "" "" false "" "" "" "" None "" None "" "" intent.
Definition set_intent (intent : string) (s : NatGatewayStatus) : NatGatewayStatus :=
  mkNatStatus (st_OsokStatus s) (st_CompartmentId s) (st_Id s) (st_BlockTraffic s) (st_LifecycleState s) (st_NatIp s) (st_TimeCreated s) (st_VcnId s)
    (st_DefinedTags s) (st_DisplayName s) (st_FreeformTags s) (st_PublicIpId s) (st_RouteTableId s) intent.

#[export, refine] Instance NatGatewayStatus_block : StatusBlock NatGatewayStatus := {|
  OsokStatus := st_OsokStatus;
  set_OsokStatus b s := mkNatStatus b (st_CompartmentId s) (st_Id s) (st_BlockTraffic s) (st_LifecycleState s) (st_NatIp s) (st_TimeCreated s)
    (st_VcnId s) (st_DefinedTags s) (st_DisplayName s) (st_FreeformTags s) (st_PublicIpId s) (st_RouteTableId s) (st_PublicIpIdCreateIntent s);
  osok_set := _; set_osok := _; set_set := _
|}.
Proof. all: by intros []. Defined.

Notation NatGatewayResource := (Resource NatGatewaySpec NatGatewayStatus).

Record SdkNatGateway := mkSdkNat {
  sdk_CompartmentId : option string;
  sdk_Id : option string;
  sdk_BlockTraffic : option bool;
  sdk_LifecycleState : string;
  sdk_NatIp : option string;
  sdk_TimeCreated : option string;
  sdk_VcnId : option string;
  sdk_DefinedTags : option SdkTags;
  sdk_DisplayName : option string;
  sdk_FreeformTags : option Tags;
  sdk_PublicIpId : option string;
  sdk_RouteTableId : option string
}.

Record CreateNatGatewayDetails := mkCreateNat {
  cd_CompartmentId : option string;
  cd_VcnId : option string;
  cd_DefinedTags : option SdkTags;
  cd_DisplayName : option string;
  cd_FreeformTags : option Tags;
  cd_BlockTraffic : option bool;
  cd_PublicIpId : option string;
  cd_RouteTableId : option string
}.

(** A nil field is left out of the request. *)
Record UpdateNatGatewayDetails := mkUpdateNat {
  ud_BlockTraffic : option bool;
  ud_DisplayName : option string;
  ud_FreeformTags : option Tags;
  ud_DefinedTags : option SdkTags;
  ud_RouteTableId : option string
}.
Definition noUpdateDetails : UpdateNatGatewayDetails := mkUpdateNat None None None None None.
#[export] Instance UpdateNatGatewayDetails_eq_dec : EqDecision UpdateNatGatewayDetails.
Proof. solve_decision. Defined.

(** ** The intent of the creation *)

Definition natGatewayPublicIPIDCreateIntentExplicit := "Explicit".
Definition natGatewayPublicIPIDCreateIntentOmitted := "Omitted".

Definition natGatewayCreateIntentFromSpec (publicIPID : string) : string :=
  if negb (TrimSpace publicIPID =? "")%string then natGatewayPublicIPIDCreateIntentExplicit else natGatewayPublicIPIDCreateIntentOmitted.

Definition natGatewayCurrentCreateIntent (resource : NatGatewayResource) : string :=
  if negb (st_PublicIpIdCreateIntent (Status resource) =? "")%string then st_PublicIpIdCreateIntent (Status resource)
  else if negb (TrimSpace (spec_PublicIpId (Spec resource)) =? "")%string then natGatewayPublicIPIDCreateIntentExplicit
  else "".

Definition natGatewayCreateIntentForReconcile (resource : NatGatewayResource) (trackedID : string) (explicitRecreate : bool) : string :=
  if (trackedID =? "")%string || explicitRecreate then natGatewayCreateIntentFromSpec (spec_PublicIpId (Spec resource))
  else natGatewayCurrentCreateIntent resource.

Definition natGatewayShouldEnforcePublicIPIDDrift (resource : NatGatewayResource) : bool :=
  if negb (TrimSpace (spec_PublicIpId (Spec resource)) =? "")%string then true
  else (natGatewayCurrentCreateIntent resource =? natGatewayPublicIPIDCreateIntentExplicit)%string.

(** ** Request bodies *)

Definition buildCreateNatGatewayDetails (spec : NatGatewaySpec) : CreateNatGatewayDetails :=
  mkCreateNat (Some (spec_CompartmentId spec)) (Some (spec_VcnId spec)) (ConvertToOciDefinedTags <$> spec_DefinedTags spec)
    (nonempty (spec_DisplayName spec)) (spec_FreeformTags spec) (if spec_BlockTraffic spec then Some true else None)
    (nonempty (spec_PublicIpId spec)) (nonempty (spec_RouteTableId spec)).

Definition validateNatGatewayCreateOnlyDrift (resource : NatGatewayResource) (current : SdkNatGateway) : option GoError :=
  create_only_drift "NatGateway"
    [(stringCreateOnlyMatches (sdk_CompartmentId current) (spec_CompartmentId (Spec resource)), "compartmentId");
     (stringCreateOnlyMatches (sdk_VcnId current) (spec_VcnId (Spec resource)), "vcnId");
     (negb (natGatewayShouldEnforcePublicIPIDDrift resource) || stringCreateOnlyMatches (sdk_PublicIpId current) (spec_PublicIpId (Spec resource)), "publicIpId")].

Definition update_details (spec : NatGatewaySpec) (current : SdkNatGateway) : UpdateNatGatewayDetails :=
  mkUpdateNat (update_field (boolPtrEqual (sdk_BlockTraffic current) (spec_BlockTraffic spec)) (spec_BlockTraffic spec))
    (update_field (stringPtrEqual (sdk_DisplayName current) (spec_DisplayName spec)) (spec_DisplayName spec))
    (tags_update (sdk_FreeformTags current) (desiredFreeformTagsForUpdate (spec_FreeformTags spec) (sdk_FreeformTags current)))
    (tags_update (sdk_DefinedTags current) (desiredDefinedTagsForUpdate (spec_DefinedTags spec) (sdk_DefinedTags current)))
    (update_field (stringPtrEqual (sdk_RouteTableId current) (spec_RouteTableId spec)) (spec_RouteTableId spec)).

(** [None] when no update is needed, the identifier and the details otherwise. *)
Definition buildUpdateRequest (resource : NatGatewayResource) (current : SdkNatGateway) : result (option (string * UpdateNatGatewayDetails)) GoError :=
  match exposed_id "NatGateway" (sdk_Id current) with
  | Err e => Err e
  | Ok id =>
      match validateNatGatewayCreateOnlyDrift resource current with
      | Some e => Err e
      | None =>
          let updateDetails := update_details (Spec resource) current in
          if bool_decide (updateDetails = noUpdateDetails) then Ok None else Ok (Some (id, updateDetails))
      end
  end.

(** The generated update path leaves out zero values; these differences need the client's own update. *)
Definition natGatewayRequiresParityUpdate (resource : NatGatewayResource) (current : SdkNatGateway) : bool :=
  let spec := Spec resource in
  if negb (spec_BlockTraffic spec) && negb (boolPtrEqual (sdk_BlockTraffic current) (spec_BlockTraffic spec)) then true
  else if (TrimSpace (spec_DisplayName spec) =? "")%string && negb (stringPtrEqual (sdk_DisplayName current) (spec_DisplayName spec)) then true
  else if (TrimSpace (spec_RouteTableId spec) =? "")%string && negb (stringPtrEqual (sdk_RouteTableId current) (spec_RouteTableId spec)) then true
  else
    let desiredFreeformTags := desiredFreeformTagsForUpdate (spec_FreeformTags spec) (sdk_FreeformTags current) in
    if bool_decide (default ∅ desiredFreeformTags = ∅) && negb (bool_decide (sdk_FreeformTags current = desiredFreeformTags)) then true
    else
      let desiredDefinedTags := desiredDefinedTagsForUpdate (spec_DefinedTags spec) (sdk_DefinedTags current) in
      bool_decide (default ∅ desiredDefinedTags = ∅) && negb (bool_decide (sdk_DefinedTags current = desiredDefinedTags)).

(** ** Status *)

Definition natGatewayKind : NetworkKind :=
  mkNetworkKind "NatGateway"
    (fun state =>
       if (state =? "AVAILABLE")%string then Some Active
       else if (state =? "PROVISIONING")%string then Some Provisioning
       else if (state =? "TERMINATING")%string || (state =? "TERMINATED")%string then Some Terminating
       else None)
    id.
Definition observed (current : SdkNatGateway) : Observed := mkObserved (sdk_Id current) (sdk_DisplayName current) (sdk_LifecycleState current).

Definition natGatewayLifecycleIsRetryable (state : string) : bool :=
  (state =? "PROVISIONING")%string || (state =? "TERMINATING")%string || (state =? "TERMINATED")%string.

Definition projectStatus (current : SdkNatGateway) (resource : NatGatewayResource) : NatGatewayResource :=
  with_status (fun status =>
    mkNatStatus (st_OsokStatus status) (stringValue (sdk_CompartmentId current)) (stringValue (sdk_Id current)) (boolValue (sdk_BlockTraffic current))
      (sdk_LifecycleState current) (stringValue (sdk_NatIp current)) (stringValue (sdk_TimeCreated current)) (stringValue (sdk_VcnId current))
      (convertOCIToStatusDefinedTags (sdk_DefinedTags current)) (stringValue (sdk_DisplayName current)) (cloneStringMap (sdk_FreeformTags current))
      (stringValue (sdk_PublicIpId current)) (stringValue (sdk_RouteTableId current)) (natGatewayCurrentCreateIntent resource)) resource.

Definition currentNatGatewayID (resource : NatGatewayResource) : string := currentID (st_OsokStatus (Status resource)) (st_Id (Status resource)).
Definition clearTrackedIdentity (resource : NatGatewayResource) : NatGatewayResource := with_status (fun _ => status_with emptyStatus "") resource.
Definition clearProjectedStatus (resource : NatGatewayResource) : NatGatewayResource :=
  with_status (fun status => status_with (st_OsokStatus status) (st_PublicIpIdCreateIntent status)) resource.

(** ** The client *)

Section NatGatewayClient.
Context {W : Type} (clock : ST W Time).
(** The calls of the SDK's client; [None] when there is no client. *)
Context (getNatGateway : option (string -> ST W (result SdkNatGateway GoError))).
Context (createNatGateway : CreateNatGatewayDetails -> ST W (result SdkNatGateway GoError)).
Context (updateNatGateway : string -> UpdateNatGatewayDetails -> ST W (result SdkNatGateway GoError)).
Context (initErr : option GoError) (delegate : option (CtxClient NatGatewayResource W)).
Notation Answer := (OSOKResponse * option GoError)%type.

Definition update : SdkNatGateway -> ST (NatGatewayResource * W) Answer :=
  parity_update clock natGatewayKind projectStatus observed buildUpdateRequest updateNatGateway.

Definition create : ST (NatGatewayResource * W) Answer :=
  let* resource := the_resource in
  answered clock natGatewayKind projectStatus observed (createNatGateway (buildCreateNatGatewayDetails (Spec resource))).

(** The generated client runs on the cleared status; on success the intent is recorded. *)
Definition run_delegate (delegate : CtxClient NatGatewayResource W) (skip : bool) (trackedID namespace : string) (explicitRecreate : bool)
  : ST (NatGatewayResource * W) Answer :=
  let* resource := the_resource in
  let publicIPIDCreateIntent := natGatewayCreateIntentForReconcile resource trackedID explicitRecreate in
  let previousStatus := Status resource in
  on_resource clearProjectedStatus ;;;
  let* answer := delegated delegate (skip || explicitRecreate) namespace previousStatus in
  match snd answer with
  | Some _ => st_ret answer
  | None => on_resource (with_status (set_intent publicIPIDCreateIntent)) ;;; st_ret answer
  end.

(** The two guards before the read of a tracked gateway. *)
Definition read_error : option GoError :=
  match initErr, getNatGateway with
  | Some e, _ => Some e
  | None, None => Some (ErrText "natgateway parity OCI client is not configured")
  | None, Some _ => None
  end.
Definition get (id : string) : ST W (result SdkNatGateway GoError) :=
  match getNatGateway with Some call => call id | None => st_panic end.

Definition CreateOrUpdate (skip : bool) (namespace : string) : ST (NatGatewayResource * W) Answer :=
  match delegate with
  | None => st_ret (unsuccessful, Some (ErrText "natgateway parity delegate is not configured"))
  | Some delegate =>
      let* resource := the_resource in
      let trackedID := currentNatGatewayID resource in
      on_resource (seedTrackedOCID trackedID) ;;;
      let* tracked := read_tracked clock read_error get clearTrackedIdentity (fun _ => false) trackedID in
      match tracked with
      | Answered answer => st_ret answer
      | Recreate => run_delegate delegate skip trackedID namespace true
      | Untracked | Found _ => run_delegate delegate skip trackedID namespace false
      end
  end.

Definition Delete : ST (NatGatewayResource * W) (bool * option GoError) :=
  match delegate, initErr with
  | None, _ => st_ret (false, Some (ErrText "natgateway parity delegate is not configured"))
  | Some _, Some err => st_ret (false, Some err)
  | Some delegate, None =>
      let* resource := the_resource in
      let trackedID := currentNatGatewayID resource in
      on_resource (seedTrackedOCID trackedID) ;;;
      if (trackedID =? "")%string then markDeleted clock "OCI resource identifier is not recorded" ;;; st_ret (true, None)
      else cc_Delete delegate
  end.
End NatGatewayClient.

(** ** Updates settle *)

Record update_stored (details : UpdateNatGatewayDetails) (current next : SdkNatGateway) : Prop := {
  stored_BlockTraffic : stored (ud_BlockTraffic details) (sdk_BlockTraffic current) (sdk_BlockTraffic next);
  stored_DisplayName : stored_string (ud_DisplayName details) (sdk_DisplayName current) (sdk_DisplayName next);
  stored_FreeformTags : stored (ud_FreeformTags details) (sdk_FreeformTags current) (sdk_FreeformTags next);
  stored_DefinedTags : stored (ud_DefinedTags details) (sdk_DefinedTags current) (sdk_DefinedTags next);
  stored_RouteTable : stored_string (ud_RouteTableId details) (sdk_RouteTableId current) (sdk_RouteTableId next);
  kept_Id : sdk_Id next = sdk_Id current;
  kept_create_only : forall resource, validateNatGatewayCreateOnlyDrift resource next = validateNatGatewayCreateOnlyDrift resource current
}.

#[export, refine] Instance NatGateway_updates : UpdateProtocol NatGatewayResource SdkNatGateway UpdateNatGatewayDetails := {|
  up_build := buildUpdateRequest; up_stored := update_stored; up_observable _ := True; up_settles := _
|}.
Proof.
  intros resource current next id details _ _. unfold buildUpdateRequest.
  destruct (exposed_id "NatGateway" (sdk_Id current)) eqn:Ei; [|done]. destruct (validateNatGatewayCreateOnlyDrift resource current) eqn:Ev; [done|].
  case_bool_decide; [done|]. intros [= <- <-] [H1 H2 H3 H4 H5 H6 H7].
  cbn [update_details ud_BlockTraffic ud_DisplayName ud_FreeformTags ud_DefinedTags ud_RouteTableId] in *.
  rewrite H6, Ei, H7, Ev. rewrite bool_decide_eq_true_2; [done|]. unfold update_details.
  by rewrite (bool_settled _ _ _ H1), (string_settled _ _ _ H2), (freeform_tags_settled _ _ _ H3), (defined_tags_settled _ _ _ H4), (string_settled _ _ _ H5).
Defined.

(** ** The intent of the creation *)

Section Theorems.
Context {W : Type} (clock : ST W Time) (call : string -> ST W (result SdkNatGateway GoError)).

Lemma run_delegate_intent (delegate : CtxClient NatGatewayResource W) skip trackedID namespace recreate resource w response r' w' :
  run_delegate delegate skip trackedID namespace recreate (resource, w) = (Ret (response, None), (r', w')) ->
  st_PublicIpIdCreateIntent (Status r') = natGatewayCreateIntentForReconcile resource trackedID recreate.
Proof.
  unfold run_delegate. erewrite bind_step by reflexivity. cbn zeta. erewrite bind_step by reflexivity. unfold st_bind.
  destruct (delegated _ _ _ _ _) as [[[resp [e|]]|] [r1 w1]]; cbn; [done| |done]. by intros [= <- <- <-].
Qed.

Lemma seed_spec trackedID (resource : NatGatewayResource) :
  Spec (seedTrackedOCID trackedID resource) = Spec resource /\
  natGatewayCurrentCreateIntent (seedTrackedOCID trackedID resource) = natGatewayCurrentCreateIntent resource.
Proof. unfold seedTrackedOCID. by repeat case_match. Qed.

(** A public IP named at creation is remembered: a successful reconcile that creates a NAT gateway records whether the spec named a
    public IP, every successful reconcile of the tracked gateway keeps the record, and once it says so, a spec without the public
    IP is refused as create-only drift for as long as the gateway has one. *)
Theorem nat_public_ip_intent_kept delegate skip namespace (resource : NatGatewayResource) w response r' w' :
  CreateOrUpdate clock (Some call) None (Some delegate) skip namespace (resource, w) = (Ret (response, None), (r', w')) ->
  (currentNatGatewayID resource = "" ->
     st_PublicIpIdCreateIntent (Status r') = natGatewayCreateIntentFromSpec (spec_PublicIpId (Spec resource))) /\
  (forall current w1, currentNatGatewayID resource <> "" -> call (currentNatGatewayID resource) w = (Ret (Ok current), w1) ->
     st_PublicIpIdCreateIntent (Status r') = natGatewayCurrentCreateIntent resource) /\
  (forall later current ip, st_PublicIpIdCreateIntent (Status later) = natGatewayPublicIPIDCreateIntentExplicit ->
     TrimSpace (spec_PublicIpId (Spec later)) = "" -> sdk_PublicIpId current = Some ip -> TrimSpace ip <> "" ->
     is_Some (validateNatGatewayCreateOnlyDrift later current)).
Proof.
  intros Hrun. unfold CreateOrUpdate in Hrun. erewrite bind_step in Hrun by reflexivity. cbn zeta in Hrun. erewrite bind_step in Hrun by reflexivity.
  destruct (seed_spec (currentNatGatewayID resource) resource) as [Hs Hi]. split; [|split].
  - intros Hid. rewrite Hid in Hrun. erewrite bind_step in Hrun by reflexivity. cbn iota in Hrun. apply run_delegate_intent in Hrun. by rewrite Hrun.
  - intros current w1 Hid Hget. erewrite bind_step in Hrun by (by apply read_tracked_found). apply run_delegate_intent in Hrun. rewrite Hrun.
    unfold natGatewayCreateIntentForReconcile. apply String.eqb_neq in Hid. by rewrite Hid, Hi.
  - intros later current ip Hint Hspec Hip Hne. unfold validateNatGatewayCreateOnlyDrift, create_only_drift.
    replace (negb (natGatewayShouldEnforcePublicIPIDDrift later) || stringCreateOnlyMatches (sdk_PublicIpId current) (spec_PublicIpId (Spec later)))
      with false.
    + destruct (drifted _) eqn:E; [|done]. exfalso. assert (Hin : "publicIpId" ∈ drifted
        [(stringCreateOnlyMatches (sdk_CompartmentId current) (spec_CompartmentId (Spec later)), "compartmentId");
         (stringCreateOnlyMatches (sdk_VcnId current) (spec_VcnId (Spec later)), "vcnId"); (false, "publicIpId")]).
      { unfold drifted. apply list_elem_of_fmap. exists (false, "publicIpId"). split; [done|]. apply list_elem_of_filter. split; [done|]. set_solver. }
      rewrite E in Hin. by apply not_elem_of_nil in Hin.
    + symmetry. apply orb_false_iff. split.
      * unfold natGatewayShouldEnforcePublicIPIDDrift, natGatewayCurrentCreateIntent. by rewrite Hspec, Hint.
      * unfold stringCreateOnlyMatches. rewrite Hip, Hspec. cbn. by apply String.eqb_neq.
Qed.
End Theorems.

(** ** A concrete gateway *)

Definition ex_spec (publicIp : string) : NatGatewaySpec := mkNatSpec "ocid1.compartment" "ocid1.vcn" None "nat" None false publicIp "".
Definition ex_gateway : SdkNatGateway :=
  mkSdkNat (Some "ocid1.compartment") (Some "ocid1.natgateway") (Some false) "AVAILABLE" None None (Some "ocid1.vcn") None (Some "nat") None
    (Some "ocid1.publicip") None.
Definition ex_delegate : CtxClient NatGatewayResource unit := mkCtxClient (fun _ _ => st_ret (mkResponse true false 0%Z, None)) (st_ret (true, None)).

Lemma nat_public_ip_intent_kept_witness :
  exists r', CreateOrUpdate (st_ret 7%Z) (Some (fun _ => st_ret (Ok ex_gateway))) None (Some ex_delegate) false "ns"
      (mkResource (ex_spec "ocid1.publicip") (status_with emptyStatus ""), tt) = (Ret (mkResponse true false 0%Z, None), (r', tt)) /\
    st_PublicIpIdCreateIntent (Status r') = natGatewayPublicIPIDCreateIntentExplicit /\
    is_Some (validateNatGatewayCreateOnlyDrift (mkResource (ex_spec "") (Status r')) ex_gateway).
Proof.
  eexists. split; [vm_compute; reflexivity|]. split; [reflexivity|].
  refine (proj2 (proj2 (nat_public_ip_intent_kept (st_ret 7%Z) (fun _ => st_ret (Ok ex_gateway)) ex_delegate false "ns"
    (mkResource (ex_spec "ocid1.publicip") (status_with emptyStatus "")) tt (mkResponse true false 0%Z) _ tt eq_refl)) _ ex_gateway "ocid1.publicip" _ _ _ _).
  - reflexivity.
  - reflexivity.
  - reflexivity.
  - discriminate.
Defined.
