(* ===== verification/ServiceGatewayClient.v ===== *)
(** * Service gateways ([pkg/servicemanager/core/servicegateway/servicegateway_runtime.go])

    The hooks and the client of service gateways.  The request that creates a gateway does not
    carry [blockTraffic]: after a creation the client compares the projected status with the
    spec and sends the missing update in the same reconcile. *)

From stdpp Require Import gmap strings.
From S2P Require Import Prelude GoStrings Sorting Shared GoErrors GoValue AsyncStatus Reconciler JsonValues ServiceClients ResourceTags NetworkClients.
Local Open Scope string_scope.
Local Open Scope list_scope.
Local Open Scope go_scope.

(** ** Data *)

Record ServiceGatewayService := mkService { ServiceId : string }.

Record ServiceGatewaySpec := mkSgwSpec {
  spec_CompartmentId : string;
  spec_Services : list ServiceGatewayService;
  spec_VcnId : string;
  spec_DefinedTags : option MapValues;
  spec_DisplayName : string;
  spec_FreeformTags : option Tags;
  spec_RouteTableId : string;
  spec_BlockTraffic : bool
}.

Record ServiceGatewayStatus := mkSgwStatus {
  st_OsokStatus : OSOKStatus;
  st_BlockTraffic : bool;
  st_CompartmentId : string;
  st_Id : string;
  st_LifecycleState : string;
  st_Services : list ServiceGatewayService;
  st_VcnId : string;
  st_DefinedTags : option MapValues;
  st_DisplayName : string;
  st_FreeformTags : option Tags;
  st_RouteTableId : string;
  st_TimeCreated : string
}.
Definition status_with (b : OSOKStatus) : ServiceGatewayStatus := mkSgwStatus b false "" "" "" [] "" None "" None "" "".

#[export, refine] Instance ServiceGatewayStatus_block : StatusBlock ServiceGatewayStatus := {|
  OsokStatus := st_OsokStatus;
  set_OsokStatus b s := mkSgwStatus b (st_BlockTraffic s) (st_CompartmentId s) (st_Id s) (st_LifecycleState s) (st_Services s) (st_VcnId s)
    (st_DefinedTags s) (st_DisplayName s) (st_FreeformTags s) (st_RouteTableId s) (st_TimeCreated s);
  osok_set := _; set_osok := _; set_set := _
|}.
Proof. all: by intros []. Defined.

Notation ServiceGatewayResource := (Resource ServiceGatewaySpec ServiceGatewayStatus).

Record ServiceIdRequestDetails := mkServiceRequest { rq_ServiceId : option string }.
Record ServiceIdResponseDetails := mkServiceResponse { rs_ServiceId : option string; rs_ServiceName : option string }.
#[export] Instance ServiceIdRequestDetails_eq_dec : EqDecision ServiceIdRequestDetails.
Proof. solve_decision. Defined.

Record SdkServiceGateway := mkSdkSgw {
  sdk_BlockTraffic : option bool;
  sdk_CompartmentId : option string;
  sdk_Id : option string;
  sdk_LifecycleState : string;
  sdk_Services : list ServiceIdResponseDetails;
  sdk_VcnId : option string;
  sdk_DefinedTags : option SdkTags;
  sdk_DisplayName : option string;
  sdk_FreeformTags : option Tags;
  sdk_RouteTableId : option string;
  sdk_TimeCreated : option string
}.

Record CreateServiceGatewayDetails := mkCreateSgw {
  cd_CompartmentId : option string;
  cd_Services : list ServiceIdRequestDetails;
  cd_VcnId : option string;
  cd_DefinedTags : option SdkTags;
  cd_DisplayName : option string;
  cd_FreeformTags : option Tags;
  cd_RouteTableId : option string
}.

(** A nil field is left out of the request; an empty slice of services that is not nil is sent. *)
Record UpdateServiceGatewayDetails := mkUpdateSgw {
  ud_BlockTraffic : option bool;
  ud_DisplayName : option string;
  ud_FreeformTags : option Tags;
  ud_DefinedTags : option SdkTags;
  ud_RouteTableId : option string;
  ud_Services : option (list ServiceIdRequestDetails)
}.
Definition noUpdateDetails : UpdateServiceGatewayDetails := mkUpdateSgw None None None None None None.
#[export] Instance UpdateServiceGatewayDetails_eq_dec : EqDecision UpdateServiceGatewayDetails.
Proof. solve_decision. Defined.

(** ** Services *)

Definition stringPointer (value : string) : option string := if (TrimSpace value =? "")%string then None else Some value.

Definition convertSpecServicesToOCI (services : list ServiceGatewayService) : list ServiceIdRequestDetails :=
  (fun service => mkServiceRequest (Some (ServiceId service))) <$> services.
Definition convertOCIServicesToStatus (services : list ServiceIdResponseDetails) : list ServiceGatewayService :=
  (fun service => mkService (stringValue (rs_ServiceId service))) <$> services.
Definition convertStatusServicesToOCIResponse (services : list ServiceGatewayService) : list ServiceIdResponseDetails :=
  (fun service => mkServiceResponse (stringPointer (ServiceId service)) None) <$> services.

(** [normalizedServiceGatewayService] has one field, the trimmed identifier. *)
Definition normalizeObservedServices (services : list ServiceIdResponseDetails) : list string :=
  sort_by id ((fun service => TrimSpace (stringValue (rs_ServiceId service))) <$> services).
Definition normalizeDesiredServices (services : list ServiceIdRequestDetails) : list string :=
  sort_by id ((fun service => TrimSpace (stringValue (rq_ServiceId service))) <$> services).
Definition normalizedServicesEqual (current : list ServiceIdResponseDetails) (desired : list ServiceIdRequestDetails) : bool :=
  bool_decide (normalizeObservedServices current = normalizeDesiredServices desired).

Definition set_Services (services : list ServiceGatewayService) (spec : ServiceGatewaySpec) : ServiceGatewaySpec :=
  mkSgwSpec (spec_CompartmentId spec) services (spec_VcnId spec) (spec_DefinedTags spec) (spec_DisplayName spec) (spec_FreeformTags spec)
    (spec_RouteTableId spec) (spec_BlockTraffic spec).

(** The spec takes the order and the spelling of the live services when they are the same ones. *)
Definition normalizeEquivalentServices (current : SdkServiceGateway) (resource : ServiceGatewayResource) : ServiceGatewayResource :=
  if normalizedServicesEqual (sdk_Services current) (convertSpecServicesToOCI (spec_Services (Spec resource)))
  then mkResource (set_Services (convertOCIServicesToStatus (sdk_Services current)) (Spec resource)) (Status resource)
  else resource.

(** ** Request bodies *)

Definition buildCreateServiceGatewayDetails (spec : ServiceGatewaySpec) : CreateServiceGatewayDetails :=
  mkCreateSgw (Some (spec_CompartmentId spec)) (convertSpecServicesToOCI (spec_Services spec)) (Some (spec_VcnId spec))
    (ConvertToOciDefinedTags <$> spec_DefinedTags spec) (nonempty (spec_DisplayName spec)) (spec_FreeformTags spec)
    (nonempty (spec_RouteTableId spec)).

Definition validateServiceGatewayCreateOnlyDrift (spec : ServiceGatewaySpec) (current : SdkServiceGateway) : option GoError :=
  create_only_drift "ServiceGateway"
    [(stringCreateOnlyMatches (sdk_CompartmentId current) (spec_CompartmentId spec), "compartmentId");
     (stringCreateOnlyMatches (sdk_VcnId current) (spec_VcnId spec), "vcnId")].

Definition update_details (spec : ServiceGatewaySpec) (current : SdkServiceGateway) : UpdateServiceGatewayDetails :=
  let desiredServices := convertSpecServicesToOCI (spec_Services spec) in
  mkUpdateSgw (update_field (boolPtrEqual (sdk_BlockTraffic current) (spec_BlockTraffic spec)) (spec_BlockTraffic spec))
    (update_field (stringPtrEqual (sdk_DisplayName current) (spec_DisplayName spec)) (spec_DisplayName spec))
    (tags_update (sdk_FreeformTags current) (desiredFreeformTagsForUpdate (spec_FreeformTags spec) (sdk_FreeformTags current)))
    (tags_update (sdk_DefinedTags current) (desiredDefinedTagsForUpdate (spec_DefinedTags spec) (sdk_DefinedTags current)))
    (update_field (stringPtrEqual (sdk_RouteTableId current) (spec_RouteTableId spec)) (spec_RouteTableId spec))
    (update_field (normalizedServicesEqual (sdk_Services current) desiredServices) desiredServices).

(** [None] when no update is needed, the identifier and the details otherwise. *)
Definition buildUpdateRequest (resource : ServiceGatewayResource) (current : SdkServiceGateway)
  : result (option (string * UpdateServiceGatewayDetails)) GoError :=
  match exposed_id "ServiceGateway" (sdk_Id current) with
  | Err e => Err e
  | Ok id =>
      match validateServiceGatewayCreateOnlyDrift (Spec resource) current with
      | Some e => Err e
      | None =>
          let updateDetails := update_details (Spec resource) current in
          if bool_decide (updateDetails = noUpdateDetails) then Ok None else Ok (Some (id, updateDetails))
      end
  end.

Definition serviceGatewayRequiresParityUpdate (resource : ServiceGatewayResource) (current : SdkServiceGateway) : bool :=
  let spec := Spec resource in
  if negb (spec_BlockTraffic spec) && negb (boolPtrEqual (sdk_BlockTraffic current) (spec_BlockTraffic spec)) then true
  else if (TrimSpace (spec_DisplayName spec) =? "")%string && negb (stringPtrEqual (sdk_DisplayName current) (spec_DisplayName spec)) then true
  else if (TrimSpace (spec_RouteTableId spec) =? "")%string && negb (stringPtrEqual (sdk_RouteTableId current) (spec_RouteTableId spec)) then true
  else
    let desiredFreeformTags := desiredFreeformTagsForUpdate (spec_FreeformTags spec) (sdk_FreeformTags current) in
    if bool_decide (default ∅ desiredFreeformTags = ∅) && negb (bool_decide (sdk_FreeformTags current = desiredFreeformTags)) then true
    else
      let desiredDefinedTags := desiredDefinedTagsForUpdate (spec_DefinedTags spec) (sdk_DefinedTags current) in
      if bool_decide (default ∅ desiredDefinedTags = ∅) && negb (bool_decide (sdk_DefinedTags current = desiredDefinedTags)) then true
      else
        let desiredServices := convertSpecServicesToOCI (spec_Services spec) in
        bool_decide (desiredServices = []) && negb (normalizedServicesEqual (sdk_Services current) desiredServices).

Definition serviceGatewayRequiresLocalParity (resource : ServiceGatewayResource) (current : SdkServiceGateway) : bool :=
  if serviceGatewayRequiresParityUpdate resource current then true
  else (0 <? length (spec_Services (Spec resource)))%nat || (0 <? length (sdk_Services current))%nat.

(** ** Status *)

Definition serviceGatewayKind : NetworkKind :=
  mkNetworkKind "ServiceGateway"
    (fun state =>
       if (state =? "AVAILABLE")%string then Some Active
       else if (state =? "PROVISIONING")%string then Some Provisioning
       else if (state =? "TERMINATING")%string || (state =? "TERMINATED")%string then Some Terminating
       else None)
    id.
Definition observed (current : SdkServiceGateway) : Observed := mkObserved (sdk_Id current) (sdk_DisplayName current) (sdk_LifecycleState current).

Definition serviceGatewayLifecycleIsRetryable (state : string) : bool :=
  (state =? "PROVISIONING")%string || (state =? "TERMINATING")%string || (state =? "TERMINATED")%string.

Definition projectStatus (current : SdkServiceGateway) (resource : ServiceGatewayResource) : ServiceGatewayResource :=
  with_status (fun status =>
    mkSgwStatus (st_OsokStatus status) (boolValue (sdk_BlockTraffic current)) (stringValue (sdk_CompartmentId current)) (stringValue (sdk_Id current))
      (sdk_LifecycleState current) (convertOCIServicesToStatus (sdk_Services current)) (stringValue (sdk_VcnId current))
      (convertOCIToStatusDefinedTags (sdk_DefinedTags current)) (stringValue (sdk_DisplayName current)) (cloneStringMap (sdk_FreeformTags current))
      (stringValue (sdk_RouteTableId current)) (stringValue (sdk_TimeCreated current))) resource.

Definition serviceGatewayFromProjectedStatus (status : ServiceGatewayStatus) : SdkServiceGateway :=
  mkSdkSgw (Some (st_BlockTraffic status)) (stringPointer (st_CompartmentId status)) (stringPointer (st_Id status)) (st_LifecycleState status)
    (convertStatusServicesToOCIResponse (st_Services status)) (stringPointer (st_VcnId status)) (ConvertToOciDefinedTags <$> st_DefinedTags status)
    (stringPointer (st_DisplayName status)) (cloneStringMap (st_FreeformTags status)) (stringPointer (st_RouteTableId status)) None.

Definition currentServiceGatewayID (resource : ServiceGatewayResource) : string := currentID (st_OsokStatus (Status resource)) (st_Id (Status resource)).
Definition clearTrackedIdentity (resource : ServiceGatewayResource) : ServiceGatewayResource := with_status (fun _ => status_with emptyStatus) resource.
Definition clearProjectedStatus (resource : ServiceGatewayResource) : ServiceGatewayResource :=
  with_status (fun status => status_with (st_OsokStatus status)) resource.

(** ** The client *)

Section ServiceGatewayClient.
Context {W : Type} (clock : ST W Time).
(** The calls of the SDK's client; [None] when there is no client. *)
Context (getServiceGateway : option (string -> ST W (result SdkServiceGateway GoError))).
Context (createServiceGateway : CreateServiceGatewayDetails -> ST W (result SdkServiceGateway GoError)).
Context (updateServiceGateway : string -> UpdateServiceGatewayDetails -> ST W (result SdkServiceGateway GoError)).
Context (initErr : option GoError) (delegate : option (CtxClient ServiceGatewayResource W)).
Notation Answer := (OSOKResponse * option GoError)%type.
Notation sgw_updateWithParity := (updateWithParity clock serviceGatewayKind projectStatus observed updateServiceGateway).

Definition update : SdkServiceGateway -> ST (ServiceGatewayResource * W) Answer :=
  parity_update clock serviceGatewayKind projectStatus observed buildUpdateRequest updateServiceGateway.

Definition create : ST (ServiceGatewayResource * W) Answer :=
  let* resource := the_resource in
  answered clock serviceGatewayKind projectStatus observed (createServiceGateway (buildCreateServiceGatewayDetails (Spec resource))).

(** [None] when there is nothing left to do after the creation. *)
Definition applyPostCreateUpdateOnlyParity : ST (ServiceGatewayResource * W) (option Answer) :=
  let* resource := the_resource in
  let current := serviceGatewayFromProjectedStatus (Status resource) in
  match sdk_Id current with
  | None => st_ret None
  | Some id =>
      if (TrimSpace id =? "")%string then st_ret None
      else if serviceGatewayLifecycleIsRetryable (sdk_LifecycleState current) then st_ret None
      else if boolPtrEqual (sdk_BlockTraffic current) (spec_BlockTraffic (Spec resource)) then st_ret None
      else
        match buildUpdateRequest resource current with
        | Err err => let* answer := fail clock err in st_ret (Some answer)
        | Ok None => st_ret None
        | Ok (Some (id, details)) => let* answer := sgw_updateWithParity id details in st_ret (Some answer)
        end
  end.

(** A tracked gateway that was read; [None] when the generated client goes on. *)
Definition observe_tracked (current : SdkServiceGateway) : ST (ServiceGatewayResource * W) (option Answer) :=
  on_resource (normalizeEquivalentServices current) ;;;
  if serviceGatewayLifecycleIsRetryable (sdk_LifecycleState current) then st_ret None
  else
    let* resource := the_resource in
    match buildUpdateRequest resource current with
    | Err err => let* answer := fail clock err in st_ret (Some answer)
    | Ok request =>
        if serviceGatewayRequiresLocalParity resource current then
          match request with
          | Some (id, details) => let* answer := sgw_updateWithParity id details in st_ret (Some answer)
          | None =>
              on_resource (projectStatus current) ;;;
              let* answer := applyLifecycle clock serviceGatewayKind (observed current) in st_ret (Some answer)
          end
        else st_ret None
    end.

Definition run_delegate (delegate : CtxClient ServiceGatewayResource W) (skip : bool) (trackedID namespace : string) (explicitRecreate : bool)
  : ST (ServiceGatewayResource * W) Answer :=
  let* resource := the_resource in
  let previousStatus := Status resource in
  on_resource clearProjectedStatus ;;;
  let* answer := delegated delegate (skip || explicitRecreate) namespace previousStatus in
  match snd answer with
  | Some _ => st_ret answer
  | None =>
      if (trackedID =? "")%string || explicitRecreate then
        let* postCreate := applyPostCreateUpdateOnlyParity in
        match postCreate with Some handled => st_ret handled | None => st_ret answer end
      else st_ret answer
  end.

(** The two guards before the read of a tracked gateway. *)
Definition read_error : option GoError :=
  match initErr, getServiceGateway with
  | Some e, _ => Some e
  | None, None => Some (ErrText "servicegateway parity OCI client is not configured")
  | None, Some _ => None
  end.
Definition get (id : string) : ST W (result SdkServiceGateway GoError) :=
  match getServiceGateway with Some call => call id | None => st_panic end.

Definition CreateOrUpdate (skip : bool) (namespace : string) : ST (ServiceGatewayResource * W) Answer :=
  match delegate with
  | None => st_ret (unsuccessful, Some (ErrText "servicegateway parity delegate is not configured"))
  | Some delegate =>
      let* resource := the_resource in
      let trackedID := currentServiceGatewayID resource in
      on_resource (seedTrackedOCID trackedID) ;;;
      let* tracked := read_tracked clock read_error get clearTrackedIdentity (fun _ => false) trackedID in
      match tracked with
      | Answered answer => st_ret answer
      | Recreate => run_delegate delegate skip trackedID namespace true
      | Untracked => run_delegate delegate skip trackedID namespace false
      | Found current =>
          let* handled := observe_tracked current in
          match handled with
          | Some answer => st_ret answer
          | None => run_delegate delegate skip trackedID namespace false
          end
      end
  end.

Definition Delete : ST (ServiceGatewayResource * W) (bool * option GoError) :=
  match delegate, initErr with
  | None, _ => st_ret (false, Some (ErrText "servicegateway parity delegate is not configured"))
  | Some _, Some err => st_ret (false, Some err)
  | Some delegate, None =>
      let* resource := the_resource in
      let trackedID := currentServiceGatewayID resource in
      on_resource (seedTrackedOCID trackedID) ;;;
      if (trackedID =? "")%string then markDeleted clock "OCI resource identifier is not recorded" ;;; st_ret (true, None)
      else cc_Delete delegate
  end.
End ServiceGatewayClient.

(** ** Services are compared as multisets *)

Lemma services_equal_iff current desired :
  normalizedServicesEqual current desired = true <->
  ((fun service => TrimSpace (stringValue (rs_ServiceId service))) <$> current) ≡ₚ
  ((fun service => TrimSpace (stringValue (rq_ServiceId service))) <$> desired).
Proof. unfold normalizedServicesEqual. rewrite bool_decide_eq_true. apply id_sort_eq. Qed.

(** Live services written into the spec compare equal with themselves. *)
Lemma projected_services_equal services :
  normalizedServicesEqual services (convertSpecServicesToOCI (convertOCIServicesToStatus services)) = true.
Proof.
  apply services_equal_iff. unfold convertSpecServicesToOCI, convertOCIServicesToStatus. rewrite <- !list_fmap_compose.
  done.
Qed.

(** Rewriting the services of the spec changes neither the validation nor the update. *)
Lemma normalized_details current resource :
  update_details (Spec (normalizeEquivalentServices current resource)) current = update_details (Spec resource) current.
Proof.
  unfold normalizeEquivalentServices. destruct (normalizedServicesEqual _ _) eqn:E; [|done].
  unfold update_details. cbn. by rewrite E, projected_services_equal.
Qed.

Lemma gateway_normalized_build current resource :
  buildUpdateRequest (normalizeEquivalentServices current resource) current = buildUpdateRequest resource current.
Proof.
  unfold buildUpdateRequest. rewrite normalized_details. unfold normalizeEquivalentServices.
  by destruct (normalizedServicesEqual _ _).
Qed.

(** ** Updates settle *)

Record update_stored (details : UpdateServiceGatewayDetails) (current next : SdkServiceGateway) : Prop := {
  stored_BlockTraffic : stored (ud_BlockTraffic details) (sdk_BlockTraffic current) (sdk_BlockTraffic next);
  stored_DisplayName : stored_string (ud_DisplayName details) (sdk_DisplayName current) (sdk_DisplayName next);
  stored_FreeformTags : stored (ud_FreeformTags details) (sdk_FreeformTags current) (sdk_FreeformTags next);
  stored_DefinedTags : stored (ud_DefinedTags details) (sdk_DefinedTags current) (sdk_DefinedTags next);
  stored_RouteTable : stored_string (ud_RouteTableId details) (sdk_RouteTableId current) (sdk_RouteTableId next);
  stored_Services : (rs_ServiceId <$> sdk_Services next) ≡ₚ
    match ud_Services details with Some sent => rq_ServiceId <$> sent | None => rs_ServiceId <$> sdk_Services current end;
  kept_Id : sdk_Id next = sdk_Id current;
  kept_create_only : forall spec, validateServiceGatewayCreateOnlyDrift spec next = validateServiceGatewayCreateOnlyDrift spec current
}.

Lemma trimmed_services (services : list ServiceIdResponseDetails) :
  ((fun service => TrimSpace (stringValue (rs_ServiceId service))) <$> services) = (fun id => TrimSpace (stringValue id)) <$> (rs_ServiceId <$> services).
Proof. by rewrite <- list_fmap_compose. Qed.

Lemma services_perm_equal current current' desired :
  (rs_ServiceId <$> current) ≡ₚ (rs_ServiceId <$> current') -> normalizedServicesEqual current desired = normalizedServicesEqual current' desired.
Proof.
  intros Hp. apply eq_true_iff_eq. rewrite !services_equal_iff.
  by rewrite !trimmed_services, Hp.
Qed.

Lemma services_settled current desired next :
  (rs_ServiceId <$> next) ≡ₚ
    match update_field (normalizedServicesEqual current desired) desired with Some sent => rq_ServiceId <$> sent | None => rs_ServiceId <$> current end ->
  normalizedServicesEqual next desired = true.
Proof.
  destruct (normalizedServicesEqual current desired) eqn:E; cbn; intros Hp; [by rewrite (services_perm_equal _ _ _ Hp)|].
  apply services_equal_iff. rewrite trimmed_services, Hp.
  by rewrite <- list_fmap_compose.
Qed.

#[export, refine] Instance ServiceGateway_updates : UpdateProtocol ServiceGatewayResource SdkServiceGateway UpdateServiceGatewayDetails := {|
  up_build := buildUpdateRequest; up_stored := update_stored; up_observable _ := True; up_settles := _
|}.
Proof.
  intros resource current next id details _ _. unfold buildUpdateRequest.
  destruct (exposed_id "ServiceGateway" (sdk_Id current)) eqn:Ei; [|done].
  destruct (validateServiceGatewayCreateOnlyDrift (Spec resource) current) eqn:Ev; [done|].
  case_bool_decide; [done|]. intros [= <- <-] [H1 H2 H3 H4 H5 H6 H7 H8].
  cbn [update_details ud_BlockTraffic ud_DisplayName ud_FreeformTags ud_DefinedTags ud_RouteTableId ud_Services] in *.
  rewrite H7, Ei, H8, Ev. rewrite bool_decide_eq_true_2; [done|]. unfold update_details.
  by rewrite (bool_settled _ _ _ H1), (string_settled _ _ _ H2), (freeform_tags_settled _ _ _ H3), (defined_tags_settled _ _ _ H4),
    (string_settled _ _ _ H5), (services_settled _ _ _ H6).
Defined.

(** ** The projected status stands for the gateway *)

(** Texts that a status can tell from absent ones, and tags whose values are strings, as the API has them. *)
Definition projectable (current : SdkServiceGateway) : Prop :=
  (forall name, sdk_DisplayName current = Some name -> TrimSpace name <> "") /\
  (forall table, sdk_RouteTableId current = Some table -> TrimSpace table <> "") /\
  exists tags : option MapValues, sdk_DefinedTags current = ConvertToOciDefinedTags <$> tags.

Lemma stringPointer_value (text : option string) :
  (forall s, text = Some s -> TrimSpace s <> "") -> stringPointer (stringValue text) = text.
Proof.
  intros Hs. unfold stringPointer. destruct text as [s|]; [|done].
  change (stringValue (Some s)) with s. specialize (Hs s eq_refl). apply String.eqb_neq in Hs. by rewrite Hs.
Qed.

Lemma trimmed_pointer value : TrimSpace (stringValue (stringPointer value)) = TrimSpace value.
Proof. unfold stringPointer. destruct (TrimSpace value =? "")%string eqn:E; [|done]. apply String.eqb_eq in E. rewrite E. reflexivity. Qed.

Lemma tags_projected (tags : option MapValues) :
  ConvertToOciDefinedTags <$> convertOCIToStatusDefinedTags (ConvertToOciDefinedTags <$> tags) = ConvertToOciDefinedTags <$> tags.
Proof.
  destruct tags as [m|]; [|done]. cbn. f_equal. unfold ConvertToOciDefinedTags. rewrite <- !map_fmap_compose.
  apply map_fmap_ext. intros i x _. cbn. f_equal. rewrite <- !map_fmap_compose. apply map_fmap_ext. by intros j y _.
Qed.

Lemma projected_services current desired :
  normalizedServicesEqual (convertStatusServicesToOCIResponse (convertOCIServicesToStatus current)) desired = normalizedServicesEqual current desired.
Proof.
  apply eq_true_iff_eq. rewrite !services_equal_iff. unfold convertStatusServicesToOCIResponse, convertOCIServicesToStatus.
  rewrite <- !list_fmap_compose. erewrite list_fmap_ext; [done|]. intros i x _. apply trimmed_pointer.
Qed.

Lemma projected_bool (value : option bool) expected : boolPtrEqual (Some (boolValue value)) expected = boolPtrEqual value expected.
Proof. by destruct value, expected. Qed.

Lemma projected_id kindName id : exposed_id kindName (stringPointer (stringValue id)) = exposed_id kindName id.
Proof.
  destruct id as [i|]; [|done]. change (stringValue (Some i)) with i. unfold stringPointer, exposed_id.
  destruct (TrimSpace i =? "")%string eqn:E; [done|]. by rewrite E.
Qed.

Lemma projected_gateway current resource :
  serviceGatewayFromProjectedStatus (Status (projectStatus current resource)) =
  mkSdkSgw (Some (boolValue (sdk_BlockTraffic current))) (stringPointer (stringValue (sdk_CompartmentId current)))
    (stringPointer (stringValue (sdk_Id current))) (sdk_LifecycleState current)
    (convertStatusServicesToOCIResponse (convertOCIServicesToStatus (sdk_Services current))) (stringPointer (stringValue (sdk_VcnId current)))
    (ConvertToOciDefinedTags <$> convertOCIToStatusDefinedTags (sdk_DefinedTags current)) (stringPointer (stringValue (sdk_DisplayName current)))
    (sdk_FreeformTags current) (stringPointer (stringValue (sdk_RouteTableId current))) None.
Proof. reflexivity. Qed.

Lemma projected_details spec current resource :
  projectable current ->
  update_details spec (serviceGatewayFromProjectedStatus (Status (projectStatus current resource))) = update_details spec current.
Proof.
  intros (Hn & Hr & tags & Ht). rewrite projected_gateway. unfold update_details.
  cbn [sdk_BlockTraffic sdk_DisplayName sdk_FreeformTags sdk_DefinedTags sdk_RouteTableId sdk_Services].
  rewrite projected_bool, projected_services, Ht, tags_projected.
  by rewrite (stringPointer_value _ Hn), (stringPointer_value _ Hr).
Qed.

Lemma projected_drift spec current resource :
  validateServiceGatewayCreateOnlyDrift spec (serviceGatewayFromProjectedStatus (Status (projectStatus current resource))) =
  validateServiceGatewayCreateOnlyDrift spec current.
Proof.
  unfold validateServiceGatewayCreateOnlyDrift, stringCreateOnlyMatches. rewrite projected_gateway.
  cbn [sdk_CompartmentId sdk_VcnId]. by rewrite !trimmed_pointer.
Qed.

Lemma projected_build resource current old :
  projectable current ->
  buildUpdateRequest resource (serviceGatewayFromProjectedStatus (Status (projectStatus current old))) = buildUpdateRequest resource current.
Proof.
  intros Hp. unfold buildUpdateRequest. rewrite projected_drift, projected_details by done. rewrite projected_gateway. cbn [sdk_Id].
  by rewrite projected_id.
Qed.

(** ** The update after a creation *)

Section Theorems.
Context {W : Type} (clock : ST W Time) (updateServiceGateway : string -> UpdateServiceGatewayDetails -> ST W (result SdkServiceGateway GoError)).

(** The status of [resource] shows [current]. *)
Definition shows (resource : ServiceGatewayResource) (current : SdkServiceGateway) : Prop :=
  Status resource = set_OsokStatus (OsokStatus (Status resource)) (Status (projectStatus current resource)).

Lemma shows_gateway resource current :
  shows resource current -> serviceGatewayFromProjectedStatus (Status resource) = serviceGatewayFromProjectedStatus (Status (projectStatus current resource)).
Proof. unfold shows. by intros ->. Qed.

Lemma post_create_update (resource : ServiceGatewayResource) w current id details :
  shows resource current -> projectable current -> serviceGatewayLifecycleIsRetryable (sdk_LifecycleState current) = false ->
  boolPtrEqual (sdk_BlockTraffic current) (spec_BlockTraffic (Spec resource)) = false ->
  buildUpdateRequest resource current = Ok (Some (id, details)) ->
  applyPostCreateUpdateOnlyParity clock updateServiceGateway (resource, w) =
    (let* answer := updateWithParity clock serviceGatewayKind projectStatus observed updateServiceGateway id details in st_ret (Some answer)) (resource, w).
Proof.
  intros Hs Hp Hl Hb Hr. unfold applyPostCreateUpdateOnlyParity. erewrite bind_step by reflexivity. cbn zeta.
  rewrite (shows_gateway _ _ Hs). rewrite (projected_build resource current resource Hp), Hr. rewrite projected_gateway.
  cbn [sdk_Id sdk_LifecycleState sdk_BlockTraffic]. rewrite projected_bool, Hb, Hl.
  assert (Hid : sdk_Id current = Some id /\ TrimSpace id <> "").
  { unfold buildUpdateRequest, exposed_id in Hr. destruct (sdk_Id current) as [i|]; [|done].
    destruct (TrimSpace i =? "")%string eqn:E; [done|]. apply String.eqb_neq in E. repeat case_match; try done. by injection Hr as -> _. }
  destruct Hid as [-> Hne]. rewrite (stringPointer_value (Some id)) by (by intros ? [= <-]). apply String.eqb_neq in Hne. by rewrite Hne.
Qed.

(** Traffic is blocked in the reconcile that creates the gateway: the create request of a service gateway does not carry
    [blockTraffic], so that after the generated client has created one and its status shows it settled with another value, the
    client sends, in the same reconcile, an update with the value of the spec to the new gateway, and answers with what that update
    returned; the update is the one that the live gateway would need, although it is computed from the projected status only. *)
Theorem service_gateway_block_follows_creation getServiceGateway initErr delegate skip namespace (resource created : ServiceGatewayResource) w w1 response current id details :
  currentServiceGatewayID resource = "" ->
  cc_CreateOrUpdate delegate skip namespace (clearProjectedStatus resource, w) = (Ret (response, None), (created, w1)) ->
  shows created current -> projectable current -> serviceGatewayLifecycleIsRetryable (sdk_LifecycleState current) = false ->
  boolPtrEqual (sdk_BlockTraffic current) (spec_BlockTraffic (Spec created)) = false ->
  buildUpdateRequest created current = Ok (Some (id, details)) ->
  CreateOrUpdate clock getServiceGateway updateServiceGateway initErr (Some delegate) skip namespace (resource, w) =
    answered clock serviceGatewayKind projectStatus observed (updateServiceGateway id details) (created, w1) /\
  sdk_Id current = Some id /\ ud_BlockTraffic details = Some (spec_BlockTraffic (Spec created)).
Proof.
  intros Hid Hd Hs Hp Hl Hb Hr. split.
  - unfold CreateOrUpdate. erewrite bind_step by reflexivity. cbn zeta. rewrite Hid. erewrite bind_step by reflexivity.
    erewrite bind_step by reflexivity. unfold run_delegate. erewrite bind_step by reflexivity. cbn zeta. erewrite bind_step by reflexivity.
    rewrite orb_false_r. erewrite bind_step; [|unfold delegated; erewrite bind_step by exact Hd; reflexivity]. cbn [snd String.eqb orb].
    unfold st_bind at 1. rewrite (post_create_update created w1 current id details) by done. unfold st_bind, updateWithParity.
    by destruct (answered _ _ _ _ _ _) as [[?|] ?].
  - unfold buildUpdateRequest in Hr. destruct (exposed_id _ _) as [i|] eqn:Ei; [|done]. apply exposed_id_Some in Ei.
    repeat case_match; try done. injection Hr as <- <-. split; [done|]. unfold update_details. cbn. by rewrite Hb.
Qed.
End Theorems.

(** ** A concrete gateway *)

Definition ex_spec : ServiceGatewaySpec := mkSgwSpec "ocid1.compartment" [mkService "ocid1.service"] "ocid1.vcn" None "sgw" None "" true.
Definition ex_gateway : SdkServiceGateway :=
  mkSdkSgw (Some false) (Some "ocid1.compartment") (Some "ocid1.servicegateway") "AVAILABLE" [mkServiceResponse (Some "ocid1.service") (Some "Objects")]
    (Some "ocid1.vcn") None (Some "sgw") None None None.
(** A generated client that creates [ex_gateway] and projects it. *)
Definition ex_delegate : CtxClient ServiceGatewayResource unit :=
  mkCtxClient (fun _ _ => on_resource (projectStatus ex_gateway) ;;; st_ret (mkResponse true false 0%Z, None)) (st_ret (true, None)).
Definition ex_created : ServiceGatewayResource := projectStatus ex_gateway (mkResource ex_spec (status_with emptyStatus)).
Definition ex_details : UpdateServiceGatewayDetails := mkUpdateSgw (Some true) None None None None None.

Lemma service_gateway_block_follows_creation_witness :
  CreateOrUpdate (st_ret 7%Z) None (fun _ _ => st_ret (Err (ErrText "busy"))) None (Some ex_delegate) false "ns"
    (mkResource ex_spec (status_with emptyStatus), tt) =
  answered (st_ret 7%Z) serviceGatewayKind projectStatus observed (st_ret (Err (ErrText "busy"))) (ex_created, tt).
Proof.
  refine (proj1 (service_gateway_block_follows_creation (st_ret 7%Z) (fun _ _ => st_ret (Err (ErrText "busy"))) None None ex_delegate false "ns"
    (mkResource ex_spec (status_with emptyStatus)) ex_created tt tt (mkResponse true false 0%Z) ex_gateway "ocid1.servicegateway" ex_details
    _ _ _ _ _ _ _)).
  - reflexivity.
  - reflexivity.
  - reflexivity.
  - split; [|split]; [|intros ? [=]|by exists None]. intros ? [= <-]. vm_compute. discriminate.
  - reflexivity.
  - reflexivity.
  - vm_compute. reflexivity.
Defined.
