(* ===== verification/InternetGatewayClient.v ===== *)
(** * Internet gateways ([pkg/servicemanager/core/internetgateway/internetgateway_runtime.go])

    The hooks and the client of internet gateways.  A failed run of the generated client gives
    the projected status back unless the run observed the gateway itself. *)

From stdpp Require Import gmap.
From S2P Require Import Prelude GoStrings Sorting Shared GoErrors GoValue AsyncStatus Reconciler JsonValues ServiceClients ResourceTags NetworkClients.
Local Open Scope string_scope.
Local Open Scope list_scope.
Local Open Scope go_scope.

(** ** Data *)

Record InternetGatewaySpec := mkIgSpec {
  spec_CompartmentId : string;
  spec_IsEnabled : bool;
  spec_VcnId : string;
  spec_DefinedTags : option MapValues;
  spec_DisplayName : string;
  spec_FreeformTags : option Tags;
  spec_RouteTableId : string
}.

Record InternetGatewayStatus := mkIgStatus {
  st_OsokStatus : OSOKStatus;
  st_CompartmentId : string;
  st_Id : string;
  st_LifecycleState : string;
  st_VcnId : string;
  st_DefinedTags : option MapValues;
  st_DisplayName : string;
  st_FreeformTags : option Tags;
  st_IsEnabled : bool;
  st_TimeCreated : string;
  st_RouteTableId : string
}.
(** [InternetGatewayStatus{OsokStatus: b, Id: id}]. *)
Definition status_with (b : OSOKStatus) (id : string) : InternetGatewayStatus := mkIgStatus b "" id "" "" None "" None false "" "".

#[export, refine] Instance InternetGatewayStatus_block : StatusBlock InternetGatewayStatus := {|
  OsokStatus := st_OsokStatus;
  set_OsokStatus b s := mkIgStatus b (st_CompartmentId s) (st_Id s) (st_LifecycleState s) (st_VcnId s) (st_DefinedTags s) (st_DisplayName s)
    (st_FreeformTags s) (st_IsEnabled s) (st_TimeCreated s) (st_RouteTableId s);
  osok_set := _; set_osok := _; set_set := _
|}.
Proof. all: by intros []. Defined.
#[export] Instance InternetGatewayStatus_eq_dec : EqDecision InternetGatewayStatus.
Proof. solve_decision. Defined.

Notation InternetGatewayResource := (Resource InternetGatewaySpec InternetGatewayStatus).

Record SdkInternetGateway := mkSdkIg {
  sdk_CompartmentId : option string;
  sdk_Id : option string;
  sdk_LifecycleState : string;
  sdk_VcnId : option string;
  sdk_DefinedTags : option SdkTags;
  sdk_DisplayName : option string;
  sdk_FreeformTags : option Tags;
  sdk_IsEnabled : option bool;
  sdk_TimeCreated : option string;
  sdk_RouteTableId : option string
}.

Record CreateInternetGatewayDetails := mkCreateIg {
  cd_CompartmentId : option string;
  cd_IsEnabled : option bool;
  cd_VcnId : option string;
  cd_DefinedTags : option SdkTags;
  cd_DisplayName : option string;
  cd_FreeformTags : option Tags;
  cd_RouteTableId : option string
}.

(** A nil field is left out of the request. *)
Record UpdateInternetGatewayDetails := mkUpdateIg {
  ud_DisplayName : option string;
  ud_FreeformTags : option Tags;
  ud_DefinedTags : option SdkTags;
  ud_IsEnabled : option bool;
  ud_RouteTableId : option string
}.
Definition noUpdateDetails : UpdateInternetGatewayDetails := mkUpdateIg None None None None None.
#[export] Instance UpdateInternetGatewayDetails_eq_dec : EqDecision UpdateInternetGatewayDetails.
Proof. solve_decision. Defined.

(** ** Request bodies *)

Definition buildCreateInternetGatewayDetails (spec : InternetGatewaySpec) : CreateInternetGatewayDetails :=
  mkCreateIg (Some (spec_CompartmentId spec)) (Some (spec_IsEnabled spec)) (Some (spec_VcnId spec)) (ConvertToOciDefinedTags <$> spec_DefinedTags spec)
    (nonempty (spec_DisplayName spec)) (spec_FreeformTags spec) (nonempty (spec_RouteTableId spec)).

Definition validateInternetGatewayCreateOnlyDrift (spec : InternetGatewaySpec) (current : SdkInternetGateway) : option GoError :=
  create_only_drift "InternetGateway"
    [(stringCreateOnlyMatches (sdk_CompartmentId current) (spec_CompartmentId spec), "compartmentId");
     (stringCreateOnlyMatches (sdk_VcnId current) (spec_VcnId spec), "vcnId")].

Definition update_details (spec : InternetGatewaySpec) (current : SdkInternetGateway) : UpdateInternetGatewayDetails :=
  mkUpdateIg (text_update (sdk_DisplayName current) (spec_DisplayName spec)) (map_update (sdk_FreeformTags current) (spec_FreeformTags spec))
    (map_update (sdk_DefinedTags current) (ConvertToOciDefinedTags <$> spec_DefinedTags spec))
    (update_field (boolPtrEqual (sdk_IsEnabled current) (spec_IsEnabled spec)) (spec_IsEnabled spec))
    (text_update (sdk_RouteTableId current) (spec_RouteTableId spec)).

(** [None] when no update is needed, the identifier and the details otherwise. *)
Definition buildUpdateRequest (resource : InternetGatewayResource) (current : SdkInternetGateway)
  : result (option (string * UpdateInternetGatewayDetails)) GoError :=
  match exposed_id "InternetGateway" (sdk_Id current) with
  | Err e => Err e
  | Ok id =>
      match validateInternetGatewayCreateOnlyDrift (Spec resource) current with
      | Some e => Err e
      | None =>
          let updateDetails := update_details (Spec resource) current in
          if bool_decide (updateDetails = noUpdateDetails) then Ok None else Ok (Some (id, updateDetails))
      end
  end.

Definition requiresManualInternetGatewayUpdate (spec : InternetGatewaySpec) (current : SdkInternetGateway) : bool :=
  if negb (spec_IsEnabled spec) && negb (boolPtrEqual (sdk_IsEnabled current) (spec_IsEnabled spec)) then true
  else if bool_decide (spec_FreeformTags spec = Some ∅) && negb (bool_decide (sdk_FreeformTags current = spec_FreeformTags spec)) then true
  else if bool_decide (spec_DefinedTags spec = Some ∅) && negb (bool_decide (sdk_DefinedTags current = ConvertToOciDefinedTags <$> spec_DefinedTags spec))
       then true
  else false.

(** ** Status *)

Definition internetGatewayKind : NetworkKind :=
  mkNetworkKind "InternetGateway"
    (fun state =>
       if (state =? "AVAILABLE")%string then Some Active
       else if (state =? "PROVISIONING")%string then Some Provisioning
       else if (state =? "TERMINATING")%string || (state =? "TERMINATED")%string then Some Terminating
       else None)
    id.
Definition observed (current : SdkInternetGateway) : Observed := mkObserved (sdk_Id current) (sdk_DisplayName current) (sdk_LifecycleState current).

Definition internetGatewayLifecycleIsRetryable (state : string) : bool :=
  (state =? "PROVISIONING")%string || (state =? "TERMINATING")%string || (state =? "TERMINATED")%string.

Definition projectStatus (current : SdkInternetGateway) (resource : InternetGatewayResource) : InternetGatewayResource :=
  with_status (fun status =>
    mkIgStatus (st_OsokStatus status) (stringValue (sdk_CompartmentId current)) (stringValue (sdk_Id current)) (sdk_LifecycleState current)
      (stringValue (sdk_VcnId current)) (convertOCIToStatusDefinedTags (sdk_DefinedTags current)) (stringValue (sdk_DisplayName current))
      (cloneStringMap (sdk_FreeformTags current)) (boolValue (sdk_IsEnabled current)) (stringValue (sdk_TimeCreated current))
      (stringValue (sdk_RouteTableId current))) resource.

Definition currentInternetGatewayID (resource : InternetGatewayResource) : string := currentID (st_OsokStatus (Status resource)) (st_Id (Status resource)).
Definition clearTrackedIdentity (resource : InternetGatewayResource) : InternetGatewayResource := with_status (fun _ => status_with emptyStatus "") resource.
Definition clearProjectedStatus (resource : InternetGatewayResource) : InternetGatewayResource :=
  with_status (fun status => status_with (st_OsokStatus status) (st_Id status)) resource.

(** ** The client *)

Section InternetGatewayClient.
Context {W : Type} (clock : ST W Time).
Context (createInternetGateway : CreateInternetGatewayDetails -> ST W (result SdkInternetGateway GoError)).
Context (updateInternetGateway : string -> UpdateInternetGatewayDetails -> ST W (result SdkInternetGateway GoError)).
Context (initErr : option GoError) (get : string -> ST W (result SdkInternetGateway GoError)) (delegate : option (CtxClient InternetGatewayResource W)).
Notation Answer := (OSOKResponse * option GoError)%type.

Definition update : SdkInternetGateway -> ST (InternetGatewayResource * W) Answer :=
  parity_update clock internetGatewayKind projectStatus observed buildUpdateRequest updateInternetGateway.

Definition create : ST (InternetGatewayResource * W) Answer :=
  let* resource := the_resource in
  answered clock internetGatewayKind projectStatus observed (createInternetGateway (buildCreateInternetGatewayDetails (Spec resource))).

(** The generated client runs on the cleared status. *)
Definition run_delegate (delegate : CtxClient InternetGatewayResource W) (skip : bool) (namespace : string) (explicitRecreate : bool)
  : ST (InternetGatewayResource * W) Answer :=
  let* resource := the_resource in
  let previousStatus := Status resource in
  on_resource clearProjectedStatus ;;;
  let* cleared := the_resource in
  delegated_unless_changed delegate (skip || explicitRecreate) namespace previousStatus (Status cleared).

Definition CreateOrUpdate (skip : bool) (namespace : string) : ST (InternetGatewayResource * W) Answer :=
  match delegate with
  | None => st_ret (unsuccessful, Some (ErrText "internet gateway parity delegate is not configured"))
  | Some delegate =>
      let* resource := the_resource in
      let* tracked := read_tracked clock initErr get clearTrackedIdentity (fun _ => false) (currentInternetGatewayID resource) in
      match tracked with
      | Answered answer => st_ret answer
      | Recreate => run_delegate delegate skip namespace true
      | Untracked | Found _ => run_delegate delegate skip namespace false
      end
  end.

Definition Delete : ST (InternetGatewayResource * W) (bool * option GoError) :=
  match delegate with
  | None => st_ret (false, Some (ErrText "internet gateway parity delegate is not configured"))
  | Some delegate => cc_Delete delegate
  end.
End InternetGatewayClient.

(** ** Updates settle *)

Record update_stored (details : UpdateInternetGatewayDetails) (current next : SdkInternetGateway) : Prop := {
  stored_DisplayName : stored (ud_DisplayName details) (sdk_DisplayName current) (sdk_DisplayName next);
  stored_FreeformTags : stored (ud_FreeformTags details) (sdk_FreeformTags current) (sdk_FreeformTags next);
  stored_DefinedTags : stored (ud_DefinedTags details) (sdk_DefinedTags current) (sdk_DefinedTags next);
  stored_IsEnabled : stored (ud_IsEnabled details) (sdk_IsEnabled current) (sdk_IsEnabled next);
  stored_RouteTable : stored (ud_RouteTableId details) (sdk_RouteTableId current) (sdk_RouteTableId next);
  kept_Id : sdk_Id next = sdk_Id current;
  kept_create_only : forall spec, validateInternetGatewayCreateOnlyDrift spec next = validateInternetGatewayCreateOnlyDrift spec current
}.

#[export, refine] Instance InternetGateway_updates : UpdateProtocol InternetGatewayResource SdkInternetGateway UpdateInternetGatewayDetails := {|
  up_build := buildUpdateRequest; up_stored := update_stored; up_observable _ := True; up_settles := _
|}.
Proof.
  intros resource current next id details _ _. unfold buildUpdateRequest.
  destruct (exposed_id "InternetGateway" (sdk_Id current)) eqn:Ei; [|done].
  destruct (validateInternetGatewayCreateOnlyDrift (Spec resource) current) eqn:Ev; [done|].
  case_bool_decide; [done|]. intros [= <- <-] [H1 H2 H3 H4 H5 H6 H7].
  cbn [update_details ud_DisplayName ud_FreeformTags ud_DefinedTags ud_IsEnabled ud_RouteTableId] in *.
  rewrite H6, Ei, H7, Ev. rewrite bool_decide_eq_true_2; [done|]. unfold update_details.
  by rewrite (text_settled _ _ _ H1), (map_settled _ _ _ H2), (map_settled _ _ _ H3), (bool_settled _ _ _ H4), (text_settled _ _ _ H5).
Defined.
