(* ===== verification/NetworkSecurityGroupClient.v ===== *)
(** * Network security groups ([pkg/servicemanager/core/networksecuritygroup/networksecuritygroup_runtime.go])

    The hooks and the client of network security groups, which first check that the SDK has the
    fields and the lifecycle states they were written for. *)

From stdpp Require Import gmap.
From S2P Require Import Prelude GoStrings Sorting Shared GoErrors GoValue AsyncStatus Reconciler JsonValues ServiceClients ResourceTags NetworkClients.
Local Open Scope string_scope.
Local Open Scope list_scope.
Local Open Scope go_scope.

(** ** Data *)

Record NetworkSecurityGroupSpec := mkNsgSpec {
  spec_CompartmentId : string;
  spec_VcnId : string;
  spec_DefinedTags : option MapValues;
  spec_DisplayName : string;
  spec_FreeformTags : option Tags
}.

Record NetworkSecurityGroupStatus := mkNsgStatus {
  st_OsokStatus : OSOKStatus;
  st_CompartmentId : string;
  st_Id : string;
  st_LifecycleState : string;
  st_TimeCreated : string;
  st_VcnId : string;
  st_DefinedTags : option MapValues;
  st_DisplayName : string;
  st_FreeformTags : option Tags
}.
(** [NetworkSecurityGroupStatus{OsokStatus: b, Id: id}]. *)
Definition status_with (b : OSOKStatus) (id : string) : NetworkSecurityGroupStatus := mkNsgStatus b "" id "" "" "" None "" None.

#[export, refine] Instance NetworkSecurityGroupStatus_block : StatusBlock NetworkSecurityGroupStatus := {|
  OsokStatus := st_OsokStatus;
  set_OsokStatus b s := mkNsgStatus b (st_CompartmentId s) (st_Id s) (st_LifecycleState s) (st_TimeCreated s) (st_VcnId s) (st_DefinedTags s)
    (st_DisplayName s) (st_FreeformTags s);
  osok_set := _; set_osok := _; set_set := _
|}.
Proof. all: by intros []. Defined.
#[export] Instance NetworkSecurityGroupStatus_eq_dec : EqDecision NetworkSecurityGroupStatus.
Proof. solve_decision. Defined.

Notation NetworkSecurityGroupResource := (Resource NetworkSecurityGroupSpec NetworkSecurityGroupStatus).

Record SdkNetworkSecurityGroup := mkSdkNsg {
  sdk_CompartmentId : option string;
  sdk_Id : option string;
  sdk_LifecycleState : string;
  sdk_TimeCreated : option string;
  sdk_VcnId : option string;
  sdk_DefinedTags : option SdkTags;
  sdk_DisplayName : option string;
  sdk_FreeformTags : option Tags
}.

Record CreateNetworkSecurityGroupDetails := mkCreateNsg {
  cd_CompartmentId : option string;
  cd_VcnId : option string;
  cd_DefinedTags : option SdkTags;
  cd_DisplayName : option string;
  cd_FreeformTags : option Tags
}.

(** A nil field is left out of the request. *)
Record UpdateNetworkSecurityGroupDetails := mkUpdateNsg {
  ud_DisplayName : option string;
  ud_FreeformTags : option Tags;
  ud_DefinedTags : option SdkTags
}.
Definition noUpdateDetails : UpdateNetworkSecurityGroupDetails := mkUpdateNsg None None None.
#[export] Instance UpdateNetworkSecurityGroupDetails_eq_dec : EqDecision UpdateNetworkSecurityGroupDetails.
Proof. solve_decision. Defined.

(** ** Request bodies *)

Definition buildCreateNetworkSecurityGroupDetails (spec : NetworkSecurityGroupSpec) : CreateNetworkSecurityGroupDetails :=
  mkCreateNsg (Some (spec_CompartmentId spec)) (Some (spec_VcnId spec)) (ConvertToOciDefinedTags <$> spec_DefinedTags spec)
    (nonempty (spec_DisplayName spec)) (spec_FreeformTags spec).

Definition validateNetworkSecurityGroupCreateOnlyDrift (spec : NetworkSecurityGroupSpec) (current : SdkNetworkSecurityGroup) : option GoError :=
  create_only_drift "NetworkSecurityGroup"
    [(stringCreateOnlyMatches (sdk_CompartmentId current) (spec_CompartmentId spec), "compartmentId");
     (stringCreateOnlyMatches (sdk_VcnId current) (spec_VcnId spec), "vcnId")].

Definition update_details (spec : NetworkSecurityGroupSpec) (current : SdkNetworkSecurityGroup) : UpdateNetworkSecurityGroupDetails :=
  mkUpdateNsg (update_field (stringPtrEqual (sdk_DisplayName current) (spec_DisplayName spec)) (spec_DisplayName spec))
    (tags_update (sdk_FreeformTags current) (desiredFreeformTagsForUpdate (spec_FreeformTags spec) (sdk_FreeformTags current)))
    (tags_update (sdk_DefinedTags current) (desiredDefinedTagsForUpdate (spec_DefinedTags spec) (sdk_DefinedTags current))).

(** [None] when no update is needed, the identifier and the details otherwise. *)
Definition buildUpdateRequest (resource : NetworkSecurityGroupResource) (current : SdkNetworkSecurityGroup)
  : result (option (string * UpdateNetworkSecurityGroupDetails)) GoError :=
  match exposed_id "NetworkSecurityGroup" (sdk_Id current) with
  | Err e => Err e
  | Ok id =>
      match validateNetworkSecurityGroupCreateOnlyDrift (Spec resource) current with
      | Some e => Err e
      | None =>
          let updateDetails := update_details (Spec resource) current in
          if bool_decide (updateDetails = noUpdateDetails) then Ok None else Ok (Some (id, updateDetails))
      end
  end.

Definition requiresManualNetworkSecurityGroupUpdate (spec : NetworkSecurityGroupSpec) (current : SdkNetworkSecurityGroup) : bool :=
  if (spec_DisplayName spec =? "")%string && negb (stringPtrEqual (sdk_DisplayName current) (spec_DisplayName spec)) then true
  else
    match spec_FreeformTags spec with
    | None => bool_decide (is_Some (sdk_FreeformTags current))
    | Some freeformTags =>
        if bool_decide (freeformTags = ∅) && negb (bool_decide (sdk_FreeformTags current = Some freeformTags)) then true
        else
          match spec_DefinedTags spec with
          | None => bool_decide (is_Some (sdk_DefinedTags current))
          | Some definedTags =>
              bool_decide (definedTags = ∅) && negb (bool_decide (sdk_DefinedTags current = Some (ConvertToOciDefinedTags definedTags)))
          end
    end.

(** *** The SDK's contract *)

(** What reflection shows of the SDK. *)
Record SdkContract := mkSdkContract {
  updateFields : list string;
  createFields : list string;
  lifecycleValues : list string
}.

Definition missing (names present : list string) : option string := head (filter (fun name => name ∉ present) names).

(** [sync.Once] keeps the first answer, and the SDK does not change while the program runs. *)
Definition validateNetworkSecurityGroupSDKContract (sdk : SdkContract) : option GoError :=
  match missing ["DefinedTags"; "DisplayName"; "FreeformTags"] (updateFields sdk) with
  | Some fieldName =>
      Some (ErrText ("formal/imports/core/networksecuritygroup.json assumes NetworkSecurityGroup update field " +++ Quote fieldName +++
                     " exists in vendored SDK"))
  | None =>
      if bool_decide ("CompartmentId" ∈ updateFields sdk) then
        Some (ErrText ("formal/imports/core/networksecuritygroup.json expects compartmentId to remain create-only, but vendored " +++
                       "UpdateNetworkSecurityGroupDetails unexpectedly exposes CompartmentId"))
      else if bool_decide ("VcnId" ∈ updateFields sdk) then
        Some (ErrText ("formal/imports/core/networksecuritygroup.json expects vcnId to remain create-only, but vendored " +++
                       "UpdateNetworkSecurityGroupDetails unexpectedly exposes VcnId"))
      else
        match missing ["CompartmentId"; "VcnId"] (createFields sdk) with
        | Some fieldName =>
            Some (ErrText ("formal/imports/core/networksecuritygroup.json assumes NetworkSecurityGroup create field " +++ Quote fieldName +++
                           " exists in vendored SDK"))
        | None =>
            match missing ["AVAILABLE"; "PROVISIONING"; "TERMINATING"; "TERMINATED"] (lifecycleValues sdk) with
            | Some value => Some (ErrText ("vendored SDK no longer exposes NetworkSecurityGroup lifecycle " +++ Quote value))
            | None =>
                if bool_decide ("ACTIVE" ∈ lifecycleValues sdk) then
                  Some (ErrText ("formal/imports/core/networksecuritygroup.json still assumes ACTIVE, but vendored SDK now needs " +++
                                 "reevaluation because ACTIVE unexpectedly exists"))
                else None
            end
        end
  end.

(** ** Status *)

Definition networkSecurityGroupKind : NetworkKind :=
  mkNetworkKind "NetworkSecurityGroup"
    (fun state =>
       if (state =? "AVAILABLE")%string then Some Active
       else if (state =? "PROVISIONING")%string || (state =? "UPDATING")%string then Some Provisioning
       else if (state =? "TERMINATING")%string || (state =? "TERMINATED")%string then Some Terminating
       else None)
    id.
Definition observed (current : SdkNetworkSecurityGroup) : Observed := mkObserved (sdk_Id current) (sdk_DisplayName current) (sdk_LifecycleState current).

Definition networkSecurityGroupLifecycleIsRetryable (state : string) : bool :=
  (state =? "PROVISIONING")%string || (state =? "UPDATING")%string || (state =? "TERMINATING")%string || (state =? "TERMINATED")%string.

Definition projectStatus (current : SdkNetworkSecurityGroup) (resource : NetworkSecurityGroupResource) : NetworkSecurityGroupResource :=
  with_status (fun status =>
    mkNsgStatus (st_OsokStatus status) (stringValue (sdk_CompartmentId current)) (stringValue (sdk_Id current)) (sdk_LifecycleState current)
      (stringValue (sdk_TimeCreated current)) (stringValue (sdk_VcnId current)) (convertOCIToStatusDefinedTags (sdk_DefinedTags current))
      (stringValue (sdk_DisplayName current)) (cloneStringMap (sdk_FreeformTags current))) resource.

Definition currentNetworkSecurityGroupID (resource : NetworkSecurityGroupResource) : string := currentID (st_OsokStatus (Status resource)) (st_Id (Status resource)).
Definition clearTrackedIdentity (resource : NetworkSecurityGroupResource) : NetworkSecurityGroupResource := with_status (fun _ => status_with emptyStatus "") resource.
Definition clearProjectedStatus (resource : NetworkSecurityGroupResource) : NetworkSecurityGroupResource :=
  with_status (fun status => status_with (st_OsokStatus status) (st_Id status)) resource.

(** ** The client *)

Section NetworkSecurityGroupClient.
Context {W : Type} (clock : ST W Time) (sdk : SdkContract).
Context (createNetworkSecurityGroup : CreateNetworkSecurityGroupDetails -> ST W (result SdkNetworkSecurityGroup GoError)).
Context (updateNetworkSecurityGroup : string -> UpdateNetworkSecurityGroupDetails -> ST W (result SdkNetworkSecurityGroup GoError)).
Context (initErr : option GoError) (get : string -> ST W (result SdkNetworkSecurityGroup GoError)) (delegate : option (CtxClient NetworkSecurityGroupResource W)).
Notation Answer := (OSOKResponse * option GoError)%type.

Definition update : SdkNetworkSecurityGroup -> ST (NetworkSecurityGroupResource * W) Answer :=
  parity_update clock networkSecurityGroupKind projectStatus observed buildUpdateRequest updateNetworkSecurityGroup.

Definition create : ST (NetworkSecurityGroupResource * W) Answer :=
  let* resource := the_resource in
  answered clock networkSecurityGroupKind projectStatus observed (createNetworkSecurityGroup (buildCreateNetworkSecurityGroupDetails (Spec resource))).

(** The generated client runs on the cleared status. *)
Definition run_delegate (delegate : CtxClient NetworkSecurityGroupResource W) (skip : bool) (namespace : string) (explicitRecreate : bool)
  : ST (NetworkSecurityGroupResource * W) Answer :=
  let* resource := the_resource in
  let previousStatus := Status resource in
  on_resource clearProjectedStatus ;;;
  let* cleared := the_resource in
  delegated_unless_changed delegate (skip || explicitRecreate) namespace previousStatus (Status cleared).

Definition CreateOrUpdate (skip : bool) (namespace : string) : ST (NetworkSecurityGroupResource * W) Answer :=
  match delegate with
  | None => st_ret (unsuccessful, Some (ErrText "network security group parity delegate is not configured"))
  | Some delegate =>
      match validateNetworkSecurityGroupSDKContract sdk with
      | Some err => fail clock err
      | None =>
          let* resource := the_resource in
          let* tracked := read_tracked clock initErr get clearTrackedIdentity (fun _ => false) (currentNetworkSecurityGroupID resource) in
          match tracked with
          | Answered answer => st_ret answer
          | Recreate => run_delegate delegate skip namespace true
          | Untracked | Found _ => run_delegate delegate skip namespace false
          end
      end
  end.

Definition Delete : ST (NetworkSecurityGroupResource * W) (bool * option GoError) :=
  match delegate with
  | None => st_ret (false, Some (ErrText "network security group parity delegate is not configured"))
  | Some delegate =>
      match validateNetworkSecurityGroupSDKContract sdk with
      | Some err => st_ret (false, Some err)
      | None => cc_Delete delegate
      end
  end.
End NetworkSecurityGroupClient.

(** ** Updates settle *)

Record update_stored (details : UpdateNetworkSecurityGroupDetails) (current next : SdkNetworkSecurityGroup) : Prop := {
  stored_DisplayName : stored_string (ud_DisplayName details) (sdk_DisplayName current) (sdk_DisplayName next);
  stored_FreeformTags : stored (ud_FreeformTags details) (sdk_FreeformTags current) (sdk_FreeformTags next);
  stored_DefinedTags : stored (ud_DefinedTags details) (sdk_DefinedTags current) (sdk_DefinedTags next);
  kept_Id : sdk_Id next = sdk_Id current;
  kept_create_only : forall spec, validateNetworkSecurityGroupCreateOnlyDrift spec next = validateNetworkSecurityGroupCreateOnlyDrift spec current
}.

#[export, refine] Instance NetworkSecurityGroup_updates : UpdateProtocol NetworkSecurityGroupResource SdkNetworkSecurityGroup UpdateNetworkSecurityGroupDetails := {|
  up_build := buildUpdateRequest; up_stored := update_stored; up_observable _ := True; up_settles := _
|}.
Proof.
  intros resource current next id details _ _. unfold buildUpdateRequest.
  destruct (exposed_id "NetworkSecurityGroup" (sdk_Id current)) eqn:Ei; [|done].
  destruct (validateNetworkSecurityGroupCreateOnlyDrift (Spec resource) current) eqn:Ev; [done|].
  case_bool_decide; [done|]. intros [= <- <-] [H1 H2 H3 H4 H5].
  cbn [update_details ud_DisplayName ud_FreeformTags ud_DefinedTags] in *.
  rewrite H4, Ei, H5, Ev. rewrite bool_decide_eq_true_2; [done|]. unfold update_details.
  by rewrite (string_settled _ _ _ H1), (freeform_tags_settled _ _ _ H2), (defined_tags_settled _ _ _ H3).
Defined.
