(* ===== verification/VcnClient.v ===== *)
(** * Virtual cloud networks ([pkg/servicemanager/core/vcn/vcn_runtime.go])

    The hooks and the client of VCNs.  A VCN that is gone or terminated is created again; the
    collections of the spec take the order of the live ones before they are compared. *)

From stdpp Require Import gmap strings.
From S2P Require Import Prelude GoStrings Sorting Shared GoErrors GoValue AsyncStatus Reconciler JsonValues ServiceClients ResourceTags NetworkClients.
Local Open Scope string_scope.
Local Open Scope list_scope.
Local Open Scope go_scope.

(** ** Data *)

Record VcnByoipv6CidrDetail := mkByoipv6 { Byoipv6RangeId : string; Ipv6CidrBlock : string }.

Record VcnSpec := mkVcnSpec {
  spec_CompartmentId : string;
  spec_CidrBlock : string;
  spec_CidrBlocks : list string;
  spec_Ipv6PrivateCidrBlocks : list string;
  spec_IsOracleGuaAllocationEnabled : bool;
  spec_Byoipv6CidrDetails : list VcnByoipv6CidrDetail;
  spec_DefinedTags : option MapValues;
  spec_DisplayName : string;
  spec_DnsLabel : string;
  spec_FreeformTags : option Tags;
  spec_SecurityAttributes : option MapValues;
  spec_IsIpv6Enabled : bool;
  spec_IsZprOnly : bool
}.

Record VcnStatus := mkVcnStatus {
  st_OsokStatus : OSOKStatus;
  st_CidrBlock : string;
  st_CidrBlocks : list string;
  st_CompartmentId : string;
  st_Id : string;
  st_LifecycleState : string;
  st_Byoipv6CidrBlocks : list string;
  st_Ipv6PrivateCidrBlocks : list string;
  st_DefaultDhcpOptionsId : string;
  st_DefaultRouteTableId : string;
  st_DefaultSecurityListId : string;
  st_DefinedTags : option MapValues;
  st_DisplayName : string;
  st_DnsLabel : string;
  st_FreeformTags : option Tags;
  st_SecurityAttributes : option MapValues;
  st_Ipv6CidrBlocks : list string;
  st_TimeCreated : string;
  st_VcnDomainName : string;
  st_IsZprOnly : bool
}.
(** [VcnStatus{OsokStatus: b, Id: id}]. *)
Definition status_with (b : OSOKStatus) (id : string) : VcnStatus :=
  mkVcnStatus b "" [] "" id "" [] [] "" "" "" None "" "" None None [] "" "" false.

Definition set_block_and_id (b : OSOKStatus) (id : string) (s : VcnStatus) : VcnStatus :=
  mkVcnStatus b (st_CidrBlock s) (st_CidrBlocks s) (st_CompartmentId s) id (st_LifecycleState s) (st_Byoipv6CidrBlocks s)
    (st_Ipv6PrivateCidrBlocks s) (st_DefaultDhcpOptionsId s) (st_DefaultRouteTableId s) (st_DefaultSecurityListId s) (st_DefinedTags s)
    (st_DisplayName s) (st_DnsLabel s) (st_FreeformTags s) (st_SecurityAttributes s) (st_Ipv6CidrBlocks s) (st_TimeCreated s)
    (st_VcnDomainName s) (st_IsZprOnly s).

#[export, refine] Instance VcnStatus_block : StatusBlock VcnStatus := {|
  OsokStatus := st_OsokStatus;
  set_OsokStatus b s := set_block_and_id b (st_Id s) s;
  osok_set := _; set_osok := _; set_set := _
|}.
Proof. all: by intros []. Defined.

Notation VcnResource := (Resource VcnSpec VcnStatus).

Record SdkVcn := mkSdkVcn {
  sdk_CidrBlock : option string;
  sdk_CidrBlocks : list string;
  sdk_CompartmentId : option string;
  sdk_Id : option string;
  sdk_LifecycleState : string;
  sdk_Byoipv6CidrBlocks : list string;
  sdk_Ipv6PrivateCidrBlocks : list string;
  sdk_DefinedTags : option SdkTags;
  sdk_DisplayName : option string;
  sdk_DnsLabel : option string;
  sdk_FreeformTags : option Tags;
  sdk_SecurityAttributes : option SdkTags;
  sdk_Ipv6CidrBlocks : list string;
  sdk_IsZprOnly : option bool
}.

(** A nil field is left out of the request. *)
Record UpdateVcnDetails := mkUpdateVcn {
  ud_DisplayName : option string;
  ud_DefinedTags : option SdkTags;
  ud_FreeformTags : option Tags;
  ud_SecurityAttributes : option SdkTags;
  ud_IsZprOnly : option bool
}.
Definition noUpdateDetails : UpdateVcnDetails := mkUpdateVcn None None None None None.
#[export] Instance UpdateVcnDetails_eq_dec : EqDecision UpdateVcnDetails.
Proof. solve_decision. Defined.

(** What the hooks are handed. *)
Inductive VcnResponse :=
| AVcn (current : SdkVcn)
| ACreateVcnResponse (current : SdkVcn)
| AGetVcnResponse (current : SdkVcn)
| AnUpdateVcnResponse (current : SdkVcn)
| AnotherResponse (typeName : string).

Definition vcnFromResponse (response : VcnResponse) : option SdkVcn :=
  match response with
  | AVcn typed | ACreateVcnResponse typed | AGetVcnResponse typed | AnUpdateVcnResponse typed => Some typed
  | AnotherResponse _ => None
  end.
Definition response_type (response : VcnResponse) : string :=
  match response with
  | AVcn _ => "core.Vcn"
  | ACreateVcnResponse _ => "core.CreateVcnResponse"
  | AGetVcnResponse _ => "core.GetVcnResponse"
  | AnUpdateVcnResponse _ => "core.UpdateVcnResponse"
  | AnotherResponse typeName => typeName
  end.

(** ** Maps *)

Definition copyStringMap (values : option Tags) : option Tags := values.
Definition boolPtrValue (value : option bool) : bool := default false value.

(** Nil and empty maps are equal; other maps are compared with [reflect.DeepEqual]. *)
Definition mapEqual {A} `{EqDecision (gmap string A)} (left right : option (gmap string A)) : bool :=
  if bool_decide (default ∅ left = ∅) && bool_decide (default ∅ right = ∅) then true else bool_decide (left = right).
Definition stringMapEqual (left right : option Tags) : bool := mapEqual left right.
Definition nestedMapEqual (left right : option SdkTags) : bool := mapEqual left right.

Definition convertSharedMapValuesToOCI (values : option MapValues) : option SdkTags := ConvertToOciDefinedTags <$> values.

(** The hook adds two paths to the mutable ones of the generated semantics. *)
Definition appendUniqueVcnMutationPaths (existing extras : list string) : list string :=
  fold_left (fun existing value => if (value =? "")%string || bool_decide (value ∈ existing) then existing else existing ++ [value]) extras existing.

(** ** Collections *)

Definition desiredByoipv6Blocks (details : list VcnByoipv6CidrDetail) : list string :=
  filter (fun block => TrimSpace block <> "") (Ipv6CidrBlock <$> details).

(** The inner loop of [reorderByoipv6Details]: the first unused detail of a block is appended and marked as used. *)
Fixpoint take_detail (currentBlock : string) (slots : list (bool * VcnByoipv6CidrDetail))
  : list VcnByoipv6CidrDetail * list (bool * VcnByoipv6CidrDetail) :=
  match slots with
  | [] => ([], [])
  | (used, detail) :: rest =>
      if used || negb (TrimSpace (Ipv6CidrBlock detail) =? TrimSpace currentBlock)%string then
        let '(ordered, rest') := take_detail currentBlock rest in (ordered, (used, detail) :: rest')
      else ([detail], (true, detail) :: rest)
  end.

(** The outer loop over the live blocks. *)
Fixpoint take_details (currentBlocks : list string) (slots : list (bool * VcnByoipv6CidrDetail))
  : list VcnByoipv6CidrDetail * list (bool * VcnByoipv6CidrDetail) :=
  match currentBlocks with
  | [] => ([], slots)
  | block :: rest =>
      let '(first, slots') := take_detail block slots in
      let '(ordered, slots'') := take_details rest slots' in (first ++ ordered, slots'')
  end.

Definition unused (slots : list (bool * VcnByoipv6CidrDetail)) : list VcnByoipv6CidrDetail := snd <$> filter (fun slot => fst slot = false) slots.

Definition reorderByoipv6Details (details : list VcnByoipv6CidrDetail) (currentBlocks : list string) : list VcnByoipv6CidrDetail :=
  match details with
  | [] => []
  | _ => let '(ordered, slots) := take_details currentBlocks (pair false <$> details) in ordered ++ unused slots
  end.

Definition normalizeEquivalentVcnCreateOnlyLists (current : SdkVcn) (spec : VcnSpec) : VcnSpec :=
  mkVcnSpec (spec_CompartmentId spec) (spec_CidrBlock spec)
    (if normalizedStringSlicesEqual (sdk_CidrBlocks current) (spec_CidrBlocks spec) then sdk_CidrBlocks current else spec_CidrBlocks spec)
    (if normalizedStringSlicesEqual (sdk_Ipv6PrivateCidrBlocks current) (spec_Ipv6PrivateCidrBlocks spec)
     then sdk_Ipv6PrivateCidrBlocks current else spec_Ipv6PrivateCidrBlocks spec)
    (spec_IsOracleGuaAllocationEnabled spec)
    (if normalizedStringSlicesEqual (sdk_Byoipv6CidrBlocks current) (desiredByoipv6Blocks (spec_Byoipv6CidrDetails spec))
     then reorderByoipv6Details (spec_Byoipv6CidrDetails spec) (sdk_Byoipv6CidrBlocks current) else spec_Byoipv6CidrDetails spec)
    (spec_DefinedTags spec) (spec_DisplayName spec) (spec_DnsLabel spec) (spec_FreeformTags spec) (spec_SecurityAttributes spec)
    (spec_IsIpv6Enabled spec) (spec_IsZprOnly spec).

(** ** Create-only fields and updates *)

Definition empty {A} (l : list A) : bool := match l with [] => true | _ => false end.

Definition validateCreateOnlyDrift (spec : VcnSpec) (current : SdkVcn) : option GoError :=
  create_only_drift "Vcn"
    [((spec_CompartmentId spec =? "")%string || stringPtrEqual (sdk_CompartmentId current) (spec_CompartmentId spec), "compartmentId");
     ((spec_DnsLabel spec =? "")%string || stringPtrEqual (sdk_DnsLabel current) (spec_DnsLabel spec), "dnsLabel");
     ((spec_CidrBlock spec =? "")%string || stringPtrEqual (sdk_CidrBlock current) (spec_CidrBlock spec), "cidrBlock");
     (empty (spec_CidrBlocks spec) || normalizedStringSlicesEqual (sdk_CidrBlocks current) (spec_CidrBlocks spec), "cidrBlocks");
     (empty (spec_Ipv6PrivateCidrBlocks spec) || normalizedStringSlicesEqual (sdk_Ipv6PrivateCidrBlocks current) (spec_Ipv6PrivateCidrBlocks spec),
      "ipv6PrivateCidrBlocks");
     (negb (spec_IsIpv6Enabled spec && empty (sdk_Ipv6CidrBlocks current) && empty (sdk_Ipv6PrivateCidrBlocks current)
            && empty (sdk_Byoipv6CidrBlocks current)), "isIpv6Enabled");
     (negb (spec_IsOracleGuaAllocationEnabled spec && empty (sdk_Ipv6CidrBlocks current)), "isOracleGuaAllocationEnabled");
     (empty (spec_Byoipv6CidrDetails spec) ||
      normalizedStringSlicesEqual (sdk_Byoipv6CidrBlocks current) (desiredByoipv6Blocks (spec_Byoipv6CidrDetails spec)), "byoipv6CidrDetails")].

(** A map that is compared only when the spec's is not nil. *)
Definition vcn_map_update {A} (equal : option A -> option A -> bool) (current desired : option A) : option A :=
  match desired with Some m => update_field (equal current (Some m)) m | None => None end.

Definition update_details (spec : VcnSpec) (current : SdkVcn) : UpdateVcnDetails :=
  mkUpdateVcn (update_field (stringPtrEqual (sdk_DisplayName current) (spec_DisplayName spec)) (spec_DisplayName spec))
    (vcn_map_update nestedMapEqual (sdk_DefinedTags current) (convertSharedMapValuesToOCI (spec_DefinedTags spec)))
    (vcn_map_update stringMapEqual (sdk_FreeformTags current) (copyStringMap (spec_FreeformTags spec)))
    (vcn_map_update nestedMapEqual (sdk_SecurityAttributes current) (convertSharedMapValuesToOCI (spec_SecurityAttributes spec)))
    (update_field (Bool.eqb (boolPtrValue (sdk_IsZprOnly current)) (spec_IsZprOnly spec)) (spec_IsZprOnly spec)).

(** [None] when no update is needed. *)
Definition buildVcnUpdateBody (spec : VcnSpec) (currentResponse : VcnResponse) : result (option UpdateVcnDetails) GoError :=
  match vcnFromResponse currentResponse with
  | None => Err (ErrText ("unexpected Vcn current response type " +++ response_type currentResponse))
  | Some current =>
      let details := update_details spec current in
      if bool_decide (details = noUpdateDetails) then Ok None else Ok (Some details)
  end.

(** ** Status *)

Definition currentVcnID (resource : VcnResource) : string := currentID (st_OsokStatus (Status resource)) (st_Id (Status resource)).
Definition clearTrackedVcnIdentity (resource : VcnResource) : VcnResource := with_status (set_block_and_id emptyStatus "") resource.
Definition clearVcnProjectedStatus (resource : VcnResource) : VcnResource :=
  with_status (fun status => status_with (st_OsokStatus status) (st_Id status)) resource.

Definition vcnLifecycleIsRetryable (state : string) : bool :=
  (state =? "PROVISIONING")%string || (state =? "UPDATING")%string || (state =? "TERMINATING")%string.
Definition terminated (current : SdkVcn) : bool := (sdk_LifecycleState current =? "TERMINATED")%string.

(** ** The client *)

Section VcnClient.
Context {W : Type} (clock : ST W Time).
Context (initErr : option GoError) (get : string -> ST W (result SdkVcn GoError)) (delegate : option (CtxClient VcnResource W)).
Notation Answer := (OSOKResponse * option GoError)%type.

Definition run_delegate (delegate : CtxClient VcnResource W) (skip : bool) (namespace : string) (explicitRecreate : bool)
  : ST (VcnResource * W) Answer :=
  let* resource := the_resource in
  let previousStatus := Status resource in
  on_resource clearVcnProjectedStatus ;;;
  delegated delegate (skip || explicitRecreate) namespace previousStatus.

Definition CreateOrUpdate (skip : bool) (namespace : string) : ST (VcnResource * W) Answer :=
  match delegate with
  | None => st_ret (unsuccessful, Some (ErrText "vcn parity delegate is not configured"))
  | Some delegate =>
      let* resource := the_resource in
      let* tracked := read_tracked clock initErr get clearTrackedVcnIdentity terminated (currentVcnID resource) in
      match tracked with
      | Answered answer => st_ret answer
      | Recreate => run_delegate delegate skip namespace true
      | Untracked | Found _ => run_delegate delegate skip namespace false
      end
  end.

Definition Delete : ST (VcnResource * W) (bool * option GoError) :=
  match delegate with
  | None => st_ret (false, Some (ErrText "vcn parity delegate is not configured"))
  | Some delegate => cc_Delete delegate
  end.
End VcnClient.

(** ** Reordering *)

Notation block_of := (fun detail => TrimSpace (Ipv6CidrBlock detail)).
Notation named l := (filter (fun s : string => s <> "") l).

Lemma unused_cons used detail slots : unused ((used, detail) :: slots) = if used : bool then unused slots else detail :: unused slots.
Proof. unfold unused. rewrite filter_cons. by destruct used. Qed.

Lemma take_detail_spec block slots :
  let '(taken, slots') := take_detail block slots in
  unused slots ≡ₚ taken ++ unused slots' /\
  ((taken = [] /\ TrimSpace block ∉ block_of <$> unused slots) \/ exists detail, taken = [detail] /\ block_of detail = TrimSpace block).
Proof.
  induction slots as [|[used detail] slots IH]; [split; [done|]; left; split; [done|]; apply not_elem_of_nil|]. cbn [take_detail].
  destruct used; cbn [orb].
  - destruct (take_detail block slots) as [taken rest']. by rewrite !unused_cons.
  - destruct (TrimSpace (Ipv6CidrBlock detail) =? TrimSpace block)%string eqn:E; cbn [negb].
    + rewrite !unused_cons. split; [done|]. right. exists detail. split; [done|]. by apply String.eqb_eq.
    + apply String.eqb_neq in E. destruct (take_detail block slots) as [taken rest']. rewrite !unused_cons. destruct IH as [IH [[-> Hn]|Hd]].
      * split; [by rewrite IH|]. left. split; [done|]. rewrite fmap_cons, not_elem_of_cons. naive_solver.
      * split; [|by right]. rewrite IH. by rewrite Permutation_middle.
Qed.

Lemma take_details_perm blocks slots :
  let '(ordered, slots') := take_details blocks slots in unused slots ≡ₚ ordered ++ unused slots'.
Proof.
  revert slots. induction blocks as [|block blocks IH]; intros slots; [cbn; reflexivity|]. cbn [take_details].
  pose proof (take_detail_spec block slots) as Hb. destruct (take_detail block slots) as [first slots']. destruct Hb as [Hb _].
  specialize (IH slots'). destruct (take_details blocks slots') as [ordered slots'']. by rewrite Hb, IH, app_assoc.
Qed.

Lemma unused_fresh details : unused (pair false <$> details) = details.
Proof. induction details as [|d l IH]; [done|]. rewrite fmap_cons, unused_cons. by rewrite IH. Qed.

Lemma reorder_perm details blocks : reorderByoipv6Details details blocks ≡ₚ details.
Proof.
  unfold reorderByoipv6Details. destruct details as [|d l]; [done|]. pose proof (take_details_perm blocks (pair false <$> (d :: l))) as Hp.
  destruct (take_details _ _) as [ordered slots]. rewrite unused_fresh in Hp. by symmetry.
Qed.

(** When the live blocks are those of the unused details, every block finds its detail. *)
Lemma take_details_order blocks slots :
  named (TrimSpace <$> blocks) ≡ₚ named (block_of <$> unused slots) ->
  let '(ordered, slots') := take_details blocks slots in
  named (block_of <$> ordered) = named (TrimSpace <$> blocks) /\ named (block_of <$> unused slots') = [].
Proof.
  revert slots. induction blocks as [|block blocks IH]; intros slots Hp.
  - cbn. split; [done|]. by apply Permutation_nil.
  - cbn [take_details]. pose proof (take_detail_spec block slots) as Hb. destruct (take_detail block slots) as [first slots'].
    destruct Hb as [Hb Hc]. specialize (IH slots'). rewrite Hb, fmap_app, filter_app in Hp. rewrite fmap_cons, filter_cons in Hp.
    destruct (take_details blocks slots') as [ordered slots'']. rewrite fmap_app, filter_app, fmap_cons, filter_cons.
    destruct Hc as [[-> Hn]|(detail & -> & Hd)].
    + rewrite fmap_nil, filter_nil, app_nil_l in *. case_decide as Hne; [|by apply IH]. exfalso. apply Hn.
      rewrite Hb, ?app_nil_l. assert (Hin : TrimSpace block ∈ named (block_of <$> unused slots')) by (rewrite <- Hp; apply list_elem_of_here).
      by apply list_elem_of_filter in Hin as [_ Hin].
    + rewrite fmap_cons, fmap_nil, filter_cons, filter_nil, Hd in *. case_decide as Hne; [|by apply IH].
      apply Permutation_cons_inv in Hp. destruct (IH Hp) as [-> ->]. done.
Qed.

Lemma desired_blocks details : named (TrimSpace <$> desiredByoipv6Blocks details) = named (block_of <$> details).
Proof.
  unfold desiredByoipv6Blocks. induction details as [|d l IH]; [done|]. rewrite !fmap_cons, !filter_cons.
  case_decide as E; [|by rewrite IH]. rewrite fmap_cons, filter_cons. destruct (decide (TrimSpace (Ipv6CidrBlock d) <> "")); [|done]. by rewrite IH.
Qed.

Lemma blocks_equal_iff blocks details :
  normalizedStringSlicesEqual blocks (desiredByoipv6Blocks details) = true <-> named (TrimSpace <$> blocks) ≡ₚ named (block_of <$> details).
Proof. by rewrite slices_equal_iff, desired_blocks. Qed.

Lemma reorder_blocks_equal blocks details order :
  normalizedStringSlicesEqual blocks (desiredByoipv6Blocks (reorderByoipv6Details details order)) =
  normalizedStringSlicesEqual blocks (desiredByoipv6Blocks details).
Proof. apply eq_true_iff_eq. rewrite !blocks_equal_iff. by rewrite reorder_perm. Qed.

Lemma reorder_empty details order : empty (reorderByoipv6Details details order) = empty details.
Proof.
  pose proof (Permutation_length (reorder_perm details order)) as Hl. destruct details, (reorderByoipv6Details _ order); naive_solver.
Qed.

Lemma reorder_order details blocks :
  normalizedStringSlicesEqual blocks (desiredByoipv6Blocks details) = true ->
  named (block_of <$> reorderByoipv6Details details blocks) = named (TrimSpace <$> blocks).
Proof.
  rewrite blocks_equal_iff. intros Hp. destruct details as [|d l].
  - cbn in *. symmetry in Hp. apply Permutation_nil in Hp. by rewrite Hp.
  - unfold reorderByoipv6Details. pose proof (take_details_order blocks (pair false <$> (d :: l))) as Ho.
    destruct (take_details _ _) as [ordered slots]. rewrite unused_fresh in Ho. destruct (Ho Hp) as [H1 H2].
    by rewrite fmap_app, filter_app, H1, H2, app_nil_r.
Qed.

(** A list that equals the live one up to order is not drifted, before and after it was replaced. *)
Lemma replaced_check (current desired : list string) :
  let desired' := if normalizedStringSlicesEqual current desired then current else desired in
  empty desired' || normalizedStringSlicesEqual current desired' = empty desired || normalizedStringSlicesEqual current desired.
Proof.
  cbn. destruct (normalizedStringSlicesEqual current desired) eqn:E; [|by rewrite E]. by rewrite slices_equal_refl, !orb_true_r.
Qed.

Lemma vcn_normalized_drift current spec : validateCreateOnlyDrift (normalizeEquivalentVcnCreateOnlyLists current spec) current = validateCreateOnlyDrift spec current.
Proof.
  unfold validateCreateOnlyDrift. cbn [normalizeEquivalentVcnCreateOnlyLists spec_CompartmentId spec_DnsLabel spec_CidrBlock spec_CidrBlocks
    spec_Ipv6PrivateCidrBlocks spec_IsIpv6Enabled spec_IsOracleGuaAllocationEnabled spec_Byoipv6CidrDetails].
  rewrite !replaced_check. destruct (normalizedStringSlicesEqual (sdk_Byoipv6CidrBlocks current) _) eqn:E; [|by rewrite E].
  by rewrite reorder_empty, reorder_blocks_equal, E.
Qed.

(** Writing the live order of its collections into the spec of a VCN is harmless and complete: neither the create-only validation
    nor the update changes, no detail of a bring-your-own IPv6 range is lost, duplicated or altered, and when the blocks are the live ones
    up to order, blanks and empty entries, the details come out in the order of the live blocks. *)
Theorem vcn_lists_follow_live_order current spec :
  let spec' := normalizeEquivalentVcnCreateOnlyLists current spec in
  validateCreateOnlyDrift spec' current = validateCreateOnlyDrift spec current /\
  buildVcnUpdateBody spec' (AVcn current) = buildVcnUpdateBody spec (AVcn current) /\
  spec_Byoipv6CidrDetails spec' ≡ₚ spec_Byoipv6CidrDetails spec /\
  (normalizedStringSlicesEqual (sdk_Byoipv6CidrBlocks current) (desiredByoipv6Blocks (spec_Byoipv6CidrDetails spec)) = true ->
   named (block_of <$> spec_Byoipv6CidrDetails spec') = named (TrimSpace <$> sdk_Byoipv6CidrBlocks current)).
Proof.
  split; [apply vcn_normalized_drift|]. split; [done|]. cbn [normalizeEquivalentVcnCreateOnlyLists spec_Byoipv6CidrDetails]. split.
  - case_match; [apply reorder_perm|done].
  - intros E. rewrite E. by apply reorder_order.
Qed.

(** ** Updates settle *)

Record update_stored (details : UpdateVcnDetails) (current next : SdkVcn) : Prop := {
  stored_DisplayName : stored_string (ud_DisplayName details) (sdk_DisplayName current) (sdk_DisplayName next);
  stored_DefinedTags : stored (ud_DefinedTags details) (sdk_DefinedTags current) (sdk_DefinedTags next);
  stored_FreeformTags : stored (ud_FreeformTags details) (sdk_FreeformTags current) (sdk_FreeformTags next);
  stored_SecurityAttributes : stored (ud_SecurityAttributes details) (sdk_SecurityAttributes current) (sdk_SecurityAttributes next);
  stored_IsZprOnly : stored (ud_IsZprOnly details) (sdk_IsZprOnly current) (sdk_IsZprOnly next)
}.

Lemma mapEqual_refl {A} `{EqDecision (gmap string A)} (m : option (gmap string A)) : mapEqual m m = true.
Proof. unfold mapEqual. case_match; [done|]. by apply bool_decide_eq_true. Qed.

Lemma vcn_map_settled {A} `{EqDecision (gmap string A)} (current desired next : option (gmap string A)) :
  stored (vcn_map_update mapEqual current desired) current next -> vcn_map_update mapEqual next desired = None.
Proof.
  unfold vcn_map_update. destruct desired as [m|]; [|done]. intros Hs.
  apply (update_field_settled (fun c => mapEqual c (Some m))) in Hs; [by rewrite Hs|apply mapEqual_refl].
Qed.

(** The update is addressed to the live VCN. *)
Definition vcn_update (spec : VcnSpec) (current : SdkVcn) : result (option (string * UpdateVcnDetails)) GoError :=
  match buildVcnUpdateBody spec (AVcn current) with
  | Err e => Err e
  | Ok details => Ok (pair (stringValue (sdk_Id current)) <$> details)
  end.

#[export, refine] Instance Vcn_updates : UpdateProtocol VcnSpec SdkVcn UpdateVcnDetails := {|
  up_build := vcn_update; up_stored := update_stored; up_observable _ := True; up_settles := _
|}.
Proof.
  intros spec current next id details _ _. unfold vcn_update, buildVcnUpdateBody. cbn [vcnFromResponse].
  case_bool_decide; [done|]. cbn [fmap option_fmap option_map]. intros [= _ <-] [H1 H2 H3 H4 H5].
  cbn [update_details ud_DisplayName ud_DefinedTags ud_FreeformTags ud_SecurityAttributes ud_IsZprOnly] in *.
  rewrite bool_decide_eq_true_2; [done|]. unfold update_details.
  apply (update_field_settled (fun c => Bool.eqb (boolPtrValue c) (spec_IsZprOnly spec))) in H5; [|apply eqb_reflx].
  by rewrite (string_settled _ _ _ H1), (vcn_map_settled _ _ _ H2 : vcn_map_update nestedMapEqual _ _ = None),
    (vcn_map_settled _ _ _ H3 : vcn_map_update stringMapEqual _ _ = None), (vcn_map_settled _ _ _ H4 : vcn_map_update nestedMapEqual _ _ = None), H5.
Defined.

(** ** Recreation *)

Section Theorems.
Context {W : Type} (clock : ST W Time).

(** C20. A VCN is created again only when it is gone: when the read of the tracked VCN answers with a VCN, the generated client is asked
    to skip the search for an existing one (beyond what the caller asked) exactly when that VCN is TERMINATED, and only then are
    the recorded identity, [status.id] and the block of conditions dropped; otherwise the client runs with the recorded identity.
    When the generated client then fails, the projected fields of the status are those from before the run, except for the
    dropped [status.id] of a terminated VCN. *)
Theorem vcn_recreate_guarded get delegate skip namespace (resource : VcnResource) w live w1 :
  currentVcnID resource <> "" -> get (currentVcnID resource) w = (Ret (Ok live), w1) ->
  let gone := (sdk_LifecycleState live =? "TERMINATED")%string in
  let kept := if gone then set_block_and_id emptyStatus "" (Status resource) else Status resource in
  let run := CreateOrUpdate clock None get (Some delegate) skip namespace (resource, w) in
  run = delegated delegate (skip || gone) namespace kept (clearVcnProjectedStatus (mkResource (Spec resource) kept), w1) /\
  currentVcnID (clearVcnProjectedStatus (mkResource (Spec resource) kept)) = (if gone then "" else currentVcnID resource) /\
  (forall response err r' w', run = (Ret (response, Some err), (r', w')) -> Status r' = set_OsokStatus (OsokStatus (Status r')) kept).
Proof.
  intros Hid Hget gone kept run. assert (terminated live = gone) as Et by reflexivity.
  assert (Hrun : run = delegated delegate (skip || gone) namespace kept (clearVcnProjectedStatus (mkResource (Spec resource) kept), w1)).
  { subst run kept. unfold CreateOrUpdate. erewrite bind_step by reflexivity. destruct resource as [spec status], gone eqn:Eg.
    - by erewrite bind_step by (by eapply read_tracked_gone).
    - by erewrite bind_step by (by eapply read_tracked_found). }
  rewrite Hrun. split; [done|]. split; [|intros response err r' w' Hf; by apply delegated_failed in Hf].
  subst kept. by destruct resource as [spec status], gone.
Qed.
End Theorems.

(** ** A concrete VCN *)

Definition ex_spec : VcnSpec :=
  mkVcnSpec "ocid1.compartment" "" ["10.1.0.0/16"; "10.0.0.0/16"] [] false [mkByoipv6 "range1" "2001:db8:1::/56"; mkByoipv6 "range2" " 2001:db8:2::/56"]
    None "vcn" "" None None false false.
Definition ex_vcn (state : string) : SdkVcn :=
  mkSdkVcn None ["10.0.0.0/16"; "10.1.0.0/16"] (Some "ocid1.compartment") (Some "ocid1.vcn") state ["2001:db8:2::/56"; "2001:db8:1::/56"] [] None
    (Some "vcn") None None None [] None.
Definition ex_resource : VcnResource := mkResource ex_spec (status_with (set_Ocid "ocid1.vcn" emptyStatus) "ocid1.vcn").

Lemma vcn_lists_follow_live_order_witness :
  Byoipv6RangeId <$> spec_Byoipv6CidrDetails (normalizeEquivalentVcnCreateOnlyLists (ex_vcn "AVAILABLE") ex_spec) = ["range2"; "range1"] /\
  named (block_of <$> spec_Byoipv6CidrDetails (normalizeEquivalentVcnCreateOnlyLists (ex_vcn "AVAILABLE") ex_spec)) =
    named (TrimSpace <$> sdk_Byoipv6CidrBlocks (ex_vcn "AVAILABLE")).
Proof.
  split; [vm_compute; reflexivity|]. refine (proj2 (proj2 (proj2 (vcn_lists_follow_live_order (ex_vcn "AVAILABLE") ex_spec))) _). vm_compute. reflexivity.
Defined.

Definition ex_delegate : CtxClient VcnResource unit := mkCtxClient (fun _ _ => st_ret (mkResponse true false 0%Z, None)) (st_ret (true, None)).

Lemma vcn_recreate_guarded_witness :
  let kept := set_block_and_id emptyStatus "" (Status ex_resource) in
  CreateOrUpdate (st_ret 7%Z) None (fun _ => st_ret (Ok (ex_vcn "TERMINATED"))) (Some ex_delegate) false "ns" (ex_resource, tt) =
    delegated ex_delegate true "ns" kept (clearVcnProjectedStatus (mkResource ex_spec kept), tt) /\
  currentVcnID (clearVcnProjectedStatus (mkResource ex_spec kept)) = "".
Proof.
  destruct (vcn_recreate_guarded (st_ret 7%Z) (fun _ => st_ret (Ok (ex_vcn "TERMINATED"))) ex_delegate false "ns" ex_resource tt (ex_vcn "TERMINATED") tt)
    as (Hrun & Hid & _); [discriminate|reflexivity|]. split; [exact Hrun|exact Hid].
Defined.
