(* ===== verification/DrgClient.v ===== *)
(** * Dynamic routing gateways ([pkg/servicemanager/core/drg/{drg_runtime,drg_create_fallback_client}.go])

    The hooks that configure the generated client of DRGs, and the wrapper that turns a creation
    whose follow-up read failed into a success when the status shows the created gateway. *)

From stdpp Require Import gmap.
From S2P Require Import Prelude GoStrings Sorting Shared GoErrors GoValue AsyncStatus Reconciler Secrets JsonValues Semantics Runtime.
From S2P Require Import RuntimeRead RuntimeReconcile ServiceClients ResourceTags NetworkClients.
Local Open Scope string_scope.
Local Open Scope list_scope.
Local Open Scope go_scope.

(** ** Data *)

Record DrgDefaultDrgRouteTables := mkDrgTables { Vcn : string; IpsecTunnel : string; VirtualCircuit : string; RemotePeeringConnection : string }.
Definition noTables : DrgDefaultDrgRouteTables := mkDrgTables "" "" "" "".

Record DrgSpec := mkDrgSpec {
  spec_CompartmentId : string;
  spec_DefinedTags : option MapValues;
  spec_DisplayName : string;
  spec_FreeformTags : option Tags;
  spec_DefaultDrgRouteTables : DrgDefaultDrgRouteTables
}.

Record DrgStatus := mkDrgStatus {
  st_OsokStatus : OSOKStatus;
  st_CompartmentId : string;
  st_Id : string;
  st_LifecycleState : string;
  st_DefinedTags : option MapValues;
  st_DisplayName : string;
  st_FreeformTags : option Tags;
  st_TimeCreated : string;
  st_DefaultDrgRouteTables : DrgDefaultDrgRouteTables;
  st_DefaultExportDrgRouteDistributionId : string
}.
(** [DrgStatus{OsokStatus: b, Id: id}]. *)
Definition status_with (b : OSOKStatus) (id : string) : DrgStatus := mkDrgStatus b "" id "" None "" None "" noTables "".

#[export, refine] Instance DrgStatus_block : StatusBlock DrgStatus := {|
  OsokStatus := st_OsokStatus;
  set_OsokStatus b s := mkDrgStatus b (st_CompartmentId s) (st_Id s) (st_LifecycleState s) (st_DefinedTags s) (st_DisplayName s) (st_FreeformTags s)
    (st_TimeCreated s) (st_DefaultDrgRouteTables s) (st_DefaultExportDrgRouteDistributionId s);
  osok_set := _; set_osok := _; set_set := _
|}.
Proof. all: by intros []. Defined.

Notation DrgResource := (Resource DrgSpec DrgStatus).

Record DefaultDrgRouteTables := mkSdkTables {
  dt_Vcn : option string; dt_IpsecTunnel : option string; dt_VirtualCircuit : option string; dt_RemotePeeringConnection : option string
}.
#[export] Instance DefaultDrgRouteTables_eq_dec : EqDecision DefaultDrgRouteTables.
Proof. solve_decision. Defined.

Record SdkDrg := mkSdkDrg {
  sdk_CompartmentId : option string;
  sdk_Id : option string;
  sdk_LifecycleState : string;
  sdk_DefinedTags : option SdkTags;
  sdk_DisplayName : option string;
  sdk_FreeformTags : option Tags;
  sdk_TimeCreated : option string;
  sdk_DefaultDrgRouteTables : option DefaultDrgRouteTables;
  sdk_DefaultExportDrgRouteDistributionId : option string
}.

Record CreateDrgDetails := mkCreateDrg {
  cd_CompartmentId : option string; cd_DefinedTags : option SdkTags; cd_DisplayName : option string; cd_FreeformTags : option Tags
}.

(** A nil field is left out of the request. *)
Record UpdateDrgDetails := mkUpdateDrg {
  ud_DisplayName : option string;
  ud_FreeformTags : option Tags;
  ud_DefinedTags : option SdkTags;
  ud_DefaultDrgRouteTables : option DefaultDrgRouteTables
}.
Definition noUpdateDetails : UpdateDrgDetails := mkUpdateDrg None None None None.
#[export] Instance UpdateDrgDetails_eq_dec : EqDecision UpdateDrgDetails.
Proof. solve_decision. Defined.

(** What the hooks are handed. *)
Inductive DrgResponse :=
| ADrg (current : SdkDrg)
| ACreateDrgResponse (current : SdkDrg)
| AGetDrgResponse (current : SdkDrg)
| AnUpdateDrgResponse (current : SdkDrg)
| AnotherDrgResponse (typeName : string).

Definition drgFromResponse (response : DrgResponse) : option SdkDrg :=
  match response with
  | ADrg typed | ACreateDrgResponse typed | AGetDrgResponse typed | AnUpdateDrgResponse typed => Some typed
  | AnotherDrgResponse _ => None
  end.
Definition response_type (response : DrgResponse) : string :=
  match response with
  | ADrg _ => "core.Drg"
  | ACreateDrgResponse _ => "core.CreateDrgResponse"
  | AGetDrgResponse _ => "core.GetDrgResponse"
  | AnUpdateDrgResponse _ => "core.UpdateDrgResponse"
  | AnotherDrgResponse typeName => typeName
  end.

(** ** Semantics *)

Definition newDrgRuntimeSemantics : Semantics :=
  mkSemantics "core" "drg" None "required" "none" "retain-until-confirmed-delete"
    (mkLifecycle ["PROVISIONING"] ["UPDATING"] ["AVAILABLE"])
    (mkDeleteSemantics "required" ["TERMINATING"] ["TERMINATED"])
    (Some (mkListSemantics "Items" ["displayName"; "compartmentId"]))
    (mkMutation [] ["displayName"; "definedTags"; "freeformTags"; "defaultDrgRouteTables"] ["compartmentId"] [])
    (mkHookSet [] [] []) (mkFollowUp "" []) (mkFollowUp "" []) (mkFollowUp "confirm-delete" [mkHook "tfresource.DeleteResource" "" ""]) [] [].

(** A DRG without a name in its spec is never bound to an existing one. *)
Definition guardDrgExistingBeforeCreate (resource : DrgResource) : string :=
  if (TrimSpace (spec_DisplayName (Spec resource)) =? "")%string then ExistingBeforeCreateDecisionSkip else ExistingBeforeCreateDecisionAllow.

(** ** Default route tables *)

Definition given (table : string) : bool := negb (TrimSpace table =? "")%string.
Definition defaultDrgRouteTablesSpecified (input : DrgDefaultDrgRouteTables) : bool :=
  given (Vcn input) || given (IpsecTunnel input) || given (VirtualCircuit input) || given (RemotePeeringConnection input).

Definition given_table (table : string) : option string := if given table then Some table else None.
Definition buildDefaultDrgRouteTables (input : DrgDefaultDrgRouteTables) : option DefaultDrgRouteTables :=
  if negb (defaultDrgRouteTablesSpecified input) then None
  else Some (mkSdkTables (given_table (Vcn input)) (given_table (IpsecTunnel input)) (given_table (VirtualCircuit input))
               (given_table (RemotePeeringConnection input))).

Definition statusDefaultDrgRouteTables (input : option DefaultDrgRouteTables) : DrgDefaultDrgRouteTables :=
  match input with
  | None => noTables
  | Some tables =>
      mkDrgTables (stringValue (dt_Vcn tables)) (stringValue (dt_IpsecTunnel tables)) (stringValue (dt_VirtualCircuit tables))
        (stringValue (dt_RemotePeeringConnection tables))
  end.

(** A table that the spec gives differs from the live one. *)
Definition table_differs (current : option string) (desired : string) : bool := given desired && negb (stringPtrEqual current desired).

Definition defaultDrgRouteTablesMatch (current : option DefaultDrgRouteTables) (desired : DrgDefaultDrgRouteTables) : bool :=
  if negb (defaultDrgRouteTablesSpecified desired) then true
  else
    match current with
    | None => false
    | Some tables =>
        if table_differs (dt_Vcn tables) (Vcn desired) then false
        else if table_differs (dt_IpsecTunnel tables) (IpsecTunnel desired) then false
        else if table_differs (dt_VirtualCircuit tables) (VirtualCircuit desired) then false
        else negb (table_differs (dt_RemotePeeringConnection tables) (RemotePeeringConnection desired))
    end.

(** ** Request bodies *)

Definition buildCreateDrgDetails (spec : DrgSpec) : CreateDrgDetails :=
  mkCreateDrg (Some (spec_CompartmentId spec)) (ConvertToOciDefinedTags <$> spec_DefinedTags spec) (nonempty (spec_DisplayName spec)) (spec_FreeformTags spec).

Definition validateDrgCreateOnlyDrift (spec : DrgSpec) (current : SdkDrg) : option GoError :=
  if stringCreateOnlyMatches (sdk_CompartmentId current) (spec_CompartmentId spec) then None
  else Some (ErrText "Drg create-only field drift is not supported: compartmentId").

Definition tables_update (spec : DrgSpec) (current : SdkDrg) : option DefaultDrgRouteTables :=
  if defaultDrgRouteTablesSpecified (spec_DefaultDrgRouteTables spec) &&
     negb (defaultDrgRouteTablesMatch (sdk_DefaultDrgRouteTables current) (spec_DefaultDrgRouteTables spec))
  then buildDefaultDrgRouteTables (spec_DefaultDrgRouteTables spec) else None.

Definition update_details (spec : DrgSpec) (current : SdkDrg) : UpdateDrgDetails :=
  mkUpdateDrg (text_update (sdk_DisplayName current) (spec_DisplayName spec)) (map_update (sdk_FreeformTags current) (spec_FreeformTags spec))
    (map_update (sdk_DefinedTags current) (ConvertToOciDefinedTags <$> spec_DefinedTags spec)) (tables_update spec current).

(** [None] when no update is needed, the identifier and the details otherwise. *)
Definition buildUpdateDrgRequest (resource : DrgResource) (current : SdkDrg) : result (option (string * UpdateDrgDetails)) GoError :=
  match exposed_id "Drg" (sdk_Id current) with
  | Err e => Err e
  | Ok id =>
      match validateDrgCreateOnlyDrift (Spec resource) current with
      | Some e => Err e
      | None =>
          let updateDetails := update_details (Spec resource) current in
          if bool_decide (updateDetails = noUpdateDetails) then Ok None else Ok (Some (id, updateDetails))
      end
  end.

(** ** Status *)

Definition drgKind : NetworkKind :=
  mkNetworkKind "Drg"
    (fun state =>
       let state := ToUpper state in
       if (state =? "AVAILABLE")%string then Some Active
       else if (state =? "PROVISIONING")%string then Some Provisioning
       else if (state =? "UPDATING")%string then Some Updating
       else if (state =? "TERMINATING")%string || (state =? "TERMINATED")%string then Some Terminating
       else None)
    id.
Definition observed (current : SdkDrg) : Observed := mkObserved (sdk_Id current) (sdk_DisplayName current) (sdk_LifecycleState current).

Definition project (current : SdkDrg) (resource : DrgResource) : DrgResource :=
  with_status (fun status =>
    mkDrgStatus (st_OsokStatus status) (stringValue (sdk_CompartmentId current)) (stringValue (sdk_Id current)) (sdk_LifecycleState current)
      (convertOCIToStatusDefinedTags (sdk_DefinedTags current)) (stringValue (sdk_DisplayName current)) (cloneStringMap (sdk_FreeformTags current))
      (stringValue (sdk_TimeCreated current)) (statusDefaultDrgRouteTables (sdk_DefaultDrgRouteTables current))
      (stringValue (sdk_DefaultExportDrgRouteDistributionId current))) resource.
Definition projectDrgStatus (response : DrgResponse) (resource : DrgResource) : result DrgResource GoError :=
  match drgFromResponse response with
  | None => Err (ErrText ("unexpected Drg status response type " +++ response_type response))
  | Some current => Ok (project current resource)
  end.

(** The baseline that [clearDrgProjectedStatus] returns, and the resource it leaves. *)
Definition clearDrgProjectedStatus (resource : DrgResource) : DrgStatus * DrgResource :=
  (Status resource, with_status (fun status => status_with (st_OsokStatus status) (st_Id status)) resource).
Definition restoreDrgStatus (baseline : DrgStatus) : DrgResource -> DrgResource := restoreStatus baseline.
Definition clearTrackedDrgIdentity (resource : DrgResource) : DrgResource := with_status (fun _ => status_with emptyStatus "") resource.
Definition drgCurrentID (resource : DrgResource) : string := currentID (st_OsokStatus (Status resource)) (st_Id (Status resource)).

Section Hooks.
Context {W : Type} (clock : ST W Time).

Definition hook_applyLifecycle (response : DrgResponse) : ST (DrgResource * W) (OSOKResponse * option GoError) :=
  match drgFromResponse response with
  | None => fail clock (ErrText ("unexpected Drg lifecycle response type " +++ response_type response))
  | Some current => applyLifecycle clock drgKind (observed current)
  end.

Definition hook_markTerminating (response : DrgResponse) : ST (DrgResource * W) unit :=
  match drgFromResponse response with
  | None => st_ret tt
  | Some current => markTerminating clock drgKind (observed current)
  end.

(** ** Recovering a creation *)

Definition drgRecoveryCondition (lifecycleState : string) : option (OSOKConditionType * bool) :=
  if Contains lifecycleState "AVAIL" || Contains lifecycleState "ACTIVE" then Some (Active, false)
  else if Contains lifecycleState "PROVISION" || Contains lifecycleState "CREATE" || Contains lifecycleState "PENDING"
       || Contains lifecycleState "IN_PROGRESS" || Contains lifecycleState "ACCEPT" || Contains lifecycleState "START" then Some (Provisioning, true)
  else None.

(** [name] is the name of the custom resource. *)
Context (name : string).

Definition drgDisplayName (resource : DrgResource) : string :=
  if negb (TrimSpace (st_DisplayName (Status resource)) =? "")%string then TrimSpace (st_DisplayName (Status resource))
  else if negb (TrimSpace (spec_DisplayName (Spec resource)) =? "")%string then TrimSpace (spec_DisplayName (Spec resource))
  else name.

(** What is written for a recovered creation. *)
Definition record_recovery (now condNow : Time) (resourceID message : string) (condition : OSOKConditionType) (status : OSOKStatus) : OSOKStatus :=
  let status := set_Ocid resourceID status in
  let status := match CreatedAt status with None => set_CreatedAt (Some now) status | Some _ => status end in
  let status := set_Reason condition (set_Message message (set_UpdatedAt (Some now) status)) in
  UpdateOSOKStatusCondition condNow status condition (if (condition =? Failed)%string then ConditionFalse else ConditionTrue) "" message.

Definition recoverDrgCreateObservation : ST (DrgResource * W) (option OSOKResponse) :=
  let* resource := the_resource in
  let resourceID := drgCurrentID resource in
  let lifecycleState := ToUpper (TrimSpace (st_LifecycleState (Status resource))) in
  if (resourceID =? "")%string || (lifecycleState =? "")%string then st_ret None
  else
    match drgRecoveryCondition lifecycleState with
    | None => st_ret None
    | Some (condition, shouldRequeue) =>
        let* now := on_world clock in
        let* condNow := on_world clock in
        let message := "Drg " +++ drgDisplayName resource +++ " is " +++ st_LifecycleState (Status resource) in
        on_resource (with_osok (record_recovery now condNow resourceID message condition)) ;;;
        st_ret (Some (mkResponse (negb (condition =? Failed)%string) shouldRequeue Minute))
    end.

(** The client around the generated one. *)
Context (delegate : option (CtxClient DrgResource W)).

Definition CreateOrUpdate (skip : bool) (namespace : string) : ST (DrgResource * W) (OSOKResponse * option GoError) :=
  match delegate with
  | None => st_ret (unsuccessful, Some (ErrText "drg create fallback delegate is not configured"))
  | Some delegate =>
      let* resource := the_resource in
      let hadTrackedID := negb (drgCurrentID resource =? "")%string in
      let* answer := cc_CreateOrUpdate delegate skip namespace in
      match snd answer with
      | None => st_ret answer
      | Some _ =>
          if hadTrackedID then st_ret answer
          else
            let* recovered := recoverDrgCreateObservation in
            match recovered with
            | None => st_ret answer
            | Some recoveredResponse => st_ret (recoveredResponse, None)
            end
      end
  end.

Definition Delete : ST (DrgResource * W) (bool * option GoError) :=
  match delegate with
  | None => st_ret (false, Some (ErrText "drg create fallback delegate is not configured"))
  | Some delegate => cc_Delete delegate
  end.
End Hooks.

(** ** Updates settle *)

(** The service stores the tables that an update gives and keeps the others. *)
Definition tables_stored (sent current next : option DefaultDrgRouteTables) : Prop :=
  match sent with
  | None => next = current
  | Some tables =>
      exists tables', next = Some tables' /\
        (forall v, dt_Vcn tables = Some v -> dt_Vcn tables' = Some v) /\
        (forall v, dt_IpsecTunnel tables = Some v -> dt_IpsecTunnel tables' = Some v) /\
        (forall v, dt_VirtualCircuit tables = Some v -> dt_VirtualCircuit tables' = Some v) /\
        (forall v, dt_RemotePeeringConnection tables = Some v -> dt_RemotePeeringConnection tables' = Some v)
  end.

Record update_stored (details : UpdateDrgDetails) (current next : SdkDrg) : Prop := {
  stored_DisplayName : stored (ud_DisplayName details) (sdk_DisplayName current) (sdk_DisplayName next);
  stored_FreeformTags : stored (ud_FreeformTags details) (sdk_FreeformTags current) (sdk_FreeformTags next);
  stored_DefinedTags : stored (ud_DefinedTags details) (sdk_DefinedTags current) (sdk_DefinedTags next);
  stored_Tables : tables_stored (ud_DefaultDrgRouteTables details) (sdk_DefaultDrgRouteTables current) (sdk_DefaultDrgRouteTables next);
  kept_Id : sdk_Id next = sdk_Id current;
  kept_Compartment : sdk_CompartmentId next = sdk_CompartmentId current
}.

Lemma given_table_matches next desired : (forall v, given_table desired = Some v -> next = Some v) -> table_differs next desired = false.
Proof.
  unfold given_table, table_differs. destruct (given desired); [|done]. intros Hv. rewrite (Hv desired eq_refl). cbn. by rewrite String.eqb_refl.
Qed.

Lemma tables_settled spec current next :
  tables_stored (tables_update spec current) (sdk_DefaultDrgRouteTables current) (sdk_DefaultDrgRouteTables next) -> tables_update spec next = None.
Proof.
  unfold tables_update. destruct (defaultDrgRouteTablesSpecified (spec_DefaultDrgRouteTables spec)) eqn:Es; [|done]. cbn [andb].
  destruct (defaultDrgRouteTablesMatch (sdk_DefaultDrgRouteTables current) _) eqn:Em; cbn [negb].
  - cbn. intros ->. by rewrite Em.
  - unfold buildDefaultDrgRouteTables. rewrite Es. cbn [negb tables_stored]. intros (tables & -> & H1 & H2 & H3 & H4).
    unfold defaultDrgRouteTablesMatch. rewrite Es. cbn [negb dt_Vcn dt_IpsecTunnel dt_VirtualCircuit dt_RemotePeeringConnection] in *.
    by rewrite (given_table_matches _ _ H1), (given_table_matches _ _ H2), (given_table_matches _ _ H3), (given_table_matches _ _ H4).
Qed.

#[export, refine] Instance Drg_updates : UpdateProtocol DrgResource SdkDrg UpdateDrgDetails := {|
  up_build := buildUpdateDrgRequest; up_stored := update_stored; up_observable _ := True; up_settles := _
|}.
Proof.
  intros resource current next id details _ _. unfold buildUpdateDrgRequest.
  destruct (exposed_id "Drg" (sdk_Id current)) eqn:Ei; [|done].
  destruct (validateDrgCreateOnlyDrift (Spec resource) current) eqn:Ev; [done|].
  case_bool_decide; [done|]. intros [= <- <-] [H1 H2 H3 H4 H5 H6].
  cbn [update_details ud_DisplayName ud_FreeformTags ud_DefinedTags ud_DefaultDrgRouteTables] in *.
  unfold validateDrgCreateOnlyDrift in *. rewrite H5, Ei, H6, Ev. rewrite bool_decide_eq_true_2; [done|]. unfold update_details.
  by rewrite (text_settled _ _ _ H1), (map_settled _ _ _ H2), (map_settled _ _ _ H3), (tables_settled _ _ _ H4).
Defined.

(** ** Recovery *)

(** A failed run of the generated client with a [ClearProjectedStatus] and a [RestoreStatus] hook ends with the call of the latter. *)
Lemma generated_failure_restores {W} `{Env} (c : Config W) clear restore state namespace s response err s' :
  ClearProjectedStatus (cfg_StatusHooks c) = Some clear -> RestoreStatus (cfg_StatusHooks c) = Some restore ->
  ShouldRestoreOnFailure (cfg_StatusHooks c) = None -> cou_restore state = None ->
  reconcile_or_create c state namespace s = (Ret (response, Some err), s') ->
  exists baseline s0 s1, callback clear s = (Ret baseline, s0) /\ callback (restore baseline) s1 = (Ret tt, s').
Proof.
  intros Hc Hr Hs Hnone. unfold reconcile_or_create, clearProjectedStatus. rewrite Hc. unfold st_bind at 1 2.
  destruct (callback clear s) as [[baseline|] s0] eqn:E0; [|done]. cbn. unfold st_bind at 1.
  match goal with |- (let (_, _) := ?run in _) = _ -> _ => destruct run as [[[resp [e|]]|] s1] end.
  - cbn. unfold restoreStatusAfterFailure, finish_create_or_update. rewrite Hr, Hs, Hnone. unfold st_bind.
    destruct (callback (restore baseline) s1) as [[[]|] s2] eqn:E2; [|done]. cbn. intros [= <- <- <-]. eauto.
  - cbn. unfold finish_create_or_update. rewrite Hnone. unfold st_bind. cbn. by repeat case_match.
  - by intros [=].
Qed.

(** So configured, as [applyDrgRuntimeHooks] does, the projected fields of a resource survive a failed creation. *)
Definition restoring {W} (delegate : CtxClient DrgResource W) : Prop :=
  forall skip namespace resource w response err resource' w',
    drgCurrentID resource = "" -> cc_CreateOrUpdate delegate skip namespace (resource, w) = (Ret (response, Some err), (resource', w')) ->
    Status resource' = set_OsokStatus (OsokStatus (Status resource')) (Status resource).

Section Theorems.
Context {W : Type} (clock : ST W Time) (name : string).

(** The recovery of a created DRG never happens behind the generated client: the hooks of DRGs make a failed run give back the
    projected fields it started with, so that after a creation whose follow-up read failed the status shows no lifecycle state, and
    the wrapper returns the error although the gateway was created and its identifier recorded. *)
Theorem drg_recovery_unreachable (delegate : CtxClient DrgResource W) skip namespace (resource resource' : DrgResource) w response err w' :
  restoring delegate -> drgCurrentID resource = "" -> st_LifecycleState (Status resource) = "" ->
  cc_CreateOrUpdate delegate skip namespace (resource, w) = (Ret (response, Some err), (resource', w')) ->
  CreateOrUpdate clock name (Some delegate) skip namespace (resource, w) = (Ret (response, Some err), (resource', w')).
Proof.
  intros Hr Hid Hl Hrun. unfold CreateOrUpdate. erewrite bind_step by reflexivity. cbn zeta. rewrite Hid. erewrite bind_step by exact Hrun.
  cbn [snd String.eqb negb]. unfold st_bind at 1, recoverDrgCreateObservation. erewrite bind_step by reflexivity. cbn zeta.
  assert (st_LifecycleState (Status resource') = "") as ->.
  { by rewrite (Hr _ _ _ _ _ _ _ _ Hid Hrun). }
  by rewrite orb_true_r.
Qed.

Lemma recover_run (failed : DrgResource) w condition requeue :
  ticks clock -> drgCurrentID failed <> "" -> ToUpper (TrimSpace (st_LifecycleState (Status failed))) <> "" ->
  drgRecoveryCondition (ToUpper (TrimSpace (st_LifecycleState (Status failed)))) = Some (condition, requeue) ->
  exists r' w', recoverDrgCreateObservation clock name (failed, w) = (Ret (Some (mkResponse (negb (condition =? Failed)%string) requeue Minute)), (r', w')) /\
    Reason (OsokStatus (Status r')) = condition /\ Ocid (OsokStatus (Status r')) = drgCurrentID failed.
Proof.
  intros Hc Hne Hup Hr. apply String.eqb_neq in Hne, Hup. unfold recoverDrgCreateObservation. erewrite bind_step by reflexivity. cbn zeta.
  rewrite Hne, Hup, Hr. cbn [orb]. destruct (Hc w) as (t & w2 & E1). destruct (Hc w2) as (t' & w3 & E2).
  erewrite bind_step by (unfold on_world; rewrite E1; reflexivity). erewrite bind_step by (unfold on_world; rewrite E2; reflexivity). cbn.
  eexists _, _. split; [done|]. cbn. unfold record_recovery. rewrite UpdateOSOKStatusCondition_spec. by destruct (CreatedAt _).
Qed.

(** A recovered creation is reported as what was observed: when a creation failed but the status shows an identifier and a state of
    the DRG, the answer is a success that asks for a requeue unless the state is an available one, the identifier is recorded, and the
    condition is the one that a successful read of the same state gives. *)
Theorem drg_recovery_sound (delegate : CtxClient DrgResource W) skip namespace (resource failed : DrgResource) w response err w1 current :
  ticks clock -> drgCurrentID resource = "" ->
  cc_CreateOrUpdate delegate skip namespace (resource, w) = (Ret (response, Some err), (failed, w1)) ->
  Status failed = set_OsokStatus (OsokStatus (Status failed)) (Status (project current failed)) ->
  drgCurrentID failed <> "" -> sdk_LifecycleState current ∈ ["AVAILABLE"; "PROVISIONING"] ->
  exists condition r' w',
    nk_Condition drgKind (sdk_LifecycleState current) = Some condition /\
    CreateOrUpdate clock name (Some delegate) skip namespace (resource, w) =
      (Ret (mkResponse true (negb (condition =? Active)%string) Minute, None), (r', w')) /\
    Reason (OsokStatus (Status r')) = condition /\ Ocid (OsokStatus (Status r')) = drgCurrentID failed.
Proof.
  intros Hc Hid Hrun Hshow Hne Hstate.
  assert (Hls : st_LifecycleState (Status failed) = sdk_LifecycleState current) by (by rewrite Hshow).
  assert (Hcond : exists condition, nk_Condition drgKind (sdk_LifecycleState current) = Some condition /\
    ToUpper (TrimSpace (sdk_LifecycleState current)) <> "" /\ (condition =? Failed)%string = false /\
    drgRecoveryCondition (ToUpper (TrimSpace (sdk_LifecycleState current))) = Some (condition, negb (condition =? Active)%string)).
  { apply elem_of_cons in Hstate as [->|Hstate]; [|apply list_elem_of_singleton in Hstate as ->]; [exists Active|exists Provisioning]; by vm_compute. }
  destruct Hcond as (condition & Hk & Hup & Hf & Hr). rewrite <- Hls in Hup, Hr.
  destruct (recover_run failed w1 condition (negb (condition =? Active)%string) Hc Hne Hup Hr) as (r' & w' & Hrec & Hreason & Hocid).
  exists condition, r', w'. split; [done|]. split; [|done]. unfold CreateOrUpdate. erewrite bind_step by reflexivity. cbn zeta. rewrite Hid.
  erewrite bind_step by exact Hrun. cbn [snd String.eqb negb]. erewrite bind_step by exact Hrec. by rewrite Hf.
Qed.
End Theorems.

(** ** Concrete gateways *)

Lemma drg_semantics_accepted : validateFormalSemantics "Drg" (Some newDrgRuntimeSemantics) = None.
Proof. vm_compute. reflexivity. Qed.

Definition ex_new : DrgResource := mkResource (mkDrgSpec "ocid1.compartment" None "drg" None noTables) (status_with emptyStatus "").
Definition ex_drg : SdkDrg := mkSdkDrg (Some "ocid1.compartment") (Some "ocid1.drg") "PROVISIONING" None (Some "drg") None None None None.
(** A generated client that creates a gateway, fails to read it, and restores the status as its hooks ask for; and one that does not. *)
Definition ex_delegate (restores : bool) : CtxClient DrgResource unit :=
  mkCtxClient
    (fun _ _ =>
       let* resource := the_resource in
       on_resource (fun r => with_osok (set_Ocid "ocid1.drg") (project ex_drg r)) ;;;
       on_resource (if restores then restoreDrgStatus (Status resource) else id) ;;;
       st_ret (unsuccessful, Some (ErrText "read failed")))
    (st_ret (false, None)).

Lemma drg_recovery_unreachable_witness :
  exists resource', CreateOrUpdate (st_ret 7%Z) "drg-cr" (Some (ex_delegate true)) false "ns" (ex_new, tt) =
      (Ret (unsuccessful, Some (ErrText "read failed")), (resource', tt)) /\ drgCurrentID resource' = "ocid1.drg".
Proof.
  eexists. split.
  - refine (drg_recovery_unreachable (st_ret 7%Z) "drg-cr" (ex_delegate true) false "ns" ex_new _ tt unsuccessful (ErrText "read failed") tt _ _ _ _).
    + intros skip namespace resource w response err resource' w' _ Hrun. vm_compute in Hrun. by injection Hrun as _ _ <- _.
    + reflexivity.
    + reflexivity.
    + reflexivity.
  - reflexivity.
Defined.

Lemma drg_recovery_sound_witness :
  exists condition r' w',
    nk_Condition drgKind "PROVISIONING" = Some condition /\
    CreateOrUpdate (st_ret 7%Z) "drg-cr" (Some (ex_delegate false)) false "ns" (ex_new, tt) =
      (Ret (mkResponse true (negb (condition =? Active)%string) Minute, None), (r', w')) /\
    Reason (OsokStatus (Status r')) = condition /\ Ocid (OsokStatus (Status r')) = "ocid1.drg".
Proof.
  refine (drg_recovery_sound (st_ret 7%Z) "drg-cr" (ex_delegate false) false "ns" ex_new (with_osok (set_Ocid "ocid1.drg") (project ex_drg ex_new)) tt
    unsuccessful (ErrText "read failed") tt ex_drg _ _ _ _ _ _).
  - intros []. by eexists _, _.
  - reflexivity.
  - reflexivity.
  - reflexivity.
  - discriminate.
  - right. left.
Defined.
