(* ===== verification/NetworkSafety.v ===== *)
(** * Core networking: what all kinds guarantee

    The clients of the core networking resources against a service that stores updates: an update
    request that was stored is not built again from the same spec, a finalizer is released only on the
    answers the clients take for an absent resource, and a failed read of the tracked resource never
    leads to a write. *)

From stdpp Require Import gmap.
From S2P Require Import Prelude GoStrings Sorting Shared GoErrors GoValue AsyncStatus Reconciler ReconcilerSafety JsonValues ServiceClients ResourceTags NetworkClients.
From S2P Require Import RouteTableClient SecurityListClient SubnetClient NatGatewayClient ServiceGatewayClient.
From S2P Require Import InternetGatewayClient NetworkSecurityGroupClient VcnClient DrgClient.
Local Open Scope string_scope.
Local Open Scope list_scope.
Local Open Scope go_scope.

(** ** Updates *)

(** C9. The update requests of the nine core networking kinds settle: when the kind's [buildUpdateRequest] asked for an update of the
    live resource and the service then reports a resource that stored that update, the same spec asks for no further update.
    Stored means, per kind ([update_stored]): every field that was sent is reported as sent, every other compared field as before, lists
    in any order, a route rule or security rule up to the normalisation the client itself compares with (a route rule's default
    destination type, a security rule's missing stateless flag; no other default), LOCAL route rules possibly added by the
    service; route rules and security rules carry no separator character of their sort key.  This is about the requests built from one
    spec, not about whole reconciles: the route table client empties the rules of the spec it builds from when they match the
    live ones, and a security list whose rules have no type differs from what the service reports for ever. *)
Theorem network_update_requests_settle :
  settles RouteTableClient.table_update RouteTableClient.update_stored (fun table => Forall clean_rule (RouteTableClient.sdk_RouteRules table)) /\
  settles SecurityListClient.buildUpdateRequest SecurityListClient.update_stored clean_list /\
  settles SubnetClient.buildUpdateRequest SubnetClient.update_stored (fun _ => True) /\
  settles NatGatewayClient.buildUpdateRequest NatGatewayClient.update_stored (fun _ => True) /\
  settles ServiceGatewayClient.buildUpdateRequest ServiceGatewayClient.update_stored (fun _ => True) /\
  settles InternetGatewayClient.buildUpdateRequest InternetGatewayClient.update_stored (fun _ => True) /\
  settles NetworkSecurityGroupClient.buildUpdateRequest NetworkSecurityGroupClient.update_stored (fun _ => True) /\
  settles VcnClient.vcn_update VcnClient.update_stored (fun _ => True) /\
  settles DrgClient.buildUpdateDrgRequest DrgClient.update_stored (fun _ => True).
Proof.
  split_and!; intros spec current next id details; [by apply (up_settles (UpdateProtocol := RouteTable_updates))|
    by apply (up_settles (UpdateProtocol := SecurityList_updates))|by apply (up_settles (UpdateProtocol := Subnet_updates))|
    by apply (up_settles (UpdateProtocol := NatGateway_updates))|by apply (up_settles (UpdateProtocol := ServiceGateway_updates))|
    by apply (up_settles (UpdateProtocol := InternetGateway_updates))|by apply (up_settles (UpdateProtocol := NetworkSecurityGroup_updates))|
    by apply (up_settles (UpdateProtocol := Vcn_updates))|by apply (up_settles (UpdateProtocol := Drg_updates))].
Qed.

(** ** Deletes *)

Section Deletes.
Context {W : Type} (clock : ST W Time).

(** Under the reconciler, an object is written without the OSOK finalizer only when [evidence] holds of the object that was read
    and of the world the delete started in. *)
Definition released_only {R} (delete : ST (R * W) (bool * option GoError)) (evidence : R -> W -> Prop) : Prop :=
  forall (equality : EqDecision R) (k8s : Client R W) createOrUpdate namespace status extra obj0 w0 out rs o,
    Reconcile k8s (client_manager (mkSvcClient createOrUpdate delete) namespace status) extra (mkRS obj0 w0 []) = (out, rs) ->
    EffUpdate o ∈ rs_trace rs -> ContainsFinalizer o OSOKFinalizerName = false ->
    exists obj w, c_Get k8s w0 = (Ok obj, w) /\ delete_branch obj = true /\ evidence (o_body obj) w.

Lemma released_intro {R} (delete : ST (R * W) (bool * option GoError)) (evidence : R -> W -> Prop) :
  (forall r w d err s', delete (r, w) = (Ret (d, err), s') -> delete_confirmed (mkDeleteResult d 0%Z, err) = true -> evidence r w) ->
  released_only delete evidence.
Proof.
  intros He equality k8s cu namespace status extra obj0 w0 out rs o Hrun Hw Hf.
  destruct (release_confirmed _ _ _ _ _ _ _ _ Hrun Hw Hf) as (obj & w & p & o' & w' & Hg & Hb & Hc & Hd).
  apply client_manager_delete in Hc as (d & err & r' & Hdel & ->). exists obj, w. split_and!; [done..|]. by eapply He.
Qed.

(** The resource of an identifier counts as absent: there is no identifier, or the delete call or the read after it was answered with
    what the client takes for a not-found (an ambiguous 404 included); [failed] is the error in the answer of the delete call. *)
Definition absent {Sdk A} (failed : A -> option GoError) (delete : string -> ST W A) (get : string -> ST W (result Sdk GoError)) (id : string) (w : W) : Prop :=
  id = "" \/
  (exists a e w1, delete id w = (Ret a, w1) /\ failed a = Some e /\ isDeleteNotFoundOCI e = Ret true) \/
  (exists a e w1 w2, delete id w = (Ret a, w1) /\ failed a = None /\ get id w1 = (Ret (Err e), w2) /\ isDeleteNotFoundOCI e = Ret true).

(** The wrapped generated client finished the delete. *)
Definition delegate_confirmed {R} (delegate : CtxClient R W) (r : R) (w : W) : Prop :=
  exists d err s', cc_Delete delegate (r, w) = (Ret (d, err), s') /\ delete_confirmed (mkDeleteResult d 0%Z, err) = true.

Lemma tracked_released {R} (delegate : CtxClient R W) (untracked : bool) (mark : ST (R * W) unit) r w d err s' :
  (if untracked then mark ;;; st_ret (true, None) else cc_Delete delegate) (r, w) = (Ret (d, err), s') ->
  delete_confirmed (mkDeleteResult d 0%Z, err) = true -> untracked = true \/ delegate_confirmed delegate r w.
Proof. destruct untracked; [by left|]. intros Hrun Hc. right. by exists d, err, s'. Qed.

Lemma route_table_released getRouteTable deleteRouteTable (r : RouteTableResource) w d err s' :
  RouteTableClient.Delete clock getRouteTable deleteRouteTable None None (r, w) = (Ret (d, err), s') ->
  delete_confirmed (mkDeleteResult d 0%Z, err) = true -> absent id deleteRouteTable getRouteTable (currentRouteTableOCID r) w.
Proof.
  unfold RouteTableClient.Delete. erewrite bind_step by reflexivity. cbn zeta. destruct (currentRouteTableOCID r =? "")%string eqn:Eid.
  { intros _ _. left. by apply String.eqb_eq. }
  unfold st_bind at 1, on_world at 1. destruct (deleteRouteTable _ w) as [[[e|]|] w1] eqn:Ed; [..|done].
  - intros Hrun Hc. right. left. exists (Some e), e, w1. split_and!; [done..|]. exact (delete_failed_confirmed _ _ _ _ _ _ _ Hrun Hc).
  - unfold st_bind at 1, on_world at 1. destruct (getRouteTable _ w1) as [[[live|e]|] w2] eqn:Eg; [..|done].
    + unfold st_bind, on_resource. destruct (markTerminating clock _ _ _) as [[[]|] s1]; [|done]. by intros [= <- <- _].
    + intros Hrun Hc. right. right. exists None, e, w1, w2. split_and!; [done..|]. exact (delete_failed_confirmed _ _ _ _ _ _ _ Hrun Hc).
Qed.

(** The error of an answer. *)
Definition answer_error {A} (answer : result A GoError) : option GoError := match answer with Ok _ => None | Err e => Some e end.

Lemma subnet_released getSubnet deleteSubnet (r : SubnetResource) w d err s' :
  SubnetClient.Delete clock getSubnet deleteSubnet None (r, w) = (Ret (d, err), s') ->
  delete_confirmed (mkDeleteResult d 0%Z, err) = true -> absent answer_error deleteSubnet getSubnet (currentSubnetOCID r) w.
Proof.
  unfold SubnetClient.Delete. erewrite bind_step by reflexivity. cbn zeta. destruct (currentSubnetOCID r =? "")%string eqn:Eid.
  { intros _ _. left. by apply String.eqb_eq. }
  unfold st_bind at 1, on_world at 1. destruct (deleteSubnet _ w) as [[[a|e]|] w1] eqn:Ed; [..|done].
  - unfold st_bind at 1, on_resource at 1. unfold st_bind at 1, on_world at 1. destruct (getSubnet _ w1) as [[[live|e]|] w2] eqn:Eg; [..|done].
    + unfold st_bind, on_resource. destruct (markTerminating clock _ _ _) as [[[]|] s1]; [|done]. by intros [= <- <- _].
    + intros Hrun Hc. right. right. exists (Ok a), e, w1, w2. split_and!; [done..|]. exact (delete_failed_confirmed _ _ _ _ _ _ _ Hrun Hc).
  - intros Hrun Hc. right. left. exists (Err e), e, w1. split_and!; [done..|]. exact (delete_failed_confirmed _ _ _ _ _ _ _ Hrun Hc).
Qed.

(** C19. When the reconciler writes an object of one of the nine networking kinds without the OSOK finalizer, the object it read is
    deleting and the kind's client answered the delete with a reason.  Route tables and subnets: no identifier was recorded, or
    the delete call, or the read that follows an accepted delete, was answered with a 404 that the client counts as not found,
    which includes the ambiguous NotAuthorizedOrNotFound ([isDeleteNotFoundOCI]); every other failure, normalised or not, and a
    resource that can still be read keep the finalizer.  Security lists, NAT gateways and service gateways: no identifier was
    recorded, or the generated client confirmed the delete.  The clients of the other four kinds pass the delete on: the
    generated client itself confirmed it. *)
Theorem network_finalizer_evidenced getRouteTable deleteRouteTable getSubnet deleteSubnet lists nats gateways internet groups vcns drgs sdk :
  validateNetworkSecurityGroupSDKContract sdk = None ->
  released_only (RouteTableClient.Delete clock getRouteTable deleteRouteTable None None)
    (fun r => absent id deleteRouteTable getRouteTable (currentRouteTableOCID r)) /\
  released_only (SubnetClient.Delete clock getSubnet deleteSubnet None) (fun r => absent answer_error deleteSubnet getSubnet (currentSubnetOCID r)) /\
  released_only (SecurityListClient.Delete clock None (Some lists))
    (fun r w => TrimSpace (currentSecurityListTrackedOCID r) = "" \/ delegate_confirmed lists r w) /\
  released_only (NatGatewayClient.Delete clock None (Some nats))
    (fun r w => currentNatGatewayID r = "" \/ delegate_confirmed nats (seedTrackedOCID (currentNatGatewayID r) r) w) /\
  released_only (ServiceGatewayClient.Delete clock None (Some gateways))
    (fun r w => currentServiceGatewayID r = "" \/ delegate_confirmed gateways (seedTrackedOCID (currentServiceGatewayID r) r) w) /\
  released_only (InternetGatewayClient.Delete (Some internet)) (delegate_confirmed internet) /\
  released_only (NetworkSecurityGroupClient.Delete sdk (Some groups)) (delegate_confirmed groups) /\
  released_only (VcnClient.Delete (Some vcns)) (delegate_confirmed vcns) /\
  released_only (DrgClient.Delete (Some drgs)) (delegate_confirmed drgs).
Proof.
  intros Hsdk. split_and!; apply released_intro; intros r w d err s' Hrun Hc.
  - by eapply route_table_released.
  - by eapply subnet_released.
  - destruct (tracked_released _ _ _ _ _ _ _ _ Hrun Hc) as [E|E]; [left; by apply String.eqb_eq|by right].
  - destruct (tracked_released _ _ _ _ _ _ _ _ Hrun Hc) as [E|E]; [left; by apply String.eqb_eq|by right].
  - destruct (tracked_released _ _ _ _ _ _ _ _ Hrun Hc) as [E|E]; [left; by apply String.eqb_eq|by right].
  - by exists d, err, s'.
  - unfold NetworkSecurityGroupClient.Delete in Hrun. rewrite Hsdk in Hrun. by exists d, err, s'.
  - by exists d, err, s'.
  - by exists d, err, s'.
Qed.
End Deletes.

(** ** Reads *)

Section Reads.
Context {W : Type} (clock : ST W Time).

(** The answer of a failed read is the answer of the reconcile. *)
Lemma read_failed_run {Sp St Sdk : Type} `{StatusBlock St} (get : string -> ST W (result Sdk GoError)) (clear : Resource Sp St -> Resource Sp St) gone id
  (k : TrackedRead Sdk -> ST (Resource Sp St * W) (OSOKResponse * option GoError)) r w err normalized w1 :
  (forall answer, k (Answered answer) = st_ret answer) ->
  id <> "" -> get id w = (Ret (Err err), w1) -> isReadNotFoundOCI err = Ret false -> normalizeOCIError err = Ret normalized ->
  (let* tracked := read_tracked clock None get clear gone id in k tracked) (r, w) = fail clock normalized (r, w1).
Proof.
  intros Hk Hid Hget Hnf Hn. unfold st_bind at 1. rewrite (read_tracked_failed clock get clear gone id r w err normalized w1) by done.
  unfold st_bind. destruct (fail clock normalized (r, w1)) as [[answer|] s'] eqn:E; [|done]. cbn. by rewrite Hk.
Qed.

(** An identity that is read of the block's OCID and of fields outside the block survives a recorded failure. *)
Lemma guarded_intro {Sp St Sdk : Type} `{StatusBlock St} (trackedID : Resource Sp St -> string) (seed : Resource Sp St -> Resource Sp St)
  (run : (string -> ST W (result Sdk GoError)) -> CtxClient (Resource Sp St) W -> bool -> string -> ST (Resource Sp St * W) (OSOKResponse * option GoError)) :
  (forall b r, Ocid b = Ocid (OsokStatus (Status r)) -> trackedID (with_osok (fun _ => b) r) = trackedID r) ->
  (forall r, trackedID (seed r) = trackedID r) ->
  (forall get delegate skip namespace resource w err w1 normalized,
     trackedID resource <> "" -> get (trackedID resource) w = (Ret (Err err), w1) ->
     isReadNotFoundOCI err = Ret false -> normalizeOCIError err = Ret normalized ->
     run get delegate skip namespace (resource, w) = fail clock normalized (seed resource, w1)) ->
  read_guarded clock trackedID seed run.
Proof.
  intros Hb Hs Hrun get delegate skip namespace resource w err w1 normalized Hid Hget Hnf Hn.
  assert (E := Hrun get delegate skip namespace resource w err w1 normalized Hid Hget Hnf Hn). split; [done|].
  intros answer resource' w' Hr. rewrite E in Hr. split; [by apply fail_inv in Hr|].
  apply fail_keeps in Hr as (b & -> & Ho). by rewrite Hb, Hs.
Qed.

Lemma currentID_block b b' id : Ocid b = Ocid b' -> currentID b id = currentID b' id.
Proof. unfold currentID. by intros ->. Qed.

Lemma seeded_id {Sp St : Type} `{StatusBlock St} (id : St -> string) (r : Resource Sp St) :
  (forall b s, id (set_OsokStatus b s) = id s) ->
  let tracked := currentID (OsokStatus (Status r)) (id (Status r)) in
  currentID (OsokStatus (Status (seedTrackedOCID tracked r))) (id (Status (seedTrackedOCID tracked r))) = tracked.
Proof.
  intros Hid tracked. assert (id (Status (seedTrackedOCID tracked r)) = id (Status r)) as ->; [|apply seedTrackedOCID_id].
  unfold seedTrackedOCID. repeat case_match; [done|done|]. unfold with_osok. cbn [Status]. by rewrite Hid.
Qed.

(** The steps before the read run on their own. *)
Ltac reads_first :=
  intros; cbn zeta; repeat (erewrite bind_step by reflexivity; cbn zeta); by eapply read_failed_run.

(** C8. A failed read never leads to a write: in every core networking client that reads its tracked resource, an error of the read other
    than an unambiguous not-found answer (a throttled, refused or ambiguous call) ends the reconcile; the generated client is not
    called, no request is sent, the answer is the normalised error, and the resource keeps the identity it tracks, so that it is
    not created a second time. *)
Theorem network_reads_guarded sdk updateSubnet updateServiceGateway :
  validateNetworkSecurityGroupSDKContract sdk = None ->
  read_guarded clock currentRouteTableOCID id (fun get d => RouteTableClient.CreateOrUpdate clock get None None (Some d)) /\
  read_guarded clock currentSubnetOCID (with_spec (normalizeMutableCollections None))
    (fun get d => SubnetClient.CreateOrUpdate clock get updateSubnet None (Some d)) /\
  read_guarded clock currentNatGatewayID (fun r => seedTrackedOCID (currentNatGatewayID r) r)
    (fun get d => NatGatewayClient.CreateOrUpdate clock (Some get) None (Some d)) /\
  read_guarded clock currentServiceGatewayID (fun r => seedTrackedOCID (currentServiceGatewayID r) r)
    (fun get d => ServiceGatewayClient.CreateOrUpdate clock (Some get) updateServiceGateway None (Some d)) /\
  read_guarded clock currentInternetGatewayID id (fun get d => InternetGatewayClient.CreateOrUpdate clock None get (Some d)) /\
  read_guarded clock currentNetworkSecurityGroupID id (fun get d => NetworkSecurityGroupClient.CreateOrUpdate clock sdk None get (Some d)) /\
  read_guarded clock currentVcnID id (fun get d => VcnClient.CreateOrUpdate clock None get (Some d)).
Proof.
  intros Hsdk. split_and!; apply guarded_intro; try done; try (intros; by apply currentID_block);
    try (intros b r Hb; unfold currentRouteTableOCID, currentSubnetOCID; cbn; by rewrite Hb);
    try (intros r; exact (seeded_id NatGatewayClient.st_Id r (fun _ _ => eq_refl)));
    try (intros r; exact (seeded_id ServiceGatewayClient.st_Id r (fun _ _ => eq_refl))).
  - unfold RouteTableClient.CreateOrUpdate. reads_first.
  - unfold SubnetClient.CreateOrUpdate. reads_first.
  - unfold NatGatewayClient.CreateOrUpdate. reads_first.
  - unfold ServiceGatewayClient.CreateOrUpdate. reads_first.
  - unfold InternetGatewayClient.CreateOrUpdate. reads_first.
  - unfold NetworkSecurityGroupClient.CreateOrUpdate. rewrite Hsdk. reads_first.
  - unfold VcnClient.CreateOrUpdate. reads_first.
Qed.

(** A failed reconcile never shows an empty resource: when the tracked internet gateway or network security group was read and the
    generated client then failed on the cleared status, the status of the resource is the one from before the reconcile, or the
    one the generated client projected from what it observed itself, with the block of the failed run. *)
Theorem network_failures_keep_status sdk skip namespace w response err w' :
  (forall get delegate (resource r' : InternetGatewayResource) live w1,
     get (currentInternetGatewayID resource) w = (Ret (Ok live), w1) -> currentInternetGatewayID resource <> "" ->
     InternetGatewayClient.CreateOrUpdate clock None get (Some delegate) skip namespace (resource, w) = (Ret (response, Some err), (r', w')) ->
     Status r' = set_OsokStatus (OsokStatus (Status r')) (Status resource) \/
     projectedStatusChanged (Status r') (Status (InternetGatewayClient.clearProjectedStatus resource)) = true) /\
  (forall get delegate (resource r' : NetworkSecurityGroupResource) live w1,
     validateNetworkSecurityGroupSDKContract sdk = None ->
     get (currentNetworkSecurityGroupID resource) w = (Ret (Ok live), w1) -> currentNetworkSecurityGroupID resource <> "" ->
     NetworkSecurityGroupClient.CreateOrUpdate clock sdk None get (Some delegate) skip namespace (resource, w) = (Ret (response, Some err), (r', w')) ->
     Status r' = set_OsokStatus (OsokStatus (Status r')) (Status resource) \/
     projectedStatusChanged (Status r') (Status (NetworkSecurityGroupClient.clearProjectedStatus resource)) = true).
Proof.
  split.
  - intros get delegate resource r' live w1 Hget Hid. unfold InternetGatewayClient.CreateOrUpdate. erewrite bind_step by reflexivity.
    erewrite bind_step by (by eapply read_tracked_found). unfold InternetGatewayClient.run_delegate.
    do 3 (erewrite bind_step by reflexivity; cbn zeta). apply delegated_unless_changed_failed.
  - intros get delegate resource r' live w1 Hsdk Hget Hid. unfold NetworkSecurityGroupClient.CreateOrUpdate. rewrite Hsdk.
    erewrite bind_step by reflexivity. erewrite bind_step by (by eapply read_tracked_found). unfold NetworkSecurityGroupClient.run_delegate.
    do 3 (erewrite bind_step by reflexivity; cbn zeta). apply delegated_unless_changed_failed.
Qed.
End Reads.

(** ** Concrete runs *)

Definition ex_sdk : SdkContract :=
  mkSdkContract ["DefinedTags"; "DisplayName"; "FreeformTags"] ["CompartmentId"; "VcnId"; "DefinedTags"; "DisplayName"; "FreeformTags"]
    ["PROVISIONING"; "AVAILABLE"; "TERMINATING"; "TERMINATED"].
Definition ex_throttled : GoError := ErrService (mkServiceError 429 "TooManyRequests" "req1" "slow down" "429 TooManyRequests" "common.servicefailure" None).

#[local] Instance route_rule_eq_dec : EqDecision RouteTableRouteRule.
Proof. solve_decision. Defined.
#[local] Instance route_table_spec_eq_dec : EqDecision RouteTableSpec.
Proof. solve_decision. Defined.
#[local] Instance route_table_status_eq_dec : EqDecision RouteTableStatus.
Proof. solve_decision. Defined.
#[local] Instance route_table_eq_dec : EqDecision RouteTableResource.
Proof. solve_decision. Defined.

(** A deleting route table whose delete call is answered as not found. *)
Definition ex_deleting : Object RouteTableResource := mkObject [OSOKFinalizerName] (Some 5%Z) 2%Z (RouteTableClient.ex_resource "a").
Definition ex_k8s : Client RouteTableResource unit :=
  mkClient (fun w => (Ok ex_deleting, w)) (fun o w => (o, None, w)) (fun _ o w => (o, None, w)).
Definition ex_no_client {R} : CtxClient R unit := mkCtxClient (fun _ _ => st_panic) st_panic.

Lemma network_finalizer_evidenced_witness :
  exists obj w, c_Get ex_k8s tt = (Ok obj, w) /\ delete_branch obj = true /\
    absent id (fun _ => st_ret (Some RouteTableClient.ex_not_found)) (fun _ => st_ret (Err RouteTableClient.ex_not_found) : ST unit (result SdkRouteTable GoError))
      (currentRouteTableOCID (o_body obj)) w.
Proof.
  edestruct (network_finalizer_evidenced (st_ret 7%Z : ST unit Time) (fun _ => st_ret (Err RouteTableClient.ex_not_found))
    (fun _ => st_ret (Some RouteTableClient.ex_not_found)) (fun _ => st_panic) (fun _ => st_panic) ex_no_client ex_no_client ex_no_client ex_no_client
    ex_no_client ex_no_client ex_no_client ex_sdk) as [Hrt _]; [vm_compute; reflexivity|].
  eapply (Hrt _ ex_k8s (fun _ => st_panic) "ns" (fun r => OsokStatus (Status r)) [] ex_deleting tt).
  - vm_compute. reflexivity.
  - simpl. do 2 right. left.
  - reflexivity.
Defined.

Lemma network_reads_guarded_witness :
  exists normalized,
    VcnClient.CreateOrUpdate (st_ret 7%Z) None (fun _ => st_ret (Err ex_throttled)) (Some VcnClient.ex_delegate) false "ns" (VcnClient.ex_resource, tt) =
      fail (st_ret 7%Z) normalized (VcnClient.ex_resource, tt).
Proof.
  destruct (network_reads_guarded (st_ret 7%Z : ST unit Time) ex_sdk (fun _ _ => st_panic) (fun _ _ => st_panic)) as (_ & _ & _ & _ & _ & _ & Hvcn);
    [vm_compute; reflexivity|].
  eexists. refine (proj1 (Hvcn (fun _ => st_ret (Err ex_throttled)) VcnClient.ex_delegate false "ns" VcnClient.ex_resource tt ex_throttled tt _ _ _ _ _)).
  - discriminate.
  - reflexivity.
  - vm_compute. reflexivity.
  - vm_compute. reflexivity.
Defined.

Definition ex_group (name : string) : SdkNetworkSecurityGroup :=
  mkSdkNsg (Some "ocid1.compartment") (Some "ocid1.nsg") "AVAILABLE" None (Some "ocid1.vcn") None (Some name) None.
Definition ex_nsg : NetworkSecurityGroupResource :=
  mkResource (mkNsgSpec "ocid1.compartment" "ocid1.vcn" None "web" None) (NetworkSecurityGroupClient.status_with emptyStatus "").
Definition ex_rename : UpdateNetworkSecurityGroupDetails := mkUpdateNsg (Some "web") None None.

(** A renamed group: one update, and nothing more once it was stored. *)
Lemma network_update_requests_settle_witness :
  NetworkSecurityGroupClient.buildUpdateRequest ex_nsg (ex_group "old") = Ok (Some ("ocid1.nsg", ex_rename)) /\
  NetworkSecurityGroupClient.buildUpdateRequest ex_nsg (ex_group "web") = Ok None.
Proof.
  split; [vm_compute; reflexivity|].
  destruct network_update_requests_settle as (_ & _ & _ & _ & _ & _ & Hnsg & _).
  apply (Hnsg ex_nsg (ex_group "old") (ex_group "web") "ocid1.nsg" ex_rename); [done|done|vm_compute; reflexivity|].
  split; try reflexivity. by left.
Defined.

Definition ex_ig (state : string) : InternetGatewayResource :=
  mkResource (mkIgSpec "ocid1.compartment" true "ocid1.vcn" None "ig" None "")
    (mkIgStatus emptyStatus "ocid1.compartment" "ocid1.ig" state "ocid1.vcn" None "ig" None true "" "").
(** A generated client that fails before it observed anything. *)
Definition ex_failing : CtxClient InternetGatewayResource unit :=
  mkCtxClient (fun _ _ => st_ret (unsuccessful, Some (ErrText "busy"))) (st_ret (false, Some (ErrText "busy"))).

Lemma network_failures_keep_status_witness :
  exists r', InternetGatewayClient.CreateOrUpdate (st_ret 7%Z) None
      (fun _ => st_ret (Ok (mkSdkIg None (Some "ocid1.ig") "AVAILABLE" None None None None None None None))) (Some ex_failing) false "ns" (ex_ig "AVAILABLE", tt) =
      (Ret (unsuccessful, Some (ErrText "busy")), (r', tt)) /\
    InternetGatewayClient.st_LifecycleState (Status r') = "AVAILABLE" /\
    (Status r' = set_OsokStatus (OsokStatus (Status r')) (Status (ex_ig "AVAILABLE")) \/
     projectedStatusChanged (Status r') (Status (InternetGatewayClient.clearProjectedStatus (ex_ig "AVAILABLE"))) = true).
Proof.
  eexists. split; [vm_compute; reflexivity|].
  split; [reflexivity|].
  refine (proj1 (network_failures_keep_status (st_ret 7%Z : ST unit Time) ex_sdk false "ns" tt unsuccessful (ErrText "busy") tt)
    (fun _ => st_ret (Ok (mkSdkIg None (Some "ocid1.ig") "AVAILABLE" None None None None None None None))) ex_failing (ex_ig "AVAILABLE") _ _ tt
    eq_refl _ eq_refl). discriminate.
Defined.
