(* ===== verification/ListPages.v ===== *)
(** * Reading every page of a list

    Most hand-written clients replace the List call of the generated runtime by a loop
    that follows the [opc-next-page] tokens and combines the pages.  The loops of about
    ninety packages are copies of two: one that remembers the tokens it has seen and fails
    on a repeated one ([listAiDataPlatformsAllPages] of
    [aidataplatform_runtime_client.go]), and one that does not
    ([listSubscriptionsAllPages] of [self/subscription/subscription_runtime_client.go]).
    Both are modelled over the item type and the request; the SDK's list call is a
    parameter.  The raw HTTP response is a field that is only copied. *)

From stdpp Require Import gmap sets.
From S2P Require Import Prelude GoStrings Shared GoErrors Runtime.
Local Open Scope string_scope.
Local Open Scope list_scope.
Local Open Scope go_scope.

(** ** Pages *)

(** A list response; a nil slice of items and an empty one are the same. *)
Record ListResponse (Item Raw : Type) := mkListResponse {
  Items : list Item;
  RawResponse : option Raw;
  OpcRequestId : option string;
  OpcNextPage : option string
}.
Arguments mkListResponse {Item Raw}.
Arguments Items {Item Raw}.
Arguments RawResponse {Item Raw}.
Arguments OpcRequestId {Item Raw}.
Arguments OpcNextPage {Item Raw}.

(** A list request: the page to read and whatever else the caller has filled in. *)
Record ListRequest (Query : Type) := mkListRequest { lr_Query : Query; Page : option string }.
Arguments mkListRequest {Query}.
Arguments lr_Query {Query}.
Arguments Page {Query}.

Section Pages.
Context {Item Raw Query W : Type}.
Abbreviation Response := (ListResponse Item Raw).
Context (call : ListRequest Query -> ST W (result Response GoError)).

Definition noResponse : Response := mkListResponse [] None None None.

Definition nextPage (response : Response) : string :=
  TrimSpace match OpcNextPage response with None => "" | Some token => token end.

(** The combined response after one more page; the last page clears the token. *)
Definition combine (combined response : Response) (token : option string) : Response :=
  mkListResponse (Items combined ++ Items response) (RawResponse response) (OpcRequestId response) token.

(** ** The loops *)

(** The loop runs on [fuel]; [None] says that it was not enough. *)
Fixpoint all_pages (fuel : nat) (request : ListRequest Query) (seenPages : gset string) (combined : Response)
  : ST W (option (result Response GoError)) :=
  match fuel with
  | 0 => st_ret None
  | S fuel =>
      attempt response := call request otherwise e => st_ret (Some (Err e)) in
      let next := nextPage response in
      if (next =? "")%string then st_ret (Some (Ok (combine combined response None)))
      else if bool_decide (next ∈ seenPages) then
        st_ret (Some (Err (ErrText ("AiDataPlatform list pagination repeated page token " +++ Quote next))))
      else all_pages fuel (mkListRequest (lr_Query request) (OpcNextPage response)) ({[next]} ∪ seenPages)
             (combine combined response (OpcNextPage response))
  end.
Definition listAiDataPlatformsAllPages (fuel : nat) (request : ListRequest Query) : ST W (option (result Response GoError)) :=
  all_pages fuel request ∅ noResponse.

Fixpoint unguarded_pages (fuel : nat) (request : ListRequest Query) (combined : Response)
  : ST W (option (result Response GoError)) :=
  match fuel with
  | 0 => st_ret None
  | S fuel =>
      attempt response := call request otherwise e => st_ret (Some (Err e)) in
      match OpcNextPage response with
      | None => st_ret (Some (Ok (combine combined response None)))
      | Some token =>
          if (TrimSpace token =? "")%string then st_ret (Some (Ok (combine combined response None)))
          else unguarded_pages fuel (mkListRequest (lr_Query request) (OpcNextPage response))
                 (combine combined response (OpcNextPage response))
      end
  end.
Definition listSubscriptionsAllPages (fuel : nat) (request : ListRequest Query) : ST W (option (result Response GoError)) :=
  unguarded_pages fuel request noResponse.

(** ** What the service sends *)

(** The pages of a run: each one is asked for with the token of the one before it, and only the last has
    none. *)
Inductive sends (query : Query) : option string -> W -> list Response -> W -> Prop :=
| sends_last page w response w' :
    call (mkListRequest query page) w = (Ret (Ok response), w') -> nextPage response = "" ->
    sends query page w [response] w'
| sends_more page w response w1 pages w' :
    call (mkListRequest query page) w = (Ret (Ok response), w1) -> nextPage response <> "" ->
    sends query (OpcNextPage response) w1 pages w' -> sends query page w (response :: pages) w'.

(** The tokens that lead from page to page. *)
Definition tokens (pages : list Response) : list string := filter (fun t => t <> "") (nextPage <$> pages).

(** All pages as one response. *)
Definition joined (combined : Response) (pages : list Response) : Response :=
  mkListResponse (Items combined ++ (pages ≫= Items)) (last pages ≫= RawResponse) (last pages ≫= OpcRequestId) None.

Lemma joined_last combined response : joined combined [response] = combine combined response None.
Proof. unfold joined, combine. cbn. by rewrite app_nil_r. Qed.

Lemma joined_more combined response token pages :
  pages <> [] -> joined (combine combined response token) pages = joined combined (response :: pages).
Proof.
  intros Hp. destruct pages as [|p pages]; [done|]. unfold joined, combine. cbn [Items].
  rewrite (bind_cons Items response), app_assoc. by rewrite !last_cons_cons.
Qed.

Lemma sends_not_nil query page w pages w' : sends query page w pages w' -> pages <> [].
Proof. by intros []. Qed.

Lemma tokens_last response : nextPage response = "" -> tokens [response] = [].
Proof. intros Hn. unfold tokens. cbn. rewrite Hn. by rewrite decide_False by naive_solver. Qed.
Lemma tokens_more response pages : nextPage response <> "" -> tokens (response :: pages) = nextPage response :: tokens pages.
Proof. intros Hn. unfold tokens. cbn. by rewrite decide_True. Qed.

(** Without a repeated token, both loops return the pages the service sends, joined, given fuel for every page. *)
Lemma sends_all_pages query page w pages w' fuel seen combined :
  sends query page w pages w' -> length pages <= fuel -> NoDup (tokens pages) -> (forall t, t ∈ tokens pages -> t ∉ seen) ->
  all_pages fuel (mkListRequest query page) seen combined w = (Ret (Some (Ok (joined combined pages))), w').
Proof.
  intros Hs. revert fuel seen combined.
  induction Hs as [page w response w' Hc Hn|page w response w1 pages w' Hc Hn Hs IH];
    intros [|fuel] seen combined Hf Hd Hseen; cbn in Hf; try lia; cbn; unfold st_bind; rewrite Hc.
  - rewrite Hn. cbn. by rewrite joined_last.
  - rewrite tokens_more in Hd, Hseen by done. apply NoDup_cons in Hd as [Hnew Hd].
    rewrite (proj2 (String.eqb_neq _ _) Hn), bool_decide_eq_false_2 by (apply Hseen; left).
    rewrite IH; [|lia|done|].
    + by rewrite joined_more by (by eapply sends_not_nil).
    + intros t Ht Hin. apply elem_of_union in Hin as [->%elem_of_singleton|Hin]; [done|].
      eapply Hseen; [by right|done].
Qed.

Lemma sends_unguarded query page w pages w' fuel combined :
  sends query page w pages w' -> length pages <= fuel ->
  unguarded_pages fuel (mkListRequest query page) combined w = (Ret (Some (Ok (joined combined pages))), w').
Proof.
  intros Hs. revert fuel combined.
  induction Hs as [page w response w' Hc Hn|page w response w1 pages w' Hc Hn Hs IH];
    intros [|fuel] combined Hf; cbn in Hf; try lia; cbn; unfold st_bind; rewrite Hc.
  - rewrite <-(joined_last combined). unfold nextPage in Hn. destruct (OpcNextPage response); [|done].
    by rewrite Hn.
  - rewrite <-(joined_more combined response (OpcNextPage response) pages) by (by eapply sends_not_nil).
    rewrite <-(IH fuel) by lia. unfold nextPage in Hn. destruct (OpcNextPage response) as [t|]; [|done].
    by rewrite (proj2 (String.eqb_neq _ _) Hn).
Qed.

(** A successful run of either loop has followed such a run of the service. *)
Lemma all_pages_sends fuel query page seen combined w r w' :
  all_pages fuel (mkListRequest query page) seen combined w = (Ret (Some (Ok r)), w') ->
  exists pages, sends query page w pages w' /\ r = joined combined pages /\
    NoDup (tokens pages) /\ forall t, t ∈ tokens pages -> t ∉ seen.
Proof.
  revert page seen combined w. induction fuel as [|fuel IH]; intros page seen combined w; cbn; [done|].
  unfold st_bind. destruct (call _ w) as [[[response|e]|] w1] eqn:Hc; [|done..].
  destruct (nextPage response =? "")%string eqn:Hn; [apply String.eqb_eq in Hn|apply String.eqb_neq in Hn].
  - intros [= <- <-]. exists [response]. rewrite joined_last, tokens_last by done.
    split_and!; [by constructor|done|constructor|by intros t ?%elem_of_nil].
  - case_bool_decide as Hin; [done|]. intros (pages & Hs & -> & Hd & Hseen)%IH. exists (response :: pages).
    rewrite tokens_more, joined_more by (done || by eapply sends_not_nil). split_and!; [by econstructor|done|..].
    + constructor; [|done]. intros Ht. apply (Hseen _ Ht). set_solver.
    + intros t [->|Ht]%elem_of_cons; [done|]. specialize (Hseen t Ht). set_solver.
Qed.

Lemma unguarded_sends fuel query page combined w r w' :
  unguarded_pages fuel (mkListRequest query page) combined w = (Ret (Some (Ok r)), w') ->
  exists pages, sends query page w pages w' /\ r = joined combined pages.
Proof.
  revert page combined w. induction fuel as [|fuel IH]; intros page combined w; cbn; [done|].
  unfold st_bind. destruct (call _ w) as [[[response|e]|] w1] eqn:Hc; [|done..].
  destruct (OpcNextPage response) as [t|] eqn:Ht;
    [destruct (TrimSpace t =? "")%string eqn:Hn; [apply String.eqb_eq in Hn|apply String.eqb_neq in Hn]|].
  2: { intros (pages & Hs & ->)%IH. exists (response :: pages). rewrite joined_more by (by eapply sends_not_nil).
       split; [|done]. eapply sends_more; [done|unfold nextPage; by rewrite Ht|by rewrite Ht]. }
  all: intros [= <- <-]; exists [response]; rewrite joined_last; split; [|done]; constructor; [done|];
    unfold nextPage; by rewrite Ht.
Qed.

(** The tokens left for a service that only uses those of [T]. *)
Lemma all_pages_enough (T : gset string) fuel request seen combined w :
  (forall request w response w', call request w = (Ret (Ok response), w') -> nextPage response = "" \/ nextPage response ∈ T) ->
  seen ⊆ T -> size (T ∖ seen) < fuel -> fst (all_pages fuel request seen combined w) <> Ret None.
Proof.
  intros HT. revert request seen combined w. induction fuel as [|fuel IH]; intros request seen combined w Hs Hf; [lia|].
  cbn. unfold st_bind. destruct (call request w) as [[[response|e]|] w1] eqn:Hc; [|done..].
  destruct (nextPage response =? "")%string eqn:Hn; [done|]. apply String.eqb_neq in Hn. case_bool_decide as Hin; [done|].
  destruct (HT _ _ _ _ Hc) as [?|Hnew]; [done|]. apply IH; [set_solver|].
  assert (T ∖ ({[nextPage response]} ∪ seen) ⊂ T ∖ seen) as Hlt by set_solver. apply subset_size in Hlt. lia.
Qed.
End Pages.

(** ** Theorems *)

(** C16. The guarded loop ends on every service with finitely many page tokens, however it answers: whatever is in the
    pages, whether tokens come back or lead in circles, one call more than there are tokens is enough. *)
Theorem list_pages_terminate {Item Raw Query W} (call : ListRequest Query -> ST W (result (ListResponse Item Raw) GoError))
  (T : gset string) (request : ListRequest Query) (w : W) :
  (forall request w response w', call request w = (Ret (Ok response), w') -> nextPage response = "" \/ nextPage response ∈ T) ->
  fst (listAiDataPlatformsAllPages call (S (size T)) request w) <> Ret None.
Proof. intros HT. apply (all_pages_enough call T); [done|set_solver|]. pose proof (subseteq_size (T ∖ ∅) T). set_solver by lia. Qed.

(** C15. What the loops return: the guarded one returns a combined list exactly when the service sends a finite run of
    pages in which no token comes twice, and then it is all the items of all the pages in the order sent, with the
    request id of the last page and no token left; the unguarded one returns the same response on such a run, and in
    general exactly when the run is finite. *)
Theorem list_pages_exact {Item Raw Query W} (call : ListRequest Query -> ST W (result (ListResponse Item Raw) GoError))
  (request : ListRequest Query) (w w' : W) (r : ListResponse Item Raw) :
  ((exists fuel, listAiDataPlatformsAllPages call fuel request w = (Ret (Some (Ok r)), w')) <->
   exists pages, sends call (lr_Query request) (Page request) w pages w' /\ NoDup (tokens pages) /\ r = joined noResponse pages) /\
  ((exists fuel, listSubscriptionsAllPages call fuel request w = (Ret (Some (Ok r)), w')) <->
   exists pages, sends call (lr_Query request) (Page request) w pages w' /\ r = joined noResponse pages).
Proof.
  destruct request as [query page]. split; split.
  - intros (fuel & (pages & Hs & Hr & Hd & _)%all_pages_sends). by exists pages.
  - intros (pages & Hs & Hd & ->). exists (length pages). by apply sends_all_pages; [..|set_solver].
  - intros (fuel & (pages & Hs & Hr)%unguarded_sends). by exists pages.
  - intros (pages & Hs & ->). exists (length pages). by apply sends_unguarded.
Qed.

(** ** Witnesses *)

(** A service that answers page "a" and the first page with token "a", for ever. *)
Definition ex_circle : ListRequest unit -> ST unit (result (ListResponse nat unit) GoError) :=
  fun _ => st_ret (Ok (mkListResponse [7] None (Some "req") (Some "a"))).

Lemma list_pages_terminate_witness :
  fst (listAiDataPlatformsAllPages ex_circle (S (size ({["a"]} : gset string))) (mkListRequest tt None) tt) <> Ret None.
Proof.
  apply (list_pages_terminate ex_circle {["a"]}). intros request w response w' [= <- <-]. right. cbn. set_solver.
Defined.

(** The guarded loop reports the repetition; the other one does not end. *)
Lemma ex_circle_guarded :
  listAiDataPlatformsAllPages ex_circle 2 (mkListRequest tt None) tt =
    (Ret (Some (Err (ErrText ("AiDataPlatform list pagination repeated page token " +++ Quote "a")))), tt).
Proof. reflexivity. Qed.

Lemma ex_circle_unguarded fuel : listSubscriptionsAllPages ex_circle fuel (mkListRequest tt None) tt = (Ret None, tt).
Proof.
  unfold listSubscriptionsAllPages. generalize (@noResponse nat unit), (mkListRequest tt None).
  induction fuel as [|fuel IH]; intros combined request; [done|]. cbn. unfold st_bind. cbn. apply IH.
Qed.
