(* ===== verification/NotFoundGuards.v ===== *)
(** * Services that refuse ambiguous not-found answers

    OCI answers 404 NotAuthorizedOrNotFound both for a resource that is gone and for one
    that the caller may not see.  The generated runtime takes such an answer to a delete
    or to a confirmation read for a delete.  About a hundred hand-written clients do not:
    their delete error hook turns the answer into an error of their own, and where they
    guard reads, their Get call does the same.  Here: what a generated client with such
    hooks reports as deleted, whatever the service is.  The hooks of one of them are in
    [AiDataPlatformClient]. *)

From S2P Require Import Prelude GoStrings Shared GoErrors GoValue AsyncStatus Reconciler ReconcilerSafety Secrets JsonValues Semantics SpecResolution MutationPolicy RequestBuilder Runtime RuntimeRead RuntimeReconcile RuntimeTrace RuntimeDelete RuntimeTracking RuntimeManager.
Local Open Scope string_scope.
Local Open Scope list_scope.
Local Open Scope go_scope.

(** ** The contract of the hooks *)

(** The operations are separate objects, the delete error hook and the Get call never hand on an ambiguous
    not-found, and Get can be called with any identifier. *)
Class RefusesAmbiguous {W} `{Env} (c : Config W) : Prop := {
  refuses_delete : forall e, logs (handleDeleteError c e) (fun e' _ => auth_shaped e' = false);
  refuses_get : exists op call, getReadOperation c = Some op /\ Call op = Some call /\
    same_operation op (Create c) = false /\ same_operation op (cfg_Update c) = false /\
    forall request w e w', call request w = (Ret (Err e), w') -> auth_shaped e = false;
  get_addressable : forall resource id, id <> "" -> canInvokeGet c resource id = true
}.

(** Events that show that the resource is gone and cannot mean a lack of authority: those of [delete_evidence] whose
    error is not ambiguous, and a Get that was answered with a clear not-found. *)
Definition unambiguous_evidence {W} `{Env} (c : Config W) (semantics : Semantics) (e : Event) : bool :=
  match e with
  | EvDelete (Err err) | EvConfirm (Err err) => delete_evidence c semantics e && negb (auth_shaped err)
  | EvCall _ _ _ => refutes c e
  | _ => delete_evidence c semantics e
  end.

Section Guards.
Context {W : Type} `{Env} (c : Config W) (semantics : Semantics) (guards : RefusesAmbiguous c).

(** ** Reads *)

Lemma lookupValues_plain r e : lookupValues r = Err e -> auth_shaped e = false.
Proof.
  unfold lookupValues, resourceStruct. intros Hr. repeat (case_hyp Hr; simplify_eq; try done).
Qed.

Lemma logs_and {A} (m : M W A) (Q R : A -> list Event -> Prop) : logs m Q -> logs m R -> logs m (fun a l => Q a l /\ R a l).
Proof.
  intros HQ HR s. destruct (HQ s) as (l & Hl & HQl), (HR s) as (l' & Hl' & HRl). rewrite Hl in Hl'.
  apply app_inv_head in Hl' as <-. exists l. auto.
Qed.

(** No error of a Get invocation is ambiguous. *)
Lemma get_unambiguous op id :
  getReadOperation c = Some op ->
  logs (invoke c (Some op) id emptyOptions) (fun r _ => forall e, r = Err e -> auth_shaped e = false).
Proof.
  intros Hop. destruct refuses_get as (op' & call & Hop' & Hcall & Hc & Hu & Hget). rewrite Hop in Hop'. injection Hop' as <-.
  unfold invoke. apply logs_then; [by trace_solve|intros r]. destruct (lookupValues r) as [values|e] eqn:El.
  2: { apply logs_ret. intros e' [= <-]. by eapply lookupValues_plain. }
  unfold invokeWithValues. rewrite Hcall. destruct (NewRequest op) as [request|]; [|apply logs_ret; by intros e [= <-]].
  assert (Ho : requestBodyOverride c op emptyOptions = st_ret (Ok None)).
  { unfold requestBodyOverride. rewrite Hc, Hu. by destruct (BuildCreateBody c). }
  rewrite Ho. destruct request; [apply logs_ret; by intros e [= <-]|..]; apply logs_step.
  all: apply logs_then; [by trace_solve|intros resource]; apply logs_then; [by trace_solve|].
  all: intros [sent|e]; [|apply logs_ret; intros e' [= <-]; apply auth_shaped_wrapped].
  all: eapply logs_bind with (Q := fun answer _ => forall e, answer = Err e -> auth_shaped e = false).
  all: try (apply (logs_on_world (call sent) (fun answer => forall e, answer = Err e -> auth_shaped e = false));
            intros w a Ha e ->; destruct (call sent w) as [o w'] eqn:E; cbn in Ha; subst o; by eapply Hget).
  all: intros answer; eapply logs_bind; [apply logs_appends; by trace_solve|intros []].
  all: destruct answer as [response|answer]; [by apply logs_ret|].
  all: eapply logs_bind; [apply logs_lift with (Q := fun e l => normalizeOCIError answer = Ret e); done|intros normalized].
  all: apply logs_ret; intros l1 Hn l2 _ l3 Ha e [= <-]; specialize (Ha answer eq_refl).
  all: apply not_true_is_false; intros Hs; by rewrite (auth_shaped_normalized _ _ Hn Hs) in Ha.
Qed.

(** What a read of a known identifier rests on: its error is not ambiguous, unless a Get has refuted the identifier before. *)
Lemma read_unambiguous id :
  id <> "" -> logs (readResource c id readPhaseDelete) (fun r l => (forall e, r = Err e -> auth_shaped e = false) \/ refuted c l).
Proof.
  intros Hid. destruct refuses_get as (op & call & Hop & Hcall & Hc & Hu & _).
  assert (Hsep : forall op, getReadOperation c = Some op ->
            same_operation op (Create c) = false /\ same_operation op (cfg_Update c) = false).
  { intros op' Hop'. rewrite Hop in Hop'. by injection Hop' as <-. }
  unfold readResource. eapply logs_bind; [apply logs_appends; by trace_solve|intros r]. unfold prepareReadResourceState.
  destruct (lookupValues r) as [values|e] eqn:El.
  2: { apply logs_ret. intros l1 _. left. intros e' [= <-]. by eapply lookupValues_plain. }
  rewrite (proj2 (String.eqb_neq _ _) Hid). cbn iota.
  eapply logs_bind with (Q := fun got l => match got with GetDone r => forall e, r = Err e -> auth_shaped e = false
                                          | GetFallback _ _ => refuted c l end).
  - unfold readResourceWithGet, get_or_fallback. eapply logs_bind; [apply logs_appends; by trace_solve|intros r2].
    rewrite Hop, get_addressable by done. cbn zeta. cbn [negb].
    eapply logs_bind; [apply logs_and; [apply (get_not_found c Hsep op _ Hop)|by apply get_unambiguous]|].
    intros [response|e]; [apply logs_ret; by intros l1 _ l2 _|].
    eapply logs_bind; [apply logs_lift with (Q := fun b l => isReadNotFound e = Ret b); done|intros notFound].
    destruct (negb notFound || _) eqn:Ef.
    + apply logs_ret. intros l1 _ l2 [_ Ha] l3 _ e' [= <-]. by apply Ha.
    + apply orb_false_iff in Ef as [Hf%negb_false_iff _]. subst notFound.
      eapply logs_bind; [apply logs_appends; by trace_solve|intros r3]. apply logs_ret.
      intros l1 _ l2 Hn l3 [Hr _] l4 _. apply refuted_app. right. apply refuted_app. left. auto.
  - intros [r0|st stale].
    + apply logs_ret. intros l1 Hr l2 _. by left.
    + eapply logs_weaken; [|apply logs_appends; by trace_solve]. intros r0 l _ l1 Hr l2 _. right.
      apply refuted_app. right. apply refuted_app. by left.
Qed.

(** ** The stricter notion of evidence *)

Lemma refuted_evidence l : refuted c l -> List.existsb (unambiguous_evidence c semantics) l = true.
Proof.
  unfold refuted. rewrite !List.existsb_exists. intros (e & Hin & He). exists e. split; [done|]. destruct e; cbn in He |- *; congruence.
Qed.

Lemma unambiguous_laws : EvidenceLaws c semantics (unambiguous_evidence c semantics).
Proof.
  split; [done|by intros wr|by intros response|..].
  - intros e. eapply logs_weaken; [|apply refuses_delete]. intros e' l He. cbn in He |- *. rewrite He. by split; [intros ->|intros ->].
  - intros id Hid. eapply logs_weaken; [|by apply read_unambiguous]. intros r l [Hr|Hr] Hc; [left|right; by apply refuted_evidence].
    destruct r as [response|e]; cbn in *; [done|]. by rewrite Hc, (Hr e eq_refl).
Qed.
End Guards.

(** ** Theorem *)

(** C5. The finalizer of a service with these hooks outlives an ambiguous answer: the reconciler writes an object
    without the OSOK finalizer only when the client's delete in that reconcile rests on an event that cannot mean a
    lack of authority, or failed with an error that is classified as a clear not-found.  A 404
    NotAuthorizedOrNotFound, to the delete request or to any read, never releases it.  The service has formal semantics whose delete
    is followed up by "confirm-delete", and its status projection does not itself answer with the runtime's not-found
    ([ordinary_projection_errors]). *)
Theorem guarded_release_unambiguous {W} `{Env} (c : Config W) (namespace : string) (semantics : Semantics)
  (client : Client GoValue (MWorld W)) (extra : list string) obj0 w0 out s' o :
  RefusesAmbiguous c -> cfg_Semantics c = Some semantics -> fu_Strategy (DeleteFollowUp semantics) = "confirm-delete" ->
  ordinary_projection_errors c ->
  Reconcile client (runtime_manager c namespace) extra (mkRS obj0 w0 []) = (out, s') ->
  EffUpdate o ∈ rs_trace s' -> ContainsFinalizer o OSOKFinalizerName = false ->
  exists obj w answer st,
    c_Get client w0 = (Ok obj, w) /\ delete_branch obj = true /\
    DeleteWithResult c (client_state obj w) = (Ret answer, st) /\
    ((snd answer = None /\ exists l e, rt_trace st = mw_trace w ++ l /\ e ∈ l /\ unambiguous_evidence c semantics e = true) \/
     (exists e k, snd answer = Some e /\ ClassifyDeleteError (Some e) = Ret k /\ IsUnambiguousNotFound k = true)).
Proof.
  intros guards Hsem Hst. apply (released_on_evidence c namespace semantics); [by apply unambiguous_laws|done|done|].
  destruct (refuses_get (c := c)) as (op & call & Hop & _). unfold hasDeleteConfirmRead, hasReadableOperation. rewrite Hop.
  apply orb_true_r.
Qed.
