(* ===== verification/GuardHooks.v ===== *)
(** * The hooks against ambiguous not-found answers

    [applyAiDataPlatformRuntimeHooks] of [aidataplatform_runtime_client.go] and its copies
    install three guards: a delete error hook, a Get call for the generated runtime's own
    reads, and a client around the generated client that reads the tracked resource before
    every delete.  They are modelled over the texts and the kind of resource, and shown to
    meet the contract of [NotFoundGuards].  The requests that the guarded Get call is given
    are made by its own [NewRequest], so the type assertion in it never fails. *)

From S2P Require Import Prelude GoStrings Shared GoErrors GoValue AsyncStatus Reconciler ReconcilerSafety Secrets JsonValues Semantics SpecResolution MutationPolicy RequestBuilder Runtime RuntimeRead RuntimeReconcile RuntimeTrace RuntimeDelete RuntimeTracking RuntimeManager.
From S2P Require Import NotFoundGuards ServiceClients NetworkClients NetworkSafety.
Local Open Scope string_scope.
Local Open Scope list_scope.
Local Open Scope go_scope.

(** ** The error *)

(** The struct has an unexported text and request id, and a getter for the latter. *)
Definition ambiguousNotFoundError (typeName message opcRequestID : string) : GoError :=
  ErrForeign (mkForeignError message typeName None None None (Some opcRequestID)).

Lemma ambiguous_not_auth_shaped typeName message id : auth_shaped (ambiguousNotFoundError typeName message id) = false.
Proof. reflexivity. Qed.

(** The texts of a kind. *)
Record GuardTexts := mkGuardTexts {
  gt_Kind : string;
  gt_ErrorType : string;
  gt_Read : string;
  gt_Delete : string;
  gt_Confirm : string
}.

Section Hooks.
Context {W : Type} (texts : GuardTexts).

Definition conservativeNotFoundError (message : string) (err : GoError) : outcome GoError :=
  let? classification := ClassifyDeleteError (Some err) in
  Ret (if IsAuthShapedNotFound classification
       then ambiguousNotFoundError (gt_ErrorType texts) message (errorutil_OpcRequestID (Some err))
       else err).

Lemma conservative_refuses message err e : conservativeNotFoundError message err = Ret e -> auth_shaped e = false.
Proof.
  unfold conservativeNotFoundError. destruct (ClassifyDeleteError (Some err)) as [k|] eqn:Ek; [|done]. cbn.
  intros [= <-]. destruct (IsAuthShapedNotFound k) eqn:Ea; [done|]. unfold auth_shaped. by rewrite Ek.
Qed.

(** The request id of the status block of a resource of the generated runtime. *)
Definition record_request_id (requestID : string) (resource : GoValue) : GoValue :=
  match osokStatus resource with
  | Ok status => set_osokStatus (default status (SetOpcRequestID (Some status) requestID)) resource
  | Err _ => resource
  end.

(** The delete error hook; the runtime only calls it with an error. *)
Definition guardDeleteError (err : GoError) : Callback W (option GoError) :=
  fun resource w =>
    match ClassifyDeleteError (Some err) with
    | Panic => (Panic, resource, w)
    | Ret classification =>
        if negb (IsAuthShapedNotFound classification) then (Ret (Some err), resource, w)
        else
          let requestID := errorutil_OpcRequestID (Some err) in
          (Ret (Some (ambiguousNotFoundError (gt_ErrorType texts) (gt_Delete texts) requestID)),
           record_request_id requestID resource, w)
    end.

(** The Get operation for the runtime's reads: [address] is where the new operation is allocated. *)
Definition guardedGetReadOperation (address : nat) (get : Operation W) : option (Operation W) :=
  match Call get with
  | None => None
  | Some getCall =>
      Some (mkOperation address (NewRequest get)
        (Some (fun request =>
           attempt response := getCall request
             otherwise e => (let* e := st_lift (conservativeNotFoundError (gt_Read texts) e) in st_ret (Err e)) in
           st_ret (Ok response)))
        (Fields get))
  end.

(** The two hooks in the configuration of the generated runtime. *)
Definition guardedConfig (address : nat) (c : Config W) : Config W :=
  mkConfig (Kind c) (SDKName c) (Credentials c) (InitError c) (cfg_Semantics c) (BuildCreateBody c) (BuildUpdateBody c)
    (Identity c) (match Get c with Some get => guardedGetReadOperation address get | None => None end) (Read_List c)
    (ClearTrackedIdentity c) (cfg_StatusHooks c) (cfg_ParityHooks c) (cfg_Async c)
    (mkDeleteHooks (ConfirmRead (cfg_DeleteHooks c)) (Some guardDeleteError) (ApplyOutcome (cfg_DeleteHooks c)))
    (Create c) (Get c) (List c) (cfg_Update c) (Delete c).

(** A Get whose fields all take the resource identifier can be called with any identifier. *)
Definition addressed_by_id (get : Operation W) : Prop :=
  Fields get <> [] /\ Forall (fun field => PreferResourceID field = true) (Fields get).

Lemma addressed_explicit c get id values :
  getReadOperation c = Some get -> addressed_by_id get -> id <> "" -> canInvokeExplicitGet c values id = true.
Proof.
  intros Hop [_ Hfields] Hid. unfold canInvokeExplicitGet. rewrite Hop. apply forallb_forall. intros field Hin.
  rewrite Forall_forall in Hfields. specialize (Hfields field (proj2 (list_elem_of_In _ _) Hin)).
  unfold explicitRequestValue. rewrite Hfields, (proj2 (String.eqb_neq _ _) Hid). apply orb_true_r.
Qed.

(** The hooks meet the contract. *)
Lemma guarded_refuses `{Env} address c get :
  Get c = Some get -> Call get <> None -> addressed_by_id get ->
  at_address (Create c) address = false -> at_address (cfg_Update c) address = false ->
  RefusesAmbiguous (guardedConfig address c).
Proof.
  intros Hget Hcall Hid Hcr Hup. destruct (Call get) as [call|] eqn:Ec; [|done].
  assert (Hop : exists guarded, getReadOperation (guardedConfig address c) = Some (mkOperation address (NewRequest get) (Some guarded) (Fields get)) /\
    forall request w e w', guarded request w = (Ret (Err e), w') -> auth_shaped e = false).
  { unfold getReadOperation, guardedConfig, guardedGetReadOperation. cbn. rewrite Hget, Ec. eexists. split; [reflexivity|].
    intros request w e w'. cbn. unfold st_bind. destruct (call request w) as [[[response|e0]|] w1]; [done| |done].
    destruct (conservativeNotFoundError _ e0) as [e1|] eqn:E1; [|done]. cbn. intros [= -> _]. by eapply conservative_refuses. }
  destruct Hop as (guarded & Hop & Hg). split.
  - intros e s. exists []. unfold handleDeleteError. cbn. unfold st_bind, callback, guardDeleteError. rewrite app_nil_r.
    destruct (ClassifyDeleteError (Some e)) as [k|] eqn:Ek; cbn; [|done].
    destruct (IsAuthShapedNotFound k) eqn:Ea; cbn; (split; [done|]); intros e' [= <-]; [done|].
    unfold auth_shaped. by rewrite Ek.
  - exists (mkOperation address (NewRequest get) (Some guarded) (Fields get)), guarded.
    rewrite <-!at_address_sym. by split_and!.
  - intros resource id Hne. unfold canInvokeGet. rewrite Hop. cbn [Fields].
    destruct (lookupValues resource) as [values|]; [|done].
    rewrite (addressed_explicit _ _ _ values Hop) by done. destruct Hid as [Hf _]. by destruct (Fields get).
Qed.
End Hooks.

(** ** The confirming client *)

Section Confirm.
Context {Sp St Sdk W : Type} `{StatusBlock St} (texts : GuardTexts) (currentID : Resource Sp St -> string).
Abbreviation R := (Resource Sp St).
Context (get : option (string -> ST W (result Sdk GoError))).

Definition record_error_id (err : GoError) : R -> R :=
  with_osok (fun status => default status (RecordErrorOpcRequestID (Some status) (Some err))).

Definition rejectAuthShapedConfirmRead : ST (R * W) (option GoError) :=
  match get with
  | None => st_ret None
  | Some get =>
      let* resource := the_resource in
      let id := currentID resource in
      if (id =? "")%string then st_ret None
      else
        let* answer := on_world (get id) in
        match answer with
        | Ok _ => st_ret None
        | Err err =>
            let* classification := st_lift (ClassifyDeleteError (Some err)) in
            if negb (IsAuthShapedNotFound classification) then st_ret None
            else
              on_resource (record_error_id err) ;;;
              st_ret (Some (ambiguousNotFoundError (gt_ErrorType texts) (gt_Confirm texts) (errorutil_OpcRequestID (Some err))))
        end
  end.

Definition not_configured : GoError := ErrText (gt_Kind texts +++ " generated runtime delegate is not configured").

Definition deleteConfirmationClient (delegate : option (SvcClient R W)) : SvcClient R W :=
  mkSvcClient
    (fun namespace => match delegate with
                      | None => st_ret (unsuccessful, Some not_configured)
                      | Some delegate => sc_CreateOrUpdate delegate namespace
                      end)
    (match delegate with
     | None => st_ret (false, Some not_configured)
     | Some delegate =>
         let* err := rejectAuthShapedConfirmRead in
         match err with
         | Some err => st_ret (false, Some err)
         | None => sc_Delete delegate
         end
     end).

(** The delegate's delete finished. *)
Definition finished (delegate : SvcClient R W) (r : R) (w : W) : Prop :=
  exists d err s', sc_Delete delegate (r, w) = (Ret (d, err), s') /\ delete_confirmed (mkDeleteResult d 0%Z, err) = true.

(** What the confirming read saw, and the world after it. *)
Definition read_passed (r : R) (w w1 : W) : Prop :=
  match get with
  | None => w1 = w
  | Some get =>
      if (currentID r =? "")%string then w1 = w
      else exists answer, get (currentID r) w = (Ret answer, w1) /\ forall e, answer = Err e -> auth_shaped e = false
  end.

Lemma reject_run r w err r' w1 :
  rejectAuthShapedConfirmRead (r, w) = (Ret err, (r', w1)) ->
  match err with
  | None => r' = r /\ read_passed r w w1
  | Some err => exists get' e, get = Some get' /\ get' (currentID r) w = (Ret (Err e), w1) /\ auth_shaped e = true /\
      r' = record_error_id e r /\
      err = ambiguousNotFoundError (gt_ErrorType texts) (gt_Confirm texts) (errorutil_OpcRequestID (Some e))
  end.
Proof.
  unfold rejectAuthShapedConfirmRead, read_passed. destruct get as [get'|]; [|by intros [= <- <- <-]].
  unfold st_bind at 1, the_resource. cbn beta iota zeta. destruct (currentID r =? "")%string; [by intros [= <- <- <-]|].
  unfold st_bind at 1, on_world. destruct (get' (currentID r) w) as [[answer|] w2] eqn:Eg; [|done]. destruct answer as [sdk|e].
  { intros [= <- <- <-]. split; [done|]. exists (Ok sdk). by split. }
  unfold st_bind at 1, st_lift. destruct (ClassifyDeleteError (Some e)) as [k|] eqn:Ek; [|done].
  destruct (IsAuthShapedNotFound k) eqn:Ea; cbn; intros [= <- <- <-].
  - exists get', e. split_and!; try done. unfold auth_shaped. by rewrite Ek.
  - split; [done|]. exists (Err e). split; [done|]. intros e' [= <-]. unfold auth_shaped. by rewrite Ek.
Qed.

(** C10. The confirming client stands between the finalizer and an ambiguous answer.  When the read of the tracked
    identifier is answered with 404 NotAuthorizedOrNotFound, its Delete fails, the wrapped client is not called, and of the
    resource only the request id of the answer is recorded.  Under the reconciler, an object loses the OSOK finalizer
    only when that read (where an identifier is tracked) gave any other answer and the wrapped client, started right after
    it, finished its delete. *)
Theorem confirm_read_guards_delete (delegate : SvcClient R W) (getSdk : string -> ST W (result Sdk GoError)) :
  get = Some getSdk ->
  (forall r w e w1, currentID r <> "" -> getSdk (currentID r) w = (Ret (Err e), w1) -> auth_shaped e = true ->
     sc_Delete (deleteConfirmationClient (Some delegate)) (r, w) =
       (Ret (false, Some (ambiguousNotFoundError (gt_ErrorType texts) (gt_Confirm texts) (errorutil_OpcRequestID (Some e)))),
        (record_error_id e r, w1))) /\
  released_only (sc_Delete (deleteConfirmationClient (Some delegate)))
    (fun r w => exists w1, read_passed r w w1 /\ finished delegate r w1).
Proof.
  intros Hget. split.
  - intros r w e w1 Hid Hg Ha. cbn [sc_Delete deleteConfirmationClient]. unfold rejectAuthShapedConfirmRead. rewrite Hget. unfold st_bind at 1 2, the_resource. cbn beta iota zeta.
    rewrite (proj2 (String.eqb_neq _ _) Hid). unfold st_bind at 1, on_world. rewrite Hg. unfold st_bind at 1, st_lift.
    unfold auth_shaped in Ha. destruct (ClassifyDeleteError (Some e)) as [k|]; [|done]. by rewrite Ha.
  - apply released_intro. intros r w d err s' Hrun Hc. cbn in Hrun. unfold st_bind in Hrun.
    destruct (rejectAuthShapedConfirmRead (r, w)) as [[a|] [r1 w1]] eqn:Er; [|done]. apply reject_run in Er.
    destruct a as [e|]; [injection Hrun as <- <- _; exfalso; destruct Er as (g & e' & _ & _ & _ & _ & ->)|].
    + cbn in Hc. done.
    + destruct Er as [-> Hp]. exists w1. split; [done|]. by exists d, err, s'.
Qed.
End Confirm.

(** ** Witnesses *)

Definition ex_texts : GuardTexts :=
  mkGuardTexts "Widget" "widget.ambiguousNotFoundError" "ambiguous read" "ambiguous delete" "ambiguous confirmation".

Definition ex_auth_shaped : GoError :=
  ErrService (mkServiceError 404 NotAuthorizedOrNotFound "req2" "no such widget or no authority" "404" "common.servicefailure" None).

(** A Get by identifier that always gives the same answer. *)
Definition ex_get (answer : result GoValue GoError) : Operation unit :=
  mkOperation 2 (Some (sample_request "GetWidgetRequest")) (Some (fun _ => st_ret answer))
    [mkRequestField "WidgetId" "widgetId" "path" true []].

Definition ex_unguarded (get_answer delete_answer : result GoValue GoError) : Config unit :=
  let c := sample_config confirming_semantics (Ok VNil) get_answer delete_answer in
  mkConfig (Kind c) (SDKName c) (Credentials c) (InitError c) (cfg_Semantics c) (BuildCreateBody c) (BuildUpdateBody c)
    (Identity c) (Read_Get c) (Read_List c) (ClearTrackedIdentity c) (cfg_StatusHooks c) (cfg_ParityHooks c) (cfg_Async c)
    (cfg_DeleteHooks c) (Create c) (Some (ex_get get_answer)) (List c) (cfg_Update c) (Delete c).

Definition ex_guarded (get_answer delete_answer : result GoValue GoError) : Config unit :=
  guardedConfig ex_texts 9 (ex_unguarded get_answer delete_answer).

Lemma ex_refuses get_answer delete_answer : @RefusesAmbiguous unit plainEnv (ex_guarded get_answer delete_answer).
Proof.
  apply (guarded_refuses ex_texts 9 _ (ex_get get_answer)); try reflexivity; [done|].
  split; [done|]. by repeat constructor.
Qed.

(** The unguarded runtime takes an ambiguous answer for a delete; the guarded one does not. *)
Example ex_ambiguous_delete :
  fst (@DeleteWithResult unit plainEnv (ex_unguarded (Err ex_auth_shaped) (Err ex_auth_shaped)) (sample_state (sampleResource trackedStatus))) =
    Ret (deleted_result, None) /\
  fst (@DeleteWithResult unit plainEnv (ex_guarded (Err ex_auth_shaped) (Err ex_auth_shaped)) (sample_state (sampleResource trackedStatus))) =
    Ret (no_delete, Some (ambiguousNotFoundError "widget.ambiguousNotFoundError" "ambiguous delete" "req2")).
Proof. split; vm_compute; reflexivity. Qed.

Lemma guarded_release_unambiguous_witness :
  let c := ex_guarded (Err not_found_error) (Ok VNil) in
  exists obj w answer st,
    c_Get (single_client (widget_object (Some 5%Z) trackedStatus)) idle_world = (Ok obj, w) /\ delete_branch obj = true /\
    @DeleteWithResult unit plainEnv c (client_state obj w) = (Ret answer, st) /\
    ((snd answer = None /\ exists l e, rt_trace st = mw_trace w ++ l /\ e ∈ l /\ @unambiguous_evidence unit plainEnv c confirming_semantics e = true) \/
     (exists e k, snd answer = Some e /\ ClassifyDeleteError (Some e) = Ret k /\ IsUnambiguousNotFound k = true)).
Proof.
  eapply (@guarded_release_unambiguous unit plainEnv (ex_guarded (Err not_found_error) (Ok VNil)) "default" confirming_semantics
    (single_client (widget_object (Some 5%Z) trackedStatus)) [] (widget_object (Some 5%Z) trackedStatus) idle_world).
  - apply ex_refuses.
  - reflexivity.
  - reflexivity.
  - intros f response r w e r' w' Hf. discriminate Hf.
  - apply surjective_pairing.
  - vm_compute. right. right. left.
  - vm_compute. reflexivity.
Defined.
