(* ===== verification/Sha256.v ===== *)
(** * SHA-256 and hexadecimal text

    [crypto/sha256] and [encoding/hex] of the Go standard library, as far as the sources use
    them: [sha256.Sum256] of the bytes of a string, [hex.EncodeToString], and the test that
    [hex.DecodeString] accepts a text.  The hash follows FIPS 180-4; a word is a [Z] below
    [2^32] and sums wrap around. *)

From Stdlib Require Import Ascii String.
From S2P Require Import Prelude GoStrings.
Local Open Scope Z_scope.

(** ** Words *)

Definition w32 (x : Z) : Z := Z.land x 4294967295.
Definition add32 (x y : Z) : Z := w32 (x + y).
Definition rotr (n x : Z) : Z := Z.lor (Z.shiftr x n) (w32 (Z.shiftl x (32 - n))).
Definition not32 (x : Z) : Z := Z.lxor x 4294967295.

Definition Ch (x y z : Z) : Z := Z.lxor (Z.land x y) (Z.land (not32 x) z).
Definition Maj (x y z : Z) : Z := Z.lxor (Z.lxor (Z.land x y) (Z.land x z)) (Z.land y z).
Definition bigSigma0 (x : Z) : Z := Z.lxor (Z.lxor (rotr 2 x) (rotr 13 x)) (rotr 22 x).
Definition bigSigma1 (x : Z) : Z := Z.lxor (Z.lxor (rotr 6 x) (rotr 11 x)) (rotr 25 x).
Definition smallSigma0 (x : Z) : Z := Z.lxor (Z.lxor (rotr 7 x) (rotr 18 x)) (Z.shiftr x 3).
Definition smallSigma1 (x : Z) : Z := Z.lxor (Z.lxor (rotr 17 x) (rotr 19 x)) (Z.shiftr x 10).

Definition K256 : list Z := [
  1116352408; 1899447441; 3049323471; 3921009573; 961987163; 1508970993; 2453635748; 2870763221;
  3624381080; 310598401; 607225278; 1426881987; 1925078388; 2162078206; 2614888103; 3248222580;
  3835390401; 4022224774; 264347078; 604807628; 770255983; 1249150122; 1555081692; 1996064986;
  2554220882; 2821834349; 2952996808; 3210313671; 3336571891; 3584528711; 113926993; 338241895;
  666307205; 773529912; 1294757372; 1396182291; 1695183700; 1986661051; 2177026350; 2456956037;
  2730485921; 2820302411; 3259730800; 3345764771; 3516065817; 3600352804; 4094571909; 275423344;
  430227734; 506948616; 659060556; 883997877; 958139571; 1322822218; 1537002063; 1747873779;
  1955562222; 2024104815; 2227730452; 2361852424; 2428436474; 2756734187; 3204031479; 3329325298 ].

(** ** Blocks *)

Record HashState := mkHash { h0 : Z; h1 : Z; h2 : Z; h3 : Z; h4 : Z; h5 : Z; h6 : Z; h7 : Z }.

Definition initial_hash : HashState :=
  mkHash 1779033703 3144134277 1013904242 2773480762 1359893119 2600822924 528734635 1541459225.

(** [n] more words of the message schedule; the words so far are in reverse order. *)
Fixpoint schedule (n : nat) (ws : list Z) : list Z :=
  match n with
  | O => rev ws
  | S n =>
      let word i := nth i ws 0 in
      schedule n (add32 (add32 (smallSigma1 (word 1%nat)) (word 6%nat)) (add32 (smallSigma0 (word 14%nat)) (word 15%nat)) :: ws)
  end.

Definition round (s : HashState) (kw : Z * Z) : HashState :=
  let t1 := add32 (add32 (add32 (h7 s) (bigSigma1 (h4 s))) (Ch (h4 s) (h5 s) (h6 s))) (add32 (fst kw) (snd kw)) in
  let t2 := add32 (bigSigma0 (h0 s)) (Maj (h0 s) (h1 s) (h2 s)) in
  mkHash (add32 t1 t2) (h0 s) (h1 s) (h2 s) (add32 (h3 s) t1) (h4 s) (h5 s) (h6 s).

Definition compress (h : HashState) (block : list Z) : HashState :=
  let s := fold_left round (combine K256 (schedule 48 (rev block))) h in
  mkHash (add32 (h0 h) (h0 s)) (add32 (h1 h) (h1 s)) (add32 (h2 h) (h2 s)) (add32 (h3 h) (h3 s))
         (add32 (h4 h) (h4 s)) (add32 (h5 h) (h5 s)) (add32 (h6 h) (h6 s)) (add32 (h7 h) (h7 s)).

(** Big-endian words of bytes and bytes of words. *)
Fixpoint words (bytes : list Z) : list Z :=
  match bytes with
  | a :: b :: c :: d :: rest => (((a * 256 + b) * 256 + c) * 256 + d) :: words rest
  | _ => []
  end.
Definition byte_at (i w : Z) : Z := Z.land (Z.shiftr w (8 * i)) 255.
Definition word_bytes (w : Z) : list Z := [byte_at 3 w; byte_at 2 w; byte_at 1 w; byte_at 0 w].

Fixpoint compress_all (fuel : nat) (h : HashState) (ws : list Z) : HashState :=
  match fuel, ws with
  | S fuel, _ :: _ => compress_all fuel (compress h (firstn 16 ws)) (skipn 16 ws)
  | _, _ => h
  end.

Definition padded (message : list Z) : list Z :=
  let n := Z.of_nat (length message) in
  message ++ [128] ++ repeat 0 (Z.to_nat ((55 - n) mod 64)) ++ flat_map (fun i => [byte_at i (8 * n)]) [7; 6; 5; 4; 3; 2; 1; 0].

Definition digest_bytes (h : HashState) : list Z :=
  flat_map word_bytes [h0 h; h1 h; h2 h; h3 h; h4 h; h5 h; h6 h; h7 h].

(** ** The functions of the library *)

Fixpoint bytes_of (s : string) : list Z :=
  match s with
  | EmptyString => []
  | String c s => Z.of_nat (nat_of_ascii c) :: bytes_of s
  end.

Definition Size : nat := 32.

Definition Sum256 (message : list Z) : list Z :=
  let ws := words (padded message) in digest_bytes (compress_all (length ws) initial_hash ws).

Fixpoint EncodeToString (bytes : list Z) : string :=
  match bytes with
  | [] => EmptyString
  | b :: rest =>
      String (hex_digit (Z.to_nat (Z.land (Z.shiftr b 4) 15))) (String (hex_digit (Z.to_nat (Z.land b 15))) (EncodeToString rest))
  end.

Definition isHexDigit (c : ascii) : bool :=
  let n := nat_of_ascii c in
  ((48 <=? n) && (n <=? 57) || (97 <=? n) && (n <=? 102) || (65 <=? n) && (n <=? 70))%nat.

Fixpoint all_hex (s : string) : bool :=
  match s with EmptyString => true | String c s => isHexDigit c && all_hex s end.

(** [hex.DecodeString] returns no error. *)
Definition hex_decodes (s : string) : bool := Nat.even (String.length s) && all_hex s.

(** ** Lemmas *)

Lemma hex_digit_ok n : (n < 16)%nat -> isHexDigit (hex_digit n) = true.
Proof. intros Hn. do 16 (destruct n as [|n]; [reflexivity|]). lia. Qed.

Lemma nibble_lt b : (Z.to_nat (Z.land b 15) < 16)%nat.
Proof. change 15 with (Z.ones 4). rewrite Z.land_ones by lia. change (2 ^ 4) with 16.
  pose proof (Z.mod_pos_bound b 16). lia. Qed.

Lemma EncodeToString_hex bytes : all_hex (EncodeToString bytes) = true.
Proof.
  induction bytes as [|b rest IH]; [done|]. simpl. rewrite IH.
  by rewrite !hex_digit_ok by apply nibble_lt.
Qed.

Lemma EncodeToString_length bytes : String.length (EncodeToString bytes) = (2 * length bytes)%nat.
Proof. induction bytes as [|b rest IH]; [done|]. simpl. rewrite IH. lia. Qed.

Lemma Sum256_length message : length (Sum256 message) = Size.
Proof. reflexivity. Qed.

(** The text of a sum: 64 hexadecimal digits. *)
Lemma Sum256_text message :
  String.length (EncodeToString (Sum256 message)) = 64%nat /\ all_hex (EncodeToString (Sum256 message)) = true.
Proof. split; [by rewrite EncodeToString_length, Sum256_length|apply EncodeToString_hex]. Qed.

(** The test vectors of the standard: one block and two. *)
Example Sum256_abc :
  EncodeToString (Sum256 (bytes_of "abc")) = "ba7816bf8f01cfea414140de5dae2223b00361a396177a9cb410ff61f20015ad".
Proof. vm_compute. reflexivity. Qed.
Example Sum256_two_blocks :
  EncodeToString (Sum256 (bytes_of "abcdbcdecdefdefgefghfghighijhijkijkljklmklmnlmnomnopnopq")) =
    "248d6a61d20638b8e5c026930c3e6039a33ce45964ff2167f6ecedd419db06c1".
Proof. vm_compute. reflexivity. Qed.
