(* ===== verification/CreateOnlyFingerprint.v ===== *)
(** * A fingerprint kept in the status message

    [aidataplatform_runtime_client.go] keeps the SHA-256 sum of a create-only spec field, which
    the service never returns, as a marker in the free text of the status message.  Here: the
    string functions that write, find and remove the marker, on the text alone; the resource
    around it is in [AiDataPlatformClient].  A slice [raw[:i]] or [raw[i:]] at the index that
    [strings.LastIndex] finds is a component of [last_cut]. *)

From Stdlib Require Import Ascii String.
From S2P Require Import Prelude GoStrings Sha256.
Local Open Scope string_scope.

(** ** Strings *)

(** The rest of [s] after [sub], where [sub] is a prefix. *)
Fixpoint after_prefix (sub s : string) : option string :=
  match sub, s with
  | EmptyString, _ => Some s
  | String c sub, String d s => if Ascii.eqb c d then after_prefix sub s else None
  | String _ _, EmptyString => None
  end.

(** The text before and after the last occurrence of [sub]. *)
Fixpoint last_cut (s sub : string) : option (string * string) :=
  match s with
  | EmptyString => option_map (fun rest => (EmptyString, rest)) (after_prefix sub s)
  | String c s' =>
      match last_cut s' sub with
      | Some (before, after) => Some (String c before, after)
      | None => option_map (fun rest => (EmptyString, rest)) (after_prefix sub s)
      end
  end.

Definition in_cutset (cutset : string) (c : ascii) : bool := existsb (Ascii.eqb c) (list_ascii_of_string cutset).

Fixpoint TrimLeft (s cutset : string) : string :=
  match s with
  | EmptyString => EmptyString
  | String c s' => if in_cutset cutset c then TrimLeft s' cutset else s
  end.

Fixpoint TrimRight (s cutset : string) : string :=
  match s with
  | EmptyString => EmptyString
  | String c s' =>
      match TrimRight s' cutset with
      | EmptyString => if in_cutset cutset c then EmptyString else String c EmptyString
      | rest => String c rest
      end
  end.

(** The leading hexadecimal digits, and what follows them. *)
Fixpoint span_hex (s : string) : string * string :=
  match s with
  | EmptyString => (EmptyString, EmptyString)
  | String c s' => if isHexDigit c then let '(digits, rest) := span_hex s' in (String c digits, rest) else (EmptyString, s)
  end.

(** ** The marker *)

Definition FingerprintKey : string := "aiDataPlatformDefaultWorkspaceNameSHA256=".

Definition strip_marker (raw : string) : string :=
  let raw := TrimSpace raw in
  match last_cut raw FingerprintKey with
  | None => raw
  | Some (before, after) =>
      let prefix := TrimSpace (TrimRight before "; ") in
      let suffix := TrimSpace (TrimLeft (snd (span_hex after)) "; ") in
      if (prefix =? "")%string then suffix
      else if (suffix =? "")%string then prefix
      else prefix +++ "; " +++ suffix
  end.

Definition set_marker (fingerprint raw : string) : string :=
  let base := strip_marker raw in
  let marker := FingerprintKey +++ fingerprint in
  if (base =? "")%string then marker else base +++ "; " +++ marker.

Definition recorded_marker (raw : string) : option string :=
  match last_cut raw FingerprintKey with
  | None => None
  | Some (_, after) =>
      let fingerprint := fst (span_hex after) in
      if negb (String.length fingerprint =? Size * 2)%nat then None
      else if negb (hex_decodes fingerprint) then None
      else Some fingerprint
  end.

Definition fingerprint_of (value : string) : string := EncodeToString (Sum256 (bytes_of (TrimSpace value))).

(** Texts that the code records: 64 hexadecimal digits. *)
Definition fingerprint_text (f : string) : Prop := String.length f = 64 /\ all_hex f = true.

Lemma fingerprint_of_text value : fingerprint_text (fingerprint_of value).
Proof. apply Sum256_text. Qed.

(** ** Finding the marker *)

Lemma after_prefix_app sub s : after_prefix sub (sub +++ s) = Some s.
Proof. induction sub as [|c sub IH]; simpl; [done|]. by rewrite Ascii.eqb_refl. Qed.

Lemma after_prefix_sound sub s rest : after_prefix sub s = Some rest -> s = sub +++ rest.
Proof.
  revert s. induction sub as [|c sub IH]; intros s; cbn; [by intros [= ->]|]. destruct s as [|d s]; [done|].
  destruct (Ascii.eqb_spec c d) as [->|]; [|done]. intros H%IH. by rewrite H.
Qed.

Lemma head_cut_sound s sub before after :
  option_map (fun rest => (EmptyString, rest)) (after_prefix sub s) = Some (before, after) -> s = before +++ sub +++ after.
Proof. destruct (after_prefix sub s) as [rest|] eqn:E; [|done]. intros [= <- <-]. exact (after_prefix_sound _ _ _ E). Qed.

Lemma last_cut_sound s sub before after : last_cut s sub = Some (before, after) -> s = before +++ sub +++ after.
Proof.
  revert before. induction s as [|c s IH]; intros before; cbn [last_cut]; [apply head_cut_sound|].
  destruct (last_cut s sub) as [[b a]|]; [|apply head_cut_sound]. intros [= <- <-]. rewrite string_app_cons. f_equal. by apply IH.
Qed.

(** The key ends in the only equality sign that a marker has. *)
Fixpoint has_equals (s : string) : bool :=
  match s with EmptyString => false | String c s => Ascii.eqb c "=" || has_equals s end.

Lemma has_equals_app s t : has_equals (s +++ t) = has_equals s || has_equals t.
Proof. induction s as [|c s IH]; [done|]. rewrite string_app_cons. cbn. by rewrite <-orb_assoc, IH. Qed.

Lemma hex_no_equals f : all_hex f = true -> has_equals f = false.
Proof.
  induction f as [|c f IH]; cbn; [done|]. intros [Hc Hf]%andb_prop. rewrite (IH Hf), orb_false_r.
  destruct (Ascii.eqb_spec c "=") as [->|]; [discriminate Hc|done].
Qed.

Lemma no_equals_no_key s : has_equals s = false -> last_cut s FingerprintKey = None.
Proof.
  intros Hs. destruct (last_cut s FingerprintKey) as [[b a]|] eqn:E; [|done]. apply last_cut_sound in E.
  rewrite E, !has_equals_app in Hs. by rewrite orb_true_r in Hs.
Qed.

Lemma cut_key f : has_equals f = false -> last_cut (FingerprintKey +++ f) FingerprintKey = Some ("", f).
Proof.
  intros Hf. pose proof (no_equals_no_key f Hf) as Hn. unfold FingerprintKey in *.
  rewrite !string_app_cons. change ("" +++ f) with f. cbn. by rewrite Hn.
Qed.

(** The last marker is found, whatever precedes it. *)
Lemma cut_marker base f : has_equals f = false -> last_cut (base +++ FingerprintKey +++ f) FingerprintKey = Some (base, f).
Proof.
  intros Hf. induction base as [|c base IH]; [exact (cut_key f Hf)|]. rewrite string_app_cons. cbn [last_cut]. by rewrite IH.
Qed.

Lemma span_hex_all f : all_hex f = true -> span_hex f = (f, "").
Proof. induction f as [|c f IH]; cbn; [done|]. intros [-> Hf]%andb_prop. by rewrite IH. Qed.

Lemma recorded_base base f : fingerprint_text f -> recorded_marker (base +++ FingerprintKey +++ f) = Some f.
Proof.
  intros [Hlen Hhex]. unfold recorded_marker. rewrite cut_marker by (by apply hex_no_equals). rewrite span_hex_all by done.
  cbn [fst]. unfold hex_decodes. by rewrite Hlen, Hhex.
Qed.

(** What is written is read back. *)
Lemma recorded_set f raw : fingerprint_text f -> recorded_marker (set_marker f raw) = Some f.
Proof.
  intros Hf. unfold set_marker. destruct (strip_marker raw =? "")%string; [exact (recorded_base "" f Hf)|].
  rewrite <-(string_app_assoc (strip_marker raw) "; "). by apply recorded_base.
Qed.

(** ** Removing the marker *)

Lemma trim_left_length s : String.length (trim_left s) <= String.length s.
Proof. induction s as [|c s IH]; cbn; [done|]. destruct (is_space c); cbn; lia. Qed.
Lemma trim_right_length s : String.length (trim_right s) <= String.length s.
Proof. induction s as [|c s IH]; cbn; [done|]. destruct (trim_right s); [destruct (is_space c)|]; cbn in *; lia. Qed.
Lemma TrimSpace_length s : String.length (TrimSpace s) <= String.length s.
Proof. unfold TrimSpace. pose proof (trim_right_length (trim_left s)). pose proof (trim_left_length s). lia. Qed.

Lemma cutset_right_app s t : trim_right t <> "" -> trim_right (s +++ t) = s +++ trim_right t.
Proof.
  intros Ht. induction s as [|c s IH]; [done|]. rewrite !string_app_cons. cbn. rewrite IH.
  destruct (s +++ trim_right t) as [|d u] eqn:E; [|done]. exfalso.
  destruct s; [by destruct (trim_right t)|]. by rewrite string_app_cons in E.
Qed.

Lemma trim_right_hex f : all_hex f = true -> trim_right f = f.
Proof.
  induction f as [|c f IH]; cbn; [done|]. intros [Hc Hf]%andb_prop. rewrite (IH Hf). destruct f; [|done].
  assert (is_space c = false) as ->; [|done]. destruct c as [[] [] [] [] [] [] [] []]; (done || discriminate Hc).
Qed.

Lemma trimmed_head c s : TrimSpace (String c s) = String c s -> is_space c = false.
Proof.
  destruct (is_space c) eqn:E; [|done]. intros Ht. pose proof (TrimSpace_length s) as Hl.
  unfold TrimSpace in Ht, Hl. cbn in Ht. rewrite E in Ht. rewrite Ht in Hl. cbn in Hl. lia.
Qed.

(** A text that starts where a trimmed one does and ends without blanks is trimmed. *)
Lemma trimmed_app s t : TrimSpace s = s -> s <> "" -> trim_right t = t -> t <> "" -> TrimSpace (s +++ t) = s +++ t.
Proof.
  intros Hs Hne Ht Htn. destruct s as [|c s]; [done|]. apply trimmed_head in Hs. unfold TrimSpace.
  assert (trim_left (String c s +++ t) = String c s +++ t) as ->.
  { rewrite string_app_cons. cbn. by rewrite Hs. }
  rewrite cutset_right_app by (by rewrite Ht). by rewrite Ht.
Qed.

Lemma trim_right_TrimSpace s : trim_right (TrimSpace s) = TrimSpace s.
Proof. apply trim_right_idem. Qed.

Lemma app_not_empty s t : t <> "" -> s +++ t <> "".
Proof. intros Ht. destruct s; [done|]. by rewrite string_app_cons. Qed.

Lemma strip_trimmed raw : TrimSpace (strip_marker raw) = strip_marker raw.
Proof.
  unfold strip_marker. destruct (last_cut _ _) as [[before after]|]; [|apply TrimSpace_idem].
  cbn zeta. generalize (TrimRight before "; "), (TrimLeft (snd (span_hex after)) "; "). intros prefix suffix.
  destruct (TrimSpace prefix =? "")%string eqn:Ep; [apply TrimSpace_idem|].
  destruct (TrimSpace suffix =? "")%string eqn:Es; [apply TrimSpace_idem|].
  apply String.eqb_neq in Ep, Es. apply trimmed_app; [apply TrimSpace_idem|done|..|by apply app_not_empty].
  by rewrite cutset_right_app, trim_right_TrimSpace by (by rewrite trim_right_TrimSpace).
Qed.

Lemma TrimRight_app s t cutset : TrimRight t cutset = "" -> TrimRight (s +++ t) cutset = TrimRight s cutset.
Proof. intros Ht. induction s as [|c s IH]; [done|]. rewrite string_app_cons. cbn. by rewrite IH. Qed.

Lemma TrimRight_length s cutset : String.length (TrimRight s cutset) <= String.length s.
Proof. induction s as [|c s IH]; cbn; [done|]. destruct (TrimRight s cutset); [destruct (in_cutset cutset c)|]; cbn in *; lia. Qed.

(** Removing the marker from a base with one. *)
Lemma strip_base base f :
  fingerprint_text f -> TrimSpace (base +++ FingerprintKey +++ f) = base +++ FingerprintKey +++ f ->
  strip_marker (base +++ FingerprintKey +++ f) = TrimSpace (TrimRight base "; ").
Proof.
  intros [_ Hhex] Ht. unfold strip_marker. rewrite Ht, cut_marker by (by apply hex_no_equals). rewrite span_hex_all by done.
  cbn [snd]. change (TrimSpace (TrimLeft "" "; ")) with "". cbn zeta.
  destruct (TrimSpace (TrimRight base "; ") =? "")%string eqn:E; [by apply String.eqb_eq in E|done].
Qed.

Lemma marker_trim_right f : fingerprint_text f -> trim_right (FingerprintKey +++ f) = FingerprintKey +++ f.
Proof.
  intros [Hl Hh]. rewrite cutset_right_app; rewrite trim_right_hex by done; [done|]. by destruct f.
Qed.

(** What writing a marker does to the rest of the text: only separators at its end are lost. *)
Lemma strip_set f raw :
  fingerprint_text f -> strip_marker (set_marker f raw) = TrimSpace (TrimRight (strip_marker raw) "; ").
Proof.
  intros Hf. pose proof (strip_trimmed raw) as Ht. unfold set_marker. generalize dependent (strip_marker raw). intros base Ht.
  destruct (base =? "")%string eqn:E.
  - apply String.eqb_eq in E as ->. apply (strip_base "" f Hf). change ("" +++ FingerprintKey +++ f) with (FingerprintKey +++ f).
    unfold TrimSpace. assert (trim_left (FingerprintKey +++ f) = FingerprintKey +++ f) as ->.
    { unfold FingerprintKey. by rewrite string_app_cons. }
    by apply marker_trim_right.
  - apply String.eqb_neq in E. rewrite <-(string_app_assoc base "; "). rewrite strip_base.
    + by rewrite TrimRight_app.
    + done.
    + rewrite string_app_assoc. apply trimmed_app; [done|done| |].
      * assert (trim_right (FingerprintKey +++ f) <> "") as Hne.
        { rewrite marker_trim_right by done. unfold FingerprintKey. by rewrite string_app_cons. }
        rewrite cutset_right_app by done. by rewrite marker_trim_right.
      * unfold FingerprintKey. by rewrite !string_app_cons.
Qed.

Lemma string_app_length s t : String.length (s +++ t) = String.length s + String.length t.
Proof. induction s as [|c s IH]; [done|]. rewrite string_app_cons. cbn. by rewrite IH. Qed.

Lemma set_length f raw : fingerprint_text f -> String.length (set_marker f raw) <= String.length (strip_marker raw) + 107.
Proof.
  intros [Hl _]. unfold set_marker. destruct (_ =? "")%string; rewrite !string_app_length, Hl; cbn [FingerprintKey String.length]; lia.
Qed.

(** ** Theorem *)

(** C31. The fingerprint survives in the message, and the message survives the fingerprint: a recorded fingerprint is the one
    that is read back, whatever the message was before, markers included; recording another one replaces it and leaves the
    rest of the message as it was, up to separators at its end; and however often one is recorded, the text around it does
    not grow. *)
Theorem fingerprint_round_trip f g raw :
  fingerprint_text f -> fingerprint_text g ->
  recorded_marker (set_marker f raw) = Some f /\
  recorded_marker (set_marker g (set_marker f raw)) = Some g /\
  (TrimRight (strip_marker raw) "; " = strip_marker raw ->
   strip_marker (set_marker f raw) = strip_marker raw /\ set_marker g (set_marker f raw) = set_marker g raw) /\
  String.length (strip_marker (set_marker f raw)) <= String.length (strip_marker raw) /\
  String.length (set_marker g (set_marker f raw)) <= String.length (strip_marker raw) + 107.
Proof.
  intros Hf Hg. assert (Hlen : String.length (strip_marker (set_marker f raw)) <= String.length (strip_marker raw)).
  { rewrite strip_set by done. etransitivity; [apply TrimSpace_length|apply TrimRight_length]. }
  split_and!; [by apply recorded_set|by apply recorded_set|..|done|].
  - intros Hsep. assert (Hs : strip_marker (set_marker f raw) = strip_marker raw).
    { rewrite strip_set, Hsep by done. apply strip_trimmed. }
    split; [done|]. unfold set_marker at 1 3. by rewrite Hs.
  - pose proof (set_length g (set_marker f raw) Hg). lia.
Qed.

Lemma fingerprint_round_trip_witness :
  let f := fingerprint_of "lake" in let g := fingerprint_of "house" in
  recorded_marker (set_marker f "OCI resource is active") = Some f /\
  set_marker g (set_marker f "OCI resource is active") = set_marker g "OCI resource is active".
Proof.
  destruct (fingerprint_round_trip (fingerprint_of "lake") (fingerprint_of "house") "OCI resource is active") as (H1 & _ & H2 & _).
  - vm_compute. by split.
  - vm_compute. by split.
  - split; [exact H1|]. apply H2. vm_compute. reflexivity.
Defined.
