(* ===== verification/AiDataPlatformClient.v ===== *)
(** * The client of AI Data Platforms

    [pkg/servicemanager/aidataplatform/aidataplatform/aidataplatform_runtime_client.go] and the types of
    [api/aidataplatform/v1beta1/aidataplatform_types.go]: the semantics and request fields, the bodies of
    create and update, the projections of the SDK's responses, the work-request hooks, the create-only
    fingerprint and the two clients around the generated one.  The file has the shape of about a hundred
    others; its guards against ambiguous answers are instances of [GuardHooks], its list call of [ListPages].
    A pointer is an option, a nil map is [None], an SDK time stands for the text that [Format] gives, and an
    enum of the SDK for its text.  The inner maps of the tags in a spec are not nil. *)

From stdpp Require Import gmap.
From S2P Require Import Prelude GoStrings Shared GoErrors GoValue AsyncStatus Reconciler ReconcilerSafety Secrets JsonValues Semantics SpecResolution MutationPolicy.
From S2P Require Import RequestBuilder Runtime RuntimeRead RuntimeReconcile RuntimeTrace RuntimeDelete RuntimeManager GeneratorSemantics ServiceClients ResourceTags NetworkClients NetworkSafety.
From S2P Require Import NotFoundGuards GuardHooks Sha256 CreateOnlyFingerprint.
Local Open Scope string_scope.
Local Open Scope list_scope.
Local Open Scope go_scope.

Local Notation "'try' x ':=' c 'in' k" := (result_bind c (fun x => k))
  (at level 200, x name, c at level 100, k at level 200, right associativity).

(** ** Data *)

(** [map[string]shared.MapValue] of a status, where an inner map may be nil. *)
Abbreviation StatusTags := (gmap string (option (gmap string string))).

Record AiDataPlatformSpec := mkSpec {
  spec_CompartmentId : string;
  spec_DisplayName : string;
  spec_AiDataPlatformType : string;
  spec_DefaultWorkspaceName : string;
  spec_FreeformTags : option Tags;
  spec_DefinedTags : option MapValues;
  spec_SystemTags : option MapValues
}.

Record AiDataPlatformStatus := mkStatus {
  st_OsokStatus : OSOKStatus;
  st_Id : string;
  st_DisplayName : string;
  st_CompartmentId : string;
  st_AiDataPlatformType : string;
  st_TimeCreated : string;
  st_LifecycleState : string;
  st_FreeformTags : option Tags;
  st_DefinedTags : option StatusTags;
  st_CreatedBy : string;
  st_TimeUpdated : string;
  st_AliasKey : string;
  st_WebSocketEndpoint : string;
  st_LifecycleDetails : string;
  st_SystemTags : option StatusTags
}.

#[export, refine] Instance AiDataPlatformStatus_block : StatusBlock AiDataPlatformStatus := {|
  OsokStatus := st_OsokStatus;
  set_OsokStatus b s := mkStatus b (st_Id s) (st_DisplayName s) (st_CompartmentId s) (st_AiDataPlatformType s) (st_TimeCreated s)
    (st_LifecycleState s) (st_FreeformTags s) (st_DefinedTags s) (st_CreatedBy s) (st_TimeUpdated s) (st_AliasKey s)
    (st_WebSocketEndpoint s) (st_LifecycleDetails s) (st_SystemTags s);
  osok_set := _; set_osok := _; set_set := _
|}.
Proof. all: by intros []. Defined.

Notation AiDataPlatformResource := (Resource AiDataPlatformSpec AiDataPlatformStatus).

(** [aidataplatformsdk.AiDataPlatform]; [AiDataPlatformSummary] is the same without the endpoint. *)
Record SdkAiDataPlatform := mkSdk {
  sdk_Id : option string;
  sdk_DisplayName : option string;
  sdk_CompartmentId : option string;
  sdk_AiDataPlatformType : option string;
  sdk_TimeCreated : option string;
  sdk_LifecycleState : string;
  sdk_FreeformTags : option Tags;
  sdk_DefinedTags : option SdkTags;
  sdk_CreatedBy : option string;
  sdk_TimeUpdated : option string;
  sdk_AliasKey : option string;
  sdk_WebSocketEndpoint : option string;
  sdk_LifecycleDetails : option string;
  sdk_SystemTags : option SdkTags
}.

Record SdkAiDataPlatformSummary := mkSummary {
  sum_Id : option string;
  sum_DisplayName : option string;
  sum_CompartmentId : option string;
  sum_AiDataPlatformType : option string;
  sum_TimeCreated : option string;
  sum_LifecycleState : string;
  sum_FreeformTags : option Tags;
  sum_DefinedTags : option SdkTags;
  sum_CreatedBy : option string;
  sum_TimeUpdated : option string;
  sum_AliasKey : option string;
  sum_LifecycleDetails : option string;
  sum_SystemTags : option SdkTags
}.

Record CreateAiDataPlatformDetails := mkCreate {
  cd_CompartmentId : option string;
  cd_DisplayName : option string;
  cd_AiDataPlatformType : option string;
  cd_DefaultWorkspaceName : option string;
  cd_FreeformTags : option Tags;
  cd_DefinedTags : option SdkTags;
  cd_SystemTags : option SdkTags
}.

Record UpdateAiDataPlatformDetails := mkUpdate {
  ud_DisplayName : option string;
  ud_AiDataPlatformType : option string;
  ud_FreeformTags : option Tags;
  ud_DefinedTags : option SdkTags;
  ud_SystemTags : option SdkTags
}.

#[export] Instance UpdateAiDataPlatformDetails_eq_dec : EqDecision UpdateAiDataPlatformDetails.
Proof. solve_decision. Defined.

(** ** Semantics and request fields *)

Definition aiDataPlatformWorkRequestAsyncAdapter : WorkRequestAsyncAdapter :=
  mkAdapter ["ACCEPTED"; "IN_PROGRESS"; "WAITING"; "CANCELING"] ["SUCCEEDED"] ["FAILED"] ["CANCELED"] ["NEEDS_ATTENTION"] []
    ["CREATED"] ["UPDATED"] ["DELETED"].

Definition wait_hooks (helper action : string) : list Hook :=
  [mkHook helper "" ""; mkHook "tfresource.WaitForWorkRequestWithErrorHandling" "aidataplatform" action].

Definition newAiDataPlatformRuntimeSemantics : Semantics :=
  mkSemantics "aidataplatform" "aidataplatform"
    (Some (mkAsyncSemantics "workrequest" "generatedruntime" "workrequest"
       (Some (mkWorkRequestSemantics "service-sdk" ["create"; "update"; "delete"] None))))
    "required" "none" "retain-until-confirmed-delete"
    (mkLifecycle ["CREATING"] ["UPDATING"] ["ACTIVE"])
    (mkDeleteSemantics "required" ["DELETING"] ["DELETED"])
    (Some (mkListSemantics "Items" ["compartmentId"; "displayName"; "id"]))
    (mkMutation [] ["displayName"; "aiDataPlatformType"; "freeformTags"; "definedTags"; "systemTags"]
       ["compartmentId"; "defaultWorkspaceName"] [])
    (mkHookSet [mkHook "tfresource.CreateResource" "" ""] [mkHook "tfresource.UpdateResource" "" ""]
       [mkHook "tfresource.DeleteResource" "" ""])
    (mkFollowUp "GetWorkRequest -> GetAiDataPlatform" (wait_hooks "tfresource.CreateResource" "CREATED"))
    (mkFollowUp "GetWorkRequest -> GetAiDataPlatform" (wait_hooks "tfresource.UpdateResource" "UPDATED"))
    (mkFollowUp "confirm-delete" (wait_hooks "tfresource.DeleteResource" "DELETED"))
    [] [].

Definition aiDataPlatformCreateFields : list RequestField :=
  [mkRequestField "CreateAiDataPlatformDetails" "CreateAiDataPlatformDetails" "body" false []].
Definition aiDataPlatformGetFields : list RequestField :=
  [mkRequestField "AiDataPlatformId" "aiDataPlatformId" "path" true []].
Definition aiDataPlatformListFields : list RequestField :=
  [mkRequestField "CompartmentId" "compartmentId" "query" false ["status.compartmentId"; "spec.compartmentId"; "compartmentId"];
   mkRequestField "DisplayName" "displayName" "query" false ["status.displayName"; "spec.displayName"; "displayName"];
   mkRequestField "Id" "id" "query" true ["status.id"; "status.status.ocid"; "id"; "ocid"];
   mkRequestField "LifecycleState" "lifecycleState" "query" false [];
   mkRequestField "ExcludeLifecycleState" "excludeLifecycleState" "query" false [];
   mkRequestField "Limit" "limit" "query" false [];
   mkRequestField "Page" "page" "query" false [];
   mkRequestField "SortOrder" "sortOrder" "query" false [];
   mkRequestField "SortBy" "sortBy" "query" false [];
   mkRequestField "IncludeLegacy" "includeLegacy" "query" false []].
Definition aiDataPlatformUpdateFields : list RequestField :=
  [mkRequestField "AiDataPlatformId" "aiDataPlatformId" "path" true [];
   mkRequestField "UpdateAiDataPlatformDetails" "UpdateAiDataPlatformDetails" "body" false []].
Definition aiDataPlatformDeleteFields : list RequestField :=
  [mkRequestField "AiDataPlatformId" "aiDataPlatformId" "path" true []].

(** The runtime accepts the semantics, and its work-request hooks are in use. *)
Lemma aidataplatform_semantics_accepted :
  validateFormalSemantics "AiDataPlatform" (Some newAiDataPlatformRuntimeSemantics) = None /\
  generatedWorkRequestAsyncEnabled (Some newAiDataPlatformRuntimeSemantics) = true.
Proof. by vm_compute. Qed.

(** ** Bodies *)

Definition optionalAiDataPlatformString (value : string) : option string :=
  let value := TrimSpace value in if negb (value =? "")%string then Some value else None.

(** [maps.Clone] keeps nil and the entries. *)
Definition buildAiDataPlatformCreateBody (resource : AiDataPlatformResource) : result CreateAiDataPlatformDetails GoError :=
  let spec := Spec resource in
  if (TrimSpace (spec_CompartmentId spec) =? "")%string
  then Err (ErrText "AiDataPlatform spec is missing required field compartmentId")
  else Ok (mkCreate (Some (TrimSpace (spec_CompartmentId spec))) (optionalAiDataPlatformString (spec_DisplayName spec))
             (optionalAiDataPlatformString (spec_AiDataPlatformType spec)) (optionalAiDataPlatformString (spec_DefaultWorkspaceName spec))
             (spec_FreeformTags spec) (ConvertToOciDefinedTags <$> spec_DefinedTags spec) (ConvertToOciDefinedTags <$> spec_SystemTags spec)).

Definition statusTagsFromSDK (tags : option SdkTags) : option StatusTags :=
  (fun namespaces : SdkTags => (fun values : option (gmap string Json) => (fmap sprint : gmap string Json -> gmap string string) <$> values) <$> namespaces) <$> tags.

Definition sdkTimeString (value : option string) : string := default "" value.

Record aiDataPlatformStatusProjection := mkProjection {
  pr_Id : string;
  pr_DisplayName : string;
  pr_CompartmentId : string;
  pr_AiDataPlatformType : string;
  pr_TimeCreated : string;
  pr_LifecycleState : string;
  pr_FreeformTags : option Tags;
  pr_DefinedTags : option StatusTags;
  pr_CreatedBy : string;
  pr_TimeUpdated : string;
  pr_AliasKey : string;
  pr_WebSocketEndpoint : string;
  pr_LifecycleDetails : string;
  pr_SystemTags : option StatusTags
}.

Definition aiDataPlatformProjectionFromSDK (current : SdkAiDataPlatform) : aiDataPlatformStatusProjection :=
  mkProjection (stringValue (sdk_Id current)) (stringValue (sdk_DisplayName current)) (stringValue (sdk_CompartmentId current))
    (stringValue (sdk_AiDataPlatformType current)) (sdkTimeString (sdk_TimeCreated current)) (sdk_LifecycleState current)
    (sdk_FreeformTags current) (statusTagsFromSDK (sdk_DefinedTags current)) (stringValue (sdk_CreatedBy current))
    (sdkTimeString (sdk_TimeUpdated current)) (stringValue (sdk_AliasKey current)) (stringValue (sdk_WebSocketEndpoint current))
    (stringValue (sdk_LifecycleDetails current)) (statusTagsFromSDK (sdk_SystemTags current)).

Definition aiDataPlatformProjectionFromSummary (current : SdkAiDataPlatformSummary) : aiDataPlatformStatusProjection :=
  mkProjection (stringValue (sum_Id current)) (stringValue (sum_DisplayName current)) (stringValue (sum_CompartmentId current))
    (stringValue (sum_AiDataPlatformType current)) (sdkTimeString (sum_TimeCreated current)) (sum_LifecycleState current)
    (sum_FreeformTags current) (statusTagsFromSDK (sum_DefinedTags current)) (stringValue (sum_CreatedBy current))
    (sdkTimeString (sum_TimeUpdated current)) (stringValue (sum_AliasKey current)) ""
    (stringValue (sum_LifecycleDetails current)) (statusTagsFromSDK (sum_SystemTags current)).

(** The dynamic types of a response; a pointer may be nil and may point to a pointer, [OtherResponse] is any other
    value and the nil interface. *)
Inductive AnyResponse :=
| PointerTo (target : option AnyResponse)
| ProjectedResponse (projection : aiDataPlatformStatusProjection) (opcRequestId : option string)
| ProjectionValue (projection : aiDataPlatformStatusProjection)
| CreateResponse (body : SdkAiDataPlatform)
| GetResponse (body : SdkAiDataPlatform)
| SdkValue (body : SdkAiDataPlatform)
| SummaryValue (body : SdkAiDataPlatformSummary)
| OtherResponse.

Fixpoint dereferenceAiDataPlatformRuntimeBody (response : AnyResponse) : AnyResponse :=
  match response with
  | PointerTo None => OtherResponse
  | PointerTo (Some target) => dereferenceAiDataPlatformRuntimeBody target
  | _ => response
  end.

Definition aiDataPlatformProjectionFromResponse (response : AnyResponse) : option aiDataPlatformStatusProjection :=
  match dereferenceAiDataPlatformRuntimeBody response with
  | ProjectedResponse projection _ | ProjectionValue projection => Some projection
  | CreateResponse body | GetResponse body | SdkValue body => Some (aiDataPlatformProjectionFromSDK body)
  | SummaryValue body => Some (aiDataPlatformProjectionFromSummary body)
  | PointerTo _ | OtherResponse => None
  end.

Definition desiredAiDataPlatformStringUpdate (desired current : string) : option string :=
  let desired := TrimSpace desired in
  if (desired =? "")%string || (desired =? TrimSpace current)%string then None else Some desired.

(** [maps.Equal] takes nil for an empty map. *)
Definition desiredAiDataPlatformFreeformTagsUpdate (desired current : option Tags) : option Tags :=
  match desired with
  | None => None
  | Some tags => if bool_decide (tags = default ∅ current) then None else Some tags
  end.

(** [reflect.DeepEqual] does not. *)
Definition desiredAiDataPlatformDefinedTagsUpdate (desired : option MapValues) (current : option StatusTags) : option SdkTags :=
  match desired with
  | None => None
  | Some tags => if bool_decide (Some (Some <$> tags : StatusTags) = current) then None else Some (ConvertToOciDefinedTags tags)
  end.

Definition is_given {A} (o : option A) : bool := match o with Some _ => true | None => false end.

Definition update_body (spec : AiDataPlatformSpec) (current : aiDataPlatformStatusProjection) : UpdateAiDataPlatformDetails :=
  mkUpdate (desiredAiDataPlatformStringUpdate (spec_DisplayName spec) (pr_DisplayName current))
    (desiredAiDataPlatformStringUpdate (spec_AiDataPlatformType spec) (pr_AiDataPlatformType current))
    (desiredAiDataPlatformFreeformTagsUpdate (spec_FreeformTags spec) (pr_FreeformTags current))
    (desiredAiDataPlatformDefinedTagsUpdate (spec_DefinedTags spec) (pr_DefinedTags current))
    (desiredAiDataPlatformDefinedTagsUpdate (spec_SystemTags spec) (pr_SystemTags current)).

Definition update_needed (body : UpdateAiDataPlatformDetails) : bool :=
  is_given (ud_DisplayName body) || is_given (ud_AiDataPlatformType body) || is_given (ud_FreeformTags body) ||
  is_given (ud_DefinedTags body) || is_given (ud_SystemTags body).

Definition buildAiDataPlatformUpdateBody (resource : AiDataPlatformResource) (currentResponse : AnyResponse)
  : result (UpdateAiDataPlatformDetails * bool) GoError :=
  match aiDataPlatformProjectionFromResponse currentResponse with
  | None => Err (ErrText "current AiDataPlatform response does not expose an AiDataPlatform body")
  | Some current => let body := update_body (Spec resource) current in Ok (body, update_needed body)
  end.

(** ** Work requests *)

Record WorkRequestResource := mkWorkRequestResource {
  wrr_EntityType : option string;
  wrr_ActionType : string;
  wrr_Identifier : option string;
  wrr_EntityUri : option string
}.
Record WorkRequest := mkWorkRequest {
  wr_OperationType : string;
  wr_Status : string;
  wr_Id : option string;
  wr_Resources : list WorkRequestResource
}.

Definition isAiDataPlatformWorkRequestResource (resource : WorkRequestResource) : bool :=
  let entityType := ToLower (TrimSpace (stringValue (wrr_EntityType resource))) in
  if existsb (String.eqb entityType) ["aidataplatform"; "ai_data_platform"; "data_lake"; "datalake"; "data-lake"] then true
  else if Contains entityType "data" && Contains entityType "lake" then true
  else if Contains entityType "aidataplatform" then true
  else
    let entityURI := ToLower (TrimSpace (stringValue (wrr_EntityUri resource))) in
    Contains entityURI "/ai-data-platforms/" || Contains entityURI "/data-lakes/".

Definition aiDataPlatformWorkRequestActionForPhase (phase : OSOKAsyncPhase) : string :=
  if (phase =? OSOKAsyncPhaseCreate)%string then "CREATED"
  else if (phase =? OSOKAsyncPhaseUpdate)%string then "UPDATED"
  else if (phase =? OSOKAsyncPhaseDelete)%string then "DELETED"
  else "".

Definition aiDataPlatformWorkRequestPhaseFromOperationType (operationType : string) : option OSOKAsyncPhase :=
  if (operationType =? "CREATE_DATA_LAKE")%string then Some OSOKAsyncPhaseCreate
  else if (operationType =? "UPDATE_DATA_LAKE")%string then Some OSOKAsyncPhaseUpdate
  else if (operationType =? "DELETE_DATA_LAKE")%string then Some OSOKAsyncPhaseDelete
  else None.

(** The loop of [resolveAiDataPlatformIDFromResources]; a conflict ends it without an identifier. *)
Fixpoint ids_from (action : string) (preferAiDataPlatformOnly : bool) (candidate : string) (resources : list WorkRequestResource)
  : option string :=
  match resources with
  | [] => if (candidate =? "")%string then None else Some candidate
  | resource :: rest =>
      let id := TrimSpace (stringValue (wrr_Identifier resource)) in
      if negb (action =? "")%string && negb (wrr_ActionType resource =? action)%string
      then ids_from action preferAiDataPlatformOnly candidate rest
      else if preferAiDataPlatformOnly && negb (isAiDataPlatformWorkRequestResource resource)
      then ids_from action preferAiDataPlatformOnly candidate rest
      else if (id =? "")%string then ids_from action preferAiDataPlatformOnly candidate rest
      else if (candidate =? "")%string then ids_from action preferAiDataPlatformOnly id rest
      else if negb (candidate =? id)%string then None
      else ids_from action preferAiDataPlatformOnly candidate rest
  end.
Definition resolveAiDataPlatformIDFromResources (resources : list WorkRequestResource) (action : string) (preferAiDataPlatformOnly : bool)
  : option string := ids_from action preferAiDataPlatformOnly "" resources.

Definition resolveAiDataPlatformIDFromWorkRequest (workRequest : WorkRequest) (action : string) : result string GoError :=
  match resolveAiDataPlatformIDFromResources (wr_Resources workRequest) action true with
  | Some id => Ok id
  | None =>
      match resolveAiDataPlatformIDFromResources (wr_Resources workRequest) action false with
      | Some id => Ok id
      | None => Err (ErrText ("AiDataPlatform work request " +++ stringValue (wr_Id workRequest) +++
                              " does not expose an AiDataPlatform identifier"))
      end
  end.

Fixpoint action_from (workRequestID action : string) (resources : list WorkRequestResource) : result string GoError :=
  match resources with
  | [] => Ok action
  | resource :: rest =>
      let candidate := TrimSpace (wrr_ActionType resource) in
      if negb (isAiDataPlatformWorkRequestResource resource) then action_from workRequestID action rest
      else if (candidate =? "")%string || EqualFold candidate "IN_PROGRESS" then action_from workRequestID action rest
      else if (action =? "")%string then action_from workRequestID candidate rest
      else if negb (action =? candidate)%string
      then Err (ErrText ("AiDataPlatform work request " +++ workRequestID +++ " exposes conflicting action types " +++
                         Quote action +++ " and " +++ Quote candidate))
      else action_from workRequestID action rest
  end.
Definition resolveAiDataPlatformWorkRequestAction (workRequest : WorkRequest) : result string GoError :=
  action_from (stringValue (wr_Id workRequest)) "" (wr_Resources workRequest).

(** The dynamic types of a work request; [None] is a nil pointer. *)
Inductive AnyWorkRequest := WorkRequestValue (workRequest : option WorkRequest) | OtherWorkRequest (typeName : string).

Definition aiDataPlatformWorkRequestFromAny (workRequest : AnyWorkRequest) : result WorkRequest GoError :=
  match workRequest with
  | WorkRequestValue (Some current) => Ok current
  | WorkRequestValue None => Err (ErrText "AiDataPlatform work request is nil")
  | OtherWorkRequest typeName => Err (ErrText ("unexpected AiDataPlatform work request type " +++ typeName))
  end.

Definition resolveAiDataPlatformGeneratedWorkRequestAction (workRequest : AnyWorkRequest) : result string GoError :=
  try typed := aiDataPlatformWorkRequestFromAny workRequest in resolveAiDataPlatformWorkRequestAction typed.
Definition resolveAiDataPlatformGeneratedWorkRequestPhase (workRequest : AnyWorkRequest) : result (option OSOKAsyncPhase) GoError :=
  try typed := aiDataPlatformWorkRequestFromAny workRequest in
  Ok (aiDataPlatformWorkRequestPhaseFromOperationType (wr_OperationType typed)).
Definition recoverAiDataPlatformIDFromGeneratedWorkRequest (workRequest : AnyWorkRequest) (phase : OSOKAsyncPhase) : result string GoError :=
  try typed := aiDataPlatformWorkRequestFromAny workRequest in
  resolveAiDataPlatformIDFromWorkRequest typed (aiDataPlatformWorkRequestActionForPhase phase).
Definition aiDataPlatformGeneratedWorkRequestMessage (phase : OSOKAsyncPhase) (workRequest : AnyWorkRequest) : string :=
  match aiDataPlatformWorkRequestFromAny workRequest with
  | Ok typed => "AiDataPlatform " +++ phase +++ " work request " +++ stringValue (wr_Id typed) +++ " is " +++ wr_Status typed
  | Err _ => ""
  end.

(** [client] is the SDK's client, nil when there is none. *)
Definition getAiDataPlatformWorkRequest {W} (client : option (string -> ST W (result WorkRequest GoError))) (initErr : option GoError)
  (workRequestID : string) : ST W (result WorkRequest GoError) :=
  match initErr, client with
  | Some e, _ => st_ret (Err e)
  | None, None => st_ret (Err (ErrText "AiDataPlatform OCI client is nil"))
  | None, Some get =>
      if (TrimSpace workRequestID =? "")%string then st_ret (Err (ErrText "AiDataPlatform work request id is empty"))
      else get (TrimSpace workRequestID)
  end.

(** ** Identity and the create-only fingerprint *)

Definition currentAiDataPlatformID (resource : AiDataPlatformResource) : string :=
  let id := TrimSpace (st_Id (Status resource)) in
  if negb (id =? "")%string then id else TrimSpace (Ocid (OsokStatus (Status resource))).

Definition aiDataPlatformHasEstablishedTrackedIdentity (resource : AiDataPlatformResource) : bool :=
  negb (currentAiDataPlatformID resource =? "")%string && is_given (CreatedAt (OsokStatus (Status resource))).

Definition aiDataPlatformRecordedDefaultWorkspaceNameFingerprint (resource : AiDataPlatformResource) : option string :=
  recorded_marker (Message (OsokStatus (Status resource))).

Definition setAiDataPlatformDefaultWorkspaceNameFingerprint (fingerprint : string) : AiDataPlatformResource -> AiDataPlatformResource :=
  with_osok (fun status => set_Message (set_marker fingerprint (Message status)) status).

Definition desired_fingerprint (resource : AiDataPlatformResource) : string :=
  fingerprint_of (spec_DefaultWorkspaceName (Spec resource)).

Definition recordAiDataPlatformDefaultWorkspaceNameFingerprint (resource : AiDataPlatformResource) : AiDataPlatformResource :=
  setAiDataPlatformDefaultWorkspaceNameFingerprint (desired_fingerprint resource) resource.

Definition replacement_required : GoError :=
  ErrText "AiDataPlatform formal semantics require replacement when defaultWorkspaceName changes".

Definition validateAiDataPlatformCreateOnlyDrift (resource : AiDataPlatformResource) : option GoError :=
  match aiDataPlatformRecordedDefaultWorkspaceNameFingerprint resource with
  | None =>
      if aiDataPlatformHasEstablishedTrackedIdentity resource
      then Some (ErrText ("AiDataPlatform create-only fingerprint is missing for tracked resource; " +++
                          "recreate the resource before changing defaultWorkspaceName"))
      else None
  | Some recorded => if negb (desired_fingerprint resource =? recorded)%string then Some replacement_required else None
  end.

(** ** The clients *)

Definition aiDataPlatformGuardTexts : GuardTexts :=
  mkGuardTexts "AiDataPlatform" "aidataplatform.aiDataPlatformAmbiguousNotFoundError"
    "AiDataPlatform read returned ambiguous 404 NotAuthorizedOrNotFound"
    "AiDataPlatform delete returned ambiguous 404 NotAuthorizedOrNotFound; keeping the finalizer until deletion is unambiguously confirmed"
    "AiDataPlatform delete confirmation returned ambiguous 404 NotAuthorizedOrNotFound; refusing to treat it as deleted".

Section Clients.
Context {W : Type}.
Abbreviation Client := (SvcClient AiDataPlatformResource W).

(** The step after the wrapped client has run. *)
Definition keep_fingerprint (recorded : option string) (answer : OSOKResponse * option GoError) (resource : AiDataPlatformResource)
  : AiDataPlatformResource :=
  let known := negb (currentAiDataPlatformID resource =? "")%string in
  match recorded with
  | Some fingerprint =>
      if known then setAiDataPlatformDefaultWorkspaceNameFingerprint fingerprint resource else resource
  | None =>
      if negb (is_given (snd answer)) && IsSuccessful (fst answer) && known
      then recordAiDataPlatformDefaultWorkspaceNameFingerprint resource else resource
  end.

Definition aiDataPlatformCreateOnlyTrackingClient (delegate : option Client) : Client :=
  mkSvcClient
    (fun namespace =>
       match delegate with
       | None => st_ret (unsuccessful, Some (not_configured aiDataPlatformGuardTexts))
       | Some delegate =>
           let* resource := the_resource in
           let recorded := aiDataPlatformRecordedDefaultWorkspaceNameFingerprint resource in
           let* answer := sc_CreateOrUpdate delegate namespace in
           on_resource (keep_fingerprint recorded answer) ;;;
           st_ret answer
       end)
    (match delegate with
     | None => st_ret (false, Some (not_configured aiDataPlatformGuardTexts))
     | Some delegate => sc_Delete delegate
     end).

(** The wrappers in the order they are registered: the confirming client is the outer one. *)
Definition aiDataPlatformWrappers (get : string -> ST W (result SdkAiDataPlatform GoError)) : list (option (Client -> Client)) :=
  [Some (fun delegate => aiDataPlatformCreateOnlyTrackingClient (Some delegate));
   Some (fun delegate => deleteConfirmationClient aiDataPlatformGuardTexts currentAiDataPlatformID (Some get) (Some delegate))].

Definition wrapAiDataPlatformGeneratedClient (get : string -> ST W (result SdkAiDataPlatform GoError)) (delegate : Client) : Client :=
  wrapGeneratedClient (aiDataPlatformWrappers get) delegate.

(** ** The fingerprint over time *)

Context (get : string -> ST W (result SdkAiDataPlatform GoError)) (delegate : Client).

(** What can happen to a platform that stays tracked: its spec is edited, the world changes, a reconcile runs to an answer and
    leaves an identifier. *)
Inductive tracked_step : AiDataPlatformResource * W -> AiDataPlatformResource * W -> Prop :=
| step_edit r w spec : tracked_step (r, w) (mkResource spec (Status r), w)
| step_world r w w' : tracked_step (r, w) (r, w')
| step_reconcile r w namespace answer r' w' :
    sc_CreateOrUpdate (wrapAiDataPlatformGeneratedClient get delegate) namespace (r, w) = (Ret answer, (r', w')) ->
    currentAiDataPlatformID r' <> "" -> tracked_step (r, w) (r', w').

Lemma recorded_text raw f : recorded_marker raw = Some f -> fingerprint_text f.
Proof.
  unfold recorded_marker. destruct (last_cut raw FingerprintKey) as [[before after]|]; [|done].
  destruct (String.length (fst (span_hex after)) =? Size * 2)%nat eqn:El; [|done]. cbn [negb].
  unfold hex_decodes. destruct (all_hex (fst (span_hex after))) eqn:Eh; [|by rewrite andb_false_r].
  destruct (Nat.even _); [|done]. intros [= <-]. split; [by apply Nat.eqb_eq in El|done].
Qed.

Lemma set_recorded f r :
  fingerprint_text f -> aiDataPlatformRecordedDefaultWorkspaceNameFingerprint (setAiDataPlatformDefaultWorkspaceNameFingerprint f r) = Some f.
Proof. intros Hf. by apply recorded_set. Qed.

Lemma set_current_id f r : currentAiDataPlatformID (setAiDataPlatformDefaultWorkspaceNameFingerprint f r) = currentAiDataPlatformID r.
Proof. by destruct r as [? []]. Qed.

(** One reconcile of the wrapped client, seen from outside. *)
Lemma wrapped_run namespace r w answer r' w' :
  sc_CreateOrUpdate (wrapAiDataPlatformGeneratedClient get delegate) namespace (r, w) = (Ret answer, (r', w')) ->
  exists r1, r' = keep_fingerprint (aiDataPlatformRecordedDefaultWorkspaceNameFingerprint r) answer r1.
Proof.
  cbn. unfold st_bind, the_resource, on_resource, st_ret.
  destruct (sc_CreateOrUpdate delegate namespace (r, w)) as [[a|] [r1 w1]]; [|done]. intros [= <- <- <-]. by exists r1.
Qed.

Lemma kept_id recorded answer r1 : currentAiDataPlatformID (keep_fingerprint recorded answer r1) = currentAiDataPlatformID r1.
Proof.
  unfold keep_fingerprint, recordAiDataPlatformDefaultWorkspaceNameFingerprint.
  destruct recorded; case_match; by rewrite ?set_current_id.
Qed.

Lemma step_keeps f s s' :
  tracked_step s s' -> aiDataPlatformRecordedDefaultWorkspaceNameFingerprint (fst s) = Some f ->
  aiDataPlatformRecordedDefaultWorkspaceNameFingerprint (fst s') = Some f.
Proof.
  intros Hs Hf. destruct Hs as [|r w w'|r w namespace answer r' w' Hrun Hid]; [done..|]. cbn [fst] in *.
  destruct (wrapped_run _ _ _ _ _ _ Hrun) as (r1 & ->). rewrite kept_id in Hid. rewrite Hf. unfold keep_fingerprint.
  rewrite (proj2 (String.eqb_neq _ _) Hid). cbn [negb]. by eapply set_recorded, recorded_text.
Qed.

Lemma steps_keep f s s' :
  rtc tracked_step s s' -> aiDataPlatformRecordedDefaultWorkspaceNameFingerprint (fst s) = Some f ->
  aiDataPlatformRecordedDefaultWorkspaceNameFingerprint (fst s') = Some f.
Proof. induction 1 as [|s1 s2 s3 Hs _ IH]; [done|]. intros Hf. eapply IH, step_keeps; done. Qed.

(** The first successful reconcile records the name it was run with. *)
Lemma first_success namespace r0 w0 response r1 w1 :
  aiDataPlatformRecordedDefaultWorkspaceNameFingerprint r0 = None ->
  sc_CreateOrUpdate (wrapAiDataPlatformGeneratedClient get delegate) namespace (r0, w0) = (Ret (response, None), (r1, w1)) ->
  IsSuccessful response = true -> currentAiDataPlatformID r1 <> "" ->
  aiDataPlatformRecordedDefaultWorkspaceNameFingerprint r1 = Some (desired_fingerprint r1).
Proof.
  intros Hn Hrun Hok Hid. destruct (wrapped_run _ _ _ _ _ _ Hrun) as (r & ->). rewrite kept_id in Hid. rewrite Hn.
  unfold keep_fingerprint. cbn [fst snd is_given]. rewrite Hok, (proj2 (String.eqb_neq _ _) Hid). cbn [negb andb].
  apply set_recorded, fingerprint_of_text.
Qed.

(** C11. The create-only field is guarded for as long as the platform is tracked.  Once a reconcile has succeeded, then
    whatever reconciles, status messages, edits of the spec and changes of the world follow, the drift check answers for the
    workspace name that the first success ran with: it refuses the spec exactly when the fingerprint of its name differs from
    the fingerprint of that name, and names that differ only in surrounding blanks never do. *)
Theorem create_only_drift_detected namespace r0 w0 response r1 w1 r2 w2 :
  aiDataPlatformRecordedDefaultWorkspaceNameFingerprint r0 = None ->
  sc_CreateOrUpdate (wrapAiDataPlatformGeneratedClient get delegate) namespace (r0, w0) = (Ret (response, None), (r1, w1)) ->
  IsSuccessful response = true -> currentAiDataPlatformID r1 <> "" ->
  rtc tracked_step (r1, w1) (r2, w2) ->
  validateAiDataPlatformCreateOnlyDrift r2 =
    (if (desired_fingerprint r2 =? desired_fingerprint r1)%string then None else Some replacement_required) /\
  (TrimSpace (spec_DefaultWorkspaceName (Spec r2)) = TrimSpace (spec_DefaultWorkspaceName (Spec r1)) ->
   validateAiDataPlatformCreateOnlyDrift r2 = None).
Proof.
  intros Hn Hrun Hok Hid Hsteps.
  assert (Hv : validateAiDataPlatformCreateOnlyDrift r2 =
    (if (desired_fingerprint r2 =? desired_fingerprint r1)%string then None else Some replacement_required)).
  { unfold validateAiDataPlatformCreateOnlyDrift.
    pose proof (steps_keep _ _ _ Hsteps (first_success _ _ _ _ _ _ Hn Hrun Hok Hid)) as Hr. cbn [fst] in Hr.
    rewrite Hr. by destruct (_ =? _)%string. }
  split; [done|]. intros Ht. rewrite Hv. unfold desired_fingerprint, fingerprint_of. by rewrite Ht, String.eqb_refl.
Qed.

(** The same fingerprint also survives a reconcile in which the generated runtime finds that the platform is gone and creates
    another one from an edited spec: the new platform is then refused as a change of its own name. *)
Lemma recreated_platform_refused namespace r w answer r' w' old :
  aiDataPlatformRecordedDefaultWorkspaceNameFingerprint r = Some old ->
  sc_CreateOrUpdate (wrapAiDataPlatformGeneratedClient get delegate) namespace (r, w) = (Ret answer, (r', w')) ->
  currentAiDataPlatformID r' <> currentAiDataPlatformID r -> currentAiDataPlatformID r' <> "" -> desired_fingerprint r' <> old ->
  validateAiDataPlatformCreateOnlyDrift r' = Some replacement_required.
Proof.
  intros Hold Hrun _ Hid Hne. unfold validateAiDataPlatformCreateOnlyDrift.
  pose proof (step_keeps old (r, w) (r', w') (step_reconcile _ _ _ _ _ _ Hrun Hid) Hold) as Hr. cbn [fst] in Hr.
  by rewrite Hr, (proj2 (String.eqb_neq _ _) Hne).
Qed.
End Clients.

(** ** Identifiers of work requests *)

(** The identifiers that the resources of a work request give for an action, of platforms only or of all entities. *)
Definition offered_ids (action : string) (preferAiDataPlatformOnly : bool) (resources : list WorkRequestResource) : list string :=
  filter (fun id => id <> "")
    ((fun resource => TrimSpace (stringValue (wrr_Identifier resource))) <$>
     filter (fun resource => ((action =? "")%string || (wrr_ActionType resource =? action)%string) &&
                             (negb preferAiDataPlatformOnly || isAiDataPlatformWorkRequestResource resource) = true) resources).

Lemma offered_cons action prefer resource rest :
  offered_ids action prefer (resource :: rest) =
    (if negb (action =? "")%string && negb (wrr_ActionType resource =? action)%string then offered_ids action prefer rest
     else if prefer && negb (isAiDataPlatformWorkRequestResource resource) then offered_ids action prefer rest
     else let id := TrimSpace (stringValue (wrr_Identifier resource)) in
          if (id =? "")%string then offered_ids action prefer rest else id :: offered_ids action prefer rest).
Proof.
  unfold offered_ids. rewrite filter_cons. cbn zeta.
  destruct (action =? "")%string, (wrr_ActionType resource =? action)%string, prefer,
    (isAiDataPlatformWorkRequestResource resource); cbn; rewrite ?decide_True, ?decide_False by done; try done.
  all: rewrite fmap_cons, filter_cons.
  all: destruct (TrimSpace (stringValue (wrr_Identifier resource)) =? "")%string eqn:E;
    [apply String.eqb_eq in E; by rewrite decide_False by naive_solver|apply String.eqb_neq in E; by rewrite decide_True].
Qed.

Lemma ids_from_spec action prefer resources : forall candidate id,
  id <> "" ->
  ids_from action prefer candidate resources = Some id <->
    (candidate = "" \/ candidate = id) /\ Forall (eq id) (offered_ids action prefer resources) /\
    (candidate = "" -> offered_ids action prefer resources <> []).
Proof.
  induction resources as [|resource rest IH]; intros candidate id Hid.
  - cbn. destruct (candidate =? "")%string eqn:E.
    + apply String.eqb_eq in E as ->. split; [done|]. by intros (_ & _ & []).
    + apply String.eqb_neq in E. split; [intros [= ->]|intros ([-> | ->] & _)]; [|done..]. by split_and!; [right|constructor|].
  - rewrite offered_cons. cbn [ids_from]. cbn zeta.
    destruct (negb (action =? "")%string && _); [by apply IH|]. destruct (prefer && _); [by apply IH|].
    generalize (TrimSpace (stringValue (wrr_Identifier resource))). intros found.
    destruct (found =? "")%string eqn:Ef; [by apply IH|]. apply String.eqb_neq in Ef.
    rewrite Forall_cons. destruct (candidate =? "")%string eqn:Ec; [apply String.eqb_eq in Ec as ->|apply String.eqb_neq in Ec].
    + rewrite IH by done. split.
      * intros ([-> | ->] & Hall & _); [done|]. split_and!; try done. by left.
      * intros (_ & [-> Hall] & _). split_and!; [by right|done|done].
    + destruct (candidate =? found)%string eqn:Em; cbn [negb]; [apply String.eqb_eq in Em as <-|apply String.eqb_neq in Em].
      * rewrite IH by done. split; intros ([-> | ->] & Hall & _); try done; naive_solver.
      * split; [done|]. intros ([-> | ->] & [-> _] & _); done.
Qed.

Lemma ids_from_not_empty action prefer resources : forall candidate id, ids_from action prefer candidate resources = Some id -> id <> "".
Proof.
  induction resources as [|resource rest IH]; intros candidate id; cbn [ids_from].
  - destruct (candidate =? "")%string eqn:E; [done|]. intros [= <-]. by apply String.eqb_neq in E.
  - cbn zeta. repeat (case_match; [try done; apply IH|]). apply IH.
Qed.

(** The identifier of a work request is taken only where there is no choice. *)
Definition sole (ids : list string) (id : string) : Prop := ids <> [] /\ Forall (eq id) ids.

Lemma resolve_sole resources action prefer id :
  resolveAiDataPlatformIDFromResources resources action prefer = Some id <-> id <> "" /\ sole (offered_ids action prefer resources) id.
Proof.
  unfold resolveAiDataPlatformIDFromResources, sole. split.
  - intros Hr. assert (Hid : id <> "") by (by eapply ids_from_not_empty). split; [done|].
    apply ids_from_spec in Hr as (_ & Hall & Hne); [|done]. auto.
  - intros (Hid & Hne & Hall). apply ids_from_spec; [done|]. split_and!; [by left|done|done].
Qed.

Lemma offered_not_empty action prefer resources : Forall (fun id => id <> "") (offered_ids action prefer resources).
Proof. apply Forall_forall. by intros id [Hid _]%list_elem_of_filter. Qed.

Lemma sole_not_empty action prefer resources id : sole (offered_ids action prefer resources) id -> id <> "".
Proof.
  intros [Hne Hall]. pose proof (offered_not_empty action prefer resources) as Hf. destruct (offered_ids action prefer resources); [done|].
  apply Forall_cons in Hall as [-> _]. by apply Forall_cons in Hf as [? _].
Qed.

(** C30. The identifier that a finished work request is completed with is the one all its platform resources with the awaited
    action agree on; only when these name none, or several, all its resources with that action are asked, and then they too
    must agree.  It is never empty, and in every other case the recovery fails. *)
Theorem recovered_id_unambiguous (workRequest : WorkRequest) (phase : OSOKAsyncPhase) (id : string) :
  let action := aiDataPlatformWorkRequestActionForPhase phase in
  let own := offered_ids action true (wr_Resources workRequest) in
  let all := offered_ids action false (wr_Resources workRequest) in
  recoverAiDataPlatformIDFromGeneratedWorkRequest (WorkRequestValue (Some workRequest)) phase = Ok id <->
  id <> "" /\ (sole own id \/ ((forall other, ~ sole own other) /\ sole all id)).
Proof.
  cbn zeta. cbn [recoverAiDataPlatformIDFromGeneratedWorkRequest aiDataPlatformWorkRequestFromAny result_bind].
  unfold resolveAiDataPlatformIDFromWorkRequest.
  generalize (aiDataPlatformWorkRequestActionForPhase phase), (wr_Resources workRequest). intros action resources.
  destruct (resolveAiDataPlatformIDFromResources resources action true) as [found|] eqn:E1.
  - apply resolve_sole in E1 as [Hf [Hne Hall]]. split.
    + intros [= ->]. split; [done|]. by left.
    + intros [Hid [[_ Hall']|[Hno _]]]; [|by destruct (Hno found)].
      destruct (offered_ids action true resources); [done|].
      apply Forall_cons in Hall as [<- _]. by apply Forall_cons in Hall' as [<- _].
  - assert (Hno : forall other, ~ sole (offered_ids action true resources) other).
    { intros other Hs. assert (resolveAiDataPlatformIDFromResources resources action true = Some other) as Hr;
        [apply resolve_sole; split; [by eapply sole_not_empty|done]|congruence]. }
    destruct (resolveAiDataPlatformIDFromResources resources action false) as [found|] eqn:E2.
    + apply resolve_sole in E2 as [Hf [Hne Hall]]. split.
      * intros [= ->]. split; [done|]. by right.
      * intros [Hid [Hs|[_ [_ Hall']]]]; [by destruct (Hno id)|]. destruct (offered_ids action false resources); [done|].
        apply Forall_cons in Hall as [<- _]. by apply Forall_cons in Hall' as [<- _].
    + split; [done|]. intros [Hid [Hs|[_ Hs]]]; [by destruct (Hno id)|].
      assert (resolveAiDataPlatformIDFromResources resources action false = Some id) as Hr; [by apply resolve_sole|congruence].
Qed.

(** ** Updates settle *)

(** The service stores the fields of an update and keeps the others. *)
Record update_stored (details : UpdateAiDataPlatformDetails) (current next : SdkAiDataPlatform) : Prop := {
  stored_DisplayName : stored (ud_DisplayName details) (sdk_DisplayName current) (sdk_DisplayName next);
  stored_AiDataPlatformType : stored (ud_AiDataPlatformType details) (sdk_AiDataPlatformType current) (sdk_AiDataPlatformType next);
  stored_FreeformTags : stored (ud_FreeformTags details) (sdk_FreeformTags current) (sdk_FreeformTags next);
  stored_DefinedTags : stored (ud_DefinedTags details) (sdk_DefinedTags current) (sdk_DefinedTags next);
  stored_SystemTags : stored (ud_SystemTags details) (sdk_SystemTags current) (sdk_SystemTags next)
}.

Lemma name_settled desired current next :
  stored (desiredAiDataPlatformStringUpdate desired (stringValue current)) current next ->
  desiredAiDataPlatformStringUpdate desired (stringValue next) = None.
Proof.
  unfold desiredAiDataPlatformStringUpdate. cbn zeta. destruct (TrimSpace desired =? "")%string eqn:E; [done|]. cbn [orb].
  destruct (TrimSpace desired =? TrimSpace (stringValue current))%string eqn:Ec; cbn [stored]; intros ->; [by rewrite Ec|].
  change (stringValue (Some (TrimSpace desired))) with (TrimSpace desired). by rewrite TrimSpace_idem, String.eqb_refl.
Qed.

Lemma platform_freeform_settled desired current next :
  stored (desiredAiDataPlatformFreeformTagsUpdate desired current) current next ->
  desiredAiDataPlatformFreeformTagsUpdate desired next = None.
Proof.
  unfold desiredAiDataPlatformFreeformTagsUpdate. destruct desired as [tags|]; [|done].
  case_bool_decide as Hc; cbn; intros ->; [by rewrite bool_decide_eq_true_2|]. by rewrite bool_decide_eq_true_2.
Qed.

(** What the service stores of a spec's tags is projected back to them. *)
Lemma converted_tags tags : statusTagsFromSDK (Some (ConvertToOciDefinedTags tags)) = Some (Some <$> tags : StatusTags).
Proof.
  unfold statusTagsFromSDK, ConvertToOciDefinedTags. cbn. f_equal. rewrite <-map_fmap_compose. apply map_fmap_ext.
  intros namespace values _. cbn. f_equal. rewrite <-map_fmap_compose. rewrite <-(map_fmap_id values) at 2. by apply map_fmap_ext.
Qed.

Lemma platform_defined_settled desired current next :
  stored (desiredAiDataPlatformDefinedTagsUpdate desired (statusTagsFromSDK current)) current next ->
  desiredAiDataPlatformDefinedTagsUpdate desired (statusTagsFromSDK next) = None.
Proof.
  unfold desiredAiDataPlatformDefinedTagsUpdate. destruct desired as [tags|]; [|done].
  case_bool_decide as Hc; cbn [stored]; intros ->; [by rewrite bool_decide_eq_true_2|].
  by rewrite converted_tags, bool_decide_eq_true_2.
Qed.

(** An update request as the runtime makes it: the body where one is needed; the identifier is that of the tracked resource. *)
Definition update_request (resource : AiDataPlatformResource) (current : SdkAiDataPlatform)
  : result (option (string * UpdateAiDataPlatformDetails)) GoError :=
  try built := buildAiDataPlatformUpdateBody resource (GetResponse current) in
  Ok (if snd built : bool then Some (currentAiDataPlatformID resource, fst built) else None).

#[export, refine] Instance AiDataPlatform_updates : UpdateProtocol AiDataPlatformResource SdkAiDataPlatform UpdateAiDataPlatformDetails := {|
  up_build := update_request; up_stored := update_stored; up_observable _ := True; up_settles := _
|}.
Proof.
  intros resource current next id details _ _. unfold update_request, buildAiDataPlatformUpdateBody. cbn [aiDataPlatformProjectionFromResponse
    dereferenceAiDataPlatformRuntimeBody result_bind fst snd].
  destruct (update_needed _); [|done]. intros [= <- <-] [H1 H2 H3 H4 H5]. cbn in H1, H2, H3, H4, H5.
  unfold update_needed, update_body. cbn [ud_DisplayName ud_AiDataPlatformType ud_FreeformTags ud_DefinedTags ud_SystemTags].
  unfold aiDataPlatformProjectionFromSDK.
  cbn [pr_DisplayName pr_AiDataPlatformType pr_FreeformTags pr_DefinedTags pr_SystemTags].
  rewrite (name_settled _ _ _ H1), (name_settled _ _ _ H2), (platform_freeform_settled _ _ _ H3).
  by rewrite (platform_defined_settled _ _ _ H4), (platform_defined_settled _ _ _ H5).
Defined.

(** An update of a platform that was stored is not asked for again. *)
Theorem aidataplatform_updates_settle : settles update_request update_stored (fun _ => True).
Proof. intros spec current next id details. by apply (up_settles (UpdateProtocol := AiDataPlatform_updates)). Qed.

(** ** The guards of the generated client *)

(** What [applyAiDataPlatformRuntimeHooks] does to the configuration as far as deletes are concerned: the semantics, the fields of
    Get, the guarded read and the delete error hook; [address] is where the guarded operation is allocated. *)
Definition applyAiDataPlatformGuards {W} (address : nat) (c : Config W) : Config W :=
  let get := match Get c with
             | Some op => Some (mkOperation (op_address op) (NewRequest op) (Call op) aiDataPlatformGetFields)
             | None => None
             end in
  guardedConfig aiDataPlatformGuardTexts address
    (mkConfig (Kind c) (SDKName c) (Credentials c) (InitError c) (Some newAiDataPlatformRuntimeSemantics) (BuildCreateBody c)
       (BuildUpdateBody c) (Identity c) (Read_Get c) (Read_List c) (ClearTrackedIdentity c) (cfg_StatusHooks c) (cfg_ParityHooks c)
       (cfg_Async c) (cfg_DeleteHooks c) (Create c) get (Runtime.List c) (cfg_Update c) (Delete c)).

Lemma aidataplatform_refuses {W} `{Env} address (c : Config W) get :
  Get c = Some get -> Call get <> None -> at_address (Create c) address = false -> at_address (cfg_Update c) address = false ->
  RefusesAmbiguous (applyAiDataPlatformGuards address c) /\
  cfg_Semantics (applyAiDataPlatformGuards address c) = Some newAiDataPlatformRuntimeSemantics.
Proof.
  intros Hget Hcall Hc Hu. split; [|done]. unfold applyAiDataPlatformGuards. rewrite Hget. cbn zeta.
  eapply guarded_refuses; [reflexivity|done| |done|done]. split; [done|]. by repeat constructor.
Qed.

(** ** Witnesses *)

Definition ex_spec (name : string) : AiDataPlatformSpec := mkSpec "ocid1.compartment" "lake" "" name None None None.
Definition ex_status (id : string) : AiDataPlatformStatus := mkStatus emptyStatus id "" "" "" "" "" None None "" "" "" "" "" None.
Definition ex_new (name : string) : AiDataPlatformResource := mkResource (ex_spec name) (ex_status "").

(** A generated client that tracks the given platform and reports it as active. *)
Definition ex_delegate (id : string) : SvcClient AiDataPlatformResource unit :=
  mkSvcClient
    (fun _ =>
       on_resource (fun r => with_osok (set_Message "OCI resource is active") (mkResource (Spec r) (ex_status id))) ;;;
       st_ret (mkResponse true false 0%Z, None))
    (st_ret (true, None)).

Definition ex_get_sdk (answer : result SdkAiDataPlatform GoError) : string -> ST unit (result SdkAiDataPlatform GoError) := fun _ => st_ret answer.

Definition ex_tracked (name : string) : AiDataPlatformResource :=
  fst (snd (sc_CreateOrUpdate (wrapAiDataPlatformGeneratedClient (ex_get_sdk (Err ex_auth_shaped)) (ex_delegate "ocid1.a")) "ns" (ex_new name, tt))).

Lemma create_only_drift_detected_witness :
  validateAiDataPlatformCreateOnlyDrift (mkResource (ex_spec "other") (Status (ex_tracked "main"))) = Some replacement_required /\
  validateAiDataPlatformCreateOnlyDrift (mkResource (ex_spec " main ") (Status (ex_tracked "main"))) = None.
Proof.
  pose proof (create_only_drift_detected (ex_get_sdk (Err ex_auth_shaped)) (ex_delegate "ocid1.a") "ns" (ex_new "main") tt
    (mkResponse true false 0%Z) (ex_tracked "main") tt) as Hdrift.
  split.
  - destruct (Hdrift (mkResource (ex_spec "other") (Status (ex_tracked "main"))) tt) as [Hv _].
    + vm_compute. reflexivity.
    + vm_compute. reflexivity.
    + reflexivity.
    + vm_compute. discriminate.
    + apply rtc_once, step_edit.
    + rewrite Hv. vm_compute. reflexivity.
  - destruct (Hdrift (mkResource (ex_spec " main ") (Status (ex_tracked "main"))) tt) as [_ Hv].
    + vm_compute. reflexivity.
    + vm_compute. reflexivity.
    + reflexivity.
    + vm_compute. discriminate.
    + apply rtc_once, step_edit.
    + apply Hv. vm_compute. reflexivity.
Defined.

Lemma confirm_read_guards_delete_witness :
  sc_Delete (deleteConfirmationClient aiDataPlatformGuardTexts currentAiDataPlatformID (Some (ex_get_sdk (Err ex_auth_shaped)))
               (Some (ex_delegate "ocid1.a"))) (ex_tracked "main", tt) =
    (Ret (false, Some (ambiguousNotFoundError (gt_ErrorType aiDataPlatformGuardTexts) (gt_Confirm aiDataPlatformGuardTexts) "req2")),
     (record_error_id ex_auth_shaped (ex_tracked "main"), tt)).
Proof.
  refine (proj1 (confirm_read_guards_delete aiDataPlatformGuardTexts currentAiDataPlatformID _ (ex_delegate "ocid1.a") _ eq_refl)
            (ex_tracked "main") tt ex_auth_shaped tt _ _ _).
  - vm_compute. discriminate.
  - reflexivity.
  - reflexivity.
Defined.
