(* ===== verification/MutabilityJoin.v ===== *)
(** * Joining documented fields with generated fields

    [internal/generator/mutability_overlay_join.go] and the merge decision of
    [internal/generator/mutability_overlay.go].  The generator decides which spec fields may be updated in
    place from two sources: the mutation paths of the formal model and the Terraform documentation.  Both
    name fields by paths in spellings of their own.  Here: the tree of the generated spec fields, the
    resolution of a path against it, the comparison of one path of the formal model with the documented
    rows, and the decision.  The kinds of a field are the four constants of the source.  [sort.Slice] does
    not say how it orders equal elements; the sorts here keep their order. *)

From stdpp Require Import gmap sorting.
From Stdlib Require Import Ascii String.
From S2P Require Import Prelude GoStrings GoErrors JsonValues Sorting AuthConfig GeneratorNames GeneratorSemantics.
Local Open Scope string_scope.
Local Open Scope list_scope.

(** ** Strings *)

(** [strings.ReplaceAll] with an empty replacement; [skip] bytes of the last occurrence are still to be dropped. *)
Fixpoint remove_all (old : string) (skip : nat) (s : string) : string :=
  match s with
  | EmptyString => EmptyString
  | String c s' =>
      match skip with
      | S skip => remove_all old skip s'
      | O => if HasPrefix s old then remove_all old (String.length old - 1) s' else String c (remove_all old 0 s')
      end
  end.
Definition RemoveAll (s old : string) : string := remove_all old 0 s.

Definition TrimPrefix (s p : string) : string :=
  if HasPrefix s p then String.substring (String.length p) (String.length s - String.length p) s else s.

Definition uniqueSortedStrings (values : list string) : list string := normal_list (map TrimSpace values).

(** ** Models of the generator *)

Record FieldModel := mkFieldModel { fd_Name : string; fd_Type : string; fd_Tag : string }.
Record TypeModel := mkTypeModel { ty_Name : string; ty_Fields : list FieldModel }.

Definition tagJSONName (tag : string) : string :=
  match Split tag dquote with
  | _ :: part :: _ => match Split part "," with name :: _ => name | [] => "" end
  | _ => ""
  end.

Fixpoint underlying_type (fuel : nat) (typeExpr : string) : string :=
  let trimmed := TrimSpace typeExpr in
  match fuel with
  | 0 => trimmed
  | S fuel =>
      if (trimmed =? "")%string then ""
      else if HasPrefix trimmed "*" then underlying_type fuel (TrimPrefix trimmed "*")
      else if HasPrefix trimmed "[]" then underlying_type fuel (TrimPrefix trimmed "[]")
      else if HasPrefix trimmed "map[string]" then underlying_type fuel (TrimPrefix trimmed "map[string]")
      else trimmed
  end.
(** Every prefix that is cut off makes the text shorter. *)
Definition underlyingTypeName (typeExpr : string) : string := underlying_type (S (String.length typeExpr)) typeExpr.

(** ** The tree of the spec fields *)

Inductive mutabilityOverlayFieldKind := KindScalar | KindObject | KindList | KindMap.
#[export] Instance kind_eq_dec : EqDecision mutabilityOverlayFieldKind.
Proof. solve_decision. Defined.

Inductive mutabilityOverlayFieldNode :=
  mkNode (name : string) (k : mutabilityOverlayFieldKind) (nested : list mutabilityOverlayFieldNode).
Abbreviation FieldNode := mutabilityOverlayFieldNode.
Definition jsonName (field : FieldNode) : string := let 'mkNode name _ _ := field in name.
Definition kind (field : FieldNode) : mutabilityOverlayFieldKind := let 'mkNode _ k _ := field in k.
Definition children (field : FieldNode) : list FieldNode := let 'mkNode _ _ nested := field in nested.

Definition node_name (field : FieldModel) : string :=
  let name := tagJSONName (fd_Tag field) in
  TrimSpace (if (name =? "")%string then gen_lowerCamel (fd_Name field) else name).

Definition node_leb (a b : FieldNode) : bool := String.leb (jsonName a) (jsonName b).

(** One field; [nodes_of] builds the children of a helper type. *)
Definition field_node (helperIndex : gmap string TypeModel) (nodes_of : TypeModel -> option (list FieldNode)) (field : FieldModel)
  : option FieldNode :=
  let name := node_name field in
  let trimmedType := TrimSpace (fd_Type field) in
  let helper := helperIndex !! underlyingTypeName trimmedType in
  if HasPrefix trimmedType "[]" then
    match helper with
    | Some helper => mkNode name KindList <$> nodes_of helper
    | None => Some (mkNode name KindList [])
    end
  else if HasPrefix trimmedType "map[string]" then Some (mkNode name KindMap [])
  else
    match helper with
    | Some helper => mkNode name KindObject <$> nodes_of helper
    | None => Some (mkNode name KindScalar [])
    end.

(** [None] says that the fuel was not enough; [seen] are the helper types that the branch is inside of. *)
Fixpoint buildMutabilityOverlayFieldNodes (fuel : nat) (helperIndex : gmap string TypeModel) (seen : gset string)
  (fields : list FieldModel) : option (list FieldNode) :=
  let buildMutabilityOverlayHelperChildren helper :=
    if bool_decide (ty_Name helper ∈ seen) then Some []
    else match fuel with
         | 0 => None
         | S fuel => buildMutabilityOverlayFieldNodes fuel helperIndex ({[ty_Name helper]} ∪ seen) (ty_Fields helper)
         end in
  nodes ← mapM (field_node helperIndex buildMutabilityOverlayHelperChildren)
            (List.filter (fun field => negb (node_name field =? "")%string) fields);
  Some (sort_by node_leb nodes).

(** A later helper type of the same name replaces an earlier one. *)
Definition helper_index (helperTypes : list TypeModel) : gmap string TypeModel :=
  fold_left (fun index helper => <[ty_Name helper := helper]> index) helperTypes ∅.

Definition newMutabilityOverlayPathResolver (specFields : list FieldModel) (helperTypes : list TypeModel) : list FieldNode :=
  let helperIndex := helper_index helperTypes in
  default [] (buildMutabilityOverlayFieldNodes (size helperIndex) helperIndex ∅ specFields).

(** ** Path tokens *)

Record mutabilityOverlayPathToken := mkToken { tok_raw : string; tok_key : string; tok_listItem : bool; tok_wildcard : bool }.
Abbreviation PathToken := mutabilityOverlayPathToken.

Definition mutabilityOverlayPathSegmentKey (value : string) : string :=
  ToLower (RemoveAll (RemoveAll (RemoveAll (TrimSuffix (TrimSpace value) "[]") "_") "-") " ").
Abbreviation segmentKey := mutabilityOverlayPathSegmentKey.

Definition parse_segment (fieldPath part : string) : result PathToken string :=
  let part := TrimSpace part in
  if (part =? "")%string then Err ("field path " +++ Quote fieldPath +++ " contains a blank segment")
  else if (part =? "*")%string then Ok (mkToken part "" false true)
  else
    let listItem := HasSuffix part "[]" in
    let part := TrimSpace (if listItem then TrimSuffix part "[]" else part) in
    if (part =? "")%string then Err ("field path " +++ Quote fieldPath +++ " contains an empty list segment")
    else if (segmentKey part =? "")%string
    then Err ("field path " +++ Quote fieldPath +++ " contains an invalid segment " +++ Quote part)
    else Ok (mkToken part (segmentKey part) listItem false).

Fixpoint parse_segments (fieldPath : string) (parts : list string) : result (list PathToken) string :=
  match parts with
  | [] => Ok []
  | part :: parts =>
      match parse_segment fieldPath part with
      | Err e => Err e
      | Ok token => match parse_segments fieldPath parts with Err e => Err e | Ok tokens => Ok (token :: tokens) end
      end
  end.

Definition parseMutabilityOverlayPathTokens (fieldPath : string) : result (list PathToken) string :=
  let fieldPath := TrimSpace fieldPath in
  if (fieldPath =? "")%string then Err "field path must not be empty" else parse_segments fieldPath (Split fieldPath ".").

(** ** Resolution *)

Record mutabilityOverlayCanonicalFieldPath := mkCanonical { CanonicalJoinKey : string; PathShape : string }.
Abbreviation CanonicalFieldPath := mutabilityOverlayCanonicalFieldPath.
#[export] Instance canonical_eq_dec : EqDecision CanonicalFieldPath.
Proof. solve_decision. Defined.

Definition mutabilityOverlayPathShapeScalar := "scalar".
Definition mutabilityOverlayPathShapeObject := "object".
Definition mutabilityOverlayPathShapeListItem := "listItem".
Definition mutabilityOverlayPathShapeMapEntry := "mapEntry".
Definition mutabilityOverlayPathShapeUnsupported := "unsupported".

Definition mutabilityOverlayJoinMatched := "matched".
Definition mutabilityOverlayJoinUnresolved := "unresolved".
Definition mutabilityOverlayJoinAmbiguous := "ambiguous".

(** The first segment that is an entry or an element decides. *)
Fixpoint segment_shape (segments : list string) : option string :=
  match segments with
  | [] => None
  | segment :: rest =>
      if (segment =? "*")%string then Some mutabilityOverlayPathShapeMapEntry
      else if HasSuffix segment "[]" then Some mutabilityOverlayPathShapeListItem
      else segment_shape rest
  end.
Definition inferMutabilityOverlayPathShape (segments : list string) (terminalKind : mutabilityOverlayFieldKind) : string :=
  match segment_shape segments with
  | Some shape => shape
  | None => if (1 <? length segments)%nat || bool_decide (terminalKind = KindObject) then mutabilityOverlayPathShapeObject
            else mutabilityOverlayPathShapeScalar
  end.

Definition newMutabilityOverlayCanonicalFieldPath (segments : list string) (terminalKind : mutabilityOverlayFieldKind)
  : CanonicalFieldPath := mkCanonical (Join segments ".") (inferMutabilityOverlayPathShape segments terminalKind).

(** [matches]: an exact match, and a match of a list by its singular. *)
Definition node_matches (field : FieldNode) (token : PathToken) : bool * bool :=
  if tok_wildcard token || (tok_key token =? "")%string then (false, false)
  else if (tok_key token =? segmentKey (jsonName field))%string
  then (negb (tok_listItem token && negb (bool_decide (kind field = KindList))), false)
  else if bool_decide (kind field = KindList) && (tok_key token =? segmentKey (singularize (jsonName field)))%string
  then (true, true) else (false, false).

Abbreviation Found := (list CanonicalFieldPath * list string)%type.
Definition not_a_list (field : FieldNode) : Found := ([], ["field " +++ Quote (jsonName field) +++ " is not a list"]).

(** One selected field; [resolve_nested] resolves the remaining tokens below it. *)
Definition resolveMutabilityOverlayFieldNode (resolve_nested : list FieldNode -> list string -> Found) (field : FieldNode)
  (token : PathToken) (remaining : list PathToken) (prefix : list string) (singularAlias : bool) : Found :=
  let current := prefix ++ [jsonName field] in
  let found segments : Found := ([newMutabilityOverlayCanonicalFieldPath segments (kind field)], []) in
  match kind field with
  | KindScalar =>
      if tok_listItem token then not_a_list field
      else match remaining with
           | next :: _ => ([], ["field " +++ Quote (jsonName field) +++ " does not expose nested path " +++ Quote (tok_raw next)])
           | [] => found current
           end
  | KindObject =>
      if tok_listItem token then not_a_list field
      else match remaining with [] => found current | _ => resolve_nested (children field) current end
  | KindList =>
      let element := prefix ++ [jsonName field +++ "[]"] in
      match remaining with
      | [] => if tok_listItem token || singularAlias then found element else found current
      | next :: _ =>
          match children field with
          | [] => ([], ["list field " +++ Quote (jsonName field) +++ " does not expose nested path " +++ Quote (tok_raw next)])
          | nested => resolve_nested nested element
          end
      end
  | KindMap =>
      if tok_listItem token then not_a_list field
      else match remaining with
           | [] => found current
           | [next] => if tok_wildcard next then found (current ++ ["*"])
                       else ([], ["map field " +++ Quote (jsonName field) +++ " only supports a terminal .* path"])
           | _ => ([], ["map field " +++ Quote (jsonName field) +++ " only supports a terminal .* path"])
           end
  end.

Definition location (prefix : list string) : string := match prefix with [] => "<root>" | _ => Join prefix "." end.

(** The fields that a token selects: the exact matches, or else the lists it names by their singular. *)
Definition selected_matches (fields : list FieldNode) (token : PathToken) : list (FieldNode * bool) :=
  let exactMatches := List.filter (fun field => fst (node_matches field token) && negb (snd (node_matches field token))) fields in
  let aliasMatches := List.filter (fun field => snd (node_matches field token)) fields in
  match exactMatches with [] => map (fun field => (field, true)) aliasMatches | _ => map (fun field => (field, false)) exactMatches end.

Definition join_found (found : list Found) : Found := (concat (map fst found), concat (map snd found)).

Fixpoint resolveMutabilityOverlayFieldPath (tokens : list PathToken) (fields : list FieldNode) (prefix : list string) : Found :=
  match tokens with
  | [] => ([], ["no field-path tokens were provided"])
  | token :: remaining =>
      if tok_wildcard token then ([], ["unexpected wildcard under " +++ location prefix])
      else match selected_matches fields token with
           | [] => ([], ["segment " +++ Quote (tok_raw token) +++ " did not match any generated field under " +++ location prefix])
           | selected =>
               join_found (map (fun '(field, singular) =>
                 resolveMutabilityOverlayFieldNode (resolveMutabilityOverlayFieldPath remaining) field token remaining prefix singular)
                 selected)
           end
  end.

Definition canonical_leb (a b : CanonicalFieldPath) : bool :=
  if (CanonicalJoinKey a =? CanonicalJoinKey b)%string then String.leb (PathShape a) (PathShape b)
  else String.leb (CanonicalJoinKey a) (CanonicalJoinKey b).

Fixpoint distinct_paths (seen paths : list CanonicalFieldPath) : list CanonicalFieldPath :=
  match paths with
  | [] => []
  | path :: rest =>
      if blank (CanonicalJoinKey path) then distinct_paths seen rest
      else if bool_decide (path ∈ seen) then distinct_paths seen rest
      else path :: distinct_paths (path :: seen) rest
  end.
Definition dedupeMutabilityOverlayCanonicalFieldPaths (paths : list CanonicalFieldPath) : list CanonicalFieldPath :=
  sort_by canonical_leb (distinct_paths [] paths).

Record mutabilityOverlayPathResolution := mkResolution {
  res_FieldPath : string;
  res_Status : string;
  res_Candidates : list CanonicalFieldPath;
  res_Diagnostics : list string
}.
Abbreviation PathResolution := mutabilityOverlayPathResolution.

Definition Resolve (fields : list FieldNode) (fieldPath : string) : PathResolution :=
  let path := TrimSpace fieldPath in
  match parseMutabilityOverlayPathTokens fieldPath with
  | Err e => mkResolution path mutabilityOverlayJoinUnresolved [] [e]
  | Ok tokens =>
      let found := resolveMutabilityOverlayFieldPath tokens fields [] in
      let candidates := dedupeMutabilityOverlayCanonicalFieldPaths (fst found) in
      let diagnostics := uniqueSortedStrings (snd found) in
      match candidates with
      | [] => mkResolution path mutabilityOverlayJoinUnresolved candidates diagnostics
      | [_] => mkResolution path mutabilityOverlayJoinMatched candidates diagnostics
      | _ =>
          mkResolution path mutabilityOverlayJoinAmbiguous candidates
            (uniqueSortedStrings (diagnostics ++ ["path " +++ Quote path +++ " matched multiple canonical join keys: " +++
                                                  Join (map CanonicalJoinKey candidates) ", "]))
      end
  end.

(** ** The merge decision *)

Definition mutabilityOverlayASTStateUpdateCandidate := "updateCandidate".
Definition mutabilityOverlayASTStateNotUpdateCandidate := "notUpdateCandidate".

Definition mutabilityOverlayDocsStateConfirmedUpdatable := "confirmedUpdatable".
Definition mutabilityOverlayDocsStateDeniedUpdatable := "deniedUpdatable".
Definition mutabilityOverlayDocsStateReplacementRequired := "replacementRequired".
Definition mutabilityOverlayDocsStateUnknown := "unknown".
Definition mutabilityOverlayDocsStateNotDocumented := "notDocumented".
Definition mutabilityOverlayDocsStateAmbiguous := "ambiguous".
Definition mutabilityOverlayDocsStateUnsupported := "unsupported".

Definition mutabilityOverlayMergeCaseASTOnlyCandidate := "astOnlyCandidate".
Definition mutabilityOverlayMergeCaseDocsConfirmedCandidate := "docsConfirmedCandidate".
Definition mutabilityOverlayMergeCaseDocsDeniedCandidate := "docsDeniedCandidate".
Definition mutabilityOverlayMergeCaseReplacementRequired := "replacementRequired".
Definition mutabilityOverlayMergeCaseUnknown := "unknown".
Definition mutabilityOverlayMergeCaseUnresolvedJoin := "unresolvedJoin".

Definition mutabilityOverlayPolicyAllowInPlaceUpdate := "allowInPlaceUpdate".
Definition mutabilityOverlayPolicyDenyInPlaceUpdate := "denyInPlaceUpdate".
Definition mutabilityOverlayPolicyReplacementRequired := "replacementRequired".
Definition mutabilityOverlayPolicyUnknown := "unknown".

Record mutabilityOverlayMergeResult := mkMerge { mr_JoinStatus : string; MergeCase : string; FinalPolicy : string }.
#[export] Instance merge_eq_dec : EqDecision mutabilityOverlayMergeResult.
Proof. solve_decision. Defined.

Definition resolveMutabilityOverlayDecision (astCandidateState : string) (forceNew : bool) (docsEvidenceState joinStatus : string)
  : mutabilityOverlayMergeResult :=
  if forceNew || (docsEvidenceState =? mutabilityOverlayDocsStateReplacementRequired)%string
  then mkMerge joinStatus mutabilityOverlayMergeCaseReplacementRequired mutabilityOverlayPolicyReplacementRequired
  else if negb (astCandidateState =? mutabilityOverlayASTStateUpdateCandidate)%string
  then mkMerge joinStatus mutabilityOverlayMergeCaseUnknown mutabilityOverlayPolicyDenyInPlaceUpdate
  else if negb (joinStatus =? mutabilityOverlayJoinMatched)%string
  then mkMerge joinStatus mutabilityOverlayMergeCaseUnresolvedJoin mutabilityOverlayPolicyUnknown
  else if (docsEvidenceState =? mutabilityOverlayDocsStateConfirmedUpdatable)%string
  then mkMerge joinStatus mutabilityOverlayMergeCaseDocsConfirmedCandidate mutabilityOverlayPolicyAllowInPlaceUpdate
  else if (docsEvidenceState =? mutabilityOverlayDocsStateDeniedUpdatable)%string
  then mkMerge joinStatus mutabilityOverlayMergeCaseDocsDeniedCandidate mutabilityOverlayPolicyDenyInPlaceUpdate
  else if (docsEvidenceState =? mutabilityOverlayDocsStateNotDocumented)%string
  then mkMerge joinStatus mutabilityOverlayMergeCaseASTOnlyCandidate mutabilityOverlayPolicyUnknown
  else mkMerge joinStatus mutabilityOverlayMergeCaseUnknown mutabilityOverlayPolicyUnknown.

(** ** Comparison with the documented rows *)

Record mutabilityOverlayDocsEvidenceInput := mkEvidenceInput {
  in_FieldPath : string; in_EvidenceState : string; in_Detail : string; in_RawSignal : string
}.

Record mutabilityOverlayDocsEvidenceComparison := mkDocComparison {
  dc_FieldPath : string;
  dc_EvidenceState : string;
  dc_Detail : string;
  dc_RawSignal : string;
  dc_Resolution : PathResolution
}.
Abbreviation DocComparison := mutabilityOverlayDocsEvidenceComparison.

Record mutabilityOverlayFieldComparisonInput := mkComparisonInput {
  ci_ASTFieldPath : string; ci_ASTState : string; ci_ForceNew : bool; ci_DocsEvidence : list mutabilityOverlayDocsEvidenceInput
}.

Record mutabilityOverlayFieldComparison := mkComparison {
  cmp_ASTFieldPath : string;
  cmp_ASTResolution : PathResolution;
  cmp_TerraformFieldPath : string;
  cmp_TerraformResolution : PathResolution;
  cmp_JoinStatus : string;
  cmp_CandidateDocs : list DocComparison;
  cmp_Diagnostics : list string;
  cmp_Merge : mutabilityOverlayMergeResult
}.

Definition mutabilityOverlayJoinFamilyKey (joinKey : string) : string := RemoveAll (RemoveAll joinKey "[]") ".*".

Definition has_status (doc : DocComparison) (status : string) : bool := (res_Status (dc_Resolution doc) =? status)%string.

Definition relevantMutabilityOverlayDocsForAmbiguousAST (astResolution : PathResolution) (docs : list DocComparison)
  : list DocComparison :=
  List.filter (fun doc => existsb (fun candidate => existsb (fun astCandidate =>
      (CanonicalJoinKey candidate =? CanonicalJoinKey astCandidate)%string ||
      (mutabilityOverlayJoinFamilyKey (CanonicalJoinKey candidate) =?
       mutabilityOverlayJoinFamilyKey (CanonicalJoinKey astCandidate))%string)
    (res_Candidates astResolution)) (res_Candidates (dc_Resolution doc))) docs.

(** The only candidate of a document row that is matched. *)
Definition sole_key (doc : DocComparison) : option string :=
  if has_status doc mutabilityOverlayJoinMatched
  then match res_Candidates (dc_Resolution doc) with [candidate] => Some (CanonicalJoinKey candidate) | _ => None end
  else None.

Definition matchedMutabilityOverlayDocsByCanonicalKey (docs : list DocComparison) (joinKey : string) : list DocComparison :=
  List.filter (fun doc => match sole_key doc with Some key => (key =? joinKey)%string | None => false end) docs.

Definition ambiguousMutabilityOverlayDocsByCanonicalKey (docs : list DocComparison) (joinKey : string) : list DocComparison :=
  List.filter (fun doc => has_status doc mutabilityOverlayJoinAmbiguous &&
    existsb (fun candidate => (CanonicalJoinKey candidate =? joinKey)%string) (res_Candidates (dc_Resolution doc))) docs.

Definition related_key (joinKey familyKey key : string) : bool :=
  negb (key =? joinKey)%string && (mutabilityOverlayJoinFamilyKey key =? familyKey)%string.

Definition relatedMutabilityOverlayDocsByFamilyKey (docs : list DocComparison) (joinKey familyKey : string) : list DocComparison :=
  List.filter (fun doc => match sole_key doc with Some key => related_key joinKey familyKey key | None => false end) docs.

Definition ambiguousMutabilityOverlayDocsByFamilyKey (docs : list DocComparison) (joinKey familyKey : string) : list DocComparison :=
  List.filter (fun doc => has_status doc mutabilityOverlayJoinAmbiguous &&
    existsb (fun candidate => related_key joinKey familyKey (CanonicalJoinKey candidate)) (res_Candidates (dc_Resolution doc))) docs.

Definition noResolution : PathResolution := mkResolution "" "" [] [].

Definition compare_doc (fields : list FieldNode) (evidence : mutabilityOverlayDocsEvidenceInput) : DocComparison :=
  mkDocComparison (TrimSpace (in_FieldPath evidence)) (TrimSpace (in_EvidenceState evidence)) (TrimSpace (in_Detail evidence))
    (TrimSpace (in_RawSignal evidence)) (Resolve fields (in_FieldPath evidence)).

(** What the switches of [Compare] choose: the join status, the documented rows and the field path with its
    resolution, the evidence of the decision, and the diagnostic of the case. *)
Record Choice := mkChoice {
  ch_Status : string;
  ch_Docs : list DocComparison;
  ch_Terraform : string * PathResolution;
  ch_Evidence : string;
  ch_Diagnostics : list string
}.

Definition compare_matched (docs : list DocComparison) (astPath : string) (astResolution : PathResolution) (joinKey : string) : Choice :=
  let nothing := ("", noResolution) in
  let exactMatched := matchedMutabilityOverlayDocsByCanonicalKey docs joinKey in
  let exactAmbiguous := ambiguousMutabilityOverlayDocsByCanonicalKey docs joinKey in
  match exactMatched, exactAmbiguous with
  | [selected], [] =>
      mkChoice mutabilityOverlayJoinMatched [selected] (dc_FieldPath selected, dc_Resolution selected) (dc_EvidenceState selected) []
  | [], [] =>
      let familyKey := mutabilityOverlayJoinFamilyKey joinKey in
      let relatedMatched := relatedMutabilityOverlayDocsByFamilyKey docs joinKey familyKey in
      let relatedAmbiguous := ambiguousMutabilityOverlayDocsByFamilyKey docs joinKey familyKey in
      match relatedMatched, relatedAmbiguous with
      | [selected], [] =>
          mkChoice mutabilityOverlayJoinUnresolved [selected] (dc_FieldPath selected, dc_Resolution selected) (dc_EvidenceState selected)
            ["AST canonical join key " +++ Quote joinKey +++ " had no exact docs match; related docs key " +++
             Quote (default "" (sole_key selected)) +++ " stays unresolved"]
      | [], [] =>
          mkChoice mutabilityOverlayJoinMatched [] (astPath, astResolution) mutabilityOverlayDocsStateNotDocumented []
      | _, _ =>
          mkChoice mutabilityOverlayJoinAmbiguous (relatedMatched ++ relatedAmbiguous) nothing mutabilityOverlayDocsStateUnknown
            ["AST canonical join key " +++ Quote joinKey +++ " had multiple related docs paths"]
      end
  | _, _ =>
      mkChoice mutabilityOverlayJoinAmbiguous (exactMatched ++ exactAmbiguous) nothing mutabilityOverlayDocsStateUnknown
        ["AST canonical join key " +++ Quote joinKey +++ " matched multiple docs paths"]
  end.

Definition Compare (fields : list FieldNode) (input : mutabilityOverlayFieldComparisonInput) : mutabilityOverlayFieldComparison :=
  let astPath := TrimSpace (ci_ASTFieldPath input) in
  let astResolution := Resolve fields (ci_ASTFieldPath input) in
  let docs := map (compare_doc fields) (ci_DocsEvidence input) in
  let decide := resolveMutabilityOverlayDecision (ci_ASTState input) (ci_ForceNew input) in
  match (res_Status astResolution =? mutabilityOverlayJoinMatched)%string, res_Candidates astResolution with
  | true, astCanonical :: _ =>
      let choice := compare_matched docs astPath astResolution (CanonicalJoinKey astCanonical) in
      mkComparison astPath astResolution (fst (ch_Terraform choice)) (snd (ch_Terraform choice)) (ch_Status choice) (ch_Docs choice)
        (uniqueSortedStrings (res_Diagnostics astResolution ++ ch_Diagnostics choice ++
                              concat (map (fun doc => res_Diagnostics (dc_Resolution doc)) (ch_Docs choice))))
        (decide (ch_Evidence choice) (ch_Status choice))
  | _, _ =>
      mkComparison astPath astResolution "" noResolution (res_Status astResolution)
        (relevantMutabilityOverlayDocsForAmbiguousAST astResolution docs)
        (uniqueSortedStrings (res_Diagnostics astResolution))
        (decide mutabilityOverlayDocsStateUnknown (res_Status astResolution))
  end.

(** ** Building the tree ends *)

(** Every helper type is stored under its name. *)
Definition named_index (index : gmap string TypeModel) : Prop := map_Forall (fun name helper => ty_Name helper = name) index.

Lemma helper_index_named helperTypes : named_index (helper_index helperTypes).
Proof.
  unfold helper_index. assert (H : named_index ∅) by apply map_Forall_empty.
  revert H. generalize (∅ : gmap string TypeModel). induction helperTypes as [|helper rest IH]; intros index Hi; simpl; [done|].
  apply IH, map_Forall_insert_2; done.
Qed.

Lemma field_node_same index f g field :
  (forall name helper, index !! name = Some helper -> is_Some (f helper) /\ g helper = f helper) ->
  is_Some (field_node index f field) /\ field_node index g field = field_node index f field.
Proof.
  intros H. unfold field_node. destruct (index !! underlyingTypeName _) as [helper|] eqn:E.
  - destruct (H _ _ E) as [[nodes Hn] Hg]. repeat case_match; rewrite ?Hg, ?Hn; by eauto.
  - repeat case_match; by eauto.
Qed.

Lemma mapM_same {A B} (f g : A -> option B) l :
  (forall x, is_Some (f x) /\ g x = f x) -> is_Some (mapM f l) /\ mapM g l = mapM f l.
Proof.
  intros H. induction l as [|x l [[ys Hys] IH]]; [by eauto|]. destruct (H x) as [[y Hy] Hg]. cbn.
  rewrite Hg, Hy. cbn. rewrite IH, Hys. cbn. by eauto.
Qed.

(** A helper type that the branch is not inside of leaves fewer of them. *)
Lemma descend_size (index : gmap string TypeModel) (seen : gset string) name helper :
  index !! name = Some helper -> name ∉ seen -> size (dom index ∖ ({[name]} ∪ seen)) < size (dom index ∖ seen).
Proof.
  intros Hi Hs. apply subset_size. apply elem_of_dom_2 in Hi. set_solver.
Qed.

Lemma build_stable index fuel : named_index index -> forall seen fields fuel',
  size (dom index ∖ seen) <= fuel -> fuel <= fuel' ->
  is_Some (buildMutabilityOverlayFieldNodes fuel index seen fields) /\
  buildMutabilityOverlayFieldNodes fuel' index seen fields = buildMutabilityOverlayFieldNodes fuel index seen fields.
Proof.
  intros Hi. induction fuel as [|fuel IH]; intros seen fields [|fuel'] Hsize Hf; try lia.
  all: cbn [buildMutabilityOverlayFieldNodes].
  all: match goal with |- is_Some (mapM ?f ?l ≫= _) /\ mapM ?g ?l ≫= _ = _ =>
         destruct (mapM_same f g l) as [[nodes Hn] Hg]; [intros field; apply field_node_same|try rewrite Hg; rewrite Hn; by eauto] end.
  all: intros name helper Hh; rewrite (Hi _ _ Hh); case_bool_decide as Hin; [by eauto|].
  all: pose proof (descend_size _ _ _ _ Hh Hin) as Hlt; try lia.
  apply IH; lia.
Qed.

(** C37. The tree of the spec fields is built in finitely many steps, whatever the helper types of the resource refer to, and
    also when they contain themselves: a branch enters every helper type at most once, so as many levels as there are
    helper types are enough, and more levels change nothing. *)
Theorem spec_tree_terminates (specFields : list FieldModel) (helperTypes : list TypeModel) (fuel : nat) :
  size (helper_index helperTypes) <= fuel ->
  buildMutabilityOverlayFieldNodes fuel (helper_index helperTypes) ∅ specFields =
    Some (newMutabilityOverlayPathResolver specFields helperTypes).
Proof.
  intros Hf. unfold newMutabilityOverlayPathResolver. set (index := helper_index helperTypes) in *.
  assert (Hs : size (dom index ∖ ∅) <= size index) by (rewrite <-(size_dom index); apply subseteq_size; set_solver).
  destruct (build_stable index (size index) (helper_index_named _) ∅ specFields fuel Hs Hf) as [[nodes Hn] Heq].
  rewrite Heq, Hn. done.
Qed.

(** ** Canonical paths *)

(** The paths that a tree of fields has: a field, the elements of a list, the entries of a map, and what is below objects and
    elements. *)
Inductive canonical : list FieldNode -> list string -> list string -> mutabilityOverlayFieldKind -> Prop :=
| can_field fields prefix f : f ∈ fields -> canonical fields prefix (prefix ++ [jsonName f]) (kind f)
| can_element fields prefix f : f ∈ fields -> kind f = KindList -> canonical fields prefix (prefix ++ [jsonName f +++ "[]"]) KindList
| can_entry fields prefix f : f ∈ fields -> kind f = KindMap -> canonical fields prefix (prefix ++ [jsonName f; "*"]) KindMap
| can_in_object fields prefix f segments k :
    f ∈ fields -> kind f = KindObject -> canonical (children f) (prefix ++ [jsonName f]) segments k ->
    canonical fields prefix segments k
| can_in_element fields prefix f segments k :
    f ∈ fields -> kind f = KindList -> canonical (children f) (prefix ++ [jsonName f +++ "[]"]) segments k ->
    canonical fields prefix segments k.

Lemma selected_spec fields token f singular :
  (f, singular) ∈ selected_matches fields token -> f ∈ fields.
Proof.
  unfold selected_matches. intros Hin.
  assert (H : exists P, f ∈ List.filter P fields).
  { destruct (List.filter _ fields) eqn:E.
    - apply list_elem_of_fmap in Hin as (g & [= <- _] & Hg). by eexists.
    - apply list_elem_of_fmap in Hin as (g & [= <- _] & Hg). rewrite <-E in Hg. by eexists. }
  destruct H as [P HP]. rewrite list_elem_of_In, List.filter_In, <-list_elem_of_In in HP. tauto.
Qed.

Lemma node_sound nested f token remaining prefix singular fields c :
  f ∈ fields ->
  (forall fields' prefix' c', c' ∈ fst (nested fields' prefix') ->
     exists segments k, canonical fields' prefix' segments k /\ c' = newMutabilityOverlayCanonicalFieldPath segments k) ->
  c ∈ fst (resolveMutabilityOverlayFieldNode nested f token remaining prefix singular) ->
  exists segments k, canonical fields prefix segments k /\ c = newMutabilityOverlayCanonicalFieldPath segments k.
Proof.
  intros Hf Hnested. unfold resolveMutabilityOverlayFieldNode.
  assert (Hhere : forall segments k, c ∈ [newMutabilityOverlayCanonicalFieldPath segments k] -> canonical fields prefix segments k ->
    exists segments k, canonical fields prefix segments k /\ c = newMutabilityOverlayCanonicalFieldPath segments k).
  { intros segments k ->%list_elem_of_singleton Hc. by eauto. }
  pose proof (can_field fields prefix f Hf) as Hfield.
  assert (Hbelow : forall prefix', c ∈ fst (nested (children f) prefix') ->
    (forall segments k, canonical (children f) prefix' segments k -> canonical fields prefix segments k) ->
    exists segments k, canonical fields prefix segments k /\ c = newMutabilityOverlayCanonicalFieldPath segments k).
  { intros prefix' (segments & k & Hc & ->)%Hnested Hup. eauto. }
  destruct (kind f) eqn:Ek.
  - repeat case_match; cbn; intros Hc; first [by apply elem_of_nil in Hc|by eapply Hhere].
  - repeat case_match; cbn; intros Hc; try first [by apply elem_of_nil in Hc|by eapply Hhere].
    eapply Hbelow; [exact Hc|]. intros. by eapply can_in_object.
  - destruct remaining as [|next remaining].
    + case_match; cbn; intros Hc; eapply Hhere; try done. by apply can_element.
    + destruct (children f) as [|n ns] eqn:En; cbn; intros Hc; [by apply elem_of_nil in Hc|].
      eapply Hbelow; [exact Hc|]. intros. eapply can_in_element; [done..|]. by rewrite En.
  - repeat case_match; cbn; intros Hc; try first [by apply elem_of_nil in Hc|by eapply Hhere].
    rewrite <-app_assoc in Hc. eapply Hhere; [exact Hc|]. by apply can_entry.
Qed.

Lemma resolve_sound tokens : forall fields prefix c,
  c ∈ fst (resolveMutabilityOverlayFieldPath tokens fields prefix) ->
  exists segments k, canonical fields prefix segments k /\ c = newMutabilityOverlayCanonicalFieldPath segments k.
Proof.
  induction tokens as [|token remaining IH]; intros fields prefix c; cbn [resolveMutabilityOverlayFieldPath]; [by intros ?%elem_of_nil|].
  destruct (tok_wildcard token); [by intros ?%elem_of_nil|].
  destruct (selected_matches fields token) as [|m ms] eqn:Em; [by intros ?%elem_of_nil|]. rewrite <-Em. cbn [join_found fst].
  rewrite map_map, list_elem_of_In, in_concat. intros (l & Hl & Hc).
  apply in_map_iff in Hl as ([f singular] & <- & Hin). apply list_elem_of_In in Hin. apply list_elem_of_In in Hc.
  eapply node_sound; [by eapply selected_spec|exact IH|exact Hc].
Qed.

Lemma distinct_paths_in seen paths c : c ∈ distinct_paths seen paths -> c ∈ paths.
Proof.
  revert seen. induction paths as [|p paths IH]; intros seen; cbn; [done|].
  repeat case_match; rewrite ?elem_of_cons; intros Hc; destruct_or?; subst; eauto.
Qed.

Lemma dedupe_in paths c : c ∈ dedupeMutabilityOverlayCanonicalFieldPaths paths -> c ∈ paths.
Proof. unfold dedupeMutabilityOverlayCanonicalFieldPaths. rewrite helper_sort_perm. apply distinct_paths_in. Qed.

Lemma Resolve_candidates fields path :
  res_Candidates (Resolve fields path) =
    match parseMutabilityOverlayPathTokens path with
    | Ok tokens => dedupeMutabilityOverlayCanonicalFieldPaths (fst (resolveMutabilityOverlayFieldPath tokens fields []))
    | Err _ => []
    end.
Proof.
  unfold Resolve. destruct (parseMutabilityOverlayPathTokens path); [|done].
  by destruct (dedupeMutabilityOverlayCanonicalFieldPaths _) as [|? [|? ?]].
Qed.

Lemma candidates_canonical fields path c :
  c ∈ res_Candidates (Resolve fields path) ->
  exists segments k, canonical fields [] segments k /\ c = newMutabilityOverlayCanonicalFieldPath segments k.
Proof.
  rewrite Resolve_candidates. destruct (parseMutabilityOverlayPathTokens path) as [tokens|e]; [|by intros ?%elem_of_nil].
  intros Hc. by eapply resolve_sound, dedupe_in.
Qed.

(** *** A canonical key resolves to itself *)

(** Names that a path can spell: without surrounding blanks and dots, not the name of an element or an entry, and with a key. *)
Definition good_name (name : string) : bool :=
  (TrimSpace name =? name)%string && no_char "." name && negb (HasSuffix name "[]") && negb (name =? "*")%string &&
  negb (segmentKey name =? "")%string.

(** No two fields of the same parent have names that a path cannot tell apart. *)
Inductive well_formed : list FieldNode -> Prop :=
| well_formed_nodes fields :
    Forall (fun f => good_name (jsonName f) = true) fields -> NoDup (map (fun f => segmentKey (jsonName f)) fields) ->
    (forall f, f ∈ fields -> well_formed (children f)) -> well_formed fields.

Lemma good_name_spec name :
  good_name name = true <->
  TrimSpace name = name /\ no_char "." name = true /\ HasSuffix name "[]" = false /\ name <> "*" /\ segmentKey name <> "".
Proof. unfold good_name. rewrite !andb_true_iff, !negb_true_iff, String.eqb_eq, !String.eqb_neq. tauto. Qed.

Lemma good_name_nonempty name : good_name name = true -> name <> "".
Proof. intros (_ & _ & _ & _ & Hk)%good_name_spec ->. by apply Hk. Qed.

Lemma trimmed_append s t : TrimSpace s = s -> TrimSpace t = t -> TrimSpace (s +++ t) = s +++ t.
Proof.
  intros Hs Ht. destruct (decide (s = "")) as [->|Hne]; [done|]. destruct (decide (t = "")) as [->|Htn]; [by rewrite string_app_nil_r|].
  unfold TrimSpace. rewrite trim_left_app by (done || by apply trim_left_clean).
  apply trim_right_nonempty; [by apply trim_right_clean|done].
Qed.

Lemma trimmed_Join l sep : TrimSpace sep = sep -> Forall (fun s => TrimSpace s = s) l -> TrimSpace (Join l sep) = Join l sep.
Proof.
  intros Hsep. induction 1 as [|s l Hs Hl IH]; [done|]. destruct l as [|t l]; [done|].
  change (Join (s :: t :: l) sep) with (s +++ (sep +++ Join (t :: l) sep)). by repeat apply trimmed_append.
Qed.

Lemma no_char_app c s t : no_char c (s +++ t) = no_char c s && no_char c t.
Proof. induction s as [|d s IH]; [done|]. rewrite string_app_cons. cbn. by rewrite IH, andb_assoc. Qed.

(** A segment of a canonical path and the token it is read as. *)
Inductive segment_token : string -> PathToken -> Prop :=
| seg_field name : good_name name = true -> segment_token name (mkToken name (segmentKey name) false false)
| seg_element name : good_name name = true -> segment_token (name +++ "[]") (mkToken name (segmentKey name) true false)
| seg_entry : segment_token "*" (mkToken "*" "" false true).

Lemma segment_clean segment token :
  segment_token segment token -> TrimSpace segment = segment /\ no_char "." segment = true /\ segment <> "".
Proof.
  intros [name Hn|name Hn|]; [..|by split_and!]; pose proof (good_name_nonempty _ Hn) as Hne.
  all: apply good_name_spec in Hn as (Ht & Hd & _).
  - by split_and!.
  - split_and!; [by apply trimmed_append|by rewrite no_char_app, Hd|by destruct name].
Qed.

Lemma parse_segment_token fieldPath segment token :
  segment_token segment token -> parse_segment fieldPath segment = Ok token.
Proof.
  intros Hs. destruct (segment_clean _ _ Hs) as (Ht & _ & Hne). unfold parse_segment.
  rewrite Ht, (proj2 (String.eqb_neq _ _) Hne). destruct Hs as [name Hn|name Hn|]; [..|done].
  all: pose proof (good_name_nonempty _ Hn) as Hne'; apply good_name_spec in Hn as (Htn & _ & Hsuf & Hstar & Hk).
  - by rewrite (proj2 (String.eqb_neq _ _) Hstar), Hsuf, Ht, (proj2 (String.eqb_neq _ _) Hne'), (proj2 (String.eqb_neq _ _) Hk).
  - assert (Hns : name +++ "[]" <> "*").
    { destruct name as [|c [|d name]]; [done| |]; intros [=]. }
    assert (Hel : HasSuffix (name +++ "[]") "[]" = true) by (apply HasSuffix_spec; by exists name).
    by rewrite (proj2 (String.eqb_neq _ _) Hns), Hel, TrimSuffix_app, Htn, (proj2 (String.eqb_neq _ _) Hne'), (proj2 (String.eqb_neq _ _) Hk).
Qed.

Lemma parse_segments_tokens fieldPath segments tokens :
  Forall2 segment_token segments tokens -> parse_segments fieldPath segments = Ok tokens.
Proof. induction 1 as [|s t l k Hs _ IH]; [done|]. cbn. by rewrite (parse_segment_token _ _ _ Hs), IH. Qed.

Lemma parse_canonical segments tokens :
  segments <> [] -> Forall2 segment_token segments tokens ->
  parseMutabilityOverlayPathTokens (Join segments ".") = Ok tokens /\ TrimSpace (Join segments ".") = Join segments "." /\
  Join segments "." <> "".
Proof.
  intros Hne Hs. assert (Hall : Forall (fun s => TrimSpace s = s /\ no_char "." s = true /\ s <> "") segments).
  { eapply Forall2_Forall_l; [exact Hs|]. apply Forall_true. intros t s. apply segment_clean. }
  assert (Ht : TrimSpace (Join segments ".") = Join segments ".") by (apply trimmed_Join; [done|]; eapply Forall_impl; [exact Hall|naive_solver]).
  assert (Hn : Join segments "." <> "").
  { destruct Hall as [|s l (_ & _ & Hs') _]; [done|]. destruct s; [done|]. by destruct l. }
  split_and!; [|done..]. unfold parseMutabilityOverlayPathTokens. rewrite Ht, (proj2 (String.eqb_neq _ _) Hn).
  rewrite Split_Join; [by apply parse_segments_tokens|done|]. eapply Forall_impl; [exact Hall|naive_solver].
Qed.

(** The token of a field selects that field alone. *)
Lemma filter_unique {A} (P : A -> bool) (key : A -> string) l x :
  NoDup (map key l) -> x ∈ l -> P x = true -> (forall y, P y = true -> key y = key x) -> List.filter P l = [x].
Proof.
  intros Hd Hx HP Hkey. induction l as [|y l IH]; [by apply elem_of_nil in Hx|]. cbn in Hd. apply NoDup_cons in Hd as [Hy Hd].
  assert (Hnone : forall k, key x ∉ map key k -> List.filter P k = []).
  { clear -Hkey. intros k. induction k as [|z k IH]; cbn; [done|]. rewrite elem_of_cons. intros Hz.
    destruct (P z) eqn:E; [exfalso; apply Hz; left; symmetry; by apply Hkey|]. apply IH. tauto. }
  apply elem_of_cons in Hx as [->|Hx]; cbn.
  - by rewrite HP, Hnone.
  - destruct (P y) eqn:E; [|by apply IH]. exfalso. apply Hy. rewrite (Hkey _ E). apply list_elem_of_fmap. by exists x.
Qed.

Lemma select_field fields f listItem raw :
  NoDup (map (fun f => segmentKey (jsonName f)) fields) -> f ∈ fields -> good_name (jsonName f) = true ->
  (listItem = true -> kind f = KindList) ->
  selected_matches fields (mkToken raw (segmentKey (jsonName f)) listItem false) = [(f, false)].
Proof.
  intros Hd Hf (_ & _ & _ & _ & Hk)%good_name_spec Hl. unfold selected_matches.
  rewrite (filter_unique _ (fun f => segmentKey (jsonName f)) fields f); [done|done|done| |].
  - unfold node_matches. cbn. rewrite (proj2 (String.eqb_neq _ _) Hk), String.eqb_refl. cbn.
    destruct listItem; [|done]. by rewrite bool_decide_eq_true_2 by auto.
  - intros g. unfold node_matches. cbn. rewrite (proj2 (String.eqb_neq _ _) Hk). cbn.
    destruct (segmentKey (jsonName f) =? segmentKey (jsonName g))%string eqn:E; [by apply String.eqb_eq in E|].
    by destruct (bool_decide _ && _).
Qed.

Lemma resolve_one token remaining fields prefix f :
  tok_wildcard token = false -> selected_matches fields token = [(f, false)] ->
  resolveMutabilityOverlayFieldPath (token :: remaining) fields prefix =
    resolveMutabilityOverlayFieldNode (resolveMutabilityOverlayFieldPath remaining) f token remaining prefix false.
Proof.
  intros Hw Hs. cbn [resolveMutabilityOverlayFieldPath]. rewrite Hw, Hs. unfold join_found. cbn.
  rewrite !app_nil_r. by destruct (resolveMutabilityOverlayFieldNode _ _ _ _ _ _).
Qed.

Lemma canonical_resolves fields prefix segments k :
  canonical fields prefix segments k -> well_formed fields ->
  exists rest tokens, segments = prefix ++ rest /\ rest <> [] /\ Forall2 segment_token rest tokens /\
    resolveMutabilityOverlayFieldPath tokens fields prefix = ([newMutabilityOverlayCanonicalFieldPath segments k], []).
Proof.
  assert (Hpick : forall fields f, well_formed fields -> f ∈ fields ->
    good_name (jsonName f) = true /\ well_formed (children f) /\
    forall raw listItem, (listItem = true -> kind f = KindList) ->
      selected_matches fields (mkToken raw (segmentKey (jsonName f)) listItem false) = [(f, false)]).
  { intros fields' f Hw Hf. destruct Hw as [fields' Hn Hd Hc]. rewrite Forall_forall in Hn. split_and!; [auto..|].
    intros raw listItem Hl. by apply select_field; auto. }
  induction 1 as [fields prefix f Hf|fields prefix f Hf Hk|fields prefix f Hf Hk|fields prefix f segments k Hf Hk Hc IH|
                  fields prefix f segments k Hf Hk Hc IH]; intros Hw; destruct (Hpick _ _ Hw Hf) as (Hn & Hwc & Hsel).
  - eexists [_], [_]. split_and!; [done|done|by repeat constructor|].
    rewrite (resolve_one _ _ _ _ f) by (done || by apply Hsel). unfold resolveMutabilityOverlayFieldNode. by destruct (kind f).
  - eexists [_], [_]. split_and!; [done|done|by repeat constructor|].
    rewrite (resolve_one _ _ _ _ f) by (done || by apply Hsel). unfold resolveMutabilityOverlayFieldNode. by rewrite Hk.
  - eexists [_; _], [_; _]. split_and!; [done|done|by repeat constructor|].
    rewrite (resolve_one _ _ _ _ f) by (done || by apply Hsel). unfold resolveMutabilityOverlayFieldNode. rewrite Hk. cbn.
    by rewrite <-app_assoc.
  - destruct (IH Hwc) as (rest & tokens & -> & Hne & Ht & Hr). exists (jsonName f :: rest).
    eexists (_ :: tokens). split_and!; [by rewrite <-app_assoc|done|by repeat constructor|].
    rewrite (resolve_one _ _ _ _ f) by (done || by apply Hsel). unfold resolveMutabilityOverlayFieldNode. rewrite Hk. cbn.
    destruct tokens; [by apply Forall2_nil_inv_r in Ht as ->|done].
  - destruct (IH Hwc) as (rest & tokens & -> & Hne & Ht & Hr). exists ((jsonName f +++ "[]") :: rest).
    eexists (_ :: tokens). split_and!; [by rewrite <-app_assoc|done|by repeat constructor|].
    rewrite (resolve_one _ _ _ _ f) by (done || by apply Hsel). unfold resolveMutabilityOverlayFieldNode. rewrite Hk. cbn.
    destruct tokens; [by apply Forall2_nil_inv_r in Ht as ->|]. by destruct (children f); [inversion Hc; set_solver|].
Qed.

(** C25. Canonical keys name the fields of the generated spec and nothing else.  Every candidate that a path in any spelling
    resolves to is a canonical path of the tree; and where every name is one that a path can spell
    ([good_name]: no surrounding blanks, no dots, not "*", no pair of brackets at its end, and something left without dashes and underscores) and no two sibling fields have names that differ only in case, blanks, dashes and underscores, the canonical key of every path of the tree resolves to that path, as its only
    candidate and without diagnostics. *)
Theorem canonical_key_round_trip (fields : list FieldNode) :
  (forall path c, c ∈ res_Candidates (Resolve fields path) ->
     exists segments k, canonical fields [] segments k /\ c = newMutabilityOverlayCanonicalFieldPath segments k) /\
  (well_formed fields -> forall segments k, canonical fields [] segments k ->
     let c := newMutabilityOverlayCanonicalFieldPath segments k in
     Resolve fields (CanonicalJoinKey c) = mkResolution (CanonicalJoinKey c) mutabilityOverlayJoinMatched [c] []).
Proof.
  split; [intros path c; apply candidates_canonical|]. intros Hw segments k Hc c.
  destruct (canonical_resolves _ _ _ _ Hc Hw) as (rest & tokens & -> & Hne & Ht & Hr).
  destruct (parse_canonical _ _ Hne Ht) as (Hp & Htrim & Hn). cbn in c. subst c. unfold Resolve. cbn [CanonicalJoinKey newMutabilityOverlayCanonicalFieldPath].
  rewrite Hp, Hr, Htrim. cbn [fst snd app]. unfold dedupeMutabilityOverlayCanonicalFieldPaths, newMutabilityOverlayCanonicalFieldPath.
  cbn [distinct_paths CanonicalJoinKey]. unfold blank. by rewrite Htrim, (proj2 (String.eqb_neq _ _) Hn).
Qed.

(** ** Witnesses *)

Definition ex_helpers : list TypeModel :=
  [mkTypeModel "QueueRule" [mkFieldModel "DisplayName" "string" ""; mkFieldModel "Nested" "[]QueueRule" ""]].
Definition ex_spec_fields : list FieldModel :=
  [mkFieldModel "Rules" "[]QueueRule" ""; mkFieldModel "FreeformTags" "map[string]string" ""; mkFieldModel "DisplayName" "string" ""].
Definition ex_tree : list FieldNode :=
  [mkNode "displayName" KindScalar []; mkNode "freeformTags" KindMap [];
   mkNode "rules" KindList [mkNode "displayName" KindScalar []; mkNode "nested" KindList []]].

Lemma spec_tree_terminates_witness :
  buildMutabilityOverlayFieldNodes 1 (helper_index ex_helpers) ∅ ex_spec_fields =
    Some (newMutabilityOverlayPathResolver ex_spec_fields ex_helpers) /\
  newMutabilityOverlayPathResolver ex_spec_fields ex_helpers = ex_tree.
Proof. split; [apply (spec_tree_terminates ex_spec_fields ex_helpers 1); vm_compute; lia|by vm_compute]. Defined.

Lemma well_formed_nil : well_formed [].
Proof. constructor; [constructor..|]. by intros f ?%elem_of_nil. Qed.

Lemma ex_tree_well_formed : well_formed ex_tree.
Proof.
  constructor; [by repeat constructor|by apply (bool_decide_unpack _); vm_compute|].
  intros f [->|[->|[->|Hf]%elem_of_cons]%elem_of_cons]%elem_of_cons; [apply well_formed_nil..| |by apply elem_of_nil in Hf].
  constructor; [by repeat constructor|by apply (bool_decide_unpack _); vm_compute|].
  intros f [->|[->|Hf]%elem_of_cons]%elem_of_cons; [apply well_formed_nil..|by apply elem_of_nil in Hf].
Qed.

Lemma canonical_key_round_trip_witness :
  Resolve ex_tree "rules[].displayName" =
    mkResolution "rules[].displayName" "matched" [mkCanonical "rules[].displayName" "listItem"] [] /\
  res_Candidates (Resolve ex_tree "rule.display_name") = [mkCanonical "rules[].displayName" "listItem"].
Proof.
  split; [|by vm_compute].
  apply (proj2 (canonical_key_round_trip ex_tree)) with (segments := ["rules[]"; "displayName"]) (k := KindScalar).
  - apply ex_tree_well_formed.
  - eapply (can_in_element _ _ (mkNode "rules" KindList _)); [by right; right; left|done|].
    by apply (can_field _ ["rules[]"] (mkNode "displayName" KindScalar [])); left.
Defined.
