(* ===== verification/MutabilityDocs.v ===== *)
(** * Update evidence in the Terraform documentation

    [internal/generator/mutability_overlay_docs_parser.go]: the rows of the Argument Reference section of a
    Terraform Registry page, and what each one says about updates.  The HTML parser
    ([golang.org/x/net/html]) is a parameter that gives the tree of the page; a node here has its type, its
    data, its attributes and its children, and the following siblings of a heading are what the search
    for it returns with it. *)

From stdpp Require Import list.
From Stdlib Require Import Ascii String.
From S2P Require Import Prelude GoStrings GoErrors JsonValues Sorting AuthConfig GeneratorNames GeneratorSemantics MutabilityJoin.
Local Open Scope string_scope.
Local Open Scope list_scope.

(** ** Nodes *)

(** [OtherNode] is a document, a doctype or a comment. *)
Inductive HtmlNode :=
| ElementNode (Data : string) (Attr : list (string * string)) (nested : list HtmlNode)
| TextNode (Data : string)
| OtherNode (nested : list HtmlNode).

Definition node_children (node : HtmlNode) : list HtmlNode :=
  match node with ElementNode _ _ nested | OtherNode nested => nested | TextNode _ => [] end.
Definition node_attributes (node : HtmlNode) : list (string * string) :=
  match node with ElementNode _ attributes _ => attributes | _ => [] end.
Definition is_element (node : HtmlNode) (tag : string) : bool :=
  match node with ElementNode data _ _ => EqualFold data tag | _ => false end.

Definition isMutabilityOverlayDocsList (node : HtmlNode) : bool := is_element node "ul" || is_element node "ol".

Definition mutabilityOverlayDocsHeadingLevel (tag : string) : nat :=
  match tag with
  | String c (String d EmptyString) =>
      if (Ascii.eqb c "h" || Ascii.eqb c "H") && is_digit d && negb (Ascii.eqb d "0" || Ascii.eqb d "7" || Ascii.eqb d "8" || Ascii.eqb d "9")
      then nat_of_ascii d - nat_of_ascii "0" else 0
  | _ => 0
  end.
Definition isMutabilityOverlayDocsHeading (node : HtmlNode) : bool :=
  match node with ElementNode data _ _ => (0 <? mutabilityOverlayDocsHeadingLevel data)%nat | _ => false end.

Definition mutabilityOverlayDocsNodeAttr (node : HtmlNode) (key : string) : string :=
  match List.find (fun attr => EqualFold (fst attr) key) (node_attributes node) with Some attr => snd attr | None => "" end.

Definition texts (l : list string) : string := String.concat "" (map (fun s => s +++ " ") l).

Fixpoint mutabilityOverlayDocsNodeText (node : HtmlNode) : string :=
  match node with
  | TextNode data => data
  | ElementNode _ _ nested | OtherNode nested => texts (map mutabilityOverlayDocsNodeText nested)
  end.

Fixpoint mutabilityOverlayDocsDirectTextWithoutLists (node : HtmlNode) : string :=
  if isMutabilityOverlayDocsList node then ""
  else match node with
       | TextNode data => data
       | ElementNode _ _ nested | OtherNode nested => texts (map mutabilityOverlayDocsDirectTextWithoutLists nested)
       end.

Definition first_nonempty (l : list string) : string :=
  match List.find (fun s => negb (s =? "")%string) l with Some s => s | None => "" end.

Fixpoint mutabilityOverlayDocsFirstCodeTextWithoutLists (node : HtmlNode) : string :=
  if isMutabilityOverlayDocsList node then ""
  else if is_element node "code" then mutabilityOverlayDocsNodeText node
  else match node with
       | TextNode _ => ""
       | ElementNode _ _ nested | OtherNode nested => first_nonempty (map mutabilityOverlayDocsFirstCodeTextWithoutLists nested)
       end.

Definition normalizeMutabilityOverlayDocsText (text : string) : string := Join (FieldsFunc (TrimSpace text) is_space) " ".

(** ** The section *)

Definition mutabilityOverlayDocsSectionArgumentReference := "Argument Reference".

(** The first heading with the title, in document order, and the siblings after it. *)
Fixpoint find_heading (title : string) (node : HtmlNode) (following : list HtmlNode) : option (HtmlNode * list HtmlNode) :=
  if isMutabilityOverlayDocsHeading node &&
     (normalizeMutabilityOverlayDocsText (mutabilityOverlayDocsNodeText node) =? normalizeMutabilityOverlayDocsText title)%string
  then Some (node, following)
  else
    let walk := fix walk (nodes : list HtmlNode) : option (HtmlNode * list HtmlNode) :=
       match nodes with
       | [] => None
       | child :: rest => match find_heading title child rest with Some found => Some found | None => walk rest end
       end in
    match node with ElementNode _ _ nested | OtherNode nested => walk nested | TextNode _ => None end.
Definition findMutabilityOverlayDocsSectionHeading (root : HtmlNode) (title : string) : option (HtmlNode * list HtmlNode) :=
  find_heading title root [].

Definition heading_level (node : HtmlNode) : nat :=
  match node with ElementNode data _ _ => mutabilityOverlayDocsHeadingLevel data | _ => 0 end.

Fixpoint section_nodes (level : nat) (siblings : list HtmlNode) : list HtmlNode :=
  match siblings with
  | [] => []
  | node :: rest =>
      if isMutabilityOverlayDocsHeading node && (heading_level node <=? level)%nat then [] else node :: section_nodes level rest
  end.
Definition mutabilityOverlayDocsSectionNodes (heading : HtmlNode * list HtmlNode) : list HtmlNode :=
  section_nodes (heading_level (fst heading)) (snd heading).

Fixpoint mutabilityOverlayDocsSectionAnchor (node : HtmlNode) : string :=
  let attr key := TrimSpace (mutabilityOverlayDocsNodeAttr node key) in
  if negb (attr "id" =? "")%string then attr "id"
  else if negb (attr "name" =? "")%string then attr "name"
  else if HasPrefix (attr "href") "#" then TrimPrefix (attr "href") "#"
  else match node with
       | TextNode _ => ""
       | ElementNode _ _ nested | OtherNode nested => first_nonempty (map mutabilityOverlayDocsSectionAnchor nested)
       end.

(** ** What a row says *)

Definition updatable_phrases : list string := ["(updatable)"; "can be updated"; "updated in place"].
Definition denied_phrases : list string :=
  ["updating this value after creation is not supported"; "updating this field after creation is not supported";
   "updates to this field are not supported"; "cannot be updated"; "can't be updated"; "does not support update"; "not updatable"].
Definition replacement_phrases : list string :=
  ["forces a new resource"; "force a new resource"; "requires replacement"; "require replacement"; "must be recreated";
   "will be recreated"; "recreate the resource"; "destroyed and recreated"; "destruction and recreation"].

Definition collectMutabilityOverlayDocsSignals (lower : string) (phrases : list string) : list string :=
  uniqueSortedStrings (List.filter (Contains lower) phrases).

Definition is_nil {A} (l : list A) : bool := match l with [] => true | _ => false end.

(** The state, the detail and the raw signal. *)
Definition classifyMutabilityOverlayDocsFieldEvidence (evidenceText : string) : string * string * string :=
  let evidenceText := normalizeMutabilityOverlayDocsText evidenceText in
  let lower := ToLower evidenceText in
  let updatableSignals := collectMutabilityOverlayDocsSignals lower updatable_phrases in
  let deniedSignals := collectMutabilityOverlayDocsSignals lower denied_phrases in
  let replacementSignals := collectMutabilityOverlayDocsSignals lower replacement_phrases in
  let rawSignal := Join (uniqueSortedStrings (updatableSignals ++ deniedSignals ++ replacementSignals)) "; " in
  let explicitConditionalReplacement :=
    Contains lower "may be updated in place" &&
    (Contains lower "require replacement" || Contains lower "requires replacement" || Contains lower "recreated") in
  if explicitConditionalReplacement || (negb (is_nil updatableSignals) && (negb (is_nil deniedSignals) || negb (is_nil replacementSignals)))
  then (mutabilityOverlayDocsStateAmbiguous, "Argument Reference contains conflicting or conditional update guidance.",
        if (rawSignal =? "")%string then evidenceText else rawSignal)
  else if negb (is_nil replacementSignals)
  then (mutabilityOverlayDocsStateReplacementRequired, "Argument Reference says changing this field requires replacement.", rawSignal)
  else if negb (is_nil deniedSignals)
  then (mutabilityOverlayDocsStateDeniedUpdatable, "Argument Reference says in-place updates are not supported.", rawSignal)
  else if negb (is_nil updatableSignals)
  then (mutabilityOverlayDocsStateConfirmedUpdatable, "Argument Reference marks the field as updatable in place.", rawSignal)
  else (mutabilityOverlayDocsStateUnknown, "Argument Reference documents the field but does not include an explicit update cue.", "").

(** ** Field entries *)

(** The text before the first occurrence of [sep]. *)
Fixpoint cut_before (s sep : string) : option string :=
  if HasPrefix s sep then Some ""
  else match s with EmptyString => None | String c s' => option_map (String c) (cut_before s' sep) end.

Definition field_char (c : ascii) : bool :=
  is_lower c || is_upper c || is_digit c || existsb (Ascii.eqb c) ["_"; "."; "*"; "["; "]"]%char.

Fixpoint all_field_chars (s : string) : bool :=
  match s with EmptyString => true | String c s' => field_char c && all_field_chars s' end.

Definition mutabilityOverlayDocsFallbackFieldToken (evidenceText : string) : string :=
  let token := TrimSpace evidenceText in
  let token := match cut_before token " - " with Some before => TrimSpace before | None => token end in
  if all_field_chars token then token else "".

(** The field name and the text of an entry. *)
Definition extractMutabilityOverlayDocsFieldEntry (node : HtmlNode) : string * string :=
  let evidenceText := normalizeMutabilityOverlayDocsText (mutabilityOverlayDocsDirectTextWithoutLists node) in
  let fieldName := normalizeMutabilityOverlayDocsText (mutabilityOverlayDocsFirstCodeTextWithoutLists node) in
  (if (fieldName =? "")%string then mutabilityOverlayDocsFallbackFieldToken evidenceText else fieldName, evidenceText).

Definition mutabilityOverlayJoinDocsFieldPath (prefix : list string) (fieldName : string) : string :=
  let fieldName := TrimSpace fieldName in
  Join (prefix ++ (if (fieldName =? "")%string then [] else [fieldName])) ".".

Record mutabilityOverlayDocsEvidenceLocation := mkLocation {
  loc_RegistryURL : string; loc_SectionTitle : string; loc_SectionAnchor : string; loc_EvidenceText : string
}.
Record mutabilityOverlayParsedDocsEvidence := mkParsedEvidence {
  pe_FieldPath : string;
  pe_EvidenceState : string;
  pe_Detail : string;
  pe_RawSignal : string;
  pe_Provenance : mutabilityOverlayDocsEvidenceLocation
}.
Abbreviation Row := mutabilityOverlayParsedDocsEvidence.

Record mutabilityOverlayDocsParserDiagnostic := mkDiagnostic {
  diag_Severity : string;
  diag_Reason : string;
  diag_FieldPath : string;
  diag_SectionAnchor : string;
  diag_Detail : string;
  diag_EvidenceText : string
}.
Abbreviation Diagnostic := mutabilityOverlayDocsParserDiagnostic.

Definition mutabilityOverlayDocsParseDiagnosticSeverityWarning := "warning".
Definition mutabilityOverlayDocsParseDiagnosticSeverityError := "error".
Definition mutabilityOverlayDocsParseDiagnosticUnsupportedSectionNode := "unsupportedSectionNode".
Definition mutabilityOverlayDocsParseDiagnosticUnsupportedFieldEntry := "unsupportedFieldEntry".
Definition mutabilityOverlayDocsParseDiagnosticDuplicateFieldPath := "duplicateFieldPath".

(** [appendMutabilityOverlayDocsDiagnostic] trims the texts of what it appends. *)
Definition trimmed_diagnostic (d : Diagnostic) : Diagnostic :=
  mkDiagnostic (diag_Severity d) (diag_Reason d) (TrimSpace (diag_FieldPath d)) (TrimSpace (diag_SectionAnchor d))
    (TrimSpace (diag_Detail d)) (TrimSpace (diag_EvidenceText d)).

(** ** The walk *)

(** What a part of the page adds to the result. *)
Abbreviation Parsed := (list Row * list Diagnostic)%type.
Definition join_parsed (l : list Parsed) : Parsed := (concat (map fst l), concat (map snd l)).

(** Who looks at a node: [parseMutabilityOverlayDocsSectionNode], or the loops of [parseMutabilityOverlayDocsListNode] (with
    [parseMutabilityOverlayDocsListItem] as its body) and of [parseMutabilityOverlayDocsDescendantLists] over the children of a
    node. *)
Inductive Mode := SectionMode | ListMode | DescendantMode.

Section Walk.
Context (registryURL sectionTitle sectionAnchor : string).

(** [appendMutabilityOverlayParsedDocsField]: the name and the row of a node that has one. *)
Definition parsed_field (node : HtmlNode) (prefix : list string) : option (string * Row) :=
  let '(fieldName, evidenceText) := extractMutabilityOverlayDocsFieldEntry node in
  if (fieldName =? "")%string then None
  else
    let '(state, detail, rawSignal) := classifyMutabilityOverlayDocsFieldEvidence evidenceText in
    Some (fieldName, mkParsedEvidence (mutabilityOverlayJoinDocsFieldPath prefix fieldName) state detail rawSignal
                       (mkLocation registryURL sectionTitle sectionAnchor evidenceText)).

Definition error_diagnostic (reason detail : string) (prefix : list string) (text : string) : Diagnostic :=
  trimmed_diagnostic (mkDiagnostic mutabilityOverlayDocsParseDiagnosticSeverityError reason (Join prefix ".") sectionAnchor detail
                        (normalizeMutabilityOverlayDocsText text)).

Fixpoint walk (mode : Mode) (prefix : list string) (node : HtmlNode) : Parsed :=
  let below mode prefix : Parsed :=
    match node with
    | ElementNode _ _ nested | OtherNode nested => join_parsed (map (walk mode prefix) nested)
    | TextNode _ => ([], [])
    end in
  let unsupported_table detail : Parsed :=
    ([], [error_diagnostic mutabilityOverlayDocsParseDiagnosticUnsupportedSectionNode detail prefix (mutabilityOverlayDocsNodeText node)]) in
  match mode with
  | SectionMode =>
      match node with
      | ElementNode _ _ _ =>
          if isMutabilityOverlayDocsList node then below ListMode prefix
          else if is_element node "table"
          then unsupported_table "Argument Reference contains an unsupported <table> layout that may hide field entries"
          else if isMutabilityOverlayDocsHeading node then ([], [])
          else match parsed_field node prefix with
               | Some (fieldName, row) => join_parsed [([row], []); below DescendantMode (prefix ++ [fieldName])]
               | None => below SectionMode prefix
               end
      | _ => ([], [])
      end
  | ListMode =>
      if negb (is_element node "li") then ([], [])
      else match parsed_field node prefix with
           | Some (fieldName, row) => join_parsed [([row], []); below DescendantMode (prefix ++ [fieldName])]
           | None =>
               match prefix with
               | _ :: _ => below DescendantMode prefix
               | [] =>
                   join_parsed
                     [([], [error_diagnostic mutabilityOverlayDocsParseDiagnosticUnsupportedFieldEntry
                              "Argument Reference list item did not expose a leading field token" prefix
                              (mutabilityOverlayDocsDirectTextWithoutLists node)]);
                      below DescendantMode prefix]
               end
           end
  | DescendantMode =>
      match node with
      | ElementNode _ _ _ =>
          if isMutabilityOverlayDocsList node then below ListMode prefix
          else if is_element node "table" then unsupported_table "Argument Reference field entry uses an unsupported <table> layout"
          else below DescendantMode prefix
      | _ => ([], [])
      end
  end.
End Walk.

(** ** The parser *)

Record mutabilityOverlayDocsParseResult := mkParseResult {
  pr_RegistryURL : string;
  pr_SectionTitle : string;
  pr_SectionAnchor : string;
  pr_Fields : list Row;
  pr_Diagnostics : list Diagnostic
}.
Abbreviation ParseResult := mutabilityOverlayDocsParseResult.

Definition EvidenceInputs (r : ParseResult) : list mutabilityOverlayDocsEvidenceInput :=
  map (fun field => mkEvidenceInput (pe_FieldPath field) (pe_EvidenceState field) (pe_Detail field) (pe_RawSignal field)) (pr_Fields r).

(** The metadata of a page that the parser reads, and its body. *)
Record mutabilityOverlayDocsInput := mkDocsInput {
  md_Service : string; md_Kind : string; md_FormalSlug : string; md_ProviderResource : string; md_RegistryURL : string; Body : string
}.

Record mutabilityOverlayDocsParseError := mkParseError {
  err_Reason : string;
  err_Service : string;
  err_Kind : string;
  err_FormalSlug : string;
  err_ProviderResource : string;
  err_RegistryURL : string;
  err_Detail : string;
  err_Diagnostics : list Diagnostic
}.

Definition newMutabilityOverlayDocsParseError (input : mutabilityOverlayDocsInput) (reason detail : string) (diagnostics : list Diagnostic)
  : mutabilityOverlayDocsParseError :=
  mkParseError reason (TrimSpace (md_Service input)) (TrimSpace (md_Kind input)) (TrimSpace (md_FormalSlug input))
    (TrimSpace (md_ProviderResource input)) (TrimSpace (md_RegistryURL input)) (TrimSpace detail) diagnostics.

Definition countMutabilityOverlayDocsErrorDiagnostics (diagnostics : list Diagnostic) : nat :=
  length (List.filter (fun d => (diag_Severity d =? mutabilityOverlayDocsParseDiagnosticSeverityError)%string) diagnostics).

(** One warning for every path that more than one row has, in the order of the paths. *)
Definition annotateMutabilityOverlayDocsDuplicateFieldPaths (sectionAnchor : string) (fields : list Row) : list Diagnostic :=
  let rows path := List.filter (fun field => (pe_FieldPath field =? path)%string) fields in
  let paths := List.filter (fun path => (1 <? length (rows path))%nat) (sort_Strings (remove_dups (map pe_FieldPath fields))) in
  map (fun path => trimmed_diagnostic
         (mkDiagnostic mutabilityOverlayDocsParseDiagnosticSeverityWarning mutabilityOverlayDocsParseDiagnosticDuplicateFieldPath path
            sectionAnchor
            ("Argument Reference emitted " +++ Itoa (Z.of_nat (length (rows path))) +++ " rows for the same field path with states " +++
             Join (uniqueSortedStrings (map pe_EvidenceState (rows path))) ", ") "")) paths.

Section Parse.
Context (html_Parse : string -> result HtmlNode string).

Definition parseMutabilityOverlayDocsArgumentReference (input : mutabilityOverlayDocsInput)
  : result ParseResult mutabilityOverlayDocsParseError :=
  let registryURL := TrimSpace (md_RegistryURL input) in
  let title := mutabilityOverlayDocsSectionArgumentReference in
  match html_Parse (Body input) with
  | Err e => Err (newMutabilityOverlayDocsParseError input "invalidHTML" ("parse HTML: " +++ e) [])
  | Ok doc =>
      match findMutabilityOverlayDocsSectionHeading doc title with
      | None => Err (newMutabilityOverlayDocsParseError input "missingArgumentReference"
                       "the HTML body did not contain an Argument Reference heading" [])
      | Some heading =>
          let anchor := mutabilityOverlayDocsSectionAnchor (fst heading) in
          let parsed := join_parsed (map (walk registryURL title anchor SectionMode []) (mutabilityOverlayDocsSectionNodes heading)) in
          let fields := fst parsed in
          let diagnostics := snd parsed ++ annotateMutabilityOverlayDocsDuplicateFieldPaths anchor fields in
          let errors := countMutabilityOverlayDocsErrorDiagnostics diagnostics in
          match fields, errors with
          | [], 0 => Err (newMutabilityOverlayDocsParseError input "noFieldEntries"
                            "Argument Reference section did not yield any field entries" diagnostics)
          | [], _ => Err (newMutabilityOverlayDocsParseError input "partialParse"
                            ("Argument Reference section recorded " +++ Itoa (Z.of_nat errors) +++
                             " parser errors before any field rows were emitted") diagnostics)
          | _, 0 => Ok (mkParseResult registryURL title anchor fields diagnostics)
          | _, _ => Err (newMutabilityOverlayDocsParseError input "partialParse"
                           ("Argument Reference section emitted " +++ Itoa (Z.of_nat (length fields)) +++ " field rows but also recorded " +++
                            Itoa (Z.of_nat errors) +++ " parser errors") diagnostics)
          end
      end
  end.
End Parse.

(** ** What the rows are worth *)

Definition docs_states : list string :=
  [mutabilityOverlayDocsStateConfirmedUpdatable; mutabilityOverlayDocsStateDeniedUpdatable;
   mutabilityOverlayDocsStateReplacementRequired; mutabilityOverlayDocsStateUnknown; mutabilityOverlayDocsStateAmbiguous].

(** The text has one of the phrases. *)
Definition says (phrases : list string) (text : string) : bool :=
  existsb (Contains (ToLower (normalizeMutabilityOverlayDocsText text))) phrases.

Lemma signals_nil lower phrases :
  Forall (fun phrase => TrimSpace phrase = phrase /\ phrase <> "") phrases ->
  is_nil (collectMutabilityOverlayDocsSignals lower phrases) = negb (existsb (Contains lower) phrases).
Proof.
  intros Hp. unfold collectMutabilityOverlayDocsSignals, uniqueSortedStrings.
  destruct (existsb (Contains lower) phrases) eqn:E.
  - apply existsb_exists in E as (phrase & Hin & Hc). rewrite Forall_forall in Hp. destruct (Hp phrase) as [Ht Hn]; [by apply list_elem_of_In|].
    assert (Hm : phrase ∈ normal_list (map TrimSpace (List.filter (Contains lower) phrases))).
    { apply normal_list_elem. split; [|done]. apply list_elem_of_fmap. exists phrase. split; [done|].
      apply list_elem_of_In, List.filter_In. by split. }
    by destruct (normal_list _); [apply elem_of_nil in Hm|].
  - assert (Hf : List.filter (Contains lower) phrases = []); [|by rewrite Hf].
    clear Hp. induction phrases as [|p l IH]; [done|]. cbn in E |- *. apply orb_false_iff in E as [-> E]. by apply IH.
Qed.

(** The text speaks of updates in place and of a replacement under conditions. *)
Definition conditional (text : string) : bool :=
  let lower := ToLower (normalizeMutabilityOverlayDocsText text) in
  Contains lower "may be updated in place" &&
  (Contains lower "require replacement" || Contains lower "requires replacement" || Contains lower "recreated").

(** The phrase search finds that the text speaks of updates, and no phrase that it takes for a denial, a replacement or a
    condition; what stands around a phrase does not count. *)
Definition consents (text : string) : bool :=
  says updatable_phrases text && negb (says denied_phrases text) && negb (says replacement_phrases text) && negb (conditional text).

(** The classifier confirms exactly the texts that consent. *)
Lemma classify_spec text :
  let state := fst (fst (classifyMutabilityOverlayDocsFieldEvidence text)) in
  state ∈ docs_states /\ (state = mutabilityOverlayDocsStateConfirmedUpdatable <-> consents text = true).
Proof.
  unfold classifyMutabilityOverlayDocsFieldEvidence, consents, says, conditional.
  rewrite !signals_nil by (apply (bool_decide_unpack _); by vm_compute). rewrite !negb_involutive.
  destruct (existsb _ updatable_phrases), (existsb _ denied_phrases), (existsb _ replacement_phrases), (Contains _ "may be updated in place" && _);
    (split; [by apply containsString_spec|done]).
Qed.

(** Every row of a walk has the state of its text. *)
Definition row_ok (row : Row) : Prop :=
  pe_EvidenceState row = fst (fst (classifyMutabilityOverlayDocsFieldEvidence (loc_EvidenceText (pe_Provenance row)))).

Lemma parsed_field_ok url title anchor node prefix name row : parsed_field url title anchor node prefix = Some (name, row) -> row_ok row.
Proof.
  unfold parsed_field. destruct (extractMutabilityOverlayDocsFieldEntry node) as [fieldName text]. case_match; [done|].
  destruct (classifyMutabilityOverlayDocsFieldEvidence text) as [[state detail] raw] eqn:E. intros [= _ <-]. unfold row_ok. cbn. by rewrite E.
Qed.

Lemma join_rows_ok (l : list Parsed) : Forall (fun p => Forall row_ok (fst p)) l -> Forall row_ok (fst (join_parsed l)).
Proof. induction 1 as [|p l Hp _ IH]; cbn; [constructor|]. by apply Forall_app. Qed.

Lemma html_ind' (P : HtmlNode -> Prop) :
  (forall data, P (TextNode data)) ->
  (forall data attributes nested, Forall P nested -> P (ElementNode data attributes nested)) ->
  (forall nested, Forall P nested -> P (OtherNode nested)) -> forall node, P node.
Proof.
  intros Ht He Ho. fix IH 1. intros [data attributes nested|data|nested]; [apply He|apply Ht|apply Ho].
  all: induction nested as [|n nested IHn]; constructor; [apply IH|exact IHn].
Qed.

Lemma walk_ok url title anchor node : forall mode prefix, Forall row_ok (fst (walk url title anchor mode prefix node)).
Proof.
  assert (Hmap : forall nested, Forall (fun n => forall mode prefix, Forall row_ok (fst (walk url title anchor mode prefix n))) nested ->
    forall mode prefix, Forall row_ok (fst (join_parsed (map (walk url title anchor mode prefix) nested)))).
  { intros nested Hn mode prefix. apply join_rows_ok. apply Forall_fmap. eapply Forall_impl; [exact Hn|]. intros n H. apply H. }
  assert (Hcons : forall name row prefix node' (p : Parsed), parsed_field url title anchor node' prefix = Some (name, row) ->
    Forall row_ok (fst p) -> Forall row_ok (fst (join_parsed [([row], []); p]))).
  { intros name row prefix node' p Hr Hp. apply join_rows_ok. repeat constructor; [by eapply parsed_field_ok|done]. }
  induction node as [data|data attributes nested Hn|nested Hn] using html_ind'; intros mode prefix; cbn [walk].
  all: destruct mode; repeat case_match; subst; try (by constructor); try (by apply Hmap).
  all: try (eapply Hcons; [eassumption|]; by (constructor || apply Hmap)).
  all: apply join_rows_ok; constructor; [constructor|constructor; [by (constructor || apply Hmap)|constructor]].
Qed.

(** The rows of a page that is accepted. *)
Lemma parsed_rows_ok html_Parse input r :
  parseMutabilityOverlayDocsArgumentReference html_Parse input = Ok r -> pr_Fields r <> [] /\ Forall row_ok (pr_Fields r).
Proof.
  unfold parseMutabilityOverlayDocsArgumentReference. destruct (html_Parse _) as [doc|]; [|done].
  destruct (findMutabilityOverlayDocsSectionHeading _ _) as [heading|]; [|done]. cbn zeta.
  match goal with |- context [join_parsed ?l] => set (p := join_parsed l) end.
  assert (Hp : Forall row_ok (fst p)) by (apply join_rows_ok, Forall_fmap, Forall_true; intros; apply walk_ok).
  clearbody p. destruct (fst p) as [|row rows]; [by destruct (countMutabilityOverlayDocsErrorDiagnostics _)|].
  destruct (countMutabilityOverlayDocsErrorDiagnostics _); [|done]. intros [= <-]. by split.
Qed.
