(* ===== verification/MutabilityPolicy.v ===== *)
(** * Mutability overlays and update policies

    [internal/generator/mutability_overlay.go], [mutability_overlay_integration.go], [vap_update_policy.go]
    and [vap_update_policy_integration.go]: from the mutation paths of a formal model and the parsed
    documentation to the overlay document of a resource, and from the overlay to the input of its
    ValidatingAdmissionPolicy, the list of the spec paths that may change in place and the rules for all
    others.  A resource has the parts of [ResourceModel] that these files read. *)

From stdpp Require Import list sorting.
From Stdlib Require Import Ascii String.
From S2P Require Import Prelude GoStrings GoErrors JsonValues Sorting AuthConfig GeneratorNames GeneratorSemantics CreateOnlyFingerprint.
From S2P Require Import MutabilityJoin MutabilityDocs.
Local Open Scope string_scope.
Local Open Scope list_scope.

(** ** Models *)

(** [Binding.Import] and [Binding.Manifest] of the formal model, next to what [FormalModel] has of them. *)
Record FormalBinding := mkFormalBinding {
  fb_SourceRef : string;
  fb_ProviderResource : string;
  fb_RepoAuthoredSpecPath : string;
  fb_SpecPath : string;
  fb_ImportPath : string
}.

Record ResourceModel := mkResourceModel {
  rsc_Kind : string;
  rsc_Formal : option (FormalModel * FormalBinding);
  rsc_HelperTypes : list TypeModel;
  rsc_SpecFields : list FieldModel
}.

Record mutabilityOverlayRegistryPageTarget := mkPageTarget {
  tgt_ProviderResource : string; tgt_TerraformDocsVersion : string; tgt_RegistryPath : string
}.

(** ** Paths of the formal model *)

Definition mutabilityOverlayASTSourceBucketMutable := "mutation.mutable".
Definition mutabilityOverlayASTSourceBucketForceNew := "mutation.forceNew".

Record mutabilityOverlayASTFieldInput := mkASTField {
  af_FieldPath : string;
  af_UpdateCandidateState : string;
  af_ForceNew : bool;
  af_ConflictsWith : list string;
  af_ASTSourceBucket : string
}.

Definition mutabilityOverlayMutationPaths (formal : FormalModel) : list string * list string :=
  let '(mutable, forceNew) := runtimeMutationPaths formal in (normalizeFormalPaths mutable, normalizeFormalPaths forceNew).

Definition ast_field (updateCandidates forceNew : list string) (conflicts : GoMap (list string)) (fieldPath : string)
  : mutabilityOverlayASTFieldInput :=
  let isUpdateCandidate := containsString updateCandidates fieldPath in
  let isForceNew := containsString forceNew fieldPath in
  mkASTField fieldPath
    (if isUpdateCandidate then mutabilityOverlayASTStateUpdateCandidate else mutabilityOverlayASTStateNotUpdateCandidate)
    isForceNew (default [] (map_get fieldPath conflicts))
    (if isForceNew then mutabilityOverlayASTSourceBucketForceNew else mutabilityOverlayASTSourceBucketMutable).

(** The paths come sorted from [uniqueSortedStrings]. *)
Definition mutabilityOverlayASTFields (resource : ResourceModel) : list mutabilityOverlayASTFieldInput :=
  match rsc_Formal resource with
  | None => []
  | Some (formal, _) =>
      let '(updateCandidates, forceNew) := mutabilityOverlayMutationPaths formal in
      let conflicts := normalizeFormalConflicts (imp_ConflictsWith formal) in
      sort_by (fun a b => String.leb (af_FieldPath a) (af_FieldPath b))
        (map (ast_field updateCandidates forceNew conflicts) (uniqueSortedStrings (updateCandidates ++ forceNew)))
  end.

Definition mutabilityOverlayNeedsDocs (fields : list mutabilityOverlayASTFieldInput) : bool :=
  existsb (fun field => (af_UpdateCandidateState field =? mutabilityOverlayASTStateUpdateCandidate)%string && negb (af_ForceNew field)) fields.

(** ** Overlay fields *)

Record mutabilityOverlayASTState := mkASTState { ast_UpdateCandidateState : string; ast_ForceNew : bool; ast_ConflictsWith : list string }.
Record mutabilityOverlayDocsEvidence := mkDocsEvidence { ev_EvidenceState : string; ev_Detail : string; ev_RawSignal : string }.
Record mutabilityOverlayProvenance := mkProvenance {
  pv_FormalImportPath : string;
  pv_FormalSourceRef : string;
  pv_ASTSourceBucket : string;
  pv_TerraformDocsPage : string;
  pv_TerraformDocsSection : string;
  pv_Notes : list string
}.
Record mutabilityOverlayField := mkOverlayField {
  of_ASTFieldPath : string;
  of_TerraformFieldPath : string;
  of_CanonicalJoinKey : string;
  of_PathShape : string;
  of_AST : mutabilityOverlayASTState;
  of_Docs : mutabilityOverlayDocsEvidence;
  of_Merge : mutabilityOverlayMergeResult;
  of_Provenance : mutabilityOverlayProvenance
}.

Definition not_documented (detail : string) : mutabilityOverlayDocsEvidence :=
  mkDocsEvidence mutabilityOverlayDocsStateNotDocumented detail "".
Definition noSignal := "No explicit Terraform docs update signal was found for this AST updateCandidate field.".

Definition defaultMutabilityOverlayDocsEvidence (astField : mutabilityOverlayASTFieldInput) : mutabilityOverlayDocsEvidence :=
  not_documented (if af_ForceNew astField then "AST forceNew remains authoritative; docs overlay was not applied to this field." else noSignal).

Fixpoint token_shape (tokens : list mutabilityOverlayPathToken) : option string :=
  match tokens with
  | [] => None
  | token :: rest =>
      if tok_wildcard token then Some mutabilityOverlayPathShapeMapEntry
      else if tok_listItem token then Some mutabilityOverlayPathShapeListItem
      else token_shape rest
  end.
Definition fallbackMutabilityOverlayPathShape (fieldPath : string) : string :=
  match parseMutabilityOverlayPathTokens fieldPath with
  | Err _ => mutabilityOverlayPathShapeScalar
  | Ok tokens =>
      match token_shape tokens with
      | Some shape => shape
      | None => if (1 <? length tokens)%nat then mutabilityOverlayPathShapeObject else mutabilityOverlayPathShapeScalar
      end
  end.

Definition doc_leb (a b : mutabilityOverlayDocsEvidenceComparison) : bool :=
  if (dc_FieldPath a =? dc_FieldPath b)%string then String.leb (dc_EvidenceState a) (dc_EvidenceState b)
  else String.leb (dc_FieldPath a) (dc_FieldPath b).

Definition collapseMutabilityOverlayDocsEvidence (astFieldPath : string) (comparison : mutabilityOverlayFieldComparison)
  : string * mutabilityOverlayDocsEvidence :=
  if (cmp_JoinStatus comparison =? mutabilityOverlayJoinAmbiguous)%string then
    let paths := uniqueSortedStrings (map (fun doc => TrimSpace (dc_FieldPath doc)) (cmp_CandidateDocs comparison)) in
    let rawSignal := Join paths ", " in
    let detail := "multiple Terraform docs field paths matched this AST field" in
    (astFieldPath, mkDocsEvidence mutabilityOverlayDocsStateAmbiguous
                     (if (rawSignal =? "")%string then detail else detail +++ ": " +++ rawSignal) rawSignal)
  else
    match sort_by doc_leb (cmp_CandidateDocs comparison) with
    | [] => (astFieldPath, not_documented noSignal)
    | selected :: _ =>
        (if (TrimSpace (dc_FieldPath selected) =? "")%string then astFieldPath else dc_FieldPath selected,
         mkDocsEvidence (dc_EvidenceState selected) (dc_Detail selected) (dc_RawSignal selected))
    end.

(** [path.Base]: the last element of a path. *)
Fixpoint drop_slashes (rev_path : list ascii) : list ascii :=
  match rev_path with c :: rest => if Ascii.eqb c "/" then drop_slashes rest else rev_path | [] => [] end.
Definition path_Base (p : string) : string :=
  if (p =? "")%string then "."
  else match drop_slashes (rev (list_ascii_of_string p)) with
       | [] => "/"
       | kept => default "" (last (Split (string_of_list_ascii (rev kept)) "/"))
       end.

Definition mutabilityOverlayDocsPageRef (target : mutabilityOverlayRegistryPageTarget) (sectionAnchor : string) : string :=
  let pageName := path_Base (TrimSpace (tgt_RegistryPath target)) in
  let pageName := if (pageName =? ".")%string || (pageName =? "/")%string || (pageName =? "")%string
                  then TrimSpace (tgt_ProviderResource target) else pageName in
  let sectionAnchor := TrimSpace sectionAnchor in
  if (sectionAnchor =? "")%string then pageName else pageName +++ "#" +++ sectionAnchor.

Section Fields.
Context (importPath sourceRef : string) (resolver : list FieldNode) (target : mutabilityOverlayRegistryPageTarget)
  (parsedDocs : option mutabilityOverlayDocsParseResult).

Definition docs_section : string :=
  match parsedDocs with
  | Some docs => let title := TrimSpace (pr_SectionTitle docs) in
                 if (title =? "")%string then mutabilityOverlayDocsSectionArgumentReference else title
  | None => mutabilityOverlayDocsSectionArgumentReference
  end.
Definition docs_anchor : string := match parsedDocs with Some docs => TrimSpace (pr_SectionAnchor docs) | None => "" end.

Definition provenance (astField : mutabilityOverlayASTFieldInput) (notes : list string) : mutabilityOverlayProvenance :=
  mkProvenance importPath sourceRef (af_ASTSourceBucket astField) (mutabilityOverlayDocsPageRef target docs_anchor) docs_section
    (uniqueSortedStrings notes).

Definition ast_state (astField : mutabilityOverlayASTFieldInput) : mutabilityOverlayASTState :=
  mkASTState (af_UpdateCandidateState astField) (af_ForceNew astField) (af_ConflictsWith astField).

(** The field, its documented evidence and its join status; the source's error result is always nil. *)
Definition overlay_field (astField : mutabilityOverlayASTFieldInput) (terraformPath joinKey shape : string)
  (docs : mutabilityOverlayDocsEvidence) (joinStatus : string) (notes : list string) : mutabilityOverlayField :=
  mkOverlayField (af_FieldPath astField) terraformPath joinKey shape (ast_state astField) docs
    (resolveMutabilityOverlayDecision (af_UpdateCandidateState astField) (af_ForceNew astField) (ev_EvidenceState docs) joinStatus)
    (provenance astField notes).

Definition buildMutabilityOverlayField (astField : mutabilityOverlayASTFieldInput) : mutabilityOverlayField :=
  let path := af_FieldPath astField in
  let default_docs := defaultMutabilityOverlayDocsEvidence astField in
  let astResolution := Resolve resolver path in
  match (res_Status astResolution =? mutabilityOverlayJoinMatched)%string, res_Candidates astResolution with
  | true, [candidate] =>
      let field := overlay_field astField in
      match parsedDocs with
      | Some docs =>
          if (af_UpdateCandidateState astField =? mutabilityOverlayASTStateUpdateCandidate)%string && negb (af_ForceNew astField) then
            let comparison := Compare resolver
              (mkComparisonInput path (af_UpdateCandidateState astField) (af_ForceNew astField) (EvidenceInputs docs)) in
            let '(terraformPath, evidence) := collapseMutabilityOverlayDocsEvidence path comparison in
            field terraformPath (CanonicalJoinKey candidate) (PathShape candidate) evidence (cmp_JoinStatus comparison)
              (cmp_Diagnostics comparison)
          else field path (CanonicalJoinKey candidate) (PathShape candidate) default_docs mutabilityOverlayJoinMatched []
      | None => field path (CanonicalJoinKey candidate) (PathShape candidate) default_docs mutabilityOverlayJoinMatched []
      end
  | _, _ =>
      overlay_field astField path path (fallbackMutabilityOverlayPathShape path) default_docs (res_Status astResolution)
        (("AST field path " +++ Quote path +++ " did not resolve to exactly one canonical join key") :: res_Diagnostics astResolution)
  end.
End Fields.

(** ** Overlay documents *)

Definition mutabilityOverlaySchemaVersion : Z := 1.
Definition mutabilityOverlaySurface := "generator-mutability-overlay".
Definition mutabilityOverlayContractVersion := "v1alpha1".
Definition mutabilityOverlayProviderSourceRef := "terraform-provider-oci".
Definition mutabilityOverlayUpdateCandidateAlias := "updateCandidate".
Definition mutabilityOverlayDocsOverlayScope := "terraform-argument-reference-for-ast-update-candidate-fields".
Definition mutabilityOverlayDocsEvidenceSource := "terraform-argument-reference".

Definition mutabilityOverlayASTPrimaryFacts : list string := ["forceNew"; "conflictsWith"; "lifecycle"; "hooks"; "crud"; "listLookup"].
Definition mutabilityOverlayPathShapes : list string :=
  [mutabilityOverlayPathShapeScalar; mutabilityOverlayPathShapeObject; mutabilityOverlayPathShapeListItem;
   mutabilityOverlayPathShapeMapEntry; mutabilityOverlayPathShapeUnsupported].
Definition mutabilityOverlayASTCandidateStates : list string :=
  [mutabilityOverlayASTStateUpdateCandidate; mutabilityOverlayASTStateNotUpdateCandidate].
Definition mutabilityOverlayASTSourceBuckets : list string :=
  [mutabilityOverlayASTSourceBucketMutable; mutabilityOverlayASTSourceBucketForceNew].
Definition mutabilityOverlayDocsEvidenceStates : list string :=
  [mutabilityOverlayDocsStateConfirmedUpdatable; mutabilityOverlayDocsStateDeniedUpdatable;
   mutabilityOverlayDocsStateReplacementRequired; mutabilityOverlayDocsStateUnknown; mutabilityOverlayDocsStateNotDocumented;
   mutabilityOverlayDocsStateAmbiguous; mutabilityOverlayDocsStateUnsupported].
Definition mutabilityOverlayJoinStatuses : list string :=
  [mutabilityOverlayJoinMatched; mutabilityOverlayJoinUnresolved; mutabilityOverlayJoinAmbiguous].
Definition mutabilityOverlayMergeCases : list string :=
  [mutabilityOverlayMergeCaseASTOnlyCandidate; mutabilityOverlayMergeCaseDocsConfirmedCandidate;
   mutabilityOverlayMergeCaseDocsDeniedCandidate; mutabilityOverlayMergeCaseReplacementRequired;
   mutabilityOverlayMergeCaseUnknown; mutabilityOverlayMergeCaseUnresolvedJoin].
Definition mutabilityOverlayFinalPolicies : list string :=
  [mutabilityOverlayPolicyAllowInPlaceUpdate; mutabilityOverlayPolicyDenyInPlaceUpdate;
   mutabilityOverlayPolicyReplacementRequired; mutabilityOverlayPolicyUnknown].

Record mutabilityOverlayMetadata := mkMetadata { mo_ProviderSourceRef : string; mo_ProviderRevision : string; mo_TerraformDocsVersion : string }.
Record mutabilityOverlaySourceContract := mkSourceContract {
  sct_ASTPrimaryFacts : list string; sct_ASTMutableAlias : string; sct_DocsOverlayScope : string; sct_DocsEvidenceSource : string
}.
Record mutabilityOverlayResource := mkOverlayResource {
  or_Service : string;
  or_Kind : string;
  or_FormalSlug : string;
  or_ProviderResource : string;
  or_RepoAuthoredSpecPath : string;
  or_FormalImportPath : string
}.
Record mutabilityOverlayDocument := mkOverlayDocument {
  od_SchemaVersion : Z;
  od_Surface : string;
  od_ContractVersion : string;
  od_Metadata : mutabilityOverlayMetadata;
  od_SourceContract : mutabilityOverlaySourceContract;
  od_Resource : mutabilityOverlayResource;
  od_Fields : list mutabilityOverlayField
}.

(** [%v] of a list of strings and [%+v] of a merge result. *)
Definition list_text (l : list string) : string := "[" +++ Join l " " +++ "]".
Definition merge_text (m : mutabilityOverlayMergeResult) : string :=
  "{JoinStatus:" +++ mr_JoinStatus m +++ " MergeCase:" +++ MergeCase m +++ " FinalPolicy:" +++ FinalPolicy m +++ "}".

Definition complain (problem : bool) (text : string) : list string := if problem then [text] else [].

Definition validateNonEmptyString (name value : string) : list string := complain (blank value) (name +++ " must not be empty").

Definition validateAllowedValue (name value : string) (allowed : list string) : list string :=
  complain (negb (containsString allowed value)) (name +++ " = " +++ Quote value +++ ", want one of " +++ list_text allowed).

Definition indexed (name : string) (index : nat) : string := name +++ "[" +++ Itoa (Z.of_nat index) +++ "]".

Definition validateNonEmptyStringList (name : string) (values : list string) : list string :=
  concat (imap (fun index value => validateNonEmptyString (indexed name index) value) values).

(** [strings.TrimSpace(value) != want]. *)
Definition validate_constant (name value want : string) : list string :=
  complain (negb (TrimSpace value =? want)%string) (name +++ " = " +++ Quote (TrimSpace value) +++ ", want " +++ Quote want).

Definition is_candidate (ast : mutabilityOverlayASTState) : bool :=
  (ast_UpdateCandidateState ast =? mutabilityOverlayASTStateUpdateCandidate)%string.

Definition validate_bucket (prefix : string) (field : mutabilityOverlayField) : list string :=
  let bucket := pv_ASTSourceBucket (of_Provenance field) in
  let text := prefix +++ ".provenance.astSourceBucket=" +++ Quote bucket in
  if (bucket =? mutabilityOverlayASTSourceBucketMutable)%string then
    complain (negb (is_candidate (of_AST field)))
      (text +++ " requires ast.updateCandidateState=" +++ Quote mutabilityOverlayASTStateUpdateCandidate) ++
    complain (ast_ForceNew (of_AST field)) (text +++ " must not carry forceNew=true")
  else if (bucket =? mutabilityOverlayASTSourceBucketForceNew)%string then
    complain (negb (ast_ForceNew (of_AST field))) (text +++ " requires ast.forceNew=true")
  else [].

Definition validateMutabilityOverlayField (prefix : string) (field : mutabilityOverlayField) : list string :=
  let ast := of_AST field in let merge := of_Merge field in let provenance := of_Provenance field in
  let expected := resolveMutabilityOverlayDecision (ast_UpdateCandidateState ast) (ast_ForceNew ast)
                    (ev_EvidenceState (of_Docs field)) (mr_JoinStatus merge) in
  validateNonEmptyString (prefix +++ ".astFieldPath") (of_ASTFieldPath field) ++
  validateNonEmptyString (prefix +++ ".terraformFieldPath") (of_TerraformFieldPath field) ++
  validateNonEmptyString (prefix +++ ".canonicalJoinKey") (of_CanonicalJoinKey field) ++
  validateAllowedValue (prefix +++ ".pathShape") (of_PathShape field) mutabilityOverlayPathShapes ++
  validateAllowedValue (prefix +++ ".ast.updateCandidateState") (ast_UpdateCandidateState ast) mutabilityOverlayASTCandidateStates ++
  validateAllowedValue (prefix +++ ".docs.evidenceState") (ev_EvidenceState (of_Docs field)) mutabilityOverlayDocsEvidenceStates ++
  validateAllowedValue (prefix +++ ".merge.joinStatus") (mr_JoinStatus merge) mutabilityOverlayJoinStatuses ++
  validateAllowedValue (prefix +++ ".merge.mergeCase") (MergeCase merge) mutabilityOverlayMergeCases ++
  validateAllowedValue (prefix +++ ".merge.finalPolicy") (FinalPolicy merge) mutabilityOverlayFinalPolicies ++
  validateNonEmptyStringList (prefix +++ ".ast.conflictsWith") (ast_ConflictsWith ast) ++
  validateNonEmptyString (prefix +++ ".provenance.formalImportPath") (pv_FormalImportPath provenance) ++
  validateNonEmptyString (prefix +++ ".provenance.formalSourceRef") (pv_FormalSourceRef provenance) ++
  validateAllowedValue (prefix +++ ".provenance.astSourceBucket") (pv_ASTSourceBucket provenance) mutabilityOverlayASTSourceBuckets ++
  validateNonEmptyString (prefix +++ ".provenance.terraformDocsPage") (pv_TerraformDocsPage provenance) ++
  validateNonEmptyString (prefix +++ ".provenance.terraformDocsSection") (pv_TerraformDocsSection provenance) ++
  validateNonEmptyStringList (prefix +++ ".provenance.notes") (pv_Notes provenance) ++
  complain (negb (is_candidate ast) && negb (ast_ForceNew ast)) (prefix +++ ".ast must be updateCandidate or forceNew") ++
  validate_bucket prefix field ++
  complain (negb (bool_decide (merge = expected))) (prefix +++ ".merge = " +++ merge_text merge +++ ", want " +++ merge_text expected).

Definition overlay_problems (doc : mutabilityOverlayDocument) : list string :=
  let metadata := od_Metadata doc in let contract := od_SourceContract doc in let resource := od_Resource doc in
  complain (negb (od_SchemaVersion doc =? mutabilityOverlaySchemaVersion)%Z)
    ("schemaVersion = " +++ Itoa (od_SchemaVersion doc) +++ ", want " +++ Itoa mutabilityOverlaySchemaVersion) ++
  validate_constant "surface" (od_Surface doc) mutabilityOverlaySurface ++
  validate_constant "contractVersion" (od_ContractVersion doc) mutabilityOverlayContractVersion ++
  validateNonEmptyString "metadata.providerSourceRef" (mo_ProviderSourceRef metadata) ++
  validateNonEmptyString "metadata.providerRevision" (mo_ProviderRevision metadata) ++
  validateNonEmptyString "metadata.terraformDocsVersion" (mo_TerraformDocsVersion metadata) ++
  complain (negb (bool_decide (sct_ASTPrimaryFacts contract = mutabilityOverlayASTPrimaryFacts)))
    ("sourceContract.astPrimaryFacts = " +++ list_text (sct_ASTPrimaryFacts contract) +++ ", want " +++
     list_text mutabilityOverlayASTPrimaryFacts) ++
  validate_constant "sourceContract.astMutableAlias" (sct_ASTMutableAlias contract) mutabilityOverlayUpdateCandidateAlias ++
  validate_constant "sourceContract.docsOverlayScope" (sct_DocsOverlayScope contract) mutabilityOverlayDocsOverlayScope ++
  validate_constant "sourceContract.docsEvidenceSource" (sct_DocsEvidenceSource contract) mutabilityOverlayDocsEvidenceSource ++
  validateNonEmptyString "resource.service" (or_Service resource) ++
  validateNonEmptyString "resource.kind" (or_Kind resource) ++
  validateNonEmptyString "resource.formalSlug" (or_FormalSlug resource) ++
  validateNonEmptyString "resource.providerResource" (or_ProviderResource resource) ++
  validateNonEmptyString "resource.repoAuthoredSpecPath" (or_RepoAuthoredSpecPath resource) ++
  validateNonEmptyString "resource.formalImportPath" (or_FormalImportPath resource) ++
  complain (is_nil (od_Fields doc)) "fields must not be empty" ++
  concat (imap (fun index field => validateMutabilityOverlayField (indexed "fields" index) field) (od_Fields doc)).

(** The error of a list of problems. *)
Definition joined_error (problems : list string) : option string :=
  match problems with [] => None | _ => Some (Join problems "; ") end.

Definition validateMutabilityOverlayDocument (doc : mutabilityOverlayDocument) : option string := joined_error (overlay_problems doc).

Record mutabilityOverlayGenerationError := mkGenerationError {
  ge_Reason : string;
  ge_Service : string;
  ge_Kind : string;
  ge_FormalSlug : string;
  ge_ProviderResource : string;
  ge_Detail : string
}.

Definition overlay_leb (a b : mutabilityOverlayField) : bool :=
  if negb (of_CanonicalJoinKey a =? of_CanonicalJoinKey b)%string then String.leb (of_CanonicalJoinKey a) (of_CanonicalJoinKey b)
  else if negb (of_ASTFieldPath a =? of_ASTFieldPath b)%string then String.leb (of_ASTFieldPath a) (of_ASTFieldPath b)
  else String.leb (of_TerraformFieldPath a) (of_TerraformFieldPath b).

Definition mutabilityOverlaySourceRefForResource (binding : FormalBinding) : string :=
  let sourceRef := TrimSpace (fb_SourceRef binding) in
  if (sourceRef =? "")%string then mutabilityOverlayProviderSourceRef else sourceRef.

Definition repo_spec_path (binding : FormalBinding) : string :=
  let path := TrimSpace (fb_RepoAuthoredSpecPath binding) in
  if (path =? "")%string then TrimSpace (fb_SpecPath binding) else path.

(** The document before its validation. *)
Definition overlay_document (service : string) (resource : ResourceModel) (formal : FormalModel) (binding : FormalBinding)
  (target : mutabilityOverlayRegistryPageTarget) (providerRevision : string) (parsedDocs : option mutabilityOverlayDocsParseResult)
  (astFields : list mutabilityOverlayASTFieldInput) : mutabilityOverlayDocument :=
  let sourceRef := mutabilityOverlaySourceRefForResource binding in
  let resolver := newMutabilityOverlayPathResolver (rsc_SpecFields resource) (rsc_HelperTypes resource) in
  mkOverlayDocument mutabilityOverlaySchemaVersion mutabilityOverlaySurface mutabilityOverlayContractVersion
    (mkMetadata sourceRef (TrimSpace providerRevision) (tgt_TerraformDocsVersion target))
    (mkSourceContract mutabilityOverlayASTPrimaryFacts mutabilityOverlayUpdateCandidateAlias mutabilityOverlayDocsOverlayScope
       mutabilityOverlayDocsEvidenceSource)
    (mkOverlayResource service (rsc_Kind resource) (fm_Slug formal) (tgt_ProviderResource target) (repo_spec_path binding)
       (fb_ImportPath binding))
    (sort_by overlay_leb (map (buildMutabilityOverlayField (fb_ImportPath binding) sourceRef resolver target parsedDocs) astFields)).

(** An error is its text, or the structured error of the generation. *)
Definition buildMutabilityOverlayDocument (service : string) (resource : ResourceModel) (target : mutabilityOverlayRegistryPageTarget)
  (providerRevision : string) (parsedDocs : option mutabilityOverlayDocsParseResult) (astFields : list mutabilityOverlayASTFieldInput)
  : result mutabilityOverlayDocument (string + mutabilityOverlayGenerationError) :=
  match rsc_Formal resource with
  | None => Err (inl "mutability overlay document requires a formal model")
  | Some (formal, binding) =>
      let doc := overlay_document service resource formal binding target providerRevision parsedDocs astFields in
      match validateMutabilityOverlayDocument doc with
      | Some e => Err (inr (mkGenerationError "invalidDocument" service (rsc_Kind resource) (fm_Slug formal) (tgt_ProviderResource target) e))
      | None => Ok doc
      end
  end.

(** ** Update policies *)

Definition vapUpdatePolicySchemaVersion : Z := 1.
Definition vapUpdatePolicySurface := "generator-vap-update-policy-input".
Definition vapUpdatePolicyContractVersion := "v1alpha1".
Definition vapUpdatePolicySpecPathPrefix := "spec".
Definition vapUpdatePolicyDenyDecisions : list string :=
  [mutabilityOverlayPolicyDenyInPlaceUpdate; mutabilityOverlayPolicyReplacementRequired; mutabilityOverlayPolicyUnknown].

Record vapUpdatePolicyMetadata := mkVapMetadata {
  vm_SourceSurface : string; vm_ProviderSourceRef : string; vm_ProviderRevision : string; vm_TerraformDocsVersion : string
}.
Record vapUpdatePolicyTarget := mkVapTarget {
  vt_Service : string; vt_APIVersion : string; vt_Kind : string; vt_FormalSlug : string; vt_ProviderResource : string; vt_SpecPathPrefix : string
}.
Record vapUpdatePolicyRule := mkVapRule {
  vr_FieldPath : string; vr_Decision : string; vr_MergeCase : string; vr_DocsEvidenceState : string; vr_Detail : string
}.
Record vapUpdatePolicyUpdate := mkVapUpdate { AllowInPlacePaths : list string; DenyRules : list vapUpdatePolicyRule }.
Record vapUpdatePolicyDocument := mkVapDocument {
  vd_SchemaVersion : Z;
  vd_Surface : string;
  vd_ContractVersion : string;
  vd_Metadata : vapUpdatePolicyMetadata;
  vd_Target : vapUpdatePolicyTarget;
  vd_Update : vapUpdatePolicyUpdate
}.

Definition validate_rule (allowed : list string) (index : nat) (rule : vapUpdatePolicyRule) : list string :=
  let prefix := indexed "update.denyRules" index in
  validateNonEmptyString (prefix +++ ".fieldPath") (vr_FieldPath rule) ++
  validateAllowedValue (prefix +++ ".decision") (vr_Decision rule) vapUpdatePolicyDenyDecisions ++
  validateAllowedValue (prefix +++ ".mergeCase") (vr_MergeCase rule) mutabilityOverlayMergeCases ++
  validateAllowedValue (prefix +++ ".docsEvidenceState") (vr_DocsEvidenceState rule) mutabilityOverlayDocsEvidenceStates ++
  complain (containsString allowed (vr_FieldPath rule))
    (prefix +++ ".fieldPath " +++ Quote (vr_FieldPath rule) +++ " also appears in update.allowInPlacePaths").

Definition policy_problems (doc : vapUpdatePolicyDocument) : list string :=
  let metadata := vd_Metadata doc in let target := vd_Target doc in let update := vd_Update doc in
  complain (negb (vd_SchemaVersion doc =? vapUpdatePolicySchemaVersion)%Z)
    ("schemaVersion = " +++ Itoa (vd_SchemaVersion doc) +++ ", want " +++ Itoa vapUpdatePolicySchemaVersion) ++
  validate_constant "surface" (vd_Surface doc) vapUpdatePolicySurface ++
  validate_constant "contractVersion" (vd_ContractVersion doc) vapUpdatePolicyContractVersion ++
  validate_constant "metadata.sourceSurface" (vm_SourceSurface metadata) mutabilityOverlaySurface ++
  validateNonEmptyString "metadata.providerSourceRef" (vm_ProviderSourceRef metadata) ++
  validateNonEmptyString "metadata.providerRevision" (vm_ProviderRevision metadata) ++
  validateNonEmptyString "metadata.terraformDocsVersion" (vm_TerraformDocsVersion metadata) ++
  validateNonEmptyString "target.service" (vt_Service target) ++
  validateNonEmptyString "target.apiVersion" (vt_APIVersion target) ++
  validateNonEmptyString "target.kind" (vt_Kind target) ++
  validateNonEmptyString "target.formalSlug" (vt_FormalSlug target) ++
  validateNonEmptyString "target.providerResource" (vt_ProviderResource target) ++
  validate_constant "target.specPathPrefix" (vt_SpecPathPrefix target) vapUpdatePolicySpecPathPrefix ++
  validateNonEmptyStringList "update.allowInPlacePaths" (AllowInPlacePaths update) ++
  complain (negb (bool_decide (AllowInPlacePaths update = uniqueSortedStrings (AllowInPlacePaths update))))
    "update.allowInPlacePaths must be unique and sorted" ++
  concat (imap (validate_rule (AllowInPlacePaths update)) (DenyRules update)).

Definition validateVAPUpdatePolicyDocument (doc : vapUpdatePolicyDocument) : option string := joined_error (policy_problems doc).

(** The parts of [PackageModel] that the policy takes. *)
Record PackageModel := mkPackageModel { pkg_Service : string; pkg_GroupDNSName : string; pkg_Version : string }.

Definition is_allowed (field : mutabilityOverlayField) : bool :=
  (FinalPolicy (of_Merge field) =? mutabilityOverlayPolicyAllowInPlaceUpdate)%string.
Definition is_denied (field : mutabilityOverlayField) : bool :=
  containsString vapUpdatePolicyDenyDecisions (FinalPolicy (of_Merge field)).

Definition deny_rule (field : mutabilityOverlayField) : vapUpdatePolicyRule :=
  mkVapRule (of_ASTFieldPath field) (FinalPolicy (of_Merge field)) (MergeCase (of_Merge field)) (ev_EvidenceState (of_Docs field))
    (TrimSpace (ev_Detail (of_Docs field))).

Definition rule_leb (a b : vapUpdatePolicyRule) : bool :=
  if negb (vr_FieldPath a =? vr_FieldPath b)%string then String.leb (vr_FieldPath a) (vr_FieldPath b)
  else String.leb (vr_Decision a) (vr_Decision b).

(** The loop over the fields: the first field whose policy is neither ends it. *)
Fixpoint split_fields (resource : mutabilityOverlayResource) (fields : list mutabilityOverlayField)
  : result (list string * list vapUpdatePolicyRule) string :=
  match fields with
  | [] => Ok ([], [])
  | field :: rest =>
      if is_allowed field || is_denied field then
        match split_fields resource rest with
        | Err e => Err e
        | Ok (allowPaths, denyRules) =>
            if is_allowed field then Ok (of_ASTFieldPath field :: allowPaths, denyRules)
            else Ok (allowPaths, deny_rule field :: denyRules)
        end
      else Err ("unsupported mutability overlay finalPolicy " +++ Quote (FinalPolicy (of_Merge field)) +++ " for service " +++
                Quote (or_Service resource) +++ " kind " +++ Quote (or_Kind resource) +++ " field " +++ Quote (of_ASTFieldPath field))
  end.

(** The checks that the overlay belongs to the resource. *)
Definition overlay_mismatch (pkg : PackageModel) (resource : ResourceModel) (formal : FormalModel) (binding : FormalBinding)
  (overlay : mutabilityOverlayResource) : option string :=
  let differs name got want := if (got =? want)%string then None
    else Some ("mutability overlay " +++ name +++ " = " +++ Quote got +++ ", want " +++ Quote want) in
  match differs "service" (TrimSpace (or_Service overlay)) (pkg_Service pkg) with
  | Some e => Some e
  | None =>
      match differs "kind" (TrimSpace (or_Kind overlay)) (rsc_Kind resource) with
      | Some e => Some e
      | None =>
          match differs "formalSlug" (TrimSpace (or_FormalSlug overlay)) (fm_Slug formal) with
          | Some e => Some e
          | None => differs "providerResource" (TrimSpace (or_ProviderResource overlay)) (TrimSpace (fb_ProviderResource binding))
          end
      end
  end.

Definition policy_document (pkg : PackageModel) (resource : ResourceModel) (overlayDoc : mutabilityOverlayDocument)
  (allowPaths : list string) (denyRules : list vapUpdatePolicyRule) : vapUpdatePolicyDocument :=
  let metadata := od_Metadata overlayDoc in
  mkVapDocument vapUpdatePolicySchemaVersion vapUpdatePolicySurface vapUpdatePolicyContractVersion
    (mkVapMetadata mutabilityOverlaySurface (mo_ProviderSourceRef metadata) (mo_ProviderRevision metadata) (mo_TerraformDocsVersion metadata))
    (mkVapTarget (pkg_Service pkg) (pkg_GroupDNSName pkg +++ "/" +++ pkg_Version pkg) (rsc_Kind resource)
       (or_FormalSlug (od_Resource overlayDoc)) (or_ProviderResource (od_Resource overlayDoc)) vapUpdatePolicySpecPathPrefix)
    (mkVapUpdate (uniqueSortedStrings allowPaths) (sort_by rule_leb denyRules)).

Definition buildVAPUpdatePolicyDocument (pkg : PackageModel) (resource : ResourceModel) (overlayDoc : mutabilityOverlayDocument)
  : result vapUpdatePolicyDocument string :=
  match rsc_Formal resource with
  | None => Err "vap update policy document requires a formal-backed resource"
  | Some (formal, binding) =>
      match validateMutabilityOverlayDocument overlayDoc with
      | Some e => Err ("validate source mutability overlay for service " +++ Quote (or_Service (od_Resource overlayDoc)) +++ " kind " +++
                       Quote (or_Kind (od_Resource overlayDoc)) +++ ": " +++ e)
      | None =>
          match overlay_mismatch pkg resource formal binding (od_Resource overlayDoc) with
          | Some e => Err e
          | None =>
              match split_fields (od_Resource overlayDoc) (od_Fields overlayDoc) with
              | Err e => Err e
              | Ok (allowPaths, denyRules) =>
                  let doc := policy_document pkg resource overlayDoc allowPaths denyRules in
                  match validateVAPUpdatePolicyDocument doc with
                  | Some e => Err ("build vap update policy document for service " +++ Quote (pkg_Service pkg) +++ " kind " +++
                                   Quote (rsc_Kind resource) +++ ": " +++ e)
                  | None => Ok doc
                  end
              end
          end
      end
  end.

(** ** Normalised paths have no surrounding blanks *)

Lemma trim_left_full s : String.length (trim_left s) = String.length s -> trim_left s = s.
Proof.
  destruct s as [|c s]; cbn; [done|]. destruct (is_space c); [|done]. intros H. pose proof (trim_left_length s). lia.
Qed.

Lemma trim_right_full s : String.length (trim_right s) = String.length s -> trim_right s = s.
Proof.
  induction s as [|c s IH]; cbn; [done|]. destruct (trim_right s) as [|d t] eqn:E; [destruct (is_space c); cbn; intros H; [lia|]|cbn; intros H].
  - destruct s; [done|]. cbn in H. lia.
  - rewrite IH; [done|]. cbn. lia.
Qed.

Lemma string_map_length f s : String.length (string_map f s) = String.length s.
Proof. induction s as [|c s IH]; cbn; [done|]. by rewrite IH. Qed.

(** Blanks are seen in a text whatever its case is. *)
Lemma trimmed_case s t : ToLower s = ToLower t -> TrimSpace t = t -> TrimSpace s = s.
Proof.
  intros Hst Ht. assert (Hl : String.length (TrimSpace s) = String.length s).
  { rewrite <-(string_map_length lower_char (TrimSpace s)), <-(string_map_length lower_char s). fold ToLower. fold (ToLower (TrimSpace s)).
    by rewrite <-TrimSpace_ToLower, Hst, TrimSpace_ToLower, Ht. }
  unfold TrimSpace in *. pose proof (trim_left_length s). pose proof (trim_right_length (trim_left s)).
  assert (Hs : trim_left s = s) by (apply trim_left_full; lia). rewrite Hs in *. by apply trim_right_full.
Qed.

Lemma lower_upper_char c : lower_char (upper_char c) = lower_char c.
Proof. by destruct c as [[] [] [] [] [] [] [] []]. Qed.

Lemma ToLower_app s t : ToLower (s +++ t) = ToLower s +++ ToLower t.
Proof. induction s as [|c s IH]; [done|]. rewrite string_app_cons. cbn. rewrite string_app_cons. f_equal. exact IH. Qed.

Lemma substring_full n s : String.length s <= n -> String.substring 0 n s = s.
Proof. revert n. induction s as [|c s IH]; intros [|n] H; cbn in *; try done; try lia. by rewrite IH by lia. Qed.

Lemma upper_first_case token : ToLower (upper_first token) = ToLower token.
Proof.
  destruct token as [|c token]; [done|]. unfold upper_first. cbn [String.substring ToUpper string_map String.length].
  replace (String.substring 0 0 token) with "" by by destruct token. rewrite substring_full by lia.
  rewrite string_app_cons. change (ToUpper "" +++ token) with token. unfold ToLower. cbn [string_map]. by rewrite lower_upper_char.
Qed.

Lemma concat_cons s l : String.concat "" (s :: l) = s +++ String.concat "" l.
Proof. destruct l; cbn; [by rewrite string_app_nil_r|done]. Qed.

Lemma split_camel_concat s : forall prev current, String.concat "" (split_camel prev current s) = ToLower (current +++ s).
Proof.
  induction s as [|c s IH]; intros prev current; cbn [split_camel].
  - destruct (current =? "")%string eqn:E; [by apply String.eqb_eq in E as ->|]. by rewrite string_app_nil_r.
  - destruct (match prev with Some _ => _ | None => _ end).
    + rewrite concat_cons, IH, <-ToLower_app, string_app_cons. by change ("" +++ s) with s.
    + rewrite IH, string_app_assoc, string_app_cons. by change ("" +++ s) with s.
Qed.

Lemma concat_case l : ToLower (String.concat "" (map upper_first l)) = ToLower (String.concat "" l).
Proof. induction l as [|s l IH]; [done|]. cbn [map]. by rewrite !concat_cons, !ToLower_app, upper_first_case, IH. Qed.

Lemma lowerCamel_case name : TrimSpace name <> "" -> ToLower (gen_lowerCamel name) = ToLower name.
Proof.
  intros Hn. pose proof (split_camel_concat name None "") as Hc. unfold gen_lowerCamel. rewrite splitCamel_agree. unfold splitCamel.
  rewrite (proj2 (String.eqb_neq _ _) Hn). change ("" +++ name) with name in Hc. destruct (split_camel None "" name) as [|first rest].
  - rewrite <-(ToLower_idem name), <-Hc. done.
  - rewrite (concat_fold upper_first), ToLower_app, concat_case, <-ToLower_app. change (first +++ ?x) with (String.append first x) in *.
    rewrite <-concat_cons, Hc. apply ToLower_idem.
Qed.

Lemma trimmed_concat l : Forall (fun s => TrimSpace s = s) l -> TrimSpace (String.concat "" l) = String.concat "" l.
Proof. induction 1 as [|s l Hs _ IH]; [done|]. rewrite concat_cons. by apply trimmed_append. Qed.

Lemma snakeToLowerCamel_trimmed value : TrimSpace (snakeToLowerCamel value) = snakeToLowerCamel value.
Proof.
  unfold snakeToLowerCamel. destruct (TrimSpace value =? "")%string eqn:E; [done|]. apply String.eqb_neq in E.
  destruct (negb _); [eapply trimmed_case; [apply lowerCamel_case; by rewrite TrimSpace_idem|apply TrimSpace_idem]|].
  assert (Hp : Forall (fun s => TrimSpace s = s) (map (fun part => ToLower (TrimSpace part)) (Split (TrimSpace value) "_"))).
  { apply Forall_fmap, Forall_true. intros part. change (TrimSpace (ToLower (TrimSpace part)) = ToLower (TrimSpace part)).
    by rewrite TrimSpace_ToLower, TrimSpace_idem. }
  destruct (map _ (Split (TrimSpace value) "_")) as [|first rest]; [done|]. apply Forall_cons in Hp as [Hf Hr].
  apply trimmed_append; [done|]. apply trimmed_concat, Forall_fmap. eapply Forall_impl; [exact Hr|]. intros part Hpart.
  change (TrimSpace (if (part =? "")%string then "" else upper_first part) = (if (part =? "")%string then "" else upper_first part)).
  destruct (part =? "")%string; [done|]. eapply trimmed_case; [apply upper_first_case|done].
Qed.

Lemma normalizeFormalPath_trimmed path : TrimSpace (normalizeFormalPath path) = normalizeFormalPath path.
Proof.
  unfold normalizeFormalPath. destruct (_ =? "")%string; [done|]. apply trimmed_Join; [done|].
  apply Forall_fmap, Forall_true. intros part. apply snakeToLowerCamel_trimmed.
Qed.

Lemma normalizeFormalPaths_elem paths path : path ∈ normalizeFormalPaths paths -> TrimSpace path = path /\ path <> "".
Proof.
  intros [Hin Hne]%normal_list_elem. apply list_elem_of_fmap in Hin as (p & -> & _). split; [apply normalizeFormalPath_trimmed|done].
Qed.

(** ** The paths of the formal model as fields *)

Lemma nonblank path : TrimSpace path = path -> path <> "" -> blank path = false.
Proof. intros Ht Hn. unfold blank. by rewrite Ht, (proj2 (String.eqb_neq _ _) Hn). Qed.

Lemma uniqueSorted_elem l x : x ∈ uniqueSortedStrings l -> TrimSpace x = x /\ x <> "".
Proof.
  intros [Hin Hn]%normal_list_elem. apply list_elem_of_fmap in Hin as (y & -> & _). by rewrite TrimSpace_idem.
Qed.

Lemma uniqueSorted_trimmed l x : Forall (fun s => TrimSpace s = s) l -> x ∈ uniqueSortedStrings l <-> x ∈ l /\ x <> "".
Proof.
  intros Hl. unfold uniqueSortedStrings. rewrite normal_list_elem. replace (map TrimSpace l) with l; [done|].
  induction Hl as [|s l Hs _ IH]; [done|]. cbn. by rewrite Hs, <-IH.
Qed.

Lemma conflicts_nonblank conflicts path blocked :
  map_get path (normalizeFormalConflicts conflicts) = Some blocked -> Forall (fun s => blank s = false) blocked.
Proof.
  unfold normalizeFormalConflicts. assert (H : forall path blocked, map_get path (@nil (string * list string)) = Some blocked ->
    Forall (fun s => blank s = false) blocked) by done.
  revert H. generalize (@nil (string * list string)). induction conflicts as [|[field paths] conflicts IH]; intros out Hout; cbn; [apply Hout|].
  apply IH. intros path' blocked'. destruct (decide (normalizeFormalPath field = path')) as [->|Hne].
  - rewrite map_get_set_eq. intros [= <-]. apply Forall_forall. intros s [Ht Hn]%normalizeFormalPaths_elem. by apply nonblank.
  - rewrite map_get_set_ne by done. apply Hout.
Qed.

(** The fields of a resource: one for every mutation path. *)
Lemma ast_fields_elem resource formal binding a :
  rsc_Formal resource = Some (formal, binding) ->
  a ∈ mutabilityOverlayASTFields resource <->
  exists path, (path ∈ fst (mutabilityOverlayMutationPaths formal) \/ path ∈ snd (mutabilityOverlayMutationPaths formal)) /\
    a = ast_field (fst (mutabilityOverlayMutationPaths formal)) (snd (mutabilityOverlayMutationPaths formal))
          (normalizeFormalConflicts (imp_ConflictsWith formal)) path.
Proof.
  intros Hf. unfold mutabilityOverlayASTFields. rewrite Hf.
  assert (Hp : forall p, p ∈ fst (mutabilityOverlayMutationPaths formal) \/ p ∈ snd (mutabilityOverlayMutationPaths formal) -> TrimSpace p = p /\ p <> "").
  { intros p. unfold mutabilityOverlayMutationPaths. destruct (runtimeMutationPaths formal). cbn. by intros [H|H]; eapply normalizeFormalPaths_elem. }
  destruct (mutabilityOverlayMutationPaths formal) as [updates forceNew]. cbn [fst snd] in *. rewrite helper_sort_perm, list_elem_of_fmap.
  apply exist_proper. intros path. rewrite uniqueSorted_trimmed, elem_of_app.
  - split; [intros (-> & H & _); by split|]. intros (H & ->). by destruct (Hp path H).
  - apply Forall_forall. intros p H. apply Hp. by apply elem_of_app.
Qed.

(** What every such field has. *)
Record ast_good (a : mutabilityOverlayASTFieldInput) : Prop := {
  good_trimmed : TrimSpace (af_FieldPath a) = af_FieldPath a;
  good_nonempty : af_FieldPath a <> "";
  good_state : af_UpdateCandidateState a = mutabilityOverlayASTStateUpdateCandidate \/
               af_UpdateCandidateState a = mutabilityOverlayASTStateNotUpdateCandidate /\ af_ForceNew a = true;
  good_bucket : af_ASTSourceBucket a =
    if af_ForceNew a then mutabilityOverlayASTSourceBucketForceNew else mutabilityOverlayASTSourceBucketMutable;
  good_conflicts : Forall (fun s => blank s = false) (af_ConflictsWith a)
}.

Lemma ast_fields_good resource formal binding a :
  rsc_Formal resource = Some (formal, binding) -> a ∈ mutabilityOverlayASTFields resource -> ast_good a.
Proof.
  intros Hf (path & Hin & ->)%(ast_fields_elem _ _ _ _ Hf).
  assert (Hp : TrimSpace path = path /\ path <> "").
  { revert Hin. unfold mutabilityOverlayMutationPaths. destruct (runtimeMutationPaths formal). cbn. by intros [H|H]; eapply normalizeFormalPaths_elem. }
  destruct (mutabilityOverlayMutationPaths formal) as [updates forceNew]. cbn [fst snd] in *. unfold ast_field.
  split; cbn; [apply Hp..| |done|].
  - destruct Hin as [Hin|Hin]; apply containsString_spec in Hin; rewrite Hin; [by left|]. destruct (containsString updates path); [by left|by right].
  - destruct (map_get path _) as [blocked|] eqn:E; [|constructor]. by eapply conflicts_nonblank.
Qed.

(** ** Generated fields are valid *)

Lemma complain_nil problem text : complain problem text = [] <-> problem = false.
Proof. by destruct problem. Qed.
Lemma nonempty_nil name value : validateNonEmptyString name value = [] <-> blank value = false.
Proof. apply complain_nil. Qed.
Lemma allowed_nil name value allowed : validateAllowedValue name value allowed = [] <-> value ∈ allowed.
Proof. unfold validateAllowedValue. by rewrite complain_nil, negb_false_iff, containsString_spec. Qed.
Lemma constant_nil name value want : validate_constant name value want = [] <-> TrimSpace value = want.
Proof. unfold validate_constant. by rewrite complain_nil, negb_false_iff, String.eqb_eq. Qed.

Lemma concat_imap_nil {A B} (f : nat -> A -> list B) l : concat (imap f l) = [] <-> forall i x, l !! i = Some x -> f i x = [].
Proof.
  revert f. induction l as [|y l IH]; intros f; [done|]. rewrite imap_cons. cbn [concat]. rewrite app_nil, IH. split.
  - intros [Hy Hl] [|i] x; cbn; [by intros [= <-]|]. apply (Hl i).
  - intros H. split; [by apply (H 0)|]. intros i x Hx. by apply (H (S i)).
Qed.

Lemma nonempty_list_nil name values : validateNonEmptyStringList name values = [] <-> Forall (fun s => blank s = false) values.
Proof.
  unfold validateNonEmptyStringList. rewrite concat_imap_nil, Forall_lookup. by setoid_rewrite nonempty_nil.
Qed.

Lemma joined_error_nil problems : joined_error problems = None <-> problems = [].
Proof. by destruct problems. Qed.

Lemma decision_status state forceNew docs status : mr_JoinStatus (resolveMutabilityOverlayDecision state forceNew docs status) = status.
Proof. unfold resolveMutabilityOverlayDecision. by repeat case_match. Qed.
Lemma decision_cases state forceNew docs status :
  MergeCase (resolveMutabilityOverlayDecision state forceNew docs status) ∈ mutabilityOverlayMergeCases /\
  FinalPolicy (resolveMutabilityOverlayDecision state forceNew docs status) ∈ mutabilityOverlayFinalPolicies.
Proof. unfold resolveMutabilityOverlayDecision. repeat case_match; split; by apply containsString_spec. Qed.

Lemma decision_allows state forceNew docs status :
  FinalPolicy (resolveMutabilityOverlayDecision state forceNew docs status) = mutabilityOverlayPolicyAllowInPlaceUpdate <->
  forceNew = false /\ state = mutabilityOverlayASTStateUpdateCandidate /\ status = mutabilityOverlayJoinMatched /\
  docs = mutabilityOverlayDocsStateConfirmedUpdatable.
Proof.
  unfold resolveMutabilityOverlayDecision. destruct forceNew; cbn [orb]; [by split; [|intros (? & _)]|].
  destruct (docs =? mutabilityOverlayDocsStateReplacementRequired)%string eqn:E1; bool_prop; [subst; by split; [|intros (_ & _ & _ & ?)]|].
  destruct (state =? _)%string eqn:E2; bool_prop; cbn [negb]; [|by split; [|intros (_ & ? & _)]].
  destruct (status =? _)%string eqn:E3; bool_prop; cbn [negb]; [|by split; [|intros (_ & _ & ? & _)]].
  destruct (docs =? mutabilityOverlayDocsStateConfirmedUpdatable)%string eqn:E4; bool_prop; [by subst|].
  split; [by repeat case_match|]. by intros (_ & _ & _ & ?).
Qed.

Section ValidFields.
Context (importPath sourceRef : string) (resolver : list FieldNode) (target : mutabilityOverlayRegistryPageTarget)
  (parsedDocs : option mutabilityOverlayDocsParseResult).

Definition page_ref : string := mutabilityOverlayDocsPageRef target (docs_anchor parsedDocs).

(** What the fields of a document need from outside. *)
Definition sources_ok : Prop := blank importPath = false /\ blank sourceRef = false /\ blank page_ref = false.

Lemma section_nonblank : blank (docs_section parsedDocs) = false.
Proof.
  unfold docs_section. destruct parsedDocs as [docs|]; [|done]. cbn zeta. destruct (TrimSpace (pr_SectionTitle docs) =? "")%string eqn:E; [done|].
  apply nonblank; [apply TrimSpace_idem|by bool_prop].
Qed.

Lemma overlay_field_valid prefix a terraformPath joinKey shape docs status notes :
  ast_good a -> blank terraformPath = false -> blank joinKey = false -> shape ∈ mutabilityOverlayPathShapes ->
  ev_EvidenceState docs ∈ mutabilityOverlayDocsEvidenceStates -> status ∈ mutabilityOverlayJoinStatuses ->
  validateMutabilityOverlayField prefix
    (overlay_field importPath sourceRef target parsedDocs a terraformPath joinKey shape docs status notes) = [] <-> sources_ok.
Proof.
  intros [Ht Hn Hs Hb Hc] Htp Hk Hsh Hd Hj. unfold validateMutabilityOverlayField, sources_ok, page_ref. cbn zeta.
  unfold overlay_field. cbn [of_ASTFieldPath of_TerraformFieldPath of_CanonicalJoinKey of_PathShape of_AST of_Docs of_Merge of_Provenance
    provenance ast_state ast_UpdateCandidateState ast_ForceNew ast_ConflictsWith pv_FormalImportPath pv_FormalSourceRef
    pv_ASTSourceBucket pv_TerraformDocsPage pv_TerraformDocsSection pv_Notes].
  rewrite decision_status, !app_nil, !nonempty_nil, !allowed_nil, !nonempty_list_nil, !complain_nil.
  destruct (decision_cases (af_UpdateCandidateState a) (af_ForceNew a) (ev_EvidenceState docs) status) as [Hmc Hfp].
  assert (Hnotes : Forall (fun s => blank s = false) (uniqueSortedStrings notes)).
  { apply Forall_forall. intros s [? ?]%uniqueSorted_elem. by apply nonblank. }
  assert (Hstate : af_UpdateCandidateState a ∈ mutabilityOverlayASTCandidateStates) by (destruct Hs as [-> | [-> _]]; by apply containsString_spec).
  assert (Hbucket : af_ASTSourceBucket a ∈ mutabilityOverlayASTSourceBuckets) by (rewrite Hb; by apply containsString_spec; destruct (af_ForceNew a)).
  assert (Hcand : negb (is_candidate (mkASTState (af_UpdateCandidateState a) (af_ForceNew a) (af_ConflictsWith a))) && negb (af_ForceNew a) = false).
  { unfold is_candidate. cbn. by destruct Hs as [-> | [-> ->]]. }
  assert (Hvb : validate_bucket prefix (overlay_field importPath sourceRef target parsedDocs a terraformPath joinKey shape docs status notes) = []).
  { unfold validate_bucket, is_candidate. cbn. rewrite Hb. destruct Hs as [-> | [-> ->]]; [|done]. by destruct (af_ForceNew a). }
  unfold overlay_field in Hvb. cbn [provenance ast_state] in Hvb. rewrite Hvb, bool_decide_eq_true_2 by done.
  pose proof (nonblank _ Ht Hn) as Hpath. pose proof section_nonblank as Hsec. clear -Htp Hk Hsh Hd Hj Hmc Hfp Hnotes Hstate Hbucket Hcand Hpath Hsec Hc.
  cbn [negb]. tauto.
Qed.
Lemma distinct_nonblank seen paths c : c ∈ distinct_paths seen paths -> blank (CanonicalJoinKey c) = false.
Proof.
  revert seen. induction paths as [|p paths IH]; intros seen; cbn; [by intros ?%elem_of_nil|].
  destruct (blank (CanonicalJoinKey p)) eqn:E; [apply IH|]. case_bool_decide; [apply IH|].
  intros [->|Hc]%elem_of_cons; [done|by eapply IH].
Qed.

Lemma candidate_fits path c :
  c ∈ res_Candidates (Resolve resolver path) -> blank (CanonicalJoinKey c) = false /\ PathShape c ∈ mutabilityOverlayPathShapes.
Proof.
  intros Hc. split.
  - rewrite Resolve_candidates in Hc. destruct (parseMutabilityOverlayPathTokens path); [|by apply elem_of_nil in Hc].
    unfold dedupeMutabilityOverlayCanonicalFieldPaths in Hc. rewrite helper_sort_perm in Hc. by eapply distinct_nonblank.
  - apply candidates_canonical in Hc as (segments & k & _ & ->). cbn. unfold inferMutabilityOverlayPathShape.
    apply containsString_spec. destruct (segment_shape segments) as [shape|] eqn:E; [|by case_match].
    revert E. induction segments as [|s segments IH]; cbn [segment_shape]; [done|].
    destruct (s =? "*")%string; [by intros [= <-]|]. destruct (HasSuffix s "[]"); [by intros [= <-]|exact IH].
Qed.

(** The status of a resolution counts its candidates. *)
Lemma Resolve_status path :
  res_Status (Resolve resolver path) =
    match res_Candidates (Resolve resolver path) with
    | [] => mutabilityOverlayJoinUnresolved
    | [_] => mutabilityOverlayJoinMatched
    | _ => mutabilityOverlayJoinAmbiguous
    end.
Proof.
  unfold Resolve. destruct (parseMutabilityOverlayPathTokens path); [|done].
  destruct (dedupeMutabilityOverlayCanonicalFieldPaths _) as [|? [|? ?]] eqn:E; cbn; by rewrite ?E.
Qed.

Lemma status_fits path : res_Status (Resolve resolver path) ∈ mutabilityOverlayJoinStatuses.
Proof. rewrite Resolve_status. apply containsString_spec. by repeat case_match. Qed.

Lemma fallback_fits path : fallbackMutabilityOverlayPathShape path ∈ mutabilityOverlayPathShapes.
Proof.
  apply containsString_spec. unfold fallbackMutabilityOverlayPathShape. destruct (parseMutabilityOverlayPathTokens path) as [tokens|]; [|done].
  destruct (token_shape tokens) as [shape|] eqn:E; [|by case_match].
  revert E. induction tokens as [|t tokens IH]; cbn [token_shape]; [done|].
  destruct (tok_wildcard t); [by intros [= <-]|]. destruct (tok_listItem t); [by intros [= <-]|exact IH].
Qed.

(** The documented rows that a comparison chooses are among its input, and its status is one of the three. *)
Lemma choice_fits docs astPath astResolution joinKey :
  let choice := compare_matched docs astPath astResolution joinKey in
  ch_Status choice ∈ mutabilityOverlayJoinStatuses /\ forall doc, doc ∈ ch_Docs choice -> doc ∈ docs.
Proof.
  assert (Hsub : forall P doc, doc ∈ List.filter P docs -> doc ∈ docs) by (intros P doc; rewrite !list_elem_of_In, List.filter_In; tauto).
  assert (Happ : forall l k : list DocComparison, (forall d, d ∈ l -> d ∈ docs) -> (forall d, d ∈ k -> d ∈ docs) -> forall d, d ∈ l ++ k -> d ∈ docs).
  { intros l k Hl Hk d [H|H]%elem_of_app; auto. }
  unfold compare_matched. cbn zeta.
  pose proof (Hsub _ : forall d, d ∈ matchedMutabilityOverlayDocsByCanonicalKey docs joinKey -> _) as H1.
  pose proof (Hsub _ : forall d, d ∈ ambiguousMutabilityOverlayDocsByCanonicalKey docs joinKey -> _) as H2.
  pose proof (Hsub _ : forall d, d ∈ relatedMutabilityOverlayDocsByFamilyKey docs joinKey (mutabilityOverlayJoinFamilyKey joinKey) -> _) as H3.
  pose proof (Hsub _ : forall d, d ∈ ambiguousMutabilityOverlayDocsByFamilyKey docs joinKey (mutabilityOverlayJoinFamilyKey joinKey) -> _) as H4.
  destruct (matchedMutabilityOverlayDocsByCanonicalKey _ _) as [|? [|? ?]], (ambiguousMutabilityOverlayDocsByCanonicalKey _ _) as [|? ?],
    (relatedMutabilityOverlayDocsByFamilyKey _ _ _) as [|? [|? ?]], (ambiguousMutabilityOverlayDocsByFamilyKey _ _ _) as [|? ?];
    (split; [by apply containsString_spec|]); cbn [ch_Docs]; auto.
  all: apply Happ; auto.
Qed.

Lemma comparison_fits input :
  cmp_JoinStatus (Compare resolver input) ∈ mutabilityOverlayJoinStatuses /\
  forall doc, doc ∈ cmp_CandidateDocs (Compare resolver input) -> doc ∈ map (compare_doc resolver) (ci_DocsEvidence input).
Proof.
  assert (Hrel : forall r docs doc, doc ∈ relevantMutabilityOverlayDocsForAmbiguousAST r docs -> doc ∈ docs).
  { intros r docs doc. unfold relevantMutabilityOverlayDocsForAmbiguousAST. rewrite !list_elem_of_In, List.filter_In. tauto. }
  unfold Compare. cbn zeta. destruct (res_Status (Resolve _ _) =? _)%string; [|split; [apply status_fits|apply Hrel]].
  destruct (res_Candidates _) as [|c cs]; [split; [apply status_fits|apply Hrel]|]. apply choice_fits.
Qed.

(** The evidence that a field takes over is one of the states of the schema. *)
Lemma collapse_fits path comparison :
  blank path = false ->
  (forall doc, doc ∈ cmp_CandidateDocs comparison -> dc_EvidenceState doc ∈ mutabilityOverlayDocsEvidenceStates) ->
  blank (fst (collapseMutabilityOverlayDocsEvidence path comparison)) = false /\
  ev_EvidenceState (snd (collapseMutabilityOverlayDocsEvidence path comparison)) ∈ mutabilityOverlayDocsEvidenceStates.
Proof.
  intros Hp Hdocs. unfold collapseMutabilityOverlayDocsEvidence. destruct (cmp_JoinStatus comparison =? _)%string.
  { split; [done|]. by apply containsString_spec. }
  assert (Hs : forall doc, doc ∈ sort_by doc_leb (cmp_CandidateDocs comparison) -> doc ∈ cmp_CandidateDocs comparison).
  { intros doc. by rewrite helper_sort_perm. }
  destruct (sort_by doc_leb _) as [|selected rest]; [split; [done|]; by apply containsString_spec|].
  split; [|apply Hdocs, Hs; by left]. cbn [fst]. unfold blank. by destruct (TrimSpace (dc_FieldPath selected) =? "")%string eqn:E.
Qed.

(** The rows of a parsed page have states of the schema. *)
Lemma docs_states_fit state : state ∈ docs_states -> TrimSpace state = state /\ state ∈ mutabilityOverlayDocsEvidenceStates.
Proof.
  assert (H : Forall (fun s => TrimSpace s = s /\ s ∈ mutabilityOverlayDocsEvidenceStates) docs_states)
    by (apply (bool_decide_unpack _); by vm_compute).
  rewrite Forall_forall in H. apply H.
Qed.

Definition docs_ok : Prop := forall docs, parsedDocs = Some docs -> Forall row_ok (pr_Fields docs).

Lemma evidence_fits docs doc :
  Forall row_ok (pr_Fields docs) -> doc ∈ map (compare_doc resolver) (EvidenceInputs docs) ->
  dc_EvidenceState doc ∈ mutabilityOverlayDocsEvidenceStates.
Proof.
  intros Hrows Hin. unfold EvidenceInputs in Hin. rewrite map_map in Hin. apply list_elem_of_fmap in Hin as (row & -> & Hrow).
  rewrite Forall_forall in Hrows. specialize (Hrows row Hrow). unfold row_ok in Hrows.
  cbn [dc_EvidenceState compare_doc in_EvidenceState]. rewrite Hrows.
  destruct (docs_states_fit _ (proj1 (classify_spec (loc_EvidenceText (pe_Provenance row))))) as [-> H]. exact H.
Qed.

Lemma field_valid prefix a :
  ast_good a -> docs_ok ->
  validateMutabilityOverlayField prefix (buildMutabilityOverlayField importPath sourceRef resolver target parsedDocs a) = [] <-> sources_ok.
Proof.
  intros Ha Hdocs. pose proof (nonblank _ (good_trimmed a Ha) (good_nonempty a Ha)) as Hp.
  assert (Hdef : ev_EvidenceState (defaultMutabilityOverlayDocsEvidence a) ∈ mutabilityOverlayDocsEvidenceStates) by (by apply containsString_spec).
  assert (Hmatched : mutabilityOverlayJoinMatched ∈ mutabilityOverlayJoinStatuses) by (by apply containsString_spec).
  unfold buildMutabilityOverlayField. cbn zeta.
  pose proof (candidate_fits (af_FieldPath a)) as Hc. destruct (res_Candidates (Resolve _ _)) as [|c [|c' cs]].
  1, 3: destruct (_ =? mutabilityOverlayJoinMatched)%string; by apply overlay_field_valid; [| | |apply fallback_fits| |apply status_fits].
  destruct (_ =? mutabilityOverlayJoinMatched)%string; [|by apply overlay_field_valid; [| | |apply fallback_fits| |apply status_fits]].
  destruct (Hc c ltac:(by left)) as [Hk Hs].
  destruct parsedDocs as [docs|] eqn:Ed; [|rewrite <-Ed; by apply overlay_field_valid].
  destruct (_ && _); [|rewrite <-Ed; by apply overlay_field_valid].
  match goal with |- context [Compare resolver ?i] => set (input := i) end. destruct (comparison_fits input) as [Hst Hcd].
  destruct (collapse_fits (af_FieldPath a) (Compare resolver input) Hp) as [Ht He].
  { intros doc Hdoc. eapply evidence_fits; [by apply Hdocs|]. by apply Hcd. }
  destruct (collapseMutabilityOverlayDocsEvidence _ _) as [terraformPath evidence]. rewrite <-Ed. by apply overlay_field_valid.
Qed.
End ValidFields.

(** ** Generated documents are valid *)

Lemma source_ref_nonblank binding : blank (mutabilityOverlaySourceRefForResource binding) = false.
Proof.
  unfold mutabilityOverlaySourceRefForResource. cbn zeta. destruct (TrimSpace (fb_SourceRef binding) =? "")%string eqn:E; [done|].
  apply nonblank; [apply TrimSpace_idem|by bool_prop].
Qed.

(** A parsed page is what the parser has accepted. *)
Definition accepted_docs (parsedDocs : option mutabilityOverlayDocsParseResult) : Prop :=
  forall docs, parsedDocs = Some docs -> exists html_Parse input, parseMutabilityOverlayDocsArgumentReference html_Parse input = Ok docs.

Lemma accepted_docs_ok parsedDocs : accepted_docs parsedDocs -> docs_ok parsedDocs.
Proof. intros H docs (html_Parse & input & Hp)%H. by eapply parsed_rows_ok. Qed.

Section Documents.
Context (service : string) (resource : ResourceModel) (formal : FormalModel) (binding : FormalBinding)
  (target : mutabilityOverlayRegistryPageTarget) (providerRevision : string) (parsedDocs : option mutabilityOverlayDocsParseResult).

(** The texts that come from outside of the generator are there. *)
Definition metadata_given : bool :=
  forallb (fun text => negb (blank text))
    [providerRevision; tgt_TerraformDocsVersion target; service; rsc_Kind resource; fm_Slug formal; tgt_ProviderResource target;
     repo_spec_path binding; fb_ImportPath binding; mutabilityOverlayDocsPageRef target (docs_anchor parsedDocs)].

Abbreviation generated :=
  (overlay_document service resource formal binding target providerRevision parsedDocs (mutabilityOverlayASTFields resource)).

Lemma generated_fields a :
  a ∈ od_Fields generated <-> exists ast, ast ∈ mutabilityOverlayASTFields resource /\
    a = buildMutabilityOverlayField (fb_ImportPath binding) (mutabilityOverlaySourceRefForResource binding)
          (newMutabilityOverlayPathResolver (rsc_SpecFields resource) (rsc_HelperTypes resource)) target parsedDocs ast.
Proof. cbn [od_Fields overlay_document]. rewrite helper_sort_perm, list_elem_of_fmap. apply exist_proper. intros ast. tauto. Qed.

Lemma blank_twice s : blank (TrimSpace s) = blank s.
Proof. apply blank_trim. Qed.

Context (Hformal : rsc_Formal resource = Some (formal, binding)).

Lemma generated_fields_valid :
  docs_ok parsedDocs -> mutabilityOverlayASTFields resource <> [] ->
  concat (imap (fun index field => validateMutabilityOverlayField (indexed "fields" index) field) (od_Fields generated)) = [] <->
  sources_ok (fb_ImportPath binding) (mutabilityOverlaySourceRefForResource binding) target parsedDocs.
Proof.
  intros Hdocs Hne. rewrite concat_imap_nil. split.
  - intros H. destruct (mutabilityOverlayASTFields resource) as [|a l] eqn:E; [done|].
    assert (Ha : a ∈ mutabilityOverlayASTFields resource) by (rewrite E; by left).
    destruct (proj1 (list_elem_of_lookup (od_Fields generated) _) (proj2 (generated_fields _) (ex_intro _ a (conj Ha eq_refl)))) as [i Hi].
    rewrite E in Hi. specialize (H i _ Hi). eapply field_valid; [by eapply ast_fields_good|done|exact H].
  - intros H i x Hx. apply list_elem_of_lookup_2, generated_fields in Hx as (ast & Hast & ->).
    apply field_valid; [by eapply ast_fields_good|done|done].
Qed.

Lemma generated_problems :
  docs_ok parsedDocs ->
  overlay_problems generated = [] <-> metadata_given = true /\ mutabilityOverlayASTFields resource <> [].
Proof.
  intros Hdocs. unfold overlay_problems. cbn zeta.
  assert (Hfields : is_nil (od_Fields generated) = is_nil (mutabilityOverlayASTFields resource)).
  { cbn [od_Fields overlay_document]. destruct (mutabilityOverlayASTFields resource) as [|a l]; [done|].
    destruct (sort_by overlay_leb _) eqn:E; [|done]. by apply sort_by_nil in E. }
  rewrite !app_nil, !complain_nil, !nonempty_nil, !constant_nil, Hfields.
  cbn [od_SchemaVersion od_Surface od_ContractVersion od_Metadata od_SourceContract od_Resource overlay_document mo_ProviderSourceRef
    mo_ProviderRevision mo_TerraformDocsVersion sct_ASTPrimaryFacts sct_ASTMutableAlias sct_DocsOverlayScope sct_DocsEvidenceSource
    or_Service or_Kind or_FormalSlug or_ProviderResource or_RepoAuthoredSpecPath or_FormalImportPath].
  rewrite blank_twice, source_ref_nonblank, bool_decide_eq_true_2 by done.
  unfold metadata_given. cbn [forallb]. rewrite !andb_true_iff, !negb_true_iff.
  destruct (mutabilityOverlayASTFields resource) as [|a l] eqn:E; cbn [is_nil]; [split; [intros H; destruct_and! H|intros [_ []]]; done|].
  rewrite <-E at 1. assert (Hne : mutabilityOverlayASTFields resource <> []) by (by rewrite E).
  pose proof (generated_fields_valid Hdocs Hne) as Hv. rewrite E in Hv |- *.
  assert (Hs : sources_ok (fb_ImportPath binding) (mutabilityOverlaySourceRefForResource binding) target parsedDocs <->
    blank (fb_ImportPath binding) = false /\ blank (mutabilityOverlayDocsPageRef target (docs_anchor parsedDocs)) = false).
  { unfold sources_ok, page_ref. rewrite source_ref_nonblank. tauto. }
  cbn [od_Fields overlay_document] in Hv. rewrite Hv, Hs.
  assert (H0 : (1 =? mutabilityOverlaySchemaVersion)%Z = true) by done.
  assert (Hconst : TrimSpace mutabilityOverlaySurface = mutabilityOverlaySurface /\ TrimSpace mutabilityOverlayContractVersion = mutabilityOverlayContractVersion /\
    TrimSpace mutabilityOverlayUpdateCandidateAlias = mutabilityOverlayUpdateCandidateAlias /\
    TrimSpace mutabilityOverlayDocsOverlayScope = mutabilityOverlayDocsOverlayScope /\
    TrimSpace mutabilityOverlayDocsEvidenceSource = mutabilityOverlayDocsEvidenceSource) by (by vm_compute).
  split; [intros H; destruct_and! H; by split_and!|]. intros [H _]. destruct_and! H. destruct Hconst as (? & ? & ? & ? & ?).
  by split_and!.
Qed.
End Documents.

(** C24. The generator never produces an overlay document that its own validation refuses because of a field: for the
    mutation paths of any formal model, any tree of spec fields and any documentation page that the parser accepts, the
    document of a resource is built exactly when the resource has a mutation path and the texts that come from outside
    (the revision, the version of the documentation, the names and the paths of the resource, its page) are not blank. *)
Theorem overlay_documents_valid (service : string) (resource : ResourceModel) (formal : FormalModel) (binding : FormalBinding)
  (target : mutabilityOverlayRegistryPageTarget) (providerRevision : string) (parsedDocs : option mutabilityOverlayDocsParseResult) :
  rsc_Formal resource = Some (formal, binding) -> accepted_docs parsedDocs ->
  buildMutabilityOverlayDocument service resource target providerRevision parsedDocs (mutabilityOverlayASTFields resource) =
    Ok (overlay_document service resource formal binding target providerRevision parsedDocs (mutabilityOverlayASTFields resource)) <->
  metadata_given service resource formal binding target providerRevision parsedDocs = true /\ mutabilityOverlayASTFields resource <> [].
Proof.
  intros Hf Hdocs. rewrite <-(generated_problems service resource formal binding target providerRevision parsedDocs Hf (accepted_docs_ok _ Hdocs)).
  rewrite <-joined_error_nil. unfold buildMutabilityOverlayDocument. rewrite Hf. unfold validateMutabilityOverlayDocument.
  destruct (joined_error _); by split.
Qed.

(** ** Policies *)

Lemma insert_head x l : Sorted string_le (x :: l) -> insert_by String.leb x l = x :: l.
Proof. intros H. destruct l as [|y l]; [done|]. inversion H as [|? ? ? Hy]; subst. inversion Hy as [|? ? Hle]; subst. cbn. by rewrite Hle. Qed.

Lemma sort_sorted l : Sorted string_le l -> sort_Strings l = l.
Proof.
  intros H. unfold sort_Strings. induction l as [|x l IH]; [done|]. cbn. inversion H; subst. rewrite IH by done. by apply insert_head.
Qed.

Lemma unique_kept l : forall seen, NoDup l -> Forall (fun x => x <> "" /\ x ∉ seen) l -> unique_nonempty seen l = l.
Proof.
  induction l as [|x l IH]; intros seen Hd Hf; [done|]. apply NoDup_cons in Hd as [Hx Hd]. apply Forall_cons in Hf as [[Hn Hs] Hf]. cbn.
  rewrite (proj2 (String.eqb_neq _ _) Hn). destruct (containsString seen x) eqn:E; [by apply containsString_spec in E|]. f_equal. apply IH; [done|].
  rewrite Forall_forall in Hf |- *. intros y Hy. destruct (Hf y Hy) as [Hyn Hys]. split; [done|]. intros [->|?]%elem_of_cons; done.
Qed.

Lemma uniqueSorted_idem l : uniqueSortedStrings (uniqueSortedStrings l) = uniqueSortedStrings l.
Proof.
  unfold uniqueSortedStrings at 1. assert (Hm : map TrimSpace (uniqueSortedStrings l) = uniqueSortedStrings l).
  { pose proof (uniqueSorted_elem l) as H. induction (uniqueSortedStrings l) as [|x k IH]; [done|]. cbn.
    rewrite (proj1 (H x ltac:(by left))). f_equal. apply IH. intros y Hy. apply H. by right. }
  rewrite Hm. unfold normal_list. rewrite unique_kept; [apply sort_sorted, sort_Strings_sorted|apply normal_list_nodup|].
  apply Forall_forall. intros x [_ Hx]%uniqueSorted_elem. split; [done|]. by intros ?%elem_of_nil.
Qed.

(** The fields of a valid overlay are split without an error. *)
Lemma split_fields_spec overlay fields :
  Forall (fun field => FinalPolicy (of_Merge field) ∈ mutabilityOverlayFinalPolicies) fields ->
  split_fields overlay fields = Ok (map of_ASTFieldPath (List.filter is_allowed fields),
                                    map deny_rule (List.filter (fun field => negb (is_allowed field)) fields)).
Proof.
  induction 1 as [|field fields Hp _ IH]; [done|]. cbn [split_fields List.filter]. rewrite IH.
  assert (Hd : is_allowed field || is_denied field = true).
  { unfold is_allowed, is_denied. apply containsString_spec in Hp. cbn in Hp. cbn. rewrite orb_false_r in *.
    by rewrite (String.eqb_sym _ "allowInPlaceUpdate"). }
  rewrite Hd. by destruct (is_allowed field).
Qed.

Lemma built_policy importPath sourceRef resolver target parsedDocs a :
  let field := buildMutabilityOverlayField importPath sourceRef resolver target parsedDocs a in
  of_ASTFieldPath field = af_FieldPath a /\
  MergeCase (of_Merge field) ∈ mutabilityOverlayMergeCases /\ FinalPolicy (of_Merge field) ∈ mutabilityOverlayFinalPolicies.
Proof.
  cbn zeta. unfold buildMutabilityOverlayField. cbn zeta.
  repeat case_match; (split; [done|]); apply decision_cases.
Qed.

Lemma blank_cons c s : blank (String c s) = is_space c && blank s.
Proof.
  unfold blank, TrimSpace. cbn [trim_left]. destruct (is_space c) eqn:E; [done|]. cbn [trim_right]. rewrite E. by destruct (trim_right s).
Qed.
Lemma blank_app s t : blank (s +++ t) = blank s && blank t.
Proof. induction s as [|c s IH]; [done|]. rewrite string_app_cons, !blank_cons, IH. apply andb_assoc. Qed.

Lemma mismatch_none pkg resource formal binding overlay :
  overlay_mismatch pkg resource formal binding overlay = None ->
  pkg_Service pkg = TrimSpace (or_Service overlay) /\ rsc_Kind resource = TrimSpace (or_Kind overlay).
Proof.
  unfold overlay_mismatch. cbn zeta. destruct (TrimSpace (or_Service overlay) =? pkg_Service pkg)%string eqn:E1; [|done].
  destruct (TrimSpace (or_Kind overlay) =? rsc_Kind resource)%string eqn:E2; [|done]. by bool_prop.
Qed.

Section Policies.
Context (pkg : PackageModel) (service : string) (resource : ResourceModel) (formal : FormalModel) (binding : FormalBinding)
  (target : mutabilityOverlayRegistryPageTarget) (providerRevision : string) (parsedDocs : option mutabilityOverlayDocsParseResult)
  (overlay : mutabilityOverlayDocument).
Context (Hformal : rsc_Formal resource = Some (formal, binding)) (Hdocs : accepted_docs parsedDocs)
  (Hoverlay : buildMutabilityOverlayDocument service resource target providerRevision parsedDocs (mutabilityOverlayASTFields resource) = Ok overlay).

Abbreviation updates := (fst (mutabilityOverlayMutationPaths formal)).
Abbreviation replacements := (snd (mutabilityOverlayMutationPaths formal)).
Definition field_of (a : mutabilityOverlayASTFieldInput) : mutabilityOverlayField :=
  buildMutabilityOverlayField (fb_ImportPath binding) (mutabilityOverlaySourceRefForResource binding)
    (newMutabilityOverlayPathResolver (rsc_SpecFields resource) (rsc_HelperTypes resource)) target parsedDocs a.
Definition path_field (path : string) : mutabilityOverlayField :=
  field_of (ast_field updates replacements (normalizeFormalConflicts (imp_ConflictsWith formal)) path).

Lemma overlay_built :
  overlay = overlay_document service resource formal binding target providerRevision parsedDocs (mutabilityOverlayASTFields resource) /\
  overlay_problems overlay = [] /\ metadata_given service resource formal binding target providerRevision parsedDocs = true.
Proof.
  pose proof Hoverlay as H. unfold buildMutabilityOverlayDocument in H. rewrite Hformal in H. unfold validateMutabilityOverlayDocument in H.
  destruct (joined_error _) eqn:E in H; [done|]. injection H as <-. apply joined_error_nil in E. split_and!; [done|done|].
  by apply (generated_problems _ _ _ _ _ _ _ Hformal (accepted_docs_ok _ Hdocs)) in E as [E _].
Qed.

(** The fields of the document are those of the mutation paths. *)
Lemma overlay_fields field :
  field ∈ od_Fields overlay <-> exists path, (path ∈ updates \/ path ∈ replacements) /\ field = path_field path.
Proof.
  destruct overlay_built as (-> & _ & _). rewrite generated_fields. setoid_rewrite (ast_fields_elem _ _ _ _ Hformal). unfold path_field, field_of.
  split; [intros (ast & (path & Hp & ->) & ->); by exists path|intros (path & Hp & ->); eauto].
Qed.

Lemma path_field_path path : of_ASTFieldPath (path_field path) = path.
Proof. apply built_policy. Qed.

Lemma mutation_path path : path ∈ updates \/ path ∈ replacements -> TrimSpace path = path /\ path <> "".
Proof. unfold mutabilityOverlayMutationPaths. destruct (runtimeMutationPaths formal). cbn. by intros [H|H]; eapply normalizeFormalPaths_elem. Qed.

Abbreviation allowed := (uniqueSortedStrings (map of_ASTFieldPath (List.filter is_allowed (od_Fields overlay)))).
Abbreviation denied := (map deny_rule (List.filter (fun field => negb (is_allowed field)) (od_Fields overlay))).

Lemma overlay_split : split_fields (od_Resource overlay) (od_Fields overlay) =
  Ok (map of_ASTFieldPath (List.filter is_allowed (od_Fields overlay)), denied).
Proof. apply split_fields_spec, Forall_forall. intros field (path & _ & ->)%overlay_fields. apply built_policy. Qed.

Lemma allowed_elem path : path ∈ allowed <-> (path ∈ updates \/ path ∈ replacements) /\ is_allowed (path_field path) = true.
Proof.
  assert (Hin : forall p, p ∈ map of_ASTFieldPath (List.filter is_allowed (od_Fields overlay)) <->
    (p ∈ updates \/ p ∈ replacements) /\ is_allowed (path_field p) = true).
  { intros p. rewrite list_elem_of_fmap. setoid_rewrite list_elem_of_In. setoid_rewrite List.filter_In. setoid_rewrite <-list_elem_of_In.
    setoid_rewrite overlay_fields. split; [intros (f & -> & (q & Hq & ->) & Ha); by rewrite path_field_path|].
    intros [Hp Ha]. exists (path_field p). rewrite path_field_path. eauto. }
  rewrite uniqueSorted_trimmed, Hin; [|apply Forall_forall; intros p [Hp _]%Hin; by apply mutation_path].
  split; [tauto|]. intros [Hp Ha]. destruct (mutation_path path Hp). tauto.
Qed.

Lemma denied_elem rule :
  rule ∈ sort_by rule_leb denied <->
  exists path, (path ∈ updates \/ path ∈ replacements) /\ is_allowed (path_field path) = false /\ rule = deny_rule (path_field path).
Proof.
  rewrite helper_sort_perm, list_elem_of_fmap. setoid_rewrite list_elem_of_In. setoid_rewrite List.filter_In. setoid_rewrite <-list_elem_of_In.
  setoid_rewrite overlay_fields. setoid_rewrite negb_true_iff.
  split; [intros (f & -> & (q & Hq & ->) & Ha); eauto|]. intros (p & Hp & Ha & ->). eauto 6.
Qed.

Lemma evidence_valid field : field ∈ od_Fields overlay -> ev_EvidenceState (of_Docs field) ∈ mutabilityOverlayDocsEvidenceStates.
Proof.
  destruct overlay_built as (_ & Hp & _). intros [i Hi]%list_elem_of_lookup. unfold overlay_problems in Hp. rewrite !app_nil in Hp.
  destruct_and! Hp. match goal with H : concat (imap _ _) = [] |- _ => rewrite concat_imap_nil in H; specialize (H i _ Hi); revert H end.
  unfold validateMutabilityOverlayField. cbn zeta. rewrite !app_nil, !allowed_nil. tauto.
Qed.

Lemma rule_valid index rule : rule ∈ sort_by rule_leb denied -> validate_rule allowed index rule = [].
Proof.
  intros (path & Hp & Ha & ->)%denied_elem. unfold validate_rule. cbn zeta. rewrite !app_nil, nonempty_nil, !allowed_nil, complain_nil.
  destruct (mutation_path path Hp) as [Ht Hn]. cbn [vr_FieldPath vr_Decision vr_MergeCase vr_DocsEvidenceState deny_rule].
  rewrite path_field_path. destruct (built_policy (fb_ImportPath binding) (mutabilityOverlaySourceRefForResource binding)
    (newMutabilityOverlayPathResolver (rsc_SpecFields resource) (rsc_HelperTypes resource)) target parsedDocs
    (ast_field updates replacements (normalizeFormalConflicts (imp_ConflictsWith formal)) path)) as (_ & Hm & Hf).
  fold (field_of (ast_field updates replacements (normalizeFormalConflicts (imp_ConflictsWith formal)) path)) in Hm, Hf.
  fold (path_field path) in Hm, Hf. split_and!; [by apply nonblank| |done|apply evidence_valid, overlay_fields; by exists path|].
  - apply elem_of_cons in Hf as [Hf|Hf]; [|exact Hf]. unfold is_allowed in Ha. by rewrite Hf in Ha.
  - apply not_true_is_false. rewrite containsString_spec, allowed_elem, Ha. by intros [_ ?].
Qed.

Lemma policy_built :
  overlay_mismatch pkg resource formal binding (od_Resource overlay) = None ->
  buildVAPUpdatePolicyDocument pkg resource overlay =
    Ok (policy_document pkg resource overlay (map of_ASTFieldPath (List.filter is_allowed (od_Fields overlay))) denied).
Proof.
  intros Hm. destruct overlay_built as (Ho & Hp & Hmd). unfold buildVAPUpdatePolicyDocument. rewrite Hformal.
  unfold validateMutabilityOverlayDocument at 1. rewrite Hp. cbn [joined_error]. rewrite Hm, overlay_split. cbn zeta.
  enough (Hv : policy_problems (policy_document pkg resource overlay (map of_ASTFieldPath (List.filter is_allowed (od_Fields overlay))) denied) = [])
    by (unfold validateVAPUpdatePolicyDocument; by rewrite Hv).
  apply mismatch_none in Hm as [Hs Hk]. unfold policy_problems. cbn zeta.
  cbn [policy_document vd_SchemaVersion vd_Surface vd_ContractVersion vd_Metadata vd_Target vd_Update vm_SourceSurface vm_ProviderSourceRef
    vm_ProviderRevision vm_TerraformDocsVersion vt_Service vt_APIVersion vt_Kind vt_FormalSlug vt_ProviderResource vt_SpecPathPrefix
    AllowInPlacePaths DenyRules].
  rewrite !app_nil, !complain_nil, !nonempty_nil, !constant_nil, nonempty_list_nil, uniqueSorted_idem, bool_decide_eq_true_2 by done.
  rewrite !blank_app, concat_imap_nil.
  unfold metadata_given in Hmd. cbn [forallb] in Hmd. rewrite !andb_true_iff, !negb_true_iff in Hmd. destruct_and! Hmd.
  split_and!; try reflexivity; try assumption.
  all: try (rewrite Ho; cbn [od_Metadata od_Resource overlay_document mo_ProviderSourceRef mo_ProviderRevision mo_TerraformDocsVersion
    or_FormalSlug or_ProviderResource]; by rewrite ?blank_trim, ?source_ref_nonblank).
  - rewrite Hs, Ho, blank_trim. done.
  - by rewrite andb_false_r.
  - apply Forall_forall. intros s [? ?]%uniqueSorted_elem. by apply nonblank.
  - intros i rule Hr. apply rule_valid. by eapply list_elem_of_lookup_2.
Qed.
End Policies.

(** ** What an allowed path rests on *)

Lemma filter_map_comm {A B} (f : A -> B) (P : B -> bool) l : List.filter P (map f l) = map f (List.filter (fun x => P (f x)) l).
Proof. induction l as [|x l IH]; [done|]. cbn. rewrite IH. by destruct (P (f x)). Qed.

Lemma filter_within {A} (P Q : A -> bool) l : (forall x, Q x = true -> P x = true) -> List.filter Q (List.filter P l) = List.filter Q l.
Proof.
  intros H. induction l as [|x l IH]; [done|]. cbn. destruct (P x) eqn:E; cbn; [by rewrite IH|].
  destruct (Q x) eqn:Eq; [by rewrite (H x Eq) in E|done].
Qed.

Lemma filter_split {A} (P Q R : A -> bool) l : (forall x, P x = Q x || R x) -> List.filter R l = [] -> List.filter P l = List.filter Q l.
Proof.
  intros H. induction l as [|x l IH]; [done|]. cbn. rewrite H. destruct (R x); [done|]. rewrite orb_false_r. intros Hr. by rewrite IH.
Qed.

Section Consent.
Context (resolver : list FieldNode).

(** A row that may mean the field with the key. *)
Definition may_mean (joinKey : string) (row : Row) : bool :=
  existsb (fun c => (CanonicalJoinKey c =? joinKey)%string) (res_Candidates (Resolve resolver (pe_FieldPath row))).
(** A row that can mean nothing else. *)
Definition means (joinKey : string) (row : Row) : Prop :=
  map CanonicalJoinKey (res_Candidates (Resolve resolver (pe_FieldPath row))) = [joinKey].

(** The field of the path is documented as one that can be updated: the path names one field of the spec, exactly one row of
    the page may mean that field, it can mean nothing else, and its text consents. *)
Definition documented (docs : mutabilityOverlayDocsParseResult) (path : string) : Prop :=
  exists c row, res_Candidates (Resolve resolver path) = [c] /\ List.filter (may_mean (CanonicalJoinKey c)) (pr_Fields docs) = [row] /\
    means (CanonicalJoinKey c) row /\ consents (loc_EvidenceText (pe_Provenance row)) = true.

Definition row_doc (row : Row) : DocComparison :=
  compare_doc resolver (mkEvidenceInput (pe_FieldPath row) (pe_EvidenceState row) (pe_Detail row) (pe_RawSignal row)).

(** The tests of the two exact selections on a row. *)
Definition exact_match (joinKey : string) (row : Row) : bool :=
  match sole_key (row_doc row) with Some key => (key =? joinKey)%string | None => false end.
Definition exact_ambiguous (joinKey : string) (row : Row) : bool :=
  has_status (row_doc row) mutabilityOverlayJoinAmbiguous &&
  existsb (fun c => (CanonicalJoinKey c =? joinKey)%string) (res_Candidates (dc_Resolution (row_doc row))).

Lemma exact_cases joinKey row :
  may_mean joinKey row = exact_match joinKey row || exact_ambiguous joinKey row /\
  (exact_match joinKey row = true <-> means joinKey row) /\
  (exact_match joinKey row = true -> exact_ambiguous joinKey row = false).
Proof.
  unfold may_mean, means, exact_match, exact_ambiguous, sole_key, has_status. cbn [dc_Resolution row_doc compare_doc in_FieldPath].
  rewrite Resolve_status. destruct (res_Candidates (Resolve resolver (pe_FieldPath row))) as [|c [|c' cs]]; cbn.
  - done.
  - rewrite !orb_false_r. split_and!; [done| |done]. rewrite String.eqb_eq. split; [by intros ->|by intros [= ->]].
  - done.
Qed.

Lemma exact_selection joinKey rows doc :
  matchedMutabilityOverlayDocsByCanonicalKey (map row_doc rows) joinKey = [doc] /\
  ambiguousMutabilityOverlayDocsByCanonicalKey (map row_doc rows) joinKey = [] <->
  exists row, doc = row_doc row /\ List.filter (may_mean joinKey) rows = [row] /\ means joinKey row.
Proof.
  unfold matchedMutabilityOverlayDocsByCanonicalKey, ambiguousMutabilityOverlayDocsByCanonicalKey. rewrite !filter_map_comm.
  change (map row_doc (List.filter (exact_match joinKey) rows) = [doc] /\ map row_doc (List.filter (exact_ambiguous joinKey) rows) = [] <->
    exists row, doc = row_doc row /\ List.filter (may_mean joinKey) rows = [row] /\ means joinKey row).
  split.
  - intros [Hm Ha]. apply map_eq_nil in Ha.
    rewrite (filter_split (may_mean joinKey) (exact_match joinKey) (exact_ambiguous joinKey)) by (done || intros; apply exact_cases).
    destruct (List.filter (exact_match joinKey) rows) as [|row [|]] eqn:E; [done| |done]. injection Hm as <-. exists row. split_and!; [done|done|].
    assert (Hin : In row (List.filter (exact_match joinKey) rows)) by (rewrite E; by left). apply List.filter_In in Hin as [_ Hin].
    by apply exact_cases.
  - intros (row & -> & Hf & Hm). apply exact_cases in Hm.
    rewrite <-(filter_within (may_mean joinKey) (exact_match joinKey)), <-(filter_within (may_mean joinKey) (exact_ambiguous joinKey)), Hf.
    + cbn. rewrite Hm. by rewrite (proj2 (proj2 (exact_cases joinKey row)) Hm).
    + intros x Hx. rewrite (proj1 (exact_cases joinKey x)), Hx. apply orb_true_r.
    + intros x Hx. by rewrite (proj1 (exact_cases joinKey x)), Hx.
Qed.

Lemma row_state row : row_ok row ->
  dc_EvidenceState (row_doc row) = mutabilityOverlayDocsStateConfirmedUpdatable <-> consents (loc_EvidenceText (pe_Provenance row)) = true.
Proof.
  unfold row_ok. intros Hr. cbn [dc_EvidenceState row_doc compare_doc in_EvidenceState]. rewrite Hr.
  destruct (classify_spec (loc_EvidenceText (pe_Provenance row))) as [Hin Hiff]. destruct (docs_states_fit _ Hin) as [-> _]. exact Hiff.
Qed.

Lemma documented_iff docs path c :
  Forall row_ok (pr_Fields docs) -> res_Candidates (Resolve resolver path) = [c] ->
  documented docs path <->
  exists doc, matchedMutabilityOverlayDocsByCanonicalKey (map row_doc (pr_Fields docs)) (CanonicalJoinKey c) = [doc] /\
    ambiguousMutabilityOverlayDocsByCanonicalKey (map row_doc (pr_Fields docs)) (CanonicalJoinKey c) = [] /\
    dc_EvidenceState doc = mutabilityOverlayDocsStateConfirmedUpdatable.
Proof.
  intros Hrows Hc. rewrite Forall_forall in Hrows. unfold documented.
  assert (Hok : forall key row, List.filter (may_mean key) (pr_Fields docs) = [row] -> row_ok row).
  { intros key row Hf. apply Hrows. assert (H : In row (List.filter (may_mean key) (pr_Fields docs))) by (rewrite Hf; by left).
    apply List.filter_In in H as [H _]. by apply list_elem_of_In. }
  split.
  - intros (c' & row & Hc' & Hf & Hm & Ht). rewrite Hc in Hc'. injection Hc' as <-. exists (row_doc row).
    destruct (proj2 (exact_selection (CanonicalJoinKey c) (pr_Fields docs) (row_doc row))) as [H1 H2]; [by exists row|].
    split_and!; [done..|]. apply row_state; [by eapply Hok|done].
  - intros (doc & Hm & Ha & Hs). destruct (proj1 (exact_selection _ _ _) (conj Hm Ha)) as (row & -> & Hf & Hme).
    exists c, row. split_and!; [done..|]. apply row_state; [by eapply Hok|done].
Qed.

(** The comparison and its collapse give a matched, confirmed field exactly when it is documented. *)
Lemma comparison_confirms docs path state forceNew c :
  Forall row_ok (pr_Fields docs) -> res_Candidates (Resolve resolver path) = [c] ->
  let comparison := Compare resolver (mkComparisonInput path state forceNew (EvidenceInputs docs)) in
  cmp_JoinStatus comparison = mutabilityOverlayJoinMatched /\
  ev_EvidenceState (snd (collapseMutabilityOverlayDocsEvidence path comparison)) = mutabilityOverlayDocsStateConfirmedUpdatable <->
  documented docs path.
Proof.
  intros Hrows Hc comparison. subst comparison. rewrite (documented_iff docs path c Hrows Hc). unfold Compare.
  cbn [ci_ASTFieldPath ci_DocsEvidence ci_ASTState ci_ForceNew]. cbn zeta. rewrite Resolve_status, Hc, String.eqb_refl.
  replace (map (compare_doc resolver) (EvidenceInputs docs)) with (map row_doc (pr_Fields docs)) by (unfold EvidenceInputs; by rewrite map_map).
  unfold collapseMutabilityOverlayDocsEvidence. cbn [cmp_JoinStatus cmp_CandidateDocs]. unfold compare_matched. cbn zeta.
  destruct (matchedMutabilityOverlayDocsByCanonicalKey _ _) as [|doc [|doc' l]], (ambiguousMutabilityOverlayDocsByCanonicalKey _ _) as [|a k].
  3: { cbn. split; [intros [_ H]; by exists doc|]. by intros (d & [= <-] & _ & H). }
  all: split; [|intros (d & ? & ? & _); simplify_eq].
  2-5: by intros [? _].
  destruct (relatedMutabilityOverlayDocsByFamilyKey _ _ _) as [|d [|d' l]], (ambiguousMutabilityOverlayDocsByFamilyKey _ _ _) as [|a k];
    by intros [? ?].
Qed.

(** A field is allowed exactly when the formal model updates it, does not replace it, and it is documented. *)
Lemma field_allowed importPath sourceRef target parsedDocs a :
  docs_ok parsedDocs ->
  is_allowed (buildMutabilityOverlayField importPath sourceRef resolver target parsedDocs a) = true <->
  af_UpdateCandidateState a = mutabilityOverlayASTStateUpdateCandidate /\ af_ForceNew a = false /\
  exists docs, parsedDocs = Some docs /\ documented docs (af_FieldPath a).
Proof.
  intros Hdocs. unfold is_allowed. rewrite String.eqb_eq.
  assert (Hundoc : forall tp key shape status notes,
    FinalPolicy (of_Merge (overlay_field importPath sourceRef target parsedDocs a tp key shape (defaultMutabilityOverlayDocsEvidence a) status notes)) <>
    mutabilityOverlayPolicyAllowInPlaceUpdate).
  { intros tp key shape status notes. cbn [of_Merge overlay_field]. rewrite decision_allows. by intros (_ & _ & _ & H). }
  unfold buildMutabilityOverlayField. cbn zeta. rewrite Resolve_status.
  destruct (res_Candidates (Resolve resolver (af_FieldPath a))) as [|c [|c' cs]] eqn:Ec.
  1, 3: split; [by intros ?%Hundoc|intros (_ & _ & docs & _ & (c0 & row & Hc0 & _)); congruence].
  rewrite String.eqb_refl. destruct parsedDocs as [docs|] eqn:Ed; [|split; [by intros ?%Hundoc|by intros (_ & _ & docs & ? & _)]].
  destruct (af_UpdateCandidateState a =? _)%string eqn:Es; cbn [andb]; bool_prop; [|split; [by intros ?%Hundoc|by intros (? & _)]].
  destruct (af_ForceNew a) eqn:Ef; cbn [negb]; [split; [by intros ?%Hundoc|by intros (_ & ? & _)]|].
  pose proof (comparison_confirms docs (af_FieldPath a) (af_UpdateCandidateState a) false c (Hdocs docs eq_refl) Ec) as Hcmp. cbn zeta in Hcmp.
  destruct (collapseMutabilityOverlayDocsEvidence _ _) as [tp evidence]. cbn [snd] in Hcmp. cbn [of_Merge overlay_field].
  rewrite decision_allows, Ef. split.
  - intros (_ & _ & Hst & Hev). split_and!; [done|done|]. exists docs. split; [done|]. by apply Hcmp.
  - intros (_ & _ & docs' & [= <-] & Hd). apply Hcmp in Hd. tauto.
Qed.
End Consent.

(** C22. An update policy lets a spec path change in place exactly when the formal model lists it as mutable and not as a
    reason for a replacement, the path names one field of the generated spec, and of all the rows of the accepted
    documentation page exactly one may mean that field, it can mean nothing else, and the phrase search accepts its text: the
    text contains one of the phrases for "updatable", none of those for "not updatable" or for a replacement, and does not
    speak of a conditional replacement ([consents]).  The search looks for the phrases alone, not for what stands around them:
    "cannot currently be updated in place" is accepted. *)
Theorem allowed_paths_documented (pkg : PackageModel) (service : string) (resource : ResourceModel) (formal : FormalModel)
  (binding : FormalBinding) (target : mutabilityOverlayRegistryPageTarget) (providerRevision : string)
  (parsedDocs : option mutabilityOverlayDocsParseResult) (overlay : mutabilityOverlayDocument) (policy : vapUpdatePolicyDocument) (path : string) :
  rsc_Formal resource = Some (formal, binding) -> accepted_docs parsedDocs ->
  buildMutabilityOverlayDocument service resource target providerRevision parsedDocs (mutabilityOverlayASTFields resource) = Ok overlay ->
  buildVAPUpdatePolicyDocument pkg resource overlay = Ok policy ->
  path ∈ AllowInPlacePaths (vd_Update policy) <->
  path ∈ fst (mutabilityOverlayMutationPaths formal) /\ path ∉ snd (mutabilityOverlayMutationPaths formal) /\
  exists docs, parsedDocs = Some docs /\
    documented (newMutabilityOverlayPathResolver (rsc_SpecFields resource) (rsc_HelperTypes resource)) docs path.
Proof.
  intros Hf Hdocs Ho Hp.
  assert (Hm : overlay_mismatch pkg resource formal binding (od_Resource overlay) = None).
  { unfold buildVAPUpdatePolicyDocument in Hp. rewrite Hf in Hp. by repeat case_match. }
  rewrite (policy_built pkg service resource formal binding target providerRevision parsedDocs overlay Hf Hdocs Ho Hm) in Hp.
  injection Hp as <-. cbn [vd_Update policy_document AllowInPlacePaths].
  rewrite (allowed_elem service resource formal binding target providerRevision parsedDocs overlay Hf Hdocs Ho).
  unfold path_field, field_of. rewrite (field_allowed _ _ _ _ _ _ (accepted_docs_ok _ Hdocs)).
  cbn [af_UpdateCandidateState af_ForceNew af_FieldPath ast_field]. rewrite <-not_true_iff_false, containsString_spec.
  assert (Hu : (if containsString (fst (mutabilityOverlayMutationPaths formal)) path
                then mutabilityOverlayASTStateUpdateCandidate else mutabilityOverlayASTStateNotUpdateCandidate) =
               mutabilityOverlayASTStateUpdateCandidate <-> path ∈ fst (mutabilityOverlayMutationPaths formal)).
  { rewrite <-containsString_spec. by destruct (containsString _ path). }
  rewrite Hu. tauto.
Qed.

(** C23. A policy decides every mutation path and contradicts itself on none: for an overlay that the generator has built and
    a package and resource that it belongs to, the policy is built (its own validation never refuses it), each path that the
    formal model lists as mutable or as a reason for a replacement is either allowed or has a rule that denies it, no path has
    both, and no other path appears. *)
Theorem policy_partitions_paths (pkg : PackageModel) (service : string) (resource : ResourceModel) (formal : FormalModel)
  (binding : FormalBinding) (target : mutabilityOverlayRegistryPageTarget) (providerRevision : string)
  (parsedDocs : option mutabilityOverlayDocsParseResult) (overlay : mutabilityOverlayDocument) :
  rsc_Formal resource = Some (formal, binding) -> accepted_docs parsedDocs ->
  buildMutabilityOverlayDocument service resource target providerRevision parsedDocs (mutabilityOverlayASTFields resource) = Ok overlay ->
  overlay_mismatch pkg resource formal binding (od_Resource overlay) = None ->
  exists policy, buildVAPUpdatePolicyDocument pkg resource overlay = Ok policy /\
    forall path,
      (path ∈ fst (mutabilityOverlayMutationPaths formal) \/ path ∈ snd (mutabilityOverlayMutationPaths formal) <->
       path ∈ AllowInPlacePaths (vd_Update policy) \/ path ∈ map vr_FieldPath (DenyRules (vd_Update policy))) /\
      ~ (path ∈ AllowInPlacePaths (vd_Update policy) /\ path ∈ map vr_FieldPath (DenyRules (vd_Update policy))).
Proof.
  intros Hf Hdocs Ho Hm. eexists. split; [by eapply policy_built|]. intros path. cbn [vd_Update policy_document AllowInPlacePaths DenyRules].
  assert (Hd : path ∈ map vr_FieldPath (sort_by rule_leb (map deny_rule (List.filter (fun field => negb (is_allowed field)) (od_Fields overlay)))) <->
    (path ∈ fst (mutabilityOverlayMutationPaths formal) \/ path ∈ snd (mutabilityOverlayMutationPaths formal)) /\
    is_allowed (path_field resource formal binding target parsedDocs path) = false).
  { rewrite list_elem_of_fmap. setoid_rewrite (denied_elem service resource formal binding target providerRevision parsedDocs overlay Hf Hdocs Ho).
    split; [intros (rule & -> & q & Hq & Ha & ->); cbn; by rewrite path_field_path|].
    intros [Hp Ha]. exists (deny_rule (path_field resource formal binding target parsedDocs path)).
    cbn [vr_FieldPath deny_rule]. rewrite path_field_path. eauto. }
  rewrite Hd, (allowed_elem service resource formal binding target providerRevision parsedDocs overlay Hf Hdocs Ho).
  destruct (is_allowed _); intuition congruence.
Qed.

(** ** Witnesses *)

Definition ex_item (name text : string) : HtmlNode := ElementNode "li" [] [ElementNode "code" [] [TextNode name]; TextNode text].
Definition ex_page : HtmlNode :=
  OtherNode [ElementNode "body" []
    [ElementNode "h2" [("id", "argument-reference")] [TextNode "Argument Reference"];
     ElementNode "ul" []
       [ex_item "display_name" " - (Required) (Updatable) A name for the queue.";
        ex_item "freeform_tags" " - (Optional) (Updatable) Tags; changing them forces a new resource.";
        ex_item "rules" " - (Optional) The rules."];
     ElementNode "h2" [] [TextNode "Attributes Reference"]]].
Definition ex_parse (_ : string) : result HtmlNode string := Ok ex_page.
Definition ex_input : mutabilityOverlayDocsInput := mkDocsInput "queue" "Queue" "queue" "oci_queue_queue" "https://registry/queue" "".

Definition ex_formal : FormalModel :=
  mkFormalModel "queue" "queue" "required" "none" "retain-until-confirmed-delete" "required" [] (mkOperations [] [] [] [] [])
    (mkLifecyclePhase [] []) (mkLifecyclePhase [] []) ["display_name"; "freeform_tags"] ["rules"] [] (mkFormalHooks [] [] [])
    (mkLifecyclePhase [] []) None None.
Definition ex_binding : FormalBinding := mkFormalBinding "" "oci_queue_queue" "formal/queue.cfg" "" "formal/imports/queue.json".
Definition ex_resource : ResourceModel := mkResourceModel "Queue" (Some (ex_formal, ex_binding)) ex_helpers ex_spec_fields.
Definition ex_target : mutabilityOverlayRegistryPageTarget := mkPageTarget "oci_queue_queue" "7.22.0" "/docs/queue_queue".
Definition ex_docs : option mutabilityOverlayDocsParseResult :=
  match parseMutabilityOverlayDocsArgumentReference ex_parse ex_input with Ok docs => Some docs | Err _ => None end.
Definition ex_package : PackageModel := mkPackageModel "queue" "queue.oracle.com" "v1beta1".
Definition ex_overlay : mutabilityOverlayDocument :=
  overlay_document "queue" ex_resource ex_formal ex_binding ex_target "abc123" ex_docs (mutabilityOverlayASTFields ex_resource).
Definition ex_policy : vapUpdatePolicyDocument :=
  match buildVAPUpdatePolicyDocument ex_package ex_resource ex_overlay with
  | Ok policy => policy
  | Err _ => policy_document ex_package ex_resource ex_overlay [] []
  end.

Lemma ex_docs_accepted : accepted_docs ex_docs.
Proof.
  intros docs H. exists ex_parse, ex_input. unfold ex_docs in H.
  destruct (parseMutabilityOverlayDocsArgumentReference ex_parse ex_input); congruence.
Qed.

Lemma overlay_documents_valid_witness :
  buildMutabilityOverlayDocument "queue" ex_resource ex_target "abc123" ex_docs (mutabilityOverlayASTFields ex_resource) = Ok ex_overlay.
Proof.
  apply (overlay_documents_valid "queue" ex_resource ex_formal ex_binding ex_target "abc123" ex_docs);
    [reflexivity|apply ex_docs_accepted|split; [by vm_compute|by vm_compute]].
Defined.

Lemma allowed_paths_documented_witness :
  AllowInPlacePaths (vd_Update ex_policy) = ["displayName"] /\
  exists docs, ex_docs = Some docs /\ documented (newMutabilityOverlayPathResolver ex_spec_fields ex_helpers) docs "displayName".
Proof.
  split; [by vm_compute|].
  refine (proj2 (proj2 (proj1 (allowed_paths_documented ex_package "queue" ex_resource ex_formal ex_binding ex_target "abc123" ex_docs ex_overlay
    ex_policy "displayName" eq_refl ex_docs_accepted _ _) _))); [by vm_compute..|]. vm_compute. left.
Defined.

Lemma policy_partitions_paths_witness :
  exists policy, buildVAPUpdatePolicyDocument ex_package ex_resource ex_overlay = Ok policy /\
    map vr_FieldPath (DenyRules (vd_Update policy)) = ["freeformTags"; "rules"] /\
    ("displayName" ∈ AllowInPlacePaths (vd_Update policy) \/ "displayName" ∈ map vr_FieldPath (DenyRules (vd_Update policy))).
Proof.
  destruct (policy_partitions_paths ex_package "queue" ex_resource ex_formal ex_binding ex_target "abc123" ex_docs ex_overlay
    eq_refl ex_docs_accepted ltac:(by vm_compute) ltac:(by vm_compute)) as (policy & Hp & H).
  exists policy. split; [exact Hp|]. split; [|apply H; left; vm_compute; left].
  assert (He : Ok policy = buildVAPUpdatePolicyDocument ex_package ex_resource ex_overlay) by (symmetry; exact Hp).
  vm_compute in He. injection He as ->. reflexivity.
Defined.

(** The phrases are searched without what stands before them: a row that denies an update in words of its own counts as one
    that allows it. *)
Example negated_phrase_consents : consents "The value cannot currently be updated in place." = true.
Proof. by vm_compute. Qed.
