(* ===== verification/ValidatorReports.v ===== *)
(** * Reports of the schema validator ([internal/validator/{diff,report,upgrade,allowlist}])

    The report on the use of SDK fields, the gate that compares it with a baseline, and the
    differences of two SDK versions.  The parsing of Go sources enters as its result: lists of
    SDK structs and of field usages.  A percentage is the exact quotient; it is only printed. *)

From stdpp Require Import gmap sorting strings.
From Stdlib Require Import QArith.
From S2P Require Import Prelude GoStrings Sorting.
Local Open Scope string_scope.
Local Open Scope list_scope.
Close Scope Q_scope.

(** ** Data *)

Inductive SDKField := mkSDKField {
  sf_Name : string;
  sf_Type : string;
  sf_JSONName : string;
  sf_Mandatory : bool;
  sf_Deprecated : bool;
  sf_ReadOnly : bool;
  sf_Documentation : string;
  sf_Kind : string;
  sf_NestedFields : list SDKField;
  sf_InterfaceImplementations : list SDKImplementation
}
with SDKImplementation := mkSDKImplementation {
  im_QualifiedName : string;
  im_PackageName : string;
  im_TypeName : string;
  im_ImportPath : string;
  im_Fields : list SDKField
}.
Record SDKStruct := mkSDKStruct {
  QualifiedName : string;
  PackageName : string;
  TypeName : string;
  ImportPath : string;
  ss_Fields : list SDKField
}.

Record FieldUsage := mkUsage { us_StructType : string; us_FieldName : string; us_File : string; us_Line : Z; us_Kind : string }.

Definition StatusUsed := "used".
Definition StatusIntentionallyOmitted := "intentionally_omitted".
Definition StatusPotentialGap := "potential_gap".
Definition StatusFutureConsideration := "future_consideration".

Record AllowField := mkAllowField { al_Status : string; al_Reason : string; al_References : list string }.
Notation Allowlist := (gmap string (gmap string AllowField)).
(** The zero value that indexing a map without the key gives. *)
Definition noAllowField : AllowField := mkAllowField "" "" [].

Definition FieldStatusUsed := "used".
Definition FieldStatusIntentionallyOmitted := "intentionally_omitted".
Definition FieldStatusPotentialGap := "potential_gap".
Definition FieldStatusFutureConsideration := "future_consideration".
Definition FieldStatusDeprecated := "deprecated".
Definition FieldStatusReadOnly := "read_only".
Definition FieldStatusUnclassified := "unclassified".

Record FieldReport := mkFieldReport {
  fr_StructType : string;
  fr_FieldName : string;
  fr_FieldType : string;
  fr_JSONName : string;
  fr_Mandatory : bool;
  fr_Used : bool;
  fr_Deprecated : bool;
  fr_ReadOnly : bool;
  fr_Status : string;
  fr_Reason : string;
  fr_References : list string;
  fr_Documentation : string;
  fr_PreviousStatus : string
}.
Record Coverage := mkCoverage { EligibleFields : nat; UsedFields : nat; Percent : Q }.
Record StructReport := mkStructReport { sr_StructType : string; sr_Coverage : Coverage; sr_Fields : list FieldReport }.
Record Report := mkReport { Structs : list StructReport }.

(** ** Usages *)

Definition contains (values : list string) (candidate : string) : bool := bool_decide (candidate ∈ values).
Definition reference (usage : FieldUsage) : string := us_File usage +++ ":" +++ Itoa (us_Line usage).

Notation UsageIndex := (gmap string (gmap string (list string))).
Definition usage_refs (index : UsageIndex) (structType fieldName : string) : list string := default [] (default ∅ (index !! structType) !! fieldName).

Definition add_reference (fields : gmap string (list string)) (usage : FieldUsage) : gmap string (list string) :=
  let references := default [] (fields !! us_FieldName usage) in
  if contains references (reference usage) then fields else <[us_FieldName usage := references ++ [reference usage]]> fields.

(** One turn of the loop of [buildUsageIndex]: the references of all fields of the struct are sorted again. *)
Definition index_usage (index : UsageIndex) (usage : FieldUsage) : UsageIndex :=
  let structFields := default ∅ (index !! us_StructType usage) in
  <[us_StructType usage := sort_by id <$> add_reference structFields usage]> index.
Definition buildUsageIndex (usages : list FieldUsage) : UsageIndex := fold_left index_usage usages ∅.

(** The variant of the upgrade report sorts once, at the end. *)
Definition collect_usage (index : UsageIndex) (usage : FieldUsage) : UsageIndex :=
  <[us_StructType usage := add_reference (default ∅ (index !! us_StructType usage)) usage]> index.
Definition buildFieldUsageIndex (usages : list FieldUsage) : UsageIndex :=
  (fun fields : gmap string (list string) => sort_by id <$> fields) <$> fold_left collect_usage usages ∅.

(** ** The report *)

Definition isCoverageEligible (status : string) : bool :=
  negb (status =? FieldStatusIntentionallyOmitted)%string && negb (status =? FieldStatusDeprecated)%string && negb (status =? FieldStatusReadOnly)%string.

(** The status and the reason of a field, by the first case that applies. *)
Definition classify (references : list string) (field : SDKField) (allow : AllowField) : string * string :=
  if bool_decide (references <> []) then (FieldStatusUsed, "")
  else if sf_Deprecated field then (FieldStatusDeprecated, "Deprecated in the OCI SDK.")
  else if sf_ReadOnly field then (FieldStatusReadOnly, "Read-only or server-managed in the OCI SDK.")
  else if (al_Status allow =? StatusIntentionallyOmitted)%string then (FieldStatusIntentionallyOmitted, al_Reason allow)
  else if (al_Status allow =? StatusPotentialGap)%string then (FieldStatusPotentialGap, al_Reason allow)
  else if (al_Status allow =? StatusFutureConsideration)%string then (FieldStatusFutureConsideration, al_Reason allow)
  else if (al_Status allow =? StatusUsed)%string then
    (FieldStatusUnclassified, "Allowlist marks this field as used, but provider analysis found no usage.")
  else (FieldStatusUnclassified, "Field has no allowlist classification and no provider usage.").

Definition field_report (structType : string) (references : list string) (allow : AllowField) (field : SDKField) : FieldReport :=
  let '(status, reason) := classify references field allow in
  mkFieldReport structType (sf_Name field) (sf_Type field) (sf_JSONName field) (sf_Mandatory field) (bool_decide (references <> [])) (sf_Deprecated field)
    (sf_ReadOnly field) status reason (if bool_decide (references = []) then al_References allow else references) (sf_Documentation field) "".

Definition coverage (reports : list FieldReport) : Coverage :=
  let eligible := length (filter (fun report => isCoverageEligible (fr_Status report) = true) reports) in
  let used := length (filter (fun report => isCoverageEligible (fr_Status report) = true /\ fr_Status report = FieldStatusUsed) reports) in
  mkCoverage eligible used (if (0 <? eligible)%nat then Qmake (Z.of_nat used * 100) (Pos.of_nat eligible) else Qmake 100 1).

Definition struct_report (index : UsageIndex) (allow : Allowlist) (sdkStruct : SDKStruct) : StructReport :=
  let allowFields := default ∅ (allow !! QualifiedName sdkStruct) in
  let fieldReports := (fun field =>
    field_report (QualifiedName sdkStruct) (usage_refs index (QualifiedName sdkStruct) (sf_Name field)) (default noAllowField (allowFields !! sf_Name field)) field)
    <$> ss_Fields sdkStruct in
  mkStructReport (QualifiedName sdkStruct) (coverage fieldReports) (sort_by fr_FieldName fieldReports).

Definition BuildReport (sdkStructs : list SDKStruct) (usages : list FieldUsage) (allow : Allowlist) : Report :=
  mkReport (sort_by sr_StructType (struct_report (buildUsageIndex usages) allow <$> sdkStructs)).

(** ** The gate *)

Definition set_PreviousStatus (status : string) (field : FieldReport) : FieldReport :=
  mkFieldReport (fr_StructType field) (fr_FieldName field) (fr_FieldType field) (fr_JSONName field) (fr_Mandatory field) (fr_Used field) (fr_Deprecated field)
    (fr_ReadOnly field) (fr_Status field) (fr_Reason field) (fr_References field) (fr_Documentation field) status.

(** A map filled in a loop keeps the last value of a key. *)
Definition last_by {A} (key : A -> string) (l : list A) : gmap string A := fold_left (fun m x => <[key x := x]> m) l ∅.

Definition with_previous (baselineMap : gmap string FieldReport) (field : FieldReport) : FieldReport :=
  match baselineMap !! fr_FieldName field with Some previous => set_PreviousStatus (fr_Status previous) field | None => field end.

Definition WithBaseline (current baseline : Report) : Report :=
  let baselineIndex := last_by sr_StructType (Structs baseline) in
  mkReport (sort_by sr_StructType ((fun structReport =>
    let baselineMap := last_by fr_FieldName (match baselineIndex !! sr_StructType structReport with Some base => sr_Fields base | None => [] end) in
    mkStructReport (sr_StructType structReport) (sr_Coverage structReport) (with_previous baselineMap <$> sr_Fields structReport)) <$> Structs current)).

Definition new_actionable (field : FieldReport) : bool :=
  ((fr_Status field =? FieldStatusUnclassified)%string && negb (fr_PreviousStatus field =? FieldStatusUnclassified)%string) ||
  ((fr_Status field =? FieldStatusPotentialGap)%string && negb (fr_PreviousStatus field =? FieldStatusPotentialGap)%string).
Definition HasNewActionable (report : Report) : bool := existsb (fun structReport => existsb new_actionable (sr_Fields structReport)) (Structs report).

(** ** Upgrades *)

Record FieldInfo := mkFieldInfo {
  fi_Name : string; fi_JSONName : string; fi_Mandatory : bool; fi_Deprecated : bool; fi_ReadOnly : bool; fi_UsedByOSOK : bool; fi_References : list string
}.
Record FieldChange := mkFieldChange { fc_FieldName : string; fc_From : FieldInfo; fc_To : FieldInfo; fc_UsedByOSOK : bool; fc_References : list string }.
Record StructDiff := mkStructDiff { sd_StructType : string; AddedFields : list FieldInfo; RemovedFields : list FieldInfo; ChangedFields : list FieldChange }.
Record AllowlistSuggestion := mkSuggestion { sg_Path : string; sg_Status : string; sg_Reason : string }.

Definition sameFieldMetadata (left right : FieldInfo) : bool :=
  (fi_Name left =? fi_Name right)%string && (fi_JSONName left =? fi_JSONName right)%string && Bool.eqb (fi_Mandatory left) (fi_Mandatory right) &&
  Bool.eqb (fi_Deprecated left) (fi_Deprecated right) && Bool.eqb (fi_ReadOnly left) (fi_ReadOnly right).

Definition with_usage (references : list string) (field : FieldInfo) : FieldInfo :=
  mkFieldInfo (fi_Name field) (fi_JSONName field) (fi_Mandatory field) (fi_Deprecated field) (fi_ReadOnly field) (bool_decide (references <> [])) references.

Definition diffStruct (structType : string) (fromFields toFields : gmap string FieldInfo) (currentUsage : gmap string (list string)) : StructDiff :=
  let usage name := default [] (currentUsage !! name) in
  let added := omap (fun '(name, toField) => match fromFields !! name with None => Some (with_usage (usage name) toField) | Some _ => None end)
                 (map_to_list toFields) in
  let changed := omap (fun '(name, toField) =>
                   match fromFields !! name with
                   | Some fromField => if sameFieldMetadata fromField toField then None
                                       else Some (mkFieldChange name fromField toField (bool_decide (usage name <> [])) (usage name))
                   | None => None
                   end) (map_to_list toFields) in
  let removed := omap (fun '(name, fromField) => match toFields !! name with Some _ => None | None => Some (with_usage (usage name) fromField) end)
                   (map_to_list fromFields) in
  mkStructDiff structType (sort_by fi_Name added) (sort_by fi_Name removed) (sort_by fc_FieldName changed).

Definition fieldSuggestions (structType : string) (addedFields : list FieldInfo) (fromVersion toVersion : string) : list AllowlistSuggestion :=
  (fun field =>
     mkSuggestion (structType +++ ".fields." +++ fi_Name field) (if fi_Mandatory field then "potential_gap" else "future_consideration")
       ("Added in OCI Go SDK " +++ toVersion +++ " compared to " +++ fromVersion +++ "; review OSOK coverage and update the allowlist as needed."))
  <$> addedFields.

(** ** Usages: both indexes are the sorted set of references *)

Definition refs_of (usages : list FieldUsage) (structType fieldName : string) : list string :=
  reference <$> filter (fun usage => us_StructType usage = structType /\ us_FieldName usage = fieldName) usages.

Lemma refs_of_snoc usages usage s f :
  refs_of (usages ++ [usage]) s f =
  refs_of usages s f ++ (if bool_decide (us_StructType usage = s /\ us_FieldName usage = f) then [reference usage] else []).
Proof.
  unfold refs_of. rewrite filter_app, fmap_app. f_equal. rewrite filter_cons, filter_nil.
  case_decide; [by rewrite bool_decide_eq_true_2|by rewrite bool_decide_eq_false_2].
Qed.

Lemma add_reference_refs fields usage f :
  default [] (add_reference fields usage !! f) =
  default [] (fields !! f) ++
    (if bool_decide (us_FieldName usage = f /\ reference usage ∉ default [] (fields !! f)) then [reference usage] else []).
Proof.
  unfold add_reference, contains. destruct (decide (us_FieldName usage = f)) as [<-|Hf].
  - destruct (decide (reference usage ∈ default [] (fields !! us_FieldName usage))).
    + rewrite bool_decide_eq_true_2 by done. rewrite bool_decide_eq_false_2 by naive_solver. by rewrite app_nil_r.
    + rewrite (bool_decide_eq_false_2 (_ ∈ _)) by done. rewrite bool_decide_eq_true_2 by done. by rewrite lookup_insert_eq.
  - rewrite (bool_decide_eq_false_2 (_ /\ _)) by naive_solver. rewrite app_nil_r. case_bool_decide; [done|]. by rewrite lookup_insert_ne.
Qed.

(** The references a turn of either loop leaves, up to their order. *)
Definition next_refs (old : list string) (usage : FieldUsage) (s f : string) : list string :=
  old ++ (if bool_decide ((us_StructType usage = s /\ us_FieldName usage = f) /\ reference usage ∉ old) then [reference usage] else []).

Lemma next_refs_other old usage s f : us_StructType usage <> s -> next_refs old usage s f = old.
Proof. intros Hs. unfold next_refs. rewrite bool_decide_eq_false_2 by naive_solver. apply app_nil_r. Qed.

Lemma next_refs_same fields usage f :
  next_refs (default [] (fields !! f)) usage (us_StructType usage) f = default [] (add_reference fields usage !! f).
Proof.
  rewrite add_reference_refs. unfold next_refs. f_equal. erewrite bool_decide_ext; [done|]. naive_solver.
Qed.

Lemma sorted_field fields f : default [] ((sort_by id <$> fields : gmap string (list string)) !! f) = sort_by id (default [] (fields !! f)).
Proof. rewrite lookup_fmap. by destruct (fields !! f). Qed.

Lemma index_usage_refs index usage s f :
  usage_refs (index_usage index usage) s f =
  if bool_decide (us_StructType usage = s) then sort_by id (next_refs (usage_refs index s f) usage s f) else usage_refs index s f.
Proof.
  unfold usage_refs, index_usage. case_bool_decide as Hs; [subst s|by rewrite lookup_insert_ne].
  rewrite lookup_insert_eq. change (default ?x (Some ?y)) with y. by rewrite sorted_field, next_refs_same.
Qed.

Lemma collect_usage_refs index usage s f : usage_refs (collect_usage index usage) s f = next_refs (usage_refs index s f) usage s f.
Proof.
  unfold usage_refs, collect_usage. destruct (decide (us_StructType usage = s)) as [<-|Hs].
  - rewrite lookup_insert_eq. change (default ?x (Some ?y)) with y. by rewrite next_refs_same.
  - by rewrite lookup_insert_ne, next_refs_other.
Qed.

(** The set of references of a field. *)
Definition reference_set (l : list string) (usages : list FieldUsage) (s f : string) : Prop := NoDup l /\ forall r, r ∈ l <-> r ∈ refs_of usages s f.

Lemma next_refs_set l usages usage s f : reference_set l usages s f -> reference_set (next_refs l usage s f) (usages ++ [usage]) s f.
Proof.
  intros [Hn He]. unfold next_refs. split.
  - apply NoDup_app. split; [done|]. case_bool_decide as Hc; split; [|apply NoDup_singleton| |apply NoDup_nil_2].
    + intros x Hx Hin. apply list_elem_of_singleton in Hin as ->. naive_solver.
    + intros x _. apply not_elem_of_nil.
  - intros r. rewrite refs_of_snoc, !elem_of_app. setoid_rewrite <- He.
    destruct (decide (us_StructType usage = s /\ us_FieldName usage = f)) as [Hu|Hu]; [rewrite (bool_decide_eq_true_2 (_ = _ /\ _ = _)) by done|
      rewrite (bool_decide_eq_false_2 (_ = _ /\ _ = _)) by done].
    + destruct (decide (reference usage ∈ l)); [rewrite bool_decide_eq_false_2 by naive_solver|by rewrite bool_decide_eq_true_2].
      rewrite list_elem_of_singleton. split; [intros [?|Hr]; [by left|by apply not_elem_of_nil in Hr]|]. intros [?| ->]; by left.
    + by rewrite bool_decide_eq_false_2 by naive_solver.
Qed.

Lemma reference_set_perm l k usages s f : l ≡ₚ k -> reference_set l usages s f -> reference_set k usages s f.
Proof. intros Hp [Hn He]. split; [by rewrite <- Hp|]. intros r. by rewrite <- Hp. Qed.

Lemma empty_refs s f : usage_refs ∅ s f = [].
Proof. unfold usage_refs. by rewrite lookup_empty. Qed.

Lemma index_set usages s f : reference_set (usage_refs (buildUsageIndex usages) s f) usages s f /\ Sorted (key_le id) (usage_refs (buildUsageIndex usages) s f).
Proof.
  unfold buildUsageIndex. induction usages as [|usage usages [IH Hs]] using rev_ind.
  - cbn. rewrite empty_refs. split; [split; [apply NoDup_nil_2|set_solver]|constructor].
  - rewrite fold_left_app. cbn [fold_left]. rewrite index_usage_refs. apply (next_refs_set _ _ usage) in IH. case_bool_decide as Hc.
    + split; [|apply Sorted_merge_sort; apply _]. eapply reference_set_perm; [|exact IH]. by rewrite sort_by_perm.
    + by rewrite next_refs_other in IH.
Qed.

Lemma collect_set usages s f : reference_set (usage_refs (fold_left collect_usage usages ∅) s f) usages s f.
Proof.
  induction usages as [|usage usages IH] using rev_ind.
  - cbn. rewrite empty_refs. split; [apply NoDup_nil_2|set_solver].
  - rewrite fold_left_app. cbn [fold_left]. rewrite collect_usage_refs. by apply next_refs_set.
Qed.

(** A sorted list of the references is the one sorted list without repetitions. *)
Lemma canonical_refs l usages s f :
  reference_set l usages s f -> Sorted (key_le id) l -> l = sort_by id (remove_dups (refs_of usages s f)).
Proof.
  intros [Hn He] Hs. apply sort_by_unique; [done| |done]. apply NoDup_Permutation; [done|apply NoDup_remove_dups|].
  intros r. by rewrite He, elem_of_remove_dups.
Qed.

Lemma sorted_index (index : UsageIndex) s f :
  usage_refs ((fun fields : gmap string (list string) => sort_by id <$> fields) <$> index) s f = sort_by id (usage_refs index s f).
Proof. unfold usage_refs. rewrite lookup_fmap. destruct (index !! s) as [fields|]; [apply sorted_field|done]. Qed.

(** The two usage indexes are one: sorting the references of a struct after every usage, as the field report does, and sorting all of
    them once at the end, as the upgrade report does, both give for every field the sorted list, without repetitions, of the places
    that use it. *)
Theorem usage_indexes_agree usages s f :
  usage_refs (buildUsageIndex usages) s f = sort_by id (remove_dups (refs_of usages s f)) /\
  usage_refs (buildFieldUsageIndex usages) s f = sort_by id (remove_dups (refs_of usages s f)).
Proof.
  split; [destruct (index_set usages s f); by apply canonical_refs|].
  unfold buildFieldUsageIndex. rewrite sorted_index. apply canonical_refs; [|apply Sorted_merge_sort; apply _].
  eapply reference_set_perm; [|apply collect_set]. by rewrite sort_by_perm.
Qed.

(** ** The report *)

Lemma used_iff usages s f : usage_refs (buildUsageIndex usages) s f <> [] <-> exists usage, usage ∈ usages /\ us_StructType usage = s /\ us_FieldName usage = f.
Proof.
  destruct (index_set usages s f) as [[_ He] _]. split.
  - intros Hne. destruct (usage_refs _ s f) as [|r l] eqn:E; [done|]. assert (Hr : r ∈ refs_of usages s f) by (apply He; left).
    apply list_elem_of_fmap in Hr as (usage & -> & Hu). apply list_elem_of_filter in Hu as [[??] ?]. eauto.
  - intros (usage & Hin & Hs & Hf) E. assert (Hr : reference usage ∈ usage_refs (buildUsageIndex usages) s f).
    { apply He. unfold refs_of. apply list_elem_of_fmap. exists usage. split; [done|]. by apply list_elem_of_filter. }
    rewrite E in Hr. by apply not_elem_of_nil in Hr.
Qed.

Lemma field_report_status s refs allow field : fr_Status (field_report s refs allow field) = FieldStatusUsed <-> refs <> [].
Proof.
  unfold field_report, classify. destruct (bool_decide (refs <> [])) eqn:E.
  - apply bool_decide_eq_true in E. done.
  - apply bool_decide_eq_false in E. split; [|done]. repeat case_match; simplify_eq; done.
Qed.

Lemma field_report_name s refs allow field : fr_FieldName (field_report s refs allow field) = sf_Name field.
Proof. unfold field_report. by destruct (classify _ _ _). Qed.

Lemma coverage_bounds reports : UsedFields (coverage reports) <= EligibleFields (coverage reports) <= length reports.
Proof.
  unfold coverage. cbn [UsedFields EligibleFields]. split; [|apply length_filter].
  induction reports as [|r l IH]; [done|]. rewrite !filter_cons. repeat case_decide; cbn; naive_solver lia.
Qed.

(** The field report covers the SDK exactly: it has one struct per SDK struct, each with one entry per field of the struct, in the
    order of their names; a field is reported as used exactly when a usage of it was found, whatever the allowlist, the deprecation or
    the read-only mark say; and the coverage counts are bounded by the fields. *)
Theorem validator_report_exact sdkStructs usages allow :
  let report := BuildReport sdkStructs usages allow in
  sr_StructType <$> Structs report ≡ₚ QualifiedName <$> sdkStructs /\ Sorted (key_le sr_StructType) (Structs report) /\
  Forall (fun sdkStruct => exists structReport, structReport ∈ Structs report /\ sr_StructType structReport = QualifiedName sdkStruct /\
    fr_FieldName <$> sr_Fields structReport ≡ₚ sf_Name <$> ss_Fields sdkStruct /\ Sorted (key_le fr_FieldName) (sr_Fields structReport) /\
    Forall (fun field => fr_Status field = FieldStatusUsed <->
      exists usage, usage ∈ usages /\ us_StructType usage = QualifiedName sdkStruct /\ us_FieldName usage = fr_FieldName field) (sr_Fields structReport) /\
    UsedFields (sr_Coverage structReport) <= EligibleFields (sr_Coverage structReport) <= length (ss_Fields sdkStruct)) sdkStructs.
Proof.
  cbn zeta. unfold BuildReport. cbn [Structs]. split; [|split].
  - rewrite sort_by_perm, <- list_fmap_compose. done.
  - apply Sorted_merge_sort; apply _.
  - apply Forall_forall. intros sdkStruct Hin. exists (struct_report (buildUsageIndex usages) allow sdkStruct). split_and!.
    + rewrite sort_by_perm. by apply list_elem_of_fmap_2.
    + done.
    + cbn. rewrite sort_by_perm, <- list_fmap_compose. apply reflexive_eq, list_fmap_ext. intros i x _. apply field_report_name.
    + apply Sorted_merge_sort; apply _.
    + cbn. apply Forall_forall. intros field Hf. rewrite sort_by_perm in Hf. apply list_elem_of_fmap in Hf as (f & -> & _).
      rewrite field_report_status, field_report_name. apply used_iff.
    + cbn. apply coverage_bounds.
    + cbn. etransitivity; [apply coverage_bounds|]. by rewrite length_fmap.
Qed.

(** ** The gate *)

Lemma last_by_lookup {A} (key : A -> string) l k : last_by key l !! k = last (filter (fun x => key x = k) l).
Proof.
  unfold last_by. induction l as [|x l IH] using rev_ind; [done|]. rewrite fold_left_app, filter_app. cbn [fold_left].
  rewrite filter_cons, filter_nil. case_decide as Hk.
  - subst k. by rewrite lookup_insert_eq, last_snoc.
  - by rewrite lookup_insert_ne, app_nil_r.
Qed.

(** The status that a baseline has for a field. *)
Definition baseline_status (baseline : Report) (structType fieldName : string) : option string :=
  base ← last (filter (fun structReport => sr_StructType structReport = structType) (Structs baseline));
  previous ← last (filter (fun field => fr_FieldName field = fieldName) (sr_Fields base));
  Some (fr_Status previous).

Definition actionable (field : FieldReport) : Prop := fr_Status field = FieldStatusUnclassified \/ fr_Status field = FieldStatusPotentialGap.

Lemma new_actionable_iff field : new_actionable field = true <-> actionable field /\ fr_PreviousStatus field <> fr_Status field.
Proof.
  unfold new_actionable, actionable. rewrite orb_true_iff, !andb_true_iff, !negb_true_iff, !String.eqb_eq, !String.eqb_neq. split.
  - intros [[-> ?]|[-> ?]]; auto.
  - intros [[Hs|Hs] Hp]; rewrite Hs in *; auto.
Qed.

Lemma with_previous_status baseline structType field :
  let baselineMap := last_by fr_FieldName (match last_by sr_StructType (Structs baseline) !! structType with Some base => sr_Fields base | None => [] end) in
  with_previous baselineMap field =
  match baseline_status baseline structType (fr_FieldName field) with Some status => set_PreviousStatus status field | None => field end.
Proof.
  cbn zeta. unfold with_previous, baseline_status. rewrite !last_by_lookup.
  destruct (last (filter _ (Structs baseline))) as [base|]; [|done]. cbn. by destruct (last (filter _ (sr_Fields base))).
Qed.

Lemma gate_fields current baseline :
  HasNewActionable (WithBaseline current baseline) = true <->
  exists structReport field, structReport ∈ Structs current /\ field ∈ sr_Fields structReport /\ actionable field /\
    default (fr_PreviousStatus field) (baseline_status baseline (sr_StructType structReport) (fr_FieldName field)) <> fr_Status field.
Proof.
  unfold HasNewActionable. rewrite existsb_exists. setoid_rewrite existsb_exists. setoid_rewrite new_actionable_iff. cbn [WithBaseline Structs]. split.
  - intros (out & Hout & f & Hf & Ha & Hp). apply list_elem_of_In in Hout, Hf. rewrite sort_by_perm in Hout.
    apply list_elem_of_fmap in Hout as (structReport & -> & Hin). cbn [sr_Fields] in Hf. apply list_elem_of_fmap in Hf as (field & -> & Hf).
    exists structReport, field. rewrite with_previous_status in *. destruct (baseline_status _ _ _); by repeat split.
  - intros (structReport & field & Hin & Hf & Ha & Hp). eexists. rewrite <- list_elem_of_In, sort_by_perm. split; [by apply list_elem_of_fmap_2|].
    cbn [sr_Fields]. eexists. rewrite <- list_elem_of_In. split; [by apply list_elem_of_fmap_2|]. rewrite with_previous_status.
    by destruct (baseline_status _ _ _).
Qed.

Lemma last_unique {A} (key : A -> string) l x : NoDup (key <$> l) -> x ∈ l -> last (filter (fun y => key y = key x) l) = Some x.
Proof.
  intros Hn Hx. apply list_elem_of_split in Hx as (l1 & l2 & ->). rewrite fmap_app, fmap_cons in Hn. apply NoDup_app in Hn as (_ & H1 & H2).
  apply NoDup_cons in H2 as [H2 _]. rewrite filter_app, filter_cons_True by done. rewrite (list_filter_none _ l1), (list_filter_none _ l2); [done|..].
  - apply Forall_forall. intros y Hy Hk. apply H2. rewrite <- Hk. by apply list_elem_of_fmap_2.
  - apply Forall_forall. intros y Hy Hk. apply (H1 (key y)); [by apply list_elem_of_fmap_2|]. rewrite Hk. apply list_elem_of_here.
Qed.

(** C39. The gate of the validator fails exactly on new gaps: with a baseline it reports a failure exactly when some field is unclassified
    or a potential gap now and had another status, or none, in the baseline (a field without an entry there keeps its own previous
    status, which [BuildReport] leaves empty); so a report whose names are unique passes against
    itself. *)
Theorem validator_gate_exact current baseline :
  (HasNewActionable (WithBaseline current baseline) = true <->
   exists structReport field, structReport ∈ Structs current /\ field ∈ sr_Fields structReport /\ actionable field /\
     default (fr_PreviousStatus field) (baseline_status baseline (sr_StructType structReport) (fr_FieldName field)) <> fr_Status field) /\
  (NoDup (sr_StructType <$> Structs current) -> Forall (fun structReport => NoDup (fr_FieldName <$> sr_Fields structReport)) (Structs current) ->
   HasNewActionable (WithBaseline current current) = false).
Proof.
  split; [apply gate_fields|]. intros Hn Hf. apply not_true_is_false. rewrite gate_fields. intros (structReport & field & Hin & Hfield & _ & Hp).
  apply Hp. unfold baseline_status. rewrite last_unique by done. rewrite Forall_forall in Hf. cbn. by rewrite (last_unique fr_FieldName) by eauto.
Qed.

(** ** Upgrades *)

(** The part of a field that the comparison looks at. *)
Definition metadata (field : FieldInfo) : string * string * bool * bool * bool :=
  (fi_Name field, fi_JSONName field, fi_Mandatory field, fi_Deprecated field, fi_ReadOnly field).

Lemma sameFieldMetadata_iff left right : sameFieldMetadata left right = true <-> metadata left = metadata right.
Proof.
  unfold sameFieldMetadata, metadata. rewrite !andb_true_iff, !String.eqb_eq, !eqb_true_iff. split; [by intros [[[[-> ->] ->] ->] ->]|by intros [= -> -> -> -> ->]].
Qed.

(** Maps as [parseStructFields] builds them: an entry is stored under its name. *)
Definition keyed (fields : gmap string FieldInfo) : Prop := map_Forall (fun name field => fi_Name field = name) fields.

Section Diff.
Context (structType : string) (fromFields toFields : gmap string FieldInfo) (usage : gmap string (list string)).
Context (keyed_from : keyed fromFields) (keyed_to : keyed toFields).
Let diff := diffStruct structType fromFields toFields usage.

Lemma added_iff field : field ∈ AddedFields diff <-> exists name toField,
  toFields !! name = Some toField /\ fromFields !! name = None /\ field = with_usage (default [] (usage !! name)) toField.
Proof.
  cbn [diff diffStruct AddedFields]. rewrite sort_by_perm, list_elem_of_omap. split.
  - intros ([name toField] & Hin & Hf). apply elem_of_map_to_list in Hin. destruct (fromFields !! name) eqn:E; [done|]. injection Hf as <-. eauto 6.
  - intros (name & toField & Ht & Hf & ->). exists (name, toField). rewrite elem_of_map_to_list. by rewrite Hf.
Qed.

Lemma removed_iff field : field ∈ RemovedFields diff <-> exists name fromField,
  fromFields !! name = Some fromField /\ toFields !! name = None /\ field = with_usage (default [] (usage !! name)) fromField.
Proof.
  cbn [diff diffStruct RemovedFields]. rewrite sort_by_perm, list_elem_of_omap. split.
  - intros ([name fromField] & Hin & Hf). apply elem_of_map_to_list in Hin. destruct (toFields !! name) eqn:E; [done|]. injection Hf as <-. eauto 6.
  - intros (name & fromField & Ht & Hf & ->). exists (name, fromField). rewrite elem_of_map_to_list. by rewrite Hf.
Qed.

Lemma changed_iff change : change ∈ ChangedFields diff <-> exists name fromField toField,
  fromFields !! name = Some fromField /\ toFields !! name = Some toField /\ metadata fromField <> metadata toField /\
  change = mkFieldChange name fromField toField (bool_decide (default [] (usage !! name) <> [])) (default [] (usage !! name)).
Proof.
  cbn [diff diffStruct ChangedFields]. rewrite sort_by_perm, list_elem_of_omap. split.
  - intros ([name toField] & Hin & Hf). apply elem_of_map_to_list in Hin. destruct (fromFields !! name) as [fromField|] eqn:E; [|done].
    destruct (sameFieldMetadata fromField toField) eqn:Es; [done|]. injection Hf as <-. exists name, fromField, toField. repeat split; try done.
    intros Hm%sameFieldMetadata_iff. congruence.
  - intros (name & fromField & toField & Hf & Ht & Hm & ->). exists (name, toField). rewrite elem_of_map_to_list, Hf. split; [done|].
    destruct (sameFieldMetadata fromField toField) eqn:Es; [|done]. by apply sameFieldMetadata_iff in Es.
Qed.

Lemma added_names name : name ∈ fi_Name <$> AddedFields diff <-> is_Some (toFields !! name) /\ fromFields !! name = None.
Proof.
  rewrite list_elem_of_fmap. setoid_rewrite added_iff. split.
  - intros (field & -> & name' & toField & Ht & Hf & ->). cbn. rewrite (keyed_to name' toField Ht). eauto.
  - intros [[toField Ht] Hf]. eexists. split; [|by exists name, toField]. symmetry. cbn. by apply keyed_to.
Qed.

Lemma removed_names name : name ∈ fi_Name <$> RemovedFields diff <-> is_Some (fromFields !! name) /\ toFields !! name = None.
Proof.
  rewrite list_elem_of_fmap. setoid_rewrite removed_iff. split.
  - intros (field & -> & name' & fromField & Hf & Ht & ->). cbn. rewrite (keyed_from name' fromField Hf). eauto.
  - intros [[fromField Hf] Ht]. eexists. split; [|by exists name, fromField]. symmetry. cbn. by apply keyed_from.
Qed.

Lemma changed_names name : name ∈ fc_FieldName <$> ChangedFields diff <-> exists fromField toField,
  fromFields !! name = Some fromField /\ toFields !! name = Some toField /\ metadata fromField <> metadata toField.
Proof.
  rewrite list_elem_of_fmap. setoid_rewrite changed_iff. split.
  - intros (change & -> & name' & fromField & toField & Hf & Ht & Hm & ->). cbn. eauto.
  - intros (fromField & toField & Hf & Ht & Hm). eexists. split; [|by exists name, fromField, toField]. done.
Qed.

Lemma no_names {A} (key : A -> string) l : (forall name, name ∉ key <$> l) -> l = [].
Proof. destruct l as [|x l]; [done|]. intros Hn. destruct (Hn (key x)). apply list_elem_of_here. Qed.

Lemma diff_empty : (AddedFields diff = [] /\ RemovedFields diff = [] /\ ChangedFields diff = []) <-> metadata <$> fromFields = metadata <$> toFields.
Proof.
  split.
  - intros (Ha & Hr & Hc). apply map_eq. intros name. rewrite !lookup_fmap. pose proof (added_names name) as Ea. pose proof (removed_names name) as Er.
    pose proof (changed_names name) as Ec. rewrite Ha in Ea. rewrite Hr in Er. rewrite Hc in Ec. cbn in Ea, Er, Ec.
    destruct (fromFields !! name) as [f|], (toFields !! name) as [t|]; cbn; [..|done].
    + f_equal. apply dec_stable. intros Hm. apply (not_elem_of_nil (A := string) name). apply Ec. eauto.
    + destruct (not_elem_of_nil (A := string) name). apply Er. eauto.
    + destruct (not_elem_of_nil (A := string) name). apply Ea. eauto.
  - intros E. assert (El : forall name, metadata <$> fromFields !! name = metadata <$> toFields !! name) by (intros name; by rewrite <- !lookup_fmap, E).
    split_and!; eapply no_names; intros name.
    + rewrite added_names. intros [[t Ht] Hf]. specialize (El name). by rewrite Ht, Hf in El.
    + rewrite removed_names. intros [[f Hf] Ht]. specialize (El name). by rewrite Ht, Hf in El.
    + rewrite changed_names. intros (f & t & Hf & Ht & Hm). specialize (El name). rewrite Ht, Hf in El. cbn in El. congruence.
Qed.

(** The difference of two SDK versions is exact: a field is listed as added, removed or changed exactly when it exists in the new
    version only, in the old version only, or in both with another name, JSON name or mark; so nothing is listed exactly when the
    two versions of the struct agree field by field. *)
Theorem upgrade_diff_exact :
  (forall name, name ∈ fi_Name <$> AddedFields diff <-> is_Some (toFields !! name) /\ fromFields !! name = None) /\
  (forall name, name ∈ fi_Name <$> RemovedFields diff <-> is_Some (fromFields !! name) /\ toFields !! name = None) /\
  (forall name, name ∈ fc_FieldName <$> ChangedFields diff <-> exists fromField toField,
     fromFields !! name = Some fromField /\ toFields !! name = Some toField /\ metadata fromField <> metadata toField) /\
  ((AddedFields diff = [] /\ RemovedFields diff = [] /\ ChangedFields diff = []) <-> metadata <$> fromFields = metadata <$> toFields).
Proof. split_and!; [apply added_names|apply removed_names|apply changed_names|apply diff_empty..]. Qed.
End Diff.

(** ** A concrete upgrade *)

Definition ex_field (name json : string) : FieldInfo := mkFieldInfo name json false false false false [].
Definition ex_from : gmap string FieldInfo := {[ "Id" := ex_field "Id" "id"; "Name" := ex_field "Name" "name" ]}.
Definition ex_to : gmap string FieldInfo := {[ "Id" := ex_field "Id" "ocid"; "Tags" := ex_field "Tags" "tags" ]}.

Lemma ex_keyed : keyed ex_from /\ keyed ex_to.
Proof.
  unfold keyed, ex_from, ex_to. split; repeat (apply map_Forall_insert_2; [done|]); by apply map_Forall_empty.
Qed.

Lemma upgrade_diff_exact_witness :
  fi_Name <$> AddedFields (diffStruct "core.Vcn" ex_from ex_to ∅) = ["Tags"] /\
  fi_Name <$> RemovedFields (diffStruct "core.Vcn" ex_from ex_to ∅) = ["Name"] /\
  (metadata <$> ex_from = metadata <$> ex_to -> AddedFields (diffStruct "core.Vcn" ex_from ex_to ∅) = []).
Proof.
  split; [vm_compute; reflexivity|]. split; [vm_compute; reflexivity|]. intros E.
  exact (proj1 (proj2 (proj2 (proj2 (proj2 (upgrade_diff_exact "core.Vcn" ex_from ex_to ∅ (proj1 ex_keyed) (proj2 ex_keyed))))) E)).
Defined.
