(* ===== verification/ValidatorCoverage.v ===== *)
(** * Coverage report of the schema validator ([internal/validator/apispec])

    For every custom resource, which fields of the SDK payloads its spec or its status exposes:
    [analyzer.go], [untracked.go], [response_body.go].  The registry of targets
    ([registry.go], data) is an argument.  A [reflect.Type] is its tree of fields; a struct type
    is known by its name, and a pointer to a [SpecField] is its index in the list of the set,
    to which every new one is appended. *)

From stdpp Require Import gmap sorting strings.
From Stdlib Require Import Ascii.
From S2P Require Import Prelude GoStrings Sorting ValidatorReports.
Local Open Scope string_scope.
Local Open Scope list_scope.

(** ** Data *)

(** [FieldReport] and [StructReport] of [analyzer.go]. *)
Record APIField := mkAPIField { af_FieldName : string; af_Mandatory : bool; af_Status : string; af_Reason : string }.
Record APIStruct := mkAPIStruct {
  as_Service : string;
  as_Spec : string;
  as_APISurface : string;
  as_SDKStruct : string;
  as_TrackingStatus : string;
  as_TrackingReason : string;
  as_PresentFields : list APIField;
  as_MissingFields : list APIField;
  as_ExtraSpecFields : list APIField
}.
Definition TrackingStatusTracked := "tracked".
Definition TrackingStatusUntracked := "untracked".
Definition apiSurfaceSpec := "spec".
Definition apiSurfaceStatus := "status".
Definition apiSurfaceExcluded := "excluded".

Inductive APIType :=
| TPointer (elem : APIType)
| TStruct (name : string) (fields : list APITypeField)
| TOther
with APITypeField :=
| mkTypeField (name : string) (exported : bool) (jsonTag : string) (anonymous : bool) (type : APIType).

Record SDKMapping := mkSDKMapping { m_SDKStruct : string; m_APISurface : string; m_Exclude : bool; m_Reason : string }.
(** [t_SpecPkgPath] is [SpecType.PkgPath()]. *)
Record Target := mkTarget {
  t_Name : string;
  t_SpecType : APIType;
  t_SpecPkgPath : string;
  t_StatusType : option APIType;
  t_SDKMappings : list SDKMapping
}.

(** ** Field sets *)

Record SpecField := mkSpecField { GoName : string; JSONName : string; display : string }.
Record specFieldSet := mkFieldSet { fs_lookup : gmap string nat; fs_display : gmap string nat; fs_list : list SpecField }.
Definition newSpecFieldSet : specFieldSet := mkFieldSet ∅ ∅ [].

Definition DisplayName (sf : SpecField) : string :=
  if negb (display sf =? "")%string then display sf else if negb (JSONName sf =? "")%string then JSONName sf else GoName sf.

Definition normalize (value : string) : string := ToLower (TrimSpace value).

(** The pointer of the entry, a fresh one at the end of the list or the known one with its empty names filled in. *)
Definition set_entry (s : specFieldSet) (goName jsonName : string) : nat * specFieldSet :=
  let disp := if (jsonName =? "")%string then goName else jsonName in
  match fs_display s !! disp with
  | None =>
      let p := length (fs_list s) in
      (p, mkFieldSet (fs_lookup s) (<[disp := p]> (fs_display s)) (fs_list s ++ [mkSpecField goName jsonName disp]))
  | Some p =>
      (p, mkFieldSet (fs_lookup s) (fs_display s)
            (alter (fun spec => mkSpecField (if (GoName spec =? "")%string then goName else GoName spec)
                                  (if (JSONName spec =? "")%string then jsonName else JSONName spec) (display spec)) p (fs_list s)))
  end.

Definition set_lookup (name : string) (p : nat) (s : specFieldSet) : specFieldSet :=
  if (name =? "")%string then s else mkFieldSet (<[normalize name := p]> (fs_lookup s)) (fs_display s) (fs_list s).

(** [specFieldSet.add]. *)
Definition set_add (s : specFieldSet) (goName jsonName : string) : specFieldSet :=
  if (goName =? "")%string && (jsonName =? "")%string then s
  else let '(p, s) := set_entry s goName jsonName in set_lookup jsonName p (set_lookup goName p s).

Definition hasAPIField (set : specFieldSet) (field : SDKField) : option nat :=
  match fs_lookup set !! normalize (sf_Name field) with
  | Some p => Some p
  | None => if (sf_JSONName field =? "")%string then None else fs_lookup set !! normalize (sf_JSONName field)
  end.

(** [countMatchingFields] of a set that is not nil. *)
Definition countMatchingFields (set : specFieldSet) (fields : list SDKField) : nat :=
  length (filter (fun field => is_Some (hasAPIField set field)) fields).

(** ** Collecting the fields of a type *)

(** [jsonName] of a tag whose json entry is [jsonTag]. *)
Definition jsonName (jsonTag : string) : string :=
  let name := default "" (head (Split jsonTag ","%char)) in if (name =? "-")%string then "" else name.

Definition shouldSkipCoverageField (name jsonTag apiSurface : string) : bool :=
  (apiSurface =? apiSurfaceStatus)%string && (name =? "OsokStatus")%string && (jsonName jsonTag =? "status")%string.

Definition is_struct (t : APIType) : bool := match t with TStruct _ _ => true | _ => false end.
Definition shouldInline (anonymous : bool) (jsonTag : string) (type : APIType) : bool :=
  (anonymous && is_struct type) || (Contains jsonTag ",inline" && is_struct type).

Section Collect.
Context {S : Type} (add : S -> string -> string -> S) (apiSurface : string).

(** [collectFields] of a struct type; what it adds to is left open.  The recursive call is made for struct types only, so that a
    pointer is followed at the outermost type alone. *)
Fixpoint collect_struct (t : APIType) (st : S * gset string) {struct t} : S * gset string :=
  match t with
  | TStruct name fields =>
      if bool_decide (name ∈ snd st) then st
      else
        (fix each (fields : list APITypeField) (st : S * gset string) : S * gset string :=
           match fields with
           | [] => st
           | mkTypeField fieldName exported jsonTag anonymous type :: rest =>
               each rest
                 (if negb exported then st
                  else if (jsonTag =? "-")%string then st
                  else if shouldSkipCoverageField fieldName jsonTag apiSurface then st
                  else if shouldInline anonymous jsonTag type then collect_struct type st
                  else (add (fst st) fieldName (jsonName jsonTag), snd st))
           end) fields (fst st, {[name]} ∪ snd st)
  | _ => st
  end.
Definition collectFields (t : APIType) (st : S * gset string) : S * gset string :=
  collect_struct (match t with TPointer elem => elem | _ => t end) st.
End Collect.

Definition collectAPIFields (t : APIType) (apiSurface : string) : specFieldSet := fst (collectFields set_add apiSurface t (newSpecFieldSet, ∅)).

(** ** Reasons *)

Definition intentionalUntrackedPrefix := "Intentionally untracked: ".
Definition isIntentionalUntrackedReason (reason : string) : bool := HasPrefix (TrimSpace reason) intentionalUntrackedPrefix.

Definition readOnlyResponseReason (sdkType : string) : string :=
  intentionalUntrackedPrefix +++ "spec is empty and the SDK only exposes read-only response payloads via " +++ sdkType +++
  ", which would make every field appear missing from desired state.".
Definition responseBodyReason (sdkType : string) : string :=
  intentionalUntrackedPrefix +++ "spec is empty and the SDK only returns " +++ sdkType +++ " in the response body, not as a desired-state payload.".
Definition binaryContentReason (description : string) : string :=
  intentionalUntrackedPrefix +++ "spec is empty and " +++ description +++ ", not a reusable SDK struct for desired-state validation.".
Definition scalarContentReason (description : string) : string :=
  intentionalUntrackedPrefix +++ "spec is empty and " +++ description +++ ", not a reusable SDK struct for desired-state validation.".
Definition excludedMappingReason (mapping : SDKMapping) : string :=
  let reason := TrimSpace (m_Reason mapping) in
  if HasPrefix reason intentionalUntrackedPrefix then reason
  else if negb (reason =? "")%string then intentionalUntrackedPrefix +++ reason
  else intentionalUntrackedPrefix +++ "mapping is intentionally excluded from desired-state coverage by validator registry metadata.".

Definition stagingReason : string :=
  intentionalUntrackedPrefix +++
  "selected generated staging kind has no reusable desired-state SDK payload in the current SDK discovery; runtime implementation needs resource-local API coverage review.".
Definition reviewedUntrackedReasons : gmap string string := list_to_map [
  ("DataintegrationApplicationDetailedDescription", stagingReason);
  ("DataintegrationConnection", stagingReason);
  ("DataintegrationDataAsset", stagingReason);
  ("DataintegrationDisApplicationDetailedDescription", stagingReason);
  ("DataintegrationTask", stagingReason);
  ("FleetsoftwareupdateFsuAction", stagingReason);
  ("GenericartifactscontentGenericArtifactContent",
    binaryContentReason "the SDK only returns artifact bytes or response metadata for content reads");
  ("GenericartifactscontentGenericArtifactContentByPath",
    binaryContentReason "the desired content bytes are sourced from Kubernetes Secrets and the OCI SDK request body is a binary payload instead of a reusable desired-state struct");
  ("ManagementagentDataSource", intentionalUntrackedPrefix +++
    "DataSource uses polymorphic create, update, and response body payloads; generated runtime still exposes the concrete CRD fields, but APISpec coverage needs resource-local review before mapping one concrete SDK shape.");
  ("MulticloudExternalLocationDetailsMetadata", readOnlyResponseReason "multicloud.ExternalLocationsMetadatumCollection");
  ("MulticloudExternalLocationMappingMetadata", readOnlyResponseReason "multicloud.ExternalLocationMappingMetadatumSummaryCollection");
  ("MulticloudExternalLocationSummariesMetadata", readOnlyResponseReason "multicloud.ExternalLocationSummariesMetadatumSummaryCollection");
  ("NetworkfirewallApplication", stagingReason);
  ("NetworkfirewallTunnelInspectionRule", stagingReason);
  ("OsuborganizationsubscriptionOrganizationSubscription", readOnlyResponseReason "osuborganizationsubscription.SubscriptionSummary")].
Definition reviewedUntrackedReason (targetName : string) : string := default "" (reviewedUntrackedReasons !! TrimSpace targetName).

(** ** Surfaces *)

Definition normalizeAPISurface (apiSurface : string) : string :=
  let surface := ToLower (TrimSpace apiSurface) in
  if (surface =? apiSurfaceSpec)%string then apiSurfaceSpec else if (surface =? apiSurfaceStatus)%string then apiSurfaceStatus else "".

(** [strings.SplitN(s, ".", 2)] when it has two parts. *)
Fixpoint cut_dot (s : string) : option (string * string) :=
  match s with
  | EmptyString => None
  | String c rest => if Ascii.eqb c "."%char then Some ("", rest) else (fun '(before, after) => (String c before, after)) <$> cut_dot rest
  end.
Definition sdkTypeName (sdkName : string) : string :=
  match cut_dot (TrimSpace sdkName) with Some (_, typeName) => typeName | None => TrimSpace sdkName end.

Definition prefersSpecSurface (sdkName : string) : bool :=
  let typeName := sdkTypeName sdkName in
  (HasPrefix typeName "Create" && HasSuffix typeName "Details") || (HasPrefix typeName "Update" && HasSuffix typeName "Details") ||
  (HasPrefix typeName "Get" && HasSuffix typeName "Details").

Definition selectAPISurfaceByName (sdkName : string) (statusFields : option specFieldSet) : string :=
  match statusFields with
  | None => apiSurfaceSpec
  | Some _ => if prefersSpecSurface sdkName then apiSurfaceSpec else apiSurfaceStatus
  end.
Definition selectAPISurfaceForMapping (mapping : SDKMapping) (statusFields : option specFieldSet) : string :=
  let explicit := normalizeAPISurface (m_APISurface mapping) in
  if negb (explicit =? "")%string then explicit else selectAPISurfaceByName (m_SDKStruct mapping) statusFields.

(** All three returns of the source are the same. *)
Definition excludedAPISurface (mapping : SDKMapping) (statusFields : option specFieldSet) : string := apiSurfaceExcluded.

Definition defaultAPISurface (specFields : specFieldSet) (statusFields : option specFieldSet) : string :=
  match statusFields with
  | Some status => if bool_decide (fs_list specFields = []) && bool_decide (fs_list status <> []) then apiSurfaceStatus else apiSurfaceSpec
  | None => apiSurfaceSpec
  end.

Definition selectAPIFieldsForSDKStruct (mapping : SDKMapping) (sdkStruct : SDKStruct) (specFields : specFieldSet) (statusFields : option specFieldSet)
  : specFieldSet * string :=
  let surface := normalizeAPISurface (m_APISurface mapping) in
  if (surface =? apiSurfaceSpec)%string then (specFields, apiSurfaceSpec)
  else
    match statusFields with
    | None => (specFields, apiSurfaceSpec)
    | Some status =>
        if (surface =? apiSurfaceStatus)%string then (status, apiSurfaceStatus)
        else
          let specMatches := countMatchingFields specFields (ss_Fields sdkStruct) in
          let statusMatches := countMatchingFields status (ss_Fields sdkStruct) in
          if (statusMatches <? specMatches)%nat then (specFields, apiSurfaceSpec)
          else if (specMatches <? statusMatches)%nat then (status, apiSurfaceStatus)
          else if prefersSpecSurface (QualifiedName sdkStruct) then (specFields, apiSurfaceSpec)
          else (status, apiSurfaceStatus)
    end.

(** [path.Base(path.Dir(p))] of an import path, which has no empty and no dot elements. *)
Definition parent_base (p : string) : string :=
  match rev (Split p "/"%char) with _ :: parent :: _ => parent | _ => "." end.
Definition targetService (target : Target) : string :=
  match t_SDKMappings target with
  | first :: _ => match cut_dot (m_SDKStruct first) with Some (service, _) => service | None => parent_base (t_SpecPkgPath target) end
  | [] => parent_base (t_SpecPkgPath target)
  end.

(** ** Missing fields *)

Definition defaultStatus (field : SDKField) : string := if sf_Mandatory field then FieldStatusPotentialGap else FieldStatusFutureConsideration.
Definition mapAllowlistStatus (status : string) (field : SDKField) : string :=
  if (status =? StatusIntentionallyOmitted)%string then FieldStatusIntentionallyOmitted
  else if (status =? StatusPotentialGap)%string then FieldStatusPotentialGap
  else if (status =? StatusFutureConsideration)%string then FieldStatusFutureConsideration
  else if (status =? StatusUsed)%string then FieldStatusUnclassified
  else defaultStatus field.
Definition defaultReason (status : string) (apiSurface : string) : string :=
  let apiTarget := "API " +++ apiSurface in
  if (status =? FieldStatusPotentialGap)%string then "Mandatory SDK field is not exposed in the " +++ apiTarget +++ "."
  else if (status =? FieldStatusFutureConsideration)%string then "Optional SDK field is not exposed in the " +++ apiTarget +++ "."
  else if (status =? FieldStatusIntentionallyOmitted)%string then "Field intentionally omitted from the " +++ apiTarget +++ "."
  else "Field is not currently exposed in the " +++ apiTarget +++ ".".
Definition classifyMissingField (allow : Allowlist) (structName : string) (field : SDKField) (apiSurface : string) : string * string :=
  match allow !! structName ≫= lookup (sf_Name field) with
  | Some allowField =>
      let status := mapAllowlistStatus (al_Status allowField) field in
      (status, if (TrimSpace (al_Reason allowField) =? "")%string then defaultReason status apiSurface else al_Reason allowField)
  | None => (defaultStatus field, defaultReason (defaultStatus field) apiSurface)
  end.

(** ** The report *)

Definition newUntrackedStructReport (service spec apiSurface sdkStruct reason : string) : APIStruct :=
  mkAPIStruct service spec apiSurface sdkStruct TrackingStatusUntracked reason [] [] [].

Record responseBodyCoverage := mkBodyCoverage { rb_SDKStruct : string; rb_FieldName : string; rb_Encoding : string }.
Definition apiSurfaceResponseBody := "responseBody".
Definition responseBodyCoverageTargets : gmap string responseBodyCoverage := ∅.
Definition responseBodyCoverageForTarget (targetName : string) : option responseBodyCoverage := responseBodyCoverageTargets !! TrimSpace targetName.
Definition responseBodyCoverageReason (coverage : responseBodyCoverage) : string :=
  let encoding := TrimSpace (rb_Encoding coverage) in
  "Field is covered through the OCI response body" +++ (if negb (encoding =? "")%string then " (" +++ encoding +++ ")" else "") +++
  ", not through a reusable status struct.".
Definition newResponseBodyStructReport (service spec : string) (coverage : responseBodyCoverage) : APIStruct :=
  mkAPIStruct service spec apiSurfaceResponseBody (rb_SDKStruct coverage) TrackingStatusTracked ""
    [mkAPIField (rb_FieldName coverage) false FieldStatusUsed (responseBodyCoverageReason coverage)] [] [].

(** The report of an SDK payload of the registry; [matched] are the pointers of the API fields that a payload field matched. *)
Definition present_field (apiSurface : string) (field : SDKField) : APIField :=
  mkAPIField (sf_Name field) (sf_Mandatory field) FieldStatusUsed ("Field is exposed in the API " +++ apiSurface +++ ".").
Definition missing_field (allow : Allowlist) (structName apiSurface : string) (field : SDKField) : APIField :=
  let '(status, reason) := classifyMissingField allow structName field apiSurface in mkAPIField (sf_Name field) (sf_Mandatory field) status reason.
Definition extra_field (apiSurface : string) (specField : SpecField) : APIField :=
  mkAPIField (DisplayName specField) false FieldStatusUnclassified
    ("Field exists in the API " +++ apiSurface +++ " but has no matching field in the tracked SDK payloads.").

Definition tracked_report (allow : Allowlist) (service spec : string) (sdkStruct : SDKStruct) (apiFields : specFieldSet) (apiSurface : string) : APIStruct :=
  let matched := omap (hasAPIField apiFields) (ss_Fields sdkStruct) in
  mkAPIStruct service spec apiSurface (QualifiedName sdkStruct) TrackingStatusTracked ""
    (sort_by af_FieldName (present_field apiSurface <$> filter (fun field => is_Some (hasAPIField apiFields field)) (ss_Fields sdkStruct)))
    (sort_by af_FieldName (missing_field allow (QualifiedName sdkStruct) apiSurface <$>
                           filter (fun field => ~ is_Some (hasAPIField apiFields field)) (ss_Fields sdkStruct)))
    (sort_by af_FieldName (extra_field apiSurface ∘ snd <$> filter (fun entry => fst entry ∉ matched) (imap pair (fs_list apiFields)))).

Definition mapping_report (sdkIndex : gmap string SDKStruct) (allow : Allowlist) (service : string) (target : Target) (specFields : specFieldSet)
  (statusFields : option specFieldSet) (mapping : SDKMapping) : APIStruct :=
  let sdkName := m_SDKStruct mapping in
  if m_Exclude mapping then
    newUntrackedStructReport service (t_Name target) (excludedAPISurface mapping statusFields) sdkName (excludedMappingReason mapping)
  else
    match sdkIndex !! sdkName with
    | None =>
        newUntrackedStructReport service (t_Name target) (selectAPISurfaceForMapping mapping statusFields) sdkName
          "API coverage target references an SDK payload that is missing from the SDK seed registry."
    | Some sdkStruct =>
        let '(apiFields, apiSurface) := selectAPIFieldsForSDKStruct mapping sdkStruct specFields statusFields in
        tracked_report allow service (t_Name target) sdkStruct apiFields apiSurface
    end.

Definition target_reports (sdkIndex : gmap string SDKStruct) (allow : Allowlist) (target : Target) : list APIStruct :=
  let serviceName := targetService target in
  let specFields := collectAPIFields (t_SpecType target) apiSurfaceSpec in
  let statusFields := (fun t => collectAPIFields t apiSurfaceStatus) <$> t_StatusType target in
  match t_SDKMappings target with
  | [] =>
      match responseBodyCoverageForTarget (t_Name target) with
      | Some coverage => [newResponseBodyStructReport serviceName (t_Name target) coverage]
      | None =>
          let reviewed := reviewedUntrackedReason (t_Name target) in
          let reason := if negb (reviewed =? "")%string then reviewed
                        else "Generated API surface has no mapped SDK payloads in the validator target registry." in
          [newUntrackedStructReport serviceName (t_Name target) (defaultAPISurface specFields statusFields) "" reason]
      end
  | mappings => mapping_report sdkIndex allow serviceName target specFields statusFields <$> mappings
  end.

(** The order of the reports. *)
Definition report_le (x y : APIStruct) : Prop :=
  if decide (as_Spec x = as_Spec y) then String.le (as_SDKStruct x) (as_SDKStruct y) else String.le (as_Spec x) (as_Spec y).
#[export] Instance report_le_dec x y : Decision (report_le x y).
Proof. unfold report_le. case_decide; apply _. Defined.

(** [BuildReport]; it never fails. *)
Definition BuildAPIReport (targets : list Target) (sdkStructs : list SDKStruct) (allow : Allowlist) : list APIStruct :=
  let sdkIndex := last_by QualifiedName sdkStructs in
  merge_sort report_le (mjoin (target_reports sdkIndex allow <$> targets)).

Definition actionable_status (field : APIField) : bool :=
  (af_Status field =? FieldStatusPotentialGap)%string || (af_Status field =? FieldStatusUnclassified)%string.
Definition actionable_struct (s : APIStruct) : bool :=
  if (as_TrackingStatus s =? TrackingStatusUntracked)%string then negb (isIntentionalUntrackedReason (as_TrackingReason s))
  else existsb actionable_status (as_MissingFields s) || existsb actionable_status (as_ExtraSpecFields s).
Definition HasActionable (report : list APIStruct) : bool := existsb actionable_struct report.

(** ** What a type declares *)

Section Declares.
Context (apiSurface : string).

(** A field that counts: exported, not tagged away, and not the operator's own block of a status. *)
Definition counted (exported : bool) (fieldName jsonTag : string) : Prop :=
  exported = true /\ jsonTag <> "-" /\ ~ (apiSurface = apiSurfaceStatus /\ fieldName = "OsokStatus" /\ jsonName jsonTag = "status").

(** A field whose struct is inlined: embedded, or tagged [inline]. *)
Definition inlined (anonymous : bool) (jsonTag : string) (type : APIType) : Prop :=
  (exists name fields, type = TStruct name fields) /\ (anonymous = true \/ Contains jsonTag ",inline" = true).

(** The Go and JSON name of a field that a struct declares, by itself or through a struct it inlines. *)
Inductive declares : APIType -> string -> string -> Prop :=
| declares_own name fields fieldName exported jsonTag anonymous type :
    mkTypeField fieldName exported jsonTag anonymous type ∈ fields -> counted exported fieldName jsonTag ->
    ~ inlined anonymous jsonTag type ->
    declares (TStruct name fields) fieldName (jsonName jsonTag)
| declares_inlined name fields fieldName exported jsonTag anonymous type goName json :
    mkTypeField fieldName exported jsonTag anonymous type ∈ fields -> counted exported fieldName jsonTag ->
    inlined anonymous jsonTag type -> declares type goName json ->
    declares (TStruct name fields) goName json.

(** The structs reached from a type by inlining. *)
Inductive reaches : APIType -> APIType -> Prop :=
| reaches_refl t : reaches t t
| reaches_inlined t name fields fieldName exported jsonTag anonymous type :
    reaches t (TStruct name fields) -> mkTypeField fieldName exported jsonTag anonymous type ∈ fields ->
    inlined anonymous jsonTag type -> reaches t type.

(** Names identify the struct types reached from [t], as they do in Go. *)
Definition coherent (t : APIType) : Prop :=
  forall name fields fields', reaches t (TStruct name fields) -> reaches t (TStruct name fields') -> fields = fields'.

Lemma inlined_iff anonymous jsonTag type : shouldInline anonymous jsonTag type = true <-> inlined anonymous jsonTag type.
Proof.
  unfold shouldInline, inlined. destruct type as [elem|name fields|]; cbn [is_struct].
  - rewrite !andb_false_r. split; [done|]. by intros [(n & f & ?) _].
  - rewrite !andb_true_r, orb_true_iff. naive_solver.
  - rewrite !andb_false_r. split; [done|]. by intros [(n & f & ?) _].
Qed.

Lemma counted_iff exported fieldName jsonTag :
  counted exported fieldName jsonTag <->
  exported = true /\ (jsonTag =? "-")%string = false /\ shouldSkipCoverageField fieldName jsonTag apiSurface = false.
Proof.
  unfold counted, shouldSkipCoverageField. rewrite String.eqb_neq, <- not_true_iff_false, !andb_true_iff, !String.eqb_eq. naive_solver.
Qed.

(** The nesting depth in nodes, for the induction. *)
Fixpoint nodes (t : APIType) : nat :=
  match t with
  | TPointer elem => S (nodes elem)
  | TStruct _ fields =>
      S ((fix sum (fields : list APITypeField) : nat :=
            match fields with [] => 0 | mkTypeField _ _ _ _ type :: rest => nodes type + sum rest end) fields)
  | TOther => 1
  end.

Lemma nodes_field name fields fieldName exported jsonTag anonymous type :
  mkTypeField fieldName exported jsonTag anonymous type ∈ fields -> nodes type < nodes (TStruct name fields).
Proof.
  cbn [nodes]. induction fields as [|[n e j an ty] fields IH]; [by intros ?%elem_of_nil|].
  intros [[= -> -> -> -> ->]|Hin]%elem_of_cons; [lia|]. specialize (IH Hin). lia.
Qed.

Abbreviation collect := (collect_struct (fun l goName jsonName => l ++ [(goName, jsonName)]) apiSurface).
Abbreviation State := (list (string * string) * gset string)%type.

(** The loop over the fields of a struct, by itself. *)
Definition collect_field (field : APITypeField) (st : State) : State :=
  let '(mkTypeField fieldName exported jsonTag anonymous type) := field in
  if negb exported then st
  else if (jsonTag =? "-")%string then st
  else if shouldSkipCoverageField fieldName jsonTag apiSurface then st
  else if shouldInline anonymous jsonTag type then collect type st
  else (fst st ++ [(fieldName, jsonName jsonTag)], snd st).

Lemma collect_loop name fields st :
  collect (TStruct name fields) st =
    if bool_decide (name ∈ snd st) then st else fold_left (fun st field => collect_field field st) fields (fst st, {[name]} ∪ snd st).
Proof.
  cbn [collect_struct]. case_bool_decide; [done|]. generalize (fst st, {[name]} ∪ snd st). clear.
  induction fields as [|[fieldName exported jsonTag anonymous type] fields IH]; intros st; [done|]. cbn [fold_left]. by rewrite <- IH.
Qed.

Context (root : APIType) (named_once : coherent root).

(** [l] has all that the struct declares. *)
Definition complete (l : list (string * string)) (t : APIType) : Prop := forall goName json, declares t goName json -> (goName, json) ∈ l.

(** Where the collection stands before a type of at most [n] nodes: the smaller structs it has seen are complete. *)
Definition seen_complete (n : nat) (st : State) : Prop :=
  forall name fields, name ∈ snd st -> reaches root (TStruct name fields) -> nodes (TStruct name fields) <= n -> complete (fst st) (TStruct name fields).

(** What a step adds, [claims] being what it is responsible for. *)
Definition step_ok (claims : string -> string -> Prop) (st st' : State) : Prop :=
  fst st ⊆ fst st' /\ snd st ⊆ snd st' /\
  (forall goName json, (goName, json) ∈ fst st' -> (goName, json) ∈ fst st \/ claims goName json) /\
  (forall goName json, claims goName json -> (goName, json) ∈ fst st') /\
  (forall name fields, name ∈ snd st' -> name ∉ snd st -> reaches root (TStruct name fields) -> complete (fst st') (TStruct name fields)).

Lemma seen_step n claims st st' : seen_complete n st -> step_ok claims st st' -> seen_complete n st'.
Proof.
  intros Hs (Hl & _ & _ & _ & Hnew) name fields Hin Hr Hn goName json Hd. destruct (decide (name ∈ snd st)) as [Hin'|Hin'].
  - by apply Hl, (Hs name fields).
  - by apply (Hnew name fields).
Qed.

(** What one field of a struct declares. *)
Definition field_declares (field : APITypeField) (goName json : string) : Prop :=
  let '(mkTypeField fieldName exported jsonTag anonymous type) := field in
  counted exported fieldName jsonTag /\
  ((~ inlined anonymous jsonTag type /\ goName = fieldName /\ json = jsonName jsonTag) \/ (inlined anonymous jsonTag type /\ declares type goName json)).

Lemma struct_declares name fields goName json :
  declares (TStruct name fields) goName json <-> exists field, field ∈ fields /\ field_declares field goName json.
Proof.
  split.
  - inversion 1; subst; eexists; (split; [eassumption|]); cbn; (split; [done|]); [left|right]; done.
  - intros ([fieldName exported jsonTag anonymous type] & Hin & Hc & [(Hi & -> & ->)|[Hi Hd]]);
      [by eapply declares_own|by eapply declares_inlined].
Qed.

Lemma step_refl (claims : string -> string -> Prop) st : (forall goName json, ~ claims goName json) -> step_ok claims st st.
Proof. intros Hc. split_and!; [done|done|by left|by intros g j ?%Hc|done]. Qed.

Lemma step_trans (c1 c2 : string -> string -> Prop) st st1 st2 :
  step_ok c1 st st1 -> step_ok c2 st1 st2 -> step_ok (fun goName json => c1 goName json \/ c2 goName json) st st2.
Proof.
  intros (L1 & V1 & S1 & C1 & N1) (L2 & V2 & S2 & C2 & N2). split_and!; [set_solver|set_solver|..].
  - intros g j [H|H]%S2; [apply S1 in H|]; tauto.
  - intros g j [H|H]; [by apply L2, C1|by apply C2].
  - intros name fields Hin Hnot Hr g j Hd. destruct (decide (name ∈ snd st1)); [by apply L2, (N1 name fields)|by apply (N2 name fields)].
Qed.

Lemma step_weaken (c1 c2 : string -> string -> Prop) st st' :
  (forall goName json, c1 goName json <-> c2 goName json) -> step_ok c1 st st' -> step_ok c2 st st'.
Proof. intros Hc (L & V & S' & C & N). split_and!; [done|done|..|done]; intros g j; rewrite <- Hc; auto. Qed.

(** The fields of a struct, one after the other. *)
Lemma fields_collected fields st n :
  (forall field st, field ∈ fields -> seen_complete n st -> step_ok (field_declares field) st (collect_field field st)) ->
  seen_complete n st ->
  step_ok (fun goName json => exists field, field ∈ fields /\ field_declares field goName json) st (fold_left (fun st field => collect_field field st) fields st).
Proof.
  revert st. induction fields as [|field fields IH]; intros st Hf Hs; cbn [fold_left].
  - apply step_refl. intros g j (f & Hin & _). by apply elem_of_nil in Hin.
  - pose proof (Hf field st (list_elem_of_here _ _) Hs) as H1.
    pose proof (IH (collect_field field st)) as H2. eapply step_weaken; [|eapply step_trans; [exact H1|apply H2]].
    + intros g j. setoid_rewrite elem_of_cons. naive_solver.
    + intros f st' Hin. apply Hf. by right.
    + by eapply seen_step.
Qed.

(** A struct that is reached and whose smaller seen structs are complete is collected whole. *)
Lemma struct_collected t st :
  reaches root t -> (exists name fields, t = TStruct name fields) -> seen_complete (nodes t) st -> step_ok (declares t) st (collect t st).
Proof.
  revert st. induction (well_founded_ltof _ nodes t) as [t _ IH]. unfold ltof in IH. intros st Hr (name & fields & ->) Hs.
  rewrite collect_loop. case_bool_decide as Hin.
  { split_and!; [done|done|by left|by apply (Hs name fields)|done]. }
  assert (Hsmall : nodes (TStruct name fields) = S (pred (nodes (TStruct name fields)))) by (cbn [nodes]; lia).
  set (st0 := (fst st, {[name]} ∪ snd st)).
  assert (Hs0 : seen_complete (pred (nodes (TStruct name fields))) st0).
  { intros name' fields' Hin' Hr' Hn. unfold st0 in Hin'. cbn [snd] in Hin'. apply elem_of_union in Hin' as [->%elem_of_singleton|Hin'].
    - rewrite (named_once name fields' fields Hr' Hr) in Hn. lia.
    - apply Hs; [done|done|lia]. }
  assert (Hsteps : step_ok (declares (TStruct name fields)) st0 (fold_left (fun st field => collect_field field st) fields st0)).
  { eapply step_weaken; [intros g j; symmetry; apply struct_declares|]. apply fields_collected with (n := pred (nodes (TStruct name fields))); [|done].
    intros [fieldName exported jsonTag anonymous type] st1 Hf Hs1. cbn [field_declares collect_field].
    destruct (negb exported || (jsonTag =? "-")%string || shouldSkipCoverageField fieldName jsonTag apiSurface) eqn:Ec.
    - assert (E : collect_field (mkTypeField fieldName exported jsonTag anonymous type) st1 = st1).
      { cbn. rewrite !orb_true_iff in Ec. by destruct (negb exported), (jsonTag =? "-")%string, (shouldSkipCoverageField _ _ _); naive_solver. }
      cbn in E. rewrite E. apply step_refl. intros g j [Hc _]. apply counted_iff in Hc as (-> & Hd & Hk). rewrite Hd, Hk in Ec. done.
    - rewrite !orb_false_iff in Ec. destruct Ec as [[E1 E2] E3]. rewrite E1, E2, E3. apply negb_false_iff in E1 as ->.
      assert (Hc : counted true fieldName jsonTag) by (apply counted_iff; done).
      destruct (shouldInline anonymous jsonTag type) eqn:Ei.
      + apply inlined_iff in Ei. eapply step_weaken; [|apply IH].
        * intros g j. split; [by intros Hd; split; [|right]|]. by intros [_ [[? _]|[_ ?]]].
        * by eapply nodes_field.
        * by eapply reaches_inlined.
        * apply Ei.
        * pose proof (nodes_field name _ _ _ _ _ _ Hf) as Hlt. intros n' f' H1' H2' H3'. apply Hs1; [done|done|lia].
      + assert (Hni : ~ inlined anonymous jsonTag type) by (intros Hi%inlined_iff; congruence).
        split_and!; cbn [fst snd]; [set_solver|done|..|done].
        * intros g j [Hin1|[= -> ->]%list_elem_of_singleton]%elem_of_app; [by left|right]. split; [done|]. left. done.
        * intros g j [_ [(_ & -> & ->)|[? _]]]; [|done]. apply elem_of_app. right. by apply list_elem_of_singleton. }
  destruct Hsteps as (L & V & S' & C & N). unfold st0 in *. cbn [fst snd] in *. split_and!; [done|set_solver|done|done|].
  intros name' fields' Hin' Hnot Hr'. destruct (decide (name' = name)) as [->|Hne].
  - rewrite (named_once name fields' fields Hr' Hr). exact C.
  - apply N; [done|set_solver|done].
Qed.
End Declares.

(** ** What a set of fields holds *)

(** The Go and JSON names that the collection meets, in its order. *)
Definition collected_pairs (apiSurface : string) (t : APIType) : list (string * string) :=
  fst (collectFields (fun l goName jsonName => l ++ [(goName, jsonName)]) apiSurface t ([], ∅)).
Definition add_pair (s : specFieldSet) (names : string * string) : specFieldSet := set_add s (fst names) (snd names).

Lemma collect_struct_fold apiSurface t l v s :
  collect_struct set_add apiSurface t (fold_left add_pair l s, v) =
    let '(l', v') := collect_struct (fun l goName jsonName => l ++ [(goName, jsonName)]) apiSurface t (l, v) in (fold_left add_pair l' s, v').
Proof.
  revert t l v. fix IH 1. intros [elem|name fields|] l v; [done| |done]. cbn [collect_struct fst snd]. case_bool_decide; [done|].
  generalize ({[name]} ∪ v). clear v H. revert l. induction fields as [|[fieldName exported jsonTag anonymous type] fields IHf]; intros l v; [done|].
  destruct (negb exported); [apply IHf|]. destruct (jsonTag =? "-")%string; [apply IHf|].
  destruct (shouldSkipCoverageField _ _ _); [apply IHf|]. destruct (shouldInline _ _ _).
  - rewrite IH. destruct (collect_struct _ apiSurface type (l, v)) as [l' v']. apply IHf.
  - cbn [fst snd]. change (set_add (fold_left add_pair l s) fieldName (jsonName jsonTag)) with (fold_left add_pair [(fieldName, jsonName jsonTag)] (fold_left add_pair l s)).
    rewrite <- fold_left_app. apply IHf.
Qed.

Lemma collected t apiSurface : collectAPIFields t apiSurface = fold_left add_pair (collected_pairs apiSurface t) newSpecFieldSet.
Proof.
  unfold collectAPIFields, collected_pairs, collectFields. pose proof (collect_struct_fold apiSurface (match t with TPointer elem => elem | _ => t end) [] ∅ newSpecFieldSet) as H.
  cbn [fold_left] in H. rewrite H. by destruct (collect_struct _ _ _ ([], ∅)).
Qed.

(** A name under which one of the pairs is looked up, and the name a pair is displayed with. *)
Definition names_of (names : string * string) : list string := normalize <$> filter (fun name => name <> "") [fst names; snd names].
Definition display_of (names : string * string) : string := if (snd names =? "")%string then fst names else snd names.

Record set_holds (l : list (string * string)) (s : specFieldSet) : Prop := {
  sh_lookup : forall k, is_Some (fs_lookup s !! k) <-> k ∈ l ≫= names_of;
  sh_display : forall d p, fs_display s !! d = Some p <-> display <$> fs_list s !! p = Some d;
  sh_entries : forall d, is_Some (fs_display s !! d) <-> d <> "" /\ d ∈ display_of <$> l;
  sh_range : forall k p, fs_lookup s !! k = Some p -> p < length (fs_list s);
  sh_named : forall k p, fs_lookup s !! k = Some p -> exists names, names ∈ l /\ k ∈ names_of names /\ display <$> fs_list s !! p = Some (display_of names)
}.

Lemma set_lookup_fields name p s :
  fs_display (set_lookup name p s) = fs_display s /\ fs_list (set_lookup name p s) = fs_list s.
Proof. unfold set_lookup. by case_match. Qed.

Lemma set_lookup_keys name p s k :
  is_Some (fs_lookup (set_lookup name p s) !! k) <-> is_Some (fs_lookup s !! k) \/ (name <> "" /\ k = normalize name).
Proof.
  unfold set_lookup. destruct (name =? "")%string eqn:E; bool_prop; [naive_solver|]. cbn [fs_lookup]. rewrite lookup_insert_is_Some'. naive_solver.
Qed.

Lemma set_lookup_range name p s k q :
  fs_lookup (set_lookup name p s) !! k = Some q -> q = p \/ fs_lookup s !! k = Some q.
Proof.
  unfold set_lookup. case_match; [by right|]. cbn [fs_lookup]. rewrite lookup_insert_Some. naive_solver.
Qed.

Lemma names_of_elem names k : k ∈ names_of names <-> (fst names <> "" /\ k = normalize (fst names)) \/ (snd names <> "" /\ k = normalize (snd names)).
Proof.
  unfold names_of. rewrite list_elem_of_fmap. setoid_rewrite list_elem_of_filter. setoid_rewrite elem_of_cons. setoid_rewrite elem_of_cons.
  setoid_rewrite elem_of_nil. naive_solver.
Qed.

(** The entry of a pair: its pointer is in range, and the displayed names grow by its own. *)
Lemma set_entry_holds l s goName jsonName p s' :
  set_holds l s -> display_of (goName, jsonName) <> "" -> set_entry s goName jsonName = (p, s') ->
  fs_lookup s' = fs_lookup s /\ p < length (fs_list s') /\ length (fs_list s) <= length (fs_list s') /\
  (forall d q, fs_display s' !! d = Some q <-> display <$> fs_list s' !! q = Some d) /\
  (forall d, is_Some (fs_display s' !! d) <-> is_Some (fs_display s !! d) \/ d = display_of (goName, jsonName)) /\
  fs_display s' !! display_of (goName, jsonName) = Some p /\ fs_display s ⊆ fs_display s'.
Proof.
  intros [Hl Hd He Hr _] Hne. unfold set_entry. change (if (jsonName =? "")%string then goName else jsonName) with (display_of (goName, jsonName)).
  set (disp := display_of _) in *. destruct (fs_display s !! disp) as [q|] eqn:E; intros [= <- <-]; cbn [fs_lookup fs_display fs_list].
  - split_and!; [done| |by rewrite length_alter| | | |].
    + rewrite length_alter. apply Hd in E. destruct (fs_list s !! q) eqn:Eq; [by eapply lookup_lt_Some|done].
    + intros d r. rewrite Hd. destruct (decide (r = q)) as [->|Hq]; [|by rewrite list_lookup_alter_ne].
      rewrite list_lookup_alter_eq. by destruct (fs_list s !! q).
    + intros d. split; [by left|]. intros [?| ->]; [done|]. by rewrite E.
    + done.
    + done.
  - rewrite length_app. cbn [length]. split_and!; [done|lia|lia| | | |].
    + intros d r. rewrite lookup_insert_Some. destruct (decide (r < length (fs_list s))) as [Hlt|Hge].
      * rewrite lookup_app_l by done. rewrite Hd. split; [intros [[_ ?]|[_ ?]]; [lia|done]|].
        intros Hr'. right. split; [|done]. intros ->. rewrite (proj2 (Hd d r)) in E; [done|exact Hr'].
      * rewrite lookup_app_r by lia. destruct (decide (r = length (fs_list s))) as [->|Hr'].
        -- rewrite Nat.sub_diag. cbn. split; [intros [[-> _]|[_ H]]; [done|]|intros [= ->]; by left].
           apply Hd in H. by rewrite lookup_ge_None_2 in H.
        -- rewrite (lookup_ge_None_2 [_]) by (cbn; lia). split; [|done]. intros [[_ ?]|[_ H]]; [lia|].
           apply Hd in H. by rewrite lookup_ge_None_2 in H by lia.
    + intros d. rewrite lookup_insert_is_Some'. naive_solver.
    + apply lookup_insert_eq.
    + by apply insert_subseteq.
Qed.

Lemma new_set_holds : set_holds [] newSpecFieldSet.
Proof.
  split; cbn.
  - intros k. rewrite lookup_empty, elem_of_nil. split; [by intros []|done].
  - intros d p. by rewrite lookup_empty.
  - intros d. rewrite lookup_empty, elem_of_nil. split; [by intros []|naive_solver].
  - intros k p. by rewrite lookup_empty.
  - intros k p. by rewrite lookup_empty.
Qed.

Lemma set_add_holds l s names : set_holds l s -> set_holds (l ++ [names]) (add_pair s names).
Proof.
  intros Hs. destruct names as [goName jsonName]. unfold add_pair, set_add. cbn [fst snd].
  assert (Hnames : forall k, k ∈ (l ++ [(goName, jsonName)]) ≫= names_of <-> k ∈ l ≫= names_of \/ k ∈ names_of (goName, jsonName)).
  { intros k. rewrite bind_app, elem_of_app. cbn [mbind list_bind]. by rewrite app_nil_r. }
  assert (Hdisplay : forall d, d ∈ display_of <$> (l ++ [(goName, jsonName)]) <-> d ∈ display_of <$> l \/ d = display_of (goName, jsonName)).
  { intros d. rewrite fmap_app, elem_of_app. cbn. by rewrite list_elem_of_singleton. }
  destruct ((goName =? "")%string && (jsonName =? "")%string) eqn:E.
  - bool_prop. subst. destruct Hs as [Hl Hd He Hr Hnm]. split; [|done| |done|].
    + intros k. rewrite Hnames, names_of_elem, Hl. cbn. naive_solver.
    + intros d. rewrite Hdisplay, He. cbn. naive_solver.
    + intros k p (names & Hin & H)%Hnm. exists names. split; [|done]. apply elem_of_app. by left.
  - assert (Hne : display_of (goName, jsonName) <> "").
    { unfold display_of. cbn. destruct (jsonName =? "")%string eqn:Ej; bool_prop; naive_solver. }
    destruct (set_entry s goName jsonName) as [p s'] eqn:Ee.
    destruct (set_entry_holds _ _ _ _ _ _ Hs Hne Ee) as (Hl' & Hp & Hlen & Hd' & He' & Hown & Hsub). destruct Hs as [Hl Hd He Hr Hnm].
    destruct (set_lookup_fields goName p s') as [Hd1 Hl1]. destruct (set_lookup_fields jsonName p (set_lookup goName p s')) as [Hd2 Hl2].
    split; rewrite ?Hd2, ?Hd1, ?Hl2, ?Hl1.
    + intros k. rewrite !set_lookup_keys, Hl', Hnames, names_of_elem, Hl. cbn. tauto.
    + exact Hd'.
    + intros d. rewrite He', Hdisplay, He. naive_solver.
    + intros k q Hk. apply set_lookup_range in Hk as [->|Hk]; [done|]. apply set_lookup_range in Hk as [->|Hk]; [done|].
      rewrite Hl' in Hk. apply Hr in Hk. lia.
    + intros k q Hk. assert (Hcase : (q = p /\ k ∈ names_of (goName, jsonName)) \/ fs_lookup s !! k = Some q).
      { rewrite <- Hl'. rewrite names_of_elem. cbn [fst snd]. unfold set_lookup in Hk.
        destruct (jsonName =? "")%string eqn:Ej, (goName =? "")%string eqn:Eg; bool_prop; cbn [fs_lookup] in Hk; rewrite ?lookup_insert_Some in Hk; naive_solver. }
      destruct Hcase as [[-> Hk']|(names & Hin & Hk' & Hq)%Hnm].
      * exists (goName, jsonName). split; [apply elem_of_app; right; by apply list_elem_of_singleton|]. split; [done|]. by apply Hd'.
      * exists names. split; [apply elem_of_app; by left|]. split; [done|]. apply Hd'. eapply lookup_weaken; [|exact Hsub]. by apply Hd.
Qed.

Lemma collected_holds t apiSurface : set_holds (collected_pairs apiSurface t) (collectAPIFields t apiSurface).
Proof.
  rewrite collected. generalize (collected_pairs apiSurface t) as l. intros l. induction l as [|names l IH] using rev_ind; [apply new_set_holds|].
  rewrite fold_left_app. by apply set_add_holds.
Qed.

Lemma entry_shown l s r f : set_holds l s -> fs_list s !! r = Some f -> DisplayName f = display f.
Proof.
  intros [_ Hd He _ _] Hr. unfold DisplayName. assert (display f <> "") as Hne%String.eqb_neq; [|by rewrite Hne].
  apply (He (display f)). exists r. apply Hd. by rewrite Hr.
Qed.

(** Entries have their own display name, which is the name the report shows. *)
Lemma entry_display l s p q sf sf' :
  set_holds l s -> fs_list s !! p = Some sf -> fs_list s !! q = Some sf' -> DisplayName sf = DisplayName sf' -> p = q.
Proof.
  intros Hs Hp Hq. rewrite (entry_shown _ _ _ _ Hs Hp), (entry_shown _ _ _ _ Hs Hq). intros H. destruct Hs as [_ Hd _ _ _].
  assert (fs_display s !! display sf = Some p) by (apply Hd; by rewrite Hp).
  assert (fs_display s !! display sf = Some q) by (apply Hd; by rewrite Hq, H). congruence.
Qed.

(** ** Coverage *)

Lemma missing_field_name allow structName apiSurface field : af_FieldName (missing_field allow structName apiSurface field) = sf_Name field.
Proof. unfold missing_field. by destruct (classifyMissingField _ _ _ _). Qed.

(** The entries that no payload field matched. *)
Definition unmatched (sdkStruct : SDKStruct) (s : specFieldSet) (p : nat) : Prop :=
  forall field, field ∈ ss_Fields sdkStruct -> hasAPIField s field <> Some p.

Lemma unmatched_entry sdkStruct s entry :
  entry ∈ filter (fun entry => fst entry ∉ omap (hasAPIField s) (ss_Fields sdkStruct)) (imap pair (fs_list s)) <->
  fs_list s !! fst entry = Some (snd entry) /\ unmatched sdkStruct s (fst entry).
Proof.
  rewrite list_elem_of_filter, elem_of_lookup_imap. unfold unmatched. destruct entry as [p sf]. cbn [fst snd].
  rewrite list_elem_of_omap. split.
  - intros (Hn & q & sf' & [= -> ->] & Hq). split; [done|]. intros field Hf He. apply Hn. eauto.
  - intros (Hp & Hu). split; [|eauto]. intros (field & Hf & He). by eapply Hu.
Qed.

Lemma imap_pair_nodup {A} (l : list A) : NoDup (imap pair l).
Proof. apply NoDup_alt. intros i j [p x] Hi Hj. rewrite list_lookup_imap in Hi, Hj. destruct (l !! i), (l !! j); naive_solver. Qed.

Lemma extra_names allow service spec sdkStruct s apiSurface :
  af_FieldName <$> as_ExtraSpecFields (tracked_report allow service spec sdkStruct s apiSurface) ≡ₚ
  DisplayName ∘ snd <$> filter (fun entry => fst entry ∉ omap (hasAPIField s) (ss_Fields sdkStruct)) (imap pair (fs_list s)).
Proof. cbn [tracked_report as_ExtraSpecFields]. rewrite sort_by_perm, <- list_fmap_compose. done. Qed.

Lemma extra_nodup l allow service spec sdkStruct s apiSurface :
  set_holds l s -> NoDup (af_FieldName <$> as_ExtraSpecFields (tracked_report allow service spec sdkStruct s apiSurface)).
Proof.
  intros Hs. rewrite extra_names. apply NoDup_fmap_2_strong; [|apply NoDup_filter, imap_pair_nodup].
  intros [p x] [q y] [Hp _]%unmatched_entry [Hq _]%unmatched_entry Hxy. cbn in *.
  assert (p = q) as -> by (by eapply entry_display). rewrite Hp in Hq. by injection Hq as ->.
Qed.

Lemma extra_elem l allow service spec sdkStruct s apiSurface d :
  set_holds l s ->
  d ∈ af_FieldName <$> as_ExtraSpecFields (tracked_report allow service spec sdkStruct s apiSurface) <->
  d <> "" /\ d ∈ display_of <$> l /\ exists p, fs_display s !! d = Some p /\ unmatched sdkStruct s p.
Proof.
  intros Hs. rewrite extra_names, list_elem_of_fmap. pose proof Hs as [_ Hd He _ _]. split.
  - intros ([p sf] & -> & [Hp Hu]%unmatched_entry). cbn in *. rewrite (entry_shown _ _ _ _ Hs Hp).
    assert (fs_display s !! display sf = Some p) as E by (apply Hd; by rewrite Hp). 
    destruct (proj1 (He (display sf)) (ex_intro _ p E)) as [Hne Hin]. eauto.
  - intros (_ & _ & p & Hp & Hu). apply Hd in Hp. destruct (fs_list s !! p) as [sf|] eqn:E; [|done]. injection Hp as <-.
    exists (p, sf). split; [cbn; symmetry; by eapply entry_shown|]. apply unmatched_entry. by split.
Qed.

(** ** The report against the declarations *)

(** The type whose fields are collected: a pointer is followed once. *)
Definition pointee (t : APIType) : APIType := match t with TPointer elem => elem | _ => t end.

Lemma pairs_declares apiSurface t goName json :
  coherent (pointee t) -> (goName, json) ∈ collected_pairs apiSurface t <-> declares apiSurface (pointee t) goName json.
Proof.
  intros Hc. unfold collected_pairs, collectFields. change (match t with TPointer elem => elem | _ => t end) with (pointee t).
  destruct (pointee t) as [elem|name fields|] eqn:Et.
  - split; [by intros ?%elem_of_nil|by inversion 1].
  - pose proof (struct_collected apiSurface (TStruct name fields) Hc (TStruct name fields) ([], ∅)) as Hs.
    destruct Hs as (_ & _ & Hs & Hd & _); [apply reaches_refl|eauto|by intros ? ? ?|]. split; [|apply Hd].
    intros [H|H]%Hs; [by apply elem_of_nil in H|done].
  - split; [by intros ?%elem_of_nil|by inversion 1].
Qed.

(** A declared field that is known under a name, blanks and case aside, and shown as [shown]. *)
Definition known_as (apiSurface : string) (t : APIType) (name shown : string) : Prop :=
  exists goName json, declares apiSurface (pointee t) goName json /\
    ((goName <> "" /\ normalize goName = normalize name) \/ (json <> "" /\ normalize json = normalize name)) /\
    shown = if (json =? "")%string then goName else json.

(** How a payload field is found: by its Go name, else by its JSON name. *)
Definition found_as (apiSurface : string) (t : APIType) (field : SDKField) (shown : string) : Prop :=
  known_as apiSurface t (sf_Name field) shown \/
  ((forall other, ~ known_as apiSurface t (sf_Name field) other) /\ sf_JSONName field <> "" /\ known_as apiSurface t (sf_JSONName field) shown).

(** No two declared fields that are shown differently are known under one name. *)
Definition unambiguous (apiSurface : string) (t : APIType) : Prop :=
  forall name shown shown', known_as apiSurface t name shown -> known_as apiSurface t name shown' -> shown = shown'.

Lemma known_names apiSurface t name shown :
  coherent (pointee t) ->
  known_as apiSurface t name shown <->
  exists names, names ∈ collected_pairs apiSurface t /\ normalize name ∈ names_of names /\ shown = display_of names.
Proof.
  intros Hc. unfold known_as. split.
  - intros (g & j & Hd & Hn & ->). exists (g, j). split; [by apply pairs_declares|]. split; [|done]. apply names_of_elem. cbn. naive_solver.
  - intros ([g j] & Hin%pairs_declares & Hn & ->); [|done]. exists g, j. split; [done|]. split; [|done].
    apply names_of_elem in Hn. cbn in Hn. naive_solver.
Qed.

Lemma lookup_known apiSurface t name :
  coherent (pointee t) ->
  let s := collectAPIFields t apiSurface in
  is_Some (fs_lookup s !! normalize name) <-> exists shown, known_as apiSurface t name shown.
Proof.
  intros Hc s. pose proof (collected_holds t apiSurface) as [Hl _ _ _ _]. fold s in Hl. rewrite Hl. rewrite list_elem_of_bind. split.
  - intros (names & Hk & Hin). exists (display_of names). apply known_names; [done|]. eauto.
  - intros (shown & (names & Hin & Hk & _)%known_names); [|done]. eauto.
Qed.

Lemma lookup_shown apiSurface t name p :
  coherent (pointee t) -> let s := collectAPIFields t apiSurface in
  fs_lookup s !! normalize name = Some p -> exists shown, known_as apiSurface t name shown /\ fs_display s !! shown = Some p.
Proof.
  intros Hc s Hp. pose proof (collected_holds t apiSurface) as [_ Hd _ _ Hn]. fold s in Hd, Hn.
  destruct (Hn _ _ Hp) as (names & Hin & Hk & Hs). exists (display_of names). split; [apply known_names; eauto|by apply Hd].
Qed.

(** The entry that a payload field is matched with is shown as the field is found. *)
Lemma matched_shown apiSurface t field d p :
  coherent (pointee t) -> unambiguous apiSurface t -> let s := collectAPIFields t apiSurface in
  fs_display s !! d = Some p -> hasAPIField s field = Some p <-> found_as apiSurface t field d.
Proof.
  intros Hc Hu s Hd. pose proof (collected_holds t apiSurface) as Hs. fold s in Hs. pose proof Hs as [_ Hdisp _ _ _].
  assert (Hinj : forall d' p', fs_display s !! d' = Some p' -> p' = p -> d' = d).
  { intros d' p' H1 ->. apply Hdisp in H1, Hd. congruence. }
  assert (Hkey : forall name, fs_lookup s !! normalize name = Some p <-> known_as apiSurface t name d).
  { intros name. split.
    - intros (shown & Hk & Hsh)%lookup_shown; [|done]. by rewrite (Hinj _ _ Hsh eq_refl) in Hk.
    - intros Hk. destruct (proj2 (lookup_known apiSurface t name Hc)) as [q Hq]; [by eexists|]. fold s in Hq.
      destruct (lookup_shown apiSurface t name q Hc Hq) as (shown & Hk' & Hsh). rewrite (Hu _ _ _ Hk' Hk) in Hsh. fold s in Hsh. congruence. }
  unfold hasAPIField, found_as. rewrite <- !Hkey. destruct (fs_lookup s !! normalize (sf_Name field)) as [q|] eqn:Eq.
  - split; [by left|]. intros [H|(Hn & _)]; [done|]. exfalso.
    destruct (proj1 (lookup_known apiSurface t (sf_Name field) Hc)) as [shown Hk]; [fold s; by rewrite Eq|]. by eapply Hn.
  - assert (Hnone : forall other, ~ known_as apiSurface t (sf_Name field) other).
    { intros other Hk. destruct (proj2 (lookup_known apiSurface t (sf_Name field) Hc)) as [q Hq]; [by eexists|]. fold s in Hq. congruence. }
    destruct (sf_JSONName field =? "")%string eqn:Ej; bool_prop; naive_solver.
Qed.

(** A payload field is matched exactly when it is found. *)
Lemma found_iff apiSurface t field :
  coherent (pointee t) -> is_Some (hasAPIField (collectAPIFields t apiSurface) field) <-> exists d, found_as apiSurface t field d.
Proof.
  intros Hc. pose proof (lookup_known apiSurface t (sf_Name field) Hc) as H1. pose proof (lookup_known apiSurface t (sf_JSONName field) Hc) as H2.
  cbn zeta in H1, H2. unfold hasAPIField, found_as. destruct (fs_lookup _ !! normalize (sf_Name field)) as [p|].
  - destruct (proj1 H1) as [d Hd]; [done|]. split; [|done]. intros _. exists d. by left.
  - assert (Hn : forall other, ~ known_as apiSurface t (sf_Name field) other) by (intros o Ho; destruct (proj2 H1) as [? ?]; [by eexists|done]).
    destruct (sf_JSONName field =? "")%string eqn:Ej; bool_prop; [|rewrite H2]; naive_solver.
Qed.

(** C40. The coverage report of a payload is exact, against what the API type declares.  A struct declares its exported fields, except those
    tagged json:"-" and, on the status surface, the block OsokStatus; instead of a field whose struct is embedded or tagged inline it
    declares what that struct declares ([declares]).  Every field of the payload is reported once, as present or as missing; it is
    present exactly when a declared field is known under its Go name or its non-empty JSON name, blanks and case aside.  The extra fields are
    distinct, each is the name under which a declared field is shown (its JSON name, else its Go name), and, when no two
    declared fields that are shown differently are known under one name, they are exactly the shown names that no field of the
    payload is found under, by its Go name or else by its JSON name.  Struct types are identified by their name, as in Go. *)
Theorem api_coverage_exact allow service spec sdkStruct apiSurface t :
  coherent (pointee t) ->
  let r := tracked_report allow service spec sdkStruct (collectAPIFields t apiSurface) apiSurface in
  let shown d := exists goName json, declares apiSurface (pointee t) goName json /\ d = (if (json =? "")%string then goName else json) /\ d <> "" in
  af_FieldName <$> (as_PresentFields r ++ as_MissingFields r) ≡ₚ sf_Name <$> ss_Fields sdkStruct /\
  (forall name, name ∈ af_FieldName <$> as_PresentFields r <->
     exists field, field ∈ ss_Fields sdkStruct /\ sf_Name field = name /\ exists d, found_as apiSurface t field d) /\
  NoDup (af_FieldName <$> as_ExtraSpecFields r) /\
  (forall d, d ∈ af_FieldName <$> as_ExtraSpecFields r -> shown d) /\
  (unambiguous apiSurface t -> forall d, d ∈ af_FieldName <$> as_ExtraSpecFields r <->
     shown d /\ forall field, field ∈ ss_Fields sdkStruct -> ~ found_as apiSurface t field d).
Proof.
  intros Hc. cbn zeta. pose proof (collected_holds t apiSurface) as Hs. set (s := collectAPIFields t apiSurface) in *.
  assert (Hshown : forall d, is_Some (fs_display s !! d) <->
    exists goName json, declares apiSurface (pointee t) goName json /\ d = (if (json =? "")%string then goName else json) /\ d <> "").
  { intros d. rewrite (sh_entries _ _ Hs d), list_elem_of_fmap. split.
    - intros (Hne & [g j] & -> & Hin%pairs_declares); [|done]. by exists g, j.
    - intros (g & j & Hd & -> & Hne). split; [done|]. exists (g, j). split; [done|]. by apply pairs_declares. }
  assert (Hfound : forall field, is_Some (hasAPIField s field) <-> exists d, found_as apiSurface t field d).
  { intros field. exact (found_iff apiSurface t field Hc). }
  split_and!.
  - cbn [tracked_report as_PresentFields as_MissingFields]. rewrite !sort_by_perm, fmap_app, <- !list_fmap_compose.
    rewrite (list_fmap_ext (af_FieldName ∘ missing_field _ _ _) sf_Name) by (intros; apply missing_field_name).
    change (af_FieldName ∘ present_field apiSurface) with sf_Name. rewrite <- fmap_app. by rewrite filter_app_complement.
  - intros name. cbn [tracked_report as_PresentFields]. rewrite sort_by_perm, <- list_fmap_compose, list_elem_of_fmap.
    setoid_rewrite list_elem_of_filter. setoid_rewrite Hfound. naive_solver.
  - by eapply extra_nodup.
  - intros d (_ & _ & p & Hp & _)%(extra_elem _ _ _ _ _ _ _ _ Hs). apply Hshown. by eexists.
  - intros Hu d. rewrite (extra_elem _ _ _ _ _ _ _ _ Hs), <- Hshown. split.
    + intros (_ & _ & p & Hp & Hun). split; [by eexists|]. intros field Hf Hd. eapply Hun; [done|]. by eapply matched_shown.
    + intros [[p Hp] Hn]. pose proof (proj1 (sh_entries _ _ Hs d) (ex_intro _ p Hp)) as [Hne Hin]. split_and!; [done|done|].
      exists p. split; [done|]. intros field Hf Hm. eapply Hn; [done|]. by eapply matched_shown.
Qed.

(** ** The gate *)

Lemma trim_right_app p s : trim_right s <> "" -> trim_right (p +++ s) = p +++ trim_right s.
Proof.
  intros Hs. induction p as [|c p IH]; [done|]. rewrite !string_app_cons. cbn [trim_right]. rewrite IH.
  destruct (p +++ trim_right s) eqn:E; [|done]. by destruct p.
Qed.

(** A text that the prefix and a trimmed reason make up is an intentional reason. *)
Lemma prefixed_intentional reason : TrimSpace reason = reason -> reason <> "" -> isIntentionalUntrackedReason (intentionalUntrackedPrefix +++ reason) = true.
Proof.
  intros Ht Hne. unfold isIntentionalUntrackedReason, TrimSpace.
  assert (Hr : trim_right reason = reason).
  { rewrite <- Ht at 1. unfold TrimSpace. rewrite trim_right_idem. exact Ht. }
  change (trim_left (intentionalUntrackedPrefix +++ reason)) with (intentionalUntrackedPrefix +++ reason).
  rewrite trim_right_app by (by rewrite Hr). rewrite Hr. apply prefix_app_self.
Qed.

Lemma excluded_intentional mapping : isIntentionalUntrackedReason (excludedMappingReason mapping) = true.
Proof.
  unfold excludedMappingReason. destruct (HasPrefix (TrimSpace (m_Reason mapping)) intentionalUntrackedPrefix) eqn:E.
  - unfold isIntentionalUntrackedReason. by rewrite TrimSpace_idem.
  - destruct (TrimSpace (m_Reason mapping) =? "")%string eqn:Er; [done|]. cbn [negb]. apply prefixed_intentional; [apply TrimSpace_idem|by bool_prop].
Qed.

Lemma reviewed_intentional name :
  let reviewed := reviewedUntrackedReason name in
  if decide (is_Some (reviewedUntrackedReasons !! TrimSpace name)) then reviewed <> "" /\ isIntentionalUntrackedReason reviewed = true else reviewed = "".
Proof.
  assert (map_Forall (fun _ reason => reason <> "" /\ isIntentionalUntrackedReason reason = true) reviewedUntrackedReasons) as Hall.
  { apply (bool_decide_eq_true_1 _). vm_compute. reflexivity. }
  unfold reviewedUntrackedReason. cbn zeta. case_decide as Hd.
  - destruct Hd as [reason E]. rewrite E. by apply (Hall _ _ E).
  - destruct (reviewedUntrackedReasons !! TrimSpace name) eqn:E; [by destruct Hd|done].
Qed.

(** A payload field that must not be missing: the allowlist calls it a gap or used, or it does not classify it and it is mandatory. *)
Definition must_expose (allow : Allowlist) (structName : string) (field : SDKField) : Prop :=
  match allow !! structName ≫= lookup (sf_Name field) with
  | Some entry =>
      al_Status entry = StatusPotentialGap \/ al_Status entry = StatusUsed \/
      (al_Status entry ∉ [StatusIntentionallyOmitted; StatusPotentialGap; StatusFutureConsideration; StatusUsed] /\ sf_Mandatory field = true)
  | None => sf_Mandatory field = true
  end.

Lemma missing_actionable allow structName apiSurface field :
  actionable_status (missing_field allow structName apiSurface field) = true <-> must_expose allow structName field.
Proof.
  unfold missing_field, classifyMissingField, must_expose, actionable_status. destruct (allow !! structName ≫= _) as [entry|]; cbn [af_Status].
  - unfold mapAllowlistStatus. repeat case_match; bool_prop; cbn; unfold defaultStatus; rewrite ?elem_of_cons, ?elem_of_nil;
      repeat match goal with H : al_Status entry = _ |- _ => rewrite H end; destruct (sf_Mandatory field); cbn; naive_solver.
  - unfold defaultStatus. by destruct (sf_Mandatory field).
Qed.

(** A payload whose coverage asks for work: a field that must not be missing is missing, or the API type has a field of its own. *)
Definition uncovered (allow : Allowlist) (sdkStruct : SDKStruct) (s : specFieldSet) : Prop :=
  (exists field, field ∈ ss_Fields sdkStruct /\ ~ is_Some (hasAPIField s field) /\ must_expose allow (QualifiedName sdkStruct) field) \/
  (exists p, p < length (fs_list s) /\ unmatched sdkStruct s p).

Lemma tracked_actionable allow service spec sdkStruct s apiSurface :
  actionable_struct (tracked_report allow service spec sdkStruct s apiSurface) = true <-> uncovered allow sdkStruct s.
Proof.
  unfold actionable_struct, uncovered. cbn [tracked_report as_TrackingStatus as_MissingFields as_ExtraSpecFields].
  change (TrackingStatusTracked =? TrackingStatusUntracked)%string with false. cbn iota. rewrite orb_true_iff, !existsb_In. apply Morphisms_Prop.or_iff_morphism.
  - setoid_rewrite sort_by_perm. setoid_rewrite list_elem_of_fmap. setoid_rewrite list_elem_of_filter. split.
    + intros (x & (field & -> & Hn & Hin) & Ha). apply missing_actionable in Ha. eauto.
    + intros (field & Hin & Hn & Hm). eexists. split; [by eauto|]. by apply missing_actionable.
  - setoid_rewrite sort_by_perm. setoid_rewrite list_elem_of_fmap. split.
    + intros (x & ([p sf] & -> & [Hp Hu]%unmatched_entry) & _). exists p. split; [by eapply lookup_lt_Some|done].
    + intros (p & [sf Hsf]%lookup_lt_is_Some & Hu). exists (extra_field apiSurface sf). split; [|done].
      exists (p, sf). split; [done|]. by apply unmatched_entry.
Qed.

(** What asks for work about a target. *)
Definition needs_work (sdkIndex : gmap string SDKStruct) (allow : Allowlist) (target : Target) : Prop :=
  let specFields := collectAPIFields (t_SpecType target) apiSurfaceSpec in
  let statusFields := (fun t => collectAPIFields t apiSurfaceStatus) <$> t_StatusType target in
  (t_SDKMappings target = [] /\ ~ is_Some (reviewedUntrackedReasons !! TrimSpace (t_Name target))) \/
  (exists mapping, mapping ∈ t_SDKMappings target /\ m_Exclude mapping = false /\
     match sdkIndex !! m_SDKStruct mapping with
     | None => True
     | Some sdkStruct => uncovered allow sdkStruct (fst (selectAPIFieldsForSDKStruct mapping sdkStruct specFields statusFields))
     end).

Lemma untracked_actionable service spec apiSurface sdkStruct reason :
  actionable_struct (newUntrackedStructReport service spec apiSurface sdkStruct reason) = negb (isIntentionalUntrackedReason reason).
Proof. reflexivity. Qed.

Lemma mapping_actionable sdkIndex allow service target specFields statusFields mapping :
  actionable_struct (mapping_report sdkIndex allow service target specFields statusFields mapping) = true <->
  m_Exclude mapping = false /\
  match sdkIndex !! m_SDKStruct mapping with
  | None => True
  | Some sdkStruct => uncovered allow sdkStruct (fst (selectAPIFieldsForSDKStruct mapping sdkStruct specFields statusFields))
  end.
Proof.
  unfold mapping_report. destruct (m_Exclude mapping).
  - rewrite untracked_actionable, excluded_intentional. naive_solver.
  - destruct (sdkIndex !! m_SDKStruct mapping) as [sdkStruct|]; [|done].
    destruct (selectAPIFieldsForSDKStruct _ _ _ _) as [apiFields apiSurface]. rewrite tracked_actionable. naive_solver.
Qed.

Lemma target_actionable sdkIndex allow target :
  (exists r, r ∈ target_reports sdkIndex allow target /\ actionable_struct r = true) <-> needs_work sdkIndex allow target.
Proof.
  unfold target_reports, needs_work. cbn zeta. destruct (t_SDKMappings target) as [|first rest] eqn:E.
  - change (responseBodyCoverageForTarget (t_Name target)) with (@None responseBodyCoverage). cbn iota.
    pose proof (reviewed_intentional (t_Name target)) as Hr. cbn zeta in Hr. setoid_rewrite list_elem_of_singleton. setoid_rewrite elem_of_nil.
    case_decide as Hd.
    + destruct Hr as [Hne%String.eqb_neq Hi]. rewrite Hne. cbn [negb]. split; [|naive_solver].
      intros (r & -> & Ha). by rewrite untracked_actionable, Hi in Ha.
    + rewrite Hr. cbn. split; [by left|]. intros _. eexists. by split.
  - setoid_rewrite list_elem_of_fmap. split.
    + intros (r & (mapping & -> & Hm) & Ha). apply mapping_actionable in Ha. right. eauto.
    + intros [[? _]|(mapping & Hm & Hx & Hw)]; [done|]. eexists. split; [by eauto|]. by apply mapping_actionable.
Qed.

(** The gate over the coverage report fails exactly when there is work to do: some target has no mapping and was not reviewed, or
    some mapping that is not excluded refers to a payload the SDK seed does not have, or in its payload a field that must not be
    missing is not exposed, or the chosen API type has a field that no field of the payload matches.  Excluded mappings and reviewed
    targets never fail it, whatever reason is recorded for them. *)
Theorem api_gate_exact targets sdkStructs allow :
  HasActionable (BuildAPIReport targets sdkStructs allow) = true <->
  exists target, target ∈ targets /\ needs_work (last_by QualifiedName sdkStructs) allow target.
Proof.
  unfold HasActionable, BuildAPIReport. rewrite existsb_In. setoid_rewrite merge_sort_Permutation. setoid_rewrite list_elem_of_join.
  setoid_rewrite list_elem_of_fmap. split.
  - intros (r & (reports & Hr & target & -> & Ht) & Ha). exists target. split; [done|]. apply target_actionable. eauto.
  - intros (target & Ht & Hn). apply target_actionable in Hn as (r & Hr & Ha). eauto 10.
Qed.

(** ** A concrete target *)

Definition ex_meta : APIType := TStruct "Meta" [mkTypeField "DisplayName" true "displayName,omitempty" false TOther].
Definition ex_spec_type : APIType :=
  TPointer (TStruct "WidgetSpec" [mkTypeField "Meta" true ",inline" true ex_meta; mkTypeField "CompartmentId" true "compartmentId" false TOther;
    mkTypeField "hidden" false "" false TOther; mkTypeField "Secret" true "-" false TOther; mkTypeField "Meta2" true "" true ex_meta]).
Definition ex_payload : SDKStruct :=
  mkSDKStruct "widgets.CreateWidgetDetails" "widgets" "CreateWidgetDetails" "sdk/widgets"
    [mkSDKField "DisplayName" "*string" "displayName" false false false "" "scalar" [] []; mkSDKField "ShapeId" "*string" "shapeId" true false false "" "scalar" [] []].
Definition ex_targets : list Target :=
  [mkTarget "WidgetsWidget" ex_spec_type "example.com/api/widgets/v1beta1" None [mkSDKMapping "widgets.CreateWidgetDetails" "" false ""]].

(** The inlined struct is counted once, the mandatory field is a gap, and the identifier of the spec is extra. *)
Example ex_report :
  (fun r => (as_Service r, as_APISurface r, af_FieldName <$> as_PresentFields r, (fun f => (af_FieldName f, af_Status f)) <$> as_MissingFields r,
             af_FieldName <$> as_ExtraSpecFields r)) <$> BuildAPIReport ex_targets [ex_payload] ∅ =
  [("widgets", "spec", ["DisplayName"], [("ShapeId", FieldStatusPotentialGap)], ["compartmentId"])] /\
  HasActionable (BuildAPIReport ex_targets [ex_payload] ∅) = true.
Proof. vm_compute. done. Qed.

(** The struct that both inlined fields name is one type, and the displayed names are known under one name each. *)
Lemma ex_coherent : coherent (pointee ex_spec_type).
Proof.
  assert (H : forall u, reaches (pointee ex_spec_type) u -> u = pointee ex_spec_type \/ u = ex_meta).
  { intros u Hu. remember (pointee ex_spec_type) as root eqn:Hroot.
    induction Hu as [|t name fields f e j an type _ IH Hin [(n & fs & ->) _]]; [by left|]. specialize (IH Hroot). subst t.
    unfold ex_meta in *. destruct IH as [E|E]; cbn in E; injection E as -> ->; rewrite ?elem_of_cons, ?elem_of_nil in Hin; naive_solver. }
  intros name fields fields' [E|E]%H [E'|E']%H; unfold ex_meta in *; cbn in E, E'; congruence.
Defined.

(** The identifier of the spec is the one extra field; the inlined name is found, the hidden and the dashed field are not shown. *)
Lemma api_coverage_exact_witness :
  let r := tracked_report ∅ "widgets" "WidgetsWidget" ex_payload (collectAPIFields ex_spec_type apiSurfaceSpec) apiSurfaceSpec in
  af_FieldName <$> as_ExtraSpecFields r = ["compartmentId"] /\
  exists goName json, declares apiSurfaceSpec (pointee ex_spec_type) goName json /\ json = "compartmentId".
Proof.
  cbn zeta. split; [vm_compute; reflexivity|].
  destruct (api_coverage_exact ∅ "widgets" "WidgetsWidget" ex_payload apiSurfaceSpec ex_spec_type ex_coherent) as (_ & _ & _ & Hx & _).
  destruct (Hx "compartmentId") as (g & j & Hd & Hj & _); [vm_compute; left|].
  exists g, j. split; [exact Hd|]. destruct (j =? "")%string eqn:E; [|by symmetry].
  apply String.eqb_eq in E as ->. subst g. exfalso.
  inversion Hd as [n fs f e tag an ty Hin Hc Hi Hn|n fs f e tag an ty g' j' Hin Hc Hi Hd']; subst.
  - rewrite !elem_of_cons, elem_of_nil in Hin. naive_solver.
  - destruct Hi as [(n & fs & ->) _]. rewrite !elem_of_cons, elem_of_nil in Hin. unfold ex_meta in Hin.
    assert (E : TStruct n fs = ex_meta) by naive_solver. unfold ex_meta in E. injection E as -> ->.
    inversion Hd' as [n' fs' f' e' tag' an' ty' Hin'|n' fs' f' e' tag' an' ty' g2 j2 Hin' _ Hi']; subst; apply list_elem_of_singleton in Hin'; [discriminate|].
    destruct Hi' as [(n2 & fs2 & ->) _]. discriminate.
Defined.
