(* ===== verification/ValidatorMetrics.v ===== *)
(** * Metrics of the schema validator ([internal/validator/metrics])

    The summary of an API coverage report by service and by scope, and its comparison with a
    baseline.  A percentage, a [float64] in the code, is the exact quotient here. *)

From stdpp Require Import gmap sorting strings.
From Stdlib Require Import Ascii QArith.
From S2P Require Import Prelude GoStrings Sorting ValidatorReports ValidatorCoverage.
Local Open Scope string_scope.
Local Open Scope list_scope.
Close Scope Q_scope.

(** ** Data *)

Record counter := mkCounter {
  specs : gset string;
  mappings : nat;
  trackedMappings : nat;
  untrackedMappings : nat;
  presentFields : nat;
  missingFields : nat;
  mandatoryPresentFields : nat;
  mandatoryMissingFields : nat;
  extraSpecFields : nat
}.
Definition newCounter : counter := mkCounter ∅ 0 0 0 0 0 0 0 0.

(** [AggregateSummary]; a [ServiceSummary] is one with the name of its service. *)
Record AggregateSummary := mkAggregate {
  ag_Specs : nat;
  ag_Mappings : nat;
  ag_TrackedMappings : nat;
  ag_UntrackedMappings : nat;
  ag_PresentFields : nat;
  ag_MissingFields : nat;
  ag_MandatoryPresentFields : nat;
  ag_MandatoryMissingFields : nat;
  ag_ExtraSpecFields : nat;
  ag_OverallCoveragePercent : Q;
  ag_MandatoryCoveragePercent : Q
}.
Record ServiceSummary := mkService { sv_Service : string; sv_Summary : AggregateSummary }.
Record ScopeSummary := mkScope { sc_Scope : string; sc_Aggregate : AggregateSummary; sc_Services : list ServiceSummary }.
Record Offender := mkOffender {
  of_Service : string; of_Spec : string; of_APISurface : string; of_SDKStruct : string; of_Count : nat; of_FieldNames : list string
}.
Record TopOffenders := mkTop { top_Missing : list Offender; top_MandatoryMissing : list Offender; top_Extra : list Offender }.
Record APISummary := mkSummary { Aggregate : AggregateSummary; Services : list ServiceSummary; ScopeBreakdown : list ScopeSummary; Top : TopOffenders }.

(** ** Counting *)

Definition countsExtraSpecFields (apiSurface : string) : bool := negb (apiSurface =? "status")%string.
Definition countMandatory (fields : list APIField) : nat := length (filter (fun field => af_Mandatory field = true) fields).

(** [counter.add]. *)
Definition counter_add (c : counter) (r : APIStruct) : counter :=
  if (as_APISurface r =? "excluded")%string then c
  else
    let specs' := {[ as_Service r +++ "." +++ as_Spec r ]} ∪ specs c in
    if (as_TrackingStatus r =? TrackingStatusUntracked)%string then
      mkCounter specs' (S (mappings c)) (trackedMappings c) (S (untrackedMappings c)) (presentFields c) (missingFields c) (mandatoryPresentFields c)
        (mandatoryMissingFields c) (extraSpecFields c)
    else
      mkCounter specs' (S (mappings c)) (S (trackedMappings c)) (untrackedMappings c) (presentFields c + length (as_PresentFields r))
        (missingFields c + length (as_MissingFields r)) (mandatoryPresentFields c + countMandatory (as_PresentFields r))
        (mandatoryMissingFields c + countMandatory (as_MissingFields r))
        (extraSpecFields c + (if countsExtraSpecFields (as_APISurface r) then length (as_ExtraSpecFields r) else 0)).

(** A counter of a map is made when its key is first seen. *)
Definition add_to (m : gmap string counter) (key : string) (r : APIStruct) : gmap string counter :=
  <[key := counter_add (default newCounter (m !! key)) r]> m.

Record scopeCounter := mkScopeCounter { sco_aggregate : counter; sco_byService : gmap string counter }.
Definition newScopeCounter : scopeCounter := mkScopeCounter newCounter ∅.
Definition scope_add (s : scopeCounter) (r : APIStruct) : scopeCounter :=
  mkScopeCounter (counter_add (sco_aggregate s) r) (add_to (sco_byService s) (as_Service r) r).

Definition scopeDesiredState := "desiredState".
Definition scopeStatusParity := "statusParity".
Definition scopeBroadening := "broadening".
Definition scopeResponseBody := "responseBody".

(** The text after the last dot. *)
Definition after_last_dot (s : string) : string := default s (last (Split s "."%char)).
Definition isDesiredStateMapping (sdkStruct : string) : bool :=
  let qualifiedName := TrimSpace sdkStruct in
  if (qualifiedName =? "")%string then true else HasSuffix (after_last_dot qualifiedName) "Details".

Definition classifyScope (r : APIStruct) : string :=
  let surface := ToLower (TrimSpace (as_APISurface r)) in
  if (surface =? "status")%string then scopeStatusParity
  else if (surface =? "responsebody")%string then scopeResponseBody
  else if isDesiredStateMapping (as_SDKStruct r) then scopeDesiredState else scopeBroadening.

Definition scopeSortKey (scope : string) : string :=
  if (scope =? scopeDesiredState)%string then "0"
  else if (scope =? scopeStatusParity)%string then "1"
  else if (scope =? scopeBroadening)%string then "2"
  else if (scope =? scopeResponseBody)%string then "3"
  else "9:" +++ scope.

(** ** Summaries *)

Definition coveragePercent (present eligible : nat) : Q :=
  if (eligible =? 0)%nat then Qmake 100 1 else Qmake (Z.of_nat present * 100) (Pos.of_nat eligible).

Definition newAggregateSummary (c : counter) : AggregateSummary :=
  mkAggregate (size (specs c)) (mappings c) (trackedMappings c) (untrackedMappings c) (presentFields c) (missingFields c) (mandatoryPresentFields c)
    (mandatoryMissingFields c) (extraSpecFields c) (coveragePercent (presentFields c) (presentFields c + missingFields c))
    (coveragePercent (mandatoryPresentFields c) (mandatoryPresentFields c + mandatoryMissingFields c)).
Definition newServiceSummary (service : string) (c : counter) : ServiceSummary := mkService service (newAggregateSummary c).

Definition summarizeServiceCounts (byService : gmap string counter) : list ServiceSummary :=
  sort_by sv_Service ((fun '(service, counts) => newServiceSummary service counts) <$> map_to_list byService).

Definition summarizeScopes (byScope : gmap string scopeCounter) : list ScopeSummary :=
  let scopeNames := sort_by scopeSortKey (fst <$> map_to_list byScope) in
  omap (fun scope => (fun counts => mkScope scope (newAggregateSummary (sco_aggregate counts)) (summarizeServiceCounts (sco_byService counts)))
                     <$> byScope !! scope) scopeNames.

(** ** Offenders *)

Definition fieldNames (fields : list APIField) (mandatoryOnly : bool) : list string :=
  af_FieldName <$> filter (fun field => mandatoryOnly = false \/ af_Mandatory field = true) fields.
Definition newOffender (r : APIStruct) (names : list string) : Offender :=
  mkOffender (as_Service r) (as_Spec r) (as_APISurface r) (as_SDKStruct r) (length names) names.
Definition offender (r : APIStruct) (names : list string) : option Offender := match names with [] => None | _ => Some (newOffender r names) end.

(** The comparison of [sortOffenders], with its ties. *)
Definition offender_le (x y : Offender) : Prop :=
  if decide (of_Count x = of_Count y) then
    if decide (of_Service x = of_Service y) then
      if decide (of_Spec x = of_Spec y) then
        if decide (of_APISurface x = of_APISurface y) then String.le (of_SDKStruct x) (of_SDKStruct y)
        else String.le (of_APISurface x) (of_APISurface y)
      else String.le (of_Spec x) (of_Spec y)
    else String.le (of_Service x) (of_Service y)
  else of_Count y < of_Count x.
#[export] Instance offender_le_dec : RelDecision offender_le.
Proof. intros x y. unfold offender_le. repeat case_decide; apply _. Defined.
Definition sortOffenders (offenders : list Offender) : list Offender := merge_sort offender_le offenders.
Definition limitOffenders (offenders : list Offender) (topN : nat) : list Offender :=
  if (topN =? 0)%nat || (length offenders <=? topN)%nat then offenders else take topN offenders.

(** ** The summary *)

Definition included (r : APIStruct) : bool := negb (as_APISurface r =? "excluded")%string.
Definition tracked (r : APIStruct) : bool := negb (as_TrackingStatus r =? TrackingStatusUntracked)%string.

(** The state of the loop. *)
Record tally := mkTally {
  t_aggregate : counter; t_byService : gmap string counter; t_byScope : gmap string scopeCounter;
  t_missing : list Offender; t_mandatoryMissing : list Offender; t_extra : list Offender
}.
Definition add_offender (l : list Offender) (o : option Offender) : list Offender := match o with Some x => l ++ [x] | None => l end.

Definition tally_add (t : tally) (r : APIStruct) : tally :=
  if negb (included r) then t
  else
    let aggregate := counter_add (t_aggregate t) r in
    let byService := add_to (t_byService t) (as_Service r) r in
    let scopeName := classifyScope r in
    let byScope := <[scopeName := scope_add (default newScopeCounter (t_byScope t !! scopeName)) r]> (t_byScope t) in
    if negb (tracked r) then mkTally aggregate byService byScope (t_missing t) (t_mandatoryMissing t) (t_extra t)
    else
      mkTally aggregate byService byScope
        (add_offender (t_missing t) (offender r (fieldNames (as_MissingFields r) false)))
        (add_offender (t_mandatoryMissing t) (offender r (fieldNames (as_MissingFields r) true)))
        (if countsExtraSpecFields (as_APISurface r) then add_offender (t_extra t) (offender r (fieldNames (as_ExtraSpecFields r) false)) else t_extra t).
Definition tally_all (structs : list APIStruct) : tally := fold_left tally_add structs (mkTally newCounter ∅ ∅ [] [] []).

Definition SummarizeAPI (structs : list APIStruct) (topN : Z) : APISummary :=
  let topN := Z.to_nat topN in
  let t := tally_all structs in
  mkSummary (newAggregateSummary (t_aggregate t)) (summarizeServiceCounts (t_byService t)) (summarizeScopes (t_byScope t))
    (mkTop (limitOffenders (sortOffenders (t_missing t)) topN) (limitOffenders (sortOffenders (t_mandatoryMissing t)) topN)
       (limitOffenders (sortOffenders (t_extra t)) topN)).

(** ** Baselines *)

Record Baseline := mkBaseline { b_Aggregate : AggregateSummary; b_Services : list ServiceSummary }.
Record Comparison := mkComparison { ScopeChanges : list string; Regressions : list string }.
Definition HasFailures (c : Comparison) : bool := (0 <? length (ScopeChanges c))%nat || (0 <? length (Regressions c))%nat.
Definition BaselineFromSummary (summary : APISummary) : Baseline := mkBaseline (Aggregate summary) (Services summary).

Definition epsilon : Q := Qmake 1 1000000000.
Definition lessFloat (current baseline : Q) : bool := negb (Qle_bool (Qminus baseline epsilon) current).

(** The [%.4f] verb: four decimals, rounded to the nearest and to even on a tie. *)
Definition format4 (q : Q) : string :=
  let scaled := (Qnum q * 10000)%Z in let d := Z.pos (Qden q) in
  let whole := (scaled / d)%Z in let rest := (2 * (scaled mod d))%Z in
  let rounded := if (rest <? d)%Z then whole else if (d <? rest)%Z then (whole + 1)%Z else if Z.even whole then whole else (whole + 1)%Z in
  let decimals := Itoa (10000 + rounded mod 10000) in
  Itoa (rounded / 10000) +++ "." +++ String.substring 1 4 decimals.

Definition Itoa_nat (n : nat) : string := Itoa (Z.of_nat n).
Definition changed (scope metric verb : string) (from to : string) : string := scope +++ " " +++ metric +++ " " +++ verb +++ " from " +++ from +++ " to " +++ to.

(** A message when the test holds. *)
Definition message (test : bool) (text : string) : list string := if test then [text] else [].

Definition appendMetricRegressions (scope : string) (baseline current : AggregateSummary) : list string :=
  let less metric (get : AggregateSummary -> nat) :=
    message (get current <? get baseline)%nat (changed scope metric "decreased" (Itoa_nat (get baseline)) (Itoa_nat (get current))) in
  let more metric (get : AggregateSummary -> nat) :=
    message (get baseline <? get current)%nat (changed scope metric "increased" (Itoa_nat (get baseline)) (Itoa_nat (get current))) in
  let lower metric (get : AggregateSummary -> Q) :=
    message (lessFloat (get current) (get baseline)) (changed scope metric "decreased" (format4 (get baseline)) (format4 (get current))) in
  less "trackedMappings" ag_TrackedMappings ++ more "untrackedMappings" ag_UntrackedMappings ++ less "presentFields" ag_PresentFields ++
  more "missingFields" ag_MissingFields ++ less "mandatoryPresentFields" ag_MandatoryPresentFields ++
  more "mandatoryMissingFields" ag_MandatoryMissingFields ++ more "extraSpecFields" ag_ExtraSpecFields ++
  lower "overallCoveragePercent" ag_OverallCoveragePercent ++ lower "mandatoryCoveragePercent" ag_MandatoryCoveragePercent.

Definition scope_changes (scope : string) (baseline current : AggregateSummary) : list string :=
  message (negb (ag_Specs current =? ag_Specs baseline)%nat) (changed scope "specs" "changed" (Itoa_nat (ag_Specs baseline)) (Itoa_nat (ag_Specs current))) ++
  message (negb (ag_Mappings current =? ag_Mappings baseline)%nat)
    (changed scope "mappings" "changed" (Itoa_nat (ag_Mappings baseline)) (Itoa_nat (ag_Mappings current))).

Definition sortedServiceNames (values : gmap string ServiceSummary) : list string := sort_by id (fst <$> map_to_list values).
Definition difference_ (left right : list string) : list string := filter (fun value => value ∉ right) left.
Definition intersection_ (left right : list string) : list string := filter (fun value => value ∈ right) left.

(** The zero value that indexing a map without the key gives. *)
Definition noService : AggregateSummary := mkAggregate 0 0 0 0 0 0 0 0 0 (Qmake 0 1) (Qmake 0 1).
Definition service_in (services : gmap string ServiceSummary) (name : string) : AggregateSummary :=
  match services !! name with Some s => sv_Summary s | None => noService end.
Definition service_scope (name : string) : string := "service " +++ Quote name.

Definition CompareSummary (current : APISummary) (baseline : Baseline) : Comparison :=
  let currentServices := last_by sv_Service (Services current) in
  let baselineServices := last_by sv_Service (b_Services baseline) in
  let currentNames := sortedServiceNames currentServices in
  let baselineNames := sortedServiceNames baselineServices in
  let shared := intersection_ currentNames baselineNames in
  mkComparison
    (sort_by id (scope_changes "aggregate" (b_Aggregate baseline) (Aggregate current) ++
       ((fun name => service_scope name +++ " is missing from the current report") <$> difference_ baselineNames currentNames) ++
       ((fun name => service_scope name +++ " is new in the current report") <$> difference_ currentNames baselineNames) ++
       mjoin ((fun name => scope_changes (service_scope name) (service_in baselineServices name) (service_in currentServices name)) <$> shared)))
    (sort_by id (appendMetricRegressions "aggregate" (b_Aggregate baseline) (Aggregate current) ++
       mjoin ((fun name => appendMetricRegressions (service_scope name) (service_in baselineServices name) (service_in currentServices name)) <$> shared))).

(** ** Counts are conserved *)

Section Total.
Context {C : Type} (get : C -> nat) (zero : C) (zero_get : get zero = 0).

Definition total (m : gmap string C) : nat := sum_list_with (fun '(_, c) => get c) (map_to_list m).

Lemma total_insert m k c : total (<[k := c]> m) + get (default zero (m !! k)) = total m + get c.
Proof.
  unfold total. destruct (m !! k) as [old|] eqn:E.
  - rewrite <- (insert_delete_id m k old) at 2 by done. rewrite <- insert_delete_eq. rewrite !map_to_list_insert by apply lookup_delete_eq. cbn. lia.
  - rewrite map_to_list_insert by done. cbn. rewrite zero_get. lia.
Qed.
End Total.

(** A count that a report adds the same amount to, wherever it is added. *)
Definition additive (get : counter -> nat) (amount : APIStruct -> nat) : Prop :=
  get newCounter = 0 /\ forall c r, included r = true -> get (counter_add c r) = get c + amount r.

Lemma included_surface r : included r = true -> (as_APISurface r =? "excluded")%string = false.
Proof. unfold included. by destruct (as_APISurface r =? "excluded")%string. Qed.

Definition when_tracked (n : APIStruct -> nat) (r : APIStruct) : nat := if (as_TrackingStatus r =? TrackingStatusUntracked)%string then 0 else n r.

(** The counts of a summary, with the counter each is taken from and what a report adds to it. *)
Definition metrics : list ((AggregateSummary -> nat) * (counter -> nat) * (APIStruct -> nat)) :=
  [(ag_Mappings, mappings, fun _ => 1);
   (ag_TrackedMappings, trackedMappings, when_tracked (fun _ => 1));
   (ag_UntrackedMappings, untrackedMappings, fun r => if (as_TrackingStatus r =? TrackingStatusUntracked)%string then 1 else 0);
   (ag_PresentFields, presentFields, when_tracked (fun r => length (as_PresentFields r)));
   (ag_MissingFields, missingFields, when_tracked (fun r => length (as_MissingFields r)));
   (ag_MandatoryPresentFields, mandatoryPresentFields, when_tracked (fun r => countMandatory (as_PresentFields r)));
   (ag_MandatoryMissingFields, mandatoryMissingFields, when_tracked (fun r => countMandatory (as_MissingFields r)));
   (ag_ExtraSpecFields, extraSpecFields,
    when_tracked (fun r => if countsExtraSpecFields (as_APISurface r) then length (as_ExtraSpecFields r) else 0))].

Lemma metrics_additive :
  Forall (fun '(summary, get, amount) => additive get amount /\ forall c, summary (newAggregateSummary c) = get c) metrics.
Proof.
  repeat apply Forall_cons_2; [..|apply Forall_nil_2]; (split; [split; [done|]|done]); intros c r Hr; unfold counter_add, when_tracked;
    rewrite (included_surface r Hr); destruct (as_TrackingStatus r =? TrackingStatusUntracked)%string; cbn; lia.
Qed.

Lemma tally_totals get amount structs :
  additive get amount ->
  let t := tally_all structs in
  let sum := sum_list_with amount (filter (fun r => included r = true) structs) in
  get (t_aggregate t) = sum /\ total get (t_byService t) = sum /\ total (fun s => get (sco_aggregate s)) (t_byScope t) = sum.
Proof.
  intros [H0 Hadd]. cbn zeta. unfold tally_all. induction structs as [|r structs (IHa & IHv & IHc)] using rev_ind; [cbn; by rewrite H0|].
  rewrite fold_left_app, filter_app, filter_cons, filter_nil. cbn [fold_left]. rewrite sum_list_with_app.
  set (t := fold_left tally_add structs _) in *. unfold tally_add. destruct (included r) eqn:Hr; cbn [negb].
  - assert (Hs : total get (add_to (t_byService t) (as_Service r) r) = sum_list_with amount (filter (fun r => included r = true) structs) + amount r).
    { unfold add_to. pose proof (total_insert get newCounter H0 (t_byService t) (as_Service r) (counter_add (default newCounter (t_byService t !! as_Service r)) r)) as Ht.
      rewrite Hadd in Ht by done. lia. }
    assert (Hc : total (fun s => get (sco_aggregate s))
        (<[classifyScope r := scope_add (default newScopeCounter (t_byScope t !! classifyScope r)) r]> (t_byScope t)) =
        sum_list_with amount (filter (fun r => included r = true) structs) + amount r).
    { pose proof (total_insert (fun s => get (sco_aggregate s)) newScopeCounter H0 (t_byScope t) (classifyScope r)
        (scope_add (default newScopeCounter (t_byScope t !! classifyScope r)) r)) as Ht. cbn in Ht. rewrite Hadd in Ht by done. lia. }
    rewrite decide_True by done. cbn. destruct (tracked r); cbn; rewrite Hs, Hc, Hadd by done; lia.
  - rewrite decide_False by done. cbn. lia.
Qed.

Lemma sum_list_with_fmap {A B} (f : A -> B) (g : B -> nat) l : sum_list_with g (f <$> l) = sum_list_with (fun x => g (f x)) l.
Proof. induction l as [|x l IH]; [done|]. rewrite fmap_cons. cbn. by rewrite IH. Qed.

Lemma sum_list_with_ext {A} (f g : A -> nat) l : (forall x, f x = g x) -> sum_list_with f l = sum_list_with g l.
Proof. intros Hfg. induction l as [|x l IH]; [done|]. cbn. by rewrite Hfg, IH. Qed.

Lemma services_total (summary : AggregateSummary -> nat) get byService :
  (forall c, summary (newAggregateSummary c) = get c) ->
  sum_list_with (fun s => summary (sv_Summary s)) (summarizeServiceCounts byService) = total get byService.
Proof.
  intros Hs. unfold summarizeServiceCounts, total. rewrite sort_by_perm, sum_list_with_fmap. apply sum_list_with_ext. intros [k c]. apply Hs.
Qed.

(** Looking up the keys of a map gives its entries. *)
Lemma omap_keys {A B} (g : string -> A -> B) (m : gmap string A) (l : list (string * A)) :
  (forall k v, (k, v) ∈ l -> m !! k = Some v) ->
  omap (fun k => g k <$> m !! k) (fst <$> l) = (fun '(k, v) => g k v) <$> l.
Proof.
  induction l as [|[k v] l IH]; intros Hl; [done|]. rewrite !fmap_cons. cbn. rewrite (Hl k v) by apply list_elem_of_here. cbn.
  f_equal. apply IH. intros k' v' Hin. apply Hl. by right.
Qed.

Lemma scopes_total (summary : AggregateSummary -> nat) get byScope :
  (forall c, summary (newAggregateSummary c) = get c) ->
  sum_list_with (fun s => summary (sc_Aggregate s)) (summarizeScopes byScope) = total (fun s => get (sco_aggregate s)) byScope.
Proof.
  intros Hs. unfold summarizeScopes, total. rewrite sort_by_perm.
  rewrite (omap_keys (fun scope counts => mkScope scope (newAggregateSummary (sco_aggregate counts)) (summarizeServiceCounts (sco_byService counts))))
    by (intros k v; apply elem_of_map_to_list).
  rewrite sum_list_with_fmap. apply sum_list_with_ext. intros [k c]. apply Hs.
Qed.

(** The counts of a coverage summary are conserved: for every count (mappings, tracked and untracked ones, present, missing, mandatory
    and extra fields) the sum over the services and the sum over the scopes are the aggregate, and the aggregate is the sum over the
    reported structs that are not excluded. *)
Theorem metrics_conserved structs topN :
  let summary := SummarizeAPI structs topN in
  Forall (fun '(get, _, amount) =>
    get (Aggregate summary) = sum_list_with amount (filter (fun r => included r = true) structs) /\
    sum_list_with (fun s => get (sv_Summary s)) (Services summary) = get (Aggregate summary) /\
    sum_list_with (fun s => get (sc_Aggregate s)) (ScopeBreakdown summary) = get (Aggregate summary)) metrics.
Proof.
  cbn zeta. eapply Forall_impl; [exact metrics_additive|]. intros [[summary get] amount] [Hadd Hs].
  destruct (tally_totals get amount structs Hadd) as (Ha & Hv & Hc). cbn [SummarizeAPI Aggregate Services ScopeBreakdown].
  by rewrite Hs, (services_total summary get), (scopes_total summary get), Ha, Hv, Hc.
Qed.

(** ** The summary of the coverage report *)

(** The fields of the payload that a mapping refers to. *)
Definition mapped_fields (sdkIndex : gmap string SDKStruct) (mapping : SDKMapping) : nat :=
  if m_Exclude mapping then 0 else match sdkIndex !! m_SDKStruct mapping with Some sdkStruct => length (ss_Fields sdkStruct) | None => 0 end.

(** The fields a summary counts of a report. *)
Definition counted_fields (r : APIStruct) : nat :=
  if included r then when_tracked (fun r => length (as_PresentFields r)) r + when_tracked (fun r => length (as_MissingFields r)) r else 0.

Lemma aggregate_sum summary get amount structs topN :
  (summary, get, amount) ∈ metrics -> summary (Aggregate (SummarizeAPI structs topN)) = sum_list_with amount (filter (fun r => included r = true) structs).
Proof.
  intros Hin. destruct (proj1 (Forall_forall _ _) metrics_additive _ Hin) as [Hadd Hs].
  destruct (tally_totals get amount structs Hadd) as (Ha & _ & _). cbn [SummarizeAPI Aggregate]. by rewrite Hs, Ha.
Qed.

Lemma counted_sum structs :
  sum_list_with (when_tracked (fun r => length (as_PresentFields r))) (filter (fun r => included r = true) structs) +
  sum_list_with (when_tracked (fun r => length (as_MissingFields r))) (filter (fun r => included r = true) structs) = sum_list_with counted_fields structs.
Proof.
  induction structs as [|r structs IH]; [done|]. rewrite filter_cons. cbn [sum_list_with]. rewrite <- IH. unfold counted_fields.
  destruct (included r); case_decide; try done; cbn [sum_list_with]; lia.
Qed.

Lemma tracked_counted allow service spec sdkStruct s apiSurface :
  apiSurface <> apiSurfaceExcluded -> counted_fields (tracked_report allow service spec sdkStruct s apiSurface) = length (ss_Fields sdkStruct).
Proof.
  intros Hne. unfold counted_fields, included, when_tracked. cbn [tracked_report as_APISurface as_TrackingStatus as_PresentFields as_MissingFields].
  apply String.eqb_neq in Hne. unfold apiSurfaceExcluded in Hne. rewrite Hne. cbn [negb].
  change (TrackingStatusTracked =? TrackingStatusUntracked)%string with false. cbn iota.
  rewrite !sort_by_perm, !length_fmap, <- length_app. by rewrite filter_app_complement.
Qed.

Lemma mapping_counted sdkIndex allow service target specFields statusFields mapping :
  counted_fields (mapping_report sdkIndex allow service target specFields statusFields mapping) = mapped_fields sdkIndex mapping.
Proof.
  assert (Hsel : forall s, snd (selectAPIFieldsForSDKStruct mapping s specFields statusFields) <> apiSurfaceExcluded).
  { intros s. unfold selectAPIFieldsForSDKStruct. by repeat case_match. }
  unfold mapping_report, mapped_fields. destruct (m_Exclude mapping); [done|]. destruct (sdkIndex !! m_SDKStruct mapping) as [s|].
  - specialize (Hsel s). destruct (selectAPIFieldsForSDKStruct _ _ _ _). by apply tracked_counted.
  - unfold counted_fields, when_tracked. by destruct (included _).
Qed.

Lemma target_counted sdkIndex allow target :
  sum_list_with counted_fields (target_reports sdkIndex allow target) = sum_list_with (mapped_fields sdkIndex) (t_SDKMappings target).
Proof.
  unfold target_reports. destruct (t_SDKMappings target) as [|first rest] eqn:E.
  - change (responseBodyCoverageForTarget (t_Name target)) with (@None responseBodyCoverage). cbn. unfold counted_fields, when_tracked. cbn.
    by destruct (included _).
  - rewrite sum_list_with_fmap. apply sum_list_with_ext. intros mapping. apply mapping_counted.
Qed.

(** No field is lost between the SDK and the metrics: in the summary of a coverage report, the present and the missing fields together
    are as many as the fields of all payloads that a mapping of the registry refers to, excluded mappings aside. *)
Theorem coverage_metrics_account targets sdkStructs allow topN :
  let aggregate := Aggregate (SummarizeAPI (BuildAPIReport targets sdkStructs allow) topN) in
  ag_PresentFields aggregate + ag_MissingFields aggregate =
    sum_list_with (fun target => sum_list_with (mapped_fields (last_by QualifiedName sdkStructs)) (t_SDKMappings target)) targets.
Proof.
  cbn zeta. rewrite (aggregate_sum ag_PresentFields presentFields (when_tracked (fun r => length (as_PresentFields r)))) by (do 3 right; left).
  rewrite (aggregate_sum ag_MissingFields missingFields (when_tracked (fun r => length (as_MissingFields r)))) by (do 4 right; left).
  rewrite counted_sum. unfold BuildAPIReport. rewrite merge_sort_Permutation. induction targets as [|target targets IH]; [done|].
  rewrite fmap_cons. change (mjoin (?x :: ?l)) with (x ++ mjoin l). rewrite sum_list_with_app, IH, target_counted. done.
Qed.

(** ** The comparison with a baseline *)

Definition same_size (baseline current : AggregateSummary) : Prop := ag_Specs current = ag_Specs baseline /\ ag_Mappings current = ag_Mappings baseline.

Definition not_worse (baseline current : AggregateSummary) : Prop :=
  ag_TrackedMappings baseline <= ag_TrackedMappings current /\ ag_UntrackedMappings current <= ag_UntrackedMappings baseline /\
  ag_PresentFields baseline <= ag_PresentFields current /\ ag_MissingFields current <= ag_MissingFields baseline /\
  ag_MandatoryPresentFields baseline <= ag_MandatoryPresentFields current /\ ag_MandatoryMissingFields current <= ag_MandatoryMissingFields baseline /\
  ag_ExtraSpecFields current <= ag_ExtraSpecFields baseline /\
  Qle (Qminus (ag_OverallCoveragePercent baseline) epsilon) (ag_OverallCoveragePercent current) /\
  Qle (Qminus (ag_MandatoryCoveragePercent baseline) epsilon) (ag_MandatoryCoveragePercent current).

Lemma message_nil test text : message test text = [] <-> test = false.
Proof. by destruct test. Qed.

Lemma regressions_none scope baseline current : appendMetricRegressions scope baseline current = [] <-> not_worse baseline current.
Proof.
  unfold appendMetricRegressions, not_worse, lessFloat. cbn zeta. rewrite !app_nil, !message_nil, !Nat.ltb_ge, !negb_false_iff, !Qle_bool_iff. done.
Qed.

Lemma scope_changes_none scope baseline current : scope_changes scope baseline current = [] <-> same_size baseline current.
Proof. unfold scope_changes, same_size. rewrite !app_nil, !message_nil, !negb_false_iff, !Nat.eqb_eq. done. Qed.

Lemma sort_nil {A} (key : A -> string) l : sort_by key l = [] <-> l = [].
Proof. split; intros H; [apply Permutation_nil; by rewrite <- (sort_by_perm key l), H|by rewrite H]. Qed.

Lemma no_failures c : HasFailures c = false <-> ScopeChanges c = [] /\ Regressions c = [].
Proof. unfold HasFailures. destruct (ScopeChanges c), (Regressions c); cbn; naive_solver. Qed.

Lemma service_names services name : name ∈ sortedServiceNames services <-> is_Some (services !! name).
Proof.
  unfold sortedServiceNames. rewrite sort_by_perm, list_elem_of_fmap. split.
  - intros ([k v] & -> & Hin%elem_of_map_to_list). eauto.
  - intros [v Hv]. exists (name, v). split; [done|]. by apply elem_of_map_to_list.
Qed.

Lemma difference_none left right : difference_ left right = [] <-> forall name, name ∈ left -> name ∈ right.
Proof.
  unfold difference_. split.
  - intros H name Hl. apply dec_stable. intros Hr. apply (not_elem_of_nil (A := string) name). rewrite <- H. by apply list_elem_of_filter.
  - intros H. apply list_filter_none. apply Forall_forall. intros name Hl. naive_solver.
Qed.

Lemma shared_none (f : string -> list string) names : mjoin (f <$> names) = [] <-> forall name, name ∈ names -> f name = [].
Proof. rewrite join_nil, Forall_fmap, Forall_forall. done. Qed.

Lemma epsilon_slack q : Qle (Qminus q epsilon) q.
Proof. unfold Qle, Qminus, Qopp, epsilon, Qplus. cbn. nia. Qed.

Lemma not_worse_refl s : not_worse s s.
Proof. unfold not_worse. repeat split; try lia; apply epsilon_slack. Qed.

Lemma compare_exact current baseline :
  HasFailures (CompareSummary current baseline) = false <->
  same_size (b_Aggregate baseline) (Aggregate current) /\ not_worse (b_Aggregate baseline) (Aggregate current) /\
  let currentServices := last_by sv_Service (Services current) in
  let baselineServices := last_by sv_Service (b_Services baseline) in
  (forall name, is_Some (currentServices !! name) <-> is_Some (baselineServices !! name)) /\
  (forall name before now, baselineServices !! name = Some before -> currentServices !! name = Some now ->
     same_size (sv_Summary before) (sv_Summary now) /\ not_worse (sv_Summary before) (sv_Summary now)).
Proof.
  rewrite no_failures. unfold CompareSummary. cbn zeta. cbn [ScopeChanges Regressions]. rewrite !sort_nil, !app_nil, !shared_none.
  rewrite scope_changes_none, regressions_none. unfold intersection_, service_in. setoid_rewrite list_elem_of_filter.
  setoid_rewrite scope_changes_none. setoid_rewrite regressions_none. setoid_rewrite service_names.
  set (cs := last_by sv_Service (Services current)). set (bs := last_by sv_Service (b_Services baseline)). split.
  - intros [(Hs & Hm & Hn & Hss) [Hw Hww]]. apply fmap_nil_inv in Hm, Hn. rewrite difference_none in Hm, Hn. setoid_rewrite service_names in Hm.
    setoid_rewrite service_names in Hn. split; [done|]. split; [done|]. split; [split; auto|]. intros name before now Hb Hc.
    specialize (Hss name). specialize (Hww name). rewrite Hb, Hc in Hss, Hww. split; [apply Hss|apply Hww]; eauto.
  - intros (Hs & Hw & Hd & Hall). split; [split_and!|split]; try done.
    + rewrite (proj2 (difference_none _ _)); [done|]. intros name. rewrite !service_names. apply Hd.
    + rewrite (proj2 (difference_none _ _)); [done|]. intros name. rewrite !service_names. apply Hd.
    + intros name [[before Hb] [now Hc]]. rewrite Hb, Hc. by destruct (Hall name before now).
    + intros name [[before Hb] [now Hc]]. rewrite Hb, Hc. by destruct (Hall name before now).
Qed.

(** The comparison with a baseline fails exactly on regressions: it passes exactly when the sizes of the aggregate are unchanged, no
    metric of it is worse, the services are the same ones, and the same holds for each of them; so a summary passes against the
    baseline written from it. *)
Theorem metrics_gate_exact current baseline :
  (HasFailures (CompareSummary current baseline) = false <->
   same_size (b_Aggregate baseline) (Aggregate current) /\ not_worse (b_Aggregate baseline) (Aggregate current) /\
   let currentServices := last_by sv_Service (Services current) in
   let baselineServices := last_by sv_Service (b_Services baseline) in
   (forall name, is_Some (currentServices !! name) <-> is_Some (baselineServices !! name)) /\
   (forall name before now, baselineServices !! name = Some before -> currentServices !! name = Some now ->
      same_size (sv_Summary before) (sv_Summary now) /\ not_worse (sv_Summary before) (sv_Summary now))) /\
  HasFailures (CompareSummary current (BaselineFromSummary current)) = false.
Proof.
  split; [apply compare_exact|]. apply compare_exact. cbn [BaselineFromSummary b_Aggregate b_Services]. split; [done|]. split; [apply not_worse_refl|]. split; [done|].
  intros name before now Hb Hc. rewrite Hb in Hc. injection Hc as <-. by split; [|apply not_worse_refl].
Qed.
